(* ===== verification/_CoqProject ===== *)
-Q . S2P
Prelude.v
JsString.v
JsNumber.v
JsValue.v
Effects.v
View.v
Collate.v
Api.v
Url.v
Utils.v
Slots.v
GoShard.v
GoCluster.v
GoJson.v
GoEngine.v
GoStore.v
GoFaults.v
GoEngines.v
GoController.v
GoTopology.v
GoProgress.v
GoSync.v
GoServer.v
GoRaft.v
GoRaftApi.v
GoLeader.v
GoClient.v
EndToEnd.v
MigrationDialog.v
FailoverDialog.v
FormDialog.v
FormCreation.v
NamespacesPage.v
NamespacePage.v
ClusterPage.v
ShardPage.v
NodePage.v
SidebarItem.v
Sidebar.v
Navigation.v
Theme.v
Styling.v
PagesEndToEnd.v
ClusterEndToEnd.v
NamespaceEndToEnd.v
NodeEndToEnd.v
ShardEndToEnd.v
Options.v
SlotTable.v
GoElect.v
GoStart.v
Landing.v
Site.v
