(* ===== verification/Prelude.v ===== *)
(** * A verification of kvrocks-controller

    kvrocks-controller manages clusters of the kvrocks key-value store.  Its web
    UI (TypeScript and React, webui/src/app/) lists and edits namespaces, clusters,
    shards and nodes through a REST interface; its server (Go, server/) answers it
    from a store (store/) that several engines can hold, and a controller
    (controller/) probes the nodes, replaces failed masters and completes
    migrations; a command line client (cmd/client/) offers the same as the web UI.
    This development models the web UI as a whole and, behind it, the server from
    the routes down to the storage engines and their elections, the controller, the
    raft engine, the start of the process and the command line client.

    ** Program and model

    The language:
    - [Prelude]: notations, tactics, the hint database [kvc], lemmas on lists,
      stable sorting ([Array.prototype.sort]).
    - [JsString], [JsNumber], [JsValue]: the string, number and value operations
      the sources use (trim, split, includes, parseInt, Number, property access,
      truthiness, strict equality, comparison, JSON).  Strings are sequences of
      code units below 256 (the bullets and crosses of the views are written in
      ASCII); numbers are NaN, the infinities and rationals, so
      rounding beyond 2^53 is not modelled.
    - [Collate]: sorting with a comparator and localeCompare.  The collation of
      the browser is the class [Collation] (what ECMAScript asks of it); theorems
      hold for every instance, and the order of code units is one.
    - [Effects]: an asynchronous handler is a program [prog S A] that awaits
      requests, updates the state of its component, asks for confirmation and emits
      outputs.  [run] executes it against a server, [wp] is its weakest
      precondition over all answers, [exec] and [eval] its result against a server
      that answers by a function, [settle] the part up to the next await, the unit
      of atomicity of the event loop; [promise_all] runs tasks whose awaits and
      whose updates of a state they share interleave in the order of a schedule, and
      theorems quantify over all schedules; [locally] gives such tasks the variables
      of the function around them.
    - [View]: what a render returns (elements, texts, links, disabled and open
      flags, event handlers; no styling), components, and their reachable
      configurations: a user can only cause events the current view offers, and
      answers arrive in any order.

    The server (Go):
    - [Slots] models store/slot.go; [GoShard] the shard record, its JSON and the
      migration of slots; [GoCluster] the rest of store/cluster.go,
      store/cluster_shard.go and store/cluster_node.go: new and imported clusters,
      nodes, shards, promotion, and the reading of what the nodes reply.  Errors
      are a sum; a Go panic is the error [ErrPanic].
    - [GoJson] models the MarshalJSON and UnmarshalJSON functions of store/.
    - [GoEngine]: the interface of a storage engine is the class [Engine] with
      the laws [EngineLaws]; the in-memory engine (store/engine/engine_inmemory.go)
      and the data store of the raft engine (store/engine/raft/store.go) are
      instances.  It also has the keys of store/helper.go.
    - [GoStore] models store/store.go over any engine, with a map of maps as its
      abstract specification ([represents], [spec_op]).
    - [GoFaults] models store/store.go again with every error of the engine: the
      interface is [FEngine], calls are a state and error monad, and [FEngineLaws]
      says what a failing engine guarantees.  [GoEngines] models the data operations
      of the engines for etcd, consul, postgresql and zookeeper, whose services are
      classes with their documented behaviour as laws.
    - [GoController] models controller/cluster.go: probing, failure counts,
      failover, the takeover of a newer topology, the migration loop.
    - [GoServer] models server/api/, server/middleware/, server/helper/ and the
      routes of server/route.go, one definition per handler; [serve] is the whole
      server as the web UI sees it.
    - [GoTopology] has the invariant of clusters and its steps, [GoProgress] what
      the controller achieves.
    - [GoSync] models the commands sent to the nodes (store/cluster_node.go,
      store/cluster.go), the synchronization, and the ticks of the probe and
      migration loops of controller/cluster.go.
    - [GoLeader] models controller/controller.go: the table of cluster checkers and
      the goroutines that follow the leadership and the events, as steps of a
      process among others; each read of the leadership, each listing and each change
      of the table is a step of its own ([sync_phase], [cstep]); and the redirect of
      followers in server/middleware/middleware.go.
    - [GoElect] models the elections of the engines for etcd, zookeeper, consul and
      postgresql, and their [New], [IsReady] and [Close]: a step relation over the
      places where the goroutines of each engine wait.  What the controller relies
      on is the class [Elector] with the laws [ElectorLaws], which the four meet, as
      they do [AlertElector], that their goroutines do not block one another;
      [pstep] is a process of an engine and a controller, [world] several processes
      over one service.
    - [GoStart] models cmd/server/main.go, config/config.go, server/server.go,
      logger/logger.go, util/network.go, the life of the controller
      (controller/controller.go) and the counters of requests (metrics/setup.go,
      server/middleware/middleware.go).  [SlotTable] is the table of util/slot.go.
    - [GoRaft] models store/engine/raft/: configuration, start and replay,
      application of entries, snapshots, proposals and leadership.  The etcd raft
      library is outside: what it hands over and its errors are arguments.
      [GoRaftApi] models server/api/raft.go.
    - [GoClient] models cmd/client/: every command, its checks, its request and what
      it prints.

    The web UI (TypeScript):
    - [Api] models lib/api.ts, one definition per function; with the routes of
      server/route.go as a table.  [Url] has what lies between its addresses and the
      paths the server matches, the class [Transport]: an address carries names of
      plain characters unchanged, and lib/api.ts does not escape others.
    - [Utils] models utils.ts.
    - [FormDialog] models ui/formDialog.tsx; a form meets it through the class
      [Form], with the law [LawfulForm]; [FormCreation] models the six forms of
      ui/formCreation.tsx and proves them lawful.
    - [MigrationDialog] and [FailoverDialog] model ui/migrationDialog.tsx and
      ui/failoverDialog.tsx.
    - [NamespacesPage], [NamespacePage], [ClusterPage], [ShardPage] and
      [NodePage] model the pages namespaces/page.tsx, [namespace]/page.tsx,
      clusters/[cluster]/page.tsx, shards/[shard]/page.tsx and
      nodes/[node]/page.tsx, each in the folder of the one before.
    - [SidebarItem] and [Sidebar] model ui/sidebarItem.tsx and ui/sidebar.tsx,
      [Navigation] ui/breadcrumb.tsx and ui/nav-links.tsx, [Theme]
      theme-provider.tsx and ui/banner.tsx.
    - [Landing] models page.tsx, [Site] layout.tsx, not-found.tsx, ui/footer.tsx
      with webui/config.ts and lib/definitions.ts, ui/createCard.tsx,
      ui/emptyState.tsx and ui/loadingSpinner.tsx.
    - [Options] has the types of the options of the list pages, [Styling] the theme
      of the style sheets, webui/tailwind.config.ts.

    Each component file has the state as a record with its setters, the handlers
    in the order of the source, the events with [update], and the view.
    [EndToEnd] runs the client against [serve], [PagesEndToEnd],
    [NamespaceEndToEnd], [ClusterEndToEnd], [ShardEndToEnd] and [NodeEndToEnd] the
    pages of the namespaces, of a namespace, of a cluster, of a shard and of a node.

    ** What is shown

    - End to end, for names that addresses carry unchanged: a mutating call of the
      client returns the empty string exactly when the server has carried it out, and
      the store then is the one the call describes; a failover likewise; the pages of
      the namespaces, of a namespace, of a cluster, of a shard and of a node show
      exactly the store, the rows of a cluster with a right topology hold every slot
      once, and the page of a shard deletes the node of the row.
    - The server: every answer has the type of its route and a failure changes
      nothing; the store implements its abstract map over every lawful engine, and
      over one that fails it does so or reports an error with nothing changed or
      only the event missing, on etcd and consul too; no concurrent update is lost; a stored cluster is read back; in every cluster
      that can arise each slot has one owner and each shard one master; promotion
      and removal of nodes are exact.
    - The controller: a master that keeps failing is replaced at the configured
      number of failures; a round of the migration loop settles what is over; the
      nodes that are behind are sent a text that reads back as the topology; over any
      of the four external engines a process that is elected comes to watch every
      cluster, unless something happened behind its back or it was elected between
      two reads of the leadership (both are predicates of its state), and processes
      that are up to date agree on the leader, which every open one comes to name.
    - The start: the server serves exactly when its configuration is within bounds,
      the engine of its type of store could be made and became ready, and its address
      can be listened on, and its checkers probe as configured; every request is counted once; the table of slots is right, and
      its strings are the shortest.
    - The raft engine: through batches, snapshots, failed writes and restarts in any
      order the processes converge to the state of the committed log, but for the
      keys that never-committed entries of their logs and unsaved snapshots leave
      astray; a change of the peers is proposed exactly when it can be made.
    - The command line client: a regular command is refused or sends exactly the
      request it names, and reports what the server did; the three kinds of command
      lines that are not regular are among the defects.
    - The slot ranges: adding and removing are set operations, the initial
      distribution is a partition, a migration keeps one owner per slot.
    - The client: each call sends its one request, never throws, and reports
      success exactly when the server does; its paths match the server's routes.
    - The forms and dialogs: nothing unvalidated is sent, success and failure are
      reported as they are, and in every reachable state at most one request is in
      flight and the busy flag says so.
    - The validation against the server: slot inputs against the server's parser,
      the migration checks against the server's migration.
    - The pages: loading ends, only reads, leaves the loading state and shows
      consistent data, for every behaviour of the server and every order of
      answers; filters and sorting are exact and stable; deletions do what the
      answer says, or where they do not, a theorem says so.
    - Around the pages: a row of a sidebar deletes what its link opens, the links
      of the layout lead to pages (three of the footer do not), a chosen theme
      survives reloads, the terminal of the landing page types its script to the
      end and stays within it.
    - Defects: theorems that state where the code does not do what it means to:
      the migration flags of the namespace page, the check for a migrating slot,
      the target index 0, the ignored error and the lost update of the deletion of
      namespaces, the laxness of the slot input, the index orders and the links of
      the nodes of a shard, the repeated deletion of a sidebar item; on the server
      the update of a cluster that was created again, the takeover of an equal
      version, the target of a migration after the removal of a shard, the crash
      of the migration loop, the requests a follower carries out, the missed
      changes of the leader and the elections between two of its reads, the names
      that the client does not escape, the updates the raft engine loses, its replay of
      entries that were never committed and the peers it forgets; the dropped errors of
      the store, the wildcards of postgresql and the nodes zookeeper keeps; the engines that cannot
      be closed, the pause of etcd that is none, the panics and the ignored path of
      postgresql, the address of the environment that the file replaces, the
      checkers that outlive the controller; in the command
      line client the ignored option and the removal in capitals.

    ** Fuel and bounds

    The JSON parser has fuel twice the length of the text, more than its calls;
    the decimal printer has fuel for the bits of the number.  Loops of the sources
    run over lists; [count_up] and [loop_count] compute their number of rounds.
    Slots are within 0 and 16383.  Versions and times of the server are 64-bit:
    [wrap64] is the overflow of the version, and theorems that need the next
    version ask for one below 2^63 - 1.

    The steps of [GoLeader] and [GoRaft] are relations; the loops between two waits
    are functions.  The indices of raft are 64-bit ([uint64]); [IsReady] of the
    raft engine answers within ten ticks.

    The elections have no fuel: [pstep] and [cstep] are relations over all
    interleavings, and what a process comes to is shown by a run of its own steps.
    Durations are 64-bit nanoseconds; [served_checkers] gives the largest interval
    that fits.  The table of slots is checked by computation, over all its entries
    and all the strings of one and two characters.

    ** Not modelled

    Class names, inline styles and the transitions of elements, beyond the theme;
    React's scheduling below the level of events; the browser's own validation of
    required fields.  Of the server: the redirects of trailing slashes, pprof, the
    encoders of the log, the registration of the counters, and the exact texts of
    the decoders' errors; the handlers run over engines that do not fail
    ([GoFaults] has the store over engines that do).  The YAML decoder, the URL
    parsers of the browser and of net/http ([Transport]), the clients
    of the external services and the etcd raft library are not part of the
    repository: what they answer are parameters with documented laws, or left free.
    What the nodes reply is the parameter [Replies], and each request sees one set
    of replies.  The operations of the store are atomic, as its locks make them; the
    handlers that read and then write are not, which [no_lost_update] is about.  Of
    the command line client: the parsing of options and the layout of tables, which
    are libraries.  The raft engine does not meet [Elector]: it reads the leader
    from its library at any time and tells of changes at its ticks ([GoRaft],
    [raft_leadership]).  What is left of the files of the web UI are their imports
    and the declarations of properties. *)

From stdpp Require Export base strings list gmap.
From Stdlib Require Export Ascii ZArith QArith Lia Permutation Sorted.
#[global] Open Scope string_scope.
#[global] Open Scope list_scope.

#[global] Open Scope Z_scope.

(** Appending to a literal computes. *)
#[global] Arguments String.append !_ _ : simpl nomatch.
#[global] Arguments Ascii.eqb !_ !_ : simpl nomatch.

(** The double quote of the messages. *)
Definition dq : string := String "034"%char EmptyString.

(** ** Proof automation *)

Create HintDb kvc.
Create Rewrite HintDb kvc.

(** Splits every [if]/[match] of the goal on its scrutinee, keeping the equations. *)
Ltac split_match :=
  repeat match goal with
  | |- context [match ?x with _ => _ end] => destruct x eqn:?; simplify_eq/=
  end.

(** The same on the hypotheses. *)
Ltac split_hyps :=
  repeat match goal with
  | H : context [match ?x with _ => _ end] |- _ => destruct x eqn:?; simplify_eq/=
  end.

(** Turns boolean comparisons of [Z] into propositions. *)
Ltac zbool :=
  repeat match goal with
  | H : context [Z.leb ?a ?b] |- _ => destruct (Z.leb_spec a b); simplify_eq/=
  | H : context [Z.ltb ?a ?b] |- _ => destruct (Z.ltb_spec a b); simplify_eq/=
  | H : context [Z.eqb ?a ?b] |- _ => destruct (Z.eqb_spec a b); simplify_eq/=
  | |- context [Z.leb ?a ?b] => destruct (Z.leb_spec a b); simplify_eq/=
  | |- context [Z.ltb ?a ?b] => destruct (Z.ltb_spec a b); simplify_eq/=
  | |- context [Z.eqb ?a ?b] => destruct (Z.eqb_spec a b); simplify_eq/=
  end.

(** ** Lists *)

Definition sumZ (l : list Z) : Z := fold_right Z.add 0 l.

Definition countb {A} (p : A -> bool) (l : list A) : Z := Z.of_nat (length (List.filter p l)).

(** [Array.prototype.map] with the index argument. *)
Fixpoint mapi_from {A B} (i : nat) (f : nat -> A -> B) (l : list A) : list B :=
  match l with
  | [] => []
  | x :: l' => f i x :: mapi_from (S i) f l'
  end.
Definition mapi {A B} (f : nat -> A -> B) (l : list A) : list B := mapi_from 0 f l.

(** [Array.prototype.filter] with the index argument. *)
Fixpoint filteri_from {A} (i : nat) (p : nat -> A -> bool) (l : list A) : list A :=
  match l with
  | [] => []
  | x :: l' => if p i x then x :: filteri_from (S i) p l' else filteri_from (S i) p l'
  end.
Definition filteri {A} (p : nat -> A -> bool) (l : list A) : list A := filteri_from 0 p l.

Lemma sumZ_app l1 l2 : sumZ (l1 ++ l2) = sumZ l1 + sumZ l2.
Proof. induction l1; simpl; lia. Qed.

Lemma sumZ_perm l1 l2 : Permutation l1 l2 -> sumZ l1 = sumZ l2.
Proof. induction 1; simpl; lia. Qed.

Lemma sumZ_nonneg l : Forall (fun z => 0 <= z) l -> 0 <= sumZ l.
Proof. induction 1; simpl; lia. Qed.

Lemma length_mapi_from {A B} i (f : nat -> A -> B) l : length (mapi_from i f l) = length l.
Proof. revert i; induction l; intros; simpl; auto. Qed.

Lemma length_mapi {A B} (f : nat -> A -> B) l : length (mapi f l) = length l.
Proof. apply length_mapi_from. Qed.

Lemma lookup_mapi_from {A B} i (f : nat -> A -> B) l j :
  mapi_from i f l !! j = f (i + j)%nat <$> l !! j.
Proof.
  revert i j; induction l as [|x l IH]; intros i j; [done|].
  destruct j as [|j]; simpl; [by rewrite Nat.add_0_r|].
  rewrite IH. by rewrite Nat.add_succ_r.
Qed.

Lemma lookup_mapi {A B} (f : nat -> A -> B) l j : mapi f l !! j = f j <$> l !! j.
Proof. apply lookup_mapi_from. Qed.

Lemma filteri_from_sublist {A} i (p : nat -> A -> bool) l : filteri_from i p l `sublist_of` l.
Proof.
  revert i; induction l as [|x l IH]; intros i; simpl; [constructor|].
  destruct (p i x); constructor; auto.
Qed.

Lemma filteri_from_all {A} i (p : nat -> A -> bool) l :
  (forall j x, p j x = true) -> filteri_from i p l = l.
Proof. intros Hp. revert i; induction l as [|x l IH]; intros i; simpl; [done|]. by rewrite Hp, IH. Qed.

Lemma length_filter_le {A} (p : A -> bool) l : (length (List.filter p l) <= length l)%nat.
Proof. induction l; simpl; [lia|]. destruct (p a); simpl; lia. Qed.

(** A predicate and its negation split a list. *)
Lemma countb_negb {A} (p : A -> bool) l :
  countb p l + countb (fun x => negb (p x)) l = Z.of_nat (length l).
Proof. unfold countb. induction l as [|x l IH]; simpl; [lia|]. destruct (p x); simpl; lia. Qed.

Lemma countb_le {A} (p : A -> bool) l : 0 <= countb p l <= Z.of_nat (length l).
Proof. unfold countb. pose proof (length_filter_le p l). lia. Qed.

Lemma countb_ext {A} (p q : A -> bool) l :
  (forall x, p x = q x) -> countb p l = countb q l.
Proof.
  intros H. unfold countb. f_equal. induction l as [|x l IH]; simpl; [done|].
  rewrite H. destruct (q x); simpl; congruence.
Qed.

Lemma StronglySorted_impl {A} (R R' : A -> A -> Prop) l :
  (forall a b, R a b -> R' a b) -> StronglySorted R l -> StronglySorted R' l.
Proof.
  intros HR. induction 1 as [|x l _ IH Hx]; constructor; [done|].
  eapply Forall_impl; [exact Hx|]. intros; by apply HR.
Qed.

(** ** [Array.prototype.sort]

    ES2019 makes the sort stable; for a consistent comparator the result is
    the unique stable sorted permutation, which insertion sort computes. *)
Section Sort.
Context {A : Type} (leb : A -> A -> bool).

Fixpoint insert_sorted (x : A) (l : list A) : list A :=
  match l with
  | [] => [x]
  | y :: l' => if leb x y then x :: y :: l' else y :: insert_sorted x l'
  end.

Definition stable_sort (l : list A) : list A := fold_right insert_sorted [] l.

Lemma insert_sorted_perm x l : Permutation (insert_sorted x l) (x :: l).
Proof.
  induction l as [|y l IH]; simpl; [done|].
  destruct (leb x y); [done|]. rewrite IH. apply perm_swap.
Qed.

Lemma stable_sort_perm l : Permutation (stable_sort l) l.
Proof. induction l as [|x l IH]; simpl; [done|]. by rewrite insert_sorted_perm, IH. Qed.

Lemma length_stable_sort l : length (stable_sort l) = length l.
Proof. apply Permutation_length, stable_sort_perm. Qed.

(** A comparator that never asks for an exchange leaves the array as it is. *)
Lemma stable_sort_const l : (forall x y, leb x y = true) -> stable_sort l = l.
Proof.
  intros H. induction l as [|x l IH]; simpl; [done|]. rewrite IH.
  destruct l; simpl; [done|]. by rewrite H.
Qed.

Context (leb_total : forall x y, leb x y = true \/ leb y x = true).
Context (leb_trans : forall x y z, leb x y = true -> leb y z = true -> leb x z = true).
Let le x y := leb x y = true.

Lemma insert_sorted_sorted x l :
  StronglySorted le l -> StronglySorted le (insert_sorted x l).
Proof using leb_total leb_trans.
  induction 1 as [|y l Hs IH Hall]; simpl; [by repeat constructor|].
  destruct (leb x y) eqn:E.
  - constructor; [by constructor|]. constructor; [done|].
    eapply Forall_impl; [exact Hall|]. intros z Hz. by eapply leb_trans.
  - constructor; [done|].
    rewrite (insert_sorted_perm x l). constructor; [|done].
    unfold le. destruct (leb_total x y); congruence.
Qed.

Lemma stable_sort_sorted l : StronglySorted le (stable_sort l).
Proof using leb_total leb_trans.
  induction l; simpl; [constructor|]. by apply insert_sorted_sorted.
Qed.

(** Elements the comparator does not tell apart keep their order. *)
Lemma insert_sorted_stable (p : A -> bool) x l :
  (forall a b, p a = true -> p b = true -> leb a b = true) ->
  List.filter p (insert_sorted x l) = List.filter p (x :: l).
Proof.
  intros Hp. induction l as [|y l IH]; simpl; [done|].
  destruct (leb x y) eqn:E; [done|]. simpl. rewrite IH. simpl.
  destruct (p x) eqn:Ex, (p y) eqn:Ey; try done.
  rewrite (Hp x y) in E by done. discriminate.
Qed.

Lemma stable_sort_stable (p : A -> bool) l :
  (forall a b, p a = true -> p b = true -> leb a b = true) ->
  List.filter p (stable_sort l) = List.filter p l.
Proof.
  intros Hp. induction l as [|x l IH]; simpl; [done|].
  rewrite insert_sorted_stable by done. simpl. by rewrite IH.
Qed.
End Sort.

#[export] Hint Resolve stable_sort_perm filteri_from_sublist length_filter_le : kvc.
#[export] Hint Rewrite @length_stable_sort @length_mapi @length_mapi_from : kvc.

(** Filtering respects permutation. *)
#[export] Instance filter_Permutation {A} (p : A -> bool) : Proper (Permutation ==> Permutation) (List.filter p).
Proof.
  induction 1 as [|x l l' _ IH|x y l|l l' l'' _ IH1 _ IH2]; cbn; [done| | |by etrans].
  - by destruct (p x); rewrite IH.
  - destruct (p x), (p y); try done. apply perm_swap.
Qed.
