(* ===== verification/JsString.v ===== *)
(** * JavaScript strings

    The string operations of the language the sources use.  A string is a
    sequence of code units; the development represents the code units 0 to
    255 (Latin-1), on which every function below is the ECMAScript one. *)

From S2P Require Import Prelude.

(** The [\s] of a regular expression and the white space [trim] removes:
    tab, line feed, vertical tab, form feed, carriage return, space, no-break
    space (the members below U+0100). *)
Definition is_ws (c : ascii) : bool :=
  match nat_of_ascii c with
  | 9 | 10 | 11 | 12 | 13 | 32 | 160 => true
  | _ => false
  end%nat.

Definition is_digit (c : ascii) : bool :=
  let n := N_of_ascii c in ((48 <=? n) && (n <=? 57))%N.

(** Case mapping on Latin-1.  [toLowerCase] stays inside it; [toUpperCase]
    of one character leaves it for two letters (U+00B5 and U+00FF), which are
    kept as they are, and expands the sharp s. *)
Definition char_lower (c : ascii) : ascii :=
  let n := N_of_ascii c in
  if (((65 <=? n) && (n <=? 90)) || ((192 <=? n) && (n <=? 222) && negb (n =? 215)))%N
  then ascii_of_N (n + 32) else c.

Definition char_upper (c : ascii) : string :=
  let n := N_of_ascii c in
  if (n =? 223)%N then "SS"
  else if (((97 <=? n) && (n <=? 122)) || ((224 <=? n) && (n <=? 254) && negb (n =? 247)))%N
  then String (ascii_of_N (n - 32)) EmptyString else String c EmptyString.

Fixpoint toLowerCase (s : string) : string :=
  match s with
  | EmptyString => EmptyString
  | String c s' => String (char_lower c) (toLowerCase s')
  end.

(** [s.charAt(0).toUpperCase() + s.slice(1)] *)
Definition capitalize (s : string) : string :=
  match s with
  | EmptyString => EmptyString
  | String c s' => char_upper c +:+ s'
  end.

Definition startsWith (s p : string) : bool := String.prefix p s.

(** [s.includes(needle)] *)
Fixpoint includes (s needle : string) : bool :=
  String.prefix needle s ||
  match s with
  | EmptyString => false
  | String _ s' => includes s' needle
  end.

Fixpoint any_char (p : ascii -> bool) (s : string) : bool :=
  match s with
  | EmptyString => false
  | String c s' => p c || any_char p s'
  end.

Fixpoint all_chars (p : ascii -> bool) (s : string) : bool :=
  match s with
  | EmptyString => true
  | String c s' => p c && all_chars p s'
  end.

(** [s.split(c)] for a separator of one character. *)
Fixpoint split (c : ascii) (s : string) : list string :=
  match s with
  | EmptyString => [EmptyString]
  | String d s' =>
      if Ascii.eqb c d then EmptyString :: split c s'
      else match split c s' with
           | p :: ps => String d p :: ps
           | [] => [String d EmptyString]
           end
  end.

(** [l.join(sep)] *)
Fixpoint join (sep : string) (l : list string) : string :=
  match l with
  | [] => ""
  | [s] => s
  | s :: l' => s +:+ sep +:+ join sep l'
  end.

Fixpoint trimStart (s : string) : string :=
  match s with
  | String c s' => if is_ws c then trimStart s' else s
  | EmptyString => EmptyString
  end.

Fixpoint trimEnd (s : string) : string :=
  match s with
  | EmptyString => EmptyString
  | String c s' =>
      match trimEnd s' with
      | EmptyString => if is_ws c then EmptyString else String c EmptyString
      | t => String c t
      end
  end.

Definition trim (s : string) : string := trimEnd (trimStart s).

(** ** Lemmas *)

Lemma append_nil_r s : s +:+ "" = s.
Proof. induction s; simpl; congruence. Qed.

Lemma append_assoc s1 s2 s3 : (s1 +:+ s2) +:+ s3 = s1 +:+ s2 +:+ s3.
Proof. induction s1; simpl; congruence. Qed.

Lemma length_append s1 s2 : String.length (s1 +:+ s2) = (String.length s1 + String.length s2)%nat.
Proof. induction s1; simpl; congruence. Qed.

Lemma append_inj_l p s t : p +:+ s = p +:+ t -> s = t.
Proof. induction p; simpl; intros; simplify_eq; auto. Qed.

Lemma any_char_append p s t : any_char p (s +:+ t) = any_char p s || any_char p t.
Proof. induction s; simpl; [done|]. by rewrite IHs, orb_assoc. Qed.

Lemma all_chars_append p s t : all_chars p (s +:+ t) = all_chars p s && all_chars p t.
Proof. induction s; simpl; [done|]. by rewrite IHs, andb_assoc. Qed.

Lemma all_chars_impl p q s :
  (forall c, p c = true -> q c = true) -> all_chars p s = true -> all_chars q s = true.
Proof.
  intros H. induction s as [|c s IH]; simpl; [done|].
  intros [Hc Hs]%andb_prop. rewrite H, IH; done.
Qed.

Lemma all_chars_not_any p q s :
  (forall c, p c = true -> q c = false) -> all_chars p s = true -> any_char q s = false.
Proof.
  intros H. induction s as [|c s IH]; simpl; [done|].
  intros [Hc Hs]%andb_prop. rewrite H, IH; done.
Qed.

Lemma prefix_nil s : String.prefix "" s = true.
Proof. by destruct s. Qed.

Lemma includes_nil s : includes s "" = true.
Proof. destruct s; simpl; done. Qed.

(** [includes] with a one-character needle looks for that character. *)
Lemma includes_char s c : includes s (String c "") = any_char (Ascii.eqb c) s.
Proof.
  induction s as [|d s IH]; simpl; [done|]. rewrite IH. f_equal.
  destruct (ascii_dec c d) as [->|Hne].
  - rewrite prefix_nil. by rewrite Ascii.eqb_refl.
  - symmetry. by apply Ascii.eqb_neq.
Qed.

Lemma prefix_append p s : String.prefix p (p +:+ s) = true.
Proof. induction p as [|c p IH]; simpl; [by destruct s|]. destruct (ascii_dec c c); done. Qed.

Lemma includes_append_r s t n : includes t n = true -> includes (s +:+ t) n = true.
Proof. intros H. induction s; simpl; [done|]. rewrite IHs. apply orb_true_r. Qed.

(** ** Splitting *)

Lemma split_cons c s : exists p ps, split c s = p :: ps.
Proof.
  induction s as [|d s (p & ps & IH)]; simpl; [eauto|].
  destruct (Ascii.eqb c d); [eauto|]. rewrite IH. eauto.
Qed.

(** A string without the separator is its own only part. *)
Lemma split_append c p t : split c (p +:+ String c t) = split c p ++ split c t.
Proof.
  induction p as [|x p IH]; simpl.
  - by rewrite Ascii.eqb_refl.
  - destruct (Ascii.eqb c x); [by rewrite IH|]. rewrite IH.
    destruct (split_cons c p) as (q & qs & ->). done.
Qed.

Lemma split_none c s : any_char (Ascii.eqb c) s = false -> split c s = [s].
Proof.
  induction s as [|d s IH]; simpl; [done|].
  intros [Hd Hs]%orb_false_elim. rewrite Hd, IH; done.
Qed.

Lemma split_app c s t :
  any_char (Ascii.eqb c) s = false ->
  split c (s +:+ String c t) = s :: split c t.
Proof.
  induction s as [|d s IH]; simpl.
  - intros _. by rewrite Ascii.eqb_refl.
  - intros [Hd Hs]%orb_false_elim. rewrite Hd, IH; done.
Qed.

(** Joining the parts of a string gives the string back. *)
Lemma join_split c s : join (String c "") (split c s) = s.
Proof.
  induction s as [|d s IH]; simpl; [done|].
  destruct (split_cons c s) as (p & ps & E). rewrite E in *.
  destruct (Ascii.eqb_spec c d) as [->|Hne]; simpl in *.
  - by rewrite IH.
  - destruct ps; simpl in *; by rewrite <- IH.
Qed.

(** Splitting a join gives the parts back when no part has the separator. *)
Lemma split_join c l :
  l <> [] -> Forall (fun s => any_char (Ascii.eqb c) s = false) l ->
  split c (join (String c "") l) = l.
Proof.
  intros Hne Hl. induction Hl as [|s l Hs Hl IH]; [done|].
  destruct l as [|t l]; simpl; [by apply split_none|].
  change (join (String c "") (t :: l)) with (join (String c "") (t :: l)) in *.
  rewrite (split_app c s). f_equal. apply IH. done. done.
Qed.

(** ** White space *)

Lemma trimStart_no_ws s : any_char is_ws s = false -> trimStart s = s.
Proof. destruct s as [|c s]; simpl; [done|]. intros [Hc _]%orb_false_elim. by rewrite Hc. Qed.

Lemma trimEnd_no_ws s : any_char is_ws s = false -> trimEnd s = s.
Proof.
  induction s as [|c s IH]; simpl; [done|]. intros [Hc Hs]%orb_false_elim.
  rewrite IH by done. destruct s; [by rewrite Hc|done].
Qed.

Lemma trim_no_ws s : any_char is_ws s = false -> trim s = s.
Proof. intros H. unfold trim. rewrite trimStart_no_ws by done. by apply trimEnd_no_ws. Qed.

Lemma digit_not_ws c : is_digit c = true -> is_ws c = false.
Proof. destruct c as [[] [] [] [] [] [] [] []]; done. Qed.

Lemma all_digits_no_ws s : all_chars is_digit s = true -> any_char is_ws s = false.
Proof. apply all_chars_not_any, digit_not_ws. Qed.

#[export] Hint Rewrite append_nil_r append_assoc length_append any_char_append : kvc.
#[export] Hint Resolve trim_no_ws all_digits_no_ws digit_not_ws : kvc.

Lemma length_substring0 n s :
  (n <= String.length s)%nat -> String.length (String.substring 0 n s) = n.
Proof.
  revert n. induction s as [|c s IH]; intros [|n]; simpl; intros; try lia; try done.
  f_equal. apply IH. lia.
Qed.
