(* ===== verification/JsNumber.v ===== *)
(** * JavaScript numbers

    A number is NaN, an infinity or a finite value; a finite value is kept as
    the rational it denotes.  The sources add, subtract and compare counts,
    indices, slot numbers and timestamps, all far below 2^53, where the
    arithmetic of doubles is exact; rounding above it is not represented. *)

From S2P Require Import Prelude JsString.

Inductive number := NaN | Inf (neg : bool) | Fin (q : Q).

Definition num (z : Z) : number := Fin (inject_Z z).
Definition num_nat (n : nat) : number := num (Z.of_nat n).

Definition isNaN (n : number) : bool := match n with NaN => true | _ => false end.

(** The relational operators on two numbers; every comparison with NaN fails. *)
Definition num_lt (a b : number) : bool :=
  match a, b with
  | NaN, _ | _, NaN => false
  | Fin x, Fin y => negb (Qle_bool y x)
  | Inf true, Inf true | Inf false, Inf false => false
  | Inf true, _ => true
  | Inf false, _ => false
  | Fin _, Inf n => negb n
  end.

Definition num_eq (a b : number) : bool :=
  match a, b with
  | Fin x, Fin y => Qeq_bool x y
  | Inf m, Inf n => Bool.eqb m n
  | _, _ => false
  end.

Definition num_le (a b : number) : bool := num_lt a b || num_eq a b.

Definition num_neg (a : number) : number :=
  match a with NaN => NaN | Inf n => Inf (negb n) | Fin q => Fin (- q) end.

Definition num_add (a b : number) : number :=
  match a, b with
  | NaN, _ | _, NaN => NaN
  | Fin x, Fin y => Fin (x + y)
  | Inf m, Inf n => if Bool.eqb m n then Inf m else NaN
  | Inf m, Fin _ | Fin _, Inf m => Inf m
  end.

Definition num_sub (a b : number) : number := num_add a (num_neg b).

(** [a * z] for a positive literal [z] *)
Definition num_mul (a : number) (z : Z) : number :=
  match a with Fin q => Fin (q * inject_Z z) | _ => a end.

(** A number in a condition: zero and NaN are falsy. *)
Definition num_truthy (n : number) : bool :=
  match n with NaN => false | Inf _ => true | Fin q => negb (Qeq_bool q 0) end.

(** ** Decimal notation *)

Definition digit_char (n : N) : ascii := ascii_of_N (48 + n).
Definition digit_value (c : ascii) : Z := Z.of_N (N_of_ascii c) - 48.

Fixpoint N_digits (fuel : nat) (n : N) (acc : string) : string :=
  match fuel with
  | O => acc
  | S f =>
      let acc' := String (digit_char (n mod 10)) acc in
      if (n <? 10)%N then acc' else N_digits f (n / 10) acc'
  end.

(** One digit uses more than one bit, so the bit length is fuel enough. *)
Definition N_to_string (n : N) : string := N_digits (S (N.to_nat (N.log2 n))) n "".

Definition Z_to_string (z : Z) : string :=
  if z <? 0 then "-" +:+ N_to_string (Z.to_N (- z)) else N_to_string (Z.to_N z).

Definition nat_to_string (n : nat) : string := Z_to_string (Z.of_nat n).

(** The digits behind the decimal point of [r / d], as long as there are any;
    [fuel] bounds them (a double has at most 1074 of them). *)
Fixpoint frac_digits (fuel : nat) (r d : Z) : string :=
  match fuel with
  | O => ""
  | S f => if r =? 0 then ""
           else String (digit_char (Z.to_N (10 * r / d))) (frac_digits f (10 * r mod d) d)
  end.

(** [String(n)], the exponent notation of numbers from 10^21 on apart. *)
Definition num_to_string (n : number) : string :=
  match n with
  | NaN => "NaN"
  | Inf neg => if neg then "-Infinity" else "Infinity"
  | Fin q =>
      let (p, d) := Qred q in
      let a := Z.abs p in
      (if p <? 0 then "-" else "") +:+ Z_to_string (a / Zpos d) +:+
      (if a mod Zpos d =? 0 then "" else "." +:+ frac_digits 1074 (a mod Zpos d) (Zpos d))
  end.

Fixpoint digits_val (acc : Z) (s : string) : Z :=
  match s with
  | EmptyString => acc
  | String c s' => digits_val (10 * acc + digit_value c) s'
  end.

(** The longest prefix of characters satisfying [p], and the rest. *)
Fixpoint span (p : ascii -> bool) (s : string) : string * string :=
  match s with
  | String c s' => if p c then let (a, b) := span p s' in (String c a, b) else ("", s)
  | EmptyString => ("", "")
  end.

Definition hex_value (c : ascii) : option Z :=
  let n := Z.of_N (N_of_ascii c) in
  if (48 <=? n) && (n <=? 57) then Some (n - 48)
  else if (97 <=? n) && (n <=? 102) then Some (n - 87)
  else if (65 <=? n) && (n <=? 70) then Some (n - 55) else None.

Definition is_hex (c : ascii) : bool := bool_decide (is_Some (hex_value c)).

Fixpoint radix_val (radix acc : Z) (s : string) : Z :=
  match s with
  | EmptyString => acc
  | String c s' => radix_val radix (radix * acc + default 0 (hex_value c)) s'
  end.

(** A sign, if there is one. *)
Definition strip_sign (s : string) : bool * string :=
  match s with
  | String "-" s' => (true, s')
  | String "+" s' => (false, s')
  | _ => (false, s)
  end.

Definition signed (neg : bool) (z : Z) : Z := if neg then - z else z.

(** [parseInt(s)] with no radix: white space, a sign, the longest run of
    digits (hexadecimal ones behind 0x); [None] is NaN. *)
Definition parseInt (s : string) : option Z :=
  let (neg, t) := strip_sign (trimStart s) in
  match t with
  | String "0" (String ("x" | "X") u) =>
      match fst (span is_hex u) with
      | EmptyString => None
      | d => Some (signed neg (radix_val 16 0 d))
      end
  | _ =>
      match fst (span is_digit t) with
      | EmptyString => None
      | d => Some (signed neg (digits_val 0 d))
      end
  end.

Definition num_of_option (o : option Z) : number :=
  match o with Some z => num z | None => NaN end.

(** [m * 10^e] *)
Definition scale10 (m e : Z) : Q :=
  if 0 <=? e then inject_Z (m * 10 ^ e) else m # Z.to_pos (10 ^ (- e)).

(** The exponent part of a decimal literal: nothing, or e, a sign, digits. *)
Definition parse_exponent (s : string) : option Z :=
  match s with
  | EmptyString => Some 0
  | String ("e" | "E") t =>
      let (neg, u) := strip_sign t in
      match u with
      | EmptyString => None
      | _ => if all_chars is_digit u then Some (signed neg (digits_val 0 u)) else None
      end
  | _ => None
  end.

(** StrUnsignedDecimalLiteral: digits with an optional fraction and exponent. *)
Definition parse_decimal (s : string) : option Q :=
  let (ip, r) := span is_digit s in
  let (fp, r') := match r with
                  | String "." t => span is_digit t
                  | _ => ("", r)
                  end in
  match ip +:+ fp with
  | EmptyString => None
  | d => e ← parse_exponent r';
         Some (scale10 (digits_val 0 d) (e - Z.of_nat (String.length fp)))
  end.

Definition prefixed (p : ascii -> bool) (radix : Z) (s : string) : number :=
  match s with
  | EmptyString => NaN
  | _ => if all_chars p s then num (radix_val radix 0 s) else NaN
  end.

Definition is_octal (c : ascii) : bool := is_digit c && (digit_value c <? 8).
Definition is_binary (c : ascii) : bool := is_digit c && (digit_value c <? 2).

(** [Number(s)] on a string (StringToNumber). *)
Definition Number (s : string) : number :=
  match trim s with
  | EmptyString => num 0
  | String "0" (String ("x" | "X") u) => prefixed is_hex 16 u
  | String "0" (String ("o" | "O") u) => prefixed is_octal 8 u
  | String "0" (String ("b" | "B") u) => prefixed is_binary 2 u
  | t =>
      let (neg, u) := strip_sign t in
      if String.eqb u "Infinity" then Inf neg
      else match parse_decimal u with
           | Some q => Fin (if neg then - q else q)%Q
           | None => NaN
           end
  end.

(** ** Lemmas *)

Lemma num_le_Z a b : num_le (num a) (num b) = (a <=? b).
Proof.
  unfold num_le, num_lt, num_eq, num, Qle_bool, Qeq_bool. simpl. rewrite !Z.mul_1_r.
  lia.
Qed.

Lemma num_lt_Z a b : num_lt (num a) (num b) = (a <? b).
Proof.
  unfold num_lt, num, Qle_bool. simpl. rewrite !Z.mul_1_r.
  lia.
Qed.

Lemma num_eq_Z a b : num_eq (num a) (num b) = (a =? b).
Proof. unfold num_eq, num, Qeq_bool. simpl. by rewrite !Z.mul_1_r. Qed.

Lemma num_add_Z a b : num_add (num a) (num b) = num (a + b).
Proof. unfold num, num_add, inject_Z, Qplus. simpl. by rewrite !Z.mul_1_r. Qed.

Lemma num_truthy_Z a : num_truthy (num a) = negb (a =? 0).
Proof. unfold num_truthy, num, Qeq_bool. simpl. by rewrite Z.mul_1_r. Qed.

Lemma num_sub_Z a b : num_le (num_sub (num a) (num b)) (num 0) = (a <=? b).
Proof.
  assert (E : num_sub (num a) (num b) = num (a * 1 + - b * 1)) by done.
  rewrite E, num_le_Z. lia.
Qed.

Lemma digit_char_digit n : (n < 10)%N -> is_digit (digit_char n) = true.
Proof.
  intros H. unfold is_digit, digit_char. rewrite N_ascii_embedding by lia.
  apply andb_true_intro. rewrite !N.leb_le. lia.
Qed.

Lemma digit_char_value n : (n < 10)%N -> digit_value (digit_char n) = Z.of_N n.
Proof. intros H. unfold digit_value, digit_char. rewrite N_ascii_embedding by lia. lia. Qed.

Lemma N_digits_digits f n acc :
  all_chars is_digit acc = true -> all_chars is_digit (N_digits f n acc) = true.
Proof.
  revert n acc; induction f as [|f IH]; intros n acc H; simpl; [done|].
  assert (Hm : is_digit (digit_char (n mod 10)) = true) by (apply digit_char_digit, N.mod_lt; lia).
  destruct (n <? 10)%N; [|apply IH]; simpl; by rewrite Hm.
Qed.

Lemma N_to_string_digits n : all_chars is_digit (N_to_string n) = true.
Proof. by apply N_digits_digits. Qed.

Lemma N_digits_nonempty f n acc : acc <> "" -> N_digits f n acc <> "".
Proof.
  revert n acc; induction f as [|f IH]; intros n acc H; simpl; [done|].
  destruct (n <? 10)%N; [done|]. by apply IH.
Qed.

Lemma N_to_string_nonempty n : N_to_string n <> "".
Proof. unfold N_to_string. simpl. destruct (n <? 10)%N; [done|]. by apply N_digits_nonempty. Qed.

Lemma N_digits_val f n acc a :
  (n < 2 ^ N.of_nat f)%N ->
  exists k, 0 <= k /\ digits_val a (N_digits f n acc) = digits_val (a * 10 ^ k + Z.of_N n) acc.
Proof.
  revert n acc; induction f as [|f IH]; intros n acc Hn; simpl.
  - exists 0. split; [lia|]. f_equal. simpl in Hn. lia.
  - destruct (N.ltb_spec n 10) as [Hlt|Hge]; simpl.
    + exists 1. split; [lia|]. rewrite digit_char_value by (apply N.mod_lt; lia).
      rewrite N.mod_small by lia. f_equal. lia.
    + destruct (IH (n / 10)%N (String (digit_char (n mod 10)) acc)) as (k & Hk & E).
      { apply N.Div0.div_lt_upper_bound. rewrite Nat2N.inj_succ, N.pow_succ_r' in Hn. lia. }
      exists (k + 1). split; [lia|]. rewrite E. simpl. f_equal.
      rewrite digit_char_value by (apply N.mod_lt; lia).
      rewrite Z.pow_add_r by lia. rewrite N2Z.inj_div, N2Z.inj_mod.
      pose proof (Z.div_mod (Z.of_N n) 10). lia.
Qed.

(** Reading the decimal notation of a natural gives it back. *)
Lemma digits_val_N_to_string n : digits_val 0 (N_to_string n) = Z.of_N n.
Proof.
  unfold N_to_string.
  destruct (N_digits_val (S (N.to_nat (N.log2 n))) n "" 0) as (k & _ & ->).
  - rewrite Nat2N.inj_succ, N2Nat.id.
    destruct (N.eq_dec n 0) as [->|Hn]; [done|]. apply N.log2_spec. lia.
  - simpl. lia.
Qed.

Lemma span_all p s t :
  all_chars p s = true -> (match t with "" => True | String c _ => p c = false end) ->
  span p (s +:+ t) = (s, t).
Proof.
  intros Hs Ht. induction s as [|c s IH]; simpl in *.
  - destruct t as [|c t]; [done|]. simpl. by rewrite Ht.
  - apply andb_prop in Hs as [Hc Hs]. rewrite Hc, IH; done.
Qed.

Lemma span_digits s : all_chars is_digit s = true -> span is_digit s = (s, "").
Proof. intros H. rewrite <- (append_nil_r s) at 1. by apply span_all. Qed.

(** A run of decimal digits is not a sign nor a radix prefix. *)
Lemma digits_head s :
  all_chars is_digit s = true -> s <> "" ->
  strip_sign s = (false, s) /\ trimStart s = s /\
  forall c u, s = String c u -> (forall t, u <> String "x" t /\ u <> String "X" t /\
    u <> String "o" t /\ u <> String "O" t /\ u <> String "b" t /\ u <> String "B" t) /\
    c <> "I"%char /\ c <> "."%char.
Proof.
  intros Hd Hne. split; [|split].
  - destruct s as [|c s]; [done|]. simpl in Hd. apply andb_prop in Hd as [Hc _].
    destruct c as [[] [] [] [] [] [] [] []]; done.
  - by apply trimStart_no_ws, all_digits_no_ws.
  - intros c u ->. simpl in Hd. apply andb_prop in Hd as [Hc Hu]. split.
    + intros t. repeat split; intros ->; simpl in Hu; discriminate.
    + split; intros ->; discriminate.
Qed.

Lemma parseInt_digits s :
  all_chars is_digit s = true -> s <> "" -> parseInt s = Some (digits_val 0 s).
Proof.
  intros Hd Hne. destruct (digits_head s Hd Hne) as (Hsign & Htrim & Hhead).
  unfold parseInt. rewrite Htrim, Hsign. destruct s as [|c u]; [done|].
  destruct (Hhead c u eq_refl) as [Hu _].
  rewrite (span_digits _ Hd). simpl fst.
  destruct c as [[] [] [] [] [] [] [] []]; try done.
  destruct u as [|d v]; [done|].
  specialize (Hu v). destruct d as [[] [] [] [] [] [] [] []]; try done;
    destruct Hu as (? & ? & ? & ? & ? & ?); congruence.
Qed.

(** [parseInt] inverts the decimal notation of naturals and of integers. *)
Lemma parseInt_N_to_string n : parseInt (N_to_string n) = Some (Z.of_N n).
Proof.
  rewrite parseInt_digits.
  - by rewrite digits_val_N_to_string.
  - apply N_to_string_digits.
  - apply N_to_string_nonempty.
Qed.

Lemma parseInt_nonneg z : 0 <= z -> parseInt (Z_to_string z) = Some z.
Proof.
  intros Hz. unfold Z_to_string. destruct (Z.ltb_spec z 0); [lia|].
  rewrite parseInt_N_to_string. f_equal. lia.
Qed.

Lemma parseInt_minus s :
  all_chars is_digit s = true -> s <> "" -> parseInt ("-" +:+ s) = Some (- digits_val 0 s).
Proof.
  intros Hd Hne. pose proof (parseInt_digits s Hd Hne) as H.
  destruct (digits_head s Hd Hne) as (Hsign & Htrim & _).
  unfold parseInt in H |- *. rewrite Htrim, Hsign in H. simpl.
  destruct s as [|c u]; [done|]. rewrite (span_digits _ Hd) in H |- *. simpl in *.
  repeat case_match; simplify_eq/=; congruence.
Qed.

Lemma parseInt_Z_to_string z : parseInt (Z_to_string z) = Some z.
Proof.
  unfold Z_to_string. destruct (Z.ltb_spec z 0).
  - rewrite parseInt_minus; [|apply N_to_string_digits|apply N_to_string_nonempty].
    rewrite digits_val_N_to_string. f_equal. lia.
  - rewrite parseInt_N_to_string. f_equal. lia.
Qed.

Lemma Z_to_string_inj z1 z2 : Z_to_string z1 = Z_to_string z2 -> z1 = z2.
Proof. intros H. apply (f_equal parseInt) in H. rewrite !parseInt_Z_to_string in H. congruence. Qed.

Lemma nat_to_string_digits n : all_chars is_digit (nat_to_string n) = true.
Proof.
  unfold nat_to_string, Z_to_string. destruct (Z.ltb_spec (Z.of_nat n) 0); [lia|].
  apply N_to_string_digits.
Qed.

Lemma nat_to_string_nonempty n : nat_to_string n <> "".
Proof.
  unfold nat_to_string, Z_to_string. destruct (Z.ltb_spec (Z.of_nat n) 0); [lia|].
  apply N_to_string_nonempty.
Qed.

(** [Number] reads a run of decimal digits as [parseInt] does. *)
Lemma Number_digits s :
  all_chars is_digit s = true -> s <> "" -> Number s = num (digits_val 0 s).
Proof.
  intros Hd Hne. destruct (digits_head s Hd Hne) as (Hsign & _ & Hhead).
  unfold Number. rewrite (trim_no_ws s) by (by apply all_digits_no_ws).
  destruct s as [|c u]; [done|]. destruct (Hhead c u eq_refl) as [Hu [HI _]].
  assert (Hdec : parse_decimal (String c u) = Some (inject_Z (digits_val 0 (String c u)))).
  { unfold parse_decimal. rewrite (span_digits _ Hd), append_nil_r.
    simpl. unfold scale10. simpl. by rewrite Z.mul_1_r. }
  assert (Hinf : String.eqb (String c u) "Infinity" = false).
  { apply String.eqb_neq. intros [= -> _]. done. }
  assert (Hgen : (let (neg, u') := strip_sign (String c u) in
      if String.eqb u' "Infinity" then Inf neg
      else match parse_decimal u' with
           | Some q => Fin (if neg then - q else q)%Q
           | None => NaN
           end) = num (digits_val 0 (String c u))).
  { by rewrite Hsign, Hinf, Hdec. }
  destruct c as [[] [] [] [] [] [] [] []]; try exact Hgen.
  destruct u as [|d v]; [exact Hgen|]. specialize (Hu v).
  destruct d as [[] [] [] [] [] [] [] []]; try exact Hgen;
    destruct Hu as (? & ? & ? & ? & ? & ?); congruence.
Qed.

Lemma Number_nonneg z : 0 <= z -> Number (Z_to_string z) = num z.
Proof.
  intros Hz. unfold Z_to_string. destruct (Z.ltb_spec z 0); [lia|].
  rewrite Number_digits; [|apply N_to_string_digits|apply N_to_string_nonempty].
  rewrite digits_val_N_to_string. f_equal. lia.
Qed.

(** Digits, a dash and more: not a number. *)
Lemma Number_dash s t :
  all_chars is_digit s = true -> s <> "" -> any_char is_ws t = false -> Number (s +:+ String "-" t) = NaN.
Proof.
  intros Hd Hne Ht. unfold Number.
  rewrite trim_no_ws by (rewrite any_char_append, (all_digits_no_ws s Hd); exact Ht).
  assert (Hdec : parse_decimal (s +:+ String "-" t) = None).
  { unfold parse_decimal. rewrite (span_all is_digit s (String "-" t)) by done.
    cbv beta iota zeta. rewrite append_nil_r. by destruct s. }
  destruct s as [|c u]; [done|].
  destruct (digits_head _ Hd Hne) as (_ & _ & Hhead). destruct (Hhead c u eq_refl) as [Hu [HI _]].
  change (String c u +:+ String "-" t) with (String c (u +:+ String "-" t)) in *.
  assert (Hgen : (let (neg, u') := strip_sign (String c (u +:+ String "-" t)) in
      if String.eqb u' "Infinity" then Inf neg
      else match parse_decimal u' with
           | Some q => Fin (if neg then - q else q)%Q
           | None => NaN
           end) = NaN).
  { assert (strip_sign (String c (u +:+ String "-" t)) = (false, String c (u +:+ String "-" t))) as ->.
    { simpl in Hd. apply andb_prop in Hd as [Hc _]. by destruct c as [[] [] [] [] [] [] [] []]. }
    assert (String.eqb (String c (u +:+ String "-" t)) "Infinity" = false) as ->.
    { apply String.eqb_neq. intros [= -> _]. done. }
    by rewrite Hdec. }
  destruct c as [[] [] [] [] [] [] [] []]; try exact Hgen.
  destruct u as [|d v]; [exact Hgen|]. specialize (Hu v). cbn [String.append] in *.
  destruct d as [[] [] [] [] [] [] [] []]; try exact Hgen;
    destruct Hu as (? & ? & ? & ? & ? & ?); congruence.
Qed.

(** The decimal notation of a nonnegative integer has digits only. *)
Lemma Z_to_string_digits z : 0 <= z -> all_chars is_digit (Z_to_string z) = true.
Proof.
  intros Hz. unfold Z_to_string. destruct (Z.ltb_spec z 0); [lia|]. apply N_to_string_digits.
Qed.

Lemma Z_to_string_nonempty z : Z_to_string z <> "".
Proof. unfold Z_to_string. case_match; [done|]. apply N_to_string_nonempty. Qed.

Lemma Z_to_string_no_dash z : 0 <= z -> any_char (Ascii.eqb "-"%char) (Z_to_string z) = false.
Proof.
  intros Hz. eapply all_chars_not_any, Z_to_string_digits, Hz.
  intros c. by destruct c as [[] [] [] [] [] [] [] []].
Qed.

Example parseInt_tests :
  parseInt " 42px" = Some 42 /\ parseInt "0x1F" = Some 31 /\ parseInt "-7" = Some (-7) /\
  parseInt "abc" = None /\ parseInt "" = None.
Proof. done. Qed.

Example Number_tests :
  Number "12" = num 12 /\ Number "" = num 0 /\ Number "1e3" = num 1000 /\ Number "1.5" = Fin (15 # 10) /\
  Number "12px" = NaN /\ Number "0x10" = num 16 /\ num_to_string (Fin (15 # 10)) = "1.5".
Proof. done. Qed.

#[export] Hint Resolve N_to_string_digits N_to_string_nonempty nat_to_string_digits
  nat_to_string_nonempty Z_to_string_digits Z_to_string_nonempty : kvc.
#[export] Hint Rewrite num_le_Z num_lt_Z num_eq_Z num_truthy_Z num_sub_Z
  parseInt_Z_to_string : kvc.

(** Integers print without a decimal point. *)
Lemma Qred_Z z : Qred (inject_Z z) = inject_Z z.
Proof.
  unfold Qred, inject_Z. destruct (Z.ggcd z 1) as [g [a b]] eqn:E.
  pose proof (Z.ggcd_correct_divisors z 1) as H. rewrite E in H. destruct H as [H1 H2].
  pose proof (Z.ggcd_gcd z 1) as Hg. rewrite E in Hg. simpl in Hg. rewrite Z.gcd_1_r in Hg. subst g.
  rewrite Z.mul_1_l in H1, H2. by subst.
Qed.

Lemma num_to_string_Z z : num_to_string (num z) = Z_to_string z.
Proof.
  unfold num_to_string, num. rewrite Qred_Z. unfold inject_Z. rewrite Z.div_1_r, Z.mod_1_r.
  cbn [Z.eqb]. unfold Z_to_string at 1. destruct (Z.ltb_spec z 0), (Z.ltb_spec (Z.abs z) 0); try lia.
  - rewrite append_nil_r. unfold Z_to_string. destruct (Z.ltb_spec z 0); [|lia].
    by replace (Z.abs z) with (- z) by lia.
  - rewrite append_nil_r. unfold Z_to_string. destruct (Z.ltb_spec z 0); [lia|].
    by replace (Z.abs z) with z by lia.
Qed.

Lemma num_sub_exact a b : num_sub (num a) (num b) = num (a - b).
Proof. unfold num_sub. apply (num_add_Z a (- b)). Qed.
