(* ===== verification/JsValue.v ===== *)
(** * JavaScript values and exceptions

    The responses of the controller reach the pages as values of type [any].
    They are the inductive type [value]; the operators the sources apply to
    them (property access, optional chaining, truthiness, strict equality,
    relational comparison, string conversion) are the functions below.  A
    thrown exception is a value of [exn], a computation that may throw a
    [result]. *)

From S2P Require Import Prelude JsString JsNumber.

Inductive value :=
| VUndefined
| VNull
| VBool (b : bool)
| VNum (n : number)
| VStr (s : string)
| VArr (l : list value)
| VObj (fields : list (string * value)).

(** What can be thrown: an [AxiosError], with the body of the response when the
    server answered, or any other [Error]. *)
Inductive exn :=
| AxiosErr (response : option value) (message : string)
| JsErr (name message : string).

Inductive result (A : Type) :=
| Ok (a : A)
| Err (e : exn).
Arguments Ok {A} _.
Arguments Err {A} _.

#[global] Instance result_ret : MRet result := @Ok.
#[global] Instance result_bind : MBind result := fun A B f r =>
  match r with Ok a => f a | Err e => Err e end.
#[global] Instance result_fmap : FMap result := fun A B f r =>
  match r with Ok a => Ok (f a) | Err e => Err e end.

Lemma result_bind_inv {A B} (x : result A) (f : A -> result B) b :
  (x ≫= f) = Ok b -> exists a, x = Ok a /\ f a = Ok b.
Proof. destruct x; simpl; [eauto|done]. Qed.

(** [await Promise.all(...)] over synchronous bodies, and loops that may throw:
    the first exception wins. *)
Fixpoint mapM_result {A B} (f : A -> result B) (l : list A) : result (list B) :=
  match l with
  | [] => Ok []
  | x :: l' => y ← f x; ys ← mapM_result f l'; Ok (y :: ys)
  end.

(** [l.some(p)], [l.every(p)] and [l.find(p)] with a predicate that may throw;
    they stop at the first element that decides. *)
Fixpoint some_result {A} (p : A -> result bool) (l : list A) : result bool :=
  match l with
  | [] => Ok false
  | x :: l' => b ← p x; if (b : bool) then Ok true else some_result p l'
  end.

Fixpoint every_result {A} (p : A -> result bool) (l : list A) : result bool :=
  match l with
  | [] => Ok true
  | x :: l' => b ← p x; if (b : bool) then every_result p l' else Ok false
  end.

Fixpoint find_result {A} (p : A -> result bool) (l : list A) : result (option A) :=
  match l with
  | [] => Ok None
  | x :: l' => b ← p x; if (b : bool) then Ok (Some x) else find_result p l'
  end.

(** [String(e)] of an exception, as template literals print it. *)
Definition exn_to_string (e : exn) : string :=
  match e with
  | AxiosErr _ m => "AxiosError: " +:+ m
  | JsErr n m => n +:+ ": " +:+ m
  end.

Definition exn_message (e : exn) : string :=
  match e with AxiosErr _ m => m | JsErr _ m => m end.

(** ** Operators *)

Definition truthy (v : value) : bool :=
  match v with
  | VUndefined | VNull => false
  | VBool b => b
  | VNum n => num_truthy n
  | VStr s => negb (String.eqb s "")
  | VArr _ | VObj _ => true
  end.

Definition nullish (v : value) : bool :=
  match v with VUndefined | VNull => true | _ => false end.

(** [a || b] and [a && b] *)
Definition js_or (a b : value) : value := if truthy a then a else b.
Definition js_and (a b : value) : value := if truthy a then b else a.

Fixpoint assoc (k : string) (fs : list (string * value)) : value :=
  match fs with
  | [] => VUndefined
  | (k', v) :: fs' => if String.eqb k k' then v else assoc k fs'
  end.

Fixpoint has_key (k : string) (fs : list (string * value)) : bool :=
  match fs with
  | [] => false
  | (k', _) :: fs' => String.eqb k k' || has_key k fs'
  end.

(** [v?.k] *)
Definition prop (v : value) (k : string) : value :=
  match v with
  | VObj fs => assoc k fs
  | VArr l => if String.eqb k "length" then VNum (num_nat (length l)) else VUndefined
  | VStr s => if String.eqb k "length" then VNum (num_nat (String.length s)) else VUndefined
  | _ => VUndefined
  end.

(** [v.k]: reading a property of undefined or null throws a TypeError. *)
Definition get (v : value) (k : string) : result value :=
  match v with
  | VUndefined => Err (JsErr "TypeError" ("Cannot read properties of undefined (reading '" +:+ k +:+ "')"))
  | VNull => Err (JsErr "TypeError" ("Cannot read properties of null (reading '" +:+ k +:+ "')"))
  | _ => Ok (prop v k)
  end.

(** [k in v], for a value that is an object. *)
Definition js_in (k : string) (v : value) : bool :=
  match v with VObj fs => has_key k fs | VArr _ => String.eqb k "length" | _ => false end.

(** [typeof v === "object"] *)
Definition is_object (v : value) : bool :=
  match v with VNull | VArr _ | VObj _ => true | _ => false end.

Definition is_array (v : value) : bool := match v with VArr _ => true | _ => false end.

(** [v.length] as the sources use it on arrays and strings. *)
Definition elements (v : value) : list value := match v with VArr l => l | _ => [] end.

(** [a === b]; the sources compare with primitives only, and two objects
    coming from different responses are never the same one. *)
Definition strict_eq (a b : value) : bool :=
  match a, b with
  | VUndefined, VUndefined | VNull, VNull => true
  | VBool x, VBool y => Bool.eqb x y
  | VNum x, VNum y => num_eq x y
  | VStr x, VStr y => String.eqb x y
  | _, _ => false
  end.

(** String conversion; null and undefined elements of an array print as nothing. *)
Fixpoint to_string (v : value) : string :=
  match v with
  | VUndefined => "undefined"
  | VNull => "null"
  | VBool b => if b then "true" else "false"
  | VNum n => num_to_string n
  | VStr s => s
  | VArr l => join "," (map (fun x => match x with
                                      | VUndefined | VNull => ""
                                      | _ => to_string x
                                      end) l)
  | VObj _ => "[object Object]"
  end.

(** Number conversion. *)
Definition to_number (v : value) : number :=
  match v with
  | VUndefined => NaN
  | VNull => num 0
  | VBool b => num (if b then 1 else 0)
  | VNum n => n
  | VStr s => Number s
  | VArr _ => Number (to_string v)
  | VObj _ => NaN
  end.

(** [v >= z] and [v > z] for a number literal [z]: the operand is converted. *)
Definition js_ge (v : value) (z : Z) : bool := num_le (num z) (to_number v).
Definition js_gt (v : value) (z : Z) : bool := num_lt (num z) (to_number v).

(** [a + b]: a string, an array or an object makes it a concatenation. *)
Definition concatenates (v : value) : bool := match v with VStr _ | VArr _ | VObj _ => true | _ => false end.

Definition js_add (a b : value) : value :=
  if concatenates a || concatenates b then VStr (to_string a +:+ to_string b)
  else VNum (num_add (to_number a) (to_number b)).

(** [for (const x of v)]: arrays yield their elements, strings their
    characters, anything else throws. *)
Definition iterate (v : value) : result (list value) :=
  match v with
  | VArr l => Ok l
  | VStr s => Ok (map (fun c => VStr (String c "")) (String.list_ascii_of_string s))
  | _ => Err (JsErr "TypeError" (to_string v +:+ " is not iterable"))
  end.

(** [v.map], [v.some], ... on a value that is not an array: the property is
    undefined, or there is no object to read it from. *)
Definition as_array (v : value) (method : string) : result (list value) :=
  match v with
  | VArr l => Ok l
  | VUndefined | VNull => _ ← get v method; Ok []
  | _ => Err (JsErr "TypeError" (method +:+ " is not a function"))
  end.

Lemma as_array_ok v m items : as_array v m = Ok items -> v = VArr items.
Proof. by destruct v; simpl; intros; simplify_eq. Qed.

(** [v.includes(needle)], of a string or an array. *)
Definition js_includes (v : value) (needle : string) : result bool :=
  match v with
  | VStr s => Ok (includes s needle)
  | VArr l => Ok (existsb (fun x => strict_eq x (VStr needle)) l)
  | VUndefined | VNull => _ ← get v "includes"; Ok false
  | _ => Err (JsErr "TypeError" "includes is not a function")
  end.

(** [v.split(c)] *)
Definition js_split (v : value) (c : ascii) : result (list string) :=
  match v with
  | VStr s => Ok (split c s)
  | VUndefined | VNull => _ ← get v "split"; Ok []
  | _ => Err (JsErr "TypeError" "split is not a function")
  end.

Definition vstr_opt (o : option string) : value :=
  match o with Some s => VStr s | None => VUndefined end.

Definition vnum (z : Z) : value := VNum (num z).

(** ** Lemmas *)

Lemma js_or_truthy a b : truthy b = true -> truthy (js_or a b) = true.
Proof. unfold js_or. by destruct (truthy a) eqn:E. Qed.

Lemma js_add_vnum a b : js_add (vnum a) (vnum b) = vnum (a + b).
Proof. unfold js_add, vnum. cbn [concatenates orb to_number]. by rewrite num_add_Z. Qed.

Lemma js_ge_vnum a z : js_ge (vnum a) z = (z <=? a).
Proof. apply num_le_Z. Qed.

Lemma strict_eq_vnum a b : strict_eq (vnum a) (vnum b) = (a =? b).
Proof. apply num_eq_Z. Qed.

Lemma truthy_vnum a : truthy (vnum a) = negb (a =? 0).
Proof. apply num_truthy_Z. Qed.

(** A number and a string are never strictly equal. *)
Lemma strict_eq_str_num s z : strict_eq (VStr s) (vnum z) = false.
Proof. done. Qed.

Lemma mapM_result_pure {A B} (f : A -> B) l : mapM_result (fun x => Ok (f x)) l = Ok (map f l).
Proof. induction l as [|x l IH]; simpl; [done|]. by rewrite IH. Qed.

Lemma mapM_result_length {A B} (f : A -> result B) l r :
  mapM_result f l = Ok r -> length r = length l.
Proof.
  revert r; induction l as [|x l IH]; intros r; simpl; [intros; by simplify_eq|].
  destruct (f x); simpl; [|done]. destruct (mapM_result f l) eqn:E; simpl; intros; simplify_eq/=.
  f_equal. by apply IH.
Qed.

Lemma some_result_pure {A} (p : A -> result bool) (q : A -> bool) l :
  (forall x, In x l -> p x = Ok (q x)) -> some_result p l = Ok (existsb q l).
Proof.
  induction l as [|x l IH]; intros H; simpl; [done|]. rewrite H by (by left). simpl.
  destruct (q x); [done|]. apply IH. intros; apply H; by right.
Qed.

Lemma every_result_pure {A} (p : A -> result bool) (q : A -> bool) l :
  (forall x, In x l -> p x = Ok (q x)) -> every_result p l = Ok (forallb q l).
Proof.
  induction l as [|x l IH]; intros H; simpl; [done|]. rewrite H by (by left). simpl.
  destruct (q x); [|done]. apply IH. intros; apply H; by right.
Qed.

Lemma find_result_pure {A} (p : A -> result bool) (q : A -> bool) l :
  (forall x, In x l -> p x = Ok (q x)) -> find_result p l = Ok (List.find q l).
Proof.
  induction l as [|x l IH]; intros H; simpl; [done|]. rewrite H by (by left). simpl.
  destruct (q x); [done|]. apply IH. intros; apply H; by right.
Qed.

#[export] Hint Rewrite js_add_vnum js_ge_vnum strict_eq_vnum truthy_vnum : kvc.

(** ** JSON

    [JSON.stringify] of an array of strings, the one the forms build, and
    [JSON.parse]. *)

Definition bs : ascii := "\".
Definition quote : ascii := "034".

Definition hex_digit (n : N) : ascii := if (n <? 10)%N then ascii_of_N (48 + n) else ascii_of_N (87 + n).

(** QuoteJSONString on one code unit. *)
Definition json_escape (c : ascii) : string :=
  match nat_of_ascii c with
  | 8 => String bs "b" | 9 => String bs "t" | 10 => String bs "n" | 12 => String bs "f" | 13 => String bs "r"
  | 34 => String bs (String quote "") | 92 => String bs (String bs "")
  | n => if (n <? 32)%nat
         then String bs ("u00" +:+ String (hex_digit (N_of_ascii c / 16))
                                     (String (hex_digit (N_of_ascii c mod 16)) ""))
         else String c ""
  end%nat.

Fixpoint json_escapes (s : string) : string :=
  match s with
  | EmptyString => ""
  | String c s' => json_escape c +:+ json_escapes s'
  end.

Definition json_quote (s : string) : string := String quote (json_escapes s +:+ String quote "").

Definition stringify_strings (l : list string) : string :=
  "[" +:+ join "," (map json_quote l) +:+ "]".

Definition json_ws (c : ascii) : bool :=
  match nat_of_ascii c with 9 | 10 | 13 | 32 => true | _ => false end%nat.

Definition json_skip (s : string) : string := snd (span json_ws s).

(** The rest of a string literal, behind its opening quote.  A \u escape above
    U+00FF is outside the represented code units and ends the parse. *)
Fixpoint json_string (s : string) : option (string * string) :=
  match s with
  | EmptyString => None
  | String c t =>
      if Ascii.eqb c quote then Some ("", t)
      else if Ascii.eqb c bs then
        match t with
        | String "u" (String a (String b (String d (String e u)))) =>
            match hex_value a, hex_value b, hex_value d, hex_value e with
            | Some 0, Some 0, Some x, Some y =>
                '(r, rest) ← json_string u; Some (String (ascii_of_N (Z.to_N (16 * x + y))) r, rest)
            | _, _, _, _ => None
            end
        | String e u =>
            esc ← match nat_of_ascii e with
                  | 98 => Some "008"%char | 116 => Some "009"%char | 110 => Some "010"%char
                  | 102 => Some "012"%char | 114 => Some "013"%char
                  | 34 => Some quote | 92 => Some bs | 47 => Some "/"%char
                  | _ => None
                  end%nat;
            '(r, rest) ← json_string u; Some (String esc r, rest)
        | EmptyString => None
        end
      else if (nat_of_ascii c <? 32)%nat then None
      else '(r, rest) ← json_string t; Some (String c r, rest)
  end.

(** JSONNumber: an optional minus, no leading zero, fraction, exponent. *)
Definition json_number (s : string) : option (number * string) :=
  let (neg, t) := match s with String "-" t => (true, t) | _ => (false, s) end in
  let (ip, r1) := span is_digit t in
  match ip with
  | EmptyString => None
  | String "0" (String _ _) => None
  | _ =>
      let '(fp, r2, okf) := match r1 with
        | String "." u => let (d, r) := span is_digit u in (d, r, negb (String.eqb d ""))
        | _ => ("", r1, true)
        end in
      let '(ex, r3, oke) := match r2 with
        | String ("e" | "E") u =>
            let (n, v) := strip_sign u in
            let (d, r) := span is_digit v in (signed n (digits_val 0 d), r, negb (String.eqb d ""))
        | _ => (0, r2, true)
        end in
      if okf && oke
      then let q := scale10 (digits_val 0 (ip +:+ fp)) (ex - Z.of_nat (String.length fp)) in
           Some (Fin (if neg then - q else q)%Q, r3)
      else None
  end.

(** A later member of the same name replaces the earlier one. *)
Fixpoint obj_set (k : string) (v : value) (fs : list (string * value)) : list (string * value) :=
  match fs with
  | [] => [(k, v)]
  | (k', v') :: fs' => if String.eqb k k' then (k, v) :: fs' else (k', v') :: obj_set k v fs'
  end.

Definition json_literal (s : string) : option (value * string) :=
  if String.prefix "true" s then Some (VBool true, String.substring 4 (String.length s - 4) s)
  else if String.prefix "false" s then Some (VBool false, String.substring 5 (String.length s - 5) s)
  else if String.prefix "null" s then Some (VNull, String.substring 4 (String.length s - 4) s)
  else '(n, r) ← json_number s; Some (VNum n, r).

Fixpoint json_value (fuel : nat) (s : string) : option (value * string) :=
  match fuel with
  | O => None
  | S f =>
      let s := json_skip s in
      match s with
      | EmptyString => None
      | String c t =>
          if Ascii.eqb c quote then '(r, rest) ← json_string t; Some (VStr r, rest)
          else if Ascii.eqb c "["%char then
            match json_skip t with
            | String "]" r => Some (VArr [], r)
            | _ => '(l, r) ← json_elements f t; Some (VArr l, r)
            end
          else if Ascii.eqb c "{"%char then
            match json_skip t with
            | String "}" r => Some (VObj [], r)
            | _ => '(l, r) ← json_members f t []; Some (VObj l, r)
            end
          else json_literal s
      end
  end
with json_elements (fuel : nat) (s : string) : option (list value * string) :=
  match fuel with
  | O => None
  | S f =>
      '(v, r) ← json_value f s;
      match json_skip r with
      | String "]" r' => Some ([v], r')
      | String "," r' => '(l, r'') ← json_elements f r'; Some (v :: l, r'')
      | _ => None
      end
  end
with json_members (fuel : nat) (s : string) (acc : list (string * value)) :
    option (list (string * value) * string) :=
  match fuel with
  | O => None
  | S f =>
      match json_skip s with
      | String c t =>
          if Ascii.eqb c quote then
            '(k, r) ← json_string t;
            match json_skip r with
            | String ":" r1 =>
                '(v, r2) ← json_value f r1;
                let acc' := obj_set k v acc in
                match json_skip r2 with
                | String "}" r3 => Some (acc', r3)
                | String "," r3 => json_members f r3 acc'
                | _ => None
                end
            | _ => None
            end
          else None
      | EmptyString => None
      end
  end.

(** Every call consumes a character or descends into a value of one more
    character, so twice the length is fuel enough. *)
Definition JSON_parse (s : string) : result value :=
  match json_value (2 * String.length s + 2) s with
  | Some (v, r) => match json_skip r with
                   | EmptyString => Ok v
                   | _ => Err (JsErr "SyntaxError" "Unexpected token in JSON")
                   end
  | None => Err (JsErr "SyntaxError" "Unexpected token in JSON")
  end.

Lemma json_string_escape c t :
  json_string (json_escape c +:+ t) =
  '(r, rest) ← json_string t; Some (String c r, rest).
Proof. destruct c as [[] [] [] [] [] [] [] []]; reflexivity. Qed.

Lemma json_string_quote s t :
  json_string (json_escapes s +:+ String quote t) = Some (s, t).
Proof.
  induction s as [|c s IH]; [done|]. cbn [json_escapes].
  by rewrite append_assoc, json_string_escape, IH.
Qed.

(** A quoted string is read back, whatever follows it. *)
Lemma json_value_quote f s t : json_value (S f) (json_quote s +:+ t) = Some (VStr s, t).
Proof.
  unfold json_quote. cbn -[json_string json_escapes json_skip]. rewrite append_assoc.
  change (json_skip (String quote ?u)) with (String quote u).
  cbn -[json_string json_escapes]. by rewrite json_string_quote.
Qed.

Lemma json_elements_S f s :
  json_elements (S f) s =
  '(v, r) ← json_value f s;
  match json_skip r with
  | String "]" r' => Some ([v], r')
  | String "," r' => '(l, r'') ← json_elements f r'; Some (v :: l, r'')
  | _ => None
  end.
Proof. done. Qed.

Lemma json_elements_quotes f l t :
  l <> [] -> (length l < f)%nat ->
  json_elements f (join "," (map json_quote l) +:+ "]" +:+ t) = Some (map VStr l, t).
Proof.
  revert f. induction l as [|s l IH]; [done|]. intros [|[|f]] _ Hf; [simpl in Hf; lia..|].
  rewrite json_elements_S. destruct l as [|s' l].
  - cbn [map join]. by rewrite json_value_quote.
  - change (join "," (map json_quote (s :: s' :: l)))
      with (json_quote s +:+ "," +:+ join "," (map json_quote (s' :: l))).
    rewrite !append_assoc, json_value_quote. cbn [mbind option_bind].
    change (json_skip ("," +:+ ?u)) with (String ","%char u). cbv iota beta.
    rewrite (IH (S f)); [done..|simpl in *; lia].
Qed.

Lemma join_quotes_length l : (length l <= String.length (join "," (map json_quote l)))%nat.
Proof.
  induction l as [|s l IH]; simpl; [lia|]. destruct l as [|s' l]; simpl in *.
  - rewrite length_append. simpl. lia.
  - rewrite !length_append. simpl. lia.
Qed.

(** [JSON.parse] inverts [JSON.stringify] on arrays of strings. *)
Lemma JSON_parse_stringify l : JSON_parse (stringify_strings l) = Ok (VArr (map VStr l)).
Proof.
  unfold JSON_parse, stringify_strings.
  destruct l as [|s l]; [done|].
  pose proof (join_quotes_length (s :: l)) as Hlen.
  rewrite length_append. cbn [String.length Nat.add Nat.mul].
  set (body := join "," (map json_quote (s :: l))) in *.
  rewrite length_append. cbn [String.length Nat.add].
  replace (S (String.length body + 1 + S (String.length body + 1 + 0) + 2))%nat
    with (S (S (S (S (String.length body + String.length body + 2)))))%nat by lia.
  set (f := S (S (S (String.length body + String.length body + 2)))).
  assert (Hb : json_value (S f) ("[" +:+ body +:+ "]") = Some (VArr (map VStr (s :: l)), "")).
  { change (json_value (S f) ("[" +:+ body +:+ "]"))
      with (match json_skip (body +:+ "]") with
            | String "]" r => Some (VArr [], r)
            | _ => '(l, r) ← json_elements f (body +:+ "]"); Some (VArr l, r)
            end).
    pose proof (json_elements_quotes f (s :: l) "") as He. fold body in He. simpl ("]" +:+ "") in He.
    rewrite He; [|done|unfold f; simpl in *; lia]. by destruct l. }
  by rewrite Hb.
Qed.

Example json_tests :
  JSON_parse "[1, {}, null, true]" = Ok (VArr [vnum 1; VObj []; VNull; VBool true]) /\
  JSON_parse "[1,]" = Err (JsErr "SyntaxError" "Unexpected token in JSON") /\
  JSON_parse (stringify_strings ["a:1"; "b" +:+ dq]) = Ok (VArr [VStr "a:1"; VStr ("b" +:+ dq)]).
Proof. done. Qed.
