(* ===== verification/Effects.v ===== *)
(** * Asynchronous handlers as interaction programs

    An event handler or an effect of a React component is a program [prog S A]:
    it sends requests to the controller and awaits the answers, updates the
    component's state [S], asks the user for confirmation, and emits outputs
    (alerts, console messages, navigation).  [try_catch] and [finally_] are the
    statements of that name.

    Three semantics share the type: [run] executes a program against a server
    function and is executable; [wp] is the demonic weakest precondition, which
    quantifies over every answer of the server and of the user; [settle] runs a
    program up to its next await, the unit of atomicity of the event loop. *)

From S2P Require Import Prelude JsString JsNumber JsValue.

Inductive meth := GET | POST | DELETE.

(** An axios call; the body of a GET or DELETE is undefined. *)
Record request := Req { r_method : meth; r_path : string; r_body : value }.

(** A 2xx status resolves with the parsed body, anything else (and a network
    failure) rejects. *)
Inductive axios_result :=
| Resolved (data : value)
| Rejected (e : exn).

Inductive output :=
| OAlert (msg : string)
| OConsole (msg : string)
| OPush (url : string)
| ORefresh
| OReload
| OBack
| OCallback (name : string)
| OClipboard (text : string).

Inductive event :=
| EvReq (r : request) (a : axios_result)
| EvConfirm (msg : string) (b : bool)
| EvOut (o : output).

Inductive prog (S A : Type) :=
| Ret (a : A)
| Throw (e : exn)
| Request (r : request) (k : axios_result -> prog S A)
| SetState (f : S -> S) (k : prog S A)
| Confirm (msg : string) (k : bool -> prog S A)
| Emit (o : output) (k : prog S A).
Arguments Ret {S A} _.
Arguments Throw {S A} _.
Arguments Request {S A} _ _.
Arguments SetState {S A} _ _.
Arguments Confirm {S A} _ _.
Arguments Emit {S A} _ _.

#[global] Instance prog_ret {S} : MRet (prog S) := fun A a => Ret a.

#[global] Instance prog_bind {S} : MBind (prog S) := fun A B f =>
  fix go (p : prog S A) : prog S B :=
    match p with
    | Ret a => f a
    | Throw e => Throw e
    | Request r k => Request r (fun x => go (k x))
    | SetState g k => SetState g (go k)
    | Confirm m k => Confirm m (fun b => go (k b))
    | Emit o k => Emit o (go k)
    end.

(** [try { p } catch (e) { h(e) }] *)
Fixpoint try_catch {S A} (p : prog S A) (h : exn -> prog S A) : prog S A :=
  match p with
  | Ret a => Ret a
  | Throw e => h e
  | Request r k => Request r (fun x => try_catch (k x) h)
  | SetState g k => SetState g (try_catch k h)
  | Confirm m k => Confirm m (fun b => try_catch (k b) h)
  | Emit o k => Emit o (try_catch k h)
  end.

(** [try { p } finally { f }] *)
Fixpoint finally_ {S A} (p : prog S A) (f : prog S unit) : prog S A :=
  match p with
  | Ret a => f ≫= fun _ => Ret a
  | Throw e => f ≫= fun _ => Throw e
  | Request r k => Request r (fun x => finally_ (k x) f)
  | SetState g k => SetState g (finally_ k f)
  | Confirm m k => Confirm m (fun b => finally_ (k b) f)
  | Emit o k => Emit o (finally_ k f)
  end.

Definition set_state {S} (f : S -> S) : prog S unit := SetState f (Ret tt).
Definition emit {S} (o : output) : prog S unit := Emit o (Ret tt).
Definition confirm {S} (m : string) : prog S bool := Confirm m (fun b => Ret b).
Definition lift {S A} (r : result A) : prog S A :=
  match r with Ok a => Ret a | Err e => Throw e end.

(** [await axios.get(url)] and its siblings: the body, or the rejection thrown. *)
Definition await_axios {S} (r : request) : prog S value :=
  Request r (fun a => match a with Resolved d => Ret d | Rejected e => Throw e end).

(** [for (const x of l) { acc = f(acc, x) }] with awaits in the body. *)
Fixpoint for_of {S A X} (l : list X) (acc : A) (f : A -> X -> prog S A) : prog S A :=
  match l with
  | [] => Ret acc
  | x :: l' => acc' ← f acc x; for_of l' acc' f
  end.

(** [await Promise.all(tasks)]: the requests of the tasks are answered in any
    order.  [sched] names, step by step, the task that goes on; when it runs out
    the tasks finish from left to right, so every finite order of answers is the
    one of some schedule.  The tasks share the state [S]: an update is one step,
    and the updates of one task may come between those of another.  The results
    are in the order of the tasks. *)
Fixpoint all_left_to_right {S A} (tasks : list (prog S A)) : prog S (list A) :=
  match tasks with
  | [] => Ret []
  | t :: tasks' => a ← t; l ← all_left_to_right tasks'; Ret (a :: l)
  end.

Fixpoint promise_all {S A} (sched : list nat) (tasks : list (prog S A)) : prog S (list A) :=
  match sched with
  | [] => all_left_to_right tasks
  | i :: sched' =>
      match tasks !! i with
      | Some (Request r k) => Request r (fun a => promise_all sched' (<[i := k a]> tasks))
      | Some (SetState g k) => SetState g (promise_all sched' (<[i := k]> tasks))
      | Some (Emit o k) => Emit o (promise_all sched' (<[i := k]> tasks))
      | _ => promise_all sched' tasks
      end
  end.

(** A block with [let] variables [L] that its closures, and the tasks it starts,
    update: they live as long as the block, which leaves with their values. *)
Fixpoint locally {S L A} (v : L) (p : prog L A) : prog S (A * L) :=
  match p with
  | Ret a => Ret (a, v)
  | Throw e => Throw e
  | Request r k => Request r (fun x => locally v (k x))
  | SetState g k => locally (g v) k
  | Confirm m k => Confirm m (fun b => locally v (k b))
  | Emit o k => Emit o (locally v k)
  end.

(** ** Execution against a server *)
Section Run.
Context {Srv S : Type}.
Context (serve : Srv -> request -> axios_result * Srv) (answer : string -> bool).

Fixpoint run {A} (p : prog S A) (sv : Srv) (s : S) : result A * Srv * S * list event :=
  match p with
  | Ret a => (Ok a, sv, s, [])
  | Throw e => (Err e, sv, s, [])
  | Request r k =>
      let '(a, sv1) := serve sv r in
      let '(o, sv2, s', l) := run (k a) sv1 s in (o, sv2, s', EvReq r a :: l)
  | SetState g k => run k sv (g s)
  | Confirm m k =>
      let '(o, sv', s', l) := run (k (answer m)) sv s in (o, sv', s', EvConfirm m (answer m) :: l)
  | Emit out k =>
      let '(o, sv', s', l) := run k sv s in (o, sv', s', EvOut out :: l)
  end.

Lemma run_bind {A B} (p : prog S A) (f : A -> prog S B) sv s :
  run (p ≫= f) sv s =
  match run p sv s with
  | (Ok a, sv1, s1, l1) => let '(o, sv2, s2, l2) := run (f a) sv1 s1 in (o, sv2, s2, l1 ++ l2)
  | (Err e, sv1, s1, l1) => (Err e, sv1, s1, l1)
  end.
Proof.
  revert sv s. induction p as [a|e|r k IH|g k IH|m k IH|o k IH]; intros sv s; simpl.
  - by destruct (run (f a) sv s) as [[[??]?]?].
  - done.
  - destruct (serve sv r) as [a sv1]. specialize (IH a sv1 s). unfold mbind in IH. rewrite IH.
    destruct (run (k a) sv1 s) as [[[[x|e] ?] ?] ?]; [|done].
    by destruct (run (f x) _ _) as [[[??]?]?].
  - apply IH.
  - specialize (IH (answer m) sv s). unfold mbind in IH. rewrite IH.
    destruct (run (k (answer m)) sv s) as [[[[x|e] ?] ?] ?]; [|done].
    by destruct (run (f x) _ _) as [[[??]?]?].
  - specialize (IH sv s). unfold mbind in IH. rewrite IH.
    destruct (run k sv s) as [[[[x|e] ?] ?] ?]; [|done].
    by destruct (run (f x) _ _) as [[[??]?]?].
Qed.

Lemma run_try {A} (p : prog S A) h sv s :
  run (try_catch p h) sv s =
  match run p sv s with
  | (Ok a, sv1, s1, l1) => (Ok a, sv1, s1, l1)
  | (Err e, sv1, s1, l1) => let '(o, sv2, s2, l2) := run (h e) sv1 s1 in (o, sv2, s2, l1 ++ l2)
  end.
Proof.
  revert sv s. induction p as [a|e|r k IH|g k IH|m k IH|o k IH]; intros sv s; cbn [run try_catch].
  - done.
  - by destruct (run (h e) sv s) as [[[??]?]?].
  - destruct (serve sv r) as [a sv1]. rewrite IH. destruct (run (k a) sv1 s) as [[[[x|e] ?] ?] ?]; [done|].
    by destruct (run (h e) _ _) as [[[??]?]?].
  - apply IH.
  - rewrite IH. destruct (run (k (answer m)) sv s) as [[[[x|e] ?] ?] ?]; [done|]. by destruct (run (h e) _ _) as [[[??]?]?].
  - rewrite IH. destruct (run k sv s) as [[[[x|e] ?] ?] ?]; [done|]. by destruct (run (h e) _ _) as [[[??]?]?].
Qed.

(** The final block runs after the body and its outcome, unless it throws itself. *)
Lemma run_finally {A} (p : prog S A) f sv s :
  run (finally_ p f) sv s =
  let '(o, sv1, s1, l1) := run p sv s in
  let '(o', sv2, s2, l2) := run f sv1 s1 in
  (match o' with Ok _ => o | Err e => Err e end, sv2, s2, l1 ++ l2).
Proof.
  revert sv s. induction p as [a|e|r k IH|g k IH|m k IH|o k IH]; intros sv s; cbn [run finally_].
  - rewrite run_bind. destruct (run f sv s) as [[[[?|?]?]?]?]; cbn [run]; by rewrite ?app_nil_r.
  - rewrite run_bind. destruct (run f sv s) as [[[[?|?]?]?]?]; cbn [run]; by rewrite ?app_nil_r.
  - destruct (serve sv r) as [a sv1]. rewrite IH. destruct (run (k a) sv1 s) as [[[??]?]?].
    by destruct (run f _ _) as [[[??]?]?].
  - apply IH.
  - rewrite IH. destruct (run (k (answer m)) sv s) as [[[??]?]?]. by destruct (run f _ _) as [[[??]?]?].
  - rewrite IH. destruct (run k sv s) as [[[??]?]?]. by destruct (run f _ _) as [[[??]?]?].
Qed.
End Run.

(** ** Weakest preconditions over every environment *)
Section Wp.
Context {S : Type}.

(** [wp p Q s l]: from state [s], with the events [l] already logged, [p]
    ends in an outcome, a state and a log that satisfy [Q], whatever the server
    and the user answer. *)
Fixpoint wp {A} (p : prog S A) (Q : result A -> S -> list event -> Prop)
  (s : S) (l : list event) : Prop :=
  match p with
  | Ret a => Q (Ok a) s l
  | Throw e => Q (Err e) s l
  | Request r k => forall a, wp (k a) Q s (l ++ [EvReq r a])
  | SetState g k => wp k Q (g s) l
  | Confirm m k => forall b, wp (k b) Q s (l ++ [EvConfirm m b])
  | Emit o k => wp k Q s (l ++ [EvOut o])
  end.

Lemma wp_mono {A} (p : prog S A) (Q Q' : result A -> S -> list event -> Prop) s l :
  (forall o s' l', Q o s' l' -> Q' o s' l') -> wp p Q s l -> wp p Q' s l.
Proof. intros H. revert s l. induction p; simpl; intros; auto. Qed.

Lemma wp_bind {A B} (p : prog S A) (f : A -> prog S B) Q s l :
  wp p (fun o s' l' => match o with
  | Ok a => wp (f a) Q s' l'
  | Err e => Q (Err e) s' l'
  end) s l ->
  wp (p ≫= f) Q s l.
Proof. revert s l. induction p; simpl; intros; auto; by apply H. Qed.

Lemma wp_try {A} (p : prog S A) (h : exn -> prog S A) Q s l :
  wp p (fun o s' l' => match o with
  | Ok a => Q (Ok a) s' l'
  | Err e => wp (h e) Q s' l'
  end) s l ->
  wp (try_catch p h) Q s l.
Proof. revert s l. induction p; simpl; intros; auto; by apply H. Qed.

Lemma wp_finally {A} (p : prog S A) (f : prog S unit) Q s l :
  wp p (fun o s' l' => wp (f ≫= fun _ => match o with Ok a => Ret a | Err e => Throw e end) Q s' l') s l ->
  wp (finally_ p f) Q s l.
Proof. revert s l. induction p; simpl; intros; auto; by apply H. Qed.

(** A loop keeps an invariant of the accumulator, the state and the log. *)
Lemma wp_for_of {A X} (xs : list X) (acc : A) (f : A -> X -> prog S A)
  (I : list X -> A -> S -> list event -> Prop) Q s l :
  I xs acc s l ->
  (forall x xs' a s' l', I (x :: xs') a s' l' ->
  wp (f a x) (fun o s2 l2 => match o with Ok a' => I xs' a' s2 l2 | Err e => Q (Err e) s2 l2 end) s' l') ->
  (forall a s' l', I [] a s' l' -> Q (Ok a) s' l') ->
  wp (for_of xs acc f) Q s l.
Proof.
  intros H0 Hstep Hend. revert acc s l H0. induction xs as [|x xs IH]; intros acc s l H0; simpl; [auto|].
  apply wp_bind. eapply wp_mono; [|by apply Hstep]. intros [a|e] s' l'; auto.
Qed.

(** Adequacy: what [wp] promises holds of every execution. *)
Lemma wp_run {Srv A} (serve : Srv -> request -> axios_result * Srv) (answer : string -> bool)
  (p : prog S A) Q sv s l :
  wp p Q s l ->
  let '(o, _, s', l') := run serve answer p sv s in Q o s' (l ++ l').
Proof.
  revert sv s l. induction p as [a|e|r k IH|g k IH|m k IH|o k IH]; intros sv s l H; simpl in *.
  - by rewrite app_nil_r.
  - by rewrite app_nil_r.
  - destruct (serve sv r) as [a sv1]. specialize (IH a sv1 s _ (H a)).
    destruct (run serve answer (k a) sv1 s) as [[[??]?]?]. by rewrite <- app_assoc in IH.
  - by apply IH.
  - specialize (IH (answer m) sv s _ (H (answer m))).
    destruct (run serve answer (k (answer m)) sv s) as [[[??]?]?]. by rewrite <- app_assoc in IH.
  - specialize (IH sv s _ H).
    destruct (run serve answer k sv s) as [[[??]?]?]. by rewrite <- app_assoc in IH.
Qed.
End Wp.

(** ** Programs that do not touch the state of the component that runs them *)

Fixpoint stateless {S A} (p : prog S A) : Prop :=
  match p with
  | Ret _ | Throw _ => True
  | Request _ k => forall a, stateless (k a)
  | SetState _ _ => False
  | Confirm _ k => forall b, stateless (k b)
  | Emit _ k => stateless k
  end.

Lemma stateless_bind {S A B} (p : prog S A) (f : A -> prog S B) :
  stateless p -> (forall a, stateless (f a)) -> stateless (p ≫= f).
Proof.
  intros Hp Hf. induction p as [a|e|r k IH|g k IH|m k IH|o k IH]; simpl in *;
    [apply Hf|exact I|intros a; by apply IH|done|intros b; by apply IH|by apply IH].
Qed.

Lemma stateless_try {S A} (p : prog S A) (h : exn -> prog S A) :
  stateless p -> (forall e, stateless (h e)) -> stateless (try_catch p h).
Proof. intros Hp Hh. induction p; simpl in *; auto. Qed.

Lemma stateless_await {S} r : stateless (@await_axios S r).
Proof. by intros [d|e]. Qed.

Lemma stateless_lift {S A} (r : result A) : stateless (@lift S A r).
Proof. by destruct r. Qed.

Lemma stateless_emit {S} o : stateless (@emit S o).
Proof. done. Qed.

Lemma stateless_if {S A} (b : bool) (p q : prog S A) :
  stateless p -> stateless q -> stateless (if b then p else q).
Proof. by destruct b. Qed.

(** Such a program keeps the state, on top of whatever else it does. *)
Lemma wp_stateless {S A} (p : prog S A) Q s l :
  stateless p -> wp p Q s l -> wp p (fun o s' l' => s' = s /\ Q o s' l') s l.
Proof. intros Hp. revert l. induction p; simpl in *; intros; auto; contradiction. Qed.

#[export] Hint Resolve stateless_bind stateless_try stateless_await stateless_lift stateless_emit
  stateless_if : kvc.

(** The requests of a log, in order. *)
Definition requests (l : list event) : list request :=
  omap (fun e => match e with EvReq r _ => Some r | _ => None end) l.

Lemma requests_app l1 l2 : requests (l1 ++ l2) = requests l1 ++ requests l2.
Proof. apply omap_app. Qed.

#[export] Hint Rewrite requests_app : kvc.

(** ** Deterministic environments

    Against a server that answers by a function, a program has one outcome
    [eval], and it takes a state to one state [exec]. *)
Section Exec.
Context {S : Type} (f : request -> axios_result) (answer : string -> bool).

Fixpoint eval {A} (p : prog S A) : result A :=
  match p with
  | Ret a => Ok a
  | Throw e => Err e
  | Request r k => eval (k (f r))
  | SetState _ k => eval k
  | Confirm m k => eval (k (answer m))
  | Emit _ k => eval k
  end.

Fixpoint exec {A} (p : prog S A) (s : S) : S :=
  match p with
  | Ret _ | Throw _ => s
  | Request r k => exec (k (f r)) s
  | SetState g k => exec k (g s)
  | Confirm m k => exec (k (answer m)) s
  | Emit _ k => exec k s
  end.

(** They are the components of [run]. *)
Lemma run_eval_exec {A} (p : prog S A) s :
  let '(o, _, s', _) := run (fun (_ : unit) r => (f r, tt)) answer p tt s in o = eval p /\ s' = exec p s.
Proof.
  revert s. induction p as [a|e|r k IH|g k IH|m k IH|o k IH]; intros s; simpl; try done.
  - specialize (IH (f r) s). by destruct (run _ _ (k (f r)) tt s) as [[[??]?]?].
  - apply IH.
  - specialize (IH (answer m) s). by destruct (run _ _ (k (answer m)) tt s) as [[[??]?]?].
  - specialize (IH s). by destruct (run _ _ k tt s) as [[[??]?]?].
Qed.

Lemma eval_bind {A B} (p : prog S A) (g : A -> prog S B) :
  eval (p ≫= g) = match eval p with Ok a => eval (g a) | Err e => Err e end.
Proof. induction p as [a|e|r k IH|u k IH|m k IH|o k IH]; simpl; try done; apply IH. Qed.

Lemma exec_bind {A B} (p : prog S A) (g : A -> prog S B) s :
  exec (p ≫= g) s = match eval p with Ok a => exec (g a) (exec p s) | Err _ => exec p s end.
Proof. revert s. induction p as [a|e|r k IH|u k IH|m k IH|o k IH]; intros s; simpl; try done; apply IH. Qed.

Lemma exec_try {A} (p : prog S A) h s :
  exec (try_catch p h) s = match eval p with Ok _ => exec p s | Err e => exec (h e) (exec p s) end.
Proof. revert s. induction p as [a|e|r k IH|u k IH|m k IH|o k IH]; intros s; simpl; try done; apply IH. Qed.

Lemma eval_try {A} (p : prog S A) h :
  eval (try_catch p h) = match eval p with Ok a => Ok a | Err e => eval (h e) end.
Proof. induction p as [a|e|r k IH|u k IH|m k IH|o k IH]; simpl; try done; apply IH. Qed.

Lemma exec_finally {A} (p : prog S A) q s : exec (finally_ p q) s = exec q (exec p s).
Proof.
  revert s. induction p as [a|e|r k IH|u k IH|m k IH|o k IH]; intros s; simpl; try apply IH;
    rewrite exec_bind; by destruct (eval q).
Qed.

Lemma exec_stateless {A} (p : prog S A) s : stateless p -> exec p s = s.
Proof. induction p; simpl in *; auto. contradiction. Qed.

(** Past a reading prefix. *)
Lemma eval_bind_ok {A B} (p : prog S A) (g : A -> prog S B) a :
  eval p = Ok a -> eval (p ≫= g) = eval (g a).
Proof. intros H. by rewrite eval_bind, H. Qed.

Lemma exec_bind_ok {A B} (p : prog S A) (g : A -> prog S B) a s :
  eval p = Ok a -> stateless p -> exec (p ≫= g) s = exec (g a) s.
Proof. intros H Hp. by rewrite exec_bind, H, (exec_stateless p). Qed.

(** A try statement whose body does not throw. *)
Lemma exec_try_ok {A} (p : prog S A) h s a : eval p = Ok a -> exec (try_catch p h) s = exec p s.
Proof. intros H. by rewrite exec_try, H. Qed.

Lemma eval_for_of {A X} (xs : list X) (a : A) (body : A -> X -> prog S A) (g : A -> X -> A) :
  (forall a x, In x xs -> eval (body a x) = Ok (g a x)) -> eval (for_of xs a body) = Ok (fold_left g xs a).
Proof.
  revert a. induction xs as [|x xs IH]; intros a H; simpl; [done|].
  rewrite eval_bind, H by (by left). apply IH. intros; apply H; by right.
Qed.

Lemma eval_left_to_right {A} (tasks : list (prog S A)) :
  eval (all_left_to_right tasks) = mapM_result eval tasks.
Proof.
  induction tasks as [|t tasks IH]; simpl; [done|]. rewrite eval_bind. destruct (eval t); simpl; [|done].
  rewrite eval_bind, IH. by destruct (mapM_result eval tasks).
Qed.

Lemma mapM_result_insert {A} (tasks : list (prog S A)) i t t' :
  tasks !! i = Some t -> eval t' = eval t -> mapM_result eval (<[i := t']> tasks) = mapM_result eval tasks.
Proof.
  revert i. induction tasks as [|u tasks IH]; intros [|i] Hi He; simpl in *; simplify_eq; [by rewrite He|].
  destruct (eval u); simpl; [|done]. by rewrite (IH i).
Qed.

(** Against a fixed server the order of the answers does not matter. *)
Lemma eval_promise_all {A} sched (tasks : list (prog S A)) :
  eval (promise_all sched tasks) = mapM_result eval tasks.
Proof.
  revert tasks. induction sched as [|i sched IH]; intros tasks; simpl; [apply eval_left_to_right|].
  destruct (tasks !! i) as [[]|] eqn:E; try apply IH; simpl; rewrite IH;
    by apply (mapM_result_insert _ _ _ _ E).
Qed.

Lemma stateless_for_of {A X} (xs : list X) (a : A) (body : A -> X -> prog S A) :
  (forall a x, stateless (body a x)) -> stateless (for_of xs a body).
Proof.
  intros H. revert a. induction xs as [|x xs IH]; intros a; simpl; [done|]. by apply stateless_bind.
Qed.
End Exec.

(** ** Programs that only read

    [returns I p]: [p] sends only GETs, does not touch the state of the component,
    asks the user nothing, and what it returns satisfies [I]. *)
Fixpoint returns {S A} (I : A -> Prop) (p : prog S A) : Prop :=
  match p with
  | Ret a => I a
  | Throw _ => True
  | Request r k => r_method r = GET /\ forall a, returns I (k a)
  | SetState _ _ | Confirm _ _ => False
  | Emit _ k => returns I k
  end.

Lemma returns_mono {S A} (I J : A -> Prop) (p : prog S A) :
  (forall a, I a -> J a) -> returns I p -> returns J p.
Proof. intros H. induction p; simpl in *; firstorder. Qed.

Lemma returns_bind {S A B} (I : A -> Prop) (J : B -> Prop) (p : prog S A) (f : A -> prog S B) :
  returns I p -> (forall a, I a -> returns J (f a)) -> returns J (p ≫= f).
Proof.
  intros Hp Hf. induction p as [a|e|r k IH|g k IH|m k IH|o k IH]; simpl in *;
    [by apply Hf|done| |done|done|by apply IH].
  destruct Hp as [Hr Hk]. split; [done|]. intros a. by apply IH.
Qed.

Lemma returns_try {S A} (I : A -> Prop) (p : prog S A) (h : exn -> prog S A) :
  returns I p -> (forall e, returns I (h e)) -> returns I (try_catch p h).
Proof. intros Hp Hh. induction p; simpl in *; firstorder. Qed.

Lemma returns_lift {S A} (I : A -> Prop) (r : result A) :
  (forall a, r = Ok a -> I a) -> returns I (@lift S A r).
Proof. intros H. destruct r; simpl; auto. Qed.

Lemma returns_for_of {S A X} (I : A -> Prop) (xs : list X) (a : A) (f : A -> X -> prog S A) :
  I a -> (forall a x, I a -> returns I (f a x)) -> returns I (for_of xs a f).
Proof.
  intros Ha Hf. revert a Ha. induction xs as [|x xs IH]; intros a Ha; simpl; [done|].
  eapply returns_bind; [by apply Hf|]. auto.
Qed.

Lemma returns_stateless {S A} (I : A -> Prop) (p : prog S A) : returns I p -> stateless p.
Proof. induction p; simpl in *; firstorder. Qed.

(** The log grew by GETs and outputs only. *)
Definition reads_only (l l' : list event) : Prop :=
  exists new, l' = l ++ new /\ Forall (fun r => r_method r = GET) (requests new).

Lemma reads_only_refl l : reads_only l l.
Proof. exists []. by rewrite app_nil_r. Qed.

Lemma reads_only_trans l1 l2 l3 : reads_only l1 l2 -> reads_only l2 l3 -> reads_only l1 l3.
Proof.
  intros (n1 & -> & H1) (n2 & -> & H2). exists (n1 ++ n2). rewrite <- app_assoc. split; [done|].
  rewrite requests_app. by apply Forall_app.
Qed.

Lemma reads_only_out l o : reads_only l (l ++ [EvOut o]).
Proof. by exists [EvOut o]. Qed.

#[export] Hint Resolve reads_only_refl reads_only_trans reads_only_out : kvc.

(** A reading program leaves the state alone and adds only GETs to the log. *)
Lemma wp_returns {S A} (I : A -> Prop) (p : prog S A) s l :
  returns I p ->
  wp p (fun o s' l' => s' = s /\ reads_only l l' /\
          match o with Ok a => I a | Err _ => True end) s l.
Proof.
  revert l. induction p as [a|e|r k IH|g k IH|m k IH|o k IH]; intros l H; simpl in *; try done.
  - eauto with kvc.
  - eauto with kvc.
  - destruct H as [Hr Hk]. intros a. eapply wp_mono; [|by apply IH].
    intros o s' l' (-> & Hl & Ho). split_and!; [done| |done].
    eapply reads_only_trans; [|exact Hl]. exists [EvReq r a]. split; [done|]. by constructor.
  - eapply wp_mono; [|by apply IH]. intros o' s' l' (-> & Hl & Ho). eauto with kvc.
Qed.

Lemma wp_returns_bind {S A B} (I : A -> Prop) (p : prog S A) (f : A -> prog S B) Q s l0 l :
  returns I p -> reads_only l0 l ->
  (forall a l', I a -> reads_only l0 l' -> wp (f a) Q s l') ->
  (forall e l', reads_only l0 l' -> Q (Err e) s l') ->
  wp (p ≫= f) Q s l.
Proof.
  intros Hp H0 Hf He. apply wp_bind. eapply wp_mono; [|by apply wp_returns].
  intros [a|e] s' l' (-> & Hl & Ha); eauto using reads_only_trans.
Qed.

#[global] Arguments returns : simpl never.

(** ** Programs that send only GETs, to a server that a GET does not change *)

Fixpoint only_gets {S A} (p : prog S A) : Prop :=
  match p with
  | Ret _ | Throw _ => True
  | Request r k => r_method r = GET /\ forall a, only_gets (k a)
  | SetState _ k | Emit _ k => only_gets k
  | Confirm _ k => forall b, only_gets (k b)
  end.

Lemma only_gets_bind {S A B} (p : prog S A) (f : A -> prog S B) :
  only_gets p -> (forall a, only_gets (f a)) -> only_gets (p ≫= f).
Proof.
  intros Hp Hf. induction p as [a|e|r k IH|g k IH|m k IH|o k IH]; simpl in *;
    [apply Hf|done| |by apply IH|intros b; by apply IH|by apply IH].
  destruct Hp as [Hr Hk]. split; [done|]. intros a. by apply IH.
Qed.

Lemma only_gets_try {S A} (p : prog S A) (h : exn -> prog S A) :
  only_gets p -> (forall e, only_gets (h e)) -> only_gets (try_catch p h).
Proof. intros Hp Hh. induction p; simpl in *; firstorder. Qed.

Lemma only_gets_finally {S A} (p : prog S A) (f : prog S unit) :
  only_gets p -> only_gets f -> only_gets (finally_ p f).
Proof.
  intros Hp Hf. induction p as [a|e|r k IH|g k IH|m k IH|o k IH]; simpl in *;
    [by apply only_gets_bind|by apply only_gets_bind| |by apply IH|intros b; by apply IH|by apply IH].
  destruct Hp as [Hr Hk]. split; [done|]. intros a. by apply IH.
Qed.

Lemma returns_only_gets {S A} (I : A -> Prop) (p : prog S A) : returns I p -> only_gets p.
Proof. induction p; simpl in *; firstorder. Qed.

(** Such a run is the one against the server's answers of the moment. *)
Lemma run_only_gets {Srv S A} (serve : Srv -> request -> axios_result * Srv) answer (p : prog S A) sv s :
  (forall q, r_method q = GET -> snd (serve sv q) = sv) -> only_gets p ->
  exists l, run serve answer p sv s = (eval (fun q => fst (serve sv q)) answer p, sv,
                                       exec (fun q => fst (serve sv q)) answer p s, l).
Proof.
  intros Hsv. revert s. induction p as [a|e|r k IH|g k IH|m k IH|o k IH]; intros s Hp; simpl in *; try by eexists.
  - destruct Hp as [Hr Hk]. specialize (Hsv r Hr). destruct (serve sv r) as [x sv'] eqn:E. simpl in *. subst sv'.
    destruct (IH x s (Hk x)) as [l Hl]. rewrite Hl. by eexists.
  - by apply IH.
  - destruct (IH (answer m) s (Hp _)) as [l Hl]. rewrite Hl. by eexists.
  - destruct (IH s Hp) as [l Hl]. rewrite Hl. by eexists.
Qed.

(** ** Local variables *)

Lemma eval_locally {S L A} f answer (v : L) (p : prog L A) :
  eval f answer (locally (S := S) v p) =
  match eval f answer p with Ok a => Ok (a, exec f answer p v) | Err e => Err e end.
Proof. revert v. induction p as [a|e|r k IH|g k IH|m k IH|o k IH]; intros v; simpl; try done; apply IH. Qed.

Lemma stateless_locally {S L A} (v : L) (p : prog L A) : stateless (locally (S := S) v p).
Proof. revert v. induction p; intros v; simpl; auto. Qed.

Lemma wp_locally {S L A} (v : L) (p : prog L A) Q (s : S) l :
  wp p (fun o v' l' => match o with Ok a => Q (Ok (a, v')) s l' | Err e => Q (Err e) s l' end) v l ->
  wp (locally v p) Q s l.
Proof. revert v l. induction p; intros v l; simpl; auto. Qed.

Lemma only_gets_locally {S L A} (v : L) (p : prog L A) : only_gets p -> only_gets (locally (S := S) v p).
Proof. revert v. induction p; intros v; simpl; firstorder. Qed.

Lemma only_gets_for_of {S A X} (xs : list X) (a : A) (body : A -> X -> prog S A) :
  (forall a x, only_gets (body a x)) -> only_gets (for_of xs a body).
Proof.
  intros H. revert a. induction xs as [|x xs IH]; intros a; simpl; [done|]. by apply only_gets_bind.
Qed.

Lemma only_gets_promise_all {S A} sched (tasks : list (prog S A)) :
  Forall only_gets tasks -> only_gets (promise_all sched tasks).
Proof.
  revert tasks. induction sched as [|i sched IH]; intros tasks H; simpl.
  { induction H; simpl; [done|]. apply only_gets_bind; [done|]. intros a. by apply only_gets_bind. }
  destruct (tasks !! i) as [[]|] eqn:E; try (by apply IH);
    pose proof (Forall_lookup_1 _ _ _ _ H E) as Hi; simpl in *; [|apply IH; by apply Forall_insert..].
  destruct Hi as [Hr Hk]. split; [done|]. intros a. apply IH. by apply Forall_insert.
Qed.

(** ** Parallel tasks that share variables

    Tasks whose updates commute leave the same variables in any order. *)
Section Shared.
Context {L : Type} (f : request -> axios_result) (answer : string -> bool).
Context (J : L -> Prop) (C : (L -> L) -> Prop).
Hypothesis C_keeps : forall g v, C g -> J v -> J (g v).
Hypothesis C_comm : forall g h v, C g -> C h -> J v -> g (h v) = h (g v).

(** Every update [p] makes is one of [C]. *)
Fixpoint updates_by {A} (p : prog L A) : Prop :=
  match p with
  | Ret _ | Throw _ => True
  | Request r k => updates_by (k (f r))
  | SetState g k => C g /\ updates_by k
  | Confirm m k => updates_by (k (answer m))
  | Emit _ k => updates_by k
  end.

Lemma updates_by_bind {A B} (p : prog L A) (g : A -> prog L B) :
  updates_by p -> (forall a, eval f answer p = Ok a -> updates_by (g a)) -> updates_by (p ≫= g).
Proof.
  intros Hp Hg. induction p as [a|e|r k IH|u k IH|m k IH|o k IH]; simpl in *;
    [by apply Hg|done|by apply IH| |by apply IH|by apply IH].
  split; [apply Hp|]. apply IH; [apply Hp|done].
Qed.

Lemma updates_by_try {A} (p : prog L A) h : updates_by p -> (forall e, updates_by (h e)) -> updates_by (try_catch p h).
Proof. intros Hp Hh. induction p; simpl in *; naive_solver. Qed.

Lemma updates_by_stateless {A} (p : prog L A) : stateless p -> updates_by p.
Proof. induction p; simpl; auto. contradiction. Qed.

Lemma exec_keeps {A} (p : prog L A) v : updates_by p -> J v -> J (exec f answer p v).
Proof. revert v. induction p; simpl; intros v Hp Hv; naive_solver. Qed.

Lemma exec_commutes {A} g (p : prog L A) v :
  C g -> updates_by p -> J v -> exec f answer p (g v) = g (exec f answer p v).
Proof.
  intros Hg. revert v. induction p as [a|e|r k IH|u k IH|m k IH|o k IH]; simpl; intros v Hp Hv; auto.
  destruct Hp as [Hu Hp]. rewrite <- IH by auto. f_equal. by apply C_comm.
Qed.

Definition exec_all {A} (tasks : list (prog L A)) (v : L) : L :=
  fold_left (fun v t => exec f answer t v) tasks v.

(** A task that has made the update [g] and has [t'] left. *)
Lemma exec_all_insert {A} i t t' g (tasks : list (prog L A)) v :
  tasks !! i = Some t -> (forall w, exec f answer t w = exec f answer t' (g w)) -> C g ->
  Forall updates_by tasks -> J v -> exec_all (<[i := t']> tasks) (g v) = exec_all tasks v.
Proof.
  intros Hi He Hg Hall. revert i v Hi. induction Hall as [|u tasks Hu _ IH]; intros [|i] v Hi Hv; simplify_eq/=.
  - by rewrite He.
  - rewrite exec_commutes by done. apply IH; [done|]. by apply exec_keeps.
Qed.

Lemma exec_all_same {A} i t t' (tasks : list (prog L A)) v :
  tasks !! i = Some t -> (forall w, exec f answer t w = exec f answer t' w) ->
  exec_all (<[i := t']> tasks) v = exec_all tasks v.
Proof.
  intros Hi He. revert i v Hi. induction tasks as [|u tasks IH]; intros [|i] v Hi; simplify_eq/=; [by rewrite He|].
  by apply IH.
Qed.

Definition answers {A} (t : prog L A) : Prop := exists a, eval f answer t = Ok a.

Lemma exec_left_to_right {A} (tasks : list (prog L A)) v :
  Forall answers tasks -> exec f answer (all_left_to_right tasks) v = exec_all tasks v.
Proof.
  intros H. revert v. induction H as [|t tasks [a Ha] Hall IH]; intros v; simpl; [done|].
  rewrite exec_bind, Ha, exec_bind, IH. by destruct (eval f answer (all_left_to_right tasks)).
Qed.

Lemma exec_promise_all {A} sched (tasks : list (prog L A)) v :
  Forall updates_by tasks -> Forall answers tasks -> J v ->
  exec f answer (promise_all sched tasks) v = exec_all tasks v.
Proof.
  revert tasks v. induction sched as [|i sched IH]; intros tasks v Hu Ha Hv; simpl; [by apply exec_left_to_right|].
  destruct (tasks !! i) as [[]|] eqn:E; try (by apply IH);
    pose proof (Forall_lookup_1 _ _ _ _ Hu E) as Hi; pose proof (Forall_lookup_1 _ _ _ _ Ha E) as Hx; simpl in *.
  - rewrite IH; [|by apply Forall_insert..|done]. by apply (exec_all_same _ _ _ _ _ E).
  - destruct Hi as [Hg Hk]. rewrite IH; [|by apply Forall_insert..|by apply C_keeps].
    by apply (exec_all_insert _ _ _ _ _ _ E).
  - rewrite IH; [|by apply Forall_insert..|done]. by apply (exec_all_same _ _ _ _ _ E).
Qed.
End Shared.

(** ** What parallel tasks have added, for every server

    [accounts d I p]: [p], which has made the updates [act x] for the [x] of [d],
    sends only GETs, makes only such updates and ends with a result and a list of
    all its updates that satisfy [I]. *)
Section Accounts.
Context {L X : Type} (act : L -> X -> L).

Fixpoint accounts {A} (d : list X) (I : A -> list X -> Prop) (p : prog L A) : Prop :=
  match p with
  | Ret a => I a d
  | Throw _ | Confirm _ _ => False
  | Request r k => r_method r = GET /\ forall a, accounts d I (k a)
  | SetState g k => exists x, (forall v, g v = act v x) /\ accounts (d ++ [x]) I k
  | Emit _ k => accounts d I k
  end.

Lemma accounts_returns {A B} (P : A -> Prop) d (I : B -> list X -> Prop) (p : prog L A) (k : A -> prog L B) h :
  returns P p -> (forall a, P a -> accounts d I (try_catch (k a) h)) -> (forall e, accounts d I (h e)) ->
  accounts d I (try_catch (p ≫= k) h).
Proof.
  intros Hp Hk Hh. induction p as [a|e|r q IH|g q IH|m q IH|o q IH]; cbv [returns] in Hp; fold @returns in Hp; simpl;
    [by apply Hk|by apply Hh| |done|done|by apply IH].
  destruct Hp as [Hr Hq]. split; [done|]. intros a. by apply IH.
Qed.

(** All updates of some tasks, in any order. *)
Definition total (v : L) (d : list X) : L := fold_left act d v.

Lemma wp_accounts {A} (I : A -> list X -> Prop) (p : prog L A) d0 d v0 l :
  accounts d I p ->
  wp p (fun o v' l' => reads_only l l' /\ exists a d', o = Ok a /\ I a (d ++ d') /\ v' = total v0 (d0 ++ d'))
  (total v0 d0) l.
Proof.
  revert d0 d l. induction p as [a|e|r k IH|g k IH|m k IH|o k IH]; intros d0 d l H; simpl in *; try done.
  - split; [apply reads_only_refl|]. exists a, []. by rewrite !app_nil_r.
  - destruct H as [Hr Hk]. intros a. eapply wp_mono; [|by apply (IH a d0 d)].
    intros o v' l' [Hl Ho]. split; [|done]. eapply reads_only_trans; [|exact Hl].
    exists [EvReq r a]. split; [done|]. by constructor.
  - destruct H as (x & Hx & Hk). rewrite Hx. replace (act (total v0 d0) x) with (total v0 (d0 ++ [x]))
      by (unfold total; by rewrite fold_left_app). eapply wp_mono; [|by apply (IH (d0 ++ [x]) (d ++ [x]))].
    intros o v' l' (Hl & a & d' & -> & Ha & ->). split; [done|]. exists a, (x :: d'). by rewrite <- !app_assoc in *.
  - eapply wp_mono; [|by apply (IH d0 d)]. intros o' v' l' [Hl Ho]. split; [|done].
    eapply reads_only_trans; [apply reads_only_out|exact Hl].
Qed.

Lemma wp_left_to_right {A} (I : A -> list X -> Prop) (tasks : list (prog L A)) ds d0 v0 l :
  Forall2 (fun d t => accounts d I t) ds tasks ->
  wp (all_left_to_right tasks)
  (fun o v' l' => reads_only l l' /\ exists data ds' d', o = Ok data /\ Forall2 I data ds' /\
  concat ds' ≡ₚ concat ds ++ d' /\ v' = total v0 (d0 ++ d')) (total v0 d0) l.
Proof.
  intros H. revert d0 l. induction H as [|d t ds tasks Ht _ IH]; intros d0 l; simpl.
  { split; [apply reads_only_refl|]. exists [], [], []. by rewrite app_nil_r. }
  apply wp_bind. eapply wp_mono; [|by apply (wp_accounts I t d0 d)].
  intros o v1 l1 (Hl1 & a & d1 & -> & Ha & ->). apply wp_bind. eapply wp_mono; [|apply IH].
  intros o v2 l2 (Hl2 & data & ds' & d' & -> & HI & Hp & ->). simpl. split; [by eapply reads_only_trans|].
  exists (a :: data), ((d ++ d1) :: ds'), (d1 ++ d'). split; [done|]. split; [by constructor|].
  split; [|by rewrite app_assoc]. simpl. rewrite Hp. solve_Permutation.
Qed.

Lemma concat_insert (ds : list (list X)) i d x :
  ds !! i = Some d -> concat (<[i := d ++ [x]]> ds) ≡ₚ concat ds ++ [x].
Proof.
  revert i. induction ds as [|d' ds IH]; intros [|i] Hi; simplify_eq/=; [solve_Permutation|].
  rewrite (IH i) by done. solve_Permutation.
Qed.

Lemma wp_promise_all {A} (I : A -> list X -> Prop) sched (tasks : list (prog L A)) ds d0 v0 l :
  Forall2 (fun d t => accounts d I t) ds tasks ->
  wp (promise_all sched tasks)
  (fun o v' l' => reads_only l l' /\ exists data ds' d', o = Ok data /\ Forall2 I data ds' /\
  concat ds' ≡ₚ concat ds ++ d' /\ v' = total v0 (d0 ++ d')) (total v0 d0) l.
Proof.
  revert tasks ds d0 l. induction sched as [|i sched IH]; intros tasks ds d0 l H; simpl; [by apply wp_left_to_right|].
  destruct (tasks !! i) as [[a|e|r k|g k|m k|o k]|] eqn:E; try (by apply IH);
    destruct (Forall2_lookup_r _ _ _ _ _ H E) as (d & Hd & Ht); simpl in Ht.
  - destruct Ht as [Hr Hk]. intros a. eapply wp_mono; [|apply (IH _ ds)].
    + intros o v' l' [Hl Ho]. split; [|done]. eapply reads_only_trans; [|exact Hl].
      exists [EvReq r a]. split; [done|]. by constructor.
    + rewrite <- (list_insert_id ds i d Hd). by apply Forall2_insert.
  - destruct Ht as (x & Hx & Hk). simpl. rewrite Hx. replace (act (total v0 d0) x) with (total v0 (d0 ++ [x]))
      by (unfold total; by rewrite fold_left_app).
    eapply wp_mono; [|apply (IH _ (<[i := d ++ [x]]> ds)); by apply Forall2_insert].
    intros o v' l' (Hl & data & ds' & d' & -> & HI & Hp & ->). split; [done|]. exists data, ds', (x :: d').
    split; [done|]. split; [done|]. split; [|by rewrite <- app_assoc]. rewrite Hp, (concat_insert _ _ _ _ Hd). solve_Permutation.
  - eapply wp_mono; [|apply (IH _ ds)].
    + intros o' v' l' [Hl Ho]. split; [|done]. eapply reads_only_trans; [apply reads_only_out|exact Hl].
    + rewrite <- (list_insert_id ds i d Hd). by apply Forall2_insert.
Qed.
End Accounts.

(** ** The event loop

    JavaScript runs a handler to its next await without interruption; answers
    to pending requests are delivered one at a time, in any order. *)
Section Loop.
Context {S : Type} (answer : string -> bool).

(** Everything up to the next await: the new state, the outputs, the rest. *)
Fixpoint settle {A} (p : prog S A) (s : S) : S * list output * prog S A :=
  match p with
  | Ret a => (s, [], Ret a)
  | Throw e => (s, [], Throw e)
  | Request r k => (s, [], Request r k)
  | SetState g k => settle k (g s)
  | Confirm m k => settle (k (answer m)) s
  | Emit o k => let '(s', l, q) := settle k s in (s', o :: l, q)
  end.

(** The state of a component and its pending handlers. *)
Record config := Config { c_state : S; c_threads : list (prog S unit) }.

(** A new handler starts and runs to its first await. *)
Definition spawn (p : prog S unit) (c : config) : config :=
  let '(s, _, q) := settle p (c_state c) in Config s (c_threads c ++ [q]).

(** The answer [a] to the request the [i]-th handler waits for arrives. *)
Definition deliver (i : nat) (a : axios_result) (c : config) : option config :=
  match c_threads c !! i with
  | Some (Request r k) =>
      let '(s, _, q) := settle (k a) (c_state c) in
      Some (Config s (<[i := q]> (c_threads c)))
  | _ => None
  end.

Definition waiting (p : prog S unit) : bool := match p with Request _ _ => true | _ => false end.

(** The requests in flight. *)
Definition in_flight (c : config) : list request :=
  omap (fun p => match p with Request r _ => Some r | _ => None end) (c_threads c).
End Loop.
Arguments config : clear implicits.
Arguments Config {S} _ _.
Arguments c_state {S} _.
Arguments c_threads {S} _.

(** Proof steps on [wp]. *)
Ltac wp_step :=
  match goal with
  | |- wp (mbind _ _) _ _ _ => apply wp_bind
  | |- wp (try_catch _ _) _ _ _ => apply wp_try
  | |- wp (finally_ _ _) _ _ _ => apply wp_finally
  | |- wp (lift ?r) _ _ _ => destruct r eqn:?; simpl
  | |- wp (Ret _) _ _ _ => cbn [wp set_state emit]
  | |- wp (Throw _) _ _ _ => cbn [wp set_state emit]
  | |- wp (set_state _) _ _ _ => cbn [wp set_state emit]
  | |- wp (emit _) _ _ _ => cbn [wp set_state emit]
  end.
Ltac wp_steps := repeat wp_step.

#[export] Hint Resolve wp_mono : kvc.
