(* ===== verification/View.v ===== *)
(** * Rendered views and components

    A component is a state, a view and an update.  A view is the tree of
    elements a render returns: element names, the properties that decide what
    the user can see and do (text, links, values, disabled and open flags, event
    handlers), and children.  Class names, inline styles and animation settings
    are not part of it.  An event handler is a constructor of the component's
    event type, and [update] is the code of the handler. *)

From S2P Require Import Prelude JsString JsNumber JsValue Effects.

(** [OnMouse] is onMouseEnter ([true]) and onMouseLeave ([false]). *)
Inductive attr (Ev : Type) :=
| OnClick (e : Ev)
| OnClose (e : Ev)
| OnSubmit (f : list (string * string) -> Ev)
| OnValues (f : list string -> Ev)
| OnInput (f : string -> Ev)
| OnToggle (f : bool -> Ev)
| OnPick (f : string -> Ev)
| OnMouse (f : bool -> Ev)
| Disabled (b : bool)
| Open (b : bool)
| Href (url : string)
| Value (s : string)
| Attr (name val : string).
Arguments OnClick {Ev} _.
Arguments OnClose {Ev} _.
Arguments OnSubmit {Ev} _.
Arguments OnValues {Ev} _.
Arguments OnInput {Ev} _.
Arguments OnToggle {Ev} _.
Arguments OnPick {Ev} _.
Arguments OnMouse {Ev} _.
Arguments Disabled {Ev} _.
Arguments Open {Ev} _.
Arguments Href {Ev} _.
Arguments Value {Ev} _.
Arguments Attr {Ev} _ _.

Inductive node (Ev : Type) :=
| Text (s : string)
| El (tag : string) (attrs : list (attr Ev)) (kids : list (node Ev)).
Arguments Text {Ev} _.
Arguments El {Ev} _ _ _.

(** [cond && <...>] and [cond ? <...> : <...>] *)
Definition when {Ev} (b : bool) (ns : list (node Ev)) : list (node Ev) := if b then ns else [].

(** What the user brings to an event: the text typed into a controlled field,
    the contents of the uncontrolled fields of a form (name and value), the tags of
    a multi-valued field. *)
Record input := Input {
  typed : string;
  entered : list (string * string);
  tags : list string }.

Section Node.
Context {Ev : Type}.
Implicit Types (n : node Ev) (attrs : list (attr Ev)).

(** An element can be used unless it is disabled. *)
Definition enabled attrs : bool :=
  forallb (fun a => match a with Disabled b => negb b | _ => true end) attrs.

(** A dialog, popover or menu with a false [open] property renders nothing. *)
Definition shown attrs : bool :=
  forallb (fun a => match a with Open b => b | _ => true end) attrs.

Definition attr_value attrs : list string :=
  omap (fun a => match a with Value s => Some s | _ => None end) attrs.

(** The values of the options below a node: radio labels and menu items. *)
Fixpoint options n : list string :=
  match n with
  | Text _ => []
  | El tag attrs kids =>
      (if String.eqb tag "FormControlLabel" || String.eqb tag "MenuItem" then attr_value attrs else []) ++
      flat_map options kids
  end.

(** The events an element's own handlers can produce when the user enters
    [i] or picks one of the options below it.  A form is submitted through its
    submit button: HTML blocks the implicit submission while that button is
    disabled. *)
Definition own_events (i : input) attrs (kids : list (node Ev)) : list Ev :=
  flat_map (fun a =>
  match a with
  | OnClick e | OnClose e => [e]
  | OnSubmit f => [f (entered i)]
  | OnValues f => [f (tags i)]
  | OnInput f => [f (typed i)]
  | OnToggle f | OnMouse f => [f true; f false]
  | OnPick f => map f (flat_map options kids)
  | _ => []
  end) attrs.

(** All events the user can cause in a view. *)
Fixpoint fires (i : input) n : list Ev :=
  match n with
  | Text _ => []
  | El _ attrs kids =>
      if shown attrs
      then (if enabled attrs then own_events i attrs kids else []) ++ flat_map (fires i) kids
      else []
  end.

(** The text of a view, in order. *)
Fixpoint texts n : list string :=
  match n with
  | Text s => [s]
  | El _ attrs kids => if shown attrs then flat_map texts kids else []
  end.

(** The links of a view. *)
Fixpoint hrefs n : list string :=
  match n with
  | Text _ => []
  | El _ attrs kids =>
      if shown attrs
      then omap (fun a => match a with Href u => Some u | _ => None end) attrs ++ flat_map hrefs kids
      else []
  end.

Definition all_fires (i : input) (ns : list (node Ev)) : list Ev := flat_map (fires i) ns.
Definition all_texts (ns : list (node Ev)) : list string := flat_map texts ns.
Definition all_hrefs (ns : list (node Ev)) : list string := flat_map hrefs ns.

Lemma all_fires_app i ns1 ns2 : all_fires i (ns1 ++ ns2) = all_fires i ns1 ++ all_fires i ns2.
Proof. apply flat_map_app. Qed.
End Node.

(** A card with a number, and a radio button of a popover: its value, its icon
    if any, its text and the count on its chip if any.  The pages share both. *)
Definition statCard {Ev} (icon label number : string) : node Ev :=
  El "Grid" [] [El "Paper" [] [El "div" [] [El icon [] []];
                               El "div" [] [El "Typography" [] [Text number];
                                            El "Typography" [] [Text label]]]].

Definition radioView {Ev} (v : string) (icon : option string) (text : string) (chip : option Z) : node Ev :=
  El "FormControlLabel" [Value v]
    (El "Radio" [] [] ::
     match icon with Some i => [El i [] []] | None => [] end ++
     [El "span" [] [Text text]] ++
     match chip with Some n => [El "Chip" [Attr "label" (Z_to_string n)] [Text (Z_to_string n)]] | None => [] end).

(** A child expression of any value: null, undefined and booleans render nothing,
    an array its elements; an object makes the render throw. *)
Fixpoint child {Ev} (v : value) : result (list (node Ev)) :=
  match v with
  | VUndefined | VNull | VBool _ => Ok []
  | VNum _ | VStr _ => Ok [Text (to_string v)]
  | VArr l => (fix go l := match l with
                           | [] => Ok []
                           | x :: l' => a ← child x; b ← go l'; Ok (a ++ b)
                           end) l
  | VObj _ => Err (JsErr "Error" "Objects are not valid as a React child")
  end.

(** [parseInt(index) + 1], as the pages of shards and nodes title themselves. *)
Definition one_based (index : string) : string :=
  num_to_string (num_add (num_of_option (parseInt index)) (num 1)).

Lemma flat_map_nil {A B} (f : A -> list B) l : (forall x, f x = []) -> flat_map f l = [].
Proof. intros H. induction l as [|x l IH]; simpl; [done|]. by rewrite H, IH. Qed.

Lemma flat_map_map {A B D} (f : A -> B) (g : B -> list D) l :
  flat_map g (map f l) = flat_map (fun x => g (f x)) l.
Proof. induction l as [|x l IH]; simpl; congruence. Qed.

(** ** Components *)

Record component (P S Ev : Type) := Component {
  comp_init : S;
  comp_view : P -> S -> list (node Ev);
  comp_update : P -> S -> Ev -> prog S unit }.
Arguments Component {P S Ev} _ _ _.
Arguments comp_init {P S Ev} _.
Arguments comp_view {P S Ev} _ _ _.
Arguments comp_update {P S Ev} _ _ _ _.

Section Component.
Context {P S Ev : Type} (C : component P S Ev).

(** The life of a mounted component: under some properties, which the parent
    may change at any time, the user causes an event that the current view
    offers, or the answer to a pending request arrives.  The handler sees the
    properties and the state of the render it belongs to. *)
Inductive ui_step : config S -> config S -> Prop :=
| ui_event answer i p ev c :
    In ev (all_fires i (comp_view C p (c_state c))) ->
    ui_step c (spawn answer (comp_update C p (c_state c) ev) c)
| ui_answer answer i a c c' :
    deliver answer i a c = Some c' -> ui_step c c'.

Inductive reachable : config S -> Prop :=
| reach_init : reachable (Config (comp_init C) [])
| reach_step c c' : reachable c -> ui_step c c' -> reachable c'.

(** Invariants by rule induction. *)
Lemma reachable_inv (I : config S -> Prop) :
  I (Config (comp_init C) []) ->
  (forall answer i p ev c, I c -> In ev (all_fires i (comp_view C p (c_state c))) ->
  I (spawn answer (comp_update C p (c_state c) ev) c)) ->
  (forall answer i a c c', I c -> deliver answer i a c = Some c' -> I c') ->
  forall c, reachable c -> I c.
Proof. intros H0 H1 H2 c Hc. induction Hc as [|c c' Hc IH Hs]; [done|]. destruct Hs; eauto. Qed.
End Component.

(** ** Lemmas on delivery *)

Lemma deliver_inv {S} answer i a (c c' : config S) :
  deliver answer i a c = Some c' ->
  exists r k, c_threads c !! i = Some (Request r k) /\
    let '(s, _, q) := settle answer (k a) (c_state c) in c' = Config s (<[i := q]> (c_threads c)).
Proof.
  unfold deliver. destruct (c_threads c !! i) as [[]|] eqn:E; try done.
  destruct (settle answer (k a) (c_state c)) as [[s l] q] eqn:E'. intros. simplify_eq.
  eexists _, _. split; [done|]. by rewrite E'.
Qed.

(** ** One request at a time

    A component whose controls are disabled while it is busy has at most one
    request in flight, and is busy exactly while it has one. *)

(** A handler at its await that ends the busy phase when it is done: after each
    answer, whatever happened to the rest of the state in between, it either ends
    with the flag cleared, or awaits the next answer with the flag still set. *)
Inductive one_shot {S} (busy : S -> bool) : prog S unit -> Prop :=
| OneShot r k :
    (forall answer a s s' o q, settle answer (k a) s = (s', o, q) -> busy s = true ->
       (waiting q = false /\ busy s' = false) \/ (busy s' = true /\ one_shot busy q)) ->
    one_shot busy (Request r k).

Definition flight_count {S} (ts : list (prog S unit)) : nat :=
  length (omap (fun p : prog S unit => match p with Request r _ => Some r | _ => None end) ts).

Lemma flight_count_app {S} (ts us : list (prog S unit)) :
  flight_count (ts ++ us) = (flight_count ts + flight_count us)%nat.
Proof. unfold flight_count. by rewrite omap_app, length_app. Qed.

Lemma flight_count_not_waiting {S} (p : prog S unit) : waiting p = false -> flight_count [p] = 0%nat.
Proof. by destruct p. Qed.

Lemma flight_count_middle {S} (ts : list (prog S unit)) i p q :
  ts !! i = Some p ->
  (flight_count (<[i := q]> ts) + flight_count [p] = flight_count ts + flight_count [q])%nat.
Proof.
  intros Hi. rewrite <- (take_drop_middle ts i p) at 2 by done.
  rewrite insert_take_drop by (by eapply lookup_lt_Some).
  change (?x :: ?l) with ([x] ++ l). rewrite !flight_count_app. lia.
Qed.

(** Answering the request of one handler. *)
Lemma flight_count_insert {S} (ts : list (prog S unit)) i r k q :
  ts !! i = Some (Request r k) -> waiting q = false ->
  flight_count ts = Datatypes.S (flight_count (<[i := q]> ts)).
Proof.
  intros Hi Hq. pose proof (flight_count_middle ts i _ q Hi) as H.
  rewrite (flight_count_not_waiting q) in H by done. change (flight_count [Request r k]) with 1%nat in H. lia.
Qed.

Lemma flight_count_replace {S} (ts : list (prog S unit)) i r k r' k' :
  ts !! i = Some (Request r k) -> flight_count (<[i := Request r' k']> ts) = flight_count ts.
Proof.
  intros Hi. pose proof (flight_count_middle ts i _ (Request r' k') Hi) as H.
  change (flight_count [Request r k]) with 1%nat in H.
  change (flight_count [Request r' k']) with 1%nat in H. lia.
Qed.

Lemma flight_count_lookup {S} (ts : list (prog S unit)) i r k :
  ts !! i = Some (Request r k) -> (0 < flight_count ts)%nat.
Proof.
  intros Hi. pose proof (flight_count_middle ts i _ (Ret tt) Hi) as H.
  change (flight_count [Request r k]) with 1%nat in H. change (flight_count [@Ret S unit tt]) with 0%nat in H. lia.
Qed.

Section SingleFlight.
Context {P S Ev : Type} (C : component P S Ev) (busy : S -> bool).

(** What one event may do: leave the flag alone and await nothing, or set the
    flag and await one answer. *)
Definition flight_event (s : S) (r : S * list output * prog S unit) : Prop :=
  let '(s', _, q) := r in
  (waiting q = false /\ busy s' = busy s) \/ (busy s = false /\ busy s' = true /\ one_shot busy q).

Definition flight_inv (c : config S) : Prop :=
  flight_count (c_threads c) = (if busy (c_state c) then 1 else 0)%nat /\
  Forall (fun q => waiting q = true -> one_shot busy q) (c_threads c).

Lemma single_flight :
  busy (comp_init C) = false ->
  (forall answer i p s ev, In ev (all_fires i (comp_view C p s)) ->
  flight_event s (settle answer (comp_update C p s ev) s)) ->
  forall c, reachable C c -> length (in_flight c) = if busy (c_state c) then 1%nat else 0%nat.
Proof.
  intros H0 Hev c Hc. cut (flight_inv c); [by intros [? _]|].
  revert c Hc. apply (reachable_inv C flight_inv).
  - split; simpl; [by rewrite H0|done].
  - intros answer i p ev c' [Hn Hall] Hin. specialize (Hev answer i p _ ev Hin).
    unfold spawn. destruct (settle _ _ _) as [[s' o] q]. unfold flight_inv. simpl in *.
    rewrite flight_count_app, Hn. destruct Hev as [[Hq ->]|(-> & -> & Hq)].
    + rewrite (flight_count_not_waiting q) by done. split; [lia|].
      apply Forall_app. split; [done|]. constructor; [congruence|done].
    + inversion Hq; subst. split; [done|]. apply Forall_app. split; [done|]. by constructor.
  - intros answer i a c1 c2 [Hn Hall] (r & k & Hi & Hd)%deliver_inv.
    pose proof (Forall_lookup_1 _ _ _ _ Hall Hi eq_refl) as Hk. inversion Hk as [? ? Hk']; subst.
    destruct (settle _ _ _) as [[s' o] q] eqn:Es. subst c2. unfold flight_inv. simpl.
    pose proof (flight_count_lookup _ _ _ _ Hi) as Hpos.
    destruct (busy (c_state c1)) eqn:Eb; [|lia].
    destruct (Hk' _ _ _ _ _ _ Es Eb) as [[Hq ->]|[-> Hq]].
    + pose proof (flight_count_insert _ _ _ _ _ Hi Hq). split; [lia|].
      apply Forall_insert; [done|]. intros. congruence.
    + inversion Hq; subst. rewrite (flight_count_replace _ _ _ _ _ _ Hi). split; [done|].
      by apply Forall_insert.
Qed.
End SingleFlight.
