(* ===== verification/Collate.v ===== *)
(** * Sorting with comparators

    [Array.prototype.sort] with a comparator that returns a number, and
    [String.prototype.localeCompare].  The order of localeCompare depends on the
    locale of the browser; what ECMAScript requires of it (a consistent comparison
    function) is the class [Collation], and the pages are verified for every
    instance. *)

From S2P Require Import Prelude JsString JsNumber JsValue.

Class Collation := {
  localeCompare : string -> string -> Z;
  localeCompare_opp a b : Z.sgn (localeCompare b a) = - Z.sgn (localeCompare a b);
  localeCompare_trans a b c : localeCompare a b <= 0 -> localeCompare b c <= 0 -> localeCompare a c <= 0 }.

(** What the sort needs of a comparator. *)
Class Consistent {A} (cmp : A -> A -> Z) : Prop := {
  cmp_total a b : cmp a b <= 0 \/ cmp b a <= 0;
  cmp_trans a b c : cmp a b <= 0 -> cmp b c <= 0 -> cmp a c <= 0 }.

(** [l.sort(cmp)] *)
Definition sort_by {A} (cmp : A -> A -> Z) (l : list A) : list A := stable_sort (fun a b => cmp a b <=? 0) l.

Section SortBy.
Context {A : Type} (cmp : A -> A -> Z).

Lemma sort_by_perm l : Permutation (sort_by cmp l) l.
Proof. apply stable_sort_perm. Qed.

Lemma length_sort_by l : length (sort_by cmp l) = length l.
Proof. apply length_stable_sort. Qed.

Lemma sort_by_sorted `{Consistent A cmp} l : StronglySorted (fun a b => cmp a b <= 0) (sort_by cmp l).
Proof.
  eapply StronglySorted_impl; [|apply (stable_sort_sorted (fun a b => cmp a b <=? 0))]; cbv beta.
  - lia.
  - intros x y. destruct (cmp_total x y); [left|right]; lia.
  - intros x y z Hxy Hyz. apply Z.leb_le. apply (cmp_trans x y z); lia.
Qed.

(** Elements that compare equal to each other keep their order. *)
Lemma sort_by_stable (p : A -> bool) l :
  (forall a b, p a = true -> p b = true -> cmp a b = 0) -> List.filter p (sort_by cmp l) = List.filter p l.
Proof. intros H. apply (stable_sort_stable (fun a b => cmp a b <=? 0)). intros a b Ha Hb. rewrite H; done. Qed.

Lemma sort_by_zero l : (forall a b, cmp a b = 0) -> sort_by cmp l = l.
Proof. intros H. apply stable_sort_const. intros. by rewrite H. Qed.
End SortBy.

(** [rows.filter(p).sort(cmp)]: exactly the rows that pass, in order, and rows
    the comparator does not tell apart in their old order. *)
Lemma filter_sort {A} (cmp : A -> A -> Z) `{Consistent A cmp} (p : A -> bool) l :
  Permutation (sort_by cmp (List.filter p l)) (List.filter p l) /\
  StronglySorted (fun a b => cmp a b <= 0) (sort_by cmp (List.filter p l)) /\
  (forall q, (forall a b, q a = true -> q b = true -> cmp a b = 0) ->
     List.filter q (sort_by cmp (List.filter p l)) = List.filter q (List.filter p l)).
Proof.
  split_and!; [apply sort_by_perm|by apply sort_by_sorted|]. intros q Hq. by apply sort_by_stable.
Qed.

(** The comparators the pages use: a key ascending or descending, a name
    ascending or descending, and none. *)
#[export] Instance consistent_asc {A} (key : A -> Z) : Consistent (fun a b => key a - key b).
Proof. split; intros; lia. Qed.

#[export] Instance consistent_desc {A} (key : A -> Z) : Consistent (fun a b => key b - key a).
Proof. split; intros; lia. Qed.

#[export] Instance consistent_zero {A} : Consistent (fun _ _ : A => 0).
Proof. split; intros; lia. Qed.

Lemma localeCompare_total `{Collation} a b : localeCompare a b <= 0 \/ localeCompare b a <= 0.
Proof. pose proof (localeCompare_opp a b). lia. Qed.

#[export] Instance consistent_name_asc `{Collation} {A} (key : A -> string) :
  Consistent (fun a b => localeCompare (key a) (key b)).
Proof. split; intros; [apply localeCompare_total|by eapply localeCompare_trans]. Qed.

#[export] Instance consistent_name_desc `{Collation} {A} (key : A -> string) :
  Consistent (fun a b => localeCompare (key b) (key a)).
Proof. split; intros; [apply localeCompare_total|by eapply localeCompare_trans]. Qed.

(** ** Comparators that may throw or return NaN

    A comparator on values reads properties, so it may throw; a NaN it returns
    counts as zero.  The sort compares every element of an array of two or more
    with another one, so it throws exactly when some comparison does. *)
Definition at_most_zero (d : number) : bool := isNaN d || num_le d (num 0).

Section SortResult.
Context {A : Type} (cmp : A -> A -> result number).

Fixpoint insert_result (x : A) (l : list A) : result (list A) :=
  match l with
  | [] => Ok [x]
  | y :: l' => d ← cmp x y;
      if at_most_zero d then Ok (x :: y :: l') else r ← insert_result x l'; Ok (y :: r)
  end.

Fixpoint sort_result (l : list A) : result (list A) :=
  match l with
  | [] => Ok []
  | x :: l' => r ← sort_result l'; insert_result x r
  end.

(** On values that represent elements of another type, where the comparator does
    not throw, the sort is that of the elements. *)
Lemma sort_result_pure {B} (f : B -> A) (key : B -> B -> Z) (l : list B) :
  (forall x y, (d ← cmp (f x) (f y); Ok (at_most_zero d)) = Ok (key x y <=? 0)) ->
  sort_result (map f l) = Ok (map f (sort_by key l)).
Proof.
  intros H. set (leb := fun a b => key a b <=? 0).
  assert (Hins : forall x r, insert_result (f x) (map f r) = Ok (map f (insert_sorted leb x r))).
  { intros x r. induction r as [|y r IH]; [done|]. cbn [map insert_result insert_sorted].
    specialize (H x y). destruct (cmp (f x) (f y)) as [d|]; [|done]. simpl in H. simplify_eq.
    cbn [mbind result_bind]. unfold leb at 1. rewrite <- H. destruct (at_most_zero d); [done|].
    by rewrite IH. }
  induction l as [|x l IH]; [done|]. cbn [map sort_result]. rewrite IH. cbn [mbind result_bind].
  apply Hins.
Qed.
End SortResult.

(** The order of the code units, a collation. *)
Fixpoint code_unit_compare (a b : string) : Z :=
  match a, b with
  | EmptyString, EmptyString => 0
  | EmptyString, _ => -1
  | _, EmptyString => 1
  | String c a', String d b' =>
      match (N_of_ascii c ?= N_of_ascii d)%N with
      | Lt => -1 | Gt => 1 | Eq => code_unit_compare a' b'
      end
  end.

Lemma code_unit_opp a b : Z.sgn (code_unit_compare b a) = - Z.sgn (code_unit_compare a b).
Proof.
  revert b. induction a as [|c a IH]; intros [|d b]; simpl; try done.
  rewrite (N.compare_antisym (N_of_ascii c) (N_of_ascii d)).
  destruct (N.compare _ _); simpl; [apply IH|done..].
Qed.

Lemma code_unit_trans a b c :
  code_unit_compare a b <= 0 -> code_unit_compare b c <= 0 -> code_unit_compare a c <= 0.
Proof.
  revert b c. induction a as [|x a IH]; intros [|y b] [|z c]; simpl; try lia.
  destruct (N.compare_spec (N_of_ascii x) (N_of_ascii y)) as [E1|E1|E1]; [|intros _|lia].
  - rewrite E1. destruct (N.compare (N_of_ascii y) (N_of_ascii z)); [apply IH|lia|lia].
  - destruct (N.compare_spec (N_of_ascii y) (N_of_ascii z)) as [E2|E2|E2]; [|intros _|lia];
      (destruct (N.compare_spec (N_of_ascii x) (N_of_ascii z)); lia).
Qed.

Definition code_unit_collation : Collation :=
  {| localeCompare := code_unit_compare;
     localeCompare_opp := code_unit_opp;
     localeCompare_trans := code_unit_trans |}.
