(* ===== verification/Api.v ===== *)
(** * The API client (webui/src/app/lib/api.ts)

    One definition per exported function, with the two response helpers and
    the error formatter.  Every function awaits one axios call inside a
    try/catch.  Arguments that come from a form are values, arguments that come
    from a route are strings. *)

From S2P Require Import Prelude JsString JsNumber JsValue Effects.

Definition apiPrefix : string := "/api/v1".
Definition apiHost : string := apiPrefix.

(** What handleError is applied to: a caught exception or a response body. *)
Definition thrown : Type := exn + value.

Definition handleError (error : thrown) : value :=
  let message :=
    match error with
    | inl (AxiosErr response m) =>
        js_or (match response with
               | Some data => prop (prop data "error") "message"
               | None => VUndefined
               end) (VStr m)
    | inl (JsErr _ m) => VStr m
    | inr v =>
        if is_object v
        then js_or (prop (prop v "error") "message") (prop v "message")
        else VStr ""
    end in
  js_or message (VStr "Unknown error").

Definition handleCreateResponse (responseData : value) : value :=
  if negb (nullish (prop responseData "data")) then VStr ""
  else handleError (inr responseData).

Definition handleDeleteResponse (responseData : value) : value :=
  if nullish responseData || nullish (prop responseData "data")
     || strict_eq (prop responseData "data") (VStr "ok")
  then VStr ""
  else handleError (inr responseData).

(** ** Paths *)

Definition namespacesPath : string := apiHost +:+ "/namespaces".
Definition namespacePath (ns : string) : string := namespacesPath +:+ "/" +:+ ns.
Definition clustersPath (ns : string) : string := namespacePath ns +:+ "/clusters".
Definition clusterPath (ns cluster : string) : string := clustersPath ns +:+ "/" +:+ cluster.
Definition shardsPath (ns cluster : string) : string := clusterPath ns cluster +:+ "/shards".
Definition shardPath (ns cluster shard : string) : string := shardsPath ns cluster +:+ "/" +:+ shard.
Definition nodesPath (ns cluster shard : string) : string := shardPath ns cluster shard +:+ "/nodes".
Definition nodePath (ns cluster shard id : string) : string := nodesPath ns cluster shard +:+ "/" +:+ id.

Section Api.
Context {S : Type}.

Definition axios_get (path : string) : prog S value := await_axios (Req GET path VUndefined).
Definition axios_delete (path : string) : prog S value := await_axios (Req DELETE path VUndefined).
Definition axios_post (path : string) (body : value) : prog S value := await_axios (Req POST path body).

Definition fetchNamespaces : prog S value :=
  try_catch
  (responseData ← axios_get namespacesPath;
  data ← lift (get responseData "data");
  namespaces ← lift (get data "namespaces");
  Ret (js_or namespaces (VArr [])))
  (fun _ => Ret (VArr [])).

Definition createNamespace (name : value) : prog S value :=
  try_catch
  (responseData ← axios_post namespacesPath (VObj [("namespace", name)]);
  Ret (handleCreateResponse responseData))
  (fun error => Ret (handleError (inl error))).

Definition deleteNamespace (name : string) : prog S value :=
  try_catch
  (responseData ← axios_delete (namespacePath name);
  Ret (handleDeleteResponse responseData))
  (fun error => Ret (handleError (inl error))).

Definition createCluster (name nodes : value) (replicas : number) (password : value)
  (namespace : string) : prog S value :=
  try_catch
  (responseData ← axios_post (clustersPath namespace)
  (VObj [("name", name); ("nodes", nodes); ("replicas", VNum replicas); ("password", password)]);
  Ret (handleCreateResponse responseData))
  (fun error => Ret (handleError (inl error))).

Definition fetchClusters (namespace : string) : prog S value :=
  try_catch
  (responseData ← axios_get (clustersPath namespace);
  data ← lift (get responseData "data");
  clusters ← lift (get data "clusters");
  Ret (js_or clusters (VArr [])))
  (fun _ => Ret (VArr [])).

Definition fetchCluster (namespace cluster : string) : prog S value :=
  try_catch
  (responseData ← axios_get (clusterPath namespace cluster);
  data ← lift (get responseData "data");
  lift (get data "cluster"))
  (fun _ => Ret (VObj [])).

Definition deleteCluster (namespace cluster : string) : prog S value :=
  try_catch
  (responseData ← axios_delete (clusterPath namespace cluster);
  Ret (handleDeleteResponse responseData))
  (fun error => Ret (handleError (inl error))).

Definition importCluster (namespace : string) (cluster nodes password : value) : prog S value :=
  try_catch
  (responseData ← axios_post (clusterPath namespace (to_string cluster) +:+ "/import")
  (VObj [("nodes", nodes); ("password", password)]);
  _ ← emit (OConsole "importCluster response");
  Ret (handleCreateResponse responseData))
  (fun error => Ret (handleError (inl error))).

Definition migrateSlot (namespace cluster : string) (target : number) (slot : string)
  (slotOnly : bool) : prog S value :=
  try_catch
  (responseData ← axios_post (clusterPath namespace cluster +:+ "/migrate")
  (VObj [("target", VNum target); ("slot", VStr slot); ("slot_only", VBool slotOnly)]);
  Ret (handleCreateResponse responseData))
  (fun error => Ret (handleError (inl error))).

Definition createShard (namespace cluster : string) (nodes password : value) : prog S value :=
  try_catch
  (responseData ← axios_post (shardsPath namespace cluster)
  (VObj [("nodes", nodes); ("password", password)]);
  Ret (handleCreateResponse responseData))
  (fun error => Ret (handleError (inl error))).

Definition fetchShard (namespace cluster shard : string) : prog S value :=
  try_catch
  (responseData ← axios_get (shardPath namespace cluster shard);
  data ← lift (get responseData "data");
  lift (get data "shard"))
  (fun _ => Ret (VObj [])).

Definition listShards (namespace cluster : string) : prog S value :=
  try_catch
  (responseData ← axios_get (shardsPath namespace cluster);
  data ← lift (get responseData "data");
  shards ← lift (get data "shards");
  Ret (js_or shards (VArr [])))
  (fun _ => Ret (VArr [])).

Definition deleteShard (namespace cluster shard : string) : prog S value :=
  try_catch
  (responseData ← axios_delete (shardPath namespace cluster shard);
  Ret (handleDeleteResponse responseData))
  (fun error => Ret (handleError (inl error))).

Definition createNode (namespace cluster shard : string) (addr role password : value) : prog S value :=
  try_catch
  (responseData ← axios_post (nodesPath namespace cluster shard)
  (VObj [("addr", addr); ("role", role); ("password", password)]);
  Ret (handleCreateResponse responseData))
  (fun error => Ret (handleError (inl error))).

Definition listNodes (namespace cluster shard : string) : prog S value :=
  try_catch
  (responseData ← axios_get (nodesPath namespace cluster shard);
  data ← lift (get responseData "data");
  nodes ← lift (get data "nodes");
  Ret (js_or nodes (VArr [])))
  (fun _ => Ret (VArr [])).

Definition deleteNode (namespace cluster shard nodeId : string) : prog S value :=
  try_catch
  (responseData ← axios_delete (nodePath namespace cluster shard nodeId);
  Ret (handleDeleteResponse responseData))
  (fun error => _ ← emit (OConsole (exn_to_string error)); Ret (handleError (inl error))).

(** The [{ newMasterId?, error? }] object. *)
Inductive failover_result := NewMaster (id : value) | FailoverError (error : value).

Definition failoverShard (namespace cluster shard : string) (preferredNodeId : option string) :
  prog S failover_result :=
  let requestBody :=
  match preferredNodeId with
  | Some id => if String.eqb id "" then VObj [] else VObj [("preferred_node_id", VStr id)]
  | None => VObj []
  end in
  try_catch
  (responseData ← axios_post (shardPath namespace cluster shard +:+ "/failover") requestBody;
  let id := prop (prop responseData "data") "new_master_id" in
  Ret (if truthy id then NewMaster id else FailoverError (handleError (inr responseData))))
  (fun error => Ret (FailoverError (handleError (inl error)))).
End Api.

(** ** Interface lemmas

    What the calls do, for every answer of the server: one request, no
    exception, no change of the caller's state. *)

Definition create_result (a : axios_result) : value :=
  match a with Resolved d => handleCreateResponse d | Rejected e => handleError (inl e) end.

Definition delete_result (a : axios_result) : value :=
  match a with Resolved d => handleDeleteResponse d | Rejected e => handleError (inl e) end.

(** [responseData.data.k || fallback], the fallback on any failure. *)
Definition list_result (k : string) (a : axios_result) : value :=
  match a with
  | Resolved d => match data ← get d "data"; v ← get data k; Ok (js_or v (VArr [])) with
                  | Ok v => v
                  | Err _ => VArr []
                  end
  | Rejected _ => VArr []
  end.

Definition object_result (k : string) (a : axios_result) : value :=
  match a with
  | Resolved d => match data ← get d "data"; get data k with Ok v => v | Err _ => VObj [] end
  | Rejected _ => VObj []
  end.

Ltac api_call :=
  intros; split;
  [ intros H a; specialize (H a); destruct a as [d|e]; [destruct d|]; simpl in *; try exact H
  | intros H a; specialize (H a); destruct a as [d|e]; [destruct d|]; simpl in *; try exact H ].

Section Calls.
Context {S : Type}.
Implicit Types (Q : result value -> S -> list event -> Prop) (s : S) (l : list event).

(** The shape of every listing call. *)
Lemma list_call_wp path k Q s l :
  wp (try_catch
  (responseData ← axios_get path;
  data ← lift (get responseData "data");
  v ← lift (get data k);
  Ret (js_or v (VArr [])))
  (fun _ => Ret (VArr []))) Q s l <->
  forall a, Q (Ok (list_result k a)) s (l ++ [EvReq (Req GET path VUndefined) a]).
Proof.
  split; intros H a; specialize (H a); destruct a as [d|e]; simpl in *; try exact H;
    unfold list_result in *; simpl in *; destruct (get d "data") as [x|]; simpl in *; try exact H;
    destruct (get x k); exact H.
Qed.

Lemma object_call_wp path k Q s l :
  wp (try_catch
  (responseData ← axios_get path;
  data ← lift (get responseData "data");
  lift (get data k))
  (fun _ => Ret (VObj []))) Q s l <->
  forall a, Q (Ok (object_result k a)) s (l ++ [EvReq (Req GET path VUndefined) a]).
Proof.
  split; intros H a; specialize (H a); destruct a as [d|e]; simpl in *; try exact H;
    unfold object_result in *; simpl in *; destruct (get d "data") as [x|]; simpl in *; try exact H;
    destruct (get x k); exact H.
Qed.

Lemma create_call_wp path body Q s l :
  wp (try_catch (responseData ← axios_post path body; Ret (handleCreateResponse responseData))
  (fun error => Ret (handleError (inl error)))) Q s l <->
  forall a, Q (Ok (create_result a)) s (l ++ [EvReq (Req POST path body) a]).
Proof. split; intros H a; specialize (H a); destruct a; exact H. Qed.

Lemma delete_call_wp path Q s l :
  wp (try_catch (responseData ← axios_delete path; Ret (handleDeleteResponse responseData))
  (fun error => Ret (handleError (inl error)))) Q s l <->
  forall a, Q (Ok (delete_result a)) s (l ++ [EvReq (Req DELETE path VUndefined) a]).
Proof. split; intros H a; specialize (H a); destruct a; exact H. Qed.

Lemma fetchNamespaces_wp Q s l :
  wp fetchNamespaces Q s l <->
  forall a, Q (Ok (list_result "namespaces" a)) s (l ++ [EvReq (Req GET namespacesPath VUndefined) a]).
Proof. apply list_call_wp. Qed.

Lemma fetchClusters_wp ns Q s l :
  wp (fetchClusters ns) Q s l <->
  forall a, Q (Ok (list_result "clusters" a)) s (l ++ [EvReq (Req GET (clustersPath ns) VUndefined) a]).
Proof. apply list_call_wp. Qed.

Lemma listShards_wp ns c Q s l :
  wp (listShards ns c) Q s l <->
  forall a, Q (Ok (list_result "shards" a)) s (l ++ [EvReq (Req GET (shardsPath ns c) VUndefined) a]).
Proof. apply list_call_wp. Qed.

Lemma listNodes_wp ns c sh Q s l :
  wp (listNodes ns c sh) Q s l <->
  forall a, Q (Ok (list_result "nodes" a)) s (l ++ [EvReq (Req GET (nodesPath ns c sh) VUndefined) a]).
Proof. apply list_call_wp. Qed.

Lemma fetchCluster_wp ns c Q s l :
  wp (fetchCluster ns c) Q s l <->
  forall a, Q (Ok (object_result "cluster" a)) s (l ++ [EvReq (Req GET (clusterPath ns c) VUndefined) a]).
Proof. apply object_call_wp. Qed.

Lemma fetchShard_wp ns c sh Q s l :
  wp (fetchShard ns c sh) Q s l <->
  forall a, Q (Ok (object_result "shard" a)) s (l ++ [EvReq (Req GET (shardPath ns c sh) VUndefined) a]).
Proof. apply object_call_wp. Qed.
End Calls.

(** ** The mutating calls, as one type *)

Inductive mutation :=
| MCreateNamespace (name : value)
| MDeleteNamespace (name : string)
| MCreateCluster (name nodes : value) (replicas : number) (password : value) (ns : string)
| MDeleteCluster (ns cluster : string)
| MImportCluster (ns : string) (cluster nodes password : value)
| MMigrateSlot (ns cluster : string) (target : number) (slot : string) (slotOnly : bool)
| MCreateShard (ns cluster : string) (nodes password : value)
| MDeleteShard (ns cluster shard : string)
| MCreateNode (ns cluster shard : string) (addr role password : value)
| MDeleteNode (ns cluster shard id : string).

Definition perform {S} (m : mutation) : prog S value :=
  match m with
  | MCreateNamespace n => createNamespace n
  | MDeleteNamespace n => deleteNamespace n
  | MCreateCluster n ns r p nsp => createCluster n ns r p nsp
  | MDeleteCluster ns c => deleteCluster ns c
  | MImportCluster ns c nodes p => importCluster ns c nodes p
  | MMigrateSlot ns c t sl so => migrateSlot ns c t sl so
  | MCreateShard ns c nodes p => createShard ns c nodes p
  | MDeleteShard ns c sh => deleteShard ns c sh
  | MCreateNode ns c sh a r p => createNode ns c sh a r p
  | MDeleteNode ns c sh id => deleteNode ns c sh id
  end.

Definition mutation_request (m : mutation) : request :=
  match m with
  | MCreateNamespace n => Req POST namespacesPath (VObj [("namespace", n)])
  | MDeleteNamespace n => Req DELETE (namespacePath n) VUndefined
  | MCreateCluster n nodes r p ns =>
      Req POST (clustersPath ns) (VObj [("name", n); ("nodes", nodes); ("replicas", VNum r); ("password", p)])
  | MDeleteCluster ns c => Req DELETE (clusterPath ns c) VUndefined
  | MImportCluster ns c nodes p =>
      Req POST (clusterPath ns (to_string c) +:+ "/import") (VObj [("nodes", nodes); ("password", p)])
  | MMigrateSlot ns c t sl so =>
      Req POST (clusterPath ns c +:+ "/migrate")
        (VObj [("target", VNum t); ("slot", VStr sl); ("slot_only", VBool so)])
  | MCreateShard ns c nodes p => Req POST (shardsPath ns c) (VObj [("nodes", nodes); ("password", p)])
  | MDeleteShard ns c sh => Req DELETE (shardPath ns c sh) VUndefined
  | MCreateNode ns c sh a r p =>
      Req POST (nodesPath ns c sh) (VObj [("addr", a); ("role", r); ("password", p)])
  | MDeleteNode ns c sh id => Req DELETE (nodePath ns c sh id) VUndefined
  end.

Definition mutation_result (m : mutation) (a : axios_result) : value :=
  match r_method (mutation_request m) with DELETE => delete_result a | _ => create_result a end.

(** An answer that means success: a created object, or a deletion with no
    content or with the data "ok". *)
Definition accepted (m : meth) (a : axios_result) : bool :=
  match a with
  | Rejected _ => false
  | Resolved d =>
      match m with
      | DELETE => nullish d || nullish (prop d "data") || strict_eq (prop d "data") (VStr "ok")
      | _ => negb (nullish (prop d "data"))
      end
  end.

Lemma handleError_truthy e : truthy (handleError e) = true.
Proof. by apply js_or_truthy. Qed.

Lemma handleError_not_empty e : strict_eq (handleError e) (VStr "") = false.
Proof.
  pose proof (handleError_truthy e) as H. destruct (handleError e) as [| | | |[]| |]; done.
Qed.

(** The result of a mutation is the empty string exactly on success, and is
    truthy otherwise. *)
Lemma mutation_result_cases m a :
  if accepted (r_method (mutation_request m)) a
  then mutation_result m a = VStr ""
  else truthy (mutation_result m a) = true.
Proof.
  unfold mutation_result, accepted, create_result, delete_result,
    handleCreateResponse, handleDeleteResponse.
  destruct a as [d|e]; [|destruct m; apply handleError_truthy].
  destruct m; simpl; case_match; try done; apply handleError_truthy.
Qed.

Lemma create_result_cases a :
  if accepted POST a then create_result a = VStr "" else truthy (create_result a) = true.
Proof. exact (mutation_result_cases (MCreateNamespace VUndefined) a). Qed.

Lemma delete_result_cases a :
  if accepted DELETE a then delete_result a = VStr "" else truthy (delete_result a) = true.
Proof. exact (mutation_result_cases (MDeleteNamespace "") a). Qed.

(** [response === ""] in the callers. *)
Lemma create_result_ok a : strict_eq (create_result a) (VStr "") = accepted POST a.
Proof.
  pose proof (create_result_cases a) as H. destruct (accepted POST a); [by rewrite H|].
  destruct (create_result a) as [| | | |[]| |]; done.
Qed.

Lemma create_result_truthy a : truthy (create_result a) = negb (accepted POST a).
Proof. pose proof (create_result_cases a) as H. destruct (accepted POST a); [by rewrite H|done]. Qed.

Lemma delete_result_ok a : strict_eq (delete_result a) (VStr "") = accepted DELETE a.
Proof.
  pose proof (delete_result_cases a) as H. destruct (accepted DELETE a); [by rewrite H|].
  destruct (delete_result a) as [| | | |[]| |]; done.
Qed.

Lemma delete_result_truthy a : truthy (delete_result a) = negb (accepted DELETE a).
Proof. pose proof (delete_result_cases a) as H. destruct (accepted DELETE a); [by rewrite H|done]. Qed.

(** A rejected deletion of a node is reported on the console. *)
Definition reported (a : axios_result) : list event :=
  match a with Rejected e => [EvOut (OConsole (exn_to_string e))] | Resolved _ => [] end.

Lemma deleteNode_wp {S} ns c sh i (Q : result value -> S -> list event -> Prop) s l :
  wp (deleteNode ns c sh i) Q s l <->
  forall a, Q (Ok (delete_result a)) s (l ++ EvReq (mutation_request (MDeleteNode ns c sh i)) a :: reported a).
Proof.
  split; intros H a; specialize (H a); destruct a; simpl in *; rewrite <- ?app_assoc in *; exact H.
Qed.

Lemma accepted_not_reported m a : accepted m a = true -> reported a = [].
Proof. by destruct a. Qed.

#[export] Hint Rewrite create_result_ok create_result_truthy delete_result_ok
  delete_result_truthy handleError_truthy handleError_not_empty : kvc.

(** C7. Every mutating call of the client, whatever the server answers, sends
    exactly its one request, never throws, leaves the state of the component
    alone, and returns the empty string exactly when the answer is a success;
    otherwise it returns a non-empty message. *)
Theorem mutation_contract S (m : mutation) (s : S) l :
  wp (perform m)
    (fun o s' l' => exists a v,
       o = Ok v /\ s' = s /\ requests l' = requests l ++ [mutation_request m] /\
       In (EvReq (mutation_request m) a) l' /\
       (v = VStr "" <-> accepted (r_method (mutation_request m)) a = true) /\
       (accepted (r_method (mutation_request m)) a = false -> truthy v = true)) s l.
Proof.
  assert (Hgen : forall a v, v = mutation_result m a ->
    (v = VStr "" <-> accepted (r_method (mutation_request m)) a = true) /\
    (accepted (r_method (mutation_request m)) a = false -> truthy v = true)).
  { intros a v ->. pose proof (mutation_result_cases m a) as H.
    destruct (accepted _ a); split; [done..| |done].
    split; [|done]. intros Hv. by rewrite Hv in H. }
  destruct m; intros a; destruct a as [d|e]; simpl;
    (eexists _, _; split; [done|]; split; [done|]; split;
     [by autorewrite with kvc; rewrite ?app_nil_r|]; split;
     [rewrite !in_app_iff; simpl; auto|]; apply Hgen; done).
Qed.

(** No call touches the state of the component that awaits it. *)
Lemma perform_stateless {S} (m : mutation) : stateless (@perform S m).
Proof.
  destruct m; apply stateless_try; intros; try exact I;
    (apply stateless_bind; [apply stateless_await|intros; exact I]).
Qed.

(** The listing calls, as one type. *)
Inductive listing :=
| LNamespaces
| LClusters (ns : string)
| LShards (ns cluster : string)
| LNodes (ns cluster shard : string).

Definition list_call {S} (q : listing) : prog S value :=
  match q with
  | LNamespaces => fetchNamespaces
  | LClusters ns => fetchClusters ns
  | LShards ns c => listShards ns c
  | LNodes ns c sh => listNodes ns c sh
  end.

Definition listing_path (q : listing) : string :=
  match q with
  | LNamespaces => namespacesPath
  | LClusters ns => clustersPath ns
  | LShards ns c => shardsPath ns c
  | LNodes ns c sh => nodesPath ns c sh
  end.

Definition listing_key (q : listing) : string :=
  match q with
  | LNamespaces => "namespaces" | LClusters _ => "clusters"
  | LShards _ _ => "shards" | LNodes _ _ _ => "nodes"
  end.

(** The body [{ data: { k: v } }] of a listing. *)
Definition listing_body (k : string) (v : value) : value := VObj [("data", VObj [(k, v)])].

(** C35. Every listing call sends one GET, never throws and never yields a
    falsy value: a rejected request, a body without data and a null list (which
    Go sends for an empty slice) all become the empty array, and a list that
    the server sends is returned as it is. *)
Theorem listing_contract S (q : listing) (s : S) l :
  wp (list_call q)
    (fun o s' l' => exists a v,
       o = Ok v /\ s' = s /\ l' = l ++ [EvReq (Req GET (listing_path q) VUndefined) a] /\
       truthy v = true /\
       (forall e, a = Rejected e -> v = VArr []) /\
       (a = Resolved (listing_body (listing_key q) VNull) -> v = VArr []) /\
       (forall xs, a = Resolved (listing_body (listing_key q) (VArr xs)) -> v = VArr xs)) s l.
Proof.
  assert (Ht : forall k a, truthy (list_result k a) = true).
  { intros k [d|e]; simpl; [|done]. destruct (get d "data") as [x|]; simpl; [|done].
    destruct (get x k); simpl; [|done]. by apply js_or_truthy. }
  destruct q; simpl list_call;
    [rewrite fetchNamespaces_wp|rewrite fetchClusters_wp|rewrite listShards_wp|rewrite listNodes_wp];
    intros a; exists a; eexists; (split; [done|]); (split; [done|]); (split; [done|]);
    (split; [apply Ht|]); repeat split; intros; simplify_eq; reflexivity.
Qed.

(** The reading calls only read. *)
Lemma list_call_returns {S} (q : listing) : returns (fun _ => True) (@list_call S q).
Proof.
  destruct q; (apply returns_try; [|done]); (split; [done|]); intros [d|e]; simpl; try done;
    destruct (get d "data") as [x|]; simpl; try done; by destruct (get x _).
Qed.

Lemma fetchNamespaces_returns {S} : returns (fun _ => True) (@fetchNamespaces S).
Proof. exact (list_call_returns LNamespaces). Qed.
Lemma fetchClusters_returns {S} ns : returns (fun _ => True) (@fetchClusters S ns).
Proof. exact (list_call_returns (LClusters ns)). Qed.
Lemma listShards_returns {S} ns c : returns (fun _ => True) (@listShards S ns c).
Proof. exact (list_call_returns (LShards ns c)). Qed.
Lemma listNodes_returns {S} ns c sh : returns (fun _ => True) (@listNodes S ns c sh).
Proof. exact (list_call_returns (LNodes ns c sh)). Qed.
#[export] Hint Resolve fetchNamespaces_returns fetchClusters_returns listShards_returns listNodes_returns : kvc.

(** ** A server with fixed contents

    What the lists of a controller hold, and a server that answers the listings
    from it. *)
Record world := World {
  w_namespaces : list string;
  w_clusters : string -> list string;
  w_shards : string -> string -> list value;
  w_nodes : string -> string -> nat -> list value }.

Record serves (f : request -> axios_result) (w : world) : Prop := {
  serves_namespaces :
    f (Req GET namespacesPath VUndefined) = Resolved (listing_body "namespaces" (VArr (map VStr (w_namespaces w))));
  serves_clusters ns : In ns (w_namespaces w) ->
    f (Req GET (clustersPath ns) VUndefined) = Resolved (listing_body "clusters" (VArr (map VStr (w_clusters w ns))));
  serves_shards ns c : In ns (w_namespaces w) -> In c (w_clusters w ns) ->
    f (Req GET (shardsPath ns c) VUndefined) = Resolved (listing_body "shards" (VArr (w_shards w ns c)));
  serves_nodes ns c i : In ns (w_namespaces w) -> In c (w_clusters w ns) -> (i < length (w_shards w ns c))%nat ->
    f (Req GET (nodesPath ns c (nat_to_string i)) VUndefined) = Resolved (listing_body "nodes" (VArr (w_nodes w ns c i))) }.

Lemma eval_list_call {S} f answer q xs :
  f (Req GET (listing_path q) VUndefined) = Resolved (listing_body (listing_key q) (VArr xs)) ->
  eval f answer (@list_call S q) = Ok (VArr xs).
Proof. intros H. destruct q; simpl in *; rewrite H; reflexivity. Qed.

(** A listing whose request fails is the empty list. *)
Lemma eval_list_rejected {S} f answer q e :
  f (Req GET (listing_path q) VUndefined) = Rejected e -> eval f answer (@list_call S q) = Ok (VArr []).
Proof. intros H. destruct q; simpl in *; rewrite H; reflexivity. Qed.

Section Serves.
Context {S : Type} (f : request -> axios_result) (w : world) (Hf : serves f w) (answer : string -> bool).

Lemma eval_fetchNamespaces : eval f answer (@fetchNamespaces S) = Ok (VArr (map VStr (w_namespaces w))).
Proof. apply (eval_list_call f answer LNamespaces), Hf. Qed.

Lemma eval_fetchClusters ns :
  In ns (w_namespaces w) -> eval f answer (@fetchClusters S ns) = Ok (VArr (map VStr (w_clusters w ns))).
Proof. intros. by apply (eval_list_call f answer (LClusters ns)), Hf. Qed.

Lemma eval_listShards ns c :
  In ns (w_namespaces w) -> In c (w_clusters w ns) ->
  eval f answer (@listShards S ns c) = Ok (VArr (w_shards w ns c)).
Proof. intros. by apply (eval_list_call f answer (LShards ns c)), Hf. Qed.

Lemma eval_listNodes ns c i :
  In ns (w_namespaces w) -> In c (w_clusters w ns) -> (i < length (w_shards w ns c))%nat ->
  eval f answer (@listNodes S ns c (nat_to_string i)) = Ok (VArr (w_nodes w ns c i)).
Proof. intros. by apply (eval_list_call f answer (LNodes ns c (nat_to_string i))), Hf. Qed.
End Serves.

(** A server for one namespace with one cluster of two shards. *)
Definition demo_world : world :=
  World ["ns"] (fun _ => ["c"]) (fun _ _ => [VObj []; VObj []]) (fun _ _ i => if (i =? 0)%nat then [VObj []; VObj []] else [VObj []]).

Definition demo_server (r : request) : axios_result :=
  if String.eqb (r_path r) namespacesPath then Resolved (listing_body "namespaces" (VArr [VStr "ns"]))
  else if String.eqb (r_path r) (clustersPath "ns") then Resolved (listing_body "clusters" (VArr [VStr "c"]))
  else if String.eqb (r_path r) (shardsPath "ns" "c") then Resolved (listing_body "shards" (VArr [VObj []; VObj []]))
  else if String.eqb (r_path r) (nodesPath "ns" "c" "0") then Resolved (listing_body "nodes" (VArr [VObj []; VObj []]))
  else Resolved (listing_body "nodes" (VArr [VObj []])).

Lemma demo_serves : serves demo_server demo_world.
Proof.
  split; [reflexivity|..].
  - intros ns [<-|[]]. reflexivity.
  - intros ns c [<-|[]] [<-|[]]. reflexivity.
  - intros ns c i [<-|[]] [<-|[]] Hi. simpl in Hi. destruct i as [|[|i]]; [reflexivity..|lia].
Qed.

Definition failover_body (preferred : option string) : value :=
  match preferred with
  | Some id => if String.eqb id "" then VObj [] else VObj [("preferred_node_id", VStr id)]
  | None => VObj []
  end.

Definition failover_request (ns cluster shard : string) (preferred : option string) : request :=
  Req POST (shardPath ns cluster shard +:+ "/failover") (failover_body preferred).

Definition failover_answer (a : axios_result) : failover_result :=
  match a with
  | Resolved d =>
      let id := prop (prop d "data") "new_master_id" in
      if truthy id then NewMaster id else FailoverError (handleError (inr d))
  | Rejected e => FailoverError (handleError (inl e))
  end.

Lemma failoverShard_wp {S} ns c sh p (Q : result failover_result -> S -> list event -> Prop) s l :
  wp (failoverShard ns c sh p) Q s l <->
  forall a, Q (Ok (failover_answer a)) s (l ++ [EvReq (failover_request ns c sh p) a]).
Proof. split; intros H a; specialize (H a); destruct a; exact H. Qed.

Lemma migrateSlot_wp {S} ns c t sl so (Q : result value -> S -> list event -> Prop) s l :
  wp (migrateSlot ns c t sl so) Q s l <->
  forall a, Q (Ok (create_result a)) s (l ++ [EvReq (mutation_request (MMigrateSlot ns c t sl so)) a]).
Proof. apply create_call_wp. Qed.

(** The failover call sends one POST whose body names the preferred node
    exactly when a non-empty id is given; it never throws, and it returns either
    the identifier of the new master that the server sent (never a falsy one) or
    a non-empty error, never both. *)
Theorem failover_contract S ns cluster shard preferred (s : S) l :
  wp (failoverShard ns cluster shard preferred)
    (fun o s' l' => exists a r,
       o = Ok r /\ s' = s /\
       l' = l ++ [EvReq (failover_request ns cluster shard preferred) a] /\
       (forall id, preferred = Some id -> id <> "" ->
          prop (r_body (failover_request ns cluster shard preferred)) "preferred_node_id" = VStr id) /\
       ((preferred = None \/ preferred = Some "") ->
          r_body (failover_request ns cluster shard preferred) = VObj []) /\
       match r with
       | NewMaster id => truthy id = true /\ exists d, a = Resolved d /\ id = prop (prop d "data") "new_master_id"
       | FailoverError e => truthy e = true
       end) s l.
Proof.
  rewrite failoverShard_wp. intros a. exists a. eexists. do 3 (split; [done|]).
  split; [|split].
  - intros id -> Hid. simpl. destruct (String.eqb_spec id ""); done.
  - intros [->| ->]; done.
  - destruct a as [d|e]; simpl; [|apply handleError_truthy].
    destruct (truthy _) eqn:E; [|apply handleError_truthy]. eauto.
Qed.

(** ** Agreement with the server's routes (server/route.go) *)

(** The routes of [initHandlers] under /api/v1/namespaces, with the prefix of
    their groups; a segment that starts with a colon is a parameter. *)
Definition server_routes : list (meth * string) :=
  [(GET, "/api/v1/namespaces");
   (GET, "/api/v1/namespaces/:namespace");
   (POST, "/api/v1/namespaces");
   (DELETE, "/api/v1/namespaces/:namespace");
   (GET, "/api/v1/namespaces/:namespace/clusters");
   (POST, "/api/v1/namespaces/:namespace/clusters");
   (POST, "/api/v1/namespaces/:namespace/clusters/:cluster/import");
   (GET, "/api/v1/namespaces/:namespace/clusters/:cluster");
   (DELETE, "/api/v1/namespaces/:namespace/clusters/:cluster");
   (POST, "/api/v1/namespaces/:namespace/clusters/:cluster/migrate");
   (GET, "/api/v1/namespaces/:namespace/clusters/:cluster/shards");
   (POST, "/api/v1/namespaces/:namespace/clusters/:cluster/shards");
   (GET, "/api/v1/namespaces/:namespace/clusters/:cluster/shards/:shard");
   (DELETE, "/api/v1/namespaces/:namespace/clusters/:cluster/shards/:shard");
   (POST, "/api/v1/namespaces/:namespace/clusters/:cluster/shards/:shard/failover");
   (GET, "/api/v1/namespaces/:namespace/clusters/:cluster/shards/:shard/nodes");
   (POST, "/api/v1/namespaces/:namespace/clusters/:cluster/shards/:shard/nodes");
   (DELETE, "/api/v1/namespaces/:namespace/clusters/:cluster/shards/:shard/nodes/:id")].

Definition is_param (seg : string) : bool :=
  match seg with String ":" _ => true | _ => false end.

(** The path has as many segments as the route, equal where the route has no
    parameter, and not empty where it has one. *)
Fixpoint segments_match (route path : list string) : bool :=
  match route, path with
  | [], [] => true
  | r :: rs, p :: ps =>
      (if is_param r then negb (String.eqb p "") else String.eqb r p) && segments_match rs ps
  | _, _ => false
  end.

Definition routed (m : meth) (path : string) : list (meth * string) :=
  List.filter (fun '(m', route) =>
    match m, m' with
    | GET, GET | POST, POST | DELETE, DELETE =>
        segments_match (split "/" route) (split "/" path)
    | _, _ => false
    end) server_routes.

(** A segment of a path as the router sees it, and a name in a key of the store:
    not empty and without a slash.  (How the characters of a name fare in an
    address on the way to the router is the subject of Url.v.) *)
Definition path_name (s : string) : bool :=
  negb (String.eqb s "") && negb (any_char (Ascii.eqb "/"%char) s).

(** The names a mutation puts in its path. *)
Definition mutation_names (m : mutation) : list string :=
  match m with
  | MCreateNamespace _ => []
  | MDeleteNamespace n => [n]
  | MCreateCluster _ _ _ _ ns => [ns]
  | MDeleteCluster ns c => [ns; c]
  | MImportCluster ns c _ _ => [ns; to_string c]
  | MMigrateSlot ns c _ _ _ => [ns; c]
  | MCreateShard ns c _ _ => [ns; c]
  | MDeleteShard ns c sh => [ns; c; sh]
  | MCreateNode ns c sh _ _ _ => [ns; c; sh]
  | MDeleteNode ns c sh id => [ns; c; sh; id]
  end.

Definition mutation_route (m : mutation) : string :=
  match m with
  | MCreateNamespace _ => "/api/v1/namespaces"
  | MDeleteNamespace _ => "/api/v1/namespaces/:namespace"
  | MCreateCluster _ _ _ _ _ => "/api/v1/namespaces/:namespace/clusters"
  | MDeleteCluster _ _ => "/api/v1/namespaces/:namespace/clusters/:cluster"
  | MImportCluster _ _ _ _ => "/api/v1/namespaces/:namespace/clusters/:cluster/import"
  | MMigrateSlot _ _ _ _ _ => "/api/v1/namespaces/:namespace/clusters/:cluster/migrate"
  | MCreateShard _ _ _ _ => "/api/v1/namespaces/:namespace/clusters/:cluster/shards"
  | MDeleteShard _ _ _ => "/api/v1/namespaces/:namespace/clusters/:cluster/shards/:shard"
  | MCreateNode _ _ _ _ _ _ => "/api/v1/namespaces/:namespace/clusters/:cluster/shards/:shard/nodes"
  | MDeleteNode _ _ _ _ => "/api/v1/namespaces/:namespace/clusters/:cluster/shards/:shard/nodes/:id"
  end.

Lemma path_name_spec s :
  path_name s = true -> any_char (Ascii.eqb "/"%char) s = false /\ String.eqb s "" = false.
Proof. unfold path_name. intros [H1 H2]%andb_prop. by apply negb_true_iff in H1, H2. Qed.

(** The segments of the path behind /api/v1. *)
Definition mutation_segments (m : mutation) : list string :=
  match m with
  | MCreateNamespace _ => ["namespaces"]
  | MDeleteNamespace n => ["namespaces"; n]
  | MCreateCluster _ _ _ _ ns => ["namespaces"; ns; "clusters"]
  | MDeleteCluster ns c => ["namespaces"; ns; "clusters"; c]
  | MImportCluster ns c _ _ => ["namespaces"; ns; "clusters"; to_string c; "import"]
  | MMigrateSlot ns c _ _ _ => ["namespaces"; ns; "clusters"; c; "migrate"]
  | MCreateShard ns c _ _ => ["namespaces"; ns; "clusters"; c; "shards"]
  | MDeleteShard ns c sh => ["namespaces"; ns; "clusters"; c; "shards"; sh]
  | MCreateNode ns c sh _ _ _ => ["namespaces"; ns; "clusters"; c; "shards"; sh; "nodes"]
  | MDeleteNode ns c sh id => ["namespaces"; ns; "clusters"; c; "shards"; sh; "nodes"; id]
  end.

Lemma mutation_path_join m :
  r_path (mutation_request m) = join "/" ("" :: "api" :: "v1" :: mutation_segments m).
Proof.
  destruct m; cbn [r_path mutation_request mutation_segments];
  unfold nodePath, nodesPath, shardPath, shardsPath, clusterPath, clustersPath, namespacePath,
    namespacesPath; rewrite ?append_assoc; reflexivity.
Qed.

Lemma mutation_path_split m :
  Forall (fun n => path_name n = true) (mutation_names m) ->
  split "/" (r_path (mutation_request m)) = "" :: "api" :: "v1" :: mutation_segments m.
Proof.
  intros H. rewrite mutation_path_join. apply split_join; [done|].
  do 3 (constructor; [done|]).
  destruct m; simpl in *; repeat match goal with
    | H : Forall _ (_ :: _) |- _ => inversion_clear H
    | H : path_name _ = true |- _ => apply path_name_spec in H as [? ?]
    end; repeat constructor; done.
Qed.

(** The segments of the routes, computed. *)
Definition route_segments : list (meth * string * list string) :=
  Eval vm_compute in map (fun '(m, r) => (m, r, split "/" r)) server_routes.

Lemma routed_segments m path :
  routed m path = map fst (List.filter (fun '(m', _, segs) =>
    match m, m' with
    | GET, GET | POST, POST | DELETE, DELETE => segments_match segs (split "/" path)
    | _, _ => false
    end) route_segments).
Proof.
  change route_segments with (map (fun '(m, r) => (m, r, split "/" r)) server_routes).
  unfold routed. generalize server_routes as rs. induction rs as [|[m' r] rs IH]; [done|].
  cbn [List.filter map]. rewrite IH.
  destruct m, m'; try reflexivity; by destruct (segments_match _ _).
Qed.

(** With names that are not empty and have no slash, the path of every
    mutating call has exactly the segments of its route with the names in the
    place of the parameters, and it matches exactly one route of the server for
    its method: the intended one. *)
Theorem mutation_routed m :
  Forall (fun n => path_name n = true) (mutation_names m) ->
  routed (r_method (mutation_request m)) (r_path (mutation_request m))
  = [(r_method (mutation_request m), mutation_route m)].
Proof.
  intros H. rewrite routed_segments, mutation_path_split by done.
  unfold route_segments. destruct m; cbn [mutation_names] in H;
    repeat match goal with
    | H : Forall _ (_ :: _) |- _ => inversion_clear H
    | H : path_name _ = true |- _ => apply path_name_spec in H as [_ H]
    end; cbn [r_method mutation_request mutation_segments List.filter segments_match is_param map fst];
    repeat match goal with H : String.eqb _ _ = false |- _ => rewrite !H; clear H end; reflexivity.
Qed.

Lemma mutation_routed_witness :
  Forall (fun n => path_name n = true) (mutation_names (MDeleteNode "ns" "c1" "0" "n1")) /\
  routed DELETE "/api/v1/namespaces/ns/clusters/c1/shards/0/nodes/n1"
  = [(DELETE, "/api/v1/namespaces/:namespace/clusters/:cluster/shards/:shard/nodes/:id")].
Proof.
  split; [by repeat constructor|].
  apply (mutation_routed (MDeleteNode "ns" "c1" "0" "n1")). by repeat constructor.
Defined.
