(* ===== verification/Url.v ===== *)
(** * Names in addresses

    webui/src/app/lib/api.ts writes names into the paths of its requests as they
    are, without encodeURIComponent.  Between axios and the router of the server
    lie the URL parser of the browser, the rewrite of next.config.mjs and net/http,
    which together make a path of the string: [deliver].  They cut a query and a
    fragment off, resolve dot segments and decode escapes, so the router sees
    the interpolated names only when these are made of characters that stand for
    themselves.  [Transport] states what the standard promises; the theorems that
    join the web UI and the server are proved for every transport. *)

From S2P Require Import Prelude JsString JsNumber JsValue Effects Api.

(** A character that stands for itself in a segment of a path: pchar of RFC 3986
    without the percent sign. *)
Definition is_alpha (c : ascii) : bool :=
  (Ascii.leb "a" c && Ascii.leb c "z") || (Ascii.leb "A" c && Ascii.leb c "Z").

Definition pchar (c : ascii) : bool :=
  is_alpha c || is_digit c || any_char (Ascii.eqb c) "-._~!$&'()*+,;=:@".

(** A segment that is carried unchanged: not empty, of such characters, no dot
    segment. *)
Definition plain_segment (s : string) : bool :=
  negb (String.eqb s "") && all_chars pchar s && negb (String.eqb s ".") && negb (String.eqb s "..").

Definition path_of (segs : list string) : string := join "/" ("" :: segs).

(** What happens to the address of a request: the path the router gets, or none
    when the request is refused on the way.  A path of plain segments arrives as
    it is; a question mark ends the path. *)
Class Transport := {
  deliver : string -> option string;
  deliver_plain segs : segs <> [] -> Forall (fun s => plain_segment s = true) segs ->
    deliver (path_of segs) = Some (path_of segs);
  deliver_query segs q : segs <> [] -> Forall (fun s => plain_segment s = true) segs -> all_chars pchar q = true ->
    deliver (path_of segs +:+ String "?" q) = Some (path_of segs) }.

(** A server behind the transport. *)
Definition over_url {Srv} `{Transport} (sv : Srv -> request -> axios_result * Srv) (e : Srv) (q : request) :
    axios_result * Srv :=
  match deliver (r_path q) with
  | Some p => sv e (Req (r_method q) p (r_body q))
  | None => (Rejected (AxiosErr None "Request failed with status code 400"), e)
  end.

(** ** Plain segments *)

Lemma plain_name s : plain_segment s = true -> path_name s = true.
Proof.
  unfold plain_segment, path_name. rewrite !andb_true_iff, !negb_true_iff. intros [[[H1 H2] _] _]. split; [done|].
  revert H2. apply all_chars_not_any. intros c Hc. destruct (Ascii.eqb_spec "/" c) as [<-|]; [done|done].
Qed.

Lemma plain_names l : Forall (fun s => plain_segment s = true) l -> Forall (fun s => path_name s = true) l.
Proof. intros H. eapply Forall_impl; [exact H|]. apply plain_name. Qed.

Lemma plain_nat i : plain_segment (nat_to_string i) = true.
Proof.
  unfold plain_segment. pose proof (nat_to_string_digits i) as Hd. pose proof (Z_to_string_nonempty (Z.of_nat i)) as Hne.
  fold (nat_to_string i) in Hne. rewrite !andb_true_iff, !negb_true_iff. split_and!.
  - by apply String.eqb_neq.
  - revert Hd. apply all_chars_impl. intros c Hc. unfold pchar. by rewrite Hc, orb_true_r.
  - apply String.eqb_neq. intros E. by rewrite E in Hd.
  - apply String.eqb_neq. intros E. by rewrite E in Hd.
Qed.

Section Carried.
Context `{Transport} {Srv : Type} (sv : Srv -> request -> axios_result * Srv).

Lemma over_url_plain e q segs :
  r_path q = path_of segs -> segs <> [] -> Forall (fun s => plain_segment s = true) segs -> over_url sv e q = sv e q.
Proof. intros Hp Hne Hs. unfold over_url. rewrite Hp, deliver_plain by done. by destruct q; simpl in *; subst. Qed.

Lemma over_url_query e m segs q :
  segs <> [] -> Forall (fun s => plain_segment s = true) segs -> all_chars pchar q = true ->
  over_url sv e (Req m (path_of segs +:+ String "?" q) VUndefined) = sv e (Req m (path_of segs) VUndefined).
Proof. intros Hne Hs Hq. unfold over_url. cbn [r_path r_method r_body]. by rewrite deliver_query. Qed.

Lemma over_url_get e q :
  (forall q', r_method q' = GET -> snd (sv e q') = e) -> r_method q = GET -> snd (over_url sv e q) = e.
Proof. intros Hg Hm. unfold over_url. by destruct (deliver (r_path q)); [apply Hg|]. Qed.

(** A mutation with plain names reaches the server as it was sent. *)
Lemma over_url_mutation e m :
  Forall (fun n => plain_segment n = true) (mutation_names m) ->
  over_url sv e (mutation_request m) = sv e (mutation_request m).
Proof.
  intros Hn. apply (over_url_plain _ _ ("api" :: "v1" :: mutation_segments m)); [apply mutation_path_join|done|].
  do 2 (constructor; [done|]). destruct m; simpl in *;
    repeat match goal with H : Forall _ (_ :: _) |- _ => inversion_clear H end; repeat (constructor; [done|]); done.
Qed.

(** Likewise the listings of a world with plain names, and the description of a
    cluster. *)
Lemma over_url_cluster e ns c :
  plain_segment ns = true -> plain_segment c = true ->
  over_url sv e (Req GET (clusterPath ns c) VUndefined) = sv e (Req GET (clusterPath ns c) VUndefined).
Proof.
  intros Hn Hc. apply (over_url_plain _ _ ["api"; "v1"; "namespaces"; ns; "clusters"; c]); [|done|by repeat constructor].
  cbn [r_path]. unfold clusterPath, clustersPath, namespacePath, namespacesPath. by rewrite ?append_assoc.
Qed.

Lemma over_url_shards e ns c :
  plain_segment ns = true -> plain_segment c = true ->
  over_url sv e (Req GET (shardsPath ns c) VUndefined) = sv e (Req GET (shardsPath ns c) VUndefined).
Proof.
  intros Hn Hc. apply (over_url_plain _ _ ["api"; "v1"; "namespaces"; ns; "clusters"; c; "shards"]); [|done|by repeat constructor].
  cbn [r_path]. unfold shardsPath, clusterPath, clustersPath, namespacePath, namespacesPath. by rewrite ?append_assoc.
Qed.

Definition plain_world (w : world) : Prop :=
  forall ns, In ns (w_namespaces w) -> plain_segment ns = true /\ forall c, In c (w_clusters w ns) -> plain_segment c = true.

Lemma serves_over_url e w :
  plain_world w -> serves (fun q => fst (sv e q)) w -> serves (fun q => fst (over_url sv e q)) w.
Proof.
  intros Hp Hs.
  assert (Hpath : forall p segs, p = path_of segs -> segs <> [] -> Forall (fun s => plain_segment s = true) segs ->
    over_url sv e (Req GET p VUndefined) = sv e (Req GET p VUndefined)) by (intros p segs ? ? ?; by apply (over_url_plain _ _ segs)).
  split; [|intros ns Hn|intros ns c Hn Hc|intros ns c i Hn Hc Hi];
    try (destruct (Hp ns Hn) as [Hns Hcs]); try (pose proof (Hcs c Hc) as Hpc).
  - rewrite (Hpath _ ["api"; "v1"; "namespaces"]) by (done || by repeat constructor). by apply (serves_namespaces _ w Hs).
  - rewrite (Hpath _ ["api"; "v1"; "namespaces"; ns; "clusters"]).
    + by apply (serves_clusters _ w Hs).
    + unfold clustersPath, namespacePath, namespacesPath. by rewrite ?append_assoc.
    + done.
    + by repeat constructor.
  - rewrite (Hpath _ ["api"; "v1"; "namespaces"; ns; "clusters"; c; "shards"]).
    + by apply (serves_shards _ w Hs).
    + unfold shardsPath, clusterPath, clustersPath, namespacePath, namespacesPath. by rewrite ?append_assoc.
    + done.
    + by repeat constructor.
  - rewrite (Hpath _ ["api"; "v1"; "namespaces"; ns; "clusters"; c; "shards"; nat_to_string i; "nodes"]).
    + by apply (serves_nodes _ w Hs).
    + unfold nodesPath, shardPath, shardsPath, clusterPath, clustersPath, namespacePath, namespacesPath. by rewrite ?append_assoc.
    + done.
    + repeat (constructor; [done|]). constructor; [apply plain_nat|by repeat constructor].
Qed.
End Carried.

(** ** A transport

    Cutting off the fragment and the query, resolving dot segments (escaped ones
    too) and decoding escapes; an incomplete escape is refused. *)

Definition before (c : ascii) (s : string) : string := List.hd "" (split c s).

Definition one_dot (s : string) : bool := existsb (String.eqb (toLowerCase s)) ["."; "%2e"].
Definition two_dots (s : string) : bool := existsb (String.eqb (toLowerCase s)) [".."; ".%2e"; "%2e."; "%2e%2e"].

Fixpoint resolve (acc segs : list string) : list string :=
  match segs with
  | [] => rev acc
  | s :: segs' =>
      if two_dots s then resolve (List.tl acc) segs'
      else if one_dot s then resolve acc segs' else resolve (s :: acc) segs'
  end.

Fixpoint unescape (s : string) : option string :=
  match s with
  | "" => Some ""
  | String "%" (String a (String b t)) =>
      x ← hex_value a; y ← hex_value b; u ← unescape t; Some (String (ascii_of_N (Z.to_N (16 * x + y))) u)
  | String "%" _ => None
  | String c t => u ← unescape t; Some (String c u)
  end.

Definition wire_path (url : string) : option string :=
  match split "/" (before "?" (before "#" url)) with
  | root :: segs => unescape (join "/" (root :: resolve [] segs))
  | [] => None
  end.

Definition carried (c : ascii) : bool := pchar c || Ascii.eqb c "/".

Lemma path_of_carried segs : Forall (fun s => plain_segment s = true) segs -> all_chars carried (path_of segs) = true.
Proof.
  intros Hs. unfold path_of. assert (Hx : Forall (fun s => all_chars carried s = true) ("" :: segs)).
  { constructor; [done|]. eapply Forall_impl; [exact Hs|]. intros s Hp. unfold plain_segment in Hp.
    rewrite !andb_true_iff in Hp. destruct Hp as [[[_ Hp] _] _]. revert Hp. apply all_chars_impl. intros c Hc.
    unfold carried. by rewrite Hc. }
  clear Hs. induction Hx as [|s l Hs Hl IH]; [done|]. destruct l as [|t l]; [exact Hs|].
  change (join "/" (s :: t :: l)) with (s +:+ "/" +:+ join "/" (t :: l)). rewrite !all_chars_append, Hs, IH. done.
Qed.

Lemma carried_not c d : carried d = false -> carried c = true -> Ascii.eqb d c = false.
Proof. intros Hd Hc. destruct (Ascii.eqb_spec d c) as [->|]; [congruence|done]. Qed.

Lemma before_carried d s : carried d = false -> all_chars carried s = true -> before d s = s.
Proof.
  intros Hd Hs. unfold before. rewrite split_none; [done|]. revert Hs. apply all_chars_not_any. intros c. by apply carried_not.
Qed.

Lemma unescape_carried s : all_chars carried s = true -> unescape s = Some s.
Proof.
  induction s as [|c s IH]; [done|]. simpl all_chars. intros [Hc Hs]%andb_true_iff.
  assert (Hne : c <> "%"%char) by (intros ->; done).
  assert (E : unescape (String c s) = u ← unescape s; Some (String c u)).
  { destruct c as [[] [] [] [] [] [] [] []]; try reflexivity. by destruct Hne. }
  by rewrite E, IH.
Qed.

Lemma no_dots s : plain_segment s = true -> one_dot s = false /\ two_dots s = false.
Proof.
  unfold plain_segment. rewrite !andb_true_iff, !negb_true_iff. intros [[[_ Hc] H1] H2].
  apply String.eqb_neq in H1, H2.
  assert (Hlow : forall t, toLowerCase s = t -> all_chars carried t = false -> False).
  { intros t <-. assert (all_chars carried (toLowerCase s) = true); [|congruence]. clear -Hc.
    induction s as [|c s IH]; [done|]. simpl in *. apply andb_true_iff in Hc as [Hc Hs]. rewrite (IH Hs), andb_true_r.
    clear -Hc. destruct c as [[] [] [] [] [] [] [] []]; vm_compute in *; congruence. }
  assert (Hdot : forall t, all_chars (Ascii.eqb ".") t = true -> toLowerCase s = t -> s = t).
  { clear. intros t Ht <-. induction s as [|c s IH]; [done|]. simpl in *. apply andb_true_iff in Ht as [Hc Hs].
    rewrite <- (IH Hs). f_equal. clear -Hc. destruct c as [[] [] [] [] [] [] [] []]; vm_compute in *; congruence. }
  unfold one_dot, two_dots. cbn [existsb]. split; rewrite ?orb_false_iff; split_and!; try done; apply String.eqb_neq; intros E;
    solve [apply H1, Hdot; done|apply H2, Hdot; done|by apply (Hlow _ E)].
Qed.

Lemma resolve_plain acc segs : Forall (fun s => plain_segment s = true) segs -> resolve acc segs = rev acc ++ segs.
Proof.
  intros Hs. revert acc. induction Hs as [|s segs Hp _ IH]; intros acc; simpl; [by rewrite app_nil_r|].
  destruct (no_dots s Hp) as [-> ->]. rewrite IH. simpl. by rewrite <- app_assoc.
Qed.

Lemma wire_plain url segs :
  segs <> [] -> Forall (fun s => plain_segment s = true) segs -> before "?" (before "#" url) = path_of segs ->
  wire_path url = Some (path_of segs).
Proof.
  intros Hne Hs Hu. unfold wire_path. rewrite Hu. unfold path_of at 1. rewrite split_join; [|done|].
  - rewrite resolve_plain by done. simpl rev. apply unescape_carried, path_of_carried, Hs.
  - constructor; [done|]. eapply Forall_impl; [exact Hs|]. intros s Hp. by apply plain_name, path_name_spec in Hp as [? _].
Qed.

#[export, refine] Instance wire : Transport := { deliver := wire_path }.
Proof.
  - intros segs Hne Hs. apply wire_plain; [done..|]. rewrite (before_carried "#"), (before_carried "?"); [done|done|by apply path_of_carried|done|].
    by apply path_of_carried.
  - intros segs q Hne Hs Hq. apply wire_plain; [done..|].
    assert (Hc : forall s, before "#" (s +:+ String "?" q) = before "#" s +:+ String "?" q \/ any_char (Ascii.eqb "#") s = true).
    { intros s. destruct (any_char (Ascii.eqb "#") s) eqn:E; [by right|]. left. unfold before.
      rewrite (split_none _ s E), split_none; [done|]. rewrite any_char_append, E. simpl.
      revert Hq. apply all_chars_not_any. intros c Hc. apply carried_not; [done|]. unfold carried. by rewrite Hc. }
    pose proof (path_of_carried segs Hs) as Hp. destruct (Hc (path_of segs)) as [->|Hx].
    + rewrite (before_carried "#") by done. unfold before. rewrite split_app; [done|]. revert Hp. apply all_chars_not_any.
      intros c. by apply carried_not.
    + exfalso. assert (any_char (Ascii.eqb "#") (path_of segs) = false); [|congruence]. revert Hp. apply all_chars_not_any.
      intros c. by apply carried_not.
Defined.

(** What names become on the way. *)
Example wire_examples :
  wire_path "/api/v1/namespaces/a?b" = Some "/api/v1/namespaces/a" /\
  wire_path "/api/v1/namespaces/a#b" = Some "/api/v1/namespaces/a" /\
  wire_path "/api/v1/namespaces/a%62" = Some "/api/v1/namespaces/ab" /\
  wire_path "/api/v1/namespaces/50%" = None /\
  wire_path "/api/v1/namespaces/../x" = Some "/api/v1/x".
Proof. by vm_compute. Qed.
