(* ===== verification/Utils.v ===== *)
(** * Formatting helpers (webui/src/app/utils.ts)

    The printed form of a date and the logarithm are the browser's: they are
    arguments of [formatTimestamp] and [formatBytes]. *)

From Stdlib Require Import Qround.
From S2P Require Import Prelude JsString JsNumber.

(** [text] is a string or absent; an absent text is returned as it is. *)
Definition truncateText (text : string) (maxLength : nat) : string :=
  if String.eqb text "" || (String.length text <=? maxLength)%nat then text
  else String.substring 0 maxLength text +:+ "...".

(** [toLocaleString] prints a date given in milliseconds. *)
Definition formatTimestamp (toLocaleString : Z -> string) (timestamp : Z) : string :=
  toLocaleString (timestamp * 1000).

Definition byte_sizes : list string := ["Bytes"; "KB"; "MB"; "GB"; "TB"; "PB"; "EB"; "ZB"; "YB"].

(** [x.toFixed(f)] of the fraction [p / d], not negative, as a number of
    10^-f: the nearest one, and the larger of two. *)
Definition toFixed (p d f : Z) : Z := (2 * p * 10 ^ f + d) / (2 * d).

(** [log bytes] is [Math.log(bytes) / Math.log(1024)], without a value when it is
    NaN.  The result is absent where [toFixed] throws. *)
Definition formatBytes (log : Z -> option Q) (bytes decimals : Z) : option string :=
  if bytes =? 0 then Some "0 Bytes"
  else
    let dm := if decimals <? 0 then 0 else decimals in
    if 100 <? dm then None
    else match log bytes with
         | None => Some "NaN undefined"
         | Some l =>
             let i := Qfloor l in
             let n := if 0 <=? i then toFixed bytes (1024 ^ i) dm else toFixed (bytes * 1024 ^ (- i)) 1 dm in
             Some (num_to_string (Fin (n # Z.to_pos (10 ^ dm))) +:+ " " +:+
                   (if i <? 0 then "undefined" else default "undefined" (byte_sizes !! Z.to_nat i)))
         end.

(** [dateNow] is [Date.now()], in milliseconds. *)
Definition calculateUptime (dateNow timestamp : Z) : string :=
  let now := dateNow / 1000 in
  let uptimeSeconds := now - timestamp in
  if uptimeSeconds <? 60 then Z_to_string uptimeSeconds +:+ " seconds"
  else if uptimeSeconds <? 3600 then Z_to_string (uptimeSeconds / 60) +:+ " minutes"
  else if uptimeSeconds <? 86400 then Z_to_string (uptimeSeconds / 3600) +:+ " hours"
  else Z_to_string (uptimeSeconds / 86400) +:+ " days".

Definition formatSlotRanges (ranges : list string) : string :=
  match ranges with
  | [] => "None"
  | [_] | [_; _] => join ", " ranges
  | r0 :: r1 :: rest => r0 +:+ ", " +:+ r1 +:+ ", ... (+" +:+ nat_to_string (length rest) +:+ " more)"
  end.

(** ** Properties *)

Lemma substring0_prefix n s : String.prefix (String.substring 0 n s) s = true.
Proof.
  revert s. induction n as [|n IH]; intros [|c s]; simpl; try done.
  destruct (ascii_dec c c); [apply IH|done].
Qed.

(** [truncateText] never shows more than [maxLength] characters of the
    text and three dots: a text that fits is shown unchanged, a longer one as its
    first [maxLength] characters followed by the dots. *)
Theorem truncateText_spec text maxLength :
  (String.length (truncateText text maxLength) <= maxLength + 3)%nat /\
  ((String.length text <= maxLength)%nat -> truncateText text maxLength = text) /\
  ((maxLength < String.length text)%nat ->
     exists p, truncateText text maxLength = p +:+ "..." /\
       String.length p = maxLength /\ startsWith text p = true).
Proof.
  unfold truncateText, startsWith.
  destruct (String.eqb_spec text "") as [->|Hne]; simpl; [split; [lia|split; [done|lia]]|].
  destruct (Nat.leb_spec (String.length text) maxLength) as [Hle|Hgt]; simpl.
  - split; [lia|split; [done|lia]].
  - pose proof (length_substring0 maxLength text ltac:(lia)) as Hl.
    rewrite length_append, Hl. split; [simpl; lia|split; [lia|]].
    intros _. eauto using substring0_prefix.
Qed.

(** The unit of an uptime: how many seconds it has, and its name. *)
Definition uptime_unit (t : Z) : Z * string :=
  if t <? 60 then (1, " seconds") else if t <? 3600 then (60, " minutes")
  else if t <? 86400 then (3600, " hours") else (86400, " days").

(** The uptime of a node created at [timestamp] is shown as a whole number
    of the largest unit that fits, rounded down: the number printed, read back,
    is [n] with [n * unit <= uptime < (n + 1) * unit], it is at least one for
    minutes, hours and days, and it is less than the next unit. *)
Theorem calculateUptime_spec dateNow timestamp :
  let up := dateNow / 1000 - timestamp in
  0 <= up ->
  exists n, calculateUptime dateNow timestamp = Z_to_string n +:+ snd (uptime_unit up) /\
    parseInt (Z_to_string n) = Some n /\
    n * fst (uptime_unit up) <= up < (n + 1) * fst (uptime_unit up) /\
    (60 <= up -> 1 <= n) /\ (up < 60 -> n < 60) /\ (60 <= up < 3600 -> n < 60) /\
    (3600 <= up < 86400 -> n < 24).
Proof.
  intros up Hup. exists (up / fst (uptime_unit up)).
  unfold calculateUptime. fold up. unfold uptime_unit.
  rewrite parseInt_Z_to_string.
  zbool; (split; [rewrite ?Z.div_1_r; done|]); (split; [done|]);
    (split; [|repeat split; intros]); Z.div_mod_to_equations; lia.
Qed.

Lemma calculateUptime_spec_witness :
  0 <= 5000000 / 1000 - 200 /\ calculateUptime 5000000 200 = "1 hours".
Proof.
  split; [done|].
  destruct (calculateUptime_spec 5000000 200 ltac:(done)) as (n & -> & _ & H & _).
  change (5000000 / 1000 - 200) with 4800 in *. simpl in H. assert (n = 1) as -> by lia. done.
Defined.

(** The short form of a shard's slot ranges: "None" without ranges, all of
    them up to two, and otherwise the first two and the number of the others, so
    that the ranges shown and the number add up to all of them. *)
Theorem formatSlotRanges_spec ranges :
  (ranges = [] -> formatSlotRanges ranges = "None") /\
  ((0 < length ranges <= 2)%nat -> formatSlotRanges ranges = join ", " ranges) /\
  (forall r0 r1 rest, ranges = r0 :: r1 :: rest -> rest <> [] ->
     formatSlotRanges ranges
     = join ", " [r0; r1; "... (+" +:+ nat_to_string (length ranges - 2) +:+ " more)"]).
Proof.
  split; [by intros ->|split].
  - destruct ranges as [|a [|b [|c l]]]; simpl; [lia|done..|lia].
  - intros r0 r1 [|c rest] -> Hne; [done|]. simpl. done.
Qed.

Lemma formatSlotRanges_spec_witness :
  formatSlotRanges ["0-1"; "3-4"; "7"; "9"] = "0-1, 3-4, ... (+2 more)".
Proof.
  exact (proj2 (proj2 (formatSlotRanges_spec ["0-1"; "3-4"; "7"; "9"])) "0-1" "3-4" ["7"; "9"]
    eq_refl ltac:(done)).
Defined.

Lemma toFixed_near p d f : 0 < d -> 0 <= f -> Z.abs (2 * (toFixed p d f * d - p * 10 ^ f)) <= d.
Proof.
  intros Hd Hf. unfold toFixed. pose proof (Z.div_mod (2 * p * 10 ^ f + d) (2 * d) ltac:(lia)) as H.
  pose proof (Z.mod_pos_bound (2 * p * 10 ^ f + d) (2 * d) ltac:(lia)).
  set (q := (2 * p * 10 ^ f + d) / (2 * d)) in *. lia.
Qed.

(** Of a positive size below 1024^9, with a logarithm that is right up to its
    floor, [formatBytes] shows the nearest number with the given decimals in the
    largest unit that is not greater than the size. *)
Lemma formatBytes_spec log bytes decimals l :
  0 < bytes < 1024 ^ 9 -> 0 <= decimals <= 100 -> log bytes = Some l -> Qfloor l = Z.log2 bytes / 10 ->
  exists n i unit, formatBytes log bytes decimals
      = Some (num_to_string (Fin (n # Z.to_pos (10 ^ decimals))) +:+ " " +:+ unit) /\
    0 <= i /\ byte_sizes !! Z.to_nat i = Some unit /\ 1024 ^ i <= bytes < 1024 ^ (i + 1) /\
    Z.abs (2 * (n * 1024 ^ i - bytes * 10 ^ decimals)) <= 1024 ^ i.
Proof.
  intros Hb Hd Hl Hi. pose proof (Z.log2_spec bytes ltac:(lia)) as Hs.
  assert (Hlog : 0 <= Z.log2 bytes < 90).
  { split; [apply Z.log2_nonneg|]. apply Z.log2_lt_pow2; lia. }
  set (i := Z.log2 bytes / 10) in *.
  assert (Hir : 0 <= i < 9) by (subst i; split; [apply Z.div_pos|apply Z.div_lt_upper_bound]; lia).
  destruct (lookup_lt_is_Some_2 byte_sizes (Z.to_nat i)) as [unit Hu]; [cbn; lia|].
  exists (toFixed bytes (1024 ^ i) decimals), i, unit. unfold formatBytes.
  rewrite (proj2 (Z.eqb_neq bytes 0)), (proj2 (Z.ltb_ge decimals 0)), (proj2 (Z.ltb_ge 100 decimals)), Hl, Hi by lia.
  cbn zeta. rewrite (proj2 (Z.leb_le 0 i)), (proj2 (Z.ltb_ge i 0)), Hu by lia.
  assert (Hpow : forall a, 0 <= a -> 1024 ^ a = 2 ^ (10 * a)).
  { intros a Ha. by rewrite Z.pow_mul_r by lia. }
  split_and!; [done|lia|done|..|apply toFixed_near; lia].
  - rewrite Hpow by lia. transitivity (2 ^ Z.log2 bytes); [|lia].
    apply Z.pow_le_mono_r; [lia|]. subst i. pose proof (Z.mul_div_le (Z.log2 bytes) 10). lia.
  - rewrite Hpow by lia. apply (Z.lt_le_trans _ (2 ^ Z.succ (Z.log2 bytes))); [lia|].
    apply Z.pow_le_mono_r; [lia|]. subst i. pose proof (Z.mul_succ_div_gt (Z.log2 bytes) 10). lia.
Qed.

(** Rounding does not carry into the next unit: one byte less than a mebibyte is
    shown as 1024 KB. *)
Lemma formatBytes_carry : formatBytes (fun _ => Some (19 # 10)) 1048575 2 = Some "1024 KB".
Proof. by vm_compute. Qed.
