(* ===== verification/Slots.v ===== *)
(** * Slot ranges of the controller (store/slot.go)

    The part of the server the web UI reads and writes slots through: printing
    and parsing of ranges, membership and overlap, adding and removing a range,
    and the initial distribution over the shards. *)

From S2P Require Import Prelude JsString JsNumber JsValue.

Definition MinSlotID : Z := 0.
Definition MaxSlotID : Z := 16383.

Record SlotRange := MkRange { Start : Z; Stop : Z }.

(** What a function with an error result returns. *)
Inductive go_result (A : Type) := GoOk (a : A) | GoErr (msg : string).
Arguments GoOk {A} _.
Arguments GoErr {A} _.

Definition ErrSlotOutOfRange : string := "slot id was out of range, should be between 0 and 16383".

Definition NewSlotRange (start stop : Z) : go_result SlotRange :=
  if stop <? start then GoErr "start was larger than stop"
  else if (start <? MinSlotID) || (MaxSlotID <? start) || ((stop <? MinSlotID) || (MaxSlotID <? stop))
  then GoErr ErrSlotOutOfRange
  else GoOk (MkRange start stop).

Definition HasOverlap (r that : SlotRange) : bool := (Start that <=? Stop r) && (Start r <=? Stop that).
Definition Contains (r : SlotRange) (slot : Z) : bool := (Start r <=? slot) && (slot <=? Stop r).

Definition range_string (r : SlotRange) : string :=
  if Start r =? Stop r then Z_to_string (Start r)
  else Z_to_string (Start r) +:+ "-" +:+ Z_to_string (Stop r).

(** [strconv.Atoi]: an optional sign and at least one digit, within int64. *)
Definition Atoi (s : string) : option Z :=
  let (neg, t) := strip_sign s in
  match t with
  | EmptyString => None
  | _ => if all_chars is_digit t
         then let z := signed neg (digits_val 0 t) in
              if (- 2 ^ 63 <=? z) && (z <? 2 ^ 63) then Some z else None
         else None
  end.

Fixpoint count_char (c : ascii) (s : string) : nat :=
  match s with
  | EmptyString => 0
  | String d s' => (if Ascii.eqb c d then 1 else 0) + count_char c s'
  end.

(** [s[0:index]] and [s[index+1:]] for the index of the first [c], if any. *)
Fixpoint cut (c : ascii) (s : string) : option (string * string) :=
  match s with
  | EmptyString => None
  | String d s' => if Ascii.eqb c d then Some ("", s')
                   else '(a, b) ← cut c s'; Some (String d a, b)
  end.

Definition ParseSlotRange (s : string) : go_result SlotRange :=
  if (1 <? count_char "-" s)%nat then GoErr "invalid argument, cannot have more than one range"
  else match cut "-" s with
  | None =>
      match Atoi s with
      | None => GoErr "invalid syntax"
      | Some start =>
          if (start <? MinSlotID) || (MaxSlotID <? start) then GoErr ErrSlotOutOfRange
          else GoOk (MkRange start start)
      end
  | Some (a, b) =>
      match Atoi a with
      | None => GoErr "invalid syntax"
      | Some start =>
          match Atoi b with
          | None => GoErr "invalid syntax"
          | Some stop =>
              if stop <? start then GoErr "start slot id greater than stop slot id"
              else if (start <? MinSlotID) || (MaxSlotID <? start)
                      || ((stop <? MinSlotID) || (MaxSlotID <? stop))
              then GoErr ErrSlotOutOfRange
              else GoOk (MkRange start stop)
          end
      end
  end.

Definition ranges_contain (rs : list SlotRange) (slot : Z) : bool := existsb (fun r => Contains r slot) rs.
Definition ranges_overlap (rs : list SlotRange) (r : SlotRange) : bool := existsb (fun c => HasOverlap c r) rs.

Definition CanMerge (a b : SlotRange) : bool :=
  let '(a, b) := if Start b <? Start a then (b, a) else (a, b) in Start b <=? Stop a + 1.

Definition MergeSlotRanges (a b : SlotRange) : SlotRange :=
  MkRange (Z.min (Start a) (Start b)) (Z.max (Stop a) (Stop b)).

Definition sort_ranges (rs : list SlotRange) : list SlotRange :=
  stable_sort (fun a b => Start a <=? Start b) rs.

(** The merging loop; [last] is the last interval of the result so far. *)
Fixpoint merge_loop (last : SlotRange) (rest : list SlotRange) : list SlotRange :=
  match rest with
  | [] => [last]
  | interval :: rest' =>
      if CanMerge last interval then merge_loop (MergeSlotRanges interval last) rest'
      else last :: merge_loop interval rest'
  end.

Definition AddSlotToSlotRanges (source : list SlotRange) (slot : SlotRange) : list SlotRange :=
  match source with
  | [] => [slot]
  | _ => match sort_ranges (source ++ [slot]) with
         | [] => []
         | first :: rest => merge_loop first rest
         end
  end.

Definition remove_from (slot r : SlotRange) : list SlotRange :=
  if HasOverlap r slot then
    (if Start r <? Start slot then [MkRange (Start r) (Start slot - 1)] else []) ++
    (if Stop slot <? Stop r then [MkRange (Stop slot + 1) (Stop r)] else [])
  else [r].

Definition RemoveSlotFromSlotRanges (source : list SlotRange) (slot : SlotRange) : list SlotRange :=
  let source := sort_ranges source in
  if ranges_overlap source slot then flat_map (remove_from slot) source else source.

Definition CalculateSlotRanges (n : nat) : list SlotRange :=
  let rangeSize := (MaxSlotID + 1) / Z.of_nat n in
  map (fun i => if (i =? n - 1)%nat then MkRange (Z.of_nat i * rangeSize) MaxSlotID
                else MkRange (Z.of_nat i * rangeSize) ((Z.of_nat i + 1) * rangeSize - 1)) (seq 0 n).

(** ** Well-formed ranges *)

Definition wf_range (r : SlotRange) : Prop := MinSlotID <= Start r <= Stop r /\ Stop r <= MaxSlotID.
Definition wf_ranges (rs : list SlotRange) : Prop := Forall wf_range rs.

Definition in_range (r : SlotRange) (x : Z) : Prop := Start r <= x <= Stop r.
Definition in_ranges (rs : list SlotRange) (x : Z) : Prop := exists r, In r rs /\ in_range r x.

Lemma Contains_spec r x : Contains r x = true <-> in_range r x.
Proof. unfold Contains, in_range. lia. Qed.

Lemma ranges_contain_spec rs x : ranges_contain rs x = true <-> in_ranges rs x.
Proof.
  unfold ranges_contain, in_ranges. rewrite existsb_exists.
  split; intros (r & ? & H); exists r; split; try done; by apply Contains_spec.
Qed.

Lemma in_ranges_nil x : ~ in_ranges [] x.
Proof. by intros (? & [] & _). Qed.

Lemma in_ranges_cons r rs x : in_ranges (r :: rs) x <-> in_range r x \/ in_ranges rs x.
Proof. unfold in_ranges. simpl. naive_solver. Qed.

Lemma in_ranges_app rs1 rs2 x : in_ranges (rs1 ++ rs2) x <-> in_ranges rs1 x \/ in_ranges rs2 x.
Proof. unfold in_ranges. setoid_rewrite in_app_iff. naive_solver. Qed.

Lemma in_ranges_perm rs1 rs2 x : Permutation rs1 rs2 -> in_ranges rs1 x <-> in_ranges rs2 x.
Proof.
  intros HP. unfold in_ranges. split; intros (r & Hr & Hx); exists r; split; try done.
  - by eapply Permutation_in. - eapply Permutation_in; [by symmetry|done].
Qed.

Lemma sort_ranges_perm rs : Permutation (sort_ranges rs) rs.
Proof. apply stable_sort_perm. Qed.

Lemma sort_ranges_sorted rs : StronglySorted (fun a b => (Start a <=? Start b) = true) (sort_ranges rs).
Proof. apply stable_sort_sorted; intros; lia. Qed.

Lemma wf_ranges_perm rs1 rs2 : Permutation rs1 rs2 -> wf_ranges rs1 -> wf_ranges rs2.
Proof. intros HP. unfold wf_ranges. by rewrite HP. Qed.

(** ** Printing and parsing *)

Lemma strip_sign_digits s : all_chars is_digit s = true -> strip_sign s = (false, s).
Proof. destruct s as [|c s]; [done|]. intros H. by apply digits_head. Qed.

Lemma digits_val_nonneg a s : 0 <= a -> all_chars is_digit s = true -> 0 <= digits_val a s.
Proof.
  revert a. induction s as [|c s IH]; intros a Ha; simpl; [done|].
  intros [Hc Hs]%andb_prop. apply IH; [|done]. unfold is_digit, digit_value in *.
  apply andb_prop in Hc as [Hc _]. apply N.leb_le in Hc. lia.
Qed.

Lemma Atoi_Z_to_string z : 0 <= z < 2 ^ 63 -> Atoi (Z_to_string z) = Some z.
Proof.
  intros Hz. unfold Atoi. rewrite strip_sign_digits by (apply Z_to_string_digits; lia).
  pose proof (parseInt_Z_to_string z) as H.
  rewrite parseInt_digits in H by (try apply Z_to_string_nonempty; apply Z_to_string_digits; lia).
  injection H as H. rewrite Z_to_string_digits, H by lia. simpl.
  destruct (Z_to_string z) eqn:E; [by destruct (Z_to_string_nonempty z)|].
  rewrite (proj2 (Z.leb_le _ _)), (proj2 (Z.ltb_lt _ _)) by lia. done.
Qed.

Lemma count_char_none c s : any_char (Ascii.eqb c) s = false -> count_char c s = 0%nat.
Proof. induction s; simpl; [done|]. intros [H1 H2]%orb_false_elim. rewrite H1. auto. Qed.

Lemma count_char_app c s t : count_char c (s +:+ t) = (count_char c s + count_char c t)%nat.
Proof. induction s; simpl; [done|]. rewrite IHs. lia. Qed.

Lemma cut_none c s : any_char (Ascii.eqb c) s = false -> cut c s = None.
Proof. induction s; simpl; [done|]. intros [H1 H2]%orb_false_elim. by rewrite H1, IHs. Qed.

Lemma cut_app c s t : any_char (Ascii.eqb c) s = false -> cut c (s +:+ String c t) = Some (s, t).
Proof.
  induction s; simpl; [by rewrite Ascii.eqb_refl|].
  intros [H1 H2]%orb_false_elim. by rewrite H1, IHs.
Qed.

Lemma cut_some c s a b :
  cut c s = Some (a, b) -> s = a +:+ String c b /\ any_char (Ascii.eqb c) a = false.
Proof.
  revert a b. induction s as [|d s IH]; intros a b; simpl; [done|].
  destruct (Ascii.eqb_spec c d) as [->|Hne]; [intros; by simplify_eq/=|].
  destruct (cut c s) as [[a' b']|]; simpl; [|done]. intros. simplify_eq/=.
  destruct (IH a' b eq_refl) as [-> ->]. apply Ascii.eqb_neq in Hne. by rewrite Hne.
Qed.

Lemma cut_none_inv c s : cut c s = None -> any_char (Ascii.eqb c) s = false.
Proof.
  induction s as [|d s IH]; simpl; [done|]. destruct (Ascii.eqb c d); [done|].
  destruct (cut c s) as [[]|]; simpl; [done|]. auto.
Qed.

(** A printed range is its bounds with a dash between them, or one number. *)
Lemma ParseSlotRange_string r : wf_range r -> ParseSlotRange (range_string r) = GoOk r.
Proof.
  intros [[H1 H2] H3]. unfold MinSlotID, MaxSlotID in *.
  assert (Hd : forall z, 0 <= z -> any_char (Ascii.eqb "-"%char) (Z_to_string z) = false)
    by apply Z_to_string_no_dash.
  destruct r as [a b]; simpl in *. unfold ParseSlotRange, range_string. simpl.
  destruct (Z.eqb_spec a b) as [->|Hne].
  - rewrite count_char_none, cut_none, Atoi_Z_to_string by (try apply Hd; lia). simpl.
    unfold MinSlotID, MaxSlotID. zbool; simpl; try lia; done.
  - simpl ("-" +:+ _). rewrite count_char_app. cbn [count_char].
    rewrite !count_char_none, cut_app, !Atoi_Z_to_string by (try apply Hd; lia). simpl.
    unfold MinSlotID, MaxSlotID. zbool; simpl; try lia; done.
Qed.

(** Whatever the server parses is a well-formed range. *)
Lemma ParseSlotRange_wf s r : ParseSlotRange s = GoOk r -> wf_range r.
Proof.
  unfold ParseSlotRange. intros H. repeat case_match; simplify_eq; unfold wf_range; simpl; lia.
Qed.

(** A well-formed range printed by the server is read back as the same
    range by the server's parser, and everything the parser accepts is a range
    inside 0..16383 with its bounds in order. *)
Theorem slot_range_roundtrip :
  (forall r, wf_range r -> ParseSlotRange (range_string r) = GoOk r) /\
  (forall s r, ParseSlotRange s = GoOk r -> wf_range r).
Proof. split; [apply ParseSlotRange_string|apply ParseSlotRange_wf]. Qed.

Lemma slot_range_roundtrip_witness :
  ParseSlotRange (range_string (MkRange 100 16383)) = GoOk (MkRange 100 16383) /\ wf_range (MkRange 100 16383).
Proof.
  assert (Hw : wf_range (MkRange 100 16383)) by (unfold wf_range, MinSlotID, MaxSlotID; simpl; lia).
  split; [exact (proj1 slot_range_roundtrip (MkRange 100 16383) Hw)|].
  apply (proj2 slot_range_roundtrip "100-16383"). reflexivity.
Defined.

(** ** Merging *)

(** Sorted by start, with a gap of at least one slot between two ranges. *)
Fixpoint normal (rs : list SlotRange) : Prop :=
  match rs with
  | [] => True
  | r :: rest => match rest with
                 | [] => True
                 | r' :: _ => Stop r + 1 < Start r'
                 end /\ normal rest
  end.

Lemma CanMerge_le a b : Start a <= Start b -> CanMerge a b = (Start b <=? Stop a + 1).
Proof. intros H. unfold CanMerge. by rewrite (proj2 (Z.ltb_ge _ _)). Qed.

Lemma in_range_merge a b x :
  Start a <= Start b <= Stop a + 1 -> Start a <= Stop a -> Start b <= Stop b ->
  in_range (MergeSlotRanges b a) x <-> in_range a x \/ in_range b x.
Proof. unfold in_range, MergeSlotRanges. simpl. lia. Qed.

Definition ordered (r : SlotRange) : Prop := Start r <= Stop r.

Lemma ordered_merge a b : ordered a -> ordered b -> ordered (MergeSlotRanges b a).
Proof. unfold ordered, MergeSlotRanges. simpl. lia. Qed.

Lemma merge_loop_spec rest last x :
  StronglySorted (fun a b => (Start a <=? Start b) = true) (last :: rest) ->
  Forall ordered (last :: rest) ->
  in_ranges (merge_loop last rest) x <-> in_ranges (last :: rest) x.
Proof.
  revert last. induction rest as [|r rest IH]; intros last Hs Ho; [done|].
  inversion_clear Hs as [|? ? Hs' Hall]. inversion_clear Hall as [|? ? Hle Hall'].
  inversion_clear Ho as [|? ? Hol Ho']. inversion_clear Ho' as [|? ? Hor Ho''].
  apply Z.leb_le in Hle. simpl merge_loop. rewrite CanMerge_le by done.
  destruct (Z.leb_spec (Start r) (Stop last + 1)) as [Hm|Hg].
  - rewrite IH.
    + rewrite !in_ranges_cons, in_range_merge by (unfold ordered in *; lia). tauto.
    + inversion_clear Hs' as [|? ? Hs'' Hall'']. constructor; [done|].
      eapply Forall_impl; [exact Hall'|]. intros y Hy. simpl in *. lia.
    + constructor; [by apply ordered_merge|done].
  - rewrite in_ranges_cons, (IH r Hs'); [by rewrite (in_ranges_cons last)|by constructor].
Qed.

Lemma merge_loop_normal rest last :
  StronglySorted (fun a b => (Start a <=? Start b) = true) (last :: rest) ->
  normal (merge_loop last rest) /\
  exists r, head (merge_loop last rest) = Some r /\ Start r = Start last.
Proof.
  revert last. induction rest as [|r rest IH]; intros last Hs; [by simpl; eauto|].
  inversion_clear Hs as [|? ? Hs' Hall]. inversion_clear Hall as [|? ? Hle Hall'].
  apply Z.leb_le in Hle. simpl merge_loop. rewrite CanMerge_le by done.
  destruct (Z.leb_spec (Start r) (Stop last + 1)) as [Hm|Hg].
  - inversion_clear Hs' as [|? ? Hs'' Hall''].
    destruct (IH (MergeSlotRanges r last)) as (Hn & y & Hy & Hst).
    { constructor; [done|]. eapply Forall_impl; [exact Hall'|]. intros z Hz. simpl in *. lia. }
    split; [done|]. exists y. split; [done|]. rewrite Hst. simpl. lia.
  - destruct (IH r Hs') as (Hn & y & Hy & Hst). split; [|simpl; eauto].
    destruct (merge_loop r rest) as [|z zs] eqn:E; simpl in *; [done|]. simplify_eq.
    split; [lia|done].
Qed.

Lemma AddSlotToSlotRanges_in source slot :
  Forall ordered source -> ordered slot ->
  (forall x, in_ranges (AddSlotToSlotRanges source slot) x <-> in_ranges source x \/ in_range slot x) /\
  normal (AddSlotToSlotRanges source slot).
Proof.
  intros Hs Ho. destruct source as [|r0 source].
  - split; [|done]. intros x. simpl. rewrite in_ranges_cons. naive_solver.
  - pose proof (sort_ranges_perm ((r0 :: source) ++ [slot])) as HP.
    pose proof (sort_ranges_sorted ((r0 :: source) ++ [slot])) as HS.
    unfold AddSlotToSlotRanges. destruct (sort_ranges _) as [|f rest].
    { by apply Permutation_nil in HP. }
    assert (Hall : Forall ordered (f :: rest)) by (rewrite HP; apply Forall_app; auto).
    split; [|by apply merge_loop_normal].
    intros x. rewrite merge_loop_spec, (in_ranges_perm _ _ x HP), in_ranges_app by done.
    rewrite (in_ranges_cons slot []). pose proof (in_ranges_nil x). tauto.
Qed.

Lemma remove_from_spec slot r x :
  ordered slot -> in_ranges (remove_from slot r) x <-> in_range r x /\ ~ in_range slot x.
Proof.
  unfold ordered, remove_from, HasOverlap, in_range. intros Ho.
  destruct (Z.leb_spec (Start slot) (Stop r)), (Z.leb_spec (Start r) (Stop slot)); simpl;
    rewrite ?in_ranges_app; zbool; rewrite ?in_ranges_cons; unfold in_range; simpl;
    pose proof (in_ranges_nil x); intuition lia.
Qed.

Lemma in_ranges_flat_map (f : SlotRange -> list SlotRange) (rs : list SlotRange) x :
  in_ranges (flat_map f rs) x <-> exists r, In r rs /\ in_ranges (f r) x.
Proof. unfold in_ranges. setoid_rewrite in_flat_map. naive_solver. Qed.

Lemma ranges_overlap_false rs r x :
  ranges_overlap rs r = false -> in_ranges rs x -> ordered r -> ~ in_range r x.
Proof.
  unfold ranges_overlap. intros H (c & Hc & Hx) Ho Hr.
  assert (existsb (fun c => HasOverlap c r) rs = true); [|congruence].
  apply existsb_exists. exists c. split; [done|]. unfold HasOverlap, in_range, ordered in *. lia.
Qed.

Lemma RemoveSlotFromSlotRanges_in source slot x :
  ordered slot ->
  in_ranges (RemoveSlotFromSlotRanges source slot) x <-> in_ranges source x /\ ~ in_range slot x.
Proof.
  intros Ho. unfold RemoveSlotFromSlotRanges.
  pose proof (in_ranges_perm _ _ x (sort_ranges_perm source)) as HP.
  destruct (ranges_overlap (sort_ranges source) slot) eqn:E.
  - rewrite in_ranges_flat_map. setoid_rewrite remove_from_spec; [|done]. rewrite <- HP.
    unfold in_ranges. naive_solver.
  - rewrite HP. split; [|tauto]. intros H. split; [done|].
    eapply ranges_overlap_false; [done| |done]. by rewrite HP.
Qed.

(** Well-formed ranges are the ordered ones whose slots exist. *)
Lemma wf_ranges_spec rs :
  wf_ranges rs <-> Forall ordered rs /\ forall x, in_ranges rs x -> MinSlotID <= x <= MaxSlotID.
Proof.
  unfold wf_ranges, wf_range, ordered. rewrite !List.Forall_forall. split.
  - intros H. split; [intros r Hr; specialize (H r Hr); lia|].
    intros x (r & Hr & Hx). specialize (H r Hr). unfold in_range in Hx. lia.
  - intros [Ho Hx] r Hr. specialize (Ho r Hr).
    pose proof (Hx (Start r) ltac:(exists r; unfold in_range; split; [done|lia])).
    pose proof (Hx (Stop r) ltac:(exists r; unfold in_range; split; [done|lia])). lia.
Qed.

Lemma merge_loop_ordered rest last : Forall ordered (last :: rest) -> Forall ordered (merge_loop last rest).
Proof.
  revert last. induction rest as [|r rest IH]; intros last Ho; [done|].
  inversion_clear Ho as [|? ? Hol Ho']. inversion_clear Ho' as [|? ? Hor Ho'']. simpl.
  destruct (CanMerge last r); [apply IH; constructor; [by apply ordered_merge|done]|].
  constructor; [done|]. apply IH. by constructor.
Qed.

Lemma AddSlotToSlotRanges_wf source slot :
  wf_ranges source -> wf_range slot -> wf_ranges (AddSlotToSlotRanges source slot).
Proof.
  intros Hs Hw. apply wf_ranges_spec in Hs as [Ho Hx].
  assert (Hos : ordered slot) by (unfold wf_range, ordered in *; lia).
  apply wf_ranges_spec. split.
  - unfold AddSlotToSlotRanges. destruct source as [|r0 source]; [by repeat constructor|].
    pose proof (sort_ranges_perm ((r0 :: source) ++ [slot])) as HP.
    destruct (sort_ranges _) as [|f rest]; [constructor|]. apply merge_loop_ordered.
    rewrite HP. apply Forall_app. split; [done|]. by constructor.
  - intros x. rewrite (proj1 (AddSlotToSlotRanges_in source slot Ho Hos) x).
    intros [H|H]; [by apply Hx|]. unfold wf_range, in_range in *. lia.
Qed.

Lemma RemoveSlotFromSlotRanges_ordered source slot :
  Forall ordered source -> Forall ordered (RemoveSlotFromSlotRanges source slot).
Proof.
  intros Ho. assert (Ho' : Forall ordered (sort_ranges source)) by (by rewrite (sort_ranges_perm source)).
  unfold RemoveSlotFromSlotRanges. destruct (ranges_overlap _ _); [|done].
  apply List.Forall_forall. intros r (r0 & Hr0 & Hr)%in_flat_map.
  rewrite List.Forall_forall in Ho'. specialize (Ho' r0 Hr0). unfold remove_from, ordered in *.
  destruct (HasOverlap r0 slot); [|destruct Hr as [<-|[]]; lia].
  apply in_app_or in Hr. destruct Hr as [Hr|Hr]; revert Hr;
    [destruct (Z.ltb_spec (Start r0) (Start slot))|destruct (Z.ltb_spec (Stop slot) (Stop r0))];
    try done; intros [<-|[]]; simpl; lia.
Qed.

Lemma RemoveSlotFromSlotRanges_wf source slot :
  wf_ranges source -> wf_range slot -> wf_ranges (RemoveSlotFromSlotRanges source slot).
Proof.
  intros Hs Hw. apply wf_ranges_spec in Hs as [Ho Hx].
  assert (Hos : ordered slot) by (unfold wf_range, ordered in *; lia).
  apply wf_ranges_spec. split; [by apply RemoveSlotFromSlotRanges_ordered|].
  intros x; rewrite RemoveSlotFromSlotRanges_in by done; naive_solver.
Qed.

(** C34. The server's edits of a shard's ranges are set operations on slots:
    adding a range yields exactly the union, in normal form (sorted, no two ranges
    that overlap or touch), and removing a range yields exactly the difference,
    whether it covers whole ranges, parts of them or none.  So adding a range and
    removing it again leaves the slots that were outside it. *)
Theorem slot_ranges_set_operations source slot :
  Forall ordered source -> ordered slot ->
  normal (AddSlotToSlotRanges source slot) /\
  (forall x, in_ranges (AddSlotToSlotRanges source slot) x <-> in_ranges source x \/ in_range slot x) /\
  (forall x, in_ranges (RemoveSlotFromSlotRanges source slot) x <-> in_ranges source x /\ ~ in_range slot x) /\
  (forall x, in_ranges (RemoveSlotFromSlotRanges (AddSlotToSlotRanges source slot) slot) x
             <-> in_ranges source x /\ ~ in_range slot x).
Proof.
  intros Hs Ho. destruct (AddSlotToSlotRanges_in source slot Hs Ho) as [Ha Hn].
  split_and!; [done..| |]; intros x; rewrite RemoveSlotFromSlotRanges_in by done; [done|].
  rewrite Ha. tauto.
Qed.

Lemma slot_ranges_set_operations_witness :
  AddSlotToSlotRanges [MkRange 0 10; MkRange 20 30] (MkRange 11 15) = [MkRange 0 15; MkRange 20 30] /\
  normal (AddSlotToSlotRanges [MkRange 0 10; MkRange 20 30] (MkRange 11 15)).
Proof.
  split; [done|].
  apply (slot_ranges_set_operations [MkRange 0 10; MkRange 20 30] (MkRange 11 15));
    repeat constructor; unfold ordered; simpl; lia.
Defined.

Lemma CalculateSlotRanges_lookup n i :
  (i < n)%nat ->
  let size := 16384 / Z.of_nat n in
  CalculateSlotRanges n !! i =
  Some (if (i =? n - 1)%nat then MkRange (Z.of_nat i * size) 16383
        else MkRange (Z.of_nat i * size) ((Z.of_nat i + 1) * size - 1)).
Proof.
  intros Hi size. unfold CalculateSlotRanges.
  rewrite list_lookup_fmap, lookup_seq_lt by done. done.
Qed.

Lemma CalculateSlotRanges_wf n i r :
  1 <= Z.of_nat n <= 16384 -> CalculateSlotRanges n !! i = Some r -> wf_range r.
Proof.
  intros Hn Hi. assert (Hin : (i < n)%nat).
  { apply lookup_lt_Some in Hi. unfold CalculateSlotRanges in Hi. by rewrite length_map, length_seq in Hi. }
  rewrite (CalculateSlotRanges_lookup n i Hin) in Hi. set (size := 16384 / Z.of_nat n) in Hi.
  assert (Hsize : 1 <= size) by (apply Z.div_le_lower_bound; lia).
  assert (Hmul : Z.of_nat n * size <= 16384) by (apply Z.mul_div_le; lia).
  unfold wf_range, MinSlotID, MaxSlotID. injection Hi as <-. destruct (Nat.eqb_spec i (n - 1)); simpl; nia.
Qed.

(** Every slot is in the range of one index. *)
Lemma CalculateSlotRanges_owner n x :
  1 <= Z.of_nat n <= 16384 -> MinSlotID <= x <= MaxSlotID ->
  exists i, (i < n)%nat /\
    (forall j r, CalculateSlotRanges n !! j = Some r -> in_range r x <-> j = i).
Proof.
  unfold MinSlotID, MaxSlotID. intros Hn Hx. set (size := 16384 / Z.of_nat n).
  assert (Hsize : 1 <= size) by (apply Z.div_le_lower_bound; lia).
  assert (Hmul : Z.of_nat n * size <= 16384) by (apply Z.mul_div_le; lia).
  exists (Nat.min (Z.to_nat (x / size)) (n - 1)). split; [lia|].
  pose proof (Z.div_mod x size ltac:(lia)) as Hdm.
  pose proof (Z.mod_pos_bound x size ltac:(lia)) as Hmod.
  assert (Hq : 0 <= x / size) by (apply Z.div_pos; lia).
  assert (Hq1 : forall k, k * size <= x -> k <= x / size)
    by (intros; apply Z.div_le_lower_bound; lia).
  intros j r Hj.
  assert (Hjn : (j < n)%nat).
  { apply lookup_lt_Some in Hj. unfold CalculateSlotRanges in Hj.
    by rewrite length_map, length_seq in Hj. }
  rewrite (CalculateSlotRanges_lookup n j Hjn) in Hj. injection Hj as <-. fold size.
  generalize dependent (x / size). intros q Hdm Hq Hq1.
  destruct (Nat.eqb_spec j (n - 1)) as [->|Hne]; unfold in_range; simpl.
  - split; [|intros; nia]. intros H. specialize (Hq1 _ (proj1 H)). lia.
  - split; [intros H; assert (q = Z.of_nat j) by nia; lia|].
    intros ->. rewrite Nat.min_l by lia. rewrite Z2Nat.id by lia. nia.
Qed.

(** The initial distribution gives every slot to exactly one shard: for
    1 to 16384 shards, each slot of 0..16383 is in the range of one and only one
    index below the number of shards. *)
Theorem CalculateSlotRanges_partition n x :
  1 <= Z.of_nat n <= 16384 -> MinSlotID <= x <= MaxSlotID ->
  exists i, (i < n)%nat /\
    (forall j r, CalculateSlotRanges n !! j = Some r -> in_range r x <-> j = i).
Proof. apply CalculateSlotRanges_owner. Qed.

Lemma CalculateSlotRanges_witness :
  exists i, (i < 3)%nat /\
    (forall j r, CalculateSlotRanges 3 !! j = Some r -> in_range r 16383 <-> j = i).
Proof. apply (CalculateSlotRanges_partition 3 16383); [lia|done]. Defined.
