(* ===== verification/GoShard.v ===== *)
(** * Shards on the server (store/cluster_shard.go, store/cluster.go)

    The record a shard is on the server, the JSON the web UI receives for it, and
    the migration of a slot range between shards. *)

From S2P Require Import Prelude JsString JsNumber JsValue Slots.

Record MigratingSlot := MkMigrating { m_range : SlotRange; IsMigrating : bool }.

(** A node as its JSON: store/cluster_node.go, MarshalJSON. *)
Record GoNode := MkGoNode {
  ID : string; Addr : string; Role : string; Password : string; CreatedAt : Z }.

Record Shard := MkShard {
  Nodes : list GoNode;
  SlotRanges : list SlotRange;
  TargetShardIndex : Z;
  Migrating : option MigratingSlot }.

Definition NewShard : Shard := MkShard [] [] (-1) None.

Definition FromSlotRange (r : SlotRange) : MigratingSlot := MkMigrating r true.

Definition ClearMigrateState (s : Shard) : Shard := MkShard (Nodes s) (SlotRanges s) (-1) None.

Definition shardIsMigrating (s : Shard) : bool :=
  match Migrating s with
  | Some m => IsMigrating m && negb (TargetShardIndex s =? -1)
  | None => false
  end.

Definition GetMasterNode (s : Shard) : option GoNode :=
  List.find (fun n => String.eqb (Role n) "master") (Nodes s).

(** ** JSON *)

Definition node_json (n : GoNode) : value :=
  VObj [("addr", VStr (Addr n)); ("created_at", vnum (CreatedAt n)); ("id", VStr (ID n));
        ("password", VStr (Password n)); ("role", VStr (Role n))].

(** A nil pointer and a slot that is not migrating print as null, a range as a string. *)
Definition migrating_json (m : option MigratingSlot) : value :=
  match m with
  | Some m => if IsMigrating m then VStr (range_string (m_range m)) else VNull
  | None => VNull
  end.

Definition shard_json (s : Shard) : value :=
  VObj [("nodes", VArr (map node_json (Nodes s)));
        ("slot_ranges", VArr (map (fun r => VStr (range_string r)) (SlotRanges s)));
        ("target_shard_index", vnum (TargetShardIndex s));
        ("migrating_slot", migrating_json (Migrating s))].

(** Compared with a number, a range of one slot is a number, a longer one is NaN. *)
Lemma range_to_number r :
  wf_range r -> to_number (VStr (range_string r)) = if Start r =? Stop r then num (Start r) else NaN.
Proof.
  unfold wf_range, MinSlotID. intros [[H0 H1] _]. unfold range_string. simpl.
  destruct (Z.eqb_spec (Start r) (Stop r)); [apply Number_nonneg; lia|].
  apply Number_dash; [apply Z_to_string_digits; lia|apply Z_to_string_nonempty|].
  apply all_digits_no_ws, Z_to_string_digits. lia.
Qed.

(** The shard migrates more than one slot. *)
Definition migrates_range (s : Shard) : bool :=
  match Migrating s with
  | Some m => IsMigrating m && negb (Start (m_range m) =? Stop (m_range m))
  | None => false
  end.

Definition wf_migrating (s : Shard) : Prop :=
  match Migrating s with Some m => wf_range (m_range m) | None => True end.

(** [migrating_slot >= 0] on the JSON of a shard: null counts as 0. *)
Lemma migrating_ge_zero s : wf_migrating s -> js_ge (migrating_json (Migrating s)) 0 = negb (migrates_range s).
Proof.
  unfold wf_migrating, migrates_range, migrating_json, js_ge. destruct (Migrating s) as [[r []]|]; [|done..].
  cbn [IsMigrating m_range andb]. intros Hr. rewrite (range_to_number r Hr).
  unfold wf_range, MinSlotID in Hr.
  destruct (Z.eqb_spec (Start r) (Stop r)); [|done]. rewrite num_le_Z. simpl. lia.
Qed.

(** ** Migration *)

(** The errors of consts/errors.go, and two that have no name there: a command
    that a node refuses, and a run-time panic. *)
Inductive store_error :=
| ErrInvalidArgument | ErrNotFound | ErrForbidden | ErrAlreadyExists | ErrIndexOutOfRange | ErrShardIsSame
| ErrSlotNotBelongToAnyShard | ErrSlotRangeBelongsToMultipleShards | ErrNodeIsNotMaster
| ErrOldMasterNodeNotFound | ErrShardNoReplica | ErrShardIsServicing | ErrShardSlotIsMigrating
| ErrShardNoMatchNewMaster | ErrNodeCommand | ErrPanic.

(** The two nested loops: [found] is [sourceShardIdx], -1 while nothing is found. *)
Fixpoint find_in_ranges (slot : SlotRange) (i : Z) (rs : list SlotRange) (found : Z) : store_error + Z :=
  match rs with
  | [] => inr found
  | r :: rs' =>
      if HasOverlap r slot
      then if negb (found =? -1) then inl ErrSlotRangeBelongsToMultipleShards
           else find_in_ranges slot i rs' i
      else find_in_ranges slot i rs' found
  end.

Fixpoint find_in_shards (slot : SlotRange) (i : Z) (shards : list Shard) (found : Z) : store_error + Z :=
  match shards with
  | [] => inr found
  | s :: shards' =>
      match find_in_ranges slot i (SlotRanges s) found with
      | inl e => inl e
      | inr found' => find_in_shards slot (i + 1) shards' found'
      end
  end.

Definition findShardIndexBySlot (shards : list Shard) (slot : SlotRange) : store_error + Z :=
  match find_in_shards slot 0 shards (-1) with
  | inl e => inl e
  | inr i => if i =? -1 then inl ErrSlotNotBelongToAnyShard else inr i
  end.

Definition set_ranges (rs : list SlotRange) (s : Shard) : Shard :=
  MkShard (Nodes s) rs (TargetShardIndex s) (Migrating s).

(** The shards after a successful migration.  [accept] is the answer of the
    source's master to the CLUSTERX MIGRATE command.  A target shard without a
    master is a nil pointer whose identifier is read. *)
Definition MigrateSlot (accept : bool) (shards : list Shard) (slot : SlotRange) (target : Z)
    (slotOnly : bool) : store_error + list Shard :=
  if (target <? 0) || (Z.of_nat (length shards) <=? target) then inl ErrIndexOutOfRange
  else match findShardIndexBySlot shards slot with
  | inl e => inl e
  | inr source =>
      if source =? target then inl ErrShardIsSame
      else
        let i := Z.to_nat source in
        let j := Z.to_nat target in
        if slotOnly then
          let shards1 := alter ClearMigrateState i shards in
          let shards2 := alter (fun s => set_ranges (RemoveSlotFromSlotRanges (SlotRanges s) slot) s) i shards1 in
          inr (alter (fun s => set_ranges (AddSlotToSlotRanges (SlotRanges s) slot) s) j shards2)
        else
          match shards !! i, shards !! j with
          | Some src, Some tgt =>
              if shardIsMigrating src || shardIsMigrating tgt then inl ErrShardSlotIsMigrating
              else match GetMasterNode src with
              | None => inl ErrNotFound
              | Some _ =>
                  match GetMasterNode tgt with
                  | None => inl ErrPanic
                  | Some _ =>
                      if accept
                      then inr (<[i := MkShard (Nodes src) (SlotRanges src) target (Some (FromSlotRange slot))]> shards)
                      else inl ErrNodeCommand
                  end
              end
          | _, _ => inl ErrIndexOutOfRange
          end
  end.

(** ** Lookup of the owner *)

(** Shard [i] owns the slot [x]. *)
Definition owns (shards : list Shard) (i : nat) (x : Z) : Prop :=
  exists s, shards !! i = Some s /\ in_ranges (SlotRanges s) x.

Lemma find_in_ranges_spec slot i rs found r :
  0 <= i -> find_in_ranges slot i rs found = inr r ->
  (r = found /\ ranges_overlap rs slot = false) \/ (found = -1 /\ r = i /\ ranges_overlap rs slot = true).
Proof.
  intros Hi. revert found. induction rs as [|x rs IH]; intros found; simpl; [intros; simplify_eq; auto|].
  destruct (HasOverlap x slot); simpl; [|apply IH].
  destruct (Z.eqb_spec found (-1)) as [->|]; simpl; [|done].
  intros [[-> _]|(-> & _ & _)]%IH; [auto|lia].
Qed.

Lemma find_in_shards_spec slot shards i found r :
  0 <= i -> find_in_shards slot i shards found = inr r ->
  (r = found /\ Forall (fun s => ranges_overlap (SlotRanges s) slot = false) shards) \/
  (found = -1 /\ exists k, r = i + Z.of_nat k /\ (k < length shards)%nat /\
     forall j s, shards !! j = Some s -> ranges_overlap (SlotRanges s) slot = true <-> j = k).
Proof.
  revert i found. induction shards as [|s shards IH]; intros i found Hi; simpl; [intros; simplify_eq; auto|].
  destruct (find_in_ranges slot i (SlotRanges s) found) as [e|f] eqn:E; [done|].
  intros H. apply (find_in_ranges_spec _ _ _ _ _ Hi) in E.
  apply IH in H; [|lia]. destruct H as [[-> Hall]|(-> & k & -> & Hlt & Hk)].
  - destruct E as [[-> Ho]|(-> & -> & Ho)]; [left; auto|]. right. split; [done|]. exists 0%nat.
    split; [lia|]. split; [simpl; lia|]. intros [|j] s' Hs; simpl in *; simplify_eq; [tauto|].
    rewrite (Forall_lookup_1 _ _ _ _ Hall Hs). naive_solver.
  - destruct E as [[<- Ho]|(_ & ? & _)]; [|lia]. right. split; [done|]. exists (S k). split; [lia|]. split; [simpl; lia|].
    intros [|j] s' Hs; simpl in *; simplify_eq; [rewrite Ho; naive_solver|].
    rewrite (Hk _ _ Hs). naive_solver.
Qed.

Lemma ranges_overlap_true rs slot x : in_ranges rs x -> in_range slot x -> ranges_overlap rs slot = true.
Proof.
  intros (r & Hr & Hx) Hs. apply existsb_exists. exists r. split; [done|].
  unfold HasOverlap, in_range in *. lia.
Qed.

(** The source found is the only shard with slots of the range. *)
Lemma findShardIndexBySlot_spec shards slot r :
  findShardIndexBySlot shards slot = inr r ->
  exists k, r = Z.of_nat k /\ (k < length shards)%nat /\
    (forall j x, in_range slot x -> owns shards j x -> j = k).
Proof.
  unfold findShardIndexBySlot. destruct (find_in_shards _ _ _ _) as [e|f] eqn:E; [done|].
  destruct (Z.eqb_spec f (-1)) as [|Hne]; [done|]. intros; simplify_eq.
  apply find_in_shards_spec in E; [|lia]. destruct E as [[? _]|(_ & k & -> & Hlt & Hk)]; [lia|].
  exists k. split_and!; [lia|done|]. intros j x Hx (s & Hs & Hin).
  apply (Hk _ _ Hs). by eapply ranges_overlap_true.
Qed.

Lemma owns_alter f shards i j x :
  owns (alter f i shards) j x <->
  exists s, shards !! j = Some s /\ in_ranges (SlotRanges (if decide (i = j) then f s else s)) x.
Proof.
  unfold owns. split.
  - intros (s & Hs & Hx). destruct (decide (i = j)) as [->|Hne].
    + rewrite list_lookup_alter_eq in Hs. destruct (shards !! j) as [s0|]; simplify_eq/=. eauto.
    + rewrite list_lookup_alter_ne in Hs by done. eauto.
  - intros (s & Hs & Hx). destruct (decide (i = j)) as [->|Hne].
    + exists (f s). by rewrite list_lookup_alter_eq, Hs.
    + exists s. by rewrite list_lookup_alter_ne.
Qed.

Definition ordered_shards (shards : list Shard) : Prop :=
  Forall (fun s => Forall ordered (SlotRanges s)) shards.

(** No slot has two owners. *)
Definition exclusive (shards : list Shard) : Prop :=
  forall x i j, owns shards i x -> owns shards j x -> i = j.

#[export] Instance in_range_dec r x : Decision (in_range r x).
Proof. unfold in_range. apply _. Defined.

(** Slot by slot, what a slot-only migration does. *)
Lemma MigrateSlot_owns accept shards slot target shards' :
  ordered_shards shards -> ordered slot ->
  MigrateSlot accept shards slot target true = inr shards' ->
  forall x j, owns shards' j x <-> if decide (in_range slot x) then j = Z.to_nat target else owns shards j x.
Proof.
  intros Hord Ho. unfold MigrateSlot.
  destruct ((target <? 0) || _) eqn:Eb; [done|]. apply orb_false_elim in Eb as [Eb1 Eb2].
  destruct (findShardIndexBySlot shards slot) as [e|src] eqn:Ef; [done|].
  apply findShardIndexBySlot_spec in Ef as (k & -> & Hlt & Huniq).
  destruct (Z.eqb_spec (Z.of_nat k) target) as [|Hne]; [done|]. intros H x j. injection H as <-.
  rewrite Nat2Z.id. set (t := Z.to_nat target).
  assert (Ht : (t < length shards)%nat) by (unfold t; lia). assert (Hkt : k <> t) by (unfold t; lia).
  apply lookup_lt_is_Some in Ht as [st Hst]. rewrite owns_alter.
  destruct (decide (t = j)) as [<-|Htj].
  - rewrite !list_lookup_alter_ne, Hst by done.
    pose proof (Forall_lookup_1 _ _ _ _ Hord Hst) as Hos.
    assert (Hadd := proj1 (AddSlotToSlotRanges_in _ slot Hos Ho) x).
    destruct (decide (in_range slot x)) as [Hx|Hx].
    + split; [done|]. intros _. exists st. split; [done|]. simpl. apply Hadd. auto.
    + split.
      * intros (s & ? & Hs). simplify_eq. simpl in Hs. apply Hadd in Hs as [Hs|]; [|done]. by eexists.
      * intros (s & Hs & Hin). simplify_eq. eexists. split; [done|]. simpl. apply Hadd. auto.
  - transitivity (owns (alter (fun s => set_ranges (RemoveSlotFromSlotRanges (SlotRanges s) slot) s) k
                         (alter ClearMigrateState k shards)) j x); [done|].
    rewrite owns_alter. destruct (decide (k = j)) as [<-|Hkj].
    + rewrite list_lookup_alter_eq. unfold owns. split.
      * intros (s & Hs & Hin). simpl in Hin. rewrite RemoveSlotFromSlotRanges_in in Hin by done.
        destruct (shards !! k) as [s0|] eqn:Es0; simplify_eq/=. destruct (decide _); naive_solver.
      * destruct (decide (in_range slot x)); [done|]. intros (s & Hs & Hin).
        exists (ClearMigrateState s). rewrite Hs. split; [done|]. simpl.
        by apply RemoveSlotFromSlotRanges_in.
    + rewrite list_lookup_alter_ne by done. fold (owns shards j x).
      destruct (decide (in_range slot x)) as [Hx|]; [|done].
      split; [|done]. intros H. exfalso. apply Hkj. symmetry. by apply (Huniq j x).
Qed.

(** A migration with data changes no owner yet. *)
Lemma MigrateSlot_data_owns accept shards slot target shards' :
  MigrateSlot accept shards slot target false = inr shards' ->
  forall x j, owns shards' j x <-> owns shards j x.
Proof.
  unfold MigrateSlot. repeat case_match; try done. intros HM. simplify_eq. intros x j.
  unfold owns. destruct (decide (j = Z.to_nat z)) as [->|Hne].
  - rewrite list_lookup_insert_eq by (by eapply lookup_lt_Some). naive_solver.
  - by rewrite list_lookup_insert_ne.
Qed.

(** C33. Migrating slots between shards on the server: a slot-only migration
    that succeeds makes the target the one and only owner of every slot of the
    range and changes the owner of no other slot; a migration with data changes
    no owner until it completes; so, either way, a cluster in which no slot has
    two owners stays one. *)
Theorem MigrateSlot_ownership accept shards slot target slotOnly shards' :
  ordered_shards shards -> ordered slot -> exclusive shards ->
  MigrateSlot accept shards slot target slotOnly = inr shards' ->
  exclusive shards' /\
  (forall x j, ~ in_range slot x -> owns shards' j x <-> owns shards j x) /\
  (forall x j, in_range slot x ->
     owns shards' j x <-> if slotOnly then j = Z.to_nat target else owns shards j x).
Proof.
  intros Hord Ho Hex HM. destruct slotOnly.
  - pose proof (MigrateSlot_owns _ _ _ _ _ Hord Ho HM) as H. split_and!.
    + intros x i j. rewrite !H. destruct (decide _); [congruence|apply Hex].
    + intros x j Hx. rewrite H. by destruct (decide _).
    + intros x j Hx. rewrite H. by destruct (decide _).
  - pose proof (MigrateSlot_data_owns _ _ _ _ _ HM) as H.
    split_and!; try done. intros x i j. rewrite !H. apply Hex.
Qed.

Definition demo_shards : list Shard :=
  [set_ranges [MkRange 0 8191] NewShard; set_ranges [MkRange 8192 16383] NewShard].

Lemma demo_exclusive : exclusive demo_shards.
Proof.
  intros x i j (s & Hs & r & Hr & Hx) (s' & Hs' & r' & Hr' & Hx').
  destruct i as [|[|i]], j as [|[|j]]; simplify_eq/=; try done;
    destruct Hr as [<-|[]], Hr' as [<-|[]]; unfold in_range in *; simpl in *; lia.
Qed.

Lemma MigrateSlot_ownership_witness :
  MigrateSlot false demo_shards (MkRange 0 99) 1 true =
    inr [set_ranges [MkRange 100 8191] NewShard; set_ranges [MkRange 0 99; MkRange 8192 16383] NewShard] /\
  exclusive [set_ranges [MkRange 100 8191] NewShard; set_ranges [MkRange 0 99; MkRange 8192 16383] NewShard].
Proof.
  split; [reflexivity|].
  apply (MigrateSlot_ownership false demo_shards (MkRange 0 99) 1 true _);
    [repeat constructor; unfold ordered; simpl; lia | unfold ordered; simpl; lia
    | apply demo_exclusive | reflexivity].
Defined.
