(* ===== verification/GoCluster.v ===== *)
(** * Nodes and clusters on the server
    (store/cluster_node.go, store/cluster_shard.go, store/cluster.go)

    Adding and removing the nodes of a shard, choosing and promoting a new
    master, creating a cluster.  What the kvrocks nodes reply to a command, the
    random node identifiers and the clock are parameters. *)

From S2P Require Import Prelude JsString JsNumber JsValue Slots GoShard.

(** ** Errors *)

(** An error: the named error it wraps, if any, and its text. *)
Record go_error := MkErr { err_is : option store_error; err_msg : string }.

Definition store_error_msg (e : store_error) : string :=
  match e with
  | ErrInvalidArgument => "invalid argument"
  | ErrNotFound => "not found"
  | ErrForbidden => "forbidden"
  | ErrAlreadyExists => "already exists"
  | ErrIndexOutOfRange => "index out of range"
  | ErrShardIsSame => "source and target shard is same"
  | ErrSlotNotBelongToAnyShard => "slot not belong to any shard"
  | ErrSlotRangeBelongsToMultipleShards => "slot range belongs to multiple shards"
  | ErrNodeIsNotMaster => "the old node is not master"
  | ErrOldMasterNodeNotFound => "old master node not found"
  | ErrShardNoReplica => "no replica in shard"
  | ErrShardIsServicing => "shard is servicing"
  | ErrShardSlotIsMigrating => "shard slot is migrating"
  | ErrShardNoMatchNewMaster => "no match new master in shard"
  | ErrNodeCommand => "command failed"
  | ErrPanic => "panic"
  end.

Definition sentinel (e : store_error) : go_error := MkErr (Some e) (store_error_msg e).
Definition errors_New (m : string) : go_error := MkErr None m.
(** [fmt.Errorf("pre%wpost", err)] *)
Definition wrapped (pre : string) (e : go_error) (post : string) : go_error :=
  MkErr (err_is e) (pre +:+ err_msg e +:+ post).

(** ** Nodes *)

Definition RoleMaster : string := "master".
Definition RoleSlave : string := "slave".
Definition NodeIDLen : nat := 40.

Definition IsMaster (n : GoNode) : bool := String.eqb (Role n) RoleMaster.
Definition SetRole (r : string) (n : GoNode) : GoNode := MkGoNode (ID n) (Addr n) r (Password n) (CreatedAt n).
Definition SetNodePassword (p : string) (n : GoNode) : GoNode :=
  MkGoNode (ID n) (Addr n) (Role n) p (CreatedAt n).

(** [id] is the random identifier, [now] the time. *)
Definition NewClusterNode (id : string) (now : Z) (addr password : string) : GoNode :=
  MkGoNode id addr RoleMaster password now.

(** What the nodes answer: an error text or a reply. *)
Record Replies := MkReplies {
  clusterInfoReply : GoNode -> string + string;
  infoReply : GoNode -> string + string;
  clusterNodesReply : GoNode -> string + string;
  migrateReply : GoNode -> SlotRange -> string -> bool }.

Record ClusterInfo := MkClusterInfo {
  CurrentEpoch : Z; InfoMigratingSlot : option MigratingSlot; MigratingState : string }.
Record ClusterNodeInfo := MkClusterNodeInfo { Sequence : Z; InfoRole : string }.

Definition crlf : string := String "013" (String "010" "").

(** [strings.Split(s, "\r\n")] *)
Fixpoint split_crlf (s : string) : list string :=
  match s with
  | EmptyString => [""]
  | String "013" (String "010" t) => "" :: split_crlf t
  | String c t => match split_crlf t with p :: ps => String c p :: ps | [] => [String c ""] end
  end.

(** [strconv.ParseUint(s, 10, 64)] *)
Definition ParseUint (s : string) : option Z :=
  match s with
  | EmptyString => None
  | _ => if all_chars is_digit s && (digits_val 0 s <? 2 ^ 64) then Some (digits_val 0 s) else None
  end.

Definition cluster_info_line (i : ClusterInfo) (line : string) : go_error + ClusterInfo :=
  match split ":" line with
  | [f0; f1] =>
      let v := trim f1 in
      let k := toLowerCase (trim f0) in
      if String.eqb k "cluster_current_epoch" then
        match Atoi v with
        | Some e => inr (MkClusterInfo e (InfoMigratingSlot i) (MigratingState i))
        | None => inl (errors_New "invalid syntax")
        end
      else if String.eqb k "migrating_slot" || String.eqb k "migrating_slot(s)" then
        match ParseSlotRange v with
        | GoOk r => inr (MkClusterInfo (CurrentEpoch i) (Some (FromSlotRange r)) (MigratingState i))
        | GoErr m => inl (errors_New m)
        end
      else if String.eqb k "migrating_state" then inr (MkClusterInfo (CurrentEpoch i) (InfoMigratingSlot i) v)
      else inr i
  | _ => inr i
  end.

Fixpoint info_lines {A} (step : A -> string -> go_error + A) (i : A) (lines : list string) : go_error + A :=
  match lines with
  | [] => inr i
  | line :: rest => match step i line with inl e => inl e | inr i' => info_lines step i' rest end
  end.

Definition GetClusterInfo (w : Replies) (n : GoNode) : go_error + ClusterInfo :=
  match clusterInfoReply w n with
  | inl e => inl (errors_New e)
  | inr infoStr => info_lines cluster_info_line (MkClusterInfo (-1) None "") (split_crlf infoStr)
  end.

Definition node_info_line (i : ClusterNodeInfo) (line : string) : go_error + ClusterNodeInfo :=
  match split ":" line with
  | [f0; f1] =>
      if String.eqb f0 "sequence" then
        match ParseUint f1 with
        | Some s => inr (MkClusterNodeInfo s (InfoRole i))
        | None => inl (errors_New "invalid syntax")
        end
      else if String.eqb f0 "role" then inr (MkClusterNodeInfo (Sequence i) f1)
      else inr i
  | _ => inr i
  end.

Definition GetClusterNodeInfo (w : Replies) (n : GoNode) : go_error + ClusterNodeInfo :=
  match infoReply w n with
  | inl e => inl (errors_New e)
  | inr infoStr => info_lines node_info_line (MkClusterNodeInfo 0 "") (split_crlf infoStr)
  end.

Definition CheckClusterMode (w : Replies) (n : GoNode) : go_error + Z :=
  match GetClusterInfo w n with
  | inl e => if includes (err_msg e) "cluster is not initialized" then inr (-1)
             else inl (wrapped "error while checking node cluster mode: " e "")
  | inr i => inr (CurrentEpoch i)
  end.

(** ** The nodes of a shard *)

Definition setNodes (ns : list GoNode) (s : Shard) : Shard :=
  MkShard ns (SlotRanges s) (TargetShardIndex s) (Migrating s).

Definition IsServicing (s : Shard) : bool :=
  existsb (fun r => negb (Start r =? -1) || negb (Stop r =? -1)) (SlotRanges s) || shardIsMigrating s.

Definition addNode (id : string) (now : Z) (addr role password : string) (s : Shard) :
    go_error + (Shard * GoNode) :=
  if negb (String.eqb role RoleMaster) && negb (String.eqb role RoleSlave)
  then inl (wrapped "" (sentinel ErrInvalidArgument) ": role")
  else if existsb (fun n => String.eqb (Addr n) addr) (Nodes s) then inl (sentinel ErrAlreadyExists)
  else if String.eqb role RoleMaster && (0 <? length (Nodes s))%nat
  then inl (wrapped "master node " (sentinel ErrAlreadyExists) "")
  else let node := SetRole role (NewClusterNode id now addr password) in
       inr (setNodes (Nodes s ++ [node]) s, node).

(** removeNode ranges over the slice while it shortens it.  The range reads
    [length nodes] elements of the array [a] that the slice shares; [m] is the
    length of the slice now; an append shifts the elements of the array behind
    [i] and leaves the rest of it.  [is] are the indices still to visit. *)
Fixpoint remove_loop (nodeID : string) (is_ : list nat) (a : list GoNode) (m : nat) (isFound : bool) :
    go_error + list GoNode :=
  match is_ with
  | [] => if isFound then inr (take m a) else inl (sentinel ErrNotFound)
  | i :: rest =>
      match a !! i with
      | None => inl (sentinel ErrPanic)
      | Some node =>
          if negb (String.eqb (ID node) nodeID) then remove_loop nodeID rest a m isFound
          else if IsMaster node then inl (wrapped "cannot remove master node: " (sentinel ErrInvalidArgument) "")
          else if (m <? i + 1)%nat then inl (sentinel ErrPanic)
          else remove_loop nodeID rest (take i a ++ take (m - (i + 1)) (drop (i + 1) a) ++ drop (m - 1) a)
                 (m - 1) true
      end
  end.

Definition removeNode (nodeID : string) (s : Shard) : go_error + Shard :=
  match remove_loop nodeID (seq 0 (length (Nodes s))) (Nodes s) (length (Nodes s)) false with
  | inl e => inl e
  | inr ns => inr (setNodes ns s)
  end.

(** ** Promotion *)

(** A replica the controller can promote, with its sequence number. *)
Definition candidate (w : Replies) (n : GoNode) : option Z :=
  match GetClusterInfo w n with
  | inl _ => None
  | inr _ =>
      match GetClusterNodeInfo w n with
      | inl _ => None
      | inr i => if negb (String.eqb (InfoRole i) RoleSlave) || (Sequence i =? 0) then None else Some (Sequence i)
      end
  end.

Fixpoint newMaster_loop (w : Replies) (master : nat) (preferred : string) (i : nat) (nodes : list GoNode)
    (best : Z) (newestOffset : Z) : Z :=
  match nodes with
  | [] => best
  | node :: rest =>
      if (i =? master)%nat then newMaster_loop w master preferred (S i) rest best newestOffset
      else match candidate w node with
      | None => newMaster_loop w master preferred (S i) rest best newestOffset
      | Some seq =>
          if negb (String.eqb preferred "") && String.eqb (ID node) preferred then Z.of_nat i
          else if newestOffset <=? seq then newMaster_loop w master preferred (S i) rest (Z.of_nat i) seq
          else newMaster_loop w master preferred (S i) rest best newestOffset
      end
  end.

Definition getNewMasterNodeIndex (w : Replies) (s : Shard) (master : nat) (preferred : string) : Z :=
  newMaster_loop w master preferred 0 (Nodes s) (-1) 0.

(** The index of the first master. *)
Fixpoint master_index (i : nat) (nodes : list GoNode) : option nat :=
  match nodes with
  | [] => None
  | n :: rest => if IsMaster n then Some i else master_index (S i) rest
  end.

Definition promoteNewMaster (w : Replies) (masterNodeID preferred : string) (s : Shard) :
    go_error + (Shard * string) :=
  if (length (Nodes s) <=? 1)%nat then inl (sentinel ErrShardNoReplica)
  else match master_index 0 (Nodes s) with
  | None => inl (sentinel ErrOldMasterNodeNotFound)
  | Some old =>
      if negb (String.eqb masterNodeID "")
         && negb (String.eqb (from_option ID "" (Nodes s !! old)) masterNodeID)
      then inl (sentinel ErrNodeIsNotMaster)
      else
        let new := getNewMasterNodeIndex w s old preferred in
        if new =? -1 then inl (sentinel ErrShardNoMatchNewMaster)
        else
          let nodes := alter (SetRole RoleMaster) (Z.to_nat new) (alter (SetRole RoleSlave) old (Nodes s)) in
          inr (setNodes nodes s, from_option ID "" (nodes !! Z.to_nat new))
  end.

(** ** Clusters *)

Record Cluster := MkCluster { Name : string; Version : Z; Shards : list Shard }.

#[export] Instance SlotRange_eq_dec : EqDecision SlotRange.
Proof. solve_decision. Defined.
#[export] Instance MigratingSlot_eq_dec : EqDecision MigratingSlot.
Proof. solve_decision. Defined.
#[export] Instance GoNode_eq_dec : EqDecision GoNode.
Proof. solve_decision. Defined.
#[export] Instance Shard_eq_dec : EqDecision Shard.
Proof. solve_decision. Defined.
#[export] Instance Cluster_eq_dec : EqDecision Cluster.
Proof. solve_decision. Defined.

Definition setShards (l : list Shard) (c : Cluster) : Cluster := MkCluster (Name c) (Version c) l.

(** Node [j] of shard [i]; [ids] are the identifiers in the order of creation. *)
Definition newClusterNode (ids : nat -> string) (now : Z) (nodes : list string) (replicas i j : nat) : GoNode :=
  let k := (i * replicas + j)%nat in
  SetRole (if (j =? 0)%nat then RoleMaster else RoleSlave) (NewClusterNode (ids k) now (nth k nodes "") "").

Definition NewCluster (ids : nat -> string) (now : Z) (name : string) (nodes : list string) (replicas : Z) :
    go_error + Cluster :=
  if (length nodes =? 0)%nat then inl (errors_New "cluster nodes should NOT be empty")
  else if replicas <? 0 then inl (errors_New "replicas should NOT be less than 0")
  else
    let replicas := Z.to_nat (if replicas =? 0 then 1 else replicas) in
    if negb (length nodes mod replicas =? 0)%nat
    then inl (errors_New "cluster nodes should be divisible by replicas")
    else
      let shardCount := (length nodes / replicas)%nat in
      let slotRanges := CalculateSlotRanges shardCount in
      let shard i := MkShard (map (newClusterNode ids now nodes replicas i) (seq 0 replicas))
                       [nth i slotRanges (MkRange 0 0)] (-1) None in
      inr (MkCluster name 1 (map shard (seq 0 shardCount))).

Definition SetPassword (password : string) (c : Cluster) : Cluster :=
  setShards (map (fun s => setNodes (map (SetNodePassword password) (Nodes s)) s) (Shards c)) c.

Definition GetNodes (c : Cluster) : list GoNode := concat (map Nodes (Shards c)).

Definition GetShard (c : Cluster) (i : Z) : go_error + Shard :=
  if (i <? 0) || (Z.of_nat (length (Shards c)) <=? i) then inl (sentinel ErrIndexOutOfRange)
  else match Shards c !! Z.to_nat i with Some s => inr s | None => inl (sentinel ErrIndexOutOfRange) end.

(** The operations of a cluster on one of its shards. *)
Definition onShard {A} (i : Z) (f : Shard -> go_error + (Shard * A)) (c : Cluster) : go_error + (Cluster * A) :=
  match GetShard c i with
  | inl e => inl e
  | inr s => match f s with
             | inl e => inl e
             | inr (s', a) => inr (setShards (<[Z.to_nat i := s']> (Shards c)) c, a)
             end
  end.

Definition AddNode (id : string) (now : Z) (i : Z) (addr role password : string) (c : Cluster) :
    go_error + (Cluster * GoNode) := onShard i (addNode id now addr role password) c.

Definition RemoveNode (i : Z) (nodeID : string) (c : Cluster) : go_error + (Cluster * unit) :=
  onShard i (fun s => match removeNode nodeID s with inl e => inl e | inr s' => inr (s', tt) end) c.

Definition PromoteNewMaster (w : Replies) (i : Z) (masterNodeID preferred : string) (c : Cluster) :
    go_error + (Cluster * string) := onShard i (promoteNewMaster w masterNodeID preferred) c.

(** MigrateSlot with the reply of the source's master. *)
Definition ClusterMigrateSlot (w : Replies) (slot : SlotRange) (target : Z) (slotOnly : bool) (c : Cluster) :
    go_error + Cluster :=
  let accept :=
    match findShardIndexBySlot (Shards c) slot with
    | inr i =>
        match Shards c !! Z.to_nat i ≫= GetMasterNode, Shards c !! Z.to_nat target ≫= GetMasterNode with
        | Some m, Some t => migrateReply w m slot (ID t)
        | _, _ => false
        end
    | inl _ => false
    end in
  match MigrateSlot accept (Shards c) slot target slotOnly with
  | inl e => inl (sentinel e)
  | inr l => inr (setShards l c)
  end.

(** The change of a shard creation and of a shard removal (server/api/shard.go):
    the first node is the master; the removal keeps the target indices of the
    other shards. *)
Definition newShard (ids : nat -> string) (now : Z) (nodes : list string) (password : string) : Shard :=
  setNodes (mapi (fun i addr => SetRole (if (i =? 0)%nat then RoleMaster else RoleSlave)
                                  (NewClusterNode (ids i) now addr password)) nodes) NewShard.

Definition appendShard (s : Shard) (c : Cluster) : Cluster := setShards (Shards c ++ [s]) c.

Definition removeShard (i : nat) (c : Cluster) : Cluster :=
  setShards (take i (Shards c) ++ drop (i + 1) (Shards c)) c.

(** ** The topology a node reports *)

(** The order of [sort.Sort(shards)]. *)
Definition shard_less (a b : Shard) : bool :=
  match SlotRanges a, SlotRanges b with
  | [], _ => false
  | _, [] => true
  | r :: _, r' :: _ => Start r <? Start r'
  end.

Record parsing := MkParsing { p_version : Z; p_shards : list Shard; p_slaves : list (string * GoNode) }.

Fixpoint parse_ranges (fields : list string) : go_result (list SlotRange) :=
  match fields with
  | [] => GoOk []
  | f :: rest =>
      match ParseSlotRange f with
      | GoErr m => GoErr m
      | GoOk r => match parse_ranges rest with GoErr m => GoErr m | GoOk rs => GoOk (r :: rs) end
      end
  end.

Definition parse_node_line (p : parsing) (line : string) : go_error + parsing :=
  let fields := split " " line in
  if (length fields <? 7)%nat then inl (errors_New ("require at least 7 fields, node info[" +:+ line +:+ "]"))
  else
    let field i := nth i fields "" in
    let role := if includes (field 2%nat) "," then nth 1 (split "," (field 2%nat)) "" else field 2%nat in
    let node := MkGoNode (field 0%nat) (nth 0 (split "@" (field 1%nat)) "") role "" 0 in
    match Atoi (field 6%nat) with
    | None => inl (errors_New ("node version error, node info[" +:+ dq +:+ line +:+ dq +:+ "]"))
    | Some ver =>
        if String.eqb role RoleMaster then
          match parse_ranges (drop 8 fields) with
          | GoErr m => inl (errors_New ("parse slots error for node[" +:+ line +:+ "]: " +:+ m))
          | GoOk rs => inr (MkParsing ver (p_shards p ++ [MkShard [node] rs (-1) None]) (p_slaves p))
          end
        else if String.eqb role RoleSlave
        then inr (MkParsing ver (p_shards p) (p_slaves p ++ [(field 3%nat, node)]))
        else inl (errors_New ("node role error, node info[" +:+ dq +:+ line +:+ dq +:+ "]"))
    end.

Definition slaves_of (id : string) (slaves : list (string * GoNode)) : list GoNode :=
  map snd (List.filter (fun '(m, _) => String.eqb m id) slaves).

Definition ParseCluster (clusterStr : string) : go_error + Cluster :=
  if String.eqb clusterStr "" then inl (errors_New "cluster nodes string error")
  else match info_lines parse_node_line (MkParsing (-1) [] []) (split "010" clusterStr) with
  | inl e => inl e
  | inr p =>
      if p_version p =? -1
      then inl (errors_New ("no cluster version, cluster info[" +:+ dq +:+ clusterStr +:+ dq +:+ "]"))
      else
        let sorted := stable_sort (fun a b => negb (shard_less b a)) (p_shards p) in
        inr (MkCluster "" (p_version p)
               (map (fun s => setNodes (Nodes s ++ from_option (fun m => slaves_of (ID m) (p_slaves p)) []
                                                     (head (Nodes s))) s) sorted))
  end.

(** [strings.TrimRight(s, "\n")] *)
Fixpoint TrimRight_newline (s : string) : string :=
  match s with
  | EmptyString => EmptyString
  | String c s' =>
      match TrimRight_newline s' with
      | EmptyString => if Ascii.eqb c "010" then EmptyString else String c EmptyString
      | t => String c t
      end
  end.

Definition GetClusterNodesString (w : Replies) (n : GoNode) : go_error + string :=
  match clusterNodesReply w n with inl e => inl (errors_New e) | inr s => inr (TrimRight_newline s) end.

(** What a node is told when it is synchronised: its shard's nodes, one per
    line. *)
Definition replace_colon (s : string) : string :=
  match cut ":" s with Some (a, b) => a +:+ " " +:+ b | None => s end.

Definition ToSlotsString (s : Shard) : go_error + string :=
  match master_index 0 (Nodes s) with
  | None => inl (errors_New "missing master node")
  | Some k =>
      let nl := String "010" "" in
      let line i n :=
        ID n +:+ " " +:+ replace_colon (Addr n) +:+ " " +:+
        (if (i =? k)%nat then RoleMaster +:+ " - " +:+ join " " (map range_string (SlotRanges s))
         else RoleSlave +:+ " " +:+ from_option ID "" (Nodes s !! k)) +:+ nl in
      inr (String.concat "" (mapi line (Nodes s)))
  end.

Fixpoint to_slot_strings (i : Z) (shards : list Shard) : go_error + string :=
  match shards with
  | [] => inr ""
  | s :: rest =>
      match ToSlotsString s with
      | inl e => inl (wrapped ("found err at shard[" +:+ Z_to_string i +:+ "]: ") e "")
      | inr t => match to_slot_strings (i + 1) rest with inl e => inl e | inr u => inr (t +:+ u) end
      end
  end.

Definition ToSlotString (c : Cluster) : go_error + string := to_slot_strings 0 (Shards c).

(** ** Removing a node *)

(** Indices whose element has another identifier are passed over. *)
Lemma remove_loop_skip nodeID is_ a m f :
  (forall i, In i is_ -> exists n, a !! i = Some n /\ ID n <> nodeID) ->
  remove_loop nodeID is_ a m f = if f then inr (take m a) else inl (sentinel ErrNotFound).
Proof.
  induction is_ as [|i is_ IH]; intros H; simpl; [done|].
  destruct (H i (or_introl eq_refl)) as (n & -> & Hn). destruct (String.eqb_spec (ID n) nodeID); [done|].
  simpl. apply IH. intros j Hj. apply H. by right.
Qed.

Lemma remove_loop_prefix nodeID is1 is2 a m f :
  (forall i, In i is1 -> exists n, a !! i = Some n /\ ID n <> nodeID) ->
  remove_loop nodeID (is1 ++ is2) a m f = remove_loop nodeID is2 a m f.
Proof.
  induction is1 as [|i is1 IH]; intros H; simpl; [done|].
  destruct (H i (or_introl eq_refl)) as (n & -> & Hn). destruct (String.eqb_spec (ID n) nodeID); [done|].
  simpl. apply IH. intros j Hj. apply H. by right.
Qed.

Definition without (nodeID : string) (l : list GoNode) : list GoNode :=
  List.filter (fun n => negb (String.eqb (ID n) nodeID)) l.

Lemma without_notin nodeID l : ~ In nodeID (map ID l) -> without nodeID l = l.
Proof.
  induction l as [|n l IH]; simpl; intros H; [done|].
  destruct (String.eqb_spec (ID n) nodeID) as [E|]; [tauto|]. simpl. f_equal. apply IH. tauto.
Qed.

Lemma notin_lookup nodeID (l : list GoNode) i n : ~ In nodeID (map ID l) -> l !! i = Some n -> ID n <> nodeID.
Proof. intros H Hi <-. apply H, in_map, list_elem_of_In, (list_elem_of_lookup_2 _ _ _ Hi). Qed.

(** The loop at the node itself. *)
Lemma remove_loop_hit nodeID l1 x l2 :
  ID x = nodeID -> IsMaster x = false -> ~ In nodeID (map ID l1) -> ~ In nodeID (map ID l2) ->
  let n := length (l1 ++ x :: l2) in
  remove_loop nodeID (seq (length l1) (S (length l2))) (l1 ++ x :: l2) n false = inr (l1 ++ l2).
Proof.
  intros Hx Hm H1 H2 n. cbn [seq remove_loop].
  rewrite list_lookup_middle by done. rewrite Hx, String.eqb_refl, Hm. cbn [negb].
  assert (Hn : n = (length l1 + S (length l2))%nat) by (subst n; by rewrite length_app).
  destruct (Nat.ltb_spec n (length l1 + 1)); [lia|].
  rewrite take_app_length. replace (l1 ++ x :: l2) with ((l1 ++ [x]) ++ l2) by (by rewrite <- app_assoc).
  replace (length l1 + 1)%nat with (length (l1 ++ [x])) by (rewrite length_app; simpl; lia).
  rewrite drop_app_length, (take_ge l2) by (rewrite length_app; simpl; lia).
  rewrite remove_loop_skip.
  - f_equal. rewrite app_assoc, take_app_le by (rewrite length_app; lia). rewrite take_ge; [done|]. rewrite length_app; lia.
  - intros j Hj. apply in_seq in Hj.
    destruct (decide (j < length l1 + length l2)%nat) as [Hlt|Hge].
    + destruct (lookup_lt_is_Some_2 l2 (j - length l1)) as [y Hy]; [lia|]. exists y. split; [|by eapply notin_lookup].
      rewrite lookup_app_r by lia. by rewrite lookup_app_l by lia.
    + assert (j = (length l1 + length l2)%nat) as -> by lia.
      rewrite lookup_app_r, lookup_app_r by lia. replace (_ - _ - _)%nat with 0%nat by lia.
      rewrite lookup_drop, Nat.add_0_r, lookup_app_r by (rewrite length_app; simpl; lia).
      destruct (lookup_lt_is_Some_2 l2 (length l2 - 1)) as [y Hy]; [lia|].
      exists y. split; [|by eapply notin_lookup]. rewrite <- Hy. f_equal. rewrite length_app. simpl. lia.
Qed.

(** What removeNode does. *)
Lemma removeNode_exact nodeID s :
  NoDup (map ID (Nodes s)) ->
  removeNode nodeID s =
    match List.find (fun n => String.eqb (ID n) nodeID) (Nodes s) with
    | None => inl (sentinel ErrNotFound)
    | Some n => if IsMaster n then inl (wrapped "cannot remove master node: " (sentinel ErrInvalidArgument) "")
                else inr (setNodes (without nodeID (Nodes s)) s)
    end.
Proof.
  intros Hnd. unfold removeNode. destruct (List.find _ (Nodes s)) as [x|] eqn:Ef.
  - apply List.find_some in Ef as [Hin Hx]. apply String.eqb_eq in Hx.
    apply in_split in Hin as (l1 & l2 & E). rewrite E in *. rewrite map_app in Hnd. simpl in Hnd.
    apply NoDup_app in Hnd as (_ & H1 & Hnd). apply NoDup_cons in Hnd as [H2 _].
    rewrite list_elem_of_In, Hx in H2.
    assert (H1' : ~ In nodeID (map ID l1)).
    { intros Hi. apply list_elem_of_In in Hi. apply (H1 _ Hi). rewrite <- Hx. left. }
    rewrite length_app, seq_app. cbn [Nat.add length]. rewrite remove_loop_prefix.
    2: { intros i Hi. apply in_seq in Hi. destruct (lookup_lt_is_Some_2 l1 i) as [y Hy]; [lia|].
         exists y. split; [by rewrite lookup_app_l by lia|by eapply notin_lookup]. }
    change (S (length l2)) with (length (x :: l2)) at 2. rewrite <- length_app. destruct (IsMaster x) eqn:Em.
    + simpl. rewrite list_lookup_middle by done. by rewrite Hx, String.eqb_refl, Em.
    + rewrite (remove_loop_hit nodeID l1 x l2) by done. f_equal. f_equal. unfold without.
      rewrite List.filter_app. simpl. rewrite Hx, String.eqb_refl. simpl.
      fold (without nodeID l1) (without nodeID l2). by rewrite !without_notin.
  - rewrite remove_loop_skip; [done|]. intros i Hi. apply in_seq in Hi.
    destruct (lookup_lt_is_Some_2 (Nodes s) i) as [y Hy]; [lia|]. exists y. split; [done|].
    apply String.eqb_neq, (List.find_none _ _ Ef y), list_elem_of_In, (list_elem_of_lookup_2 _ _ _ Hy).
Qed.

(** C21. removeNode changes the slice while it ranges over it; nevertheless, for a
    shard whose nodes have distinct identifiers it removes exactly the node with
    the identifier and keeps the order of the others, refuses the master, and
    reports a node that is not there; it never panics. *)
Theorem removeNode_spec nodeID s :
  NoDup (map ID (Nodes s)) ->
  removeNode nodeID s =
    match List.find (fun n => String.eqb (ID n) nodeID) (Nodes s) with
    | None => inl (sentinel ErrNotFound)
    | Some n => if IsMaster n then inl (wrapped "cannot remove master node: " (sentinel ErrInvalidArgument) "")
                else inr (setNodes (without nodeID (Nodes s)) s)
    end.
Proof. apply removeNode_exact. Qed.

Lemma removeNode_spec_witness :
  let s := setNodes [MkGoNode "a" "h:1" "master" "" 0; MkGoNode "b" "h:2" "slave" "" 0;
                     MkGoNode "c" "h:3" "slave" "" 0] NewShard in
  removeNode "b" s = inr (setNodes [MkGoNode "a" "h:1" "master" "" 0; MkGoNode "c" "h:3" "slave" "" 0] s).
Proof.
  refine (removeNode_spec "b" (setNodes [MkGoNode "a" "h:1" "master" "" 0; MkGoNode "b" "h:2" "slave" "" 0;
                                         MkGoNode "c" "h:3" "slave" "" 0] NewShard) _).
  simpl. repeat (apply NoDup_cons; split; [set_solver|]). constructor.
Defined.

(** ** Choosing a new master *)

Lemma digits_val_nonneg0 s : all_chars is_digit s = true -> 0 <= digits_val 0 s.
Proof. by apply digits_val_nonneg. Qed.

Lemma info_lines_inv {A} (I : A -> Prop) step (i : A) lines r :
  (forall i line i', I i -> step i line = inr i' -> I i') ->
  I i -> info_lines step i lines = inr r -> I r.
Proof.
  intros Hs. revert i. induction lines as [|line lines IH]; intros i Hi; simpl; [by intros [= <-]|].
  destruct (step i line) as [e|i'] eqn:E; [done|]. by apply IH, (Hs _ _ _ Hi E).
Qed.

(** The sequence number of a candidate is positive. *)
Lemma candidate_pos w n q : candidate w n = Some q -> 0 < q.
Proof.
  unfold candidate, GetClusterNodeInfo. destruct (GetClusterInfo w n); [done|].
  destruct (infoReply w n) as [e|str]; [done|].
  destruct (info_lines _ _ _) as [e|i] eqn:E; [done|].
  assert (Hs : 0 <= Sequence i).
  { refine (info_lines_inv (fun i => 0 <= Sequence i) _ _ _ _ _ _ E); [|simpl; lia]. clear. intros i line i' Hi.
    unfold node_info_line. destruct (split ":" line) as [|f0 [|f1 [|]]]; try (by intros [= <-]).
    destruct (String.eqb f0 "sequence").
    - unfold ParseUint. destruct f1 as [|c f1]; [done|].
      destruct (all_chars is_digit (String c f1)) eqn:Ed; [|done]. simpl andb. destruct (_ <? _); [|done].
      intros [= <-]. exact (digits_val_nonneg0 (String c f1) Ed).
    - destruct (String.eqb f0 "role"); by intros [= <-]. }
  destruct (negb _ || (Sequence i =? 0)) eqn:Eb; [done|]. intros [= <-].
  apply orb_false_iff in Eb as [_ Eb]. lia.
Qed.

(** Position [j] can become master: it is not the old one and is a candidate. *)
Definition eligible (w : Replies) (old : nat) (nodes : list GoNode) (j : nat) (n : GoNode) (q : Z) : Prop :=
  nodes !! j = Some n /\ j <> old /\ candidate w n = Some q.

(** The first eligible node with the preferred identifier ends the loop. *)
Lemma newMaster_preferred w old pref i nodes best newest :
  pref <> "" ->
  forall j n q, nodes !! j = Some n -> (i + j)%nat <> old -> candidate w n = Some q -> ID n = pref ->
  exists j' n' q', nodes !! j' = Some n' /\ (i + j')%nat <> old /\ candidate w n' = Some q' /\ ID n' = pref /\
    newMaster_loop w old pref i nodes best newest = Z.of_nat (i + j').
Proof.
  intros Hp. revert i best newest. induction nodes as [|x nodes IH]; intros i best newest j n q Hj Ho Hc Hn; [done|].
  assert (Hrest : ID x <> pref \/ (i = old) \/ candidate w x = None -> forall b o,
    exists j' n' q', (x :: nodes) !! j' = Some n' /\ (i + j')%nat <> old /\ candidate w n' = Some q' /\ ID n' = pref /\
      newMaster_loop w old pref (S i) nodes b o = Z.of_nat (i + j')).
  { intros Hx b o. destruct j as [|j].
    - simpl in Hj. simplify_eq. rewrite Nat.add_0_r in Ho. destruct Hx as [|[|]]; congruence.
    - destruct (IH (S i) b o j n q Hj ltac:(lia) Hc Hn) as (j' & n' & q' & H1 & H2 & H3 & H4 & H5).
      exists (S j'), n', q'. rewrite Nat.add_succ_r. done. }
  cbn [newMaster_loop]. destruct (Nat.eqb_spec i old) as [|Hio]; [apply Hrest; auto|].
  destruct (candidate w x) as [qx|] eqn:Ex; [|apply Hrest; auto].
  destruct (String.eqb_spec pref "") as [|_]; [done|]. simpl negb. cbn [andb].
  destruct (String.eqb_spec (ID x) pref) as [Ex'|Ex'].
  - exists 0%nat, x, qx. rewrite Nat.add_0_r. done.
  - destruct (newest <=? qx); apply Hrest; auto.
Qed.

(** Without an eligible preferred node the loop keeps the best so far. *)
Lemma newMaster_best w old pref i nodes best newest :
  (forall j n q, nodes !! j = Some n -> (i + j)%nat <> old -> candidate w n = Some q -> pref = "" \/ ID n <> pref) ->
  let r := newMaster_loop w old pref i nodes best newest in
  (r = best /\ forall j n q, nodes !! j = Some n -> (i + j)%nat <> old -> candidate w n = Some q -> q < newest) \/
  (exists j n q, nodes !! j = Some n /\ (i + j)%nat <> old /\ candidate w n = Some q /\ newest <= q /\
     r = Z.of_nat (i + j) /\
     forall j' n' q', nodes !! j' = Some n' -> (i + j')%nat <> old -> candidate w n' = Some q' -> q' <= q).
Proof.
  revert i best newest. induction nodes as [|x nodes IH]; intros i best newest Hp; [by left|].
  assert (Hp' : forall j n q, nodes !! j = Some n -> (S i + j)%nat <> old -> candidate w n = Some q -> pref = "" \/ ID n <> pref).
  { intros j n q Hj Ho. apply (Hp (S j) n q Hj). lia. }
  (* a node that is passed over: the rest decides, and the node itself is no better *)
  assert (Hskip : forall b o, (forall q, i <> old -> candidate w x = Some q -> q < o \/ (q = o /\ b = Z.of_nat i)) ->
    let r := newMaster_loop w old pref (S i) nodes b o in
    (r = b /\ forall j n q, nodes !! j = Some n -> (S i + j)%nat <> old -> candidate w n = Some q -> q < o) \/
    (exists j n q, (x :: nodes) !! S j = Some n /\ (i + S j)%nat <> old /\ candidate w n = Some q /\ o <= q /\
       r = Z.of_nat (i + S j) /\
       forall j' n' q', (x :: nodes) !! j' = Some n' -> (i + j')%nat <> old -> candidate w n' = Some q' -> q' <= q)).
  { intros b o Hx. destruct (IH (S i) b o Hp') as [|(j & n & q & H1 & H2 & H3 & H4 & H5 & H6)]; [by left|].
    right. exists j, n, q. rewrite Nat.add_succ_r. split_and!; try done.
    intros [|j'] n' q' Hn' Ho' Hc'; simpl in Hn'.
    - simplify_eq. rewrite Nat.add_0_r in Ho'. destruct (Hx q' Ho' Hc') as [?|[-> _]]; lia.
    - apply (H6 j' n' q' Hn'); [lia|done]. }
  cbn [newMaster_loop]. cbv zeta.
  assert (Hover : forall b o, (forall q, i <> old -> candidate w x = Some q -> q < o) ->
    let r := newMaster_loop w old pref (S i) nodes b o in
    (r = b /\ forall j n q, (x :: nodes) !! j = Some n -> (i + j)%nat <> old -> candidate w n = Some q -> q < o) \/
    (exists j n q, (x :: nodes) !! j = Some n /\ (i + j)%nat <> old /\ candidate w n = Some q /\ o <= q /\
       r = Z.of_nat (i + j) /\
       forall j' n' q', (x :: nodes) !! j' = Some n' -> (i + j')%nat <> old -> candidate w n' = Some q' -> q' <= q)).
  { intros b o Hx. destruct (Hskip b o ltac:(auto)) as [[Hr Hl]|(j & n & q & H)]; [left|right; by exists (S j), n, q].
    split; [done|]. intros [|j] n q Hn Ho Hc; simpl in Hn.
    - simplify_eq. rewrite Nat.add_0_r in Ho. by apply Hx.
    - apply (Hl j n q Hn); [lia|done]. }
  destruct (Nat.eqb_spec i old) as [|Hio]; [by apply Hover|].
  destruct (candidate w x) as [qx|] eqn:Ex; [|by apply Hover].
  assert (negb (String.eqb pref "") && String.eqb (ID x) pref = false) as ->.
  { destruct (Hp 0%nat x qx eq_refl ltac:(lia) Ex) as [->|H]; [done|].
    apply andb_false_iff. right. by apply String.eqb_neq. }
  destruct (Z.leb_spec newest qx) as [Hle|Hlt].
  - destruct (Hskip (Z.of_nat i) qx) as [[Hr Hl]|(j & n & q & H1 & H2 & H3 & H4 & H5 & H6)].
    + intros q _ [= <-]. auto.
    + right. exists 0%nat, x, qx. rewrite Nat.add_0_r. split_and!; try done.
      intros [|j'] n' q' Hn' Ho' Hc'; simpl in Hn'; simplify_eq; [lia|].
      specialize (Hl j' n' q' Hn' ltac:(lia) Hc'). lia.
    + right. exists (S j), n, q. split_and!; try done. lia.
  - apply Hover. intros q _ [= <-]. done.
Qed.

(** Node [k] is the only master. *)
Definition sole_master (nodes : list GoNode) (k : nat) : Prop :=
  is_Some (nodes !! k) /\ forall j n, nodes !! j = Some n -> IsMaster n = true <-> j = k.

(** What a change of role keeps of a node. *)
Definition identity (n : GoNode) : string * string * string * Z := (ID n, Addr n, Password n, CreatedAt n).

Lemma master_index_spec i nodes k : sole_master nodes k -> master_index i nodes = Some (i + k)%nat.
Proof.
  revert i k. induction nodes as [|n nodes IH]; intros i k [[x Hx] Hu]; [done|]. simpl.
  pose proof (Hu 0%nat n eq_refl) as H0. destruct (IsMaster n).
  - f_equal. assert (0%nat = k) as <- by (by apply H0). lia.
  - destruct k as [|k]; [by destruct H0 as [_ H0]; discriminate H0|].
    rewrite (IH (S i) k); [f_equal; lia|]. split; [by exists x|].
    intros j m Hj. rewrite (Hu (S j) m Hj). lia.
Qed.

(** The two changes of role move the mastership. *)
Lemma swap_roles_spec nodes old new :
  sole_master nodes old -> new <> old -> (new < length nodes)%nat ->
  let nodes' := alter (SetRole RoleMaster) new (alter (SetRole RoleSlave) old nodes) in
  sole_master nodes' new /\ map identity nodes' = map identity nodes.
Proof.
  intros [_ Hu] Hne Hlt nodes'. subst nodes'. split; [split|].
  - apply lookup_lt_is_Some. by rewrite !length_alter.
  - intros j n. destruct (decide (j = new)) as [->|Hj].
    + rewrite list_lookup_alter_eq, list_lookup_alter_ne by done.
      destruct (nodes !! new); intros [= <-]. done.
    + rewrite list_lookup_alter_ne by done. destruct (decide (j = old)) as [->|Hj'].
      * rewrite list_lookup_alter_eq. destruct (nodes !! old); intros [= <-]. simpl. by split.
      * rewrite list_lookup_alter_ne by done. intros H. rewrite (Hu _ _ H). done.
  - apply list_eq. intros j. rewrite !list_lookup_fmap.
    destruct (decide (j = new)) as [->|Hj].
    + rewrite list_lookup_alter_eq, list_lookup_alter_ne by done. by destruct (nodes !! new).
    + rewrite list_lookup_alter_ne by done. destruct (decide (j = old)) as [->|Hj'].
      * rewrite list_lookup_alter_eq. by destruct (nodes !! old).
      * by rewrite list_lookup_alter_ne.
Qed.

(** The preferred node can become master. *)
Definition preferred_eligible (w : Replies) (old : nat) (nodes : list GoNode) (pref : string) : Prop :=
  pref <> "" /\ exists j n q, eligible w old nodes j n q /\ ID n = pref.

#[export] Instance eligible_named_dec w old nodes pref j :
  Decision (exists n q, eligible w old nodes j n q /\ ID n = pref).
Proof.
  unfold eligible. destruct (nodes !! j) as [n|]; [|by right; intros (? & ? & (? & _) & _)].
  destruct (candidate w n) as [q|] eqn:Ec; [|right; intros (? & ? & (? & _ & ?) & _); simplify_eq].
  destruct (decide (j <> old)); [|right; intros (? & ? & (_ & ? & _) & _); tauto].
  destruct (decide (ID n = pref)); [left; by exists n, q|right; intros (? & ? & (? & _ & _) & ?); by simplify_eq].
Defined.

(** The node the controller chooses, if it finds one. *)
Lemma getNewMasterNodeIndex_spec w s old pref :
  let r := getNewMasterNodeIndex w s old pref in
  (r = -1 /\ forall j n q, ~ eligible w old (Nodes s) j n q) \/
  (exists j n q, r = Z.of_nat j /\ eligible w old (Nodes s) j n q /\
     ((preferred_eligible w old (Nodes s) pref /\ ID n = pref) \/
      (~ preferred_eligible w old (Nodes s) pref /\
       forall j' n' q', eligible w old (Nodes s) j' n' q' -> q' <= q))).
Proof.
  cbv zeta. unfold getNewMasterNodeIndex.
  assert (Hp : preferred_eligible w old (Nodes s) pref \/
    forall j n q, Nodes s !! j = Some n -> (0 + j)%nat <> old -> candidate w n = Some q -> pref = "" \/ ID n <> pref).
  { destruct (decide (pref = "")) as [->|Hne]; [by right; left|].
    destruct (decide (Exists (fun j => exists n q, eligible w old (Nodes s) j n q /\ ID n = pref)
                        (seq 0 (length (Nodes s))))) as [He|He].
    - apply Exists_exists in He as (j & _ & n & q & He). left. split; [done|]. by exists j, n, q.
    - right. intros j n q Hj Ho Hc. right. intros Hn. apply He, Exists_exists. exists j.
      split; [apply elem_of_seq; apply lookup_lt_Some in Hj; lia|]. by exists n, q. }
  destruct Hp as [[Hne (j & n & q & (Hj & Ho & Hc) & Hn)]|Hp].
  - destruct (newMaster_preferred w old pref 0 (Nodes s) (-1) 0 Hne j n q Hj Ho Hc Hn)
      as (j' & n' & q' & H1 & H2 & H3 & H4 & ->).
    right. exists j', n', q'. split_and!; [done..|]. left. split; [|done]. split; [done|]. by exists j', n', q'.
  - assert (Hnp : ~ preferred_eligible w old (Nodes s) pref).
    { intros [Hne (j & n & q & (Hj & Ho & Hc) & Hn)]. by destruct (Hp j n q Hj Ho Hc). }
    destruct (newMaster_best w old pref 0 (Nodes s) (-1) 0 Hp) as [[-> Hl]|(j & n & q & H1 & H2 & H3 & _ & -> & H6)].
    + left. split; [done|]. intros j n q (Hj & Ho & Hc). pose proof (candidate_pos _ _ _ Hc).
      specialize (Hl j n q Hj Ho Hc). lia.
    + right. exists j, n, q. split_and!; [done..|]. right. split; [done|].
      intros j' n' q' (Hj & Ho & Hc). by apply (H6 j' n' q').
Qed.

(** What promoteNewMaster does. *)
Lemma promoteNewMaster_exact w masterNodeID pref s old m :
  sole_master (Nodes s) old -> Nodes s !! old = Some m ->
  match promoteNewMaster w masterNodeID pref s with
  | inr (s', id) =>
      (masterNodeID = "" \/ masterNodeID = ID m) /\
      exists new n q, eligible w old (Nodes s) new n q /\ id = ID n /\
        ((preferred_eligible w old (Nodes s) pref /\ ID n = pref) \/
         (~ preferred_eligible w old (Nodes s) pref /\
          forall j' n' q', eligible w old (Nodes s) j' n' q' -> q' <= q)) /\
        sole_master (Nodes s') new /\
        map identity (Nodes s') = map identity (Nodes s) /\ s' = setNodes (Nodes s') s
  | inl e =>
      (e = sentinel ErrShardNoReplica /\ (length (Nodes s) <= 1)%nat) \/
      (e = sentinel ErrNodeIsNotMaster /\ masterNodeID <> "" /\ masterNodeID <> ID m) \/
      (e = sentinel ErrShardNoMatchNewMaster /\ forall j n q, ~ eligible w old (Nodes s) j n q)
  end.
Proof.
  intros Hm Hold. unfold promoteNewMaster. destruct (Nat.leb_spec (length (Nodes s)) 1) as [|_]; [by left|].
  rewrite (master_index_spec 0 _ _ Hm). cbn [Nat.add]. rewrite Hold. cbn [from_option].
  destruct (String.eqb_spec masterNodeID "") as [Em|Em]; cbn [negb andb].
  2: destruct (String.eqb_spec (ID m) masterNodeID) as [Ei|Ei]; cbn [negb]; [|by right; left].
  all: destruct (getNewMasterNodeIndex_spec w s old pref) as [[-> Hn]|(j & n & q & -> & (Hj & Ho & Hc) & Hq)];
    [by right; right|].
  all: destruct (Z.eqb_spec (Z.of_nat j) (-1)) as [|_]; [lia|]; rewrite Nat2Z.id;
    destruct (swap_roles_spec (Nodes s) old j Hm Ho (lookup_lt_Some _ _ _ Hj)) as [H1 H2];
    (split; [by auto|]); exists j, n, q; unfold eligible;
    rewrite list_lookup_alter_eq, list_lookup_alter_ne, Hj by done; split_and!; done.
Qed.

(** C20. Promotion in a shard with one master [m].  When it succeeds, the new
    master is another node that answers as a replica with a positive sequence
    number; it is the preferred node if that one qualifies, and otherwise one
    whose sequence number no qualifying node exceeds; it is then the only
    master, and of no node does anything but the role change.  It fails exactly
    when there is no replica, when the caller names another node as the master,
    or when no node qualifies. *)
Theorem promoteNewMaster_spec w masterNodeID pref s old m :
  sole_master (Nodes s) old -> Nodes s !! old = Some m ->
  match promoteNewMaster w masterNodeID pref s with
  | inr (s', id) =>
      (masterNodeID = "" \/ masterNodeID = ID m) /\
      exists new n q, eligible w old (Nodes s) new n q /\ id = ID n /\
        ((preferred_eligible w old (Nodes s) pref /\ ID n = pref) \/
         (~ preferred_eligible w old (Nodes s) pref /\
          forall j' n' q', eligible w old (Nodes s) j' n' q' -> q' <= q)) /\
        sole_master (Nodes s') new /\
        map identity (Nodes s') = map identity (Nodes s) /\ s' = setNodes (Nodes s') s
  | inl e =>
      (e = sentinel ErrShardNoReplica /\ (length (Nodes s) <= 1)%nat) \/
      (e = sentinel ErrNodeIsNotMaster /\ masterNodeID <> "" /\ masterNodeID <> ID m) \/
      (e = sentinel ErrShardNoMatchNewMaster /\ forall j n q, ~ eligible w old (Nodes s) j n q)
  end.
Proof. apply promoteNewMaster_exact. Qed.

(** A shard with a dead master, a lagging preferred replica that does not
    answer, and two others. *)
Definition demo_replies : Replies :=
  MkReplies (fun n => if String.eqb (ID n) "b" then inl "timeout" else inr "cluster_current_epoch:3")
    (fun n => inr (if String.eqb (ID n) "c" then "role:slave" +:+ crlf +:+ "sequence:7"
                   else "role:slave" +:+ crlf +:+ "sequence:9"))
    (fun _ => inl "timeout") (fun _ _ _ => true).

Definition demo_shard : Shard :=
  setNodes [MkGoNode "a" "h:1" "master" "" 0; MkGoNode "b" "h:2" "slave" "" 0;
            MkGoNode "c" "h:3" "slave" "" 0; MkGoNode "d" "h:4" "slave" "" 0] NewShard.

Lemma demo_sole_master : sole_master (Nodes demo_shard) 0.
Proof. split; [by eexists|]. intros [|[|[|[|j]]]] n H; simpl in H; simplify_eq; by split. Qed.

Lemma promoteNewMaster_spec_witness :
  promoteNewMaster demo_replies "" "b" demo_shard =
    inr (setNodes [MkGoNode "a" "h:1" "slave" "" 0; MkGoNode "b" "h:2" "slave" "" 0;
                   MkGoNode "c" "h:3" "slave" "" 0; MkGoNode "d" "h:4" "master" "" 0] NewShard, "d") /\
  exists new n q, eligible demo_replies 0 (Nodes demo_shard) new n q /\ "d" = ID n.
Proof.
  split; [reflexivity|].
  pose proof (promoteNewMaster_spec demo_replies "" "b" demo_shard 0 (MkGoNode "a" "h:1" "master" "" 0)
                demo_sole_master eq_refl) as H.
  destruct H as (_ & new & n & q & He & Hid & _). exists new, n, q. split; [exact He|exact Hid].
Defined.
