(* ===== verification/GoJson.v ===== *)
(** * JSON on the server (the MarshalJSON and UnmarshalJSON methods of store/,
    and the binding of request bodies)

    What encoding/json makes of a value when it is decoded into a Go type, the
    stored form of a cluster, and that a cluster survives being stored.  A JSON
    text is the [value] it denotes; the texts of the decoder's errors are
    abbreviated. *)

From S2P Require Import Prelude JsString JsNumber JsValue Slots GoShard GoCluster.

#[global] Instance go_ret : MRet (sum go_error) := @inr go_error.
#[global] Instance go_bind : MBind (sum go_error) := fun A B f r =>
  match r with inl e => inl e | inr a => f a end.

Lemma go_bind_inv {A B} (x : go_error + A) (f : A -> go_error + B) b :
  (x ≫= f) = inr b -> exists a, x = inr a /\ f a = inr b.
Proof. destruct x; simpl; [done|eauto]. Qed.

Fixpoint go_mapM {A B} (f : A -> go_error + B) (l : list A) : go_error + list B :=
  match l with
  | [] => inr []
  | x :: l' => y ← f x; ys ← go_mapM f l'; inr (y :: ys)
  end.

(** ** From the browser to the server

    [JSON.stringify]: a property that is undefined is left out, an undefined
    element and a number that is not finite become null. *)
Fixpoint wire (v : value) : value :=
  match v with
  | VNum (NaN | Inf _) => VNull
  | VArr l => VArr (map (fun x => match x with VUndefined => VNull | _ => wire x end) l)
  | VObj fs =>
      VObj ((fix go (fs : list (string * value)) : list (string * value) :=
               match fs with
               | [] => []
               | (k, x) :: fs' => match x with VUndefined => go fs' | _ => (k, wire x) :: go fs' end
               end) fs)
  | _ => v
  end.

(** ** Decoding into Go types

    A decoder gets the current contents of the variable: null leaves a string,
    a number or a bool as it is. *)
Definition json_error (ty : string) : go_error := errors_New ("json: cannot unmarshal into " +:+ ty).

Definition dec_string (cur : string) (v : value) : go_error + string :=
  match v with VNull => inr cur | VStr s => inr s | _ => inl (json_error "string") end.

Definition dec_bool (cur : bool) (v : value) : go_error + bool :=
  match v with VNull => inr cur | VBool b => inr b | _ => inl (json_error "bool") end.

(** An [int] or [int64]: an integral number within 64 bits. *)
Definition dec_int (cur : Z) (v : value) : go_error + Z :=
  match v with
  | VNull => inr cur
  | VNum (Fin q) =>
      let z := Qnum q / Zpos (Qden q) in
      if (Qnum q mod Zpos (Qden q) =? 0) && (- 2 ^ 63 <=? z) && (z <? 2 ^ 63) then inr z
      else inl (json_error "int")
  | _ => inl (json_error "int")
  end.

Definition dec_slice {A} (dec : value -> go_error + A) (v : value) : go_error + list A :=
  match v with VNull => inr [] | VArr l => go_mapM dec l | _ => inl (json_error "slice") end.

(** The fields of an object in their order; a key matches the name of a field
    up to the case of its letters. *)
Definition json_field {A} (k : string) (dec : A -> value -> go_error + A) (zero : A)
    (fs : list (string * value)) : go_error + A :=
  fold_left (fun acc '(k', v) =>
      cur ← acc; if String.eqb (toLowerCase k') (toLowerCase k) then dec cur v else inr cur) fs (inr zero).

(** A struct: null leaves it at its zero value. *)
Definition json_object (v : value) : go_error + list (string * value) :=
  match v with VNull => inr [] | VObj fs => inr fs | _ => inl (json_error "struct") end.

Definition SlotRange_UnmarshalJSON (v : value) : go_error + SlotRange :=
  s ← dec_string "" v;
  match ParseSlotRange s with GoOk r => inr r | GoErr m => inl (errors_New m) end.

(** A pointer: null is nil.  The number is the old form, -1 is not migrating. *)
Definition MigratingSlot_UnmarshalJSON (v : value) : go_error + option MigratingSlot :=
  match v with
  | VNull => inr None
  | VStr s => r ← SlotRange_UnmarshalJSON (VStr s); inr (Some (MkMigrating r true))
  | VNum n =>
      if num_eq n (num (-1)) then inr (Some (MkMigrating (MkRange 0 0) false))
      else if num_lt n (num MinSlotID) || num_lt (num MaxSlotID) n then inl (errors_New ErrSlotOutOfRange)
      else match n with
           | Fin q => let slotID := Qnum q / Zpos (Qden q) in
                      inr (Some (MkMigrating (MkRange slotID slotID) true))
           | _ => inl (errors_New ErrSlotOutOfRange)
           end
  | _ => inl (errors_New "invalid slot range type")
  end.

(** A null among the nodes or the shards would be a nil pointer, which the
    server dereferences later. *)
Definition Node_UnmarshalJSON (v : value) : go_error + GoNode :=
  match v with
  | VNull => inl (sentinel ErrPanic)
  | _ =>
      fs ← json_object v;
      id ← json_field "id" dec_string "" fs;
      addr ← json_field "addr" dec_string "" fs;
      role ← json_field "role" dec_string "" fs;
      password ← json_field "password" dec_string "" fs;
      createdAt ← json_field "created_at" dec_int 0 fs;
      inr (MkGoNode id addr role password createdAt)
  end.

Definition Shard_UnmarshalJSON (v : value) : go_error + Shard :=
  match v with
  | VNull => inl (sentinel ErrPanic)
  | _ =>
      fs ← json_object v;
      slotRanges ← json_field "slot_ranges" (fun _ => dec_slice SlotRange_UnmarshalJSON) [] fs;
      target ← json_field "target_shard_index" dec_int 0 fs;
      migrating ← json_field "migrating_slot" (fun _ => MigratingSlot_UnmarshalJSON) None fs;
      nodes ← json_field "nodes" (fun _ => dec_slice Node_UnmarshalJSON) [] fs;
      inr (MkShard nodes slotRanges target migrating)
  end.

Definition Cluster_UnmarshalJSON (v : value) : go_error + Cluster :=
  fs ← json_object v;
  version ← json_field "version" dec_int 0 fs;
  name ← json_field "name" dec_string "" fs;
  shards ← json_field "shards" (fun _ => dec_slice Shard_UnmarshalJSON) [] fs;
  inr (MkCluster name version shards).

Definition cluster_json (c : Cluster) : value :=
  VObj [("version", vnum (Version c)); ("name", VStr (Name c)); ("shards", VArr (map shard_json (Shards c)))].

(** ** The round trip *)

(** Looks the literal keys of an object up. *)
Ltac json_fields :=
  cbn [json_object]; cbn [mbind go_bind]; unfold json_field; cbn [fold_left mbind go_bind];
  repeat match goal with
  | |- context [String.eqb (toLowerCase ?a) (toLowerCase ?b)] =>
      let r := eval vm_compute in (String.eqb (toLowerCase a) (toLowerCase b)) in
      change (String.eqb (toLowerCase a) (toLowerCase b)) with r; cbv beta iota; cbn [mbind go_bind dec_string]
  end.

Definition int64 (z : Z) : Prop := - 2 ^ 63 <= z < 2 ^ 63.

Lemma dec_int_vnum cur z : int64 z -> dec_int cur (vnum z) = inr z.
Proof.
  intros [H1 H2]. unfold dec_int, vnum, num, inject_Z. cbn [Qnum Qden].
  rewrite Z.mod_1_r, Z.div_1_r, (proj2 (Z.leb_le _ _) H1), (proj2 (Z.ltb_lt _ _) H2). done.
Qed.

Lemma go_mapM_map {A B} (f : B -> go_error + A) (g : A -> B) (l : list A) :
  Forall (fun x => f (g x) = inr x) l -> go_mapM f (map g l) = inr l.
Proof. induction 1 as [|x l Hx _ IH]; simpl; [done|]. by rewrite Hx; simpl; rewrite IH. Qed.

Definition node_storable (n : GoNode) : Prop := int64 (CreatedAt n).

(** The ranges exist, a migration that is recorded is under way, and the numbers
    fit their types. *)
Definition shard_storable (s : Shard) : Prop :=
  Forall node_storable (Nodes s) /\ wf_ranges (SlotRanges s) /\ int64 (TargetShardIndex s) /\
  match Migrating s with Some m => wf_range (m_range m) /\ IsMigrating m = true | None => True end.

Definition cluster_storable (c : Cluster) : Prop := int64 (Version c) /\ Forall shard_storable (Shards c).

Lemma node_roundtrip n : node_storable n -> Node_UnmarshalJSON (node_json n) = inr n.
Proof.
  intros H. unfold Node_UnmarshalJSON, node_json. json_fields. rewrite (dec_int_vnum 0 _ H). by destruct n.
Qed.

Lemma range_roundtrip r : wf_range r -> SlotRange_UnmarshalJSON (VStr (range_string r)) = inr r.
Proof. intros H. unfold SlotRange_UnmarshalJSON. simpl. by rewrite ParseSlotRange_string. Qed.

Lemma migrating_roundtrip m :
  match m with Some m => wf_range (m_range m) /\ IsMigrating m = true | None => True end ->
  MigratingSlot_UnmarshalJSON (migrating_json m) = inr m.
Proof.
  destruct m as [[r b]|]; [|done]. cbn [m_range IsMigrating]. intros [Hr ->].
  unfold migrating_json. cbn [IsMigrating m_range MigratingSlot_UnmarshalJSON]. by rewrite range_roundtrip.
Qed.

Lemma shard_roundtrip s : shard_storable s -> Shard_UnmarshalJSON (shard_json s) = inr s.
Proof.
  intros (Hn & Hr & Ht & Hm). unfold Shard_UnmarshalJSON, shard_json. json_fields.
  cbn [dec_slice]. rewrite (go_mapM_map SlotRange_UnmarshalJSON).
  2: { eapply Forall_impl; [exact Hr|]. apply range_roundtrip. }
  cbn [mbind go_bind]. rewrite (dec_int_vnum 0 _ Ht). cbn [mbind go_bind].
  rewrite (migrating_roundtrip _ Hm). cbn [mbind go_bind]. rewrite (go_mapM_map Node_UnmarshalJSON).
  2: { eapply Forall_impl; [exact Hn|]. apply node_roundtrip. }
  by destruct s.
Qed.

Lemma cluster_decode c : cluster_storable c -> Cluster_UnmarshalJSON (cluster_json c) = inr c.
Proof.
  intros [Hv Hs]. unfold Cluster_UnmarshalJSON, cluster_json. json_fields.
  rewrite (dec_int_vnum 0 _ Hv). cbn [mbind go_bind dec_slice]. rewrite (go_mapM_map Shard_UnmarshalJSON).
  2: { eapply Forall_impl; [exact Hs|]. apply shard_roundtrip. }
  by destruct c.
Qed.

(** C30. A cluster that is stored is read back as it was: nodes, roles, passwords,
    slot ranges, the migration in progress, the version.  And the older form of
    a migrating slot is understood: a number from 0 to 16383 is that one slot,
    printed again as its text; -1 is a slot that is not migrating and is printed
    as null; any other whole number is refused. *)
Theorem cluster_roundtrip c :
  cluster_storable c ->
  Cluster_UnmarshalJSON (cluster_json c) = inr c /\
  forall z, match MigratingSlot_UnmarshalJSON (vnum z) with
            | inr m => (0 <= z <= 16383 /\ m = Some (FromSlotRange (MkRange z z)) /\
                        migrating_json m = VStr (Z_to_string z)) \/
                       (z = -1 /\ migrating_json m = VNull)
            | inl e => e = errors_New ErrSlotOutOfRange /\ (z < -1 \/ 16383 < z)
            end.
Proof.
  intros Hc. split; [by apply cluster_decode|]. intros z.
  unfold MigratingSlot_UnmarshalJSON, vnum. rewrite num_eq_Z, !num_lt_Z. unfold MinSlotID, MaxSlotID.
  destruct (Z.eqb_spec z (-1)) as [->|Hne]; [right; done|].
  destruct (Z.ltb_spec z 0), (Z.ltb_spec 16383 z); simpl; [split; [done|lia]..|]. left.
  unfold num, inject_Z. cbn [Qnum Qden]. rewrite Z.div_1_r. split_and!; [lia..|done|].
  unfold migrating_json, range_string. cbn. by rewrite Z.eqb_refl.
Qed.

Definition demo_cluster : Cluster :=
  MkCluster "c" 4 [MkShard [MkGoNode "a" "h:1" "master" "pw" 17; MkGoNode "b" "h:2" "slave" "pw" 17]
                     [MkRange 0 99; MkRange 200 16383] 1 (Some (FromSlotRange (MkRange 3 9)));
                   MkShard [MkGoNode "d" "h:3" "master" "pw" 18] [MkRange 100 199] (-1) None].

Lemma demo_cluster_storable : cluster_storable demo_cluster.
Proof.
  split; [unfold int64; simpl; lia|]. repeat constructor; unfold node_storable, int64, wf_range, MinSlotID, MaxSlotID; simpl; lia.
Qed.

Lemma cluster_roundtrip_witness : Cluster_UnmarshalJSON (cluster_json demo_cluster) = inr demo_cluster.
Proof. apply (cluster_roundtrip demo_cluster demo_cluster_storable). Defined.
