(* ===== verification/GoEngine.v ===== *)
(** * Storage engines (store/helper.go, store/engine/)

    The keys under which the server keeps namespaces and clusters, the interface
    of a storage engine as a class with its laws, and two engines: the in-memory
    one and the data store of the raft engine.  They list keys differently; the
    laws say what both do on the keys that the server writes. *)

From S2P Require Import Prelude JsString JsNumber JsValue Effects Api Slots GoShard GoCluster GoJson.

Definition nsPrefix : string := "/kvrocks/metadata".
Definition appendPrefix (ns : string) : string := nsPrefix +:+ "/" +:+ ns.
Definition buildClusterPrefix (ns : string) : string := nsPrefix +:+ "/" +:+ ns +:+ "/cluster".
Definition buildClusterKey (ns cluster : string) : string := buildClusterPrefix ns +:+ "/" +:+ cluster.

(** The bytes of a value: the name of a namespace, or a JSON text. *)
Inductive blob := Text (s : string) | Json (v : value).

(** [e_Missing] is the error of [e_Get] for a key that is not there.  A listing
    is the keys of its entries. *)
Class Engine (E : Type) := {
  e_Missing : go_error;
  e_Get : E -> string -> go_error + blob;
  e_Exists : E -> string -> bool;
  e_Set : E -> string -> blob -> E;
  e_Delete : E -> string -> E;
  e_List : E -> string -> list string }.

(** Every key is the one of a namespace, or the one of a cluster in a namespace
    that exists; no name has a slash. *)
Definition well_keyed {E} `{Engine E} (e : E) : Prop :=
  forall k, e_Exists e k = true ->
    (exists ns, path_name ns = true /\ k = appendPrefix ns) \/
    (exists ns c, path_name ns = true /\ path_name c = true /\ k = buildClusterKey ns c /\
       e_Exists e (appendPrefix ns) = true).

Class EngineLaws (E : Type) `{Engine E} := {
  get_set e k v : e_Get (e_Set e k v) k = inr v;
  get_set_ne e k k' v : k <> k' -> e_Get (e_Set e k v) k' = e_Get e k';
  exists_delete e k : e_Exists (e_Delete e k) k = false;
  get_delete_ne e k k' : k <> k' -> e_Get (e_Delete e k) k' = e_Get e k';
  get_missing e k err : e_Get e k = inl err -> err = e_Missing;
  exists_get e k : e_Exists e k = match e_Get e k with inr _ => true | inl _ => false end;
  list_namespaces e : well_keyed e ->
    NoDup (e_List e nsPrefix) /\
    forall ns, ns ∈ e_List e nsPrefix <-> path_name ns = true /\ e_Exists e (appendPrefix ns) = true;
  list_clusters e ns : well_keyed e -> path_name ns = true ->
    NoDup (e_List e (buildClusterPrefix ns)) /\
    forall c, c ∈ e_List e (buildClusterPrefix ns) <->
      path_name c = true /\ e_Exists e (buildClusterKey ns c) = true }.

(** ** Strings *)

Fixpoint str_drop (n : nat) (s : string) : string :=
  match n, s with S n', String _ s' => str_drop n' s' | O, _ => s | _, EmptyString => EmptyString end.

(** [strings.TrimPrefix] *)
Definition TrimPrefix (s p : string) : string := if startsWith s p then str_drop (String.length p) s else s.

(** [strings.TrimLeft(s, "/")] and [strings.Trim(s, "/")] *)
Fixpoint TrimLeft_slash (s : string) : string :=
  match s with String "/" s' => TrimLeft_slash s' | _ => s end.

Fixpoint TrimRight_slash (s : string) : string :=
  match s with
  | EmptyString => EmptyString
  | String c s' =>
      match TrimRight_slash s' with
      | EmptyString => if Ascii.eqb c "/" then EmptyString else String c EmptyString
      | t => String c t
      end
  end.

Definition Trim_slash (s : string) : string := TrimRight_slash (TrimLeft_slash s).

Definition has_slash (s : string) : bool := any_char (Ascii.eqb "/") s.

Lemma prefix_inv p s : String.prefix p s = true -> exists t, s = p +:+ t.
Proof.
  revert s. induction p as [|c p IH]; intros s; [by exists s|]. destruct s as [|d s]; [done|]. simpl.
  destruct (ascii_dec c d) as [->|]; [|done]. intros [t ->]%IH. by exists t.
Qed.

Lemma str_drop_append p t : str_drop (String.length p) (p +:+ t) = t.
Proof. by induction p. Qed.

Lemma TrimLeft_slash_none s t : path_name s = true -> TrimLeft_slash (s +:+ t) = s +:+ t.
Proof.
  unfold path_name. destruct s as [|c s]; [done|]. simpl. intros H. destruct (Ascii.eqb_spec "/" c) as [<-|Hne]; [done|].
  destruct c as [[] [] [] [] [] [] [] []]; done.
Qed.

Lemma TrimLeft_slash_slash s : TrimLeft_slash ("/" +:+ s) = TrimLeft_slash s.
Proof. reflexivity. Qed.

Lemma TrimRight_slash_none s t : path_name t = true -> TrimRight_slash (s +:+ t) = s +:+ t.
Proof.
  intros Ht. assert (Hn : TrimRight_slash t = t).
  { apply path_name_spec in Ht as [Ht _]. induction t as [|c t IH]; [done|]. simpl in *.
    apply orb_false_elim in Ht as [Hc Ht]. rewrite (IH Ht). destruct t; [|done].
    by rewrite Ascii.eqb_sym, Hc. }
  apply path_name_spec in Ht as [_ Ht]. apply String.eqb_neq in Ht.
  induction s as [|c s IH]; [done|]. simpl. rewrite IH.
  destruct (s +:+ t) eqn:E; [|done]. destruct s, t; done.
Qed.

(** ** Keys *)

Lemma split_nsPrefix t : split "/" (nsPrefix +:+ "/" +:+ t) = "" :: "kvrocks" :: "metadata" :: split "/" t.
Proof. reflexivity. Qed.

Lemma split_appendPrefix ns : path_name ns = true -> split "/" (appendPrefix ns) = ["";"kvrocks";"metadata";ns].
Proof. intros [H _]%path_name_spec. unfold appendPrefix. by rewrite split_nsPrefix, split_none. Qed.

Lemma buildClusterKey_eq ns c : buildClusterKey ns c = nsPrefix +:+ "/" +:+ (ns +:+ String "/" ("cluster/" +:+ c)).
Proof. unfold buildClusterKey, buildClusterPrefix. rewrite !append_assoc. done. Qed.

Lemma split_buildClusterKey ns c :
  path_name ns = true -> path_name c = true ->
  split "/" (buildClusterKey ns c) = ["";"kvrocks";"metadata";ns;"cluster";c].
Proof.
  intros [H _]%path_name_spec [H' _]%path_name_spec.
  rewrite buildClusterKey_eq, split_nsPrefix, split_app by done. do 4 f_equal.
  change (split "/" ("cluster/" +:+ c)) with ("cluster" :: split "/" c). by rewrite split_none.
Qed.

Lemma appendPrefix_inj ns ns' : appendPrefix ns = appendPrefix ns' -> ns = ns'.
Proof. unfold appendPrefix. intros H. by do 2 apply append_inj_l in H. Qed.

Lemma buildClusterKey_inj ns c ns' c' :
  path_name ns = true -> path_name c = true -> path_name ns' = true -> path_name c' = true ->
  buildClusterKey ns c = buildClusterKey ns' c' -> ns = ns' /\ c = c'.
Proof.
  intros H1 H2 H3 H4 H. apply (f_equal (split "/")) in H.
  rewrite !split_buildClusterKey in H by done. by simplify_eq.
Qed.

Lemma keys_disjoint ns ns' c :
  path_name ns = true -> path_name ns' = true -> path_name c = true -> appendPrefix ns <> buildClusterKey ns' c.
Proof.
  intros H1 H2 H3 H. apply (f_equal (split "/")) in H.
  rewrite split_buildClusterKey, split_appendPrefix in H by done. discriminate H.
Qed.

Lemma keys_disjoint_sym ns ns' c :
  path_name ns = true -> path_name ns' = true -> path_name c = true -> buildClusterKey ns' c <> appendPrefix ns.
Proof. intros H1 H2 H3 H. by apply (keys_disjoint ns ns' c). Qed.

(** What begins with the prefix of a namespace's clusters. *)
Lemma cluster_prefix_split ns t :
  path_name ns = true ->
  split "/" (buildClusterPrefix ns +:+ t) = "" :: "kvrocks" :: "metadata" :: ns :: split "/" ("cluster" +:+ t).
Proof.
  intros [H _]%path_name_spec. unfold buildClusterPrefix. rewrite !append_assoc.
  change (("/cluster" +:+ t)) with (String "/" ("cluster" +:+ t)). rewrite split_nsPrefix, split_app by done. done.
Qed.

Lemma cluster_prefix_ns ns ns' :
  path_name ns = true -> path_name ns' = true -> startsWith (appendPrefix ns') (buildClusterPrefix ns) = false.
Proof.
  intros H1 H2. destruct (startsWith _ _) eqn:E; [|done]. apply prefix_inv in E as [t E].
  apply (f_equal (split "/")) in E. rewrite split_appendPrefix, cluster_prefix_split in E by done.
  destruct (split_cons "/" ("cluster" +:+ t)) as (p & ps & Ep). rewrite Ep in E. discriminate E.
Qed.

Lemma cluster_prefix_cluster ns ns' c :
  path_name ns = true -> path_name ns' = true -> path_name c = true ->
  startsWith (buildClusterKey ns' c) (buildClusterPrefix ns) = String.eqb ns' ns.
Proof.
  intros H1 H2 H3. destruct (String.eqb_spec ns' ns) as [->|Hne]; [apply prefix_append|].
  destruct (startsWith _ _) eqn:E; [|done]. apply prefix_inv in E as [t E].
  apply (f_equal (split "/")) in E. rewrite split_buildClusterKey, cluster_prefix_split in E by done.
  by injection E.
Qed.

Lemma TrimPrefix_append p t : TrimPrefix (p +:+ t) p = t.
Proof. unfold TrimPrefix, startsWith. by rewrite prefix_append, str_drop_append. Qed.

(** ** The in-memory engine (store/engine/engine_inmemory.go)

    [iter] is the order in which the loop visits the map, which Go leaves open. *)

Definition first_level (k : string) : string := match cut "/" k with Some (a, _) => a | None => k end.

Fixpoint mock_entries (prefix : string) (seen : list string) (keys : list string) : list string :=
  match keys with
  | [] => []
  | k :: keys' =>
      if startsWith k prefix then
        let k' := first_level (Trim_slash (TrimPrefix k prefix)) in
        if existsb (String.eqb k') seen then mock_entries prefix seen keys'
        else k' :: mock_entries prefix (k' :: seen) keys'
      else mock_entries prefix seen keys'
  end.

Definition Mock : Type := gmap string blob.

Definition Mock_engine (iter : Mock -> list string) : Engine Mock := {|
  e_Missing := sentinel ErrNotFound;
  e_Get m k := match m !! k with Some v => inr v | None => inl (sentinel ErrNotFound) end;
  e_Exists m k := bool_decide (is_Some (m !! k));
  e_Set m k v := <[k := v]> m;
  e_Delete m k := delete k m;
  e_List m prefix := mock_entries prefix [] (iter m) |}.

(** ** The data store of the raft engine (store/engine/raft/store.go, node.go) *)

Definition ErrKeyNotFound : go_error := errors_New "key not found".

Definition raft_entry (prefix k : string) : option string :=
  if negb (startsWith k prefix) || String.eqb k prefix then None
  else let trimmedKey := TrimLeft_slash (str_drop (String.length prefix + 1) k) in
       if has_slash trimmedKey then None else Some trimmedKey.

Definition DataStore : Type := gmap string blob.

Definition DataStore_engine (iter : DataStore -> list string) : Engine DataStore := {|
  e_Missing := ErrKeyNotFound;
  e_Get ds k := match ds !! k with Some v => inr v | None => inl ErrKeyNotFound end;
  e_Exists ds k := match ds !! k with Some _ => true | None => false end;
  e_Set ds k v := <[k := v]> ds;
  e_Delete ds k := delete k ds;
  e_List ds prefix := stable_sort String.leb (omap (raft_entry prefix) (iter ds)) |}.

(** The names the two engines make of the server's keys. *)

Lemma mock_name_ns ns : path_name ns = true -> first_level (Trim_slash (TrimPrefix (appendPrefix ns) nsPrefix)) = ns.
Proof.
  intros H. unfold appendPrefix. rewrite TrimPrefix_append. unfold Trim_slash. cbn [String.append TrimLeft_slash].
  rewrite <- (append_nil_r ns) at 1. rewrite TrimLeft_slash_none by done. rewrite append_nil_r.
  change ns with ("" +:+ ns) at 1. rewrite TrimRight_slash_none by done. cbn [String.append].
  unfold first_level. rewrite cut_none; [done|]. by apply path_name_spec in H as [H _].
Qed.

Lemma mock_name_ns_of_cluster ns c :
  path_name ns = true -> path_name c = true ->
  first_level (Trim_slash (TrimPrefix (buildClusterKey ns c) nsPrefix)) = ns.
Proof.
  intros H Hc. rewrite buildClusterKey_eq, TrimPrefix_append. unfold Trim_slash.
  rewrite TrimLeft_slash_slash, TrimLeft_slash_none by done.
  replace (ns +:+ String "/" ("cluster/" +:+ c)) with ((ns +:+ "/cluster/") +:+ c) by (by rewrite append_assoc).
  rewrite TrimRight_slash_none, append_assoc by done. unfold first_level.
  replace ("/cluster/" +:+ c) with (String "/" ("cluster/" +:+ c)) by done.
  rewrite cut_app; [done|]. by apply path_name_spec in H as [H _].
Qed.

Lemma mock_name_cluster ns c :
  path_name c = true -> first_level (Trim_slash (TrimPrefix (buildClusterKey ns c) (buildClusterPrefix ns))) = c.
Proof.
  intros H. unfold buildClusterKey. rewrite TrimPrefix_append. unfold Trim_slash. cbn [String.append TrimLeft_slash].
  rewrite <- (append_nil_r c) at 1. rewrite TrimLeft_slash_none by done. rewrite append_nil_r.
  change c with ("" +:+ c) at 1. rewrite TrimRight_slash_none by done. cbn [String.append].
  unfold first_level. rewrite cut_none; [done|]. by apply path_name_spec in H as [H _].
Qed.

Lemma raft_entry_below p t :
  raft_entry p (p +:+ "/" +:+ t) =
  let trimmedKey := TrimLeft_slash t in if has_slash trimmedKey then None else Some trimmedKey.
Proof.
  unfold raft_entry, startsWith. rewrite prefix_append. cbn [negb orb].
  destruct (String.eqb_spec (p +:+ "/" +:+ t) p) as [E|_].
  { rewrite <- (append_nil_r p) in E at 2. by apply append_inj_l in E. }
  rewrite <- append_assoc. replace (String.length p + 1)%nat with (String.length (p +:+ "/")) by (by rewrite length_append).
  by rewrite str_drop_append.
Qed.

Lemma raft_name p t : path_name t = true -> raft_entry p (p +:+ "/" +:+ t) = Some t.
Proof.
  intros H. rewrite raft_entry_below. pose proof (TrimLeft_slash_none t "" H) as E. rewrite append_nil_r in E.
  rewrite E. cbv zeta. unfold has_slash. apply path_name_spec in H as [H _]. by rewrite H.
Qed.

Lemma raft_name_ns_of_cluster ns c : path_name ns = true -> raft_entry nsPrefix (buildClusterKey ns c) = None.
Proof.
  intros H. rewrite buildClusterKey_eq, raft_entry_below, TrimLeft_slash_none by done. cbv zeta.
  unfold has_slash. rewrite any_char_append. cbn [any_char]. by rewrite Ascii.eqb_refl, orb_true_r.
Qed.

(** The keys of the server, of which a listing makes names. *)
Section Listing.
Context (keys : list string) (name : string -> string -> option string).

(** What the names of a prefix are, when [name] maps the server's keys well. *)
Lemma listed_namespaces :
  (forall k, k ∈ keys -> (exists ns, path_name ns = true /\ k = appendPrefix ns) \/
  (exists ns c, path_name ns = true /\ path_name c = true /\ k = buildClusterKey ns c /\ appendPrefix ns ∈ keys)) ->
  (forall ns, path_name ns = true -> name nsPrefix (appendPrefix ns) = Some ns) ->
  (forall ns c, path_name ns = true -> path_name c = true ->
  name nsPrefix (buildClusterKey ns c) = Some ns \/ name nsPrefix (buildClusterKey ns c) = None) ->
  forall x, x ∈ omap (name nsPrefix) keys <-> path_name x = true /\ appendPrefix x ∈ keys.
Proof.
  intros Hk H1 H2 x. rewrite list_elem_of_omap. split.
  - intros (k & Hin & Hx). destruct (Hk k Hin) as [(ns & Hns & ->)|(ns & c & Hns & Hc & -> & Hp)].
    + rewrite H1 in Hx by done. by simplify_eq.
    + destruct (H2 ns c Hns Hc) as [E|E]; rewrite E in Hx; by simplify_eq.
  - intros [Hx Hin]. exists (appendPrefix x). auto.
Qed.

Lemma listed_clusters ns :
  path_name ns = true ->
  (forall k, k ∈ keys -> (exists ns, path_name ns = true /\ k = appendPrefix ns) \/
  (exists ns c, path_name ns = true /\ path_name c = true /\ k = buildClusterKey ns c /\ appendPrefix ns ∈ keys)) ->
  (forall k, startsWith k (buildClusterPrefix ns) = false -> name (buildClusterPrefix ns) k = None) ->
  (forall c, path_name c = true -> name (buildClusterPrefix ns) (buildClusterKey ns c) = Some c) ->
  forall x, x ∈ omap (name (buildClusterPrefix ns)) keys <-> path_name x = true /\ buildClusterKey ns x ∈ keys.
Proof.
  intros Hns Hk H1 H2 x. rewrite list_elem_of_omap. split.
  - intros (k & Hin & Hx). destruct (Hk k Hin) as [(ns' & Hns' & ->)|(ns' & c & Hns' & Hc & -> & _)].
    + rewrite H1 in Hx by (by apply cluster_prefix_ns). done.
    + pose proof (cluster_prefix_cluster ns ns' c Hns Hns' Hc) as Hp.
      destruct (String.eqb_spec ns' ns) as [->|]; [rewrite H2 in Hx by done; by simplify_eq|].
      by rewrite H1 in Hx.
  - intros [Hx Hin]. exists (buildClusterKey ns x). auto.
Qed.
End Listing.

(** The loop of the in-memory engine: the names, each once. *)
Definition mock_name (prefix k : string) : option string :=
  if startsWith k prefix then Some (first_level (Trim_slash (TrimPrefix k prefix))) else None.

Lemma mock_entries_spec prefix seen keys :
  NoDup (mock_entries prefix seen keys) /\
  forall x, x ∈ mock_entries prefix seen keys <-> x ∉ seen /\ x ∈ omap (mock_name prefix) keys.
Proof.
  revert seen. induction keys as [|k keys IH]; intros seen; [simpl; split; [constructor|set_solver]|].
  change (omap (mock_name prefix) (k :: keys)) with
    (match mock_name prefix k with Some y => y :: omap (mock_name prefix) keys | None => omap (mock_name prefix) keys end).
  cbn [mock_entries]. replace (mock_name prefix k) with
    (if startsWith k prefix then Some (first_level (Trim_slash (TrimPrefix k prefix))) else None) by done.
  destruct (startsWith k prefix); [|apply IH]. cbv zeta. set (k' := first_level _).
  assert (Hs : existsb (String.eqb k') seen = true <-> k' ∈ seen).
  { rewrite existsb_exists. setoid_rewrite String.eqb_eq. rewrite list_elem_of_In. naive_solver. }
  destruct (existsb (String.eqb k') seen).
  - destruct (IH seen) as [Hn Hx]. split; [done|]. intros x. rewrite Hx.
    assert (k' ∈ seen) by (by apply Hs). set_solver.
  - destruct (IH (k' :: seen)) as [Hn Hx]. assert (Hk : k' ∉ seen) by (intros H; by apply Hs in H). split.
    + constructor; [|done]. rewrite Hx. set_solver.
    + intros x. rewrite !elem_of_cons, Hx. destruct (decide (x = k')) as [->|]; set_solver.
Qed.

(** [iter] visits every key of the map once. *)
Definition iterates (iter : gmap string blob -> list string) : Prop :=
  forall m, iter m ≡ₚ (map_to_list m).*1.

Lemma iterates_keys iter (m : gmap string blob) k : iterates iter -> k ∈ iter m <-> is_Some (m !! k).
Proof.
  intros H. rewrite (H m). rewrite list_elem_of_fmap. split.
  - intros ([k' v] & -> & Hin). apply elem_of_map_to_list in Hin. by exists v.
  - intros [v Hv]. exists (k, v). split; [done|]. by apply elem_of_map_to_list.
Qed.

Lemma iterates_NoDup iter (m : gmap string blob) : iterates iter -> NoDup (iter m).
Proof. intros H. rewrite (H m). apply NoDup_fst_map_to_list. Qed.

(** The keys an iteration visits have the shapes of a well-keyed store. *)
Lemma iterates_shape (en : Engine (gmap string blob)) iter m :
  iterates iter -> (forall k, @e_Exists _ en m k = true <-> is_Some (m !! k)) -> @well_keyed _ en m ->
  forall k, k ∈ iter m -> (exists ns, path_name ns = true /\ k = appendPrefix ns) \/
    (exists ns c, path_name ns = true /\ path_name c = true /\ k = buildClusterKey ns c /\ appendPrefix ns ∈ iter m).
Proof.
  intros Hi He Hw k. rewrite (iterates_keys iter) by done. intros Hk.
  destruct (Hw k) as [|(ns' & c & ? & ? & -> & Hp)]; [by apply He|by left|right].
  exists ns', c. by rewrite (iterates_keys iter), <- He.
Qed.

#[export] Instance Mock_laws iter : iterates iter -> @EngineLaws Mock (Mock_engine iter).
Proof.
  intros Hi.
  assert (He : forall m k, @e_Exists _ (Mock_engine iter) m k = true <-> is_Some (m !! k)) by (intros; apply bool_decide_eq_true).
  split; cbn [e_Missing e_Get e_Exists e_Set e_Delete e_List Mock_engine]; unfold Mock.
  - intros e k v. by rewrite lookup_insert_eq.
  - intros e k k' v Hne. by rewrite lookup_insert_ne.
  - intros e k. by rewrite lookup_delete_eq.
  - intros e k k' Hne. by rewrite lookup_delete_ne.
  - intros e k err. by destruct (e !! k); intros; simplify_eq.
  - intros e k. by destruct (e !! k).
  - intros e Hw. destruct (mock_entries_spec nsPrefix [] (iter e)) as [Hn Hx]. split; [done|]. intros ns. rewrite Hx.
    rewrite (listed_namespaces (iter e) mock_name).
    + rewrite (iterates_keys iter), bool_decide_eq_true by done. set_solver.
    + by apply (iterates_shape (Mock_engine iter)).
    + intros ns' Hns. unfold mock_name, startsWith, appendPrefix. rewrite prefix_append.
      fold (appendPrefix ns'). by rewrite mock_name_ns.
    + intros ns' c Hns Hc. left. unfold mock_name. rewrite mock_name_ns_of_cluster by done.
      by rewrite buildClusterKey_eq; unfold startsWith; rewrite prefix_append.
  - intros e ns Hw Hns. destruct (mock_entries_spec (buildClusterPrefix ns) [] (iter e)) as [Hn Hx].
    split; [done|]. intros c. rewrite Hx. rewrite (listed_clusters (iter e) mock_name ns Hns).
    + rewrite (iterates_keys iter), bool_decide_eq_true by done. set_solver.
    + by apply (iterates_shape (Mock_engine iter)).
    + intros k Hk. unfold mock_name. by rewrite Hk.
    + intros c' Hc. unfold mock_name. rewrite mock_name_cluster by done.
      unfold startsWith, buildClusterKey. by rewrite prefix_append.
Qed.

(** The names of distinct keys are distinct. *)
Lemma omap_NoDup {A B} (f : A -> option B) (l : list A) :
  NoDup l -> (forall x y b, x ∈ l -> y ∈ l -> f x = Some b -> f y = Some b -> x = y) -> NoDup (omap f l).
Proof.
  induction 1 as [|x l Hx Hl IH]; intros Hf; simpl; [constructor|].
  assert (NoDup (omap f l)) by (apply IH; intros; eapply Hf; eauto; by right).
  destruct (f x) as [b|] eqn:E; [|done]. constructor; [|done].
  rewrite list_elem_of_omap. intros (y & Hy & E'). apply Hx.
  rewrite (Hf x y b); [done|left|by right|done|done].
Qed.

Definition server_key (k : string) : Prop :=
  (exists ns, path_name ns = true /\ k = appendPrefix ns) \/
  (exists ns c, path_name ns = true /\ path_name c = true /\ k = buildClusterKey ns c).

(** An entry of the raft engine determines its key, below a prefix. *)
Lemma raft_entry_ns k x :
  server_key k ->
  raft_entry nsPrefix k = Some x -> k = appendPrefix x.
Proof.
  intros [(ns & H & ->)|(ns & c & H & Hc & ->)].
  - unfold appendPrefix at 1. rewrite raft_name by done. by intros [= ->].
  - by rewrite raft_name_ns_of_cluster.
Qed.

Lemma raft_entry_prefix p k : startsWith k p = false -> raft_entry p k = None.
Proof. intros H. unfold raft_entry. by rewrite H. Qed.

Lemma raft_entry_cluster ns k x :
  path_name ns = true ->
  server_key k ->
  raft_entry (buildClusterPrefix ns) k = Some x -> k = buildClusterKey ns x.
Proof.
  intros Hns [(ns' & H & ->)|(ns' & c & H & Hc & ->)].
  - by rewrite raft_entry_prefix by (by apply cluster_prefix_ns).
  - pose proof (cluster_prefix_cluster ns ns' c Hns H Hc) as Hp.
    destruct (String.eqb_spec ns' ns) as [->|]; [|by rewrite raft_entry_prefix].
    unfold buildClusterKey at 1. rewrite raft_name by done. by intros [= ->].
Qed.

#[export] Instance DataStore_laws iter : iterates iter -> @EngineLaws DataStore (DataStore_engine iter).
Proof.
  intros Hi.
  assert (He : forall m k, @e_Exists _ (DataStore_engine iter) m k = true <-> is_Some (m !! k)).
  { intros m k. cbn [e_Exists DataStore_engine]. unfold DataStore.
    case_match; rewrite ?is_Some_alt; simpl; split; done. }
  split; cbn [e_Missing e_Get e_Exists e_Set e_Delete e_List DataStore_engine]; unfold DataStore.
  - intros e k v. by rewrite lookup_insert_eq.
  - intros e k k' v Hne. by rewrite lookup_insert_ne.
  - intros e k. by rewrite lookup_delete_eq.
  - intros e k k' Hne. by rewrite lookup_delete_ne.
  - intros e k err. by destruct (e !! k); intros; simplify_eq.
  - intros e k. by destruct (e !! k).
  - intros e Hw. pose proof (iterates_shape _ iter e Hi (He e) Hw) as Hk.
    assert (Hs : forall k, k ∈ iter e -> server_key k).
    { intros k H. destruct (Hk k H) as [|(ns1 & c1 & ? & ? & ? & _)]; [by left|right; by exists ns1, c1]. }
    setoid_rewrite (stable_sort_perm String.leb). split.
    + apply omap_NoDup; [by apply iterates_NoDup|]. intros x y b Hx Hy Ex Ey.
      apply raft_entry_ns in Ex, Ey; [congruence|by apply Hs..].
    + intros ns. rewrite (listed_namespaces (iter e) raft_entry).
      * rewrite (iterates_keys iter) by done. rewrite <- He. done.
      * done.
      * intros ns' H. by apply raft_name.
      * intros ns' c H _. right. by apply raft_name_ns_of_cluster.
  - intros e ns Hw Hns. pose proof (iterates_shape _ iter e Hi (He e) Hw) as Hk.
    assert (Hs : forall k, k ∈ iter e -> server_key k).
    { intros k H. destruct (Hk k H) as [|(ns1 & c1 & ? & ? & ? & _)]; [by left|right; by exists ns1, c1]. }
    setoid_rewrite (stable_sort_perm String.leb). split.
    + apply omap_NoDup; [by apply iterates_NoDup|]. intros x y b Hx Hy Ex Ey.
      apply raft_entry_cluster in Ex, Ey; auto. congruence.
    + intros c. rewrite (listed_clusters (iter e) raft_entry ns Hns).
      * rewrite (iterates_keys iter) by done. rewrite <- He. done.
      * done.
      * intros k. apply raft_entry_prefix.
      * intros c' H. by apply raft_name.
Qed.
