(* ===== verification/GoStore.v ===== *)
(** * The cluster store (store/store.go)

    Namespaces and clusters on top of a storage engine, refined to a map of maps;
    and the optimistic concurrency control of the updates. *)

From S2P Require Import Prelude JsString JsNumber JsValue Effects Api Slots GoShard GoCluster GoJson GoEngine.

Inductive EventType := EventNamespace | EventCluster.
Inductive Command := CommandCreate | CommandUpdate | CommandRemove.
Record EventPayload := MkEvent {
  ev_Namespace : string; ev_Cluster : string; ev_Type : EventType; ev_Command : Command }.

(** [json.Unmarshal(value, &clusterInfo)] *)
Definition unmarshal_blob (b : blob) : go_error + Cluster :=
  match b with
  | Json v => Cluster_UnmarshalJSON v
  | Text s => match JSON_parse s with
              | Ok v => Cluster_UnmarshalJSON v
              | Err e => inl (errors_New (exn_message e))
              end
  end.

(** [atomic.Int64] wraps around. *)
Definition wrap64 (z : Z) : Z := (z + 2 ^ 63) mod 2 ^ 64 - 2 ^ 63.
Definition bump (c : Cluster) : Cluster := MkCluster (Name c) (wrap64 (Version c + 1)) (Shards c).

Section Store.
Context {E : Type} `{Engine E}.
Implicit Types (e : E) (ns c : string).

Definition ListNamespace e : list string := e_List e nsPrefix.
Definition ExistsNamespace e ns : bool := e_Exists e (appendPrefix ns).

Definition CreateNamespace e ns : go_error + (E * list EventPayload) :=
  if ExistsNamespace e ns then inl (sentinel ErrAlreadyExists)
  else inr (e_Set e (appendPrefix ns) (Text ns), [MkEvent ns "" EventNamespace CommandCreate]).

Definition ListCluster e ns : list string := e_List e (buildClusterPrefix ns).

Definition RemoveNamespace e ns : go_error + (E * list EventPayload) :=
  if negb (ExistsNamespace e ns) then inl (sentinel ErrNotFound)
  else if negb (length (ListCluster e ns) =? 0)%nat
  then inl (wrapped "" (sentinel ErrForbidden) ": please delete clusters first")
  else inr (e_Delete e (appendPrefix ns), [MkEvent ns "" EventNamespace CommandRemove]).

Definition existsCluster e ns c : bool := e_Exists e (buildClusterKey ns c).

Definition GetCluster e ns c : go_error + Cluster :=
  match e_Get e (buildClusterKey ns c) with
  | inl err => inl (wrapped "cluster: " err "")
  | inr b => match unmarshal_blob b with
      | inl err => inl (wrapped "cluster: " err "")
      | inr cl => inr cl
      end
  end.

Definition ErrUpdatedByOthers : go_error := errors_New "the cluster has been updated by others".

(** The cluster of the caller has the new version afterwards. *)
Definition UpdateCluster e ns (cl : Cluster) : go_error + (E * Cluster * list EventPayload) :=
  old ← GetCluster e ns (Name cl);
  if Version cl <? Version old then inl ErrUpdatedByOthers
  else inr (e_Set e (buildClusterKey ns (Name cl)) (Json (cluster_json (bump cl))), bump cl,
  [MkEvent ns (Name cl) EventCluster CommandUpdate]).

Definition SetCluster e ns (cl : Cluster) : go_error + E :=
  old ← GetCluster e ns (Name cl);
  if Version cl <? Version old then inl ErrUpdatedByOthers
  else inr (e_Set e (buildClusterKey ns (Name cl)) (Json (cluster_json cl))).

Definition CreateCluster e ns (cl : Cluster) : go_error + (E * list EventPayload) :=
  if existsCluster e ns (Name cl) then inl (wrapped "cluster: " (sentinel ErrAlreadyExists) "")
  else inr (e_Set e (buildClusterKey ns (Name cl)) (Json (cluster_json cl)),
  [MkEvent ns (Name cl) EventCluster CommandCreate]).

Definition RemoveCluster e ns c : go_error + (E * list EventPayload) :=
  if negb (existsCluster e ns c) then inl (sentinel ErrNotFound)
  else inr (e_Delete e (buildClusterKey ns c), [MkEvent ns c EventCluster CommandRemove]).

(** The addresses of [nodes] that some cluster already has, in the order of the
    loops. *)
Definition existing_nodes e (nodes : list string) : go_error + list string :=
  found ← go_mapM (fun ns => go_mapM (fun c =>
  cl ← GetCluster e ns c;
  inr (List.filter (fun a => existsb (String.eqb a) nodes) (map Addr (GetNodes cl))))
  (ListCluster e ns)) (ListNamespace e);
  inr (concat (map (@concat string) found)).

Definition CheckNewNodes e (nodes : list string) : go_error + unit :=
  existing ← existing_nodes e nodes;
  if (0 <? length existing)%nat
  then inl (wrapped "node: " (sentinel ErrAlreadyExists) (": [" +:+ join " " existing +:+ "]"))
  else inr tt.
End Store.

(** ** The abstract store: the clusters of each namespace *)

Notation astore := (gmap string (gmap string Cluster)).

Definition find_cluster (a : astore) (ns c : string) : option Cluster := a !! ns ≫= lookup c.

Definition names_ok (a : astore) : Prop :=
  forall ns cs, a !! ns = Some cs -> path_name ns = true /\ forall c, is_Some (cs !! c) -> path_name c = true.

Definition put_cluster (ns : string) (cl : Cluster) (a : astore) : astore := alter (insert (Name cl) cl) ns a.
Definition drop_cluster (ns c : string) (a : astore) : astore := alter (delete c) ns a.

Lemma find_put ns cl (a : astore) ns' c' :
  is_Some (a !! ns) ->
  find_cluster (put_cluster ns cl a) ns' c' =
  if decide (ns = ns' /\ Name cl = c') then Some cl else find_cluster a ns' c'.
Proof.
  intros [cs Hcs]. unfold find_cluster, put_cluster. destruct (decide (ns = ns')) as [<-|Hne].
  - rewrite lookup_alter_eq, Hcs. simpl. destruct (decide (Name cl = c')) as [<-|Hc].
    + rewrite lookup_insert_eq. by rewrite decide_True.
    + rewrite lookup_insert_ne by done. rewrite decide_False; [done|tauto].
  - rewrite lookup_alter_ne by done. rewrite decide_False; [done|tauto].
Qed.

Lemma find_drop ns c (a : astore) ns' c' :
  find_cluster (drop_cluster ns c a) ns' c' =
  if decide (ns = ns' /\ c = c') then None else find_cluster a ns' c'.
Proof.
  unfold find_cluster, drop_cluster. destruct (decide (ns = ns')) as [<-|Hne].
  - rewrite lookup_alter_eq. destruct (a !! ns) as [cs|]; simpl; [|by destruct (decide _)].
    destruct (decide (c = c')) as [<-|Hc].
    + rewrite lookup_delete_eq. by rewrite decide_True.
    + rewrite lookup_delete_ne by done. rewrite decide_False; [done|tauto].
  - rewrite lookup_alter_ne by done. rewrite decide_False; [done|tauto].
Qed.

Lemma lookup_alter_some (f : gmap string Cluster -> gmap string Cluster) ns (a : astore) ns' :
  is_Some (alter f ns a !! ns') <-> is_Some (a !! ns').
Proof.
  destruct (decide (ns = ns')) as [<-|]; [rewrite lookup_alter_eq; apply fmap_is_Some|by rewrite lookup_alter_ne].
Qed.

Lemma names_ok_put ns cl a :
  names_ok a -> path_name (Name cl) = true -> names_ok (put_cluster ns cl a).
Proof.
  intros Ha Hn ns' cs'. unfold put_cluster. rewrite lookup_alter. case_decide as Hd; [|apply Ha]. subst ns'.
  destruct (a !! ns) as [cs|] eqn:E; simpl; intros; simplify_eq. destruct (Ha ns cs E) as [H1 H2]. split; [done|].
  intros c. rewrite lookup_insert. case_decide; [by subst|apply H2].
Qed.

Lemma names_ok_drop ns c a : names_ok a -> names_ok (drop_cluster ns c a).
Proof.
  intros Ha ns' cs'. unfold drop_cluster. rewrite lookup_alter. case_decide as Hd; [|apply Ha]. subst ns'.
  destruct (a !! ns) as [cs|] eqn:E; simpl; intros; simplify_eq. destruct (Ha ns cs E) as [H1 H2]. split; [done|].
  intros c'. rewrite lookup_delete. case_decide; [by intros [? ?]|apply H2].
Qed.

Section Refinement.
Context {E : Type} `{EngineLaws E}.
Implicit Types (e : E) (a : astore) (ns c : string).

Record represents e a : Prop := {
  rep_keyed : well_keyed e;
  rep_names : names_ok a;
  rep_ns ns : path_name ns = true -> e_Exists e (appendPrefix ns) = bool_decide (is_Some (a !! ns));
  rep_cluster ns c : path_name ns = true -> path_name c = true ->
  match find_cluster a ns c with
  | Some cl => exists b, e_Get e (buildClusterKey ns c) = inr b /\ unmarshal_blob b = inr cl
  | None => e_Exists e (buildClusterKey ns c) = false
  end }.

(** Existence after the two changes of an engine. *)
Lemma exists_set e k k' v : e_Exists (e_Set e k v) k' = bool_decide (k = k') || e_Exists e k'.
Proof.
  rewrite !exists_get. destruct (bool_decide_reflect (k = k')) as [<-|Hne]; simpl; [by rewrite get_set|].
  by rewrite get_set_ne.
Qed.

Lemma exists_delete_eq e k k' : e_Exists (e_Delete e k) k' = negb (bool_decide (k = k')) && e_Exists e k'.
Proof.
  destruct (bool_decide_reflect (k = k')) as [<-|Hne]; simpl; [apply exists_delete|].
  rewrite !exists_get. by rewrite get_delete_ne.
Qed.

Lemma rep_exists_cluster e a ns c :
  represents e a -> path_name ns = true -> path_name c = true ->
  existsCluster e ns c = bool_decide (is_Some (find_cluster a ns c)).
Proof.
  intros Hr Hns Hc. pose proof (rep_cluster _ _ Hr ns c Hns Hc) as Hx. unfold existsCluster.
  destruct (find_cluster a ns c); [|by rewrite Hx]. destruct Hx as (b & Hb & _). by rewrite exists_get, Hb.
Qed.

Lemma rep_GetCluster e a ns c :
  represents e a -> path_name ns = true -> path_name c = true ->
  GetCluster e ns c = match find_cluster a ns c with
  | Some cl => inr cl
  | None => inl (wrapped "cluster: " e_Missing "")
  end.
Proof.
  intros Hr Hns Hc. pose proof (rep_cluster _ _ Hr ns c Hns Hc) as Hx. unfold GetCluster.
  destruct (find_cluster a ns c).
  - destruct Hx as (b & -> & ->). done.
  - rewrite exists_get in Hx. destruct (e_Get e _) as [err|] eqn:Eg; [|done]. by rewrite (get_missing _ _ _ Eg).
Qed.

Lemma rep_ListNamespace e a :
  represents e a -> NoDup (ListNamespace e) /\ forall ns, ns ∈ ListNamespace e <-> is_Some (a !! ns).
Proof.
  intros Hr. destruct (list_namespaces e (rep_keyed _ _ Hr)) as [Hn Hx]. split; [done|].
  intros ns. unfold ListNamespace. rewrite Hx. split.
  - intros [Hns He]. rewrite (rep_ns _ _ Hr ns Hns) in He. by apply bool_decide_eq_true in He.
  - intros [cs Hcs]. destruct (rep_names _ _ Hr ns cs Hcs) as [Hns _]. split; [done|].
    rewrite (rep_ns _ _ Hr ns Hns). apply bool_decide_eq_true. eauto.
Qed.

Lemma rep_ListCluster e a ns :
  represents e a -> path_name ns = true ->
  NoDup (ListCluster e ns) /\ forall c, c ∈ ListCluster e ns <-> is_Some (find_cluster a ns c).
Proof.
  intros Hr Hns. destruct (list_clusters e ns (rep_keyed _ _ Hr) Hns) as [Hn Hx]. split; [done|].
  intros c. unfold ListCluster. rewrite Hx. split.
  - intros [Hc He]. pose proof (rep_exists_cluster e a ns c Hr Hns Hc) as Hb. unfold existsCluster in Hb.
    rewrite He in Hb. by apply eq_sym, bool_decide_eq_true in Hb.
  - intros Hs. assert (Hc : path_name c = true).
    { unfold find_cluster in Hs. destruct (a !! ns) as [cs|] eqn:Ea; [|by destruct Hs].
      by apply (rep_names _ _ Hr ns cs Ea). }
    split; [done|]. pose proof (rep_exists_cluster e a ns c Hr Hns Hc) as Hb. unfold existsCluster in Hb.
    rewrite Hb. by apply bool_decide_eq_true.
Qed.

(** ** The four changes *)

Lemma rep_put e a ns cl :
  represents e a -> path_name ns = true -> path_name (Name cl) = true -> is_Some (a !! ns) -> cluster_storable cl ->
  represents (e_Set e (buildClusterKey ns (Name cl)) (Json (cluster_json cl))) (put_cluster ns cl a).
Proof.
  intros Hr Hns Hc Ha Hs. split.
  - intros k. rewrite !exists_set. intros [Hk|Hk]%orb_true_iff.
    + apply bool_decide_eq_true in Hk as <-. right. exists ns, (Name cl). split_and!; [done..|].
      rewrite exists_set. apply orb_true_iff. right. rewrite (rep_ns _ _ Hr ns Hns). by apply bool_decide_eq_true.
    + destruct (rep_keyed _ _ Hr k Hk) as [|(ns' & c' & H1 & H2 & H3 & H4)]; [by left|right].
      exists ns', c'. rewrite exists_set, H4, orb_true_r. done.
  - apply names_ok_put; [apply Hr|done].
  - intros ns' Hns'. rewrite exists_set, bool_decide_false by (by apply keys_disjoint_sym).
    simpl. rewrite (rep_ns _ _ Hr ns' Hns'). apply bool_decide_ext. symmetry. apply lookup_alter_some.
  - intros ns' c' Hns' Hc'. rewrite (find_put ns cl a ns' c' Ha). case_decide as Hd.
    + destruct Hd as [<- <-]. eexists. rewrite get_set. split; [done|]. by apply cluster_decode.
    + assert (Hne : buildClusterKey ns (Name cl) <> buildClusterKey ns' c').
      { intros Hk. apply Hd. by apply buildClusterKey_inj. }
      rewrite get_set_ne, exists_set, bool_decide_false by done. by apply (rep_cluster _ _ Hr).
Qed.

Lemma rep_drop e a ns c :
  represents e a -> path_name ns = true -> path_name c = true ->
  represents (e_Delete e (buildClusterKey ns c)) (drop_cluster ns c a).
Proof.
  intros Hr Hns Hc. split.
  - intros k. rewrite exists_delete_eq. intros [Hk1 Hk]%andb_true_iff.
    destruct (rep_keyed _ _ Hr k Hk) as [|(ns' & c' & H1 & H2 & H3 & H4)]; [by left|right].
    exists ns', c'. rewrite exists_delete_eq, H4, bool_decide_false; [done|].
    by apply keys_disjoint_sym.
  - apply names_ok_drop, Hr.
  - intros ns' Hns'. rewrite exists_delete_eq, bool_decide_false by (by apply keys_disjoint_sym).
    simpl. rewrite (rep_ns _ _ Hr ns' Hns'). apply bool_decide_ext. symmetry. apply lookup_alter_some.
  - intros ns' c' Hns' Hc'. rewrite find_drop. case_decide as Hd.
    + destruct Hd as [<- <-]. apply exists_delete.
    + assert (Hne : buildClusterKey ns c <> buildClusterKey ns' c').
      { intros Hk. apply Hd. by apply buildClusterKey_inj. }
      rewrite get_delete_ne, exists_delete_eq, bool_decide_false by done. by apply (rep_cluster _ _ Hr).
Qed.

Lemma rep_add_ns e a ns b :
  represents e a -> path_name ns = true -> a !! ns = None -> represents (e_Set e (appendPrefix ns) b) (<[ns := ∅]> a).
Proof.
  intros Hr Hns Ha. split.
  - intros k. rewrite exists_set. intros [Hk|Hk]%orb_true_iff.
    + apply bool_decide_eq_true in Hk as <-. left. by exists ns.
    + destruct (rep_keyed _ _ Hr k Hk) as [|(ns' & c' & H1 & H2 & H3 & H4)]; [by left|right].
      exists ns', c'. rewrite exists_set, H4, orb_true_r. done.
  - intros ns' cs. rewrite lookup_insert. case_decide; [|apply Hr]. intros; simplify_eq. split; [done|].
    intros c. rewrite lookup_empty. by intros [? ?].
  - intros ns' Hns'. rewrite exists_set, (rep_ns _ _ Hr ns' Hns'), lookup_insert.
    destruct (decide (ns = ns')) as [->|Hne]; [by rewrite bool_decide_true|].
    rewrite bool_decide_false; [done|]. by intros ?%appendPrefix_inj.
  - intros ns' c' Hns' Hc'. pose proof (rep_cluster _ _ Hr ns' c' Hns' Hc') as Hx.
    assert (Hne : appendPrefix ns <> buildClusterKey ns' c') by (by apply keys_disjoint).
    rewrite get_set_ne, exists_set, bool_decide_false by done. unfold find_cluster in *. rewrite lookup_insert.
    case_decide; [|done]. subst ns'. rewrite Ha in Hx. simpl; by rewrite lookup_empty.
Qed.

Lemma rep_del_ns e a ns :
  represents e a -> path_name ns = true -> a !! ns = Some ∅ -> represents (e_Delete e (appendPrefix ns)) (delete ns a).
Proof.
  intros Hr Hns Ha. split.
  - intros k. rewrite exists_delete_eq. intros [Hk1 Hk]%andb_true_iff.
    destruct (rep_keyed _ _ Hr k Hk) as [|(ns' & c' & H1 & H2 & -> & H4)]; [by left|right].
    exists ns', c'. rewrite exists_delete_eq, H4, bool_decide_false; [done|]. intros <-%appendPrefix_inj.
    pose proof (rep_cluster _ _ Hr ns c' Hns H2) as Hx. unfold find_cluster in Hx. rewrite Ha in Hx. simpl in Hx.
    rewrite lookup_empty in Hx. congruence.
  - intros ns' cs. rewrite lookup_delete. case_decide; [done|apply Hr].
  - intros ns' Hns'. rewrite exists_delete_eq, (rep_ns _ _ Hr ns' Hns'), lookup_delete.
    destruct (decide (ns = ns')) as [->|Hne]; [by rewrite bool_decide_true|].
    rewrite bool_decide_false; [done|]. by intros ?%appendPrefix_inj.
  - intros ns' c' Hns' Hc'. pose proof (rep_cluster _ _ Hr ns' c' Hns' Hc') as Hx.
    assert (Hne : appendPrefix ns <> buildClusterKey ns' c') by (by apply keys_disjoint).
    rewrite get_delete_ne, exists_delete_eq, bool_decide_false by done. unfold find_cluster in *. rewrite lookup_delete.
    case_decide; [|done]. subst ns'. rewrite Ha in Hx. simpl in *. by rewrite lookup_empty in Hx.
Qed.
End Refinement.

(** ** The operations and their specification *)

Inductive store_op :=
| OCreateNamespace (ns : string)
| ORemoveNamespace (ns : string)
| OCreateCluster (ns : string) (cl : Cluster)
| OUpdateCluster (ns : string) (cl : Cluster)
| OSetCluster (ns : string) (cl : Cluster)
| ORemoveCluster (ns c : string).

Definition exec_op {E} `{Engine E} (e : E) (op : store_op) : go_error + E :=
  match op with
  | OCreateNamespace ns => '(e', _) ← CreateNamespace e ns; inr e'
  | ORemoveNamespace ns => '(e', _) ← RemoveNamespace e ns; inr e'
  | OCreateCluster ns cl => '(e', _) ← CreateCluster e ns cl; inr e'
  | OUpdateCluster ns cl => '(e', _, _) ← UpdateCluster e ns cl; inr e'
  | OSetCluster ns cl => SetCluster e ns cl
  | ORemoveCluster ns c => '(e', _) ← RemoveCluster e ns c; inr e'
  end.

(** [missing] is the engine's error for a key that is not there. *)
Definition spec_op (missing : go_error) (a : astore) (op : store_op) : go_error + astore :=
  match op with
  | OCreateNamespace ns =>
      match a !! ns with Some _ => inl (sentinel ErrAlreadyExists) | None => inr (<[ns := ∅]> a) end
  | ORemoveNamespace ns =>
      match a !! ns with
      | None => inl (sentinel ErrNotFound)
      | Some cs => if decide (cs = ∅) then inr (delete ns a)
                   else inl (wrapped "" (sentinel ErrForbidden) ": please delete clusters first")
      end
  | OCreateCluster ns cl =>
      match find_cluster a ns (Name cl) with
      | Some _ => inl (wrapped "cluster: " (sentinel ErrAlreadyExists) "")
      | None => inr (put_cluster ns cl a)
      end
  | OUpdateCluster ns cl =>
      match find_cluster a ns (Name cl) with
      | None => inl (wrapped "cluster: " missing "")
      | Some old => if Version cl <? Version old then inl ErrUpdatedByOthers
                    else inr (put_cluster ns (MkCluster (Name cl) (Version cl + 1) (Shards cl)) a)
      end
  | OSetCluster ns cl =>
      match find_cluster a ns (Name cl) with
      | None => inl (wrapped "cluster: " missing "")
      | Some old => if Version cl <? Version old then inl ErrUpdatedByOthers else inr (put_cluster ns cl a)
      end
  | ORemoveCluster ns c =>
      match find_cluster a ns c with
      | None => inl (sentinel ErrNotFound)
      | Some _ => inr (drop_cluster ns c a)
      end
  end.

(** Names without a slash; a cluster that can be stored, with room for its next
    version, and created only in a namespace that exists (the route's middleware
    checks that). *)
Definition op_ok (a : astore) (op : store_op) : Prop :=
  match op with
  | OCreateNamespace ns | ORemoveNamespace ns => path_name ns = true
  | OCreateCluster ns cl =>
      path_name ns = true /\ path_name (Name cl) = true /\ cluster_storable cl /\ is_Some (a !! ns)
  | OUpdateCluster ns cl | OSetCluster ns cl =>
      path_name ns = true /\ path_name (Name cl) = true /\ cluster_storable cl /\ Version cl < 2 ^ 63 - 1
  | ORemoveCluster ns c => path_name ns = true /\ path_name c = true
  end.

Lemma wrap64_id z : int64 z -> wrap64 z = z.
Proof. unfold int64, wrap64. intros H. rewrite Z.mod_small; lia. Qed.

Lemma find_cluster_ns (a : astore) ns c : is_Some (find_cluster a ns c) -> is_Some (a !! ns).
Proof. unfold find_cluster. destruct (a !! ns); [by eexists|]. by intros [? ?]. Qed.

Lemma bump_storable cl :
  cluster_storable cl -> Version cl < 2 ^ 63 - 1 ->
  bump cl = MkCluster (Name cl) (Version cl + 1) (Shards cl) /\ cluster_storable (bump cl).
Proof.
  intros [Hv Hs] Hlt. unfold bump. unfold int64 in Hv. rewrite wrap64_id by (unfold int64; lia).
  split; [done|]. split; [unfold int64; simpl; lia|done].
Qed.

Section Operations.
Context {E : Type} `{EngineLaws E}.
Implicit Types (e : E) (a : astore).

Lemma rep_RemoveNamespace e a ns :
  represents e a -> path_name ns = true ->
  (length (ListCluster e ns) =? 0)%nat = bool_decide (a !! ns = None \/ a !! ns = Some ∅).
Proof.
  intros Hr Hns. destruct (rep_ListCluster e a ns Hr Hns) as [_ Hx]. unfold find_cluster in Hx.
  destruct (ListCluster e ns) as [|c l]; simpl.
  - symmetry. apply bool_decide_eq_true. destruct (a !! ns) as [cs|]; [|by left]. right. f_equal.
    apply map_empty. intros c. simpl in Hx. destruct (cs !! c) eqn:Ec; [|done]. exfalso.
    assert (c ∈ []) by (apply Hx; by rewrite Ec). set_solver.
  - symmetry. apply bool_decide_eq_false. assert (Hc : c ∈ c :: l) by left. apply Hx in Hc.
    intros [Ea|Ea]; rewrite Ea in Hc; simpl in Hc; [by destruct Hc|]. rewrite lookup_empty in Hc. by destruct Hc.
Qed.

Lemma exec_op_refines e a op :
  represents e a -> op_ok a op ->
  match exec_op e op, spec_op e_Missing a op with
  | inr e', inr a' => represents e' a'
  | inl err, inl err' => err = err'
  | _, _ => False
  end.
Proof.
  intros Hr Hok. destruct op as [ns|ns|ns cl|ns cl|ns cl|ns c]; cbn [exec_op spec_op op_ok] in *.
  - unfold CreateNamespace, ExistsNamespace. rewrite (rep_ns _ _ Hr ns Hok).
    destruct (a !! ns) eqn:Ea; simpl; [done|]. by apply rep_add_ns.
  - unfold RemoveNamespace, ExistsNamespace. rewrite (rep_ns _ _ Hr ns Hok), (rep_RemoveNamespace e a ns Hr Hok).
    destruct (a !! ns) as [cs|] eqn:Ea; simpl; [|done]. destruct (decide (cs = ∅)) as [->|Hne].
    + rewrite bool_decide_true by (by right). simpl. by apply rep_del_ns.
    + rewrite bool_decide_false; [done|]. intros [|]; by simplify_eq.
  - destruct Hok as (Hns & Hc & Hs & Ha). unfold CreateCluster. rewrite (rep_exists_cluster e a) by done.
    destruct (find_cluster a ns (Name cl)); simpl; [done|]. by apply rep_put.
  - destruct Hok as (Hns & Hc & Hs & Hv). unfold UpdateCluster. rewrite (rep_GetCluster e a) by done.
    destruct (find_cluster a ns (Name cl)) as [old|] eqn:Ef; simpl; [|done]. destruct (_ <? _); simpl; [done|].
    destruct (bump_storable cl Hs Hv) as [Eb Hb]. change (Name cl) with (Name (bump cl)) at 1. rewrite <- Eb.
    apply rep_put; [done..| |done]. apply (find_cluster_ns a ns (Name cl)). by rewrite Ef.
  - destruct Hok as (Hns & Hc & Hs & _). unfold SetCluster. rewrite (rep_GetCluster e a) by done.
    destruct (find_cluster a ns (Name cl)) as [old|] eqn:Ef; simpl; [|done]. destruct (_ <? _); simpl; [done|].
    apply rep_put; [done..| |done]. apply (find_cluster_ns a ns (Name cl)). by rewrite Ef.
  - destruct Hok as (Hns & Hc). unfold RemoveCluster. rewrite (rep_exists_cluster e a) by done.
    destruct (find_cluster a ns c); simpl; [|done]. by apply rep_drop.
Qed.

(** C4. The store implements a map from namespaces to maps from names to
    clusters, on every engine with the laws: each operation succeeds exactly when
    its specification does, with the same error otherwise, and the store after it
    represents the map after it.  So a namespace or a cluster is created only
    once, a namespace with clusters is not removed, and an update whose version
    is behind is refused. *)
Theorem store_refines e a op :
  represents e a -> op_ok a op ->
  match exec_op e op, spec_op e_Missing a op with
  | inr e', inr a' => represents e' a'
  | inl err, inl err' => err = err'
  | _, _ => False
  end.
Proof. apply exec_op_refines. Qed.

(** Clusters of the store have nodes with these addresses. *)
Definition taken (a : astore) (addr : string) : Prop :=
  exists ns c cl, find_cluster a ns c = Some cl /\ In addr (map Addr (GetNodes cl)).

Lemma go_mapM_all {A B} (f : A -> go_error + B) (g : A -> B) l :
  (forall x, x ∈ l -> f x = inr (g x)) -> go_mapM f l = inr (map g l).
Proof.
  induction l as [|x l IH]; intros Hf; simpl; [done|]. rewrite Hf by left. simpl. rewrite IH; [done|].
  intros y Hy. apply Hf. by right.
Qed.

Lemma rep_existing e a nodes :
  represents e a ->
  exists l, existing_nodes e nodes = inr l /\ forall x, In x l <-> In x nodes /\ taken a x.
Proof.
  intros Hr. destruct (rep_ListNamespace e a Hr) as [_ Hl].
  pose (hits := fun ns c => List.filter (fun x => existsb (String.eqb x) nodes)
    (map Addr (from_option GetNodes [] (find_cluster a ns c)))).
  pose (per := fun ns => map (hits ns) (ListCluster e ns)).
  assert (Hns : forall ns, ns ∈ ListNamespace e -> path_name ns = true).
  { intros ns [cs Hc]%Hl. by destruct (rep_names _ _ Hr ns cs Hc). }
  exists (concat (map (@concat string) (map per (ListNamespace e)))). split.
  - unfold existing_nodes. rewrite (go_mapM_all _ per); [done|]. intros ns Hn. apply go_mapM_all. intros c Hc.
    destruct (rep_ListCluster e a ns Hr (Hns ns Hn)) as [_ Hx]. apply Hx in Hc as [cl Hcl].
    rewrite (rep_GetCluster e a ns c Hr (Hns ns Hn)), Hcl.
    + unfold hits. by rewrite Hcl.
    + unfold find_cluster in Hcl. destruct (a !! ns) as [cs|] eqn:Ea; [|done].
      apply (rep_names _ _ Hr ns cs Ea). by eexists.
  - intros x. rewrite in_concat. setoid_rewrite in_map_iff. setoid_rewrite in_map_iff. split.
    + intros (? & (? & <- & ns & <- & Hn) & Hx). apply in_concat in Hx as (? & (c & <- & Hc)%in_map_iff & Hx).
      apply filter_In in Hx as [Hx Hin]. apply existsb_exists in Hin as (y & Hy & ->%String.eqb_eq).
      split; [done|]. exists ns, c. destruct (find_cluster a ns c) as [cl|]; simpl in Hx; [by exists cl|done].
    + intros [Hx (ns & c & cl & Hcl & Hin)].
      assert (Hn : ns ∈ ListNamespace e) by (apply Hl, (find_cluster_ns a ns c); by rewrite Hcl).
      exists (concat (per ns)). split.
      * exists (per ns). split; [done|]. exists ns. split; [done|]. by apply list_elem_of_In.
      * apply in_concat. exists (hits ns c). split.
        -- apply in_map, list_elem_of_In, (rep_ListCluster e a ns Hr (Hns ns Hn)). by rewrite Hcl.
        -- unfold hits. rewrite Hcl. apply filter_In. split; [done|].
          apply existsb_exists. exists x. split; [done|]. apply String.eqb_refl.
Qed.

(** What the store reports is what it holds: the lists name every namespace
    and every cluster once and nothing else, a cluster is read as it was
    written, and new nodes are accepted exactly when no cluster of any namespace
    has one of their addresses. *)
Theorem store_queries e a nodes :
  represents e a ->
  (NoDup (ListNamespace e) /\ forall ns, ns ∈ ListNamespace e <-> is_Some (a !! ns)) /\
  (forall ns, path_name ns = true ->
  NoDup (ListCluster e ns) /\ forall c, c ∈ ListCluster e ns <-> is_Some (find_cluster a ns c)) /\
  (forall ns c cl, path_name ns = true -> path_name c = true ->
  GetCluster e ns c = inr cl <-> find_cluster a ns c = Some cl) /\
  match CheckNewNodes e nodes with
  | inr _ => forall x, In x nodes -> ~ taken a x
  | inl err => err_is err = Some ErrAlreadyExists /\ exists x, In x nodes /\ taken a x
  end.
Proof.
  intros Hr. split; [by apply rep_ListNamespace|]. split; [by intros; apply rep_ListCluster|]. split.
  - intros ns c cl Hns Hc. rewrite (rep_GetCluster e a) by done. destruct (find_cluster a ns c); naive_solver.
  - unfold CheckNewNodes. destruct (rep_existing e a nodes Hr) as (l & -> & Hl). cbn [mbind go_bind].
    destruct l as [|x l]; simpl.
    + intros x Hx Ht. by apply (Hl x).
    + split; [done|]. exists x. apply Hl. by left.
Qed.
End Operations.

(** ** Concurrent updates of a cluster

    The handlers and the controller read the cluster, change its shards and
    write it back; between the two, others do the same.  [v_snaps] is what each
    of them holds.  The lock of the cluster makes UpdateCluster one step. *)

Section Versions.
Context {E : Type} `{EngineLaws E} (ns c : string).

Record vstate := VState { v_store : E; v_snaps : gmap nat Cluster }.

Inductive vlabel := VRead (i : nat) | VAccept (i : nat) (base new : Cluster) | VRefuse (i : nat).

Inductive vstep : vstate -> vlabel -> vstate -> Prop :=
| vstep_read e snaps i cl :
    GetCluster e ns c = inr cl -> vstep (VState e snaps) (VRead i) (VState e (<[i := cl]> snaps))
| vstep_accept e snaps i base shards e' new evs :
    snaps !! i = Some base -> cluster_storable (setShards shards base) -> Version base < 2 ^ 63 - 1 ->
    UpdateCluster e ns (setShards shards base) = inr (e', new, evs) ->
    vstep (VState e snaps) (VAccept i base new) (VState e' (<[i := new]> snaps))
| vstep_refuse e snaps i base shards err :
    snaps !! i = Some base -> UpdateCluster e ns (setShards shards base) = inl err ->
    vstep (VState e snaps) (VRefuse i) (VState e snaps).

(** From a cluster that nobody has read yet. *)
Inductive vreach : vstate -> Prop :=
| vreach_init e cl : GetCluster e ns c = inr cl -> Name cl = c -> vreach (VState e ∅)
| vreach_step σ l σ' : vreach σ -> vstep σ l σ' -> vreach σ'.

Definition vinv (σ : vstate) : Prop :=
  exists cur, GetCluster (v_store σ) ns c = inr cur /\ Name cur = c /\
  forall i s, v_snaps σ !! i = Some s ->
  Name s = c /\ Version s <= Version cur /\ (Version s = Version cur -> s = cur).

Lemma GetCluster_set e cl :
  cluster_storable cl -> GetCluster (e_Set e (buildClusterKey ns (Name cl)) (Json (cluster_json cl))) ns (Name cl) = inr cl.
Proof. intros Hs. unfold GetCluster. rewrite get_set. simpl. by rewrite cluster_decode. Qed.

(** What an accepted update means, given what the snapshots are. *)
Lemma vstep_accept_inv e base shards e' new evs cur :
  GetCluster e ns c = inr cur -> Name base = c ->
  Version base <= Version cur /\ (Version base = Version cur -> base = cur) ->
  cluster_storable (setShards shards base) -> Version base < 2 ^ 63 - 1 ->
  UpdateCluster e ns (setShards shards base) = inr (e', new, evs) ->
  base = cur /\ new = MkCluster c (Version cur + 1) shards /\ GetCluster e' ns c = inr new.
Proof.
  intros Hg Hn [Hle Heq] Hs Hv. unfold UpdateCluster. cbn [setShards Name Version]. rewrite Hn, Hg.
  cbn [mbind go_bind]. destruct (Z.ltb_spec (Version base) (Version cur)) as [|Hge]; [done|]. intros [= <- <- _].
  assert (base = cur) as -> by (apply Heq; lia). clear Heq Hle Hge.
  destruct (bump_storable (setShards shards cur) Hs Hv) as [Eb Hb]. cbn [setShards Name Version Shards] in Eb.
  split; [done|]. rewrite <- Hn at 1. split; [exact Eb|].
  pose proof (GetCluster_set e (bump (setShards shards cur)) Hb) as Hset. cbn [bump setShards Name] in Hset.
  by rewrite Hn in Hset.
Qed.

Lemma vreach_inv σ : vreach σ -> vinv σ.
Proof.
  induction 1 as [e cl Hg Hn|σ l σ' _ IH Hstep]; [exists cl; split_and!; [done..|]; intros i s; cbn; by rewrite lookup_empty|].
  destruct IH as (cur & Hg & Hn & Hsn). destruct Hstep as [e snaps i cl Hr|e snaps i base shards e' new evs Hb Hs Hv Hu|];
    cbn [v_store v_snaps] in *.
  - exists cur. split_and!; [done..|]. intros j s. cbn [v_snaps]. rewrite lookup_insert. case_decide; [|apply Hsn].
    assert (cl = cur) as -> by congruence. intros [= <-]. split_and!; [done|lia|done].
  - destruct (Hsn i base Hb) as (Hbn & Hbv).
    destruct (vstep_accept_inv e base shards e' new evs cur Hg Hbn Hbv Hs Hv Hu) as (-> & -> & Hg').
    exists (MkCluster c (Version cur + 1) shards). split_and!; [done..|]. intros j s.
    cbn [v_snaps]. rewrite lookup_insert. case_decide.
    + intros; simplify_eq. split_and!; [done|lia|done].
    + intros Hj. destruct (Hsn j s Hj) as (? & ? & _). simpl. split_and!; [done|lia|lia].
  - by exists cur.
Qed.

(** C3. No update is lost.  Whatever reads and writes of a cluster interleave, an
    update that is accepted was computed from the very cluster that was stored
    at that moment, is what is read next, and has the next version; a refused
    one changes nothing.  And a change of what is stored is accepted. *)
Theorem no_lost_update σ l σ' :
  vreach σ -> vstep σ l σ' ->
  match l with
  | VAccept i base new =>
      GetCluster (v_store σ) ns c = inr base /\ GetCluster (v_store σ') ns c = inr new /\
      Name new = Name base /\ Version new = Version base + 1
  | _ => v_store σ' = v_store σ
  end /\
  (forall cl shards, GetCluster (v_store σ') ns c = inr cl ->
  exists e' new evs, UpdateCluster (v_store σ') ns (setShards shards cl) = inr (e', new, evs)).
Proof.
  intros Hr Hst. split.
  - destruct (vreach_inv σ Hr) as (cur & Hg & Hn & Hsn).
    destruct Hst as [|e snaps i base shards e' new evs Hb Hs Hv Hu|]; cbn [v_store v_snaps] in *; [done| |done].
    destruct (Hsn i base Hb) as (Hbn & Hbv).
    destruct (vstep_accept_inv e base shards e' new evs cur Hg Hbn Hbv Hs Hv Hu) as (-> & -> & Hg').
    by rewrite Hn.
  - intros cl shards Hg.
    destruct (vreach_inv σ' (vreach_step _ _ _ Hr Hst)) as (cur & Hg' & Hn & _). rewrite Hg in Hg'. simplify_eq.
    unfold UpdateCluster. cbn [setShards Name Version]. rewrite Hn, Hg. cbn [mbind go_bind]. rewrite Z.ltb_irrefl. eauto.
Qed.
End Versions.

(** ** Witnesses, on the in-memory engine *)

Definition map_order (m : gmap string blob) : list string := (map_to_list m).*1.

Lemma map_order_iterates : iterates map_order.
Proof. intros m. reflexivity. Qed.

#[export] Instance demo_engine : Engine (gmap string blob) := Mock_engine map_order.
#[export] Instance demo_engine_laws : EngineLaws (gmap string blob).
Proof. exact (Mock_laws map_order map_order_iterates). Qed.

Lemma rep_empty : represents (∅ : gmap string blob) ∅.
Proof.
  assert (He : forall k, e_Exists (∅ : gmap string blob) k = false).
  { intros k. change (bool_decide (is_Some ((∅ : gmap string blob) !! k)) = false). by rewrite lookup_empty. }
  split.
  - intros k Hk. by rewrite He in Hk.
  - intros ns cs. by rewrite lookup_empty.
  - intros ns _. by rewrite He, lookup_empty.
  - intros ns c _ _. unfold find_cluster. rewrite lookup_empty. apply He.
Qed.

Lemma store_refines_witness :
  represents (e_Set (∅ : gmap string blob) (appendPrefix "ns") (Text "ns")) {[ "ns" := ∅ ]}.
Proof. exact (store_refines (∅ : gmap string blob) ∅ (OCreateNamespace "ns") rep_empty eq_refl). Defined.

Lemma store_queries_witness :
  CheckNewNodes (∅ : gmap string blob) ["h:1"] = inr tt /\ ~ taken ∅ "h:1".
Proof.
  split; [reflexivity|].
  destruct (store_queries (∅ : gmap string blob) ∅ ["h:1"] rep_empty) as (_ & _ & _ & H).
  exact (H "h:1" (or_introl eq_refl)).
Defined.

Definition demo_store : gmap string blob :=
  e_Set (e_Set (∅ : gmap string blob) (appendPrefix "ns") (Text "ns"))
    (buildClusterKey "ns" "c") (Json (cluster_json demo_cluster)).

Lemma demo_get : GetCluster demo_store "ns" "c" = inr demo_cluster.
Proof. exact (GetCluster_set "ns" _ demo_cluster demo_cluster_storable). Qed.

Lemma demo_rep : represents demo_store (put_cluster "ns" demo_cluster {[ "ns" := ∅ ]}).
Proof.
  apply (rep_put _ {[ "ns" := ∅ ]} "ns" demo_cluster); [|done..|apply demo_cluster_storable].
  exact (rep_add_ns _ ∅ "ns" (Text "ns") rep_empty eq_refl eq_refl).
Qed.

(** Two readers; the first one's change is accepted. *)
Lemma no_lost_update_witness :
  exists e' new evs, UpdateCluster demo_store "ns" demo_cluster = inr (e', new, evs) /\
    GetCluster e' "ns" "c" = inr new /\ Version new = Version demo_cluster + 1.
Proof.
  destruct (UpdateCluster demo_store "ns" demo_cluster) as [err|[[e' new] evs]] eqn:Eu.
  { unfold UpdateCluster in Eu. change (Name demo_cluster) with "c" in Eu. rewrite demo_get in Eu. discriminate Eu. }
  exists e', new, evs. split; [done|].
  destruct (no_lost_update "ns" "c" (VState demo_store (<[1%nat := demo_cluster]> (<[0%nat := demo_cluster]> ∅)))
              (VAccept 0 demo_cluster new)
              (VState e' (<[0%nat := new]> (<[1%nat := demo_cluster]> (<[0%nat := demo_cluster]> ∅))))) as [(_ & H1 & _ & H2) _].
  - eapply vreach_step; [|apply vstep_read, demo_get]. eapply vreach_step; [|apply vstep_read, demo_get].
    by eapply vreach_init; [apply demo_get|].
  - eapply (vstep_accept "ns" "c" _ _ 0%nat demo_cluster (Shards demo_cluster));
      [reflexivity|apply demo_cluster_storable|simpl; lia|exact Eu].
  - split; [exact H1|exact H2].
Defined.

(** The versions protect a cluster only while it exists: when it is removed and
    created again under its name (its version is 1 again), a change computed from
    the old one is accepted and replaces the new one. *)
Lemma recreated_cluster_overwritten {E} `{EngineLaws E} (e : E) ns old fresh :
  Name fresh = Name old -> existsCluster e ns (Name old) = true -> Version fresh = 1 -> 1 <= Version old < 2 ^ 63 - 1 ->
  cluster_storable old -> cluster_storable fresh ->
  exists e1 ev1 e2 ev2 e3 new ev3,
    RemoveCluster e ns (Name old) = inr (e1, ev1) /\ CreateCluster e1 ns fresh = inr (e2, ev2) /\
    UpdateCluster e2 ns old = inr (e3, new, ev3) /\
    GetCluster e3 ns (Name old) = inr (MkCluster (Name old) (Version old + 1) (Shards old)).
Proof.
  intros Hn He Hf Hv Ho Hs. do 7 eexists. unfold RemoveCluster. rewrite He. split; [done|].
  unfold CreateCluster, existsCluster. rewrite Hn, exists_delete. split; [done|].
  pose proof (GetCluster_set ns (e_Delete e (buildClusterKey ns (Name old))) fresh Hs) as Hg. rewrite Hn in Hg.
  unfold UpdateCluster. rewrite Hg. cbn [mbind go_bind]. rewrite (proj2 (Z.ltb_ge _ _)) by lia. split; [done|].
  destruct (bump_storable old Ho ltac:(lia)) as [Eb Hb]. rewrite <- Eb.
  exact (GetCluster_set ns _ (bump old) Hb).
Qed.

(** SetCluster accepts a cluster of the version that is stored, so a topology
    read from a node replaces a change of the same version. *)
Lemma SetCluster_same_version (e : gmap string blob) ns cl old :
  GetCluster e ns (Name cl) = inr old -> Version cl = Version old -> cluster_storable cl ->
  exists e', SetCluster e ns cl = inr e' /\ GetCluster e' ns (Name cl) = inr cl.
Proof.
  intros Hg Hv Hs. unfold SetCluster. rewrite Hg. cbn [mbind go_bind]. rewrite Hv, Z.ltb_irrefl.
  eexists. split; [done|]. by apply GetCluster_set.
Qed.
