(* ===== verification/GoFaults.v ===== *)
(** * The cluster store over engines that fail (store/store.go)

    [GoStore] models the store over an engine whose calls succeed.  Here every
    call of the engine may fail, as its interface (store/engine/engine.go) says:
    the operations are the same, with what each does about an error.  What a
    failing engine guarantees is the class [FEngineLaws]; the theorem compares the
    operations with the specification of [GoStore]. *)

From S2P Require Import Prelude JsString JsNumber JsValue Effects Api Slots GoShard GoCluster GoJson GoEngine GoStore.

(** ** Calls that may fail *)

(** A call changes the state of the engine and returns a value or an error. *)
Definition fallible (E A : Type) : Type := E -> E * (go_error + A).

#[export] Instance fallible_ret {E} : MRet (fallible E) := fun A a e => (e, inr a).
#[export] Instance fallible_bind {E} : MBind (fallible E) := fun A B f p e =>
  match p e with (e', inl err) => (e', inl err) | (e', inr a) => f a e' end.

Definition fail {E A} (err : go_error) : fallible E A := fun e => (e, inl err).

(** [x, _ := p]: the error is dropped, the value is then the zero value. *)
Definition ignore {E A} (zero : A) (p : fallible E A) : fallible E A := fun e =>
  match p e with (e', inl _) => (e', inr zero) | (e', inr a) => (e', inr a) end.

(** [fmt.Errorf("pre%w", err)] *)
Definition wrap_error {E A} (pre : string) (p : fallible E A) : fallible E A := fun e =>
  match p e with (e', inl err) => (e', inl (wrapped pre err "")) | (e', inr a) => (e', inr a) end.

Class FEngine (E : Type) := {
  f_Get : string -> fallible E blob;
  f_Exists : string -> fallible E bool;
  f_Set : string -> blob -> fallible E unit;
  f_Delete : string -> fallible E unit;
  f_List : string -> fallible E (list string) }.

(** ** The store (store/store.go) *)

Section Store.
Context {E : Type} `{FEngine E}.

Definition f_ListNamespace : fallible E (list string) := f_List nsPrefix.
Definition f_ExistsNamespace ns : fallible E bool := f_Exists (appendPrefix ns).

Definition f_CreateNamespace ns : fallible E (list EventPayload) :=
  has ← ignore false (f_ExistsNamespace ns);
  if (has : bool) then fail (sentinel ErrAlreadyExists)
  else _ ← f_Set (appendPrefix ns) (Text ns); mret [MkEvent ns "" EventNamespace CommandCreate].

Definition f_ListCluster ns : fallible E (list string) := f_List (buildClusterPrefix ns).

Definition f_RemoveNamespace ns : fallible E (list EventPayload) :=
  has ← ignore false (f_ExistsNamespace ns);
  if negb (has : bool) then fail (sentinel ErrNotFound)
  else
  clusters ← f_ListCluster ns;
  if negb (length clusters =? 0)%nat then fail (wrapped "" (sentinel ErrForbidden) ": please delete clusters first")
  else _ ← f_Delete (appendPrefix ns); mret [MkEvent ns "" EventNamespace CommandRemove].

Definition f_existsCluster ns c : fallible E bool := f_Exists (buildClusterKey ns c).

Definition f_GetCluster ns c : fallible E Cluster :=
  value ← wrap_error "cluster: " (f_Get (buildClusterKey ns c));
  match unmarshal_blob value with
  | inl err => fail (wrapped "cluster: " err "")
  | inr cl => mret cl
  end.

(** The result carries the cluster of the caller, whose version goes up before the
    engine is written. *)
Definition f_UpdateCluster ns (cl : Cluster) (e : E) : E * Cluster * (go_error + list EventPayload) :=
  match f_GetCluster ns (Name cl) e with
  | (e1, inl err) => (e1, cl, inl err)
  | (e1, inr old) =>
      if Version cl <? Version old then (e1, cl, inl ErrUpdatedByOthers)
      else let cl := bump cl in
      match f_Set (buildClusterKey ns (Name cl)) (Json (cluster_json cl)) e1 with
      | (e2, inl err) => (e2, cl, inl err)
      | (e2, inr _) => (e2, cl, inr [MkEvent ns (Name cl) EventCluster CommandUpdate])
      end
  end.

Definition f_SetCluster ns (cl : Cluster) : fallible E unit :=
  old ← f_GetCluster ns (Name cl);
  if Version cl <? Version old then fail ErrUpdatedByOthers
  else f_Set (buildClusterKey ns (Name cl)) (Json (cluster_json cl)).

Definition f_CreateCluster ns (cl : Cluster) : fallible E (list EventPayload) :=
  exists_ ← ignore false (f_existsCluster ns (Name cl));
  if (exists_ : bool) then fail (wrapped "cluster: " (sentinel ErrAlreadyExists) "")
  else _ ← f_Set (buildClusterKey ns (Name cl)) (Json (cluster_json cl));
  mret [MkEvent ns (Name cl) EventCluster CommandCreate].

Definition f_RemoveCluster ns c : fallible E (list EventPayload) :=
  exists_ ← ignore false (f_existsCluster ns c);
  if negb (exists_ : bool) then fail (sentinel ErrNotFound)
  else _ ← f_Delete (buildClusterKey ns c); mret [MkEvent ns c EventCluster CommandRemove].

(** [for _, x := range l], collecting. *)
Fixpoint f_collect {A B} (f : A -> fallible E (list B)) (l : list A) : fallible E (list B) :=
  match l with
  | [] => mret []
  | x :: l' => ys ← f x; zs ← f_collect f l'; mret (ys ++ zs)
  end.

Definition f_CheckNewNodes (nodes : list string) : fallible E unit :=
  namespaces ← f_ListNamespace;
  existing ← f_collect (fun ns =>
  clusters ← f_ListCluster ns;
  f_collect (fun c =>
  cl ← f_GetCluster ns c;
  mret (List.filter (fun a => existsb (String.eqb a) nodes) (map Addr (GetNodes cl)))) clusters) namespaces;
  if (0 <? length existing)%nat
  then fail (wrapped "node: " (sentinel ErrAlreadyExists) (": [" +:+ join " " existing +:+ "]"))
  else mret tt.

(** An operation and the events it emits. *)
Definition f_exec (op : store_op) : fallible E (list EventPayload) :=
  match op with
  | OCreateNamespace ns => f_CreateNamespace ns
  | ORemoveNamespace ns => f_RemoveNamespace ns
  | OCreateCluster ns cl => f_CreateCluster ns cl
  | OUpdateCluster ns cl => fun e => let '(e', _, r) := f_UpdateCluster ns cl e in (e', r)
  | OSetCluster ns cl => _ ← f_SetCluster ns cl; mret []
  | ORemoveCluster ns c => f_RemoveCluster ns c
  end.
End Store.

(** ** What a failing engine guarantees *)

(** The engine on a map of keys that [GoStore] is compared with. *)
Definition map_keys (m : gmap string blob) : list string := (map_to_list m).*1.
#[export] Instance map_engine : Engine (gmap string blob) := DataStore_engine map_keys.
#[export] Instance map_engine_laws : EngineLaws (gmap string blob).
Proof. apply DataStore_laws. by intros m. Qed.

Definition server_prefix (p : string) : Prop :=
  p = nsPrefix \/ exists ns, path_name ns = true /\ p = buildClusterPrefix ns.

(** [content] are the keys of the server with their values, [healthy] says that no
    call fails any more.  A call that fails may have been carried out. *)
Class FEngineLaws (E : Type) `{FEngine E} := {
  content : E -> gmap string blob;
  healthy : E -> Prop;
  f_missing : go_error;
  law_Get e k : server_key k -> let '(e', r) := f_Get k e in
    content e' = content e /\ (healthy e -> healthy e') /\
    match r with
    | inr v => content e !! k = Some v
    | inl err => content e !! k = None /\ err = f_missing \/ ~ healthy e
    end;
  law_Exists e k : server_key k -> let '(e', r) := f_Exists k e in
    content e' = content e /\ (healthy e -> healthy e') /\
    match r with inr b => b = bool_decide (is_Some (content e !! k)) | inl _ => ~ healthy e end;
  law_Set e k v : server_key k -> let '(e', r) := f_Set k v e in
    (healthy e -> healthy e') /\
    match r with
    | inr _ => content e' = <[k := v]> (content e)
    | inl _ => ~ healthy e /\ (content e' = content e \/ content e' = <[k := v]> (content e))
    end;
  law_Delete e k : server_key k -> let '(e', r) := f_Delete k e in
    (healthy e -> healthy e') /\
    match r with
    | inr _ => content e' = delete k (content e)
    | inl _ => ~ healthy e /\ (content e' = content e \/ content e' = delete k (content e))
    end;
  law_List e p : server_prefix p -> let '(e', r) := f_List p e in
    content e' = content e /\ (healthy e -> healthy e') /\
    match r with inr l => l ≡ₚ e_List (content e) p | inl _ => ~ healthy e end }.

Lemma server_key_ns ns : path_name ns = true -> server_key (appendPrefix ns).
Proof. left. by exists ns. Qed.
Lemma server_key_cluster ns c : path_name ns = true -> path_name c = true -> server_key (buildClusterKey ns c).
Proof. right. by exists ns, c. Qed.
#[export] Hint Resolve server_key_ns server_key_cluster : kvc.

(** ** The operations against the specification *)

(** What a creation does when the engine could not say whether the name is there:
    it writes. *)
Definition overwritten (a : astore) (op : store_op) : option astore :=
  match op with
  | OCreateNamespace ns => Some (match a !! ns with Some _ => a | None => <[ns := ∅]> a end)
  | OCreateCluster ns cl => Some (put_cluster ns cl a)
  | _ => None
  end.

(** The events of an operation that succeeds. *)
Definition events_of (op : store_op) : list EventPayload :=
  match op with
  | OCreateNamespace ns => [MkEvent ns "" EventNamespace CommandCreate]
  | ORemoveNamespace ns => [MkEvent ns "" EventNamespace CommandRemove]
  | OCreateCluster ns cl => [MkEvent ns (Name cl) EventCluster CommandCreate]
  | OUpdateCluster ns cl => [MkEvent ns (Name cl) EventCluster CommandUpdate]
  | OSetCluster _ _ => []
  | ORemoveCluster ns c => [MkEvent ns c EventCluster CommandRemove]
  end.

(** Writing the key of a namespace that is there changes nothing. *)
Lemma rep_ns_again {E} `{EngineLaws E} (e : E) a ns b :
  represents e a -> path_name ns = true -> is_Some (a !! ns) -> represents (e_Set e (appendPrefix ns) b) a.
Proof.
  intros Hr Hns Ha. assert (He : forall k, e_Exists (e_Set e (appendPrefix ns) b) k = e_Exists e k).
  { intros k. rewrite exists_set. destruct (bool_decide_reflect (appendPrefix ns = k)) as [<-|]; [|done].
    rewrite (rep_ns _ _ Hr ns Hns). by rewrite bool_decide_true. }
  split.
  - intros k. rewrite He. intros Hk. destruct (rep_keyed _ _ Hr k Hk) as [|(ns' & c' & ? & ? & ? & ?)]; [by left|right].
    exists ns', c'. by rewrite He.
  - apply Hr.
  - intros ns' Hns'. rewrite He. by apply (rep_ns _ _ Hr).
  - intros ns' c' Hns' Hc'. rewrite He, get_set_ne by (by apply keys_disjoint). by apply (rep_cluster _ _ Hr).
Qed.

Section Faults.
Context {E : Type} `{FEngineLaws E}.
Implicit Types (e : E) (a : astore) (op : store_op).

(** How an operation may end. *)
Definition ends a op e (x : E * (go_error + list EventPayload)) : Prop :=
  let '(e', r) := x in
  match r with
  | inr evs => evs = events_of op /\
      exists a', represents (content e') a' /\
      (spec_op f_missing a op = inr a' \/ ~ healthy e /\ overwritten a op = Some a')
  | inl err =>
      represents (content e') a /\ (spec_op f_missing a op = inl err \/ ~ healthy e) \/
      ~ healthy e /\ exists a', represents (content e') a' /\
      (spec_op f_missing a op = inr a' \/ overwritten a op = Some a')
  end.

(** The last call of an operation, a write. *)
Lemma ends_write a op e e1 m2 (p : fallible E unit) a' :
  represents (content e1) a -> (healthy e -> healthy e1) ->
  (let '(e2, r) := p e1 in
  (healthy e1 -> healthy e2) /\
  match r with
  | inr _ => content e2 = m2
  | inl _ => ~ healthy e1 /\ (content e2 = content e1 \/ content e2 = m2)
  end) ->
  represents m2 a' ->
  (spec_op f_missing a op = inr a' \/ ~ healthy e /\ overwritten a op = Some a') ->
  ends a op e ((_ ← p; mret (events_of op) : fallible E _) e1).
Proof.
  intros Hr Hh Hp Hr' Hs. unfold mbind, fallible_bind. destruct (p e1) as [e2 [err|[]]]; cbn [ends mret fallible_ret].
  - destruct Hp as (_ & Hn & [Ec|Ec]); [left; rewrite Ec; split; [done|right; tauto]|].
    right. split; [tauto|]. exists a'. rewrite Ec. split; [done|tauto].
  - split; [done|]. exists a'. destruct Hp as [_ ->]. done.
Qed.

(** Reading a cluster. *)
Lemma f_GetCluster_spec e a ns c :
  represents (content e) a -> path_name ns = true -> path_name c = true ->
  let '(e', r) := f_GetCluster ns c e in
  content e' = content e /\ (healthy e -> healthy e') /\
  match r with
  | inr cl => find_cluster a ns c = Some cl
  | inl err => find_cluster a ns c = None /\ err = wrapped "cluster: " f_missing "" \/ ~ healthy e
  end.
Proof.
  intros Hr Hns Hc. pose proof (rep_cluster _ _ Hr ns c Hns Hc) as Hx.
  pose proof (law_Get e (buildClusterKey ns c) ltac:(auto with kvc)) as Hg.
  unfold f_GetCluster, mbind, fallible_bind, wrap_error.
  cbn [e_Get e_Exists map_engine DataStore_engine] in Hx. unfold DataStore in Hx.
  destruct (f_Get _ e) as [e' [err|b]]; destruct Hg as (Ec & Hh & Hg).
  - split; [done|]. split; [done|]. destruct Hg as [[Hn ->]|]; [left|by right]. split; [|done].
    destruct (find_cluster a ns c); [|done]. destruct Hx as (b & Hb & _). by rewrite Hn in Hb.
  - rewrite Hg in Hx. destruct (find_cluster a ns c) as [cl|]; [|done]. destruct Hx as (b' & [= <-] & Hu).
    rewrite Hu. done.
Qed.

Lemma map_exists (m : gmap string blob) k : e_Exists m k = bool_decide (is_Some (m !! k)).
Proof. cbn [e_Exists map_engine DataStore_engine]. unfold DataStore. by destruct (m !! k). Qed.

(** A question whose failure is dropped. *)
Lemma ignored_Exists e k :
  server_key k -> let '(e', r) := ignore false (f_Exists k) e in
  content e' = content e /\ (healthy e -> healthy e') /\
  (r = inr (e_Exists (content e) k) \/ r = inr false /\ ~ healthy e).
Proof.
  intros Hk. pose proof (law_Exists e k Hk) as Hx. unfold ignore. rewrite map_exists.
  destruct (f_Exists k e) as [e' [err|b]]; destruct Hx as (Hc & Hh & Hx); split_and!; [done|done|by right|done|done|].
  left. by subst b.
Qed.

Lemma create_namespace_ends e a ns :
  represents (content e) a -> path_name ns = true -> ends a (OCreateNamespace ns) e (f_CreateNamespace ns e).
Proof.
  intros Hr Hns. pose proof (ignored_Exists e (appendPrefix ns) ltac:(auto with kvc)) as Hx.
  unfold f_CreateNamespace, f_ExistsNamespace. unfold mbind at 1, fallible_bind at 1.
  destruct (ignore _ _ e) as [e1 r]. destruct Hx as (Hc & Hh & Hx). rewrite <- Hc in Hr.
  rewrite Hc in Hr. rewrite (rep_ns _ _ Hr ns Hns) in Hx. rewrite <- Hc in Hr.
  assert (Hw : forall a', represents (<[appendPrefix ns := Text ns]> (content e1)) a' ->
    (spec_op f_missing a (OCreateNamespace ns) = inr a' \/ ~ healthy e /\ overwritten a (OCreateNamespace ns) = Some a') ->
    ends a (OCreateNamespace ns) e ((_ ← f_Set (appendPrefix ns) (Text ns); mret (events_of (OCreateNamespace ns)) : fallible E _) e1)).
  { intros a' Ha' Hs. eapply ends_write; [done|done| |exact Ha'|exact Hs]. apply law_Set. auto with kvc. }
  destruct Hx as [-> | [-> Hn]]; destruct (a !! ns) as [cs|] eqn:Ea.
  - left. split; [done|]. left. cbn [spec_op]. by rewrite Ea.
  - apply (Hw (<[ns := ∅]> a)); [exact (rep_add_ns (content e1) a ns (Text ns) Hr Hns Ea)|]. left. cbn [spec_op]. by rewrite Ea.
  - apply (Hw a); [exact (rep_ns_again (content e1) a ns (Text ns) Hr Hns (mk_is_Some _ _ Ea))|]. right. cbn [overwritten]. by rewrite Ea.
  - apply (Hw (<[ns := ∅]> a)); [exact (rep_add_ns (content e1) a ns (Text ns) Hr Hns Ea)|]. left. cbn [spec_op]. by rewrite Ea.
Qed.

Lemma create_cluster_ends e a ns cl :
  represents (content e) a -> op_ok a (OCreateCluster ns cl) -> ends a (OCreateCluster ns cl) e (f_CreateCluster ns cl e).
Proof.
  intros Hr (Hns & Hc & Hs & Ha). pose proof (ignored_Exists e (buildClusterKey ns (Name cl)) ltac:(auto with kvc)) as Hx.
  unfold f_CreateCluster, f_existsCluster. unfold mbind at 1, fallible_bind at 1.
  destruct (ignore _ _ e) as [e1 r]. destruct Hx as (Ec & Hh & Hx).
  pose proof (rep_exists_cluster _ _ ns (Name cl) Hr Hns Hc) as He. unfold existsCluster in He. rewrite He in Hx.
  rewrite <- Ec in Hr.
  assert (Hw : spec_op f_missing a (OCreateCluster ns cl) = inr (put_cluster ns cl a) \/ ~ healthy e ->
    ends a (OCreateCluster ns cl) e ((_ ← f_Set (buildClusterKey ns (Name cl)) (Json (cluster_json cl));
    mret (events_of (OCreateCluster ns cl)) : fallible E _) e1)).
  { intros Hsp. eapply (ends_write _ _ _ _ _ _ (put_cluster ns cl a)); [done|done|apply law_Set; auto with kvc| |].
    - exact (rep_put (content e1) a ns cl Hr Hns Hc Ha Hs).
    - destruct Hsp; [by left|right; done]. }
  cbn [spec_op] in Hw. destruct Hx as [-> | [-> Hn]]; destruct (find_cluster a ns (Name cl)) as [old|] eqn:Ef;
    [|apply Hw; by left|apply Hw; by right|apply Hw; by right].
  left. split; [done|]. left. cbn [spec_op]. by rewrite Ef.
Qed.

Lemma remove_cluster_ends e a ns c :
  represents (content e) a -> path_name ns = true -> path_name c = true ->
  ends a (ORemoveCluster ns c) e (f_RemoveCluster ns c e).
Proof.
  intros Hr Hns Hc. pose proof (ignored_Exists e (buildClusterKey ns c) ltac:(auto with kvc)) as Hx.
  unfold f_RemoveCluster, f_existsCluster. unfold mbind at 1, fallible_bind at 1.
  destruct (ignore _ _ e) as [e1 r]. destruct Hx as (Ec & Hh & Hx).
  pose proof (rep_exists_cluster _ _ ns c Hr Hns Hc) as He. unfold existsCluster in He. rewrite He in Hx.
  rewrite <- Ec in Hr. destruct Hx as [-> | [-> Hn]].
  2: { left. split; [done|by right]. }
  destruct (find_cluster a ns c) as [old|] eqn:Ef.
  - refine (ends_write a (ORemoveCluster ns c) e e1 _ (f_Delete (buildClusterKey ns c)) (drop_cluster ns c a) Hr Hh
      (law_Delete e1 _ _) _ _); [auto with kvc| |].
    + exact (rep_drop (content e1) a ns c Hr Hns Hc).
    + left. cbn [spec_op]. by rewrite Ef.
  - left. split; [done|]. left. cbn [spec_op]. by rewrite Ef.
Qed.

Lemma remove_namespace_ends e a ns :
  represents (content e) a -> path_name ns = true -> ends a (ORemoveNamespace ns) e (f_RemoveNamespace ns e).
Proof.
  intros Hr Hns. pose proof (ignored_Exists e (appendPrefix ns) ltac:(auto with kvc)) as Hx.
  unfold f_RemoveNamespace, f_ExistsNamespace. unfold mbind at 1, fallible_bind at 1.
  destruct (ignore _ _ e) as [e1 r]. destruct Hx as (Ec & Hh & Hx).
  rewrite (rep_ns _ _ Hr ns Hns) in Hx. rewrite <- Ec in Hr. destruct Hx as [-> | [-> Hn]].
  2: { left. split; [done|by right]. }
  destruct (a !! ns) as [cs|] eqn:Ea; [|left; split; [done|left; cbn [spec_op]; by rewrite Ea]].
  rewrite bool_decide_true by by eexists. cbn [negb]. unfold mbind at 1, fallible_bind at 1.
  assert (Hl := law_List e1 (buildClusterPrefix ns) (or_intror (ex_intro _ ns (conj Hns eq_refl)))).
  unfold f_ListCluster. destruct (f_List _ e1) as [e2 [err|l]]; destruct Hl as (Ec2 & Hh2 & Hl); rewrite <- Ec2 in Hr.
  { left. split; [done|right; tauto]. }
  assert (length l = length (ListCluster (content e2) ns)) as -> by (rewrite Ec2; apply (Permutation_length Hl)).
  rewrite (rep_RemoveNamespace (content e2) a ns Hr Hns). destruct (decide (cs = ∅)) as [->|Hne].
  - rewrite bool_decide_true by by right. cbn [negb].
    refine (ends_write a (ORemoveNamespace ns) e e2 _ (f_Delete (appendPrefix ns)) (delete ns a) Hr (fun h => Hh2 (Hh h))
      (law_Delete e2 _ _) _ _); [auto with kvc| |].
    + exact (rep_del_ns (content e2) a ns Hr Hns Ea).
    + left. cbn [spec_op]. rewrite Ea. by rewrite decide_True.
  - rewrite bool_decide_false by (rewrite Ea; intros [|]; by simplify_eq). left. split; [done|]. left. cbn [spec_op].
    rewrite Ea. by rewrite decide_False.
Qed.

Lemma update_cluster_ends e a ns cl :
  represents (content e) a -> op_ok a (OUpdateCluster ns cl) -> ends a (OUpdateCluster ns cl) e (f_exec (OUpdateCluster ns cl) e).
Proof.
  intros Hr (Hns & Hc & Hs & Hv). cbn [f_exec]. unfold f_UpdateCluster.
  pose proof (f_GetCluster_spec e a ns (Name cl) Hr Hns Hc) as Hg.
  destruct (f_GetCluster _ _ e) as [e1 [err|old]]; destruct Hg as (Ec & Hh & Hg); rewrite <- Ec in Hr.
  { left. split; [done|]. destruct Hg as [[Hf ->]|]; [left; cbn [spec_op]; by rewrite Hf|by right]. }
  destruct (Version cl <? Version old) eqn:Ev.
  { left. split; [done|]. left. cbn [spec_op]. by rewrite Hg, Ev. }
  destruct (bump_storable cl Hs Hv) as [Eb Hb]. cbv zeta. change (Name (bump cl)) with (Name cl).
  assert (Hw := ends_write a (OUpdateCluster ns cl) e e1 _ (f_Set (buildClusterKey ns (Name cl)) (Json (cluster_json (bump cl))))
    (put_cluster ns (bump cl) a) Hr Hh (law_Set e1 _ _ (server_key_cluster ns (Name cl) Hns Hc))).
  unfold mbind, fallible_bind in Hw. destruct (f_Set _ _ e1) as [e2 [err|[]]]; (apply Hw; [|left; cbn [spec_op]; by rewrite Hg, Ev, Eb]);
    apply (rep_put (content e1) a ns (bump cl) Hr Hns Hc (find_cluster_ns a ns (Name cl) (mk_is_Some _ _ Hg)) Hb).
Qed.

Lemma set_cluster_ends e a ns cl :
  represents (content e) a -> op_ok a (OSetCluster ns cl) -> ends a (OSetCluster ns cl) e (f_exec (OSetCluster ns cl) e).
Proof.
  intros Hr (Hns & Hc & Hs & Hv). cbn [f_exec]. unfold f_SetCluster. unfold mbind at 1, fallible_bind at 1.
  unfold mbind at 1, fallible_bind at 1. pose proof (f_GetCluster_spec e a ns (Name cl) Hr Hns Hc) as Hg.
  destruct (f_GetCluster _ _ e) as [e1 [err|old]]; destruct Hg as (Ec & Hh & Hg); rewrite <- Ec in Hr.
  { left. split; [done|]. destruct Hg as [[Hf ->]|]; [left; cbn [spec_op]; by rewrite Hf|by right]. }
  destruct (Version cl <? Version old) eqn:Ev.
  { left. split; [done|]. left. cbn [spec_op]. by rewrite Hg, Ev. }
  refine (ends_write a (OSetCluster ns cl) e e1 _ (f_Set (buildClusterKey ns (Name cl)) (Json (cluster_json cl)))
    (put_cluster ns cl a) Hr Hh (law_Set e1 _ _ _) _ _); [auto with kvc| |left; cbn [spec_op]; by rewrite Hg, Ev].
  exact (rep_put (content e1) a ns cl Hr Hns Hc (find_cluster_ns a ns (Name cl) (mk_is_Some _ _ Hg)) Hs).
Qed.

(** A loop that has collected nothing has found nothing in any round. *)
Lemma f_collect_nil {A B} (f : A -> fallible E (list B)) m (Q : A -> Prop) l e e' :
  (forall x e e', x ∈ l -> content e = m -> f x e = (e', inr []) -> content e' = m /\ Q x) ->
  content e = m -> f_collect f l e = (e', inr []) -> content e' = m /\ forall x, x ∈ l -> Q x.
Proof.
  revert e. induction l as [|x l IH]; intros e Hf Hc.
  - intros [= <-]. split; [done|]. set_solver.
  - cbn [f_collect]. unfold mbind at 1, fallible_bind at 1. destruct (f x e) as [e1 [err|ys]] eqn:Ex; [done|].
    unfold mbind, fallible_bind. destruct (f_collect f l e1) as [e2 [err|zs]] eqn:El; [done|].
    unfold mret, fallible_ret. intros [= <- [-> ->]%app_nil].
    destruct (Hf x e e1 ltac:(left) Hc Ex) as [Hc1 Hq]. destruct (IH e1 ltac:(intros; eapply Hf; eauto; by right) Hc1 El) as [Hc2 Hl].
    split; [done|]. intros y [->|Hy]%elem_of_cons; [done|by apply Hl].
Qed.

(** A cluster that has none of the addresses. *)
Definition free a (nodes : list string) (ns c : string) : Prop :=
  forall cl, find_cluster a ns c = Some cl -> forall x, In x nodes -> ~ In x (map Addr (GetNodes cl)).

Definition hits (nodes : list string) (ns c : string) : fallible E (list string) :=
  cl ← f_GetCluster ns c; mret (List.filter (fun x : string => existsb (String.eqb x) nodes) (map Addr (GetNodes cl))).

Lemma hits_nil e a nodes ns c e' :
  represents (content e) a -> path_name ns = true -> is_Some (find_cluster a ns c) -> hits nodes ns c e = (e', inr []) ->
  content e' = content e /\ free a nodes ns c.
Proof.
  intros Hr Hp [cl Hf]. assert (Hpc : path_name c = true).
  { unfold find_cluster in Hf. destruct (a !! ns) as [cs|] eqn:Ea; [|done]. apply (rep_names _ _ Hr ns cs Ea). by eexists. }
  pose proof (f_GetCluster_spec e a ns c Hr Hp Hpc) as Hg. unfold hits, mbind, fallible_bind.
  destruct (f_GetCluster ns c e) as [e1 [err|cl']]; [done|]. destruct Hg as (Hc & _ & Hg).
  unfold mret, fallible_ret. intros [= <- Hfl]. split; [done|]. intros cl2 Hcl2 x Hx Ha.
  assert (cl2 = cl') as -> by congruence.
  assert (Hxin : In x (List.filter (fun b => existsb (String.eqb b) nodes) (map Addr (GetNodes cl')))).
  { apply filter_In. split; [done|]. apply existsb_exists. exists x. split; [done|apply String.eqb_refl]. }
  by rewrite Hfl in Hxin.
Qed.

Lemma namespace_nil e a nodes ns e' :
  represents (content e) a -> path_name ns = true ->
  (clusters ← f_ListCluster ns; f_collect (hits nodes ns) clusters : fallible E (list string)) e = (e', inr []) ->
  content e' = content e /\ forall c, free a nodes ns c.
Proof.
  intros Hr Hp. unfold f_ListCluster, mbind, fallible_bind.
  pose proof (law_List e (buildClusterPrefix ns) (or_intror (ex_intro _ ns (conj Hp eq_refl)))) as Hl.
  destruct (f_List _ e) as [e1 [err|clusters]]; [done|]. destruct Hl as (Hc & _ & Hl).
  destruct (rep_ListCluster (content e) a ns Hr Hp) as [_ Hcl]. unfold ListCluster in Hcl. setoid_rewrite <- Hl in Hcl.
  intros Hcol. apply (f_collect_nil _ (content e) (free a nodes ns)) in Hcol as [Hc1 Hq]; [| |done].
  - split; [done|]. intros c cl Hf. apply (Hq c); [|done]. apply Hcl. by rewrite Hf.
  - intros c e2 e3 Hci Hc2 Hh. rewrite <- Hc2 in Hr |- *. apply (hits_nil e2 a nodes); [done..|by apply Hcl|done].
Qed.

(** Nodes pass the check only if no cluster of the store has one of their
    addresses, whatever fails. *)
Lemma f_CheckNewNodes_safe e a nodes e' :
  represents (content e) a -> f_CheckNewNodes nodes e = (e', inr tt) ->
  content e' = content e /\ forall x, In x nodes -> ~ taken a x.
Proof.
  intros Hr. unfold f_CheckNewNodes. unfold mbind at 1, fallible_bind at 1. unfold f_ListNamespace.
  pose proof (law_List e nsPrefix (or_introl eq_refl)) as Hl.
  destruct (f_List nsPrefix e) as [e1 [err|namespaces]]; [done|]. destruct Hl as (Hc1 & _ & Hl).
  unfold mbind at 1, fallible_bind at 1. destruct (f_collect _ namespaces e1) as [e2 [err|existing]] eqn:Ec; [done|].
  destruct (Nat.ltb_spec 0 (length existing)) as [|Hz]; [done|]. intros [= ->].
  assert (existing = []) as -> by (destruct existing; [done|cbn in Hz; lia]).
  destruct (rep_ListNamespace (content e) a Hr) as [_ Hns]. unfold ListNamespace in Hns. setoid_rewrite <- Hl in Hns.
  apply (f_collect_nil _ (content e) (fun ns => forall c, free a nodes ns c)) in Ec as [Hc2 Hq]; [| |done].
  - split; [done|]. intros x Hx (ns & c & cl & Hf & Ha). eapply Hq; [|done..].
    apply Hns, (find_cluster_ns a ns c). by rewrite Hf.
  - intros ns e2 e3 [cs Hcs]%Hns Hc2 Hh. rewrite <- Hc2 in Hr |- *.
    apply (namespace_nil e2 a nodes ns); [done|by destruct (rep_names _ _ Hr ns cs Hcs)|exact Hh].
Qed.

(** Every operation. *)
Lemma f_exec_ends e a op : represents (content e) a -> op_ok a op -> ends a op e (f_exec op e).
Proof.
  intros Hr Hok. destruct op as [ns|ns|ns cl|ns cl|ns cl|ns c].
  - by apply create_namespace_ends.
  - by apply remove_namespace_ends.
  - by apply create_cluster_ends.
  - by apply update_cluster_ends.
  - by apply set_cluster_ends.
  - destruct Hok. by apply remove_cluster_ends.
Qed.
End Faults.

(** C5. The store over an engine whose calls fail at any moment, and may fail
    after they were carried out.  An operation that succeeds has done what its
    specification says and emits its event; one that returns an error has changed
    nothing, or has done what the specification says and only its event is missing.
    Creations are the exception: where the engine could not say whether the name is
    there, they write.  While the engine does not fail, an operation succeeds
    exactly when the specification does, and returns its error otherwise. *)
Theorem store_faults {E} `{FEngineLaws E} (e : E) a op :
  represents (content e) a -> op_ok a op ->
  let '(e', r) := f_exec op e in
  match r with
  | inr evs => evs = events_of op /\
      exists a', represents (content e') a' /\
        (spec_op f_missing a op = inr a' \/ ~ healthy e /\ overwritten a op = Some a')
  | inl err =>
      represents (content e') a /\ (spec_op f_missing a op = inl err \/ ~ healthy e) \/
      ~ healthy e /\ exists a', represents (content e') a' /\
        (spec_op f_missing a op = inr a' \/ overwritten a op = Some a')
  end.
Proof.
  intros Hr Hok. exact (f_exec_ends e a op Hr Hok).
Qed.

(** ** An engine that fails on demand *)

(** What happens to the next calls: nothing, a failure, or a failure after the
    call was carried out. *)
Inductive fault := Works | Fails | FailsAfter.

Definition faulty : Type := list fault * gmap string blob.

Definition next_fault (e : faulty) : fault * list fault :=
  match fst e with [] => (Works, []) | f :: fs => (f, fs) end.

Definition unavailable : go_error := errors_New "unavailable".

(** A call that reads, and one that writes. *)
Definition reading {A} (r : gmap string blob -> go_error + A) : fallible faulty A := fun e =>
  let '(f, fs) := next_fault e in
  ((fs, snd e), match f with Works => r (snd e) | _ => inl unavailable end).

Definition writing (w : gmap string blob -> gmap string blob) : fallible faulty unit := fun e =>
  let '(f, fs) := next_fault e in
  match f with
  | Works => ((fs, w (snd e)), inr tt)
  | Fails => ((fs, snd e), inl unavailable)
  | FailsAfter => ((fs, w (snd e)), inl unavailable)
  end.

#[export] Instance faulty_engine : FEngine faulty := {|
  f_Get k := reading (fun m => match m !! k with Some v => inr v | None => inl (sentinel ErrNotFound) end);
  f_Exists k := reading (fun m => inr (bool_decide (is_Some (m !! k))));
  f_Set k v := writing (insert k v);
  f_Delete k := writing (delete k);
  f_List p := reading (fun m => inr (e_List m p)) |}.

Definition works (e : faulty) : Prop := Forall (eq Works) (fst e).

#[export, refine] Instance faulty_laws : FEngineLaws faulty := {|
  content := snd; healthy := works; f_missing := sentinel ErrNotFound |}.
Proof.
  - intros [[|f fs] m] k _; cbn; [destruct (m !! k); auto|].
    split; [done|]. split; [by inversion 1|]. destruct f; [destruct (m !! k); auto|right; by inversion 1..].
  - intros [[|f fs] m] k _; cbn; [done|]. split; [done|]. split; [by inversion 1|]. destruct f; [done|by inversion 1..].
  - intros [[|f fs] m] k v _; cbn; [done|]. destruct f; cbn; (split; [by inversion 1|]); [done|..];
      (split; [by inversion 1|auto]).
  - intros [[|f fs] m] k _; cbn; [done|]. destruct f; cbn; (split; [by inversion 1|]); [done|..];
      (split; [by inversion 1|auto]).
  - intros [[|f fs] m] p _; cbn; [done|]. split; [done|]. split; [by inversion 1|]. destruct f; [done|by inversion 1..].
Defined.

Lemma map_rep_empty : represents (∅ : gmap string blob) ∅.
Proof.
  split; [|done| |].
  - intros k. by rewrite map_exists, lookup_empty.
  - intros ns _. by rewrite map_exists, !lookup_empty.
  - intros ns c _ _. change (find_cluster ∅ ns c) with (@None Cluster). by rewrite map_exists, lookup_empty.
Qed.

(** The write of the creation is carried out and reported as failed. *)
Lemma store_faults_witness :
  let '(e', r) := f_exec (OCreateNamespace "ns") ([Works; FailsAfter], ∅) in
  r = inl unavailable /\
  (represents (content e') ∅ \/ exists a', represents (content e') a' /\ spec_op f_missing ∅ (OCreateNamespace "ns") = inr a').
Proof.
  pose proof (store_faults ([Works; FailsAfter], ∅) ∅ (OCreateNamespace "ns") map_rep_empty eq_refl) as Hx.
  destruct (f_exec (OCreateNamespace "ns") ([Works; FailsAfter], ∅)) as [e' r] eqn:E.
  assert (r = inl unavailable) as -> by (vm_compute in E; by simplify_eq). split; [done|].
  destruct Hx as [[Hr _]|(_ & a' & Hr & [Hs|Hs])]; [by left|right; by exists a'|right; exists a'; by injection Hs as <-].
Defined.

(** ** Where errors are dropped *)

(** If the engine cannot say whether a cluster is there, CreateCluster replaces it. *)
Lemma create_replaces ns cl (m : gmap string blob) :
  f_CreateCluster ns cl ([Fails], m) =
  (([], <[buildClusterKey ns (Name cl) := Json (cluster_json cl)]> m), inr [MkEvent ns (Name cl) EventCluster CommandCreate]).
Proof. reflexivity. Qed.

(** and RemoveCluster says that it is not. *)
Lemma remove_denies ns c (m : gmap string blob) :
  f_RemoveCluster ns c ([Fails], m) = (([], m), inl (sentinel ErrNotFound)).
Proof. reflexivity. Qed.

(** An update that fails leaves the copy of the caller with the next version: the
    same update tried again passes the version check of a cluster that another
    process has updated meanwhile. *)
Lemma failed_update_counts ns cl old (m m' : gmap string blob) new :
  m !! buildClusterKey ns (Name cl) = Some (Json (cluster_json old)) -> cluster_storable old -> Version old = Version cl ->
  m' !! buildClusterKey ns (Name cl) = Some (Json (cluster_json new)) -> cluster_storable new ->
  Version new = Version cl + 1 -> int64 (Version cl + 1) ->
  exists cl', f_UpdateCluster ns cl ([Works; Fails], m) = (([], m), cl', inl unavailable) /\
    exists cl'' evs, f_UpdateCluster ns cl' ([], m') =
      (([], <[buildClusterKey ns (Name cl) := Json (cluster_json cl'')]> m'), cl'', inr evs).
Proof.
  intros Hm Hs Hv Hm' Hs' Hv' Hi. exists (bump cl). split.
  - unfold f_UpdateCluster, f_GetCluster, mbind, fallible_bind, wrap_error. cbn [f_Get faulty_engine reading next_fault fst snd].
    unfold reading. cbn [next_fault fst snd]. rewrite Hm. cbn [unmarshal_blob]. rewrite (cluster_decode old Hs). unfold mret, fallible_ret.
    rewrite Hv, Z.ltb_irrefl. reflexivity.
  - exists (bump (bump cl)). eexists. unfold f_UpdateCluster, f_GetCluster, mbind, fallible_bind, wrap_error.
    cbn [f_Get faulty_engine]. unfold reading. cbn [next_fault fst snd]. change (Name (bump cl)) with (Name cl).
    rewrite Hm'. cbn [unmarshal_blob]. rewrite (cluster_decode new Hs'). unfold mret, fallible_ret. cbn [bump Version].
    rewrite wrap64_id, Hv', Z.ltb_irrefl by done. reflexivity.
Qed.
