(* ===== verification/GoEngines.v ===== *)
(** * The engines over external services (store/engine/: etcd, consul, postgresql, zookeeper)

    What these engines do with the answers of their services.  The services and
    their client libraries are not under src/: they are classes, with what their
    documentation says of them as laws.  etcd and consul meet the laws of an
    engine ([FEngineLaws]), so the theorem on the store holds over them; postgresql
    meets them for names without wildcards; zookeeper does not. *)

From S2P Require Import Prelude JsString JsNumber JsValue Effects Api Slots GoShard GoCluster GoJson GoEngine GoStore.
From S2P Require Import GoFaults.

(** [errors.Is(err, consts.ErrNotFound)] *)
Definition is_not_found (err : go_error) : bool := match err_is err with Some ErrNotFound => true | _ => false end.

(** ** Services with keys and values *)

(** Reading a key, writing it, deleting it, and the keys with a prefix. *)
Class KV (S : Type) := {
  kv_Get : string -> fallible S (option blob);
  kv_Put : string -> blob -> fallible S unit;
  kv_Delete : string -> fallible S unit;
  kv_Range : string -> fallible S (list string) }.

(** A key as the server writes it: a slash, and then no other slash. *)
Definition rooted (k : string) : Prop := exists k', k = String "/" k' /\ startsWith k' "/" = false.

(** A key as consul wants it. *)
Definition bare (k : string) : Prop := startsWith k "/" = false.

(** A service may fail, after a write also when it was carried out; the errors of
    its client are not those of this program.  [dom] are the keys it is used with. *)
Class KVLaws (dom : string -> Prop) (S : Type) `{KV S} := {
  kv_content : S -> gmap string blob;
  kv_healthy : S -> Prop;
  kv_law_Get s k : dom k -> let '(s', r) := kv_Get k s in
    kv_content s' = kv_content s /\ (kv_healthy s -> kv_healthy s') /\
    match r with inr o => o = kv_content s !! k | inl err => ~ kv_healthy s /\ err_is err = None end;
  kv_law_Put s k v : dom k -> let '(s', r) := kv_Put k v s in
    (kv_healthy s -> kv_healthy s') /\
    match r with
    | inr _ => kv_content s' = <[k := v]> (kv_content s)
    | inl _ => ~ kv_healthy s /\ (kv_content s' = kv_content s \/ kv_content s' = <[k := v]> (kv_content s))
    end;
  kv_law_Delete s k : dom k -> let '(s', r) := kv_Delete k s in
    (kv_healthy s -> kv_healthy s') /\
    match r with
    | inr _ => kv_content s' = delete k (kv_content s)
    | inl _ => ~ kv_healthy s /\ (kv_content s' = kv_content s \/ kv_content s' = delete k (kv_content s))
    end;
  kv_law_Range s p : dom p -> let '(s', r) := kv_Range p s in
    kv_content s' = kv_content s /\ (kv_healthy s -> kv_healthy s') /\
    match r with
    | inr l => l ≡ₚ List.filter (fun k => startsWith k p) (map_keys (kv_content s))
    | inl _ => ~ kv_healthy s
    end }.

(** ** etcd (store/engine/etcd/etcd.go) *)

(** The loop of [List]: the rest of a key behind the prefix and a slash, unless it
    has a slash itself. *)
Definition list_entry (prefix k : string) : option string :=
  if String.eqb k prefix then None
  else let key := TrimLeft_slash (str_drop (String.length prefix + 1) k) in
       if has_slash key then None else Some key.

Section Etcd.
Context {S : Type} `{KV S}.

Definition etcd_Get (key : string) : fallible S blob :=
  rsp ← kv_Get key;
  match rsp with None => fail (sentinel ErrNotFound) | Some v => mret v end.

Definition etcd_Exists (key : string) : fallible S bool := fun s =>
  match etcd_Get key s with
  | (s', inl err) => if is_not_found err then (s', inr false) else (s', inl err)
  | (s', inr _) => (s', inr true)
  end.

Definition etcd_Set (key : string) (v : blob) : fallible S unit := kv_Put key v.
Definition etcd_Delete (key : string) : fallible S unit := kv_Delete key.

Definition etcd_List (prefix : string) : fallible S (list string) :=
  kvs ← kv_Range prefix; mret (omap (list_entry prefix) kvs).

Definition Etcd_engine : FEngine S := {|
  f_Get := etcd_Get; f_Exists := etcd_Exists; f_Set := etcd_Set; f_Delete := etcd_Delete; f_List := etcd_List |}.
End Etcd.

(** ** consul (store/engine/consul/consul.go) *)

Definition sanitizeKey (key : string) : string := if startsWith key "/" then TrimPrefix key "/" else key.

Section Consul.
Context {S : Type} `{KV S}.

Definition consul_Get (key : string) : fallible S blob :=
  let key := sanitizeKey key in
  rsp ← kv_Get key;
  match rsp with None => fail (sentinel ErrNotFound) | Some v => mret v end.

Definition consul_Exists (key : string) : fallible S bool := fun s =>
  let key := sanitizeKey key in
  match consul_Get key s with
  | (s', inl err) => if is_not_found err then (s', inr false) else (s', inl err)
  | (s', inr _) => (s', inr true)
  end.

Definition consul_Set (key : string) (v : blob) : fallible S unit := kv_Put (sanitizeKey key) v.
Definition consul_Delete (key : string) : fallible S unit := kv_Delete (sanitizeKey key).

Definition consul_List (prefix : string) : fallible S (list string) :=
  let prefix := sanitizeKey prefix in
  rsp ← kv_Range prefix; mret (omap (list_entry prefix) rsp).

Definition Consul_engine : FEngine S := {|
  f_Get := consul_Get; f_Exists := consul_Exists; f_Set := consul_Set; f_Delete := consul_Delete; f_List := consul_List |}.
End Consul.

(** ** postgresql (store/engine/postgresql/postgresql.go) *)

(** The statements on the table kv: select, insert or update, delete, and the keys
    that match a pattern. *)
Class SQL (S : Type) := {
  sql_Select : string -> fallible S (option blob);
  sql_Upsert : string -> blob -> fallible S unit;
  sql_Delete : string -> fallible S unit;
  sql_Like : string -> fallible S (list string) }.

Section Postgresql.
Context {S : Type} `{SQL S}.

Definition pg_Get (key : string) : fallible S blob :=
  row ← sql_Select key;
  match row with None => fail (sentinel ErrNotFound) | Some v => mret v end.

Definition pg_Exists (key : string) : fallible S bool := fun s =>
  match pg_Get key s with
  | (s', inl err) => if is_not_found err then (s', inr false) else (s', inl err)
  | (s', inr _) => (s', inr true)
  end.

Definition pg_Set (key : string) (v : blob) : fallible S unit := sql_Upsert key v.
Definition pg_Delete (key : string) : fallible S unit := sql_Delete key.

Definition pg_List (prefix : string) : fallible S (list string) :=
  let prefixWithWildcard := prefix +:+ "%" in
  rows ← sql_Like prefixWithWildcard; mret (omap (list_entry prefix) rows).

Definition Postgresql_engine : FEngine S := {|
  f_Get := pg_Get; f_Exists := pg_Exists; f_Set := pg_Set; f_Delete := pg_Delete; f_List := pg_List |}.
End Postgresql.

(** The pattern of LIKE. *)
Fixpoint like (p s : string) : bool :=
  match p with
  | EmptyString => String.eqb s ""
  | String "%" p' =>
      (fix any (s : string) : bool := like p' s || match s with EmptyString => false | String _ s' => any s' end) s
  | String "_" p' => match s with EmptyString => false | String _ s' => like p' s' end
  | String "\" p' => match p', s with String c p'', String d s' => Ascii.eqb c d && like p'' s' | _, _ => false end
  | String c p' => match s with EmptyString => false | String d s' => Ascii.eqb c d && like p' s' end
  end.

(** ** zookeeper (store/engine/zookeeper/zookeeper.go) *)

(** The calls of the connection; a missing node ([zk.ErrNoNode]) is [None]. *)
Class ZK (S : Type) := {
  zk_GetData : string -> fallible S (option blob);
  zk_ExistsNode : string -> fallible S bool;
  zk_SetData : string -> blob -> fallible S unit;
  zk_CreateNode : string -> blob -> fallible S unit;
  zk_DeleteNode : string -> fallible S (option unit);
  zk_Children : string -> fallible S (option (list string)) }.

(** [strings.LastIndex(s, "/")] *)
Fixpoint LastIndex_slash (s : string) : option nat :=
  match s with
  | EmptyString => None
  | String c s' => match LastIndex_slash s' with
                   | Some n => Some (Datatypes.S n)
                   | None => if Ascii.eqb c "/" then Some O else None
                   end
  end.

Section Zookeeper.
Context {S : Type} `{ZK S}.

(** The bytes of a missing key are none. *)
Definition zk_Get (key : string) : fallible S blob :=
  data ← zk_GetData key; mret (default (Text "") data).

Definition zk_Exists (key : string) : fallible S bool := zk_ExistsNode key.

(** [fuel] bounds the number of parents; a key has fewer than characters. *)
Fixpoint zk_Create_loop (fuel : nat) (key : string) (v : blob) : fallible S unit :=
  match fuel, LastIndex_slash key with
  | Datatypes.S fuel', Some (Datatypes.S n) =>
      let substring := String.substring 0 (Datatypes.S n) key in
      exist ← ignore false (zk_Exists substring);
      _ ← (if negb (exist : bool) then zk_Create_loop fuel' substring (Text "") else mret tt);
      zk_CreateNode key v
  | _, _ => zk_CreateNode key v
  end.

Definition zk_Create (key : string) (v : blob) : fallible S unit := zk_Create_loop (String.length key) key v.

Definition zk_Set (key : string) (v : blob) : fallible S unit :=
  exist ← ignore false (zk_Exists key);
  if (exist : bool) then zk_SetData key v else zk_Create key v.

Definition zk_Delete (key : string) : fallible S unit := _ ← zk_DeleteNode key; mret tt.

Definition zk_List (prefix : string) : fallible S (list string) :=
  children ← zk_Children prefix;
  match children with
  | None => mret []
  | Some children =>
      f_collect (fun child =>
      data ← zk_GetData (prefix +:+ "/" +:+ child);
      match data with None => fail (errors_New "zk: node does not exist") | Some _ => mret [child] end) children
  end.

Definition Zookeeper_engine : FEngine S := {|
  f_Get := zk_Get; f_Exists := zk_Exists; f_Set := zk_Set; f_Delete := zk_Delete; f_List := zk_List |}.
End Zookeeper.

(** ** Listings *)

Lemma omap_filter {A B} (f : A -> option B) (g : A -> bool) l :
  (forall x, g x = false -> f x = None) -> omap f (List.filter g l) = omap f l.
Proof.
  intros Hf. induction l as [|x l IH]; [done|]. cbn [List.filter omap list_omap]. destruct (g x) eqn:E.
  - cbn. by rewrite IH.
  - rewrite IH, (Hf x E). done.
Qed.

Lemma omap_ext_filter {A B} (f f' : A -> option B) (g : A -> bool) l :
  (forall x, g x = true -> f x = f' x) -> omap f (List.filter g l) = omap f' (List.filter g l).
Proof.
  intros Hf. induction l as [|x l IH]; [done|]. cbn [List.filter]. destruct (g x) eqn:E; [|done].
  cbn. rewrite (Hf x E), IH. done.
Qed.

Lemma list_entry_raft p k : startsWith k p = true -> list_entry p k = raft_entry p k.
Proof. intros H. unfold list_entry, raft_entry. by rewrite H. Qed.

(** The part of the content that is the server's. *)
Definition metadata (m : gmap string blob) : gmap string blob := filter (fun x => startsWith x.1 nsPrefix = true) m.

Lemma map_keys_elem (m : gmap string blob) k : k ∈ map_keys m <-> is_Some (m !! k).
Proof. apply (iterates_keys map_keys). by intros m'. Qed.

Lemma map_keys_NoDup (m : gmap string blob) : NoDup (map_keys m).
Proof. apply NoDup_fst_map_to_list. Qed.

Lemma map_keys_metadata m : map_keys (metadata m) ≡ₚ List.filter (fun k => startsWith k nsPrefix) (map_keys m).
Proof.
  apply list.NoDup_Permutation; [apply map_keys_NoDup| |].
  - apply NoDup_ListNoDup, List.NoDup_filter, NoDup_ListNoDup, map_keys_NoDup.
  - intros k. rewrite map_keys_elem. rewrite list_elem_of_In, filter_In, <- list_elem_of_In, map_keys_elem.
    unfold metadata. split.
    + intros [v Hv]. apply map_lookup_filter_Some in Hv as [Hv Hp]. split; [by eexists|exact Hp].
    + intros [[v Hv] Hp]. exists v. by apply map_lookup_filter_Some.
Qed.

Lemma startsWith_app k p q : startsWith k (p +:+ q) = true -> startsWith k p = true.
Proof.
  unfold startsWith. intros H. apply prefix_inv in H as [t ->]. rewrite append_assoc. apply prefix_append.
Qed.

Lemma server_prefix_ns p : server_prefix p -> exists q, p = nsPrefix +:+ q.
Proof.
  intros [->|(ns & _ & ->)]; [exists ""; by rewrite append_nil_r|]. by eexists.
Qed.

(** What the loop makes of the keys with the prefix are the names of the server. *)
Lemma listed p m l :
  server_prefix p -> l ≡ₚ List.filter (fun k => startsWith k p) (map_keys m) ->
  omap (list_entry p) l ≡ₚ e_List (metadata m) p.
Proof.
  intros Hp Hl. cbn [e_List map_engine DataStore_engine]. rewrite (stable_sort_perm String.leb).
  rewrite (map_keys_metadata m), Hl. rewrite (omap_ext_filter _ (raft_entry p)) by (intros k; apply list_entry_raft).
  rewrite !omap_filter; [done|..].
  - intros k Hk. apply raft_entry_prefix. destruct (startsWith k p) eqn:E; [|done].
    destruct (server_prefix_ns p Hp) as [q ->]. by rewrite (startsWith_app _ _ _ E) in Hk.
  - apply raft_entry_prefix.
Qed.

Lemma rooted_key k : server_key k -> rooted k.
Proof. intros [(ns & _ & ->)|(ns & c & _ & _ & ->)]; by eexists. Qed.

Lemma rooted_prefix p : server_prefix p -> rooted p.
Proof. intros [->|(ns & _ & ->)]; by eexists. Qed.

Lemma server_key_metadata k : server_key k -> startsWith k nsPrefix = true.
Proof. intros [(ns & _ & ->)|(ns & c & _ & _ & ->)]; [|rewrite buildClusterKey_eq]; apply prefix_append. Qed.

Lemma metadata_lookup m k : server_key k -> metadata m !! k = m !! k.
Proof.
  intros Hk. unfold metadata. destruct (m !! k) as [v|] eqn:E.
  - apply map_lookup_filter_Some. split; [done|by apply server_key_metadata].
  - apply map_lookup_filter_None. by left.
Qed.

Lemma metadata_insert m k v : server_key k -> metadata (<[k := v]> m) = <[k := v]> (metadata m).
Proof. intros Hk. apply map_filter_insert_True. by apply server_key_metadata. Qed.

Lemma metadata_delete m k : metadata (delete k m) = delete k (metadata m).
Proof. apply map_filter_delete. Qed.

(** A read of a key and its two errors. *)
Lemma not_found_none err : err_is err = None -> is_not_found err = false.
Proof. unfold is_not_found. by intros ->. Qed.

(** ** etcd and consul are engines *)

#[refine] Definition Etcd_laws {S} `{KVLaws rooted S} : @FEngineLaws S Etcd_engine := {|
  content s := metadata (kv_content s); healthy := kv_healthy; f_missing := sentinel ErrNotFound |}.
Proof.
  - intros s k Hk. cbn [f_Get Etcd_engine]. unfold etcd_Get, mbind, fallible_bind. rewrite metadata_lookup by done.
    pose proof (kv_law_Get s k (rooted_key k Hk)) as Hg.
    destruct (kv_Get k s) as [s' [err|[v|]]]; destruct Hg as (Hc & Hh & Hg); cbn; rewrite Hc; split_and!; auto. right. tauto.
  - intros s k Hk. cbn [f_Exists Etcd_engine]. unfold etcd_Exists, etcd_Get, mbind, fallible_bind.
    rewrite metadata_lookup by done. pose proof (kv_law_Get s k (rooted_key k Hk)) as Hg.
    destruct (kv_Get k s) as [s' [err|[v|]]]; destruct Hg as (Hc & Hh & Hg); cbn; rewrite ?Hc; [|by rewrite <- Hg..].
    destruct Hg as [Hn He]. rewrite (not_found_none err He). rewrite ?Hc. done.
  - intros s k v Hk. cbn [f_Set Etcd_engine]. unfold etcd_Set. pose proof (kv_law_Put s k v (rooted_key k Hk)) as Hg.
    destruct (kv_Put k v s) as [s' [err|u]]; destruct Hg as (Hh & Hg); (split; [done|]).
    + destruct Hg as [Hn [-> | ->]]; (split; [done|]); [by left|right; by apply metadata_insert].
    + rewrite Hg. by apply metadata_insert.
  - intros s k Hk. cbn [f_Delete Etcd_engine]. unfold etcd_Delete. pose proof (kv_law_Delete s k (rooted_key k Hk)) as Hg.
    destruct (kv_Delete k s) as [s' [err|u]]; destruct Hg as (Hh & Hg); (split; [done|]).
    + destruct Hg as [Hn [-> | ->]]; (split; [done|]); [by left|right; apply metadata_delete].
    + rewrite Hg. apply metadata_delete.
  - intros s p Hp. cbn [f_List Etcd_engine]. unfold etcd_List, mbind, fallible_bind.
    pose proof (kv_law_Range s p (rooted_prefix p Hp)) as Hg.
    destruct (kv_Range p s) as [s' [err|l]]; destruct Hg as (Hc & Hh & Hg); cbn; rewrite Hc; split_and!; try done.
    by apply listed.
Defined.

(** consul as the server sees it: its keys with the slash in front. *)
Definition consul_view {S} `{KV S} : KV S := {|
  kv_Get k := kv_Get (sanitizeKey k);
  kv_Put k v := kv_Put (sanitizeKey k) v;
  kv_Delete k := kv_Delete (sanitizeKey k);
  kv_Range p := l ← kv_Range (sanitizeKey p); mret (map (String "/") l) |}.

#[export] Instance slash_inj : Inj (=) (=) (String "/").
Proof. by intros x y [= ->]. Qed.

Lemma sanitize_rooted k : sanitizeKey (String "/" k) = k.
Proof. unfold sanitizeKey, TrimPrefix, startsWith. cbn. by destruct k. Qed.

Lemma sanitize_bare k : bare k -> sanitizeKey k = k.
Proof. unfold sanitizeKey, bare. by intros ->. Qed.

Lemma startsWith_slash k p : startsWith (String "/" k) (String "/" p) = startsWith k p.
Proof. unfold startsWith. cbn. by destruct (ascii_dec "/" "/"). Qed.

Lemma map_keys_kmap (m : gmap string blob) :
  map_keys (kmap (M2 := gmap string) (String "/") m) ≡ₚ map (String "/") (map_keys m).
Proof.
  apply list.NoDup_Permutation; [apply map_keys_NoDup|apply NoDup_fmap_2; [apply _|apply map_keys_NoDup]|].
  intros k. rewrite map_keys_elem. change (map (String "/")) with (fmap (M := list) (String "/")).
  rewrite list_elem_of_fmap. split.
  - intros [v (k' & -> & Hv)%lookup_kmap_Some]; [|apply _]. exists k'. split; [done|]. apply map_keys_elem. by eexists.
  - intros (k' & -> & [v Hv]%map_keys_elem). exists v. by rewrite lookup_kmap by apply _.
Qed.

Lemma filter_map_comm {A B} (f : A -> B) (p : B -> bool) (q : A -> bool) l :
  (forall x, p (f x) = q x) -> List.filter p (map f l) = map f (List.filter q l).
Proof.
  intros Hf. induction l as [|x l IH]; [done|]. cbn. rewrite Hf. destruct (q x); cbn; by rewrite IH.
Qed.

#[refine] Definition consul_view_laws {S} `{KVLaws bare S} : @KVLaws rooted S consul_view := {|
  kv_content := fun s => kmap (M2 := gmap string) (String "/") (kv_content s) : gmap string blob;
  kv_healthy := fun s => kv_healthy s |}.
Proof.
  - intros s k (k' & -> & Hb). cbn [kv_Get consul_view]. rewrite sanitize_rooted, lookup_kmap by apply _.
    pose proof (kv_law_Get s k' Hb) as Hg. destruct (kv_Get k' s) as [s' r]. destruct Hg as (-> & Hg). done.
  - intros s k v (k' & -> & Hb). cbn [kv_Put consul_view]. rewrite sanitize_rooted.
    pose proof (kv_law_Put s k' v Hb) as Hg. destruct (kv_Put k' v s) as [s' [err|u]]; destruct Hg as (Hh & Hg); (split; [done|]).
    + destruct Hg as [Hn [-> | ->]]; (split; [done|]); [by left|right]. exact (kmap_insert (M2 := gmap string) (String "/") (kv_content s) k' v).
    + rewrite Hg. exact (kmap_insert (M2 := gmap string) (String "/") (kv_content s) k' v).
  - intros s k (k' & -> & Hb). cbn [kv_Delete consul_view]. rewrite sanitize_rooted.
    pose proof (kv_law_Delete s k' Hb) as Hg. destruct (kv_Delete k' s) as [s' [err|u]]; destruct Hg as (Hh & Hg); (split; [done|]).
    + destruct Hg as [Hn [-> | ->]]; (split; [done|]); [by left|right]. exact (kmap_delete (M2 := gmap string) (String "/") (kv_content s) k').
    + rewrite Hg. exact (kmap_delete (M2 := gmap string) (String "/") (kv_content s) k').
  - intros s p (p' & -> & Hb). cbn [kv_Range consul_view]. unfold mbind, fallible_bind. rewrite sanitize_rooted.
    pose proof (kv_law_Range s p' Hb) as Hg. destruct (kv_Range p' s) as [s' [err|l]]; destruct Hg as (Hc & Hh & Hg); cbn;
      rewrite Hc; split_and!; try done.
    rewrite map_keys_kmap, Hg. rewrite (filter_map_comm _ _ (fun k => startsWith k p')) by (intros k; apply startsWith_slash).
    done.
Defined.

Lemma list_entry_slash p k : list_entry (String "/" p) (String "/" k) = list_entry p k.
Proof.
  unfold list_entry. cbn [String.length Nat.add str_drop]. replace (String.eqb (String "/" k) (String "/" p)) with (String.eqb k p); [done|].
  cbn. done.
Qed.

Lemma list_entries_slash p l : omap (list_entry (String "/" p)) (map (String "/") l) = omap (list_entry p) l.
Proof.
  induction l as [|k l IH]; [done|].
  change (match list_entry (String "/" p) (String "/" k) with
          | Some y => y :: omap (list_entry (String "/" p)) (map (String "/") l)
          | None => omap (list_entry (String "/" p)) (map (String "/") l)
          end = omap (list_entry p) (k :: l)).
  by rewrite list_entry_slash, IH.
Qed.

(** On the keys of the server consul behaves as etcd over the view. *)
Lemma consul_Get_view {S} `{KV S} k s : server_key k -> consul_Get k s = @etcd_Get S consul_view k s.
Proof. done. Qed.

Lemma consul_Exists_view {S} `{KV S} k s : server_key k -> consul_Exists k s = @etcd_Exists S consul_view k s.
Proof.
  intros (k' & -> & Hb)%rooted_key. unfold consul_Exists, etcd_Exists, consul_Get, etcd_Get. cbn [kv_Get consul_view].
  by rewrite sanitize_rooted, (sanitize_bare k' Hb).
Qed.

Lemma consul_List_view {S} `{KV S} p s : server_prefix p -> consul_List p s = @etcd_List S consul_view p s.
Proof.
  intros (p' & -> & Hb)%rooted_prefix. unfold consul_List, etcd_List. cbn [kv_Range consul_view].
  unfold mbind, fallible_bind. rewrite sanitize_rooted. destruct (kv_Range p' s) as [s' [err|l]]; [done|]. cbn.
  by rewrite list_entries_slash.
Qed.

#[refine] Definition Consul_laws {S} `{KVLaws bare S} : @FEngineLaws S Consul_engine := {|
  content := @content S _ (@Etcd_laws S consul_view consul_view_laws);
  healthy := @healthy S _ (@Etcd_laws S consul_view consul_view_laws);
  f_missing := sentinel ErrNotFound |}.
Proof.
  - intros s k Hk. cbn [f_Get Consul_engine]. rewrite consul_Get_view by done.
    exact (@law_Get S _ (@Etcd_laws S consul_view consul_view_laws) s k Hk).
  - intros s k Hk. cbn [f_Exists Consul_engine]. rewrite consul_Exists_view by done.
    exact (@law_Exists S _ (@Etcd_laws S consul_view consul_view_laws) s k Hk).
  - intros s k v Hk. exact (@law_Set S _ (@Etcd_laws S consul_view consul_view_laws) s k v Hk).
  - intros s k Hk. exact (@law_Delete S _ (@Etcd_laws S consul_view consul_view_laws) s k Hk).
  - intros s p Hp. cbn [f_List Consul_engine]. rewrite consul_List_view by done.
    exact (@law_List S _ (@Etcd_laws S consul_view consul_view_laws) s p Hp).
Defined.

(** C29. The store over etcd and over consul.  For every service that keeps what
    is written under its keys and answers a prefix with the keys that have it, in
    any order, whatever else it holds outside the keys of the server, and whenever
    it fails: the engine translates keys, missing values and listings so that each
    operation of the store ends as its specification says ([ends]: success with the
    specified store, or an error with nothing changed or only the event missing,
    creations of a name the service could not be asked for excepted). *)
Theorem external_store S `{KV S} a op s :
  op_ok a op ->
  (forall laws : KVLaws rooted S, represents (metadata (kv_content s)) a ->
     @ends S (@Etcd_engine S _) (@Etcd_laws S _ laws) a op s (@f_exec S (@Etcd_engine S _) op s)) /\
  (forall laws : KVLaws bare S, represents (metadata (kmap (M2 := gmap string) (String "/") (kv_content s))) a ->
     @ends S (@Consul_engine S _) (@Consul_laws S _ laws) a op s (@f_exec S (@Consul_engine S _) op s)).
Proof.
  intros Hok. split.
  - intros laws Hr. exact (@f_exec_ends S Etcd_engine Etcd_laws s a op Hr Hok).
  - intros laws Hr. exact (@f_exec_ends S Consul_engine Consul_laws s a op Hr Hok).
Qed.

(** ** A service that fails on demand *)

#[export] Instance faulty_kv : KV faulty := {|
  kv_Get k := reading (fun m => inr (m !! k));
  kv_Put k v := writing (insert k v);
  kv_Delete k := writing (delete k);
  kv_Range p := reading (fun m => inr (List.filter (fun k => startsWith k p) (map_keys m))) |}.

#[refine] Definition faulty_kv_laws dom : KVLaws dom faulty := {| kv_content := snd; kv_healthy := works |}.
Proof.
  - intros [[|f fs] m] k _; cbn; [done|]. split; [done|]. split; [by inversion 1|].
    destruct f; [done|split; [by inversion 1|done]..].
  - intros [[|f fs] m] k v _; cbn; [done|]. destruct f; cbn; (split; [by inversion 1|]); [done|..];
      (split; [by inversion 1|auto]).
  - intros [[|f fs] m] k _; cbn; [done|]. destruct f; cbn; (split; [by inversion 1|]); [done|..];
      (split; [by inversion 1|auto]).
  - intros [[|f fs] m] p _; cbn; [done|]. split; [done|]. split; [by inversion 1|]. destruct f; [done|by inversion 1..].
Defined.

(** consul loses the answer to a write. *)
Lemma external_store_witness :
  let s : faulty := ([Works; FailsAfter], ∅) in
  let '(s', r) := @f_exec _ Consul_engine (OCreateNamespace "ns") s in
  r = inl unavailable /\ snd s' = {["kvrocks/metadata/ns" := Text "ns"]} /\
  ends (H0 := @Consul_laws _ _ (faulty_kv_laws bare)) ∅ (OCreateNamespace "ns") s (s', r).
Proof.
  intros s. pose proof (proj2 (external_store faulty ∅ (OCreateNamespace "ns") s eq_refl) (faulty_kv_laws bare)) as Hx.
  assert (Hr : represents (metadata (kmap (M2 := gmap string) (String "/") (@kv_content bare _ _ (faulty_kv_laws bare) s))) ∅).
  { change (@kv_content bare _ _ (faulty_kv_laws bare) s) with (∅ : gmap string blob).
    rewrite kmap_empty. unfold metadata. rewrite map_filter_empty. exact map_rep_empty. }
  specialize (Hx Hr). destruct (@f_exec _ Consul_engine (OCreateNamespace "ns") s) as [s' r] eqn:E.
  assert (r = inl unavailable) as -> by (vm_compute in E; by simplify_eq).
  assert (snd s' = {["kvrocks/metadata/ns" := Text "ns"]}) as Hs' by (vm_compute in E; by simplify_eq).
  split; [done|]. split; [done|exact Hx].
Defined.

(** ** postgresql: patterns *)

(** A name without wildcards. *)
Definition plain (s : string) : bool :=
  negb (any_char (fun c => Ascii.eqb "%" c || Ascii.eqb "_" c || Ascii.eqb "\" c) s).

Lemma like_any s : like "%" s = true.
Proof. by induction s as [|c s IH]. Qed.

Lemma like_plain_char c p s :
  plain (String c "") = true ->
  like (String c p) s = match s with EmptyString => false | String d s' => Ascii.eqb c d && like p s' end.
Proof. destruct c as [[] [] [] [] [] [] [] []]; try reflexivity; intros H; vm_compute in H; discriminate H. Qed.

(** For such a prefix the pattern is the prefix. *)
Lemma like_prefix p s : plain p = true -> like (p +:+ "%") s = startsWith s p.
Proof.
  revert s. induction p as [|c p IH]; intros s Hp.
  - cbn [String.append]. rewrite like_any. unfold startsWith. by destruct s.
  - unfold plain in Hp. cbn [any_char] in Hp. rewrite negb_orb in Hp. apply andb_true_iff in Hp as [Hc Hp].
    change (String c p +:+ "%") with (String c (p +:+ "%")). rewrite like_plain_char.
    2: { unfold plain. cbn [any_char]. by rewrite orb_false_r. }
    unfold startsWith. destruct s as [|d s]; [done|]. cbn [String.prefix]. rewrite IH by done.
    destruct (ascii_dec c d) as [->|Hne]; [by rewrite Ascii.eqb_refl|]. by rewrite (proj2 (Ascii.eqb_neq c d) Hne).
Qed.

(** What the documentation says of the select statement with LIKE. *)
Definition answers_like {S} `{SQL S} (keys : S -> list string) : Prop :=
  forall s p, let '(s', r) := sql_Like p s in keys s' = keys s /\ forall l, r = inr l -> l ≡ₚ List.filter (like p) (keys s).

(** The listing of the namespaces, and of the clusters of a plain namespace, are
    those of the laws. *)
Lemma pg_List_plain {S} `{SQL S} (table : S -> gmap string blob) p s s' l :
  answers_like (fun s => map_keys (table s)) -> server_prefix p -> plain p = true ->
  pg_List p s = (s', inr l) -> l ≡ₚ e_List (metadata (table s)) p.
Proof.
  intros Ha Hp Hpl. unfold pg_List, mbind, fallible_bind. pose proof (Ha s (p +:+ "%")) as Hl.
  destruct (sql_Like _ s) as [s1 [err|rows]]; [done|]. destruct Hl as [_ Hl]. cbn. intros [= <- <-].
  apply (listed p (table s) rows Hp). rewrite (Hl rows eq_refl). erewrite filter_ext; [done|].
  intros k. by apply like_prefix.
Qed.

#[export] Instance faulty_sql : SQL faulty := {|
  sql_Select k := reading (fun m => inr (m !! k));
  sql_Upsert k v := writing (insert k v);
  sql_Delete k := writing (delete k);
  sql_Like p := reading (fun m => inr (List.filter (like p) (map_keys m))) |}.

(** In a namespace with an underscore in its name postgresql lists the clusters of
    others, so that the namespace cannot be removed. *)
Lemma pg_lists_others :
  let m : gmap string blob := <[appendPrefix "a_b" := Text "a_b"]> (<[appendPrefix "axb" := Text "axb"]>
             {[buildClusterKey "axb" "c" := Text "{}"]}) in
  @f_ListCluster _ Postgresql_engine "a_b" ([], m) = (([], m), inr ["c"]) /\
  @f_RemoveNamespace _ Postgresql_engine "a_b" ([], m)
  = (([], m), inl (wrapped "" (sentinel ErrForbidden) ": please delete clusters first")).
Proof. split; vm_compute; reflexivity. Qed.

(** ** zookeeper: missing nodes and parents *)

Lemma LastIndex_bound s n : LastIndex_slash s = Some n -> (n < String.length s)%nat.
Proof.
  revert n. induction s as [|c s IH]; intros n; [done|]. cbn. destruct (LastIndex_slash s) as [m|].
  - intros [= <-]. specialize (IH m eq_refl). lia.
  - destruct (Ascii.eqb c "/"); [intros [= <-]; lia|done].
Qed.

(** The fuel is enough: more of it changes nothing. *)
Lemma zk_Create_enough {S} `{ZK S} f f' key v s :
  (String.length key <= f)%nat -> (String.length key <= f')%nat ->
  zk_Create_loop f key v s = zk_Create_loop f' key v s.
Proof.
  revert f' key v s. induction f as [|f IH]; intros [|f'] key v s Hf Hf'; try done;
    cbn [zk_Create_loop]; destruct (LastIndex_slash key) as [[|n]|] eqn:El; try done;
    apply LastIndex_bound in El; try lia.
  unfold mbind, fallible_bind. destruct (ignore _ _ s) as [s1 [err|[]]]; cbn [negb]; [done..|].
  rewrite (IH f' (String.substring 0 (Datatypes.S n) key) (Text "") s1); [done|..]; rewrite length_substring0; lia.
Qed.

(** A cluster that is not there is an error of the JSON decoder, and not
    [ErrNotFound]: the server answers with 500. *)
Lemma zk_missing_cluster {S} `{ZK S} ns c s s' :
  zk_GetData (buildClusterKey ns c) s = (s', inr None) ->
  exists err, @f_GetCluster S Zookeeper_engine ns c s = (s', inl err) /\ err_is err = None.
Proof.
  intros Hg. unfold f_GetCluster. cbn [f_Get Zookeeper_engine]. unfold zk_Get, wrap_error, mbind, fallible_bind.
  rewrite Hg. cbn. by eexists.
Qed.

(** A tree of nodes: a node is created below one that exists, and deleted when it
    has no children. *)
Definition zk_parent (k : string) : option string :=
  match LastIndex_slash k with Some (Datatypes.S n) => Some (String.substring 0 (Datatypes.S n) k) | _ => None end.

Definition zk_child_of (p k : string) : bool := match zk_parent k with Some q => String.eqb q p | None => false end.

Definition zk_base (k : string) : string :=
  match LastIndex_slash k with Some n => str_drop (Datatypes.S n) k | None => k end.

#[export] Instance tree_zk : ZK (gmap string blob) := {|
  zk_GetData k m := (m, inr (m !! k));
  zk_ExistsNode k m := (m, inr (bool_decide (is_Some (m !! k))));
  zk_SetData k v m := match m !! k with Some _ => (<[k := v]> m, inr tt) | None => (m, inl (errors_New "zk: node does not exist")) end;
  zk_CreateNode k v m :=
    match m !! k, zk_parent k with
    | Some _, _ => (m, inl (errors_New "zk: node already exists"))
    | None, Some p => match m !! p with
                      | Some _ => (<[k := v]> m, inr tt)
                      | None => (m, inl (errors_New "zk: node does not exist"))
                      end
    | None, None => (<[k := v]> m, inr tt)
    end;
  zk_DeleteNode k m :=
    match m !! k with
    | None => (m, inr None)
    | Some _ => if existsb (zk_child_of k) (map_keys m) then (m, inl (errors_New "zk: node has children"))
                else (delete k m, inr (Some tt))
    end;
  zk_Children p m :=
    match m !! p with
    | None => (m, inr None)
    | Some _ => (m, inr (Some (map zk_base (List.filter (zk_child_of p) (map_keys m)))))
    end |}.

Definition tree_op {A} (p : fallible (gmap string blob) A) (m : gmap string blob) : gmap string blob := fst (p m).

(** Creating a cluster creates the parent of its node, which nothing deletes: a
    namespace that once had a cluster is empty and cannot be removed. *)
Lemma zk_namespace_stuck :
  let m := tree_op (@f_RemoveCluster _ Zookeeper_engine "ns" "c")
             (tree_op (@f_Set _ Zookeeper_engine (buildClusterKey "ns" "c") (Text "{}"))
                (tree_op (@f_CreateNamespace _ Zookeeper_engine "ns") ∅)) in
  snd (@f_ListCluster _ Zookeeper_engine "ns" m) = inr [] /\
  @f_RemoveNamespace _ Zookeeper_engine "ns" m = (m, inl (errors_New "zk: node has children")).
Proof. split; vm_compute; reflexivity. Qed.
