(* ===== verification/GoController.v ===== *)
(** * The controller's checker of a cluster (controller/cluster.go)

    One round of probing the nodes, with the failure counts that lead to a
    failover, and one round over the migrations that are under way.  Each node is
    probed in a goroutine of its own; [order] is the order in which they take
    effect.  What the nodes reply is a parameter. *)

From S2P Require Import Prelude JsString JsNumber JsValue Effects Api Slots GoShard GoCluster GoJson GoEngine GoStore.

Definition ErrClusterNotInitialized : string := "CLUSTERDOWN The cluster is not initialized".
Definition ErrRestoringBackUp : string := "LOADING kvrocks is restoring the db from backup".

Inductive probe := Restoring | NotInitialized | ProbeFailed (e : go_error) | Alive (version : Z).

Definition probeNode (w : Replies) (n : GoNode) : probe :=
  match GetClusterInfo w n with
  | inl err => if includes (err_msg err) ErrRestoringBackUp then Restoring
               else if includes (err_msg err) ErrClusterNotInitialized then NotInitialized
               else ProbeFailed err
  | inr i => Alive (CurrentEpoch i)
  end.

Definition WithMaxFailureCount (count : Z) : Z := if count <? 1 then 5 else count.

Section Checker.
Context {E : Type} `{Engine E} (w : Replies) (ns clusterName : string) (maxFailureCount : Z).

(** The store, the counts, the newest version a node reported with the topology
    of that node, and the nodes that were sent the cluster. *)
Record checker := MkChecker {
  ck_store : E; failureCounts : gmap string Z;
  latestNodeVersion : Z; latestClusterNodesStr : string; synced : list string }.

Definition with_counts (f : gmap string Z -> gmap string Z) (k : checker) : checker :=
  MkChecker (ck_store k) (f (failureCounts k)) (latestNodeVersion k) (latestClusterNodesStr k) (synced k).
Definition with_store (e : E) (k : checker) : checker :=
  MkChecker e (failureCounts k) (latestNodeVersion k) (latestClusterNodesStr k) (synced k).
Definition with_latest (v : Z) (s : string) (k : checker) : checker :=
  MkChecker (ck_store k) (failureCounts k) v s (synced k).
Definition with_synced (id : string) (k : checker) : checker :=
  MkChecker (ck_store k) (failureCounts k) (latestNodeVersion k) (latestClusterNodesStr k) (synced k ++ [id]).

Definition resetFailureCount (nodeID : string) : checker -> checker := with_counts (delete nodeID).

(** What the failover of a failed master does to the store and the counts. *)
Definition try_failover (shardIndex : Z) (n : GoNode) (k : checker) : checker :=
  match GetCluster (ck_store k) ns clusterName with
  | inl _ => k
  | inr cluster =>
      match PromoteNewMaster w shardIndex (ID n) "" cluster with
      | inl _ => k
      | inr (cluster', newMasterID) =>
          let k := resetFailureCount newMasterID k in
          match UpdateCluster (ck_store k) ns cluster' with
          | inl _ => k
          | inr (e', _, _) => with_store e' k
          end
      end
  end.

Definition increaseFailureCount (shardIndex : Z) (n : GoNode) (k : checker) : checker :=
  let count := default 0 (failureCounts k !! ID n) + 1 in
  let k := with_counts (insert (ID n) count) k in
  if negb (IsMaster n) then k
  else if count mod maxFailureCount =? 0 then try_failover shardIndex n k else k.

(** Sending the topology to a node fails when a shard has no master, or when
    the node refuses it; [accepts] says which nodes take it. *)
Definition probe_one (accepts : string -> bool) (cluster : Cluster) (k : checker) (p : Z * GoNode) : checker :=
  let '(shardIdx, n) := p in
  let alive version :=
  let k :=
  if version <? Version cluster then
  match ToSlotString cluster with
  | inr _ => if accepts (ID n) then with_synced (ID n) k else k
  | inl _ => k
  end
  else if Version cluster <? version then
  if latestNodeVersion k <? version then
  match GetClusterNodesString w n with
  | inl _ => with_latest version "" k
  | inr s => with_latest version s k
  end
  else k
  else k in
  resetFailureCount (ID n) k in
  match probeNode w n with
  | Restoring => k
  | ProbeFailed _ => increaseFailureCount shardIdx n k
  | NotInitialized => alive (-1)
  | Alive version => alive version
  end.

Definition probed_nodes (cluster : Cluster) : list (Z * GoNode) :=
  concat (mapi (fun i s => map (fun n => (Z.of_nat i, n)) (Nodes s)) (Shards cluster)).

(** A round, from the cluster that was read at its beginning.  [None] is the
    panic for a first shard without a node. *)
Definition parallelProbeNodes (accepts : string -> bool) (order : list (Z * GoNode)) (cluster : Cluster)
  (e : E) (counts : gmap string Z) : option checker :=
  let k := fold_left (probe_one accepts cluster) order (MkChecker e counts 0 "" []) in
  if (Version cluster <? latestNodeVersion k) && negb (String.eqb (latestClusterNodesStr k) "") then
  match ParseCluster (latestClusterNodesStr k) with
  | inl _ => Some k
  | inr latest =>
      match head (Shards cluster) ≫= fun s => head (Nodes s) with
      | None => None
      | Some first =>
          let latest := SetPassword (Password first) (MkCluster (Name cluster) (Version latest) (Shards latest)) in
          match SetCluster (ck_store k) ns latest with
          | inl _ => Some k
          | inr e' => Some (with_store e' k)
          end
      end
  end
  else Some k.

(** ** Migrations *)

Inductive turn := Continue (e : E) (c : Cluster) | Return (e : E) | Crash.

(** The slots go from shard [i] to its target, and the migration is over. *)
Definition finishMigration (i : nat) (target : Z) (slot : SlotRange) (c : Cluster) : Cluster :=
  let removed := alter (fun s => set_ranges (RemoveSlotFromSlotRanges (SlotRanges s) slot) s) i (Shards c) in
  let added := alter (fun s => set_ranges (AddSlotToSlotRanges (SlotRanges s) slot) s) (Z.to_nat target) removed in
  setShards (alter ClearMigrateState i added) c.

Definition clearMigration (i : nat) (c : Cluster) : Cluster := setShards (alter ClearMigrateState i (Shards c)) c.

Definition store_turn (e : E) (c : Cluster) : turn :=
  match UpdateCluster e ns c with
  | inl _ => Return e
  | inr (e', c', _) => Continue e' c'
  end.

(** The body of the loop for shard [i].  A shard that is migrating without a
    master, and a source that reports no migrating slot, are nil pointers. *)
Definition migration_turn (e : E) (c : Cluster) (i : nat) : turn :=
  match Shards c !! i with
  | None => Continue e c
  | Some shard =>
      match Migrating shard with
      | Some m =>
          if negb (shardIsMigrating shard) then Continue e c
          else match GetMasterNode shard with
          | None => Crash
          | Some source =>
              match GetClusterInfo w source with
              | inl _ => Continue e c
              | inr info =>
                  match InfoMigratingSlot info with
                  | None => Crash
                  | Some reported =>
                      if negb ((Start (m_range reported) =? Start (m_range m)) && (Stop (m_range reported) =? Stop (m_range m)))
                      then Continue e c
                      else if (TargetShardIndex shard <? 0) || (Z.of_nat (length (Shards c)) <=? TargetShardIndex shard)
                      then Return e
                      else if String.eqb (MigratingState info) "none" || String.eqb (MigratingState info) "start"
                      then Continue e c
                      else if String.eqb (MigratingState info) "fail" then store_turn e (clearMigration i c)
                      else if String.eqb (MigratingState info) "success"
                      then store_turn e (finishMigration i (TargetShardIndex shard) (m_range m) c)
                      else store_turn e (clearMigration i c)
                  end
              end
          end
      | None => Continue e c
      end
  end.

(** The loop over the shards of the cached cluster. *)
Fixpoint migration_loop (e : E) (c : Cluster) (is_ : list nat) : option E :=
  match is_ with
  | [] => Some e
  | i :: rest => match migration_turn e c i with
      | Continue e' c' => migration_loop e' c' rest
      | Return e' => Some e'
      | Crash => None
      end
  end.

Definition tryUpdateMigrationStatus (e : E) (cached : Cluster) : option E :=
  migration_loop e cached (seq 0 (length (Shards cached))).
End Checker.
