(* ===== verification/GoTopology.v ===== *)
(** * The invariant of a cluster's topology

    Every operation of the server and of the controller that changes a cluster,
    as a step relation, and what holds of every cluster they can reach from a
    new one: each shard has exactly one master, each slot exactly one owner, and
    the slots of a migration are the source's. *)

From S2P Require Import Prelude JsString JsNumber JsValue Effects Api Slots GoShard GoCluster GoJson.
From S2P Require Import GoEngine GoStore GoController.

Definition has_master (s : Shard) : Prop := exists k, sole_master (Nodes s) k.
Definition distinct_ids (s : Shard) : Prop := NoDup (map ID (Nodes s)).

(** The slots of a migration are the shard's. *)
Definition migrates_own (s : Shard) : Prop :=
  forall m, Migrating s = Some m ->
    IsMigrating m = true /\ wf_range (m_range m) /\ forall x, in_range (m_range m) x -> in_ranges (SlotRanges s) x.

Definition shard_ok (s : Shard) : Prop :=
  has_master s /\ distinct_ids s /\ wf_ranges (SlotRanges s) /\ migrates_own s.

Record topology (c : Cluster) : Prop := {
  top_shards : Forall shard_ok (Shards c);
  top_owner x : MinSlotID <= x <= MaxSlotID -> exists i, forall j, owns (Shards c) j x <-> j = i }.

Inductive cluster_step : Cluster -> Cluster -> Prop :=
| step_add_node c id now i addr role pw c' n :
    (forall s, Shards c !! Z.to_nat i = Some s -> ~ In id (map ID (Nodes s))) ->
    AddNode id now i addr role pw c = inr (c', n) -> cluster_step c c'
| step_remove_node c i id c' : RemoveNode i id c = inr (c', tt) -> cluster_step c c'
| step_promote w c i masterID pref c' id : PromoteNewMaster w i masterID pref c = inr (c', id) -> cluster_step c c'
| step_migrate w c slot target slotOnly c' :
    wf_range slot -> ClusterMigrateSlot w slot target slotOnly c = inr c' -> cluster_step c c'
| step_append_shard c ids now nodes pw :
    nodes <> [] -> (forall i j, ids i = ids j -> i = j) ->
    cluster_step c (appendShard (newShard ids now nodes pw) c)
| step_remove_shard c i s :
    Shards c !! i = Some s -> IsServicing s = false -> cluster_step c (removeShard i c)
| step_clear c i : cluster_step c (clearMigration i c)
| step_finish c i s m :
    Shards c !! i = Some s -> Migrating s = Some m ->
    0 <= TargetShardIndex s < Z.of_nat (length (Shards c)) ->
    cluster_step c (finishMigration i (TargetShardIndex s) (m_range m) c)
| step_version c v : cluster_step c (MkCluster (Name c) v (Shards c))
| step_password c pw : cluster_step c (SetPassword pw c).

(** A new cluster of at most one shard per slot, and what becomes of it. *)
Inductive reachable : Cluster -> Prop :=
| reach_new ids now name nodes replicas c :
    (forall i j, ids i = ids j -> i = j) -> Z.of_nat (length nodes) <= MaxSlotID + 1 ->
    NewCluster ids now name nodes replicas = inr c -> reachable c
| reach_step c c' : reachable c -> cluster_step c c' -> reachable c'.

(** ** Nodes *)

Lemma sole_master_ext nodes nodes' k :
  map Role nodes' = map Role nodes -> sole_master nodes k -> sole_master nodes' k.
Proof.
  intros Hr [Hk Hu].
  assert (Hl : forall j, Role <$> nodes' !! j = Role <$> nodes !! j).
  { intros j. pose proof (f_equal (fun l => l !! j) Hr) as H. cbv beta in H. by rewrite !list_lookup_fmap in H. }
  split.
  - specialize (Hl k). destruct Hk as [n Hn]. rewrite Hn in Hl. destruct (nodes' !! k); [by eexists|done].
  - intros j n Hj. specialize (Hl j). rewrite Hj in Hl. destruct (nodes !! j) as [n'|] eqn:E; [|done].
    injection Hl as Hl. rewrite <- (Hu j n' E). unfold IsMaster. by rewrite Hl.
Qed.

(** The first node of a list is the master and the others are replicas. *)
Lemma sole_master_first (f : nat -> GoNode) n :
  (forall j, IsMaster (f j) = (j =? 0)%nat) -> (0 < n)%nat -> sole_master (map f (seq 0 n)) 0.
Proof.
  intros Hf Hn. split.
  - apply lookup_lt_is_Some. by rewrite length_map, length_seq.
  - intros j x. rewrite list_lookup_fmap. destruct (seq 0 n !! j) as [y|] eqn:E; [|done].
    apply lookup_seq in E as [-> _]. intros [= <-]. rewrite Hf. simpl. destruct (Nat.eqb_spec j 0); naive_solver.
Qed.

Lemma NoDup_map_seq (f : nat -> string) n : (forall i j, f i = f j -> i = j) -> NoDup (map f (seq 0 n)).
Proof. intros Hf. apply NoDup_fmap_2; [exact Hf|apply NoDup_seq]. Qed.

Lemma mapi_seq {A B} (f : nat -> A -> B) (d : A) l : mapi f l = map (fun i => f i (nth i l d)) (seq 0 (length l)).
Proof.
  apply list_eq. intros i. rewrite lookup_mapi, list_lookup_fmap.
  destruct (l !! i) as [x|] eqn:E.
  - rewrite lookup_seq_lt by (by eapply lookup_lt_Some). simpl. by rewrite (nth_lookup_Some _ _ _ _ E).
  - apply lookup_ge_None in E. by rewrite lookup_seq_ge.
Qed.

(** One master, counted. *)
Lemma has_master_count nodes : (exists k, sole_master nodes k) <-> length (List.filter IsMaster nodes) = 1%nat.
Proof.
  induction nodes as [|n nodes IH]; [split; [by intros (k & [[? ?] _])|done]|]. simpl. split.
  - intros (k & [x Hx] & Hu). pose proof (Hu 0%nat n eq_refl) as H0. destruct (IsMaster n) eqn:En.
    + assert (k = 0%nat) as -> by (symmetry; by apply H0). simpl. f_equal.
      assert (List.filter IsMaster nodes = []) as ->; [|done].
      destruct (List.filter IsMaster nodes) as [|y ys] eqn:Ef; [done|]. exfalso.
      assert (Hy : In y (List.filter IsMaster nodes)) by (rewrite Ef; by left).
      apply filter_In in Hy as [Hy Hm]. apply list_elem_of_In, list_elem_of_lookup in Hy as [j Hj].
      by apply (Hu (S j) y Hj) in Hm.
    + apply IH. destruct k as [|k]; [by destruct H0 as [_ H0]; discriminate H0|]. exists k. split; [by exists x|].
      intros j y Hj. rewrite (Hu (S j) y Hj). lia.
  - destruct (IsMaster n) eqn:En; simpl.
    + intros [= Hl]. apply nil_length_inv in Hl. exists 0%nat. split; [by eexists|].
      intros [|j] y Hj; simpl in Hj; simplify_eq; [by rewrite En|]. split; [|done]. intros Hm. exfalso.
      assert (In y (List.filter IsMaster nodes)); [|by rewrite Hl in *].
      apply filter_In. split; [|done]. apply list_elem_of_In. by eapply list_elem_of_lookup_2.
    + intros (k & [x Hx] & Hu)%IH. exists (S k). split; [by exists x|].
      intros [|j] y Hj; simpl in Hj; simplify_eq; [by rewrite En; split|]. rewrite (Hu j y Hj). lia.
Qed.

Lemma filter_filter_impl {A} (p q : A -> bool) (l : list A) :
  (forall x, In x l -> p x = true -> q x = true) -> List.filter p (List.filter q l) = List.filter p l.
Proof.
  induction l as [|x l IH]; intros Hpq; simpl; [done|].
  pose proof (Hpq x (or_introl eq_refl)) as Hx. rewrite <- IH by (intros; apply Hpq; [by right|done]).
  destruct (q x); simpl; [done|]. destruct (p x); [by discriminate Hx|done].
Qed.

Lemma filter_without id nodes n :
  List.find (fun n => String.eqb (ID n) id) nodes = Some n -> IsMaster n = false -> NoDup (map ID nodes) ->
  List.filter IsMaster (without id nodes) = List.filter IsMaster nodes.
Proof.
  intros Hf Hm Hnd. apply List.find_some in Hf as [Hin Hid]. apply String.eqb_eq in Hid. subst id.
  apply filter_filter_impl. intros x Hx Hmx. destruct (String.eqb_spec (ID x) (ID n)) as [E|]; [|done].
  exfalso. assert (x = n) as ->; [|congruence].
  apply list_elem_of_In, list_elem_of_lookup in Hx as [i Hi]. apply list_elem_of_In, list_elem_of_lookup in Hin as [j Hj].
  assert (i = j) as ->; [|congruence].
  apply (NoDup_lookup (map ID nodes) i j (ID n) Hnd); rewrite list_lookup_fmap; [rewrite Hi|rewrite Hj]; simpl; congruence.
Qed.

(** ** Operations on one shard *)

Lemma shard_ok_setNodes s ns :
  shard_ok s -> (exists k, sole_master ns k) -> NoDup (map ID ns) -> shard_ok (setNodes ns s).
Proof. intros (_ & _ & H3 & H4) Hm Hn. repeat split; [exact Hm|exact Hn|exact H3|apply H4; done..]. Qed.

Lemma addNode_ok id now addr role pw s s' n :
  shard_ok s -> ~ In id (map ID (Nodes s)) -> addNode id now addr role pw s = inr (s', n) ->
  shard_ok s' /\ SlotRanges s' = SlotRanges s.
Proof.
  intros Hs Hid. pose proof Hs as (Hm & Hd & _). apply has_master_count in Hm. unfold addNode.
  destruct (negb _ && _); [done|]. destruct (existsb _ _); [done|].
  destruct (String.eqb role RoleMaster && _) eqn:Er; [done|]. intros [= <- _]. split; [|done].
  apply shard_ok_setNodes; [done|apply has_master_count|].
  - rewrite List.filter_app, length_app, Hm. simpl. unfold IsMaster at 1. simpl.
    destruct (Nodes s); [done|]. simpl in Er. rewrite andb_true_r in Er. by rewrite Er.
  - rewrite map_app. apply NoDup_app. split; [exact Hd|]. split; [|apply NoDup_singleton].
    intros x Hx Hx'. apply list_elem_of_In in Hx. apply list_elem_of_singleton in Hx'. simpl in Hx'. by subst.
Qed.

Lemma removeNode_ok id s s' :
  shard_ok s -> removeNode id s = inr s' -> shard_ok s' /\ SlotRanges s' = SlotRanges s.
Proof.
  intros Hs. pose proof Hs as (Hm & Hd & _). rewrite removeNode_exact by exact Hd.
  destruct (List.find _ _) as [n|] eqn:Ef; [|done]. destruct (IsMaster n) eqn:En; [done|]. intros [= <-]. split; [|done].
  apply shard_ok_setNodes; [done|apply has_master_count|].
  - rewrite (filter_without id (Nodes s) n) by done. by apply has_master_count.
  - eapply sublist_NoDup; [exact Hd|]. clear. unfold setNodes, without. cbn [Nodes].
    induction (Nodes s) as [|n l IH]; simpl; [constructor|]. destruct (negb _); simpl; by constructor.
Qed.

Lemma identity_ids nodes nodes' : map identity nodes' = map identity nodes -> map ID nodes' = map ID nodes.
Proof.
  intros Hi. apply (f_equal (map (fun q => fst (fst (fst q))))) in Hi. by rewrite !map_map in Hi.
Qed.

Lemma promoteNewMaster_ok w mid pref s s' id :
  shard_ok s -> promoteNewMaster w mid pref s = inr (s', id) -> shard_ok s' /\ SlotRanges s' = SlotRanges s.
Proof.
  intros Hs Hp. pose proof Hs as ((old & Hm) & Hd & _). pose proof (proj1 Hm) as [m Hold].
  pose proof (promoteNewMaster_exact w mid pref s old m Hm Hold) as He. rewrite Hp in He.
  destruct He as (_ & new & n & q & _ & _ & _ & Hm' & Hi & ->). split; [|done].
  apply shard_ok_setNodes; [done|by exists new|]. cbn [setNodes Nodes] in *.
  rewrite (identity_ids _ _ Hi). exact Hd.
Qed.

(** ** Ownership *)

Lemma owns_ext shards shards' :
  (forall j, SlotRanges <$> shards' !! j = SlotRanges <$> shards !! j) ->
  forall j x, owns shards' j x <-> owns shards j x.
Proof.
  intros He j x. specialize (He j). unfold owns.
  destruct (shards' !! j) as [s'|], (shards !! j) as [s|]; simplify_eq/=; try naive_solver.
  split; intros (? & [= <-] & Hx); (eexists; split; [done|]); [by rewrite <- He|by rewrite He].
Qed.

Lemma owner_ext c c' :
  (forall j x, owns (Shards c') j x <-> owns (Shards c) j x) -> topology c -> Forall shard_ok (Shards c') -> topology c'.
Proof.
  intros He [_ Ho] Hs. split; [done|]. intros x Hx. destruct (Ho x Hx) as [i Hi]. exists i. intros j. by rewrite He.
Qed.

Lemma onShard_topology {A} i (f : Shard -> go_error + (Shard * A)) c c' a :
  topology c -> onShard i f c = inr (c', a) ->
  (forall s s' a, Shards c !! Z.to_nat i = Some s -> shard_ok s -> f s = inr (s', a) ->
     shard_ok s' /\ SlotRanges s' = SlotRanges s) ->
  topology c'.
Proof.
  intros Ht Ho Hf. unfold onShard, GetShard in Ho. destruct (_ || _); [done|].
  destruct (Shards c !! Z.to_nat i) as [s|] eqn:Es; [|done]. destruct (f s) as [|[s' a']] eqn:Ef; [done|].
  injection Ho as <- _. destruct (Hf s s' a' eq_refl (Forall_lookup_1 _ _ _ _ (top_shards c Ht) Es) Ef) as [Hs' Hr].
  apply (owner_ext c); [|done|by apply Forall_insert, Hs'; apply Ht].
  apply owns_ext. intros j. cbn [setShards Shards]. destruct (decide (j = Z.to_nat i)) as [->|Hne].
  - rewrite list_lookup_insert_eq, Es by (by eapply lookup_lt_Some). simpl. by rewrite Hr.
  - by rewrite list_lookup_insert_ne.
Qed.

(** Taking a range from one shard and giving it to another, or to the same. *)
Lemma move_owns shards i t slot :
  ordered_shards shards -> ordered slot -> (t < length shards)%nat ->
  (forall j x, in_range slot x -> owns shards j x -> j = i) ->
  forall j x,
    owns (alter (fun s => set_ranges (AddSlotToSlotRanges (SlotRanges s) slot) s) t
           (alter (fun s => set_ranges (RemoveSlotFromSlotRanges (SlotRanges s) slot) s) i shards)) j x <->
    if decide (in_range slot x) then j = t else owns shards j x.
Proof.
  intros Hord Ho Ht Hu j x. set (A := alter _ i shards).
  assert (HA : owns A j x <-> owns shards j x /\ (i = j -> ~ in_range slot x)).
  { unfold A. rewrite owns_alter. unfold owns. destruct (decide (i = j)) as [->|]; [|naive_solver].
    split.
    - intros (s & Hs & Hx). simpl in Hx. rewrite RemoveSlotFromSlotRanges_in in Hx by done. naive_solver.
    - intros [(s & Hs & Hx) Hn]. exists s. split; [done|]. simpl. rewrite RemoveSlotFromSlotRanges_in by done. auto. }
  assert (HoA : Forall (fun s => Forall ordered (SlotRanges s)) A).
  { apply Forall_alter; [exact Hord|]. intros s Hs Hos. by apply RemoveSlotFromSlotRanges_ordered. }
  assert (Hmid : owns (alter (fun s => set_ranges (AddSlotToSlotRanges (SlotRanges s) slot) s) t A) j x <->
    owns A j x \/ (j = t /\ in_range slot x)).
  { rewrite owns_alter. unfold owns at 1. destruct (decide (t = j)) as [<-|Hne]; [|naive_solver].
    destruct (lookup_lt_is_Some_2 A t) as [s Hs]; [unfold A; by rewrite length_alter|].
    pose proof (proj1 (AddSlotToSlotRanges_in _ slot (Forall_lookup_1 _ _ _ _ HoA Hs) Ho) x) as Hadd.
    rewrite Hs. split.
    - intros (? & [= <-] & Hx). apply Hadd in Hx. naive_solver.
    - intros Hx. exists s. split; [done|]. apply Hadd. naive_solver. }
  rewrite Hmid, HA. destruct (decide (in_range slot x)) as [Hx|Hx]; [|naive_solver].
  split; [|naive_solver]. intros [[Hown Hn]|[-> _]]; [|done]. exfalso. by apply Hn; [symmetry; apply (Hu j x)|].
Qed.

Lemma alter_alter {A} (f g : A -> A) i (l : list A) : alter f i (alter g i l) = alter (fun x => f (g x)) i l.
Proof. revert i. induction l as [|x l IH]; intros [|i]; try done. unfold alter in *. simpl. by rewrite IH. Qed.

Lemma topology_ordered c : topology c -> ordered_shards (Shards c).
Proof.
  intros [Hs _]. eapply Forall_impl; [exact Hs|]. intros s (_ & _ & Hw & _). by apply wf_ranges_spec in Hw as [Ho _].
Qed.

Lemma wf_range_ordered r : wf_range r -> ordered r.
Proof. unfold wf_range, ordered. lia. Qed.

Lemma wf_range_slot r x : wf_range r -> in_range r x -> MinSlotID <= x <= MaxSlotID.
Proof. unfold wf_range, in_range. lia. Qed.

Lemma topology_unique c x i j :
  topology c -> MinSlotID <= x <= MaxSlotID -> owns (Shards c) i x -> owns (Shards c) j x -> i = j.
Proof. intros Ht Hx Hi Hj. destruct (top_owner c Ht x Hx) as [k Hk]. apply Hk in Hi, Hj. by subst. Qed.

Lemma shard_ok_clear s : shard_ok s -> shard_ok (ClearMigrateState s).
Proof. intros (H1 & H2 & H3 & _). by repeat split. Qed.

(** Losing a range after the migration was cleared, and gaining one. *)
Lemma shard_ok_remove s slot :
  wf_range slot -> shard_ok s -> Migrating s = None ->
  shard_ok (set_ranges (RemoveSlotFromSlotRanges (SlotRanges s) slot) s).
Proof.
  intros Hw (H1 & H2 & H3 & H4) Hm. split; [exact H1|]. split; [exact H2|].
  split; [by apply RemoveSlotFromSlotRanges_wf|]. intros m. simpl. by rewrite Hm.
Qed.

Lemma shard_ok_add s slot :
  wf_range slot -> shard_ok s -> shard_ok (set_ranges (AddSlotToSlotRanges (SlotRanges s) slot) s).
Proof.
  intros Hw (H1 & H2 & H3 & H4). split; [exact H1|]. split; [exact H2|]. split; [by apply AddSlotToSlotRanges_wf|].
  intros m Hm. destruct (H4 m Hm) as (Hi & Hr & Hx). split_and!; [done..|]. intros x Hin. simpl.
  apply wf_ranges_spec in H3 as [Ho _]. apply (AddSlotToSlotRanges_in _ slot Ho (wf_range_ordered _ Hw)). auto.
Qed.

(** The owner after a range has moved. *)
Lemma moved_owner c c' slot t :
  topology c -> Forall shard_ok (Shards c') ->
  (forall j x, owns (Shards c') j x <-> if decide (in_range slot x) then j = t else owns (Shards c) j x) -> topology c'.
Proof.
  intros Ht Hs Ho. split; [done|]. intros x Hx. destruct (top_owner c Ht x Hx) as [i Hi].
  exists (if decide (in_range slot x) then t else i). intros j. rewrite Ho. by destruct (decide _).
Qed.

Lemma MigrateSlot_topology w slot target slotOnly c c' :
  topology c -> wf_range slot -> ClusterMigrateSlot w slot target slotOnly c = inr c' -> topology c'.
Proof.
  intros Ht Hw. unfold ClusterMigrateSlot. set (accept := match findShardIndexBySlot _ _ with inr _ => _ | inl _ => _ end).
  destruct (MigrateSlot accept (Shards c) slot target slotOnly) as [|l] eqn:EM; [done|]. intros [= <-].
  pose proof (topology_ordered c Ht) as Hord. pose proof (wf_range_ordered _ Hw) as Ho. destruct slotOnly.
  - apply (moved_owner c _ slot (Z.to_nat target)); [done| |intros j x; by apply (MigrateSlot_owns accept)].
    revert EM. unfold MigrateSlot. destruct (_ || _); [done|].
    destruct (findShardIndexBySlot _ _) as [|src]; [done|]. destruct (_ =? _); [done|]. intros [= <-].
    cbn [setShards Shards]. apply Forall_alter; [|by intros; apply shard_ok_add].
    rewrite alter_alter. apply Forall_alter; [apply Ht|]. intros s _ Hs. apply shard_ok_remove; [done|by apply shard_ok_clear|done].
  - apply (owner_ext c); [intros j x; by apply (MigrateSlot_data_owns accept _ slot target)|done|]. cbn [setShards Shards].
    revert EM. unfold MigrateSlot. destruct (_ || _); [done|].
    destruct (findShardIndexBySlot (Shards c) slot) as [|src] eqn:Ef; [done|]. destruct (_ =? _); [done|].
    apply findShardIndexBySlot_spec in Ef as (k & -> & _ & Hu). rewrite Nat2Z.id.
    destruct (Shards c !! k) as [s|] eqn:Ek; [|done]. destruct (Shards c !! Z.to_nat target); [|done].
    destruct (_ || _); [done|]. destruct (GetMasterNode s); [|done]. destruct (GetMasterNode _); [|done].
    destruct accept; [|done]. intros [= <-].
    destruct (Forall_lookup_1 _ _ _ _ (top_shards c Ht) Ek) as (H1 & H2 & H3 & _).
    apply Forall_insert; [apply Ht|]. split; [exact H1|]. split; [exact H2|]. split; [exact H3|].
    intros m [= <-]. split_and!; [done..|]. intros x Hx.
    destruct (top_owner c Ht x (wf_range_slot _ _ Hw Hx)) as [i Hi].
    assert (Hown : owns (Shards c) i x) by (by apply Hi). pose proof (Hu i x Hx Hown) as ->.
    destruct Hown as (s' & Hs' & Hin). by simplify_eq.
Qed.

Lemma finish_topology c i s m :
  topology c -> Shards c !! i = Some s -> Migrating s = Some m ->
  0 <= TargetShardIndex s < Z.of_nat (length (Shards c)) ->
  topology (finishMigration i (TargetShardIndex s) (m_range m) c).
Proof.
  intros Ht Hi Hm Hb. destruct (Forall_lookup_1 _ _ _ _ (top_shards c Ht) Hi) as (_ & _ & _ & Hmig).
  destruct (Hmig m Hm) as (_ & Hw & Hin). set (t := Z.to_nat (TargetShardIndex s)).
  assert (Howner : forall j x, in_range (m_range m) x -> owns (Shards c) j x -> j = i).
  { intros j x Hx Hj. apply (topology_unique c x j i Ht (wf_range_slot _ _ Hw Hx) Hj). exists s. auto. }
  pose proof (move_owns (Shards c) i t (m_range m) (topology_ordered c Ht) (wf_range_ordered _ Hw) ltac:(unfold t; lia) Howner) as Hmv.
  apply (moved_owner c _ (m_range m) t); [done| |].
  - unfold finishMigration. cbn [setShards Shards]. fold t.
    assert (Hmid : Forall (fun s => shard_ok (ClearMigrateState s)) (alter (fun s => set_ranges (RemoveSlotFromSlotRanges (SlotRanges s) (m_range m)) s) i (Shards c))
              /\ forall j s', alter (fun s => set_ranges (RemoveSlotFromSlotRanges (SlotRanges s) (m_range m)) s) i (Shards c) !! j = Some s' -> j <> i -> shard_ok s').
    { split.
      - apply Forall_alter; [eapply Forall_impl; [apply Ht|]; intros; by apply shard_ok_clear|].
        intros s' _ Hs'. exact (shard_ok_remove (ClearMigrateState s') _ Hw Hs' eq_refl).
      - intros j s' Hj Hne. rewrite list_lookup_alter_ne in Hj by done. exact (Forall_lookup_1 _ _ _ _ (top_shards c Ht) Hj). }
    destruct Hmid as [Hall Hother]. apply Forall_lookup. intros j s'.
    destruct (decide (j = i)) as [->|Hji].
    + rewrite list_lookup_alter_eq. destruct (decide (i = t)) as [->|Hit].
      * rewrite list_lookup_alter_eq. destruct (alter _ t (Shards c) !! t) as [s0|] eqn:E0; [|done]. intros [= <-].
        exact (shard_ok_add (ClearMigrateState s0) _ Hw (Forall_lookup_1 _ _ _ _ Hall E0)).
      * rewrite (list_lookup_alter_ne _ _ t i) by congruence.
        destruct (alter _ i (Shards c) !! i) as [s0|] eqn:E0; [|done]. intros [= <-].
        exact (Forall_lookup_1 _ _ _ _ Hall E0).
    + rewrite list_lookup_alter_ne by congruence. destruct (decide (j = t)) as [->|Hjt].
      * rewrite list_lookup_alter_eq. destruct (alter _ i (Shards c) !! t) as [s0|] eqn:E0; [|done]. intros [= <-].
        apply shard_ok_add; [done|]. exact (Hother t s0 E0 Hji).
      * rewrite (list_lookup_alter_ne _ _ t j) by congruence. intros Hj. exact (Hother j s' Hj Hji).
  - intros j x. rewrite <- Hmv. unfold finishMigration. cbn [setShards Shards]. apply owns_ext. intros j'.
    destruct (decide (j' = i)) as [->|Hne]; [|by rewrite list_lookup_alter_ne by congruence].
    rewrite list_lookup_alter_eq. by destruct (alter _ _ (alter _ i (Shards c)) !! i).
Qed.

Lemma owns_app_empty shards s j x : SlotRanges s = [] -> owns (shards ++ [s]) j x <-> owns shards j x.
Proof.
  intros Hr. unfold owns. destruct (decide (j < length shards)%nat) as [Hlt|Hge]; [by rewrite lookup_app_l|].
  rewrite lookup_app_r by lia. rewrite (lookup_ge_None_2 shards j) by lia. split; [|by intros (? & ? & _)].
  intros (s' & Hs' & Hx). exfalso. destruct (j - length shards)%nat; simpl in Hs'; [|done]. simplify_eq.
  rewrite Hr in Hx. by apply in_ranges_nil in Hx.
Qed.

Lemma newShard_ok ids now nodes pw :
  nodes <> [] -> (forall i j, ids i = ids j -> i = j) -> shard_ok (newShard ids now nodes pw).
Proof.
  intros Hne Hinj. unfold newShard. rewrite (mapi_seq _ ""). split; [|split; [|by split; [constructor|]]].
  - exists 0%nat. apply sole_master_first; [|destruct nodes; simpl; [done|lia]].
    intros j. by destruct (j =? 0)%nat.
  - unfold distinct_ids. cbn [setNodes Nodes]. rewrite map_map. apply NoDup_map_seq. intros i j. apply Hinj.
Qed.

Lemma append_topology c s : topology c -> shard_ok s -> SlotRanges s = [] -> topology (appendShard s c).
Proof.
  intros Ht Hs Hr. apply (owner_ext c); [intros j x; by apply owns_app_empty|done|].
  apply Forall_app. split; [apply Ht|]. by constructor.
Qed.

(** A shard that serves nothing has no slots. *)
Lemma not_servicing s : wf_ranges (SlotRanges s) -> IsServicing s = false -> SlotRanges s = [].
Proof.
  intros Hw. unfold IsServicing. destruct (SlotRanges s) as [|r rs]; [done|]. simpl.
  inversion_clear Hw as [|? ? Hr _]. unfold wf_range, MinSlotID in Hr. destruct (Z.eqb_spec (Start r) (-1)); [lia|done].
Qed.

Lemma remove_topology c i s :
  topology c -> Shards c !! i = Some s -> IsServicing s = false -> topology (removeShard i c).
Proof.
  intros Ht Hi Hs. pose proof (Forall_lookup_1 _ _ _ _ (top_shards c Ht) Hi) as (_ & _ & Hw & _).
  pose proof (not_servicing s Hw Hs) as Hr. pose proof (lookup_lt_Some _ _ _ Hi) as Hlt.
  assert (Hown : forall j x, owns (Shards (removeShard i c)) j x <-> owns (Shards c) (if decide (j < i)%nat then j else S j) x).
  { intros j x. unfold owns, removeShard. cbn [setShards Shards]. case_decide as Hj.
    - rewrite lookup_app_l, lookup_take_lt by (rewrite ?length_take; lia). done.
    - rewrite lookup_app_r, length_take, lookup_drop by (rewrite length_take; lia).
      replace (i + 1 + (j - i `min` length (Shards c)))%nat with (S j) by lia. done. }
  split.
  - unfold removeShard. cbn [setShards Shards]. apply Forall_app. split; [apply Forall_take|apply Forall_drop]; apply Ht.
  - intros x Hx. destruct (top_owner c Ht x Hx) as [k Hk].
    assert (Hki : k <> i).
    { intros ->. destruct (proj2 (Hk i) eq_refl) as (s' & Hs' & Hin). simplify_eq. rewrite Hr in Hin.
      by apply in_ranges_nil in Hin. }
    exists (if decide (k < i)%nat then k else pred k). intros j. rewrite Hown, Hk. repeat case_decide; lia.
Qed.

Lemma clear_topology c i : topology c -> topology (clearMigration i c).
Proof.
  intros Ht. apply (owner_ext c); [|done|].
  - apply owns_ext. intros j. unfold clearMigration. cbn [setShards Shards].
    destruct (decide (j = i)) as [->|Hne]; [|by rewrite list_lookup_alter_ne by congruence].
    rewrite list_lookup_alter_eq. by destruct (Shards c !! i).
  - apply Forall_alter; [apply Ht|]. intros. by apply shard_ok_clear.
Qed.

Lemma password_topology c pw : topology c -> topology (SetPassword pw c).
Proof.
  intros Ht. unfold SetPassword. apply (owner_ext c); cbn [setShards Shards]; [|done|].
  - apply owns_ext. intros j. rewrite list_lookup_fmap. by destruct (Shards c !! j).
  - apply Forall_map. eapply Forall_impl; [apply Ht|]. intros s Hs. pose proof Hs as ((k & Hm) & Hd & _).
    apply shard_ok_setNodes; [done| |].
    + exists k. apply (sole_master_ext (Nodes s)); [by rewrite map_map|done].
    + rewrite map_map. exact Hd.
Qed.

Lemma new_topology ids now name nodes replicas c :
  (forall i j, ids i = ids j -> i = j) -> Z.of_nat (length nodes) <= MaxSlotID + 1 ->
  NewCluster ids now name nodes replicas = inr c -> topology c.
Proof.
  intros Hinj Hlen. unfold NewCluster. destruct (Nat.eqb_spec (length nodes) 0) as [|Hne]; [done|].
  destruct (Z.ltb_spec replicas 0); [done|]. set (r := Z.to_nat (if replicas =? 0 then 1 else replicas)).
  assert (Hr : (0 < r)%nat) by (unfold r; destruct (Z.eqb_spec replicas 0); lia).
  destruct (Nat.eqb_spec (length nodes mod r) 0) as [Hmod|]; [|done]. cbn [negb]. cbv zeta.
  set (n := (length nodes / r)%nat). intros [= <-].
  assert (Hn : 1 <= Z.of_nat n <= 16384).
  { unfold MaxSlotID in Hlen. pose proof (Nat.div_mod_eq (length nodes) r) as Hdm. rewrite Hmod in Hdm. fold n in Hdm. nia. }
  set (shard := fun i => MkShard (map (newClusterNode ids now nodes r i) (seq 0 r)) [nth i (CalculateSlotRanges n) (MkRange 0 0)] (-1) None).
  assert (Hlk : forall i s, map shard (seq 0 n) !! i = Some s <-> (i < n)%nat /\ s = shard i).
  { intros i s. rewrite list_lookup_fmap. destruct (decide (i < n)%nat) as [Hi|Hi].
    - rewrite lookup_seq_lt by done. simpl. naive_solver.
    - rewrite lookup_seq_ge by lia. simpl. naive_solver. }
  assert (Hnth : forall i, (i < n)%nat -> CalculateSlotRanges n !! i = Some (nth i (CalculateSlotRanges n) (MkRange 0 0))).
  { intros i Hi. destruct (nth_lookup_or_length (CalculateSlotRanges n) i (MkRange 0 0)) as [|Hl]; [done|].
    unfold CalculateSlotRanges in Hl. rewrite length_map, length_seq in Hl. lia. }
  split; cbn [Shards].
  - apply Forall_lookup. intros i s Hi. apply Hlk in Hi as [Hi ->]. split; [|split; [|split]].
    + exists 0%nat. apply sole_master_first; [|done]. intros j. unfold newClusterNode. by destruct (j =? 0)%nat.
    + unfold distinct_ids, shard. cbn [Nodes]. rewrite map_map. apply NoDup_map_seq.
      intros j j' Hj. apply Hinj in Hj. lia.
    + constructor; [|constructor]. exact (CalculateSlotRanges_wf n i _ Hn (Hnth i Hi)).
    + by intros m.
  - intros x Hx. destruct (CalculateSlotRanges_owner n x Hn Hx) as (k & Hk & Hu). exists k. intros j. split.
    + intros (s & Hs & y & Hy & Hin). apply Hlk in Hs as [Hj ->]. destruct Hy as [<-|[]]. by apply (Hu j _ (Hnth j Hj)).
    + intros ->. exists (shard k). split; [by apply Hlk|]. eexists. split; [by left|]. by apply (Hu k _ (Hnth k Hk)).
Qed.

(** C2. In every cluster that the server and the controller can make of a new one
    (adding and removing nodes and shards, failovers, migrations of slots with
    and without data, their completion and failure, in any order): each shard has
    exactly one master and nodes with distinct identifiers, each of the 16384
    slots belongs to exactly one shard, and a migration in progress is of slots
    of its source. *)
Theorem topology_invariant c : reachable c -> topology c.
Proof.
  induction 1 as [ids now name nodes replicas c Hinj Hlen Hn|c c' _ IH Hst]; [by eapply new_topology|].
  destruct Hst as [c id now i addr role pw c' n Hid Ha|c i id c' Hr|w c i mid pref c' id Hp|w c slot target so c' Hw Hm
                  |c ids now nodes pw Hne Hinj|c i s Hs Hsv|c i|c i s m Hs Hm Hb|c v|c pw].
  - eapply onShard_topology; [exact IH|exact Ha|]. intros s s' a Hs Hok Hf. eapply addNode_ok; [done| |exact Hf]. by apply Hid.
  - eapply onShard_topology; [exact IH|exact Hr|]. intros s s' [] Hs Hok. cbv beta.
    destruct (removeNode id s) as [|s1] eqn:E; [done|]. intros [= <-]. by eapply removeNode_ok.
  - eapply onShard_topology; [exact IH|exact Hp|]. intros s s' a Hs Hok Hf. by eapply promoteNewMaster_ok.
  - by eapply MigrateSlot_topology.
  - apply append_topology; [done|by apply newShard_ok|done].
  - by eapply remove_topology.
  - by apply clear_topology.
  - by apply finish_topology.
  - by destruct IH.
  - by apply password_topology.
Qed.

Definition unary (i : nat) : string := Nat.iter i (String "a") "".

Lemma unary_inj i j : unary i = unary j -> i = j.
Proof.
  assert (Hl : forall n, String.length (unary n) = n) by (induction n as [|n IH]; [done|]; simpl; by rewrite IH).
  intros Hij. by rewrite <- (Hl i), <- (Hl j), Hij.
Qed.

(** Two shards; a failover-free history of a slot move and a removed replica. *)
Lemma topology_invariant_witness :
  exists c, NewCluster unary 7 "c" ["h:1"; "h:2"; "h:3"; "h:4"] 2 = inr c /\ topology c.
Proof.
  eexists. split; [reflexivity|]. apply topology_invariant.
  apply (reach_new unary 7 "c" ["h:1"; "h:2"; "h:3"; "h:4"] 2); [exact unary_inj|unfold MaxSlotID; simpl; lia|reflexivity].
Defined.

(** Removing a shard leaves the target indices of migrations as they are: here
    shard 0 migrates to shard 2 (master c), the empty shard 1 is removed, and
    the target is now the shard of d, which gets the slots when the migration
    completes.  The same happens when the target itself has no slots yet and is
    removed. *)
Lemma removed_shard_retargets :
  let shard id rs t m := MkShard [MkGoNode id id "master" "" 0] rs t m in
  let c := MkCluster "c" 1 [shard "a" [MkRange 0 99] 2 (Some (FromSlotRange (MkRange 0 9))); shard "b" [] (-1) None;
                            shard "c" [MkRange 100 199] (-1) None; shard "d" [MkRange 200 16383] (-1) None] in
  let c' := removeShard 1 c in
  (Shards c !! 2%nat ≫= GetMasterNode) = Some (MkGoNode "c" "c" "master" "" 0) /\
  (Shards c' !! 2%nat ≫= GetMasterNode) = Some (MkGoNode "d" "d" "master" "" 0) /\
  (SlotRanges <$> Shards (finishMigration 0 2 (MkRange 0 9) c') !! 2%nat) = Some [MkRange 0 9; MkRange 200 16383].
Proof. split_and!; reflexivity. Qed.

(** ** What can be stored *)

Lemma storable_setNodes s ns : shard_storable s -> Forall node_storable ns -> shard_storable (setNodes ns s).
Proof. intros (_ & H2) Hn. by split. Qed.

Lemma storable_clear s : shard_storable s -> shard_storable (ClearMigrateState s).
Proof. intros (H1 & H2 & _ & _). split_and!; [done..|unfold int64; simpl; lia|done]. Qed.

Lemma storable_ranges s rs : shard_storable s -> wf_ranges rs -> shard_storable (set_ranges rs s).
Proof. intros (H1 & _ & H3 & H4) Hr. by split_and!. Qed.

Lemma storable_shards c l : cluster_storable c -> Forall shard_storable l -> cluster_storable (setShards l c).
Proof. intros [Hv _] Hl. by split. Qed.

Lemma storable_remove s slot : shard_storable s -> wf_range slot ->
  shard_storable (set_ranges (RemoveSlotFromSlotRanges (SlotRanges s) slot) s).
Proof. intros Hs Hw. apply storable_ranges; [done|]. apply RemoveSlotFromSlotRanges_wf; [apply Hs|done]. Qed.

Lemma storable_add s slot : shard_storable s -> wf_range slot ->
  shard_storable (set_ranges (AddSlotToSlotRanges (SlotRanges s) slot) s).
Proof. intros Hs Hw. apply storable_ranges; [done|]. apply AddSlotToSlotRanges_wf; [apply Hs|done]. Qed.

#[export] Hint Resolve storable_setNodes storable_clear storable_remove storable_add storable_shards : kvc.

Lemma storable_finish c i t slot : cluster_storable c -> wf_range slot -> cluster_storable (finishMigration i t slot c).
Proof.
  intros Hc Hw. apply storable_shards; [done|]. destruct Hc as [_ Hs].
  do 3 (apply Forall_alter; [|intros; auto with kvc]). done.
Qed.

Lemma storable_clearMigration c i : cluster_storable c -> cluster_storable (clearMigration i c).
Proof. intros Hc. apply storable_shards; [done|]. apply Forall_alter; [apply Hc|]. auto with kvc. Qed.

Lemma node_storable_identity nodes nodes' :
  map identity nodes' = map identity nodes -> Forall node_storable nodes -> Forall node_storable nodes'.
Proof.
  intros Hi Hn. assert (Hc : map CreatedAt nodes' = map CreatedAt nodes).
  { apply (f_equal (map snd)) in Hi. by rewrite !map_map in Hi. }
  apply (Forall_map CreatedAt int64). rewrite Hc. by apply (Forall_map CreatedAt int64).
Qed.

Lemma onShard_storable {A} i (f : Shard -> go_error + (Shard * A)) c c' a :
  cluster_storable c -> onShard i f c = inr (c', a) ->
  (forall s s' a, Shards c !! Z.to_nat i = Some s -> shard_storable s -> f s = inr (s', a) -> shard_storable s') ->
  cluster_storable c'.
Proof.
  intros Hc Ho Hf. unfold onShard, GetShard in Ho. destruct (_ || _); [done|].
  destruct (Shards c !! Z.to_nat i) as [s|] eqn:Es; [|done]. destruct (f s) as [|[s' a']] eqn:Ef; [done|].
  injection Ho as <- _. apply storable_shards; [done|]. apply Forall_insert; [apply Hc|].
  eapply Hf; [done| |done]. exact (Forall_lookup_1 _ _ _ _ (proj2 Hc) Es).
Qed.

Lemma storable_AddNode id now i addr role pw c c' n :
  cluster_storable c -> int64 now -> AddNode id now i addr role pw c = inr (c', n) -> cluster_storable c'.
Proof.
  intros Hc Hn Ha. eapply onShard_storable; [exact Hc|exact Ha|]. intros s s' a _ Hs. unfold addNode.
  repeat (destruct (_ : bool); [done|]). intros [= <- _]. apply storable_setNodes; [done|].
  apply Forall_app. split; [apply Hs|]. by constructor.
Qed.

Lemma Forall_without P id l : Forall P l -> Forall P (without id l).
Proof. unfold without. induction 1; simpl; [constructor|]. destruct (negb _); auto. Qed.

Lemma remove_loop_incl id is_ a m f l : remove_loop id is_ a m f = inr l -> forall x, In x l -> In x a.
Proof.
  revert a m f. induction is_ as [|i is_ IH]; intros a m f; cbn [remove_loop].
  - destruct f; [|done]. intros [= <-] x Hx. apply list_elem_of_In. apply list_elem_of_In in Hx. eapply elem_of_take in Hx.
    destruct Hx as (j & Hj & _). by eapply list_elem_of_lookup_2.
  - destruct (a !! i) as [n|]; [|done]. destruct (negb _); [apply IH|]. destruct (IsMaster n); [done|].
    destruct (_ <? _)%nat; [done|]. intros Hr x Hx. apply (IH _ _ _ Hr) in Hx.
    assert (Ht : forall k (l : list GoNode), In x (take k l) -> In x l).
    { intros k l' Hk. rewrite <- (take_drop k l'). apply in_or_app. by left. }
    assert (Hd : forall k (l : list GoNode), In x (drop k l) -> In x l).
    { intros k l' Hk. rewrite <- (take_drop k l'). apply in_or_app. by right. }
    rewrite !in_app_iff in Hx. naive_solver.
Qed.

Lemma storable_RemoveNode i id c c' u : cluster_storable c -> RemoveNode i id c = inr (c', u) -> cluster_storable c'.
Proof.
  intros Hc Hr. eapply onShard_storable; [exact Hc|exact Hr|]. intros s s' a _ Hs. unfold removeNode.
  destruct (remove_loop _ _ _ _ _) as [|l] eqn:El; [done|]. intros [= <- _]. apply storable_setNodes; [done|].
  apply List.Forall_forall. intros x Hx. apply (remove_loop_incl _ _ _ _ _ _ El) in Hx.
  destruct Hs as [Hs _]. rewrite List.Forall_forall in Hs. auto.
Qed.

Lemma storable_MigrateSlot w slot target slotOnly c c' :
  cluster_storable c -> wf_range slot -> int64 target -> ClusterMigrateSlot w slot target slotOnly c = inr c' ->
  cluster_storable c'.
Proof.
  intros Hc Hw Ht. unfold ClusterMigrateSlot. set (accept := match findShardIndexBySlot _ _ with inr _ => _ | inl _ => _ end).
  destruct (MigrateSlot accept (Shards c) slot target slotOnly) as [|l] eqn:EM; [done|]. intros [= <-].
  apply storable_shards; [done|]. destruct Hc as [_ Hs]. revert EM. unfold MigrateSlot. destruct (_ || _); [done|].
  destruct (findShardIndexBySlot _ _) as [|src]; [done|]. destruct (_ =? _); [done|]. destruct slotOnly.
  - intros [= <-]. do 3 (apply Forall_alter; [|intros; auto with kvc]). done.
  - destruct (Shards c !! Z.to_nat src) as [s|] eqn:Es; [|done]. destruct (Shards c !! Z.to_nat target); [|done].
    destruct (_ || _); [done|]. destruct (GetMasterNode s); [|done]. destruct (GetMasterNode _); [|done].
    destruct accept; [|done]. intros [= <-]. apply Forall_insert; [done|].
    destruct (Forall_lookup_1 _ _ _ _ Hs Es) as (H1 & H2 & _). by split_and!.
Qed.

Lemma storable_newShard ids now nodes pw : int64 now -> shard_storable (newShard ids now nodes pw).
Proof.
  intros Hn. split_and!; [|constructor|unfold int64; simpl; lia|done]. apply Forall_lookup. intros i x. unfold newShard.
  cbn [setNodes Nodes]. rewrite lookup_mapi. destruct (nodes !! i); [|done]. intros [= <-]. by unfold node_storable; simpl.
Qed.

Lemma storable_append c s : cluster_storable c -> shard_storable s -> cluster_storable (appendShard s c).
Proof. intros Hc Hs. apply storable_shards; [done|]. apply Forall_app. split; [apply Hc|by constructor]. Qed.

Lemma storable_removeShard i c : cluster_storable c -> cluster_storable (removeShard i c).
Proof. intros Hc. apply storable_shards; [done|]. apply Forall_app. split; [apply Forall_take|apply Forall_drop]; apply Hc. Qed.

Lemma storable_SetPassword pw c : cluster_storable c -> cluster_storable (SetPassword pw c).
Proof.
  intros Hc. apply storable_shards; [done|]. apply Forall_map. eapply Forall_impl; [apply Hc|]. intros s Hs.
  apply storable_setNodes; [done|]. apply Forall_map. eapply Forall_impl; [apply Hs|]. by intros.
Qed.

Lemma storable_NewCluster ids now name nodes replicas c :
  int64 now -> Z.of_nat (length nodes) <= MaxSlotID + 1 ->
  NewCluster ids now name nodes replicas = inr c -> cluster_storable c /\ Name c = name /\ Version c = 1.
Proof.
  intros Hnow Hlen. unfold NewCluster. destruct (Nat.eqb_spec (length nodes) 0) as [|Hne]; [done|].
  destruct (Z.ltb_spec replicas 0); [done|]. set (r := Z.to_nat (if replicas =? 0 then 1 else replicas)).
  destruct (Nat.eqb_spec (length nodes mod r) 0) as [Hmod|]; [|done]. cbn [negb]. cbv zeta.
  set (n := (length nodes / r)%nat). intros [= <-]. split; [|done].
  assert (Hr : (0 < r)%nat) by (unfold r; destruct (Z.eqb_spec replicas 0); lia).
  assert (Hn : 1 <= Z.of_nat n <= 16384).
  { unfold MaxSlotID in Hlen. pose proof (Nat.div_mod_eq (length nodes) r) as Hdm. rewrite Hmod in Hdm. fold n in Hdm. nia. }
  split; [unfold int64; simpl; lia|]. cbn [Shards]. apply Forall_map, Forall_seq. intros i Hi. split_and!.
  - apply Forall_map, Forall_seq. by intros.
  - constructor; [|constructor]. destruct (nth_lookup_or_length (CalculateSlotRanges n) i (MkRange 0 0)) as [E|Hl].
    + by apply (CalculateSlotRanges_wf n i).
    + unfold CalculateSlotRanges in Hl. rewrite length_map, length_seq in Hl. lia.
  - unfold int64. simpl. lia.
  - done.
Qed.

Lemma Atoi_int64 s z : Atoi s = Some z -> int64 z.
Proof.
  unfold Atoi. destruct (strip_sign s) as [neg t]. destruct t as [|ch t]; [done|].
  destruct (all_chars is_digit (String ch t)); [|done]. set (v := signed neg _).
  destruct (Z.leb_spec (- 2 ^ 63) v), (Z.ltb_spec v (2 ^ 63)); try done. intros [= <-]. unfold int64. lia.
Qed.

Lemma parse_ranges_wf fields rs : parse_ranges fields = GoOk rs -> wf_ranges rs.
Proof.
  revert rs. induction fields as [|f fields IH]; intros rs; simpl; [intros [= <-]; constructor|].
  destruct (ParseSlotRange f) as [r|] eqn:Er; [|done]. destruct (parse_ranges fields) as [rs'|]; [|done].
  intros [= <-]. constructor; [by eapply ParseSlotRange_wf|by apply IH].
Qed.

Definition parsing_ok (p : parsing) : Prop :=
  int64 (p_version p) /\ Forall shard_storable (p_shards p) /\ Forall (fun q => node_storable (snd q)) (p_slaves p).

Lemma parse_node_line_ok p line p' : parsing_ok p -> parse_node_line p line = inr p' -> parsing_ok p'.
Proof.
  intros (H1 & H2 & H3). unfold parse_node_line. cbv zeta. destruct (_ <? _)%nat; [done|].
  destruct (Atoi _) as [ver|] eqn:Ev; [|done]. apply Atoi_int64 in Ev.
  assert (Hz : int64 0) by (unfold int64; lia). assert (Hm1 : int64 (-1)) by (unfold int64; lia).
  destruct (String.eqb _ RoleMaster).
  - destruct (parse_ranges _) as [rs|] eqn:Er; [|done]. intros [= <-]. split_and!; [done| |done].
    apply Forall_app. split; [done|]. constructor; [|constructor]. apply parse_ranges_wf in Er.
    split_and!; [by repeat constructor|done|done|done].
  - destruct (String.eqb _ RoleSlave); [|done]. intros [= <-]. split_and!; [done|done|].
    apply Forall_app. split; [done|]. constructor; [done|constructor].
Qed.

Lemma storable_ParseCluster str c : ParseCluster str = inr c -> cluster_storable c.
Proof.
  unfold ParseCluster. destruct (String.eqb str ""); [done|].
  destruct (info_lines _ _ _) as [|p] eqn:Ep; [done|].
  assert (Hp : parsing_ok p).
  { refine (info_lines_inv parsing_ok _ _ _ _ _ _ Ep); [apply parse_node_line_ok|].
    split; [unfold int64; simpl; lia|split; constructor]. }
  destruct (p_version p =? -1); [done|]. intros [= <-]. destruct Hp as (H1 & H2 & H3). split; [done|].
  apply Forall_map. rewrite (stable_sort_perm _ (p_shards p)). eapply Forall_impl; [exact H2|].
  intros s Hs. apply storable_setNodes; [done|]. apply Forall_app. split; [apply Hs|].
  destruct (head (Nodes s)) as [m|]; [|constructor]. simpl. unfold slaves_of. apply Forall_map.
  apply List.Forall_forall. intros q [Hq _]%filter_In. rewrite List.Forall_forall in H3. by apply H3.
Qed.
