(* ===== verification/GoProgress.v ===== *)
(** * What the controller gets done (controller/cluster.go)

    A master that does not answer is replaced once enough probes have failed,
    and not before; a migration is brought to its end by the round after its
    source reports it. *)

From S2P Require Import Prelude JsString JsNumber JsValue Effects Api Slots GoShard GoCluster GoJson.
From S2P Require Import GoEngine GoStore GoController GoTopology.

(** What is stored after an update of the stored cluster. *)
Lemma UpdateCluster_stored {E} `{EngineLaws E} (e : E) ns c c' :
  GetCluster e ns (Name c) = inr c -> Name c' = Name c -> Version c' = Version c ->
  cluster_storable c' -> Version c < 2 ^ 63 - 1 ->
  exists e' evs, UpdateCluster e ns c' = inr (e', bump c', evs) /\ GetCluster e' ns (Name c) = inr (bump c') /\
    bump c' = MkCluster (Name c) (Version c + 1) (Shards c') /\ cluster_storable (bump c').
Proof.
  intros Hg Hn Hv Hs Hb. unfold UpdateCluster. rewrite Hn, Hg. cbn [mbind go_bind].
  rewrite Hv, Z.ltb_irrefl. destruct (bump_storable c' Hs ltac:(lia)) as [Eb Hb'].
  do 2 eexists. split; [done|]. pose proof (GetCluster_set ns e (bump c') Hb') as Hset.
  change (Name (bump c')) with (Name c') in Hset. rewrite Hn in Hset. split; [done|].
  split; [by rewrite Eb, Hn, Hv|done].
Qed.

(** ** Failover *)

Section Failover.
Context {E : Type} `{EngineLaws E} (w : Replies) (ns name : string) (maxFailureCount : Z).

(** [j] failed probes in a row. *)
Fixpoint failing (i : nat) (n : GoNode) (j : nat) (k : checker) : @checker E :=
  match j with
  | O => k
  | S j' => increaseFailureCount w ns name maxFailureCount (Z.of_nat i) n (failing i n j' k)
  end.

(** Below the limit only the count goes up. *)
Lemma failing_below i n k j :
  0 < maxFailureCount -> failureCounts k !! ID n = None -> Z.of_nat j < maxFailureCount ->
  ck_store (failing i n j k) = ck_store k /\ default 0 (failureCounts (failing i n j k) !! ID n) = Z.of_nat j.
Proof.
  intros Hmax Hk. induction j as [|j IH]; intros Hj; [by simpl; rewrite Hk|].
  destruct IH as [Hs Hc]; [lia|]. cbn [failing]. set (k' := failing i n j k) in *.
  clearbody k'. unfold increaseFailureCount. cbv zeta. rewrite Hc. rewrite (Z.mod_small (Z.of_nat j + 1)) by lia.
  destruct (Z.eqb_spec (Z.of_nat j + 1) 0); [lia|].
  destruct (negb (IsMaster n)); cbn [with_counts ck_store failureCounts]; rewrite lookup_insert_eq; simpl; split; (done || lia).
Qed.

(** C11. A dead master is replaced.  From the first failed probe of a master [n] of
    shard [i] on, the store is left alone while fewer than maxFailureCount probes
    in a row have failed; at that probe, if some replica qualifies, the stored
    cluster gets a new version in which another node of the shard is its only
    master and the nodes are the same. *)
Theorem failover_happens i n k cluster s old :
  0 < maxFailureCount -> failureCounts k !! ID n = None ->
  GetCluster (ck_store k) ns name = inr cluster -> Name cluster = name -> cluster_storable cluster ->
  Version cluster < 2 ^ 63 - 1 ->
  Shards cluster !! i = Some s -> sole_master (Nodes s) old -> Nodes s !! old = Some n ->
  (1 < length (Nodes s))%nat -> (exists j x q, eligible w old (Nodes s) j x q) ->
  (forall j, Z.of_nat j < maxFailureCount -> ck_store (failing i n j k) = ck_store k) /\
  exists cluster' s' new,
  GetCluster (ck_store (failing i n (Z.to_nat maxFailureCount) k)) ns name = inr cluster' /\
  Version cluster' = Version cluster + 1 /\ Shards cluster' !! i = Some s' /\
  sole_master (Nodes s') new /\ new <> old /\ map identity (Nodes s') = map identity (Nodes s).
Proof.
  intros Hmax Hk Hg Hn Hst Hv Hi Hm Hold Hlen Hel.
  split; [intros j Hj; by apply failing_below|].
  destruct (Z.to_nat maxFailureCount) as [|p] eqn:Ep; [lia|].
  destruct (failing_below i n k p Hmax Hk ltac:(lia)) as [Hs Hc].
  cbn [failing]. set (k' := failing i n p k) in *. clearbody k'.
  unfold increaseFailureCount. cbv zeta. rewrite Hc.
  replace (Z.of_nat p + 1) with maxFailureCount by lia. rewrite Z.mod_same by lia.
  assert (IsMaster n = true) as -> by (by apply (proj2 Hm old n Hold)). cbn [negb].
  unfold try_failover. cbn [with_counts ck_store]. rewrite Hs, Hg.
  unfold PromoteNewMaster, onShard, GetShard. pose proof (lookup_lt_Some _ _ _ Hi).
  destruct (Z.ltb_spec (Z.of_nat i) 0), (Z.leb_spec (Z.of_nat (length (Shards cluster))) (Z.of_nat i)); try lia.
  cbn [orb]. rewrite Nat2Z.id, Hi. pose proof (promoteNewMaster_exact w (ID n) "" s old n Hm Hold) as Hp.
  destruct (promoteNewMaster w (ID n) "" s) as [err|[s' id]].
  - exfalso. destruct Hp as [[_ Hp]|[[_ [_ Hp]]|[_ Hp]]]; [lia|done|]. destruct Hel as (j & x & q & Hel). by apply (Hp j x q).
  - destruct Hp as (_ & new & x & q & (Hx & Hne & _) & _ & _ & Hm' & Hid & Es').
    assert (Hs' : cluster_storable (setShards (<[i := s']> (Shards cluster)) cluster)).
    { apply storable_shards; [done|]. apply Forall_insert; [apply Hst|]. rewrite Es'.
      pose proof (Forall_lookup_1 _ _ _ _ (proj2 Hst) Hi) as Hss. apply storable_setNodes; [done|].
      eapply node_storable_identity; [exact Hid|apply Hss]. }
    assert (Hg' : GetCluster (ck_store k) ns (Name cluster) = inr cluster) by (by rewrite Hn).
    destruct (UpdateCluster_stored (ck_store k) ns cluster (setShards (<[i := s']> (Shards cluster)) cluster)
      Hg' eq_refl eq_refl Hs' Hv) as (e' & evs & Hu & Hr & Eb & _).
    cbn [resetFailureCount with_counts ck_store]. rewrite Hs, Hu. cbn [with_store ck_store]. rewrite Z.eqb_refl. cbn [with_store ck_store]. rewrite <- Hn, Hr.
    exists (bump (setShards (<[i := s']> (Shards cluster)) cluster)), s', new. rewrite Eb. cbn [Version Shards setShards].
    rewrite list_lookup_insert_eq by (by eapply lookup_lt_Some). done.
Qed.
End Failover.

(** ** Migrations *)

(** The source of the shard's migration answers, for that range, with a state. *)
Definition reports (w : Replies) (s : Shard) (m : MigratingSlot) (st : string) : Prop :=
  Migrating s = Some m /\ shardIsMigrating s = true /\
  exists src info r, GetMasterNode s = Some src /\ GetClusterInfo w src = inr info /\
    InfoMigratingSlot info = Some r /\ m_range r = m_range m /\ MigratingState info = st.

Definition under_way (st : string) : bool := String.eqb st "none" || String.eqb st "start".

(** What the loop does not touch before the turn of the shard. *)
Definition same_migration (s s' : Shard) : Prop :=
  Nodes s' = Nodes s /\ Migrating s' = Migrating s /\ TargetShardIndex s' = TargetShardIndex s.

Lemma reports_same w s s' m st : same_migration s s' -> reports w s m st -> reports w s' m st.
Proof.
  intros (Hn & Hm & Ht) (H1 & H2 & src & info & r & H3 & H4). split; [by rewrite Hm|]. split.
  - unfold shardIsMigrating in *. by rewrite Hm, Ht.
  - exists src, info, r. unfold GetMasterNode in *. by rewrite Hn.
Qed.

(** Every migration has a source that answers, and a target that exists. *)
Definition answered (w : Replies) (c : Cluster) : Prop :=
  forall i s, Shards c !! i = Some s -> shardIsMigrating s = true ->
    (exists m st, reports w s m st) /\ 0 <= TargetShardIndex s < Z.of_nat (length (Shards c)).

(** What becomes of shard [s] of the round. *)
Definition settled (w : Replies) (s s' : Shard) : Prop :=
  Nodes s' = Nodes s /\
  (shardIsMigrating s = false -> Migrating s' = Migrating s) /\
  forall m st, reports w s m st -> if under_way st then Migrating s' = Some m else Migrating s' = None.

(** The slot [x] has been handed over by a shard below [k]. *)
Definition handed (w : Replies) (c : Cluster) (k : nat) (x : Z) (t : nat) : Prop :=
  exists i s m, (i < k)%nat /\ Shards c !! i = Some s /\ reports w s m "success" /\
    in_range (m_range m) x /\ t = Z.to_nat (TargetShardIndex s).

Lemma reports_fun w s m st m' st' : reports w s m st -> reports w s m' st' -> m = m' /\ st = st'.
Proof.
  intros (H1 & _ & src & info & r & H2 & H3 & _ & _ & H4) (H1' & _ & src' & info' & r' & H2' & H3' & _ & _ & H4').
  split; congruence.
Qed.

Lemma handed_S w c k x t :
  handed w c (S k) x t <->
  handed w c k x t \/
  exists s m, Shards c !! k = Some s /\ reports w s m "success" /\ in_range (m_range m) x /\ t = Z.to_nat (TargetShardIndex s).
Proof.
  split.
  - intros (i & s & m & Hi & H1 & H2). destruct (decide (i = k)) as [->|Hne]; [right; by exists s, m|].
    left. exists i, s, m. split; [lia|done].
  - intros [(i & s & m & Hi & H1)|(s & m & H1)]; [exists i, s, m|exists k, s, m]; (split; [lia|done]).
Qed.

(** The two changes of a turn, shard by shard. *)
Definition turn_frame (k : nat) (c c1 : Cluster) : Prop :=
  length (Shards c1) = length (Shards c) /\
  forall i s, Shards c !! i = Some s -> exists s', Shards c1 !! i = Some s' /\ Nodes s' = Nodes s /\
    (i <> k -> same_migration s s') /\ (i = k -> Migrating s' = None).

Lemma clear_frame k c : turn_frame k c (clearMigration k c).
Proof.
  split; [by unfold clearMigration; simpl; rewrite length_alter|]. intros i s Hi. unfold clearMigration. cbn [setShards Shards].
  destruct (decide (i = k)) as [->|Hne].
  - rewrite list_lookup_alter_eq, Hi. eexists. split; [done|]. split_and!; done.
  - rewrite list_lookup_alter_ne by congruence. exists s. by split_and!.
Qed.

Lemma alter_frame (f : Shard -> Shard) (t : nat) (l : list Shard) (i : nat) s :
  (forall s, same_migration s (f s)) -> l !! i = Some s -> exists s', alter f t l !! i = Some s' /\ same_migration s s'.
Proof.
  intros Hf Hi. destruct (decide (i = t)) as [->|Hne].
  - rewrite list_lookup_alter_eq, Hi. by eexists.
  - rewrite list_lookup_alter_ne by congruence. exists s. by repeat split.
Qed.

Lemma finish_frame k t slot c : turn_frame k c (finishMigration k t slot c).
Proof.
  split; [by unfold finishMigration; simpl; rewrite !length_alter|]. intros i s Hi. unfold finishMigration. cbn [setShards Shards].
  set (g := fun s => set_ranges (RemoveSlotFromSlotRanges (SlotRanges s) slot) s).
  set (h := fun s => set_ranges (AddSlotToSlotRanges (SlotRanges s) slot) s).
  destruct (alter_frame g k (Shards c) i s) as (s1 & H1 & Hn1 & Hm1 & Ht1); [by repeat split|done|].
  destruct (alter_frame h (Z.to_nat t) (alter g k (Shards c)) i s1) as (s2 & H2 & Hn2 & Hm2 & Ht2); [by repeat split|exact H1|].
  destruct (decide (i = k)) as [->|Hne].
  - rewrite list_lookup_alter_eq, H2. eexists. split; [done|]. simpl. split_and!; [congruence|done|done].
  - rewrite list_lookup_alter_ne by congruence. exists s2. split; [exact H2|]. split; [congruence|].
    split; [|done]. intros _. unfold same_migration. split_and!; congruence.
Qed.

Section Migrations.
Context {E : Type} `{EngineLaws E} (w : Replies) (ns : string).

(** The state of the loop before the turn of shard [k]; [c0] is the cluster it
    started with. *)
Record round_inv (c0 : Cluster) (k : nat) (e : E) (c : Cluster) : Prop := {
  ri_stored : GetCluster e ns (Name c) = inr c;
  ri_name : Name c = Name c0;
  ri_storable : cluster_storable c;
  ri_version : Version c <= Version c0 + Z.of_nat k;
  ri_topology : topology c;
  ri_length : length (Shards c) = length (Shards c0);
  ri_done i s : (i < k)%nat -> Shards c0 !! i = Some s -> exists s', Shards c !! i = Some s' /\ settled w s s';
  ri_todo i s : (k <= i)%nat -> Shards c0 !! i = Some s -> exists s', Shards c !! i = Some s' /\ same_migration s s';
  ri_owner x : (forall t, handed w c0 k x t -> forall j, owns (Shards c) j x <-> j = t) /\
  ((forall t, ~ handed w c0 k x t) -> forall j, owns (Shards c) j x <-> owns (Shards c0) j x) }.

(** The turn of a shard whose source answers. *)
Lemma migration_turn_reports e c k s m st :
  Shards c !! k = Some s -> reports w s m st -> 0 <= TargetShardIndex s < Z.of_nat (length (Shards c)) ->
  migration_turn w ns e c k =
  if under_way st then Continue e c
  else if String.eqb st "success" then store_turn ns e (finishMigration k (TargetShardIndex s) (m_range m) c)
  else store_turn ns e (clearMigration k c).
Proof.
  intros Hk (Hm & Hmig & src & info & r & Hsrc & Hinfo & Hr & Heq & <-) Ht. unfold migration_turn.
  rewrite Hk, Hm, Hmig, Hsrc, Hinfo, Hr, Heq, !Z.eqb_refl. cbn [negb andb].
  destruct (Z.ltb_spec (TargetShardIndex s) 0), (Z.leb_spec (Z.of_nat (length (Shards c))) (TargetShardIndex s)); try lia.
  cbn [orb]. unfold under_way. destruct (_ || _); [done|].
  destruct (String.eqb_spec (MigratingState info) "fail") as [->|]; [done|]. done.
Qed.

Lemma migration_turn_idle e c k s :
  Shards c !! k = Some s -> shardIsMigrating s = false -> migration_turn w ns e c k = Continue e c.
Proof. intros Hk Hm. unfold migration_turn. rewrite Hk, Hm. by destruct (Migrating s). Qed.

(** A turn that stores [c1]. *)
Lemma round_store c0 k e c c1 s0 :
  round_inv c0 k e c -> Shards c0 !! k = Some s0 -> Version c < 2 ^ 63 - 1 ->
  Name c1 = Name c -> Version c1 = Version c -> cluster_storable c1 -> topology c1 -> turn_frame k c c1 ->
  (forall m st, reports w s0 m st -> under_way st = false) -> (shardIsMigrating s0 = true) ->
  (forall x, (forall t, handed w c0 (S k) x t -> forall j, owns (Shards c1) j x <-> j = t) /\
  ((forall t, ~ handed w c0 (S k) x t) -> forall j, owns (Shards c1) j x <-> owns (Shards c0) j x)) ->
  exists e' c', store_turn ns e c1 = Continue e' c' /\ round_inv c0 (S k) e' c'.
Proof.
  intros Hi Hk Hv Hn1 Hv1 Hs1 Ht1 [Hl1 Hf1] Hend Hmig Hown.
  destruct (UpdateCluster_stored e ns c c1 (ri_stored _ _ _ _ Hi) Hn1 Hv1 Hs1 Hv) as (e' & evs & Hu & Hg & Eb & Hs').
  exists e', (bump c1). unfold store_turn. rewrite Hu. split; [done|].
  pose proof (ri_version _ _ _ _ Hi) as Hver. rewrite Eb in *. split; cbn [Name Version Shards].
  - exact Hg.
  - apply Hi.
  - exact Hs'.
  - lia.
  - by destruct Ht1.
  - rewrite Hl1. apply Hi.
  - intros i s Hik Hs. destruct (decide (i = k)) as [->|Hne].
    + assert (s = s0) as -> by congruence. destruct (ri_todo _ _ _ _ Hi k s0 ltac:(lia) Hk) as (s1 & Hs1' & Hsame).
      destruct (Hf1 k s1 Hs1') as (s2 & Hs2 & Hn2 & _ & Hm2). exists s2. split; [done|].
      split; [destruct Hsame as (Hn & _); congruence|]. split; [congruence|].
      intros m st Hr. rewrite (Hend m st Hr). by apply Hm2.
    + destruct (ri_done _ _ _ _ Hi i s ltac:(lia) Hs) as (s1 & Hs1' & Hn & Hst1 & Hst2).
      destruct (Hf1 i s1 Hs1') as (s2 & Hs2 & Hn2 & Hm2 & _). destruct (Hm2 Hne) as (_ & Hmm & _).
      exists s2. split; [done|]. split; [congruence|]. rewrite Hmm. done.
  - intros i s Hik Hs. destruct (ri_todo _ _ _ _ Hi i s ltac:(lia) Hs) as (s1 & Hs1' & Hn & Hm & Ht).
    destruct (Hf1 i s1 Hs1') as (s2 & Hs2 & Hn2 & Hm2 & _). destruct (Hm2 ltac:(lia)) as (_ & Hmm & Htt).
    exists s2. split; [done|]. unfold same_migration. split_and!; congruence.
  - exact Hown.
Qed.

(** A turn that changes nothing. *)
Lemma round_skip c0 k e c s0 :
  round_inv c0 k e c -> Shards c0 !! k = Some s0 ->
  (forall m st, reports w s0 m st -> under_way st = true) -> round_inv c0 (S k) e c.
Proof.
  intros Hi Hk Hway. destruct (ri_todo _ _ _ _ Hi k s0 ltac:(lia) Hk) as (s1 & Hs1 & Hn1 & Hm1 & Ht1).
  destruct Hi as [H1 H2 H3 H4 H5 H6 H7 H8 H9]. split; [done..|lia|done|done| |intros i s Hik; apply H8; lia|].
  - intros i s Hik Hs. destruct (decide (i = k)) as [->|Hne]; [|apply H7; [lia|done]].
    assert (s = s0) as -> by congruence.
    exists s1. split; [done|]. split; [done|]. split; [done|]. intros m st Hr. rewrite (Hway m st Hr), Hm1. apply Hr.
  - intros x. assert (Hh : forall t, handed w c0 (S k) x t <-> handed w c0 k x t).
    { intros t. rewrite handed_S. split; [|by left]. intros [|(s & m & Hs & Hr & _)]; [done|]. simplify_eq.
      discriminate (Hway m _ Hr). }
    destruct (H9 x) as [Ha Hb]. split.
    + intros t Ht. apply Ha. by apply Hh.
    + intros Hno. apply Hb. intros t Ht. apply (Hno t). by apply Hh.
Qed.

(** Ranges of two migrations are disjoint. *)
Lemma migrations_disjoint c i j s s' m m' x :
  topology c -> Shards c !! i = Some s -> Shards c !! j = Some s' ->
  Migrating s = Some m -> Migrating s' = Some m' -> in_range (m_range m) x -> in_range (m_range m') x -> i = j.
Proof.
  intros Ht Hi Hj Hm Hm' Hx Hx'.
  destruct (Forall_lookup_1 _ _ _ _ (top_shards c Ht) Hi) as (_ & _ & _ & H1).
  destruct (Forall_lookup_1 _ _ _ _ (top_shards c Ht) Hj) as (_ & _ & _ & H2).
  destruct (H1 m Hm) as (_ & Hw & Ho). destruct (H2 m' Hm') as (_ & _ & Ho').
  apply (topology_unique c x i j Ht (wf_range_slot _ _ Hw Hx)); [exists s|exists s']; auto.
Qed.

(** The owners after the completion of shard [k]. *)
Lemma finish_owner c0 k e c s m st :
  topology c0 -> round_inv c0 k e c -> Shards c0 !! k = Some s -> reports w s m st -> st = "success" ->
  0 <= TargetShardIndex s < Z.of_nat (length (Shards c0)) ->
  let c1 := finishMigration k (TargetShardIndex s) (m_range m) c in
  topology c1 /\
  forall x, (forall t, handed w c0 (S k) x t -> forall j, owns (Shards c1) j x <-> j = t) /\
  ((forall t, ~ handed w c0 (S k) x t) -> forall j, owns (Shards c1) j x <-> owns (Shards c0) j x).
Proof.
  intros Ht0 Hi Hk Hr -> Hb c1. destruct (ri_todo _ _ _ _ Hi k s ltac:(lia) Hk) as (s1 & Hs1 & Hsame).
  pose proof Hsame as (_ & Hm1 & Ht1). pose proof (ri_topology _ _ _ _ Hi) as Ht.
  assert (Hms : Migrating s1 = Some m) by (rewrite Hm1; apply Hr).
  assert (Hb1 : 0 <= TargetShardIndex s1 < Z.of_nat (length (Shards c))) by (rewrite Ht1, (ri_length _ _ _ _ Hi); done).
  pose proof (finish_topology c k s1 m Ht Hs1 Hms Hb1) as Htop. rewrite Ht1 in Htop. split; [exact Htop|].
  destruct (Forall_lookup_1 _ _ _ _ (top_shards c Ht) Hs1) as (_ & _ & _ & Hmig). destruct (Hmig m Hms) as (_ & Hw & Hin).
  assert (Hmv : forall j x, owns (Shards c1) j x <-> if decide (in_range (m_range m) x) then j = Z.to_nat (TargetShardIndex s) else owns (Shards c) j x).
  { intros j x. rewrite <- (move_owns (Shards c) k (Z.to_nat (TargetShardIndex s)) (m_range m) (topology_ordered c Ht)
      (wf_range_ordered _ Hw) ltac:(rewrite Ht1 in Hb1; lia)).
    - unfold c1, finishMigration. cbn [setShards Shards]. apply owns_ext. intros j'.
      destruct (decide (j' = k)) as [->|Hne]; [|by rewrite list_lookup_alter_ne by congruence].
      rewrite list_lookup_alter_eq. by destruct (alter _ _ (alter _ k (Shards c)) !! k).
    - intros j' x' Hx' Hj'. apply (topology_unique c x' j' k Ht (wf_range_slot _ _ Hw Hx') Hj'). exists s1. auto. }
  intros x. setoid_rewrite Hmv. setoid_rewrite handed_S. destruct (ri_owner _ _ _ _ Hi x) as [Ha Hno].
  destruct (decide (in_range (m_range m) x)) as [Hx|Hx].
  - split.
    + intros t [(i & s2 & m2 & Hik & Hs2 & Hr2 & Hx2 & _)|(s2 & m2 & Hs2 & Hr2 & _ & ->)] j.
      * exfalso. assert (i = k); [|lia]. eapply (migrations_disjoint c0 i k s2 s m2 m x Ht0 Hs2 Hk); [apply Hr2|apply Hr|done..].
      * by simplify_eq.
    + intros Hn. exfalso. apply (Hn (Z.to_nat (TargetShardIndex s))). right. by exists s, m.
  - split.
    + intros t [Hh|(s2 & m2 & Hs2 & Hr2 & Hx2 & _)]; [by apply Ha|]. exfalso. simplify_eq.
      by destruct (reports_fun w s m _ m2 _ Hr Hr2) as [-> _].
    + intros Hn. apply Hno. intros t Hh. apply (Hn t). by left.
Qed.

Lemma round_step c0 k e c :
  topology c0 -> answered w c0 -> round_inv c0 k e c -> (k < length (Shards c0))%nat ->
  Version c0 + Z.of_nat (length (Shards c0)) < 2 ^ 63 - 1 ->
  exists e' c', migration_turn w ns e c k = Continue e' c' /\ round_inv c0 (S k) e' c'.
Proof.
  intros Ht0 Hans Hi Hlt Hver. destruct (lookup_lt_is_Some_2 _ _ Hlt) as [s0 Hk].
  destruct (ri_todo _ _ _ _ Hi k s0 ltac:(lia) Hk) as (s1 & Hs1 & Hsame).
  pose proof (ri_version _ _ _ _ Hi) as Hv. assert (Hv' : Version c < 2 ^ 63 - 1) by lia.
  destruct (shardIsMigrating s0) eqn:Em.
  - destruct (Hans k s0 Hk Em) as [(m & st & Hr) Hb].
    pose proof (reports_same w s0 s1 m st Hsame Hr) as Hr1. destruct Hsame as (Hn1 & Hm1 & Ht1).
    rewrite (migration_turn_reports e c k s1 m st Hs1 Hr1) by (rewrite Ht1, (ri_length _ _ _ _ Hi); done).
    destruct (under_way st) eqn:Ew.
    + exists e, c. split; [done|]. apply (round_skip c0 k e c s0); [done..|].
      intros m' st' Hr'. by destruct (reports_fun w s0 m st m' st' Hr Hr') as [_ <-].
    + assert (Hend : forall m' st', reports w s0 m' st' -> under_way st' = false).
      { intros m' st' Hr'. by destruct (reports_fun w s0 m st m' st' Hr Hr') as [_ <-]. }
      destruct (String.eqb_spec st "success") as [Est|Est].
      * rewrite Ht1. destruct (finish_owner c0 k e c s0 m st Ht0 Hi Hk Hr Est Hb) as [Htop Hown].
        apply (round_store c0 k e c _ s0); try done; [|apply finish_frame].
        apply storable_finish; [apply Hi|]. destruct (Forall_lookup_1 _ _ _ _ (top_shards c0 Ht0) Hk) as (_ & _ & _ & Hmig).
        apply (Hmig m), Hr.
      * apply (round_store c0 k e c _ s0); try done; [apply storable_clearMigration, Hi|apply clear_topology, Hi|apply clear_frame|].
        intros x. setoid_rewrite handed_S. destruct (ri_owner _ _ _ _ Hi x) as [Ha Hno].
        assert (Hsame : forall j, owns (Shards (clearMigration k c)) j x <-> owns (Shards c) j x).
        { intros j. apply owns_ext. intros j'. unfold clearMigration. cbn [setShards Shards].
          destruct (decide (j' = k)) as [->|Hne]; [|by rewrite list_lookup_alter_ne by congruence].
          rewrite list_lookup_alter_eq. by destruct (Shards c !! k). }
        setoid_rewrite Hsame. split.
        -- intros t [Hh|(s2 & m2 & Hs2 & Hr2 & _)]; [by apply Ha|]. exfalso.
          assert (s2 = s0) as -> by congruence. by destruct (reports_fun w s0 m st m2 _ Hr Hr2).
        -- intros Hn. apply Hno. intros t Hh. apply (Hn t). by left.
  - exists e, c. assert (shardIsMigrating s1 = false).
    { destruct Hsame as (_ & Hm1 & Ht1). unfold shardIsMigrating in *. by rewrite Hm1, Ht1. }
    split; [by eapply migration_turn_idle|]. apply (round_skip c0 k e c s0); [done..|].
    intros m st (_ & Hmig & _). congruence.
Qed.

Lemma round_all c0 k n e c :
  topology c0 -> answered w c0 -> round_inv c0 k e c -> (k + n = length (Shards c0))%nat ->
  Version c0 + Z.of_nat (length (Shards c0)) < 2 ^ 63 - 1 ->
  exists e' c', migration_loop w ns e c (seq k n) = Some e' /\ round_inv c0 (k + n) e' c'.
Proof.
  intros Ht Ha. revert k e c. induction n as [|n IH]; intros k e c Hi Hk Hv.
  - exists e, c. rewrite Nat.add_0_r. done.
  - cbn [seq migration_loop]. destruct (round_step c0 k e c Ht Ha Hi ltac:(lia) Hv) as (e' & c' & -> & Hi').
    destruct (IH (S k) e' c' Hi' ltac:(lia) Hv) as (e2 & c2 & H1 & H2). exists e2, c2.
    by rewrite <- Nat.add_succ_comm.
Qed.

(** C12. One round of the migration loop, when every source of a migration answers
    for its range and the targets exist.  The round ends without crashing or
    giving up, and in the cluster it leaves in the store: every migration whose
    source reports success is over and its slots belong to its target alone;
    every one that failed, or reports a state the controller does not know, is
    over and its slots have not moved; every one still under way is untouched;
    no other slot has changed its owner, and the topology invariant holds. *)
Theorem migration_round e c :
  GetCluster e ns (Name c) = inr c -> cluster_storable c -> topology c -> answered w c ->
  Version c + Z.of_nat (length (Shards c)) < 2 ^ 63 - 1 ->
  exists e' c', tryUpdateMigrationStatus w ns e c = Some e' /\ GetCluster e' ns (Name c) = inr c' /\ topology c' /\
  (forall i s, Shards c !! i = Some s -> exists s', Shards c' !! i = Some s' /\ settled w s s') /\
  (forall x, (forall t, handed w c (length (Shards c)) x t -> forall j, owns (Shards c') j x <-> j = t) /\
  ((forall t, ~ handed w c (length (Shards c)) x t) -> forall j, owns (Shards c') j x <-> owns (Shards c) j x)).
Proof.
  intros Hg Hs Ht Ha Hv.
  assert (Hi : round_inv c 0 e c).
  { split; [done..|lia|done|done| |intros i s _ Hi; by exists s|]; [lia|].
    intros x. split; [intros t (i & s & m & Hlt & _); lia|done]. }
  destruct (round_all c 0 (length (Shards c)) e c Ht Ha Hi eq_refl Hv) as (e' & c' & Hl & Hi'). cbn [Nat.add] in Hi'.
  exists e', c'. split; [exact Hl|]. destruct Hi' as [H1 H2 _ _ H5 H6 H7 _ H9]. split; [by rewrite <- H2|]. split; [done|].
  split; [|done]. intros i s Hs'. apply H7; [by eapply lookup_lt_Some|done].
Qed.
End Migrations.

(** A source that answers without a migrating slot, as it does after a restart,
    is a nil pointer in the loop: the controller crashes. *)
Lemma unreported_migration_crashes {E} `{Engine E} w ns (e : E) c i s m src info :
  Shards c !! i = Some s -> Migrating s = Some m -> shardIsMigrating s = true -> GetMasterNode s = Some src ->
  GetClusterInfo w src = inr info -> InfoMigratingSlot info = None -> migration_turn w ns e c i = Crash.
Proof. intros Hi Hm Hmig Hsrc Hinfo Hn. unfold migration_turn. by rewrite Hi, Hm, Hmig, Hsrc, Hinfo, Hn. Qed.

(** ** Witnesses *)

Definition failover_cluster : Cluster := MkCluster "c" 4 [demo_shard].

Lemma failover_cluster_storable : cluster_storable failover_cluster.
Proof. split; [unfold int64; simpl; lia|]. repeat constructor; unfold node_storable, int64; simpl; lia. Qed.

Definition stored (c : Cluster) : gmap string blob :=
  e_Set (∅ : gmap string blob) (buildClusterKey "ns" (Name c)) (Json (cluster_json c)).

Lemma failover_happens_witness :
  exists cluster' s' new,
    GetCluster (ck_store (failing demo_replies "ns" "c" 3 0 (MkGoNode "a" "h:1" "master" "" 0) 3
                            (MkChecker (stored failover_cluster) ∅ 0 "" []))) "ns" "c" = inr cluster' /\
    Shards cluster' !! 0%nat = Some s' /\ sole_master (Nodes s') new /\ new <> 0%nat.
Proof.
  destruct (failover_happens demo_replies "ns" "c" 3 0 (MkGoNode "a" "h:1" "master" "" 0)
              (MkChecker (stored failover_cluster) ∅ 0 "" []) failover_cluster demo_shard 0)
    as (_ & cluster' & s' & new & H1 & _ & H2 & H3 & H4 & _).
  - lia.
  - reflexivity.
  - exact (GetCluster_set "ns" ∅ failover_cluster failover_cluster_storable).
  - reflexivity.
  - exact failover_cluster_storable.
  - simpl. lia.
  - reflexivity.
  - exact demo_sole_master.
  - reflexivity.
  - simpl. lia.
  - exists 2%nat, (MkGoNode "c" "h:3" "slave" "" 0), 7. split_and!; [reflexivity|lia|reflexivity].
  - exists cluster', s', new. split_and!; [exact H1|exact H2|exact H3|exact H4].
Defined.

Definition migration_replies : Replies :=
  MkReplies (fun _ => inr ("cluster_current_epoch:4" +:+ crlf +:+ "migrating_slot(s):3-9" +:+ crlf +:+ "migrating_state:success"))
    (fun _ => inl "timeout") (fun _ => inl "timeout") (fun _ _ _ => true).

Lemma demo_topology : topology demo_cluster.
Proof.
  split.
  - unfold demo_cluster. cbn [Shards]. constructor; [|constructor; [|constructor]].
    + split; [by apply has_master_count|]. split; [|split].
      * unfold distinct_ids. simpl. repeat (apply NoDup_cons; split; [set_solver|]). constructor.
      * repeat constructor; unfold MinSlotID, MaxSlotID; simpl; lia.
      * intros m [= <-]. split; [done|]. split; [unfold wf_range, MinSlotID, MaxSlotID; simpl; lia|].
        intros x Hx. exists (MkRange 0 99). split; [by left|]. unfold in_range in *. simpl in *. lia.
    + split; [by apply has_master_count|]. split; [|split; [|by intros m]].
      * unfold distinct_ids. simpl. apply NoDup_singleton.
      * repeat constructor; unfold MinSlotID, MaxSlotID; simpl; lia.
  - unfold MinSlotID, MaxSlotID. intros x Hx. exists (if decide (100 <= x <= 199) then 1%nat else 0%nat).
    assert (H0 : owns (Shards demo_cluster) 0 x <-> 0 <= x <= 99 \/ 200 <= x <= 16383).
    { unfold owns, demo_cluster. simpl. split.
      - intros (s & [= <-] & r & [<-|[<-|[]]] & Hr); unfold in_range in Hr; simpl in Hr; lia.
      - intros [|]; eexists; (split; [done|]);
          [exists (MkRange 0 99)|exists (MkRange 200 16383)]; (split; [simpl; auto|unfold in_range; simpl; lia]). }
    assert (H1 : owns (Shards demo_cluster) 1 x <-> 100 <= x <= 199).
    { unfold owns, demo_cluster. simpl. split.
      - intros (s & [= <-] & r & [<-|[]] & Hr). unfold in_range in Hr. simpl in Hr. lia.
      - intros. eexists. split; [done|]. exists (MkRange 100 199). split; [simpl; auto|unfold in_range; simpl; lia]. }
    intros [|[|j]].
    + rewrite H0. case_decide; lia.
    + rewrite H1. case_decide; [tauto|lia].
    + split; [by intros (s & Hs & _)|case_decide; lia].
Qed.

Lemma demo_answered : answered migration_replies demo_cluster.
Proof.
  intros [|[|i]] s Hs Hm; [|by simplify_eq/=|done]. injection Hs as <-. split; [|simpl; lia].
  exists (FromSlotRange (MkRange 3 9)), "success". split; [reflexivity|]. split; [reflexivity|].
  exists (MkGoNode "a" "h:1" "master" "pw" 17). do 2 eexists. split_and!; [reflexivity|vm_compute; reflexivity|reflexivity..].
Qed.

Lemma migration_round_witness :
  exists e' c', tryUpdateMigrationStatus migration_replies "ns" (stored demo_cluster) demo_cluster = Some e' /\
    GetCluster e' "ns" "c" = inr c' /\ forall j, owns (Shards c') j 5 <-> j = 1%nat.
Proof.
  destruct (migration_round migration_replies "ns" (stored demo_cluster) demo_cluster) as (e' & c' & H1 & H2 & _ & _ & H3).
  - exact (GetCluster_set "ns" ∅ demo_cluster demo_cluster_storable).
  - exact demo_cluster_storable.
  - exact demo_topology.
  - exact demo_answered.
  - simpl. lia.
  - exists e', c'. split; [exact H1|]. split; [exact H2|]. apply (proj1 (H3 5) 1%nat).
    exists 0%nat. do 2 eexists. split; [simpl; lia|]. split; [reflexivity|]. split; [split; [reflexivity|split; [reflexivity|]]|].
    + exists (MkGoNode "a" "h:1" "master" "pw" 17). do 2 eexists. split_and!; [reflexivity|vm_compute; reflexivity|reflexivity..].
    + split; [unfold in_range; simpl; lia|reflexivity].
Defined.
