(* ===== verification/GoSync.v ===== *)
(** * Talking to the nodes (store/cluster_node.go, store/cluster.go,
    controller/cluster.go)

    The commands the server and the controller send to kvrocks nodes, the
    connections they are sent over, and the loops of a checker around the rounds
    of [GoController].  The topology goes to the nodes as a text; reading it back
    gives the topology. *)

From S2P Require Import Prelude JsString JsNumber JsValue Effects Api Slots GoShard GoCluster GoJson.
From S2P Require Import GoEngine GoStore GoController GoTopology GoProgress.

(** ** Connections *)

Record redis_client := MkClient { cl_Addr : string; cl_Password : string }.

(** Clients are kept by the identifier of their node. *)
Definition GetClient (clients : gmap string redis_client) (n : GoNode) : redis_client * gmap string redis_client :=
  match clients !! ID n with
  | Some client => (client, clients)
  | None => let client := MkClient (Addr n) (Password n) in (client, <[ID n := client]> clients)
  end.

(** A node that was given another address or password keeps its first client. *)
Lemma client_kept clients n n' :
  ID n' = ID n -> fst (GetClient (snd (GetClient clients n)) n') = fst (GetClient clients n).
Proof.
  intros E. unfold GetClient. destruct (clients !! ID n) eqn:Ec; cbn [fst snd].
  - by rewrite E, Ec.
  - by rewrite E, lookup_insert_eq.
Qed.

(** ** Commands *)

Inductive node_command :=
| SetNodeID (id : string) | SetNodes (text : string) (version : Z) | FlushAll | ClusterResetHard
| Migrate (slot : string) (target : string) | SetSlotNode (slot : Z) (target : string) (version : Z).

(** The node's answer to a command: an error, or nothing. *)
Section Nodes.
Context (answer : GoNode -> node_command -> option go_error).

(** The commands that were sent, and the error. *)
Definition sent : Type := list (string * node_command) * option go_error.

Definition Do (n : GoNode) (c : node_command) : sent := ([(ID n, c)], answer n c).

(** The next command is sent only after a success. *)
Definition andThen (s t : sent) : sent :=
  match s with (l, None) => (l ++ fst t, snd t) | (l, Some err) => (l, Some err) end.

Definition SyncClusterInfo (n : GoNode) (cluster : Cluster) : sent :=
  match ToSlotString cluster with
  | inl err => ([], Some err)
  | inr clusterStr => andThen (Do n (SetNodeID (ID n))) (Do n (SetNodes clusterStr (Version cluster)))
  end.

(** The error of flushing is ignored. *)
Definition NodeReset (n : GoNode) : sent :=
  let flushed := if IsMaster n then fst (Do n FlushAll) else [] in
  (flushed ++ fst (Do n ClusterResetHard), snd (Do n ClusterResetHard)).

Definition NodeMigrateSlot (n : GoNode) (slot : SlotRange) (targetNodeID : string) : sent :=
  Do n (Migrate (range_string slot) targetNodeID).

Fixpoint each (f : GoNode -> sent) (nodes : list GoNode) : sent :=
  match nodes with [] => ([], None) | n :: nodes' => andThen (f n) (each f nodes') end.

Definition SyncToNodes (cluster : Cluster) : sent := each (fun n => SyncClusterInfo n cluster) (GetNodes cluster).
Definition ClusterReset (cluster : Cluster) : sent := each NodeReset (GetNodes cluster).

(** The version goes up first, whatever the nodes answer. *)
Definition SetSlot (slot : Z) (targetNodeID : string) (cluster : Cluster) : Cluster * sent :=
  let cluster := bump cluster in
  (cluster, each (fun n => Do n (SetSlotNode slot targetNodeID (Version cluster))) (GetNodes cluster)).

(** One goroutine per node; the commands of a node stay in order. *)
Definition syncClusterToNodes {E} `{Engine E} (e : E) (ns clusterName : string) : go_error + list sent :=
  match GetCluster e ns clusterName with
  | inl err => inl err
  | inr cluster => inr (map (fun n => SyncClusterInfo n cluster) (GetNodes cluster))
  end.

Lemma each_ok f nodes : (forall n, In n nodes -> snd (f n) = None) -> each f nodes = (concat (map (fun n => fst (f n)) nodes), None).
Proof.
  induction nodes as [|n nodes IH]; intros Hok; [done|]. cbn. rewrite IH by (intros; apply Hok; by right).
  specialize (Hok n (or_introl eq_refl)). destruct (f n) as [l [err|]]; [done|]. done.
Qed.

(** The first node that fails ends it. *)
Lemma each_fails f nodes n nodes' err :
  (forall m, In m nodes -> snd (f m) = None) -> snd (f n) = Some err ->
  each f (nodes ++ n :: nodes') = (concat (map (fun m => fst (f m)) nodes) ++ fst (f n), Some err).
Proof.
  intros Hok Hn. induction nodes as [|m nodes IH]; cbn.
  - destruct (f n) as [l [e|]]; cbn in *; by simplify_eq.
  - rewrite IH by (intros; apply Hok; by right). specialize (Hok m (or_introl eq_refl)).
    destruct (f m) as [l [e|]]; [done|]. cbn. by rewrite app_assoc.
Qed.
End Nodes.

(** ** The loops of a checker *)

Section Loops.
Context {E : Type} `{Engine E} (w : Replies) (ns clusterName : string) (maxFailureCount : Z).

(** A tick of [probeLoop]: the cluster it hands to the other loop, the store and the
    counts; [None] is a panic. *)
Definition probe_tick (accepts : string -> bool) (order : list (Z * GoNode)) (cached : option Cluster) (e : E) (counts : gmap string Z) :
  option (option Cluster * E * gmap string Z) :=
  match GetCluster e ns clusterName with
  | inl _ => Some (cached, e, counts)
  | inr clusterInfo =>
      match parallelProbeNodes w ns clusterName maxFailureCount accepts order clusterInfo e counts with
      | None => None
      | Some k => Some (Some clusterInfo, ck_store k, failureCounts k)
      end
  end.

(** A tick of [migrationLoop], on a copy of the cluster that was handed over: the
    store afterwards. *)
Definition migration_tick (cached : option Cluster) (e : E) : option E :=
  match cached with
  | None => Some e
  | Some clonedCluster => tryUpdateMigrationStatus w ns e clonedCluster
  end.
End Loops.

(** ** Reading the topology back *)

Record topology_row := MkRow {
  row_id : string; row_host : string; row_port : string; row_master : option string; row_ranges : list SlotRange }.

Definition nl : string := String "010" "".

Definition nonempty (s : string) : bool := negb (String.eqb s "").

Definition decode_range (s : string) : option SlotRange :=
  match ParseSlotRange s with GoOk r => Some r | GoErr _ => None end.

(** The lines of CLUSTERX SETNODES: identifier, host, port, role, master, slots. *)
Definition decode_line (line : string) : option topology_row :=
  match split " " line with
  | id :: host :: port :: role :: master :: slots =>
      if String.eqb role RoleMaster then
        rs ← mapM decode_range (List.filter nonempty slots); Some (MkRow id host port None rs)
      else if String.eqb role RoleSlave then Some (MkRow id host port (Some master) [])
      else None
  | _ => None
  end.

Definition decode_setnodes (text : string) : option (list topology_row) :=
  mapM decode_line (List.filter nonempty (split "010" text)).

Definition host_port (addr : string) : string * string :=
  match cut ":" addr with Some (a, b) => (a, b) | None => (addr, "") end.

Definition shard_topology (s : Shard) : list topology_row :=
  map (fun n =>
    let '(host, port) := host_port (Addr n) in
    if IsMaster n then MkRow (ID n) host port None (SlotRanges s)
    else MkRow (ID n) host port (ID <$> GetMasterNode s) []) (Nodes s).

Definition cluster_topology (c : Cluster) : list topology_row := concat (map shard_topology (Shards c)).

(** No separator inside a part. *)
Definition token (s : string) : bool := negb (any_char (fun c => Ascii.eqb " " c || Ascii.eqb "010" c) s).

Definition node_clean (n : GoNode) : Prop :=
  ID n <> "" /\ token (ID n) = true /\ exists host port, Addr n = host +:+ ":" +:+ port /\
    any_char (Ascii.eqb ":") host = false /\ token host = true /\ token port = true.

Lemma token_spec s : token s = true -> any_char (Ascii.eqb " ") s = false /\ any_char (Ascii.eqb "010") s = false.
Proof.
  unfold token. intros H%negb_true_iff. induction s as [|c s IH]; [done|]. cbn [any_char] in *.
  apply orb_false_elim in H as [[H1 H2]%orb_false_elim H3]. destruct (IH H3) as [-> ->]. by rewrite H1, H2.
Qed.

Lemma range_token r : wf_range r -> token (range_string r) = true /\ range_string r <> "".
Proof.
  intros (H1 & H2). unfold MinSlotID in H1. unfold range_string.
  assert (Hd : forall z, 0 <= z -> token (Z_to_string z) = true /\ Z_to_string z <> "").
  { intros z Hz. split; [|auto with kvc]. unfold token.
    rewrite (all_chars_not_any is_digit _ (Z_to_string z)); [done| |by apply Z_to_string_digits].
    intros c. by destruct c as [[] [] [] [] [] [] [] []]. }
  destruct (Hd (Start r) ltac:(lia)) as [Hs Hn]. destruct (Start r =? Stop r); [done|].
  destruct (Hd (Stop r) ltac:(lia)) as [Ht _]. split.
  - unfold token in *. rewrite !any_char_append. apply negb_true_iff in Hs, Ht. by rewrite Hs, Ht.
  - by destruct (Z_to_string (Start r)).
Qed.

(** ** The round trip *)

Lemma split_lines c lines :
  Forall (fun l => any_char (Ascii.eqb c) l = false) lines ->
  split c (String.concat "" (map (fun l => l +:+ String c "") lines)) = lines ++ [""].
Proof.
  assert (Hc : forall x l, String.concat "" (x :: l) = x +:+ String.concat "" l).
  { intros x [|y l]; cbn; [by rewrite append_nil_r|done]. }
  induction 1 as [|l lines Hl _ IH]; [done|]. cbn [map]. rewrite Hc.
  change (l +:+ String c "") with (l +:+ String c ""). rewrite append_assoc. cbn [String.append].
  change (String c "" +:+ String.concat "" (map (fun l0 => l0 +:+ String c "") lines))
    with (String c (String.concat "" (map (fun l0 => l0 +:+ String c "") lines))).
  rewrite split_app by done. by rewrite IH.
Qed.

Definition slot_tokens (rs : list SlotRange) : list string := match rs with [] => [""] | _ => map range_string rs end.

(** The tokens of a line of the text. *)
Definition line_tokens (s : Shard) (master : string) (n : GoNode) : list string :=
  let '(host, port) := host_port (Addr n) in
  [ID n; host; port] ++
  (if IsMaster n then [RoleMaster; "-"] ++ slot_tokens (SlotRanges s)
   else [RoleSlave; master]).

Lemma join_app_sep (sep : string) l l' : l <> [] -> l' <> [] -> join sep (l ++ l') = join sep l +:+ sep +:+ join sep l'.
Proof.
  intros Hl Hl'. induction l as [|x l IH]; [done|]. destruct l as [|y l].
  - cbn. by destruct l'.
  - transitivity (x +:+ sep +:+ join sep ((y :: l) ++ l')); [done|]. rewrite IH by done.
    change (join sep (x :: y :: l)) with (x +:+ sep +:+ join sep (y :: l)). by rewrite !append_assoc.
Qed.

Lemma line_text s master n :
  node_clean n ->
  ID n +:+ " " +:+ replace_colon (Addr n) +:+ " " +:+
    (if IsMaster n then RoleMaster +:+ " - " +:+ join " " (map range_string (SlotRanges s)) else RoleSlave +:+ " " +:+ master) =
  join " " (line_tokens s master n).
Proof.
  intros (_ & _ & host & port & Ha & Hh & _). unfold replace_colon, line_tokens, host_port. rewrite Ha.
  change (host +:+ ":" +:+ port) with (host +:+ String ":" port). rewrite cut_app by done. cbn [app].
  destruct (IsMaster n); [|cbn [join]; by rewrite !append_assoc].
  transitivity (join " " ([ID n; host; port; RoleMaster; "-"] ++ slot_tokens (SlotRanges s))); [|done].
  rewrite join_app_sep; [|done|by destruct (SlotRanges s)]. cbn [join]. rewrite !append_assoc. cbn [String.append].
  by destruct (SlotRanges s).
Qed.

Lemma host_port_clean n : node_clean n -> token (fst (host_port (Addr n))) = true /\ token (snd (host_port (Addr n))) = true.
Proof.
  intros (_ & _ & host & port & Ha & Hh & H1 & H2). unfold host_port. rewrite Ha.
  change (host +:+ ":" +:+ port) with (host +:+ String ":" port). by rewrite cut_app.
Qed.

Lemma line_tokens_clean s master n :
  node_clean n -> token master = true -> wf_ranges (SlotRanges s) -> Forall (fun t => token t = true) (line_tokens s master n).
Proof.
  intros Hn Hm Hr. destruct (host_port_clean n Hn) as [H1 H2]. destruct Hn as (_ & Hid & _). unfold line_tokens.
  destruct (host_port (Addr n)) as [host port]. cbn in H1, H2. repeat (constructor; [done|]).
  destruct (IsMaster n); [|by repeat constructor]. repeat (constructor; [done|]).
  unfold wf_ranges in Hr. destruct (SlotRanges s) as [|r rs]; [by repeat constructor|]. unfold slot_tokens.
  apply Forall_fmap. eapply Forall_impl; [exact Hr|]. intros x Hx. by apply range_token.
Qed.

Lemma decode_ranges rs : wf_ranges rs -> mapM decode_range (map range_string rs) = Some rs.
Proof.
  induction 1 as [|r rs Hr _ IH]; [done|].
  assert (Hd : decode_range (range_string r) = Some r) by (unfold decode_range; by rewrite ParseSlotRange_string).
  cbn [map mapM]. rewrite Hd, IH. done.
Qed.

Lemma filter_ranges rs : wf_ranges rs -> List.filter nonempty (map range_string rs) = map range_string rs.
Proof.
  induction 1 as [|x l Hx _ IH]; [done|]. cbn [map List.filter]. destruct (range_token x Hx) as [_ Hne].
  unfold nonempty at 1. rewrite (proj2 (String.eqb_neq _ _) Hne). cbn [negb]. by rewrite IH.
Qed.

Lemma decode_line_tokens s master n :
  node_clean n -> token master = true -> wf_ranges (SlotRanges s) ->
  decode_line (join " " (line_tokens s master n)) =
  let '(host, port) := host_port (Addr n) in
  Some (if IsMaster n then MkRow (ID n) host port None (SlotRanges s) else MkRow (ID n) host port (Some master) []).
Proof.
  intros Hn Hm Hr. unfold decode_line. pose proof (line_tokens_clean s master n Hn Hm Hr) as Ht.
  rewrite (split_join " ").
  - unfold line_tokens. destruct (host_port (Addr n)) as [host port]. cbn [app]. destruct (IsMaster n); [|done].
    cbn [app]. change (String.eqb RoleMaster RoleMaster) with true. cbv iota.
    assert (Hf : List.filter nonempty (slot_tokens (SlotRanges s)) = map range_string (SlotRanges s)).
    { rewrite <- (filter_ranges (SlotRanges s)) by done. by destruct (SlotRanges s). }
    rewrite Hf, decode_ranges by done. done.
  - unfold line_tokens. by destruct (host_port (Addr n)).
  - eapply Forall_impl; [exact Ht|]. intros t Ht'. by destruct (token_spec t Ht').
Qed.

Lemma find_sole nodes k m : sole_master nodes k -> nodes !! k = Some m -> List.find IsMaster nodes = Some m.
Proof.
  revert k. induction nodes as [|n nodes IH]; intros k [_ Hu] Hm; [done|]. cbn.
  pose proof (Hu 0%nat n eq_refl) as H0. destruct (IsMaster n).
  - assert (0%nat = k) as <- by (by apply H0). cbn in Hm. by simplify_eq.
  - destruct k as [|k]; [by destruct H0 as [_ H0]; discriminate H0|]. apply (IH k); [|done].
    split; [by exists m|]. intros j x Hj. rewrite (Hu (S j) x Hj). lia.
Qed.

Lemma mapi_map {A B} (f : nat -> A -> B) (g : A -> B) l : (forall i x, l !! i = Some x -> f i x = g x) -> mapi f l = map g l.
Proof.
  intros Hfg. apply list_eq. intros i. rewrite lookup_mapi, list_lookup_fmap.
  destruct (l !! i) as [x|] eqn:E; [|done]. cbn. by rewrite (Hfg i x E).
Qed.

(** The lines of a shard with one master. *)
Lemma shard_lines s :
  shard_ok s -> Forall node_clean (Nodes s) ->
  exists m, GetMasterNode s = Some m /\ token (ID m) = true /\
    ToSlotsString s = inr (String.concat "" (map (fun l => l +:+ nl) (map (fun n => join " " (line_tokens s (ID m) n)) (Nodes s)))).
Proof.
  intros ((k & Hk) & _) Hn. pose proof Hk as [[m Hm] Hu]. rewrite Forall_forall in Hn.
  exists m. split; [by apply (find_sole _ k)|]. split; [apply Hn; by eapply list_elem_of_lookup_2|].
  unfold ToSlotsString. rewrite (master_index_spec 0 _ _ Hk). cbn [Nat.add]. rewrite Hm. cbn [from_option].
  f_equal. f_equal. rewrite map_map. apply mapi_map. intros i n Hi.
  assert (Hc : node_clean n) by (apply Hn; by eapply list_elem_of_lookup_2).
  rewrite <- (line_text s (ID m) n Hc). rewrite !append_assoc.
  assert ((i =? k)%nat = IsMaster n) as ->.
  { apply eq_true_iff_eq. rewrite Nat.eqb_eq. symmetry. by apply Hu. }
  destruct (IsMaster n); rewrite ?append_assoc; done.
Qed.

Lemma concat_strings_app l l' : String.concat "" (l ++ l') = String.concat "" l +:+ String.concat "" l'.
Proof.
  assert (Hc : forall x l, String.concat "" (x :: l) = x +:+ String.concat "" l).
  { intros x [|y r]; cbn; [by rewrite append_nil_r|done]. }
  induction l as [|x l IH]; [done|]. cbn [app]. by rewrite !Hc, IH, append_assoc.
Qed.

(** The lines of a cluster. *)
Definition cluster_lines (shards : list Shard) : list string :=
  concat (map (fun s => map (fun n => join " " (line_tokens s (from_option ID "" (GetMasterNode s)) n)) (Nodes s)) shards).

Lemma to_slot_strings_lines i shards :
  Forall shard_ok shards -> Forall (fun s => Forall node_clean (Nodes s)) shards ->
  to_slot_strings i shards = inr (String.concat "" (map (fun l => l +:+ nl) (cluster_lines shards))).
Proof.
  intros Hs. revert i. induction Hs as [|s shards Hok _ IH]; intros i Hn; [done|].
  inversion Hn as [|?? Hc Hn']; subst. cbn [to_slot_strings]. destruct (shard_lines s Hok Hc) as (m & Hg & _ & ->).
  rewrite (IH (i + 1) Hn'). unfold cluster_lines. cbn [map concat]. rewrite Hg. cbn [from_option].
  by rewrite map_app, concat_strings_app.
Qed.

Lemma join_no_char c l :
  Ascii.eqb c " " = false -> Forall (fun t => any_char (Ascii.eqb c) t = false) l -> any_char (Ascii.eqb c) (join " " l) = false.
Proof.
  intros Hc. induction 1 as [|t l Ht Hl IH]; [done|]. destruct l as [|u l]; [done|].
  change (join " " (t :: u :: l)) with (t +:+ " " +:+ join " " (u :: l)). rewrite !any_char_append, Ht, IH. cbn [any_char].
  by rewrite Hc.
Qed.

Definition clean_shard (s : Shard) : Prop := shard_ok s /\ Forall node_clean (Nodes s).

Lemma clean_master s : clean_shard s -> token (from_option ID "" (GetMasterNode s)) = true.
Proof. intros [Hok Hn]. destruct (shard_lines s Hok Hn) as (m & -> & Ht & _). done. Qed.

Lemma shard_line_clean s n :
  clean_shard s -> n ∈ Nodes s ->
  let line := join " " (line_tokens s (from_option ID "" (GetMasterNode s)) n) in
  any_char (Ascii.eqb "010") line = false /\ nonempty line = true /\
  decode_line line = Some (let '(host, port) := host_port (Addr n) in
    if IsMaster n then MkRow (ID n) host port None (SlotRanges s) else MkRow (ID n) host port (ID <$> GetMasterNode s) []).
Proof.
  intros Hs Hin. pose proof (clean_master s Hs) as Hm. destruct Hs as [Hok Hn]. rewrite Forall_forall in Hn.
  pose proof (Hn n Hin) as Hc. pose proof Hok as (_ & _ & Hr & _). cbv zeta. split_and!.
  - apply join_no_char; [done|]. eapply Forall_impl; [by apply line_tokens_clean|]. intros t Ht. by destruct (token_spec t Ht).
  - destruct Hc as (Hid & _). unfold nonempty, line_tokens. destruct (host_port (Addr n)) as [host port]. cbn [app].
    apply negb_true_iff, String.eqb_neq. by destruct (ID n).
  - rewrite decode_line_tokens by done. destruct (host_port (Addr n)) as [host port]. f_equal. destruct (IsMaster n); [done|].
    f_equal. destruct (shard_lines s Hok) as (m & -> & _); [by apply Forall_forall|done].
Qed.

Lemma mapM_app {A B} (f : A -> option B) l l' r r' : mapM f l = Some r -> mapM f l' = Some r' -> mapM f (l ++ l') = Some (r ++ r').
Proof. rewrite !mapM_Some. apply Forall2_app. Qed.

(** The text of a cluster and what it says. *)
Lemma setnodes_text c :
  Forall clean_shard (Shards c) ->
  exists text, ToSlotString c = inr text /\ decode_setnodes text = Some (cluster_topology c).
Proof.
  intros Hs. assert (Hok : Forall shard_ok (Shards c)) by (eapply Forall_impl; [exact Hs|]; by intros s []).
  assert (Hn : Forall (fun s => Forall node_clean (Nodes s)) (Shards c)) by (eapply Forall_impl; [exact Hs|]; by intros s []).
  eexists. split; [by apply to_slot_strings_lines|].
  assert (Hlines : Forall (fun l => any_char (Ascii.eqb "010") l = false /\ nonempty l = true) (cluster_lines (Shards c)) /\
                   mapM decode_line (cluster_lines (Shards c)) = Some (cluster_topology c)).
  { unfold cluster_topology, cluster_lines. clear Hok Hn. induction Hs as [|s shards Hc _ [IH1 IH2]]; [done|]. cbn [map concat]. split.
    - apply Forall_app. split; [|done]. apply Forall_fmap, Forall_forall. intros n Hin. by destruct (shard_line_clean s n Hc Hin) as (? & ? & _).
    - apply mapM_app; [|done]. apply mapM_Some. unfold shard_topology. apply Forall2_fmap, Forall_Forall2_diag, Forall_forall.
      intros n Hin. destruct (shard_line_clean s n Hc Hin) as (_ & _ & Hd). rewrite Hd. by destruct (host_port (Addr n)). }
  destruct Hlines as [Hl Hd]. unfold decode_setnodes. rewrite (split_lines "010").
  - assert (Hf : List.filter nonempty (cluster_lines (Shards c) ++ [""]) = cluster_lines (Shards c)).
    { rewrite List.filter_app. cbn. rewrite app_nil_r. clear -Hl. induction Hl as [|l ls [_ H] _ IH]; [done|]. cbn. by rewrite H, IH. }
    by rewrite Hf.
  - eapply Forall_impl; [exact Hl|]. by intros l [].
Qed.

(** ** A round in which every node answers *)

Definition behind (w : Replies) (version : Z) (n : GoNode) : bool :=
  match probeNode w n with Alive v => v <? version | NotInitialized => -1 <? version | _ => false end.

Definition current (w : Replies) (version : Z) (n : GoNode) : Prop :=
  match probeNode w n with Alive v => v <= version | NotInitialized => -1 <= version | _ => False end.

Section Round.
Context {E : Type} `{Engine E} (w : Replies) (ns clusterName : string) (maxFailureCount : Z) (cluster : Cluster).

Lemma probe_current text (k : @checker E) i n :
  ToSlotString cluster = inr text -> current w (Version cluster) n ->
  probe_one w ns clusterName maxFailureCount (fun _ => true) cluster k (i, n) =
  resetFailureCount (ID n) (if behind w (Version cluster) n then with_synced (ID n) k else k).
Proof.
  intros Ht Hc. unfold probe_one, current, behind in *. cbv beta zeta. rewrite Ht. destruct (probeNode w n) as [| |err|v]; try done.
  - destruct (Z.ltb_spec (-1) (Version cluster)); [done|]. by rewrite (proj2 (Z.ltb_ge _ _)) by lia.
  - destruct (Z.ltb_spec v (Version cluster)); [done|]. by rewrite (proj2 (Z.ltb_ge _ _)) by lia.
Qed.

Lemma round_current text order (k : @checker E) :
  ToSlotString cluster = inr text -> Forall (fun p => current w (Version cluster) (snd p)) order ->
  let k' := fold_left (probe_one w ns clusterName maxFailureCount (fun _ => true) cluster) order k in
  ck_store k' = ck_store k /\ latestNodeVersion k' = latestNodeVersion k /\ latestClusterNodesStr k' = latestClusterNodesStr k /\
  synced k' = synced k ++ map ID (List.filter (behind w (Version cluster)) (map snd order)) /\
  forall id, failureCounts k' !! id = if bool_decide (id ∈ map ID (map snd order)) then None else failureCounts k !! id.
Proof.
  intros Ht Ho. revert k. induction Ho as [|[i n] order Hn _ IH]; intros k; cbv zeta in *.
  { split_and!; try done. cbn. by rewrite app_nil_r. }
  cbn [fold_left map snd List.filter]. rewrite (probe_current text) by done.
  match goal with |- context [fold_left _ order ?x] => destruct (IH x) as (H1 & H2 & H3 & H4 & H5) end.
  rewrite H1, H2, H3, H4. split_and!; [by destruct (behind _ _ n)..| |].
  - destruct (behind w (Version cluster) n); cbn; [by rewrite <- app_assoc|done].
  - intros id. rewrite H5. repeat case_bool_decide; try done; [set_solver|..].
    + assert (id = ID n) as -> by set_solver. by destruct (behind _ _ n); cbn; rewrite lookup_delete_eq.
    + assert (id <> ID n) by set_solver. by destruct (behind _ _ n); cbn; rewrite lookup_delete_ne.
Qed.
End Round.

Lemma probed_nodes_snd (shards : list Shard) i :
  map snd (concat (mapi_from i (fun i s => map (fun n => (Z.of_nat i, n)) (Nodes s)) shards)) = concat (map Nodes shards).
Proof.
  revert i. induction shards as [|s shards IH]; intros i; [done|]. cbn. rewrite map_app, IH, map_map. f_equal. apply map_id.
Qed.

(** C13. A round of probes in which every node answers, in any order.  No failover
    and no change of the store; the nodes whose version is behind, and no others,
    are sent the topology; every failure count is reset.  What is sent is the
    node's identifier and then a text with the version, and reading the text back
    gives exactly the topology: every node with its address, every replica with its
    master, and every master with the slots of its shard. *)
Theorem nodes_synchronised {E} `{Engine E} w ns name max (cluster : Cluster) (e : E) counts order :
  order ≡ₚ probed_nodes cluster -> Forall clean_shard (Shards cluster) ->
  (forall n, n ∈ GetNodes cluster -> current w (Version cluster) n) ->
  exists k text, parallelProbeNodes w ns name max (fun _ => true) order cluster e counts = Some k /\ ck_store k = e /\
    synced k ≡ₚ map ID (List.filter (behind w (Version cluster)) (GetNodes cluster)) /\
    (forall n, n ∈ GetNodes cluster -> failureCounts k !! ID n = None /\
       SyncClusterInfo (fun _ _ => None) n cluster = ([(ID n, SetNodeID (ID n)); (ID n, SetNodes text (Version cluster))], None)) /\
    decode_setnodes text = Some (cluster_topology cluster).
Proof.
  intros Ho Hs Hc. destruct (setnodes_text cluster Hs) as (text & Ht & Hd).
  assert (Hsnd : map snd order ≡ₚ GetNodes cluster).
  { rewrite Ho. unfold probed_nodes, mapi. by rewrite probed_nodes_snd. }
  assert (Hcur : Forall (fun p => current w (Version cluster) (snd p)) order).
  { apply Forall_forall. intros p Hp. apply Hc. rewrite <- Hsnd. apply list_elem_of_fmap. by exists p. }
  destruct (round_current w ns name max cluster text order (MkChecker e counts 0 "" []) Ht Hcur) as (H1 & H2 & H3 & H4 & H5).
  unfold parallelProbeNodes. cbv zeta. rewrite H2, H3. cbn [latestNodeVersion latestClusterNodesStr]. rewrite andb_false_r.
  eexists _, text. split; [done|]. split; [done|]. split.
  { rewrite H4. cbn [synced app]. apply Permutation_map. by rewrite Hsnd. }
  split; [|done]. intros n Hn. split.
  - rewrite H5. rewrite bool_decide_true; [done|]. rewrite Hsnd. apply list_elem_of_fmap. by exists n.
  - unfold SyncClusterInfo. by rewrite Ht.
Qed.

(** Two nodes are a version behind, the third has not been set up. *)
Definition sync_replies : Replies :=
  MkReplies (fun n => if String.eqb (ID n) "d" then inl ("ERR " +:+ ErrClusterNotInitialized) else inr "cluster_current_epoch:3")
    (fun _ => inl "timeout") (fun _ => inl "timeout") (fun _ _ _ => true).

Lemma demo_clean : Forall clean_shard (Shards demo_cluster).
Proof.
  pose proof (top_shards _ demo_topology) as Hs. rewrite Forall_forall in Hs.
  apply Forall_forall. intros s Hin. split; [by apply Hs|].
  assert (Hc : forall id p r pw t, id <> "" -> token id = true -> token p = true -> node_clean (MkGoNode id ("h:" +:+ p) r pw t)).
  { intros id p r pw t Hid Ht Hp. split; [done|]. split; [done|]. by exists "h", p. }
  unfold demo_cluster in Hin. cbn [Shards] in Hin.
  repeat (apply elem_of_cons in Hin as [->|Hin];
    [cbn [Nodes]; repeat (apply Forall_cons; split; [by apply Hc|]); by constructor|]).
  by apply not_elem_of_nil in Hin.
Qed.

Lemma nodes_synchronised_witness :
  exists k text, parallelProbeNodes sync_replies "ns" "c" 3 (fun _ => true) (rev (probed_nodes demo_cluster)) demo_cluster
      (stored demo_cluster) {["a" := 2]} = Some k /\
    synced k ≡ₚ ["a"; "b"; "d"] /\ decode_setnodes text = Some (cluster_topology demo_cluster).
Proof.
  destruct (nodes_synchronised sync_replies "ns" "c" 3 demo_cluster (stored demo_cluster) {["a" := 2]} (rev (probed_nodes demo_cluster)))
    as (k & text & H1 & _ & H2 & _ & H3).
  - apply Permutation_sym, Permutation_rev.
  - exact demo_clean.
  - intros n Hn. change (GetNodes demo_cluster) with
      [MkGoNode "a" "h:1" "master" "pw" 17; MkGoNode "b" "h:2" "slave" "pw" 17; MkGoNode "d" "h:3" "master" "pw" 18] in Hn.
    repeat (apply elem_of_cons in Hn as [->|Hn]; [vm_compute; discriminate|]). by apply not_elem_of_nil in Hn.
  - exists k, text. split; [exact H1|]. split; [exact H2|exact H3].
Defined.

(** An address with more than one colon is cut at the first: the host of an IPv6
    address and its port do not arrive. *)
Lemma ipv6_cut :
  host_port "[::1]:6379" = ("[", ":1]:6379") /\ replace_colon "[::1]:6379" = "[ :1]:6379".
Proof. done. Qed.
