(* ===== verification/GoServer.v ===== *)
(** * The HTTP API of the server (server/route.go, server/api/, server/middleware/,
    server/helper/)

    One definition per handler and middleware, composed by [serve] the way the
    routes compose them.  A request is answered with a status and a body, or the
    handler panics, which closes the connection.  The server is the leader; what
    the kvrocks nodes reply, the identifiers of new nodes and the time are given
    by [env]. *)

From S2P Require Import Prelude JsString JsNumber JsValue Effects Api Slots GoShard GoCluster GoJson GoEngine GoStore.

Record env := MkEnv { replies : Replies; newID : nat -> string; now : Z; header : string }.

Inductive outcome := Respond (status : Z) (body : value) | Panicked.

(** ** Responses (server/helper/helper.go) *)

Definition responseData (code : Z) (data : value) : outcome := Respond code (VObj [("data", data)]).
Definition ResponseOK : value -> outcome := responseData 200.
Definition ResponseCreated : value -> outcome := responseData 201.
(** A response of status 204 has no body; axios hands out the empty string. *)
Definition ResponseNoContent : outcome := Respond 204 (VStr "").

Definition error_body (e : go_error) : value :=
  VObj [("error", VObj [("message", VStr (err_msg e))]); ("data", VNull)].

Definition ResponseBadRequest (e : go_error) : outcome := Respond 400 (error_body e).

Definition error_code (e : go_error) : Z :=
  match err_is e with
  | Some ErrNotFound => 404
  | Some ErrIndexOutOfRange => 400
  | Some ErrAlreadyExists => 409
  | Some ErrForbidden => 403
  | Some ErrInvalidArgument => 400
  | _ => 500
  end.

(** A panic of the code below the handler ends it before it can respond. *)
Definition ResponseError (e : go_error) : outcome :=
  match err_is e with Some ErrPanic => Panicked | _ => Respond (error_code e) (error_body e) end.

(** ** Bodies *)

(** [c.BindJSON] of a struct: its fields, or the error for a missing body. *)
Definition bind (body : value) : go_error + list (string * value) :=
  match body with VUndefined => inl (errors_New "EOF") | _ => json_object (wire body) end.

Definition dec_strings : list string -> value -> go_error + list string :=
  fun _ => dec_slice (dec_string "").

Record MigrateSlotRequest := MkMigrateReq { Target : Z; Slot : SlotRange; SlotOnly : bool }.

Definition bind_migrate (body : value) : go_error + MigrateSlotRequest :=
  fs ← bind body;
  target ← json_field "target" dec_int 0 fs;
  slot ← json_field "slot" (fun _ => SlotRange_UnmarshalJSON) (MkRange 0 0) fs;
  slotOnly ← json_field "slot_only" dec_bool false fs;
  inr (MkMigrateReq target slot slotOnly).

Record CreateClusterRequest := MkCreateReq {
  req_Name : string; req_Nodes : list string; req_Password : string; req_Replicas : Z }.

Definition bind_create (body : value) : go_error + CreateClusterRequest :=
  fs ← bind body;
  name ← json_field "name" dec_string "" fs;
  nodes ← json_field "nodes" dec_strings [] fs;
  password ← json_field "password" dec_string "" fs;
  replicas ← json_field "replicas" dec_int 0 fs;
  inr (MkCreateReq name nodes password replicas).

(** The anonymous request of import and of shard creation. *)
Definition bind_nodes (body : value) : go_error + (list string * string) :=
  fs ← bind body;
  nodes ← json_field "nodes" dec_strings [] fs;
  password ← json_field "password" dec_string "" fs;
  inr (nodes, password).

(** The address is required; the role defaults to a replica. *)
Definition bind_node (body : value) : go_error + (string * string * string) :=
  fs ← bind body;
  addr ← json_field "addr" dec_string "" fs;
  role ← json_field "role" dec_string "" fs;
  password ← json_field "password" dec_string "" fs;
  if String.eqb addr "" then inl (errors_New "Field validation for 'Addr' failed on the 'required' tag")
  else inr (addr, if String.eqb role "" then RoleSlave else role, password).

Section Server.
Context {E : Type} `{Engine E}.
Implicit Types (e : E) (ns c sh id : string) (body : value).

(** A response, the store afterwards and the events for the controller. *)
Definition handled : Type := outcome * E * list EventPayload.
Definition reply (e : E) (o : outcome) : handled := (o, e, []).

(** ** Namespaces (server/api/namespace.go) *)

Definition Namespace_List e : handled :=
  reply e (ResponseOK (VObj [("namespaces", VArr (map VStr (ListNamespace e)))])).

Definition Namespace_Exists e ns : handled :=
  reply e (if ExistsNamespace e ns then ResponseOK VNull else ResponseError (sentinel ErrNotFound)).

Definition Namespace_Create e body : handled :=
  match (fs ← bind body; json_field "namespace" dec_string "" fs) with
  | inl err => reply e (ResponseBadRequest err)
  | inr ns =>
      if String.eqb ns "" then reply e (ResponseBadRequest (errors_New "namespace should NOT be empty"))
      else match CreateNamespace e ns with
      | inl err => reply e (ResponseError err)
      | inr (e', evs) => (ResponseCreated (VObj [("namespace", VStr ns)]), e', evs)
      end
  end.

Definition Namespace_Remove e ns : handled :=
  match RemoveNamespace e ns with
  | inl err => reply e (ResponseError err)
  | inr (e', evs) => (ResponseNoContent, e', evs)
  end.

(** ** Middleware (server/middleware/middleware.go) *)

Definition RequiredNamespace e ns (next : handled) : handled :=
  if ExistsNamespace e ns then next else reply e (ResponseBadRequest (errors_New "namespace not found")).

Definition RequiredCluster e ns c (next : Cluster -> handled) : handled :=
  match GetCluster e ns c with
  | inl err => reply e (ResponseError err)
  | inr cluster => next cluster
  end.

(** An index that is no number is answered with 400 but the chain goes on: the
    handler behind asks for the cluster that was not set, and panics. *)
Definition RequiredClusterShard e ns c sh (next : Cluster -> Z -> Shard -> handled) : handled :=
  match GetCluster e ns c with
  | inl err => reply e (ResponseError err)
  | inr cluster =>
      match Atoi sh with
      | None => reply e Panicked
      | Some i => match GetShard cluster i with
          | inl err => reply e (ResponseError err)
          | inr shard => next cluster i shard
          end
      end
  end.

(** [handler.s.UpdateCluster] and the response behind it. *)
Definition update e ns (cluster : Cluster) (ok : Cluster -> outcome) : handled :=
  match UpdateCluster e ns cluster with
  | inl err => reply e (ResponseError err)
  | inr (e', cluster', evs) => (ok cluster', e', evs)
  end.

(** ** Clusters (server/api/cluster.go) *)

Definition Cluster_List e ns : handled :=
  reply e (ResponseOK (VObj [("clusters", VArr (map VStr (ListCluster e ns)))])).

Definition Cluster_Get e (cluster : Cluster) : handled := reply e (ResponseOK (VObj [("cluster", cluster_json cluster)])).

(** The first node that is already in cluster mode, or does not answer. *)
Fixpoint check_nodes (w : Replies) (nodes : list GoNode) : option outcome :=
  match nodes with
  | [] => None
  | n :: rest =>
      match CheckClusterMode w n with
      | inl err => Some (ResponseError err)
      | inr version => if negb (version =? -1)
          then Some (ResponseBadRequest (errors_New "node is already in cluster mode"))
          else check_nodes w rest
      end
  end.

Definition Cluster_Create (v : env) e ns body : handled :=
  match bind_create body with
  | inl err => reply e (ResponseBadRequest err)
  | inr req =>
      match CheckNewNodes e (req_Nodes req) with
      | inl err => reply e (ResponseError err)
      | inr _ =>
          match NewCluster (newID v) (now v) (req_Name req) (req_Nodes req) (req_Replicas req) with
          | inl err => reply e (ResponseBadRequest err)
          | inr cluster0 =>
              let cluster := SetPassword (req_Password req) cluster0 in
              let checkClusterMode := String.eqb (toLowerCase (header v)) "yes" in
              match (if checkClusterMode then check_nodes (replies v) (GetNodes cluster) else None) with
              | Some o => reply e o
              | None =>
                  match CreateCluster e ns cluster with
                  | inl err => reply e (ResponseError err)
                  | inr (e', evs) => (ResponseCreated (VObj [("cluster", cluster_json cluster)]), e', evs)
                  end
              end
          end
      end
  end.

Definition Cluster_Remove e ns c : handled :=
  match RemoveCluster e ns c with
  | inl err => reply e (ResponseError err)
  | inr (e', evs) => (ResponseNoContent, e', evs)
  end.

Definition Cluster_MigrateSlot (v : env) e ns c body : handled :=
  match GetCluster e ns c with
  | inl err => reply e (ResponseError err)
  | inr cluster =>
      match bind_migrate body with
      | inl err => reply e (ResponseBadRequest err)
      | inr req =>
          match ClusterMigrateSlot (replies v) (Slot req) (Target req) (SlotOnly req) cluster with
          | inl err => reply e (ResponseError err)
          | inr cluster' => update e ns cluster' (fun cl => ResponseOK (VObj [("cluster", cluster_json cl)]))
          end
      end
  end.

Definition Cluster_Import (v : env) e ns c body : handled :=
  match bind_nodes body with
  | inl err => reply e (ResponseBadRequest err)
  | inr (nodes, password) =>
      match nodes with
      | [] => reply e (ResponseBadRequest (errors_New "nodes should NOT be empty"))
      | first :: _ =>
          let firstNode := NewClusterNode (newID v 0%nat) (now v) first password in
          match (str ← GetClusterNodesString (replies v) firstNode; ParseCluster str) with
          | inl err => reply e (ResponseError err)
          | inr parsed =>
              let cluster := SetPassword password parsed in
              match CheckNewNodes e (map Addr (GetNodes cluster)) with
              | inl err => reply e (ResponseError err)
              | inr _ =>
                  let cluster := MkCluster c (Version cluster) (Shards cluster) in
                  match CreateCluster e ns cluster with
                  | inl err => reply e (ResponseError err)
                  | inr (e', evs) => (ResponseOK (VObj [("cluster", cluster_json cluster)]), e', evs)
                  end
              end
          end
      end
  end.

(** ** Shards (server/api/shard.go) *)

Definition Shard_List e (cluster : Cluster) : handled :=
  reply e (ResponseOK (VObj [("shards", VArr (map shard_json (Shards cluster)))])).

Definition Shard_Get e (shard : Shard) : handled := reply e (ResponseOK (VObj [("shard", shard_json shard)])).

Definition Shard_Create (v : env) e ns (cluster : Cluster) body : handled :=
  match bind_nodes body with
  | inl err => reply e (ResponseBadRequest err)
  | inr (nodes, password) =>
      match nodes with
      | [] => reply e (ResponseBadRequest (errors_New "nodes should NOT be empty"))
      | _ =>
          let shard := newShard (newID v) (now v) nodes password in
          update e ns (appendShard shard cluster) (fun _ => ResponseCreated (VObj [("shard", shard_json shard)]))
      end
  end.

Definition Shard_Remove e ns (cluster : Cluster) sh : handled :=
  match Atoi sh with
  | None => reply e (ResponseBadRequest (errors_New "invalid syntax"))
  | Some i =>
      if (i <? 0) || (Z.of_nat (length (Shards cluster)) <=? i)
      then reply e (ResponseBadRequest (sentinel ErrIndexOutOfRange))
      else match Shards cluster !! Z.to_nat i with
      | None => reply e (ResponseBadRequest (sentinel ErrIndexOutOfRange))
      | Some s => if IsServicing s then reply e (ResponseBadRequest (sentinel ErrShardIsServicing))
          else update e ns (removeShard (Z.to_nat i) cluster) (fun _ => ResponseNoContent)
      end
  end.

Definition Shard_Failover (v : env) e ns (cluster : Cluster) (i : Z) body : handled :=
  match (fs ← bind body; json_field "preferred_node_id" dec_string "" fs) with
  | inl err => reply e (ResponseBadRequest err)
  | inr preferred =>
      if (0 <? String.length preferred)%nat && negb (String.length preferred =? NodeIDLen)%nat
      then reply e (ResponseBadRequest (errors_New ("invalid node id: " +:+ preferred)))
      else match PromoteNewMaster (replies v) i "" preferred cluster with
      | inl err => reply e (ResponseError err)
      | inr (cluster', id) => update e ns cluster' (fun _ => ResponseOK (VObj [("new_master_id", VStr id)]))
      end
  end.

(** ** Nodes (server/api/node.go) *)

Definition Node_List e (shard : Shard) : handled :=
  reply e (ResponseOK (VObj [("nodes", VArr (map node_json (Nodes shard)))])).

Definition Node_Create (v : env) e ns (cluster : Cluster) (i : Z) body : handled :=
  match bind_node body with
  | inl err => reply e (ResponseBadRequest err)
  | inr (addr, role, password) =>
      match AddNode (newID v 0%nat) (now v) i addr role password cluster with
      | inl err => reply e (ResponseError err)
      | inr (cluster', node) => update e ns cluster' (fun _ => ResponseCreated (VStr (ID node)))
      end
  end.

Definition Node_Remove e ns (cluster : Cluster) (i : Z) id : handled :=
  match RemoveNode i id cluster with
  | inl err => reply e (ResponseError err)
  | inr (cluster', _) => update e ns cluster' (fun _ => ResponseNoContent)
  end.
End Server.

(** ** Routes (server/route.go) *)

Inductive route :=
| RtNamespaceList | RtNamespaceExists (ns : string) | RtNamespaceCreate | RtNamespaceRemove (ns : string)
| RtClusterList (ns : string) | RtClusterCreate (ns : string) | RtClusterImport (ns c : string)
| RtClusterGet (ns c : string) | RtClusterRemove (ns c : string) | RtClusterMigrate (ns c : string)
| RtShardList (ns c : string) | RtShardCreate (ns c : string) | RtShardGet (ns c sh : string)
| RtShardRemove (ns c sh : string) | RtShardFailover (ns c sh : string)
| RtNodeList (ns c sh : string) | RtNodeCreate (ns c sh : string) | RtNodeRemove (ns c sh id : string).

Definition params (r : route) : list string :=
  match r with
  | RtNamespaceList | RtNamespaceCreate => []
  | RtNamespaceExists ns | RtNamespaceRemove ns | RtClusterList ns | RtClusterCreate ns => [ns]
  | RtClusterImport ns c | RtClusterGet ns c | RtClusterRemove ns c | RtClusterMigrate ns c
  | RtShardList ns c | RtShardCreate ns c => [ns; c]
  | RtShardGet ns c sh | RtShardRemove ns c sh | RtShardFailover ns c sh
  | RtNodeList ns c sh | RtNodeCreate ns c sh => [ns; c; sh]
  | RtNodeRemove ns c sh id => [ns; c; sh; id]
  end.

(** The route of a method and the segments behind /api/v1/. *)
Definition match_route (m : meth) (segs : list string) : option route :=
  match m, segs with
  | GET, ["namespaces"] => Some RtNamespaceList
  | GET, ["namespaces"; ns] => Some (RtNamespaceExists ns)
  | POST, ["namespaces"] => Some RtNamespaceCreate
  | DELETE, ["namespaces"; ns] => Some (RtNamespaceRemove ns)
  | GET, ["namespaces"; ns; "clusters"] => Some (RtClusterList ns)
  | POST, ["namespaces"; ns; "clusters"] => Some (RtClusterCreate ns)
  | POST, ["namespaces"; ns; "clusters"; c; "import"] => Some (RtClusterImport ns c)
  | GET, ["namespaces"; ns; "clusters"; c] => Some (RtClusterGet ns c)
  | DELETE, ["namespaces"; ns; "clusters"; c] => Some (RtClusterRemove ns c)
  | POST, ["namespaces"; ns; "clusters"; c; "migrate"] => Some (RtClusterMigrate ns c)
  | GET, ["namespaces"; ns; "clusters"; c; "shards"] => Some (RtShardList ns c)
  | POST, ["namespaces"; ns; "clusters"; c; "shards"] => Some (RtShardCreate ns c)
  | GET, ["namespaces"; ns; "clusters"; c; "shards"; sh] => Some (RtShardGet ns c sh)
  | DELETE, ["namespaces"; ns; "clusters"; c; "shards"; sh] => Some (RtShardRemove ns c sh)
  | POST, ["namespaces"; ns; "clusters"; c; "shards"; sh; "failover"] => Some (RtShardFailover ns c sh)
  | GET, ["namespaces"; ns; "clusters"; c; "shards"; sh; "nodes"] => Some (RtNodeList ns c sh)
  | POST, ["namespaces"; ns; "clusters"; c; "shards"; sh; "nodes"] => Some (RtNodeCreate ns c sh)
  | DELETE, ["namespaces"; ns; "clusters"; c; "shards"; sh; "nodes"; id] => Some (RtNodeRemove ns c sh id)
  | _, _ => None
  end.

(** The route of a path, the one net/http has parsed from the address (without
    query and fragment, escapes decoded: [deliver] of Url.v).  A parameter of a
    route does not match an empty segment. *)
Definition dispatch (m : meth) (path : string) : option route :=
  match split "/" path with
  | "" :: "api" :: "v1" :: segs =>
      r ← match_route m segs;
      if forallb (fun p => negb (String.eqb p "")) (params r) then Some r else None
  | _ => None
  end.

Section Serve.
Context {E : Type} `{Engine E}.

(** The middleware of a route and its handler. *)
Definition handle (v : env) (e : E) (r : route) (body : value) : handled :=
  match r with
  | RtNamespaceList => Namespace_List e
  | RtNamespaceExists ns => Namespace_Exists e ns
  | RtNamespaceCreate => Namespace_Create e body
  | RtNamespaceRemove ns => Namespace_Remove e ns
  | RtClusterList ns => RequiredNamespace e ns (Cluster_List e ns)
  | RtClusterCreate ns => RequiredNamespace e ns (Cluster_Create v e ns body)
  | RtClusterImport ns c => RequiredNamespace e ns (Cluster_Import v e ns c body)
  | RtClusterGet ns c => RequiredCluster e ns c (Cluster_Get e)
  | RtClusterRemove ns c => RequiredCluster e ns c (fun _ => Cluster_Remove e ns c)
  | RtClusterMigrate ns c => Cluster_MigrateSlot v e ns c body
  | RtShardList ns c => RequiredCluster e ns c (Shard_List e)
  | RtShardCreate ns c => RequiredCluster e ns c (fun cl => Shard_Create v e ns cl body)
  | RtShardGet ns c sh => RequiredClusterShard e ns c sh (fun _ _ shard => Shard_Get e shard)
  | RtShardRemove ns c sh => RequiredCluster e ns c (fun cl => Shard_Remove e ns cl sh)
  | RtShardFailover ns c sh => RequiredClusterShard e ns c sh (fun cl i _ => Shard_Failover v e ns cl i body)
  | RtNodeList ns c sh => RequiredClusterShard e ns c sh (fun _ _ shard => Node_List e shard)
  | RtNodeCreate ns c sh => RequiredClusterShard e ns c sh (fun cl i _ => Node_Create v e ns cl i body)
  | RtNodeRemove ns c sh id => RequiredClusterShard e ns c sh (fun cl i _ => Node_Remove e ns cl i id)
  end.

(** What axios makes of the answer. *)
Definition to_axios (o : outcome) : axios_result :=
  match o with
  | Respond status body =>
      if (200 <=? status) && (status <? 300) then Resolved body
      else Rejected (AxiosErr (Some body) ("Request failed with status code " +:+ Z_to_string status))
  | Panicked => Rejected (AxiosErr None "Network Error")
  end.

(** A request of the web UI, which sends no header of its own. *)
Definition serve (v : env) (e : E) (q : request) : axios_result * E :=
  match dispatch (r_method q) (r_path q) with
  | None => (to_axios (ResponseError (sentinel ErrNotFound)), e)
  | Some r => let '(o, e', _) := handle (MkEnv (replies v) (newID v) (now v) "") e r (r_body q) in (to_axios o, e')
  end.

(** ** Reading *)

(** A GET changes nothing. *)
Lemma get_keeps v e r body :
  match r with
  | RtNamespaceList | RtNamespaceExists _ | RtClusterList _ | RtClusterGet _ _ | RtShardList _ _
  | RtShardGet _ _ _ | RtNodeList _ _ _ => exists o, handle v e r body = (o, e, [])
  | _ => True
  end.
Proof.
  destruct r; try exact I; cbn [handle]; unfold RequiredNamespace, RequiredCluster, RequiredClusterShard;
    repeat case_match; by eexists.
Qed.

Lemma match_route_get segs r : match_route GET segs = Some r ->
  match r with
  | RtNamespaceList | RtNamespaceExists _ | RtClusterList _ | RtClusterGet _ _ | RtShardList _ _
  | RtShardGet _ _ _ | RtNodeList _ _ _ => True
  | _ => False
  end.
Proof. unfold match_route. intros Hm. repeat (case_match; simplify_eq; try done). Qed.

(** ** The contract of the interface *)

(** The status of a successful answer of each route. *)
Definition success_code (r : route) : Z :=
  match r with
  | RtNamespaceCreate | RtClusterCreate _ | RtShardCreate _ _ | RtNodeCreate _ _ _ => 201
  | RtNamespaceRemove _ | RtClusterRemove _ _ | RtShardRemove _ _ _ | RtNodeRemove _ _ _ _ => 204
  | _ => 200
  end.

(** The type of what it carries under [data]. *)
Definition data_type (r : route) (d : value) : Prop :=
  match r with
  | RtNamespaceList => exists l, d = VObj [("namespaces", VArr (map VStr l))]
  | RtNamespaceExists _ => d = VNull
  | RtNamespaceCreate => exists ns, ns <> "" /\ d = VObj [("namespace", VStr ns)]
  | RtClusterList _ => exists l, d = VObj [("clusters", VArr (map VStr l))]
  | RtClusterImport _ c => exists cl, Name cl = c /\ d = VObj [("cluster", cluster_json cl)]
  | RtClusterCreate _ | RtClusterGet _ _ | RtClusterMigrate _ _ => exists cl, d = VObj [("cluster", cluster_json cl)]
  | RtShardList _ _ => exists l, d = VObj [("shards", VArr (map shard_json l))]
  | RtShardGet _ _ _ | RtShardCreate _ _ => exists s, d = VObj [("shard", shard_json s)]
  | RtShardFailover _ _ _ => exists id, d = VObj [("new_master_id", VStr id)]
  | RtNodeList _ _ _ => exists l, d = VObj [("nodes", VArr (map node_json l))]
  | RtNodeCreate _ _ _ => exists id, d = VStr id
  | _ => False
  end.

Definition error_codes : list Z := [400; 403; 404; 409; 500].

(** An answer to [r], on a store that was [e]. *)
Definition well_typed (r : route) (e : E) (h : handled) : Prop :=
  match h with
  | (Respond status body, e', evs) =>
      if status <? 300
      then status = success_code r /\
      if status =? 204 then body = VStr "" else exists d, body = VObj [("data", d)] /\ data_type r d
      else e' = e /\ evs = [] /\ In status error_codes /\ exists err, body = error_body err
  | (Panicked, e', evs) => e' = e /\ evs = []
  end.

Definition failing (o : outcome) : Prop :=
  match o with
  | Respond status body => In status error_codes /\ exists err, body = error_body err
  | Panicked => True
  end.

Lemma failing_error err : failing (ResponseError err).
Proof.
  unfold ResponseError, error_code. destruct (err_is err) as [[]|]; cbn; try done; (split; [tauto|by exists err]).
Qed.

Lemma failing_bad err : failing (ResponseBadRequest err).
Proof. split; [by left|by exists err]. Qed.

Lemma check_nodes_failing w nodes o : check_nodes w nodes = Some o -> failing o.
Proof.
  induction nodes as [|n nodes IH]; [done|]. cbn [check_nodes]. destruct (CheckClusterMode w n) as [err|version].
  - intros [= <-]. apply failing_error.
  - destruct (negb _); [intros [= <-]; apply failing_bad|done].
Qed.

Lemma well_typed_failing r e o : failing o -> well_typed r e (reply e o).
Proof.
  unfold reply, well_typed. destruct o as [status body|]; [|done]. intros [Hs Hb].
  assert (status <? 300 = false) as ->; [|done].
  destruct Hs as [<-|[<-|[<-|[<-|[<-|[]]]]]]; done.
Qed.

Lemma well_typed_update r e ns cl ok :
  (forall cl' e' evs, well_typed r e (ok cl', e', evs)) -> well_typed r e (update e ns cl ok).
Proof. intros Hok. unfold update. destruct (UpdateCluster e ns cl) as [err|[[e' cl'] evs]]; [apply well_typed_failing, failing_error|done]. Qed.

(** Follow the branches of a handler; errors leave by the lemmas above. *)
Ltac typed_steps :=
  repeat first
  [ apply well_typed_update; intros
  | apply well_typed_failing; first [apply failing_error | apply failing_bad | exact I | eapply check_nodes_failing; eassumption | discriminate]
  | case_match ].

Lemma handle_typed v e r body : well_typed r e (handle v e r body).
Proof.
  destruct r; cbn [handle];
    unfold RequiredNamespace, RequiredCluster, RequiredClusterShard, Namespace_List, Namespace_Exists, Namespace_Create,
    Namespace_Remove, Cluster_List, Cluster_Get, Cluster_Create, Cluster_Remove, Cluster_MigrateSlot, Cluster_Import,
    Shard_List, Shard_Get, Shard_Create, Shard_Remove, Shard_Failover, Node_List, Node_Create, Node_Remove;
    typed_steps; cbn -[cluster_json shard_json node_json]; eauto 10.
  - split; [done|]. eexists. split; [done|]. eexists. split; [|done]. by apply String.eqb_neq.
  - split; [done|]. eexists. split; [done|]. eexists. by split; [|done].
Qed.

(** C19. Every answer of the server has the type its route promises, whatever the
    request, the store and the replies of the nodes.  A success has the one status
    of its route (201 for creations, 204 without a body for removals, 200 for the
    others) and carries the named field of that route with a value of its type; a
    failure has one of five statuses and an error message, and a request that
    fails, or whose handler panics, has changed nothing in the store and sent no
    event. *)
Theorem responses_typed v e r body : well_typed r e (handle v e r body).
Proof. apply handle_typed. Qed.
End Serve.
