(* ===== verification/GoRaft.v ===== *)
(** * The raft engine (store/engine/raft/: store.go, node.go, config.go)

    A node of the raft engine keeps the key-value store in memory, applies the
    entries that the raft library commits, writes snapshots, installs the
    snapshots of others, and replays its log when it starts.  The library, its
    log files, its transport and its storage are not under src/: what they answer
    ([Ready] values, loaded files, errors of writing) are arguments of the
    definitions.  The theorem of this file is the convergence of the replicas. *)

From S2P Require Import Prelude JsString JsNumber JsValue Effects Api Slots GoShard GoCluster GoJson GoEngine GoStore.

Definition uint64 (z : Z) : Z := z mod 2 ^ 64.

(** ** Events and entries *)

Definition opGet : Z := 1.
Definition opSet : Z := 2.
Definition opDelete : Z := 3.

Record Event := MkOp { Op : Z; Key : string; Value : blob }.

Inductive ConfChangeType := ConfChangeAddNode | ConfChangeRemoveNode | ConfChangeUpdateNode | ConfChangeAddLearnerNode.
Record ConfChange := MkConf { cc_Type : ConfChangeType; cc_NodeID : Z; cc_Context : string }.

Inductive EntryType := EntryNormal | EntryConfChange | EntryConfChangeV2.

(** The bytes of an entry: none, an event in JSON, a change of the configuration
    in protobuf, or bytes neither decoder takes. *)
Inductive entry_data := NoBytes | EventBytes (e : Event) | ConfBytes (cc : ConfChange) | OtherBytes.
Record Entry := MkEntry { Index : Z; Type_ : EntryType; Data : entry_data }.

(** The texts of the decoders' errors are not modelled. *)
Definition unmarshal_event (d : entry_data) : go_error + Event :=
  match d with EventBytes e => inr e | _ => inl (errors_New "json") end.

(** The protobuf of no bytes is the zero value. *)
Definition unmarshal_conf (d : entry_data) : go_error + ConfChange :=
  match d with
  | NoBytes => inr (MkConf ConfChangeAddNode 0 "")
  | ConfBytes cc => inr cc
  | _ => inl (errors_New "proto")
  end.

(** ** The data store (store.go) *)

Definition ds_Set (ds : gmap string blob) (key : string) (v : blob) : gmap string blob := <[key := v]> ds.
Definition ds_Delete (ds : gmap string blob) (key : string) : gmap string blob := delete key ds.

Definition applyDataEntry (ds : gmap string blob) (entry : Entry) : go_error + gmap string blob :=
  match Type_ entry, Data entry with
  | EntryNormal, NoBytes => inr ds
  | EntryNormal, d =>
      match unmarshal_event d with
      | inl err => inl err
      | inr e =>
          if Op e =? opSet then inr (ds_Set ds (Key e) (Value e))
          else if Op e =? opDelete then inr (ds_Delete ds (Key e))
          else if Op e =? opGet then inr ds
          else inl (errors_New ("unknown operation type: " +:+ Z_to_string (Op e)))
      end
  | _, _ => inr ds
  end.

(** ** The configuration (config.go) *)

Definition ClusterStateNew : string := "new".
Definition ClusterStateExisting : string := "existing".

Record Config := MkConfig {
  cfg_ID : Z; cfg_DataDir : string; cfg_ClusterState : string; cfg_Peers : list string;
  cfg_HeartbeatSeconds : Z; cfg_ElectionSeconds : Z }.

Definition config_validate (c : Config) : option go_error :=
  if cfg_ID c =? 0 then Some (errors_New "ID cannot be 0")
  else if (length (cfg_Peers c) =? 0)%nat then Some (errors_New "peers cannot be empty")
  else if Z.of_nat (length (cfg_Peers c)) <? cfg_ID c
  then Some (errors_New "ID cannot be greater than the number of peers")
  else let clusterState := toLowerCase (cfg_ClusterState c) in
       if negb (String.eqb clusterState ClusterStateNew) && negb (String.eqb clusterState ClusterStateExisting)
       then Some (errors_New "cluster state must be one of [new, existing]")
       else None.

Definition config_init (c : Config) : Config :=
  let heartbeat := if cfg_HeartbeatSeconds c =? 0 then 2 else cfg_HeartbeatSeconds c in
  MkConfig (cfg_ID c) (if String.eqb (cfg_DataDir c) "" then "." else cfg_DataDir c) ClusterStateNew (cfg_Peers c)
    heartbeat (if cfg_ElectionSeconds c =? 0 then heartbeat * 10 else cfg_ElectionSeconds c).

(** ** Nodes (node.go) *)

(** What a node asks of the transport and of the storage of the library. *)
Inductive lib_call :=
| AddPeerCall (id : Z) (url : string) | RemovePeerCall (id : Z) | UpdatePeerCall (id : Z) (url : string)
| CompactCall (i : Z).

Inductive start_mode := StartNode (peers : list (Z * string)) | RestartNode.

Definition defaultSnapshotThreshold : Z := 10000.
Definition defaultCompactThreshold : Z := 1024.

Section Node.
Context {ConfState : Type} (noConf : ConfState) (ApplyConfChange : ConfState -> ConfChange -> ConfState).

(** A snapshot: [snap_Data] is [None] when its bytes are not the JSON of a map.
    The one of index 0 is empty. *)
Record Snapshot := MkSnap { snap_Index : Z; snap_Conf : ConfState; snap_Data : option (gmap string blob) }.

Definition emptySnapshot : Snapshot := MkSnap 0 noConf None.
Definition IsEmptySnap (s : Snapshot) : bool := snap_Index s =? 0.

(** [files] are the snapshot files, oldest first, [storage] the snapshot of the library's
    storage, which the library sends to followers. *)
Record RaftNode := MkNode {
  config : Config; kvs : gmap string blob; n_peers : gmap Z string; confState : ConfState;
  appliedIndex : Z; snapshotIndex : Z; snapshotThreshold : Z; compactThreshold : Z; isRunning : bool;
  files : list Snapshot; storage : option Snapshot; calls : list lib_call; started : start_mode }.

Implicit Types (n : RaftNode) (s : Snapshot).

Definition set_kvs m n : RaftNode :=
  MkNode (config n) m (n_peers n) (confState n) (appliedIndex n) (snapshotIndex n) (snapshotThreshold n)
  (compactThreshold n) (isRunning n) (files n) (storage n) (calls n) (started n).
Definition set_peers p n : RaftNode :=
  MkNode (config n) (kvs n) p (confState n) (appliedIndex n) (snapshotIndex n) (snapshotThreshold n)
  (compactThreshold n) (isRunning n) (files n) (storage n) (calls n) (started n).
Definition set_conf c n : RaftNode :=
  MkNode (config n) (kvs n) (n_peers n) c (appliedIndex n) (snapshotIndex n) (snapshotThreshold n)
  (compactThreshold n) (isRunning n) (files n) (storage n) (calls n) (started n).
Definition set_applied i n : RaftNode :=
  MkNode (config n) (kvs n) (n_peers n) (confState n) i (snapshotIndex n) (snapshotThreshold n)
  (compactThreshold n) (isRunning n) (files n) (storage n) (calls n) (started n).
Definition set_snapshotIndex i n : RaftNode :=
  MkNode (config n) (kvs n) (n_peers n) (confState n) (appliedIndex n) i (snapshotThreshold n)
  (compactThreshold n) (isRunning n) (files n) (storage n) (calls n) (started n).
Definition set_running b n : RaftNode :=
  MkNode (config n) (kvs n) (n_peers n) (confState n) (appliedIndex n) (snapshotIndex n) (snapshotThreshold n)
  (compactThreshold n) b (files n) (storage n) (calls n) (started n).
Definition set_files x n : RaftNode :=
  MkNode (config n) (kvs n) (n_peers n) (confState n) (appliedIndex n) (snapshotIndex n) (snapshotThreshold n)
  (compactThreshold n) (isRunning n) x (storage n) (calls n) (started n).
Definition set_storage x n : RaftNode :=
  MkNode (config n) (kvs n) (n_peers n) (confState n) (appliedIndex n) (snapshotIndex n) (snapshotThreshold n)
  (compactThreshold n) (isRunning n) (files n) x (calls n) (started n).
Definition call c n : RaftNode :=
  MkNode (config n) (kvs n) (n_peers n) (confState n) (appliedIndex n) (snapshotIndex n) (snapshotThreshold n)
  (compactThreshold n) (isRunning n) (files n) (storage n) (calls n ++ [c]) (started n).
Definition SetSnapshotThreshold t n : RaftNode :=
  MkNode (config n) (kvs n) (n_peers n) (confState n) (appliedIndex n) (snapshotIndex n) t
  (compactThreshold n) (isRunning n) (files n) (storage n) (calls n) (started n).

(** An older snapshot does not replace a newer one. *)
Definition newer (old : option Snapshot) s : option Snapshot :=
  match old with Some s' => if snap_Index s <? snap_Index s' then old else Some s | None => Some s end.

(** [snapshotter.Load] *)
Definition newest (fs : list Snapshot) : option Snapshot := fold_left newer fs None.

Definition ListPeers n : gmap Z string := n_peers n.

(** A step of the loop returns, with the error it would log, or it waits for ever. *)
Inductive applied := Applied (n : RaftNode) (err : option go_error) | Blocked (n : RaftNode).

Definition node_of (a : applied) : RaftNode := match a with Applied n _ | Blocked n => n end.

(** [closeErr] is the error of closing the HTTP server.  [own] says that the
    caller is one of the goroutines the last line waits for. *)
Definition Close (own : bool) (closeErr : option go_error) n : applied :=
  if negb (isRunning n) then Applied n None
  else let n := set_running false n in
  match closeErr with
  | Some err => Applied n (Some err)
  | None => if own then Blocked n else Applied n None
  end.

(** The outcome of writing a snapshot: [SaveSnapFailed] leaves no file,
    [MarkFailed] leaves the file: the log could not be told, or not released. *)
Inductive save_io := SaveOk | SaveSnapFailed (err : go_error) | MarkFailed (err : go_error).

Definition saveSnapshot n s (io : save_io) : RaftNode * option go_error :=
  match io with
  | SaveSnapFailed err => (n, Some err)
  | MarkFailed err => (set_files (files n ++ [s]) n, Some err)
  | SaveOk => (set_files (files n ++ [s]) n, None)
  end.

(** [loadErr] is an error of reading the newest file. *)
Definition reloadSnapshot n (loadErr : option go_error) : go_error + RaftNode :=
  match newest (files n), loadErr with
  | None, _ => inr n
  | Some _, Some err => inl err
  | Some s, None => match snap_Data s with
      | None => inl (errors_New "json")
      | Some m => inr (set_kvs m n)
      end
  end.

Definition applySnapshot n s (loadErr : option go_error) : RaftNode * option go_error :=
  if IsEmptySnap s then (n, None)
  else
  let n := set_storage (newer (storage n) s) n in
  if snap_Index s <=? appliedIndex n
  then (n, Some (errors_New ("snapshot index [" +:+ Z_to_string (snap_Index s) +:+
  "] should be greater than applied index [" +:+ Z_to_string (appliedIndex n) +:+ "]")))
  else match reloadSnapshot n loadErr with
  | inl err => (n, Some err)
  | inr n => (set_snapshotIndex (snap_Index s) (set_applied (snap_Index s) (set_conf (snap_Conf s) n)), None)
  end.

Definition applyConf closeErr n (cc : ConfChange) : applied :=
  let n := set_conf (ApplyConfChange (confState n) cc) n in
  match cc_Type cc with
  | ConfChangeAddNode =>
      if negb (cc_NodeID cc =? cfg_ID (config n)) && negb (String.eqb (cc_Context cc) "")
      then Applied (set_peers (<[cc_NodeID cc := cc_Context cc]> (n_peers n))
      (call (AddPeerCall (cc_NodeID cc) (cc_Context cc)) n)) None
      else Applied n None
  | ConfChangeRemoveNode =>
      if cc_NodeID cc =? cfg_ID (config n)
      then match Close true closeErr n with Applied n _ => Applied n None | Blocked n => Blocked n end
      else Applied (set_peers (delete (cc_NodeID cc) (n_peers n)) (call (RemovePeerCall (cc_NodeID cc)) n)) None
  | ConfChangeUpdateNode =>
      let n := call (UpdatePeerCall (cc_NodeID cc) (cc_Context cc)) n in
      match n_peers n !! cc_NodeID cc with
      | Some _ => Applied (set_peers (<[cc_NodeID cc := cc_Context cc]> (n_peers n)) n) None
      | None => Applied n None
      end
  | ConfChangeAddLearnerNode => Applied n None
  end.

Definition applyEntry closeErr n (entry : Entry) : applied :=
  match Type_ entry with
  | EntryNormal => match applyDataEntry (kvs n) entry with
      | inl err => Applied n (Some err)
      | inr m => Applied (set_kvs m n) None
      end
  | EntryConfChangeV2 | EntryConfChange =>
      match unmarshal_conf (Data entry) with
      | inl err => Applied n (Some err)
      | inr cc => applyConf closeErr n cc
      end
  end.

(** The loop of [applyEntries]: errors are logged. *)
Fixpoint applyLoop closeErr n (entries : list Entry) : applied :=
  match entries with
  | [] => Applied n None
  | entry :: entries' => match applyEntry closeErr n entry with
      | Applied n' _ => applyLoop closeErr n' entries'
      | Blocked n' => Blocked n'
      end
  end.

Definition applyEntries closeErr n (entries : list Entry) : applied :=
  match entries with
  | [] => Applied n None
  | first :: _ =>
      if uint64 (appliedIndex n + 1) <? Index first then Applied n None
      else
      let done := uint64 (appliedIndex n - Index first + 1) in
      let entries := if done <? Z.of_nat (length entries) then drop (Z.to_nat done) entries else entries in
      match applyLoop closeErr n entries with
      | Applied n' _ => Applied (set_applied (Index (List.last entries first)) n') None
      | Blocked n' => Blocked n'
      end
  end.

(** The errors of the library during a snapshot; [compactErr] is one other than
    [ErrCompacted]. *)
Record trigger_io := MkTrigger { createErr : option go_error; saveIO : save_io; compactErr : option go_error }.

Definition compactIndex n : Z :=
  if compactThreshold n <? appliedIndex n then uint64 (appliedIndex n - compactThreshold n) else 1.

Definition triggerSnapshotIfNeed n (io : trigger_io) : RaftNode * option go_error :=
  if uint64 (appliedIndex n - snapshotIndex n) <=? snapshotThreshold n then (n, None)
  else match createErr io with
  | Some err => (n, Some err)
  | None =>
      let snap := MkSnap (appliedIndex n) (confState n) (Some (kvs n)) in
      match saveSnapshot (set_storage (Some snap) n) snap (saveIO io) with
      | (n, Some err) => (n, Some err)
      | (n, None) =>
          let n := call (CompactCall (compactIndex n)) n in
          match compactErr io with
          | Some err => (n, Some err)
          | None => (set_snapshotIndex (appliedIndex n) n, None)
          end
      end
  end.

(** What the library hands over: a snapshot of the leader, or the empty one, and
    committed entries.  Its new entries, hard state and messages go to the log and
    the transport of the library. *)
Record Ready := MkReady { rd_Snapshot : Snapshot; rd_CommittedEntries : list Entry }.

Record ready_io := MkReadyIO {
  rd_save : save_io; rd_load : option go_error; rd_close : option go_error; rd_trigger : trigger_io }.

Definition handleReady n (rd : Ready) (io : ready_io) : applied :=
  let n := if IsEmptySnap (rd_Snapshot rd) then n else fst (saveSnapshot n (rd_Snapshot rd) (rd_save io)) in
  let n := fst (applySnapshot n (rd_Snapshot rd) (rd_load io)) in
  match applyEntries (rd_close io) n (rd_CommittedEntries rd) with
  | Blocked n => Blocked n
  | Applied n _ => Applied (fst (triggerSnapshotIfNeed n (rd_trigger io))) None
  end.

(** ** Starting *)

(** What the library reads when a node starts: the newest snapshot the log has a
    record of, the entries after it, and whether a log was there; and its errors,
    [b_transportErr] being the one of [runTransport]. *)
Record boot := MkBoot {
  b_walExists : bool; b_available : go_error + option Snapshot; b_openErr : option go_error;
  b_read : go_error + list Entry; b_hardErr : option go_error; b_appendErr : option go_error;
  b_loadErr : option go_error;
  b_transportErr : option go_error }.

Definition loadSnapshotFromDisk (b : boot) : go_error + Snapshot :=
  if negb (b_walExists b) then inr emptySnapshot
  else match b_available b with
  | inl err => inl err
  | inr None => inr emptySnapshot
  | inr (Some s) => inr s
  end.

Fixpoint applyDataEntries (m : gmap string blob) (entries : list Entry) : go_error + gmap string blob :=
  match entries with
  | [] => inr m
  | entry :: entries' => match applyDataEntry m entry with
      | inl err => inl (wrapped "failed to apply data entry: " err "")
      | inr m' => applyDataEntries m' entries'
      end
  end.

Definition replayWAL n (b : boot) : go_error + (RaftNode * Snapshot) :=
  match loadSnapshotFromDisk b with
  | inl err => inl (wrapped "failed to load newest snapshot: " err "")
  | inr snapshot =>
      match b_openErr b, b_read b, b_hardErr b, b_appendErr b with
      | Some err, _, _, _ => inl (wrapped "failed to open WAL: " err "")
      | None, inl err, _, _ => inl (wrapped "failed to read WAL: " err "")
      | None, inr _, Some err, _ => inl (wrapped "failed to set hard state: " err "")
      | None, inr _, None, Some err => inl (wrapped "failed to append entries: " err "")
      | None, inr entries, None, None =>
          let n := if IsEmptySnap snapshot then n else set_storage (newer (storage n) snapshot) n in
          match reloadSnapshot n (b_loadErr b) with
          | inl err => inl (wrapped "failed to reload snapshot: " err "")
          | inr n => match applyDataEntries (kvs n) entries with
              | inl err => inl err
              | inr m => inr (set_kvs m n, snapshot)
              end
          end
      end
  end.

(** The peers of the configuration, numbered from 1. *)
Definition config_peers (c : Config) : list (Z * string) :=
  imap (fun i peer => (Z.of_nat i + 1, peer)) (cfg_Peers c).

Definition runTransport n : RaftNode :=
  fold_left (fun n '(id, peer) =>
  let n := if id =? cfg_ID (config n) then n else call (AddPeerCall id peer) n in
  set_peers (<[id := peer]> (n_peers n)) n) (config_peers (config n)) n.

(** [fs] are the snapshot files of the data directory. *)
Definition NewNode (c : Config) (fs : list Snapshot) : RaftNode :=
  MkNode c ∅ ∅ noConf 0 0 defaultSnapshotThreshold defaultCompactThreshold false fs None [] RestartNode.

Definition run n (b : boot) : go_error + RaftNode :=
  if isRunning n then inr n
  else match replayWAL (set_running true n) b with
  | inl err => inl err
  | inr (n, snapshot) =>
      let n := set_conf (snap_Conf snapshot) (set_snapshotIndex (snap_Index snapshot) (set_applied (snap_Index snapshot) n)) in
      let mode := if String.eqb (cfg_ClusterState (config n)) ClusterStateExisting || b_walExists b
      then RestartNode else StartNode (config_peers (config n)) in
      let n := MkNode (config n) (kvs n) (n_peers n) (confState n) (appliedIndex n) (snapshotIndex n)
      (snapshotThreshold n) (compactThreshold n) (isRunning n) (files n) (storage n) (calls n) mode in
      match b_transportErr b with Some err => inl err | None => inr (runTransport n) end
  end.

Definition New (c : Config) (fs : list Snapshot) (b : boot) : go_error + RaftNode :=
  let c := config_init c in
  match config_validate c with Some err => inl err | None => run (NewNode c fs) b end.
End Node.

Arguments Snapshot : clear implicits.
Arguments RaftNode : clear implicits.
Arguments Ready : clear implicits.
Arguments applied : clear implicits.
Arguments boot : clear implicits.
Arguments Applied {ConfState}.
Arguments Blocked {ConfState}.

(** ** The state of a log *)

(** The key an entry writes, and what is under it then. *)
Definition entry_write (entry : Entry) : option (string * option blob) :=
  match Type_ entry, Data entry with
  | EntryNormal, EventBytes e =>
      if Op e =? opSet then Some (Key e, Some (Value e))
      else if Op e =? opDelete then Some (Key e, None)
      else None
  | _, _ => None
  end.

Definition writes (k : string) (entry : Entry) : bool :=
  match entry_write entry with Some (k', _) => String.eqb k' k | None => false end.

Definition touched (k : string) (entries : list Entry) : bool := existsb (writes k) entries.

(** An entry that cannot be applied is skipped. *)
Definition apply_or_skip (m : gmap string blob) (entry : Entry) : gmap string blob :=
  match applyDataEntry m entry with inr m' => m' | inl _ => m end.

Definition replay (m : gmap string blob) (entries : list Entry) : gmap string blob := fold_left apply_or_skip entries m.

Lemma apply_or_skip_lookup m entry k :
  apply_or_skip m entry !! k =
  match entry_write entry with
  | Some (k', o) => if String.eqb k' k then o else m !! k
  | None => m !! k
  end.
Proof.
  unfold apply_or_skip, applyDataEntry, entry_write, ds_Set, ds_Delete.
  destruct entry as [i [] []]; cbn; try done. destruct e as [op key v]; cbn.
  repeat case_match; simplify_eq; try done; destruct (String.eqb_spec key k) as [->|];
    rewrite ?lookup_insert_eq, ?lookup_delete_eq, ?lookup_insert_ne, ?lookup_delete_ne by done; done.
Qed.

Lemma replay_app m l l' : replay m (l ++ l') = replay (replay m l) l'.
Proof. apply fold_left_app. Qed.

Lemma touched_app k l l' : touched k (l ++ l') = touched k l || touched k l'.
Proof. apply existsb_app. Qed.

Lemma replay_untouched m l k : touched k l = false -> replay m l !! k = m !! k.
Proof.
  revert m. induction l as [|e l IH]; intros m; [done|]. cbn [touched existsb replay fold_left].
  intros [He Hl]%orb_false_elim. etrans; [by apply IH|]. rewrite apply_or_skip_lookup. unfold writes in He.
  destruct (entry_write e) as [[k' o]|]; [by rewrite He|done].
Qed.

(** The last write to a key decides, whatever was there. *)
Lemma replay_touched m m' l k : touched k l = true -> replay m l !! k = replay m' l !! k.
Proof.
  induction l as [|e l IH] using rev_ind; [done|]. rewrite touched_app, !replay_app. cbn.
  rewrite orb_false_r, !apply_or_skip_lookup. unfold writes. destruct (entry_write e) as [[k' o]|]; [|by rewrite orb_false_r].
  destruct (String.eqb k' k); [done|]. by rewrite orb_false_r.
Qed.

(** The keys that entries write. *)
Definition keys_of (entries : list Entry) : gset string := list_to_set (omap (fun e => fst <$> entry_write e) entries).

Lemma keys_of_untouched k entries : k ∉ keys_of entries <-> touched k entries = false.
Proof.
  unfold keys_of. rewrite elem_of_list_to_set, list_elem_of_omap. unfold touched. rewrite <- not_true_iff_false, existsb_exists.
  unfold writes. split; intros Hn (e & He & Hw); apply Hn; exists e.
  - split; [by apply list_elem_of_In|]. destruct (entry_write e) as [[k' o]|]; [|done]. cbn. f_equal. by apply String.eqb_eq.
  - split; [by apply list_elem_of_In|]. destruct (entry_write e) as [[k' o]|]; [|done]. cbn in Hw. simplify_eq. apply String.eqb_refl.
Qed.

(** Segments of a log.  [X] are keys that are left out of account. *)
Section Log.
Context (L : list Entry).
Implicit Types X Y : gset string.

Definition seg (a b : nat) : list Entry := take (b - a) (drop a L).
Definition state_at (i : nat) : gmap string blob := replay ∅ (take i L).

Lemma seg_app a b c : (a <= b)%nat -> (b <= c)%nat -> seg a c = seg a b ++ seg b c.
Proof.
  intros. unfold seg. replace (c - a)%nat with ((b - a) + (c - b))%nat by lia.
  rewrite <- take_take_drop, drop_drop. do 3 f_equal. lia.
Qed.

Lemma seg_nil a : seg a a = [].
Proof. unfold seg. by rewrite Nat.sub_diag. Qed.

Lemma seg_length a b : (a <= b <= length L)%nat -> length (seg a b) = (b - a)%nat.
Proof. intros. unfold seg. rewrite length_take, length_drop. lia. Qed.

Lemma drop_seg f a l : (f <= a <= l)%nat -> drop (a - f) (seg f l) = seg a l.
Proof.
  intros. unfold seg. rewrite skipn_firstn_comm, drop_drop. f_equal; [lia|f_equal; lia].
Qed.

Lemma state_seg a b : (a <= b)%nat -> state_at b = replay (state_at a) (seg a b).
Proof.
  intros. unfold state_at. rewrite <- replay_app. f_equal. unfold seg.
  by rewrite take_take_drop, Nat.add_comm, Nat.sub_add.
Qed.

(** A store that is behind, or partly ahead of, the log at [a]: from some point
    on the log decides everything else. *)
Definition lag X (a : nat) (m : gmap string blob) : Prop :=
  exists w, (a <= w <= length L)%nat /\ forall k, k ∉ X -> touched k (seg a w) = false -> m !! k = state_at w !! k.

(** Applying the rest of the log repairs it. *)
Lemma lag_replays X a m :
  lag X a m -> exists w, (a <= w <= length L)%nat /\ forall k, k ∉ X -> replay m (seg a w) !! k = state_at w !! k.
Proof.
  intros (w & Hw & Hm). exists w. split; [done|]. intros k Hk. destruct (touched k (seg a w)) eqn:E.
  - rewrite (state_seg a w) by lia. by apply replay_touched.
  - rewrite replay_untouched by done. by apply Hm.
Qed.

Lemma lag_state X a : (a <= length L)%nat -> lag X a (state_at a).
Proof. intros. exists a. split; [lia|done]. Qed.

Lemma lag_full X m : lag X (length L) m -> forall k, k ∉ X -> m !! k = state_at (length L) !! k.
Proof. intros (w & Hw & Hm) k Hk. assert (w = length L) as -> by lia. apply Hm; [done|]. by rewrite seg_nil. Qed.

Lemma lag_weaken X a b m : (a <= b)%nat -> lag X b m -> lag X a m.
Proof.
  intros Hab (w & Hw & Hm). exists w. split; [lia|]. intros k Hk. rewrite (seg_app a b w), touched_app by lia.
  intros [_ H]%orb_false_elim. by apply Hm.
Qed.

Lemma lag_mono X Y a m : X ⊆ Y -> lag X a m -> lag Y a m.
Proof. intros HXY (w & Hw & Hm). exists w. split; [done|]. intros k Hk. apply Hm. set_solver. Qed.

(** Entries of another log: the keys they write are left out. *)
Lemma lag_other X a m es : lag X a m -> lag (X ∪ keys_of es) a (replay m es).
Proof.
  intros (w & Hw & Hm). exists w. split; [done|]. intros k [Hk Ht%keys_of_untouched]%not_elem_of_union.
  rewrite replay_untouched by done. by apply Hm.
Qed.

Lemma state_untouched a b k : (a <= b)%nat -> touched k (seg a b) = false -> state_at b !! k = state_at a !! k.
Proof. intros Hab Hk. rewrite (state_seg a b) by done. by apply replay_untouched. Qed.

(** Claiming to be at [b] without applying anything: the keys written up to there
    are left out. *)
Lemma lag_claim X a b m : (b <= length L)%nat -> lag X a m -> lag (X ∪ keys_of (seg 0 b)) b m.
Proof.
  intros Hb (w & Hw & Hm). exists (Nat.max w b). split; [lia|]. intros k [Hk H0%keys_of_untouched]%not_elem_of_union H1.
  assert (H : touched k (seg 0 (Nat.max w b)) = false) by (rewrite (seg_app 0 b), touched_app by lia; by rewrite H0, H1).
  rewrite (seg_app 0 a), touched_app, (seg_app a w), touched_app in H by lia.
  apply orb_false_elim in H as [_ [Haw Hwb]%orb_false_elim]. rewrite (state_untouched w) by (done || lia). by apply Hm.
Qed.

(** Applying any part of the log that begins no later than the lag. *)
Lemma lag_replay X f a l m :
  (f <= a)%nat -> (f <= l <= length L)%nat -> lag X a m -> lag X l (replay m (seg f l)).
Proof.
  intros Hf Hl (w & Hw & Hm). exists (Nat.max w l). split; [lia|]. intros k HX Hk.
  destruct (touched k (seg f l)) eqn:E.
  - rewrite (state_untouched l (Nat.max w l)) by (done || lia).
    rewrite (state_seg f l) by lia. by apply replay_touched.
  - rewrite replay_untouched by done.
    assert (Ha : touched k (seg f (Nat.max w l)) = false) by (rewrite (seg_app f l), touched_app by lia; by rewrite E, Hk).
    rewrite (seg_app f a), touched_app, (seg_app a w), touched_app in Ha by lia.
    apply orb_false_elim in Ha as [_ [Haw Hwl]%orb_false_elim].
    rewrite (state_untouched w) by (done || lia). by apply Hm.
Qed.
End Log.

(** ** Replicas of a log *)

Section Replica.
Context {ConfState : Type} (noConf : ConfState) (ApplyConfChange : ConfState -> ConfChange -> ConfState).
Context (L : list Entry).

Notation RNode := (RaftNode ConfState).
Implicit Types (n : RNode) (s : Snapshot ConfState) (X Y : gset string).

(** The entries are numbered from 1 and their indices fit 64 bits. *)
Definition indexed : Prop :=
  (forall i e, L !! i = Some e -> Index e = Z.of_nat i + 1) /\ Z.of_nat (length L) < 2 ^ 64 - 1.

Definition snap_ok X s : Prop :=
  0 <= snap_Index s <= Z.of_nat (length L) /\ exists m, snap_Data s = Some m /\ lag L X (Z.to_nat (snap_Index s)) m.

Definition snaps_ok X n : Prop :=
  (forall s, s ∈ files n -> snap_ok X s) /\ (forall s, storage n = Some s -> snap_ok X s).

Record coherent X n : Prop := {
  co_bounds : 0 <= appliedIndex n <= Z.of_nat (length L);
  co_lag : lag L X (Z.to_nat (appliedIndex n)) (kvs n);
  co_snaps : snaps_ok X n }.

Lemma snap_ok_mono X Y s : X ⊆ Y -> snap_ok X s -> snap_ok Y s.
Proof. intros HXY (Hi & m & Hm & Hl). split; [done|]. exists m. split; [done|]. by eapply lag_mono. Qed.

Lemma snaps_ok_mono X Y n : X ⊆ Y -> snaps_ok X n -> snaps_ok Y n.
Proof. intros HXY [Hf Hs]. split; intros s Hin; (eapply snap_ok_mono; [done|auto]). Qed.

Lemma coherent_mono X Y n : X ⊆ Y -> coherent X n -> coherent Y n.
Proof. intros HXY [Hb Hl Hs]. split; [done|by eapply lag_mono|by eapply snaps_ok_mono]. Qed.

(** What applying an entry leaves alone. *)
Definition same_frame n n' : Prop :=
  config n' = config n /\ appliedIndex n' = appliedIndex n /\ files n' = files n /\ storage n' = storage n.

Lemma applyEntry_frame closeErr n e :
  same_frame n (node_of (applyEntry ApplyConfChange closeErr n e)) /\
  kvs (node_of (applyEntry ApplyConfChange closeErr n e)) = apply_or_skip (kvs n) e.
Proof.
  unfold applyEntry, applyConf, Close, apply_or_skip, applyDataEntry.
  destruct e as [i [] d]; cbn [Type_ Data]; [destruct d|destruct (unmarshal_conf d)..];
    repeat (case_match; simplify_eq; try done); done.
Qed.

Lemma applyLoop_frame closeErr n es :
  exists j, (j <= length es)%nat /\
  same_frame n (node_of (applyLoop ApplyConfChange closeErr n es)) /\
  kvs (node_of (applyLoop ApplyConfChange closeErr n es)) = replay (kvs n) (take j es) /\
  match applyLoop ApplyConfChange closeErr n es with Applied _ _ => j = length es | Blocked _ => True end.
Proof.
  revert n. induction es as [|e es IH]; intros n; [exists 0%nat; done|]. cbn [applyLoop].
  pose proof (applyEntry_frame closeErr n e) as [Hf Hk]. destruct (applyEntry _ _ n e) as [n' err|n']; cbn [node_of] in *.
  - destruct (IH n') as (j & Hj & Hf' & Hk' & Hend). exists (S j). cbn [length take replay fold_left]. split_and!; [lia|..].
    + unfold same_frame in *. intuition congruence.
    + by rewrite Hk', Hk.
    + case_match; [lia|done].
  - exists 1%nat. cbn. split_and!; [lia|apply Hf..|by rewrite Hk; destruct es|done].
Qed.

Lemma last_seg f l e : indexed -> (f < l <= length L)%nat -> Index (List.last (seg L f l) e) = Z.of_nat l.
Proof.
  intros [Hi _] Hl. assert (He : exists x, L !! (l - 1)%nat = Some x) by (apply lookup_lt_is_Some_2; lia).
  destruct He as [x Hx]. rewrite (seg_app L f (l - 1) l) by lia.
  assert (seg L (l - 1) l = [x]) as ->.
  { unfold seg. replace (l - (l - 1))%nat with 1%nat by lia. rewrite (drop_S _ x) by done. done. }
  rewrite last_last, (Hi _ _ Hx). lia.
Qed.

Lemma head_seg f l e es : indexed -> (f <= l <= length L)%nat -> seg L f l = e :: es -> (f < l)%nat /\ Index e = Z.of_nat f + 1.
Proof.
  intros [Hi _] Hl Hs. assert (Hlen := f_equal length Hs). rewrite seg_length in Hlen by lia. cbn in Hlen.
  split; [lia|]. apply Hi. unfold seg in Hs. assert (take (l - f) (drop f L) !! 0%nat = Some e) as H by (by rewrite Hs).
  rewrite lookup_take_lt, lookup_drop in H by lia. by rewrite Nat.add_0_r in H.
Qed.

Lemma take_seg f l j : (f <= l <= length L)%nat -> (j <= l - f)%nat -> take j (seg L f l) = seg L f (f + j).
Proof. intros. unfold seg. rewrite take_take. f_equal. lia. Qed.

(** Where a batch begins to be applied: behind what the node has applied, or at
    its beginning when it holds nothing newer. *)
Definition batch_start (f l a : nat) : nat := if (f + 1 <=? a)%nat && (a <? l)%nat then a else f.

Lemma batch_start_bounds f l a : (f < l)%nat -> (f <= a)%nat -> (f <= batch_start f l a <= a)%nat /\ (batch_start f l a < l)%nat.
Proof. unfold batch_start. destruct (Nat.leb_spec (f + 1) a), (Nat.ltb_spec a l); cbn; lia. Qed.

Lemma applyEntries_batch X closeErr n f l :
  indexed -> coherent X n -> (f < l <= length L)%nat ->
  applyEntries ApplyConfChange closeErr n (seg L f l) =
  if Z.of_nat f <=? appliedIndex n then
  match applyLoop ApplyConfChange closeErr n (seg L (batch_start f l (Z.to_nat (appliedIndex n))) l) with
  | Applied n' _ => Applied (set_applied (Z.of_nat l) n') None
  | Blocked n' => Blocked n'
  end
  else Applied n None.
Proof.
  intros Hix [Hb _ _] Hl. pose proof Hix as [_ Hlen]. destruct (seg L f l) as [|e es] eqn:Es.
  { apply (f_equal length) in Es. rewrite seg_length in Es by lia. cbn in Es. lia. }
  destruct (head_seg f l e es Hix ltac:(lia) Es) as [_ He]. cbn [applyEntries]. rewrite <- Es. rewrite He.
  unfold uint64. rewrite (Z.mod_small (appliedIndex n + 1)) by lia.
  destruct (Z.of_nat f <=? appliedIndex n) eqn:Ef.
  - rewrite Z.leb_le in Ef. rewrite (proj2 (Z.ltb_ge _ _)) by lia.
    rewrite Z.mod_small by lia. rewrite seg_length by lia. cbv zeta.
    replace (Z.to_nat (appliedIndex n - (Z.of_nat f + 1) + 1)) with (Z.to_nat (appliedIndex n) - f)%nat by lia.
    set (a := Z.to_nat (appliedIndex n)).
    assert (Hstart : (if appliedIndex n - (Z.of_nat f + 1) + 1 <? Z.of_nat (l - f) then drop (a - f) (seg L f l) else seg L f l) =
      seg L (batch_start f l a) l).
    { unfold batch_start. destruct (Z.ltb_spec (appliedIndex n - (Z.of_nat f + 1) + 1) (Z.of_nat (l - f))) as [H|H].
      - rewrite drop_seg by lia. destruct (Nat.leb_spec (f + 1) a), (Nat.ltb_spec a l); cbn [andb]; try done; try lia.
        f_equal; lia.
      - destruct (Nat.leb_spec (f + 1) a), (Nat.ltb_spec a l); cbn [andb]; try done; lia. }
    rewrite Hstart. rewrite last_seg; [done|done|].
    pose proof (batch_start_bounds f l a). lia.
  - rewrite Z.leb_gt in Ef. by rewrite (proj2 (Z.ltb_lt _ _)) by lia.
Qed.

(** After a batch the node is coherent; a node that waits for ever still has its
    files. *)
Definition fine X (a : applied ConfState) : Prop :=
  match a with Applied n _ => coherent X n | Blocked n => snaps_ok X n end.

Lemma applyEntries_fine X closeErr n f l :
  indexed -> coherent X n -> (f <= l <= length L)%nat -> fine X (applyEntries ApplyConfChange closeErr n (seg L f l)).
Proof.
  intros Hix Hc Hl. destruct (decide (f = l)) as [->|Hne]; [by rewrite seg_nil|].
  rewrite (applyEntries_batch X) by (done || lia). destruct (Z.leb_spec (Z.of_nat f) (appliedIndex n)) as [Hf|]; [|done].
  destruct Hc as [Hb Hlag [Hn Hs]]. pose proof (batch_start_bounds f l (Z.to_nat (appliedIndex n)) ltac:(lia) ltac:(lia)) as Hst.
  set (start := batch_start _ _ _) in *.
  destruct (applyLoop_frame closeErr n (seg L start l)) as (j & Hj & (_ & Ha & Hnw & Hst') & Hk & Hend).
  rewrite seg_length in Hj by lia. rewrite take_seg in Hk by lia.
  destruct (applyLoop _ closeErr n (seg L start l)) as [n' err|n']; cbn [node_of fine] in *;
    [|split; intros s; rewrite ?Hnw, ?Hst'; auto].
  rewrite seg_length in Hend by lia. split; cbn; [lia| |split; cbn; intros s; rewrite ?Hnw, ?Hst'; auto].
  rewrite Nat2Z.id, Hk. replace (start + j)%nat with l by lia.
  apply (lag_replay L X start (Z.to_nat (appliedIndex n))); (done || lia).
Qed.

Lemma newer_ok X old s x : (forall s', old = Some s' -> snap_ok X s') -> snap_ok X s -> newer old s = Some x -> snap_ok X x.
Proof. unfold newer. intros Ho Hs. repeat case_match; intros; simplify_eq; auto. Qed.

Lemma newer_le old s x : newer old s = Some x -> snap_Index s <= snap_Index x.
Proof. unfold newer. destruct old as [s'|]; [destruct (Z.ltb_spec (snap_Index s) (snap_Index s'))|]; intros; simplify_eq; lia. Qed.

(** The newest file is one of the files and none is newer. *)
Lemma newest_spec (fs : list (Snapshot ConfState)) s :
  s ∈ fs -> exists x, newest fs = Some x /\ x ∈ fs /\ snap_Index s <= snap_Index x.
Proof.
  unfold newest. revert s. induction fs as [|y fs IH] using rev_ind; intros s; [by intros ?%not_elem_of_nil|].
  rewrite fold_left_app. cbn [fold_left]. intros [Hs|Hs%list_elem_of_singleton]%elem_of_app.
  - destruct (IH s Hs) as (x & Hx & Hin & Hle). rewrite Hx. cbn. destruct (Z.ltb_spec (snap_Index y) (snap_Index x)).
    + exists x. split_and!; [done|set_solver|lia].
    + exists y. split_and!; [done|set_solver|lia].
  - subst y. destruct (fold_left newer fs None) as [x|] eqn:E; cbn; [|exists s; set_solver].
    destruct (Z.ltb_spec (snap_Index s) (snap_Index x)); [|exists s; set_solver].
    destruct fs as [|z fs]; [done|]. destruct (IH z ltac:(set_solver)) as (x' & Hx & Hin & _). assert (x' = x) as -> by congruence.
    exists x. split_and!; [done|set_solver|lia].
Qed.

Lemma saveSnapshot_fine X n s io :
  coherent X n -> snap_ok X s ->
  coherent X (fst (saveSnapshot n s io)) /\ ((forall err, io <> SaveSnapFailed err) -> s ∈ files (fst (saveSnapshot n s io))).
Proof.
  intros [Hb Hl [Hn Hs]] Hok. destruct io as [|err|err]; cbn.
  2: { split; [done|]. intros H. by destruct (H err). }
  all: split; [split; cbn; [done..|split; cbn; [|done]]; intros x; set_solver|set_solver].
Qed.

(** A snapshot of the leader, when its file is on disk. *)
Lemma applySnapshot_fine X n s loadErr :
  coherent X n -> snap_ok X s -> s ∈ files n -> coherent X (fst (applySnapshot n s loadErr)).
Proof.
  intros [Hb Hl [Hn Hs]] Hok Hin. unfold applySnapshot. destruct (IsEmptySnap s); [done|]. destruct (Hok) as [Hi _]. cbn.
  assert (Hst : forall y, newer (storage n) s = Some y -> snap_ok X y) by (intros y; by apply newer_ok).
  destruct (snap_Index s <=? appliedIndex n); [by split|].
  destruct (newest_spec (files n) s Hin) as (x & Hx & Hxin & Hle). unfold reloadSnapshot. cbn [files set_storage]. rewrite Hx.
  destruct loadErr; [by split|]. destruct (Hn x Hxin) as (Hxi & m & Hm & Hlag). rewrite Hm. cbn. split; cbn; [lia| |by split].
  by apply (lag_weaken L X _ (Z.to_nat (snap_Index x))); [lia|].
Qed.

(** Without its file the node takes the data of an older file, or keeps its own,
    and claims the index of the snapshot. *)
Lemma applySnapshot_unsaved X n s loadErr :
  coherent X n -> snap_ok X s -> appliedIndex n < snap_Index s ->
  coherent (X ∪ keys_of (seg L 0 (Z.to_nat (snap_Index s)))) (fst (applySnapshot n s loadErr)).
Proof.
  intros Hc Hok Hlt. pose proof (coherent_mono X (X ∪ keys_of (seg L 0 (Z.to_nat (snap_Index s)))) n ltac:(set_solver) Hc) as Hc'.
  destruct Hc as [Hb Hl [Hn Hs]]. pose proof (proj1 Hok) as Hi. unfold applySnapshot. destruct (IsEmptySnap s); [done|]. cbn.
  rewrite (proj2 (Z.leb_gt _ _)) by done.
  assert (Hst : snaps_ok X (set_storage (newer (storage n) s) n)) by (split; cbn; [done|intros y; by apply newer_ok]).
  apply (snaps_ok_mono X (X ∪ keys_of (seg L 0 (Z.to_nat (snap_Index s))))) in Hst; [|set_solver].
  unfold reloadSnapshot. cbn [files set_storage]. destruct (newest (files n)) as [x|] eqn:Ex.
  - destruct loadErr; [destruct Hc'; by split|].
    assert (Hx : snap_ok X x).
    { apply Hn. destruct (files n) as [|z fs]; [done|]. destruct (newest_spec (z :: fs) z ltac:(set_solver)) as (y & Hy & Hin & _). by simplify_eq. }
    destruct Hx as (_ & m & Hm & Hlag). rewrite Hm. cbn. split; cbn; [lia| |done].
    apply (lag_claim L X (Z.to_nat (snap_Index x))); [lia|done].
  - cbn. split; cbn; [lia| |done]. apply (lag_claim L X (Z.to_nat (appliedIndex n))); [lia|done].
Qed.

Lemma trigger_fine X n io : coherent X n -> coherent X (fst (triggerSnapshotIfNeed n io)).
Proof.
  intros Hc. unfold triggerSnapshotIfNeed. destruct (_ <=? _) eqn:E; [done|]. destruct (createErr io); [done|].
  set (snap := MkSnap _ _ _). destruct Hc as [Hb Hl [Hn Hs]].
  assert (Hok : snap_ok X snap) by (split; cbn; [lia|by exists (kvs n)]).
  assert (Hc : coherent X (set_storage (Some snap) n)) by (split; [done..|split; [done|intros s [= <-]; done]]).
  destruct (saveSnapshot_fine X _ snap (saveIO io) Hc Hok) as [Hc' _].
  destruct (saveSnapshot _ _ _) as [n' [err|]]; [done|]. cbn in Hc'. destruct Hc' as [? ? [? ?]].
  destruct (compactErr io); (split; [assumption|assumption|by split]).
Qed.

(** What a node loses when the snapshot it is handed, newer than its store, cannot
    be written: the keys written up to there. *)
Definition unsaved n (rd : Ready ConfState) (io : ready_io) : gset string :=
  let s := rd_Snapshot rd in
  match rd_save io with
  | SaveSnapFailed _ =>
      if negb (IsEmptySnap s) && (appliedIndex n <? snap_Index s) then keys_of (seg L 0 (Z.to_nat (snap_Index s))) else ∅
  | _ => ∅
  end.

(** What the library hands to a node: consecutive committed entries, and a
    snapshot of a replica, if any. *)
Definition delivers X (rd : Ready ConfState) : Prop :=
  (exists f l, (f <= l <= length L)%nat /\ rd_CommittedEntries rd = seg L f l) /\
  (IsEmptySnap (rd_Snapshot rd) = true \/ snap_ok X (rd_Snapshot rd)).

Lemma install_fine X n rd io :
  coherent X n -> snap_ok X (rd_Snapshot rd) -> IsEmptySnap (rd_Snapshot rd) = false ->
  coherent (X ∪ unsaved n rd io) (fst (applySnapshot (fst (saveSnapshot n (rd_Snapshot rd) (rd_save io))) (rd_Snapshot rd) (rd_load io))).
Proof.
  intros Hc Hok He. destruct (saveSnapshot_fine X n _ (rd_save io) Hc Hok) as [Hc' Hx]. unfold unsaved.
  destruct (rd_save io) as [|err|err]; cbn [saveSnapshot fst] in *; rewrite ?He; cbn [negb andb];
    try (rewrite union_empty_r_L; apply applySnapshot_fine; auto).
  destruct (Z.ltb_spec (appliedIndex n) (snap_Index (rd_Snapshot rd))); [by apply applySnapshot_unsaved|].
  rewrite union_empty_r_L. unfold applySnapshot. rewrite He. cbn. rewrite (proj2 (Z.leb_le _ _)) by done.
  destruct Hc as [? ? [? ?]]. split; cbn; [done..|split; cbn; [done|intros y; by apply newer_ok]].
Qed.

Lemma handleReady_fine X n rd io :
  indexed -> coherent X n -> delivers X rd -> fine (X ∪ unsaved n rd io) (handleReady ApplyConfChange n rd io).
Proof.
  intros Hix Hc [(f & l & Hl & Hes) Hsnap]. unfold handleReady. rewrite Hes.
  assert (Hc1 : coherent (X ∪ unsaved n rd io) (fst (applySnapshot (if IsEmptySnap (rd_Snapshot rd) then n
    else fst (saveSnapshot n (rd_Snapshot rd) (rd_save io))) (rd_Snapshot rd) (rd_load io)))).
  { destruct (IsEmptySnap (rd_Snapshot rd)) eqn:E.
    - unfold applySnapshot. rewrite E. eapply coherent_mono; [|done]. set_solver.
    - destruct Hsnap as [|Hok]; [done|]. by apply install_fine. }
  pose proof (applyEntries_fine _ (rd_close io) _ f l Hix Hc1 Hl) as Hf.
  destruct (applyEntries _ _ _ _) as [n' err|n']; [|done]. by apply trigger_fine.
Qed.

Lemma applyDataEntries_replay m es m' : applyDataEntries m es = inr m' -> m' = replay m es.
Proof.
  revert m. induction es as [|e es IH]; intros m; cbn; [by intros [= <-]|].
  unfold apply_or_skip. destruct (applyDataEntry m e); [done|apply IH].
Qed.

(** What the library reads at a start: one of the snapshot files, or none, and the
    entries of its log after it, whatever they are: committed ones in their order, and
    behind them [tail], the first that is not, and all others. *)
Definition boots (fs : list (Snapshot ConfState)) (b : boot ConfState) (tail : list Entry) : Prop :=
  (forall s, b_available b = inr (Some s) -> s ∈ fs) /\
  (forall s es, loadSnapshotFromDisk noConf b = inr s -> b_read b = inr es ->
  exists w, (Z.to_nat (snap_Index s) <= w <= length L)%nat /\ es = seg L (Z.to_nat (snap_Index s)) w ++ tail).

Lemma runTransport_frame n :
  let n' := runTransport n in
  kvs n' = kvs n /\ appliedIndex n' = appliedIndex n /\ files n' = files n /\ storage n' = storage n.
Proof.
  cbv zeta. unfold runTransport. generalize (config_peers (config n)). intros ps. revert n.
  induction ps as [|[id p] ps IH]; intros n; [done|]. cbn [fold_left].
  destruct (IH (set_peers (<[id:=p]> (n_peers (if id =? cfg_ID (config n) then n else call (AddPeerCall id p) n)))
    (if id =? cfg_ID (config n) then n else call (AddPeerCall id p) n))) as (-> & -> & -> & ->).
  by destruct (id =? _).
Qed.

Lemma loadSnapshot_cases fs b tail s :
  boots fs b tail -> loadSnapshotFromDisk noConf b = inr s -> s = emptySnapshot noConf \/ s ∈ fs.
Proof.
  intros [Hb _]. unfold loadSnapshotFromDisk. destruct (b_walExists b); cbn; [|intros [= <-]; by left].
  destruct (b_available b) as [|[s'|]]; intros; simplify_eq; auto.
Qed.

(** The store that the newest file gives, or an empty one. *)
Lemma reloadSnapshot_lag X n n' loadErr a :
  snaps_ok X n -> reloadSnapshot n loadErr = inr n' -> (a <= length L)%nat ->
  (a = 0%nat \/ exists s, s ∈ files n /\ a = Z.to_nat (snap_Index s)) -> kvs n = ∅ ->
  lag L X a (kvs n') /\ files n' = files n /\ storage n' = storage n.
Proof.
  intros [Hn _] Hr Ha Hs He. unfold reloadSnapshot in Hr. destruct (newest (files n)) as [x|] eqn:Ex.
  - assert (Hx : x ∈ files n /\ (a <= Z.to_nat (snap_Index x))%nat).
    { destruct (files n) as [|z fs] eqn:Ef; [done|]. destruct (newest_spec (z :: fs) z ltac:(set_solver)) as (y & Hy & Hin & _).
      simplify_eq. split; [done|]. destruct Hs as [->|(s & Hs & ->)]; [lia|].
      destruct (newest_spec _ s Hs) as (y & Hy' & _ & Hle). simplify_eq. lia. }
    destruct loadErr; [done|]. destruct (Hn x) as (_ & m & Hm & Hlag); [apply Hx|]. rewrite Hm in Hr. simplify_eq. cbn.
    split; [|done]. by eapply lag_weaken; [apply Hx|].
  - simplify_eq. split; [|done]. destruct Hs as [->|(s & Hs & _)].
    + rewrite He. by apply (lag_state L X 0).
    + destruct (newest_spec _ s Hs) as (y & Hy & _). by rewrite Ex in Hy.
Qed.

Lemma New_coherent X c fs b tail n :
  (forall s, s ∈ fs -> snap_ok X s) -> boots fs b tail -> New noConf c fs b = inr n -> coherent (X ∪ keys_of tail) n.
Proof.
  intros Hfs Hb. unfold New. destruct (config_validate _); [done|]. unfold run. cbn [isRunning NewNode].
  unfold replayWAL. destruct (loadSnapshotFromDisk noConf b) as [|s] eqn:Es; [done|].
  destruct (b_openErr b); [done|]. destruct (b_read b) as [|es] eqn:Er; [done|]. destruct (b_hardErr b); [done|]. destruct (b_appendErr b); [done|].
  destruct (proj2 Hb s es Es Er) as (w & Hw & ->). pose proof (loadSnapshot_cases fs b tail s Hb Es) as Hs.
  set (n0 := NewNode noConf (config_init c) fs).
  assert (H0 : let n1 := if IsEmptySnap s then set_running true n0 else set_storage (newer None s) (set_running true n0) in
    snaps_ok X n1 /\ kvs n1 = ∅ /\ files n1 = fs).
  { cbv zeta. destruct (IsEmptySnap s) eqn:E; (split; [split; cbn; [done|]|done]); [done|].
    intros y [= <-]. apply Hfs. by destruct Hs as [->|]. }
  cbv zeta in H0. cbn [storage set_running n0 NewNode]. destruct H0 as (Hok & Hk & Hf).
  destruct (reloadSnapshot _ (b_loadErr b)) as [|n2] eqn:E2; [done|].
  assert (Hs' : Z.to_nat (snap_Index s) = 0%nat \/ exists s', s' ∈ fs /\ Z.to_nat (snap_Index s) = Z.to_nat (snap_Index s')).
  { destruct Hs as [->|]; [by left|right; by exists s]. }
  rewrite <- Hf in Hs'. destruct (reloadSnapshot_lag X _ n2 (b_loadErr b) (Z.to_nat (snap_Index s)) Hok E2 ltac:(lia) Hs' Hk) as (Hlag & Hf2 & Hst).
  destruct (applyDataEntries (kvs n2) _) as [|m] eqn:Em; [done|]. apply applyDataEntries_replay in Em as ->.
  destruct (b_transportErr b); [done|]. intros [= <-].
  match goal with |- coherent _ (runTransport ?x) => destruct (runTransport_frame x) as (Hk' & Ha' & Hf' & Hst') end.
  cbn in Hk', Ha', Hf', Hst'. split; rewrite ?Hk', ?Ha'.
  - destruct Hs as [->|Hin]; [cbn; lia|]. destruct (Hfs s Hin). lia.
  - rewrite replay_app. apply lag_other, (lag_weaken L _ _ w); [lia|]. by apply (lag_replay L _ _ (Z.to_nat (snap_Index s))).
  - apply (snaps_ok_mono X); [set_solver|]. destruct Hok. unfold snaps_ok. rewrite Hf', Hst', Hf2, Hst. by split.
Qed.

(** ** Clusters of replicas *)

(** A process is up, or waits for ever inside its loop. *)
Inductive member := Up (n : RNode) | Stuck (n : RNode).

Definition member_node (m : member) : RNode := match m with Up n | Stuck n => n end.

Definition outcome_member (a : applied ConfState) : member :=
  match a with Applied n _ => Up n | Blocked n => Stuck n end.

(** A process, and a snapshot under way to another one, with a ghost: the keys
    that went astray. *)
Record system := MkSystem { members : list (member * gset string); messages : list (Snapshot ConfState * gset string) }.

(** Every process handles what the library hands it, in any order: entries of the
    committed log, and snapshots that some process sent at any time before; it may
    fail to write them.  It crashes and starts again with its files, at any time.
    Keys go astray when never-committed entries that write them are replayed at a
    start, when a newer snapshot with them could not be written, and with a snapshot
    in which they are astray. *)
Inductive rstep : system -> system -> Prop :=
| RReady ms msgs i n X rd io f l Y :
    ms !! i = Some (Up n, X) -> (f <= l <= length L)%nat -> rd_CommittedEntries rd = seg L f l ->
    (IsEmptySnap (rd_Snapshot rd) = true /\ Y = ∅) \/ (rd_Snapshot rd, Y) ∈ msgs ->
    rstep (MkSystem ms msgs)
    (MkSystem (<[i := (outcome_member (handleReady ApplyConfChange n rd io), X ∪ Y ∪ unsaved n rd io)]> ms) msgs)
| RSend ms msgs i m X s :
    ms !! i = Some (m, X) -> storage (member_node m) = Some s -> rstep (MkSystem ms msgs) (MkSystem ms (msgs ++ [(s, X)]))
| RRestart ms msgs i m X c b tail n :
    ms !! i = Some (m, X) -> boots (files (member_node m)) b tail -> New noConf c (files (member_node m)) b = inr n ->
    rstep (MkSystem ms msgs) (MkSystem (<[i := (Up n, X ∪ keys_of tail)]> ms) msgs).

Inductive rreach : system -> Prop :=
| rreach_init ms :
    (forall i m X, ms !! i = Some (m, X) ->
    exists c b tail n, boots [] b tail /\ New noConf c [] b = inr n /\ m = Up n /\ X = keys_of tail) ->
    rreach (MkSystem ms [])
| rreach_step sys sys' : rreach sys -> rstep sys sys' -> rreach sys'.

Definition member_ok X (m : member) : Prop := match m with Up n => coherent X n | Stuck n => snaps_ok X n end.

Lemma member_snaps X m : member_ok X m -> snaps_ok X (member_node m).
Proof. destruct m; [intros []; done|done]. Qed.

Lemma rreach_ok sys :
  indexed -> rreach sys ->
  (forall i m X, members sys !! i = Some (m, X) -> member_ok X m) /\ (forall s X, (s, X) ∈ messages sys -> snap_ok X s).
Proof.
  intros Hix. induction 1 as [ms Hi|sys sys' _ [IH IHs] Hs].
  - split; [|by intros s X ?%not_elem_of_nil]. intros i m X Hm. destruct (Hi i m X Hm) as (c & b & tail & n & Hb & Hn & -> & ->).
    rewrite <- (union_empty_l_L (keys_of tail)). eapply New_coherent; [|done..]. set_solver.
  - destruct Hs as [ms msgs i' n X' rd io f l Y Hn Hl Hes Hsnap|ms msgs i' m' X' s Hm' Hst|ms msgs i' m' X' c b tail n Hm' Hb Hn];
      cbn in *; (split; [intros i m X Hm|intros s0 X Hs0]); try (by eapply IH); try (by eapply IHs);
      try (apply list_lookup_insert_Some in Hm as [(<- & [= <- <-] & _)|[_ Hm]]; [|by eapply IH]).
    + assert (Hf : fine (X' ∪ Y ∪ unsaved n rd io) (handleReady ApplyConfChange n rd io)).
      { apply handleReady_fine; [done|eapply coherent_mono; [|apply (IH _ _ _ Hn)]; set_solver|]. split; [by exists f, l|].
        destruct Hsnap as [[]|Hin]; [by left|right]. eapply snap_ok_mono; [|by eapply IHs]. set_solver. }
      by destruct (handleReady _ _ _ _).
    + apply elem_of_app in Hs0 as [Hs0|[= -> ->]%list_elem_of_singleton]; [by eapply IHs|].
      by apply (proj2 (member_snaps X' m' (IH _ _ _ Hm'))).
    + eapply New_coherent; [|done..]. apply (member_snaps X' m' (IH _ _ _ Hm')).
Qed.

(** ** Catching up *)

Definition removes (id : Z) (entry : Entry) : bool :=
  match Type_ entry with
  | EntryNormal => false
  | _ => match unmarshal_conf (Data entry) with
      | inr (MkConf ConfChangeRemoveNode id' _) => id' =? id
      | _ => false
      end
  end.

Lemma applyEntry_returns closeErr n e :
  removes (cfg_ID (config n)) e = false -> exists n' err, applyEntry ApplyConfChange closeErr n e = Applied n' err.
Proof.
  unfold removes, applyEntry, applyConf. destruct (Type_ e); [intros _; case_match; eauto|..];
    (destruct (unmarshal_conf (Data e)) as [|[ty id ctx]]; [eauto|]; destruct ty; cbn;
    intros H; rewrite ?H; repeat case_match; eauto).
Qed.

Lemma applyLoop_returns closeErr n es :
  forallb (fun e => negb (removes (cfg_ID (config n)) e)) es = true ->
  exists n', applyLoop ApplyConfChange closeErr n es = Applied n' None.
Proof.
  revert n. induction es as [|e es IH]; intros n; cbn; [by eexists|]. intros [He%negb_true_iff Hes]%andb_prop.
  destruct (applyEntry_returns closeErr n e He) as (n' & err & Hn). rewrite Hn. apply IH.
  pose proof (applyEntry_frame closeErr n e) as [(Hc & _) _]. rewrite Hn in Hc. cbn in Hc. by rewrite Hc.
Qed.

Lemma trigger_frame n io :
  kvs (fst (triggerSnapshotIfNeed n io)) = kvs n /\ appliedIndex (fst (triggerSnapshotIfNeed n io)) = appliedIndex n.
Proof. unfold triggerSnapshotIfNeed, saveSnapshot. repeat (case_match; simplify_eq; cbn; try done). Qed.

Definition rest n : Ready ConfState := MkReady (emptySnapshot noConf) (seg L (Z.to_nat (appliedIndex n)) (length L)).

Lemma catch_up X n io :
  indexed -> coherent X n -> appliedIndex n < Z.of_nat (length L) ->
  forallb (fun e => negb (removes (cfg_ID (config n)) e)) L = true ->
  exists n', handleReady ApplyConfChange n (rest n) io = Applied n' None /\
  appliedIndex n' = Z.of_nat (length L) /\ forall k, k ∉ X -> kvs n' !! k = state_at L (length L) !! k.
Proof.
  intros Hix Hc Hlt Hkeep. pose proof (co_bounds X n Hc) as Hb.
  assert (Hd : delivers X (rest n)) by (split; [eexists _, _; split; [|done]; lia|by left]).
  assert (Hh := handleReady_fine X n (rest n) io Hix Hc Hd).
  assert (unsaved n (rest n) io = ∅) as Hu by (unfold unsaved; by destruct (rd_save io)). rewrite Hu, union_empty_r_L in Hh. clear Hu.
  unfold handleReady in *. cbn [rest rd_Snapshot rd_CommittedEntries] in *. change (IsEmptySnap _) with true in *.
  cbv beta iota in *. change (fst (applySnapshot n (emptySnapshot noConf) (rd_load io))) with n in *.
  rewrite (applyEntries_batch X) in * by (done || lia). rewrite (proj2 (Z.leb_le _ _)) in * by lia.
  set (start := batch_start _ _ _) in *. destruct (applyLoop_returns (rd_close io) n (seg L start (length L))) as [n' Hn'].
  { apply forallb_forall. intros x Hx. apply (proj1 (forallb_forall _ _) Hkeep). unfold seg in Hx.
    apply list_elem_of_In, elem_of_take in Hx as (k & Hk & _). rewrite lookup_drop in Hk.
    apply list_elem_of_In. by eapply list_elem_of_lookup_2. }
  rewrite Hn' in *. set (n2 := set_applied _ n') in *. destruct (trigger_frame n2 (rd_trigger io)) as [Hk Ha].
  eexists. split; [done|]. split; [done|]. apply lag_full. destruct Hh as [_ Hl _]. rewrite Ha in Hl. cbn in Hl.
  by rewrite Nat2Z.id in Hl.
Qed.
End Replica.

(** C6. Replicas converge.  Take any number of processes of the raft engine that
    handle what the library hands them (batches of the committed log, repeated,
    skipped or out of date; snapshots that processes sent at any time), write
    snapshots, fail to write them, and crash and start again from their files and
    their logs, which may end in entries that were never committed, in any
    interleaving.  For each process a set [X] of keys is astray: those written by
    never-committed entries it replayed at a start, those written up to a snapshot
    of another process that it could not save, and those that were astray in the
    process whose snapshot it took; none of these, and [X] is empty.  In every state
    that arises, a running process is within the log, and outside of [X]: applying
    the entries behind its applied index, up to some index, gives the state of the
    log there; if it has applied the whole log its store is the state of the log;
    and if it has not, it gets there as soon as the library hands it the rest,
    unless the log removes the process itself. *)
Theorem replicas_converge {ConfState} (noConf : ConfState) ApplyConfChange (L : list Entry) sys i n X :
  indexed L -> rreach noConf ApplyConfChange L sys -> members sys !! i = Some (Up n, X) ->
  0 <= appliedIndex n <= Z.of_nat (length L) /\
  (exists w, (Z.to_nat (appliedIndex n) <= w <= length L)%nat /\
     forall k, k ∉ X -> replay (kvs n) (seg L (Z.to_nat (appliedIndex n)) w) !! k = state_at L w !! k) /\
  (appliedIndex n = Z.of_nat (length L) -> forall k, k ∉ X -> kvs n !! k = state_at L (length L) !! k) /\
  (appliedIndex n < Z.of_nat (length L) ->
   forallb (fun e => negb (removes (cfg_ID (config n)) e)) L = true ->
   forall io, exists n', handleReady ApplyConfChange n (rest noConf L n) io = Applied n' None /\
     appliedIndex n' = Z.of_nat (length L) /\ forall k, k ∉ X -> kvs n' !! k = state_at L (length L) !! k).
Proof.
  intros Hix Hr Hn. destruct (rreach_ok noConf ApplyConfChange L sys Hix Hr) as [Hok _].
  assert (Hc : coherent L X n) by exact (Hok i (Up n) X Hn).
  pose proof Hc as [Hb Hl _]. split_and!; [lia|lia|by apply lag_replays|..].
  - intros E. apply lag_full. by rewrite E, Nat2Z.id in Hl.
  - intros Hlt Hk io. by apply catch_up.
Qed.

(** ** The engine interface of a node (node.go) *)

(** [Set], [Delete], [AddPeer] and [RemovePeer] propose an entry and return. *)
Definition Set_proposal (key : string) (v : blob) : EntryType * entry_data := (EntryNormal, EventBytes (MkOp opSet key v)).
Definition Delete_proposal (key : string) : EntryType * entry_data := (EntryNormal, EventBytes (MkOp opDelete key (Text ""))).
Definition AddPeer_proposal (id : Z) (peer : string) : EntryType * entry_data :=
  (EntryConfChange, ConfBytes (MkConf ConfChangeAddNode id peer)).
Definition RemovePeer_proposal (id : Z) : EntryType * entry_data :=
  (EntryConfChange, ConfBytes (MkConf ConfChangeRemoveNode id "")).

(** A node as an engine: the store it reads, and what it has proposed since. *)
Record proposing := MkProposing { view : gmap string blob; proposals : list (EntryType * entry_data) }.

Definition propose (p : proposing) (e : EntryType * entry_data) : proposing := MkProposing (view p) (proposals p ++ [e]).

Definition Node_engine (iter : gmap string blob -> list string) : Engine proposing := {|
  e_Missing := ErrKeyNotFound;
  e_Get p k := @e_Get _ (DataStore_engine iter) (view p) k;
  e_Exists p k := @e_Exists _ (DataStore_engine iter) (view p) k;
  e_Set p k v := propose p (Set_proposal k v);
  e_Delete p k := propose p (Delete_proposal k);
  e_List p prefix := @e_List _ (DataStore_engine iter) (view p) prefix |}.

(** The library commits what was proposed, in order. *)
Definition commit (p : proposing) : gmap string blob :=
  replay (view p) (imap (fun i '(t, d) => MkEntry (Z.of_nat i + 1) t d) (proposals p)).

Lemma commit_propose p t d : commit (propose p (t, d)) = apply_or_skip (commit p) (MkEntry 0 t d).
Proof.
  unfold commit, propose. cbn [view proposals]. by rewrite imap_app, replay_app.
Qed.

(** Once committed, the proposals are the operations of the data store. *)
Lemma commit_set iter p k v : commit (@e_Set _ (Node_engine iter) p k v) = @e_Set _ (DataStore_engine iter) (commit p) k v.
Proof. apply commit_propose. Qed.

Lemma commit_delete iter p k : commit (@e_Delete _ (Node_engine iter) p k) = @e_Delete _ (DataStore_engine iter) (commit p) k.
Proof. apply commit_propose. Qed.

(** A read does not see the node's own writes: the node does not meet the laws of
    an engine that the theorems on the store ask for. *)
Lemma Node_engine_unlawful iter : ~ @EngineLaws proposing (Node_engine iter).
Proof.
  intros [Hg _ _ _ _ _ _ _]. specialize (Hg (MkProposing ∅ []) "k" (Text "v")). discriminate Hg.
Qed.

(** Of two updates that begin with the same version, an engine that applies writes
    at once refuses the second; on a raft node both are accepted and the first is
    lost. *)
Theorem raft_update_lost iter p ns old a b :
  @GetCluster _ (Node_engine iter) p ns (Name old) = inr old ->
  Name a = Name old -> Name b = Name old -> Version a = Version old -> Version b = Version old ->
  exists p1 p2 ev1 ev2,
    @UpdateCluster _ (Node_engine iter) p ns a = inr (p1, bump a, ev1) /\
    @UpdateCluster _ (Node_engine iter) p1 ns b = inr (p2, bump b, ev2) /\
    @e_Get _ (DataStore_engine iter) (commit p2) (buildClusterKey ns (Name old)) = inr (Json (cluster_json (bump b))).
Proof.
  intros Hg Ha Hb Hva Hvb. unfold UpdateCluster. rewrite Ha, Hb, Hva, Hvb.
  assert (Hg' : forall k v, @GetCluster _ (Node_engine iter) (@e_Set _ (Node_engine iter) p k v) ns (Name old) = inr old) by (intros; apply Hg).
  rewrite Hg. cbn [mbind go_bind]. rewrite Z.ltb_irrefl. eexists _, _, _, _. split; [reflexivity|].
  rewrite Hg'. cbn [mbind go_bind]. rewrite Z.ltb_irrefl. split; [reflexivity|].
  rewrite commit_set. cbn [e_Get e_Set DataStore_engine]. unfold DataStore. by rewrite lookup_insert_eq.
Qed.

(** ** What a start forgets *)

Lemma runTransport_peers {ConfState} (n : RaftNode ConfState) :
  n_peers n = ∅ -> n_peers (runTransport n) = list_to_map (rev (config_peers (config n))) /\ started (runTransport n) = started n.
Proof.
  intros H. unfold runTransport.
  assert (Hgen : forall ps (x : RaftNode ConfState) acc, n_peers x = list_to_map acc ->
    let r := fold_left (fun n '(id, peer) =>
      let n := if id =? cfg_ID (config n) then n else call (AddPeerCall id peer) n in
      set_peers (<[id := peer]> (n_peers n)) n) ps x in
    n_peers r = list_to_map (rev ps ++ acc) /\ started r = started x).
  { induction ps as [|[id p] ps IH]; intros x acc Hx; [done|]. cbn [fold_left rev]. cbv zeta.
    rewrite <- app_assoc. cbn [app]. set (y := set_peers _ _). destruct (IH y ((id, p) :: acc)) as [Hp Hs].
    - subst y. cbn. destruct (id =? cfg_ID (config x)); cbn; by rewrite Hx.
    - split; [exact Hp|]. etrans; [exact Hs|]. subst y. by destruct (id =? cfg_ID (config x)). }
  destruct (Hgen (config_peers (config n)) n [] H) as [Hp Hs]. by rewrite app_nil_r in Hp.
Qed.

(** The peers of a node that starts are those of its configuration: what the log
    before the snapshot added or removed is not there.  And it joins an existing
    cluster exactly if it has a log: the setting of the cluster's state is
    overwritten. *)
Theorem New_forgets {ConfState} (noConf : ConfState) c fs b n :
  New noConf c fs b = inr n ->
  n_peers n = list_to_map (rev (config_peers (config_init c))) /\
  started n = if b_walExists b then RestartNode else StartNode (config_peers (config_init c)).
Proof.
  unfold New. destruct (config_validate _); [done|]. unfold run. cbn [isRunning NewNode]. unfold replayWAL, reloadSnapshot.
  intros H. repeat (case_match; simplify_eq);
    match goal with |- n_peers (runTransport ?x) = _ /\ _ => destruct (runTransport_peers x) as [Hp Hs]; [done|] end;
    rewrite Hp, Hs; cbn in *; split; try done; by repeat case_match.
Qed.

(** ** Examples *)

Definition demo_set (i : Z) (k v : string) : Entry := MkEntry i EntryNormal (EventBytes (MkOp opSet k (Text v))).
Definition demo_log : list Entry :=
  [ MkEntry 1 EntryConfChange (ConfBytes (MkConf ConfChangeAddNode 1 "http://a"));
    MkEntry 2 EntryNormal NoBytes; demo_set 3 "k" "v"; demo_set 4 "k" "w";
    MkEntry 5 EntryNormal (EventBytes (MkOp opDelete "j" (Text ""))) ].
Definition demo_config : Config := MkConfig 1 "" "existing" ["http://a"; "http://b"] 0 0.
Definition demo_conf : unit -> ConfChange -> unit := fun _ _ => tt.
Definition demo_boot (wal : bool) (es : list Entry) : boot unit := MkBoot wal (inr None) None (inr es) None None None None.
Definition demo_io : ready_io := MkReadyIO SaveOk None None (MkTrigger None SaveOk None).
Definition demo_node : RaftNode unit :=
  match New tt demo_config [] (demo_boot false []) with inr n => n | inl _ => NewNode tt demo_config [] end.
Definition demo_ready (es : list Entry) : Ready unit := MkReady (emptySnapshot tt) es.

Lemma demo_boots wal w tail : (w <= 5)%nat -> boots tt demo_log [] (demo_boot wal (seg demo_log 0 w ++ tail)) tail.
Proof.
  intros Hw. split; [done|]. intros s es Hs Hes. cbn [b_read demo_boot] in Hes. simplify_eq.
  assert (s = emptySnapshot tt) as -> by (by destruct wal; cbv in Hs; simplify_eq). exists w. split; [cbn; lia|done].
Qed.

Lemma demo_indexed : indexed demo_log.
Proof.
  split; [|cbn; lia]. intros i e H. do 5 (destruct i as [|i]; [by injection H as <-|]). done.
Qed.

(** A process that has applied three entries, crashed and started again with a
    log that ends in an entry that was not committed. *)
Lemma replicas_converge_witness :
  exists n, appliedIndex n = 0 /\ kvs n !! "k" = Some (Text "v") /\ kvs n !! "lost" = Some (Text "x") /\
    forall io, exists n', handleReady demo_conf n (rest tt demo_log n) io = Applied n' None /\
      appliedIndex n' = 5 /\ kvs n' !! "k" = Some (Text "w").
Proof.
  pose (tail := [demo_set 4 "lost" "x"]).
  destruct (New tt demo_config [] (demo_boot true (seg demo_log 0 3 ++ tail))) as [|n] eqn:En; [discriminate En|].
  destruct (replicas_converge tt demo_conf demo_log (MkSystem [(Up n, ∅ ∪ ∅ ∪ ∅ ∪ keys_of tail)] []) 0%nat n (∅ ∪ ∅ ∪ ∅ ∪ keys_of tail) demo_indexed)
    as (_ & _ & _ & Hcatch); [|reflexivity|].
  - eapply rreach_step; [eapply rreach_step|].
    + apply (rreach_init tt demo_conf demo_log [(Up demo_node, ∅)]). intros [|i] m X Hm; [|discriminate Hm].
      exists demo_config, (demo_boot false (seg demo_log 0 0 ++ [])), [], demo_node. split; [apply demo_boots; lia|].
      split; [vm_compute; reflexivity|]. by injection Hm as <- <-.
    + apply (RReady tt demo_conf demo_log _ _ 0 demo_node ∅ (demo_ready (seg demo_log 0 3)) demo_io 0 3 ∅);
        [reflexivity|cbn; lia|reflexivity|left; split; reflexivity].
    + match goal with |- rstep _ _ _ (MkSystem ?ms _) _ => change [(Up n, ∅ ∪ ∅ ∪ ∅ ∪ keys_of tail)] with (<[0%nat := (Up n, ∅ ∪ ∅ ∪ ∅ ∪ keys_of tail)]> ms) end.
      eapply (RRestart tt demo_conf demo_log _ _ 0 _ _ demo_config (demo_boot true (seg demo_log 0 3 ++ tail)) tail);
        [reflexivity| |exact En]. apply demo_boots. lia.
  - exists n. assert (Hn : appliedIndex n = 0 /\ cfg_ID (config n) = 1 /\ kvs n !! "k" = Some (Text "v") /\ kvs n !! "lost" = Some (Text "x"))
      by (injection En as <-; vm_compute; split_and!; reflexivity).
    destruct Hn as (Ha & Hid & Hk & Hx). split_and!; [exact Ha|exact Hk|exact Hx|]. intros io.
    destruct (Hcatch ltac:(rewrite Ha; vm_compute; reflexivity) ltac:(rewrite Hid; vm_compute; reflexivity) io) as (n' & Hn' & Ha' & Hk').
    exists n'. split; [exact Hn'|]. split; [exact Ha'|]. rewrite (Hk' "k"); [vm_compute; reflexivity|].
    rewrite !union_empty_l_L. apply keys_of_untouched. reflexivity.
Defined.

(** [replayWAL] also applies entries of the log that were never committed: what
    they wrote stays when the leader replaces them. *)
Lemma replay_uncommitted :
  exists n n', New tt demo_config [] (demo_boot true [demo_set 1 "lost" "x"]) = inr n /\
    handleReady demo_conf n (demo_ready demo_log) demo_io = Applied n' None /\
    appliedIndex n' = 5 /\ kvs n' !! "lost" = Some (Text "x") /\ state_at demo_log 5 !! "lost" = None.
Proof. eexists _, _. split; [vm_compute; reflexivity|]. split; [vm_compute; reflexivity|]. by vm_compute. Qed.

(** When the snapshot of the leader cannot be written, the loop logs it and goes
    on: the applied index is the one of the snapshot, the data are not. *)
Lemma unsaved_snapshot_skipped {ConfState} ApplyConfChange (n : RaftNode ConfState) s err io :
  files n = [] -> appliedIndex n < snap_Index s -> snap_Index s <> 0 -> rd_save io = SaveSnapFailed err ->
  exists n', handleReady ApplyConfChange n (MkReady s []) io = Applied n' None /\
    appliedIndex n' = snap_Index s /\ kvs n' = kvs n.
Proof.
  intros Hf Hlt Hz Hs. unfold handleReady, IsEmptySnap, applySnapshot, IsEmptySnap. cbn [rd_Snapshot rd_CommittedEntries].
  rewrite (proj2 (Z.eqb_neq _ _)) by done. rewrite Hs. cbn. rewrite (proj2 (Z.leb_gt _ _)) by done.
  unfold reloadSnapshot. cbn. rewrite Hf. cbn. eexists. split; [done|].
  match goal with |- context [triggerSnapshotIfNeed ?x ?y] => destruct (trigger_frame x y) as [-> ->] end. done.
Qed.

(** A node that applies its own removal waits for the goroutine it runs in. *)
Lemma removed_node_waits {ConfState} ApplyConfChange (n : RaftNode ConfState) i :
  isRunning n = true ->
  exists n', applyEntry ApplyConfChange None n
    (MkEntry i EntryConfChange (ConfBytes (MkConf ConfChangeRemoveNode (cfg_ID (config n)) ""))) = Blocked n' /\
    isRunning n' = false.
Proof.
  intros H. unfold applyEntry, applyConf, Close. cbn. rewrite Z.eqb_refl. cbn. rewrite H. cbn. by eexists.
Qed.

(** A batch that holds nothing new is applied again and takes the applied index
    back. *)
Lemma old_batch_applied_again {ConfState} ApplyConfChange (L : list Entry) closeErr (n : RaftNode ConfState) X f l n' err :
  indexed L -> coherent L X n -> (f < l)%nat -> Z.of_nat l <= appliedIndex n ->
  applyEntries ApplyConfChange closeErr n (seg L f l) = Applied n' err ->
  appliedIndex n' = Z.of_nat l /\ kvs n' = replay (kvs n) (seg L f l).
Proof.
  intros Hix Hc Hfl Hl. pose proof (co_bounds L X n Hc). rewrite (applyEntries_batch ApplyConfChange L X) by (done || lia).
  rewrite (proj2 (Z.leb_le _ _)) by lia. unfold batch_start. rewrite (proj2 (Nat.ltb_ge _ _)), andb_false_r by lia.
  destruct (applyLoop_frame ApplyConfChange closeErr n (seg L f l)) as (j & Hj & _ & Hk & Hend).
  destruct (applyLoop _ _ _ _); [|done]. intros [= <- <-]. subst j. cbn in *. rewrite firstn_all in Hk. done.
Qed.

(** Compaction keeps the entries behind the snapshot. *)
Lemma compactIndex_bound {ConfState} (n : RaftNode ConfState) :
  0 < appliedIndex n < 2 ^ 64 -> 0 <= compactThreshold n -> 0 < compactIndex n <= appliedIndex n.
Proof.
  intros Ha Ht. unfold compactIndex. destruct (Z.ltb_spec (compactThreshold n) (appliedIndex n)); [|lia].
  unfold uint64. rewrite Z.mod_small; lia.
Qed.

(** ** Leadership (node.go: ID, Leader, watchLeaderChange, IsReady) *)

(** [lead] is [raftNode.Status().Lead], 0 ([raft.None]) while there is no leader. *)
Definition Node_ID {ConfState} (n : RaftNode ConfState) : string := Z_to_string (cfg_ID (config n)).
Definition Node_Leader (lead : Z) : string := Z_to_string lead.

(** A tick of [watchLeaderChange]: the leader it remembers, and whether it tells
    the controller. *)
Definition watchLeaderChange (lead leader : Z) : Z * bool :=
  if negb (lead =? leader) then (lead, true) else (leader, false).

(** What the select statement of [IsReady] meets: the node shuts down, the request
    is given up, or 200 milliseconds pass and the library names a leader. *)
Inductive ready_event := RShutdown | RDone | RAfter (lead : Z).

Fixpoint IsReady_loop (running : bool) (tries : nat) (evs : list ready_event) : option bool :=
  match evs with
  | [] => None
  | RShutdown :: _ | RDone :: _ => Some false
  | RAfter lead :: evs =>
      if negb (lead =? 0) then Some true
      else if (10 <=? S tries)%nat then Some running
      else IsReady_loop running (S tries) evs
  end.

Definition IsReady (running : bool) (evs : list ready_event) : option bool := IsReady_loop running 0 evs.

Lemma IsReady_loop_ends running tries evs :
  (10 <= length evs + tries)%nat -> (tries < 10)%nat -> is_Some (IsReady_loop running tries evs).
Proof.
  revert tries. induction evs as [|ev evs IH]; intros tries Hl Ht; [cbn in Hl; lia|].
  destruct ev as [| |lead]; cbn [IsReady_loop]; [by eexists..|].
  destruct (lead =? 0); cbn [negb]; [|by eexists].
  destruct (Nat.leb_spec 10 (S tries)); [by eexists|]. apply IH; cbn in Hl; lia.
Qed.

(** [IsReady] answers within ten ticks. *)
Lemma IsReady_ends running evs : (10 <= length evs)%nat -> is_Some (IsReady running evs).
Proof. intros H. apply IsReady_loop_ends; lia. Qed.

(** The controller compares identifiers as texts: a node takes itself for the
    leader exactly when the library names it, and is told of every change that
    lasts until the next tick. *)
Lemma raft_leadership {ConfState} (n : RaftNode ConfState) lead leader :
  (Node_Leader lead = Node_ID n <-> lead = cfg_ID (config n)) /\
  fst (watchLeaderChange lead leader) = lead /\ (snd (watchLeaderChange lead leader) = true <-> lead <> leader).
Proof.
  split; [split; [apply Z_to_string_inj|by intros ->]|]. unfold watchLeaderChange.
  destruct (Z.eqb_spec lead leader) as [->|]; naive_solver.
Qed.

(** Without a leader [Leader] is 0 and not empty, so the check for a missing
    leader in front of the handlers (the empty text) never fires on this engine. *)
Lemma raft_leader_never_empty lead : Node_Leader lead <> "".
Proof. intros E. pose proof (parseInt_Z_to_string lead) as H. unfold Node_Leader in E. by rewrite E in H. Qed.
