(* ===== verification/GoRaftApi.v ===== *)
(** * The peers of the raft engine over HTTP (server/api/raft.go)

    Listing the peers and proposing to add or remove one, behind the middleware
    that asks for the raft engine. *)

From S2P Require Import Prelude JsString JsNumber JsValue Effects Api Slots GoShard GoCluster GoJson GoEngine GoStore.
From S2P Require Import GoServer GoRaft.

Definition OperationAdd : string := "add".
Definition OperationRemove : string := "remove".

(** The tags [validate] of the struct are not the ones the binding looks at. *)
Record MemberRequest := MkMember { mr_ID : Z; mr_Operation : string; mr_Peer : string }.

Definition dec_uint64 (cur : Z) (v : value) : go_error + Z :=
  match v with
  | VNull => inr cur
  | VNum (Fin q) =>
      let z := Qnum q / Zpos (Qden q) in
      if (Qnum q mod Zpos (Qden q) =? 0) && (0 <=? z) && (z <? 2 ^ 64) then inr z else inl (json_error "uint64")
  | _ => inl (json_error "uint64")
  end.

Definition bind_member (body : value) : go_error + MemberRequest :=
  fs ← bind body;
  id ← json_field "id" dec_uint64 0 fs;
  operation ← json_field "operation" dec_string "" fs;
  peer ← json_field "peer" dec_string "" fs;
  inr (MkMember id operation peer).

(** The request with its operation in lower case, or an error. *)
Definition member_validate (r : MemberRequest) : go_error + MemberRequest :=
  let operation := toLowerCase (mr_Operation r) in
  if negb (String.eqb operation OperationAdd) && negb (String.eqb operation OperationRemove)
  then inl (errors_New ("operation must be one of [" +:+ join "," [OperationAdd; OperationRemove] +:+ "]"))
  else if String.eqb operation OperationAdd && String.eqb (mr_Peer r) "" then inl (errors_New "peer should NOT be empty")
  else inr (MkMember (mr_ID r) operation (mr_Peer r)).

Section Api.
Context {ConfState : Type}.
Implicit Types (n : RaftNode ConfState) (body : value).

(** [encoding/json] writes the keys of a map in their order as strings. *)
Definition peers_json (ps : gmap Z string) : value :=
  VObj (stable_sort (fun a b => String.leb (fst a) (fst b)) (map (fun '(id, p) => (Z_to_string id, VStr p)) (map_to_list ps))).

Definition Raft_ListPeers (lead : Z) n : outcome :=
  ResponseOK (VObj [("leader", VNum (Fin (inject_Z lead))); ("peers", peers_json (ListPeers n))]).

(** The response and what was proposed; [proposeErr] is the library's error. *)
Definition UpdatePeer (proposeErr : option go_error) n body : outcome * option (EntryType * entry_data) :=
  match bind_member body with
  | inl err => (ResponseBadRequest err, None)
  | inr req =>
      match member_validate req with
      | inl err => (ResponseBadRequest err, None)
      | inr req =>
          let peers := ListPeers n in
          let finish p := (match proposeErr with Some err => ResponseError err | None => ResponseOK VNull end, Some p) in
          if String.eqb (mr_Operation req) OperationAdd then
          if existsb (fun '(_, peer) => String.eqb peer (mr_Peer req)) (map_to_list peers)
          then (ResponseError (errors_New ("peer '" +:+ mr_Peer req +:+ "' already exists")), None)
          else finish (AddPeer_proposal (mr_ID req) (mr_Peer req))
          else match peers !! mr_ID req with
          | None => (ResponseBadRequest (errors_New "peer not exists"), None)
          | Some _ => if (size peers =? 1)%nat then (ResponseBadRequest (errors_New "can't remove the last peer"), None)
              else finish (RemovePeer_proposal (mr_ID req))
          end
      end
  end.

(** The engine of the server is a raft node, or another one. *)
Definition RequiredRaftEngine {A} (engine : option (RaftNode ConfState)) (next : RaftNode ConfState -> outcome * option A) :
  outcome * option A :=
  match engine with
  | None => (ResponseBadRequest (errors_New "raft engine is not enabled"), None)
  | Some n => next n
  end.

(** The route /api/v1/raft/peers. *)
Definition raft_peers (engine : option (RaftNode ConfState)) (lead : Z) proposeErr (m : meth) body : outcome * option (EntryType * entry_data) :=
  match m with
  | GET => RequiredRaftEngine engine (fun n => (Raft_ListPeers lead n, None))
  | POST => RequiredRaftEngine engine (fun n => UpdatePeer proposeErr n body)
  | _ => (ResponseError (sentinel ErrNotFound), None)
  end.

(** What may be proposed on a node. *)
Definition admissible n (req : MemberRequest) (p : EntryType * entry_data) : Prop :=
  (mr_Operation req = OperationAdd /\ p = AddPeer_proposal (mr_ID req) (mr_Peer req) /\ mr_Peer req <> "" /\
  forall id, n_peers n !! id <> Some (mr_Peer req)) \/
  (mr_Operation req = OperationRemove /\ p = RemovePeer_proposal (mr_ID req) /\
  is_Some (n_peers n !! mr_ID req) /\ size (n_peers n) <> 1%nat).

Lemma member_validate_inr r r' : member_validate r = inr r' ->
  mr_Operation r' = toLowerCase (mr_Operation r) /\ mr_ID r' = mr_ID r /\ mr_Peer r' = mr_Peer r /\
  (mr_Operation r' = OperationAdd /\ mr_Peer r' <> "" \/ mr_Operation r' = OperationRemove).
Proof.
  unfold member_validate. intros H.
  destruct (String.eqb_spec (toLowerCase (mr_Operation r)) OperationAdd) as [E|E]; cbn [negb andb] in H.
  - destruct (String.eqb_spec (mr_Peer r) ""); cbn in H; simplify_eq. cbn. rewrite E. tauto.
  - destruct (String.eqb_spec (toLowerCase (mr_Operation r)) OperationRemove); cbn in H; simplify_eq. cbn. tauto.
Qed.

Lemma existsb_peers (ps : gmap Z string) p :
  existsb (fun '(_, peer) => String.eqb peer p) (map_to_list ps) = true <-> exists id, ps !! id = Some p.
Proof.
  rewrite existsb_exists. split.
  - intros ([id p'] & Hin & E%String.eqb_eq). subst p'. exists id. by apply elem_of_map_to_list, list_elem_of_In.
  - intros [id Hid]. exists (id, p). split; [by apply list_elem_of_In, elem_of_map_to_list|by rewrite String.eqb_refl].
Qed.
End Api.

(** A change of the peers: a request that is not a change that can be made
    (no JSON of the type, another operation, a peer without address, an address
    that is there, a peer that is not there, the last peer) is answered with 400
    or 500 and nothing is proposed; every other one proposes exactly the change
    of the request and reports what the library says.  A process with another
    identity that applies the proposal then has the peer, or has it no longer. *)
Theorem update_peer_spec {ConfState} (ApplyConfChange : ConfState -> ConfChange -> ConfState) (n : RaftNode ConfState) body :
  match bind_member body ≫= member_validate with
  | inl err => forall perr, UpdatePeer perr n body = (Respond 400 (error_body err), None)
  | inr req =>
      (exists p, admissible n req p /\
         UpdatePeer None n body = (Respond 200 (VObj [("data", VNull)]), Some p) /\
         (forall err, UpdatePeer (Some err) n body = (ResponseError err, Some p)) /\
         forall (m : RaftNode ConfState) closeErr i, cfg_ID (config m) <> mr_ID req ->
           exists m', applyEntry ApplyConfChange closeErr m (MkEntry i (fst p) (snd p)) = Applied m' None /\
             kvs m' = kvs m /\
             n_peers m' = (if String.eqb (mr_Operation req) OperationAdd then insert (mr_ID req) (mr_Peer req) else delete (mr_ID req)) (n_peers m)) \/
      ((forall p, ~ admissible n req p) /\
       exists code err, (code = 400 \/ code = 500) /\ forall perr, UpdatePeer perr n body = (Respond code (error_body err), None))
  end.
Proof.
  unfold UpdatePeer. destruct (bind_member body) as [err|req0]; cbn [mbind go_bind]; [done|].
  destruct (member_validate req0) as [err|req] eqn:Ev; [done|].
  destruct (member_validate_inr _ _ Ev) as (_ & _ & _ & [[Hop Hp]|Hop]); rewrite Hop; cbn [String.eqb].
  - change (String.eqb OperationAdd OperationAdd) with true. cbv iota. unfold ListPeers.
    destruct (existsb _ _) eqn:Ex; [right|left].
    + apply existsb_peers in Ex as [id Hid]. split; [|exists 500; eexists; split; [by right|done]].
      intros p [(_ & _ & _ & H)|(H & _)]; [by apply (H id)|by rewrite Hop in H].
    + eexists. split_and!; [left; split_and!; [done|reflexivity|done|]|done|done|].
      { intros id Hid. assert (Ht : exists id, n_peers n !! id = Some (mr_Peer req)) by eauto.
        apply existsb_peers in Ht. congruence. }
      intros m closeErr i Hid. cbn. rewrite (proj2 (Z.eqb_neq _ _)), (proj2 (String.eqb_neq _ _)) by done. cbn. by eexists.
  - change (String.eqb OperationRemove OperationAdd) with false. cbv iota. unfold ListPeers.
    destruct (n_peers n !! mr_ID req) as [x|] eqn:El; [destruct (Nat.eqb_spec (size (n_peers n)) 1)|].
    + right. split; [|exists 400; eexists; split; [by left|done]].
      intros p [(H & _)|(_ & _ & _ & H)]; [by rewrite Hop in H|done].
    + left. eexists. split_and!; [right; split_and!; [done|reflexivity|by eexists|done]|done|done|].
      intros m closeErr i Hid. cbn. rewrite (proj2 (Z.eqb_neq _ _)) by done. by eexists.
    + right. split; [|exists 400; eexists; split; [by left|done]].
      intros p [(H & _)|(_ & _ & [? H] & _)]; [by rewrite Hop in H|congruence].
Qed.

(** Two removals that are both admissible leave no peer: the check is made when
    the change is proposed. *)
Lemma both_peers_removed :
  exists n n1 n2, size (n_peers n) = 2%nat /\
    (exists p, admissible n (MkMember 2 OperationRemove "") p /\ applyEntry demo_conf None n (MkEntry 1 (fst p) (snd p)) = Applied n1 None) /\
    (exists p, admissible n (MkMember 3 OperationRemove "") p /\ applyEntry demo_conf None n1 (MkEntry 2 (fst p) (snd p)) = Applied n2 None) /\
    n_peers n2 = ∅.
Proof.
  exists (set_peers {[2 := "http://b"; 3 := "http://c"]} demo_node). eexists _, _. split_and!; [reflexivity|..].
  - eexists. split; [right; split_and!; [done|reflexivity|by eexists|by vm_compute]|reflexivity].
  - eexists. split; [right; split_and!; [done|reflexivity|by eexists|by vm_compute]|reflexivity].
  - by vm_compute.
Qed.
