(* ===== verification/GoLeader.v ===== *)
(** * The controller (controller/controller.go)

    One process of the controller: it follows the leadership of the engine and,
    as the leader, keeps a checker for every cluster of the store, from the list of
    the clusters when it becomes the leader and from the events of its own store
    afterwards.  Two goroutines, the one that follows the leadership and the one
    that handles events, run with requests and with other processes in any
    interleaving. *)

From S2P Require Import Prelude JsString JsNumber JsValue Effects Api Slots GoShard GoCluster GoJson GoEngine GoStore.
From S2P Require Import GoController GoServer.

(** ** Checkers *)

Record FailOverConfig := MkFailOver { PingIntervalSeconds : Z; MaxPingCount : Z }.

(** Nanoseconds, in 64 bits. *)
Definition time_Second : Z := 10 ^ 9.
Definition time_Millisecond : Z := 10 ^ 6.

Definition WithPingInterval (interval : Z) : Z :=
  if interval <? 200 * time_Millisecond then 200 * time_Millisecond else interval.

Record ClusterChecker := MkClusterChecker {
  cc_namespace : string; cc_clusterName : string; cc_pingInterval : Z; cc_maxFailureCount : Z }.

Definition NewClusterChecker (ns c : string) : ClusterChecker := MkClusterChecker ns c (3 * time_Second) 5.

Definition with_config (cfg : FailOverConfig) (k : ClusterChecker) : ClusterChecker :=
  MkClusterChecker (cc_namespace k) (cc_clusterName k)
    (WithPingInterval (wrap64 (PingIntervalSeconds cfg * time_Second))) (WithMaxFailureCount (MaxPingCount cfg)).

(** ** The table of checkers *)

Notation checkers := (gmap string ClusterChecker).

Definition checker_key (ns c : string) : string := ns +:+ "/" +:+ c.

Definition getChecker (m : checkers) (ns c : string) : go_error + ClusterChecker :=
  match m !! checker_key ns c with Some k => inr k | None => inl (sentinel ErrNotFound) end.

Definition addCluster (cfg : FailOverConfig) (ns c : string) (m : checkers) : checkers :=
  match getChecker m ns c with
  | inr _ => m
  | inl _ => <[checker_key ns c := with_config cfg (NewClusterChecker ns c)]> m
  end.

Definition removeCluster (ns c : string) (m : checkers) : checkers := delete (checker_key ns c) m.

(** The checker that is told to send the topology to its nodes. *)
Definition updateCluster (ns c : string) (m : checkers) : option string :=
  match m !! checker_key ns c with Some _ => Some (checker_key ns c) | None => None end.

Definition suspend (m : checkers) : checkers := ∅.

Lemma checker_key_inj ns c ns' c' :
  path_name ns = true -> path_name ns' = true -> checker_key ns c = checker_key ns' c' -> ns = ns' /\ c = c'.
Proof.
  intros [H _]%path_name_spec [H' _]%path_name_spec E. unfold checker_key in E.
  apply (f_equal (cut "/")) in E. change (ns +:+ "/" +:+ c) with (ns +:+ String "/" c) in E.
  change (ns' +:+ "/" +:+ c') with (ns' +:+ String "/" c') in E. rewrite !cut_app in E by done. by simplify_eq.
Qed.

(** ** Events of the store *)

Section Controller.
Context {E : Type} `{EngineLaws E} (cfg : FailOverConfig) (id : string).
Implicit Types (e : E) (m : checkers) (op : store_op) (ev : EventPayload).

(** An operation of the store and the events it emits. *)
Definition emit_op e op : go_error + (E * list EventPayload) :=
  match op with
  | OCreateNamespace ns => CreateNamespace e ns
  | ORemoveNamespace ns => RemoveNamespace e ns
  | OCreateCluster ns cl => CreateCluster e ns cl
  | OUpdateCluster ns cl => '(e', _, evs) ← UpdateCluster e ns cl; inr (e', evs)
  | OSetCluster ns cl => e' ← SetCluster e ns cl; inr (e', [])
  | ORemoveCluster ns c => RemoveCluster e ns c
  end.

Definition op_events op : list EventPayload :=
  match op with
  | OCreateNamespace ns => [MkEvent ns "" EventNamespace CommandCreate]
  | ORemoveNamespace ns => [MkEvent ns "" EventNamespace CommandRemove]
  | OCreateCluster ns cl => [MkEvent ns (Name cl) EventCluster CommandCreate]
  | OUpdateCluster ns cl => [MkEvent ns (Name cl) EventCluster CommandUpdate]
  | OSetCluster _ _ => []
  | ORemoveCluster ns c => [MkEvent ns c EventCluster CommandRemove]
  end.

Lemma emit_op_exec e op e' evs : emit_op e op = inr (e', evs) -> exec_op e op = inr e' /\ evs = op_events op.
Proof.
  destruct op as [ns|ns|ns cl|ns cl|ns cl|ns c]; cbn [emit_op exec_op op_events];
    unfold CreateNamespace, RemoveNamespace, CreateCluster, UpdateCluster, SetCluster, RemoveCluster;
    [..|destruct (GetCluster e ns (Name cl)) as [|old]; cbn [mbind go_bind]; [done|]
    |destruct (GetCluster e ns (Name cl)) as [|old]; cbn [mbind go_bind]; [done|]|];
    repeat (case_match; cbn [mbind go_bind]; try done); intros [= <- <-]; done.
Qed.

(** ** The goroutines *)

(** Events are handled by the leader only; the checkers afterwards, and the one
    that was told to synchronize. *)
Definition on_event ev m : checkers * option string :=
  match ev_Command ev with
  | CommandCreate => (addCluster cfg (ev_Namespace ev) (ev_Cluster ev) m, None)
  | CommandRemove => (removeCluster (ev_Namespace ev) (ev_Cluster ev) m, None)
  | CommandUpdate => (m, updateCluster (ev_Namespace ev) (ev_Cluster ev) m)
  end.

Definition is_cluster_event ev : bool := match ev_Type ev with EventCluster => true | EventNamespace => false end.

Definition IsLeader (leader : string) : bool := String.eqb leader id.

(** Where [syncLoop] is.  Before the loop: about to ask [IsLeader] ([Begin]),
    and to read [Leader] ([ReadFirst], with whether [becomeLeader] resumed).  In the
    loop: at the select statement, past it with the signal taken ([Woken]), about to
    suspend, and to read [Leader] again ([ReadLost]).  [resume], called before the
    loop ([first]) or in it, is about to list the namespaces, or has namespaces left
    to list and clusters left to add. *)
Inductive sync_phase :=
| Begin
| Listing (first : bool)
| Adding (first : bool) (nss : list string) (cs : list (string * string))
| ReadFirst (resumed : bool)
| AtSelect
| Woken
| Suspending
| ReadLost.

(** The answer of the first [IsLeader]; nothing is resumed for an empty
    identifier, the previous leader being empty too. *)
Definition start_loop (isLeader : bool) : sync_phase :=
  if isLeader && negb (String.eqb "" id) then Listing true else ReadFirst false.

(** The answer of [IsLeader] after a change of the leader was signalled. *)
Definition on_leader_change (isLeader : bool) (prevTermLeader : string) : sync_phase :=
  if isLeader then
  if negb (String.eqb prevTermLeader id) then Listing false else AtSelect
  else
  if negb (String.eqb prevTermLeader id) then AtSelect else Suspending.

(** [becomeLeader] has returned, also when [resume] failed. *)
Definition after_resume (first : bool) (prevTermLeader : string) : string * sync_phase :=
  if first then (prevTermLeader, ReadFirst true) else (id, AtSelect).

(** ** The process among others *)

(** [c_handling] is the event between the check of the leadership and its effect.
    [c_missed] is a ghost, see [cstep]. *)
Record cstate := CState {
  c_store : E; c_leader : string; c_signal : bool; c_prev : string; c_phase : sync_phase;
  c_clusters : checkers; c_queue : list EventPayload; c_handling : option EventPayload; c_missed : bool }.

Definition idle (q : list EventPayload) (h : option EventPayload) : bool :=
  match q, h with [], None => true | _, _ => false end.

(** The controller relies on its checkers: it lists the clusters, or has done so. *)
Definition relies (prev : string) (ph : sync_phase) : bool :=
  match ph with
  | Adding _ _ _ => true
  | ReadFirst resumed => resumed
  | AtSelect | Woken | Suspending => String.eqb prev id
  | Begin | Listing _ | ReadLost => false
  end.

(** Between a negative answer of [IsLeader] and the reading of [Leader] that
    [syncLoop] will remember. *)
Definition between_reads (ph : sync_phase) : bool :=
  match ph with ReadFirst false | Suspending | ReadLost => true | _ => false end.

(** Every read of the leadership, every listing and every change of the table is
    a step of its own.  The ghost is set when another process changes the store, or
    an event is dropped, while this one relies on its checkers; when listing fails;
    and when the leader that [syncLoop] reads is the process itself although it has
    not resumed.  Listing everything again clears it. *)
Inductive cstep : cstate -> cstate -> Prop :=
| CLocal e l s p ph m q h x op a e' evs :
    represents e a -> op_ok a op -> emit_op e op = inr (e', evs) ->
    cstep (CState e l s p ph m q h x) (CState e' l s p ph m (q ++ evs) h x)
| CForeign e l s p ph m q h x op a e' :
    represents e a -> op_ok a op -> exec_op e op = inr e' ->
    cstep (CState e l s p ph m q h x) (CState e' l s p ph m q h (x || relies p ph || negb (idle q h)))
| CLeader e l s p ph m q h x l' :
    cstep (CState e l s p ph m q h x) (CState e l' true p ph m q h x)
| CBegin e l s p m q h x :
    cstep (CState e l s p Begin m q h x) (CState e l s p (start_loop (IsLeader l)) m q h x)
| CReadFirst e l s p r m q h x :
    cstep (CState e l s p (ReadFirst r) m q h x) (CState e l s l AtSelect m q h (x || (negb r && IsLeader l)))
| CWake e l p m q h x :
    cstep (CState e l true p AtSelect m q h x) (CState e l false p Woken m q h x)
| CCheck e l s p m q h x :
    cstep (CState e l s p Woken m q h x) (CState e l s p (on_leader_change (IsLeader l) p) m q h x)
| CSuspend e l s p m q h x :
    cstep (CState e l s p Suspending m q h x) (CState e l s p ReadLost (suspend m) q h x)
| CReadLost e l s p m q h x :
    cstep (CState e l s p ReadLost m q h x) (CState e l s l AtSelect m q h (x || IsLeader l))
| CResumeList e l s p f m q h x :
    cstep (CState e l s p (Listing f) m q h x) (CState e l s p (Adding f (ListNamespace e) []) m q h (x && negb (idle q h)))
| CResumeNs e l s p f ns nss m q h x :
    cstep (CState e l s p (Adding f (ns :: nss) []) m q h x)
    (CState e l s p (Adding f nss (map (pair ns) (ListCluster e ns))) m q h x)
| CResumeAdd e l s p f nss ns c cs m q h x :
    cstep (CState e l s p (Adding f nss ((ns, c) :: cs)) m q h x) (CState e l s p (Adding f nss cs) (addCluster cfg ns c m) q h x)
| CResumed e l s p f m q h x p' ph' :
    after_resume f p = (p', ph') ->
    cstep (CState e l s p (Adding f [] []) m q h x) (CState e l s p' ph' m q h x)
| CResumeFail e l s p f ph m q h x p' ph' :
    ph = Listing f \/ (exists ns nss, ph = Adding f (ns :: nss) []) -> after_resume f p = (p', ph') ->
    cstep (CState e l s p ph m q h x) (CState e l s p' ph' m q h true)
| CTake e l s p ph m ev q x :
    l = id -> is_cluster_event ev = true ->
    cstep (CState e l s p ph m (ev :: q) None x) (CState e l s p ph m q (Some ev) x)
| CDrop e l s p ph m ev q x :
    l <> id \/ is_cluster_event ev = false ->
    cstep (CState e l s p ph m (ev :: q) None x)
    (CState e l s p ph m q None (x || (is_cluster_event ev && relies p ph)))
| CAct e l s p ph m ev q x :
    cstep (CState e l s p ph m q (Some ev) x) (CState e l s p ph (fst (on_event ev m)) q None x).

(** A process that starts, whoever leads. *)
Definition cstarted (σ : cstate) : Prop :=
  exists e a l s, represents e a /\ id <> "" /\ σ = CState e l s "" Begin ∅ [] None false.

Inductive creach : cstate -> Prop :=
| creach_start σ : cstarted σ -> creach σ
| creach_step σ σ' : creach σ -> cstep σ σ' -> creach σ'.

(** ** What the events say *)

(** A cluster of the store has this key. *)
Definition has e (k : string) : Prop :=
  exists ns c, path_name ns = true /\ path_name c = true /\ existsCluster e ns c = true /\ checker_key ns c = k.

(** Whether an event says that the cluster of a key is there, or is gone. *)
Definition says (k : string) ev : option bool :=
  if is_cluster_event ev && String.eqb (checker_key (ev_Namespace ev) (ev_Cluster ev)) k then
  match ev_Command ev with CommandCreate => Some true | CommandRemove => Some false | CommandUpdate => None end
  else None.

(** The last event that says so. *)
Fixpoint last_said (k : string) (evs : list EventPayload) : option bool :=
  match evs with
  | [] => None
  | ev :: evs' => match last_said k evs' with Some b => Some b | None => says k ev end
  end.

Lemma last_said_app k l l' : last_said k (l ++ l') = match last_said k l' with Some b => Some b | None => last_said k l end.
Proof. induction l as [|ev l IH]; cbn; [by destruct (last_said k l')|]. rewrite IH. by destruct (last_said k l'). Qed.

Lemma rep_has e a k :
  represents e a -> has e k <-> exists ns c, path_name ns = true /\ path_name c = true /\ is_Some (find_cluster a ns c) /\ checker_key ns c = k.
Proof.
  intros Hr. unfold has. split; intros (ns & c & Hns & Hc & Hx & Hk); exists ns, c; split_and!; try done.
  - rewrite (rep_exists_cluster e a) in Hx by done. by apply bool_decide_eq_true in Hx.
  - rewrite (rep_exists_cluster e a) by done. by apply bool_decide_eq_true.
Qed.

Lemma put_keeps_names ns cl (a : astore) ns' c' :
  is_Some (find_cluster a ns (Name cl)) ->
  is_Some (find_cluster (put_cluster ns cl a) ns' c') <-> is_Some (find_cluster a ns' c').
Proof.
  intros Hs. rewrite find_put by (by eapply find_cluster_ns). case_decide as Hd; [|done]. destruct Hd as [<- <-].
  split; [done|by eexists].
Qed.

(** The events of an operation say what it changes. *)
Lemma op_says e a op e' :
  represents e a -> op_ok a op -> exec_op e op = inr e' ->
  (exists a', represents e' a') /\
  forall k, has e' k <-> match last_said k (op_events op) with Some b => b = true | None => has e k end.
Proof.
  intros Hr Hok Hx. pose proof (exec_op_refines e a op Hr Hok) as Href. rewrite Hx in Href.
  destruct (spec_op e_Missing a op) as [|a'] eqn:Es; [done|]. split; [by exists a'|].
  intros k. rewrite (rep_has e' a') by done. pose proof (rep_has e a k Hr) as HP.
  destruct op as [ns|ns|ns cl|ns cl|ns cl|ns c]; cbn [spec_op op_events last_said says is_cluster_event ev_Type ev_Command ev_Namespace ev_Cluster op_ok] in *;
    unfold says; cbn [is_cluster_event ev_Type andb ev_Namespace ev_Cluster ev_Command].
  - destruct (a !! ns) eqn:Ea; simplify_eq. rewrite HP. unfold find_cluster.
    split; intros (ns' & c & Hns & Hc & Hf & Hk); exists ns', c; split_and!; try done.
    + rewrite lookup_insert in Hf. case_decide; [|done]. cbn in Hf. rewrite lookup_empty in Hf. by destruct Hf.
    + rewrite lookup_insert. case_decide; [|done]. subst ns'. rewrite Ea in Hf. by destruct Hf.
  - destruct (a !! ns) as [cs|] eqn:Ea; [|done]. destruct (decide (cs = ∅)) as [->|]; simplify_eq. rewrite HP. unfold find_cluster.
    split; intros (ns' & c & Hns & Hc & Hf & Hk); exists ns', c; split_and!; try done.
    + rewrite lookup_delete in Hf. case_decide; [by destruct Hf|done].
    + rewrite lookup_delete. case_decide; [|done]. subst ns'. rewrite Ea in Hf. cbn in Hf. rewrite lookup_empty in Hf. by destruct Hf.
  - destruct Hok as (Hns & Hc & _ & Ha). destruct (find_cluster a ns (Name cl)) eqn:Ef; simplify_eq.
    destruct (String.eqb_spec (checker_key ns (Name cl)) k) as [<-|Hne].
    + split; [done|]. intros _. exists ns, (Name cl). split_and!; [done..| |done]. rewrite find_put by done. case_decide; [by eexists|tauto].
    + rewrite HP. split; intros (ns' & c & Hns' & Hc' & Hf & Hk); exists ns', c; split_and!; try done.
      * rewrite find_put in Hf by done. case_decide as Hd; [by destruct Hd; subst|done].
      * rewrite find_put by done. case_decide as Hd; [by destruct Hd; subst|done].
  - destruct (find_cluster a ns (Name cl)) as [old|] eqn:Ef; [|done]. destruct (_ <? _); simplify_eq.
    assert (Hp := put_keeps_names ns (MkCluster (Name cl) (Version cl + 1) (Shards cl)) a). cbn [Name] in Hp.
    transitivity (has e k); [rewrite HP|by destruct (String.eqb _ k)].
    split; intros (ns' & c & ? & ? & Hf & ?); exists ns', c; split_and!; try done; (apply Hp; [by rewrite Ef; eexists|done]).
  - destruct (find_cluster a ns (Name cl)) as [old|] eqn:Ef; [|done]. destruct (_ <? _); simplify_eq.
    rewrite HP.
    split; intros (ns' & c & ? & ? & Hf & ?); exists ns', c; split_and!; try done;
      (apply (put_keeps_names ns cl a) in Hf || apply (put_keeps_names ns cl a)); (done || by rewrite Ef; eexists).
  - destruct Hok as (Hns & Hc). destruct (find_cluster a ns c) eqn:Ef; simplify_eq.
    destruct (String.eqb_spec (checker_key ns c) k) as [<-|Hne].
    + split; [|done]. intros (ns' & c' & Hns' & Hc' & Hf & Hk). apply checker_key_inj in Hk as [-> ->]; [|done..].
      rewrite find_drop, decide_True in Hf by done. by destruct Hf.
    + rewrite HP. split; intros (ns' & c' & Hns' & Hc' & Hf & Hk); exists ns', c'; split_and!; try done; revert Hf;
        rewrite find_drop; (case_decide as Hd; [by destruct Hd; subst|done]).
Qed.

(** ** The invariant *)

Definition pending (σ : cstate) : list EventPayload := option_list (c_handling σ) ++ c_queue σ.

Definition named ev : Prop := is_cluster_event ev = true -> path_name (ev_Namespace ev) = true /\ path_name (ev_Cluster ev) = true.

Definition checker_ok (k : string) (v : ClusterChecker) : Prop :=
  exists ns c, path_name ns = true /\ path_name c = true /\ k = checker_key ns c /\ v = with_config cfg (NewClusterChecker ns c).

(** A cluster of the store has a checker, or [resume] will still get to it. *)
Definition covered m (cs : list (string * string)) (nss : list string) (k : string) : Prop :=
  is_Some (m !! k) \/ (exists ns c, (ns, c) ∈ cs /\ checker_key ns c = k) \/ (exists ns c, ns ∈ nss /\ checker_key ns c = k).

Definition left_nss (ph : sync_phase) : list string := match ph with Adding _ nss _ => nss | _ => [] end.
Definition left_cs (ph : sync_phase) : list (string * string) := match ph with Adding _ _ cs => cs | _ => [] end.

(** A process that leads has resumed, is about to find out, or will be told; in
    between the two reads it will be told, too late. *)
Definition noticed (σ : cstate) : Prop :=
  c_leader σ = id -> c_signal σ = true \/
  match c_phase σ with AtSelect => c_prev σ = id | ph => between_reads ph = false end.

Record names_inv (σ : cstate) : Prop := {
  ni_events : Forall named (pending σ);
  ni_handling ev : c_handling σ = Some ev -> is_cluster_event ev = true;
  ni_nss : Forall (fun ns => path_name ns = true) (left_nss (c_phase σ));
  ni_cs : Forall (fun x => path_name (fst x) = true /\ path_name (snd x) = true) (left_cs (c_phase σ));
  ni_clusters k v : c_clusters σ !! k = Some v -> checker_ok k v }.

Record cinv (σ : cstate) : Prop := {
  ci_id : id <> "";
  ci_rep : exists a, represents (c_store σ) a;
  ci_said : c_missed σ = false -> forall k b, last_said k (pending σ) = Some b -> (has (c_store σ) k <-> b = true);
  ci_cover : c_missed σ = false -> relies (c_prev σ) (c_phase σ) = true ->
  forall k, has (c_store σ) k -> last_said k (pending σ) = None ->
  covered (c_clusters σ) (left_cs (c_phase σ)) (left_nss (c_phase σ)) k;
  ci_noticed : noticed σ;
  ci_names : names_inv σ }.

Lemma addCluster_lookup ns c m k :
  addCluster cfg ns c m !! k =
  if decide (checker_key ns c = k) then Some (default (with_config cfg (NewClusterChecker ns c)) (m !! k)) else m !! k.
Proof.
  unfold addCluster, getChecker. destruct (m !! checker_key ns c) eqn:Em; case_decide as Hd; try done.
  - subst k. by rewrite Em.
  - subst k. by rewrite Em, lookup_insert_eq.
  - by rewrite lookup_insert_ne.
Qed.

Lemma addCluster_ok ns c m :
  path_name ns = true -> path_name c = true -> (forall k v, m !! k = Some v -> checker_ok k v) ->
  forall k v, addCluster cfg ns c m !! k = Some v -> checker_ok k v.
Proof.
  intros Hns Hc Hm k v. rewrite addCluster_lookup. case_decide as Hd; [|apply Hm]. subst k.
  destruct (m !! checker_key ns c) as [v'|] eqn:Em; cbn; intros [= <-]; [by apply Hm|]. by exists ns, c.
Qed.

Lemma op_events_named a op : op_ok a op -> Forall named (op_events op).
Proof. destruct op; cbn; intros Hok; repeat constructor; unfold named; cbn; intros; naive_solver. Qed.

Lemma rep_list_named e a ns :
  represents e a -> path_name ns = true -> Forall (fun x => path_name (fst x) = true /\ path_name (snd x) = true) (map (pair ns) (ListCluster e ns)).
Proof.
  intros Hr Hns. apply Forall_forall. intros x (c & -> & Hc)%list_elem_of_fmap. cbn. split; [done|].
  destruct (rep_ListCluster e a ns Hr Hns) as [_ Hl]. apply Hl in Hc. unfold find_cluster in Hc.
  destruct (a !! ns) as [cs|] eqn:Ea; [|by destruct Hc]. by apply (rep_names _ _ Hr ns cs Ea).
Qed.

Lemma rep_namespaces_named e a : represents e a -> Forall (fun ns => path_name ns = true) (ListNamespace e).
Proof.
  intros Ha. destruct (rep_ListNamespace e a Ha) as [_ Hx]. apply Forall_forall. intros ns [cs Hc]%Hx.
  exact (proj1 (rep_names _ _ Ha ns cs Hc)).
Qed.

(** Phases in which nothing is left of [resume]. *)
Lemma left_none (b : bool) p :
  (left_nss (start_loop b) = [] /\ left_cs (start_loop b) = []) /\
  (left_nss (on_leader_change b p) = [] /\ left_cs (on_leader_change b p) = []) /\
  (forall f p' ph', after_resume f p = (p', ph') -> left_nss ph' = [] /\ left_cs ph' = []).
Proof.
  unfold start_loop, on_leader_change, after_resume.
  split_and!; repeat case_match; try done; intros; repeat case_match; by simplify_eq.
Qed.

Lemma cstep_names σ σ' : cinv σ -> cstep σ σ' -> names_inv σ'.
Proof.
  intros [_ [a Ha] _ _ _ Hn] Hs. destruct Hn as [He Hh Hns Hcs Hm].
  destruct Hs; unfold pending in *; cbn [c_handling c_queue c_phase c_clusters c_store left_nss left_cs option_list app] in *;
    try by split.
  - match goal with Hem : emit_op _ _ = _ |- _ => apply emit_op_exec in Hem as [_ ->] end. split; [|done..]. unfold pending. cbn [c_handling c_queue].
    rewrite app_assoc. apply Forall_app. split; [done|]. by eapply op_events_named.
  - destruct (left_none (IsLeader l) p) as ([E1 E2] & _). split; cbn; rewrite ?E1, ?E2; done.
  - destruct (left_none (IsLeader l) p) as (_ & [E1 E2] & _). split; cbn; rewrite ?E1, ?E2; done.
  - split; cbn; try done. by eapply rep_namespaces_named.
  - inversion Hns; subst. split; cbn; try done. by eapply rep_list_named.
  - inversion Hcs; subst. split; try done. cbn in *. apply addCluster_ok; naive_solver.
  - destruct (left_none true p) as (_ & _ & Hl). edestruct Hl as [E1 E2]; [done|]. split; cbn; rewrite ?E1, ?E2; done.
  - destruct (left_none true p) as (_ & _ & Hl). edestruct Hl as [E1 E2]; [done|]. split; cbn; rewrite ?E1, ?E2; done.
  - split; try done; cbn. by intros ev' [= <-].
  - inversion He; subst. by split.
  - inversion He as [|?? Hev He']; subst. split; try done; cbn. unfold on_event.
    destruct (Hev (Hh ev eq_refl)) as [H1' H2']. destruct (ev_Command ev); cbn; [by apply addCluster_ok|done|].
    intros k v. unfold removeCluster. rewrite lookup_delete. case_decide; [done|apply Hm].
Qed.

Lemma has_named e a k : represents e a -> has e k -> exists ns c,
  path_name ns = true /\ ns ∈ ListNamespace e /\ c ∈ ListCluster e ns /\ checker_key ns c = k.
Proof.
  intros Hr (ns & c & Hns & Hc & Hf & Hk)%(rep_has e a k Hr). exists ns, c. split_and!; try done.
  - apply (rep_ListNamespace e a Hr). by eapply find_cluster_ns.
  - by apply (rep_ListCluster e a ns Hr Hns).
Qed.

Lemma idle_pending q h : idle q h = true -> option_list h ++ q = [].
Proof. by destruct q, h. Qed.

(** A change by this process is announced behind everything that is pending. *)
Lemma local_says e a op e' pend :
  represents e a -> op_ok a op -> exec_op e op = inr e' ->
  (forall k b, last_said k pend = Some b -> (has e k <-> b = true)) ->
  forall k b, last_said k (pend ++ op_events op) = Some b -> (has e' k <-> b = true).
Proof.
  intros Hr Hok Hx Hs k b. destruct (op_says e a op e' Hr Hok Hx) as [_ Hk]. rewrite last_said_app.
  specialize (Hk k). destruct (last_said k (op_events op)) as [b'|]; [intros [= ->]; done|].
  rewrite Hk. apply Hs.
Qed.

Lemma on_event_covers e ev m cs nss q :
  is_cluster_event ev = true ->
  (forall k b, last_said k (ev :: q) = Some b -> (has e k <-> b = true)) ->
  (forall k, has e k -> last_said k (ev :: q) = None -> covered m cs nss k) ->
  forall k, has e k -> last_said k q = None -> covered (fst (on_event ev m)) cs nss k.
Proof.
  intros Hev Hsaid Hcov k Hk Hq. specialize (Hsaid k). specialize (Hcov k Hk). cbn [last_said] in Hsaid, Hcov.
  rewrite Hq in Hsaid, Hcov. unfold says in Hsaid, Hcov. rewrite Hev in Hsaid, Hcov. cbn [andb] in Hsaid, Hcov.
  unfold on_event. destruct (String.eqb_spec (checker_key (ev_Namespace ev) (ev_Cluster ev)) k) as [Ek|Ek].
  - destruct (ev_Command ev); cbn [fst].
    + left. rewrite addCluster_lookup, decide_True by done. by eexists.
    + by apply Hcov.
    + by apply (Hsaid false eq_refl) in Hk.
  - specialize (Hcov eq_refl). destruct (ev_Command ev); cbn [fst]; [|done|]; destruct Hcov as [Hm|Hc]; try (by right); left.
    + by rewrite addCluster_lookup, decide_False.
    + unfold removeCluster. by rewrite lookup_delete_ne.
Qed.

(** Listing the clusters of a namespace takes over what was left to it. *)
Lemma resume_ns_covers e a m cs ns nss k :
  represents e a -> has e k -> Forall (fun ns => path_name ns = true) (ns :: nss) ->
  covered m cs (ns :: nss) k -> covered m (cs ++ map (pair ns) (ListCluster e ns)) nss k.
Proof.
  intros Ha Hk Hnss [Hm|[(ns' & c & Hin & Hkey)|(ns' & c & Hin & Hkey)]].
  - by left.
  - right; left. exists ns', c. split; [|done]. apply elem_of_app. by left.
  - destruct (has_named e a k Ha Hk) as (ns1 & c1 & Hns1 & H1 & H2 & H3).
    inversion Hnss as [|?? Hns Hnss']; subst. apply elem_of_cons in Hin as [->|Hin].
    + apply checker_key_inj in H3 as [-> ->]; [|done..]. right; left. exists ns, c. split; [|done].
      apply elem_of_app. right. apply list_elem_of_fmap. by exists c.
    + right; right. by exists ns', c.
Qed.

Lemma resume_add_covers m cs ns c nss k :
  covered m ((ns, c) :: cs) nss k -> covered (addCluster cfg ns c m) cs nss k.
Proof.
  intros [Hm|[(ns' & c' & Hin & Hkey)|Hin]].
  - left. rewrite addCluster_lookup. by case_decide; [eexists|].
  - apply elem_of_cons in Hin as [[= -> ->]|Hin].
    + left. rewrite addCluster_lookup, decide_True by done. by eexists.
    + right; left. by exists ns', c'.
  - by right; right.
Qed.

Lemma cstep_noticed σ σ' : id <> "" -> noticed σ -> cstep σ σ' -> noticed σ'.
Proof.
  intros Hid. unfold noticed. intros Hn Hs. destruct Hs; cbn in *; try done; try (by left); intros Hl; try specialize (Hn Hl); subst; auto;
    unfold start_loop, on_leader_change, after_resume, IsLeader in *; rewrite ?String.eqb_refl; right.
  - by destruct (String.eqb_spec "" id).
  - by destruct (String.eqb_spec p id).
  - by destruct f; simplify_eq.
  - by destruct f; simplify_eq.
Qed.

(** Behind a check or a read, the controller relies on no more than before. *)
Lemma relies_check b p : relies p (on_leader_change b p) = true -> String.eqb p id = true.
Proof. unfold on_leader_change. destruct b, (String.eqb p id) eqn:Ep; cbn; congruence. Qed.

Ltac fields := unfold pending in *;
  cbn [c_handling c_queue c_store c_missed c_prev c_clusters c_phase c_leader relies left_nss left_cs option_list app] in *.

Lemma cstep_rep σ σ' : cinv σ -> cstep σ σ' -> exists a, represents (c_store σ') a.
Proof.
  intros [_ Ha _ _ _ _] Hs. destruct Hs; fields; try done.
  - match goal with Hem : emit_op _ _ = _ |- _ => apply emit_op_exec in Hem as [? ->] end. by eapply op_says.
  - by eapply op_says.
Qed.

(** What is pending stays true of the store, unless something was missed. *)
Lemma cstep_said σ σ' :
  cinv σ -> cstep σ σ' ->
  c_missed σ' = false -> forall k b, last_said k (pending σ') = Some b -> (has (c_store σ') k <-> b = true).
Proof.
  intros [_ [a Ha] Hsaid _ _ _] Hs.
  destruct Hs; fields; try done; try (by intros [Hx _]%orb_false_elim; auto).
  - match goal with Hem : emit_op _ _ = _ |- _ => apply emit_op_exec in Hem as [? ->] end.
    rewrite app_assoc. intros Hx. by eapply local_says; eauto.
  - intros [_ Hi%negb_false_iff]%orb_false_elim k b. by rewrite (idle_pending _ _ Hi).
  - intros [Hx|Hi%negb_false_iff]%andb_false_iff; [by auto|]. intros k b. by rewrite (idle_pending _ _ Hi).
  - intros [Hx _]%orb_false_elim k b Hl. apply (Hsaid Hx k b). cbn in *. by rewrite Hl.
  - intros Hx k b Hl. apply (Hsaid Hx k b). cbn in *. by rewrite Hl.
Qed.

(** Every cluster has a checker or gets one, while the controller relies on it. *)
Lemma cstep_cover σ σ' :
  cinv σ -> cstep σ σ' -> c_missed σ' = false -> relies (c_prev σ') (c_phase σ') = true ->
  forall k, has (c_store σ') k -> last_said k (pending σ') = None ->
  covered (c_clusters σ') (left_cs (c_phase σ')) (left_nss (c_phase σ')) k.
Proof.
  intros [Hid [a Ha] Hsaid Hcov Hnot Hn] Hs. destruct Hs; fields; try done.
  - match goal with Hem : emit_op _ _ = _ |- _ => apply emit_op_exec in Hem as [Hem ->] end.
    edestruct op_says as [_ Hk]; [done..|].
    intros Hx Hp k Hhas. rewrite app_assoc, last_said_app. specialize (Hk k). destruct (last_said k (op_events op)); [done|].
    rewrite Hk in Hhas. by apply Hcov.
  - intros [[_ Hr]%orb_false_elim _]%orb_false_elim. congruence.
  - unfold start_loop. by destruct (IsLeader l && _).
  - unfold IsLeader. intros [Hx Hr]%orb_false_elim Hl. rewrite Hl, andb_true_r in Hr. apply negb_false_iff in Hr. by apply Hcov.
  - destruct (left_none (IsLeader l) p) as (_ & [-> ->] & _). intros Hx Hr%relies_check. by apply Hcov.
  - unfold IsLeader. intros [_ Hr]%orb_false_elim. congruence.
  - intros _ _ k Hk _. right; right. destruct (has_named e a k Ha Hk) as (ns & c & _ & ? & _ & ?). by exists ns, c.
  - intros Hx Hp k Hk Hl. apply (resume_ns_covers e a m [] ns nss k); [done|done|apply (ni_nss _ Hn)|auto].
  - intros Hx Hp k Hk Hl. apply resume_add_covers. auto.
  - destruct (left_none true p) as (_ & _ & Hl). edestruct Hl as [-> ->]; [done|]. intros Hx _. by apply Hcov.
  - intros [Hx Hd]%orb_false_elim Hr k Hk Hl. rewrite Hr, andb_true_r in Hd. apply (Hcov Hx Hr k Hk). cbn in *. rewrite Hl.
    unfold says. by rewrite Hd.
  - intros Hx Hp. apply (on_event_covers e); auto. by apply (ni_handling _ Hn).
Qed.

Lemma cstep_inv σ σ' : cinv σ -> cstep σ σ' -> cinv σ'.
Proof.
  intros Hi Hs. split; [apply Hi|by eapply cstep_rep|by eapply cstep_said|by eapply cstep_cover| |by eapply cstep_names].
  eapply cstep_noticed; [|apply (ci_noticed _ Hi)|done]. apply Hi.
Qed.

Lemma creach_inv σ : creach σ -> cinv σ.
Proof.
  induction 1 as [σ (e & a & l & s & Ha & Hid & ->)|σ σ' _ IH Hs]; [|by eapply cstep_inv].
  split; [done|by eexists|done..| |]; [by right|]. split; cbn; try constructor; done.
Qed.

Lemma rtc_inv σ σ' : rtc cstep σ σ' -> cinv σ -> cinv σ'.
Proof. induction 1 as [|x y z Hs1 Hs2 IH]; [done|]. intros Hi. apply IH. by apply (cstep_inv x). Qed.

(** ** Coming to rest *)

Definition at_rest (σ : cstate) : Prop := pending σ = [] /\ c_phase σ = AtSelect.

Lemma supervised_at_rest σ :
  cinv σ -> c_leader σ = id -> c_signal σ = false -> c_missed σ = false -> at_rest σ ->
  forall ns c, path_name ns = true -> path_name c = true -> existsCluster (c_store σ) ns c = true ->
  c_clusters σ !! checker_key ns c = Some (with_config cfg (NewClusterChecker ns c)).
Proof.
  intros [_ _ _ Hcov Hnot Hn] Hl Hg Hx (Hpe & Hph) ns c Hns Hc He. unfold noticed in Hnot. rewrite Hph in Hcov, Hnot.
  destruct (Hnot Hl) as [|Hp]; [congruence|].
  destruct (Hcov Hx) with (k := checker_key ns c) as [[v Hv]|[(?&?&Hin&_)|(?&?&Hin&_)]].
  - cbn. by apply String.eqb_eq.
  - by exists ns, c.
  - by rewrite Hpe.
  - rewrite Hv. destruct (ni_clusters _ Hn _ _ Hv) as (ns' & c' & ? & ? & Ek & ->).
    by apply checker_key_inj in Ek as [-> ->].
  - by apply not_elem_of_nil in Hin.
  - by apply not_elem_of_nil in Hin.
Qed.

(** A step of one of the two goroutines that leaves the rest of the world alone,
    the signal included. *)
Definition own_step (σ σ' : cstate) : Prop :=
  cstep σ σ' /\ c_store σ' = c_store σ /\ c_leader σ' = c_leader σ /\ c_signal σ' = c_signal σ /\ c_missed σ' = c_missed σ.

(** Nothing but the two goroutines has run. *)
Definition same_world : cstate -> cstate -> Prop := rtc own_step.

Lemma same_world_step σ σ' σ'' :
  cstep σ σ' -> c_store σ' = c_store σ -> c_leader σ' = c_leader σ -> c_signal σ' = c_signal σ ->
  c_missed σ' = c_missed σ -> same_world σ' σ'' -> same_world σ σ''.
Proof. intros. eapply rtc_l; [|done]. by split_and!. Qed.

Lemma same_world_keeps σ σ' :
  same_world σ σ' ->
  rtc cstep σ σ' /\ c_store σ' = c_store σ /\ c_leader σ' = c_leader σ /\ c_signal σ' = c_signal σ /\
  c_missed σ' = c_missed σ.
Proof.
  induction 1 as [|σ σ1 σ' (Hs & ? & ? & ? & ?) _ (IH & ? & ? & ? & ?)]; [by split_and!|].
  split_and!; [by eapply rtc_l|congruence..].
Qed.

Lemma resume_ends e l s p f nss cs m q h x :
  exists m', same_world (CState e l s p (Adding f nss cs) m q h x) (CState e l s p (Adding f [] []) m' q h x).
Proof.
  revert cs m. induction nss as [|ns nss IH]; intros cs m; (revert m; induction cs as [|[ns' c] cs IHc]; intros m;
    [|destruct (IHc (addCluster cfg ns' c m)) as [m' Hm']; exists m'; by eapply same_world_step; [apply CResumeAdd|..]]).
  - exists m. by apply rtc_refl.
  - destruct (IH (map (pair ns) (ListCluster e ns)) m) as [m' Hm']. exists m'. by eapply same_world_step; [apply CResumeNs|..].
Qed.

(** The leader's [syncLoop] comes to the select statement, unless it is between
    the two reads. *)
Lemma select_reached e s p ph m q h :
  between_reads ph = false -> id <> "" ->
  exists p' m', same_world (CState e id s p ph m q h false) (CState e id s p' AtSelect m' q h false).
Proof.
  intros Hb Hid. assert (Hlead : IsLeader id = true) by apply String.eqb_refl.
  assert (Hread : forall p m, same_world (CState e id s p (ReadFirst true) m q h false) (CState e id s id AtSelect m q h false)).
  { intros p0 m0. eapply rtc_once. split; [apply (CReadFirst e id s p0 true)|done]. }
  assert (Hadd : forall f p nss cs m, exists p' m',
    same_world (CState e id s p (Adding f nss cs) m q h false) (CState e id s p' AtSelect m' q h false)).
  { intros f p0 nss cs m0. destruct (resume_ends e id s p0 f nss cs m0 q h false) as [m' Hm']. exists id, m'. etrans; [done|].
    destruct f; (eapply same_world_step; [by apply CResumed|done..|]); [apply Hread|apply rtc_refl]. }
  assert (Hlist : forall f p m, exists p' m',
    same_world (CState e id s p (Listing f) m q h false) (CState e id s p' AtSelect m' q h false)).
  { intros f p0 m0. destruct (Hadd f p0 (ListNamespace e) [] m0) as (p' & m' & Hm'). exists p', m'.
    by eapply same_world_step; [apply CResumeList|..]. }
  destruct ph as [| | |[]| | | |]; [|apply Hlist|apply Hadd|by eauto|discriminate Hb| | |discriminate Hb..].
  - destruct (Hlist true p m) as (p' & m' & Hm'). exists p', m'. eapply same_world_step; [apply CBegin|done..|].
    unfold start_loop. rewrite Hlead. by destruct (String.eqb_spec "" id).
  - exists p, m. by apply rtc_refl.
  - destruct (String.eqb p id) eqn:Ep.
    + exists p, m. eapply same_world_step; [apply CCheck|done..|]. unfold on_leader_change. rewrite Hlead, Ep. by apply rtc_refl.
    + destruct (Hlist false p m) as (p' & m' & Hm'). exists p', m'. eapply same_world_step; [apply CCheck|done..|].
      unfold on_leader_change. by rewrite Hlead, Ep.
Qed.

Lemma queue_ends e s p ph m q h x :
  exists m', same_world (CState e id s p ph m q h x) (CState e id s p ph m' [] None x).
Proof.
  revert m h. induction q as [|ev q IH]; intros m h.
  - destruct h as [ev|]; [|exists m; by apply rtc_refl].
    exists (fst (on_event ev m)). eapply same_world_step; [apply CAct|done..|]. by apply rtc_refl.
  - assert (Hnone : forall m, exists m', same_world (CState e id s p ph m (ev :: q) None x) (CState e id s p ph m' [] None x)).
    { intros m0. destruct (is_cluster_event ev) eqn:Eev.
      - destruct (IH m0 (Some ev)) as [m' Hm']. exists m'. eapply same_world_step; [by apply CTake|done..].
      - destruct (IH m0 None) as [m' Hm']. exists m'. eapply same_world_step; [apply CDrop; by right|done..| |]; cbn; rewrite Eev, orb_false_r; done. }
    destruct h as [ev'|]; [|apply Hnone]. destruct (Hnone (fst (on_event ev' m))) as [m' Hm']. exists m'.
    by eapply same_world_step; [apply CAct|..].
Qed.

Lemma rest_reached σ :
  id <> "" -> c_leader σ = id -> c_missed σ = false -> between_reads (c_phase σ) = false ->
  exists σ', same_world σ σ' /\ at_rest σ'.
Proof.
  destruct σ as [e l s p ph m q h x]. cbn. intros Hid -> -> Hb.
  destruct (select_reached e s p ph m q h Hb Hid) as (p' & m1 & Hr1). destruct (queue_ends e s p' AtSelect m1 q h false) as [m2 Hr2].
  eexists. split; [by etrans|done].
Qed.

(** A leader that owes its controller nothing comes to rest with a checker for
    every cluster. *)
Lemma supervised_comes σ :
  cinv σ -> c_leader σ = id -> c_missed σ = false -> between_reads (c_phase σ) = false -> c_signal σ = false ->
  exists σ', same_world σ σ' /\ at_rest σ' /\
  forall ns c, path_name ns = true -> path_name c = true -> existsCluster (c_store σ) ns c = true ->
  c_clusters σ' !! checker_key ns c = Some (with_config cfg (NewClusterChecker ns c)).
Proof.
  intros Hi Hl Hx Hb Hg. destruct (rest_reached σ (ci_id _ Hi) Hl Hx Hb) as (σ' & Hw & Hrest). exists σ'. do 2 (split; [done|]).
  destruct (same_world_keeps σ σ' Hw) as (Hs & He & Hl' & Hg' & Hx'). rewrite <- He.
  apply supervised_at_rest; [|congruence..|done]. by apply (rtc_inv σ).
Qed.

(** At rest the signal is taken. *)
Lemma rest_wakes σ :
  at_rest σ -> c_signal σ = true ->
  exists σ', cstep σ σ' /\ c_store σ' = c_store σ /\ c_leader σ' = c_leader σ /\ c_missed σ' = c_missed σ /\
  c_phase σ' = Woken /\ c_signal σ' = false.
Proof.
  destruct σ as [e l s p ph m q h x]. intros [_ Hph] Hg. cbn in Hph, Hg. subst. eexists. split; [apply CWake|done].
Qed.
End Controller.

(** The controller watches every cluster.  A process follows the leadership
    and handles events while requests, other processes and changes of the leader
    happen in any interleaving, between any two reads too.  If it leads, nothing
    happened behind its back ([c_missed]), and it is not in between a read that
    told it that it does not lead and the read that it will remember, then its two
    goroutines come to rest, whatever is queued, with a checker for every cluster
    of the store, made with the configured interval and failure count; and so it is
    in every such state that is at rest with no signal left. *)
Theorem clusters_supervised {E} `{EngineLaws E} cfg id (σ : @cstate E) :
  creach cfg id σ -> c_leader σ = id -> c_missed σ = false -> between_reads (c_phase σ) = false ->
  (exists σ', rtc (cstep cfg id) σ σ' /\ c_store σ' = c_store σ /\ at_rest σ' /\
     forall ns c, path_name ns = true -> path_name c = true -> existsCluster (c_store σ) ns c = true ->
       c_clusters σ' !! checker_key ns c = Some (with_config cfg (NewClusterChecker ns c))) /\
  (at_rest σ -> c_signal σ = false ->
     forall ns c, path_name ns = true -> path_name c = true -> existsCluster (c_store σ) ns c = true ->
       c_clusters σ !! checker_key ns c = Some (with_config cfg (NewClusterChecker ns c))).
Proof.
  intros Hr Hl Hx Hb. pose proof (creach_inv cfg id σ Hr) as Hi.
  split; [|intros Hrest Hg; by apply (supervised_at_rest cfg id)].
  assert (Hcome : exists σ1, rtc (cstep cfg id) σ σ1 /\ c_store σ1 = c_store σ /\ c_leader σ1 = id /\ c_missed σ1 = false /\
    between_reads (c_phase σ1) = false /\ c_signal σ1 = false).
  { destruct (c_signal σ) eqn:Hg; [|by exists σ]. destruct (rest_reached cfg id σ (ci_id _ _ _ Hi) Hl Hx Hb) as (σ1 & Hw & Hrest).
    destruct (same_world_keeps cfg id σ σ1 Hw) as (Hs & He & Hl1 & Hg1 & Hx1).
    destruct (rest_wakes cfg id σ1 Hrest) as (σ2 & Hs2 & He2 & Hl2 & Hx2 & Hph2 & Hg2); [congruence|].
    exists σ2. split; [by eapply rtc_r|]. rewrite Hph2. split_and!; done || congruence. }
  destruct Hcome as (σ1 & Hs1 & He1 & Hl1 & Hx1 & Hb1 & Hg1).
  destruct (supervised_comes cfg id σ1 (rtc_inv cfg id σ σ1 Hs1 Hi) Hl1 Hx1 Hb1 Hg1) as (σ2 & Hw & Hrest & Hc).
  destruct (same_world_keeps cfg id σ1 σ2 Hw) as (Hs & He & _). exists σ2. rewrite He1 in Hc. split_and!; [by etrans|congruence|done..].
Qed.

(** A store with one cluster, and a process that starts as its leader. *)
Definition demo_failover : FailOverConfig := MkFailOver 3 4.
Definition demo_cstate : @cstate (gmap string blob) := CState demo_store "me" false "" Begin ∅ [] None false.

Lemma demo_cstarted : cstarted (H := demo_engine) "me" demo_cstate.
Proof.
  exists demo_store, (put_cluster "ns" demo_cluster {[ "ns" := ∅ ]}), "me", false. split; [exact demo_rep|done].
Qed.

Lemma clusters_supervised_witness :
  exists σ', rtc (@cstep _ demo_engine demo_failover "me") demo_cstate σ' /\
    c_clusters σ' !! "ns/c" = Some (MkClusterChecker "ns" "c" (3 * time_Second) 4).
Proof.
  destruct (@clusters_supervised _ demo_engine demo_engine_laws demo_failover "me" demo_cstate)
    as [(σ' & Hs & _ & _ & Hc) _]; [exact (creach_start demo_failover "me" demo_cstate demo_cstarted)|reflexivity..|].
  exists σ'. split; [exact Hs|]. refine (eq_trans (Hc "ns" "c" eq_refl eq_refl _) _); vm_compute; reflexivity.
Defined.

(** ** Where clusters stay without a checker, or checkers without a leader *)

Section Races.
Context {E : Type} `{EngineLaws E} (cfg : FailOverConfig) (id other : string) (Hother : other <> id).

Ltac unequal := rewrite ?String.eqb_refl, ?(proj2 (String.eqb_neq other id) Hother).

(** Between the two reads at the start.  A process that resumed as the leader
    remembers another one: its checkers stay.  One that is elected in between
    remembers itself and has no checker, with nothing left to do. *)
Lemma start_races (e : E) s m q h x :
  rtc (cstep cfg id) (CState e id s "" (Adding true [] []) m q h x) (CState e other false other AtSelect m q h x) /\
  rtc (cstep cfg id) (CState e other s "" Begin ∅ q h x) (CState e id false id AtSelect ∅ q h true).
Proof.
  split.
  - eapply rtc_l; [by apply CResumed|]. eapply rtc_l; [apply (CLeader cfg id e id s _ _ _ _ _ _ other)|].
    eapply rtc_l; [apply CReadFirst|]. rewrite orb_false_r. eapply rtc_l; [apply CWake|]. eapply rtc_l; [apply CCheck|].
    unfold on_leader_change, IsLeader. unequal. apply rtc_refl.
  - eapply rtc_l; [apply CBegin|]. unfold start_loop, IsLeader. unequal.
    eapply rtc_l; [apply (CLeader cfg id e other s _ _ _ _ _ _ id)|]. eapply rtc_l; [apply CReadFirst|]. unfold IsLeader. unequal.
    rewrite orb_true_r. eapply rtc_l; [apply CWake|]. eapply rtc_l; [apply CCheck|]. unfold on_leader_change, IsLeader. unequal. apply rtc_refl.
Qed.

(** The same in the loop: a leader that lost the leadership and regains it between
    the two reads has closed its checkers, remembers itself, and does not resume. *)
Lemma regained_between_reads (e : E) m q h x :
  rtc (cstep cfg id) (CState e other true id AtSelect m q h x) (CState e id false id AtSelect ∅ q h true).
Proof.
  eapply rtc_l; [apply CWake|]. eapply rtc_l; [apply CCheck|]. unfold on_leader_change, IsLeader. unequal.
  eapply rtc_l; [apply CSuspend|]. eapply rtc_l; [apply (CLeader cfg id e other false _ _ _ _ _ _ id)|].
  eapply rtc_l; [apply CReadLost|]. unfold IsLeader. unequal. rewrite orb_true_r.
  eapply rtc_l; [apply CWake|]. eapply rtc_l; [apply CCheck|]. unfold on_leader_change, IsLeader. unequal. apply rtc_refl.
Qed.

(** Resuming that fails is not tried again: the process remembers itself. *)
Lemma failed_resume_remembered (e : E) m q h x :
  rtc (cstep cfg id) (CState e id true other AtSelect m q h x) (CState e id false id AtSelect m q h true).
Proof.
  eapply rtc_l; [apply CWake|]. eapply rtc_l; [apply CCheck|]. unfold on_leader_change, IsLeader. unequal.
  eapply rtc_l; [apply (CResumeFail cfg id _ _ _ _ false); [by left|done]|]. apply rtc_refl.
Qed.
End Races.

(** A loss and a return of the leadership that are seen as one change: nothing is
    resumed, whatever the other leader did in between. *)
Lemma short_loss_unnoticed id : on_leader_change id true id = AtSelect.
Proof. unfold on_leader_change. by rewrite String.eqb_refl. Qed.

(** ** Leaders and requests (server/middleware/middleware.go, server/helper/helper.go) *)

(** [random] are the eight characters of [util.RandString], letters and digits. *)
Definition GenerateSessionID (random addr : string) : string := random +:+ "/" +:+ addr.

Definition ExtractAddrFromSessionID (sessionID : string) : string :=
  match split "/" sessionID with [_; addr] => addr | _ => sessionID end.

Lemma split_two c s : any_char (Ascii.eqb c) s = true -> exists x y l, split c s = x :: y :: l.
Proof.
  induction s as [|d s IH]; cbn; [done|]. destruct (split_cons c s) as (p & ps & Ep). rewrite Ep in *.
  destruct (Ascii.eqb c d); cbn; [eauto|]. intros (x & y & l & E)%IH. simplify_eq. eauto.
Qed.

(** The address of a leader is read back from its session, unless it has a
    slash. *)
Theorem session_roundtrip random addr :
  any_char (Ascii.eqb "/") random = false ->
  ExtractAddrFromSessionID (GenerateSessionID random addr) =
  if any_char (Ascii.eqb "/") addr then GenerateSessionID random addr else addr.
Proof.
  intros Hr. unfold ExtractAddrFromSessionID, GenerateSessionID.
  change (random +:+ "/" +:+ addr) with (random +:+ String "/" addr). rewrite split_app by done.
  destruct (any_char (Ascii.eqb "/") addr) eqn:Ea; [|by rewrite split_none].
  by destruct (split_two _ _ Ea) as (x & y & l & ->).
Qed.

(** An answer, or a redirect with its location.  The redirect of a GET is written
    at once; that of another method only sets a header, and the handlers behind
    decide on the answer, for the chain is not aborted. *)
Inductive http_reply := Answer (o : outcome) | Redirected (location : string).

Section Redirect.
Context {E : Type} `{Engine E}.

Definition RedirectIfNotLeader (leader id : string) (isRaftMode : bool) (m : meth) (uri : string) (e : E)
  (next : outcome * E * list EventPayload) : http_reply * E * list EventPayload :=
  if String.eqb leader "" then
  (Answer (Respond 400 (VObj [("error", VStr "no leader now, please retry later")])), e, [])
  else
  let '(o, e', evs) := next in
  if negb (String.eqb leader id) && negb isRaftMode then
  match m with
  | GET => (Redirected ("http://" +:+ ExtractAddrFromSessionID leader +:+ uri), e', evs)
  | _ => (Answer o, e', evs)
  end
  else (Answer o, e', evs).

(** A request at a process of the controller. *)
Definition serve_process (leader id : string) (isRaftMode : bool) (v : env) (e : E) (q : request) :
  http_reply * E * list EventPayload :=
  RedirectIfNotLeader leader id isRaftMode (r_method q) (r_path q) e
  (match dispatch (r_method q) (r_path q) with
  | None => reply e (ResponseError (sentinel ErrNotFound))
  | Some r => handle v e r (r_body q)
  end).

Lemma dispatch_route m path r : dispatch m path = Some r -> exists segs, match_route m segs = Some r.
Proof.
  unfold dispatch. intros Hd. repeat (case_match; try done);
    (match goal with H : (match_route m ?l ≫= _) = Some r |- _ => exists l; destruct (match_route m l); [|done]; cbn in H; by case_match end).
Qed.

(** Without a leader nothing is done; a read at a follower is redirected and
    changes nothing. *)
Lemma follower_reads leader id v e q :
  leader <> id -> r_method q = GET ->
  exists rep, serve_process leader id false v e q = (rep, e, []) /\
  rep = (if String.eqb leader "" then Answer (Respond 400 (VObj [("error", VStr "no leader now, please retry later")]))
  else Redirected ("http://" +:+ ExtractAddrFromSessionID leader +:+ r_path q)).
Proof.
  intros Hl Hm. unfold serve_process, RedirectIfNotLeader. destruct (String.eqb leader ""); [by eexists|].
  apply String.eqb_neq in Hl. rewrite Hl, Hm. cbn [negb andb].
  destruct (dispatch GET (r_path q)) as [r|] eqn:Ed; [|by eexists].
  destruct (dispatch_route _ _ _ Ed) as [segs Hr]. pose proof (match_route_get segs r Hr) as Hk.
  pose proof (get_keeps v e r (r_body q)) as Hg. destruct (handle v e r (r_body q)) as [[o e'] evs].
  destruct r; try done; destruct Hg as [o' [= -> -> ->]]; by eexists.
Qed.

(** A change at a follower is carried out there, and its event stays there. *)
Lemma follower_executes leader id v e q :
  leader <> id -> leader <> "" -> r_method q <> GET ->
  serve_process leader id false v e q =
  let '(o, e', evs) := match dispatch (r_method q) (r_path q) with
  | None => reply e (ResponseError (sentinel ErrNotFound))
  | Some r => handle v e r (r_body q)
  end in (Answer o, e', evs).
Proof.
  intros Hl Hn Hm. unfold serve_process, RedirectIfNotLeader. apply String.eqb_neq in Hl, Hn. rewrite Hl, Hn. cbn [negb andb].
  destruct (match dispatch _ _ with Some _ => _ | None => _ end) as [[o e'] evs]. by destruct (r_method q).
Qed.
End Redirect.

(** The leader does not learn of it: it can be at rest, for good, with a cluster
    that no checker watches. *)
Lemma follower_cluster_unwatched {E} `{EngineLaws E} cfg id (e : E) a e' ns cl m s :
  represents e a -> op_ok a (OCreateCluster ns cl) -> exec_op e (OCreateCluster ns cl) = inr e' ->
  m !! checker_key ns (Name cl) = None ->
  exists σ', cstep cfg id (CState e id s id AtSelect m [] None false) σ' /\ at_rest σ' /\
    existsCluster (c_store σ') ns (Name cl) = true /\ c_clusters σ' !! checker_key ns (Name cl) = None.
Proof.
  intros Hr Hok Hx Hm. eexists. split; [by eapply CForeign|]. split; [done|]. split; [|done]. cbn.
  pose proof (exec_op_refines e a _ Hr Hok) as Href. rewrite Hx in Href. cbn [spec_op] in Href.
  destruct Hok as (Hns & Hc & _ & Ha). destruct (find_cluster a ns (Name cl)); [done|].
  rewrite (rep_exists_cluster _ _ _ _ Href) by done. apply bool_decide_eq_true.
  rewrite find_put by done. case_decide; [by eexists|tauto].
Qed.
