(* ===== verification/GoClient.v ===== *)
(** * The command line client (cmd/client/command/)

    One definition per command: the checks before it runs, the one request it
    sends, and what it prints and returns for the answer.  A command line is
    refused before anything is sent, crashes, or sends its request.  Path
    parameters are escaped by the HTTP library and unescaped before the server
    routes them, so that they are put into the path as they are. *)

From S2P Require Import Prelude JsString JsNumber JsValue Effects Api Slots GoShard GoCluster GoJson GoEngine GoStore GoServer.
From S2P Require Import GoRaft GoRaftApi.

Inductive output := Line (s : string) | Table (header : list string) (rows : list (list string)).

(** The error a command returns, and what it has printed. *)
Definition ran : Type := option go_error * list output.

Inductive plan := Refused (err : go_error) | Crashed | Sends (q : request) (done : outcome -> ran).

Definition refuse (m : string) : plan := Refused (errors_New m).

(** ** The client (client.go) *)

Definition apiVersionV1 : string := "/api/v1".

(** [*ErrorMessage] *)
Definition dec_ErrorMessage (_ : option string) (v : value) : go_error + option string :=
  match v with
  | VNull => inr None
  | VObj fs => m ← json_field "message" dec_string "" fs; inr (Some m)
  | _ => inl (json_error "ErrorMessage")
  end.

Definition unmarshalError (body : value) : option go_error :=
  match (fs ← json_object body; json_field "error" dec_ErrorMessage None fs) with
  | inl err => Some err
  | inr None => None
  | inr (Some m) => Some (errors_New m)
  end.

Definition unmarshalData {A} (dec : value -> go_error + A) (zero : A) (body : value) : go_error + A :=
  match body with
  | VStr "" => inl (errors_New "empty response body")
  | _ => fs ← json_object body; _ ← json_field "error" dec_ErrorMessage None fs; json_field "data" (fun _ => dec) zero fs
  end.

(** A connection that is closed without an answer. *)
Definition no_answer : go_error := errors_New "EOF".

Definition IsError (status : Z) : bool := 399 <? status.

(** What most commands make of an answer. *)
Definition finish (ok : value -> ran) (o : outcome) : ran :=
  match o with
  | Panicked => (Some no_answer, [])
  | Respond status body => if IsError status then (unmarshalError body, []) else ok body
  end.

Definition says_done (s : string) : outcome -> ran := finish (fun _ => (None, [Line s])).

Definition reads {A} (dec : value -> go_error + A) (zero : A) (print : A -> list output) : outcome -> ran :=
  finish (fun body => match unmarshalData dec zero body with inl err => (Some err, []) | inr a => (None, print a) end).

(** [import] and [migrate] return the text of the answer as the error. *)
Definition finish_text (body_text : value -> string) (s : string) (o : outcome) : ran :=
  match o with
  | Panicked => (Some no_answer, [])
  | Respond status body => if IsError status then (Some (errors_New (body_text body)), []) else (None, [Line s])
  end.

Definition request_to (m : meth) (path : list string) (body : value) : request :=
  Req m (apiVersionV1 +:+ "/" +:+ join "/" path) body.


Definition missing_namespace : string := "missing namespace, please specify the namespace via -n or --namespace option".
Definition missing_cluster : string := "missing cluster, please specify the cluster via -c or --cluster option".

(** ** create (create.go) *)




Definition int_json (z : Z) : value := vnum z.







(** ** delete (delete.go) *)








(** ** failover (failover.go) *)



Definition dec_field {A} (k : string) (dec : A -> value -> go_error + A) (zero : A) (v : value) : go_error + A :=
  fs ← json_object v; json_field k dec zero fs.



(** ** get (get.go, helper.go) *)










(** ** import (import.go) *)



Section Texts.
(** [body_text] is the text of an answer, [Sprintf0] is [fmt.Sprintf] of a format
    without arguments. *)
Context (body_text : value -> string) (Sprintf0 : string -> string).



(** ** list (list.go) *)

Record ListOptions := MkList { li_namespace : string; li_cluster : string }.

Definition listPreRun (o : ListOptions) (args : list string) : option string :=
  match args with
  | [] => Some "missing resource type, please specify one of [namespaces, clusters, nodes]"
  | arg :: _ =>
      let resource := toLowerCase arg in
      if String.eqb resource "namespaces" then None
      else if String.eqb (li_namespace o) "" then Some missing_namespace
      else if String.eqb resource "nodes" && String.eqb (li_cluster o) "" then Some missing_cluster
      else None
  end.

(** A name is printed as a format. *)
Definition print_names (none : string) (l : list string) : list output :=
  match l with [] => [Line none] | _ => map (fun x => Line (Sprintf0 x)) l end.

Definition listNamespace : plan :=
  Sends (request_to GET ["namespaces"] VUndefined)
  (reads (dec_field "namespaces" dec_strings []) [] (print_names "no namespace found.")).

Definition listClusters (o : ListOptions) : plan :=
  Sends (request_to GET ["namespaces"; li_namespace o; "clusters"] VUndefined)
  (reads (dec_field "clusters" dec_strings []) [] (print_names "no cluster found.")).

Definition ListCommand (o : ListOptions) (args : list string) : plan :=
  match listPreRun o args with
  | Some m => refuse m
  | None =>
      match args with
      | [] => Crashed
      | arg :: _ =>
          let resource := toLowerCase arg in
          if String.eqb resource "namespaces" then listNamespace
          else if String.eqb resource "clusters" then listClusters o
          else refuse ("unsupported resource type " +:+ arg)
      end
  end.

(** ** migrate (migrate.go) *)

Record MigrationOptions := MkMigration { mi_namespace : string; mi_cluster : string; mi_target : Z; mi_slotOnly : bool }.

Definition migrationPreRun (o : MigrationOptions) (args : list string) : option string :=
  match args with
  | [] => Some "resource type should be specified"
  | [_] => Some "the slot number should be specified"
  | _ :: slot :: _ =>
      match ParseSlotRange slot with
      | GoErr m => Some ("invalid slot number: " +:+ slot +:+ ", error: " +:+ m)
      | GoOk _ =>
          if String.eqb (mi_namespace o) "" then Some "namespace is required, please specify with -n or --namespace"
          else if String.eqb (mi_cluster o) "" then Some "cluster is required, please specify with -c or --cluster"
          else if mi_target o <? 0 then Some "target is required, please specify with --target"
          else None
      end
  end.

Definition migrateSlot (o : MigrationOptions) (slot : string) : plan :=
  Sends (request_to POST ["namespaces"; mi_namespace o; "clusters"; mi_cluster o; "migrate"]
  (VObj [("slot", VStr slot); ("slotOnly", VStr (if mi_slotOnly o then "true" else "false")); ("target", int_json (mi_target o))]))
  (finish_text body_text ("migrate slot[" +:+ slot +:+ "] task is submitted successfully.")).

Definition MigrateCommand (o : MigrationOptions) (args : list string) : plan :=
  match migrationPreRun o args with
  | Some m => refuse m
  | None =>
      match args with
      | arg :: slot :: _ =>
          let resource := toLowerCase arg in
          if String.eqb resource "slot" then migrateSlot o slot
          else refuse ("unsupported resource type: " +:+ resource)
      | _ => Crashed
      end
  end.
End Texts.

(** ** raft (raft.go) *)

Definition dec_raft (v : value) : go_error + (Z * list (string * value)) :=
  fs ← json_object v;
  leader ← json_field "leader" dec_uint64 0 fs;
  peers ← json_field "peers" (fun _ => json_object) [] fs;
  inr (leader, peers).

(** The keys of the map are numbers in strings.  The rows come in the order of
    the map, which Go leaves open; here in the one of the answer. *)
Definition raft_rows (leader : Z) (peers : list (string * value)) : list (list string) :=
  map (fun '(id, addr) => [id; match addr with VStr a => a | _ => "" end; if String.eqb id (Z_to_string leader) then "YES" else "NO"]) peers.

Definition listRaftPeers : plan :=
  Sends (request_to GET ["raft"; "peers"] VUndefined)
    (reads dec_raft (0, []) (fun '(leader, peers) => [Line ""; Table ["NODE_ID"; "NODE_ADDRESS"; "IS_LEADER"] (raft_rows leader peers)])).

Definition addRaftPeer (id : Z) (address : string) : plan :=
  Sends (request_to POST ["raft"; "peers"] (VObj [("id", int_json id); ("peer", VStr address); ("operation", VStr "add")]))
    (says_done ("Add node '" +:+ Z_to_string id +:+ "' with address '" +:+ address +:+ "' successfully")).

Definition removeRaftPeer (id : Z) : plan :=
  Sends (request_to POST ["raft"; "peers"] (VObj [("id", int_json id); ("operation", VStr "remove")]))
    (says_done ("Remove node '" +:+ Z_to_string id +:+ "' successfully")).

(** [url_ok] says whether an address parses as a URL. *)
Definition RaftCommand (url_ok : string -> bool) (args : list string) : plan :=
  let unsupported s := refuse ("unsupported openeration: '" +:+ s +:+ "' in raft command") in
  match args with
  | [] => Crashed
  | arg :: args' =>
      let verb := toLowerCase arg in
      if String.eqb verb "list" then
        match args' with
        | [] => Crashed
        | what :: _ => if String.eqb what "peers" then listRaftPeers else unsupported what
        end
      else if String.eqb verb "add" || String.eqb verb "remove" then
        match args' with
        | [] => refuse "missing 'peer' in raft command"
        | what :: args'' =>
            if negb (String.eqb what "peer") then unsupported what
            else match args'' with
            | [] => refuse "missing node_id and node_address"
            | nid :: args3 =>
                match ParseUint nid with
                | None => refuse ("invalid node_id: " +:+ what)
                | Some id =>
                    if String.eqb arg "add" then
                      match args3 with
                      | [] => refuse "missing node_address"
                      | address :: _ => if url_ok address then addRaftPeer id address
                                        else refuse ("invalid node_address: " +:+ address)
                      end
                    else removeRaftPeer id
                end
            end
        end
      else unsupported arg
  end.

(** ** Command lines *)







(** ** Lemmas *)





(** The field of the option [--slot-only] has another name on the server. *)
Lemma bind_migrate_body slot range only target :
  int64 target -> ParseSlotRange slot = GoOk range ->
  bind_migrate (VObj [("slot", VStr slot); ("slotOnly", VStr only); ("target", int_json target)]) =
  inr (MkMigrateReq target range false).
Proof.
  intros Ht Hs. unfold bind_migrate, bind.
  change (wire (VObj [("slot", VStr slot); ("slotOnly", VStr only); ("target", int_json target)]))
    with (VObj [("slot", VStr slot); ("slotOnly", VStr only); ("target", int_json target)]).
  json_fields. unfold int_json. rewrite dec_int_vnum by done. cbn [mbind go_bind].
  unfold SlotRange_UnmarshalJSON. cbn [dec_string mbind go_bind]. rewrite Hs. done.
Qed.














Ltac eqb_cases H :=
  repeat match type of H with
  | context [String.eqb ?a ?b] => destruct (String.eqb_spec a b)
  end.

Section Commands.
Context {E : Type} `{Engine E} (Sprintf0 : string -> string).







Context (body_text : value -> string).


End Commands.
















(** ** Where the command line does not do what it says *)

(** [--slot-only] has no effect. *)
Lemma slot_only_ignored body_text o slot rest range :
  ParseSlotRange slot = GoOk range -> mi_namespace o <> "" -> mi_cluster o <> "" -> 0 <= mi_target o -> int64 (mi_target o) ->
  exists q done, MigrateCommand body_text o ("slot" :: slot :: rest) = Sends q done /\
    bind_migrate (r_body q) = inr (MkMigrateReq (mi_target o) range false).
Proof.
  intros Hs Hn Hc Ht Hi. unfold MigrateCommand, migrationPreRun. rewrite Hs.
  rewrite (proj2 (String.eqb_neq _ _) Hn), (proj2 (String.eqb_neq _ _) Hc), (proj2 (Z.ltb_ge _ _) Ht). cbn [toLowerCase String.eqb].
  eexists _, _. split; [reflexivity|]. by apply bind_migrate_body.
Qed.

(** An [ADD] in capitals removes the peer; without arguments the command crashes;
    the nodes that the help lists are not supported. *)
Lemma raft_capitals_remove url_ok : RaftCommand url_ok ["ADD"; "peer"; "2"; "http://b"] = removeRaftPeer 2.
Proof. reflexivity. Qed.

Lemma raft_without_arguments url_ok : RaftCommand url_ok [] = Crashed /\ RaftCommand url_ok ["list"] = Crashed.
Proof. done. Qed.

Lemma list_nodes_unsupported Sprintf0 o rest :
  exists m, ListCommand Sprintf0 o ("nodes" :: rest) = refuse m.
Proof.
  unfold ListCommand, listPreRun. cbn. destruct (String.eqb (li_namespace o) ""); [by eexists|].
  destruct (String.eqb (li_cluster o) ""); by eexists.
Qed.

(** The answer of a server without a leader has a text where the client expects an
    object: the message is lost. *)
Lemma leaderless_message_lost m : unmarshalError (VObj [("error", VStr m)]) = Some (json_error "ErrorMessage").
Proof. reflexivity. Qed.
