(* ===== verification/EndToEnd.v ===== *)
(** * The web UI against the server

    The calls of the client (lib/api.ts) answered by the handlers of the server
    over its store: what a mutation reports is what happened to the store, and
    the listings are its contents.  [serve] takes paths as the router sees them;
    [over_url] puts the transport of Url.v in front of it. *)

From S2P Require Import Prelude JsString JsNumber JsValue Effects Api Url Slots GoShard GoCluster GoJson.
From S2P Require Import GoEngine GoStore GoController GoTopology GoServer.

(** What the store holds: clusters under their own names that can be written
    again. *)
Definition store_ok (a : astore) : Prop :=
  forall ns c cl, find_cluster a ns c = Some cl -> Name cl = c /\ cluster_storable cl /\ Version cl < 2 ^ 63 - 1.

Definition next_version (cl : Cluster) : Cluster := MkCluster (Name cl) (Version cl + 1) (Shards cl).

(** The request of a mutation, and the environment the server handles it in. *)
Definition body_of (m : mutation) : value := r_body (mutation_request m).

(** What a mutation does to the cluster it is about. *)
Definition cluster_change (v : env) (m : mutation) (cl cl' : Cluster) : Prop :=
  match m with
  | MMigrateSlot _ _ _ _ _ =>
      exists req, bind_migrate (body_of m) = inr req /\
        ClusterMigrateSlot (replies v) (Slot req) (Target req) (SlotOnly req) cl = inr cl'
  | MCreateShard _ _ _ _ =>
      exists nodes pw, bind_nodes (body_of m) = inr (nodes, pw) /\ nodes <> [] /\
        cl' = appendShard (newShard (newID v) (now v) nodes pw) cl
  | MDeleteShard _ _ sh =>
      exists i s, Atoi sh = Some (Z.of_nat i) /\ Shards cl !! i = Some s /\ IsServicing s = false /\ cl' = removeShard i cl
  | MCreateNode _ _ sh _ _ _ =>
      exists i addr role pw n, Atoi sh = Some i /\ bind_node (body_of m) = inr (addr, role, pw) /\
        AddNode (newID v 0%nat) (now v) i addr role pw cl = inr (cl', n)
  | MDeleteNode _ _ sh id => exists i, Atoi sh = Some i /\ RemoveNode i id cl = inr (cl', tt)
  | _ => False
  end.

(** What a mutation does to the store. *)
Definition mutation_effect (v : env) (a : astore) (m : mutation) (a' : astore) : Prop :=
  match m with
  | MCreateNamespace name => exists n, name = VStr n /\ a !! n = None /\ a' = <[n := ∅]> a
  | MDeleteNamespace n => a !! n = Some ∅ /\ a' = delete n a
  | MCreateCluster _ _ _ _ ns =>
      exists req cl, bind_create (body_of m) = inr req /\ is_Some (a !! ns) /\
        (forall x, In x (req_Nodes req) -> ~ taken a x) /\ find_cluster a ns (req_Name req) = None /\
        NewCluster (newID v) (now v) (req_Name req) (req_Nodes req) (req_Replicas req) = inr cl /\
        a' = put_cluster ns (SetPassword (req_Password req) cl) a
  | MDeleteCluster ns c => is_Some (find_cluster a ns c) /\ a' = drop_cluster ns c a
  | MImportCluster ns c _ _ =>
      exists first rest pw str parsed, bind_nodes (body_of m) = inr (first :: rest, pw) /\ is_Some (a !! ns) /\
        GetClusterNodesString (replies v) (NewClusterNode (newID v 0%nat) (now v) first pw) = inr str /\
        ParseCluster str = inr parsed /\ find_cluster a ns (to_string c) = None /\
        (forall x, In x (map Addr (GetNodes parsed)) -> ~ taken a x) /\
        a' = put_cluster ns (MkCluster (to_string c) (Version parsed) (Shards (SetPassword pw parsed))) a
  | MMigrateSlot ns c _ _ _ | MCreateShard ns c _ _ | MDeleteShard ns c _ | MCreateNode ns c _ _ _ _
  | MDeleteNode ns c _ _ =>
      exists cl cl', find_cluster a ns c = Some cl /\ cluster_change v m cl cl' /\
        a' = put_cluster ns (next_version cl') a
  end.

(** The mutation names what it is about without slashes, and a new cluster has at
    most one shard per slot. *)
Definition mutation_ok (m : mutation) : Prop :=
  Forall (fun n => path_name n = true) (mutation_names m) /\
  match m with
  | MCreateNamespace name => forall n, name = VStr n -> path_name n = true
  | MCreateCluster name _ _ _ _ =>
      (exists n, name = VStr n /\ path_name n = true) /\
      forall req, bind_create (body_of m) = inr req -> Z.of_nat (length (req_Nodes req)) <= MaxSlotID + 1
  | _ => True
  end.

Definition mutation_rt (m : mutation) : route :=
  match m with
  | MCreateNamespace _ => RtNamespaceCreate
  | MDeleteNamespace n => RtNamespaceRemove n
  | MCreateCluster _ _ _ _ ns => RtClusterCreate ns
  | MDeleteCluster ns c => RtClusterRemove ns c
  | MImportCluster ns c _ _ => RtClusterImport ns (to_string c)
  | MMigrateSlot ns c _ _ _ => RtClusterMigrate ns c
  | MCreateShard ns c _ _ => RtShardCreate ns c
  | MDeleteShard ns c sh => RtShardRemove ns c sh
  | MCreateNode ns c sh _ _ _ => RtNodeCreate ns c sh
  | MDeleteNode ns c sh id => RtNodeRemove ns c sh id
  end.

Lemma mutation_dispatch m :
  Forall (fun n => path_name n = true) (mutation_names m) ->
  dispatch (r_method (mutation_request m)) (r_path (mutation_request m)) = Some (mutation_rt m).
Proof.
  intros Hn. unfold dispatch. rewrite mutation_path_split by done.
  destruct m; cbn [mutation_names] in Hn;
    repeat match goal with
    | H : Forall _ (_ :: _) |- _ => inversion_clear H
    | H : path_name _ = true |- _ => apply path_name_spec in H as [_ H]
    end; cbn [r_method mutation_request mutation_segments match_route mbind option_bind params mutation_rt forallb];
    repeat match goal with H : String.eqb _ _ = false |- _ => rewrite !H; clear H end; reflexivity.
Qed.

(** ** Responses *)

Lemma error_not_accepted m err : accepted m (to_axios (ResponseError err)) = false.
Proof.
  unfold ResponseError. destruct (err_is err) as [[]|] eqn:E; try done; unfold to_axios, error_code; rewrite E; done.
Qed.

Lemma bad_not_accepted m err : accepted m (to_axios (ResponseBadRequest err)) = false.
Proof. done. Qed.

(** The request was refused and nothing has changed, or it was accepted and the
    store satisfies [P]. *)
Definition outcome_spec {E} (m : meth) (e : E) (h : @handled E) (P : E -> Prop) : Prop :=
  let '(o, e', _) := h in
  (accepted m (to_axios o) = true /\ P e') \/ (accepted m (to_axios o) = false /\ e' = e).

Lemma spec_error {E} m (e : E) err P : outcome_spec m e (reply e (ResponseError err)) P.
Proof. right. split; [apply error_not_accepted|done]. Qed.

Lemma spec_bad {E} m (e : E) err P : outcome_spec m e (reply e (ResponseBadRequest err)) P.
Proof. by right. Qed.

Lemma spec_panic {E} m (e : E) P : outcome_spec m e (reply e Panicked) P.
Proof. by right. Qed.

#[export] Hint Resolve spec_error spec_bad spec_panic : kvc.

(** A branch that refuses the request. *)
Ltac refused := solve [auto with kvc].

(** An update of the stored cluster. *)
Lemma UpdateCluster_next {E} `{EngineLaws E} (e : E) a ns c cl cl' :
  represents e a -> store_ok a -> path_name ns = true -> path_name c = true -> find_cluster a ns c = Some cl ->
  Name cl' = Name cl -> Version cl' = Version cl -> cluster_storable cl' ->
  exists e' evs, UpdateCluster e ns cl' = inr (e', bump cl', evs) /\ represents e' (put_cluster ns (next_version cl') a).
Proof.
  intros Hr Hok Hns Hc Hf Hn Hv Hs. destruct (Hok ns c cl Hf) as (Hnm & _ & Hlt).
  unfold UpdateCluster. rewrite Hn, Hnm, (rep_GetCluster e a ns c Hr Hns Hc), Hf. cbn [mbind go_bind].
  rewrite Hv, Z.ltb_irrefl. do 2 eexists. split; [done|].
  destruct (bump_storable cl' Hs ltac:(lia)) as [Eb Hb]. unfold next_version. rewrite <- Eb.
  assert (Name (bump cl') = c) as Enb by (cbn [bump Name]; congruence). rewrite <- Enb.
  apply rep_put; [done|done|by rewrite Enb| |done]. apply (find_cluster_ns a ns c). by rewrite Hf.
Qed.

(** ** The handlers *)

Section Handlers.
Context {E : Type} `{EngineLaws E} (v : env).
Implicit Types (e : E) (a : astore).

Lemma update_spec m e a ns c cl cl' (ok : Cluster -> outcome) P :
  represents e a -> store_ok a -> path_name ns = true -> path_name c = true -> find_cluster a ns c = Some cl ->
  Name cl' = Name cl -> Version cl' = Version cl -> cluster_storable cl' ->
  (forall x, accepted m (to_axios (ok x)) = true) ->
  (forall e', represents e' (put_cluster ns (next_version cl') a) -> P e') ->
  outcome_spec m e (update e ns cl' ok) P.
Proof.
  intros Hr Hok Hns Hc Hf Hn Hv Hs Hacc HP.
  destruct (UpdateCluster_next e a ns c cl cl' Hr Hok Hns Hc Hf Hn Hv Hs) as (e' & evs & Hu & Hrep).
  unfold update. rewrite Hu. left. split; [apply Hacc|by apply HP].
Qed.

Lemma RequiredNamespace_spec m e a ns next P :
  represents e a -> path_name ns = true -> (is_Some (a !! ns) -> outcome_spec m e next P) ->
  outcome_spec m e (RequiredNamespace e ns next) P.
Proof.
  intros Hr Hns Hnext. unfold RequiredNamespace, ExistsNamespace. rewrite (rep_ns _ _ Hr ns Hns).
  destruct (bool_decide_reflect (is_Some (a !! ns))); [by apply Hnext|refused].
Qed.

Lemma RequiredCluster_spec m e a ns c next P :
  represents e a -> path_name ns = true -> path_name c = true ->
  (forall cl, find_cluster a ns c = Some cl -> outcome_spec m e (next cl) P) ->
  outcome_spec m e (RequiredCluster e ns c next) P.
Proof.
  intros Hr Hns Hc Hnext. unfold RequiredCluster. rewrite (rep_GetCluster e a ns c Hr Hns Hc).
  destruct (find_cluster a ns c); [by apply Hnext|refused].
Qed.

Lemma RequiredClusterShard_spec m e a ns c sh next P :
  represents e a -> path_name ns = true -> path_name c = true ->
  (forall cl i s, find_cluster a ns c = Some cl -> Atoi sh = Some i -> outcome_spec m e (next cl i s) P) ->
  outcome_spec m e (RequiredClusterShard e ns c sh next) P.
Proof.
  intros Hr Hns Hc Hnext. unfold RequiredClusterShard. rewrite (rep_GetCluster e a ns c Hr Hns Hc).
  destruct (find_cluster a ns c); [|refused]. destruct (Atoi sh); [|refused].
  destruct (GetShard _ _); [refused|by apply Hnext].
Qed.

Lemma NewNodes_ok e a nodes :
  represents e a -> forall u, CheckNewNodes e nodes = inr u -> forall x, In x nodes -> ~ taken a x.
Proof.
  intros Hr u. unfold CheckNewNodes. destruct (rep_existing e a nodes Hr) as (l & -> & Hl). cbn [mbind go_bind].
  destruct l as [|y l]; simpl; [|done]. intros _ x Hx Ht. by apply (Hl x).
Qed.
End Handlers.

(** Decoded fields. *)
Lemma json_field_inv {A} (P : A -> Prop) k dec (zero : A) fs x :
  (forall cur v y, P cur -> dec cur v = inr y -> P y) -> P zero -> json_field k dec zero fs = inr x -> P x.
Proof.
  intros Hd. unfold json_field. revert zero. induction fs as [|[k' v] fs IH]; intros zero Hz; cbn [fold_left mbind go_bind];
    [by intros [= <-]|].
  destruct (String.eqb _ _); [|by apply IH]. destruct (dec zero v) as [err|y] eqn:E; [|by apply IH, (Hd zero v)].
  intros Hx. exfalso. clear -Hx. revert Hx. induction fs as [|[k2 v2] fs IH]; [done|]. apply IH.
Qed.

Lemma dec_int_int64 cur v z : int64 cur -> dec_int cur v = inr z -> int64 z.
Proof.
  intros Hc. unfold dec_int. destruct v as [| | |[| |q]| | |]; try done; [by intros [= <-]|].
  destruct (_ =? 0); [|done]. set (z' := Qnum q / _).
  destruct (Z.leb_spec (- 2 ^ 63) z'), (Z.ltb_spec z' (2 ^ 63)); try done. intros [= <-]. unfold int64. lia.
Qed.

Lemma bind_migrate_ok body req : bind_migrate body = inr req -> wf_range (Slot req) /\ int64 (Target req).
Proof.
  unfold bind_migrate. intros (fs & _ & Hx)%go_bind_inv. apply go_bind_inv in Hx as (t & Ht & Hx).
  apply go_bind_inv in Hx as (sl & Hsl & Hx). apply go_bind_inv in Hx as (so & _ & Hx). injection Hx as <-. simpl. split.
  - revert Hsl. apply (json_field_inv wf_range); [|unfold wf_range, MinSlotID, MaxSlotID; simpl; lia].
    intros cur u y _. unfold SlotRange_UnmarshalJSON. intros (s & _ & Hy)%go_bind_inv.
    destruct (ParseSlotRange s) eqn:Ep; [|done]. injection Hy as <-. by eapply ParseSlotRange_wf.
  - revert Ht. apply (json_field_inv int64); [apply dec_int_int64|unfold int64; lia].
Qed.

Lemma bind_namespace name ns :
  (fs ← bind (VObj [("namespace", name)]); json_field "namespace" dec_string "" fs) = inr ns -> ns = "" \/ name = VStr ns.
Proof.
  destruct name as [| | |[| |]| | |]; vm_compute; intros Hx; simplify_eq; auto.
Qed.

Lemma bind_create_name n nodes r p req :
  bind_create (VObj [("name", VStr n); ("nodes", nodes); ("replicas", VNum r); ("password", p)]) = inr req -> req_Name req = n.
Proof.
  unfold bind_create. intros (fs & Hfs & Hx)%go_bind_inv.
  assert (Hname : json_field "name" dec_string "" fs = inr n).
  { cbn in Hfs. injection Hfs as <-. destruct nodes, r, p; reflexivity. }
  rewrite Hname in Hx. cbn [mbind go_bind] in Hx. repeat (apply go_bind_inv in Hx as (? & _ & Hx)). by injection Hx as <-.
Qed.

Section Mutations.
Context {E : Type} `{EngineLaws E} (v : env) (Hnow : int64 (now v)).
Implicit Types (e : E) (a : astore).

Definition effect_in (a : astore) (m : mutation) (e' : E) : Prop :=
  exists a', mutation_effect v a m a' /\ represents e' a'.

Lemma create_namespace_handled e a name :
  represents e a -> mutation_ok (MCreateNamespace name) ->
  outcome_spec POST e (Namespace_Create e (VObj [("namespace", name)])) (effect_in a (MCreateNamespace name)).
Proof.
  intros Hr [_ Hok]. unfold Namespace_Create.
  destruct (fs ← bind _; _) as [err|ns] eqn:Eb; [refused|]. apply bind_namespace in Eb.
  destruct (String.eqb_spec ns "") as [|Hne]; [refused|]. destruct Eb as [|Hname]; [done|].
  pose proof (Hok ns Hname) as Hns. unfold CreateNamespace, ExistsNamespace. rewrite (rep_ns _ _ Hr ns Hns).
  destruct (a !! ns) eqn:Ea; simpl; [refused|]. left. split; [done|]. exists (<[ns := ∅]> a).
  split; [by exists ns|]. by apply rep_add_ns.
Qed.

Lemma delete_namespace_handled e a ns :
  represents e a -> path_name ns = true ->
  outcome_spec DELETE e (Namespace_Remove e ns) (effect_in a (MDeleteNamespace ns)).
Proof.
  intros Hr Hns. unfold Namespace_Remove, RemoveNamespace, ExistsNamespace.
  rewrite (rep_ns _ _ Hr ns Hns), (rep_RemoveNamespace e a ns Hr Hns).
  destruct (a !! ns) as [cs|] eqn:Ea;
    [rewrite (bool_decide_true (is_Some (Some cs))) by done|rewrite bool_decide_false by (by intros [? ?]); cbn [negb]; apply spec_error].
  cbn [negb].
  destruct (bool_decide_reflect (Some cs = None \/ Some cs = Some ∅)) as [Hb|Hb]; cbn [negb]; [|refused].
  destruct Hb as [|Hb]; [done|]. injection Hb as ->. left. split; [done|]. exists (delete ns a). split; [done|].
  by apply rep_del_ns.
Qed.

Lemma create_cluster_handled e a name nodes r p ns :
  header v = "" -> represents e a -> mutation_ok (MCreateCluster name nodes r p ns) -> path_name ns = true -> is_Some (a !! ns) ->
  outcome_spec POST e (Cluster_Create v e ns (body_of (MCreateCluster name nodes r p ns)))
  (effect_in a (MCreateCluster name nodes r p ns)).
Proof.
  intros Hh Hr [_ [(n & -> & Hn) Hlen]] Hns Ha. unfold Cluster_Create.
  destruct (bind_create _) as [err|req] eqn:Eb; [refused|].
  pose proof (bind_create_name n nodes r p req Eb) as Hname.
  destruct (CheckNewNodes e (req_Nodes req)) as [err|u] eqn:Ec; [refused|].
  pose proof (NewNodes_ok e a (req_Nodes req) Hr u Ec) as Hnew.
  destruct (NewCluster _ _ _ _ _) as [err|cl] eqn:En; [refused|]. rewrite Hh. cbn [toLowerCase String.eqb].
  destruct (storable_NewCluster _ _ _ _ _ _ Hnow (Hlen req eq_refl) En) as (Hs & Hcn & _).
  assert (Hpw : Name (SetPassword (req_Password req) cl) = n) by (cbn; congruence).
  unfold CreateCluster. rewrite Hpw, (rep_exists_cluster e a ns n Hr Hns Hn).
  destruct (find_cluster a ns n) eqn:Ef; simpl; [refused|]. left. split; [done|].
  exists (put_cluster ns (SetPassword (req_Password req) cl) a). split.
  - exists req, cl. rewrite Hname in *. done.
  - rewrite <- Hpw. apply rep_put; [done|done|by rewrite Hpw|done|by apply storable_SetPassword].
Qed.

Lemma import_cluster_handled e a ns c nodes p :
  represents e a -> path_name ns = true -> path_name (to_string c) = true -> is_Some (a !! ns) ->
  outcome_spec POST e (Cluster_Import v e ns (to_string c) (body_of (MImportCluster ns c nodes p)))
  (effect_in a (MImportCluster ns c nodes p)).
Proof.
  intros Hr Hns Hc Ha. unfold Cluster_Import. destruct (bind_nodes _) as [err|[[|first rest] pw]] eqn:Eb; [refused..|].
  cbv zeta. destruct (GetClusterNodesString _ _) as [err|str] eqn:Eg; cbn [mbind go_bind]; [refused|].
  destruct (ParseCluster str) as [err|parsed] eqn:Ep; [refused|].
  destruct (CheckNewNodes _ _) as [err|u] eqn:Ec; [refused|].
  assert (Hnew : forall x, In x (map Addr (GetNodes parsed)) -> ~ taken a x).
  { intros x Hx. apply (NewNodes_ok e a _ Hr u Ec x). replace (map Addr (GetNodes (SetPassword pw parsed)))
      with (map Addr (GetNodes parsed)); [done|]. unfold GetNodes, SetPassword. cbn [setShards Shards].
    rewrite map_map. rewrite !concat_map, !map_map. f_equal. apply map_ext. intros s. cbn [setNodes Nodes]. by rewrite map_map. }
  unfold CreateCluster. cbn [Name]. rewrite (rep_exists_cluster e a ns (to_string c) Hr Hns Hc).
  destruct (find_cluster a ns (to_string c)) eqn:Ef; simpl; [refused|]. left. split; [done|].
  eexists. split; [exists first, rest, pw, str, parsed; done|].
  apply (rep_put e a ns (MkCluster (to_string c) (Version parsed) (Shards (SetPassword pw parsed)))); [done..|].
  destruct (storable_SetPassword pw parsed (storable_ParseCluster str parsed Ep)) as [Hv Hs]. by split.
Qed.

Lemma delete_cluster_handled e a ns c :
  represents e a -> path_name ns = true -> path_name c = true ->
  outcome_spec DELETE e (Cluster_Remove e ns c) (effect_in a (MDeleteCluster ns c)).
Proof.
  intros Hr Hns Hc. unfold Cluster_Remove, RemoveCluster. rewrite (rep_exists_cluster e a ns c Hr Hns Hc).
  destruct (find_cluster a ns c) eqn:Ef; simpl; [|refused]. left. split; [done|].
  exists (drop_cluster ns c a). split; [|by apply rep_drop]. cbn [mutation_effect].
  rewrite Ef. by split; [eexists|].
Qed.

(** A handler that changes the cluster of the request and updates it. *)
Lemma changed_handled e a mu ns c cl cl' (ok : Cluster -> outcome) m :
  represents e a -> store_ok a -> path_name ns = true -> path_name c = true -> find_cluster a ns c = Some cl ->
  Name cl' = Name cl -> Version cl' = Version cl -> cluster_storable cl' ->
  (forall x, accepted m (to_axios (ok x)) = true) ->
  mutation_effect v a mu (put_cluster ns (next_version cl') a) ->
  outcome_spec m e (update e ns cl' ok) (effect_in a mu).
Proof.
  intros Hr Hok Hns Hc Hf Hn Hv Hs Hacc He. eapply update_spec; [done..|]. intros e' He'. by eexists.
Qed.

Lemma onShard_meta {A} i (f : Shard -> go_error + (Shard * A)) cl cl' x :
  onShard i f cl = inr (cl', x) -> Name cl' = Name cl /\ Version cl' = Version cl.
Proof.
  unfold onShard. destruct (GetShard cl i); [done|]. destruct (f _) as [|[s' y]]; [done|]. by intros [= <- _].
Qed.

Lemma migrate_handled e a ns c t sl so :
  represents e a -> store_ok a -> path_name ns = true -> path_name c = true ->
  outcome_spec POST e (Cluster_MigrateSlot v e ns c (body_of (MMigrateSlot ns c t sl so))) (effect_in a (MMigrateSlot ns c t sl so)).
Proof.
  intros Hr Hok Hns Hc. unfold Cluster_MigrateSlot. rewrite (rep_GetCluster e a ns c Hr Hns Hc).
  destruct (find_cluster a ns c) as [cl|] eqn:Ef; [|refused]. destruct (bind_migrate _) as [err|req] eqn:Eb; [refused|].
  destruct (ClusterMigrateSlot _ _ _ _ _) as [err|cl'] eqn:Em; [refused|].
  destruct (bind_migrate_ok _ _ Eb) as [Hw Ht]. destruct (Hok ns c cl Ef) as (_ & Hs & _).
  assert (Hmeta : Name cl' = Name cl /\ Version cl' = Version cl).
  { unfold ClusterMigrateSlot in Em. destruct (MigrateSlot _ _ _ _ _); [done|]. by injection Em as <-. }
  apply (changed_handled e a _ ns c cl); try done; try apply Hmeta.
  - by eapply storable_MigrateSlot.
  - exists cl, cl'. split; [done|]. split; [|done]. by exists req.
Qed.

Lemma create_shard_handled e a ns c nodes p cl :
  represents e a -> store_ok a -> path_name ns = true -> path_name c = true -> find_cluster a ns c = Some cl ->
  outcome_spec POST e (Shard_Create v e ns cl (body_of (MCreateShard ns c nodes p))) (effect_in a (MCreateShard ns c nodes p)).
Proof.
  intros Hr Hok Hns Hc Hf. unfold Shard_Create. destruct (bind_nodes _) as [err|[l pw]] eqn:Eb; [refused|].
  destruct l as [|x l]; [refused|]. destruct (Hok ns c cl Hf) as (_ & Hs & _).
  apply (changed_handled e a _ ns c cl); try done.
  - apply storable_append; [done|by apply storable_newShard].
  - exists cl. eexists. split; [done|]. split; [|done]. by exists (x :: l), pw.
Qed.

Lemma delete_shard_handled e a ns c sh cl :
  represents e a -> store_ok a -> path_name ns = true -> path_name c = true -> find_cluster a ns c = Some cl ->
  outcome_spec DELETE e (Shard_Remove e ns cl sh) (effect_in a (MDeleteShard ns c sh)).
Proof.
  intros Hr Hok Hns Hc Hf. unfold Shard_Remove. destruct (Atoi sh) as [i|] eqn:Ei; [|refused].
  destruct (Z.ltb_spec i 0); cbn [orb]; [refused|]. destruct (_ <=? i); [refused|].
  destruct (Shards cl !! Z.to_nat i) as [s|] eqn:Es; [|refused]. destruct (IsServicing s) eqn:Ev; [refused|].
  destruct (Hok ns c cl Hf) as (_ & Hs & _). apply (changed_handled e a _ ns c cl); try done.
  - by apply storable_removeShard.
  - exists cl. eexists. split; [done|]. split; [|done]. exists (Z.to_nat i), s. by rewrite Z2Nat.id by lia.
Qed.

Lemma create_node_handled e a ns c sh addr role pw cl i :
  represents e a -> store_ok a -> path_name ns = true -> path_name c = true -> find_cluster a ns c = Some cl ->
  Atoi sh = Some i ->
  outcome_spec POST e (Node_Create v e ns cl i (body_of (MCreateNode ns c sh addr role pw))) (effect_in a (MCreateNode ns c sh addr role pw)).
Proof.
  intros Hr Hok Hns Hc Hf Hi. unfold Node_Create. destruct (bind_node _) as [err|[[ad ro] p]] eqn:Eb; [refused|].
  destruct (AddNode _ _ _ _ _ _ _) as [err|[cl' n]] eqn:Ea; [refused|]. destruct (Hok ns c cl Hf) as (_ & Hs & _).
  destruct (onShard_meta _ _ _ _ _ Ea). apply (changed_handled e a _ ns c cl); try done.
  - by eapply storable_AddNode.
  - exists cl, cl'. split; [done|]. split; [|done]. by exists i, ad, ro, p, n.
Qed.

Lemma delete_node_handled e a ns c sh id cl i :
  represents e a -> store_ok a -> path_name ns = true -> path_name c = true -> find_cluster a ns c = Some cl ->
  Atoi sh = Some i ->
  outcome_spec DELETE e (Node_Remove e ns cl i id) (effect_in a (MDeleteNode ns c sh id)).
Proof.
  intros Hr Hok Hns Hc Hf Hi. unfold Node_Remove. destruct (RemoveNode _ _ _) as [err|[cl' []]] eqn:Ea; [refused|].
  destruct (Hok ns c cl Hf) as (_ & Hs & _). destruct (onShard_meta _ _ _ _ _ Ea).
  apply (changed_handled e a _ ns c cl); try done.
  - by eapply storable_RemoveNode.
  - exists cl, cl'. split; [done|]. split; [|done]. by exists i.
Qed.

(** Every mutation. *)
Lemma mutation_handled e a m :
  header v = "" -> represents e a -> store_ok a -> mutation_ok m ->
  outcome_spec (r_method (mutation_request m)) e (handle v e (mutation_rt m) (body_of m)) (effect_in a m).
Proof.
  intros Hh Hr Hok Hm. pose proof Hm as [Hn _].
  destruct m; cbn [mutation_names] in Hn; repeat match goal with H : Forall _ (_ :: _) |- _ => inversion_clear H end;
    cbn [mutation_rt handle r_method mutation_request].
  - by apply create_namespace_handled.
  - by apply delete_namespace_handled.
  - apply (RequiredNamespace_spec _ e a); [done..|]. intros Ha. by apply create_cluster_handled.
  - apply (RequiredCluster_spec _ e a); [done..|]. intros cl _. by apply delete_cluster_handled.
  - apply (RequiredNamespace_spec _ e a); [done..|]. intros Ha. by apply import_cluster_handled.
  - by apply migrate_handled.
  - apply (RequiredCluster_spec _ e a); [done..|]. intros cl Hf. by apply create_shard_handled.
  - apply (RequiredCluster_spec _ e a); [done..|]. intros cl Hf. by apply delete_shard_handled.
  - apply (RequiredClusterShard_spec _ e a); [done..|]. intros cl i s Hf Hi. by apply create_node_handled.
  - apply (RequiredClusterShard_spec _ e a); [done..|]. intros cl i s Hf Hi. by eapply delete_node_handled.
Qed.
End Mutations.

(** The environment in which the server handles a request of the web UI. *)
Definition ui_env (v : env) : env := MkEnv (replies v) (newID v) (now v) "".

(** A mutation at the server. *)
Lemma serve_mutation {E} `{EngineLaws E} v m (e : E) a :
  represents e a -> store_ok a -> mutation_ok m -> int64 (now v) ->
  let '(x, e') := serve v e (mutation_request m) in
  (accepted (r_method (mutation_request m)) x = true /\ effect_in (ui_env v) a m e') \/
  (accepted (r_method (mutation_request m)) x = false /\ e' = e).
Proof.
  intros Hr Hok Hm Hnow.
  pose proof (mutation_handled (ui_env v) Hnow e a m eq_refl Hr Hok Hm) as Hh. unfold outcome_spec in Hh.
  unfold serve. rewrite (mutation_dispatch m (proj1 Hm)). fold (ui_env v). fold (body_of m).
  destruct (handle (ui_env v) e (mutation_rt m) (body_of m)) as [[o e'] evs]. exact Hh.
Qed.

(** A mutating call is its one request. *)
Lemma run_perform {Srv S} (sv : Srv -> request -> axios_result * Srv) answer m e (s : S) :
  exists l, run sv answer (perform m) e s =
    let '(x, e') := sv e (mutation_request m) in (Ok (mutation_result m x), e', s, l).
Proof.
  destruct m; cbn [perform]; unfold createNamespace, deleteNamespace, createCluster, deleteCluster, importCluster,
    migrateSlot, createShard, deleteShard, createNode, deleteNode, axios_post, axios_delete, await_axios;
    cbn [mutation_request run try_catch mbind prog_bind]; destruct (sv e _) as [[d|x] e']; by eexists.
Qed.

(** C1. The web UI and the server together.  Whatever mutating call the UI makes
    (creating, deleting and importing namespaces, clusters, shards and nodes,
    migrating slots), against the handlers of the server over any engine and
    through any transport of addresses, with names in its path that an address
    carries unchanged (RFC 3986 path characters without percent signs, no dot
    segments; the client does not escape names, see unescaped_name_deletes_other
    for the others): the call returns the empty string exactly when the server has
    carried it out, and then the store is the one the mutation describes;
    otherwise it returns a message and the store has not changed. *)
Theorem mutation_end_to_end {E} `{EngineLaws E} `{Transport} v S (m : mutation) (answer : string -> bool) (e : E) a (s : S) :
  represents e a -> store_ok a -> mutation_ok m -> Forall (fun n => plain_segment n = true) (mutation_names m) ->
  int64 (now v) ->
  let '(o, e', s', _) := run (over_url (serve v)) answer (perform m) e s in
  s' = s /\ exists r, o = Ok r /\
    ((r = VStr "" /\ exists a', mutation_effect (ui_env v) a m a' /\ represents e' a') \/
     (truthy r = true /\ e' = e)).
Proof.
  intros Hr Hok Hm Hp Hnow. destruct (run_perform (over_url (serve v)) answer m e s) as [l ->].
  rewrite over_url_mutation by done.
  pose proof (serve_mutation v m e a Hr Hok Hm Hnow) as Hs. destruct (serve v e (mutation_request m)) as [x e'].
  pose proof (mutation_result_cases m x) as Hc. split; [done|]. eexists. split; [done|].
  destruct Hs as [[Ha He]|[Ha ->]]; rewrite Ha in Hc; [left; split; [done|exact He]|right; done].
Qed.

Lemma demo_store_ok : store_ok (put_cluster "ns" demo_cluster {[ "ns" := ∅ ]}).
Proof.
  intros ns c cl. rewrite find_put by (rewrite lookup_singleton_eq; by eexists). case_decide as Hd.
  - destruct Hd as [<- <-]. intros [= <-]. split; [done|]. split; [apply demo_cluster_storable|simpl; lia].
  - unfold find_cluster. destruct (decide (ns = "ns")) as [->|Hne].
    + rewrite lookup_singleton_eq. simpl. by rewrite lookup_empty.
    + by rewrite lookup_singleton_ne.
Qed.

Lemma mutation_end_to_end_witness :
  let v := MkEnv demo_replies unary 7 "" in
  let m := MCreateShard "ns" "c" (VArr [VStr "h:7"]) (VStr "pw") in
  let '(o, e', _, _) := run (over_url (serve v)) (fun _ => true) (perform m) demo_store tt in
  exists r, o = Ok r /\
    ((r = VStr "" /\ exists a', mutation_effect (ui_env v) (put_cluster "ns" demo_cluster {[ "ns" := ∅ ]}) m a' /\ represents e' a') \/
     (truthy r = true /\ e' = demo_store)).
Proof.
  intros v m. pose proof (mutation_end_to_end v unit m (fun _ => true) demo_store _ tt demo_rep demo_store_ok) as Hx.
  destruct (run (over_url (serve v)) (fun _ => true) (perform m) demo_store tt) as [[[o e'] s'] l].
  apply Hx; [split; [by repeat constructor|done]|by repeat constructor|unfold int64; simpl; lia].
Defined.

(** Names are not escaped.  Deleting the namespace a?b asks the server to delete
    the namespace a: when that one is empty it is deleted, the one that was meant
    is not, and the call returns the empty string, its report of success.  Forms
    refuse only names with white space, so such a namespace can be created. *)
Theorem unescaped_name_deletes_other {E} `{EngineLaws E} `{Transport} v S (answer : string -> bool) (e : E) a (s : S) :
  represents e a -> a !! "a" = Some ∅ ->
  let '(o, e', _, _) := run (over_url (serve v)) answer (deleteNamespace "a?b") e s in
  o = Ok (VStr "") /\ represents e' (delete "a" a).
Proof.
  intros Hr Ha. destruct (run_perform (over_url (serve v)) answer (MDeleteNamespace "a?b") e s) as [l Hl].
  cbn [perform] in Hl. rewrite Hl. cbn [mutation_request].
  change (namespacePath "a?b") with (path_of ["api"; "v1"; "namespaces"; "a"] +:+ String "?" "b").
  rewrite over_url_query by (done || by repeat constructor).
  change (Req DELETE (path_of ["api"; "v1"; "namespaces"; "a"]) VUndefined) with (mutation_request (MDeleteNamespace "a")).
  unfold serve. rewrite mutation_dispatch by (by repeat constructor). fold (ui_env v). cbn [mutation_rt handle].
  unfold Namespace_Remove, RemoveNamespace, ExistsNamespace.
  rewrite (rep_ns _ _ Hr "a" eq_refl), (rep_RemoveNamespace e a "a" Hr eq_refl), Ha.
  rewrite (bool_decide_true (is_Some (Some ∅))) by done. cbn [negb].
  rewrite bool_decide_true by (by right). cbn [negb]. split; [done|]. by apply rep_del_ns.
Qed.

(** ** Listings *)

Lemma length_concat_sum {A} (ls : list (list A)) :
  Z.of_nat (length (concat ls)) = sumZ (map (fun l => Z.of_nat (length l)) ls).
Proof. induction ls as [|l ls IH]; simpl; [done|]. rewrite length_app. lia. Qed.

(** The nodes of a cluster, counted shard by shard. *)
Lemma nodes_by_shard cl :
  sumZ (map (fun i => Z.of_nat (length (from_option (fun s => map node_json (Nodes s)) [] (Shards cl !! i)))) (seq 0 (length (Shards cl))))
  = Z.of_nat (length (GetNodes cl)).
Proof.
  unfold GetNodes. rewrite length_concat_sum, map_map. f_equal.
  apply list_eq. intros i. rewrite !list_lookup_fmap. destruct (Shards cl !! i) as [s|] eqn:Es.
  - rewrite lookup_seq_lt by (by eapply lookup_lt_Some). simpl. rewrite Es. simpl. by rewrite length_map.
  - apply lookup_ge_None in Es. by rewrite lookup_seq_ge.
Qed.

Section Listings.
Context {E : Type} `{EngineLaws E} (v : env).
Implicit Types (e : E) (a : astore).

(** What the lists of the store hold. *)
Definition shards_of e ns c : list Shard :=
  match GetCluster e ns c with inr cl => Shards cl | inl _ => [] end.

Definition store_world e : world :=
  World (ListNamespace e) (ListCluster e)
  (fun ns c => map shard_json (shards_of e ns c))
  (fun ns c i => from_option (fun s => map node_json (Nodes s)) [] (shards_of e ns c !! i)).

Definition listing_segments (q : listing) : list string :=
  match q with
  | LNamespaces => ["namespaces"]
  | LClusters ns => ["namespaces"; ns; "clusters"]
  | LShards ns c => ["namespaces"; ns; "clusters"; c; "shards"]
  | LNodes ns c sh => ["namespaces"; ns; "clusters"; c; "shards"; sh; "nodes"]
  end.

Definition listing_names (q : listing) : list string :=
  match q with LNamespaces => [] | LClusters ns => [ns] | LShards ns c => [ns; c] | LNodes ns c sh => [ns; c; sh] end.

Definition listing_rt (q : listing) : route :=
  match q with
  | LNamespaces => RtNamespaceList | LClusters ns => RtClusterList ns
  | LShards ns c => RtShardList ns c | LNodes ns c sh => RtNodeList ns c sh
  end.

Lemma listing_dispatch q :
  Forall (fun n => path_name n = true) (listing_names q) -> dispatch GET (listing_path q) = Some (listing_rt q).
Proof.
  intros Hn. unfold dispatch.
  assert (Hj : listing_path q = join "/" ("" :: "api" :: "v1" :: listing_segments q)).
  { destruct q; cbn [listing_path listing_segments];
      unfold nodesPath, shardPath, shardsPath, clusterPath, clustersPath, namespacePath, namespacesPath;
      rewrite ?append_assoc; reflexivity. }
  rewrite Hj, split_join; [|done|].
  - destruct q; cbn [listing_names] in Hn;
      repeat match goal with
      | H : Forall _ (_ :: _) |- _ => inversion_clear H
      | H : path_name _ = true |- _ => apply path_name_spec in H as [_ H]
      end; cbn [listing_segments match_route mbind option_bind params listing_rt forallb];
      repeat match goal with H : String.eqb _ _ = false |- _ => rewrite !H; clear H end; reflexivity.
  - do 3 (constructor; [done|]). destruct q; simpl in *;
      repeat match goal with
      | H : Forall _ (_ :: _) |- _ => inversion_clear H
      | H : path_name _ = true |- _ => apply path_name_spec in H as [? ?]
      end; repeat constructor; done.
Qed.

Lemma nat_to_string_name i : path_name (nat_to_string i) = true.
Proof.
  unfold path_name, nat_to_string. pose proof (Z_to_string_digits (Z.of_nat i) ltac:(lia)) as Hd.
  pose proof (Z_to_string_nonempty (Z.of_nat i)) as Hne. apply andb_true_iff. split.
  - apply negb_true_iff, String.eqb_neq. done.
  - apply negb_true_iff. revert Hd. generalize (Z_to_string (Z.of_nat i)) as t. intros t Ht.
    induction t as [|ch t IH]; [done|]. simpl in *. apply andb_true_iff in Ht as [Hc Ht]. rewrite (IH Ht), orb_false_r.
    destruct (Ascii.eqb_spec "/" ch) as [<-|]; [done|done].
Qed.

(** What the client makes of an error answer to a listing. *)
Lemma listing_error {S} f answer q err :
  f (Req GET (listing_path q) VUndefined) = to_axios (ResponseError err) ->
  eval f answer (@list_call S q) = Ok (VArr []).
Proof.
  intros Hf. destruct (to_axios (ResponseError err)) as [d|x] eqn:Ex; [|by eapply eval_list_rejected].
  exfalso. unfold ResponseError, error_code in Ex. by destruct (err_is err) as [[]|].
Qed.

(** A listing is answered by the handler of its route. *)
Lemma serve_listing e q o :
  Forall (fun n => path_name n = true) (listing_names q) ->
  handle (ui_env v) e (listing_rt q) VUndefined = reply e o ->
  fst (serve v e (Req GET (listing_path q) VUndefined)) = to_axios o.
Proof.
  intros Hn Hh. unfold serve. cbn [r_method r_path r_body]. rewrite (listing_dispatch q Hn).
  fold (ui_env v). by rewrite Hh.
Qed.

(** Against the server, the listings of the client are the lists of the store. *)
Lemma server_serves e a :
  represents e a ->
  (forall ns c cl, find_cluster a ns c = Some cl -> Z.of_nat (length (Shards cl)) < 2 ^ 63) ->
  serves (fun q => fst (serve v e q)) (store_world e).
Proof.
  intros Hr Hlen.
  pose proof (serve_listing e) as Hl.
  assert (Hns : forall ns, In ns (ListNamespace e) -> path_name ns = true /\ is_Some (a !! ns)).
  { intros ns Hin. apply list_elem_of_In in Hin. destruct (rep_ListNamespace e a Hr) as [_ Hx].
    apply Hx in Hin as [cs Hcs]. split; [by destruct (rep_names _ _ Hr ns cs Hcs)|by eexists]. }
  assert (Hcl : forall ns c, In ns (ListNamespace e) -> In c (ListCluster e ns) ->
    path_name c = true /\ exists cl, find_cluster a ns c = Some cl /\ GetCluster e ns c = inr cl).
  { intros ns c Hin Hc. destruct (Hns ns Hin) as [Hp _]. apply list_elem_of_In in Hc.
    destruct (rep_ListCluster e a ns Hr Hp) as [_ Hx]. apply Hx in Hc as [cl Hf].
    assert (Hpc : path_name c = true).
    { unfold find_cluster in Hf. destruct (a !! ns) as [cs|] eqn:Ea; [|done].
      apply (rep_names _ _ Hr ns cs Ea). by eexists. }
    split; [done|]. exists cl. split; [done|]. by rewrite (rep_GetCluster e a ns c Hr Hp Hpc), Hf. }
  split; cbn [store_world w_namespaces w_clusters w_shards w_nodes].
  - by apply (Hl LNamespaces (ResponseOK (VObj [("namespaces", VArr (map VStr (ListNamespace e)))]))).
  - intros ns Hin. destruct (Hns ns Hin) as [Hp Hs].
    apply (Hl (LClusters ns) (ResponseOK (VObj [("clusters", VArr (map VStr (ListCluster e ns)))]))); [by repeat constructor|].
    cbn [listing_rt handle]. unfold RequiredNamespace, ExistsNamespace. rewrite (rep_ns _ _ Hr ns Hp).
    by rewrite (bool_decide_true _ Hs).
  - intros ns c Hin Hc. destruct (Hns ns Hin) as [Hp _]. destruct (Hcl ns c Hin Hc) as (Hpc & cl & _ & Hg).
    apply (Hl (LShards ns c) (ResponseOK (VObj [("shards", VArr (map shard_json (shards_of e ns c)))]))); [by repeat constructor|].
    cbn [listing_rt handle]. unfold RequiredCluster, shards_of. by rewrite Hg.
  - intros ns c i Hin Hc Hi. destruct (Hns ns Hin) as [Hp _]. destruct (Hcl ns c Hin Hc) as (Hpc & cl & Hf & Hg).
    unfold shards_of in *. rewrite Hg in *. rewrite length_map in Hi.
    destruct (lookup_lt_is_Some_2 _ _ Hi) as [s Hs]. rewrite Hs. cbn [from_option].
    apply (Hl (LNodes ns c (nat_to_string i)) (ResponseOK (VObj [("nodes", VArr (map node_json (Nodes s)))]))).
    { repeat constructor; [done|done|apply nat_to_string_name]. }
    cbn [listing_rt handle]. unfold RequiredClusterShard. rewrite Hg. unfold nat_to_string.
    rewrite Atoi_Z_to_string by (specialize (Hlen ns c cl Hf); lia). unfold GetShard.
    destruct (Z.ltb_spec (Z.of_nat i) 0), (Z.leb_spec (Z.of_nat (length (Shards cl))) (Z.of_nat i)); try lia.
    cbn [orb]. by rewrite Nat2Z.id, Hs.
Qed.

(** The clusters of a namespace of the store. *)
Lemma clusters_perm (e : E) a ns cs :
  represents e a -> a !! ns = Some cs -> ListCluster e ns ≡ₚ (map_to_list cs).*1.
Proof.
  intros Hr Ha. destruct (rep_names _ _ Hr ns cs Ha) as [Hns _]. destruct (rep_ListCluster e a ns Hr Hns) as [Hn Hx].
  apply list.NoDup_Permutation; [done|apply NoDup_fst_map_to_list|]. intros c. rewrite Hx. unfold find_cluster. rewrite Ha.
  simpl. rewrite list_elem_of_fmap. split.
  - intros [cl Hc]. exists (c, cl). split; [done|]. by apply elem_of_map_to_list.
  - intros ([c' cl] & -> & Hin). apply elem_of_map_to_list in Hin. by eexists.
Qed.

Lemma rep_stored (e : E) a ns cs c cl :
  represents e a -> a !! ns = Some cs -> cs !! c = Some cl -> GetCluster e ns c = inr cl.
Proof.
  intros Hr Ha Hc. destruct (rep_names _ _ Hr ns cs Ha) as [Hns Hcs].
  rewrite (rep_GetCluster e a ns c Hr Hns) by (by apply Hcs; eexists). unfold find_cluster. rewrite Ha. simpl. by rewrite Hc.
Qed.

(** The shard at position [i] of a cluster of the store. *)
Definition stored_shard (a : astore) (ns c : string) (i : nat) : option Shard :=
  cl ← find_cluster a ns c; Shards cl !! i.

(** The middleware in front of a handler of a shard. *)
Lemma RequiredClusterShard_stored e a ns c i :
  represents e a -> path_name ns = true -> path_name c = true -> Z.of_nat i < 2 ^ 63 ->
  exists err, forall next, RequiredClusterShard e ns c (nat_to_string i) next =
  match find_cluster a ns c with
  | Some cl => match Shards cl !! i with
      | Some sh => next cl (Z.of_nat i) sh
      | None => reply e (ResponseError err)
      end
  | None => reply e (ResponseError err)
  end.
Proof.
  intros Hr Hn Hc Hi. pose proof (rep_GetCluster e a ns c Hr Hn Hc) as Hg. unfold RequiredClusterShard. rewrite Hg.
  destruct (find_cluster a ns c) as [cl|]; [|by eexists].
  unfold nat_to_string. rewrite Atoi_Z_to_string by lia. unfold GetShard. rewrite Nat2Z.id.
  rewrite (proj2 (Z.ltb_ge (Z.of_nat i) 0)) by lia. cbn [orb].
  destruct (Shards cl !! i) as [sh|] eqn:Esh.
  - apply lookup_lt_Some in Esh as Hlt. rewrite (proj2 (Z.leb_gt _ _)) by lia. by exists (sentinel ErrNotFound).
  - apply lookup_ge_None in Esh. rewrite (proj2 (Z.leb_le _ _)) by lia. by eexists.
Qed.

(** The names of the store can stand in an address. *)
Definition plain_store (a : astore) : Prop :=
  forall ns cs, a !! ns = Some cs -> plain_segment ns = true /\ forall c, is_Some (cs !! c) -> plain_segment c = true.

Lemma plain_world_store (e : E) a : represents e a -> plain_store a -> plain_world (store_world e).
Proof.
  intros Hr Hp ns Hin. cbn [store_world w_namespaces w_clusters] in *. apply list_elem_of_In in Hin.
  destruct (rep_ListNamespace e a Hr) as [_ Hx]. apply Hx in Hin as [cs Ha]. destruct (Hp ns cs Ha) as [Hn Hc].
  split; [done|]. intros c Hcin. apply list_elem_of_In in Hcin.
  destruct (rep_ListCluster e a ns Hr (plain_name _ Hn)) as [_ Hy]. apply Hy in Hcin as [cl Hf]. apply Hc.
  unfold find_cluster in Hf. rewrite Ha in Hf. by eexists.
Qed.

(** A GET leaves the store alone. *)
Lemma serve_get e q : r_method q = GET -> snd (serve v e q) = e.
Proof.
  intros Hm. unfold serve. rewrite Hm. destruct (dispatch GET (r_path q)) as [r|] eqn:Ed; [|done].
  assert (Hg : exists segs, match_route GET segs = Some r).
  { unfold dispatch in Ed. destruct (split "/" (r_path q)) as [|x0 [|x1 [|x2 segs]]]; repeat case_match; simplify_eq;
      exists segs; destruct (match_route GET segs); simpl in Ed; [case_match; congruence|done]. }
  destruct Hg as [segs Hg]. apply match_route_get in Hg.
  pose proof (get_keeps (MkEnv (replies v) (newID v) (now v) "") e r (r_body q)) as Hk.
  destruct r; try contradiction; destruct Hk as [o ->]; done.
Qed.
End Listings.

Lemma demo_plain : plain_store (put_cluster "ns" demo_cluster {[ "ns" := ∅ ]}).
Proof.
  intros ns cs Ha. unfold put_cluster in Ha. destruct (decide (ns = "ns")) as [->|Hne].
  - split; [done|]. intros c Hc. assert (Hd : find_cluster (put_cluster "ns" demo_cluster {[ "ns" := ∅ ]}) "ns" c = cs !! c).
    { unfold find_cluster, put_cluster. by rewrite Ha. }
    destruct Hc as [cl Hc]. rewrite Hc in Hd. destruct (demo_store_ok "ns" c cl Hd) as (<- & _).
    rewrite find_put in Hd by (rewrite lookup_singleton_eq; by eexists). case_decide as Hcase; [by injection Hd as <-|].
    unfold find_cluster in Hd. by rewrite lookup_singleton_eq in Hd.
  - exfalso. rewrite lookup_alter_ne, lookup_singleton_ne in Ha by congruence. done.
Qed.

(** ** Failover *)

Lemma failover_dispatch ns c sh :
  path_name ns = true -> path_name c = true -> path_name sh = true ->
  dispatch POST (shardPath ns c sh +:+ "/failover") = Some (RtShardFailover ns c sh).
Proof.
  intros H1 H2 H3. unfold dispatch.
  assert (Hj : shardPath ns c sh +:+ "/failover" = join "/" ["";"api";"v1";"namespaces";ns;"clusters";c;"shards";sh;"failover"]).
  { unfold shardPath, shardsPath, clusterPath, clustersPath, namespacePath, namespacesPath. rewrite ?append_assoc. reflexivity. }
  apply path_name_spec in H1 as [N1 E1], H2 as [N2 E2], H3 as [N3 E3].
  rewrite Hj, split_join; [|done|by repeat constructor].
  cbn [match_route mbind option_bind params forallb]. by rewrite E1, E2, E3.
Qed.

(** The preferred node as the handler reads it from the body. *)
Lemma bind_preferred p :
  (fs ← bind (failover_body p); json_field "preferred_node_id" dec_string "" fs) = inr (default "" p).
Proof. destruct p as [id|]; [|reflexivity]. unfold failover_body. destruct (String.eqb_spec id "") as [->|]; reflexivity. Qed.

Lemma promoted_storable w i mid pref cl cl' id :
  cluster_storable cl -> PromoteNewMaster w i mid pref cl = inr (cl', id) ->
  cluster_storable cl' /\ exists n, In n (GetNodes cl) /\ ID n = id.
Proof.
  intros Hs Hp. split.
  - eapply onShard_storable; [exact Hs|exact Hp|]. intros s s' x _ Hss. unfold promoteNewMaster.
    destruct (_ <=? _)%nat; [done|]. destruct (master_index _ _); [|done]. destruct (_ && _); [done|].
    destruct (_ =? _); [done|]. intros [= <- _]. apply storable_setNodes; [done|].
    do 2 (apply Forall_alter; [|by intros]). apply Hss.
  - revert Hp. unfold PromoteNewMaster, onShard, GetShard. destruct (_ || _); [done|].
    destruct (Shards cl !! Z.to_nat i) as [s|] eqn:Es; [|done]. unfold promoteNewMaster.
    destruct (_ <=? _)%nat; [done|]. destruct (master_index _ _) as [old|]; [|done]. destruct (_ && _); [done|].
    destruct (getNewMasterNodeIndex_spec w s old pref) as [[-> _]|(j & n & q & -> & (Hj & _) & _)]; [done|].
    destruct (_ =? _); [done|]. rewrite Nat2Z.id. intros [= _ <-]. exists n. split.
    + unfold GetNodes. apply in_concat. exists (Nodes s). split; [|by apply list_elem_of_In; eapply list_elem_of_lookup_2].
      apply in_map. apply list_elem_of_In. by eapply list_elem_of_lookup_2.
    + rewrite list_lookup_alter_eq. destruct (decide (j = old)) as [->|Hne].
      * rewrite list_lookup_alter_eq, Hj. done.
      * rewrite list_lookup_alter_ne, Hj by congruence. done.
Qed.

(** C22. A failover from the web UI.  The call returns the identifier of a new
    master exactly when the server promoted it and stored the cluster with the
    promotion (PromoteNewMaster, with the preferred node of the dialog);
    otherwise it returns an error and the store has not changed. *)
Theorem failover_end_to_end {E} `{EngineLaws E} v S ns c sh pref (answer : string -> bool) (e : E) a (s : S) :
  represents e a -> store_ok a -> path_name ns = true -> path_name c = true -> path_name sh = true ->
  (forall cl n, find_cluster a ns c = Some cl -> In n (GetNodes cl) -> ID n <> "") ->
  let '(o, e', s', _) := run (serve v) answer (failoverShard ns c sh pref) e s in
  s' = s /\ exists r, o = Ok r /\
    match r with
    | NewMaster id => exists cl cl' i, find_cluster a ns c = Some cl /\ Atoi sh = Some i /\
        exists id', id = VStr id' /\ PromoteNewMaster (replies v) i "" (default "" pref) cl = inr (cl', id') /\
        represents e' (put_cluster ns (next_version cl') a)
    | FailoverError err => truthy err = true /\ e' = e
    end.
Proof.
  intros Hr Hok Hns Hc Hsh Hids.
  assert (Hs : exists o e', serve v e (failover_request ns c sh pref) = (to_axios o, e') /\
    ((exists cl cl' i id, find_cluster a ns c = Some cl /\ Atoi sh = Some i /\ id <> "" /\
        PromoteNewMaster (replies v) i "" (default "" pref) cl = inr (cl', id) /\
        represents e' (put_cluster ns (next_version cl') a) /\ o = ResponseOK (VObj [("new_master_id", VStr id)])) \/
     (e' = e /\ exists x, to_axios o = Rejected x))).
  { unfold serve. cbn [r_method r_path r_body failover_request]. rewrite (failover_dispatch ns c sh Hns Hc Hsh).
    fold (ui_env v). cbn [handle]. unfold RequiredClusterShard. rewrite (rep_GetCluster e a ns c Hr Hns Hc).
    assert (Hrej : forall err, exists x, to_axios (ResponseError err) = Rejected x).
    { intros err. unfold ResponseError, to_axios, error_code. destruct (err_is err) as [[]|]; by eexists. }
    destruct (find_cluster a ns c) as [cl|] eqn:Ef; [|do 2 eexists; split; [done|right; auto]].
    destruct (Atoi sh) as [i|] eqn:Ei; [|do 2 eexists; split; [done|right; split; [done|by eexists]]].
    destruct (GetShard cl i) as [err|shard] eqn:Eg; [do 2 eexists; split; [done|right; auto]|].
    unfold Shard_Failover. rewrite bind_preferred.
    destruct (_ && _); [do 2 eexists; split; [done|right; split; [done|by eexists]]|].
    destruct (PromoteNewMaster _ _ _ _ _) as [err|[cl' id]] eqn:Ep; [do 2 eexists; split; [done|right; auto]|].
    destruct (Hok ns c cl Ef) as (Hnm & Hst & Hv). destruct (onShard_meta _ _ _ _ _ Ep) as [Hn' Hv'].
    destruct (promoted_storable _ _ _ _ _ _ _ Hst Ep) as (Hst' & n & Hin & Hid).
    destruct (UpdateCluster_next e a ns c cl cl' Hr Hok Hns Hc Ef Hn' Hv' Hst') as (e' & evs & Hu & Hrep).
    unfold update. rewrite Hu. do 2 eexists. split; [done|]. left. exists cl, cl', i, id. split_and!; try done.
    subst id. by apply (Hids cl). }
  destruct Hs as (o & e' & Hs & Hcase).
  unfold failoverShard. fold (failover_body pref). unfold axios_post, await_axios. cbn [run try_catch mbind prog_bind].
  fold (failover_request ns c sh pref). rewrite Hs.
  destruct Hcase as [(cl & cl' & i & id & H1 & H2 & H3 & H4 & H5 & ->)|(-> & x & ->)].
  - cbn -[truthy]. assert (truthy (VStr id) = true) as -> by (simpl; by destruct (String.eqb_spec id "")).
    split; [done|]. eexists. split; [done|]. exists cl, cl', i. split_and!; [done..|]. by exists id.
  - cbn -[handleError]. split; [done|]. eexists. split; [done|]. split; [apply handleError_truthy|done].
Qed.

Lemma failover_end_to_end_witness :
  let v := MkEnv (MkReplies (fun _ => inr "") (fun _ => inr ("role:slave" +:+ crlf +:+ "sequence:9")) (fun _ => inl "") (fun _ _ _ => true))
             unary 7 "" in
  let '(o, e', _, _) := run (serve v) (fun _ => true) (failoverShard "ns" "c" "0" None) demo_store tt in
  exists r, o = Ok r /\
    match r with
    | NewMaster id => exists cl cl' i,
        find_cluster (put_cluster "ns" demo_cluster {[ "ns" := ∅ ]}) "ns" "c" = Some cl /\ Atoi "0" = Some i /\
        exists id', id = VStr id' /\ PromoteNewMaster (replies v) i "" "" cl = inr (cl', id') /\
        represents e' (put_cluster "ns" (next_version cl') (put_cluster "ns" demo_cluster {[ "ns" := ∅ ]}))
    | FailoverError err => truthy err = true /\ e' = demo_store
    end.
Proof.
  intros v.
  pose proof (failover_end_to_end v unit "ns" "c" "0" None (fun _ => true) demo_store _ tt demo_rep demo_store_ok
                eq_refl eq_refl eq_refl) as Hx.
  destruct (run (serve v) (fun _ => true) (failoverShard "ns" "c" "0" None) demo_store tt) as [[[o e'] s'] l].
  apply Hx. intros cl n. rewrite find_put by (rewrite lookup_singleton_eq; by eexists). rewrite decide_True by done.
  intros [= <-] Hn. simpl in Hn. by destruct Hn as [<-|[<-|[<-|[]]]].
Defined.
