(* ===== verification/MigrationDialog.v ===== *)
(** * The migration dialog (webui/src/app/ui/migrationDialog.tsx)

    A dialog of the cluster page: the user enters a slot or a range of slots,
    picks a target shard and starts the migration. *)

From S2P Require Import Prelude JsString JsNumber JsValue Effects View Api Slots.

(** The interface [Shard] of the dialog, which the cluster page calls
    [ShardData].  The fields hold what the page computed from the response. *)
Record Shard := MkShard {
  index : nat;
  nodes : list value;
  slotRanges : list value;
  migratingSlot : value;
  importingSlot : value;
  targetShardIndex : value;
  nodeCount : Z;
  hasSlots : bool;
  hasMigration : bool;
  hasImporting : bool }.

(** The properties that are data; [onClose] and [onSuccess] are callbacks. *)
Record MigrationDialogProps := MkProps {
  p_open : bool;
  p_namespace : string;
  p_cluster : string;
  p_shards : list Shard }.

Record State := MkState {
  targetShard : number;
  slotNumber : string;
  slotOnly : bool;
  loading : bool;
  error : value }.

Definition init : State := MkState (num (-1)) "" false false (VStr "").

Definition setTargetShardIndex (n : number) (s : State) : State :=
  MkState n (slotNumber s) (slotOnly s) (loading s) (error s).
Definition setSlotNumber (v : string) (s : State) : State :=
  MkState (targetShard s) v (slotOnly s) (loading s) (error s).
Definition setSlotOnly (b : bool) (s : State) : State :=
  MkState (targetShard s) (slotNumber s) b (loading s) (error s).
Definition setLoading (b : bool) (s : State) : State :=
  MkState (targetShard s) (slotNumber s) (slotOnly s) b (error s).
Definition setError (e : value) (s : State) : State :=
  MkState (targetShard s) (slotNumber s) (slotOnly s) (loading s) e.

Definition availableTargetShards (shards : list Shard) : list Shard := List.filter hasSlots shards.

(** [{ isValid, error? }]: [None] is valid. *)
Definition validateSlotInput (input : string) : option string :=
  if String.eqb (trim input) "" then Some "Please enter a slot number or range"
  else if includes input "-" then
    match split "-" input with
    | [p0; p1] =>
        match parseInt (trim p0), parseInt (trim p1) with
        | Some start, Some end_ =>
            if (start <? 0) || (16383 <? end_) || (16383 <? start) || (end_ <? 0)
            then Some "Slot numbers must be between 0 and 16383"
            else if end_ <? start then Some "Start slot must be less than or equal to end slot"
            else None
        | _, _ => Some "Both start and end of range must be valid numbers"
        end
    | _ => Some "Invalid range format. Use format: start-end (e.g., 100-200)"
    end
  else
    match parseInt (trim input) with
    | Some slot => if (slot <? 0) || (16383 <? slot) then Some "Slot number must be between 0 and 16383" else None
    | None => Some "Slot number must be between 0 and 16383"
    end.

Definition resetForm : prog State unit :=
  _ ← set_state (setTargetShardIndex (num (-1)));
  _ ← set_state (setSlotNumber "");
  _ ← set_state (setSlotOnly false);
  set_state (setError (VStr "")).

Definition handleMigration (p : MigrationDialogProps) (s : State) : prog State unit :=
  if num_eq (targetShard s) (num (-1)) || String.eqb (trim (slotNumber s)) ""
  then set_state (setError (VStr "Please select a target shard and enter a slot number or range"))
  else match validateSlotInput (slotNumber s) with
  | Some e => set_state (setError (VStr e))
  | None =>
      _ ← set_state (setLoading true);
      _ ← set_state (setError (VStr ""));
      finally_
        (try_catch
           (result ← migrateSlot (p_namespace p) (p_cluster p) (targetShard s) (trim (slotNumber s)) (slotOnly s);
            if truthy result then set_state (setError result)
            else _ ← emit (OCallback "onSuccess");
                 _ ← emit (OCallback "onClose");
                 resetForm)
           (fun _ => set_state (setError (VStr "An unexpected error occurred during migration"))))
        (set_state (setLoading false))
  end.

Definition handleClose (s : State) : prog State unit :=
  if loading s then Ret tt else _ ← emit (OCallback "onClose"); resetForm.

Definition getSlotRangeDisplay (slotRanges : list value) : string :=
  match slotRanges with [] => "No slots" | _ => join ", " (map to_string slotRanges) end.

(** ** View and events *)

Inductive Event :=
| TypeSlot (v : string)
| ToggleSlotOnly (b : bool)
| PickTarget (v : string)
| CloseDialog
| ClickMigrate
| DismissError.

Definition update (p : MigrationDialogProps) (s : State) (e : Event) : prog State unit :=
  match e with
  | TypeSlot v => set_state (setSlotNumber v)
  | ToggleSlotOnly b => set_state (setSlotOnly b)
  | PickTarget v => set_state (setTargetShardIndex (num_of_option (parseInt v)))
  | CloseDialog => handleClose s
  | ClickMigrate => handleMigration p s
  | DismissError => set_state (setError (VStr ""))
  end.

Definition titleView : node Event :=
  El "DialogTitle" []
    [El "Box" [] [El "MoveUpIcon" [] [];
                  El "Box" [] [El "Typography" [] [Text "Migrate Slot"];
                               El "Typography" [] [Text "Move a slot to a different shard"]]]].

Definition slotFieldView (s : State) : node Event :=
  El "TextField" [Attr "label" "Slot or Slot Range"; Value (slotNumber s); OnInput TypeSlot;
                  Attr "placeholder" "e.g., 123 or 100-200";
                  Attr "helperText" "Enter a single slot (123) or slot range (100-200). Slots must be between 0 and 16383"] [].

Definition slotOnlyView (s : State) : node Event :=
  El "FormControlLabel" []
    [El "Switch" [Attr "checked" (if slotOnly s then "true" else "false"); OnToggle ToggleSlotOnly] [];
     El "Box" [] [El "Typography" [] [Text "Slot-only migration"];
                  El "Typography" [] [Text "Migrate only the slot without data"]]].

(** One radio button of the target list; the border and background of the
    selected one are styling. *)
Definition targetView (shard : Shard) : node Event :=
  El "FormControlLabel" [Value (nat_to_string (index shard))]
    [El "Radio" [] [];
     El "Box" []
       [El "StorageIcon" [] [];
        El "Box" []
          [El "Typography" [] [Text ("Shard " +:+ nat_to_string (index shard))];
           El "Typography" [] [Text ("Slots: " +:+ getSlotRangeDisplay (slotRanges shard))];
           El "Typography" [] [Text ("Nodes: " +:+ Z_to_string (nodeCount shard))]];
        El "Box" []
          ([El "Chip" [Attr "label" (Z_to_string (nodeCount shard) +:+ " nodes")] []] ++
           when (hasMigration shard) [El "Chip" [Attr "label" "Migrating"] []] ++
           when (hasImporting shard) [El "Chip" [Attr "label" "Importing"] []])]].

Definition targetsView (p : MigrationDialogProps) (s : State) : node Event :=
  match availableTargetShards (p_shards p) with
  | [] => El "Alert" [Attr "severity" "warning"]
            [Text "No target shards available for migration. At least one shard with slots is required."]
  | available =>
      El "Box" []
        [El "Typography" [] [Text "Select Target Shard"];
         El "FormControl" []
           [El "RadioGroup" [Value (num_to_string (targetShard s)); OnPick PickTarget] (map targetView available)]]
  end.

Definition migrateDisabled (p : MigrationDialogProps) (s : State) : bool :=
  loading s || (length (availableTargetShards (p_shards p)) =? 0)%nat
  || num_eq (targetShard s) (num (-1)) || String.eqb (trim (slotNumber s)) "".

Definition actionsView (p : MigrationDialogProps) (s : State) : node Event :=
  El "DialogActions" []
    [El "Button" [OnClick CloseDialog; Disabled (loading s)] [Text "Cancel"];
     El "Button" [OnClick ClickMigrate; Disabled (migrateDisabled p s)]
       [(if loading s then El "CircularProgress" [] [] else El "MoveUpIcon" [] []);
        Text (if loading s then "Processing..." else "Start Migration")]].

Definition errorView (s : State) : node Event :=
  El "Snackbar" [Open (truthy (error s)); Attr "autoHideDuration" "6000"; OnClose DismissError]
    [El "Alert" [OnClose DismissError; Attr "severity" "error"] [Text (to_string (error s))]].

Definition view (p : MigrationDialogProps) (s : State) : list (node Event) :=
  [El "Dialog" [Open (p_open p); OnClose CloseDialog]
     [titleView;
      El "DialogContent" []
        [El "Box" [] [slotFieldView s]; El "Box" [] [slotOnlyView s]; targetsView p s];
      actionsView p s];
   errorView s].

Definition dialog : component MigrationDialogProps State Event := Component init view update.

(** ** Validation against the server's parser *)

Lemma parseInt_signed s neg t :
  strip_sign s = (neg, t) -> all_chars is_digit t = true -> t <> "" ->
  parseInt s = Some (signed neg (digits_val 0 t)) /\ any_char is_ws s = false /\ s <> "".
Proof.
  intros Hs Hd Hne.
  assert (Hws : any_char is_ws s = false /\ s <> "").
  { pose proof (all_digits_no_ws t Hd) as Hw. unfold strip_sign in Hs.
    repeat case_match; simplify_eq; done. }
  split; [|done]. destruct Hws as [Hws _].
  unfold parseInt. rewrite trimStart_no_ws, Hs by done.
  rewrite (span_digits _ Hd). simpl fst. destruct t as [|c u]; [done|].
  destruct (digits_head _ Hd Hne) as (_ & _ & Hhead).
  destruct (Hhead c u eq_refl) as [Hu _]. destruct u as [|d v].
  - by repeat case_match.
  - specialize (Hu v). destruct Hu as (? & ? & _).
    repeat case_match; simplify_eq; done.
Qed.

Lemma Atoi_parseInt s z :
  Atoi s = Some z -> parseInt (trim s) = Some z /\ any_char is_ws s = false /\ s <> "".
Proof.
  unfold Atoi. destruct (strip_sign s) as [neg t] eqn:E. intros H.
  destruct t as [|c u] eqn:Et; [done|]. rewrite <- Et in *.
  destruct (all_chars is_digit t) eqn:Hd; [|done].
  destruct (_ && _); [|done]. simplify_eq.
  destruct (parseInt_signed s neg (String c u) E Hd ltac:(done)) as (Hp & Hw & Hne).
  by rewrite trim_no_ws.
Qed.

Lemma Atoi_digits s :
  all_chars is_digit s = true -> s <> "" -> digits_val 0 s < 2 ^ 63 -> Atoi s = Some (digits_val 0 s).
Proof.
  intros Hd Hne Hz. unfold Atoi. rewrite strip_sign_digits by done.
  pose proof (digits_val_nonneg 0 s ltac:(lia) Hd). rewrite Hd. unfold signed.
  generalize dependent (digits_val 0 s). intros z Hz Hz0.
  assert (((- 2 ^ 63 <=? z) && (z <? 2 ^ 63)) = true) as -> by lia. by destruct s.
Qed.

Lemma count_char_zero c s : count_char c s = 0%nat -> any_char (Ascii.eqb c) s = false.
Proof.
  induction s as [|d s IH]; cbn [count_char any_char]; [done|].
  destruct (Ascii.eqb c d); simpl; [lia|auto].
Qed.

(** A range with one dash: what the client splits is what the server cuts. *)
Lemma split_cut s a b :
  (count_char "-" s <= 1)%nat -> cut "-" s = Some (a, b) -> split "-" s = [a; b].
Proof.
  intros Hc [-> Ha]%cut_some. rewrite split_app by done. f_equal. apply split_none.
  rewrite count_char_app, count_char_none in Hc by done. cbn [count_char] in Hc.
  rewrite Ascii.eqb_refl in Hc. apply count_char_zero. lia.
Qed.

Lemma trim_not_empty s : any_char is_ws s = false -> s <> "" -> String.eqb (trim s) "" = false.
Proof. intros Hw Hne. rewrite trim_no_ws by done. by apply String.eqb_neq. Qed.

Lemma validate_complete s r : ParseSlotRange s = GoOk r -> validateSlotInput s = None.
Proof.
  unfold ParseSlotRange, validateSlotInput, MinSlotID, MaxSlotID. intros H.
  destruct (Nat.ltb_spec 1 (count_char "-" s)) as [|Hc]; [done|].
  rewrite includes_char. destruct (cut "-" s) as [[a b]|] eqn:Ecut.
  - destruct (Atoi a) as [x|] eqn:Ea; [|done]. destruct (Atoi b) as [y|] eqn:Eb; [|done].
    apply Atoi_parseInt in Ea as (Pa & Wa & Na). apply Atoi_parseInt in Eb as (Pb & Wb & Nb).
    rewrite (split_cut _ _ _ Hc Ecut), Pa, Pb. apply cut_some in Ecut as [-> _].
    rewrite trim_not_empty, any_char_append by
      (try (rewrite any_char_append, Wa; simpl; done); by destruct a).
    simpl. rewrite orb_true_r. zbool; simpl in *; try done; lia.
  - rewrite (cut_none_inv _ _ Ecut). destruct (Atoi s) as [x|] eqn:Ea; [|done].
    apply Atoi_parseInt in Ea as (Pa & Wa & Na). rewrite trim_not_empty, Pa by done.
    zbool; simpl in *; try done; lia.
Qed.

Definition slot_char (c : ascii) : bool := is_digit c || Ascii.eqb "-"%char c.

Lemma slot_chars_digits s :
  all_chars slot_char s = true -> any_char (Ascii.eqb "-"%char) s = false -> all_chars is_digit s = true.
Proof.
  induction s as [|c s IH]; simpl; [done|]. intros [H1 H2]%andb_prop [H3 H4]%orb_false_elim.
  unfold slot_char in H1. rewrite H3, orb_false_r in H1. by rewrite H1, IH.
Qed.

Lemma parseInt_digits_inv s z :
  all_chars is_digit s = true -> parseInt (trim s) = Some z -> s <> "" /\ z = digits_val 0 s.
Proof.
  intros Hd. rewrite trim_no_ws by (by apply all_digits_no_ws). intros H.
  destruct s as [|c s]; [done|]. split; [done|]. rewrite parseInt_digits in H by done. congruence.
Qed.

Lemma validate_sound s :
  all_chars slot_char s = true -> validateSlotInput s = None -> exists r, ParseSlotRange s = GoOk r.
Proof.
  intros Hs. unfold validateSlotInput, ParseSlotRange, MinSlotID, MaxSlotID.
  destruct (String.eqb (trim s) ""); [done|]. rewrite includes_char.
  destruct (any_char (Ascii.eqb "-"%char) s) eqn:Ed.
  - pose proof (join_split "-" s) as Hj. destruct (split "-" s) as [|p0 [|p1 [|]]] eqn:Esp; try done.
    simpl in Hj. change ("-" +:+ p1) with (String "-" p1) in Hj.
    assert (Hp : forall t u, s = t +:+ String "-" u -> any_char (Ascii.eqb "-"%char) t = false ->
      split "-" s = t :: split "-" u) by (intros t u -> Ht; by apply split_app).
    destruct (cut "-" s) as [[a b]|] eqn:Ecut; [|apply cut_none_inv in Ecut; congruence].
    pose proof (cut_some _ _ _ _ Ecut) as [E Ha]. pose proof (Hp _ _ E Ha) as Hsplit.
    rewrite Esp in Hsplit. injection Hsplit as -> Hb.
    assert (Hb' : any_char (Ascii.eqb "-"%char) b = false).
    { destruct (any_char _ b) eqn:Eb; [|done]. exfalso.
      destruct (cut "-" b) as [[b1 b2]|] eqn:Ec; [|apply cut_none_inv in Ec; congruence].
      apply cut_some in Ec as [-> Hb1]. rewrite split_app in Hb by done.
      destruct (split_cons "-" b2) as (q & qs & Hq). by rewrite Hq in Hb. }
    rewrite split_none in Hb by done. injection Hb as ->.
    rewrite E, all_chars_append in Hs. apply andb_prop in Hs as [Hsa Hsb].
    simpl in Hsb. apply slot_chars_digits in Hsa, Hsb; [|done..].
    destruct (parseInt (trim a)) as [x|] eqn:Pa; [|done].
    destruct (parseInt (trim b)) as [y|] eqn:Pb; [|done].
    apply parseInt_digits_inv in Pa as [Na ->], Pb as [Nb ->]; [|done..].
    rewrite E, count_char_app. cbn [count_char]. rewrite !count_char_none by done. simpl.
    intros Hv. pose proof (digits_val_nonneg 0 a ltac:(lia) Hsa).
    zbool; simpl in *; try done; rewrite !Atoi_digits by (try done; lia);
      zbool; simpl; try lia; eauto.
  - destruct (parseInt (trim s)) as [x|] eqn:Px; [|done].
    apply slot_chars_digits in Hs; [|done]. apply parseInt_digits_inv in Px as [Ne ->]; [|done].
    rewrite count_char_none, cut_none by done. simpl. intros Hv.
    zbool; simpl in *; try done; rewrite Atoi_digits by (try done; lia); zbool; simpl; try lia; eauto.
Qed.

(** C10. The dialog accepts every slot or range that the server's parser
    (ParseSlotRange of store/slot.go) accepts, and on inputs made of digits and
    dashes the two agree exactly: what passes the dialog is parsed by the server
    to a range within 0 and 16383. *)
Theorem validateSlotInput_agrees s :
  (forall r, ParseSlotRange s = GoOk r -> validateSlotInput s = None) /\
  (all_chars slot_char s = true ->
     validateSlotInput s = None <-> exists r, ParseSlotRange s = GoOk r /\ wf_range r).
Proof.
  split; [intros r; apply validate_complete|]. intros Hs. split.
  - intros [r Hr]%validate_sound; [|done]. exists r. split; [done|]. by eapply ParseSlotRange_wf.
  - intros (r & Hr & _). by eapply validate_complete.
Qed.

Lemma validateSlotInput_agrees_witness :
  validateSlotInput "100-16383" = None /\
  exists r, ParseSlotRange "100-16383" = GoOk r /\ wf_range r.
Proof.
  split; [apply (validateSlotInput_agrees "100-16383") with (r := MkRange 100 16383); reflexivity|].
  apply (validateSlotInput_agrees "100-16383"); reflexivity.
Defined.

(** Outside that alphabet the dialog is laxer than the server: blanks
    around the dash and trailing letters pass the dialog, which sends the input
    as it is, and the server rejects it. *)
Theorem validateSlotInput_lax :
  validateSlotInput "100 - 200" = None /\
  ParseSlotRange (trim "100 - 200") = GoErr "invalid syntax" /\
  validateSlotInput "12abc" = None /\
  ParseSlotRange (trim "12abc") = GoErr "invalid syntax".
Proof. vm_compute. done. Qed.

(** ** The migration handler *)

Definition ready (s : State) : bool :=
  negb (num_eq (targetShard s) (num (-1))) && negb (String.eqb (trim (slotNumber s)) "")
  && bool_decide (validateSlotInput (slotNumber s) = None).

Definition migration_request (p : MigrationDialogProps) (s : State) : request :=
  mutation_request (MMigrateSlot (p_namespace p) (p_cluster p) (targetShard s) (trim (slotNumber s)) (slotOnly s)).

Definition callbacks : list event := [EvOut (OCallback "onSuccess"); EvOut (OCallback "onClose")].

(** Clicking the button sends a request only when a target is chosen and
    the input is valid, and then exactly one, with the trimmed input.  A click
    that is refused only sets a non-empty error.  After the answer the dialog is
    never left loading; a success calls onSuccess and onClose and clears the
    form, a failure keeps the form and shows the client's non-empty error. *)
Theorem handleMigration_spec p s l :
  wp (handleMigration p s)
    (fun o s' l' =>
       o = Ok tt /\
       if ready s then
         exists a, requests l' = requests l ++ [migration_request p s] /\
           if accepted POST a
           then s' = init /\ l' = l ++ [EvReq (migration_request p s) a] ++ callbacks
           else s' = setError (create_result a) (setLoading false s) /\ truthy (error s') = true /\
                l' = l ++ [EvReq (migration_request p s) a]
       else l' = l /\ s' = setError (error s') s /\ truthy (error s') = true) s l.
Proof.
  unfold handleMigration, ready. destruct (num_eq _ _ || _) eqn:E.
  { simpl. split; [done|]. by destruct (num_eq _ _), (String.eqb _ _). }
  apply orb_false_elim in E as [-> ->]. cbn [negb andb].
  destruct (validateSlotInput (slotNumber s)) as [e|] eqn:Ev.
  { rewrite bool_decide_false by done. simpl. repeat split.
    revert Ev. unfold validateSlotInput. intros Ev. repeat (case_match; simplify_eq; try done). }
  rewrite bool_decide_true by done. wp_steps. rewrite migrateSlot_wp. intros a.
  rewrite create_result_truthy. pose proof (create_result_cases a) as Ha.
  destruct (accepted POST a) eqn:Eacc; simpl; (split; [done|]); exists a; rewrite Eacc.
  - rewrite !requests_app, <- !app_assoc. repeat split; by rewrite ?app_nil_r.
  - by rewrite !requests_app.
Qed.

Lemma handleMigration_one_shot p s :
  loading s = false -> forall answer, flight_event loading s (settle answer (handleMigration p s) s).
Proof.
  intros Hl answer. unfold handleMigration. destruct (num_eq _ _ || _); [by left|].
  destruct (validateSlotInput _); [by left|]. right. simpl. split_and!; [done..|].
  constructor. intros ans [d|e] s1 s2 o q; simpl; destruct (truthy _); intros; simplify_eq/=; by left.
Qed.

Lemma targetView_fires input sh : fires input (targetView sh) = [].
Proof. unfold targetView. simpl. by destruct (hasMigration sh), (hasImporting sh). Qed.

Lemma targetsView_fires input p s ev :
  In ev (fires input (targetsView p s)) -> exists v, ev = PickTarget v.
Proof.
  unfold targetsView. destruct (availableTargetShards (p_shards p)) as [|sh l]; [done|].
  remember (sh :: l) as shs. simpl. rewrite !app_nil_r, in_app_iff, !flat_map_map.
  rewrite (flat_map_nil _ _ (targetView_fires input)). intros [H|[]].
  apply in_map_iff in H as (v & <- & _). eauto.
Qed.

(** C32. In every reachable state of the dialog, under any changes of its
    properties, any user input and any order of events, it is loading exactly
    while a migration request is in flight, and there is never more than one:
    a slot cannot be submitted twice. *)
Theorem migration_single_flight c :
  reachable dialog c -> length (in_flight c) = if loading (c_state c) then 1%nat else 0%nat.
Proof.
  apply (single_flight dialog loading); [done|].
  intros answer input p s [v|b|v| | |] Hin; try (by left).
  - simpl. unfold handleClose. destruct (loading s) eqn:El; left; by rewrite ?El.
  - apply handleMigration_one_shot. destruct (loading s) eqn:El; [exfalso|done].
    revert Hin. unfold dialog, all_fires, targetsView, availableTargetShards. simpl.
    unfold migrateDisabled. rewrite El. simpl. rewrite !app_nil_r, !in_app_iff.
    pose proof (targetsView_fires input p s ClickMigrate) as Ht.
    destruct (p_open p), (truthy (error s)); simpl; naive_solver.
Qed.

(** A run of the dialog: type a slot, pick a target, start. *)
Definition demo_props : MigrationDialogProps :=
  MkProps true "ns" "c" [MkShard 0 [] [VStr "0-16383"] VNull VNull VNull 1 true false false].
Definition demo_event (e : Event) (c : config State) : config State :=
  spawn (fun _ => true) (update demo_props (c_state c) e) c.
Definition demo_run : config State :=
  demo_event ClickMigrate (demo_event (PickTarget "0") (demo_event (TypeSlot "5") (Config init []))).

Lemma migration_single_flight_witness :
  length (in_flight demo_run) = 1%nat /\ loading (c_state demo_run) = true.
Proof.
  split; [|reflexivity]. apply (migration_single_flight demo_run).
  repeat (eapply reach_step; [|eapply (ui_event dialog _ (Input "5" [] []) demo_props); vm_compute; tauto]).
  constructor.
Defined.
