(* ===== verification/FailoverDialog.v ===== *)
(** * The failover dialog (webui/src/app/ui/failoverDialog.tsx)

    A dialog of the shard page: the user picks a replica, or leaves the choice
    to the controller, and promotes it to master. *)

From S2P Require Import Prelude JsString JsNumber JsValue Effects View Api Utils.

Record Node := MkNode { id : string; addr : string; role : string; created_at : Z }.

(** The properties that are data; [onClose] and [onSuccess] are callbacks. *)
Record FailoverDialogProps := MkProps {
  p_open : bool;
  p_namespace : string;
  p_cluster : string;
  p_shard : string;
  p_nodes : list Node }.

Record State := MkState { selectedNodeId : string; loading : bool; error : value }.

Definition init : State := MkState "auto" false (VStr "").

Definition setSelectedNodeId (v : string) (s : State) : State := MkState v (loading s) (error s).
Definition setLoading (b : bool) (s : State) : State := MkState (selectedNodeId s) b (error s).
Definition setError (e : value) (s : State) : State := MkState (selectedNodeId s) (loading s) e.

Definition masterNode (nodes : list Node) : option Node :=
  List.find (fun n => String.eqb (role n) "master") nodes.
Definition slaveNodes (nodes : list Node) : list Node :=
  List.filter (fun n => String.eqb (role n) "slave") nodes.

(** [selectedNodeId === "auto" ? undefined : selectedNodeId] *)
Definition preferredNode (s : State) : option string :=
  if String.eqb (selectedNodeId s) "auto" then None else Some (selectedNodeId s).

Definition handleFailover (p : FailoverDialogProps) (s : State) : prog State unit :=
  _ ← set_state (setLoading true);
  _ ← set_state (setError (VStr ""));
  finally_
    (try_catch
       (result ← failoverShard (p_namespace p) (p_cluster p) (p_shard p) (preferredNode s);
        match result with
        | FailoverError e =>
            if truthy e then set_state (setError e)
            else _ ← emit (OCallback "onSuccess");
                 _ ← emit (OCallback "onClose");
                 set_state (setSelectedNodeId "auto")
        | NewMaster _ =>
            _ ← emit (OCallback "onSuccess");
            _ ← emit (OCallback "onClose");
            set_state (setSelectedNodeId "auto")
        end)
       (fun _ => set_state (setError (VStr "An unexpected error occurred during failover"))))
    (set_state (setLoading false)).

Definition handleClose (s : State) : prog State unit :=
  if loading s then Ret tt
  else _ ← emit (OCallback "onClose");
       _ ← set_state (setSelectedNodeId "auto");
       set_state (setError (VStr "")).

Definition truncateId (id : string) (len : nat) : string :=
  if (len <? String.length id)%nat then String.substring 0 len id +:+ "..." else id.

(** ** View and events *)

Inductive Event :=
| PickNode (v : string)
| CloseDialog
| ClickFailover
| DismissError.

Definition update (p : FailoverDialogProps) (s : State) (e : Event) : prog State unit :=
  match e with
  | PickNode v => set_state (setSelectedNodeId v)
  | CloseDialog => handleClose s
  | ClickFailover => handleFailover p s
  | DismissError => set_state (setError (VStr ""))
  end.

Definition titleView : node Event :=
  El "DialogTitle" []
    [El "Box" [] [El "SwapHorizIcon" [] [];
                  El "Box" [] [El "Typography" [] [Text "Failover Shard Master"];
                               El "Typography" [] [Text "Promote a replica node to master"]]]].

Definition masterView (nodes : list Node) : node Event :=
  El "Box" []
    ([El "Typography" [] [Text "Current Master"]] ++
     match masterNode nodes with
     | Some m =>
         [El "Box" []
            [El "CheckCircleIcon" [] [];
             El "Box" [] [El "Typography" [] [Text (addr m)];
                          El "Typography" [] [Text ("ID: " +:+ truncateId (id m) 8)]];
             El "Chip" [Attr "label" "Master"] []]]
     | None => []
     end).

Definition replicaView (n : Node) : node Event :=
  El "FormControlLabel" [Value (id n)]
    [El "Radio" [] [];
     El "Box" []
       [El "DeviceHubIcon" [] [];
        El "Box" [] [El "Typography" [] [Text (addr n)];
                     El "Typography" [] [Text ("ID: " +:+ truncateId (id n) 8)]];
        El "Chip" [Attr "label" "Replica"] []]].

Definition autoView : node Event :=
  El "FormControlLabel" [Value "auto"]
    [El "Radio" [] [];
     El "Box" [] [El "Typography" [] [Text "Automatic Selection"];
                  El "Typography" [] [Text "Let the controller choose the best replica"]]].

Definition choiceView (p : FailoverDialogProps) (s : State) : node Event :=
  if (0 <? length (slaveNodes (p_nodes p)))%nat
  then El "Box" []
         [El "Typography" [] [Text "Select New Master"];
          El "FormControl" []
            [El "RadioGroup" [Value (selectedNodeId s); OnPick PickNode]
               (autoView :: map replicaView (slaveNodes (p_nodes p)))]]
  else El "Alert" [Attr "severity" "warning"]
         [Text "No replica nodes available for failover. At least one replica node is required."].

Definition failoverDisabled (p : FailoverDialogProps) (s : State) : bool :=
  loading s || (length (slaveNodes (p_nodes p)) =? 0)%nat.

Definition actionsView (p : FailoverDialogProps) (s : State) : node Event :=
  El "DialogActions" []
    [El "Button" [OnClick CloseDialog; Disabled (loading s)] [Text "Cancel"];
     El "Button" [OnClick ClickFailover; Disabled (failoverDisabled p s)]
       [(if loading s then El "CircularProgress" [] [] else El "SwapHorizIcon" [] []);
        Text (if loading s then "Processing..." else "Start Failover")]].

Definition errorView (s : State) : node Event :=
  El "Snackbar" [Open (truthy (error s)); Attr "autoHideDuration" "6000"; OnClose DismissError]
    [El "Alert" [OnClose DismissError; Attr "severity" "error"] [Text (to_string (error s))]].

Definition view (p : FailoverDialogProps) (s : State) : list (node Event) :=
  [El "Dialog" [Open (p_open p); OnClose CloseDialog]
     [titleView;
      El "DialogContent" [] [masterView (p_nodes p); choiceView p s];
      actionsView p s];
   errorView s].

Definition dialog : component FailoverDialogProps State Event := Component init view update.

(** ** The handler *)

Definition shard_failover (p : FailoverDialogProps) (s : State) : request :=
  failover_request (p_namespace p) (p_cluster p) (p_shard p) (preferredNode s).

Definition callbacks : list event := [EvOut (OCallback "onSuccess"); EvOut (OCallback "onClose")].

(** Starting a failover sends exactly one request; its body is empty for
    the automatic choice and otherwise names the selected node.  The dialog is
    never left loading.  When the answer names a new master the callbacks run and
    the choice is reset; otherwise the choice is kept and a non-empty error is
    shown, and no callback runs. *)
Theorem handleFailover_spec p s l :
  wp (handleFailover p s)
    (fun o s' l' =>
       o = Ok tt /\ loading s' = false /\
       r_body (shard_failover p s) =
         (if String.eqb (selectedNodeId s) "auto" || String.eqb (selectedNodeId s) ""
          then VObj [] else VObj [("preferred_node_id", VStr (selectedNodeId s))]) /\
       exists a,
         match failover_answer a with
         | NewMaster _ =>
             l' = l ++ [EvReq (shard_failover p s) a] ++ callbacks /\ s' = MkState "auto" false (VStr "")
         | FailoverError e =>
             l' = l ++ [EvReq (shard_failover p s) a] /\
             s' = MkState (selectedNodeId s) false e /\ truthy e = true
         end) s l.
Proof.
  unfold handleFailover. wp_steps. rewrite failoverShard_wp. intros a.
  assert (He : forall e, failover_answer a = FailoverError e -> truthy e = true).
  { destruct a as [d|e']; simpl; [destruct (truthy (prop _ _))|];
      intros e He; simplify_eq; apply handleError_truthy. }
  assert (Hb : r_body (shard_failover p s) =
    (if String.eqb (selectedNodeId s) "auto" || String.eqb (selectedNodeId s) ""
     then VObj [] else VObj [("preferred_node_id", VStr (selectedNodeId s))])).
  { unfold shard_failover, preferredNode. by destruct (String.eqb (selectedNodeId s) "auto"). }
  fold (shard_failover p s). destruct (failover_answer a) as [i|e] eqn:Ea.
  - simpl. split_and!; [done..|]. exists a. rewrite Ea. by rewrite <- !app_assoc.
  - rewrite (He e eq_refl). simpl. split_and!; [done..|]. exists a. rewrite Ea. auto.
Qed.

Lemma handleFailover_one_shot p s :
  loading s = false -> forall answer, flight_event loading s (settle answer (handleFailover p s) s).
Proof.
  intros Hl answer. right. simpl. split_and!; [done..|]. constructor.
  intros ans a s1 s2 o q. destruct a as [d|e]; simpl.
  - destruct (truthy (prop _ _)); simpl; [|rewrite handleError_truthy]; intros; simplify_eq/=; by left.
  - rewrite handleError_truthy. intros; simplify_eq/=; by left.
Qed.

Lemma choiceView_fires i p s ev :
  In ev (fires i (choiceView p s)) -> exists v, ev = PickNode v /\
    (v = "auto" \/ exists n, In n (p_nodes p) /\ role n = "slave" /\ id n = v).
Proof.
  unfold choiceView. destruct (0 <? _)%nat; [|done]. simpl.
  rewrite !app_nil_r, in_app_iff, !flat_map_map, (flat_map_nil (fun n => fires i (replicaView n))) by done.
  intros [<-|[H|[]]]; [by eauto|].
  apply in_map_iff in H as (v & <- & Hv). exists v. split; [done|]. right.
  apply in_flat_map in Hv as (n & Hn & Hv). apply List.filter_In in Hn as [Hn Hr].
  apply String.eqb_eq in Hr. simpl in Hv. destruct Hv as [<-|[]]. eauto.
Qed.

(** What the dialog offers in any state. *)
Lemma dialog_offers i p s ev :
  In ev (all_fires i (view p s)) ->
  match ev with
  | ClickFailover => loading s = false /\ slaveNodes (p_nodes p) <> []
  | PickNode v => v = "auto" \/ exists n, In n (p_nodes p) /\ role n = "slave" /\ id n = v
  | _ => True
  end.
Proof.
  pose proof (choiceView_fires i p s ev) as Hc. revert Hc. unfold all_fires, view, masterView, failoverDisabled.
  generalize (choiceView p s). intros cv Hc.
  destruct (masterNode (p_nodes p)), (p_open p), (truthy (error s)) eqn:Et; simpl; rewrite Et; simpl;
    unfold failoverDisabled; destruct (loading s), (slaveNodes (p_nodes p)); simpl;
    rewrite ?app_nil_r, ?in_app_iff; simpl; destruct ev; naive_solver.
Qed.

(** In every reachable state of the failover dialog, for any user input and
    any order of events and answers, it is loading exactly while a failover
    request is in flight, and there is at most one: a double click cannot start
    two failovers. *)
Theorem failover_single_flight c :
  reachable dialog c -> length (in_flight c) = if loading (c_state c) then 1%nat else 0%nat.
Proof.
  apply (single_flight dialog loading); [done|].
  intros answer i p s ev Hin%dialog_offers. destruct ev as [v| | |]; try (by left).
  - simpl. unfold handleClose. destruct (loading s) eqn:El; left; by rewrite ?El.
  - apply handleFailover_one_shot, Hin.
Qed.

Definition demo_props : FailoverDialogProps :=
  MkProps true "ns" "c" "0" [MkNode "n1" "127.0.0.1:1" "master" 0; MkNode "n2" "127.0.0.1:2" "slave" 0].
Definition demo_event (e : Event) (c : config State) : config State :=
  spawn (fun _ => true) (update demo_props (c_state c) e) c.
Definition demo_run : config State :=
  demo_event ClickFailover (demo_event (PickNode "n2") (Config init [])).

Lemma failover_single_flight_witness :
  length (in_flight demo_run) = 1%nat /\ loading (c_state demo_run) = true.
Proof.
  split; [|reflexivity]. apply (failover_single_flight demo_run).
  repeat (eapply reach_step; [|eapply (ui_event dialog _ (Input "" [] []) demo_props); vm_compute; tauto]).
  constructor.
Defined.

(** As long as the properties stay the same, the dialog can only promote a
    replica: the selected value is always the automatic choice or the identifier
    of a node of the shard with the role slave, never the current master's unless
    a replica carries the same identifier. *)
Theorem failover_selects_replica p s i ev :
  (selectedNodeId s = "auto" \/ exists n, In n (p_nodes p) /\ role n = "slave" /\ id n = selectedNodeId s) ->
  In ev (all_fires i (view p s)) -> forall l,
  wp (update p s ev) (fun _ s' _ =>
    selectedNodeId s' = "auto" \/ exists n, In n (p_nodes p) /\ role n = "slave" /\ id n = selectedNodeId s') s l.
Proof.
  intros Hs Hin%dialog_offers l. destruct ev as [v| | |].
  - exact Hin.
  - simpl. unfold handleClose. destruct (loading s); simpl; auto.
  - eapply wp_mono; [|apply handleFailover_spec]. intros o s' l' (_ & _ & _ & a & Ha).
    destruct (failover_answer a); destruct Ha as [_ Ha]; [by subst; left|]. destruct Ha as [-> _]. exact Hs.
  - exact Hs.
Qed.

Lemma failover_selects_replica_witness :
  wp (update demo_props init (PickNode "n2")) (fun _ s' _ =>
    selectedNodeId s' = "auto" \/
    exists n, In n (p_nodes demo_props) /\ role n = "slave" /\ id n = selectedNodeId s') init [].
Proof.
  apply (failover_selects_replica demo_props init (Input "" [] []) (PickNode "n2")).
  - left. reflexivity.
  - vm_compute. tauto.
Defined.
