(* ===== verification/FormDialog.v ===== *)
(** * The form dialog (webui/src/app/ui/formDialog.tsx)

    The dialog all creation forms share: it renders the fields a form asks for,
    collects the form data, awaits the form's submit function and shows its
    error. *)

From S2P Require Import Prelude JsString JsNumber JsValue Effects View Api.

(** The entries of a FormData object, in order. *)
Definition FormData : Type := list (string * string).

(** [formData.get(name)]: the first value, or null. *)
Fixpoint fd_get (d : FormData) (name : string) : value :=
  match d with
  | [] => VNull
  | (k, v) :: d' => if String.eqb name k then VStr v else fd_get d' name
  end.

(** [Object.fromEntries(formData.entries())]: a later entry replaces an earlier one. *)
Definition fromEntries (d : FormData) : value :=
  VObj (fold_left (fun fs '(k, v) => obj_set k (VStr v) fs) d []).

Record formField := MkField {
  name : string;
  label : string;
  type : string;
  required : bool;
  values : option (list string) }.

Record FormDialogProps := MkProps {
  position : string;
  title : string;
  submitButtonLabel : string;
  formFields : list formField;
  children : option string }.

Record State := MkState {
  showDialog : bool;
  errorMessage : value;
  arrayValues : list (string * list string);
  submitting : bool }.

Definition init : State := MkState false (VStr "") [] false.

Definition setShowDialog (b : bool) (s : State) : State :=
  MkState b (errorMessage s) (arrayValues s) (submitting s).
Definition setErrorMessage (e : value) (s : State) : State :=
  MkState (showDialog s) e (arrayValues s) (submitting s).
Definition setArrayValues (a : list (string * list string)) (s : State) : State :=
  MkState (showDialog s) (errorMessage s) a (submitting s).
Definition setSubmitting (b : bool) (s : State) : State :=
  MkState (showDialog s) (errorMessage s) (arrayValues s) b.

Definition openDialog : prog State unit := set_state (setShowDialog true).
Definition closeDialog : prog State unit := set_state (setShowDialog false).

(** [{ ...arrayValues, [name]: value }] *)
Fixpoint arrays_set (n : string) (v : list string) (a : list (string * list string)) :
    list (string * list string) :=
  match a with
  | [] => [(n, v)]
  | (n', v') :: a' => if String.eqb n n' then (n, v) :: a' else (n', v') :: arrays_set n v a'
  end.

(** [arrayValues[name] || []] *)
Fixpoint arrays_get (n : string) (a : list (string * list string)) : list string :=
  match a with
  | [] => []
  | (n', v') :: a' => if String.eqb n n' then v' else arrays_get n a'
  end.

Definition handleArrayChange (n : string) (v : list string) (s : State) : prog State unit :=
  set_state (setArrayValues (arrays_set n v (arrayValues s))).

(** The form data: the named fields of the form, then the arrays as JSON. *)
Definition collect (fields : FormData) (s : State) : FormData :=
  fields ++ map (fun '(n, v) => (n, stringify_strings v)) (arrayValues s).

Definition handleSubmit (onSubmit : FormData -> prog State value) (fields : FormData) (s : State) :
    prog State unit :=
  _ ← set_state (setSubmitting true);
  finally_
    (try_catch
       (error ← onSubmit (collect fields s);
        if truthy error then set_state (setErrorMessage error) else closeDialog)
       (fun _ => set_state (setErrorMessage (VStr "An unexpected error occurred"))))
    (set_state (setSubmitting false)).

(** ** View and events *)

Inductive Event :=
| OpenDialog
| CloseDialog
| ArrayChange (n : string) (v : list string)
| Submit (fields : FormData)
| DismissError.

Definition openerView (p : FormDialogProps) : node Event :=
  match children p with
  | Some c => El "div" [OnClick OpenDialog] [Text c]
  | None =>
      if String.eqb (position p) "card"
      then El "Button" [OnClick OpenDialog; Attr "variant" "contained"] [El "AddIcon" [] []; Text (title p)]
      else El "Button" [OnClick OpenDialog; Attr "variant" "outlined"] [El "AddIcon" [] []; Text (title p)]
  end.

Definition arrayFieldView (s : State) (f : formField) : node Event :=
  El "Box" []
    [El "Typography" [] [Text (label f)];
     El "Autocomplete" [OnValues (ArrayChange (name f))]
       (map (fun option => El "Chip" [Attr "label" option] []) (arrays_get (name f) (arrayValues s)) ++
        [El "TextField" [Attr "label" ("Add " +:+ label f +:+ "*");
                         Attr "placeholder" "Type and press enter"] []])].

Definition enumFieldView (f : formField) : node Event :=
  El "FormControl" []
    [El "InputLabel" [Attr "id" (name f +:+ "-label")] [Text (label f)];
     El "Select" [Attr "name" (name f); Attr "label" (label f); Attr "defaultValue" "";
                  Attr "required" (if required f then "true" else "false")]
       (map (fun v => El "MenuItem" [Value v] [Text v]) (default [] (values f)))].

Definition textFieldView (f : formField) : node Event :=
  El "TextField" [Attr "name" (name f); Attr "label" (label f); Attr "type" (type f);
                  Attr "required" (if required f then "true" else "false")] [].

Definition fieldView (s : State) (f : formField) : node Event :=
  if String.eqb (type f) "array" then arrayFieldView s f
  else if String.eqb (type f) "enum" then enumFieldView f
  else textFieldView f.

Definition actionsView (p : FormDialogProps) (s : State) : node Event :=
  El "DialogActions" []
    [El "Button" [OnClick CloseDialog; Disabled (submitting s)] [Text "Cancel"];
     El "Button" [Attr "type" "submit"; OnSubmit Submit; Disabled (submitting s)]
       (when (submitting s) [El "CircularProgress" [] []] ++
        [Text (if submitting s then "Processing..." else submitButtonLabel p)])].

Definition errorView (s : State) : node Event :=
  El "Snackbar" [Open (truthy (errorMessage s)); Attr "autoHideDuration" "5000"; OnClose DismissError]
    [El "Alert" [OnClose DismissError; Attr "severity" "error"] [Text (to_string (errorMessage s))]].

Definition view (p : FormDialogProps) (s : State) : list (node Event) :=
  [openerView p;
   El "Dialog" [Open (showDialog s); OnClose CloseDialog]
     [El "form" []
        [El "DialogTitle" [] [El "Typography" [] [Text (title p)]];
         El "DialogContent" [] (map (fieldView s) (formFields p));
         actionsView p s]];
   errorView s].

(** ** The interface of a form

    A form gives the dialog its properties and a submit function.  The dialog
    relies on the submit function not touching the dialog's own state. *)
Class Form (P : Type) := {
  form_props : P -> FormDialogProps;
  onSubmit : P -> FormData -> prog State value }.

Class LawfulForm (P : Type) `{Form P} : Prop :=
  onSubmit_stateless : forall p d, stateless (onSubmit p d).

Section Dialog.
Context {P : Type} `{LawfulForm P}.

Definition update (p : P) (s : State) (e : Event) : prog State unit :=
  match e with
  | OpenDialog => openDialog
  | CloseDialog => closeDialog
  | ArrayChange n v => handleArrayChange n v s
  | Submit fields => handleSubmit (onSubmit p) fields s
  | DismissError => set_state (setErrorMessage (VStr ""))
  end.

Definition dialog : component P State Event :=
  Component init (fun p s => view (form_props p) s) update.

(** What the dialog makes of the outcome of a submit function. *)
Definition settled (o : result value) (s : State) : State :=
  setSubmitting false
  (match o with
  | Ok v => if truthy v then setErrorMessage v s else setShowDialog false s
  | Err _ => setErrorMessage (VStr "An unexpected error occurred") s
  end).

(** The rule for a submission: whatever the submit function guarantees of its
    outcome and its requests, the dialog settles accordingly. *)
Lemma handleSubmit_wp p fields s l Q :
  wp (onSubmit p (collect fields s))
  (fun o s' l' => s' = setSubmitting true s -> Q (Ok tt) (settled o (setSubmitting true s)) l')
  (setSubmitting true s) l ->
  wp (handleSubmit (onSubmit p) fields s) Q s l.
Proof.
  intros Hw. unfold handleSubmit. wp_steps.
  eapply wp_mono; [|apply wp_stateless; [apply onSubmit_stateless|exact Hw]].
  intros [v|e] s' l' [-> HQ]; specialize (HQ eq_refl); [|exact HQ].
  unfold settled in HQ. by destruct (truthy v).
Qed.

(** The rest of a submission at any await. *)
Lemma submit_one_shot (q : prog State value) :
  stateless q -> forall answer s s' o r,
  settle answer (finally_ (try_catch
  (error ← q; if truthy error then set_state (setErrorMessage error) else closeDialog)
  (fun _ => set_state (setErrorMessage (VStr "An unexpected error occurred"))))
  (set_state (setSubmitting false))) s = (s', o, r) ->
  submitting s = true ->
  (waiting r = false /\ submitting s' = false) \/ (submitting s' = true /\ one_shot submitting r).
Proof.
  intros Hq. induction q as [v|e|rq k IH|g k IH|m k IH|out k IH];
    intros answer s s' o r; simpl in *; intros Hset Hs.
  - destruct (truthy v); simplify_eq/=; by left.
  - simplify_eq/=; by left.
  - simplify_eq/=. right. split; [done|]. constructor.
    intros answer' a s1 s2 o' q' Hset Hb. by eapply (IH a).
  - done.
  - by eapply (IH (answer m)).
  - destruct (settle _ _ _) as [[s1 o1] q1] eqn:E. simplify_eq. by eapply IH.
Qed.

Lemma submit_offered i p s fields :
  In (Submit fields) (all_fires i (view p s)) -> submitting s = false.
Proof.
  unfold all_fires, view, openerView.
  assert (Hf : ~ In (Submit fields) (flat_map (fires i) (map (fieldView s) (formFields p)))).
  { rewrite in_flat_map. intros (n & Hn & Hin). apply in_map_iff in Hn as (f & <- & _).
    revert Hin. unfold fieldView. destruct (String.eqb _ _).
    - simpl. rewrite !app_nil_r, flat_map_app, flat_map_map, in_app_iff, flat_map_nil by done.
      simpl. naive_solver.
    - destruct (String.eqb _ _); [|done]. simpl. rewrite flat_map_map, flat_map_nil by done. done. }
  destruct (submitting s) eqn:Es; [|done]. intros Hin. exfalso. revert Hin.
  destruct (children p), (String.eqb (position p) "card"), (showDialog s), (truthy (errorMessage s)) eqn:Et;
    simpl; rewrite ?Et, ?Es; simpl; rewrite ?app_nil_r, ?in_app_iff; naive_solver.
Qed.

(** C31. The form dialog shared by all creation forms, with any form that
    keeps its hands off the dialog's state: in every reachable state it is
    submitting exactly while the submission's request is in flight, at most one
    request is, and so a form cannot be submitted a second time before the
    answer, even when the dialog is closed and opened again in between. *)
Theorem form_single_flight c :
  reachable dialog c -> length (in_flight c) = if submitting (c_state c) then 1%nat else 0%nat.
Proof.
  apply (single_flight dialog submitting); [done|].
  intros answer i p s ev Hin. destruct ev as [| |n v|fields|]; try (by left).
  apply submit_offered in Hin. unfold flight_event.
  destruct (settle _ _ _) as [[s' o] q] eqn:E. change (settle answer
    (SetState (setSubmitting true) (finally_ (try_catch
    (error ← onSubmit p (collect fields s);
    if truthy error then set_state (setErrorMessage error) else closeDialog)
    (fun _ => set_state (setErrorMessage (VStr "An unexpected error occurred"))))
    (set_state (setSubmitting false)))) s = (s', o, q)) in E.
  simpl settle in E. apply submit_one_shot in E; [|apply onSubmit_stateless|done].
  destruct E as [[Hq Hs]|[Hs Hq]]; [left; split; congruence|by right].
Qed.
End Dialog.

(** ** Array fields *)

Lemma arrays_get_set n v a : arrays_get n (arrays_set n v a) = v.
Proof.
  induction a as [|[n' v'] a IH]; simpl; [by rewrite String.eqb_refl|].
  destruct (String.eqb n n') eqn:E; simpl; rewrite ?String.eqb_refl, ?E; auto.
Qed.

Lemma arrays_get_set_other n m v a : n <> m -> arrays_get m (arrays_set n v a) = arrays_get m a.
Proof.
  intros Hne. induction a as [|[n' v'] a IH]; simpl.
  - by destruct (String.eqb_spec m n).
  - destruct (String.eqb_spec n n') as [->|]; simpl; [by destruct (String.eqb_spec m n')|].
    by rewrite IH.
Qed.

Lemma assoc_obj_set k v fs k' :
  assoc k' (obj_set k v fs) = if String.eqb k' k then v else assoc k' fs.
Proof.
  induction fs as [|[k1 v1] fs IH]; simpl.
  - by destruct (String.eqb k' k).
  - destruct (String.eqb_spec k k1) as [->|Hne]; simpl.
    + by destruct (String.eqb k' k1).
    + rewrite IH. destruct (String.eqb_spec k' k1) as [->|]; [|done].
      by destruct (String.eqb_spec k1 k).
Qed.

Lemma fromEntries_snoc d k v k' :
  prop (fromEntries (d ++ [(k, v)])) k' = if String.eqb k' k then VStr v else prop (fromEntries d) k'.
Proof. unfold fromEntries, prop. rewrite fold_left_app. simpl. apply assoc_obj_set. Qed.

(** The last entry of a name wins. *)
Lemma fromEntries_app d1 d2 k :
  Forall (fun e => fst e <> k) d2 -> prop (fromEntries (d1 ++ d2)) k = prop (fromEntries d1) k.
Proof.
  induction d2 as [|[k2 v2] d2 IH] using rev_ind; [by rewrite app_nil_r|].
  rewrite app_assoc. intros [Hd Hk]%Forall_app. inversion_clear Hk as [|? ? Hne _].
  rewrite fromEntries_snoc. destruct (String.eqb_spec k k2); [by subst|auto].
Qed.

Lemma fd_get_app d1 d2 k : Forall (fun e => fst e <> k) d1 -> fd_get (d1 ++ d2) k = fd_get d2 k.
Proof.
  induction 1 as [|[k1 v1] d1 Hk _ IH]; simpl in *; [done|].
  destruct (String.eqb_spec k k1); [congruence|done].
Qed.

(** Names of the arrays, without repetition. *)
Definition array_names (s : State) : list string := map fst (arrayValues s).

Lemma array_names_set n v s :
  NoDup (array_names s) -> NoDup (map fst (arrays_set n v (arrayValues s))).
Proof.
  unfold array_names. generalize (arrayValues s) as a.
  assert (Hin : forall a x, In x (map fst (arrays_set n v a)) <-> x = n \/ In x (map fst a)).
  { induction a as [|[n' v'] a IH]; intros x; simpl; [naive_solver|].
    destruct (String.eqb_spec n n') as [->|]; simpl; [naive_solver|]. rewrite IH. naive_solver. }
  induction a as [|[n' v'] a IH]; simpl; intros Hd; [by repeat constructor; set_solver|].
  inversion Hd as [|? ? Hn Hd']; subst. destruct (String.eqb_spec n n') as [->|Hne]; simpl.
  - by constructor.
  - constructor; [|auto]. rewrite list_elem_of_In, Hin. rewrite list_elem_of_In in Hn. naive_solver.
Qed.

Lemma collect_array fields s n v :
  In (n, v) (arrayValues s) -> NoDup (array_names s) ->
  prop (fromEntries (collect fields s)) n = VStr (stringify_strings v).
Proof.
  unfold collect, array_names. intros Hin Hd. apply in_split in Hin as (a1 & a2 & Ha).
  rewrite Ha in *. rewrite map_app in Hd. simpl in Hd.
  rewrite map_app. cbn [map]. change (?x :: ?l) with ([x] ++ l).
  rewrite !app_assoc, fromEntries_app, fromEntries_snoc, String.eqb_refl; [done|].
  apply NoDup_app in Hd as (_ & _ & Hd). inversion Hd as [|? ? Hn _]; subst.
  apply Forall_forall. intros [k w] Hk ->%symmetry. apply Hn.
  apply list_elem_of_In in Hk. apply in_map_iff in Hk as ([k' w'] & Heq & Hk). simplify_eq/=.
  apply list_elem_of_In, in_map_iff. by exists (k, w').
Qed.

(** An array field arrives unchanged: the value a form's submit function
    reads under the field's name, whatever else the form contains (even a plain
    field of the same name), is a JSON text that parses back to exactly the tags
    the user entered; entering tags for one field changes no other field. *)
Theorem array_field_roundtrip fields n v s :
  NoDup (array_names s) ->
  let s' := setArrayValues (arrays_set n v (arrayValues s)) s in
  (exists text, prop (fromEntries (collect fields s')) n = VStr text /\
                JSON_parse text = Ok (VArr (map VStr v))) /\
  NoDup (array_names s') /\
  (forall m, m <> n -> arrays_get m (arrayValues s') = arrays_get m (arrayValues s)).
Proof.
  intros Hd s'. assert (Hd' : NoDup (array_names s')) by (by apply array_names_set).
  split; [|split; [done|intros m Hm; by apply arrays_get_set_other]].
  exists (stringify_strings v). split; [|apply JSON_parse_stringify].
  apply collect_array; [|done]. simpl. clear. induction (arrayValues s) as [|[n' v'] a IH]; simpl; [auto|].
  destruct (String.eqb n n'); simpl; auto.
Qed.

Lemma array_field_roundtrip_witness :
  prop (fromEntries (collect [("name", "c")] (setArrayValues [("nodes", ["a:1"; "b:2"])] init))) "nodes"
  = VStr (stringify_strings ["a:1"; "b:2"]) /\
  exists text, prop (fromEntries (collect [("name", "c")]
    (setArrayValues (arrays_set "nodes" ["a:1"; "b:2"] (arrayValues init)) init))) "nodes" = VStr text /\
    JSON_parse text = Ok (VArr (map VStr ["a:1"; "b:2"])).
Proof.
  split; [reflexivity|].
  apply (array_field_roundtrip [("name", "c")] "nodes" ["a:1"; "b:2"] init). constructor.
Defined.
