(* ===== verification/FormCreation.v ===== *)
(** * The creation forms (webui/src/app/ui/formCreation.tsx)

    Six forms that share the form dialog: each has its fields and a submit
    function that validates the form data, calls the client and navigates. *)

From S2P Require Import Prelude JsString JsNumber JsValue Effects View Api Slots GoShard FormDialog.

(** [/\s/.test(value)], which converts its argument to a string. *)
Definition containsWhitespace (v : value) : bool := any_char is_ws (to_string v).

Fixpoint validateFormData (formData : FormData) (fields : list string) : option string :=
  match fields with
  | [] => None
  | field :: fields' =>
      match fd_get formData field with
      | VStr value =>
          if containsWhitespace (VStr value)
          then Some (capitalize field +:+ " cannot contain any whitespace characters.")
          else validateFormData formData fields'
      | _ => validateFormData formData fields'
      end
  end.

Section Submit.
Context {S : Type}.

(** The end of a submission: navigate on success, return the error otherwise. *)
Definition conclude (response : value) (navigate : output) (fallback : string) : prog S value :=
  if strict_eq response (VStr "") then _ ← emit navigate; Ret VUndefined
  else Ret (js_or response (VStr fallback)).

Definition NamespaceCreation_handleSubmit (formData : FormData) : prog S value :=
  match validateFormData formData ["name"] with
  | Some errorMessage => Ret (VStr errorMessage)
  | None =>
      let formObj := fromEntries formData in
      response ← createNamespace (prop formObj "name");
      conclude response (OPush ("/namespaces/" +:+ to_string (prop formObj "name")))
      "Failed to create namespace"
  end.

Definition ClusterCreation_handleSubmit (namespace : string) (formData : FormData) : prog S value :=
  match validateFormData formData ["name"; "replicas"] with
  | Some errorMessage => Ret (VStr errorMessage)
  | None =>
      let formObj := fromEntries formData in
      nodes ← lift (JSON_parse (to_string (prop formObj "nodes")));
      len ← lift (get nodes "length");
      if strict_eq len (vnum 0) then Ret (VStr "Nodes cannot be empty.")
      else
      items ← lift (iterate nodes);
      if existsb containsWhitespace items
      then Ret (VStr "Nodes cannot contain any whitespace characters.")
      else
      response ← createCluster (prop formObj "name") nodes
      (num_of_option (parseInt (to_string (prop formObj "replicas"))))
      (prop formObj "password") namespace;
      conclude response
      (OPush ("/namespaces/" +:+ namespace +:+ "/clusters/" +:+ to_string (prop formObj "name")))
      "Failed to create cluster"
  end.

(** The loop over the nodes: the first offending node decides the message. *)
Fixpoint check_nodes (nodes : list value) : option string :=
  match nodes with
  | [] => None
  | node :: nodes' =>
      if negb (truthy node) || negb (match node with VStr _ => true | _ => false end)
      then Some "All nodes must be valid address strings."
      else if containsWhitespace node then Some "Node addresses cannot contain whitespace characters."
      else check_nodes nodes'
  end.

Definition ShardCreation_handleSubmit (namespace cluster : string) (formData : FormData) : prog S value :=
  try_catch
  (match validateFormData formData ["nodes"] with
  | Some errorMessage => Ret (VStr errorMessage)
  | None =>
      let formObj := fromEntries formData in
      let nodesString := prop formObj "nodes" in
      if negb (truthy nodesString) then Ret (VStr "Nodes field is required.")
      else match JSON_parse (to_string nodesString) with
      | Err _ => Ret (VStr "Invalid nodes format. Please check your input.")
      | Ok nodes =>
          let password := js_or (prop formObj "password") (VStr "") in
          if negb (is_array nodes) || strict_eq (prop nodes "length") (vnum 0)
          then Ret (VStr "At least one node is required.")
          else match check_nodes (elements nodes) with
          | Some message => Ret (VStr message)
          | None =>
              response ← createShard namespace cluster nodes password;
              conclude response OReload "Failed to create shard"
          end
      end
  end)
  (fun error =>
  _ ← emit (OConsole "Error in shard creation:");
  Ret (VStr ("Failed to create shard: " +:+ exn_message error))).

Definition ImportCluster_handleSubmit (namespace : string) (formData : FormData) : prog S value :=
  match validateFormData formData ["nodes"] with
  | Some errorMessage => Ret (VStr errorMessage)
  | None =>
      let formObj := fromEntries formData in
      nodes ← lift (JSON_parse (to_string (prop formObj "nodes")));
      let cluster := prop formObj "cluster" in
      let password := prop formObj "password" in
      len ← lift (get nodes "length");
      if strict_eq len (vnum 0) then Ret (VStr "Nodes cannot be empty.")
      else
      items ← lift (iterate nodes);
      if existsb containsWhitespace items
      then Ret (VStr "Nodes cannot contain any whitespace characters.")
      else
      response ← importCluster namespace cluster nodes password;
      conclude response
      (OPush ("/namespaces/" +:+ namespace +:+ "/clusters/" +:+ to_string cluster))
      "Failed to import cluster"
  end.

(** One range of a shard: [slot >= start && slot <= end]. *)
Definition range_has_slot (slot : Z) (range : value) : result bool :=
  dash ← js_includes range "-";
  if (dash : bool)
  then parts ← js_split range "-"%char;
  let start := Number (nth 0 parts "") in
  let end_ := Number (nth 1 parts "") in
  Ok (num_le start (num slot) && num_le (num slot) end_)
  else let start := to_number range in
  Ok (num_le start (num slot) && num_le (num slot) start).

(** The inner loop, with its break. *)
Fixpoint ranges_have_slot (slot : Z) (ranges : list value) : result bool :=
  match ranges with
  | [] => Ok false
  | range :: ranges' =>
      b ← range_has_slot slot range;
      if (b : bool) then Ok true else ranges_have_slot slot ranges'
  end.

Definition shard_has_slot (slot : Z) (shard : value) : result bool :=
  ranges ← get shard "slot_ranges";
  if truthy ranges && is_array ranges then ranges_have_slot slot (elements ranges) else Ok false.

(** The outer loop: [sourceShardIndex], -1 when no shard has the slot. *)
Fixpoint sourceShardIndex (slot : Z) (i : Z) (shards : list value) : result Z :=
  match shards with
  | [] => Ok (-1)
  | shard :: shards' =>
      b ← shard_has_slot slot shard;
      if (b : bool) then Ok i else sourceShardIndex slot (i + 1) shards'
  end.

(** The checks of the try block: [Some message] returns, [None] goes on. *)
Definition check_migration (target slot : Z) (shards : value) : result (option string) :=
  if negb (truthy shards) || negb (is_array shards)
  then Ok (Some "Failed to fetch shard information. Please check if the cluster exists.")
  else
  let list := elements shards in
  let len := Z.of_nat (length list) in
  if len <=? target
  then Ok (Some ("Target shard index " +:+ Z_to_string target +:+ " does not exist. Available shards: 0-"
  +:+ Z_to_string (len - 1) +:+ "."))
  else
  source ← sourceShardIndex slot 0 list;
  if source =? target
  then Ok (Some ("Cannot migrate slot " +:+ Z_to_string slot +:+ " to the same shard ("
  +:+ Z_to_string target +:+ "). The slot is already in shard "
  +:+ Z_to_string source +:+ "."))
  else if source =? -1
  then Ok (Some ("Slot " +:+ Z_to_string slot
  +:+ " is not currently assigned to any shard and cannot be migrated."))
  else
  migrating ← get (nth (Z.to_nat source) list VUndefined) "migrating_slot";
  if strict_eq migrating (vnum slot)
  then Ok (Some ("Slot " +:+ Z_to_string slot +:+ " is already being migrated from shard "
  +:+ Z_to_string source +:+ "."))
  else
  import ← get (nth (Z.to_nat target) list VUndefined) "import_slot";
  if strict_eq import (vnum slot)
  then Ok (Some ("Slot " +:+ Z_to_string slot +:+ " is already being imported to shard "
  +:+ Z_to_string target +:+ "."))
  else Ok None.

Definition migration_error (response : value) : prog S value :=
  b1 ← lift (js_includes response "source and target shard is same");
  if (b1 : bool) then Ret (VStr "Migration failed: The source and target shards are the same. Please select a different target shard.")
  else
  b2 ← lift (js_includes response "the entry does not exist");
  if (b2 : bool) then Ret (VStr "Migration failed: The specified cluster, shard, or slot does not exist.")
  else
  b3 ← lift (js_includes response "already existed");
  if (b3 : bool) then Ret (VStr "Migration failed: The slot is already being migrated or exists in the target shard.")
  else Ret (VStr ("Migration failed: " +:+ to_string response)).

Definition MigrateSlot_handleSubmit (namespace cluster : string) (formData : FormData) : prog S value :=
  match validateFormData formData ["target"; "slot"; "slot_only"] with
  | Some errorMessage => Ret (VStr errorMessage)
  | None =>
      let formObj := fromEntries formData in
      let slotOnly := strict_eq (prop formObj "slot_only") (VStr "true") in
      match parseInt (to_string (prop formObj "target")) with
      | None => Ret (VStr "Target shard index must be a valid non-negative number.")
      | Some target =>
          if target <? 0 then Ret (VStr "Target shard index must be a valid non-negative number.")
          else match parseInt (to_string (prop formObj "slot")) with
          | None => Ret (VStr "Slot must be a valid number between 0 and 16383.")
          | Some slot =>
              if (slot <? 0) || (16383 <? slot)
              then Ret (VStr "Slot must be a valid number between 0 and 16383.")
              else
              early ← try_catch
              (shards ← listShards namespace cluster;
              lift (check_migration target slot shards))
              (fun error => _ ← emit (OConsole "Error validating migration:"); Ret None);
              match early with
              | Some message => Ret (VStr message)
              | None =>
                  response ← migrateSlot namespace cluster (num target) (Z_to_string slot) slotOnly;
                  if strict_eq response (VStr "") then _ ← emit OReload; Ret VUndefined
                  else migration_error response
              end
          end
      end
  end.

Definition NodeCreation_handleSubmit (namespace cluster shard : string) (formData : FormData) : prog S value :=
  match validateFormData formData ["Address"; "Role"] with
  | Some errorMessage => Ret (VStr errorMessage)
  | None =>
      let formObj := fromEntries formData in
      let address := prop formObj "Address" in
      let role := prop formObj "Role" in
      let password := prop formObj "Password" in
      if containsWhitespace address then Ret (VStr "Address cannot contain any whitespace characters.")
      else
      response ← createNode namespace cluster shard address role password;
      conclude response OReload "Failed to create node"
  end.
End Submit.

(** ** The forms *)

Definition text_field (n l : string) : formField := MkField n l "text" true None.
Definition array_field (n l : string) : formField := MkField n l "array" true None.
Definition password_field (n : string) : formField := MkField n "Input Password" "password" false None.

(** NamespaceCreation and MigrateSlot do not pass their children on. *)
Definition NamespaceCreation_props (position : string) : FormDialogProps :=
  MkProps position "Create Namespace" "Create" [text_field "name" "Input Name"] None.

Definition ClusterCreation_props (position : string) (children : option string) : FormDialogProps :=
  MkProps position "Create Cluster" "Create"
    [text_field "name" "Input Name"; array_field "nodes" "Input Nodes";
     text_field "replicas" "Input Replicas"; password_field "password"] children.

Definition ShardCreation_props (position : string) (children : option string) : FormDialogProps :=
  MkProps position "Create Shard" "Create"
    [array_field "nodes" "Input Nodes"; password_field "password"] children.

Definition ImportCluster_props (position : string) (children : option string) : FormDialogProps :=
  MkProps position "Import Cluster" "Import"
    [text_field "cluster" "Input Cluster"; array_field "nodes" "Input Nodes";
     password_field "password"] children.

Definition MigrateSlot_props (position : string) : FormDialogProps :=
  MkProps position "Migrate Slot" "Migrate"
    [text_field "target" "Target Shard Index"; text_field "slot" "Slot Number (0-16383)";
     MkField "slot_only" "Slot Only Migration" "enum" true (Some ["false"; "true"])] None.

Definition NodeCreation_props (position : string) (children : option string) : FormDialogProps :=
  MkProps position "Create Node" "Create"
    [text_field "Address" "Input Address";
     MkField "Role" "Select Role" "enum" true (Some ["master"; "slave"]);
     password_field "Password"] children.

Inductive form :=
| NamespaceCreation (position : string)
| ClusterCreation (position namespace : string) (children : option string)
| ShardCreation (position namespace cluster : string) (children : option string)
| ImportCluster (position namespace : string) (children : option string)
| MigrateSlot (position namespace cluster : string)
| NodeCreation (position namespace cluster shard : string) (children : option string).

Definition props (f : form) : FormDialogProps :=
  match f with
  | NamespaceCreation position => NamespaceCreation_props position
  | ClusterCreation position _ children => ClusterCreation_props position children
  | ShardCreation position _ _ children => ShardCreation_props position children
  | ImportCluster position _ children => ImportCluster_props position children
  | MigrateSlot position _ _ => MigrateSlot_props position
  | NodeCreation position _ _ _ children => NodeCreation_props position children
  end.

Definition submit {S} (f : form) (d : FormData) : prog S value :=
  match f with
  | NamespaceCreation _ => NamespaceCreation_handleSubmit d
  | ClusterCreation _ ns _ => ClusterCreation_handleSubmit ns d
  | ShardCreation _ ns c _ => ShardCreation_handleSubmit ns c d
  | ImportCluster _ ns _ => ImportCluster_handleSubmit ns d
  | MigrateSlot _ ns c => MigrateSlot_handleSubmit ns c d
  | NodeCreation _ ns c sh _ => NodeCreation_handleSubmit ns c sh d
  end.

#[export] Instance creation_forms : Form form := {| form_props := props; onSubmit := submit |}.

(** ** The interface of the dialog is met *)

Lemma listShards_stateless {S} ns c : stateless (@listShards S ns c).
Proof.
  apply stateless_try; [|done]. apply stateless_bind; [apply stateless_await|]. intros d.
  apply stateless_bind; [apply stateless_lift|]. intros x.
  apply stateless_bind; [apply stateless_lift|done].
Qed.

Ltac stateless_steps :=
  repeat first
    [ exact I
    | apply stateless_lift
    | apply stateless_emit
    | apply listShards_stateless
    | match goal with
      | |- stateless (createNamespace ?n) => exact (perform_stateless (MCreateNamespace n))
      | |- stateless (createCluster ?n ?ns ?r ?p ?q) => exact (perform_stateless (MCreateCluster n ns r p q))
      | |- stateless (importCluster ?a ?b ?c ?d) => exact (perform_stateless (MImportCluster a b c d))
      | |- stateless (createShard ?a ?b ?c ?d) => exact (perform_stateless (MCreateShard a b c d))
      | |- stateless (migrateSlot ?a ?b ?c ?d ?e) => exact (perform_stateless (MMigrateSlot a b c d e))
      | |- stateless (createNode ?a ?b ?c ?d ?e ?f) => exact (perform_stateless (MCreateNode a b c d e f))
      | |- stateless (conclude _ _ _) => unfold conclude
      | |- stateless (migration_error _) => unfold migration_error
      | |- stateless (try_catch _ _) => apply stateless_try; intros
      | |- stateless (_ ≫= _) => apply stateless_bind; intros
      | |- stateless (match ?x with _ => _ end) => destruct x
      end ].

#[export] Instance creation_forms_lawful : LawfulForm form.
Proof.
  intros [] d; simpl;
    unfold NamespaceCreation_handleSubmit, ClusterCreation_handleSubmit, ShardCreation_handleSubmit,
      ImportCluster_handleSubmit, MigrateSlot_handleSubmit, NodeCreation_handleSubmit; stateless_steps.
Qed.

(** ** What a submission does *)

(** Events that change nothing on the server and do not leave the page. *)
Definition quiet (e : event) : bool :=
  match e with
  | EvReq r _ => match r_method r with GET => true | _ => false end
  | EvOut (OConsole _) => true
  | _ => false
  end.

(** A submission the dialog reports as failed. *)
Definition failed (o : result value) : Prop :=
  match o with Ok v => truthy v = true | Err _ => True end.

Definition no_ws (s : string) : Prop := any_char is_ws s = false.

(** A non-empty list of strings without white space. *)
Definition clean_nodes (nodes : value) : Prop :=
  exists l, iterate nodes = Ok l /\ Forall (fun v => no_ws (to_string v)) l /\ prop nodes "length" <> vnum 0.

(** What the user has entered in a field of the form. *)
Definition entered (d : FormData) (field : string) : value :=
  match fd_get d field with VNull => VUndefined | v => v end.

(** The one mutation a form can send, field by field what was entered, with what its
    validation guarantees. *)
Definition form_sends (f : form) (d : FormData) (m : mutation) : Prop :=
  match f, m with
  | NamespaceCreation _, MCreateNamespace name => name = entered d "name" /\ no_ws (to_string name)
  | ClusterCreation _ ns _, MCreateCluster name nodes replicas password ns' =>
      ns' = ns /\ name = entered d "name" /\ JSON_parse (to_string (entered d "nodes")) = Ok nodes /\
      replicas = num_of_option (parseInt (to_string (entered d "replicas"))) /\ password = entered d "password" /\
      no_ws (to_string name) /\ clean_nodes nodes
  | ShardCreation _ ns c _, MCreateShard ns' c' nodes password =>
      ns' = ns /\ c' = c /\ JSON_parse (to_string (entered d "nodes")) = Ok nodes /\
      password = js_or (entered d "password") (VStr "") /\ clean_nodes nodes /\
      exists l, nodes = VArr (map VStr l) /\ Forall (fun n => n <> "") l
  | ImportCluster _ ns _, MImportCluster ns' cluster nodes password =>
      ns' = ns /\ cluster = entered d "cluster" /\ JSON_parse (to_string (entered d "nodes")) = Ok nodes /\
      password = entered d "password" /\ clean_nodes nodes
  | MigrateSlot _ ns c, MMigrateSlot ns' c' target slot slotOnly =>
      ns' = ns /\ c' = c /\ slotOnly = strict_eq (entered d "slot_only") (VStr "true") /\
      exists t x, target = num t /\ parseInt (to_string (entered d "target")) = Some t /\ 0 <= t /\
        slot = Z_to_string x /\ parseInt (to_string (entered d "slot")) = Some x /\ 0 <= x <= 16383
  | NodeCreation _ ns c sh _, MCreateNode ns' c' sh' addr role password =>
      ns' = ns /\ c' = c /\ sh' = sh /\ addr = entered d "Address" /\ role = entered d "Role" /\
      password = entered d "Password" /\ no_ws (to_string addr) /\ no_ws (to_string role)
  | _, _ => False
  end.

(** Where the user lands after a success. *)
Definition form_target (f : form) (m : mutation) : output :=
  match m with
  | MCreateNamespace name => OPush ("/namespaces/" +:+ to_string name)
  | MCreateCluster name _ _ _ ns => OPush ("/namespaces/" +:+ ns +:+ "/clusters/" +:+ to_string name)
  | MImportCluster ns c _ _ => OPush ("/namespaces/" +:+ ns +:+ "/clusters/" +:+ to_string c)
  | _ => OReload
  end.

Inductive form_outcome (f : form) (d : FormData) : result value -> list event -> Prop :=
| Refused o new :
    Forall (fun e => quiet e = true) new -> failed o -> form_outcome f d o new
| Sent pre m a post o :
    Forall (fun e => quiet e = true) pre -> Forall (fun e => quiet e = true) post ->
    form_sends f d m ->
    (if accepted POST a then o = Ok VUndefined else failed o) ->
    form_outcome f d o (pre ++ EvReq (mutation_request m) a :: post ++
                      (if accepted POST a then [EvOut (form_target f m)] else [])).

(** The postcondition of a submission that began with log [l]. *)
Definition form_post {S} (f : form) (d : FormData) (s : S) (l : list event) (o : result value) (s' : S) (l' : list event) : Prop :=
  s' = s /\ exists new, l' = l ++ new /\ form_outcome f d o new.

Lemma validateFormData_error d fs e : validateFormData d fs = Some e -> truthy (VStr e) = true.
Proof.
  induction fs as [|f fs IH]; simpl; [done|].
  destruct (fd_get d f); try apply IH. destruct (containsWhitespace _); [|apply IH].
  intros [= <-]. by destruct (capitalize f).
Qed.

Lemma fd_get_cases d k : fd_get d k = VNull \/ exists x, fd_get d k = VStr x.
Proof. induction d as [|[k1 v1] d IH]; simpl; [by left|]. destruct (String.eqb k k1); eauto. Qed.

Lemma fd_get_none d k : ~ In k (map fst d) -> fd_get d k = VNull.
Proof.
  induction d as [|[k' v] d IH]; simpl; [done|]. intros H.
  destruct (String.eqb_spec k k'); [subst; tauto|]. tauto.
Qed.

(** With distinct names, [get] and [fromEntries] read the same value. *)
Lemma fromEntries_get d k :
  NoDup (map fst d) ->
  prop (fromEntries d) k = match fd_get d k with VNull => VUndefined | v => v end.
Proof.
  induction d as [|[k' v] d IH] using rev_ind; [done|].
  rewrite map_app. cbn [map fst]. intros (Hd & Hn & _)%NoDup_app.
  rewrite fromEntries_snoc. specialize (IH Hd).
  assert (Hk' : ~ In k' (map fst d)).
  { intros Hin. apply (Hn k'); [by apply list_elem_of_In|]. by apply list_elem_of_singleton. }
  assert (Happ : forall k, fd_get (d ++ [(k', v)]) k =
            match fd_get d k with VNull => fd_get [(k', v)] k | x => x end).
  { clear. intros k. induction d as [|[k1 v1] d IH]; [done|]. simpl. by destruct (String.eqb k k1). }
  rewrite Happ. cbn [fd_get]. destruct (String.eqb_spec k k') as [->|Hne].
  - by rewrite (fd_get_none d k' Hk').
  - rewrite IH. by destruct (fd_get d k).
Qed.

Lemma validateFormData_ok d fs k :
  validateFormData d fs = None -> In k fs -> NoDup (map fst d) -> no_ws (to_string (prop (fromEntries d) k)).
Proof.
  intros Hv Hin Hd. rewrite fromEntries_get by done. revert Hv.
  induction fs as [|f fs IH]; simpl; [done|].
  destruct Hin as [->|Hin].
  - destruct (fd_get_cases d k) as [->|[x ->]]; [done|].
    destruct (containsWhitespace _) eqn:Ew; [done|]. by intros.
  - destruct (fd_get d f); try (by apply IH). destruct (containsWhitespace _); [done|]. by apply IH.
Qed.

Lemma form_refused {S} f d (s : S) l o : failed o -> form_post f d s l o s l.
Proof. intros Ho. split; [done|]. exists []. split; [by rewrite app_nil_r|]. by constructor. Qed.

Lemma form_refused_err {S A} f d (s : S) l (r : result A) (k : A -> prog S value) :
  (forall a, r = Ok a -> wp (k a) (form_post f d s l) s l) -> wp (lift r ≫= k) (form_post f d s l) s l.
Proof. intros H. apply wp_bind. destruct r as [a|e]; [by apply H|]. by apply form_refused. Qed.

(** The shared ending of five forms. *)
Lemma conclude_post {S} f d m (s : S) l pre mid a fb :
  Forall (fun e => quiet e = true) pre -> Forall (fun e => quiet e = true) mid -> form_sends f d m ->
  wp (conclude (create_result a) (form_target f m) fb) (form_post f d s l) s
    (l ++ pre ++ EvReq (mutation_request m) a :: mid).
Proof.
  intros Hpre Hmid Hm. unfold conclude. rewrite create_result_ok.
  pose proof (create_result_cases a) as Ha.
  destruct (accepted POST a) eqn:Ea; simpl; (split; [done|]);
    (eexists; split; [|apply (Sent f d pre m a mid); [done..|rewrite Ea]]).
  - rewrite <- !app_assoc. simpl. by rewrite Ea.
  - done.
  - by rewrite Ea, app_nil_r.
  - unfold failed, js_or. by rewrite Ha.
Qed.

Lemma conclude_post0 {S} f d m (s : S) l a fb :
  form_sends f d m ->
  wp (conclude (create_result a) (form_target f m) fb) (form_post f d s l) s
    (l ++ [EvReq (mutation_request m) a]).
Proof. apply (conclude_post f d m s l [] []); constructor. Qed.

Lemma conclude_ok {S} r nav fb (Q : result value -> S -> list event -> Prop) s l :
  wp (conclude r nav fb) Q s l -> wp (conclude r nav fb) (fun o s' l' => (exists v, o = Ok v) /\ Q o s' l') s l.
Proof. unfold conclude. destruct (strict_eq r _); simpl; eauto. Qed.

Lemma namespace_form {S} p d (s : S) l :
  NoDup (map fst d) -> wp (submit (NamespaceCreation p) d) (form_post (NamespaceCreation p) d s l) s l.
Proof.
  intros Hd. simpl. unfold NamespaceCreation_handleSubmit.
  destruct (validateFormData d ["name"]) as [e|] eqn:Ev.
  { apply form_refused. by eapply validateFormData_error. }
  apply wp_bind, create_call_wp. intros a.
  apply (conclude_post0 (NamespaceCreation p) d (MCreateNamespace _)).
  split; [by apply fromEntries_get|]. eapply validateFormData_ok; [done|by left|done].
Qed.

Lemma not_existsb {A} (f : A -> bool) l : existsb f l = false -> Forall (fun x => f x = false) l.
Proof. induction l as [|x l IH]; simpl; [done|]. intros [? ?]%orb_false_elim. auto. Qed.

(** The nodes that pass the checks of the cluster forms. *)
Lemma nodes_checked nodes len items :
  get nodes "length" = Ok len -> strict_eq len (vnum 0) = false -> iterate nodes = Ok items ->
  existsb containsWhitespace items = false -> clean_nodes nodes.
Proof.
  intros Hl Hz Hi He. exists items. split; [done|]. split; [by apply not_existsb in He|].
  intros Hp. assert (len = prop nodes "length") as -> by (destruct nodes; simpl in *; congruence).
  by rewrite Hp in Hz.
Qed.

Lemma cluster_form {S} p ns ch d (s : S) l :
  NoDup (map fst d) -> wp (submit (ClusterCreation p ns ch) d) (form_post (ClusterCreation p ns ch) d s l) s l.
Proof.
  intros Hd. simpl. unfold ClusterCreation_handleSubmit.
  destruct (validateFormData d _) as [e|] eqn:Ev; [apply form_refused; by eapply validateFormData_error|].
  apply form_refused_err. intros nodes Hnodes. rewrite fromEntries_get in Hnodes by done.
  apply form_refused_err. intros len Hlen.
  destruct (strict_eq len (vnum 0)) eqn:Ez; [by apply form_refused|].
  apply form_refused_err. intros items Hit.
  destruct (existsb containsWhitespace items) eqn:Ew; [by apply form_refused|].
  apply wp_bind, create_call_wp. intros a.
  apply (conclude_post0 (ClusterCreation p ns ch) d (MCreateCluster _ _ _ _ _)).
  rewrite !(fromEntries_get d) by done. split_and!; [done..| |by eapply nodes_checked].
  rewrite <- (fromEntries_get d) by done. eapply validateFormData_ok; [done|by left|done].
Qed.

Lemma check_nodes_ok nodes :
  check_nodes nodes = None ->
  exists l, nodes = map VStr l /\ Forall (fun n => n <> "") l /\ Forall (fun n => no_ws n) l.
Proof.
  induction nodes as [|v nodes IH]; simpl; [by exists []|].
  destruct v as [| | | |x| |]; simpl; try done; try (by destruct (negb _)).
  destruct (String.eqb_spec x "") as [|Hx]; [done|]. simpl.
  destruct (containsWhitespace (VStr x)) eqn:Ew; [done|].
  intros (l & -> & H1 & H2)%IH. exists (x :: l). auto.
Qed.

Lemma check_nodes_error nodes e : check_nodes nodes = Some e -> truthy (VStr e) = true.
Proof.
  induction nodes as [|v nodes IH]; simpl; [done|].
  destruct (_ || _); [by intros [= <-]|]. destruct (containsWhitespace v); [by intros [= <-]|auto].
Qed.

Lemma shard_form {S} p ns c ch d (s : S) l :
  NoDup (map fst d) -> wp (submit (ShardCreation p ns c ch) d) (form_post (ShardCreation p ns c ch) d s l) s l.
Proof.
  intros Hd. simpl. unfold ShardCreation_handleSubmit. apply wp_try.
  apply wp_mono with (Q := fun o s' l' => (exists v, o = Ok v) /\ form_post (ShardCreation p ns c ch) d s l o s' l').
  { intros o s' l' [[v ->] H]. exact H. }
  destruct (validateFormData d _) as [e|] eqn:Ev.
  { split; [by eexists|]. apply form_refused. by eapply validateFormData_error. }
  destruct (negb _); [split; [by eexists|]; by apply form_refused|].
  destruct (JSON_parse _) as [nodes|] eqn:Enodes; [|split; [by eexists|]; by apply form_refused].
  destruct (negb (is_array nodes) || _) eqn:Ea; [split; [by eexists|]; by apply form_refused|].
  destruct (check_nodes _) as [e|] eqn:Ec.
  { split; [by eexists|]. apply form_refused. by eapply check_nodes_error. }
  apply wp_bind, create_call_wp. intros a.
  apply check_nodes_ok in Ec as (ns' & Hns & Hne & Hws).
  destruct nodes as [| | | | |vs|]; try done. simpl in Hns. subst vs.
  assert (Hs : form_sends (ShardCreation p ns c ch) d
     (MCreateShard ns c (VArr (map VStr ns')) (js_or (prop (fromEntries d) "password") (VStr "")))).
  { rewrite fromEntries_get in Enodes by done. rewrite (fromEntries_get d) by done.
    split_and!; [done..| |eauto]. exists (map VStr ns'). split_and!; [done| |].
    - apply Forall_map. exact Hws.
    - apply orb_false_elim in Ea as [_ Ea]. intros E. by rewrite E in Ea. }
  apply conclude_ok. exact (conclude_post0 _ d _ s l a "Failed to create shard" Hs).
Qed.

Lemma import_form {S} p ns ch d (s : S) l :
  NoDup (map fst d) -> wp (submit (ImportCluster p ns ch) d) (form_post (ImportCluster p ns ch) d s l) s l.
Proof.
  intros Hd. simpl. unfold ImportCluster_handleSubmit.
  destruct (validateFormData d _) as [e|] eqn:Ev; [apply form_refused; by eapply validateFormData_error|].
  apply form_refused_err. intros nodes Hnodes. rewrite fromEntries_get in Hnodes by done.
  apply form_refused_err. intros len Hlen.
  destruct (strict_eq len (vnum 0)) eqn:Ez; [by apply form_refused|].
  apply form_refused_err. intros items Hit.
  destruct (existsb containsWhitespace items) eqn:Ew; [by apply form_refused|].
  set (m := MImportCluster ns (prop (fromEntries d) "cluster") nodes (prop (fromEntries d) "password")).
  assert (Hm : form_sends (ImportCluster p ns ch) d m) by (split_and!; [done|by apply fromEntries_get|done|by apply fromEntries_get|by eapply nodes_checked]).
  apply wp_bind. intros [r|e].
  - pose proof (conclude_post (ImportCluster p ns ch) d m s l [] [EvOut (OConsole "importCluster response")]
      (Resolved r) "Failed to import cluster" ltac:(constructor) ltac:(by repeat constructor) Hm) as H.
    simpl. rewrite <- app_assoc. exact H.
  - exact (conclude_post0 _ d _ s l (Rejected e) "Failed to import cluster" Hm).
Qed.

Lemma node_form {S} p ns c sh ch d (s : S) l :
  NoDup (map fst d) -> wp (submit (NodeCreation p ns c sh ch) d) (form_post (NodeCreation p ns c sh ch) d s l) s l.
Proof.
  intros Hd. simpl. unfold NodeCreation_handleSubmit.
  destruct (validateFormData d _) as [e|] eqn:Ev; [apply form_refused; by eapply validateFormData_error|].
  destruct (containsWhitespace _) eqn:Ew; [by apply form_refused|].
  apply wp_bind, create_call_wp. intros a.
  apply (conclude_post0 (NodeCreation p ns c sh ch) d (MCreateNode _ _ _ _ _ _)).
  split_and!; [done..|by apply fromEntries_get|by apply fromEntries_get|by apply fromEntries_get|done|].
  eapply validateFormData_ok; [done|by right; left|done].
Qed.

Lemma migration_error_post {S} f d m (s : S) l pre a :
  Forall (fun e => quiet e = true) pre -> form_sends f d m -> accepted POST a = false ->
  wp (migration_error (create_result a)) (form_post f d s l) s (l ++ pre ++ [EvReq (mutation_request m) a]).
Proof.
  intros Hpre Hm Ha.
  assert (Hf : forall o, failed o -> form_post f d s l o s (l ++ pre ++ [EvReq (mutation_request m) a])).
  { intros o Ho. split; [done|]. eexists. split; [done|].
    pose proof (Sent f d pre m a [] o Hpre ltac:(constructor) Hm) as H. rewrite Ha in H. by apply H. }
  unfold migration_error. apply wp_bind. destruct (js_includes _ _) as [[]|]; [by apply Hf| |by apply Hf].
  apply wp_bind. destruct (js_includes _ _) as [[]|]; [by apply Hf| |by apply Hf].
  apply wp_bind. destruct (js_includes _ _) as [[]|]; by apply Hf.
Qed.

Lemma check_migration_error t x shards e : check_migration t x shards = Ok (Some e) -> truthy (VStr e) = true.
Proof.
  unfold check_migration. destruct (_ || _); [by intros; simplify_eq|].
  destruct (_ <=? _); [by intros; simplify_eq|].
  destruct (sourceShardIndex _ _ _) as [i|]; simpl; [|done].
  destruct (i =? t); [by intros; simplify_eq|]. destruct (i =? -1); [by intros; simplify_eq|].
  destruct (get _ "migrating_slot"); simpl; [|done]. destruct (strict_eq _ _); [by intros; simplify_eq|].
  destruct (get _ "import_slot"); simpl; [|done]. destruct (strict_eq _ _); by intros; simplify_eq.
Qed.

Lemma migrate_tail {S} f d m (s : S) l pre ns c t x so :
  m = MMigrateSlot ns c t x so -> form_target f m = OReload ->
  Forall (fun e => quiet e = true) pre -> form_sends f d m ->
  wp (response ← migrateSlot ns c t x so;
      if strict_eq response (VStr "") then _ ← emit OReload; Ret VUndefined else migration_error response)
    (form_post f d s l) s (l ++ pre).
Proof.
  intros -> Hnav Hpre Hm. apply wp_bind, migrateSlot_wp. intros a. rewrite create_result_ok, <- app_assoc.
  destruct (accepted POST a) eqn:Ea; [|by apply migration_error_post].
  simpl. split; [done|]. eexists. split.
  2: { apply (Sent f d pre (MMigrateSlot ns c t x so) a []); [done|constructor|done|by rewrite Ea]. }
  rewrite Ea, Hnav. by rewrite <- !app_assoc.
Qed.

Lemma migrate_form {S} p ns c d (s : S) l :
  NoDup (map fst d) -> wp (submit (MigrateSlot p ns c) d) (form_post (MigrateSlot p ns c) d s l) s l.
Proof.
  intros Hd. simpl. unfold MigrateSlot_handleSubmit.
  destruct (validateFormData d _) as [e|] eqn:Ev; [apply form_refused; by eapply validateFormData_error|].
  destruct (parseInt _) as [t|] eqn:Et; [|by apply form_refused].
  destruct (Z.ltb_spec t 0); [by apply form_refused|].
  destruct (parseInt (to_string (prop _ "slot"))) as [x|] eqn:Exs; [|by apply form_refused].
  destruct ((x <? 0) || _) eqn:Ex; [by apply form_refused|].
  assert (Hm : form_sends (MigrateSlot p ns c) d
    (MMigrateSlot ns c (num t) (Z_to_string x) (strict_eq (prop (fromEntries d) "slot_only") (VStr "true"))))
    by (rewrite fromEntries_get in Et, Exs by done; split_and!; [done|done|by rewrite fromEntries_get by done|];
        exists t, x; split_and!; try done; lia).
  apply wp_bind, wp_try, wp_bind, listShards_wp. intros a.
  set (ev := EvReq _ a). assert (Hq : Forall (fun e => quiet e = true) [ev]) by (by constructor).
  destruct (check_migration t x _) as [[e|]|err] eqn:Ec.
  - simpl. split; [done|]. exists [ev]. split; [done|]. constructor; [done|].
    simpl. by eapply check_migration_error.
  - by eapply migrate_tail.
  - simpl lift. simpl wp. rewrite <- app_assoc. eapply migrate_tail; [done..| |done]. by repeat constructor.
Qed.

(** C8. Every creation form, for every form data with distinct names and every
    answer of the server: it either refuses, with an error shown and nothing sent
    but reads, or it sends exactly one mutation, the one of its kind, for the
    namespace, cluster and shard it was opened for and with the values entered in
    its fields (each value in its own place; nodes decoded, numbers read), names,
    roles and node addresses being free of white space, with at least one node, and
    a slot within 0 and 16383.  It navigates exactly when that mutation is accepted, and then reports
    success; otherwise it reports an error. *)
Theorem forms_contract S (f : form) d (s : S) l :
  NoDup (map fst d) ->
  wp (submit f d) (fun o s' l' => s' = s /\ exists new, l' = l ++ new /\ form_outcome f d o new) s l.
Proof.
  intros Hd. destruct f.
  - by apply namespace_form.
  - by apply cluster_form.
  - by apply shard_form.
  - by apply import_form.
  - by apply migrate_form.
  - by apply node_form.
Qed.

Lemma forms_contract_witness :
  NoDup (map fst [("name", "ns1")]) /\
  wp (submit (NamespaceCreation "card") [("name", "ns1")])
    (fun o s' l' => s' = tt /\ exists new, l' = [] ++ new /\ form_outcome (NamespaceCreation "card") [("name", "ns1")] o new) tt [].
Proof.
  split; [repeat constructor; set_solver|].
  apply (forms_contract unit (NamespaceCreation "card") [("name", "ns1")] tt []).
  repeat constructor; set_solver.
Defined.

(** ** Migration checks against the server *)

Lemma range_has_slot_json x r :
  wf_range r -> range_has_slot x (VStr (range_string r)) = Ok (Contains r x).
Proof.
  unfold wf_range, MinSlotID. intros [[H0 H1] _].
  unfold range_has_slot, range_string, Contains. destruct (Z.eqb_spec (Start r) (Stop r)) as [E|Hne].
  - simpl. rewrite includes_char, Z_to_string_no_dash by lia. simpl.
    rewrite Number_nonneg, !num_le_Z by lia. by rewrite E.
  - cbn [js_includes]. rewrite includes_char, any_char_append.
    change (Z_to_string (Start r) +:+ "-" +:+ ?t) with (Z_to_string (Start r) +:+ String "-" t).
    cbn [any_char String.append]. rewrite Ascii.eqb_refl, orb_true_r. cbn [mbind result_bind js_split].
    rewrite split_app by (apply Z_to_string_no_dash; lia).
    rewrite split_none by (apply Z_to_string_no_dash; lia). cbn [nth].
    by rewrite !Number_nonneg, !num_le_Z by lia.
Qed.

Lemma ranges_have_slot_json x rs :
  wf_ranges rs -> ranges_have_slot x (map (fun r => VStr (range_string r)) rs) = Ok (ranges_contain rs x).
Proof.
  induction 1 as [|r rs Hr _ IH]; [done|]. cbn [map ranges_have_slot].
  rewrite range_has_slot_json by done. cbn [mbind result_bind]. unfold ranges_contain in *. simpl.
  by destruct (Contains r x).
Qed.

Definition wf_shards (shards : list Shard) : Prop := Forall (fun s => wf_ranges (SlotRanges s)) shards.

(** The index of the first shard with the slot, or -1. *)
Fixpoint first_owner (x : Z) (i : Z) (shards : list Shard) : Z :=
  match shards with
  | [] => -1
  | s :: shards' => if ranges_contain (SlotRanges s) x then i else first_owner x (i + 1) shards'
  end.

Lemma sourceShardIndex_json x i shards :
  wf_shards shards -> sourceShardIndex x i (map shard_json shards) = Ok (first_owner x i shards).
Proof.
  intros H. revert i. induction H as [|s shards Hs _ IH]; intros i; [done|].
  cbn [map sourceShardIndex first_owner]. unfold shard_has_slot. simpl get. cbn [mbind result_bind].
  simpl truthy. simpl is_array. cbn [andb elements]. rewrite ranges_have_slot_json by done. cbn [mbind result_bind].
  destruct (ranges_contain _ x); [done|apply IH].
Qed.

Lemma first_owner_spec x i shards :
  0 <= i ->
  (first_owner x i shards = -1 /\ forall j, ~ owns shards j x) \/
  (exists k, first_owner x i shards = i + Z.of_nat k /\ owns shards k x).
Proof.
  revert i. induction shards as [|s shards IH]; intros i Hi; simpl.
  { left. split; [done|]. by intros j (? & ? & _). }
  destruct (ranges_contain (SlotRanges s) x) eqn:E.
  - right. exists 0%nat. split; [lia|]. exists s. split; [done|]. by apply ranges_contain_spec.
  - destruct (IH (i + 1) ltac:(lia)) as [[-> Hn]|(k & -> & Hk)].
    + left. split; [done|]. intros [|j] (s' & Hs' & Hx); simpl in *; simplify_eq.
      * apply ranges_contain_spec in Hx. congruence.
      * apply (Hn j). by exists s'.
    + right. exists (S k). split; [lia|]. destruct Hk as (s' & Hs' & Hx). by exists s'.
Qed.

Lemma Contains_overlap r x : HasOverlap r (MkRange x x) = Contains r x.
Proof. unfold HasOverlap, Contains. simpl. lia. Qed.

Lemma normal_after r rs x :
  normal (r :: rs) -> Forall ordered rs -> x <= Stop r -> ranges_contain rs x = false.
Proof.
  revert r. induction rs as [|r' rs IH]; intros r Hn Ho Hx; [done|].
  destruct Hn as [Hgap Hn]. inversion Ho as [|? ? Hr' Hos]; subst. unfold ordered in Hr'.
  unfold ranges_contain in *. simpl. rewrite (IH r'), orb_false_r by (done || lia).
  unfold Contains. lia.
Qed.

Lemma find_in_ranges_none x i rs found :
  ranges_contain rs x = false -> find_in_ranges (MkRange x x) i rs found = inr found.
Proof.
  induction rs as [|r rs IH]; [done|]. unfold ranges_contain in *. simpl. rewrite Contains_overlap.
  intros [-> H]%orb_false_elim. auto.
Qed.

Lemma find_in_ranges_single x i rs :
  normal rs -> Forall ordered rs ->
  find_in_ranges (MkRange x x) i rs (-1) = inr (if ranges_contain rs x then i else -1).
Proof.
  induction rs as [|r rs IH]; intros Hn Ho; [done|]. simpl. rewrite Contains_overlap.
  inversion Ho; subst. unfold ranges_contain. simpl. destruct (Contains r x) eqn:E; simpl.
  - apply find_in_ranges_none. eapply normal_after; [done..|]. unfold Contains in E. lia.
  - apply IH; [apply Hn|done].
Qed.

Lemma find_in_shards_none x i shards found :
  (forall j, ~ owns shards j x) -> find_in_shards (MkRange x x) i shards found = inr found.
Proof.
  revert i. induction shards as [|s shards IH]; intros i Hn; [done|]. simpl.
  rewrite find_in_ranges_none.
  - apply IH. intros j (s' & Hs' & Hx). apply (Hn (S j)). by exists s'.
  - destruct (ranges_contain _ x) eqn:E; [|done]. exfalso. apply (Hn 0%nat). exists s.
    split; [done|]. by apply ranges_contain_spec.
Qed.

(** A cluster as the server keeps it: well-formed ranges in normal form, and
    no slot with two owners. *)
Definition wf_cluster (shards : list Shard) : Prop :=
  wf_shards shards /\ Forall (fun s => normal (SlotRanges s)) shards /\ exclusive shards.

Lemma wf_ordered rs : wf_ranges rs -> Forall ordered rs.
Proof. intros H. eapply Forall_impl; [exact H|]. intros r [Hr _]. unfold ordered. lia. Qed.

Lemma exclusive_tail s shards : exclusive (s :: shards) -> exclusive shards.
Proof.
  intros H x i j (si & Hi & Hxi) (sj & Hj & Hxj).
  assert (S i = S j); [|congruence]. apply (H x); [by exists si|by exists sj].
Qed.

Lemma find_in_shards_single x i shards :
  wf_cluster shards -> find_in_shards (MkRange x x) i shards (-1) = inr (first_owner x i shards).
Proof.
  intros (Hw & Hn & He). revert i He. induction Hw as [|s shards Hs Hw IH]; intros i He; [done|].
  inversion Hn; subst. simpl. rewrite find_in_ranges_single by (done || by apply wf_ordered).
  destruct (ranges_contain (SlotRanges s) x) eqn:E; [|apply IH; [done|by eapply exclusive_tail]].
  apply find_in_shards_none. intros j (s' & Hs' & Hx).
  assert (0%nat = S j); [|done]. apply (He x); [|by exists s'].
  exists s. split; [done|]. by apply ranges_contain_spec.
Qed.

Lemma prop_missing_import s : prop (shard_json s) "import_slot" = VUndefined.
Proof. done. Qed.

(** What is left of the checks on a listing sent by the server. *)
Lemma check_migration_json t x shards :
  0 <= t -> wf_shards shards ->
  check_migration t x (VArr (map shard_json shards)) = Ok None <->
  t < Z.of_nat (length shards) /\ first_owner x 0 shards <> -1 /\ first_owner x 0 shards <> t.
Proof.
  intros Ht Hw. unfold check_migration. cbn [truthy is_array negb orb elements].
  rewrite length_map. destruct (Z.leb_spec (Z.of_nat (length shards)) t); [split; [done|lia]|].
  rewrite sourceShardIndex_json by done. cbn [mbind result_bind].
  destruct (Z.eqb_spec (first_owner x 0 shards) t) as [|Hne]; [split; [done|lia]|].
  destruct (Z.eqb_spec (first_owner x 0 shards) (-1)) as [|Hne1]; [split; [done|lia]|].
  destruct (first_owner_spec x 0 shards ltac:(lia)) as [[? _]|(k & Hk & (s & Hs & _))]; [done|].
  rewrite Hk. replace (Z.to_nat (0 + Z.of_nat k)) with k by lia.
  assert (Hnth : forall j s', shards !! j = Some s' -> nth j (map shard_json shards) VUndefined = shard_json s').
  { intros j s' Hj. apply nth_lookup_Some. by rewrite list_lookup_fmap, Hj. }
  rewrite (Hnth _ _ Hs). destruct (lookup_lt_is_Some_2 shards (Z.to_nat t) ltac:(lia)) as [st Hst].
  rewrite (Hnth _ _ Hst). simpl get. cbn [mbind result_bind].
  replace (strict_eq (migrating_json (Migrating s)) (vnum x)) with false
    by (destruct (Migrating s) as [[r []]|]; done).
  split; [intros _|done]. split_and!; lia.
Qed.

(** C9. The checks of the migration form agree with the server: on the listing
    of any well-formed cluster, they let a slot and a target pass exactly when
    the server's own MigrateSlot accepts the slot-only migration of that slot. *)
Theorem check_migration_refines_server accept t x shards :
  0 <= t -> 0 <= x <= 16383 -> wf_cluster shards ->
  check_migration t x (VArr (map shard_json shards)) = Ok None <->
  exists shards', GoShard.MigrateSlot accept shards (MkRange x x) t true = inr shards'.
Proof.
  intros Ht Hx Hw. rewrite check_migration_json by (done || apply Hw).
  unfold GoShard.MigrateSlot, findShardIndexBySlot. rewrite find_in_shards_single by done.
  destruct (Z.ltb_spec t 0); [lia|]. simpl orb.
  destruct (Z.leb_spec (Z.of_nat (length shards)) t); [split; [lia|naive_solver]|].
  destruct (Z.eqb_spec (first_owner x 0 shards) (-1)); [split; [lia|naive_solver]|].
  destruct (Z.eqb_spec (first_owner x 0 shards) t); [split; [lia|naive_solver]|].
  split; [eauto|]. intros _. lia.
Qed.

Lemma demo_wf_cluster : wf_cluster demo_shards.
Proof.
  split_and!; [|by repeat constructor|apply demo_exclusive].
  repeat constructor; unfold wf_range, MinSlotID, MaxSlotID; simpl; lia.
Qed.

Lemma check_migration_refines_server_witness :
  exists shards', GoShard.MigrateSlot false demo_shards (MkRange 5 5) 1 true = inr shards'.
Proof.
  apply (check_migration_refines_server false 1 5 demo_shards); [lia|lia|apply demo_wf_cluster|].
  vm_compute. reflexivity.
Defined.

(** The form's check for a slot that is already migrating never fires: the
    server prints the migrating slot as a string and the form compares it with a
    number, so the migration of the very slot that the shard is migrating passes
    all checks and is sent. *)
Theorem already_migrating_not_detected x t k s shards :
  0 <= t < Z.of_nat (length shards) -> 0 <= x <= 16383 -> wf_cluster shards -> t <> Z.of_nat k ->
  shards !! k = Some s -> in_ranges (SlotRanges s) x ->
  Migrating s = Some (FromSlotRange (MkRange x x)) ->
  check_migration t x (VArr (map shard_json shards)) = Ok None.
Proof.
  intros Ht Hx Hw Hne Hs Hin _. apply check_migration_json; [lia|apply Hw|].
  destruct (first_owner_spec x 0 shards ltac:(lia)) as [[_ Hno]|(j & -> & Hj)].
  - destruct (Hno k). by exists s.
  - assert (j = k) as -> by (apply (proj2 (proj2 Hw) x); [done|by exists s]). split_and!; lia.
Qed.

Definition migrating_shards : list Shard :=
  [GoShard.MkShard [] [MkRange 0 8191] 1 (Some (FromSlotRange (MkRange 5 5)));
   set_ranges [MkRange 8192 16383] NewShard].

Lemma already_migrating_not_detected_witness :
  shardIsMigrating (nth 0 migrating_shards NewShard) = true /\
  check_migration 1 5 (VArr (map shard_json migrating_shards)) = Ok None.
Proof.
  split; [reflexivity|].
  eapply (already_migrating_not_detected 5 1 0 _ migrating_shards); [simpl; lia|lia| |lia|reflexivity| |reflexivity].
  - destruct demo_wf_cluster as (H1 & H2 & H3). split_and!.
    + repeat constructor; unfold wf_range, MinSlotID, MaxSlotID; simpl; lia.
    + by repeat constructor.
    + intros y i j Hi Hj. apply (H3 y); [destruct Hi as (s & Hs & Hr)|destruct Hj as (s & Hs & Hr)].
      * destruct i as [|[|i]]; simplify_eq/=; eexists; (split; [reflexivity|exact Hr]).
      * destruct j as [|[|j]]; simplify_eq/=; eexists; (split; [reflexivity|exact Hr]).
  - exists (MkRange 0 8191). split; [by left|]. unfold in_range. simpl. lia.
Defined.

(** A run of the form dialog with a form: type, submit, answer pending. *)
Definition demo_form : form := NamespaceCreation "card".
Definition demo_event (e : Event) (c : config State) : config State :=
  spawn (fun _ => true) (FormDialog.update demo_form (c_state c) e) c.
Definition demo_run : config State :=
  demo_event (Submit [("name", "ns1")]) (demo_event OpenDialog (Config init [])).

Lemma form_single_flight_witness :
  length (in_flight demo_run) = 1%nat /\ submitting (c_state demo_run) = true.
Proof.
  split; [|reflexivity]. apply (form_single_flight (P := form) demo_run).
  set (i := Input "" [("name", "ns1")] []).
  apply (reach_step dialog (demo_event OpenDialog (Config init []))).
  - apply (reach_step dialog (Config init [])); [constructor|].
    apply (ui_event dialog (fun _ => true) i demo_form OpenDialog). vm_compute. tauto.
  - apply (ui_event dialog (fun _ => true) i demo_form (Submit [("name", "ns1")])). vm_compute. tauto.
Defined.
