(* ===== verification/NamespacesPage.v ===== *)
(** * The namespaces page (webui/src/app/namespaces/page.tsx)

    The list of all namespaces with their totals, a search box, a filter, a
    sort order and deletion. *)

From S2P Require Import Prelude JsString JsNumber JsValue Effects View Api Collate.

Record ResourceCounts := MkCounts { namespaces : Z; clusters : Z; shards : Z; nodes : Z }.

Record NamespaceData := MkNs { name : string; clusterCount : Z; shardCount : Z; nodeCount : Z }.

(** The filter and sort options are the strings of their union types. *)
Record State := MkState {
  namespacesData : list NamespaceData;
  resourceCounts : ResourceCounts;
  loading : bool;
  deletingNamespace : option string;
  searchTerm : string;
  filterOpen : bool;
  sortOpen : bool;
  filterOption : string;
  sortOption : string }.

Definition init : State := MkState [] (MkCounts 0 0 0 0) true None "" false false "all" "name-asc".

Definition setNamespacesData (d : list NamespaceData) (s : State) : State :=
  MkState d (resourceCounts s) (loading s) (deletingNamespace s) (searchTerm s) (filterOpen s) (sortOpen s)
    (filterOption s) (sortOption s).
Definition setResourceCounts (f : ResourceCounts -> ResourceCounts) (s : State) : State :=
  MkState (namespacesData s) (f (resourceCounts s)) (loading s) (deletingNamespace s) (searchTerm s)
    (filterOpen s) (sortOpen s) (filterOption s) (sortOption s).
Definition setLoading (b : bool) (s : State) : State :=
  MkState (namespacesData s) (resourceCounts s) b (deletingNamespace s) (searchTerm s) (filterOpen s)
    (sortOpen s) (filterOption s) (sortOption s).
Definition setDeletingNamespace (n : option string) (s : State) : State :=
  MkState (namespacesData s) (resourceCounts s) (loading s) n (searchTerm s) (filterOpen s) (sortOpen s)
    (filterOption s) (sortOption s).
Definition setSearchTerm (t : string) (s : State) : State :=
  MkState (namespacesData s) (resourceCounts s) (loading s) (deletingNamespace s) t (filterOpen s)
    (sortOpen s) (filterOption s) (sortOption s).
Definition setFilterAnchorEl (b : bool) (s : State) : State :=
  MkState (namespacesData s) (resourceCounts s) (loading s) (deletingNamespace s) (searchTerm s) b
    (sortOpen s) (filterOption s) (sortOption s).
Definition setSortAnchorEl (b : bool) (s : State) : State :=
  MkState (namespacesData s) (resourceCounts s) (loading s) (deletingNamespace s) (searchTerm s)
    (filterOpen s) b (filterOption s) (sortOption s).
Definition setFilterOption (o : string) (s : State) : State :=
  MkState (namespacesData s) (resourceCounts s) (loading s) (deletingNamespace s) (searchTerm s)
    (filterOpen s) (sortOpen s) o (sortOption s).
Definition setSortOption (o : string) (s : State) : State :=
  MkState (namespacesData s) (resourceCounts s) (loading s) (deletingNamespace s) (searchTerm s)
    (filterOpen s) (sortOpen s) (filterOption s) o.

(** ** Loading the data *)

(** The local variables of the loops: the counts of the namespace and the totals. *)
Record Acc := MkAcc { nsShards : Z; nsNodes : Z; totalShards : Z; totalNodes : Z }.

(** [listNodes] of shard [i]; the counts grow when the answer is an array. *)
Definition countNodes (namespace cluster : string) (a : Acc) (i : nat) : prog State Acc :=
  nodes ← listNodes namespace cluster (nat_to_string i);
  match nodes with
  | VArr l => let n := Z.of_nat (length l) in
              Ret (MkAcc (nsShards a) (nsNodes a + n) (totalShards a) (totalNodes a + n))
  | _ => Ret a
  end.

Definition countShards (namespace : string) (a : Acc) (cluster : value) : prog State Acc :=
  shards ← listShards namespace (to_string cluster);
  match shards with
  | VArr l =>
      let n := Z.of_nat (length l) in
      for_of (seq 0 (length l)) (MkAcc (nsShards a + n) (nsNodes a) (totalShards a + n) (totalNodes a))
        (countNodes namespace (to_string cluster))
  | _ => Ret a
  end.

(** The body of the loop over the namespaces: the totals and the rows so far. *)
Definition countClusters (acc : Z * Z * Z * list NamespaceData) (namespace : value) :
    prog State (Z * Z * Z * list NamespaceData) :=
  let '(tc, ts, tn, rows) := acc in
  let ns := to_string namespace in
  clusters ← fetchClusters ns;
  items ← lift (iterate clusters);
  a ← for_of items (MkAcc 0 0 ts tn) (countShards ns);
  let n := Z.of_nat (length items) in
  Ret (tc + n, totalShards a, totalNodes a, rows ++ [MkNs ns n (nsShards a) (nsNodes a)]).

Definition fetchData : prog State unit :=
  finally_
    (try_catch
       (fetchedNamespaces ← fetchNamespaces;
        items ← lift (iterate fetchedNamespaces);
        '(tc, ts, tn, rows) ← for_of items (0, 0, 0, []) countClusters;
        _ ← set_state (setNamespacesData rows);
        set_state (setResourceCounts (fun _ => MkCounts (Z.of_nat (length items)) tc ts tn)))
       (fun error => emit (OConsole "Error fetching namespaces data:")))
    (set_state (setLoading false)).

(** ** Deletion *)

Definition handleDeleteNamespace (s : State) (namespace : string) : prog State unit :=
  ok ← confirm ("Are you sure you want to delete namespace " +:+ dq +:+ namespace +:+ dq +:+ "?");
  if (ok : bool) then
    finally_
      (try_catch
         (_ ← set_state (setDeletingNamespace (Some namespace));
          _ ← deleteNamespace namespace;
          _ ← set_state (setNamespacesData
                (List.filter (fun ns => negb (String.eqb (name ns) namespace)) (namespacesData s)));
          set_state (setResourceCounts (fun prev =>
            MkCounts (namespaces prev - 1) (clusters prev) (shards prev) (nodes prev))))
         (fun error =>
            _ ← emit (OConsole ("Error deleting namespace " +:+ namespace +:+ ":"));
            emit (OAlert ("Failed to delete namespace: " +:+ exn_to_string error))))
      (set_state (setDeletingNamespace None))
  else Ret tt.

(** ** Filter and sort *)

Definition filterNamespace (searchTerm filterOption : string) (ns : NamespaceData) : bool :=
  if negb (includes (toLowerCase (name ns)) (toLowerCase searchTerm)) then false
  else if String.eqb filterOption "with-clusters" then 0 <? clusterCount ns
  else if String.eqb filterOption "no-clusters" then clusterCount ns =? 0
  else true.

Definition compareNamespaces `{Collation} (sortOption : string) : NamespaceData -> NamespaceData -> Z :=
  if String.eqb sortOption "name-asc" then fun a b => localeCompare (name a) (name b)
  else if String.eqb sortOption "name-desc" then fun a b => localeCompare (name b) (name a)
  else if String.eqb sortOption "clusters-desc" then fun a b => clusterCount b - clusterCount a
  else if String.eqb sortOption "clusters-asc" then fun a b => clusterCount a - clusterCount b
  else if String.eqb sortOption "nodes-desc" then fun a b => nodeCount b - nodeCount a
  else if String.eqb sortOption "nodes-asc" then fun a b => nodeCount a - nodeCount b
  else fun _ _ => 0.

Definition filteredAndSortedNamespaces `{Collation} (s : State) : list NamespaceData :=
  sort_by (compareNamespaces (sortOption s))
    (List.filter (filterNamespace (searchTerm s) (filterOption s)) (namespacesData s)).

(** ** Events *)

Inductive Event :=
| Mount
| DeleteNamespace (namespace : string)
| TypeSearch (t : string)
| ClearSearch
| OpenFilter
| CloseFilter
| OpenSort
| CloseSort
| PickFilter (o : string)
| PickSort (o : string)
| EmptyAction.

(** The action of the empty state clicks the element create-namespace-btn,
    which the form does not render: NamespaceCreation drops its children. *)
Definition update (p : unit) (s : State) (e : Event) : prog State unit :=
  match e with
  | Mount => fetchData
  | DeleteNamespace n => handleDeleteNamespace s n
  | TypeSearch t => set_state (setSearchTerm t)
  | ClearSearch => set_state (setSearchTerm "")
  | OpenFilter => set_state (setFilterAnchorEl true)
  | CloseFilter => set_state (setFilterAnchorEl false)
  | OpenSort => set_state (setSortAnchorEl true)
  | CloseSort => set_state (setSortAnchorEl false)
  | PickFilter o => set_state (setFilterOption o)
  | PickSort o => set_state (setSortOption o)
  | EmptyAction => Ret tt
  end.

(** ** View *)

Definition headerView (s : State) : node Event :=
  El "div" []
    [El "div" [] [El "Typography" [] [Text "Namespaces"];
                  El "Typography" [] [Text "Manage your Kvrocks database namespaces"]];
     El "div" []
       [El "div" []
          ([El "SearchIcon" [] [];
            El "input" [Attr "type" "text"; Attr "placeholder" "Search namespaces..."; Value (searchTerm s);
                        OnInput TypeSearch] []] ++
           when (negb (String.eqb (searchTerm s) "")) [El "button" [OnClick ClearSearch] [Text "x"]]);
        El "div" [] [El "NamespaceCreation" [Attr "position" "page"]
                       [El "Button" [] [El "AddIcon" [] []; Text "Create Namespace"]]]]].

Definition namespacesCard (s : State) : node Event :=
  statCard "FolderIcon" "Namespaces" (Z_to_string (namespaces (resourceCounts s))).
Definition clustersCard (s : State) : node Event :=
  statCard "StorageIcon" "Clusters" (Z_to_string (clusters (resourceCounts s))).
Definition shardsCard (s : State) : node Event :=
  statCard "DnsIcon" "Shards" (Z_to_string (shards (resourceCounts s))).
Definition nodesCard (s : State) : node Event :=
  statCard "DeviceHubIcon" "Nodes" (Z_to_string (nodes (resourceCounts s))).

Definition toolbarView (s : State) : node Event :=
  El "div" []
    [El "Typography" [] [Text "All Namespaces"];
     El "Tooltip" [Attr "title" "Filter"] [El "IconButton" [OnClick OpenFilter] [El "FilterListIcon" [] []]];
     El "Tooltip" [Attr "title" "Sort"] [El "IconButton" [OnClick OpenSort] [El "SortIcon" [] []]]].

Definition allChip (s : State) : Z := Z.of_nat (length (namespacesData s)).
Definition withClustersChip (s : State) : Z := countb (fun ns => 0 <? clusterCount ns) (namespacesData s).
Definition noClustersChip (s : State) : Z := countb (fun ns => clusterCount ns =? 0) (namespacesData s).

Definition filterCloseButton : node Event := El "Button" [OnClick CloseFilter] [Text "Close"].

Definition filterPopover (s : State) : node Event :=
  El "Popover" [Open (filterOpen s); OnClose CloseFilter]
    [El "Typography" [] [Text "Filter Namespaces"];
     El "RadioGroup" [Value (filterOption s); OnPick PickFilter]
       [radioView "all" None "All namespaces" (Some (allChip s));
        radioView "with-clusters" None "With clusters" (Some (withClustersChip s));
        radioView "no-clusters" None "No clusters" (Some (noClustersChip s))];
     filterCloseButton].

Definition nameSortView : list (node Event) :=
  [El "div" [] [Text "Name"];
   radioView "name-asc" (Some "ArrowUpwardIcon") "A to Z" None;
   radioView "name-desc" (Some "ArrowDownwardIcon") "Z to A" None].
Definition clusterSortView : list (node Event) :=
  [El "div" [] [Text "Clusters"];
   radioView "clusters-desc" (Some "ArrowDownwardIcon") "Most clusters" None;
   radioView "clusters-asc" (Some "ArrowUpwardIcon") "Fewest clusters" None].
Definition nodeSortView : list (node Event) :=
  [El "div" [] [Text "Nodes"];
   radioView "nodes-desc" (Some "ArrowDownwardIcon") "Most nodes" None;
   radioView "nodes-asc" (Some "ArrowUpwardIcon") "Fewest nodes" None].

Definition sortCloseButton : node Event := El "Button" [OnClick CloseSort] [Text "Close"].

Definition sortPopover (s : State) : node Event :=
  El "Popover" [Open (sortOpen s); OnClose CloseSort]
    [El "Typography" [] [Text "Sort By"];
     El "RadioGroup" [Value (sortOption s); OnPick PickSort]
       (nameSortView ++ clusterSortView ++ nodeSortView);
     sortCloseButton].

Definition isDeleting (s : State) (n : string) : bool :=
  match deletingNamespace s with Some d => String.eqb d n | None => false end.

Definition rowView (s : State) (ns : NamespaceData) : node Event :=
  El "Paper" [Attr "key" (name ns)]
    [El "FolderIcon" [] [];
     El "Link" [Href ("/namespaces/" +:+ name ns)]
       [El "Typography" [] [Text (name ns)];
        El "Typography" [] [El "AccessTimeIcon" [] []; Text "Created recently"]];
     El "div" []
       [El "Chip" [Attr "label" (Z_to_string (clusterCount ns) +:+ " clusters")] [];
        El "Chip" [Attr "label" (Z_to_string (shardCount ns) +:+ " shards")] [];
        El "Chip" [Attr "label" (Z_to_string (nodeCount ns) +:+ " nodes")] []];
     El "div" []
       [El "div" [] [El "Typography" [] [Text "Clusters"]; El "Typography" [] [Text (Z_to_string (clusterCount ns))]];
        El "div" [] [El "Typography" [] [Text "Shards"]; El "Typography" [] [Text (Z_to_string (shardCount ns))]];
        El "div" [] [El "Typography" [] [Text "Nodes"]; El "Typography" [] [Text (Z_to_string (nodeCount ns))]]];
     El "div" []
       [El "button" [OnClick (DeleteNamespace (name ns)); Disabled (isDeleting s (name ns))]
          [El "DeleteIcon" [] []];
        El "Link" [Href ("/namespaces/" +:+ name ns)] [El "ChevronRightIcon" [] []]]].

Definition emptyView (s : State) : node Event :=
  El "div" []
    [El "EmptyState" []
       [Text (if negb (String.eqb (filterOption s) "all") then "No matching namespaces" else "No namespaces found");
        Text (if negb (String.eqb (filterOption s) "all") then "Try changing your filter settings"
              else if negb (String.eqb (searchTerm s) "") then "Try adjusting your search term"
              else "Create a namespace to get started");
        El "FolderOpenIcon" [] [];
        El "Button" [OnClick EmptyAction] [Text "Create Namespace"]];
     El "NamespaceCreation" [Attr "position" "page"] [El "Button" [Attr "id" "create-namespace-btn"] [Text "Create"]]].

Definition listView `{Collation} (s : State) : node Event :=
  match filteredAndSortedNamespaces s with
  | [] => emptyView s
  | rows => El "div" [] (map (rowView s) rows)
  end.

Definition footerText `{Collation} (s : State) : string :=
  "Showing " +:+ nat_to_string (length (filteredAndSortedNamespaces s)) +:+ " of "
  +:+ nat_to_string (length (namespacesData s)) +:+ " namespaces"
  +:+ (if negb (String.eqb (filterOption s) "all") then " (filtered)" else "").

Definition footerView `{Collation} (s : State) : list (node Event) :=
  when (0 <? length (filteredAndSortedNamespaces s))%nat
    [El "div" [] [El "Typography" [] [Text (footerText s)]]].

Definition view `{Collation} (p : unit) (s : State) : list (node Event) :=
  if loading s then [El "LoadingSpinner" [] []]
  else
    [El "div" [] [El "NamespaceSidebar" [] []];
     El "Box" []
       [headerView s;
        El "div" [] [El "Grid" [] [namespacesCard s; clustersCard s; shardsCard s; nodesCard s]];
        El "Paper" [] ([toolbarView s; filterPopover s; sortPopover s; listView s] ++ footerView s)]].

(** ** Loading: totals and rows agree *)

Definition consistent (s : State) : Prop :=
  namespaces (resourceCounts s) = Z.of_nat (length (namespacesData s)) /\
  clusters (resourceCounts s) = sumZ (map clusterCount (namespacesData s)) /\
  shards (resourceCounts s) = sumZ (map shardCount (namespacesData s)) /\
  nodes (resourceCounts s) = sumZ (map nodeCount (namespacesData s)).

(** What the loops add to both the row and the totals, above [ts] and [tn]. *)
Definition acc_ok (ts tn : Z) (a : Acc) : Prop :=
  totalShards a = ts + nsShards a /\ totalNodes a = tn + nsNodes a /\ 0 <= nsShards a /\ 0 <= nsNodes a.

Definition rows_ok (acc : Z * Z * Z * list NamespaceData) : Prop :=
  let '(tc, ts, tn, rows) := acc in
  tc = sumZ (map clusterCount rows) /\ ts = sumZ (map shardCount rows) /\ tn = sumZ (map nodeCount rows) /\
  Forall (fun r => 0 <= clusterCount r /\ 0 <= shardCount r /\ 0 <= nodeCount r) rows.

Lemma countNodes_ok ns c ts tn a i : acc_ok ts tn a -> returns (acc_ok ts tn) (countNodes ns c a i).
Proof.
  unfold acc_ok. intros H. eapply returns_bind; [apply listNodes_returns|]. intros v _.
  destruct v; try done. cbv [returns]. simpl. lia.
Qed.

Lemma countShards_ok ns ts tn a c : acc_ok ts tn a -> returns (acc_ok ts tn) (countShards ns a c).
Proof.
  intros H. eapply returns_bind; [apply listShards_returns|]. intros v _. destruct v; try done.
  apply returns_for_of; [|intros; by apply countNodes_ok]. unfold acc_ok in *. simpl. lia.
Qed.

(** The accumulator of the outer loop after [n] namespaces. *)
Definition rows_shape (n : nat) (acc : Z * Z * Z * list NamespaceData) : Prop :=
  length (snd acc) = n /\ rows_ok acc.

Lemma countClusters_ok n acc ns : rows_shape n acc -> returns (rows_shape (S n)) (countClusters acc ns).
Proof.
  destruct acc as [[[tc ts] tn] rows]. intros (<- & -> & -> & -> & Hf). unfold countClusters.
  eapply returns_bind; [apply fetchClusters_returns|]. intros v _.
  eapply returns_bind with (I := fun _ => True); [by apply returns_lift|]. intros items _.
  eapply returns_bind with (I := acc_ok (sumZ (map shardCount rows)) (sumZ (map nodeCount rows))).
  - apply returns_for_of; [|intros; by apply countShards_ok]. unfold acc_ok. simpl. lia.
  - intros a (-> & -> & ? & ?). cbv [returns]. split; [simpl; rewrite length_app; simpl; lia|].
    unfold rows_ok. rewrite !map_app, !sumZ_app. simpl. split_and!; [lia..|].
    apply Forall_app. split; [done|]. constructor; [|done]. simpl. lia.
Qed.

Lemma rows_loop (items : list value) n acc :
  rows_shape n acc -> returns (rows_shape (n + length items)) (for_of items acc countClusters).
Proof.
  revert n acc. induction items as [|v items IH]; intros n acc H; simpl.
  { by rewrite Nat.add_0_r. }
  eapply returns_bind; [by apply countClusters_ok|]. intros acc' H'.
  rewrite Nat.add_succ_r. exact (IH (S n) acc' H').
Qed.

(** Loading the namespaces page ends for every behaviour of the server,
    sends only reads, and always leaves the loading state.  If the data is shown,
    the totals on the cards agree with the rows: the number of namespaces is the
    number of rows, and the clusters, shards and nodes are the sums of the rows;
    otherwise everything but the loading flag is as before. *)
Theorem fetchData_consistent s l :
  wp fetchData
    (fun o s' l' =>
       o = Ok tt /\ loading s' = false /\ reads_only l l' /\
       (consistent s' \/ s' = setLoading false s)) s l.
Proof.
  unfold fetchData. apply wp_finally, wp_try.
  eapply (wp_returns_bind _ _ _ _ _ l l); [apply fetchNamespaces_returns|apply reads_only_refl| |].
  2: { intros e l' Hl. simpl. split_and!; eauto with kvc. }
  intros v l1 _ Hl1. eapply (wp_returns_bind (fun _ => True) _ _ _ _ l l1); [by apply returns_lift|done| |].
  2: { intros e l' Hl. simpl. split_and!; eauto with kvc. }
  intros items l2 _ Hl2. eapply (wp_returns_bind _ _ _ _ _ l l2).
  - apply (rows_loop items 0). done.
  - done.
  - intros [[[tc ts] tn] rows] l3 (Hlen & Htc & Hts & Htn & _) Hl3. simpl in *.
    split_and!; [done..|]. left. unfold consistent. simpl. by rewrite Hlen.
  - intros e l' Hl. simpl. split_and!; eauto with kvc.
Qed.

(** ** Loading: the page shows what the server has *)

Definition world_shards (w : world) (ns : string) : Z :=
  sumZ (map (fun c => Z.of_nat (length (w_shards w ns c))) (w_clusters w ns)).

Definition cluster_nodes (w : world) (ns c : string) : Z :=
  sumZ (map (fun i => Z.of_nat (length (w_nodes w ns c i))) (seq 0 (length (w_shards w ns c)))).

Definition world_nodes (w : world) (ns : string) : Z := sumZ (map (cluster_nodes w ns) (w_clusters w ns)).

Definition world_row (w : world) (ns : string) : NamespaceData :=
  MkNs ns (Z.of_nat (length (w_clusters w ns))) (world_shards w ns) (world_nodes w ns).

Section Exact.
Context (f : request -> axios_result) (w : world) (Hf : serves f w) (answer : string -> bool).
Context (ns : string) (Hns : In ns (w_namespaces w)).

Lemma eval_countShards a c :
  In c (w_clusters w ns) ->
  let n := Z.of_nat (length (w_shards w ns c)) in
  let m := cluster_nodes w ns c in
  eval f answer (countShards ns a (VStr c)) =
  Ok (MkAcc (nsShards a + n) (nsNodes a + m) (totalShards a + n) (totalNodes a + m)).
Proof.
  intros Hc n m. unfold countShards. rewrite eval_bind. simpl to_string.
  rewrite (eval_listShards f w Hf answer ns c) by done.
  erewrite eval_for_of with (g := fun b i => let k := Z.of_nat (length (w_nodes w ns c i)) in
    MkAcc (nsShards b) (nsNodes b + k) (totalShards b) (totalNodes b + k)).
  - f_equal. unfold m, cluster_nodes. fold n. set (b0 := MkAcc _ _ _ _).
    assert (H : forall xs b, fold_left (fun b i => let k := Z.of_nat (length (w_nodes w ns c i)) in
      MkAcc (nsShards b) (nsNodes b + k) (totalShards b) (totalNodes b + k)) xs b =
      let k := sumZ (map (fun i => Z.of_nat (length (w_nodes w ns c i))) xs) in
      MkAcc (nsShards b) (nsNodes b + k) (totalShards b) (totalNodes b + k)).
    { clear. induction xs as [|i xs IH]; intros b; simpl; [by destruct b; simpl; rewrite !Z.add_0_r|].
      rewrite IH. simpl. f_equal; lia. }
    rewrite H. reflexivity.
  - intros b i Hi. apply in_seq in Hi. unfold countNodes. rewrite eval_bind.
    rewrite (eval_listNodes f w Hf answer ns c i) by (done || lia). reflexivity.
Qed.

Lemma eval_countClusters acc :
  let '(tc, ts, tn, rows) := acc in
  eval f answer (countClusters acc (VStr ns)) =
  Ok (tc + Z.of_nat (length (w_clusters w ns)), ts + world_shards w ns, tn + world_nodes w ns,
  rows ++ [world_row w ns]).
Proof.
  destruct acc as [[[tc ts] tn] rows]. unfold countClusters. rewrite eval_bind. simpl to_string.
  rewrite (eval_fetchClusters f w Hf answer ns) by done. simpl iterate. simpl lift. rewrite eval_bind. simpl eval at 1.
  cbv iota. rewrite eval_bind.
  erewrite eval_for_of with (g := fun a c => let n := Z.of_nat (length (w_shards w ns (to_string c))) in
    let m := cluster_nodes w ns (to_string c) in
    MkAcc (nsShards a + n) (nsNodes a + m) (totalShards a + n) (totalNodes a + m)).
  2: { intros a c Hc. apply in_map_iff in Hc as (c' & <- & Hc). by apply eval_countShards. }
  assert (H : forall cs a, fold_left (fun a c => let n := Z.of_nat (length (w_shards w ns (to_string c))) in
    let m := cluster_nodes w ns (to_string c) in
    MkAcc (nsShards a + n) (nsNodes a + m) (totalShards a + n) (totalNodes a + m)) (map VStr cs) a =
    let n := sumZ (map (fun c => Z.of_nat (length (w_shards w ns c))) cs) in
    let m := sumZ (map (cluster_nodes w ns) cs) in
    MkAcc (nsShards a + n) (nsNodes a + m) (totalShards a + n) (totalNodes a + m)).
  { clear. induction cs as [|c cs IH]; intros a; simpl; [by destruct a; simpl; rewrite !Z.add_0_r|].
    rewrite IH. simpl. f_equal; lia. }
  rewrite H, length_map. reflexivity.
Qed.
End Exact.

Lemma eval_rows f w (Hf : serves f w) answer :
  let new := map (world_row w) (w_namespaces w) in
  eval f answer (for_of (map VStr (w_namespaces w)) (0, 0, 0, []) countClusters) =
  Ok (sumZ (map clusterCount new), sumZ (map shardCount new), sumZ (map nodeCount new), new).
Proof.
  intros new. set (step := fun '(tc, ts, tn, rows) v => let ns := to_string v in
    (tc + Z.of_nat (length (w_clusters w ns)), ts + world_shards w ns, tn + world_nodes w ns,
     rows ++ [world_row w ns])).
  rewrite (eval_for_of f answer _ _ _ step).
  - f_equal. unfold new.
    assert (H : forall nss tc ts tn rows, fold_left step (map VStr nss) (tc, ts, tn, rows) =
      let new := map (world_row w) nss in
      (tc + sumZ (map clusterCount new), ts + sumZ (map shardCount new), tn + sumZ (map nodeCount new), rows ++ new)).
    { clear. induction nss as [|ns nss IH]; intros; simpl; [by rewrite !Z.add_0_r, app_nil_r|].
      rewrite IH. simpl. rewrite <- app_assoc, !Z.add_assoc. done. }
    by rewrite H.
  - intros acc v Hv. apply in_map_iff in Hv as (ns & <- & Hns).
    pose proof (eval_countClusters f w Hf answer ns Hns acc) as H. by destruct acc as [[[tc ts] tn] rows].
Qed.

(** What loading shows. *)
Lemma fetchData_serves f w answer s :
  serves f w ->
  exec f answer fetchData s =
  let rows := map (world_row w) (w_namespaces w) in
  setLoading false
    (setResourceCounts (fun _ => MkCounts (Z.of_nat (length rows)) (sumZ (map clusterCount rows))
                                   (sumZ (map shardCount rows)) (sumZ (map nodeCount rows)))
       (setNamespacesData rows s)).
Proof.
  intros Hf. set (items := map VStr (w_namespaces w)).
  pose proof (eval_fetchNamespaces (S := State) f w Hf answer) as E1.
  pose proof (eval_rows f w Hf answer) as E2. fold items in E1, E2.
  unfold fetchData. rewrite exec_finally, (exec_try_ok _ _ _ _ _ tt).
  - rewrite (exec_bind_ok _ _ _ _ _ _ E1)
      by (apply (returns_stateless (fun _ => True)), fetchNamespaces_returns).
    simpl iterate. simpl lift. rewrite (exec_bind_ok _ _ (Ret items) _ items) by done.
    rewrite (exec_bind_ok _ _ _ _ _ _ E2) by (eapply returns_stateless, (rows_loop _ 0); done).
    unfold items. simpl. by rewrite !length_map.
  - rewrite (eval_bind_ok _ _ _ _ _ E1). simpl iterate. simpl lift.
    rewrite (eval_bind_ok _ _ (Ret items) _ items) by done. by rewrite (eval_bind_ok _ _ _ _ _ E2).
Qed.

(** Against a server whose lists do not change while the page loads, the
    page shows exactly the server's contents: one row per namespace, in the
    server's order, with its numbers of clusters, shards and nodes, the totals of
    all rows on the cards, and the loading indicator gone. *)
Theorem fetchData_exact f w answer s :
  serves f w ->
  exec f answer fetchData s =
  let rows := map (world_row w) (w_namespaces w) in
  setLoading false
    (setResourceCounts (fun _ => MkCounts (Z.of_nat (length rows)) (sumZ (map clusterCount rows))
                                   (sumZ (map shardCount rows)) (sumZ (map nodeCount rows)))
       (setNamespacesData rows s)).
Proof. apply fetchData_serves. Qed.

Lemma fetchData_exact_witness :
  exec demo_server (fun _ => true) fetchData init =
  setLoading false (setResourceCounts (fun _ => MkCounts 1 1 2 3) (setNamespacesData [MkNs "ns" 1 2 3] init)).
Proof. apply (fetchData_exact demo_server demo_world (fun _ => true) init). apply demo_serves. Defined.

(** ** Filter and sort *)

#[export] Instance compareNamespaces_consistent `{Collation} o : Consistent (compareNamespaces o).
Proof. unfold compareNamespaces. repeat (case_match; [apply _|]). apply _. Qed.

(** Without a search term every row passes the search. *)
Lemma filterNamespace_no_search o ns :
  filterNamespace "" o ns =
  if String.eqb o "with-clusters" then 0 <? clusterCount ns
  else if String.eqb o "no-clusters" then clusterCount ns =? 0 else true.
Proof. unfold filterNamespace. simpl (toLowerCase ""). by rewrite includes_nil. Qed.

Lemma length_filter_const {A} (l : list A) : length (List.filter (fun _ => true) l) = length l.
Proof. induction l; simpl; congruence. Qed.

(** The rows shown without a search term, for each filter option. *)
Lemma shown_no_search `{Collation} s :
  searchTerm s = "" ->
  Z.of_nat (length (filteredAndSortedNamespaces s)) =
  if String.eqb (filterOption s) "with-clusters" then withClustersChip s
  else if String.eqb (filterOption s) "no-clusters" then noClustersChip s else allChip s.
Proof.
  intros Hs. unfold filteredAndSortedNamespaces. rewrite length_sort_by, Hs.
  unfold withClustersChip, noClustersChip, allChip, countb.
  rewrite (filter_ext _ _ (filterNamespace_no_search (filterOption s))).
  destruct (String.eqb (filterOption s) "with-clusters"); [done|].
  destruct (String.eqb (filterOption s) "no-clusters"); [done|]. by rewrite length_filter_const.
Qed.

(** What the list shows, for any locale and in any state: exactly the rows
    that match the search term without regard to case and pass the filter, each as
    often as it was loaded; in the chosen order; rows that the order does not tell
    apart stay in the server's order.  The counts on the filter's chips are the
    numbers of rows each option shows without a search term, and the chips of the
    two exclusive options add up to the total when counts are not negative. *)
Theorem filteredAndSorted_spec `{Collation} s :
  let rows := filteredAndSortedNamespaces s in
  Permutation rows (List.filter (filterNamespace (searchTerm s) (filterOption s)) (namespacesData s)) /\
  StronglySorted (fun a b => compareNamespaces (sortOption s) a b <= 0) rows /\
  (forall p, (forall a b, p a = true -> p b = true -> compareNamespaces (sortOption s) a b = 0) ->
     List.filter p rows =
     List.filter p (List.filter (filterNamespace (searchTerm s) (filterOption s)) (namespacesData s))) /\
  (searchTerm s = "" ->
     Z.of_nat (length rows) =
       if String.eqb (filterOption s) "with-clusters" then withClustersChip s
       else if String.eqb (filterOption s) "no-clusters" then noClustersChip s else allChip s) /\
  (Forall (fun ns => 0 <= clusterCount ns) (namespacesData s) ->
     withClustersChip s + noClustersChip s = allChip s).
Proof.
  intros rows. split_and!.
  - apply sort_by_perm.
  - apply sort_by_sorted, _.
  - intros p Hp. by apply sort_by_stable.
  - apply shown_no_search.
  - intros Hc. unfold withClustersChip, noClustersChip, allChip, countb.
    induction Hc as [|ns l Hns _ IH]; [done|]. simpl.
    destruct (Z.ltb_spec 0 (clusterCount ns)), (Z.eqb_spec (clusterCount ns) 0); simpl; lia.
Qed.

Definition demo_rows : State :=
  setSortOption "clusters-desc" (setNamespacesData [MkNs "a" 1 2 3; MkNs "b" 0 0 0; MkNs "c" 5 5 5] init).

Lemma filteredAndSorted_spec_witness :
  @filteredAndSortedNamespaces code_unit_collation demo_rows
    = [MkNs "c" 5 5 5; MkNs "a" 1 2 3; MkNs "b" 0 0 0] /\
  withClustersChip demo_rows + noClustersChip demo_rows = allChip demo_rows.
Proof.
  split; [reflexivity|]. apply (@filteredAndSorted_spec code_unit_collation demo_rows).
  repeat constructor; simpl; lia.
Defined.

(** ** Deletion *)

Definition deletion (s : State) (n : string) : State :=
  setResourceCounts (fun prev => MkCounts (namespaces prev - 1) (clusters prev) (shards prev) (nodes prev))
    (setNamespacesData (List.filter (fun ns => negb (String.eqb (name ns) n)) (namespacesData s))
       (setDeletingNamespace None s)).

Lemma deleteNamespace_wp {S} n (Q : result value -> S -> list event -> Prop) s l :
  wp (deleteNamespace n) Q s l <->
  forall a, Q (Ok (delete_result a)) s (l ++ [EvReq (mutation_request (MDeleteNamespace n)) a]).
Proof. apply delete_call_wp. Qed.

(** Deleting a namespace: nothing happens unless the user confirms, and then
    exactly one DELETE is sent.  The row disappears and the number of namespaces
    drops by one whatever the server answers, even when it refuses the deletion,
    because the returned error message is not looked at; the totals of clusters,
    shards and nodes are not updated. *)
Theorem handleDeleteNamespace_spec s n l :
  wp (handleDeleteNamespace s n)
    (fun o s' l' =>
       o = Ok tt /\
       ((exists m, l' = l ++ [EvConfirm m false] /\ s' = s) \/
        (exists m a, l' = l ++ [EvConfirm m true; EvReq (mutation_request (MDeleteNamespace n)) a] /\
           s' = deletion s n))) s l.
Proof.
  unfold handleDeleteNamespace. apply wp_bind. intros [|]; cbn [wp].
  - wp_steps. rewrite deleteNamespace_wp. intros a. simpl. split; [done|]. right.
    eexists _, a. rewrite <- app_assoc. done.
  - split; [done|]. left. by eexists.
Qed.

(** Two deletions whose requests overlap: both handlers hold the rows of the
    render they were created in. *)
Definition two_rows : State :=
  setLoading false (setResourceCounts (fun _ => MkCounts 2 0 0 0)
    (setNamespacesData [MkNs "a" 0 0 0; MkNs "b" 0 0 0] init)).

Definition ok_body : axios_result := Resolved (VObj [("data", VStr "ok")]).

Definition click_delete (n : string) (c : config State) : config State :=
  spawn (fun _ => true) (update tt (c_state c) (DeleteNamespace n)) c.

Definition overlap_run : option (config State) :=
  c1 ← deliver (fun _ => true) 0 ok_body (click_delete "b" (click_delete "a" (Config two_rows [])));
  deliver (fun _ => true) 1 ok_body c1.

(** A lost update: while the deletion of one namespace is pending the button
    of another is enabled; when both deletions succeed, the row of the first is
    back on the page, although the count says that no namespace is left. *)
Theorem delete_overlap_lost_update `{Collation} :
  (forall i, In (DeleteNamespace "b")
     (all_fires i (view tt (c_state (click_delete "a" (Config two_rows [])))))) /\
  exists c, overlap_run = Some c /\ namespacesData (c_state c) = [MkNs "a" 0 0 0] /\
            namespaces (resourceCounts (c_state c)) = 0 /\ in_flight c = [].
Proof.
  split; [|eexists; by vm_compute]. intros i.
  set (s := c_state _). assert (Hin : In (MkNs "b" 0 0 0) (filteredAndSortedNamespaces s)).
  { eapply Permutation_in; [symmetry; apply sort_by_perm|]. vm_compute. auto. }
  unfold view. simpl loading. cbv iota. unfold all_fires. rewrite in_flat_map.
  exists (El "Box" [] [headerView s; El "div" [] [El "Grid" [] [namespacesCard s; clustersCard s; shardsCard s; nodesCard s]];
        El "Paper" [] ([toolbarView s; filterPopover s; sortPopover s; listView s] ++ footerView s)]).
  split; [simpl; auto|]. cbn [fires shown forallb enabled]. apply in_app_iff. right.
  apply in_flat_map. eexists. split; [by right; right; left|].
  cbn [fires shown forallb enabled]. apply in_app_iff. right. apply in_flat_map.
  exists (listView s). split; [simpl; auto|]. unfold listView.
  destruct (filteredAndSortedNamespaces s) as [|r rs] eqn:E; [done|].
  cbn [fires shown forallb enabled]. apply in_app_iff. right. apply in_flat_map.
  exists (rowView s (MkNs "b" 0 0 0)). split; [by apply in_map|]. vm_compute. auto.
Qed.
