(* ===== verification/NamespacePage.v ===== *)
(** * The page of one namespace (webui/src/app/namespaces/[namespace]/page.tsx)

    The clusters of a namespace with their shards, nodes and migration state, a
    search box, a filter, a sort order and deletion. *)

From Stdlib Require Import Qround.
From S2P Require Import Prelude JsString JsNumber JsValue Effects View Api Collate Slots GoShard.

(** The total of shards is a JavaScript value: a cluster whose [shards] has no
    length makes it NaN, one whose length is a string makes it a string. *)
Record ResourceCounts := MkCounts { clusters : Z; shards : value; nodes : Z }.

(** The object of the interface [ClusterData] that the page builds. *)
Record ClusterData := MkCluster {
  name : string;
  version : value;
  c_shards : list value;
  shardCount : Z;
  nodeCount : Z;
  hasSlots : bool;
  hasMigration : bool;
  hasNoMigration : bool;
  hasImporting : bool;
  slotRanges : value;
  migratingSlot : value;
  importingSlot : value;
  targetShardIndex : value }.

Record State := MkState {
  clusterData : list ClusterData;
  resourceCounts : ResourceCounts;
  loading : bool;
  searchTerm : string;
  filterOpen : bool;
  sortOpen : bool;
  filterOption : string;
  sortOption : string;
  deletingCluster : option string }.

Definition init : State := MkState [] (MkCounts 0 (vnum 0) 0) true "" false false "all" "name-asc" None.

Definition setClusterData (d : list ClusterData) (s : State) : State :=
  MkState d (resourceCounts s) (loading s) (searchTerm s) (filterOpen s) (sortOpen s) (filterOption s)
    (sortOption s) (deletingCluster s).
Definition setResourceCounts (c : ResourceCounts) (s : State) : State :=
  MkState (clusterData s) c (loading s) (searchTerm s) (filterOpen s) (sortOpen s) (filterOption s)
    (sortOption s) (deletingCluster s).
Definition setLoading (b : bool) (s : State) : State :=
  MkState (clusterData s) (resourceCounts s) b (searchTerm s) (filterOpen s) (sortOpen s) (filterOption s)
    (sortOption s) (deletingCluster s).
Definition setSearchTerm (t : string) (s : State) : State :=
  MkState (clusterData s) (resourceCounts s) (loading s) t (filterOpen s) (sortOpen s) (filterOption s)
    (sortOption s) (deletingCluster s).
Definition setFilterAnchorEl (b : bool) (s : State) : State :=
  MkState (clusterData s) (resourceCounts s) (loading s) (searchTerm s) b (sortOpen s) (filterOption s)
    (sortOption s) (deletingCluster s).
Definition setSortAnchorEl (b : bool) (s : State) : State :=
  MkState (clusterData s) (resourceCounts s) (loading s) (searchTerm s) (filterOpen s) b (filterOption s)
    (sortOption s) (deletingCluster s).
Definition setFilterOption (o : string) (s : State) : State :=
  MkState (clusterData s) (resourceCounts s) (loading s) (searchTerm s) (filterOpen s) (sortOpen s) o
    (sortOption s) (deletingCluster s).
Definition setSortOption (o : string) (s : State) : State :=
  MkState (clusterData s) (resourceCounts s) (loading s) (searchTerm s) (filterOpen s) (sortOpen s)
    (filterOption s) o (deletingCluster s).
Definition setDeletingCluster (d : option string) (s : State) : State :=
  MkState (clusterData s) (resourceCounts s) (loading s) (searchTerm s) (filterOpen s) (sortOpen s)
    (filterOption s) (sortOption s) d.

(** ** One cluster *)

(** [s.slot_ranges && s.slot_ranges.length > 0] *)
Definition has_slot_ranges (s : value) : result bool :=
  v ← get s "slot_ranges";
  if truthy v then Ok (js_gt (prop v "length") 0) else Ok false.

(** [s.k >= 0] *)
Definition at_least_zero (k : string) (s : value) : result bool := v ← get s k; Ok (js_ge v 0).

(** [s.migrating_slot === -1] *)
Definition not_migrating (s : value) : result bool :=
  v ← get s "migrating_slot"; Ok (strict_eq v (vnum (-1))).

(** [shards.find(p)?.k || d] *)
Definition find_prop (p : value -> result bool) (k : string) (d : value) (l : list value) : result value :=
  o ← find_result p l;
  Ok (js_or (match o with Some s => prop s k | None => VUndefined end) d).

(** The derived fields of a cluster, in the order the code computes them. *)
Definition describe (clusterInfo : value) (l : list value) (clusterNodeCount : Z) : result ClusterData :=
  hasSlots ← some_result has_slot_ranges l;
  hasMigration ← some_result (at_least_zero "migrating_slot") l;
  hasNoMigration ← every_result not_migrating l;
  hasImporting ← some_result (at_least_zero "import_slot") l;
  slotRanges ← find_prop has_slot_ranges "slot_ranges" (VArr []) l;
  migratingSlot ← find_prop (at_least_zero "migrating_slot") "migrating_slot" (vnum (-1)) l;
  importingSlot ← find_prop (at_least_zero "import_slot") "import_slot" (vnum (-1)) l;
  targetShardIndex ← find_prop (at_least_zero "target_shard_index") "target_shard_index" (vnum (-1)) l;
  Ok (MkCluster (to_string (prop clusterInfo "name")) (prop clusterInfo "version") l
        (Z.of_nat (length l)) clusterNodeCount hasSlots hasMigration hasNoMigration hasImporting
        slotRanges migratingSlot importingSlot targetShardIndex).

(** How often [for (let i = 0; i < n; i++)] runs. *)
Definition loop_count (n : number) : nat := match n with Fin q => Z.to_nat (Qceiling q) | _ => 0 end.

(** The variables the parallel tasks of a load share. *)
Record Totals := MkTotals { totalShards : value; totalNodes : Z }.

(** [totalShards += v] and [totalNodes += n] *)
Definition addShards (v : value) (t : Totals) : Totals := MkTotals (js_add (totalShards t) v) (totalNodes t).
Definition addNodes (n : Z) (t : Totals) : Totals := MkTotals (totalShards t) (totalNodes t + n).

Definition countNodes (namespace cluster : string) (n : Z) (i : nat) : prog Totals Z :=
  try_catch
    (nodes ← listNodes namespace cluster (nat_to_string i);
     match nodes with VArr l => Ret (n + Z.of_nat (length l)) | _ => Ret n end)
    (fun error => _ ← emit (OConsole ("Failed to fetch nodes for shard " +:+ nat_to_string i +:+ ":")); Ret n).

(** The function given to Promise.all: the tasks of all clusters add to the same
    two variables.  A task that fails behind the additions has already made them. *)
Definition fetchTask (namespace : string) (cluster : value) : prog Totals (option ClusterData) :=
  let c := to_string cluster in
  try_catch
    (clusterInfo ← fetchCluster namespace c;
     if truthy clusterInfo && is_object clusterInfo && js_in "shards" clusterInfo
     then
       let shards := js_or (prop clusterInfo "shards") (VArr []) in
       clusterNodeCount ← for_of (seq 0 (loop_count (to_number (prop shards "length")))) 0 (countNodes namespace c);
       _ ← set_state (addShards (prop shards "length"));
       _ ← set_state (addNodes clusterNodeCount);
       l ← lift (as_array shards "some");
       row ← lift (describe clusterInfo l clusterNodeCount);
       Ret (Some row)
     else Ret None)
    (fun error =>
       _ ← emit (OConsole ("Failed to fetch data for cluster " +:+ c +:+ ":")); Ret None).

(** From the list of clusters to the new state; fetchData and
    handleDeleteCluster contain the same code. *)
Definition loadClusters (sched : list nat) (namespace : string) : prog State unit :=
  clusters ← fetchClusters namespace;
  items ← lift (as_array clusters "map");
  '(data, t) ← locally (MkTotals (vnum 0) 0) (promise_all sched (map (fetchTask namespace) items));
  let validData := omap id data in
  _ ← set_state (setClusterData validData);
  set_state (setResourceCounts (MkCounts (Z.of_nat (length validData)) (totalShards t) (totalNodes t))).

(** [notFound()] throws. *)
Definition notFound : exn := JsErr "Error" "NEXT_NOT_FOUND".

Definition fetchData (sched : list nat) (namespace : string) : prog State unit :=
  finally_
    (try_catch
       (fetchedNamespaces ← fetchNamespaces;
        known ← lift (js_includes fetchedNamespaces namespace);
        if (known : bool) then loadClusters sched namespace
        else _ ← emit (OConsole ("Namespace " +:+ namespace +:+ " not found")); Throw notFound)
       (fun error => emit (OConsole "Error fetching data:")))
    (set_state (setLoading false)).

Definition handleDeleteCluster (sched : list nat) (namespace clusterName : string) : prog State unit :=
  ok ← confirm ("Are you sure you want to delete cluster " +:+ dq +:+ clusterName +:+ dq +:+ "?");
  if negb ok then Ret tt
  else
    finally_
      (try_catch
         (_ ← set_state (setDeletingCluster (Some clusterName));
          res ← deleteCluster namespace clusterName;
          if truthy res then emit (OAlert ("Failed to delete cluster: " +:+ to_string res))
          else _ ← set_state (setLoading true); loadClusters sched namespace)
         (fun e => emit (OAlert ("Failed to delete cluster: " +:+ exn_to_string e))))
      (_ ← set_state (setDeletingCluster None); set_state (setLoading false)).

(** ** Filter and sort *)

Definition filterCluster (searchTerm filterOption : string) (c : ClusterData) : bool :=
  if negb (includes (toLowerCase (name c)) (toLowerCase searchTerm)) then false
  else if String.eqb filterOption "with-migration" then hasMigration c
  else if String.eqb filterOption "no-migration" then negb (hasMigration c)
  else if String.eqb filterOption "with-slots" then hasSlots c
  else if String.eqb filterOption "no-slots" then negb (hasSlots c)
  else if String.eqb filterOption "with-importing" then hasImporting c
  else true.

Definition compareClusters `{Collation} (sortOption : string) : ClusterData -> ClusterData -> Z :=
  if String.eqb sortOption "name-asc" then fun a b => localeCompare (name a) (name b)
  else if String.eqb sortOption "name-desc" then fun a b => localeCompare (name b) (name a)
  else if String.eqb sortOption "shards-desc" then fun a b => shardCount b - shardCount a
  else if String.eqb sortOption "shards-asc" then fun a b => shardCount a - shardCount b
  else if String.eqb sortOption "nodes-desc" then fun a b => nodeCount b - nodeCount a
  else if String.eqb sortOption "nodes-asc" then fun a b => nodeCount a - nodeCount b
  else fun _ _ => 0.

Definition filteredAndSortedClusters `{Collation} (s : State) : list ClusterData :=
  sort_by (compareClusters (sortOption s))
    (List.filter (filterCluster (searchTerm s) (filterOption s)) (clusterData s)).

(** ** Events *)

Inductive Event :=
| Mount
| DeleteCluster (cluster : string)
| TypeSearch (t : string)
| ClearSearch
| OpenFilter
| CloseFilter
| OpenSort
| CloseSort
| PickFilter (o : string)
| PickSort (o : string)
| EmptyAction.

(** [params.namespace], and the order in which the answers to the requests of a
    handler will come. *)
Record Params := MkParams { p_namespace : string; p_schedule : list nat }.

Definition update (p : Params) (s : State) (e : Event) : prog State unit :=
  match e with
  | Mount => fetchData (p_schedule p) (p_namespace p)
  | DeleteCluster c => handleDeleteCluster (p_schedule p) (p_namespace p) c
  | TypeSearch t => set_state (setSearchTerm t)
  | ClearSearch => set_state (setSearchTerm "")
  | OpenFilter => set_state (setFilterAnchorEl true)
  | CloseFilter => set_state (setFilterAnchorEl false)
  | OpenSort => set_state (setSortAnchorEl true)
  | CloseSort => set_state (setSortAnchorEl false)
  | PickFilter o => set_state (setFilterOption o)
  | PickSort o => set_state (setSortOption o)
  | EmptyAction => Ret tt
  end.

(** ** View *)

Definition headerView (namespace : string) (s : State) : node Event :=
  El "div" []
    [El "div" [] [El "Typography" [] [El "FolderIcon" [] []; Text namespace];
                  El "Typography" [] [Text "Manage clusters in this namespace"]];
     El "div" []
       [El "Box" []
          ([El "SearchIcon" [] [];
            El "input" [Attr "type" "text"; Attr "placeholder" "Search clusters..."; Value (searchTerm s);
                        OnInput TypeSearch] []] ++
           when (negb (String.eqb (searchTerm s) "")) [El "button" [OnClick ClearSearch] [Text "x"]]);
        El "div" []
          [El "ClusterCreation" [Attr "position" "page"; Attr "namespace" namespace]
             [El "Button" [] [El "AddIcon" [] []; Text "Create Cluster"]];
           El "ImportCluster" [Attr "position" "page"; Attr "namespace" namespace]
             [El "Button" [] [El "FileUploadIcon" [] []; Text "Import Cluster"]]]]].

Definition clustersCard (s : State) : node Event :=
  statCard "StorageIcon" "Clusters" (Z_to_string (clusters (resourceCounts s))).
Definition shardsCard (s : State) : node Event :=
  statCard "DnsIcon" "Shards" (to_string (shards (resourceCounts s))).
Definition nodesCard (s : State) : node Event :=
  statCard "DeviceHubIcon" "Nodes" (Z_to_string (nodes (resourceCounts s))).
Definition withSlotsCard (s : State) : node Event :=
  statCard "GridViewIcon" "With Slots" (Z_to_string (countb hasSlots (clusterData s))).

Definition toolbarView : node Event :=
  El "div" []
    [El "Typography" [] [Text "All Clusters"];
     El "Tooltip" [Attr "title" "Filter"] [El "IconButton" [OnClick OpenFilter] [El "FilterListIcon" [] []]];
     El "Tooltip" [Attr "title" "Sort"] [El "IconButton" [OnClick OpenSort] [El "SortIcon" [] []]]].

Definition allOption (s : State) : node Event :=
  radioView "all" None "All clusters" (Some (Z.of_nat (length (clusterData s)))).
Definition withMigrationOption (s : State) : node Event :=
  radioView "with-migration" None "With migration" (Some (countb hasMigration (clusterData s))).
Definition noMigrationOption (s : State) : node Event :=
  radioView "no-migration" None "No migration" (Some (countb (fun c => negb (hasMigration c)) (clusterData s))).
Definition withSlotsOption (s : State) : node Event :=
  radioView "with-slots" None "With slots" (Some (countb hasSlots (clusterData s))).
Definition noSlotsOption (s : State) : node Event :=
  radioView "no-slots" None "No slots" (Some (countb (fun c => negb (hasSlots c)) (clusterData s))).
Definition withImportingOption (s : State) : node Event :=
  radioView "with-importing" None "With importing" (Some (countb hasImporting (clusterData s))).

Definition filterCloseButton : node Event := El "Button" [OnClick CloseFilter] [Text "Close"].

Definition filterPopover (s : State) : node Event :=
  El "Popover" [Open (filterOpen s); OnClose CloseFilter]
    [El "Typography" [] [Text "Filter Clusters"];
     El "RadioGroup" [Value (filterOption s); OnPick PickFilter]
       [allOption s; withMigrationOption s; noMigrationOption s; withSlotsOption s; noSlotsOption s;
        withImportingOption s];
     filterCloseButton].

Definition sortOptionsView : list (node Event) :=
  [radioView "name-asc" (Some "ArrowUpwardIcon") "Name A-Z" None;
   radioView "name-desc" (Some "ArrowDownwardIcon") "Name Z-A" None;
   radioView "shards-desc" (Some "ArrowDownwardIcon") "Most shards" None;
   radioView "nodes-desc" (Some "ArrowDownwardIcon") "Most nodes" None].

Definition sortCloseButton : node Event := El "Button" [OnClick CloseSort] [Text "Close"].

Definition sortPopover (s : State) : node Event :=
  El "Popover" [Open (sortOpen s); OnClose CloseSort]
    [El "Typography" [] [Text "Sort Clusters"];
     El "RadioGroup" [Value (sortOption s); OnPick PickSort] sortOptionsView;
     sortCloseButton].

(** The badges beside a cluster's name. *)
Definition showsMigrating (c : ClusterData) : bool := hasMigration c && js_ge (migratingSlot c) 0.
Definition showsStable (c : ClusterData) : bool :=
  negb (hasMigration c) || strict_eq (migratingSlot c) (vnum (-1)).
Definition showsImporting (c : ClusterData) : bool := hasImporting c && js_ge (importingSlot c) 0.

Definition badgesView (c : ClusterData) : list (node Event) :=
  when (showsMigrating c) [El "Box" [] [Text ("Migrating " +:+ to_string (migratingSlot c))]] ++
  when (showsStable c) [El "Box" [] [Text "Stable"]] ++
  when (showsImporting c) [El "Box" [] [Text ("Importing " +:+ to_string (importingSlot c))]].

(** [slotRanges] is an array when the cluster has slots. *)
Definition slotsText (c : ClusterData) : string :=
  let l := elements (slotRanges c) in
  if (2 <? length l)%nat then join ", " (map to_string (take 2 l)) +:+ ", ..." else join ", " (map to_string l).

Definition clusterUrl (namespace : string) (c : ClusterData) : string :=
  "/namespaces/" +:+ namespace +:+ "/clusters/" +:+ name c.

Definition nameView (namespace : string) (c : ClusterData) : node Event :=
  El "Link" [Href (clusterUrl namespace c)]
    ([El "div" [] (El "Typography" [] [Text (name c)] :: badgesView c);
      El "Typography" [] [El "AccessTimeIcon" [] []; Text ("Version: " +:+ to_string (version c))]] ++
     when (hasSlots c) [El "Typography" [] [Text ("Slots: " +:+ slotsText c)]]).

(** [v + 1]: a string is extended, anything else is converted to a number. *)
Definition plus_one (v : value) : string :=
  match v with VStr s => s +:+ "1" | _ => num_to_string (num_add (to_number v) (num 1)) end.

Definition chipsView (c : ClusterData) : node Event :=
  El "div" []
    ([El "Chip" [Attr "label" (Z_to_string (shardCount c) +:+ " shards")] [];
      El "Chip" [Attr "label" (Z_to_string (nodeCount c) +:+ " nodes")] []] ++
     when (negb (hasSlots c)) [El "Chip" [Attr "label" "No slots"] [Text "No slots"]] ++
     when (js_ge (targetShardIndex c) 0)
       [El "Chip" [Attr "label" ("Target shard: " +:+ plus_one (targetShardIndex c))] []]).

Definition statsView (c : ClusterData) : node Event :=
  El "div" []
    [El "Box" [] [El "Typography" [] [Text "Shards"]; El "Typography" [] [Text (Z_to_string (shardCount c))]];
     El "Box" [] [El "Typography" [] [Text "Nodes"]; El "Typography" [] [Text (Z_to_string (nodeCount c))]]].

Definition isDeleting (s : State) (c : string) : bool :=
  match deletingCluster s with Some d => String.eqb d c | None => false end.

Definition actionsView (namespace : string) (s : State) (c : ClusterData) : node Event :=
  El "div" []
    [El "button" [OnClick (DeleteCluster (name c)); Disabled (isDeleting s (name c))] [El "DeleteIcon" [] []];
     El "Link" [Href (clusterUrl namespace c)] [El "ChevronRightIcon" [] []]].

Definition rowView (namespace : string) (s : State) (c : ClusterData) : node Event :=
  El "Paper" [Attr "key" (name c)]
    [El "StorageIcon" [] []; nameView namespace c; chipsView c; statsView c; actionsView namespace s c].

Definition emptyView (namespace : string) (s : State) : node Event :=
  El "div" []
    [El "EmptyState" []
       [Text (if negb (String.eqb (filterOption s) "all") then "No matching clusters" else "No clusters found");
        Text (if negb (String.eqb (filterOption s) "all") then "Try changing your filter settings"
              else if negb (String.eqb (searchTerm s) "") then "Try adjusting your search term"
              else "Create a cluster to get started");
        El "StorageIcon" [] [];
        El "Button" [OnClick EmptyAction] [Text "Create Cluster"]];
     El "ClusterCreation" [Attr "position" "card"; Attr "namespace" namespace] []].

Definition listView `{Collation} (namespace : string) (s : State) : node Event :=
  match filteredAndSortedClusters s with
  | [] => emptyView namespace s
  | rows => El "div" [] (map (rowView namespace s) rows)
  end.

Definition footerView `{Collation} (s : State) : list (node Event) :=
  when (0 <? length (filteredAndSortedClusters s))%nat
    [El "Typography" [] [Text ("Showing " +:+ nat_to_string (length (filteredAndSortedClusters s)) +:+ " of "
                               +:+ nat_to_string (length (clusterData s)) +:+ " clusters")]].

Definition view `{Collation} (p : Params) (s : State) : list (node Event) :=
  let namespace := p_namespace p in
  if loading s then [El "LoadingSpinner" [] []]
  else
    [El "div" [] [El "NamespaceSidebar" [] []];
     El "Box" []
       [headerView namespace s;
        El "div" [] [El "Grid" [] [clustersCard s; shardsCard s; nodesCard s; withSlotsCard s]];
        El "Paper" [] ([toolbarView; filterPopover s; sortPopover s; listView namespace s] ++ footerView s)]].

(** ** Loading *)

Lemma fetchCluster_returns {S} ns c : returns (fun _ => True) (@fetchCluster S ns c).
Proof.
  apply returns_try; [|done]. split; [done|]. intros [d|e]; [|done]. simpl.
  destruct (get d "data") as [x|]; [|done]. simpl. by destruct (get x _).
Qed.

Lemma countNodes_returns ns c n i : 0 <= n -> returns (fun m => 0 <= m) (countNodes ns c n i).
Proof.
  intros Hn. apply returns_try; [|intros e; exact Hn].
  eapply returns_bind; [apply listNodes_returns|]. intros v _.
  destruct v; try exact Hn. cbv [returns]. lia.
Qed.

Lemma describe_counts info l n c :
  describe info l n = Ok c -> c_shards c = l /\ shardCount c = Z.of_nat (length l) /\ nodeCount c = n.
Proof.
  unfold describe. intros H. repeat (apply result_bind_inv in H as (? & _ & H)). by simplify_eq.
Qed.

Lemma countNodes_reads ns c n i : returns (fun _ => True) (countNodes ns c n i).
Proof. apply returns_try; [|done]. eapply returns_bind; [apply listNodes_returns|]. by intros [] _. Qed.

Lemma fetchTask_gets ns c : only_gets (fetchTask ns c).
Proof.
  apply only_gets_try; [|done]. apply only_gets_bind; [eapply returns_only_gets, fetchCluster_returns|].
  intros info. destruct (_ && _ && _); [|done]. cbv zeta.
  apply only_gets_bind; [apply only_gets_for_of; intros; eapply returns_only_gets, countNodes_reads|]. intros n.
  cbn [mbind prog_bind set_state only_gets]. destruct (as_array _ _) as [l|]; [|done].
  cbn [lift mbind prog_bind]. destruct (describe info l n); exact I.
Qed.

(** An addition to the shared variables. *)
Inductive addition := PlusShards (v : value) | PlusNodes (n : Z).

Definition add (t : Totals) (x : addition) : Totals :=
  match x with PlusShards v => addShards v t | PlusNodes n => addNodes n t end.

(** What a task adds: with a row, exactly the row's counts. *)
Definition row_adds (c : ClusterData) : list addition := [PlusShards (vnum (shardCount c)); PlusNodes (nodeCount c)].

Definition task_ok (r : option ClusterData) (d : list addition) : Prop :=
  match r with
  | Some c => d = row_adds c /\ shardCount c = Z.of_nat (length (c_shards c)) /\ 0 <= nodeCount c
  | None => True
  end.

Lemma fetchTask_accounts ns c : accounts add [] task_ok (fetchTask ns c).
Proof.
  unfold fetchTask. eapply accounts_returns; [apply fetchCluster_returns| |done]. intros info _.
  destruct (_ && _ && _); [|exact I]. cbv zeta.
  eapply accounts_returns with (P := fun m => 0 <= m); [| |done].
  { apply returns_for_of; [lia|]. intros; by apply countNodes_returns. }
  intros n Hn. set (shs := js_or _ _). cbn [mbind prog_bind set_state try_catch accounts].
  exists (PlusShards (prop shs "length")). split; [done|]. exists (PlusNodes n). split; [done|]. cbn [app].
  destruct shs as [| | | | |l|]; try exact I. cbn [as_array lift mbind prog_bind].
  destruct (describe info l n) as [row|] eqn:Hrow; cbn [lift prog_bind try_catch accounts]; [|exact I].
  apply describe_counts in Hrow as (<- & Hs & Hnn). split; [|by rewrite Hnn]. unfold row_adds. by rewrite Hs, Hnn.
Qed.

(** Additions of integers. *)
Definition exact_add (e : Z + Z) : addition := match e with inl z => PlusShards (vnum z) | inr n => PlusNodes n end.
Definition shard_part (e : Z + Z) : Z := match e with inl z => z | inr _ => 0 end.
Definition node_part (e : Z + Z) : Z := match e with inl _ => 0 | inr n => n end.

Lemma total_exact a b es :
  total add (MkTotals (vnum a) b) (map exact_add es) =
  MkTotals (vnum (a + sumZ (map shard_part es))) (b + sumZ (map node_part es)).
Proof.
  unfold total. revert a b. induction es as [|[z|n] es IH]; intros a b; cbn [map fold_left sumZ exact_add add].
  - by rewrite !Z.add_0_r.
  - unfold addShards. cbn [totalShards totalNodes]. rewrite js_add_vnum, IH. simpl sumZ. apply (f_equal2 (fun x => MkTotals (vnum x))); lia.
  - unfold addNodes. cbn [totalShards totalNodes]. rewrite IH. simpl sumZ. apply (f_equal2 (fun x => MkTotals (vnum x))); lia.
Qed.

Definition row_parts (c : ClusterData) : list (Z + Z) := [inl (shardCount c); inr (nodeCount c)].

Lemma rows_sum (g : Z + Z -> Z) (h : ClusterData -> Z) rows :
  (forall c, sumZ (map g (row_parts c)) = h c) -> sumZ (map g (concat (map row_parts rows))) = sumZ (map h rows).
Proof.
  intros H. induction rows as [|c rows IH]; [done|]. cbn [map concat]. rewrite map_app, sumZ_app, H, IH. done.
Qed.

(** The totals are those of the rows, in whatever order they were added. *)
Lemma total_rows rows d :
  d ≡ₚ concat (map row_adds rows) ->
  total add (MkTotals (vnum 0) 0) d = MkTotals (vnum (sumZ (map shardCount rows))) (sumZ (map nodeCount rows)).
Proof.
  assert (Hm : concat (map row_adds rows) = map exact_add (concat (map row_parts rows))).
  { induction rows as [|c rows IH]; [done|]. cbn [map concat]. by rewrite map_app, <- IH. }
  rewrite Hm. intros (es & -> & Hp)%Permutation_map_inv. rewrite total_exact.
  rewrite <- (rows_sum shard_part shardCount), <- (rows_sum node_part nodeCount) by (intros; simpl; lia).
  rewrite !Z.add_0_l. apply (f_equal2 (fun x => MkTotals (vnum x))); apply sumZ_perm; symmetry; by apply Permutation_map.
Qed.

(** The totals agree with the rows whenever every cluster got a row. *)
Definition consistent (s : State) : Prop :=
  clusters (resourceCounts s) = Z.of_nat (length (clusterData s)) /\
  shards (resourceCounts s) = vnum (sumZ (map shardCount (clusterData s))) /\
  nodes (resourceCounts s) = sumZ (map nodeCount (clusterData s)).

(** The state after the tasks have ended with [data] and the totals [t]. *)
Definition loaded (data : list (option ClusterData)) (t : Totals) (s : State) : State :=
  setResourceCounts (MkCounts (Z.of_nat (length (omap id data))) (totalShards t) (totalNodes t))
    (setClusterData (omap id data) s).

(** Rows and totals that some tasks left. *)
Definition tasks_ok (data : list (option ClusterData)) (t : Totals) : Prop :=
  exists ds d, Forall2 task_ok data ds /\ d ≡ₚ concat ds /\ t = total add (MkTotals (vnum 0) 0) d.

Lemma loaded_consistent data t s : tasks_ok data t -> Forall is_Some data -> consistent (loaded data t s).
Proof.
  intros (ds & d & HF & Hp & ->) Hall.
  assert (concat ds = concat (map row_adds (omap id data))) as E.
  { clear -HF Hall. induction HF as [|r d data ds Hr _ IH]; [done|]. inversion Hall as [|? ? [c ->] Hall']; subst.
    destruct Hr as [-> _]. cbn. by rewrite IH. }
  rewrite E in Hp. unfold consistent, loaded. cbn. by rewrite (total_rows _ _ Hp).
Qed.

Lemma loadClusters_wp sched ns Q s l0 l :
  reads_only l0 l ->
  (forall data t l', reads_only l0 l' -> tasks_ok data t -> Q (Ok tt) (loaded data t s) l') ->
  (forall e l', reads_only l0 l' -> Q (Err e) s l') ->
  wp (loadClusters sched ns) Q s l.
Proof.
  intros Hl HQ HE. unfold loadClusters.
  eapply (wp_returns_bind _ _ _ _ _ l0); [apply fetchClusters_returns|done| |done].
  intros v l1 _ Hl1. eapply (wp_returns_bind (fun _ => True) _ _ _ _ l0); [by apply returns_lift|done| |done].
  intros items l2 _ Hl2. apply wp_bind, wp_locally.
  eapply wp_mono; [|apply (wp_promise_all add task_ok sched _ (map (fun _ => []) items) [] (MkTotals (vnum 0) 0))].
  - intros o t l' (Hl' & data & ds & d & -> & HF & Hp & ->). simpl. apply HQ; [by eapply reads_only_trans|].
    exists ds, d. split_and!; [done| |done]. rewrite Hp. clear. induction items; simpl; done.
  - clear. induction items; constructor; [apply fetchTask_accounts|done].
Qed.

(** Loading the page of a namespace ends for every behaviour of the server
    and every order in which the parallel requests are answered; it only reads and
    always leaves the loading state.  When data is shown, the number of clusters
    is the number of rows, and if every listed cluster could be described the
    totals of shards and nodes are the sums of the rows; a cluster with no array
    of shards, or an unknown namespace, never leaves the page loading. *)
Theorem fetchData_any_order sched ns s l :
  wp (fetchData sched ns)
    (fun o s' l' =>
       o = Ok tt /\ loading s' = false /\ reads_only l l' /\
       (s' = setLoading false s \/
        exists data t, s' = setLoading false (loaded data t s) /\ tasks_ok data t /\
          (Forall is_Some data -> consistent s'))) s l.
Proof.
  unfold fetchData. apply wp_finally, wp_try.
  eapply (wp_returns_bind _ _ _ _ _ l l); [apply fetchNamespaces_returns|apply reads_only_refl| |].
  2: { intros e l' Hl. simpl. split_and!; eauto with kvc. }
  intros v l1 _ Hl1. eapply (wp_returns_bind (fun _ => True) _ _ _ _ l l1); [by apply returns_lift|done| |].
  2: { intros e l' Hl. simpl. split_and!; eauto with kvc. }
  intros [|] l2 _ Hl2.
  - eapply loadClusters_wp; [exact Hl2| |].
    + intros data t l' Hl' Hok. simpl. split_and!; [done..|]. right. exists data, t. split_and!; [done..|].
      intros Hrow. by apply (loaded_consistent data t s).
    + intros e l' Hl'. simpl. split_and!; eauto with kvc.
  - simpl. split_and!; eauto with kvc.
Qed.

(** ** The order of the answers *)

Lemma eval_fetchCluster {S} f answer ns c :
  eval f answer (@fetchCluster S ns c) = Ok (object_result "cluster" (f (Req GET (clusterPath ns c) VUndefined))).
Proof.
  unfold fetchCluster, axios_get, await_axios. cbn [eval try_catch mbind prog_bind].
  destruct (f _) as [d|e]; cbn [object_result mbind result_bind prog_bind try_catch eval]; [|done].
  destruct (get d "data") as [y|]; cbn [lift prog_bind try_catch mbind result_bind eval]; [|done].
  by destruct (get y "cluster").
Qed.

Lemma eval_fetchClusters_result {S} f answer ns :
  eval f answer (@fetchClusters S ns) = Ok (list_result "clusters" (f (Req GET (clustersPath ns) VUndefined))).
Proof.
  unfold fetchClusters, axios_get, await_axios. cbn [eval try_catch mbind prog_bind].
  destruct (f _) as [d|e]; cbn [list_result mbind result_bind prog_bind try_catch eval]; [|done].
  destruct (get d "data") as [y|]; cbn [lift prog_bind try_catch mbind result_bind eval]; [|done].
  by destruct (get y "clusters").
Qed.

(** Integers, and undefined, which makes NaN of a sum. *)
Definition integral (v : value) : Prop := v = VUndefined \/ exists z, v = vnum z.

(** The shared variables after integers, or something without length, were added. *)
Definition numeric (t : Totals) : Prop := totalShards t = VNum NaN \/ exists z, totalShards t = vnum z.

Definition integral_add (g : Totals -> Totals) : Prop :=
  (exists v, integral v /\ g = addShards v) \/ exists n, g = addNodes n.

Lemma integral_add_keeps g t : integral_add g -> numeric t -> numeric (g t).
Proof.
  intros [(v & [->|[y ->]] & ->)|[n ->]] [Ht|[z Ht]]; unfold numeric, addShards, addNodes; cbn [totalShards]; rewrite Ht;
    rewrite ?js_add_vnum; eauto.
Qed.

Lemma integral_add_comm g h t : integral_add g -> integral_add h -> numeric t -> g (h t) = h (g t).
Proof.
  intros Hg Hh Ht. destruct Hg as [(v & Hv & ->)|[n ->]], Hh as [(w & Hw & ->)|[m ->]]; unfold addShards, addNodes;
    cbn [totalShards totalNodes]; f_equal; [|lia].
  destruct Hv as [->|[y ->]], Hw as [->|[x ->]], Ht as [->|[z ->]]; rewrite ?js_add_vnum; try reflexivity.
  f_equal. lia.
Qed.

(** The server describes every cluster it lists for the namespace with shards that
    have an integral length or none: an array, in particular. *)
Definition shards_length (info : value) : value := prop (js_or (prop info "shards") (VArr [])) "length".

Definition sized_cluster (f : request -> axios_result) (ns : string) (c : value) : Prop :=
  integral (shards_length (object_result "cluster" (f (Req GET (clusterPath ns (to_string c)) VUndefined)))).

Definition sized (f : request -> axios_result) (ns : string) : Prop :=
  forall items, list_result "clusters" (f (Req GET (clustersPath ns) VUndefined)) = VArr items ->
  Forall (sized_cluster f ns) items.

Lemma array_sized info l : prop info "shards" = VArr l -> integral (shards_length info).
Proof. intros H. unfold shards_length. rewrite H. right. by exists (Z.of_nat (length l)). Qed.

Lemma fetchTask_updates f answer ns c : sized_cluster f ns c -> updates_by f answer integral_add (fetchTask ns c).
Proof.
  intros Hs. apply updates_by_try; [|done].
  apply updates_by_bind; [eapply updates_by_stateless, returns_stateless, fetchCluster_returns|].
  intros info E. rewrite eval_fetchCluster in E. injection E as <-. destruct (_ && _ && _); [|exact I]. cbv zeta.
  apply updates_by_bind.
  { apply updates_by_stateless, stateless_for_of. intros n i. eapply returns_stateless, countNodes_reads. }
  intros n _. split; [left; eexists; split; [exact Hs|reflexivity]|]. split; [right; by eexists|]. cbn [mbind prog_bind].
  apply (updates_by_stateless f answer). apply (stateless_bind (lift _)); [apply stateless_lift|]. intros l.
  apply (stateless_bind (lift _)); [apply stateless_lift|]. done.
Qed.

Lemma fetchTask_answers f answer ns c : answers f answer (fetchTask ns c).
Proof. unfold answers, fetchTask. rewrite eval_try. destruct (eval f answer _); eauto. Qed.

(** What the block with the shared variables ends with. *)
Lemma eval_tasks f answer sched ns items :
  Forall (sized_cluster f ns) items ->
  eval f answer (locally (S := State) (MkTotals (vnum 0) 0) (promise_all sched (map (fetchTask ns) items))) =
  match mapM_result (eval f answer) (map (fetchTask ns) items) with
  | Ok data => Ok (data, exec_all f answer (map (fetchTask ns) items) (MkTotals (vnum 0) 0))
  | Err e => Err e
  end.
Proof.
  intros Hs. rewrite eval_locally, eval_promise_all.
  rewrite (exec_promise_all f answer numeric integral_add integral_add_keeps integral_add_comm); [done|..].
  - apply Forall_map. eapply Forall_impl; [exact Hs|]. intros c. apply fetchTask_updates.
  - apply Forall_map, Forall_forall. intros c _. apply fetchTask_answers.
  - right. by exists 0.
Qed.

Lemma loadClusters_exec f answer sched sched' ns s :
  sized f ns ->
  exec f answer (loadClusters sched ns) s = exec f answer (loadClusters sched' ns) s /\
  eval f answer (loadClusters sched ns) = eval f answer (loadClusters sched' ns).
Proof.
  intros Hs. unfold loadClusters. rewrite !exec_bind, !eval_bind, !eval_fetchClusters_result.
  rewrite !exec_bind, !eval_bind. destruct (as_array _ "map") as [items|] eqn:Ei; [|done]. cbn [lift eval exec].
  apply as_array_ok, Hs in Ei. rewrite !exec_bind, !eval_bind, !(exec_stateless _ _ (locally _ _)) by apply stateless_locally.
  by rewrite !eval_tasks by done.
Qed.

(** C36. Against a server with fixed contents, what the page shows does not
    depend on the order in which the answers to the parallel requests arrive,
    although the tasks of the clusters add to the variables totalShards and
    totalNodes that they share: when the shards of every listed cluster, as the
    server describes it, have an integral length or none (an array has one), any two orders
    of the answers, and of the additions between them, end in the same state, rows
    and totals. *)
Theorem fetchData_order_independent f answer sched sched' ns s :
  sized f ns ->
  exec f answer (fetchData sched ns) s = exec f answer (fetchData sched' ns) s.
Proof.
  intros Hs. unfold fetchData. rewrite !exec_finally. f_equal. rewrite !exec_try, !exec_bind, !eval_bind.
  destruct (eval f answer fetchNamespaces) as [v|]; [|done]. rewrite !exec_bind, !eval_bind.
  destruct (eval f answer (lift (js_includes v ns))) as [[|]|]; [|done|done].
  set (s1 := exec f answer (lift _) _).
  destruct (loadClusters_exec f answer sched sched' ns s1 Hs) as [-> ->]. done.
Qed.

(** A server with the clusters a and b, whose shards are [shards_a] and [shards_b]. *)
Definition two_clusters (shards_a shards_b : value) (r : request) : axios_result :=
  let body k v := Resolved (VObj [("data", VObj [(k, v)])]) in
  let described n v := body "cluster" (VObj [("name", VStr n); ("shards", v)]) in
  if String.eqb (r_path r) namespacesPath then body "namespaces" (VArr [VStr "ns"])
  else if String.eqb (r_path r) (clustersPath "ns") then body "clusters" (VArr [VStr "a"; VStr "b"])
  else if String.eqb (r_path r) (clusterPath "ns" "a") then described "a" shards_a
  else if String.eqb (r_path r) (clusterPath "ns" "b") then described "b" shards_b
  else body "nodes" (VArr [VObj []]).

Lemma two_clusters_sized la lb : sized (two_clusters (VArr la) (VArr lb)) "ns".
Proof.
  intros items [= <-]. constructor; [|constructor; [|constructor]]; right; eexists; reflexivity.
Qed.

Lemma fetchData_order_independent_witness :
  let f := two_clusters (VArr [VObj []; VObj []]) (VArr [VObj []]) in
  let s' := exec f (fun _ => true) (fetchData [1; 1; 0; 1; 0; 1; 0; 0; 0]%nat "ns") init in
  shards (resourceCounts s') = vnum 3 /\ nodes (resourceCounts s') = 3 /\ map name (clusterData s') = ["a"; "b"] /\
  s' = exec f (fun _ => true) (fetchData [] "ns") init.
Proof.
  cbv zeta. split_and!; [vm_compute; reflexivity..|]. apply fetchData_order_independent. apply two_clusters_sized.
Defined.

(** Without arrays the order shows: lengths that are strings are concatenated. *)
Lemma strings_show_the_order :
  let sh n := VObj [("length", VStr n)] in
  let f := two_clusters (sh "1") (sh "2") in
  let shown sched := shards (resourceCounts (exec f (fun _ => true) (fetchData sched "ns") init)) in
  shown [] = VStr "012" /\ shown [1; 1; 1; 1; 1]%nat = VStr "021".
Proof. vm_compute. done. Qed.

(** ** Deletion *)

Lemma deleteCluster_wp {S} ns c (Q : result value -> S -> list event -> Prop) s l :
  wp (deleteCluster ns c) Q s l <->
  forall a, Q (Ok (delete_result a)) s (l ++ [EvReq (mutation_request (MDeleteCluster ns c)) a]).
Proof. apply delete_call_wp. Qed.

(** Deleting a cluster: nothing happens unless the user confirms; then
    exactly one DELETE is sent.  If it is refused the error is shown in an alert,
    the rows stay, and nothing else is requested; if it is accepted the rows are
    loaded again from the server, with reads only.  Either way the page ends with
    neither the loading indicator nor a disabled button left behind. *)
Theorem handleDeleteCluster_spec sched ns c s l :
  wp (handleDeleteCluster sched ns c)
    (fun o s' l' =>
       o = Ok tt /\
       ((exists m, l' = l ++ [EvConfirm m false] /\ s' = s) \/
        (loading s' = false /\ deletingCluster s' = None /\
         exists m a, let del := l ++ [EvConfirm m true; EvReq (mutation_request (MDeleteCluster ns c)) a] in
           if accepted DELETE a
           then reads_only del l' /\
                (clusterData s' = clusterData s \/
                 exists data t, clusterData s' = omap id data /\ tasks_ok data t)
           else l' = del ++ [EvOut (OAlert ("Failed to delete cluster: " +:+ to_string (delete_result a)))] /\
                clusterData s' = clusterData s))) s l.
Proof.
  unfold handleDeleteCluster. apply wp_bind. intros [|]; cbn [wp negb].
  2: { split; [done|]. left. by eexists. }
  wp_steps. rewrite deleteCluster_wp. intros a. rewrite delete_result_truthy.
  destruct (accepted DELETE a) eqn:Ea; simpl negb; cbv iota.
  - wp_steps. eapply loadClusters_wp; [apply reads_only_refl| |].
    + intros data t l' Hl' Hok. simpl. split; [done|]. right. split_and!; [done..|].
      eexists _, a. rewrite Ea. rewrite <- app_assoc in Hl'. split; [exact Hl'|]. right. by exists data, t.
    + intros e l' Hl'. simpl. split; [done|]. right. split_and!; [done..|].
      eexists _, a. rewrite Ea. rewrite <- app_assoc in Hl'. split; [|by left].
      eapply reads_only_trans; [exact Hl'|apply reads_only_out].
  - simpl. split; [done|]. right. split_and!; [done..|]. eexists _, a. rewrite Ea. by rewrite <- !app_assoc.
Qed.

(** ** Clusters of the real server *)

Lemma has_slot_ranges_json s : has_slot_ranges (shard_json s) = Ok (0 <? length (SlotRanges s))%nat.
Proof.
  unfold has_slot_ranges. simpl get. cbn [mbind result_bind]. simpl truthy. cbv iota. f_equal.
  simpl prop. unfold js_gt. simpl to_number. rewrite length_map. unfold num_nat. rewrite num_lt_Z.
  destruct (Nat.ltb_spec 0 (length (SlotRanges s))); lia.
Qed.

(** What the page makes of the JSON of a cluster's shards. *)
Lemma describe_go info shards n :
  Forall wf_migrating shards ->
  exists c, describe info (map shard_json shards) n = Ok c /\
    hasSlots c = existsb (fun s => 0 <? length (SlotRanges s))%nat shards /\
    hasMigration c = existsb (fun s => negb (migrates_range s)) shards /\
    hasNoMigration c = forallb (fun _ => false) shards /\
    hasImporting c = false /\
    migratingSlot c = js_or (match List.find (fun s => negb (migrates_range s)) shards with
                             | Some s => migrating_json (Migrating s) | None => VUndefined end) (vnum (-1)) /\
    targetShardIndex c = js_or (match List.find (fun s => 0 <=? TargetShardIndex s) shards with
                                | Some s => vnum (TargetShardIndex s) | None => VUndefined end) (vnum (-1)).
Proof.
  intros Hw. set (l := map shard_json shards).
  assert (Hp : forall (p : value -> result bool) (q : Shard -> bool),
    (forall s, In s shards -> p (shard_json s) = Ok (q s)) ->
    some_result p l = Ok (existsb q shards) /\ every_result p l = Ok (forallb q shards) /\
    find_result p l = Ok (shard_json <$> List.find q shards)).
  { clear Hw. intros p q H. unfold l. clear l. induction shards as [|s shs IH]; simpl; [done|].
    rewrite H by (by left). simpl. destruct (IH (fun s Hs => H s (or_intror Hs))) as (H1 & H2 & H3).
    rewrite H1, H2, H3. by destruct (q s). }
  destruct (Hp has_slot_ranges (fun s => 0 <? length (SlotRanges s))%nat) as (S1 & _ & S3).
  { intros; apply has_slot_ranges_json. }
  destruct (Hp (at_least_zero "migrating_slot") (fun s => negb (migrates_range s))) as (M1 & _ & M3).
  { intros s Hs. unfold at_least_zero. simpl get. cbn [mbind result_bind].
    rewrite migrating_ge_zero; [done|]. rewrite Forall_forall in Hw. apply Hw. by apply list_elem_of_In. }
  destruct (Hp not_migrating (fun _ => false)) as (_ & N2 & _).
  { intros s _. unfold not_migrating. simpl. destruct (Migrating s) as [[r []]|]; done. }
  destruct (Hp (at_least_zero "import_slot") (fun _ => false)) as (I1 & _ & I3); [done|].
  destruct (Hp (at_least_zero "target_shard_index") (fun s => 0 <=? TargetShardIndex s)) as (_ & _ & T3).
  { intros s _. unfold at_least_zero. simpl get. cbn [mbind result_bind]. by rewrite js_ge_vnum. }
  unfold describe, find_prop. rewrite S1, M1, N2, I1, S3, M3, I3, T3. cbn [mbind result_bind].
  eexists. split; [done|]. cbn [hasSlots hasMigration hasNoMigration hasImporting migratingSlot targetShardIndex].
  split_and!; try done.
  - clear. induction shards; simpl; auto.
  - destruct (List.find (fun s => negb (migrates_range s)) shards); reflexivity.
  - destruct (List.find (fun s => 0 <=? TargetShardIndex s) shards); reflexivity.
Qed.

Lemma find_not_range shards :
  shards <> [] -> Forall (fun s => Migrating s = None) shards ->
  exists s, List.find (fun s => negb (migrates_range s)) shards = Some s /\ Migrating s = None.
Proof.
  intros Hne Hn. destruct Hn as [|s shs Hs _]; [done|]. exists s. simpl.
  unfold migrates_range. by rewrite Hs.
Qed.

(** The migration flag is wrong for the real server.  The server prints no
    migration as null, which JavaScript takes for 0, and a range as a string that
    is not a number: so a cluster in which nothing migrates is filtered and
    counted as migrating although its badge says Stable, and a cluster in which
    every shard migrates a range of slots is shown and counted as stable. *)
Theorem migration_flag_inverted info shards n :
  shards <> [] -> Forall wf_migrating shards ->
  exists c, describe info (map shard_json shards) n = Ok c /\
    (Forall (fun s => Migrating s = None) shards ->
       hasMigration c = true /\ showsMigrating c = false /\ showsStable c = true) /\
    (Forall (fun s => migrates_range s = true) shards ->
       hasMigration c = false /\ showsMigrating c = false /\ showsStable c = true).
Proof.
  intros Hne Hw. destruct (describe_go info shards n Hw) as (c & Hc & _ & Hm & _ & _ & Hs & _).
  exists c. split; [done|]. unfold showsMigrating, showsStable. split.
  - intros Hnone. destruct (find_not_range shards Hne Hnone) as (s & Hf & Hs').
    rewrite Hf, Hs' in Hs. simpl in Hs. rewrite Hs, Hm.
    assert (existsb (fun s => negb (migrates_range s)) shards = true) as ->.
    { apply existsb_exists. exists s. split; [by apply List.find_some in Hf as [? _]|].
      unfold migrates_range. by rewrite Hs'. }
    done.
  - intros Hall. rewrite Hm.
    assert (existsb (fun s => negb (migrates_range s)) shards = false) as ->; [|done].
    clear -Hall. induction Hall as [|s shs Hs _ IH]; simpl; [done|]. by rewrite Hs.
Qed.

Lemma migration_flag_inverted_witness :
  exists c, describe VUndefined (map shard_json demo_shards) 0 = Ok c /\
    (Forall (fun s => Migrating s = None) demo_shards ->
       hasMigration c = true /\ showsMigrating c = false /\ showsStable c = true) /\
    (Forall (fun s => migrates_range s = true) demo_shards ->
       hasMigration c = false /\ showsMigrating c = false /\ showsStable c = true).
Proof. apply (migration_flag_inverted VUndefined demo_shards 0); [done|by repeat constructor]. Defined.

(** A slot migrates to shard 0 unnoticed: for a cluster whose first
    migrating shard has target 0, the page stores -1 and shows no target. *)
Theorem target_zero_dropped info shards n s :
  Forall wf_migrating shards ->
  List.find (fun s => 0 <=? TargetShardIndex s) shards = Some s -> TargetShardIndex s = 0 ->
  exists c, describe info (map shard_json shards) n = Ok c /\
    targetShardIndex c = vnum (-1) /\ js_ge (targetShardIndex c) 0 = false.
Proof.
  intros Hw Hf Ht. destruct (describe_go info shards n Hw) as (c & Hc & _ & _ & _ & _ & _ & Htgt).
  exists c. rewrite Hf, Ht in Htgt. simpl in Htgt. rewrite Htgt. done.
Qed.

Definition target_zero_shards : list Shard :=
  [MkShard [] [MkRange 0 99] 0 (Some (FromSlotRange (MkRange 5 5)))].

Lemma target_zero_dropped_witness :
  exists c, describe VUndefined (map shard_json target_zero_shards) 0 = Ok c /\
    targetShardIndex c = vnum (-1) /\ js_ge (targetShardIndex c) 0 = false.
Proof.
  eapply (target_zero_dropped VUndefined target_zero_shards 0); [|reflexivity|reflexivity].
  repeat constructor; unfold MinSlotID, MaxSlotID; simpl; lia.
Defined.

(** ** Filter and sort *)

#[export] Instance compareClusters_consistent `{Collation} o : Consistent (compareClusters o).
Proof. unfold compareClusters. repeat (case_match; [apply _|]). apply _. Qed.

(** What the list of clusters shows, for any locale and in any state:
    exactly the clusters that match the search term without regard to case and
    pass the filter, each once, in the chosen order, and clusters the order does
    not tell apart in the server's order; the chips of each exclusive pair of
    filter options add up to the number of clusters. *)
Theorem filteredAndSortedClusters_spec `{Collation} s :
  let rows := filteredAndSortedClusters s in
  let matches := List.filter (filterCluster (searchTerm s) (filterOption s)) (clusterData s) in
  Permutation rows matches /\
  StronglySorted (fun a b => compareClusters (sortOption s) a b <= 0) rows /\
  (forall q, (forall a b, q a = true -> q b = true -> compareClusters (sortOption s) a b = 0) ->
     List.filter q rows = List.filter q matches) /\
  countb hasMigration (clusterData s) + countb (fun c => negb (hasMigration c)) (clusterData s)
    = Z.of_nat (length (clusterData s)) /\
  countb hasSlots (clusterData s) + countb (fun c => negb (hasSlots c)) (clusterData s)
    = Z.of_nat (length (clusterData s)).
Proof.
  intros rows matches. destruct (filter_sort (compareClusters (sortOption s))
    (filterCluster (searchTerm s) (filterOption s)) (clusterData s)) as (H1 & H2 & H3).
  split_and!; [exact H1|exact H2|exact H3|apply countb_negb|apply countb_negb].
Qed.
