(* ===== verification/ClusterPage.v ===== *)
(** * The page of one cluster
    (webui/src/app/namespaces/[namespace]/clusters/[cluster]/page.tsx)

    The shards of a cluster with their nodes, slots and migration state, a search
    box, a filter, a sort order, deletion, and the migration dialog. *)

From Stdlib Require Import Qround.
From S2P Require Import Prelude JsString JsNumber JsValue Effects View Api Collate Slots GoShard MigrationDialog.

Record ResourceCounts := MkCounts { shards : Z; nodes : Z; withSlots : Z; migrating : Z }.

(** The interface [ShardData] is the [Shard] of the migration dialog. *)
Notation ShardData := MigrationDialog.Shard.
Notation index := MigrationDialog.index.
Notation slotRanges := MigrationDialog.slotRanges.
Notation migratingSlot := MigrationDialog.migratingSlot.
Notation importingSlot := MigrationDialog.importingSlot.
Notation targetShardIndex := MigrationDialog.targetShardIndex.
Notation nodeCount := MigrationDialog.nodeCount.
Notation hasSlots := MigrationDialog.hasSlots.
Notation hasMigration := MigrationDialog.hasMigration.
Notation hasImporting := MigrationDialog.hasImporting.

Record State := MkState {
  shardsData : list ShardData;
  resourceCounts : ResourceCounts;
  loading : bool;
  deletingShardIndex : option nat;
  searchTerm : string;
  filterOpen : bool;
  sortOpen : bool;
  filterOption : string;
  sortOption : string;
  expandedSlots : gset nat;
  migrationDialogOpen : bool }.

Definition init : State :=
  MkState [] (MkCounts 0 0 0 0) true None "" false false "all" "index-asc" ∅ false.

Definition setShardsData (d : list ShardData) (s : State) : State :=
  MkState d (resourceCounts s) (loading s) (deletingShardIndex s) (searchTerm s) (filterOpen s) (sortOpen s)
    (filterOption s) (sortOption s) (expandedSlots s) (migrationDialogOpen s).
Definition setResourceCounts (c : ResourceCounts) (s : State) : State :=
  MkState (shardsData s) c (loading s) (deletingShardIndex s) (searchTerm s) (filterOpen s) (sortOpen s)
    (filterOption s) (sortOption s) (expandedSlots s) (migrationDialogOpen s).
Definition setLoading (b : bool) (s : State) : State :=
  MkState (shardsData s) (resourceCounts s) b (deletingShardIndex s) (searchTerm s) (filterOpen s) (sortOpen s)
    (filterOption s) (sortOption s) (expandedSlots s) (migrationDialogOpen s).
Definition setDeletingShardIndex (i : option nat) (s : State) : State :=
  MkState (shardsData s) (resourceCounts s) (loading s) i (searchTerm s) (filterOpen s) (sortOpen s)
    (filterOption s) (sortOption s) (expandedSlots s) (migrationDialogOpen s).
Definition setSearchTerm (t : string) (s : State) : State :=
  MkState (shardsData s) (resourceCounts s) (loading s) (deletingShardIndex s) t (filterOpen s) (sortOpen s)
    (filterOption s) (sortOption s) (expandedSlots s) (migrationDialogOpen s).
Definition setFilterAnchorEl (b : bool) (s : State) : State :=
  MkState (shardsData s) (resourceCounts s) (loading s) (deletingShardIndex s) (searchTerm s) b (sortOpen s)
    (filterOption s) (sortOption s) (expandedSlots s) (migrationDialogOpen s).
Definition setSortAnchorEl (b : bool) (s : State) : State :=
  MkState (shardsData s) (resourceCounts s) (loading s) (deletingShardIndex s) (searchTerm s) (filterOpen s) b
    (filterOption s) (sortOption s) (expandedSlots s) (migrationDialogOpen s).
Definition setFilterOption (o : string) (s : State) : State :=
  MkState (shardsData s) (resourceCounts s) (loading s) (deletingShardIndex s) (searchTerm s) (filterOpen s)
    (sortOpen s) o (sortOption s) (expandedSlots s) (migrationDialogOpen s).
Definition setSortOption (o : string) (s : State) : State :=
  MkState (shardsData s) (resourceCounts s) (loading s) (deletingShardIndex s) (searchTerm s) (filterOpen s)
    (sortOpen s) (filterOption s) o (expandedSlots s) (migrationDialogOpen s).
Definition setExpandedSlots (e : gset nat) (s : State) : State :=
  MkState (shardsData s) (resourceCounts s) (loading s) (deletingShardIndex s) (searchTerm s) (filterOpen s)
    (sortOpen s) (filterOption s) (sortOption s) e (migrationDialogOpen s).
Definition setMigrationDialogOpen (b : bool) (s : State) : State :=
  MkState (shardsData s) (resourceCounts s) (loading s) (deletingShardIndex s) (searchTerm s) (filterOpen s)
    (sortOpen s) (filterOption s) (sortOption s) (expandedSlots s) b.

(** ** One shard *)

Definition isActiveMigration (migratingSlot : value) : bool :=
  negb (strict_eq migratingSlot VNull) && negb (strict_eq migratingSlot VUndefined)
  && negb (strict_eq migratingSlot (VStr "")) && negb (strict_eq migratingSlot (VStr "-1")).

Definition isActiveImport (importingSlot : value) : bool :=
  negb (strict_eq importingSlot VNull) && negb (strict_eq importingSlot VUndefined)
  && negb (strict_eq importingSlot (VStr "")) && negb (strict_eq importingSlot (VStr "-1")).

(** [v?.length || 0]; an object that is not an array has no length. *)
Definition len_or_zero (v : value) : Z :=
  match v with
  | VArr l => Z.of_nat (length l)
  | VStr s => Z.of_nat (String.length s)
  | _ => 0
  end.

(** [v && v.length > 0] *)
Definition non_empty (v : value) : bool := truthy v && (0 <? len_or_zero v).

(** The row fetchData and refreshShardData build. *)
Definition processShard (i : nat) (shard : value) : result ShardData :=
  nodes ← get shard "nodes";
  ranges ← get shard "slot_ranges";
  mig ← get shard "migrating_slot";
  imp ← get shard "import_slot";
  target ← get shard "target_shard_index";
  let migratingSlot := js_or mig (VStr "") in
  let importingSlot := js_or imp (VStr "") in
  Ok (MigrationDialog.MkShard i (elements (js_or nodes (VArr []))) (elements (js_or ranges (VArr [])))
        migratingSlot importingSlot (js_or target (vnum (-1))) (len_or_zero nodes) (non_empty ranges)
        (isActiveMigration migratingSlot) (isActiveImport importingSlot)).

(** [v !== null && v !== undefined ? v : -1] *)
Definition or_minus_one (v : value) : value := if nullish v then vnum (-1) else v.

(** The row handleDeleteShard builds. *)
Definition processShardAfterDelete (i : nat) (shard : value) : result ShardData :=
  nodes ← get shard "nodes";
  ranges ← get shard "slot_ranges";
  mig ← get shard "migrating_slot";
  imp ← get shard "import_slot";
  target ← get shard "target_shard_index";
  let migratingSlot := or_minus_one mig in
  let importingSlot := or_minus_one imp in
  Ok (MigrationDialog.MkShard i (elements (js_or nodes (VArr []))) (elements (js_or ranges (VArr [])))
        migratingSlot importingSlot (js_or target (vnum (-1))) (len_or_zero nodes) (non_empty ranges)
        (js_ge migratingSlot 0) (js_ge importingSlot 0)).

(** [map] with the counters [totalNodes], [withSlots] and [migrating] that its
    function increments.  The functions await nothing, so Promise.all does not
    interleave them. *)
Record Totals := MkTotals { totalNodes : Z; t_withSlots : Z; t_migrating : Z }.

Fixpoint processAll (process : nat -> value -> result ShardData) (i : nat) (l : list value)
    (t : Totals) : result (list ShardData * Totals) :=
  match l with
  | [] => Ok ([], t)
  | shard :: l' =>
      row ← process i shard;
      '(rows, t') ← processAll process (S i) l'
        (MkTotals (totalNodes t + nodeCount row) (t_withSlots t + if hasSlots row then 1 else 0)
           (t_migrating t + if hasMigration row then 1 else 0));
      Ok (row :: rows, t')
  end.

Definition showShards (r : list ShardData * Totals) : prog State unit :=
  let '(rows, t) := r in
  _ ← set_state (setShardsData rows);
  set_state (setResourceCounts
    (MkCounts (Z.of_nat (length rows)) (totalNodes t) (t_withSlots t) (t_migrating t))).

(** The common body of fetchData and refreshShardData. *)
Definition loadShards (namespace cluster : string) : prog State unit :=
  fetchedShards ← listShards namespace cluster;
  if negb (truthy fetchedShards) then _ ← emit (OConsole "Shards not found"); emit (OPush "/404")
  else
    l ← lift (as_array fetchedShards "map");
    r ← lift (processAll processShard 0 l (MkTotals 0 0 0));
    showShards r.

Definition fetchData (namespace cluster : string) : prog State unit :=
  finally_
    (try_catch (loadShards namespace cluster) (fun error => emit (OConsole "Error fetching shards:")))
    (set_state (setLoading false)).

Definition refreshShardData (namespace cluster : string) : prog State unit :=
  _ ← set_state (setLoading true);
  finally_
    (try_catch (loadShards namespace cluster) (fun error => emit (OConsole "Error fetching shards:")))
    (set_state (setLoading false)).

Definition handleDeleteShard (namespace cluster : string) (i : nat) : prog State unit :=
  ok ← confirm ("Are you sure you want to delete Shard " +:+ nat_to_string (i + 1)
                +:+ "? This action cannot be undone.");
  if negb ok then Ret tt
  else
    finally_
      (try_catch
         (_ ← set_state (setDeletingShardIndex (Some i));
          responseMessage ← deleteShard namespace cluster (nat_to_string i);
          if truthy responseMessage && negb (strict_eq responseMessage (VStr ""))
          then emit (OAlert ("Failed to delete shard: " +:+ to_string responseMessage))
          else
            fetchedShards ← listShards namespace cluster;
            l ← lift (as_array (js_or fetchedShards (VArr [])) "map");
            r ← lift (processAll processShardAfterDelete 0 l (MkTotals 0 0 0));
            showShards r)
         (fun error => emit (OAlert ("Failed to delete shard: " +:+ exn_to_string error))))
      (set_state (setDeletingShardIndex None)).

(** ** Filter and sort *)

Definition filterShard (searchTerm filterOption : string) (s : ShardData) : bool :=
  if negb (includes (toLowerCase ("shard " +:+ nat_to_string (index s + 1))) (toLowerCase searchTerm)) then false
  else if String.eqb filterOption "with-migration" then hasMigration s
  else if String.eqb filterOption "no-migration" then negb (hasMigration s)
  else if String.eqb filterOption "with-slots" then hasSlots s
  else if String.eqb filterOption "no-slots" then negb (hasSlots s)
  else if String.eqb filterOption "with-importing" then hasImporting s
  else true.

Definition compareShards (sortOption : string) : ShardData -> ShardData -> Z :=
  if String.eqb sortOption "index-asc" then fun a b => Z.of_nat (index a) - Z.of_nat (index b)
  else if String.eqb sortOption "index-desc" then fun a b => Z.of_nat (index b) - Z.of_nat (index a)
  else if String.eqb sortOption "nodes-desc" then fun a b => nodeCount b - nodeCount a
  else if String.eqb sortOption "nodes-asc" then fun a b => nodeCount a - nodeCount b
  else fun _ _ => 0.

Definition filteredAndSortedShards (s : State) : list ShardData :=
  sort_by (compareShards (sortOption s))
    (List.filter (filterShard (searchTerm s) (filterOption s)) (shardsData s)).

(** ** Slots *)

Definition formatSlotRanges (ranges : list value) (showAll : bool) : string :=
  match ranges with
  | [] => "None"
  | _ =>
      if showAll || (length ranges <=? 2)%nat then join ", " (map to_string ranges)
      else to_string (nth 0 ranges VUndefined) +:+ ", " +:+ to_string (nth 1 ranges VUndefined)
           +:+ ", ... (+" +:+ nat_to_string (length ranges - 2) +:+ " more)"
  end.

(** [for (let i = start; i <= end; i++) slots.push(i)], for finite bounds. *)
Definition count_up (start end_ : number) : list number :=
  match start, end_ with
  | Fin a, Fin b => map (fun k => num_add start (num_nat k)) (seq 0 (Z.to_nat (Qfloor (b - a) + 1)))
  | _, _ => []
  end.

Definition expandRange (range : value) : result (list number) :=
  dash ← js_includes range "-";
  if (dash : bool)
  then parts ← js_split range "-"%char;
       let start := Number (nth 0 parts "") in
       let end_ := Number (nth 1 parts "") in
       Ok (if negb (isNaN start) && negb (isNaN end_) then count_up start end_ else [])
  else let slot := to_number range in
       Ok (if negb (isNaN slot) then [slot] else []).

Definition expandSlotRanges (ranges : list value) : result (list number) :=
  slots ← mapM_result expandRange ranges;
  Ok (stable_sort (fun a b => num_le (num_sub a b) (num 0)) (concat slots)).

Definition toggleSlotExpansion (s : State) (shardIndex : nat) : prog State unit :=
  set_state (setExpandedSlots
    (if decide (shardIndex ∈ expandedSlots s) then expandedSlots s ∖ {[shardIndex]}
     else expandedSlots s ∪ {[shardIndex]})).

(** ** Events *)

Inductive Event :=
| Mount
| DeleteShard (i : nat)
| ToggleSlots (i : nat)
| OpenMigration
| CloseMigration
| MigrationSucceeded
| TypeSearch (t : string)
| ClearSearch
| OpenFilter
| CloseFilter
| OpenSort
| CloseSort
| PickFilter (o : string)
| PickSort (o : string)
| EmptyAction.

Record Params := MkParams { p_namespace : string; p_cluster : string }.

Definition update (p : Params) (s : State) (e : Event) : prog State unit :=
  match e with
  | Mount => fetchData (p_namespace p) (p_cluster p)
  | DeleteShard i => handleDeleteShard (p_namespace p) (p_cluster p) i
  | ToggleSlots i => toggleSlotExpansion s i
  | OpenMigration => set_state (setMigrationDialogOpen true)
  | CloseMigration => set_state (setMigrationDialogOpen false)
  | MigrationSucceeded => refreshShardData (p_namespace p) (p_cluster p)
  | TypeSearch t => set_state (setSearchTerm t)
  | ClearSearch => set_state (setSearchTerm "")
  | OpenFilter => set_state (setFilterAnchorEl true)
  | CloseFilter => set_state (setFilterAnchorEl false)
  | OpenSort => set_state (setSortAnchorEl true)
  | CloseSort => set_state (setSortAnchorEl false)
  | PickFilter o => set_state (setFilterOption o)
  | PickSort o => set_state (setSortOption o)
  | EmptyAction => Ret tt
  end.

(** ** View *)

Definition migrateDisabled (s : State) : bool := countb hasSlots (shardsData s) <? 2.

Definition headerView (p : Params) (s : State) : node Event :=
  El "div" []
    [El "div" [] [El "Typography" [] [El "StorageIcon" [] []; Text (p_cluster p)];
                  El "Typography" [] [Text "Manage shards in this cluster"]];
     El "div" []
       [El "div" []
          ([El "SearchIcon" [] [];
            El "input" [Attr "type" "text"; Attr "placeholder" "Search shards..."; Value (searchTerm s);
                        OnInput TypeSearch] []] ++
           when (negb (String.eqb (searchTerm s) "")) [El "button" [OnClick ClearSearch] [Text "x"]]);
        El "div" []
          [El "ShardCreation" [Attr "position" "page"; Attr "namespace" (p_namespace p); Attr "cluster" (p_cluster p)]
             [El "Button" [] [El "AddIcon" [] []; Text "Create Shard"]];
           El "Button" [OnClick OpenMigration; Disabled (migrateDisabled s)]
             [El "MoveUpIcon" [] []; Text "Migrate Slot"]]]].

Definition shardsCard (s : State) : node Event :=
  statCard "DnsIcon" "Shards" (Z_to_string (shards (resourceCounts s))).
Definition nodesCard (s : State) : node Event :=
  statCard "DeviceHubIcon" "Nodes" (Z_to_string (nodes (resourceCounts s))).
Definition withSlotsCard (s : State) : node Event :=
  statCard "StorageIcon" "With Slots" (Z_to_string (withSlots (resourceCounts s))).
Definition migratingCard (s : State) : node Event :=
  statCard "WarningIcon" "Migrating" (Z_to_string (migrating (resourceCounts s))).

Definition toolbarView : node Event :=
  El "div" []
    [El "Typography" [] [Text "All Shards"];
     El "Tooltip" [Attr "title" "Filter"] [El "IconButton" [OnClick OpenFilter] [El "FilterListIcon" [] []]];
     El "Tooltip" [Attr "title" "Sort"] [El "IconButton" [OnClick OpenSort] [El "SortIcon" [] []]]].

Definition allOption (s : State) : node Event :=
  radioView "all" None "All shards" (Some (Z.of_nat (length (shardsData s)))).
Definition withMigrationOption (s : State) : node Event :=
  radioView "with-migration" None "With migration" (Some (countb hasMigration (shardsData s))).
Definition noMigrationOption (s : State) : node Event :=
  radioView "no-migration" None "No migration" (Some (countb (fun c => negb (hasMigration c)) (shardsData s))).
Definition withSlotsOption (s : State) : node Event :=
  radioView "with-slots" None "With slots" (Some (countb hasSlots (shardsData s))).
Definition noSlotsOption (s : State) : node Event :=
  radioView "no-slots" None "No slots" (Some (countb (fun c => negb (hasSlots c)) (shardsData s))).
Definition withImportingOption (s : State) : node Event :=
  radioView "with-importing" None "With importing" (Some (countb hasImporting (shardsData s))).

Definition filterCloseButton : node Event := El "Button" [OnClick CloseFilter] [Text "Close"].

Definition filterPopover (s : State) : node Event :=
  El "Popover" [Open (filterOpen s); OnClose CloseFilter]
    [El "Typography" [] [Text "Filter Shards"];
     El "RadioGroup" [Value (filterOption s); OnPick PickFilter]
       [allOption s; withMigrationOption s; noMigrationOption s; withSlotsOption s; noSlotsOption s;
        withImportingOption s];
     filterCloseButton].

Definition sortOptionsView (s : State) : list (node Event) :=
  let n := nat_to_string (length (shardsData s)) in
  [radioView "index-asc" (Some "ArrowUpwardIcon") ("Index 1-" +:+ n) None;
   radioView "index-desc" (Some "ArrowDownwardIcon") ("Index " +:+ n +:+ "-1") None;
   radioView "nodes-desc" (Some "ArrowDownwardIcon") "Most nodes" None;
   radioView "nodes-asc" (Some "ArrowUpwardIcon") "Least nodes" None].

Definition sortCloseButton : node Event := El "Button" [OnClick CloseSort] [Text "Close"].

Definition sortPopover (s : State) : node Event :=
  El "Popover" [Open (sortOpen s); OnClose CloseSort]
    [El "Typography" [] [Text "Sort Shards"];
     El "RadioGroup" [Value (sortOption s); OnPick PickSort] (sortOptionsView s);
     sortCloseButton].

Definition shardUrl (p : Params) (c : ShardData) : string :=
  "/namespaces/" +:+ p_namespace p +:+ "/clusters/" +:+ p_cluster p +:+ "/shards/" +:+ nat_to_string (index c).

Definition badgesView (c : ShardData) : list (node Event) :=
  when (hasMigration c) [El "div" [] [Text ("Migrating " +:+ to_string (migratingSlot c))]] ++
  when (negb (hasMigration c) && negb (hasImporting c)) [El "div" [] [Text "Stable"]] ++
  when (hasImporting c) [El "div" [] [Text ("Importing " +:+ to_string (importingSlot c))]].

(** [n !== 1 ? "s" : ""] *)
Definition plural (n : nat) : string := if (n =? 1)%nat then "" else "s".

(** [v + 1]: a string is extended, anything else is converted to a number. *)
Definition plus_one (v : value) : string :=
  match v with VStr s => s +:+ "1" | _ => num_to_string (num_add (to_number v) (num 1)) end.

(** The collapsed list of all ranges with the number of slots; a range that is
    not a string makes the render throw. *)
Definition allRangesView (c : ShardData) : list (node Event) :=
  match expandSlotRanges (slotRanges c) with
  | Ok slots =>
      [El "Typography" [] [Text ("All Slot Ranges (" +:+ nat_to_string (length slots) +:+ " total slots):")];
       El "Typography" [] [Text (join ", " (map to_string (slotRanges c)))]]
  | Err e => [El "ErrorBoundary" [] [Text (exn_message e)]]
  end.

Definition slotsView (s : State) (c : ShardData) : node Event :=
  if hasSlots c then
    let n := length (slotRanges c) in
    El "div" []
      [El "div" []
         ([El "Typography" [] [El "StorageIcon" [] []; Text ("Slots: " +:+ formatSlotRanges (slotRanges c) false)];
           El "Chip" [Attr "label" (nat_to_string n +:+ " range" +:+ plural n)] []] ++
          when (2 <? n)%nat
            [El "IconButton" [OnClick (ToggleSlots (index c))]
               [if decide (index c ∈ expandedSlots s) then El "ExpandLessIcon" [] [] else El "ExpandMoreIcon" [] []]]);
       El "Collapse" [Attr "in" (if decide (index c ∈ expandedSlots s) then "true" else "false")] (allRangesView c)]
  else El "Typography" [] [El "StorageIcon" [] []; Text "No slots assigned"].

Definition targetView (c : ShardData) : list (node Event) :=
  when (js_ge (targetShardIndex c) 0)
    [El "Typography" [] [El "InfoIcon" [] []; Text ("Target shard: " +:+ plus_one (targetShardIndex c))]].

Definition nameView (p : Params) (s : State) (c : ShardData) : node Event :=
  El "Link" [Href (shardUrl p c)]
    [El "div" [] (El "Typography" [] [Text ("Shard " +:+ nat_to_string (index c + 1))] :: badgesView c);
     El "div" []
       ([El "Typography" [] [El "DeviceHubIcon" [] []; Text (Z_to_string (nodeCount c) +:+ " nodes")];
         slotsView s c] ++
        targetView c)].

Definition chipsView (c : ShardData) : node Event :=
  let n := length (slotRanges c) in
  El "div" []
    ([El "Chip" [Attr "label" (Z_to_string (nodeCount c) +:+ " nodes")] [];
      if hasSlots c then El "Chip" [Attr "label" (nat_to_string n +:+ " slot" +:+ plural n)] []
      else El "Chip" [Attr "label" "No slots"] []] ++
     when (hasMigration c) [El "Chip" [Attr "label" ("Migrating " +:+ to_string (migratingSlot c))] []] ++
     when (hasImporting c) [El "Chip" [Attr "label" ("Importing " +:+ to_string (importingSlot c))] []] ++
     when (js_ge (targetShardIndex c) 0)
       [El "Chip" [Attr "label" ("Target: " +:+ plus_one (targetShardIndex c))] []]).

Definition statusText (c : ShardData) : string :=
  if hasMigration c then "Migrating" else if hasImporting c then "Importing" else "Stable".

Definition statsView (c : ShardData) : node Event :=
  El "div" []
    [El "div" [] [El "Typography" [] [Text "Nodes"]; El "Typography" [] [Text (Z_to_string (nodeCount c))]];
     El "div" [] [El "Typography" [] [Text "Slots"];
                  El "Typography" [] [Text (if hasSlots c then nat_to_string (length (slotRanges c)) else "0")]];
     El "div" [] [El "Typography" [] [Text "Status"]; El "Typography" [] [Text (statusText c)]]].

Definition isDeleting (s : State) (i : nat) : bool :=
  match deletingShardIndex s with Some d => (d =? i)%nat | None => false end.

Definition actionsView (p : Params) (s : State) (c : ShardData) : node Event :=
  El "div" []
    [El "button" [OnClick (DeleteShard (index c)); Disabled (isDeleting s (index c))] [El "DeleteIcon" [] []];
     El "Link" [Href (shardUrl p c)] [El "ChevronRightIcon" [] []]].

Definition rowView (p : Params) (s : State) (c : ShardData) : node Event :=
  El "Paper" [Attr "key" (nat_to_string (index c))]
    [El "DnsIcon" [] []; nameView p s c; chipsView c; statsView c; actionsView p s c].

Definition emptyView (p : Params) (s : State) : node Event :=
  El "div" []
    [El "EmptyState" []
       [Text (if negb (String.eqb (filterOption s) "all") then "No matching shards" else "No shards found");
        Text (if negb (String.eqb (filterOption s) "all") then "Try changing your filter settings"
              else if negb (String.eqb (searchTerm s) "") then "Try adjusting your search term"
              else "Create a shard to get started");
        El "DnsIcon" [] [];
        El "Button" [OnClick EmptyAction] [Text "Create Shard"]];
     El "ShardCreation" [Attr "position" "card"; Attr "namespace" (p_namespace p); Attr "cluster" (p_cluster p)] []].

Definition listView (p : Params) (s : State) : node Event :=
  match filteredAndSortedShards s with
  | [] => emptyView p s
  | rows => El "div" [] (map (rowView p s) rows)
  end.

Definition footerView (s : State) : list (node Event) :=
  when (0 <? length (filteredAndSortedShards s))%nat
    [El "Typography" [] [Text ("Showing " +:+ nat_to_string (length (filteredAndSortedShards s)) +:+ " of "
                               +:+ nat_to_string (length (shardsData s)) +:+ " shards")]].

(** The properties of the migration dialog at the end of the page. *)
Definition dialogProps (p : Params) (s : State) : MigrationDialogProps :=
  MigrationDialog.MkProps (migrationDialogOpen s) (p_namespace p) (p_cluster p) (shardsData s).

Definition view (p : Params) (s : State) : list (node Event) :=
  if loading s then [El "LoadingSpinner" [] []]
  else
    [El "div" [] [El "ClusterSidebar" [Attr "namespace" (p_namespace p)] []];
     El "Box" []
       [headerView p s;
        El "div" [] [El "Grid" [] [shardsCard s; nodesCard s; withSlotsCard s; migratingCard s]];
        El "Paper" [] ([toolbarView; filterPopover s; sortPopover s; listView p s] ++ footerView s)];
     El "MigrationDialog" [Open (migrationDialogOpen s); OnClose CloseMigration] []].

(** ** Loading *)

Definition consistent (s : State) : Prop :=
  let rows := shardsData s in
  shards (resourceCounts s) = Z.of_nat (length rows) /\
  nodes (resourceCounts s) = sumZ (map nodeCount rows) /\
  withSlots (resourceCounts s) = countb hasSlots rows /\
  migrating (resourceCounts s) = countb hasMigration rows /\
  map index rows = seq 0 (length rows).

(** A row function that numbers its row. *)
Definition numbers (process : nat -> value -> result ShardData) : Prop :=
  forall i v row, process i v = Ok row -> index row = i.

Lemma processShard_numbers : numbers processShard.
Proof. intros i v row H. unfold processShard in H. repeat (apply result_bind_inv in H as (? & _ & H)). by simplify_eq. Qed.

Lemma processShardAfterDelete_numbers : numbers processShardAfterDelete.
Proof. intros i v row H. unfold processShardAfterDelete in H. repeat (apply result_bind_inv in H as (? & _ & H)). by simplify_eq. Qed.

Lemma countb_cons {A} (p : A -> bool) x l : countb p (x :: l) = (if p x then 1 else 0) + countb p l.
Proof. unfold countb. simpl. destruct (p x); simpl; lia. Qed.

Lemma processAll_spec process i l t rows t' :
  numbers process -> processAll process i l t = Ok (rows, t') ->
  length rows = length l /\ map index rows = seq i (length rows) /\
  totalNodes t' = totalNodes t + sumZ (map nodeCount rows) /\
  t_withSlots t' = t_withSlots t + countb hasSlots rows /\
  t_migrating t' = t_migrating t + countb hasMigration rows.
Proof.
  intros Hp. revert i t rows t'. induction l as [|v l IH]; intros i t rows t' H; simpl in H.
  { simplify_eq. unfold countb. simpl. split_and!; try done; lia. }
  apply result_bind_inv in H as (row & Hrow & H). apply result_bind_inv in H as ([rows' t1] & H1 & H).
  simplify_eq. apply IH in H1 as (Hl & Hi & Hn & Hs & Hm). simpl in *.
  rewrite !countb_cons, Hn, Hs, Hm, Hl, Hi, (Hp _ _ _ Hrow), Hl. split_and!; try done; lia.
Qed.

Lemma shown_consistent process l rows t s :
  numbers process -> processAll process 0 l (MkTotals 0 0 0) = Ok (rows, t) ->
  consistent (setResourceCounts (MkCounts (Z.of_nat (length rows)) (totalNodes t) (t_withSlots t) (t_migrating t))
                (setShardsData rows s)).
Proof.
  intros Hp (_ & Hi & Hn & Hs & Hm)%processAll_spec; [|done]. unfold consistent. simpl in *.
  split_and!; [done|lia|lia|lia|done].
Qed.

(** The rows a loading step may leave: those of before, or new consistent ones. *)
Definition kept_or_consistent (s s' : State) : Prop :=
  (shardsData s' = shardsData s /\ resourceCounts s' = resourceCounts s) \/ consistent s'.

Lemma loadShards_wp ns c Q s l0 l :
  reads_only l0 l ->
  (forall o s' l', reads_only l0 l' -> loading s' = loading s -> kept_or_consistent s s' -> Q o s' l') ->
  wp (loadShards ns c) Q s l.
Proof.
  intros Hl HQ. assert (HE : forall o l', reads_only l0 l' -> Q o s l') by (intros; apply HQ; [done|done|by left]).
  unfold loadShards. eapply (wp_returns_bind _ _ _ _ _ l0); [apply listShards_returns|done| |eauto].
  intros v l1 _ Hl1. destruct (negb (truthy v)).
  { simpl. apply HE. eauto with kvc. }
  eapply (wp_returns_bind (fun _ => True) _ _ _ _ l0); [by apply returns_lift|done| |eauto].
  intros items l2 _ Hl2.
  eapply (wp_returns_bind (fun r => processAll processShard 0 items (MkTotals 0 0 0) = Ok r) _ _ _ _ l0);
    [by apply returns_lift|done| |eauto].
  intros [rows t] l3 Hr Hl3. simpl. apply HQ; [done|done|]. right.
  eapply shown_consistent; [apply processShard_numbers|exact Hr].
Qed.

(** Loading the page of a cluster ends for every answer of the server, sends
    only reads and leaves the loading state; the cards agree with the rows (number
    of shards, sum of nodes, shards with slots, shards that migrate) and the rows
    are numbered 0, 1, 2, ... in the server's order, or else everything is as it
    was.  Reloading after a migration ends in the same state as a first load. *)
Theorem cluster_load s ns c l :
  wp (fetchData ns c)
    (fun o s' l' => o = Ok tt /\ loading s' = false /\ reads_only l l' /\ kept_or_consistent s s') s l /\
  wp (refreshShardData ns c)
    (fun o s' l' => o = Ok tt /\ loading s' = false /\ reads_only l l' /\ kept_or_consistent s s') s l /\
  (forall f answer, exec f answer (refreshShardData ns c) s = exec f answer (fetchData ns c) s).
Proof.
  assert (Hload : forall b, wp (finally_ (try_catch (loadShards ns c)
      (fun error => emit (OConsole "Error fetching shards:"))) (set_state (setLoading false)))
    (fun o s' l' => o = Ok tt /\ loading s' = false /\ reads_only l l' /\ kept_or_consistent s s') (setLoading b s) l).
  { intros b. apply wp_finally, wp_try. eapply loadShards_wp; [apply reads_only_refl|].
    intros [[]|e] s' l' Hl' _ Hs'; simpl; split_and!; eauto with kvc. }
  split_and!.
  - specialize (Hload (loading s)). by destruct s.
  - apply Hload.
  - intros f answer. unfold refreshShardData, fetchData. rewrite exec_bind. cbn [eval exec set_state].
    rewrite !exec_finally, !exec_try. unfold loadShards. rewrite !exec_bind, !eval_bind.
    rewrite !(exec_stateless _ _ (listShards _ _))
      by (apply (returns_stateless (fun _ => True)), listShards_returns).
    destruct (eval f answer (listShards ns c)) as [v|]; [|done].
    destruct (negb (truthy v)); [done|]. destruct (as_array v "map") as [items|]; [|done].
    simpl. by destruct (processAll processShard 0 items _) as [[rows t]|].
Qed.

(** ** Deletion *)

Lemma deleteShard_wp {S} ns c i (Q : result value -> S -> list event -> Prop) s l :
  wp (deleteShard ns c i) Q s l <->
  forall a, Q (Ok (delete_result a)) s (l ++ [EvReq (mutation_request (MDeleteShard ns c i)) a]).
Proof. apply delete_call_wp. Qed.

(** The rows of a listing, each computed from its entry and its position. *)
Definition rows_of (items : list value) (rows : list ShardData) : Prop :=
  length rows = length items /\
  forall k v, items !! k = Some v -> exists row, rows !! k = Some row /\ processShardAfterDelete k v = Ok row.

Lemma processAll_rows process i l t rows t' :
  processAll process i l t = Ok (rows, t') ->
  length rows = length l /\
  forall k v, l !! k = Some v -> exists row, rows !! k = Some row /\ process (i + k)%nat v = Ok row.
Proof.
  revert i t rows t'. induction l as [|v l IH]; intros i t rows t' H; simpl in H; [by simplify_eq|].
  apply result_bind_inv in H as (row & Hrow & H). apply result_bind_inv in H as ([rows' t1] & H1 & H). simplify_eq.
  apply IH in H1 as [Hlen Hk]. split; [simpl; lia|]. intros [|k] w Hw; simpl in *; simplify_eq.
  - exists row. by rewrite Nat.add_0_r.
  - rewrite Nat.add_succ_r. by apply Hk.
Qed.

Lemma processAll_err process i l t e :
  processAll process i l t = Err e -> exists k v, l !! k = Some v /\ process (i + k)%nat v = Err e.
Proof.
  revert i t. induction l as [|v l IH]; intros i t H; [done|]. simpl in H.
  destruct (process i v) as [row|e'] eqn:Ep; simpl in H.
  - set (t1 := MkTotals _ _ _) in H. destruct (processAll process (S i) l t1) as [[rows t']|e'] eqn:E; simpl in H;
      [done|]. simplify_eq. destruct (IH _ _ E) as (k & w & Hk & Hw). exists (S k), w. by rewrite Nat.add_succ_r.
  - simplify_eq. exists 0%nat, v. by rewrite Nat.add_0_r.
Qed.

(** What follows an accepted deletion, [del] being the log up to it: exactly
    one request, the listing of the shards, and then the rows are those of its
    answer [b], with cards that agree with them.  They are left as they were only
    when that answer cannot be made into rows: it is no array, or one of its
    entries is null; the exception is shown. *)
Definition reloaded (ns c : string) (s : State) (del : list event) (s' : State) (l' : list event) : Prop :=
  exists b tail, l' = del ++ EvReq (Req GET (shardsPath ns c) VUndefined) b :: tail /\
  let fetchedShards := js_or (list_result "shards" b) (VArr []) in
  ((exists items, fetchedShards = VArr items /\ tail = [] /\
      rows_of items (shardsData s') /\ consistent s') \/
   (exists e, tail = [EvOut (OAlert ("Failed to delete shard: " +:+ exn_to_string e))] /\
      (as_array fetchedShards "map" = Err e \/
       exists items k v, fetchedShards = VArr items /\ items !! k = Some v /\ processShardAfterDelete k v = Err e) /\
      shardsData s' = shardsData s /\ resourceCounts s' = resourceCounts s)).

Definition confirmation (i : nat) : string :=
  "Are you sure you want to delete Shard " +:+ nat_to_string (i + 1) +:+ "? This action cannot be undone.".

(** The ends of a confirmed deletion that began with log [l]. *)
Definition deleted (ns c : string) (i : nat) (s : State) (l : list event) (s' : State) (l' : list event) : Prop :=
  deletingShardIndex s' = None /\ loading s' = loading s /\
  exists a, let del := l ++ [EvConfirm (confirmation i) true;
                             EvReq (mutation_request (MDeleteShard ns c (nat_to_string i))) a] in
    if accepted DELETE a then reloaded ns c s del s' l'
    else l' = del ++ [EvOut (OAlert ("Failed to delete shard: " +:+ to_string (delete_result a)))] /\
         shardsData s' = shardsData s /\ resourceCounts s' = resourceCounts s.

(** C37. Deleting a shard: nothing happens unless the user confirms; then exactly
    one DELETE is sent, for the zero-based index of the row.  If it is refused
    the error is shown and the rows stay.  If it is accepted exactly one more
    request follows, the listing of the shards, and the rows become those of its
    answer: one per entry, computed from that entry, numbered from 0 (so that the
    rows after the deleted one move up), with cards that agree with them; only an
    answer that cannot be made into rows leaves the old ones, with an alert.  The
    delete button is released in every case. *)
Theorem handleDeleteShard_spec ns c i s l :
  wp (handleDeleteShard ns c i)
    (fun o s' l' =>
       o = Ok tt /\
       ((l' = l ++ [EvConfirm (confirmation i) false] /\ s' = s) \/ deleted ns c i s l s' l')) s l.
Proof.
  unfold handleDeleteShard. apply wp_bind. intros [|]; cbn [wp negb]; [|split; [done|by left]].
  wp_steps. rewrite deleteShard_wp. intros a. rewrite delete_result_truthy, delete_result_ok.
  destruct (accepted DELETE a) eqn:Ea; cbn [negb andb].
  2: { simpl. split; [done|]. right. split_and!; [done..|]. exists a. rewrite Ea. cbv zeta.
       rewrite <- !app_assoc. split; [reflexivity|done]. }
  wp_steps. rewrite listShards_wp. intros b.
  assert (Hend : forall s' tail, deletingShardIndex s' = None -> loading s' = loading s ->
    let del := l ++ [EvConfirm (confirmation i) true; EvReq (mutation_request (MDeleteShard ns c (nat_to_string i))) a] in
    reloaded ns c s del s' (del ++ EvReq (Req GET (shardsPath ns c) VUndefined) b :: tail) ->
    deleted ns c i s l s' ((((l ++ [EvConfirm (confirmation i) true]) ++
      [EvReq (mutation_request (MDeleteShard ns c (nat_to_string i))) a]) ++
      [EvReq (Req GET (shardsPath ns c) VUndefined) b]) ++ tail)).
  { intros s' tail Hd Hl del H. split_and!; [done..|]. exists a. rewrite Ea. cbv zeta. unfold del in H.
    rewrite <- !app_assoc in *. exact H. }
  destruct (as_array (js_or (list_result "shards" b) (VArr [])) "map") as [items|e] eqn:Eitems; simpl.
  2: { split; [done|]. right. apply Hend; [done..|]. exists b. eexists. split; [reflexivity|]. right. exists e. eauto. }
  pose proof (as_array_ok _ _ _ Eitems) as Ev.
  destruct (processAll processShardAfterDelete 0 items (MkTotals 0 0 0)) as [[rows t]|e] eqn:Er; simpl.
  - split; [done|]. right. rewrite <- (app_nil_r (_ ++ [EvReq (Req GET _ _) _])). apply Hend; [done..|].
    exists b, []. split; [done|]. left. exists items. split_and!; [done..|exact (processAll_rows _ _ _ _ _ _ Er)|].
    apply (shown_consistent _ _ _ _ s processShardAfterDelete_numbers Er).
  - split; [done|]. right. apply Hend; [done..|]. exists b. eexists. split; [reflexivity|]. right. exists e.
    destruct (processAll_err _ _ _ _ _ Er) as (k & v & Hk & Hv). split_and!; [done| |done..]. right. by exists items, k, v.
Qed.

(** A server that accepts the deletion and then lists one shard without nodes. *)
Definition demo_reload (n : nat) (r : request) : axios_result * nat :=
  (match r_method r with
   | DELETE => Resolved VNull
   | _ => Resolved (VObj [("data", VObj [("shards", VArr [VObj [("slot_ranges", VArr [VStr "0-16383"])]])])])
   end, S n).

Lemma handleDeleteShard_spec_witness :
  let '(o, n, s', l') := run demo_reload (fun _ => true) (handleDeleteShard "ns" "c" 1) 0%nat init in
  n = 2%nat /\ map index (shardsData s') = [0%nat] /\ shards (resourceCounts s') = 1 /\
  o = Ok tt /\
  (([] ++ l' = [EvConfirm (confirmation 1) false] /\ s' = init) \/ deleted "ns" "c" 1 init [] s' ([] ++ l')).
Proof.
  pose proof (wp_run demo_reload (fun _ => true) _ _ 0%nat _ _ (handleDeleteShard_spec "ns" "c" 1 init [])) as H.
  remember (run demo_reload (fun _ => true) (handleDeleteShard "ns" "c" 1) 0%nat init) as R eqn:ER.
  destruct R as [[[o n] s'] l']. split_and!; [..|apply H|apply H]; vm_compute in ER; injection ER as -> -> -> ->; reflexivity.
Defined.

(** ** Shards of the real server *)

(** The string of a range is not empty and not "-1". *)
Lemma range_string_active r : wf_range r -> isActiveMigration (js_or (VStr (range_string r)) (VStr "")) = true.
Proof.
  unfold wf_range, MinSlotID. intros [[H0 H1] _].
  assert (Hd : forall t, Z_to_string (Start r) +:+ t <> "" /\ Z_to_string (Start r) +:+ t <> "-1").
  { intros t. pose proof (Z_to_string_no_dash (Start r) H0) as Hn.
    pose proof (Z_to_string_nonempty (Start r)) as Hne.
    destruct (Z_to_string (Start r)) as [|c u]; [done|]. split; [done|]. simpl. intros [= -> _]. done. }
  assert (Hs : range_string r <> "" /\ range_string r <> "-1").
  { unfold range_string. destruct (Start r =? Stop r); [|apply Hd]. rewrite <- (append_nil_r (Z_to_string _)). apply Hd. }
  destruct Hs as [Hs1 Hs2]. unfold js_or, truthy. destruct (String.eqb_spec (range_string r) ""); [done|].
  unfold isActiveMigration. simpl. destruct (String.eqb_spec (range_string r) ""); [done|].
  by destruct (String.eqb_spec (range_string r) "-1").
Qed.

(** The shard has a migration that its JSON shows. *)
Definition shows_migration (s : GoShard.Shard) : bool :=
  match Migrating s with Some m => IsMigrating m | None => false end.

Lemma processShard_json i s :
  wf_migrating s ->
  exists row, processShard i (shard_json s) = Ok row /\
    nodeCount row = Z.of_nat (length (Nodes s)) /\
    slotRanges row = map (fun r => VStr (range_string r)) (SlotRanges s) /\
    hasSlots row = (0 <? length (SlotRanges s))%nat /\
    hasMigration row = shows_migration s /\ hasImporting row = false.
Proof.
  intros Hw. eexists. split; [reflexivity|]. cbn [nodeCount slotRanges hasSlots hasMigration hasImporting].
  split_and!.
  - simpl. by rewrite length_map.
  - done.
  - unfold non_empty. simpl. rewrite length_map. destruct (Nat.ltb_spec 0 (length (SlotRanges s))); lia.
  - unfold shows_migration, wf_migrating in *. simpl prop. destruct (Migrating s) as [[r []]|]; try done.
    by apply range_string_active.
  - done.
Qed.

Lemma processShardAfterDelete_json i s :
  wf_migrating s ->
  exists row, processShardAfterDelete i (shard_json s) = Ok row /\
    hasMigration row = shows_migration s && negb (migrates_range s).
Proof.
  intros Hw. eexists. split; [reflexivity|]. cbn [hasMigration]. pose proof (migrating_ge_zero s Hw) as Hg.
  unfold shows_migration, migrates_range in *. simpl prop.
  destruct (Migrating s) as [[r []]|]; [|done..]. exact Hg.
Qed.

(** On the shards of the real server the loaded rows are right: the number of
    nodes, the ranges, and the migration flag exactly when the server reports a
    migration.  After a deletion the rows are built by other code: a shard that
    migrates a single slot is still flagged, but one that migrates a range of
    slots is shown as stable until the next load. *)
Theorem rows_of_server i s :
  wf_migrating s ->
  exists row row',
    processShard i (shard_json s) = Ok row /\ processShardAfterDelete i (shard_json s) = Ok row' /\
    nodeCount row = Z.of_nat (length (Nodes s)) /\
    slotRanges row = map (fun r => VStr (range_string r)) (SlotRanges s) /\
    hasSlots row = (0 <? length (SlotRanges s))%nat /\
    hasMigration row = shows_migration s /\
    (migrates_range s = false -> hasMigration row' = hasMigration row) /\
    (migrates_range s = true -> statusText row = "Migrating" /\ statusText row' = "Stable").
Proof.
  intros Hw. destruct (processShard_json i s Hw) as (row & Hr & Hn & Hrs & Hs & Hm & _).
  destruct (processShardAfterDelete_json i s Hw) as (row' & Hr' & Hm').
  exists row, row'. split_and!; try done.
  - intros Hf. by rewrite Hm', Hm, Hf, andb_true_r.
  - intros Hf. unfold statusText. rewrite Hm, Hm', Hf, andb_false_r.
    assert (shows_migration s = true) as ->.
    { unfold shows_migration, migrates_range in *. destruct (Migrating s) as [[r []]|]; done. }
    split; [done|]. clear -Hr'. unfold processShardAfterDelete in Hr'. simpl in Hr'. by simplify_eq.
Qed.

Lemma rows_of_server_witness :
  let s := GoShard.MkShard [] [MkRange 0 8191] 1 (Some (FromSlotRange (MkRange 100 200))) in
  exists row row',
    processShard 0 (shard_json s) = Ok row /\ processShardAfterDelete 0 (shard_json s) = Ok row' /\
    nodeCount row = 0 /\ slotRanges row = [VStr "0-8191"] /\ hasSlots row = true /\ hasMigration row = true /\
    (migrates_range s = false -> hasMigration row' = hasMigration row) /\
    (migrates_range s = true -> statusText row = "Migrating" /\ statusText row' = "Stable").
Proof.
  apply (rows_of_server 0 (GoShard.MkShard [] [MkRange 0 8191] 1 (Some (FromSlotRange (MkRange 100 200))))).
  repeat split; unfold MinSlotID, MaxSlotID; simpl; lia.
Defined.

(** ** Slots of a shard *)

(** The slots of a range, in order. *)
Definition range_slots (r : SlotRange) : list Z :=
  map (fun k => Start r + Z.of_nat k) (seq 0 (Z.to_nat (Stop r - Start r + 1))).

Lemma count_up_Z a b :
  count_up (num a) (num b) = map num (map (fun k => a + Z.of_nat k) (seq 0 (Z.to_nat (b - a + 1)))).
Proof.
  unfold count_up. cbv beta iota delta [num].
  replace (Qfloor (inject_Z b - inject_Z a)) with (b - a).
  - rewrite map_map. apply map_ext. intros k. exact (num_add_Z a (Z.of_nat k)).
  - unfold Qfloor, inject_Z, Qminus, Qplus, Qopp. simpl. rewrite Z.div_1_r. lia.
Qed.

Lemma expandRange_json r :
  wf_range r -> expandRange (VStr (range_string r)) = Ok (map num (range_slots r)).
Proof.
  unfold wf_range, MinSlotID. intros [[H0 H1] _]. unfold expandRange, range_string, range_slots.
  destruct (Z.eqb_spec (Start r) (Stop r)) as [E|Hne].
  - cbn [js_includes]. rewrite includes_char, Z_to_string_no_dash by lia. cbn [mbind result_bind to_number].
    rewrite Number_nonneg by lia. simpl isNaN. cbn [negb].
    replace (Z.to_nat (Stop r - Start r + 1)) with 1%nat by lia. simpl. by rewrite Z.add_0_r.
  - cbn [js_includes]. rewrite includes_char, any_char_append.
    change (Z_to_string (Start r) +:+ "-" +:+ ?t) with (Z_to_string (Start r) +:+ String "-" t).
    cbn [any_char String.append]. rewrite Ascii.eqb_refl, orb_true_r. cbn [mbind result_bind js_split].
    rewrite split_app by (apply Z_to_string_no_dash; lia).
    rewrite split_none by (apply Z_to_string_no_dash; lia). cbn [nth].
    rewrite !Number_nonneg by lia. simpl isNaN. cbn [negb andb]. by rewrite count_up_Z.
Qed.

Lemma range_slots_in r x : In x (range_slots r) <-> in_range r x.
Proof.
  unfold range_slots, in_range. rewrite in_map_iff. setoid_rewrite in_seq. split.
  - intros (k & <- & Hk). lia.
  - intros Hx. exists (Z.to_nat (x - Start r)). lia.
Qed.

Lemma range_slots_nodup r : NoDup (range_slots r).
Proof.
  unfold range_slots. apply NoDup_fmap_2; [intros i j; lia|]. apply NoDup_seq.
Qed.

Definition all_slots (rs : list SlotRange) : list Z := flat_map range_slots rs.

Lemma all_slots_in rs x : In x (all_slots rs) <-> in_ranges rs x.
Proof.
  unfold all_slots, in_ranges. rewrite in_flat_map. setoid_rewrite range_slots_in. done.
Qed.

Lemma in_ranges_after r rs x : normal (r :: rs) -> Forall ordered rs -> in_ranges rs x -> Stop r < x.
Proof.
  revert r. induction rs as [|r' rs IH]; intros r Hn Ho (q & Hq & Hx); [done|].
  destruct Hn as [Hg Hn]. inversion Ho as [|? ? Hr' Ho']; subst. unfold ordered, in_range in *.
  destruct Hq as [->|Hq]; [lia|]. assert (Stop r' < x); [|lia]. apply (IH r' Hn Ho'). by exists q.
Qed.

Lemma all_slots_nodup rs : normal rs -> Forall ordered rs -> NoDup (all_slots rs).
Proof.
  induction rs as [|r rs IH]; intros Hn Ho; simpl; [constructor|]. inversion Ho; subst.
  apply NoDup_app. split_and!; [apply range_slots_nodup| |apply IH; [apply Hn|done]].
  intros x Hx Hx'. apply list_elem_of_In, range_slots_in in Hx. apply list_elem_of_In, all_slots_in in Hx'.
  pose proof (in_ranges_after r rs x Hn ltac:(done) Hx'). unfold in_range in Hx. lia.
Qed.

Lemma mapM_expand rs :
  wf_ranges rs -> mapM_result expandRange (map (fun r => VStr (range_string r)) rs)
                  = Ok (map (fun r => map num (range_slots r)) rs).
Proof.
  induction 1 as [|r rs Hr _ IH]; [done|]. cbn [map mapM_result]. rewrite expandRange_json by done.
  cbn [mbind result_bind]. by rewrite IH.
Qed.

Lemma concat_nums rs : concat (map (fun r => map num (range_slots r)) rs) = map num (all_slots rs).
Proof. induction rs as [|r rs IH]; simpl; [done|]. by rewrite IH, map_app. Qed.

Lemma sort_nums l :
  stable_sort (fun a b => num_le (num_sub a b) (num 0)) (map num l) = map num (stable_sort Z.leb l).
Proof.
  set (cmp := fun a b => num_le (num_sub a b) (num 0)).
  assert (Hins : forall x ys, insert_sorted cmp (num x) (map num ys) = map num (insert_sorted Z.leb x ys)).
  { intros x ys. induction ys as [|y ys IH]; [done|]. cbn [map insert_sorted]. unfold cmp at 1.
    rewrite num_sub_Z. destruct (x <=? y); [done|]. cbn [map]. by rewrite IH. }
  induction l as [|x l IH]; [done|]. unfold stable_sort in *. cbn [map fold_right]. by rewrite IH.
Qed.

(** The expanded slots of a shard of the real server: in ascending order,
    each slot of its ranges exactly once and nothing else; so the number of total
    slots shown is the number of slots the shard owns. *)
Theorem expandSlotRanges_spec rs :
  wf_ranges rs -> normal rs ->
  exists slots, expandSlotRanges (map (fun r => VStr (range_string r)) rs) = Ok (map num slots) /\
    StronglySorted Z.le slots /\ NoDup slots /\ (forall x, In x slots <-> in_ranges rs x) /\
    Z.of_nat (length slots) = sumZ (map (fun r => Stop r - Start r + 1) rs).
Proof.
  intros Hw Hn.
  assert (Ho : Forall ordered rs).
  { eapply Forall_impl; [exact Hw|]. intros r [Hr _]. unfold ordered. lia. }
  exists (stable_sort Z.leb (all_slots rs)). unfold expandSlotRanges.
  rewrite mapM_expand by done. cbn [mbind result_bind]. rewrite concat_nums, sort_nums.
  pose proof (stable_sort_perm Z.leb (all_slots rs)) as HP. split_and!.
  - done.
  - eapply StronglySorted_impl; [|apply stable_sort_sorted; intros; lia]. cbv beta. lia.
  - rewrite HP. by apply all_slots_nodup.
  - intros x. rewrite <- all_slots_in. split; apply Permutation_in; [done|by symmetry].
  - rewrite length_stable_sort. clear -Ho. unfold all_slots.
    induction Ho as [|r rs Hr _ IH]; simpl; [done|]. rewrite length_app. unfold range_slots at 1.
    rewrite length_map, length_seq. unfold ordered in Hr. lia.
Qed.

Lemma expandSlotRanges_spec_witness :
  exists slots, expandSlotRanges [VStr "3-5"; VStr "9"] = Ok (map num slots) /\
    StronglySorted Z.le slots /\ NoDup slots /\
    (forall x, In x slots <-> in_ranges [MkRange 3 5; MkRange 9 9] x) /\ Z.of_nat (length slots) = 4.
Proof.
  apply (expandSlotRanges_spec [MkRange 3 5; MkRange 9 9]).
  - repeat constructor; unfold MinSlotID, MaxSlotID; simpl; lia.
  - simpl. lia.
Defined.
