(* ===== verification/ShardPage.v ===== *)
(** * The page of one shard
    (webui/src/app/namespaces/[namespace]/clusters/[cluster]/shards/[shard]/page.tsx)

    The nodes of a shard, a search box, a filter, a sort order, deletion of
    nodes, and the failover dialog.  The shard is kept as the value the server
    sent, so a render may throw. *)

From Stdlib Require Import Qround.
From S2P Require Import Prelude JsString JsNumber JsValue Effects View Api Collate Utils Slots GoShard FailoverDialog.

Record State := MkState {
  nodesData : value;
  loading : bool;
  deletingNodeIndex : option nat;
  searchTerm : string;
  filterOpen : bool;
  sortOpen : bool;
  filterOption : string;
  sortOption : string;
  failoverDialogOpen : bool }.

Definition init : State := MkState VNull true None "" false false "all" "index-asc" false.

Definition setNodesData (v : value) (s : State) : State :=
  MkState v (loading s) (deletingNodeIndex s) (searchTerm s) (filterOpen s) (sortOpen s) (filterOption s)
    (sortOption s) (failoverDialogOpen s).
Definition setLoading (b : bool) (s : State) : State :=
  MkState (nodesData s) b (deletingNodeIndex s) (searchTerm s) (filterOpen s) (sortOpen s) (filterOption s)
    (sortOption s) (failoverDialogOpen s).
Definition setDeletingNodeIndex (i : option nat) (s : State) : State :=
  MkState (nodesData s) (loading s) i (searchTerm s) (filterOpen s) (sortOpen s) (filterOption s)
    (sortOption s) (failoverDialogOpen s).
Definition setSearchTerm (t : string) (s : State) : State :=
  MkState (nodesData s) (loading s) (deletingNodeIndex s) t (filterOpen s) (sortOpen s) (filterOption s)
    (sortOption s) (failoverDialogOpen s).
Definition setFilterAnchorEl (b : bool) (s : State) : State :=
  MkState (nodesData s) (loading s) (deletingNodeIndex s) (searchTerm s) b (sortOpen s) (filterOption s)
    (sortOption s) (failoverDialogOpen s).
Definition setSortAnchorEl (b : bool) (s : State) : State :=
  MkState (nodesData s) (loading s) (deletingNodeIndex s) (searchTerm s) (filterOpen s) b (filterOption s)
    (sortOption s) (failoverDialogOpen s).
Definition setFilterOption (o : string) (s : State) : State :=
  MkState (nodesData s) (loading s) (deletingNodeIndex s) (searchTerm s) (filterOpen s) (sortOpen s) o
    (sortOption s) (failoverDialogOpen s).
Definition setSortOption (o : string) (s : State) : State :=
  MkState (nodesData s) (loading s) (deletingNodeIndex s) (searchTerm s) (filterOpen s) (sortOpen s)
    (filterOption s) o (failoverDialogOpen s).
Definition setFailoverDialogOpen (b : bool) (s : State) : State :=
  MkState (nodesData s) (loading s) (deletingNodeIndex s) (searchTerm s) (filterOpen s) (sortOpen s)
    (filterOption s) (sortOption s) b.

Record Params := MkParams { p_namespace : string; p_cluster : string; p_shard : string }.

(** ** Loading and deletion *)

Definition fetchPageShard (p : Params) : prog State value :=
  fetchShard (p_namespace p) (p_cluster p) (p_shard p).

Definition fetchData (p : Params) : prog State unit :=
  finally_
    (try_catch
       (fetchedNodes ← fetchPageShard p;
        if negb (truthy fetchedNodes)
        then _ ← emit (OConsole ("Shard " +:+ p_shard p +:+ " not found")); emit (OPush "/404")
        else set_state (setNodesData fetchedNodes))
       (fun error => emit (OConsole "Error fetching shard data:")))
    (set_state (setLoading false)).

Definition refreshShardData (p : Params) : prog State unit :=
  _ ← set_state (setLoading true);
  finally_
    (try_catch
       (fetchedNodes ← fetchPageShard p; set_state (setNodesData fetchedNodes))
       (fun error => emit (OConsole "Error refreshing shard data:")))
    (set_state (setLoading false)).

(** The handler of the delete button in row [index], which shows [node]. *)
Definition handleDeleteNode (p : Params) (index : nat) (node : value) : prog State unit :=
  ok ← confirm ("Are you sure you want to delete Node " +:+ nat_to_string (index + 1)
                +:+ "? This action cannot be undone.");
  if negb ok then Ret tt
  else
    finally_
      (try_catch
         (_ ← set_state (setDeletingNodeIndex (Some index));
          id ← lift (get node "id");
          res ← deleteNode (p_namespace p) (p_cluster p) (p_shard p) (to_string id);
          if truthy res then emit (OAlert ("Failed to delete node: " +:+ to_string res))
          else
            _ ← set_state (setLoading true);
            fetchedNodes ← fetchPageShard p;
            set_state (setNodesData fetchedNodes))
         (fun e => emit (OAlert ("Failed to delete node: " +:+ exn_to_string e))))
      (_ ← set_state (setDeletingNodeIndex None); set_state (setLoading false)).

(** ** What a render computes *)

(** [nodesData?.nodes?.some((node) => node.role === "slave") || false] *)
Definition hasReplicaNodes (nodesData : value) : result bool :=
  let nodes := prop nodesData "nodes" in
  if nullish nodes then Ok false
  else l ← as_array nodes "some";
       some_result (fun node => role ← get node "role"; Ok (strict_eq role (VStr "slave"))) l.

(** [Math.floor(n / d)] for a positive literal [d]. *)
Definition floor_div (n : number) (d : Z) : number :=
  match n with Fin q => num (Qfloor (q / inject_Z d)) | _ => n end.

(** The page's own copy of calculateUptime, on whatever [created_at] is. *)
Definition calculateUptime (dateNow : Z) (timestamp : value) : string :=
  let now := num (dateNow / 1000) in
  let uptimeSeconds := num_sub now (to_number timestamp) in
  if num_lt uptimeSeconds (num 60) then num_to_string uptimeSeconds +:+ " seconds"
  else if num_lt uptimeSeconds (num 3600) then num_to_string (floor_div uptimeSeconds 60) +:+ " minutes"
  else if num_lt uptimeSeconds (num 86400) then num_to_string (floor_div uptimeSeconds 3600) +:+ " hours"
  else num_to_string (floor_div uptimeSeconds 86400) +:+ " days".

(** Color and icon. *)
Definition getRoleInfo (role : value) : string * string :=
  if strict_eq role (VStr "master") then ("success", "CheckCircleIcon") else ("info", "DeviceHubIcon").

Definition filterNode (searchTerm filterOption : string) (idx : nat) (node : value) : result bool :=
  if negb (includes (toLowerCase ("node " +:+ nat_to_string (idx + 1))) (toLowerCase searchTerm)) then Ok false
  else if String.eqb filterOption "master" then role ← get node "role"; Ok (strict_eq role (VStr "master"))
  else if String.eqb filterOption "replica" then role ← get node "role"; Ok (negb (strict_eq role (VStr "master")))
  else Ok true.

Fixpoint filter_result (p : nat -> value -> result bool) (i : nat) (l : list value) : result (list value) :=
  match l with
  | [] => Ok []
  | x :: l' => b ← p i x; r ← filter_result p (S i) l'; Ok (if (b : bool) then x :: r else r)
  end.

(** [a.k - b.k] *)
Definition minus_field (k : string) (a b : value) : result number :=
  x ← get a k; y ← get b k; Ok (num_sub (to_number x) (to_number y)).

Definition compareNodes (sortOption : string) (a b : value) : result number :=
  if String.eqb sortOption "index-asc" then minus_field "index" a b
  else if String.eqb sortOption "index-desc" then minus_field "index" b a
  else if String.eqb sortOption "uptime-desc" then minus_field "created_at" b a
  else if String.eqb sortOption "uptime-asc" then minus_field "created_at" a b
  else Ok (num 0).

Definition filteredAndSortedNodes (s : State) : result (list value) :=
  l ← as_array (js_or (prop (nodesData s) "nodes") (VArr [])) "filter";
  l' ← filter_result (filterNode (searchTerm s) (filterOption s)) 0 l;
  sort_result (compareNodes (sortOption s)) l'.

(** ** Events *)

Inductive Event :=
| Mount
| DeleteNode (index : nat) (node : value)
| OpenFailover
| CloseFailover
| FailoverSucceeded
| TypeSearch (t : string)
| ClearSearch
| OpenFilter
| CloseFilter
| OpenSort
| CloseSort
| PickFilter (o : string)
| PickSort (o : string).

Definition update (p : Params) (s : State) (e : Event) : prog State unit :=
  match e with
  | Mount => fetchData p
  | DeleteNode i n => handleDeleteNode p i n
  | OpenFailover => set_state (setFailoverDialogOpen true)
  | CloseFailover => set_state (setFailoverDialogOpen false)
  | FailoverSucceeded => refreshShardData p
  | TypeSearch t => set_state (setSearchTerm t)
  | ClearSearch => set_state (setSearchTerm "")
  | OpenFilter => set_state (setFilterAnchorEl true)
  | CloseFilter => set_state (setFilterAnchorEl false)
  | OpenSort => set_state (setSortAnchorEl true)
  | CloseSort => set_state (setSortAnchorEl false)
  | PickFilter o => set_state (setFilterOption o)
  | PickSort o => set_state (setSortOption o)
  end.

(** ** View *)

Definition headerView (p : Params) (s : State) (hasReplicas : bool) : node Event :=
  El "div" []
    [El "div" [] [El "Typography" [] [El "DnsIcon" [] []; Text ("Shard " +:+ one_based (p_shard p))];
                  El "Typography" [] [Text "Manage nodes in this shard"]];
     El "div" []
       [El "div" []
          ([El "SearchIcon" [] [];
            El "input" [Attr "type" "text"; Attr "placeholder" "Search nodes..."; Value (searchTerm s);
                        OnInput TypeSearch] []] ++
           when (negb (String.eqb (searchTerm s) "")) [El "button" [OnClick ClearSearch] [Text "x"]]);
        El "div" []
          [El "Button" [Disabled (negb hasReplicas); OnClick OpenFailover]
             [El "SwapHorizIcon" [] []; Text "Failover"];
           El "NodeCreation" [Attr "position" "card"; Attr "namespace" (p_namespace p);
                              Attr "cluster" (p_cluster p); Attr "shard" (p_shard p)]
             [El "Button" [] [El "AddIcon" [] []; Text "Create Node"]]]]].

Definition toolbarView : node Event :=
  El "div" []
    [El "Typography" [] [Text "All Nodes"];
     El "div" []
       [El "Tooltip" [Attr "title" "Filter"]
          [El "IconButton" [OnClick OpenFilter] [El "FilterListIcon" [] []]];
        El "Tooltip" [Attr "title" "Sort"]
          [El "IconButton" [OnClick OpenSort] [El "SortIcon" [] []]]]].

Definition filterOptionsView : list (node Event) :=
  [radioView "all" None "All nodes" None; radioView "master" None "Master nodes" None;
   radioView "replica" None "Replica nodes" None].

Definition filterPopover (s : State) : node Event :=
  El "Popover" [Open (filterOpen s); OnClose CloseFilter]
    [El "Typography" [] [Text "Filter Nodes"];
     El "RadioGroup" [Value (filterOption s); OnPick PickFilter] filterOptionsView;
     El "Button" [OnClick CloseFilter] [Text "Close"]].

Definition sortOptionsView : list (node Event) :=
  [radioView "index-asc" None "Index 1-N" None; radioView "index-desc" None "Index N-1" None;
   radioView "uptime-desc" None "Newest" None; radioView "uptime-asc" None "Oldest" None].

Definition sortPopover (s : State) : node Event :=
  El "Popover" [Open (sortOpen s); OnClose CloseSort]
    [El "Typography" [] [Text "Sort Nodes"];
     El "RadioGroup" [Value (sortOption s); OnPick PickSort] sortOptionsView;
     El "Button" [OnClick CloseSort] [Text "Close"]].

Definition nodeUrl (p : Params) (index : nat) : string :=
  "/namespaces/" +:+ p_namespace p +:+ "/clusters/" +:+ p_cluster p +:+ "/shards/" +:+ p_shard p
  +:+ "/nodes/" +:+ nat_to_string index.

(** [truncateText(v, n)] on any value: a falsy one is returned, one without a
    substring method throws. *)
Definition truncateValue (v : value) (n : nat) : result value :=
  match v with
  | VStr t => Ok (VStr (truncateText t n))
  | VArr l => if (length l <=? n)%nat then Ok v else Err (JsErr "TypeError" "text.substring is not a function")
  | _ => if truthy v then Err (JsErr "TypeError" "text.substring is not a function") else Ok v
  end.

Definition detailsView (dateNow : Z) (node : value) : result (list (View.node Event)) :=
  id ← get node "id";
  short ← truncateValue id 10;
  addr ← get node "addr";
  created ← get node "created_at";
  idText ← child short;
  addrText ← child addr;
  Ok [El "Typography" [] [Text "ID: "; El "span" [] idText];
      El "Typography" [] [Text "Address: "; El "span" [] addrText];
      El "Typography" [] [El "AlarmIcon" [] []; Text ("Uptime: " +:+ calculateUptime dateNow created)]].

Definition roleBadge (role : value) : node Event :=
  El "div" [] [El "span" [] [Text (if strict_eq role (VStr "master") then "Master" else "Replica")]].

Definition isDeleting (s : State) (i : nat) : bool :=
  match deletingNodeIndex s with Some d => (d =? i)%nat | None => false end.

Definition rowView (p : Params) (dateNow : Z) (s : State) (index : nat) (node : value) :
    result (View.node Event) :=
  role ← get node "role";
  details ← detailsView dateNow node;
  Ok (El "Paper" [Attr "key" (nat_to_string index)]
        [El "DeviceHubIcon" [] [];
         El "Link" [Href (nodeUrl p index)]
           [El "div" [] [El "Typography" [] [Text ("Node " +:+ nat_to_string (index + 1))]; roleBadge role];
            El "div" [] details];
         El "button" [OnClick (DeleteNode index node); Disabled (isDeleting s index)] [El "DeleteIcon" [] []]]).

Fixpoint rowsView (p : Params) (dateNow : Z) (s : State) (i : nat) (l : list value) :
    result (list (node Event)) :=
  match l with
  | [] => Ok []
  | n :: l' => r ← rowView p dateNow s i n; rs ← rowsView p dateNow s (S i) l'; Ok (r :: rs)
  end.

Definition emptyView (s : State) : node Event :=
  El "EmptyState" []
    [Text (if negb (String.eqb (filterOption s) "all") then "No matching nodes" else "No nodes found");
     Text (if negb (String.eqb (filterOption s) "all") then "Try changing your filter settings"
           else if negb (String.eqb (searchTerm s) "") then "Try adjusting your search term"
           else "Create a node to get started");
     El "DeviceHubIcon" [] []].

Definition listView (p : Params) (dateNow : Z) (s : State) (rows : list value) : result (node Event) :=
  match rows with
  | [] => Ok (emptyView s)
  | _ => rs ← rowsView p dateNow s 0 rows; Ok (El "div" [] rs)
  end.

Definition footerView (s : State) (rows : list value) : list (node Event) :=
  when (0 <? length rows)%nat
    [El "Typography" [] [Text ("Showing " +:+ nat_to_string (length rows) +:+ " of "
       +:+ nat_to_string (length (elements (prop (nodesData s) "nodes"))) +:+ " nodes")]].

Definition render (p : Params) (dateNow : Z) (s : State) : result (list (node Event)) :=
  hasReplicas ← hasReplicaNodes (nodesData s);
  if loading s then Ok [El "LoadingSpinner" [] []]
  else
    rows ← filteredAndSortedNodes s;
    list ← listView p dateNow s rows;
    Ok [El "div" [] [El "ShardSidebar" [Attr "namespace" (p_namespace p); Attr "cluster" (p_cluster p)] []];
        El "Box" []
          [headerView p s hasReplicas;
           El "Paper" [] ([toolbarView; filterPopover s; sortPopover s; list] ++ footerView s rows)];
        El "FailoverDialog" [Open (failoverDialogOpen s); OnClose CloseFailover] []].

(** An exception in a render takes the whole page down. *)
Definition view (dateNow : Z) (p : Params) (s : State) : list (node Event) :=
  match render p dateNow s with
  | Ok v => v
  | Err e => [El "ErrorBoundary" [] [Text (exn_message e)]]
  end.

(** ** Loading *)

(** Loading the page of a shard sends exactly one GET, for this shard, and
    leaves the loading state whatever the answer; the page keeps what the server
    sent.  It goes to the 404 page exactly when an answer of the server carries a
    shard that is null or otherwise falsy: when the request itself fails, as for a
    shard that does not exist, the page shows an empty shard instead.  Reloading
    after a failover sends the same GET but never navigates. *)
Theorem shard_load p s l :
  let get a := EvReq (Req GET (shardPath (p_namespace p) (p_cluster p) (p_shard p)) VUndefined) a in
  wp (fetchData p)
    (fun o s' l' => o = Ok tt /\ exists a,
       if truthy (object_result "shard" a)
       then l' = l ++ [get a] /\ s' = setLoading false (setNodesData (object_result "shard" a) s)
       else l' = l ++ [get a; EvOut (OConsole ("Shard " +:+ p_shard p +:+ " not found")); EvOut (OPush "/404")] /\
            s' = setLoading false s) s l /\
  wp (refreshShardData p)
    (fun o s' l' => o = Ok tt /\ exists a,
       l' = l ++ [get a] /\ s' = setLoading false (setNodesData (object_result "shard" a) s)) s l /\
  (forall e, object_result "shard" (Rejected e) = VObj [] /\ truthy (VObj []) = true /\
     filteredAndSortedNodes (setNodesData (VObj []) s) = Ok []).
Proof.
  intros get. split_and!.
  - unfold fetchData. wp_steps. unfold fetchPageShard. rewrite fetchShard_wp. intros a.
    destruct (truthy (object_result "shard" a)) eqn:E; simpl.
    + split; [done|]. exists a. by rewrite E.
    + split; [done|]. exists a. rewrite E. by rewrite <- !app_assoc.
  - unfold refreshShardData. wp_steps. unfold fetchPageShard. rewrite fetchShard_wp. intros a. simpl.
    split; [done|]. by exists a.
  - done.
Qed.

(** ** Deletion *)

(** Deleting a node: nothing happens unless the user confirms; then exactly
    one DELETE is sent, for the identifier of the node the row shows (not for its
    position).  If it is refused the error is shown and the nodes stay; if it is
    accepted the shard is read again, once, and the page shows that answer.  The
    button is released and the page is not left loading in every case. *)
Theorem handleDeleteNode_spec p i n id s l :
  get n "id" = Ok (VStr id) ->
  wp (handleDeleteNode p i n)
    (fun o s' l' =>
       o = Ok tt /\ exists m,
       ((l' = l ++ [EvConfirm m false] /\ s' = s) \/
        exists a,
          let del := mutation_request (MDeleteNode (p_namespace p) (p_cluster p) (p_shard p) id) in
          let s1 := setLoading false (setDeletingNodeIndex None s) in
          if accepted DELETE a
          then exists b,
            l' = l ++ [EvConfirm m true; EvReq del a;
                       EvReq (Req GET (shardPath (p_namespace p) (p_cluster p) (p_shard p)) VUndefined) b] /\
            s' = setNodesData (object_result "shard" b) s1
          else
            l' = l ++ [EvConfirm m true; EvReq del a] ++ reported a ++
                      [EvOut (OAlert ("Failed to delete node: " +:+ to_string (delete_result a)))] /\
            s' = s1)) s l.
Proof.
  intros Hid. unfold handleDeleteNode. rewrite Hid. cbn [lift]. apply wp_bind. intros [|]; cbn [wp negb].
  2: { split; [done|]. eexists. by left. }
  wp_steps. rewrite deleteNode_wp. intros a. rewrite delete_result_truthy.
  destruct (accepted DELETE a) eqn:Ea; cbn [negb].
  - wp_steps. unfold fetchPageShard. rewrite fetchShard_wp. intros b. simpl. split; [done|].
    eexists. right. exists a. rewrite Ea. cbv zeta. exists b.
    rewrite (accepted_not_reported _ _ Ea), <- !app_assoc. done.
  - simpl. split; [done|]. eexists. right. exists a. rewrite Ea. cbv zeta. by rewrite <- !app_assoc.
Qed.

Lemma handleDeleteNode_spec_witness :
  let p := MkParams "ns" "c" "0" in
  wp (handleDeleteNode p 0 (VObj [("id", VStr "abc")])) (fun o s' _ => o = Ok tt /\ deletingNodeIndex s' = None) init [].
Proof.
  eapply wp_mono; [|apply (handleDeleteNode_spec (MkParams "ns" "c" "0") 0 (VObj [("id", VStr "abc")]) "abc"); reflexivity].
  cbv beta zeta. intros o s' l' (-> & m & [[_ ->]|(a & Ha)]); [done|].
  destruct (accepted DELETE a); [destruct Ha as (b & _ & ->)|destruct Ha as [_ ->]]; done.
Defined.

(** ** The nodes of a real shard *)

Definition matches (searchTerm filterOption : string) (i : nat) (n : GoNode) : bool :=
  includes (toLowerCase ("node " +:+ nat_to_string (i + 1))) (toLowerCase searchTerm) &&
  (if String.eqb filterOption "master" then String.eqb (Role n) "master"
   else if String.eqb filterOption "replica" then negb (String.eqb (Role n) "master") else true).

Definition by_uptime (sortOption : string) : GoNode -> GoNode -> Z :=
  if String.eqb sortOption "uptime-desc" then fun a b => CreatedAt b - CreatedAt a
  else if String.eqb sortOption "uptime-asc" then fun a b => CreatedAt a - CreatedAt b
  else fun _ _ => 0.

Lemma filter_result_pure {B} (f : B -> value) p (q : nat -> B -> bool) i l :
  (forall i x, p i (f x) = Ok (q i x)) -> filter_result p i (map f l) = Ok (map f (filteri_from i q l)).
Proof.
  intros H. revert i. induction l as [|x l IH]; intros i; [done|]. cbn [map filter_result].
  rewrite H, IH. cbn [mbind result_bind filteri_from]. by destruct (q i x).
Qed.

Lemma filterNode_json term opt i n : filterNode term opt i (node_json n) = Ok (matches term opt i n).
Proof.
  unfold filterNode, matches. destruct (includes _ _); [|done]. cbn [negb andb].
  destruct (String.eqb opt "master"); [done|]. by destruct (String.eqb opt "replica").
Qed.

Lemma at_most_zero_sub a b : at_most_zero (num_sub (num a) (num b)) = (a - b <=? 0).
Proof. unfold at_most_zero. simpl isNaN. cbn [orb]. rewrite num_sub_Z. lia. Qed.

(** No node has a field [index]: its difference is NaN, and NaN is no order. *)
Lemma compareNodes_json opt a b :
  (d ← compareNodes opt (node_json a) (node_json b); Ok (at_most_zero d)) = Ok (by_uptime opt a b <=? 0).
Proof.
  unfold compareNodes, by_uptime.
  destruct (String.eqb_spec opt "index-asc") as [->|_]; [done|].
  destruct (String.eqb_spec opt "index-desc") as [->|_]; [done|].
  destruct (String.eqb opt "uptime-desc"); [by rewrite <- at_most_zero_sub|].
  destruct (String.eqb opt "uptime-asc"); [by rewrite <- at_most_zero_sub|done].
Qed.

Lemma by_uptime_consistent opt : Consistent (by_uptime opt).
Proof. unfold by_uptime. repeat case_match; apply _. Qed.

(** The rows as nodes of the server. *)
Definition shownNodes (s : State) (sh : GoShard.Shard) : list GoNode :=
  sort_by (by_uptime (sortOption s)) (filteri (matches (searchTerm s) (filterOption s)) (Nodes sh)).

Lemma filteredAndSortedNodes_json s sh :
  nodesData s = shard_json sh -> filteredAndSortedNodes s = Ok (map node_json (shownNodes s sh)).
Proof.
  intros H. unfold filteredAndSortedNodes. rewrite H. change (prop (shard_json sh) "nodes") with (VArr (map node_json (Nodes sh))).
  cbn [js_or truthy as_array mbind result_bind].
  rewrite (filter_result_pure node_json _ (matches (searchTerm s) (filterOption s))) by apply filterNode_json.
  cbn [mbind result_bind]. apply sort_result_pure, compareNodes_json.
Qed.

(** For a shard of the real server the list shows exactly the nodes that
    match the search and the role filter, each as the server sent it; the newest
    and oldest orders sort them by their creation time, nodes of the same age in
    the server's order.  The two index orders do nothing, because no node has an
    index: they show the server's order both ways. *)
Theorem filteredAndSortedNodes_spec s sh :
  nodesData s = shard_json sh ->
  exists rows, filteredAndSortedNodes s = Ok (map node_json rows) /\
    Permutation rows (filteri (matches (searchTerm s) (filterOption s)) (Nodes sh)) /\
    (sortOption s = "uptime-desc" -> StronglySorted (fun a b => CreatedAt a >= CreatedAt b) rows) /\
    (sortOption s = "uptime-asc" -> StronglySorted (fun a b => CreatedAt a <= CreatedAt b) rows) /\
    (forall t, List.filter (fun n => CreatedAt n =? t) rows
               = List.filter (fun n => CreatedAt n =? t)
                   (filteri (matches (searchTerm s) (filterOption s)) (Nodes sh))) /\
    (sortOption s = "index-asc" \/ sortOption s = "index-desc" ->
     rows = filteri (matches (searchTerm s) (filterOption s)) (Nodes sh)).
Proof.
  intros H. exists (shownNodes s sh). split; [by apply filteredAndSortedNodes_json|].
  unfold shownNodes. set (l := filteri _ _).
  pose proof (@sort_by_sorted _ _ (by_uptime_consistent (sortOption s)) l) as Hs. split_and!.
  - apply sort_by_perm.
  - intros E. rewrite E in *. eapply StronglySorted_impl; [|exact Hs]. cbv beta. unfold by_uptime. simpl. lia.
  - intros E. rewrite E in *. eapply StronglySorted_impl; [|exact Hs]. cbv beta. unfold by_uptime. simpl. lia.
  - intros t. apply sort_by_stable. intros a b Ha Hb. unfold by_uptime. repeat case_match; lia.
  - intros [E|E]; rewrite E; by apply sort_by_zero.
Qed.

Definition demo_shard : GoShard.Shard :=
  GoShard.MkShard [MkGoNode "aaa" "127.0.0.1:1" "master" "" 100; MkGoNode "bbb" "127.0.0.1:2" "slave" "" 300;
                   MkGoNode "ccc" "127.0.0.1:3" "slave" "" 200] [MkRange 0 16383] (-1) None.

Definition demo_state (filter sort : string) : State :=
  MkState (shard_json demo_shard) false None "" false false filter sort false.

Lemma filteredAndSortedNodes_spec_witness :
  exists rows, filteredAndSortedNodes (demo_state "all" "index-desc") = Ok (map node_json rows) /\
    rows = Nodes demo_shard.
Proof.
  destruct (filteredAndSortedNodes_spec (demo_state "all" "index-desc") demo_shard eq_refl)
    as (rows & Hr & _ & _ & _ & _ & Hi).
  exists rows. split; [exact Hr|]. rewrite Hi by (right; reflexivity). reflexivity.
Defined.

(** ** The failover button *)

(** A node of the server as the failover dialog receives it. *)
Definition dialog_node (n : GoNode) : FailoverDialog.Node :=
  FailoverDialog.MkNode (ID n) (Addr n) (Role n) (CreatedAt n).

(** The properties of the dialog at the end of the page. *)
Definition dialogProps (p : Params) (s : State) (sh : GoShard.Shard) : FailoverDialogProps :=
  FailoverDialog.MkProps (failoverDialogOpen s) (p_namespace p) (p_cluster p) (p_shard p)
    (map dialog_node (Nodes sh)).

Lemma filter_map_nil {A B} (f : A -> B) (p : B -> bool) l :
  (length (List.filter p (map f l)) =? 0)%nat = negb (existsb (fun x => p (f x)) l).
Proof. induction l as [|x l IH]; simpl; [done|]. by destruct (p (f x)). Qed.

Lemma hasReplicaNodes_json sh :
  hasReplicaNodes (shard_json sh) = Ok (existsb (fun n => String.eqb (Role n) "slave") (Nodes sh)).
Proof.
  unfold hasReplicaNodes. change (prop (shard_json sh) "nodes") with (VArr (map node_json (Nodes sh))).
  cbn [nullish as_array mbind result_bind]. induction (Nodes sh) as [|n l IH]; [done|].
  cbn [map some_result existsb]. cbn -[some_result]. destruct (String.eqb (Role n) "slave"); [done|]. apply IH.
Qed.

(** The page and its dialog agree: for a shard of the real server the
    failover button is enabled exactly when the opened dialog offers at least one
    replica and, as long as it is idle, lets the user start the failover. *)
Theorem failover_button_agrees p s sh d :
  nodesData s = shard_json sh -> FailoverDialog.loading d = false ->
  exists b, hasReplicaNodes (nodesData s) = Ok b /\
    b = negb (FailoverDialog.failoverDisabled (dialogProps p s sh) d) /\
    (b = true <-> slaveNodes (FailoverDialog.p_nodes (dialogProps p s sh)) <> []).
Proof.
  intros -> Hd. rewrite hasReplicaNodes_json. eexists. split; [done|].
  unfold FailoverDialog.failoverDisabled. rewrite Hd. cbn [orb].
  assert (E : (length (slaveNodes (FailoverDialog.p_nodes (dialogProps p s sh))) =? 0)%nat
              = negb (existsb (fun n => String.eqb (Role n) "slave") (Nodes sh))) by apply filter_map_nil.
  rewrite E, negb_involutive. split; [done|].
  destruct (slaveNodes _), (existsb _ _); simpl in E; try done; naive_solver.
Qed.

Lemma failover_button_agrees_witness :
  exists b, hasReplicaNodes (shard_json demo_shard) = Ok b /\
    b = negb (FailoverDialog.failoverDisabled
                (dialogProps (MkParams "ns" "c" "0") (demo_state "all" "index-asc") demo_shard) FailoverDialog.init) /\
    (b = true <-> slaveNodes (map dialog_node (Nodes demo_shard)) <> []).
Proof.
  apply (failover_button_agrees (MkParams "ns" "c" "0") (demo_state "all" "index-asc") demo_shard FailoverDialog.init);
    reflexivity.
Defined.

(** ** Uptime *)

Lemma floor_div_Z z d : 0 < d -> floor_div (num z) d = num (z / d).
Proof.
  intros Hd. unfold floor_div, num. f_equal. f_equal. destruct d as [|d|d]; try lia.
  unfold Qfloor, inject_Z, Qdiv, Qinv, Qmult. simpl. by rewrite Z.mul_1_r.
Qed.

(** The page's copy of calculateUptime agrees with the one of utils.ts on
    every integer timestamp; a node without a creation time is NaN days old. *)
Theorem calculateUptime_agrees dateNow :
  (forall t, calculateUptime dateNow (vnum t) = Utils.calculateUptime dateNow t) /\
  calculateUptime dateNow VUndefined = "NaN days".
Proof.
  split; [|done]. intros t. unfold calculateUptime, Utils.calculateUptime, vnum. cbn [to_number].
  rewrite num_sub_exact, !num_lt_Z, !floor_div_Z, !num_to_string_Z by lia. done.
Qed.
