(* ===== verification/NodePage.v ===== *)
(** * The page of one node
    (webui/src/app/namespaces/[namespace]/clusters/[cluster]/shards/[shard]/nodes/[node]/page.tsx)

    The details of the node at a position of its shard, with buttons that copy
    its identifier, address and password.  What the clipboard does with the text
    and the printed form of a date are the browser's. *)

From S2P Require Import Prelude JsString JsNumber JsValue Effects View Api Collate Slots GoShard.
From S2P Require Import ShardPage.

Record Params := MkParams { p_namespace : string; p_cluster : string; p_shard : string; p_node : string }.

(** [timeouts] counts the pending setTimeout calls of copyToClipboard. *)
Record State := MkState {
  nodeData : value;
  loading : bool;
  copied : option string;
  timeouts : nat }.

Definition init : State := MkState (VArr []) true None 0.

Definition setNodeData (v : value) (s : State) : State := MkState v (loading s) (copied s) (timeouts s).
Definition setLoading (b : bool) (s : State) : State := MkState (nodeData s) b (copied s) (timeouts s).
Definition setCopied (c : option string) (s : State) : State := MkState (nodeData s) (loading s) c (timeouts s).
Definition setTimeouts (f : nat -> nat) (s : State) : State :=
  MkState (nodeData s) (loading s) (copied s) (f (timeouts s)).

Definition fetchData (p : Params) : prog State unit :=
  finally_
    (try_catch
       (fetchedNodes ← listNodes (p_namespace p) (p_cluster p) (p_shard p);
        if negb (truthy fetchedNodes)
        then _ ← emit (OConsole ("Shard " +:+ p_shard p +:+ " not found")); emit (OPush "/404")
        else set_state (setNodeData fetchedNodes))
       (fun error => emit (OConsole "Error fetching shard data:")))
    (set_state (setLoading false)).

(** [v[i]] for the result [i] of parseInt; a negative index or NaN names no element. *)
Definition at_index (v : value) (i : option Z) : result value :=
  match v with
  | VUndefined | VNull => get v (num_to_string (num_of_option i))
  | VArr l => Ok (match i with
                  | Some z => if (0 <=? z) && (z <? Z.of_nat (length l)) then nth (Z.to_nat z) l VUndefined
                              else VUndefined
                  | None => VUndefined
                  end)
  | VStr s => Ok (match i with
                  | Some z => if (0 <=? z) && (z <? Z.of_nat (String.length s))
                              then VStr (String.substring (Z.to_nat z) 1 s) else VUndefined
                  | None => VUndefined
                  end)
  | _ => Ok (prop v (num_to_string (num_of_option i)))
  end.

(** [nodeData[parseInt(node)]] *)
Definition currentNode (p : Params) (s : State) : result value := at_index (nodeData s) (parseInt (p_node p)).

(** Icon and color of a role. *)
Definition getRoleStyles (role : value) : string * string :=
  if strict_eq role (VStr "master") then ("CheckCircleIcon", "success") else ("DeviceHubIcon", "info").

(** [writeText] converts its argument to a string; the timeout is queued. *)
Definition copyToClipboard (text : value) (type : string) : prog State unit :=
  _ ← emit (OClipboard (to_string text));
  _ ← set_state (setCopied (Some type));
  set_state (setTimeouts S).

Inductive Event :=
| Mount
| Copy (text : value) (type : string)
| Timeout.

Definition update (p : Params) (s : State) (e : Event) : prog State unit :=
  match e with
  | Mount => fetchData p
  | Copy text type => copyToClipboard text type
  | Timeout => _ ← set_state (setTimeouts pred); set_state (setCopied None)
  end.

(** ** View *)

Definition copyButton (s : State) (title type icon : string) (text : value) (disabled : bool) : node Event :=
  El "IconButton" [OnClick (Copy text type); Attr "title" title; Disabled disabled]
    [match copied s with
     | Some c => if String.eqb c type then El "CheckCircleIcon" [] [] else El icon [] []
     | None => El icon [] []
     end].

Definition headerView (p : Params) (role : value) (roleText : list (node Event)) : node Event :=
  El "div" []
    [El "Typography" []
       [El "DeviceHubIcon" [] []; Text ("Node " +:+ one_based (p_node p));
        El "div" [] [El (fst (getRoleStyles role)) [] []; El "span" [] roleText]];
     El "Typography" []
       [Text ("Shard " +:+ one_based (p_shard p) +:+ " - " +:+ p_cluster p +:+ " cluster - "
              +:+ p_namespace p +:+ " namespace")]].

Definition idView (s : State) (id : value) (idText : list (node Event)) : node Event :=
  El "div" []
    [El "Typography" [] [El "LinkIcon" [] []; Text "Node ID"];
     El "div" [] [El "Typography" [] idText; copyButton s "Copy ID" "id" "ContentCopyIcon" id false]].

Definition addrView (s : State) (addr : value) (addrText : list (node Event)) : node Event :=
  El "div" []
    [El "Typography" [] [El "NetworkCheckIcon" [] []; Text "Address"];
     El "div" [] [El "Typography" [] addrText; copyButton s "Copy Address" "addr" "ContentCopyIcon" addr false]].

Definition roleView (role : value) (roleText : list (node Event)) : node Event :=
  El "div" []
    [El "Typography" [] [El "DeviceHubIcon" [] []; Text "Role"];
     El "div" [] [El (fst (getRoleStyles role)) [] []; El "Typography" [] roleText]].

Definition createdView (formattedDate : string) : node Event :=
  El "div" []
    [El "Typography" [] [El "AccessTimeIcon" [] []; Text "Created At"];
     El "div" [] [El "Typography" [] [Text formattedDate]]].

Definition passwordView (s : State) (password : value) : list (node Event) :=
  when (truthy password)
    [El "div" []
       [El "Typography" [] [El "SecurityIcon" [] []; Text "Authentication"];
        El "div" []
          [El "Typography" [] [Text (if truthy password then "********" else "No password set")];
           copyButton s "Copy Password" "pwd" "LockIcon" password (negb (truthy password))]]].

Definition infoCard (icon title text : string) : node Event :=
  El "Grid" [] [El "div" [] [El "Typography" [] [El icon [] []; Text title]; El "Typography" [] [Text text]]].

Definition shardView (p : Params) : node Event :=
  El "Paper" []
    [El "Typography" [] [El "DnsIcon" [] []; Text "Shard Information"];
     El "Grid" []
       [infoCard "DnsIcon" "Shard" ("Shard " +:+ one_based (p_shard p));
        infoCard "StorageIcon" "Cluster" (p_cluster p);
        infoCard "InfoIcon" "Namespace" (p_namespace p)]].

Definition sidebarView (p : Params) : node Event :=
  El "NodeSidebar" [Attr "namespace" (p_namespace p); Attr "cluster" (p_cluster p); Attr "shard" (p_shard p)] [].

Definition notFoundView (p : Params) : list (node Event) :=
  [sidebarView p; El "Alert" [Attr "severity" "error"] [Text "Node not found"]].

(** [toLocaleString] prints the date of a number of milliseconds. *)
Definition render (toLocaleString : number -> string) (p : Params) (s : State) : result (list (node Event)) :=
  if loading s then Ok [El "LoadingSpinner" [] []]
  else
    n ← currentNode p s;
    if negb (truthy n) then Ok (notFoundView p)
    else
      created ← get n "created_at";
      role ← get n "role";
      id ← get n "id";
      addr ← get n "addr";
      password ← get n "password";
      roleText ← child role;
      idText ← child id;
      addrText ← child addr;
      let formattedDate := toLocaleString (num_mul (to_number created) 1000) in
      Ok [sidebarView p;
          El "Box" []
            [headerView p role roleText;
             El "Paper" []
               [El "Typography" [] [El "SettingsIcon" [] []; Text "Node Configuration"];
                El "Grid" []
                  [El "Grid" [] [idView s id idText; addrView s addr addrText];
                   El "Grid" [] ([roleView role roleText; createdView formattedDate] ++ passwordView s password)]];
             shardView p]].

Definition view (toLocaleString : number -> string) (p : Params) (s : State) : list (node Event) :=
  match render toLocaleString p s with
  | Ok v => v
  | Err e => [El "ErrorBoundary" [] [Text (exn_message e)]]
  end.

(** ** Loading *)

Lemma list_result_truthy k a : truthy (list_result k a) = true.
Proof.
  unfold list_result. destruct a as [d|]; [|done]. destruct (get d "data") as [x|]; [|done]. simpl.
  destruct (get x k) as [v|]; [|done]. simpl. by apply js_or_truthy.
Qed.

Lemma at_index_empty i : at_index (VArr []) i = Ok VUndefined.
Proof. destruct i as [z|]; [|done]. unfold at_index. cbn [length nth]. by destruct (_ && _), (Z.to_nat z). Qed.

Lemma fetchData_wp p s l :
  wp (fetchData p)
    (fun o s' l' => o = Ok tt /\ exists a,
       l' = l ++ [EvReq (Req GET (nodesPath (p_namespace p) (p_cluster p) (p_shard p)) VUndefined) a] /\
       s' = setLoading false (setNodeData (list_result "nodes" a) s)) s l.
Proof.
  unfold fetchData. wp_steps. rewrite listNodes_wp. intros a. rewrite list_result_truthy. simpl.
  split; [done|]. by exists a.
Qed.

(** Loading the page of a node sends exactly one GET, for the nodes of its
    shard, leaves the loading state whatever the answer, and never navigates: the
    branch that would go to the 404 page is dead, because the listing is an array
    even when the request fails.  A shard that cannot be read shows the alert that
    the node is not found. *)
Theorem node_load p s l :
  wp (fetchData p)
    (fun o s' l' => o = Ok tt /\ exists a,
       l' = l ++ [EvReq (Req GET (nodesPath (p_namespace p) (p_cluster p) (p_shard p)) VUndefined) a] /\
       s' = setLoading false (setNodeData (list_result "nodes" a) s)) s l /\
  (forall e fmt, let s' := setLoading false (setNodeData (list_result "nodes" (Rejected e)) s) in
     view fmt p s' = notFoundView p).
Proof.
  split.
  - apply fetchData_wp.
  - intros e fmt. unfold view, render, currentNode. cbn [nodeData setNodeData setLoading list_result loading].
    by rewrite at_index_empty.
Qed.

(** ** The node shown *)

(** The answer of the server for the nodes of a shard. *)
Definition nodes_answer (sh : GoShard.Shard) : axios_result :=
  Resolved (listing_body "nodes" (VArr (map node_json (Nodes sh)))).

Lemma at_index_nodes (l : list GoNode) (i : nat) :
  at_index (VArr (map node_json l)) (Some (Z.of_nat i))
  = Ok (match l !! i with Some n => node_json n | None => VUndefined end).
Proof.
  unfold at_index. rewrite length_map. f_equal. destruct (l !! i) as [n|] eqn:E.
  - pose proof (lookup_lt_Some _ _ _ E) as Hlt.
    destruct (Z.leb_spec 0 (Z.of_nat i)), (Z.ltb_spec (Z.of_nat i) (Z.of_nat (length l))); try lia.
    cbn [andb]. rewrite Nat2Z.id. apply nth_lookup_Some. by rewrite list_lookup_fmap, E.
  - apply lookup_ge_None in E. destruct (Z.ltb_spec (Z.of_nat i) (Z.of_nat (length l))); [lia|].
    by rewrite andb_false_r.
Qed.

Lemma parseInt_nat i : parseInt (nat_to_string i) = Some (Z.of_nat i).
Proof. apply parseInt_Z_to_string. Qed.

(** The state after the nodes of a shard are loaded. *)
Definition loaded_state (sh : GoShard.Shard) (s : State) : State :=
  setLoading false (setNodeData (list_result "nodes" (nodes_answer sh)) s).

Lemma currentNode_loaded ns c shard i sh s :
  currentNode (MkParams ns c shard (nat_to_string i)) (loaded_state sh s)
  = Ok (match Nodes sh !! i with Some n => node_json n | None => VUndefined end).
Proof. unfold currentNode. cbn [p_node]. rewrite parseInt_nat. apply at_index_nodes. Qed.

Lemma copyButton_fires s title type icon text d inp :
  fires inp (copyButton s title type icon text d) = if d then [] else [Copy text type].
Proof.
  unfold copyButton. destruct d, (copied s) as [c|]; simpl; try done; by destruct (String.eqb c type).
Qed.

Lemma passwordView_fires s pw inp :
  flat_map (fires inp) (passwordView s (VStr pw)) = if String.eqb pw "" then [] else [Copy (VStr pw) "pwd"].
Proof.
  unfold passwordView. cbn [truthy]. destruct (String.eqb pw ""); [done|].
  cbn -[copyButton]. by rewrite copyButton_fires.
Qed.

(** The page of the node at position [i] of a shard of the real server shows
    that node: its identifier and address are on the page, and the buttons copy
    exactly its identifier, its address and, if it has one, its password, which is
    not printed.  A position behind the last node shows the alert. *)
Theorem node_shown fmt ns c shard i sh s :
  let v := view fmt (MkParams ns c shard (nat_to_string i)) (loaded_state sh s) in
  match Nodes sh !! i with
  | Some n =>
      In (ID n) (all_texts v) /\ In (Addr n) (all_texts v) /\ In (Role n) (all_texts v) /\
      (forall inp, all_fires inp v =
         [Copy (VStr (ID n)) "id"; Copy (VStr (Addr n)) "addr"] ++
         (if String.eqb (Password n) "" then [] else [Copy (VStr (Password n)) "pwd"]))
  | None => v = notFoundView (MkParams ns c shard (nat_to_string i))
  end.
Proof.
  intros v. subst v. unfold view, render. cbn [loading loaded_state setLoading].
  fold (loaded_state sh s). rewrite currentNode_loaded. cbn [mbind result_bind].
  destruct (Nodes sh !! i) as [n|]; [|done].
  split_and!; [cbn -[copyButton one_based]; rewrite ?in_app_iff; cbn [In]; rewrite ?in_app_iff; cbn [In]; tauto..|].
  intros inp. cbn -[copyButton one_based passwordView]. rewrite !copyButton_fires, passwordView_fires.
  by destruct (String.eqb (Password n) "").
Qed.

(** ** Links from the page of the shard *)

(** The address of a page, by the folders of its file. *)
Definition pageUrl (p : Params) : string :=
  "/namespaces/" +:+ p_namespace p +:+ "/clusters/" +:+ p_cluster p +:+ "/shards/" +:+ p_shard p
  +:+ "/nodes/" +:+ p_node p.

(** The page that row [k] of the list of a shard links to. *)
Definition linked (p : ShardPage.Params) (k : nat) : Params :=
  MkParams (ShardPage.p_namespace p) (ShardPage.p_cluster p) (ShardPage.p_shard p) (nat_to_string k).

(** Row [k] of the list opens the node the row shows. *)
Definition link_right (sp : ShardPage.Params) (ss : ShardPage.State) (sh : GoShard.Shard) (s : State) (k : nat) : Prop :=
  exists rows n, ShardPage.filteredAndSortedNodes ss = Ok rows /\ rows !! k = Some n /\
    currentNode (linked sp k) (loaded_state sh s) = Ok n.

Lemma filteri_from_true {A} i (p : nat -> A -> bool) l :
  (forall i x, p i x = true) -> filteri_from i p l = l.
Proof. intros H. revert i. induction l as [|x l IH]; intros i; simpl; [done|]. by rewrite H, IH. Qed.

Lemma matches_all i n : ShardPage.matches "" "all" i n = true.
Proof. unfold ShardPage.matches. simpl toLowerCase. by rewrite includes_nil. Qed.

(** A row of the page of a shard links to the page of the node at the row's
    position among the rows shown.  Without search and filter and in an index
    order that is the node of the row.  With a role filter or an uptime order it
    need not be: filtered by replicas, the row of the first replica opens the
    page of the master. *)
Theorem node_links sp s :
  (forall k, nodeUrl sp k = pageUrl (linked sp k)) /\
  (forall ss sh k, ShardPage.nodesData ss = shard_json sh ->
     ShardPage.searchTerm ss = "" -> ShardPage.filterOption ss = "all" ->
     ShardPage.sortOption ss = "index-asc" \/ ShardPage.sortOption ss = "index-desc" ->
     (k < length (Nodes sh))%nat -> link_right sp ss sh s k) /\
  ~ link_right sp (demo_state "replica" "index-asc") demo_shard s 0 /\
  ~ link_right sp (demo_state "all" "uptime-desc") demo_shard s 0.
Proof.
  split_and!.
  - done.
  - intros ss sh k Hd Hs Hf Ho Hk. destruct (lookup_lt_is_Some_2 _ _ Hk) as [n Hn].
    exists (map node_json (Nodes sh)), (node_json n). split_and!.
    + rewrite (ShardPage.filteredAndSortedNodes_json ss sh Hd). unfold ShardPage.shownNodes. rewrite Hs, Hf.
      unfold filteri. rewrite filteri_from_true by apply matches_all.
      rewrite sort_by_zero; [done|]. destruct Ho as [-> | ->]; done.
    + by rewrite list_lookup_fmap, Hn.
    + unfold linked. by rewrite currentNode_loaded, Hn.
  - intros (rows & n & Hr & Hn & Hc). unfold linked in Hc. rewrite currentNode_loaded in Hc.
    vm_compute in Hr. by simplify_eq.
  - intros (rows & n & Hr & Hn & Hc). unfold linked in Hc. rewrite currentNode_loaded in Hc.
    vm_compute in Hr. by simplify_eq.
Qed.

Lemma node_links_witness : link_right (ShardPage.MkParams "ns" "c" "0") (demo_state "all" "index-asc") demo_shard init 2%nat.
Proof.
  apply (proj1 (proj2 (node_links (ShardPage.MkParams "ns" "c" "0") init)) (demo_state "all" "index-asc") demo_shard 2%nat);
    [reflexivity..| |simpl; lia]. left. reflexivity.
Defined.

(** ** The mark of a copied text *)

(** While a text is marked as copied a timeout that removes the mark is pending:
    every handler keeps this, so the mark never stays for good. *)
Lemma copied_pending p s e l :
  (copied s <> None -> 0 < timeouts s)%nat ->
  wp (update p s e) (fun _ s' _ => copied s' <> None -> 0 < timeouts s')%nat s l.
Proof.
  intros H. destruct e as [|text type|]; simpl update.
  - eapply wp_mono; [|apply fetchData_wp]. by intros o s' l' (_ & a & _ & ->).
  - simpl. lia.
  - simpl. done.
Qed.
