(* ===== verification/SidebarItem.v ===== *)
(** * An item of a sidebar (webui/src/app/ui/sidebarItem.tsx)

    A namespace, cluster, shard or node in a sidebar, with a menu that deletes it
    after a confirmation. *)

From S2P Require Import Prelude JsString JsNumber JsValue Effects View Api.

Inductive ItemProps :=
| NamespaceItem (item : string)
| ClusterItem (item namespace : string)
| ShardItem (item namespace cluster : string)
| NodeItem (item namespace cluster shard id : string).

Definition item (p : ItemProps) : string :=
  match p with NamespaceItem i | ClusterItem i _ | ShardItem i _ _ | NodeItem i _ _ _ _ => i end.

Definition type (p : ItemProps) : string :=
  match p with
  | NamespaceItem _ => "namespace" | ClusterItem _ _ => "cluster"
  | ShardItem _ _ _ => "shard" | NodeItem _ _ _ _ _ => "node"
  end.

(** [errorMessage] is whatever the delete call returned. *)
Record State := MkState {
  hover : bool;
  showMenu : bool;
  showDeleteConfirm : bool;
  errorMessage : value }.

Definition init : State := MkState false false false (VStr "").

Definition setHover (b : bool) (s : State) : State :=
  MkState b (showMenu s) (showDeleteConfirm s) (errorMessage s).
Definition setShowMenu (b : bool) (s : State) : State :=
  MkState (hover s) b (showDeleteConfirm s) (errorMessage s).
Definition setShowDeleteConfirm (b : bool) (s : State) : State :=
  MkState (hover s) (showMenu s) b (errorMessage s).
Definition setErrorMessage (e : value) (s : State) : State :=
  MkState (hover s) (showMenu s) (showDeleteConfirm s) e.

Definition openMenu : prog State unit := set_state (setShowMenu true).
Definition closeMenu : prog State unit := _ ← set_state (setShowMenu false); set_state (setHover false).
Definition openDeleteConfirmDialog : prog State unit := _ ← set_state (setShowDeleteConfirm true); closeMenu.
Definition closeDeleteConfirmDialog : prog State unit := set_state (setShowDeleteConfirm false).

Definition getItemIcon (p : ItemProps) : node unit :=
  match p with
  | NamespaceItem _ => El "FolderIcon" [] []
  | ClusterItem _ _ => El "StorageIcon" [] []
  | ShardItem _ _ _ => El "DnsIcon" [] []
  | NodeItem _ _ _ _ _ => El "DeviceHubIcon" [] []
  end.

Definition tab : ascii := "009".

(** [(parseInt(item.split("\t")[1]) - 1).toString()]; a missing part is undefined. *)
Definition shardIndex (item : string) : string :=
  num_to_string (num_sub (num_of_option (parseInt (nth 1 (split tab item) "undefined"))) (num 1)).

(** What every branch of confirmDelete does with the response. *)
Definition afterDelete (url : string) (response : value) : prog State unit :=
  _ ← (if strict_eq response (VStr "") then emit (OPush url) else Ret tt);
  _ ← set_state (setErrorMessage response);
  emit ORefresh.

Definition confirmDelete (p : ItemProps) : prog State unit :=
  _ ← match p with
      | NamespaceItem item =>
          response ← deleteNamespace item; afterDelete "/namespaces" response
      | ClusterItem item namespace =>
          response ← deleteCluster namespace item; afterDelete ("/namespaces/" +:+ namespace) response
      | ShardItem item namespace cluster =>
          response ← deleteShard namespace cluster (shardIndex item);
          afterDelete ("/namespaces/" +:+ namespace +:+ "/clusters/" +:+ cluster) response
      | NodeItem item namespace cluster shard id =>
          response ← deleteNode namespace cluster shard id;
          afterDelete ("/namespaces/" +:+ namespace +:+ "/clusters/" +:+ cluster +:+ "/shards/" +:+ shard) response
      end;
  closeMenu.

(** The last segment of the path of the page. *)
Definition lastSegment (pathname : string) : string := List.last (split "/" pathname) "".

Definition activeItem (p : ItemProps) (pathname : string) : string :=
  let last := lastSegment pathname in
  match p with
  | ShardItem _ _ _ => "Shard" +:+ String tab (one_based last)
  | NodeItem _ _ _ _ _ => "Node" +:+ String tab (one_based last)
  | _ => last
  end.

Definition isActive (p : ItemProps) (pathname : string) : bool := String.eqb (item p) (activeItem p pathname).

Definition displayName (p : ItemProps) : string :=
  if includes (item p) (String tab "")
  then nth 0 (split tab (item p)) "undefined" +:+ " " +:+ nth 1 (split tab (item p)) "undefined"
  else item p.

(** ** Events and view *)

Inductive Event :=
| Mouse (enter : bool)
| ClickMore
| CloseMenu
| ClickDelete
| CloseConfirm
| ConfirmDelete
| DismissError.

Definition update (p : ItemProps) (s : State) (e : Event) : prog State unit :=
  match e with
  | Mouse true => set_state (setHover true)
  | Mouse false => if showMenu s then Ret tt else set_state (setHover false)
  | ClickMore => openMenu
  | CloseMenu => closeMenu
  | ClickDelete => openDeleteConfirmDialog
  | CloseConfirm => closeDeleteConfirmDialog
  | ConfirmDelete => confirmDelete p
  | DismissError => set_state (setErrorMessage (VStr ""))
  end.

Definition buttonView (p : ItemProps) (s : State) : node Event :=
  El "ListItemButton" []
    ([El "ListItemIcon" [] [El (match getItemIcon p with El t _ _ => t | Text t => t end) [] []];
      El "ListItemText" [] [Text (displayName p)]] ++
     when (hover s) [El "IconButton" [OnClick ClickMore] [El "MoreVertIcon" [] []]]).

Definition menuView (p : ItemProps) (s : State) : node Event :=
  El "Menu" [Attr "id" ("menu-" +:+ item p); Open (showMenu s); OnClose CloseMenu]
    [El "MenuItem" [OnClick ClickDelete] [El "FontAwesomeIcon" [] []; Text "Delete"]].

Definition confirmText (p : ItemProps) : list (node Event) :=
  match p with
  | ShardItem _ _ _ | NodeItem _ _ _ _ _ => [Text ("Are you sure you want to delete " +:+ displayName p +:+ "?")]
  | _ => [Text ("Are you sure you want to delete " +:+ type p +:+ " "); El "span" [] [Text (item p)]; Text "?"]
  end.

Definition confirmView (p : ItemProps) (s : State) : node Event :=
  El "Dialog" [Open (showDeleteConfirm s); OnClose CloseConfirm]
    [El "DialogTitle" [] [Text "Confirm Delete"];
     El "DialogContent" [] [El "DialogContentText" [] (confirmText p)];
     El "DialogActions" []
       [El "Button" [OnClick CloseConfirm] [Text "Cancel"];
        El "Button" [OnClick ConfirmDelete] [Text "Delete"]]].

Definition errorView (s : State) : node Event :=
  El "Snackbar" [Open (truthy (errorMessage s)); Attr "autoHideDuration" "5000"; OnClose DismissError]
    [El "Alert" [OnClose DismissError; Attr "severity" "error"] [Text (to_string (errorMessage s))]].

Definition view (p : ItemProps) (s : State) : list (node Event) :=
  [El "ListItem" [OnMouse Mouse] [buttonView p s; menuView p s; confirmView p s; errorView s]].

Definition Item : component ItemProps State Event := Component init view update.

(** ** Deletion *)

(** The resource of the API an item stands for. *)
Definition item_path (p : ItemProps) : string :=
  match p with
  | NamespaceItem item => namespacePath item
  | ClusterItem item ns => clusterPath ns item
  | ShardItem item ns c => shardPath ns c (shardIndex item)
  | NodeItem _ ns c sh id => nodePath ns c sh id
  end.

Definition parentUrl (p : ItemProps) : string :=
  match p with
  | NamespaceItem _ => "/namespaces"
  | ClusterItem _ ns => "/namespaces/" +:+ ns
  | ShardItem _ ns c => "/namespaces/" +:+ ns +:+ "/clusters/" +:+ c
  | NodeItem _ ns c sh _ => "/namespaces/" +:+ ns +:+ "/clusters/" +:+ c +:+ "/shards/" +:+ sh
  end.

Definition item_report (p : ItemProps) (a : axios_result) : list event :=
  match p with NodeItem _ _ _ _ _ => reported a | _ => [] end.

(** What confirmDelete does: the one DELETE, then what its response calls for. *)
Lemma confirmDelete_wp p (Q : result unit -> State -> list event -> Prop) s l :
  (forall a, wp (afterDelete (parentUrl p) (delete_result a))
               (fun o s' l' => match o with Ok _ => wp closeMenu Q s' l' | Err e => Q (Err e) s' l' end) s
               (l ++ EvReq (Req DELETE (item_path p) VUndefined) a :: item_report p a)) ->
  wp (confirmDelete p) Q s l.
Proof.
  intros H. unfold confirmDelete.
  destruct p; wp_steps; (apply delete_call_wp || apply deleteNode_wp); intros a; exact (H a).
Qed.

(** Confirming the deletion of an item sends exactly one DELETE, for that
    item, and then refreshes the page and closes the menu.  It goes to the page of
    the item's parent exactly when the deletion is accepted; otherwise the error
    is shown.  The confirmation itself is left as it was, open. *)
Theorem confirmDelete_spec p s l :
  wp (confirmDelete p)
    (fun o s' l' => o = Ok tt /\ exists a,
       l' = l ++ EvReq (Req DELETE (item_path p) VUndefined) a :: item_report p a ++
              (if accepted DELETE a then [EvOut (OPush (parentUrl p))] else []) ++ [EvOut ORefresh] /\
       s' = MkState false false (showDeleteConfirm s) (delete_result a) /\
       truthy (errorMessage s') = negb (accepted DELETE a)) s l.
Proof.
  apply confirmDelete_wp. intros a.
  unfold afterDelete. rewrite delete_result_ok.
  destruct (accepted DELETE a) eqn:Ea; simpl; (split; [done|]; exists a; rewrite Ea, delete_result_truthy, Ea;
    split_and!; [by rewrite <- ?app_assoc|done|done]).
Qed.

(** ** One item, several deletions *)

(** The user opens the menu of an item, asks for its deletion and confirms twice. *)
Definition double_click (p : ItemProps) : config State :=
  fold_left (fun c e => spawn (fun _ => true) (update p (c_state c) e) c)
    [Mouse true; ClickMore; ClickDelete; ConfirmDelete; ConfirmDelete] (Config init []).

(** The confirmation of an item is neither closed nor disabled while its
    deletion is running: confirming twice, which the page offers, sends the same
    DELETE twice.  (The forms and dialogs of the other components exclude this.) *)
Theorem item_deleted_twice p :
  reachable Item (double_click p) /\
  in_flight (double_click p) = [Req DELETE (item_path p) VUndefined; Req DELETE (item_path p) VUndefined] /\
  In ConfirmDelete (all_fires (Input "" [] []) (view p (c_state (double_click p)))).
Proof.
  split_and!.
  - unfold double_click. cbn [fold_left].
    repeat (eapply reach_step; [|eapply (ui_event Item _ (Input "" [] []) p); destruct p; simpl; auto 20]).
    constructor.
  - by destruct p.
  - destruct p; simpl; auto 20.
Qed.
