(* ===== verification/Sidebar.v ===== *)
(** * The sidebars (webui/src/app/ui/sidebar.tsx)

    Four sidebars list the namespaces, the clusters of a namespace, the shards
    of a cluster and the nodes of a shard.  They have the same state and the same
    frame; they differ in what they fetch and in their rows. *)

From S2P Require Import Prelude JsString JsNumber JsValue Effects View Api Collate Slots GoShard SidebarItem.

(** [items] is the state [namespaces], [clusters], [shards] or [nodes]: the value
    the page set, so a render may throw. *)
Record State := MkState {
  items : value;
  error : option string;
  isOpen : bool;
  sidebarWidth : Z;
  isMobile : bool }.

Definition init : State := MkState (VArr []) None true 260 false.

Definition setItems (v : value) (s : State) : State :=
  MkState v (error s) (isOpen s) (sidebarWidth s) (isMobile s).
Definition setError (e : option string) (s : State) : State :=
  MkState (items s) e (isOpen s) (sidebarWidth s) (isMobile s).
Definition setIsOpen (b : bool) (s : State) : State :=
  MkState (items s) (error s) b (sidebarWidth s) (isMobile s).
Definition setSidebarWidth (w : Z) (s : State) : State :=
  MkState (items s) (error s) (isOpen s) w (isMobile s).
Definition setIsMobile (b : bool) (s : State) : State :=
  MkState (items s) (error s) (isOpen s) (sidebarWidth s) b.

(** Which sidebar, with its properties. *)
Inductive SidebarProps :=
| NamespaceSidebar
| ClusterSidebar (namespace : string)
| ShardSidebar (namespace cluster : string)
| NodeSidebar (namespace cluster shard : string).

Definition checkMobile (innerWidth : Z) : prog State unit := set_state (setIsMobile (innerWidth <? 768)).

Definition toggleSidebar (s : State) : prog State unit :=
  _ ← (if isMobile s then set_state (setSidebarWidth (if isOpen s then 0 else 260)) else Ret tt);
  set_state (setIsOpen (negb (isOpen s))).

(** ** Loading *)

Definition NamespaceSidebar_fetchData : prog State unit :=
  try_catch
    (fetchedNamespaces ← fetchNamespaces; set_state (setItems fetchedNamespaces))
    (fun err => set_state (setError (Some "Failed to fetch namespaces"))).

Definition ClusterSidebar_fetchData (namespace : string) : prog State unit :=
  try_catch
    (fetchedClusters ← fetchClusters namespace; set_state (setItems fetchedClusters))
    (fun err => set_state (setError (Some "Failed to fetch clusters"))).

Definition shardLabel (index : nat) : string := "Shard" +:+ String tab (nat_to_string (index + 1)).

Definition ShardSidebar_fetchData (namespace cluster : string) : prog State unit :=
  try_catch
    (fetchedShards ← listShards namespace cluster;
     l ← lift (as_array fetchedShards "map");
     let shardsIndex := mapi (fun index _ => VStr (shardLabel index)) l in
     set_state (setItems (VArr shardsIndex)))
    (fun err => set_state (setError (Some "Failed to fetch shards"))).

Definition NodeSidebar_fetchData (namespace cluster shard : string) : prog State unit :=
  try_catch
    (fetchedNodes ← listNodes namespace cluster shard; set_state (setItems fetchedNodes))
    (fun err => set_state (setError (Some "Failed to fetch nodes"))).

Definition fetchData (p : SidebarProps) : prog State unit :=
  match p with
  | NamespaceSidebar => NamespaceSidebar_fetchData
  | ClusterSidebar ns => ClusterSidebar_fetchData ns
  | ShardSidebar ns c => ShardSidebar_fetchData ns c
  | NodeSidebar ns c sh => NodeSidebar_fetchData ns c sh
  end.

(** ** Rows: the address of the link and the item *)

Definition namespaceRow (v : value) : string * ItemProps :=
  ("/namespaces/" +:+ to_string v, NamespaceItem (to_string v)).

Definition clusterRow (namespace : string) (v : value) : string * ItemProps :=
  ("/namespaces/" +:+ namespace +:+ "/clusters/" +:+ to_string v, ClusterItem (to_string v) namespace).

Definition shardRow (namespace cluster : string) (index : nat) (v : value) : string * ItemProps :=
  ("/namespaces/" +:+ namespace +:+ "/clusters/" +:+ cluster +:+ "/shards/" +:+ nat_to_string index,
   ShardItem (to_string v) namespace cluster).

Definition nodeLabel (index : nat) : string := "Node" +:+ String tab (nat_to_string (index + 1)).

Definition nodeRow (namespace cluster shard : string) (index : nat) (v : value) : result (string * ItemProps) :=
  id ← get v "id";
  Ok ("/namespaces/" +:+ namespace +:+ "/clusters/" +:+ cluster +:+ "/shards/" +:+ shard +:+ "/nodes/"
      +:+ nat_to_string index, NodeItem (nodeLabel index) namespace cluster shard (to_string id)).

Definition rows (p : SidebarProps) (s : State) : result (list (string * ItemProps)) :=
  l ← as_array (items s) "map";
  match p with
  | NamespaceSidebar => Ok (map namespaceRow l)
  | ClusterSidebar ns => Ok (map (clusterRow ns) l)
  | ShardSidebar ns c => Ok (mapi (shardRow ns c) l)
  | NodeSidebar ns c sh => mapM_result id (mapi (nodeRow ns c sh) l)
  end.

(** ** Events and view *)

Inductive Event :=
| Mount
| Resize (innerWidth : Z)
| Toggle.

Definition update (p : SidebarProps) (s : State) (e : Event) : prog State unit :=
  match e with
  | Mount => fetchData p
  | Resize w => checkMobile w
  | Toggle => toggleSidebar s
  end.

Definition SidebarHeader (title : string) (count : nat) (isOpen : bool) (icon : string) : node Event :=
  El "div" [OnClick Toggle]
    [El "div" []
       ([El icon [] []; El "Typography" [] [Text title]] ++
        when (0 <? count)%nat [El "span" [] [Text (nat_to_string count)]]);
     El "div" [] [if isOpen then El "ExpandMoreIcon" [] [] else El "ChevronRightIcon" [] []]].

Definition rowView (r : string * ItemProps) : node Event :=
  El "Link" [Href (fst r)]
    [El "Item" [Attr "type" (type (snd r)); Attr "item" (item (snd r))] []].

(** The frame all sidebars share: the toggle on small screens, the form, the
    header and the list in a collapse. *)
Definition frame (s : State) (creation : node Event) (title icon : string)
    (rs : list (string * ItemProps)) : list (node Event) :=
  [El "Paper" [Attr "width" (Z_to_string (sidebarWidth s) +:+ "px");
               Attr "minWidth" (if isMobile s then "0" else "260px")]
     (when (isMobile s) [El "button" [OnClick Toggle] [El "ChevronRightIcon" [] []]] ++
      [El "div" []
         [El "Box" [] [creation];
          El "Box" [] [SidebarHeader title (length rs) (isOpen s) icon];
          El "Collapse" [Attr "in" (if isOpen s then "true" else "false")]
            (match error s with Some e => [El "div" [] [Text e]] | None => [] end ++
             [El "List" [] (map rowView rs)])]])].

Definition NamespaceSidebar_view (s : State) (rs : list (string * ItemProps)) : list (node Event) :=
  frame s (El "NamespaceCreation" [Attr "position" "sidebar"] []) "Namespaces" "FolderIcon" rs.

Definition ClusterSidebar_view (namespace : string) (s : State) (rs : list (string * ItemProps)) : list (node Event) :=
  frame s (El "ClusterCreation" [Attr "namespace" namespace; Attr "position" "sidebar"] [])
    "Clusters" "StorageIcon" rs.

Definition ShardSidebar_view (namespace cluster : string) (s : State) (rs : list (string * ItemProps)) :
    list (node Event) :=
  frame s (El "ShardCreation" [Attr "namespace" namespace; Attr "cluster" cluster; Attr "position" "sidebar"] [])
    "Shards" "DnsIcon" rs.

Definition NodeSidebar_view (namespace cluster shard : string) (s : State) (rs : list (string * ItemProps)) :
    list (node Event) :=
  frame s (El "NodeCreation" [Attr "namespace" namespace; Attr "cluster" cluster; Attr "shard" shard;
                              Attr "position" "sidebar"] []) "Nodes" "DeviceHubIcon" rs.

(** A throwing render takes the page down. *)
Definition view (p : SidebarProps) (s : State) : list (node Event) :=
  match rows p s with
  | Ok rs =>
      match p with
      | NamespaceSidebar => NamespaceSidebar_view s rs
      | ClusterSidebar ns => ClusterSidebar_view ns s rs
      | ShardSidebar ns c => ShardSidebar_view ns c s rs
      | NodeSidebar ns c sh => NodeSidebar_view ns c sh s rs
      end
  | Err e => [El "ErrorBoundary" [] [Text (exn_message e)]]
  end.

(** ** Labels *)

Lemma digits_no_char c s : is_digit c = false -> all_chars is_digit s = true -> any_char (Ascii.eqb c) s = false.
Proof.
  intros Hc. apply all_chars_not_any. intros x Hx. destruct (Ascii.eqb_spec c x) as [->|]; [|done]. congruence.
Qed.

Lemma one_based_nat k : one_based (nat_to_string k) = nat_to_string (k + 1).
Proof.
  unfold one_based, nat_to_string. rewrite parseInt_Z_to_string. cbn [num_of_option].
  rewrite num_add_Z, num_to_string_Z. f_equal. lia.
Qed.

(** The position behind a label is read back. *)
Lemma shardIndex_label k : shardIndex (shardLabel k) = nat_to_string k.
Proof.
  unfold shardIndex, shardLabel. rewrite split_append.
  rewrite (split_none tab (nat_to_string _)) by (apply digits_no_char; [done|apply nat_to_string_digits]).
  change (split tab "Shard") with ["Shard"]. cbn [app nth]. unfold nat_to_string. rewrite parseInt_Z_to_string. cbn [num_of_option].
  rewrite num_sub_exact, num_to_string_Z. f_equal. lia.
Qed.

Lemma lastSegment_append p seg :
  any_char (Ascii.eqb "/"%char) seg = false -> lastSegment (p +:+ String "/" seg) = seg.
Proof.
  intros H. unfold lastSegment. rewrite split_append, (split_none _ seg) by done.
  apply List.last_last.
Qed.

(** ** Rows *)

(** The rows of a shard sidebar carry their labels. *)
Definition labelled (p : SidebarProps) (s : State) : Prop :=
  match p with
  | ShardSidebar _ _ => exists n, items s = VArr (map (fun k => VStr (shardLabel k)) (seq 0 n))
  | _ => True
  end.

Lemma mapi_from_seq {A} (f : nat -> value) i (l : list A) :
  mapi_from i (fun k _ => f k) l = map f (seq i (length l)).
Proof. revert i. induction l as [|x l IH]; intros i; simpl; [done|]. by rewrite IH. Qed.

(** Confirming the deletion of an item sends exactly one request, the DELETE of
    [path], does not throw, leaves for the page of the parent exactly when the
    DELETE is accepted, and shows an error exactly when it is not. *)
Definition confirm_deletes (it : ItemProps) (path : string) : Prop :=
  forall s l, wp (confirmDelete it)
    (fun o s' l' => o = Ok tt /\ exists a tail,
       l' = l ++ EvReq (Req DELETE path VUndefined) a :: tail /\ requests tail = [] /\
       (In (EvOut (OPush (parentUrl it))) tail <-> accepted DELETE a = true) /\
       truthy (errorMessage s') = negb (accepted DELETE a)) s l.

Lemma item_report_quiet it a o : requests (item_report it a) = [] /\ ~ In (EvOut (OPush o)) (item_report it a).
Proof.
  destruct it; simpl; [split; [done|tauto]..|]. unfold reported.
  repeat case_match; simpl; (split; [done|]); intuition discriminate.
Qed.

Lemma confirm_deletes_item it path : item_path it = path -> confirm_deletes it path.
Proof.
  intros <- s l. eapply wp_mono; [|apply confirmDelete_spec]. intros o s' l' (-> & a & -> & -> & Ht). split; [done|].
  destruct (item_report_quiet it a (parentUrl it)) as [Hr Hn].
  eexists a, _. split; [reflexivity|]. split_and!; [|split|exact Ht].
  - rewrite requests_app, Hr. by destruct (accepted DELETE a).
  - intros [H|H]%in_app_or; [done|]. destruct (accepted DELETE a); [done|]. simpl in H. intuition discriminate.
  - intros ->. apply in_or_app. right. by left.
Qed.

(** What a row deletes: the thing its link opens. *)
Definition deletes_linked (p : SidebarProps) (s : State) (k : nat) (url : string) (it : ItemProps) : Prop :=
  match p with
  | NodeSidebar ns c sh =>
      exists node id, elements (items s) !! k = Some node /\ get node "id" = Ok id /\
        url = "/namespaces/" +:+ ns +:+ "/clusters/" +:+ c +:+ "/shards/" +:+ sh +:+ "/nodes/" +:+ nat_to_string k /\
        confirm_deletes it (apiPrefix +:+ "/namespaces/" +:+ ns +:+ "/clusters/" +:+ c +:+ "/shards/" +:+ sh +:+
                            "/nodes/" +:+ to_string id)
  | _ => confirm_deletes it (apiPrefix +:+ url)
  end.

Lemma mapM_result_lookup {A B} (f : A -> result B) l r k y :
  mapM_result f l = Ok r -> r !! k = Some y -> exists x, l !! k = Some x /\ f x = Ok y.
Proof.
  revert r k. induction l as [|x l IH]; intros r k H Hk; simpl in H; [by simplify_eq|].
  apply result_bind_inv in H as (y0 & Hy & H). apply result_bind_inv in H as (r0 & Hr & H). simplify_eq.
  destruct k as [|k]; simpl in *; [simplify_eq; eauto|]. by apply (IH r0).
Qed.

Ltac same_path :=
  unfold nodePath, nodesPath, shardPath, shardsPath, clusterPath, clustersPath, namespacePath, namespacesPath, apiHost;
  by rewrite ?append_assoc.

Lemma rows_delete_linked p s rs k url it :
  labelled p s -> rows p s = Ok rs -> rs !! k = Some (url, it) -> deletes_linked p s k url it.
Proof.
  intros Hl Hr Hk. unfold rows in Hr. apply result_bind_inv in Hr as (l & Hi & Hr).
  destruct p as [|ns|ns c|ns c sh]; simpl in Hl, Hr; cbn [deletes_linked].
  - simplify_eq. rewrite list_lookup_fmap in Hk. destruct (l !! k); [|done].
    unfold namespaceRow in Hk. simplify_eq/=. by apply confirm_deletes_item.
  - simplify_eq. rewrite list_lookup_fmap in Hk. destruct (l !! k); [|done].
    unfold clusterRow in Hk. injection Hk as <- <-. apply confirm_deletes_item. cbn [item_path]. same_path.
  - destruct Hl as [n Hn]. rewrite Hn in Hi. simpl in Hi. simplify_eq. rewrite lookup_mapi, list_lookup_fmap in Hk.
    destruct (seq 0 n !! k) as [j|] eqn:Ej; [|done]. apply lookup_seq in Ej as [-> _].
    cbn [fmap option_fmap option_map] in Hk. unfold shardRow in Hk. injection Hk as <- <-. cbn [to_string].
    apply confirm_deletes_item. cbn [item_path]. rewrite shardIndex_label. same_path.
  - destruct (mapM_result_lookup _ _ _ _ _ Hr Hk) as (x & Hx & E). rewrite lookup_mapi in Hx.
    destruct (l !! k) as [node|] eqn:En; [|done]. injection Hx as <-. unfold Datatypes.id, nodeRow in E.
    apply result_bind_inv in E as (i & Hid & E). simplify_eq.
    exists node, i. split_and!; [destruct (items s); simpl in Hi; by simplify_eq|done|done|].
    apply confirm_deletes_item. cbn [item_path]. same_path.
Qed.

(** C38. In every sidebar, through all its events and whatever the server answers,
    confirming the deletion of a row deletes what its link opens: confirmDelete
    sends exactly one request, a DELETE, whose path is the address of the link
    below the API prefix (for a shard the label, counted from one, is read back to
    the index, counted from zero); in the sidebar of nodes the row at position k,
    which links to position k, deletes the node at that position by its
    identifier.  It goes to the page of the parent exactly when the DELETE is
    accepted and shows an error exactly when it is not. *)
Theorem sidebar_deletes_linked p s :
  labelled p init /\
  (labelled p s -> forall e l, wp (update p s e) (fun o s' _ => o = Ok tt /\ labelled p s') s l) /\
  (labelled p s -> forall rs k url it,
     rows p s = Ok rs -> rs !! k = Some (url, it) -> deletes_linked p s k url it).
Proof.
  split_and!.
  - destruct p; try done. by exists 0%nat.
  - intros Hl [|w|] l; simpl update.
    + destruct p as [|ns|ns c|ns c sh]; simpl fetchData.
      * unfold NamespaceSidebar_fetchData. wp_steps. rewrite fetchNamespaces_wp. by intros a.
      * unfold ClusterSidebar_fetchData. wp_steps. rewrite fetchClusters_wp. by intros a.
      * unfold ShardSidebar_fetchData. wp_steps. rewrite listShards_wp. intros a.
        destruct (as_array (list_result "shards" a) "map") as [xs|e]; simpl; [|done].
        split; [done|]. exists (length xs). exact (f_equal VArr (mapi_from_seq (fun k => VStr (shardLabel k)) 0 xs)).
      * unfold NodeSidebar_fetchData. wp_steps. rewrite listNodes_wp. by intros a.
    + by destruct p.
    + unfold toggleSidebar. destruct (isMobile s); by destruct p.
  - intros Hl rs k url it. by apply rows_delete_linked.
Qed.

Lemma sidebar_deletes_linked_witness :
  let s := setItems (VArr [VStr (shardLabel 0); VStr (shardLabel 1)]) init in
  deletes_linked (ShardSidebar "ns" "c") s 1 "/namespaces/ns/clusters/c/shards/1" (ShardItem (shardLabel 1) "ns" "c").
Proof.
  eapply (proj2 (proj2 (sidebar_deletes_linked (ShardSidebar "ns" "c")
    (setItems (VArr [VStr (shardLabel 0); VStr (shardLabel 1)]) init)))); [|reflexivity|reflexivity].
  exists 2%nat. reflexivity.
Defined.

(** ** The active row *)

Lemma label_eqb t i k :
  String.eqb (t +:+ String tab (nat_to_string (k + 1))) (t +:+ String tab (nat_to_string (i + 1))) = (k =? i)%nat.
Proof.
  destruct (Nat.eqb_spec k i) as [->|Hne]; [apply String.eqb_refl|]. apply String.eqb_neq. intros E.
  apply append_inj_l in E. injection E as E. apply Z_to_string_inj in E. lia.
Qed.

Lemma nat_no_slash i : any_char (Ascii.eqb "/"%char) (nat_to_string i) = false.
Proof. apply digits_no_char; [done|apply nat_to_string_digits]. Qed.

(** On the page of the shard or node at position [i] exactly the row at position
    [i] is highlighted; on the page of a cluster or namespace exactly the rows of
    that name. *)
Theorem sidebar_active path i k name x ns c sh id :
  any_char (Ascii.eqb "/"%char) name = false ->
  isActive (ShardItem (shardLabel k) ns c) (path +:+ String "/" (nat_to_string i)) = (k =? i)%nat /\
  isActive (NodeItem (nodeLabel k) ns c sh id) (path +:+ String "/" (nat_to_string i)) = (k =? i)%nat /\
  isActive (ClusterItem x ns) (path +:+ String "/" name) = String.eqb x name /\
  isActive (NamespaceItem x) (path +:+ String "/" name) = String.eqb x name.
Proof.
  intros Hn. unfold isActive, activeItem. cbn [item].
  rewrite !lastSegment_append by (done || apply nat_no_slash). rewrite one_based_nat.
  unfold shardLabel, nodeLabel. by rewrite !label_eqb.
Qed.

(** ** Opening and closing *)

Definition after (es : list Event) : State :=
  fold_left (fun s e => exec (fun _ => Rejected (JsErr "Error" "")) (fun _ => true)
                          (update NamespaceSidebar s e) s) es init.

(** On a small screen a toggle leaves the sidebar wide exactly when it is open.
    The width is kept when the screen grows, where it has no effect, and a toggle
    there does not adjust it: a sidebar closed on a small screen and opened on a
    large one is open and has no width when the screen is small again. *)
Theorem sidebar_toggle s l :
  (isMobile s = true -> wp (toggleSidebar s) (fun o s' _ => o = Ok tt /\
     isOpen s' = negb (isOpen s) /\ sidebarWidth s' = if isOpen s' then 260 else 0) s l) /\
  (isMobile s = false -> wp (toggleSidebar s) (fun o s' _ => o = Ok tt /\
     isOpen s' = negb (isOpen s) /\ sidebarWidth s' = sidebarWidth s) s l) /\
  let s' := after [Resize 500; Toggle; Resize 1000; Toggle; Resize 500] in
  isMobile s' = true /\ isOpen s' = true /\ sidebarWidth s' = 0.
Proof.
  unfold toggleSidebar. split_and!; try done; intros ->; simpl; [|done]. by destruct (isOpen s).
Qed.
