(* ===== verification/Navigation.v ===== *)
(** * Breadcrumb and navigation links
    (webui/src/app/ui/breadcrumb.tsx, webui/src/app/ui/nav-links.tsx)

    The path of the page as a row of links to the pages above it, and the links
    of the banner. *)

From S2P Require Import Prelude JsString JsNumber JsValue Effects View Api Sidebar.

(** ** Breadcrumb *)

(** [icon] is the name of the icon element, if any. *)
Record BreadcrumbItem := MkItem {
  name : string;
  displayName : string;
  url : string;
  icon : option string;
  isNumeric : bool;
  isLast : bool }.

Record State := MkState { breadcrumbItems : list BreadcrumbItem; loading : bool }.

Definition init : State := MkState [] false.

Definition setBreadcrumbItems (l : list BreadcrumbItem) (s : State) : State := MkState l (loading s).
Definition setLoading (b : bool) (s : State) : State := MkState (breadcrumbItems s) b.

(** [pathname.split("/").filter(Boolean)] *)
Definition pathSegments (pathname : string) : list string :=
  List.filter (fun t => negb (String.eqb t "")) (split "/" pathname).

(** The body of the loop: display name and icon of the segment at [index]. *)
Definition describeSegment (segments : list string) (index : nat) (segment : string) : string * option string :=
  let isNumeric := negb (isNaN (Number segment)) in
  let prevSegment := match index with O => None | S i => segments !! i end in
  let prev_is t := match prevSegment with Some x => String.eqb x t | None => false end in
  if (index =? 0)%nat && String.eqb segment "namespaces" then ("Namespaces", Some "FolderIcon")
  else if String.eqb segment "clusters" then ("Clusters", Some "StorageIcon")
  else if String.eqb segment "shards" then ("Shards", Some "DnsIcon")
  else if String.eqb segment "nodes" then ("Nodes", Some "DeviceHubIcon")
  else if isNumeric then
    if prev_is "shards" then ("Shard " +:+ one_based segment, None)
    else if prev_is "nodes" then ("Node " +:+ one_based segment, None)
    else ("ID: " +:+ segment, None)
  else (capitalize segment, None).

Definition breadcrumbItem (segments : list string) (index : nat) (segment : string) : BreadcrumbItem :=
  let d := describeSegment segments index segment in
  MkItem segment (fst d) (String "/" (join "/" (take (index + 1) segments))) (snd d)
    (negb (isNaN (Number segment))) (index =? length segments - 1)%nat.

Definition generateBreadcrumbs (pathname : string) : prog State unit :=
  _ ← set_state (setLoading true);
  let segments := pathSegments pathname in
  if (length segments =? 0)%nat
  then _ ← set_state (setBreadcrumbItems []); set_state (setLoading false)
  else _ ← set_state (setBreadcrumbItems (mapi (breadcrumbItem segments) segments));
       set_state (setLoading false).

(** The effect that runs when the path changes. *)
Definition onPathname (pathname : string) : prog State unit :=
  if String.eqb pathname "/" then _ ← set_state (setBreadcrumbItems []); set_state (setLoading false)
  else generateBreadcrumbs pathname.

Definition iconView (i : option string) : list (node unit) :=
  match i with Some t => [El "span" [] [El t [] []]] | None => [] end.

Definition itemView (i : BreadcrumbItem) : node unit :=
  El "Box" []
    [El "ChevronRightIcon" [] [];
     if isLast i then
       El "Box" [] (iconView (icon i) ++
         [if isNumeric i then El "Chip" [Attr "label" (displayName i)] [Text (displayName i)]
          else El "Typography" [] [Text (displayName i)]])
     else if String.eqb (name i) "clusters" || String.eqb (name i) "shards" || String.eqb (name i) "nodes" then
       El "Box" [] (iconView (icon i) ++ [El "Typography" [] [Text (displayName i)]])
     else El "Link" [Href (url i)] (iconView (icon i) ++ [El "Typography" [] [Text (displayName i)]])].

Definition view (pathname : string) (s : State) : list (node unit) :=
  if String.eqb pathname "/" || (length (breadcrumbItems s) =? 0)%nat then []
  else [El "Paper" []
          (El "Link" [Href "/"] [El "HomeIcon" [] []; El "Typography" [] [Text "Home"]] ::
           map itemView (breadcrumbItems s))].

(** ** Links of the banner *)

Record NavLink := MkNavLink { l_url : string; l_title : string; l_icon : string; l_blank : bool }.

(** The links of ui/banner.tsx. *)
Definition links : list NavLink :=
  [MkNavLink "/" "Home" "HomeIcon" false; MkNavLink "/namespaces" "Namespaces" "FolderIcon" false;
   MkNavLink "https://kvrocks.apache.org" "Documentation" "MenuBookIcon" true].

Definition navActive (pathname : string) (link : NavLink) : bool :=
  String.eqb pathname (l_url link) || (negb (String.eqb (l_url link) "/") && startsWith pathname (l_url link)).

Definition NavLinks {Ev} (pathname : string) (links : list NavLink) : list (node Ev) :=
  map (fun link =>
    El "Link" ([Attr "key" (l_url link); Href (l_url link)] ++
               if l_blank link then [Attr "target" "_blank"; Attr "rel" "noopener noreferrer"] else [])
      [El "Button" [Attr "active" (if navActive pathname link then "true" else "false")]
         [El (l_icon link) [] []; Text (l_title link)]]) links.

(** ** Properties *)

Lemma pathSegments_join l :
  Forall (fun t => path_name t = true) l -> l <> [] -> pathSegments (String "/" (join "/" l)) = l.
Proof.
  intros Hl Hne. unfold pathSegments. change (String "/" ?t) with ("" +:+ String "/" t).
  rewrite split_append, split_join; [|done|].
  - simpl. induction Hl as [|t l Ht Hl IH]; [done|]. simpl. apply path_name_spec in Ht as [_ ->]. simpl. f_equal.
    destruct l; [done|]. by apply IH.
  - eapply Forall_impl; [exact Hl|]. by intros t [? _]%path_name_spec.
Qed.

(** The state after the path of a page with these segments is shown. *)
Lemma onPathname_exec f answer l s :
  Forall (fun t => path_name t = true) l -> l <> [] ->
  exec f answer (onPathname (String "/" (join "/" l))) s = MkState (mapi (breadcrumbItem l) l) false.
Proof.
  intros Hl Hne. unfold onPathname, generateBreadcrumbs. rewrite pathSegments_join by done.
  assert (String.eqb (String "/" (join "/" l)) "/" = false) as ->.
  { apply String.eqb_neq. intros [= E]. destruct Hl as [|t l Ht Hl]; [done|].
    apply path_name_spec in Ht as [_ Ht]. destruct l; simpl in E; [by subst|]. by destruct t. }
  destruct l as [|t l]; done.
Qed.

(** Every item of the breadcrumb of a page links to the beginning of the path
    that ends with its segment: the address of item [i] is the path of the first
    [i + 1] segments, the last one is the page itself, and the names are the
    segments in order. *)
Theorem breadcrumb_urls f answer l s :
  Forall (fun t => path_name t = true) l -> l <> [] ->
  let items := breadcrumbItems (exec f answer (onPathname (String "/" (join "/" l))) s) in
  map name items = l /\
  (forall i it, items !! i = Some it ->
     url it = String "/" (join "/" (take (i + 1) l)) /\ pathSegments (url it) = take (i + 1) l /\
     (isLast it = true <-> url it = String "/" (join "/" l))).
Proof.
  intros Hl Hne. rewrite onPathname_exec by done. simpl. split.
  - apply list_eq. intros i. rewrite list_lookup_fmap, lookup_mapi. by destruct (l !! i).
  - intros i it Hi. rewrite lookup_mapi in Hi. destruct (l !! i) as [t|] eqn:Et; simpl in Hi; simplify_eq.
    cbn [url isLast breadcrumbItem]. pose proof (lookup_lt_Some _ _ _ Et) as Hlt.
    assert (Hseg : pathSegments (String "/" (join "/" (take (i + 1) l))) = take (i + 1) l).
    { apply pathSegments_join; [by apply Forall_take|]. destruct l; [done|]. by rewrite Nat.add_1_r. }
    split_and!; [done|done|]. rewrite Nat.eqb_eq. split.
    + intros ->. f_equal. f_equal. apply firstn_all2. lia.
    + intros E. rewrite E, pathSegments_join in Hseg by done. apply (f_equal length) in Hseg.
      rewrite length_take in Hseg. lia.
Qed.

Lemma breadcrumb_urls_witness :
  let l := ["namespaces"; "ns"; "clusters"; "c"] in
  let items := breadcrumbItems (exec demo_server (fun _ => true) (onPathname "/namespaces/ns/clusters/c") init) in
  map name items = l.
Proof.
  refine (proj1 (breadcrumb_urls demo_server (fun _ => true) ["namespaces"; "ns"; "clusters"; "c"] init _ _)).
  - repeat constructor.
  - discriminate.
Defined.

(** ** The breadcrumb of a node *)

Definition node_segments (ns c : string) (i k : nat) : list string :=
  ["namespaces"; ns; "clusters"; c; "shards"; nat_to_string i; "nodes"; nat_to_string k].

(** The words of the addresses that the breadcrumb shows without a link. *)
Definition plain_word (t : string) : bool :=
  String.eqb t "clusters" || String.eqb t "shards" || String.eqb t "nodes".

Lemma path_name_nat i : path_name (nat_to_string i) = true.
Proof.
  unfold path_name. rewrite nat_no_slash. apply andb_true_intro. split; [|done].
  apply negb_true_iff, String.eqb_neq, nat_to_string_nonempty.
Qed.

Lemma digits_eqb s t : all_chars is_digit s = true -> all_chars is_digit t = false -> String.eqb s t = false.
Proof. intros Hs Ht. apply String.eqb_neq. congruence. Qed.

Lemma plain_word_nat i : plain_word (nat_to_string i) = false.
Proof. unfold plain_word. by rewrite !digits_eqb by (done || apply nat_to_string_digits). Qed.

Lemma Number_nat i : isNaN (Number (nat_to_string i)) = false.
Proof. unfold nat_to_string. by rewrite Number_nonneg by lia. Qed.

Lemma describe_position l index i :
  describeSegment l (S index) (nat_to_string i)
  = (match l !! index with
     | Some "shards" => "Shard " +:+ nat_to_string (i + 1)
     | Some "nodes" => "Node " +:+ nat_to_string (i + 1)
     | _ => "ID: " +:+ nat_to_string i
     end, None).
Proof.
  unfold describeSegment. pose proof (plain_word_nat i) as Hp. unfold plain_word in Hp.
  apply orb_false_iff in Hp as [[-> ->]%orb_false_iff ->]. rewrite Number_nat, one_based_nat. cbn [negb Nat.eqb andb].
  destruct (l !! index) as [t|]; [|done].
  destruct (String.eqb_spec t "shards") as [->|Hs]; [done|].
  destruct (String.eqb_spec t "nodes") as [->|Hn]; [done|].
  repeat (case_match; simplify_eq; try done).
Qed.

(** The links of one item: none at the end and none for a plain word. *)
Lemma itemView_hrefs it :
  hrefs (itemView it) = if isLast it || plain_word (name it) then [] else [url it].
Proof.
  unfold itemView, plain_word. destruct (isLast it); [by destruct (icon it), (isNumeric it)|].
  destruct (_ || _); by destruct (icon it).
Qed.

Lemma view_hrefs pathname s :
  pathname <> "/" -> breadcrumbItems s <> [] ->
  all_hrefs (view pathname s)
  = "/" :: flat_map (fun it => if isLast it || plain_word (name it) then [] else [url it]) (breadcrumbItems s).
Proof.
  intros Hp Hs. unfold view. destruct (String.eqb_spec pathname "/"); [done|].
  destruct (breadcrumbItems s) as [|it l]; [done|]. cbn [orb length Nat.eqb].
  generalize (it :: l). clear. intros l. cbn -[itemView].
  rewrite app_nil_r. f_equal. rewrite flat_map_map. apply flat_map_ext. intros it. apply itemView_hrefs.
Qed.

(** The breadcrumb of the page of a node offers exactly the pages above it, in
    order: home, the namespaces, the namespace, the cluster and the shard; the
    shard and the node are named by their positions counted from one.  This
    needs names that are not words of the address: a namespace that is called
    clusters has no link. *)
Theorem breadcrumb_of_node f answer ns c i k s :
  path_name ns = true -> path_name c = true -> plain_word ns = false -> plain_word c = false ->
  let path := String "/" (join "/" (node_segments ns c i k)) in
  let s' := exec f answer (onPathname path) s in
  all_hrefs (view path s') =
    ["/"; "/namespaces"; "/namespaces/" +:+ ns; "/namespaces/" +:+ ns +:+ "/clusters/" +:+ c;
     "/namespaces/" +:+ ns +:+ "/clusters/" +:+ c +:+ "/shards/" +:+ nat_to_string i] /\
  displayName <$> breadcrumbItems s' !! 5%nat = Some ("Shard " +:+ nat_to_string (i + 1)) /\
  displayName <$> breadcrumbItems s' !! 7%nat = Some ("Node " +:+ nat_to_string (k + 1)) /\
  ~ In "/namespaces/clusters" (all_hrefs (view "/namespaces/clusters/clusters/c"
        (exec f answer (onPathname "/namespaces/clusters/clusters/c") s))).
Proof.
  intros Hns Hc Pns Pc path s'.
  assert (Hs' : s' = MkState (mapi (breadcrumbItem (node_segments ns c i k)) (node_segments ns c i k)) false).
  { apply onPathname_exec; [|done]. unfold node_segments. by rewrite !Forall_cons, !path_name_nat. }
  rewrite Hs'. split_and!.
  - rewrite view_hrefs by done. unfold mapi, node_segments. cbn [breadcrumbItems mapi_from flat_map].
    cbn [name url isLast breadcrumbItem length Nat.eqb Nat.sub orb]. rewrite Pns, Pc, plain_word_nat.
    cbn. reflexivity.
  - cbn [breadcrumbItems]. rewrite lookup_mapi. cbn [node_segments lookup list_lookup]. simpl (_ <$> _).
    unfold breadcrumbItem. cbn [displayName]. by rewrite describe_position.
  - cbn [breadcrumbItems]. rewrite lookup_mapi. cbn [node_segments lookup list_lookup]. simpl (_ <$> _).
    unfold breadcrumbItem. cbn [displayName]. by rewrite describe_position.
  - vm_compute. intuition discriminate.
Qed.

Lemma breadcrumb_of_node_witness :
  let path := "/namespaces/ns/clusters/c/shards/0/nodes/1" in
  all_hrefs (view path (exec demo_server (fun _ => true) (onPathname path) init)) =
    ["/"; "/namespaces"; "/namespaces/ns"; "/namespaces/ns/clusters/c"; "/namespaces/ns/clusters/c/shards/0"].
Proof.
  exact (proj1 (breadcrumb_of_node demo_server (fun _ => true) "ns" "c" 0%nat 1%nat init
    eq_refl eq_refl eq_refl eq_refl)).
Defined.

(** The link to the namespaces is highlighted on every page below them, the link
    home only at home. *)
Theorem nav_active rest :
  navActive ("/namespaces" +:+ rest) (MkNavLink "/namespaces" "Namespaces" "FolderIcon" false) = true /\
  navActive ("/namespaces" +:+ rest) (MkNavLink "/" "Home" "HomeIcon" false) = false /\
  map (navActive "/") links = [true; false; false].
Proof.
  split_and!; [|done|done]. unfold navActive, startsWith. cbn [l_url]. rewrite prefix_append. apply orb_true_r.
Qed.
