(* ===== verification/Theme.v ===== *)
(** * Theme and banner (webui/src/app/theme-provider.tsx, webui/src/app/ui/banner.tsx)

    The dark mode flag of the theme provider, the class names on the document and
    on the navigation bar that follow it, its persistence in the local storage,
    and the banner that toggles it. *)

From S2P Require Import Prelude JsString JsNumber JsValue Effects View Navigation.

(** What the two components share with the browser: the stored theme, the media
    query, the class "dark" of the document, and the class "navbar-dark-mode" of
    the element with the id navbar, if it exists. *)
Record Browser := MkBrowser {
  storedTheme : option string;
  prefersDark : bool;
  rootDark : bool;
  navbarDark : option bool }.

Record State := MkState {
  isDarkMode : bool;
  mounted : bool;
  bannerMounted : bool;
  scrolled : bool;
  browser : Browser }.

(** [storedTheme === "dark" || (!storedTheme && prefersDark)] *)
Definition darkOf (stored : option string) (prefers : bool) : bool :=
  match stored with
  | Some t => String.eqb t "dark" || (String.eqb t "" && prefers)
  | None => prefers
  end.

Definition shouldBeDark (b : Browser) : bool := darkOf (storedTheme b) (prefersDark b).

(** The class lists of the document and of the navigation bar. *)
Definition setClasses (dark : bool) (b : Browser) : Browser :=
  MkBrowser (storedTheme b) (prefersDark b) dark (match navbarDark b with Some _ => Some dark | None => None end).

Definition setItem (t : string) (b : Browser) : Browser :=
  MkBrowser (Some t) (prefersDark b) (rootDark b) (navbarDark b).

(** The effect of the provider. *)
Definition providerMount (s : State) : State :=
  let dark := shouldBeDark (browser s) in
  MkState dark true (bannerMounted s) (scrolled s) (setClasses dark (browser s)).

Definition toggleTheme (s : State) : State :=
  let newMode := negb (isDarkMode s) in
  let b := setItem (if newMode then "dark" else "light") (setClasses newMode (browser s)) in
  MkState newMode (mounted s) (bannerMounted s) (scrolled s) b.

(** The effect of the banner: it only ever adds the class. *)
Definition bannerMount (s : State) : State :=
  let b := browser s in
  let b' := if shouldBeDark b
            then MkBrowser (storedTheme b) (prefersDark b) (rootDark b)
                   (match navbarDark b with Some _ => Some true | None => None end)
            else b in
  MkState (isDarkMode s) (mounted s) true (scrolled s) b'.

Definition handleScroll (scrollY : Z) (s : State) : State :=
  MkState (isDarkMode s) (mounted s) (bannerMounted s) (10 <? scrollY) (browser s).

(** ** View *)

Inductive Event := ClickToggle.

(** The theme of the components, as paths into the object. *)
Definition palette (s : State) : list (string * string) :=
  [("palette.mode", if isDarkMode s then "dark" else "light");
   ("palette.primary.main", "#1976d2"); ("palette.primary.light", "#42a5f5");
   ("palette.primary.dark", "#1565c0"); ("palette.primary.contrastText", "#fff");
   ("palette.secondary.main", "#9c27b0"); ("palette.secondary.light", "#ba68c8");
   ("palette.secondary.dark", "#7b1fa2"); ("palette.secondary.contrastText", "#fff");
   ("palette.background.default", if isDarkMode s then "#121212" else "#fafafa");
   ("palette.background.paper", if isDarkMode s then "#1e1e1e" else "#ffffff");
   ("components.MuiPaper.styleOverrides.root.transition", "background-color 0.3s ease")].

(** What the provider gives to the components below it: the mode and how to toggle
    it, or, outside of the provider, a light mode that cannot be toggled. *)
Record ThemeContext := MkThemeContext { ctx_isDarkMode : bool; ctx_toggleTheme : State -> State }.

Definition defaultContext : ThemeContext := MkThemeContext false (fun s => s).
Definition providerContext (s : State) : ThemeContext := MkThemeContext (isDarkMode s) toggleTheme.
Definition useTheme (provided : option ThemeContext) : ThemeContext := default defaultContext provided.

Definition providerView (children : list (node Event)) : node Event :=
  El "ThemeContext.Provider" [] [El "MuiThemeProvider" [] (El "CssBaseline" [] [] :: children)].

Definition logoView : node Event :=
  El "Link" [Href "/"]
    [El "Image" [Attr "src" "/logo.svg"; Attr "alt" "Apache Kvrocks"] [];
     El "Typography" [] [Text "Apache Kvrocks"]; El "Typography" [] [Text "Controller"]].

Definition buttonsView (s : State) : list (node Event) :=
  [El "Tooltip" [Attr "title" "Toggle dark mode"]
     [El "IconButton" [OnClick ClickToggle]
        [if isDarkMode s then El "Brightness7Icon" [] [] else El "Brightness4Icon" [] []]];
   El "Tooltip" [Attr "title" "GitHub Repository"]
     [El "IconButton" [Href "https://github.com/apache/kvrocks-controller"; Attr "target" "_blank"]
        [El "GitHubIcon" [] []]]].

Definition bannerView (pathname : string) (s : State) : list (node Event) :=
  [El "AppBar" [Attr "id" "navbar"; Attr "height" (if scrolled s then "60px" else "72px")]
     ([logoView] ++ NavLinks pathname links ++ buttonsView s)].

(** ** Life of a page

    A load starts from a document without classes; the navigation bar is part of
    it.  The effects of the banner and of the provider run, the banner's first,
    before the user can click; then clicks and scrolling follow in any order.  The
    setting of the system may change, and the page may be loaded again. *)
Definition load (theme : option string) (prefers : bool) : State :=
  providerMount (bannerMount (MkState false false false false (MkBrowser theme prefers false (Some false)))).

Inductive step : State -> State -> Prop :=
| step_toggle s : step s (toggleTheme s)
| step_scroll s y : step s (handleScroll y s)
| step_system s p :
    let b := browser s in
    step s (MkState (isDarkMode s) (mounted s) (bannerMounted s) (scrolled s)
              (MkBrowser (storedTheme b) p (rootDark b) (navbarDark b)))
| step_reload s : step s (load (storedTheme (browser s)) (prefersDark (browser s))).

Inductive reachable : State -> Prop :=
| reach_load theme prefers : reachable (load theme prefers)
| reach_step s s' : reachable s -> step s s' -> reachable s'.

(** The class of the document follows the flag, and a stored theme is the one
    shown.  (The class of the navigation bar is left out: the bar renders its own
    class names too, in a library.) *)
Definition consistent (s : State) : Prop :=
  mounted s = true /\ rootDark (browser s) = isDarkMode s /\
  (forall t, storedTheme (browser s) = Some t -> t <> "" ->
     isDarkMode s = String.eqb t "dark").

Lemma load_spec theme prefers :
  load theme prefers = let d := darkOf theme prefers in
    MkState d true true false (MkBrowser theme prefers d (Some d)).
Proof.
  unfold load, providerMount, bannerMount, shouldBeDark. simpl. by destruct (darkOf theme prefers) eqn:E; simpl; rewrite E.
Qed.

Lemma load_consistent theme prefers : consistent (load theme prefers).
Proof.
  rewrite load_spec. split_and!; [done..|]. simpl. intros t -> Ht. unfold darkOf.
  destruct (String.eqb_spec t ""); [done|]. by rewrite andb_false_l, orb_false_r.
Qed.

Lemma reachable_consistent s : reachable s -> consistent s.
Proof.
  induction 1 as [theme prefers|s s' _ IH Hs]; [apply load_consistent|].
  destruct IH as (Hm & Hr & Ht). destruct Hs; [| | |apply load_consistent]; try done.
  unfold consistent, toggleTheme. simpl. split_and!; [done..|].
  intros t [= <-] _. by destruct (isDarkMode s).
Qed.

(** On every page, through loads, clicks, scrolling and changes of the
    system's setting, the class of the document agrees with the flag, and so does a
    stored theme.  A choice of the user survives:
    after a click any later load shows the mode the click chose, whatever the
    system prefers; and a second click restores the mode before. *)
Theorem theme_persistent s :
  reachable s ->
  consistent s /\
  (forall prefers, isDarkMode (load (storedTheme (browser (toggleTheme s))) prefers) = negb (isDarkMode s)) /\
  isDarkMode (toggleTheme (toggleTheme s)) = isDarkMode s /\
  (storedTheme (browser s) = None -> forall prefers,
     isDarkMode (load (storedTheme (browser s)) prefers) = prefers).
Proof.
  intros H%reachable_consistent. split_and!; [done| | |].
  - intros prefers. rewrite load_spec. simpl. by destruct (isDarkMode s).
  - simpl. apply negb_involutive.
  - intros -> prefers. by rewrite load_spec.
Qed.

Lemma theme_persistent_witness :
  isDarkMode (load (Some "light") true) = false /\
  (forall prefers, isDarkMode (load (storedTheme (browser (toggleTheme (load (Some "light") true)))) prefers) = true).
Proof.
  split; [reflexivity|].
  exact (proj1 (proj2 (theme_persistent (load (Some "light") true) (reach_load _ _)))).
Defined.
