(* ===== verification/Styling.v ===== *)
(** * The design of the site (webui/tailwind.config.ts)

    The theme of the style sheets, as data.  The components of the pages take their
    colours from a second theme, that of theme-provider.tsx ([Theme]): the two say
    the same, and what the theme refers to it also defines. *)

From S2P Require Import Prelude JsString JsNumber JsValue Effects View Navigation Theme.

(** ** The configuration *)

(** Names with values, and names with groups of them. *)
Notation entries := (list (string * string)).

Record tailwind_theme := MkTailwind {
  tw_colors : list (string * entries);
  tw_backgroundImage : entries;
  tw_boxShadow : entries;
  tw_transitionProperty : entries;
  tw_animation : entries;
  tw_keyframes : list (string * list (string * entries));
  tw_borderRadius : entries }.

Record tailwind_config := MkTailwindConfig {
  tw_content : list string; tw_darkMode : string; tw_extend : tailwind_theme; tw_plugins : list string }.

Definition colors : list (string * entries) :=
  [("primary", [("DEFAULT", "#1976d2"); ("light", "#42a5f5"); ("dark", "#1565c0"); ("contrastText", "#fff")]);
   ("secondary", [("DEFAULT", "#9c27b0"); ("light", "#ba68c8"); ("dark", "#7b1fa2"); ("contrastText", "#fff")]);
   ("success", [("DEFAULT", "#2e7d32"); ("light", "#4caf50"); ("dark", "#1b5e20")]);
   ("error", [("DEFAULT", "#d32f2f"); ("light", "#ef5350"); ("dark", "#c62828")]);
   ("warning", [("DEFAULT", "#ed6c02"); ("light", "#ff9800"); ("dark", "#e65100")]);
   ("info", [("DEFAULT", "#0288d1"); ("light", "#03a9f4"); ("dark", "#01579b")]);
   ("dark", [("DEFAULT", "#121212"); ("paper", "#1e1e1e"); ("border", "#333333")]);
   ("light", [("DEFAULT", "#fafafa"); ("paper", "#ffffff"); ("border", "#e0e0e0")])].

Definition backgroundImage : entries :=
  [("gradient-radial", "radial-gradient(var(--tw-gradient-stops))");
   ("gradient-conic", "conic-gradient(from 180deg at 50% 50%, var(--tw-gradient-stops))")].

Definition boxShadow : entries :=
  [("card", "0 2px 8px rgba(0, 0, 0, 0.06)"); ("card-hover", "0 4px 12px rgba(0, 0, 0, 0.1)");
   ("sidebar", "2px 0 5px rgba(0, 0, 0, 0.05)"); ("footer-glow", "0 8px 25px rgba(0, 0, 0, 0.15)");
   ("subtle", "0 2px 5px rgba(0, 0, 0, 0.05)"); ("elevated", "0 10px 30px rgba(0, 0, 0, 0.08)")].

Definition transitionProperty : entries :=
  [("height", "height"); ("spacing", "margin, padding"); ("footer", "transform, opacity, box-shadow, border-color")].

Definition animation : entries :=
  [("fade-in-up", "fade-in-up 0.6s ease-out forwards"); ("scale-in", "scale-in 0.4s ease-out forwards")].

Definition keyframes : list (string * list (string * entries)) :=
  [("fade-in-up",
     [("0%", [("opacity", "0"); ("transform", "translateY(20px)")]); ("100%", [("opacity", "1"); ("transform", "translateY(0)")])]);
   ("scale-in",
     [("0%", [("opacity", "0"); ("transform", "scale(0.95)")]); ("100%", [("opacity", "1"); ("transform", "scale(1)")])])].

Definition borderRadius : entries := [("2xl", "16px"); ("3xl", "24px"); ("4xl", "32px")].

Definition config : tailwind_config :=
  MkTailwindConfig
    ["./src/pages/**/*.{js,ts,jsx,tsx,mdx}"; "./src/components/**/*.{js,ts,jsx,tsx,mdx}"; "./src/app/**/*.{js,ts,jsx,tsx,mdx}"]
    "class" (MkTailwind colors backgroundImage boxShadow transitionProperty animation keyframes borderRadius) [].

(** ** Looking things up *)

Definition assoc {A} (k : string) (l : list (string * A)) : option A := snd <$> List.find (fun x => String.eqb (fst x) k) l.

(** [primary-dark], or [primary] for the default. *)
Definition color (group shade : string) : option string := g ← assoc group (tw_colors (tw_extend config)); assoc shade g.

Definition is_hex (c : ascii) : bool := is_digit c || (Ascii.leb "a" c && Ascii.leb c "f").

(** [#rgb] or [#rrggbb] *)
Definition is_color (s : string) : bool :=
  match s with
  | String "#" t => all_chars is_hex t && ((String.length t =? 3)%nat || (String.length t =? 6)%nat)
  | _ => false
  end.

(** The opacity of the last frame of an animation, and what it moves by. *)
Definition last_frame (name : string) : option entries := f ← assoc name (tw_keyframes (tw_extend config)); assoc "100%" f.

(** ** What holds of it *)

Lemma colors_ok : Forall (fun g => Forall (fun x => is_color (snd x) = true) (snd g)) (tw_colors (tw_extend config)).
Proof. repeat constructor. Qed.

(** A value that is looked up is that of one of the keys. *)
Ltac each_key k tac :=
  repeat match goal with |- context[String.eqb ?x k] => destruct (String.eqb_spec x k) as [<-|]; [cbn; tac|] end; try done.

(** An animation names keyframes that exist, stays at its last frame, and shows
    there what it animates. *)
Lemma animations_defined name value :
  assoc name (tw_animation (tw_extend config)) = Some value ->
  (exists t, value = name +:+ t) /\ includes value "forwards" = true /\
  exists frame, last_frame name = Some frame /\ assoc "opacity" frame = Some "1".
Proof.
  unfold assoc. cbn [tw_animation tw_extend config animation List.find fst].
  each_key name ltac:(intros [= <-]; split; [by eexists|]; split; [reflexivity|]; eexists; split; reflexivity).
Qed.

(** Where a colour of the components is found among those of the style sheets. *)
Definition mirrored (dark : bool) : list (string * (string * string)) :=
  [("palette.primary.main", ("primary", "DEFAULT")); ("palette.primary.light", ("primary", "light"));
   ("palette.primary.dark", ("primary", "dark")); ("palette.primary.contrastText", ("primary", "contrastText"));
   ("palette.secondary.main", ("secondary", "DEFAULT")); ("palette.secondary.light", ("secondary", "light"));
   ("palette.secondary.dark", ("secondary", "dark")); ("palette.secondary.contrastText", ("secondary", "contrastText"));
   ("palette.background.default", (if dark then "dark" else "light", "DEFAULT"));
   ("palette.background.paper", (if dark then "dark" else "light", "paper"))].

(** Components and style sheets are coloured alike, in both modes: every colour of
    the palette of the components is that of the style sheets. *)
Theorem palettes_agree (s : Theme.State) path value :
  assoc path (Theme.palette s) = Some value -> is_color value = true ->
  exists group shade, assoc path (mirrored (isDarkMode s)) = Some (group, shade) /\ color group shade = Some value.
Proof.
  destruct s as [dark mnt bm sc b]. unfold assoc, Theme.palette. cbn [isDarkMode].
  cbn [List.find fst]. each_key path ltac:(intros [= <-]; destruct dark; try done; cbn; by do 2 eexists).
Qed.
