(* ===== verification/PagesEndToEnd.v ===== *)
(** * The namespaces page against the server

    Loading the page from the server's handlers shows the contents of the store. *)

From S2P Require Import Prelude JsString JsNumber JsValue Effects Api Url Slots GoShard GoCluster GoJson.
From S2P Require Import GoEngine GoStore GoTopology GoServer EndToEnd NamespacesPage.

(** The row of a namespace of the store. *)
Definition store_row (ns : string) (cs : gmap string Cluster) : NamespaceData :=
  MkNs ns (Z.of_nat (size cs))
    (sumZ (map (fun '(_, cl) => Z.of_nat (length (Shards cl))) (map_to_list cs)))
    (sumZ (map (fun '(_, cl) => Z.of_nat (length (GetNodes cl))) (map_to_list cs))).

Lemma fetchData_only_gets : only_gets fetchData.
Proof.
  apply only_gets_finally; [|done]. apply only_gets_try; [|done].
  apply only_gets_bind; [eapply returns_only_gets, fetchNamespaces_returns|]. intros l.
  apply only_gets_bind; [by destruct (iterate l)|]. intros items.
  apply only_gets_bind; [eapply returns_only_gets, (rows_loop items 0); done|]. by intros [[[tc ts] tn] rows].
Qed.

Section Page.
Context {E : Type} `{EngineLaws E}.

Lemma world_row_store (e : E) a ns cs :
  represents e a -> a !! ns = Some cs -> world_row (store_world e) ns = store_row ns cs.
Proof.
  intros Hr Ha. pose proof (clusters_perm e a ns cs Hr Ha) as Hp.
  assert (Hsum : forall (f : string -> Z) (g : Cluster -> Z),
    (forall c cl, cs !! c = Some cl -> f c = g cl) ->
    sumZ (map f (ListCluster e ns)) = sumZ (map (fun '(_, cl) => g cl) (map_to_list cs))).
  { intros f g Hfg. rewrite (sumZ_perm _ (map f (map_to_list cs).*1)) by (by apply Permutation_map).
    f_equal. change ((map_to_list cs).*1) with (map fst (map_to_list cs)). rewrite map_map. apply map_ext_in. intros [c cl] Hin. simpl. apply Hfg.
    by apply elem_of_map_to_list, list_elem_of_In. }
  unfold world_row, store_row, world_shards, world_nodes, cluster_nodes, store_world. cbn [w_clusters w_shards w_nodes].
  f_equal.
  - rewrite Hp, length_fmap. by rewrite <- length_map_to_list.
  - apply Hsum. intros c cl Hc. unfold shards_of. by rewrite (rep_stored e a ns cs c cl Hr Ha Hc), length_map.
  - apply Hsum. intros c cl Hc. unfold shards_of. rewrite (rep_stored e a ns cs c cl Hr Ha Hc), length_map.
    exact (nodes_by_shard cl).
Qed.

(** C23. The namespaces page over the real handlers, through any transport of
    addresses, for a store whose names an address carries unchanged (the client does
    not escape them; see unescaped_name_counts_nothing).  When the page loads from
    the server, the store is left alone, and the page shows exactly its contents: one
    row per namespace, with the numbers of its clusters, of their shards and of their
    nodes, the sums of the rows on the cards, and no loading indicator. *)
Theorem namespaces_page_end_to_end `{Transport} v answer (e : E) a s :
  represents e a -> plain_store a ->
  (forall ns c cl, find_cluster a ns c = Some cl -> Z.of_nat (length (Shards cl)) < 2 ^ 63) ->
  let '(_, e', s', _) := run (over_url (serve v)) answer fetchData e s in
  e' = e /\ loading s' = false /\
  namespacesData s' ≡ₚ map (fun '(ns, cs) => store_row ns cs) (map_to_list a) /\
  resourceCounts s' = MkCounts (Z.of_nat (size a)) (sumZ (map clusterCount (namespacesData s')))
  (sumZ (map shardCount (namespacesData s'))) (sumZ (map nodeCount (namespacesData s'))).
Proof.
  intros Hr Hplain Hlen. destruct (run_only_gets (over_url (serve v)) answer fetchData e s
    (fun q => over_url_get _ e q (serve_get v e)) fetchData_only_gets) as [l ->].
  rewrite (fetchData_serves _ (store_world e) answer s
    (serves_over_url _ _ _ (plain_world_store e a Hr Hplain) (server_serves v e a Hr Hlen))). cbv zeta.
  set (rows := map (world_row (store_world e)) (w_namespaces (store_world e))).
  assert (Hrows : rows ≡ₚ map (fun '(ns, cs) => store_row ns cs) (map_to_list a)).
  { unfold rows. cbn [store_world w_namespaces]. destruct (rep_ListNamespace e a Hr) as [Hn Hx].
    assert (Hp : ListNamespace e ≡ₚ (map_to_list a).*1).
    { apply list.NoDup_Permutation; [done|apply NoDup_fst_map_to_list|]. intros ns. rewrite Hx, list_elem_of_fmap. split.
      - intros [cs Hc]. exists (ns, cs). split; [done|]. by apply elem_of_map_to_list.
      - intros ([ns' cs] & -> & Hin). apply elem_of_map_to_list in Hin. by eexists. }
    rewrite (Permutation_map _ Hp). change ((map_to_list a).*1) with (map fst (map_to_list a)). rewrite map_map.
    erewrite map_ext_in; [done|]. intros [ns cs] Hin. simpl. apply (world_row_store e a); [done|].
    by apply elem_of_map_to_list, list_elem_of_In. }
  split; [done|]. split; [done|]. split; [exact Hrows|].
  cbn [setLoading setResourceCounts setNamespacesData resourceCounts namespacesData].
  f_equal. rewrite Hrows, length_map. by rewrite length_map_to_list.
Qed.
End Page.

Lemma namespaces_page_end_to_end_witness :
  let '(_, e', s', _) := run (over_url (serve (MkEnv demo_replies unary 7 ""))) (fun _ => true) fetchData demo_store init in
  e' = demo_store /\ namespacesData s' ≡ₚ [MkNs "ns" 1 2 3].
Proof.
  pose proof (namespaces_page_end_to_end (MkEnv demo_replies unary 7 "") (fun _ => true) demo_store _ init demo_rep demo_plain) as Hx.
  destruct (run _ _ fetchData demo_store init) as [[[o e'] s'] l].
  destruct Hx as (H1 & _ & H3 & _).
  - intros ns c cl Hf. destruct (decide (ns = "ns" /\ c = "c")) as [[-> ->]|Hne].
    + rewrite (find_put "ns" demo_cluster {[ "ns" := ∅ ]} "ns" "c") in Hf by (rewrite lookup_singleton_eq; by eexists).
      rewrite decide_True in Hf by done. injection Hf as <-. simpl. lia.
    + exfalso. destruct (demo_store_ok ns c cl Hf) as (Hn & _).
      rewrite (find_put "ns" demo_cluster {[ "ns" := ∅ ]} ns c) in Hf by (rewrite lookup_singleton_eq; by eexists).
      rewrite decide_False in Hf by (intros [<- <-]; by apply Hne). unfold find_cluster in Hf.
      destruct (decide (ns = "ns")) as [->|Hns]; [rewrite lookup_singleton_eq in Hf; simpl in Hf; by rewrite lookup_empty in Hf|].
      by rewrite lookup_singleton_ne in Hf.
  - split; [exact H1|]. exact H3.
Defined.

(** Other names are not: the clusters of a namespace ns?x are asked for at the
    address of the namespace ns, so its row shows none of them. *)
Definition query_store : gmap string blob :=
  e_Set (e_Set demo_store (appendPrefix "ns?x") (Text "ns?x")) (buildClusterKey "ns?x" "c") (Json (cluster_json demo_cluster)).

Theorem unescaped_name_counts_nothing :
  let '(_, _, s', _) := run (over_url (serve (MkEnv demo_replies unary 7 ""))) (fun _ => true) fetchData query_store init in
  ListCluster query_store "ns?x" = ["c"] /\ namespacesData s' = [MkNs "ns?x" 0 0 0; MkNs "ns" 1 2 3].
Proof. vm_compute. split; reflexivity. Qed.
