(* ===== verification/ClusterEndToEnd.v ===== *)
(** * The page of a cluster against the server

    Loading the page from the server's handlers shows the shards of the store. *)

From S2P Require Import Prelude JsString JsNumber JsValue Effects Api Url Slots GoShard GoCluster GoJson.
From S2P Require Import GoEngine GoStore GoTopology GoServer GoProgress EndToEnd ClusterPage.

(** The expanded slots of well-formed ranges are their slots. *)
Lemma expandSlotRanges_in rs :
  wf_ranges rs ->
  exists slots, expandSlotRanges (map (fun r => VStr (range_string r)) rs) = Ok (map num slots) /\
    forall x, In x slots <-> in_ranges rs x.
Proof.
  intros Hw. exists (stable_sort Z.leb (all_slots rs)). unfold expandSlotRanges.
  rewrite mapM_expand by done. cbn [mbind result_bind]. rewrite concat_nums, sort_nums. split; [done|].
  pose proof (stable_sort_perm Z.leb (all_slots rs)) as HP.
  intros x. rewrite <- all_slots_in. split; apply Permutation_in; [done|by symmetry].
Qed.

(** What the page makes of the shard at position [i]: its nodes and ranges as they
    are stored; the migrating range, if any; never an importing one, which the
    server does not print; and the target of the migration, except that a target
    of 0 is taken for none ([target_shard_index || -1]). *)
Definition shard_row (i : nat) (sh : GoShard.Shard) : ShardData :=
  MigrationDialog.MkShard i (map node_json (Nodes sh)) (map (fun r => VStr (range_string r)) (SlotRanges sh))
    (match Migrating sh with
     | Some m => if IsMigrating m then VStr (range_string (m_range m)) else VStr ""
     | None => VStr ""
     end) (VStr "")
    (vnum (if TargetShardIndex sh =? 0 then -1 else TargetShardIndex sh))
    (Z.of_nat (length (Nodes sh))) (0 <? length (SlotRanges sh))%nat (shows_migration sh) false.

Lemma range_string_truthy r : wf_range r -> js_or (VStr (range_string r)) (VStr "") = VStr (range_string r).
Proof.
  intros Hr. pose proof (range_string_active r Hr) as Ha. unfold js_or, truthy in *.
  by destruct (String.eqb_spec (range_string r) "") as [E|].
Qed.

Lemma processShard_row i sh : wf_migrating sh -> processShard i (shard_json sh) = Ok (shard_row i sh).
Proof.
  intros Hw. destruct (processShard_json i sh Hw) as (row & Hp & Hn & Hr & Hs & Hm & Hi). rewrite Hp. f_equal.
  unfold processShard in Hp. cbn [shard_json get prop mbind result_bind] in Hp. simpl in Hp. injection Hp as <-.
  cbn [nodeCount slotRanges hasSlots hasMigration hasImporting] in *. unfold shard_row. rewrite <- Hn, <- Hs, <- Hm. f_equal.
  - unfold wf_migrating in Hw. destruct (Migrating sh) as [[r []]|]; [|done..]. by apply range_string_truthy.
  - fold (vnum (TargetShardIndex sh)). unfold js_or. rewrite truthy_vnum. by destruct (TargetShardIndex sh =? 0).
Qed.

(** Rows of the shards of the server. *)
Lemma processAll_server i shards t :
  Forall wf_migrating shards ->
  exists t', processAll processShard i (map shard_json shards) t = Ok (mapi_from i shard_row shards, t').
Proof.
  intros Hw. revert i t. induction Hw as [|sh shards Hs _ IH]; intros i t; [by eexists|].
  cbn [map processAll mapi_from]. rewrite (processShard_row i sh Hs). cbn [mbind result_bind].
  match goal with |- context [processAll processShard (S i) _ ?u] => destruct (IH (S i) u) as [t' ->] end. by eexists.
Qed.

Lemma cluster_fetch_gets ns c : only_gets (fetchData ns c).
Proof.
  apply only_gets_finally; [|done]. apply only_gets_try; [|done].
  apply only_gets_bind; [eapply returns_only_gets, listShards_returns|]. intros v.
  destruct (negb (truthy v)); [done|]. apply only_gets_bind; [by destruct (as_array v "map")|]. intros l.
  apply only_gets_bind; [by destruct (processAll processShard 0 l (MkTotals 0 0 0))|]. by intros [rows t].
Qed.

#[local] Instance num_inj : Inj (=) (=) num.
Proof. intros x y Hxy. by injection Hxy. Qed.

Section Page.
Context {E : Type} `{EngineLaws E} `{Transport} (v : env).

(** The listing of the shards, of a cluster that exists or not. *)
Lemma listShards_served {S} e a ns c answer :
  represents e a -> plain_segment ns = true -> plain_segment c = true ->
  eval (fun q => fst (over_url (serve v) e q)) answer (@listShards S ns c)
  = Ok (VArr (from_option (fun cl => map shard_json (Shards cl)) [] (find_cluster a ns c))).
Proof.
  intros Hr Hpn Hpc. pose proof (plain_name _ Hpn) as Hn. pose proof (plain_name _ Hpc) as Hc.
  pose proof (rep_GetCluster e a ns c Hr Hn Hc) as Hg.
  assert (Hs : forall o, handle (ui_env v) e (RtShardList ns c) VUndefined = reply e o ->
    fst (over_url (serve v) e (Req GET (listing_path (LShards ns c)) VUndefined)) = to_axios o).
  { intros o. cbn [listing_path]. rewrite over_url_shards by done. apply (serve_listing v e (LShards ns c)). by repeat constructor. }
  cbn [handle] in Hs. unfold RequiredCluster in Hs. rewrite Hg in Hs.
  destruct (find_cluster a ns c) as [cl|]; simpl from_option.
  - apply (eval_list_call _ answer (LShards ns c)). pose proof (Hs _ eq_refl) as Ho. exact Ho.
  - eapply (listing_error _ answer (LShards ns c)). pose proof (Hs _ eq_refl) as Ho. exact Ho.
Qed.

(** The slots of the stored shards, read off the rows: for a cluster whose topology
    is right, as that of every cluster the server has created (an imported one need
    not be), the ranges of each row expand to exactly the slots its shard owns, and
    each of the 16384 slots is in exactly one row. *)
Definition slots_shown (cl : Cluster) (rows : list ShardData) : Prop :=
  (forall i row, rows !! i = Some row -> exists slots, expandSlotRanges (slotRanges row) = Ok (map num slots) /\
  forall x, In x slots <-> owns (Shards cl) i x) /\
  (forall x, 0 <= x <= 16383 -> exists i, forall j row slots,
  rows !! j = Some row -> expandSlotRanges (slotRanges row) = Ok (map num slots) -> In x slots <-> j = i).

Lemma rows_slots cl : topology cl -> slots_shown cl (mapi shard_row (Shards cl)).
Proof.
  intros Ht.
  assert (Hrow : forall i row, mapi shard_row (Shards cl) !! i = Some row ->
    exists slots, expandSlotRanges (slotRanges row) = Ok (map num slots) /\ forall x, In x slots <-> owns (Shards cl) i x).
  { intros i row. rewrite lookup_mapi. destruct (Shards cl !! i) as [sh|] eqn:Esh; [|done]. intros [= <-].
    pose proof (Forall_lookup_1 _ _ _ _ (top_shards cl Ht) Esh) as (_ & _ & Hw & _).
    destruct (expandSlotRanges_in (SlotRanges sh) Hw) as (slots & Hx & Hin). exists slots. split; [exact Hx|].
    intros x. rewrite Hin. split; [by exists sh|]. intros (sh' & Hs' & Hx'). congruence. }
  split; [exact Hrow|]. intros x Hx. destruct (top_owner cl Ht x Hx) as [i Hi]. exists i. intros j row slots Hj Hs.
  destruct (Hrow j row Hj) as (slots' & Hs' & Hin). rewrite Hs in Hs'. injection Hs' as Hs'.
  apply (inj (map num)) in Hs' as ->. by rewrite Hin.
Qed.

(** C25. The page of a cluster over the real handlers, through any transport of
    addresses, for names that an address carries unchanged.  Loading leaves the
    store alone and shows exactly one row per stored shard, in the order of the
    store: its index, its nodes, its ranges, the range that is migrating, whether
    it migrates and has slots, and the index of the target, except that the
    target 0 is shown as none (shard_row); the cards agree with the rows.  The only
    requirement on the cluster is that the migrations it records are of slots
    (0 to 16383).  When its topology is right, the ranges of each row expand to
    exactly the slots its shard owns and every slot is in exactly one row
    (slots_shown).  For a cluster that does not exist the page is empty. *)
Theorem cluster_page_end_to_end answer e a ns c s :
  represents e a -> plain_segment ns = true -> plain_segment c = true ->
  (forall cl, find_cluster a ns c = Some cl -> Forall wf_migrating (Shards cl)) ->
  let '(_, e', s', _) := run (over_url (serve v)) answer (fetchData ns c) e s in
  e' = e /\ loading s' = false /\ consistent s' /\
  match find_cluster a ns c with
  | None => shardsData s' = []
  | Some cl => shardsData s' = mapi shard_row (Shards cl) /\ (topology cl -> slots_shown cl (shardsData s'))
  end.
Proof.
  intros Hr Hn Hc Hw.
  destruct (run_only_gets (over_url (serve v)) answer (fetchData ns c) e s
    (fun q => over_url_get _ e q (serve_get v e)) (cluster_fetch_gets ns c)) as [l ->].
  pose proof (listShards_served (S := State) e a ns c answer Hr Hn Hc) as Hl.
  set (f := fun q => fst (over_url (serve v) e q)) in *. clearbody f.
  set (shards := from_option Shards [] (find_cluster a ns c)).
  assert (Hl' : eval f answer (@listShards State ns c) = Ok (VArr (map shard_json shards))).
  { rewrite Hl. unfold shards. by destruct (find_cluster a ns c). }
  assert (Hws : Forall wf_migrating shards) by (unfold shards; destruct (find_cluster a ns c); simpl; auto).
  destruct (processAll_server 0 shards (MkTotals 0 0 0) Hws) as [t Hp]. fold (mapi shard_row shards) in Hp.
  assert (Hex : exec f answer (fetchData ns c) s
    = setLoading false (setResourceCounts (MkCounts (Z.of_nat (length (mapi shard_row shards))) (totalNodes t)
    (t_withSlots t) (t_migrating t)) (setShardsData (mapi shard_row shards) s))).
  { unfold fetchData. rewrite exec_finally. cbn [exec set_state]. f_equal.
    erewrite exec_try_ok.
    - unfold loadShards. erewrite exec_bind_ok; [|exact Hl'|apply (returns_stateless (fun _ => True)), listShards_returns].
      cbn [truthy negb as_array lift]. rewrite exec_bind. cbn [eval exec]. by rewrite Hp.
    - unfold loadShards. rewrite (eval_bind_ok _ _ _ _ _ Hl'). cbn [truthy negb as_array lift mbind prog_bind].
      by rewrite Hp. }
  rewrite Hex. cbn [setLoading setResourceCounts setShardsData loading shardsData]. clear Hex Hl Hl'.
  split; [done|]. split; [done|]. split; [exact (shown_consistent _ _ _ _ s processShard_numbers Hp)|].
  unfold shards. destruct (find_cluster a ns c) as [cl|]; [|done]. split; [done|]. apply rows_slots.
Qed.
End Page.

Lemma cluster_page_end_to_end_witness :
  let '(_, e', s', _) := run (over_url (serve (MkEnv demo_replies unary 7 ""))) (fun _ => true) (fetchData "ns" "c") demo_store init in
  e' = demo_store /\ shardsData s' = mapi shard_row (Shards demo_cluster) /\ slots_shown demo_cluster (shardsData s').
Proof.
  assert (Hf : find_cluster (put_cluster "ns" demo_cluster {[ "ns" := ∅ ]}) "ns" "c" = Some demo_cluster).
  { rewrite (find_put "ns" demo_cluster {[ "ns" := ∅ ]} "ns" "c") by (rewrite lookup_singleton_eq; by eexists).
    by rewrite decide_True. }
  pose proof (cluster_page_end_to_end (MkEnv demo_replies unary 7 "") (fun _ => true) demo_store _ "ns" "c" init demo_rep
    eq_refl eq_refl) as Hx.
  destruct (run _ _ (fetchData "ns" "c") demo_store init) as [[[o e'] s'] l]. rewrite Hf in Hx.
  destruct Hx as (He & _ & _ & Hrows & Hs).
  - intros cl [= <-]. repeat constructor; unfold wf_migrating, wf_range, MinSlotID, MaxSlotID; simpl; lia.
  - split; [done|]. split; [done|]. apply Hs. exact demo_topology.
Defined.

(** A slot that migrates to shard 0 is shown without a target. *)
Theorem cluster_target_zero_dropped i sh :
  wf_migrating sh -> TargetShardIndex sh = 0 ->
  exists row, processShard i (shard_json sh) = Ok row /\ targetShardIndex row = vnum (-1) /\ targetView row = [].
Proof.
  intros Hw Ht. exists (shard_row i sh). rewrite processShard_row by done. split; [done|].
  unfold shard_row. cbn [targetShardIndex]. rewrite Ht. split; [done|]. unfold targetView. cbn [targetShardIndex hasMigration].
  done.
Qed.
