(* ===== verification/NamespaceEndToEnd.v ===== *)
(** * The page of a namespace against the server

    Loading the page from the server's handlers, with its parallel requests
    answered in any order, shows the clusters of the stored namespace. *)

From S2P Require Import Prelude JsString JsNumber JsValue Effects Api Url Slots GoShard GoCluster GoJson.
From S2P Require Import GoEngine GoStore GoTopology GoServer EndToEnd NamespacePage.

Lemma cluster_dispatch ns c :
  path_name ns = true -> path_name c = true -> dispatch GET (clusterPath ns c) = Some (RtClusterGet ns c).
Proof.
  intros H1 H2. unfold dispatch.
  assert (Hj : clusterPath ns c = join "/" ["";"api";"v1";"namespaces";ns;"clusters";c]).
  { unfold clusterPath, clustersPath, namespacePath, namespacesPath. rewrite ?append_assoc. reflexivity. }
  apply path_name_spec in H1 as [N1 E1], H2 as [N2 E2].
  rewrite Hj, split_join; [|done|by repeat constructor].
  cbn [match_route mbind option_bind params forallb]. by rewrite E1, E2.
Qed.

(** What a row shows of a cluster.  The flag of migrations is that of the page: it
    takes a shard without migration for a migrating one. *)
Record shows_cluster (cl : Cluster) (row : ClusterData) : Prop := {
  sc_name : name row = Name cl;
  sc_version : version row = vnum (Version cl);
  sc_shards : c_shards row = map shard_json (Shards cl);
  sc_shardCount : shardCount row = Z.of_nat (length (Shards cl));
  sc_nodeCount : nodeCount row = Z.of_nat (length (GetNodes cl));
  sc_slots : hasSlots row = existsb (fun s => 0 <? length (SlotRanges s))%nat (Shards cl);
  sc_migration : hasMigration row = existsb (fun s => negb (migrates_range s)) (Shards cl);
  sc_importing : hasImporting row = false }.

Lemma describe_cluster cl n :
  Forall wf_migrating (Shards cl) -> n = Z.of_nat (length (GetNodes cl)) ->
  exists row, describe (cluster_json cl) (map shard_json (Shards cl)) n = Ok row /\ shows_cluster cl row.
Proof.
  intros Hw ->. destruct (describe_go (cluster_json cl) (Shards cl) (Z.of_nat (length (GetNodes cl))) Hw)
    as (row & Hd & H1 & H2 & _ & H3 & _). exists row. split; [done|].
  pose proof (describe_counts _ _ _ _ Hd) as (Hs & Hc & Hn). rewrite length_map in Hc.
  assert (Hi : name row = Name cl /\ version row = vnum (Version cl)).
  { clear -Hd. unfold describe in Hd. repeat (apply result_bind_inv in Hd as (? & _ & Hd)). by simplify_eq. }
  destruct Hi. by split.
Qed.

(** The number of nodes that the loop over the shards finds. *)
Definition found_nodes (w : world) (ns c : string) (k : nat) : Z :=
  fold_left (fun n i => n + Z.of_nat (length (w_nodes w ns c i))) (seq 0 k) 0.

Lemma loop_count_nat k : loop_count (num_nat k) = k.
Proof. unfold loop_count, num_nat, num. rewrite Qround.Qceiling_Z. lia. Qed.

Section Evaluation.
Context (f : request -> axios_result) (w : world) (Hf : serves f w) (answer : string -> bool).
Context (ns : string) (Hns : In ns (w_namespaces w)).

Lemma eval_countNodes c k :
  In c (w_clusters w ns) -> (k <= length (w_shards w ns c))%nat ->
  eval f answer (for_of (seq 0 k) 0 (countNodes ns c)) = Ok (found_nodes w ns c k).
Proof.
  intros Hc Hk. apply eval_for_of. intros n i Hi. apply in_seq in Hi. unfold countNodes. rewrite eval_try, eval_bind.
  rewrite (eval_listNodes f w Hf answer ns c i) by (done || lia). reflexivity.
Qed.

(** A task that finds its cluster: its row, and what it adds to the totals. *)
Lemma eval_fetchTask c cl row :
  In c (w_clusters w ns) -> f (Req GET (clusterPath ns c) VUndefined) = Resolved (listing_body "cluster" (cluster_json cl)) ->
  (length (Shards cl) <= length (w_shards w ns c))%nat ->
  describe (cluster_json cl) (map shard_json (Shards cl)) (found_nodes w ns c (length (Shards cl))) = Ok row ->
  eval f answer (fetchTask ns (VStr c)) = Ok (Some row) /\
  forall t, exec f answer (fetchTask ns (VStr c)) t =
  addNodes (found_nodes w ns c (length (Shards cl))) (addShards (vnum (Z.of_nat (length (Shards cl)))) t).
Proof.
  intros Hc Hx Hl Hd. unfold fetchTask. cbn [to_string]. set (body := _ ≫= _).
  assert (Hb : eval f answer body = Ok (Some row) /\ forall t, exec f answer body t =
    addNodes (found_nodes w ns c (length (Shards cl))) (addShards (vnum (Z.of_nat (length (Shards cl)))) t)).
  2: { destruct Hb as [He Hex]. rewrite eval_try, He. split; [done|]. intros t. by rewrite (exec_try_ok _ _ _ _ _ _ He). }
  assert (Hi : eval f answer (@fetchCluster Totals ns c) = Ok (cluster_json cl)) by (by rewrite eval_fetchCluster, Hx).
  pose proof (eval_countNodes c _ Hc Hl) as Hn. set (n := found_nodes _ _ _ _) in *.
  assert (Hlen : prop (VArr (map shard_json (Shards cl))) "length" = vnum (Z.of_nat (length (Shards cl))))
    by (cbn; by rewrite length_map).
  unfold body. split; [rewrite (eval_bind_ok _ _ _ _ _ Hi)|intros t; rewrite (exec_bind_ok _ _ _ _ _ _ Hi)
    by (eapply returns_stateless, fetchCluster_returns)];
    change (truthy (cluster_json cl) && is_object (cluster_json cl) && js_in "shards" (cluster_json cl)) with true;
    change (js_or (prop (cluster_json cl) "shards") (VArr [])) with (VArr (map shard_json (Shards cl))); cbv iota zeta;
    rewrite Hlen; change (to_number (vnum ?z)) with (num z); fold (num_nat (length (Shards cl))); rewrite loop_count_nat.
  - rewrite (eval_bind_ok _ _ _ _ _ Hn). cbn [set_state as_array lift mbind prog_bind eval]. by rewrite Hd.
  - rewrite (exec_bind_ok _ _ _ _ _ _ Hn) by (apply stateless_for_of; intros; eapply returns_stateless, countNodes_reads).
    cbn [set_state as_array lift mbind prog_bind exec]. by rewrite Hd.
Qed.
End Evaluation.

Lemma found_nodes_sum w ns c k : found_nodes w ns c k = sumZ (map (fun i => Z.of_nat (length (w_nodes w ns c i))) (seq 0 k)).
Proof.
  assert (H : forall (g : nat -> Z) xs z, fold_left (fun n i => n + g i) xs z = z + sumZ (map g xs)).
  { intros g xs. induction xs as [|i xs IH]; intros z; simpl; [lia|]. rewrite IH. lia. }
  unfold found_nodes. by rewrite (H (fun i => Z.of_nat (length (w_nodes w ns c i)))).
Qed.

Lemma namespace_fetch_gets sched ns : only_gets (fetchData sched ns).
Proof.
  apply only_gets_finally; [|done]. apply only_gets_try; [|done].
  apply only_gets_bind; [eapply returns_only_gets, fetchNamespaces_returns|]. intros l.
  apply only_gets_bind; [by destruct (js_includes l ns)|]. intros []; [|done].
  apply only_gets_bind; [eapply returns_only_gets, fetchClusters_returns|]. intros cs.
  apply only_gets_bind; [by destruct (as_array cs "map")|]. intros items.
  apply only_gets_bind; [|by intros [data t]]. apply only_gets_locally, only_gets_promise_all.
  apply Forall_map, Forall_forall. intros c _. apply fetchTask_gets.
Qed.

Lemma includes_strings ns names : js_includes (VArr (map VStr names)) ns = Ok (bool_decide (ns ∈ names)).
Proof.
  cbn [js_includes]. f_equal. induction names as [|n names IH]; cbn [map existsb]; [done|]. rewrite IH. cbn [strict_eq].
  destruct (String.eqb_spec n ns) as [->|Hne]; cbn [orb].
  - symmetry. apply bool_decide_eq_true. set_solver.
  - apply bool_decide_ext. set_solver.
Qed.

(** Loading, by what the calls evaluate to. *)
Lemma exec_unknown f answer sched ns names s :
  eval f answer (@fetchNamespaces State) = Ok (VArr (map VStr names)) -> ns ∉ names ->
  exec f answer (fetchData sched ns) s = setLoading false s.
Proof.
  intros Hn Hin. unfold fetchData. rewrite exec_finally. cbn [exec set_state]. f_equal.
  rewrite exec_try, !eval_bind, !exec_bind, Hn, includes_strings, bool_decide_false by done. cbn [lift].
  rewrite (exec_stateless _ _ fetchNamespaces) by (eapply returns_stateless, fetchNamespaces_returns). reflexivity.
Qed.

Lemma exec_known f answer sched ns names items data s :
  eval f answer (@fetchNamespaces State) = Ok (VArr (map VStr names)) -> ns ∈ names ->
  eval f answer (@fetchClusters State ns) = Ok (VArr items) -> Forall (sized_cluster f ns) items ->
  mapM_result (eval f answer) (map (fetchTask ns) items) = Ok data ->
  exec f answer (fetchData sched ns) s =
  setLoading false (loaded data (exec_all f answer (map (fetchTask ns) items) (MkTotals (vnum 0) 0)) s).
Proof.
  intros Hn Hin Hc Hs Hd. unfold fetchData. rewrite exec_finally. cbn [exec set_state]. f_equal.
  pose proof (eval_tasks f answer sched ns items Hs) as Ht. rewrite Hd in Ht.
  assert (He : eval f answer (loadClusters sched ns) = Ok tt).
  { unfold loadClusters. rewrite (eval_bind_ok _ _ _ _ _ Hc). cbn [as_array lift mbind prog_bind]. by rewrite eval_bind, Ht. }
  assert (Hx : exec f answer (loadClusters sched ns) s =
    loaded data (exec_all f answer (map (fetchTask ns) items) (MkTotals (vnum 0) 0)) s).
  { unfold loadClusters. erewrite exec_bind_ok; [|exact Hc|eapply returns_stateless, fetchClusters_returns].
    cbn [as_array lift mbind prog_bind]. by erewrite exec_bind_ok; [|exact Ht|apply stateless_locally]. }
  rewrite exec_try, !eval_bind, !exec_bind, Hn, includes_strings, bool_decide_true by done. cbn [lift].
  rewrite (exec_stateless _ _ fetchNamespaces) by (eapply returns_stateless, fetchNamespaces_returns).
  cbn [eval exec mbind prog_bind]. by rewrite He, Hx.
Qed.

Section Page.
Context {E : Type} `{EngineLaws E} (v : env).

Lemma cluster_served (e : E) a ns c cl :
  represents e a -> path_name ns = true -> path_name c = true -> find_cluster a ns c = Some cl ->
  fst (serve v e (Req GET (clusterPath ns c) VUndefined)) = Resolved (listing_body "cluster" (cluster_json cl)).
Proof.
  intros Hr Hn Hc Hf. unfold serve. cbn [r_method r_path r_body]. rewrite cluster_dispatch by done. fold (ui_env v). cbn [handle].
  unfold RequiredCluster. by rewrite (rep_GetCluster e a ns c Hr Hn Hc), Hf.
Qed.

(** The page can count the shards of every cluster, and none of them reports a
    migration that the server would not print. *)
Definition showable (a : astore) : Prop :=
  forall ns c cl, find_cluster a ns c = Some cl -> Z.of_nat (length (Shards cl)) < 2 ^ 63 /\ Forall wf_migrating (Shards cl).

Definition row_of (a : astore) (ns c : string) (r : option ClusterData) : Prop :=
  exists cl row, find_cluster a ns c = Some cl /\ r = Some row /\ shows_cluster cl row.

(** The page's view of a store behind the transport. *)
Context `{Transport}.
Definition seen (e : E) (q : request) : axios_result := fst (over_url (serve v) e q).

Lemma seen_serves (e : E) a : represents e a -> showable a -> plain_store a -> serves (seen e) (store_world e).
Proof.
  intros Hr Hs Hp. apply serves_over_url; [by eapply plain_world_store|]. apply (server_serves v e a Hr).
  intros ns c cl Hf. by destruct (Hs ns c cl Hf).
Qed.

Lemma task_of_store (e : E) a ns c answer :
  represents e a -> showable a -> plain_store a -> ns ∈ ListNamespace e -> c ∈ ListCluster e ns ->
  exists row, eval (seen e) answer (fetchTask ns (VStr c)) = Ok (Some row) /\ row_of a ns c (Some row) /\
  sized_cluster (seen e) ns (VStr c) /\
  forall t, exec (seen e) answer (fetchTask ns (VStr c)) t = total add t (row_adds row).
Proof.
  intros Hr Hs Hp Hns Hin. destruct (plain_world_store e a Hr Hp ns (proj1 (list_elem_of_In _ _) Hns)) as [Hpn Hcs].
  pose proof (Hcs c (proj1 (list_elem_of_In _ _) Hin)) as Hpc. apply plain_name in Hpn as Hn, Hpc as Hc.
  destruct (rep_ListCluster e a ns Hr Hn) as [_ Hx]. apply Hx in Hin as Hf. destruct Hf as [cl Hf].
  destruct (Hs ns c cl Hf) as [_ Hw].
  assert (Hg : shards_of e ns c = Shards cl) by (unfold shards_of; by rewrite (rep_GetCluster e a ns c Hr Hn Hc), Hf).
  assert (Hk : found_nodes (store_world e) ns c (length (Shards cl)) = Z.of_nat (length (GetNodes cl))).
  { rewrite found_nodes_sum. cbn [store_world w_nodes]. rewrite Hg. apply nodes_by_shard. }
  destruct (describe_cluster cl _ Hw Hk) as (row & Hd & Hrow).
  assert (Hsv : seen e (Req GET (clusterPath ns c) VUndefined) = Resolved (listing_body "cluster" (cluster_json cl))).
  { unfold seen. rewrite over_url_cluster by done. by apply (cluster_served e a). }
  destruct (eval_fetchTask (seen e) (store_world e) (seen_serves e a Hr Hs Hp) answer ns
    (proj1 (list_elem_of_In _ _) Hns) c cl row) as [Hev Hex]; [by apply list_elem_of_In|exact Hsv| |exact Hd|].
  { cbn [store_world w_shards]. by rewrite Hg, length_map. }
  exists row. split; [exact Hev|]. split; [by exists cl, row|]. split.
  - unfold sized_cluster. cbn [to_string]. rewrite Hsv. by apply (array_sized _ (map shard_json (Shards cl))).
  - intros t. rewrite Hex, Hk. unfold total, row_adds. cbn [fold_left add].
    destruct Hrow as [_ _ _ -> -> _ _ _]. reflexivity.
Qed.

Lemma tasks_of_store (e : E) a ns answer cs :
  represents e a -> showable a -> plain_store a -> ns ∈ ListNamespace e -> Forall (fun c => c ∈ ListCluster e ns) cs ->
  Forall (sized_cluster (seen e) ns) (map VStr cs) /\
  exists rows, mapM_result (eval (seen e) answer) (map (fetchTask ns) (map VStr cs)) = Ok (map Some rows) /\
  Forall2 (fun c row => row_of a ns c (Some row)) cs rows /\
  forall t, exec_all (seen e) answer (map (fetchTask ns) (map VStr cs)) t = total add t (concat (map row_adds rows)).
Proof.
  intros Hr Hs Hp Hns Hall. induction Hall as [|c cs Hc _ [IH1 (rows & Hd & IH2 & IH3)]]; [by split; [|exists []]|].
  destruct (task_of_store e a ns c answer Hr Hs Hp Hns Hc) as (row & Hev & Hrow & Hsz & Hex).
  split; [by constructor|]. exists (row :: rows). cbn [map mapM_result]. rewrite Hev, Hd. split; [done|].
  split; [by constructor|]. intros t. change (exec_all (seen e) answer (fetchTask ns (VStr c) :: map (fetchTask ns) (map VStr cs)) t)
    with (exec_all (seen e) answer (map (fetchTask ns) (map VStr cs)) (exec (seen e) answer (fetchTask ns (VStr c)) t)).
  rewrite IH3, Hex. cbn [concat]. unfold total. by rewrite fold_left_app.
Qed.

Lemma omap_some {A} (l : list A) : omap id (map Some l) = l.
Proof. induction l; simpl; [done|]. by f_equal. Qed.

(** C24. The page of a namespace over the real handlers, through any transport of
    addresses, whatever the order in which its parallel requests are answered and
    their additions to the shared totals are made; for a store and a page whose
    names an address carries unchanged (the client does not escape them).  Loading
    leaves the store alone and ends.  The page of a namespace of the store shows one row for each of its clusters, with the name,
    the version, the shards and the numbers of shards and nodes of the stored
    cluster, and the totals of the rows on its cards; the page of another one
    shows what it showed before. *)
Theorem namespace_page_end_to_end answer sched (e : E) a ns s :
  represents e a -> showable a -> plain_store a -> plain_segment ns = true ->
  let '(_, e', s', _) := run (over_url (serve v)) answer (fetchData sched ns) e s in
  e' = e /\ loading s' = false /\
  match a !! ns with
  | None => clusterData s' = clusterData s
  | Some cs => consistent s' /\ exists names, names ≡ₚ (map_to_list cs).*1 /\
      Forall2 (fun c row => exists cl, cs !! c = Some cl /\ shows_cluster cl row) names (clusterData s')
  end.
Proof.
  intros Hr Hs Hp Hpn.
  destruct (run_only_gets (over_url (serve v)) answer (fetchData sched ns) e s
    (fun q => over_url_get _ e q (serve_get v e)) (namespace_fetch_gets sched ns)) as [l ->]. fold (seen e).
  pose proof (seen_serves e a Hr Hs Hp) as Hsv.
  pose proof (eval_fetchNamespaces (S := State) _ _ Hsv answer) as Hn. cbn [store_world w_namespaces] in Hn.
  destruct (rep_ListNamespace e a Hr) as [_ Hx].
  destruct (a !! ns) as [cs|] eqn:Ea.
  2: { rewrite (exec_unknown _ _ _ _ _ _ Hn); [done|]. intros Hin%Hx. destruct Hin. congruence. }
  assert (Hin : ns ∈ ListNamespace e) by (apply Hx; by eexists).
  destruct (tasks_of_store e a ns answer (ListCluster e ns)) as (Hsz & rows & Hd & Hrows & Htot); [done..|by apply Forall_forall|].
  rewrite (exec_known _ _ _ _ _ _ _ _ Hn Hin (eval_fetchClusters _ _ Hsv answer ns (proj1 (list_elem_of_In _ _) Hin)) Hsz Hd).
  rewrite Htot. split; [done|]. split; [done|]. unfold consistent, loaded. cbn [setLoading clusterData setResourceCounts
    setClusterData resourceCounts clusters shards nodes]. rewrite omap_some, (total_rows rows) by done. split; [done|].
  exists (ListCluster e ns). split; [by apply (clusters_perm e a)|].
  clear -Hrows Ea. induction Hrows as [|c row cs' rows (cl & row' & Hf & Ht & Hrow) _ IH]; constructor; [|exact IH].
  injection Ht as ->. exists cl. split; [|done]. unfold find_cluster in Hf. by rewrite Ea in Hf.
Qed.
End Page.

Lemma namespace_page_end_to_end_witness :
  let '(_, e', s', _) := run (over_url (serve (MkEnv demo_replies unary 7 ""))) (fun _ => true) (fetchData [0%nat] "ns") demo_store init in
  e' = demo_store /\ map name (clusterData s') = ["c"] /\ shards (resourceCounts s') = vnum 2.
Proof.
  pose proof (namespace_page_end_to_end (MkEnv demo_replies unary 7 "") (fun _ => true) [0%nat] demo_store _ "ns" init demo_rep) as Hx.
  assert (Hf : forall ns c cl, find_cluster (put_cluster "ns" demo_cluster {[ "ns" := ∅ ]}) ns c = Some cl -> cl = demo_cluster).
  { intros ns c cl. rewrite find_put by (rewrite lookup_singleton_eq; by eexists). case_decide; [congruence|]. unfold find_cluster.
    destruct (decide (ns = "ns")) as [->|Hne]; [by rewrite lookup_singleton_eq|by rewrite lookup_singleton_ne]. }
  destruct (run _ _ (fetchData _ "ns") demo_store init) as [[[o e'] s'] l] eqn:Er.
  assert (Hw : Forall wf_migrating (Shards demo_cluster)).
  { repeat constructor; unfold wf_migrating, wf_range, MinSlotID, MaxSlotID; simpl; lia. }
  destruct Hx as (H1 & _ & _);
    [intros ns c cl Hc; rewrite (Hf ns c cl Hc); split; [simpl; lia|exact Hw]|exact demo_plain|reflexivity|].
  split; [exact H1|]. split.
  - change (map name (clusterData (snd (fst (o, e', s', l)))) = ["c"]). rewrite <- Er. vm_compute. reflexivity.
  - change (shards (resourceCounts (snd (fst (o, e', s', l)))) = vnum 2). rewrite <- Er. vm_compute. reflexivity.
Defined.
