(* ===== verification/NodeEndToEnd.v ===== *)
(** * The page of a node against the server

    Loading the page from the server's handlers shows the node of the store. *)

From S2P Require Import Prelude JsString JsNumber JsValue Effects View Api Slots GoShard GoCluster GoJson.
From S2P Require Import GoEngine GoStore GoTopology GoServer EndToEnd NodePage.

Lemma node_fetch_gets p : only_gets (fetchData p).
Proof.
  apply only_gets_finally; [|done]. apply only_gets_try; [|done].
  apply only_gets_bind; [eapply returns_only_gets, listNodes_returns|]. intros v. by destruct (negb (truthy v)).
Qed.

Section Page.
Context {E : Type} `{EngineLaws E} (v : env).

(** The listing of the nodes, of a shard that exists or not. *)
Lemma listNodes_served {S} e a ns c i answer :
  represents e a -> path_name ns = true -> path_name c = true -> Z.of_nat i < 2 ^ 63 ->
  eval (fun q => fst (serve v e q)) answer (@listNodes S ns c (nat_to_string i))
  = Ok (VArr (map node_json (from_option Nodes [] (stored_shard a ns c i)))).
Proof.
  intros Hr Hn Hc Hi.
  assert (Hs : forall o, handle (ui_env v) e (RtNodeList ns c (nat_to_string i)) VUndefined = reply e o ->
    fst (serve v e (Req GET (listing_path (LNodes ns c (nat_to_string i))) VUndefined)) = to_axios o).
  { intros o. apply (serve_listing v e (LNodes ns c (nat_to_string i))). repeat constructor; [done|done|apply nat_to_string_name]. }
  cbn [handle] in Hs. destruct (RequiredClusterShard_stored e a ns c i Hr Hn Hc Hi) as [err He].
  rewrite He in Hs. unfold stored_shard. destruct (find_cluster a ns c) as [cl|]; cbn [mbind option_bind] in *.
  - destruct (Shards cl !! i) as [sh|].
    + apply (eval_list_call _ answer (LNodes ns c (nat_to_string i))). pose proof (Hs _ eq_refl) as Ho. exact Ho.
    + eapply (listing_error _ answer (LNodes ns c (nat_to_string i))). pose proof (Hs _ eq_refl) as Ho. exact Ho.
  - eapply (listing_error _ answer (LNodes ns c (nat_to_string i))). pose proof (Hs _ eq_refl) as Ho. exact Ho.
Qed.

(** C26. The page of a node over the real handlers.  Loading the page for position
    [k] of shard [i] leaves the store alone and shows that node of the stored
    cluster: its identifier, address and role are on the page, and its buttons
    copy exactly its identifier, its address and, if it has one, its password.
    When the cluster, the shard or the position does not exist, the page says so. *)
Theorem node_page_end_to_end fmt answer e a ns c i k s :
  represents e a -> path_name ns = true -> path_name c = true -> Z.of_nat i < 2 ^ 63 ->
  let p := MkParams ns c (nat_to_string i) (nat_to_string k) in
  let '(_, e', s', _) := run (serve v) answer (fetchData p) e s in
  e' = e /\ loading s' = false /\
  match (sh ← stored_shard a ns c i; Nodes sh !! k) with
  | Some n =>
      In (ID n) (all_texts (view fmt p s')) /\ In (Addr n) (all_texts (view fmt p s')) /\
      In (Role n) (all_texts (view fmt p s')) /\
      (forall inp, all_fires inp (view fmt p s') =
      [Copy (VStr (ID n)) "id"; Copy (VStr (Addr n)) "addr"] ++
      (if String.eqb (Password n) "" then [] else [Copy (VStr (Password n)) "pwd"]))
  | None => view fmt p s' = notFoundView p
  end.
Proof.
  intros Hr Hn Hc Hi p.
  destruct (run_only_gets (serve v) answer (fetchData p) e s (serve_get v e) (node_fetch_gets p)) as [l ->].
  pose proof (listNodes_served (S := State) e a ns c i answer Hr Hn Hc Hi) as Hl.
  set (f := fun q => fst (serve v e q)) in *. clearbody f.
  set (sh := default NewShard (stored_shard a ns c i)).
  assert (Hl' : eval f answer (@listNodes State ns c (nat_to_string i)) = Ok (VArr (map node_json (Nodes sh)))).
  { rewrite Hl. unfold sh. by destruct (stored_shard a ns c i). }
  assert (Hex : exec f answer (fetchData p) s = loaded_state sh s).
  { unfold fetchData. rewrite exec_finally. cbn [exec set_state p p_namespace p_cluster p_shard].
    unfold loaded_state. f_equal. erewrite exec_try_ok.
    - erewrite exec_bind_ok; [|exact Hl'|apply (returns_stateless (fun _ => True)), listNodes_returns]. reflexivity.
    - rewrite (eval_bind_ok _ _ _ _ _ Hl'). reflexivity. }
  rewrite Hex. split; [done|]. split; [done|].
  pose proof (node_shown fmt ns c (nat_to_string i) k sh s) as Hv. cbv zeta in Hv. fold p in Hv.
  unfold sh in *. destruct (stored_shard a ns c i) as [sh'|]; cbn [default mbind option_bind] in *; [exact Hv|].
  exact Hv.
Qed.
End Page.

Lemma node_page_end_to_end_witness :
  let p := MkParams "ns" "c" "0" "1" in
  let '(_, e', s', _) := run (serve (MkEnv demo_replies unary 7 "")) (fun _ => true) (fetchData p) demo_store init in
  e' = demo_store /\ In "h:2" (all_texts (view (fun _ => "") p s')).
Proof.
  assert (Hf : find_cluster (put_cluster "ns" demo_cluster {[ "ns" := ∅ ]}) "ns" "c" = Some demo_cluster).
  { rewrite (find_put "ns" demo_cluster {[ "ns" := ∅ ]} "ns" "c") by (rewrite lookup_singleton_eq; by eexists).
    by rewrite decide_True. }
  pose proof (node_page_end_to_end (MkEnv demo_replies unary 7 "") (fun _ => "") (fun _ => true) demo_store _ "ns" "c" 0 1
    init demo_rep eq_refl eq_refl ltac:(lia)) as Hx. cbv zeta in *.
  change (nat_to_string 0) with "0" in Hx. change (nat_to_string 1) with "1" in Hx.
  destruct (run _ _ (fetchData _) demo_store init) as [[[o e'] s'] l].
  unfold stored_shard in Hx. rewrite Hf in Hx. destruct Hx as (He & _ & _ & Ha & _). by split.
Defined.
