(* ===== verification/ShardEndToEnd.v ===== *)
(** * The page of a shard against the server

    Loading the page from the server's handlers shows the nodes of the stored
    shard, and its delete button removes exactly the node of its row. *)

From S2P Require Import Prelude JsString JsNumber JsValue Effects Api Collate Slots GoShard GoCluster GoJson.
From S2P Require Import GoEngine GoStore GoTopology GoServer EndToEnd ShardPage.

Lemma shard_dispatch ns c sh :
  path_name ns = true -> path_name c = true -> path_name sh = true ->
  dispatch GET (shardPath ns c sh) = Some (RtShardGet ns c sh).
Proof.
  intros H1 H2 H3. unfold dispatch.
  assert (Hj : shardPath ns c sh = join "/" ["";"api";"v1";"namespaces";ns;"clusters";c;"shards";sh]).
  { unfold shardPath, shardsPath, clusterPath, clustersPath, namespacePath, namespacesPath. rewrite ?append_assoc. reflexivity. }
  apply path_name_spec in H1 as [N1 E1], H2 as [N2 E2], H3 as [N3 E3].
  rewrite Hj, split_join; [|done|by repeat constructor].
  cbn [match_route mbind option_bind params forallb]. by rewrite E1, E2, E3.
Qed.

(** The shard as the client reads it: the one of the store, or an empty object. *)
Definition shard_value (a : astore) (ns c : string) (i : nat) : value :=
  match stored_shard a ns c i with Some sh => shard_json sh | None => VObj [] end.

(** The page shows the nodes of the shard that match the search and the filter, in
    the chosen order; without the shard, nothing. *)
Definition shows_shard (a : astore) (ns c : string) (i : nat) (s : State) : Prop :=
  filteredAndSortedNodes s = Ok (map node_json (from_option (shownNodes s) [] (stored_shard a ns c i))).

Lemma shows_shard_value a ns c i s : nodesData s = shard_value a ns c i -> shows_shard a ns c i s.
Proof.
  unfold shard_value, shows_shard. destruct (stored_shard a ns c i) as [sh|]; [apply filteredAndSortedNodes_json|].
  intros Hn. unfold filteredAndSortedNodes. rewrite Hn. done.
Qed.

Lemma RemoveNode_at cl i sh id :
  Shards cl !! i = Some sh ->
  RemoveNode (Z.of_nat i) id cl =
  match removeNode id sh with inl err => inl err | inr sh' => inr (setShards (<[i := sh']> (Shards cl)) cl, tt) end.
Proof.
  intros Esh. apply lookup_lt_Some in Esh as Hlt. unfold RemoveNode, onShard, GetShard. rewrite Nat2Z.id, Esh.
  rewrite (proj2 (Z.ltb_ge (Z.of_nat i) 0)), (proj2 (Z.leb_gt _ _)) by lia. cbn [orb]. by destruct (removeNode id sh).
Qed.

(** The programs of the page, run against any server. *)
Section Runs.
Context {Srv : Type} (sv : Srv -> request -> axios_result * Srv) (answer : string -> bool) (p : Params).

Let read : request := Req GET (shardPath (p_namespace p) (p_cluster p) (p_shard p)) VUndefined.

(** Reading the shard, in front of whatever follows. *)
Lemma run_fetchPageShard e x e' s : sv e read = (x, e') ->
  exists l, run sv answer (fetchPageShard p) e s = (Ok (object_result "shard" x), e', s, l).
Proof.
  intros Hx. unfold fetchPageShard, fetchShard, axios_get, await_axios. cbn [run try_catch mbind prog_bind]. fold read.
  rewrite Hx. destruct x as [d|x]; cbn [object_result mbind result_bind prog_bind try_catch run]; [|by eexists].
  destruct (get d "data") as [w|]; cbn [lift prog_bind try_catch mbind result_bind run]; [|by eexists].
  destruct (get w "shard"); by eexists.
Qed.

Lemma run_fetchData e x s : sv e read = (x, e) -> truthy (object_result "shard" x) = true ->
  exists l, run sv answer (fetchData p) e s = (Ok tt, e, setLoading false (setNodesData (object_result "shard" x) s), l).
Proof.
  intros Hx Ht. unfold fetchData. rewrite run_finally, run_try, run_bind.
  destruct (run_fetchPageShard e x e s Hx) as [l ->]. rewrite Ht. by eexists.
Qed.

Lemma run_refresh e x s : sv e read = (x, e) ->
  exists l, run sv answer (refreshShardData p) e s = (Ok tt, e, setLoading false (setNodesData (object_result "shard" x) s), l).
Proof.
  intros Hx. unfold refreshShardData. rewrite run_bind. cbn [run set_state]. rewrite run_finally, run_try, run_bind.
  destruct (run_fetchPageShard e x e (setLoading true s) Hx) as [l ->]. by eexists.
Qed.

Lemma run_handleDeleteNode k n e y e' b s :
  (forall m, answer m = true) -> sv e (mutation_request (MDeleteNode (p_namespace p) (p_cluster p) (p_shard p) (ID n))) = (y, e') ->
  (accepted DELETE y = true -> sv e' read = (b, e')) ->
  exists l, run sv answer (handleDeleteNode p k (node_json n)) e s =
  (Ok tt, e', if accepted DELETE y then setNodesData (object_result "shard" b) (setLoading false (setDeletingNodeIndex None s))
  else setLoading false (setDeletingNodeIndex None s), l).
Proof.
  intros Ha Hy Hb. unfold handleDeleteNode. rewrite run_bind. cbn [run confirm]. rewrite Ha. cbn [negb].
  rewrite run_finally, run_try, run_bind. cbn [run set_state]. rewrite run_bind.
  change (get (node_json n) "id") with (Ok (VStr (ID n))). cbn [lift run]. rewrite run_bind.
  change (to_string (VStr (ID n))) with (ID n).
  destruct (run_perform sv answer (MDeleteNode (p_namespace p) (p_cluster p) (p_shard p) (ID n)) e (setDeletingNodeIndex (Some k) s))
    as [l Hp]. cbn [perform] in Hp. rewrite Hp, Hy. clear Hp. change (mutation_result _ y) with (delete_result y).
  rewrite delete_result_truthy. destruct (accepted DELETE y); cbn [negb].
  - rewrite run_bind. cbn [run set_state]. rewrite run_bind.
    destruct (run_fetchPageShard e' b e' (setLoading true (setDeletingNodeIndex (Some k) s)) (Hb eq_refl)) as [l' ->].
    by eexists.
  - by eexists.
Qed.
End Runs.

Section Page.
Context {E : Type} `{EngineLaws E} (v : env).

Lemma error_rejected err : exists x, to_axios (ResponseError err) = Rejected x.
Proof. unfold ResponseError, to_axios, error_code. destruct (err_is err) as [[]|]; by eexists. Qed.

(** Reading a shard, one that exists or not. *)
Lemma shard_served e a ns c i :
  represents e a -> path_name ns = true -> path_name c = true -> Z.of_nat i < 2 ^ 63 ->
  exists x, serve v e (Req GET (shardPath ns c (nat_to_string i)) VUndefined) = (x, e) /\
  object_result "shard" x = shard_value a ns c i.
Proof.
  intros Hr Hn Hc Hi. unfold serve. cbn [r_method r_path r_body].
  rewrite shard_dispatch by (done || apply nat_to_string_name). fold (ui_env v). cbn [handle].
  destruct (RequiredClusterShard_stored e a ns c i Hr Hn Hc Hi) as [err ->]. unfold shard_value, stored_shard.
  destruct (find_cluster a ns c) as [cl|]; cbn [mbind option_bind]; [destruct (Shards cl !! i) as [sh|]|].
  - eexists. by split.
  - destruct (error_rejected err) as [x Hx]. unfold reply. rewrite Hx. eexists. by split.
  - destruct (error_rejected err) as [x Hx]. unfold reply. rewrite Hx. eexists. by split.
Qed.

(** Removing a node: accepted exactly when the shard allows it. *)
Lemma removal_served e a ns c i id :
  represents e a -> store_ok a -> path_name ns = true -> path_name c = true -> path_name id = true ->
  Z.of_nat i < 2 ^ 63 ->
  let '(x, e') := serve v e (mutation_request (MDeleteNode ns c (nat_to_string i) id)) in
  match (sh ← stored_shard a ns c i; match removeNode id sh with inr sh' => Some sh' | inl _ => None end) with
  | Some sh' => accepted DELETE x = true /\ exists a', represents e' a' /\ stored_shard a' ns c i = Some sh'
  | None => accepted DELETE x = false /\ e' = e
  end.
Proof.
  intros Hr Hok Hn Hc Hid Hi. unfold serve.
  rewrite mutation_dispatch by (repeat constructor; (done || apply nat_to_string_name)).
  fold (ui_env v). cbn [handle mutation_rt].
  destruct (RequiredClusterShard_stored e a ns c i Hr Hn Hc Hi) as [err ->]. unfold stored_shard at 1.
  destruct (find_cluster a ns c) as [cl|] eqn:Ef; cbn [mbind option_bind];
    [destruct (Shards cl !! i) as [sh|] eqn:Esh; cbn [mbind option_bind]|];
    try (split; [apply error_not_accepted|done]).
  unfold Node_Remove. pose proof (RemoveNode_at cl i sh id Esh) as Hrm. rewrite Hrm.
  destruct (removeNode id sh) as [err'|sh'] eqn:Erm; [split; [apply error_not_accepted|done]|].
  set (cl' := setShards _ cl) in *.
  destruct (Hok ns c cl Ef) as (Hnm & Hs & _).
  destruct (UpdateCluster_next e a ns c cl cl' Hr Hok Hn Hc Ef eq_refl eq_refl
    (storable_RemoveNode _ _ _ _ _ Hs Hrm)) as (e' & evs & Hu & Hrep).
  unfold GoServer.update. rewrite Hu. split; [done|]. eexists. split; [exact Hrep|]. unfold stored_shard.
  rewrite find_put by (apply (find_cluster_ns a ns c); by rewrite Ef).
  rewrite decide_True by done. cbn [mbind option_bind next_version Shards cl' setShards].
  apply list_lookup_insert_eq. by eapply lookup_lt_Some.
Qed.

(** C27. The page of a shard over the real handlers.  Loading it, and reloading it
    after a failover, leaves the store alone and shows the nodes of the stored
    shard that match the search and the filter.  A confirmed deletion of the node
    of a row, of a shard whose nodes have distinct identifiers, removes exactly
    that node from the store if it is there and not the master, and the page then
    shows the shard without it; otherwise neither the store nor the nodes on the
    page change.  The page is not left loading, nor the button disabled. *)
Theorem shard_page_end_to_end answer (e : E) a ns c i s :
  represents e a -> store_ok a -> path_name ns = true -> path_name c = true -> Z.of_nat i < 2 ^ 63 ->
  let p := MkParams ns c (nat_to_string i) in
  (forall q, q = fetchData p \/ q = refreshShardData p ->
  let '(_, e', s', _) := run (serve v) answer q e s in
  e' = e /\ loading s' = false /\ shows_shard a ns c i s') /\
  (forall k n, (forall m, answer m = true) -> path_name (ID n) = true ->
  (forall sh, stored_shard a ns c i = Some sh -> NoDup (map ID (Nodes sh))) ->
  let '(_, e', s', _) := run (serve v) answer (handleDeleteNode p k (node_json n)) e s in
  loading s' = false /\ deletingNodeIndex s' = None /\
  match (sh ← stored_shard a ns c i; List.find (fun x => String.eqb (ID x) (ID n)) (Nodes sh)) with
  | Some x =>
      if IsMaster x then e' = e /\ nodesData s' = nodesData s
      else exists a' sh, represents e' a' /\ stored_shard a ns c i = Some sh /\
      stored_shard a' ns c i = Some (setNodes (without (ID n) (Nodes sh)) sh) /\ shows_shard a' ns c i s'
  | None => e' = e /\ nodesData s' = nodesData s
  end).
Proof.
  intros Hr Hok Hn Hc Hi p. destruct (shard_served e a ns c i Hr Hn Hc Hi) as (x & Hx & Hv). split.
  - intros q Hq.
    assert (Hrun : exists l, run (serve v) answer q e s = (Ok tt, e, setLoading false (setNodesData (shard_value a ns c i) s), l)).
    { rewrite <- Hv. destruct Hq as [-> | ->]; [apply run_fetchData|by apply run_refresh]; [done|].
      rewrite Hv. unfold shard_value. by destruct (stored_shard a ns c i). }
    destruct Hrun as [l ->]. split; [done|]. split; [done|]. by apply shows_shard_value.
  - intros k n Ha Hid Hnd. pose proof (removal_served e a ns c i (ID n) Hr Hok Hn Hc Hid Hi) as Hrm.
    destruct (serve v e (mutation_request (MDeleteNode ns c (nat_to_string i) (ID n)))) as [y e'] eqn:Ey.
    assert (Hd : forall b, (accepted DELETE y = true -> serve v e' (Req GET (shardPath ns c (nat_to_string i)) VUndefined) = (b, e')) ->
      exists l, run (serve v) answer (handleDeleteNode p k (node_json n)) e s =
      (Ok tt, e', if accepted DELETE y then setNodesData (object_result "shard" b) (setLoading false (setDeletingNodeIndex None s))
      else setLoading false (setDeletingNodeIndex None s), l)).
    { intros b Hb. by apply (run_handleDeleteNode (serve v) answer p). }
    destruct (stored_shard a ns c i) as [sh|] eqn:Esh; cbn [mbind option_bind] in *.
    + rewrite removeNode_exact in Hrm by auto. destruct (List.find _ (Nodes sh)) as [z|] eqn:Ez.
      * destruct (IsMaster z).
        -- destruct Hrm as [Hacc ->]. rewrite Hacc in Hd. destruct (Hd y) as [l ->]; done.
        -- destruct Hrm as (Hacc & a' & Hr' & Hs'). rewrite Hacc in Hd.
          destruct (shard_served e' a' ns c i Hr' Hn Hc Hi) as (b & Hb & Hv').
          destruct (Hd b (fun _ => Hb)) as [l ->]. split_and!; [done..|]. exists a', sh. split_and!; [done..|].
          by apply shows_shard_value.
      * destruct Hrm as [Hacc ->]. rewrite Hacc in Hd. destruct (Hd y) as [l ->]; done.
    + destruct Hrm as [Hacc ->]. rewrite Hacc in Hd. destruct (Hd y) as [l ->]; done.
Qed.
End Page.

Lemma shard_page_end_to_end_witness :
  let p := MkParams "ns" "c" "0" in
  let sv := serve (MkEnv demo_replies unary 7 "") in
  (let '(_, e', s', _) := run sv (fun _ => true) (fetchData p) demo_store init in e' = demo_store /\ loading s' = false) /\
  (let '(_, e', s', _) := run sv (fun _ => true) (handleDeleteNode p 0 (node_json (MkGoNode "b" "" "" "" 0))) demo_store init in
   exists a', represents e' a' /\ option_map (map ID ∘ Nodes) (stored_shard a' "ns" "c" 0) = Some ["a"] /\
     shows_shard a' "ns" "c" 0 s').
Proof.
  assert (Hf : find_cluster (put_cluster "ns" demo_cluster {[ "ns" := ∅ ]}) "ns" "c" = Some demo_cluster).
  { rewrite (find_put "ns" demo_cluster {[ "ns" := ∅ ]} "ns" "c") by (rewrite lookup_singleton_eq; by eexists).
    by rewrite decide_True. }
  destruct (shard_page_end_to_end (MkEnv demo_replies unary 7 "") (fun _ => true) demo_store _ "ns" "c" 0 init
    demo_rep demo_store_ok eq_refl eq_refl ltac:(lia)) as [Hl Hd]. cbv zeta. change (nat_to_string 0) with "0" in *. split.
  - specialize (Hl _ (or_introl eq_refl)). destruct (run _ _ (fetchData _) demo_store init) as [[[o e'] s'] l]. tauto.
  - specialize (Hd 0%nat (MkGoNode "b" "" "" "" 0) (fun _ => eq_refl) eq_refl).
    destruct (run _ _ (handleDeleteNode _ _ _) demo_store init) as [[[o e'] s'] l].
    unfold stored_shard in Hd at 1 2 3. rewrite Hf in Hd.
    destruct Hd as (_ & _ & a' & sh & Hr & [= <-] & Hs & Hv).
    + intros sh [= <-]. apply (bool_decide_unpack _). vm_compute. done.
    + exists a'. split; [done|]. split; [by rewrite Hs|done].
Defined.
