(* ===== verification/Options.v ===== *)
(** * The options of the list pages (the types FilterOption and SortOption of
    webui/src/app/namespaces/page.tsx, .../[namespace]/page.tsx and
    .../clusters/[cluster]/page.tsx)

    The pages keep their options as strings.  What the popovers let the user pick
    is of the declared types, so a page that started with options of these types
    keeps to them; the declared orders that no popover offers are named. *)

From S2P Require Import Prelude JsString JsNumber JsValue Effects View Api Collate.
From S2P Require Import NamespacesPage NamespacePage ClusterPage.

(** An event of a popover is that of one of its options or of its close button. *)
Ltac picked := cbn; intros; repeat match goal with H : _ \/ _ |- _ => destruct H | H : False |- _ => destruct H end; simplify_eq; set_solver.

Module Namespaces.
Import NamespacesPage.

Definition namespacesFilterOption : list string := ["all"; "with-clusters"; "no-clusters"].
Definition namespacesSortOption : list string := ["name-asc"; "name-desc"; "clusters-desc"; "clusters-asc"; "nodes-desc"; "nodes-asc"].

Definition namespaces_typed_options (s : State) : Prop := filterOption s ∈ namespacesFilterOption /\ sortOption s ∈ namespacesSortOption.

Lemma namespaces_init_typed : namespaces_typed_options init.
Proof. split; set_solver. Qed.

Lemma namespaces_offered i s : options (filterPopover s) = namespacesFilterOption /\ options (sortPopover s) = namespacesSortOption /\
  (forall o, In (PickFilter o) (fires i (filterPopover s)) -> o ∈ namespacesFilterOption) /\
  (forall o, In (PickSort o) (fires i (sortPopover s)) -> o ∈ namespacesSortOption).
Proof.
  split; [reflexivity|]. split; [reflexivity|]. split; intros o; unfold filterPopover, sortPopover; cbn [fires shown forallb];
    [destruct (filterOpen s)|destruct (sortOpen s)]; picked.
Qed.
End Namespaces.

Module Namespace.
Import NamespacePage.

Definition namespaceFilterOption : list string := ["all"; "with-migration"; "no-migration"; "with-slots"; "no-slots"; "with-importing"].
Definition namespaceSortOption : list string := ["name-asc"; "name-desc"; "shards-desc"; "shards-asc"; "nodes-desc"; "nodes-asc"].

Definition namespace_typed_options (s : State) : Prop := filterOption s ∈ namespaceFilterOption /\ sortOption s ∈ namespaceSortOption.

Lemma namespace_init_typed : namespace_typed_options init.
Proof. split; set_solver. Qed.

Lemma namespace_offered i s : options (filterPopover s) = namespaceFilterOption /\
  (forall o, o ∈ namespaceSortOption -> o ∈ options (sortPopover s) \/ o = "shards-asc" \/ o = "nodes-asc") /\
  (forall o, In (PickFilter o) (fires i (filterPopover s)) -> o ∈ namespaceFilterOption) /\
  (forall o, In (PickSort o) (fires i (sortPopover s)) -> o ∈ namespaceSortOption).
Proof.
  split; [reflexivity|]. split; [intros o; cbn; set_solver|]. split; intros o; unfold filterPopover, sortPopover; cbn [fires shown forallb];
    [destruct (filterOpen s)|destruct (sortOpen s)]; picked.
Qed.
End Namespace.

Module Cluster.
Import ClusterPage.

Definition clusterFilterOption : list string := ["all"; "with-migration"; "no-migration"; "with-slots"; "no-slots"; "with-importing"].
Definition clusterSortOption : list string := ["index-asc"; "index-desc"; "nodes-desc"; "nodes-asc"].

Definition cluster_typed_options (s : State) : Prop := filterOption s ∈ clusterFilterOption /\ sortOption s ∈ clusterSortOption.

Lemma cluster_init_typed : cluster_typed_options init.
Proof. split; set_solver. Qed.

Lemma cluster_offered i s : options (filterPopover s) = clusterFilterOption /\ options (sortPopover s) = clusterSortOption /\
  (forall o, In (PickFilter o) (fires i (filterPopover s)) -> o ∈ clusterFilterOption) /\
  (forall o, In (PickSort o) (fires i (sortPopover s)) -> o ∈ clusterSortOption).
Proof.
  split; [reflexivity|]. split; [reflexivity|]. split; intros o; unfold filterPopover, sortPopover; cbn [fires shown forallb];
    [destruct (filterOpen s)|destruct (sortOpen s)]; picked.
Qed.
End Cluster.
