(* ===== verification/SlotTable.v ===== *)
(** * The table of slots (util/slot.go)

    For every slot a key that belongs to it.  The comment of the source says that
    the table holds the shortest possible alphanumeric strings that redis's crc16
    maps to the slots; this is checked here, entry by entry, against the checksum
    as the specification of Redis Cluster defines it. *)

From stdpp Require Import pmap.
From S2P Require Import Prelude.

(** ** The table *)

(** By the lines of the source. *)
Definition SlotTable : list string := List.concat [
  ["06S"; "Qi"; "5L5"; "4Iu"; "4gY"; "460"; "1Y7"; "1LV"; "0QG"; "ru"; "7Ok"; "4ji"; "4DE"; "65n"; "2JH"; "I8"; "F9"; "SX"; "7nF"; "4KD"];
  ["4eh"; "6PK"; "2ke"; "1Ng"; "0Sv"; "4L"; "491"; "4hX"; "4Ft"; "5C4"; "2Hy"; "09R"; "021"; "0cX"; "4Xv"; "6mU"; "6Cy"; "42R"; "0Mt"; "nF"];
  ["cv"; "1Pe"; "5kK"; "6NI"; "74L"; "4UF"; "0nh"; "MZ"; "2TJ"; "0ai"; "4ZG"; "6od"; "6AH"; "40c"; "0OE"; "lw"; "aG"; "0Bu"; "5iz"; "6Lx"];
  ["5R7"; "4Ww"; "0lY"; "Ok"; "5n3"; "4ks"; "8YE"; "7g"; "2KR"; "1nP"; "714"; "64t"; "69D"; "4Ho"; "07I"; "Ps"; "2hN"; "1ML"; "4fC"; "7CA"];
  ["avs"; "4iB"; "0Rl"; "5V"; "2Ic"; "08H"; "4Gn"; "66E"; "aUo"; "b4e"; "05x"; "RB"; "8f"; "8VD"; "4dr"; "5a2"; "4zp"; "6OS"; "bl"; "355"];
  ["0or"; "1j2"; "75V"; "bno"; "4Yl"; "6lO"; "Ap"; "0bB"; "0Ln"; "2yM"; "6Bc"; "43H"; "4xA"; "6Mb"; "22D"; "14"; "0mC"; "Nq"; "6cN"; "4Vm"];
  ["ban"; "aDl"; "CA"; "14Z"; "8GG"; "mm"; "549"; "41y"; "53t"; "464"; "1Y3"; "1LR"; "06W"; "Qm"; "5L1"; "4Iq"; "4DA"; "65j"; "2JL"; "1oN"];
  ["0QC"; "6y"; "7Oo"; "4jm"; "4el"; "6PO"; "9x"; "1Nc"; "04f"; "2EM"; "7nB"; "bqs"; "4Fp"; "5C0"; "d6F"; "09V"; "0Sr"; "4H"; "495"; "bRo"];
  ["aio"; "42V"; "0Mp"; "nB"; "025"; "17u"; "4Xr"; "6mQ"; "74H"; "4UB"; "0nl"; "3Kn"; "cr"; "1Pa"; "5kO"; "6NM"; "6AL"; "40g"; "0OA"; "ls"];
  ["2TN"; "0am"; "4ZC"; "aEr"; "5R3"; "4Ws"; "18t"; "Oo"; "aC"; "0Bq"; "bCl"; "afn"; "2KV"; "1nT"; "5Uz"; "64p"; "5n7"; "4kw"; "0PY"; "7c"];
  ["2hJ"; "1MH"; "4fG"; "6Sd"; "7mi"; "4Hk"; "07M"; "Pw"; "2Ig"; "08L"; "4Gj"; "66A"; "7LD"; "4iF"; "0Rh"; "5R"; "8b"; "1Oy"; "4dv"; "5a6"];
  ["7oX"; "4JZ"; "0qt"; "RF"; "0ov"; "LD"; "4A9"; "4TX"; "4zt"; "6OW"; "bh"; "0AZ"; "z9"; "oX"; "6Bg"; "43L"; "4Yh"; "6lK"; "At"; "0bF"];
  ["0mG"; "Nu"; "6cJ"; "4Vi"; "4xE"; "6Mf"; "2vH"; "10"; "8GC"; "mi"; "5p5"; "4uu"; "5Kx"; "4N8"; "CE"; "1pV"; "0QO"; "6u"; "7Oc"; "4ja"];
  ["4DM"; "65f"; "3Za"; "I0"; "0rS"; "Qa"; "68V"; "b7F"; "4gQ"; "468"; "dSo"; "285"; "274"; "4D"; "499"; "4hP"; "b8G"; "67W"; "0h3"; "09Z"];
  ["F1"; "SP"; "7nN"; "4KL"; "51I"; "6PC"; "9t"; "1No"; "21g"; "1Pm"; "5kC"; "6NA"; "74D"; "4UN"; "X3"; "MR"; "029"; "0cP"; "bbM"; "79t"];
  ["4c3"; "42Z"; "8Dd"; "nN"; "aO"; "8Ke"; "4yS"; "4l2"; "76u"; "635"; "0lQ"; "Oc"; "BS"; "W2"; "4ZO"; "6ol"; "7Qa"; "40k"; "0OM"; "2zn"];
  ["69L"; "4Hg"; "07A"; "2Fj"; "2hF"; "k6"; "4fK"; "6Sh"; "7Ny"; "6K9"; "0PU"; "7o"; "2KZ"; "1nX"; "4EW"; "4P6"; "7oT"; "4JV"; "05p"; "RJ"];
  ["8n"; "1Ou"; "4dz"; "6QY"; "7LH"; "4iJ"; "d7"; "qV"; "2Ik"; "1li"; "4Gf"; "66M"; "4Yd"; "6lG"; "Ax"; "0bJ"; "z5"; "oT"; "6Bk"; "4wH"];
  ["4zx"; "aeI"; "bd"; "0AV"; "0oz"; "LH"; "4A5"; "4TT"; "5Kt"; "4N4"; "CI"; "14R"; "0NW"; "me"; "541"; "41q"; "4xI"; "6Mj"; "22L"; "u4"];
  ["0mK"; "Ny"; "6cF"; "4Ve"; "4DI"; "65b"; "2JD"; "I4"; "0QK"; "6q"; "7Og"; "4je"; "4gU"; "4r4"; "2iX"; "1LZ"; "0rW"; "Qe"; "5L9"; "4Iy"];
  ["4Fx"; "5C8"; "0h7"; "1mw"; "0Sz"; "pH"; "7MV"; "4hT"; "4ed"; "6PG"; "9p"; "1Nk"; "F5"; "ST"; "7nJ"; "4KH"; "7pH"; "4UJ"; "X7"; "MV"];
  ["cz"; "1Pi"; "5kG"; "6NE"; "4c7"; "4vV"; "0Mx"; "nJ"; "0v5"; "0cT"; "4Xz"; "6mY"; "6bX"; "5GZ"; "0lU"; "Og"; "aK"; "0By"; "4yW"; "4l6"];
  ["6AD"; "40o"; "0OI"; "2zj"; "BW"; "W6"; "4ZK"; "6oh"; "2hB"; "k2"; "4fO"; "6Sl"; "69H"; "4Hc"; "07E"; "2Fn"; "d5e"; "83m"; "4ES"; "4P2"];
  ["a0F"; "bQL"; "0PQ"; "7k"; "8j"; "1Oq"; "50W"; "hbv"; "7oP"; "4JR"; "05t"; "RN"; "2Io"; "08D"; "4Gb"; "66I"; "7LL"; "4iN"; "d3"; "5Z"];
  ["z1"; "oP"; "6Bo"; "43D"; "5IA"; "6lC"; "2Wm"; "0bN"; "8ff"; "LL"; "4A1"; "4TP"; "cPn"; "aeM"; "0T3"; "0AR"; "0NS"; "ma"; "545"; "41u"];
  ["5Kp"; "4N0"; "CM"; "14V"; "0mO"; "2Xl"; "6cB"; "4Va"; "4xM"; "6Mn"; "22H"; "18"; "04s"; "SI"; "7nW"; "4KU"; "4ey"; "6PZ"; "9m"; "1Nv"];
  ["e4"; "pU"; "7MK"; "4hI"; "4Fe"; "67N"; "2Hh"; "09C"; "06B"; "Qx"; "68O"; "4Id"; "4gH"; "6Rk"; "2iE"; "j5"; "0QV"; "6l"; "5o8"; "4jx"];
  ["4DT"; "4Q5"; "2JY"; "82j"; "BJ"; "0ax"; "4ZV"; "4O7"; "552"; "40r"; "0OT"; "lf"; "aV"; "t7"; "4yJ"; "6Li"; "6bE"; "4Wf"; "0lH"; "Oz"];
  ["2Vj"; "0cI"; "4Xg"; "6mD"; "6Ch"; "42C"; "0Me"; "nW"; "cg"; "1Pt"; "5kZ"; "6NX"; "7pU"; "4UW"; "0ny"; "MK"; "7LQ"; "4iS"; "267"; "5G"];
  ["0i0"; "08Y"; "b9D"; "66T"; "7oM"; "4JO"; "G2"; "RS"; "8w"; "1Ol"; "4dc"; "7Aa"; "atS"; "4kb"; "0PL"; "7v"; "2KC"; "H3"; "4EN"; "64e"];
  ["69U"; "b6E"; "07X"; "Pb"; "dRl"; "296"; "4fR"; "4s3"; "4xP"; "4m1"; "22U"; "8Jf"; "0mR"; "0x3"; "77v"; "626"; "5Km"; "6no"; "CP"; "V1"];
  ["0NN"; "3kL"; "7Pb"; "41h"; "4za"; "6OB"; "20d"; "0AO"; "Y0"; "LQ"; "6an"; "4TM"; "bcN"; "78w"; "Aa"; "0bS"; "8Eg"; "oM"; "4b0"; "43Y"];
  ["51T"; "azL"; "9i"; "1Nr"; "04w"; "SM"; "7nS"; "4KQ"; "4Fa"; "67J"; "2Hl"; "09G"; "e0"; "4Y"; "7MO"; "4hM"; "4gL"; "6Ro"; "2iA"; "j1"];
  ["06F"; "2Gm"; "68K"; "5YA"; "4DP"; "4Q1"; "d4f"; "82n"; "0QR"; "6h"; "a1E"; "bPO"; "556"; "40v"; "0OP"; "lb"; "BN"; "15U"; "4ZR"; "4O3"];
  ["6bA"; "4Wb"; "0lL"; "2Yo"; "aR"; "t3"; "4yN"; "6Lm"; "6Cl"; "42G"; "0Ma"; "nS"; "2Vn"; "0cM"; "4Xc"; "79i"; "74Y"; "4US"; "8ge"; "MO"];
  ["cc"; "1Pp"; "bAL"; "adN"; "0i4"; "1lt"; "5WZ"; "66P"; "7LU"; "4iW"; "0Ry"; "5C"; "8s"; "1Oh"; "4dg"; "6QD"; "7oI"; "4JK"; "G6"; "RW"];
  ["2KG"; "H7"; "4EJ"; "64a"; "7Nd"; "4kf"; "0PH"; "7r"; "1X8"; "1MY"; "4fV"; "4s7"; "69Q"; "4Hz"; "0sT"; "Pf"; "0mV"; "Nd"; "5S8"; "4Vx"];
  ["4xT"; "4m5"; "22Q"; "0Cz"; "0NJ"; "mx"; "7Pf"; "41l"; "5Ki"; "6nk"; "CT"; "V5"; "Y4"; "LU"; "6aj"; "4TI"; "4ze"; "6OF"; "by"; "0AK"];
  ["2l9"; "oI"; "4b4"; "4wU"; "4Yy"; "6lZ"; "Ae"; "0bW"; "0So"; "4U"; "7MC"; "4hA"; "4Fm"; "67F"; "3XA"; "09K"; "0ps"; "SA"; "aTl"; "b5f"];
  ["4eq"; "6PR"; "9e"; "8WG"; "8XF"; "6d"; "5o0"; "4jp"; "707"; "65w"; "1z2"; "1oS"; "06J"; "Qp"; "68G"; "4Il"; "53i"; "6Rc"; "2iM"; "1LO"];
  ["23G"; "07"; "4yB"; "6La"; "6bM"; "4Wn"; "18i"; "Or"; "BB"; "0ap"; "c4D"; "aEo"; "5q2"; "40z"; "8FD"; "ln"; "co"; "346"; "5kR"; "6NP"];
  ["74U"; "bol"; "0nq"; "MC"; "2Vb"; "0cA"; "4Xo"; "6mL"; "7SA"; "42K"; "0Mm"; "2xN"; "7oE"; "4JG"; "05a"; "2DJ"; "2jf"; "1Od"; "4dk"; "6QH"];
  ["482"; "5yz"; "0Ru"; "5O"; "0i8"; "08Q"; "4Gw"; "5B7"; "5M6"; "4Hv"; "07P"; "Pj"; "1X4"; "1MU"; "4fZ"; "473"; "7Nh"; "4kj"; "0PD"; "sv"];
  ["2KK"; "1nI"; "4EF"; "64m"; "5Ke"; "6ng"; "CX"; "V9"; "0NF"; "mt"; "7Pj"; "4uh"; "4xX"; "4m9"; "1F6"; "0Cv"; "0mZ"; "Nh"; "5S4"; "4Vt"];
  ["4Yu"; "6lV"; "Ai"; "16r"; "0Lw"; "oE"; "4b8"; "43Q"; "4zi"; "6OJ"; "bu"; "0AG"; "Y8"; "LY"; "6af"; "4TE"; "4Fi"; "67B"; "2Hd"; "09O"];
  ["e8"; "4Q"; "7MG"; "4hE"; "4eu"; "6PV"; "9a"; "1Nz"; "0pw"; "SE"; "aTh"; "4KY"; "4DX"; "4Q9"; "1z6"; "1oW"; "0QZ"; "rh"; "5o4"; "4jt"];
  ["4gD"; "6Rg"; "2iI"; "j9"; "06N"; "Qt"; "68C"; "4Ih"; "6bI"; "4Wj"; "0lD"; "Ov"; "aZ"; "03"; "4yF"; "6Le"; "5q6"; "4tv"; "0OX"; "lj"];
  ["BF"; "0at"; "4ZZ"; "6oy"; "74Q"; "5Ez"; "0nu"; "MG"; "ck"; "1Px"; "5kV"; "6NT"; "6Cd"; "42O"; "0Mi"; "2xJ"; "2Vf"; "0cE"; "4Xk"; "6mH"];
  ["2jb"; "8VY"; "4do"; "6QL"; "7oA"; "4JC"; "05e"; "2DN"; "d7E"; "08U"; "4Gs"; "5B3"; "486"; "bSl"; "0Rq"; "5K"; "1X0"; "1MQ"; "52w"; "477"];
  ["5M2"; "4Hr"; "07T"; "Pn"; "2KO"; "1nM"; "4EB"; "64i"; "7Nl"; "4kn"; "8YX"; "7z"; "0NB"; "mp"; "7Pn"; "41d"; "5Ka"; "6nc"; "2UM"; "14G"];
  ["19w"; "Nl"; "5S0"; "4Vp"; "bBo"; "agm"; "1F2"; "0Cr"; "0Ls"; "oA"; "ahl"; "43U"; "4Yq"; "6lR"; "Am"; "16v"; "0oo"; "2ZL"; "6ab"; "4TA"];
  ["4zm"; "6ON"; "bq"; "0AC"; "2VY"; "0cz"; "4XT"; "4M5"; "570"; "42p"; "0MV"; "nd"; "cT"; "v5"; "5ki"; "6Nk"; "74n"; "4Ud"; "0nJ"; "Mx"];
  ["By"; "0aK"; "4Ze"; "6oF"; "6Aj"; "40A"; "y4"; "lU"; "ae"; "0BW"; "4yy"; "581"; "4B4"; "4WU"; "18R"; "OI"; "06q"; "QK"; "7lU"; "4IW"];
  ["53R"; "6RX"; "0I4"; "1Lt"; "g6"; "rW"; "7OI"; "4jK"; "4Dg"; "65L"; "2Jj"; "1oh"; "0pH"; "Sz"; "7nd"; "4Kf"; "4eJ"; "6Pi"; "2kG"; "h7"];
  ["0ST"; "4n"; "7Mx"; "4hz"; "4FV"; "4S7"; "1x8"; "09p"; "4zR"; "4o3"; "bN"; "8Hd"; "0oP"; "Lb"; "75t"; "604"; "4YN"; "6lm"; "AR"; "T3"];
  ["0LL"; "2yo"; "6BA"; "43j"; "4xc"; "agR"; "22f"; "0CM"; "0ma"; "NS"; "6cl"; "4VO"; "baL"; "aDN"; "Cc"; "14x"; "8Ge"; "mO"; "7PQ"; "4uS"];
  ["7NS"; "4kQ"; "245"; "7E"; "0k2"; "1nr"; "coo"; "64V"; "69f"; "4HM"; "E0"; "PQ"; "2hl"; "1Mn"; "4fa"; "6SB"; "7Lb"; "5yA"; "0RN"; "5t"];
  ["2IA"; "J1"; "4GL"; "66g"; "aUM"; "b4G"; "05Z"; "0d3"; "8D"; "8Vf"; "4dP"; "459"; "574"; "42t"; "0MR"; "0X3"; "dln"; "17W"; "4XP"; "4M1"];
  ["74j"; "5EA"; "0nN"; "3KL"; "cP"; "29"; "5km"; "6No"; "6An"; "40E"; "y0"; "lQ"; "2Tl"; "0aO"; "4Za"; "6oB"; "4B0"; "4WQ"; "18V"; "OM"];
  ["aa"; "0BS"; "bCN"; "585"; "53V"; "axN"; "0I0"; "1Lp"; "06u"; "QO"; "68x"; "4IS"; "4Dc"; "65H"; "2Jn"; "1ol"; "g2"; "rS"; "7OM"; "4jO"];
  ["4eN"; "6Pm"; "9Z"; "h3"; "04D"; "2Eo"; "aTS"; "4Kb"; "4FR"; "4S3"; "d6d"; "09t"; "0SP"; "4j"; "a3G"; "bRM"; "0oT"; "Lf"; "6aY"; "4Tz"];
  ["4zV"; "4o7"; "bJ"; "0Ax"; "0LH"; "oz"; "6BE"; "43n"; "4YJ"; "6li"; "AV"; "T7"; "0me"; "NW"; "6ch"; "4VK"; "4xg"; "6MD"; "22b"; "0CI"];
  ["0Ny"; "mK"; "7PU"; "4uW"; "5KZ"; "6nX"; "Cg"; "1pt"; "0k6"; "1nv"; "4Ey"; "64R"; "7NW"; "4kU"; "241"; "7A"; "2hh"; "1Mj"; "4fe"; "6SF"];
  ["69b"; "4HI"; "E4"; "PU"; "2IE"; "J5"; "4GH"; "66c"; "7Lf"; "4id"; "0RJ"; "5p"; "2jY"; "8Vb"; "4dT"; "4q5"; "5O8"; "4Jx"; "0qV"; "Rd"];
  ["21E"; "25"; "5ka"; "6Nc"; "74f"; "4Ul"; "0nB"; "Mp"; "1f2"; "0cr"; "bbo"; "79V"; "578"; "42x"; "395"; "nl"; "am"; "364"; "4yq"; "589"];
  ["76W"; "bmn"; "0ls"; "OA"; "Bq"; "0aC"; "4Zm"; "6oN"; "6Ab"; "40I"; "0Oo"; "2zL"; "0Qm"; "6W"; "7OA"; "4jC"; "4Do"; "65D"; "2Jb"; "82Q"];
  ["06y"; "QC"; "68t"; "b7d"; "4gs"; "5b3"; "dSM"; "8UE"; "8ZD"; "4f"; "5m2"; "4hr"; "725"; "67u"; "1x0"; "09x"; "04H"; "Sr"; "7nl"; "4Kn"];
  ["4eB"; "6Pa"; "9V"; "1NM"; "4YF"; "6le"; "AZ"; "0bh"; "0LD"; "ov"; "6BI"; "43b"; "4zZ"; "6Oy"; "bF"; "0At"; "0oX"; "Lj"; "5Q6"; "4Tv"];
  ["5KV"; "6nT"; "Ck"; "14p"; "0Nu"; "mG"; "7PY"; "41S"; "4xk"; "6MH"; "22n"; "0CE"; "0mi"; "2XJ"; "6cd"; "4VG"; "69n"; "4HE"; "E8"; "PY"];
  ["2hd"; "1Mf"; "4fi"; "6SJ"; "ath"; "4kY"; "0Pw"; "7M"; "2Kx"; "1nz"; "4Eu"; "6pV"; "5O4"; "4Jt"; "05R"; "Rh"; "8L"; "1OW"; "4dX"; "451"];
  ["7Lj"; "4ih"; "0RF"; "qt"; "2II"; "J9"; "4GD"; "66o"; "74b"; "4Uh"; "0nF"; "Mt"; "cX"; "21"; "5ke"; "6Ng"; "5s4"; "4vt"; "0MZ"; "nh"];
  ["1f6"; "0cv"; "4XX"; "4M9"; "4B8"; "4WY"; "0lw"; "OE"; "ai"; "1Rz"; "4yu"; "6LV"; "6Af"; "40M"; "y8"; "lY"; "Bu"; "0aG"; "4Zi"; "6oJ"];
  ["4Dk"; "6qH"; "2Jf"; "1od"; "0Qi"; "6S"; "7OE"; "4jG"; "4gw"; "5b7"; "0I8"; "1Lx"; "0ru"; "QG"; "68p"; "5Yz"; "4FZ"; "67q"; "1x4"; "1mU"];
  ["0SX"; "4b"; "5m6"; "4hv"; "4eF"; "6Pe"; "9R"; "1NI"; "04L"; "Sv"; "7nh"; "4Kj"; "8EX"; "or"; "6BM"; "43f"; "4YB"; "6la"; "2WO"; "0bl"];
  ["8fD"; "Ln"; "5Q2"; "4Tr"; "cPL"; "aeo"; "bB"; "0Ap"; "0Nq"; "mC"; "ajn"; "41W"; "5KR"; "6nP"; "Co"; "14t"; "0mm"; "2XN"; "77I"; "4VC"];
  ["4xo"; "6ML"; "22j"; "0CA"; "3xA"; "1Mb"; "4fm"; "6SN"; "69j"; "4HA"; "07g"; "2FL"; "d5G"; "83O"; "4Eq"; "64Z"; "a0d"; "bQn"; "0Ps"; "7I"];
  ["8H"; "1OS"; "50u"; "455"; "5O0"; "4Jp"; "05V"; "Rl"; "2IM"; "08f"; "5Wa"; "66k"; "7Ln"; "4il"; "0RB"; "5x"; "Bh"; "0aZ"; "4Zt"; "6oW"];
  ["4a9"; "40P"; "0Ov"; "lD"; "at"; "0BF"; "4yh"; "6LK"; "6bg"; "4WD"; "Z9"; "OX"; "2VH"; "U8"; "4XE"; "6mf"; "6CJ"; "42a"; "0MG"; "nu"];
  ["cE"; "1PV"; "5kx"; "4n8"; "5P5"; "4Uu"; "8gC"; "Mi"; "04Q"; "Sk"; "5N7"; "4Kw"; "51r"; "442"; "9O"; "1NT"; "0SE"; "pw"; "7Mi"; "4hk"];
  ["4FG"; "67l"; "2HJ"; "09a"; "3"; "QZ"; "68m"; "4IF"; "4gj"; "6RI"; "2ig"; "1Le"; "0Qt"; "6N"; "7OX"; "4jZ"; "4Dv"; "5A6"; "0j9"; "1oy"];
  ["4xr"; "6MQ"; "22w"; "377"; "0mp"; "NB"; "77T"; "blm"; "5KO"; "6nM"; "Cr"; "14i"; "0Nl"; "3kn"; "ajs"; "41J"; "4zC"; "aer"; "20F"; "36"];
  ["0oA"; "Ls"; "6aL"; "4To"; "bcl"; "78U"; "AC"; "0bq"; "386"; "oo"; "5r3"; "4ws"; "5l1"; "4iq"; "9Kf"; "5e"; "1y3"; "1lR"; "736"; "66v"];
  ["7oo"; "4Jm"; "05K"; "Rq"; "8U"; "1ON"; "4dA"; "6Qb"; "7NB"; "bQs"; "0Pn"; "7T"; "2Ka"; "1nc"; "4El"; "64G"; "69w"; "b6g"; "07z"; "1v2"];
  ["dRN"; "8TF"; "4fp"; "5c0"; "akm"; "40T"; "0Or"; "1J2"; "Bl"; "15w"; "4Zp"; "6oS"; "6bc"; "5Ga"; "0ln"; "2YM"; "ap"; "0BB"; "4yl"; "6LO"];
  ["6CN"; "42e"; "0MC"; "nq"; "2VL"; "0co"; "4XA"; "6mb"; "5P1"; "4Uq"; "8gG"; "Mm"; "cA"; "1PR"; "bAn"; "adl"; "51v"; "446"; "9K"; "1NP"];
  ["04U"; "So"; "5N3"; "4Ks"; "4FC"; "67h"; "2HN"; "09e"; "0SA"; "ps"; "7Mm"; "4ho"; "4gn"; "6RM"; "2ic"; "1La"; "7"; "2GO"; "68i"; "4IB"];
  ["4Dr"; "5A2"; "d4D"; "82L"; "0Qp"; "6J"; "a1g"; "bPm"; "0mt"; "NF"; "6cy"; "4VZ"; "4xv"; "6MU"; "0V9"; "0CX"; "0Nh"; "mZ"; "7PD"; "41N"];
  ["5KK"; "6nI"; "Cv"; "14m"; "0oE"; "Lw"; "6aH"; "4Tk"; "4zG"; "6Od"; "20B"; "32"; "0LY"; "ok"; "5r7"; "4ww"; "5Iz"; "6lx"; "AG"; "0bu"];
  ["1y7"; "1lV"; "4GY"; "4R8"; "5l5"; "4iu"; "1Bz"; "5a"; "8Q"; "i8"; "4dE"; "6Qf"; "7ok"; "4Ji"; "05O"; "Ru"; "2Ke"; "1ng"; "4Eh"; "64C"];
  ["7NF"; "4kD"; "f9"; "7P"; "2hy"; "3m9"; "4ft"; "5c4"; "69s"; "4HX"; "0sv"; "PD"; "23e"; "0BN"; "5iA"; "6LC"; "6bo"; "4WL"; "Z1"; "OP"];
  ["0t3"; "0aR"; "c4f"; "aEM"; "4a1"; "40X"; "8Ff"; "lL"; "cM"; "8Ig"; "5kp"; "4n0"; "74w"; "617"; "0nS"; "Ma"; "3Fa"; "U0"; "4XM"; "6mn"];
  ["6CB"; "42i"; "0MO"; "2xl"; "0SM"; "4w"; "7Ma"; "4hc"; "4FO"; "67d"; "2HB"; "K2"; "04Y"; "Sc"; "aTN"; "b5D"; "4eS"; "4p2"; "9G"; "8We"];
  ["256"; "6F"; "7OP"; "4jR"; "cnl"; "65U"; "0j1"; "1oq"; "D3"; "QR"; "68e"; "4IN"; "4gb"; "6RA"; "2io"; "1Lm"; "5KG"; "6nE"; "Cz"; "14a"];
  ["x7"; "mV"; "7PH"; "41B"; "4xz"; "592"; "0V5"; "0CT"; "0mx"; "NJ"; "4C7"; "4VV"; "4YW"; "4L6"; "AK"; "0by"; "0LU"; "og"; "563"; "43s"];
  ["4zK"; "6Oh"; "bW"; "w6"; "0oI"; "2Zj"; "6aD"; "4Tg"; "7og"; "4Je"; "05C"; "Ry"; "2jD"; "i4"; "4dI"; "6Qj"; "5l9"; "4iy"; "0RW"; "5m"];
  ["2IX"; "08s"; "4GU"; "4R4"; "7mV"; "4HT"; "07r"; "PH"; "0H7"; "1Mw"; "4fx"; "5c8"; "7NJ"; "4kH"; "f5"; "sT"; "2Ki"; "1nk"; "4Ed"; "64O"];
  ["6bk"; "4WH"; "Z5"; "OT"; "ax"; "0BJ"; "4yd"; "6LG"; "4a5"; "4tT"; "0Oz"; "lH"; "Bd"; "0aV"; "4Zx"; "aEI"; "5P9"; "4Uy"; "0nW"; "Me"];
  ["cI"; "1PZ"; "5kt"; "4n4"; "6CF"; "42m"; "0MK"; "ny"; "2VD"; "U4"; "4XI"; "6mj"; "4FK"; "6sh"; "2HF"; "K6"; "0SI"; "4s"; "7Me"; "4hg"];
  ["4eW"; "4p6"; "9C"; "1NX"; "0pU"; "Sg"; "7ny"; "6k9"; "4Dz"; "65Q"; "0j5"; "1ou"; "0Qx"; "6B"; "7OT"; "4jV"; "4gf"; "6RE"; "2ik"; "1Li"];
  ["D7"; "QV"; "68a"; "4IJ"; "x3"; "mR"; "7PL"; "41F"; "5KC"; "6nA"; "2Uo"; "14e"; "19U"; "NN"; "4C3"; "4VR"; "bBM"; "596"; "0V1"; "0CP"];
  ["0LQ"; "oc"; "567"; "43w"; "4YS"; "4L2"; "AO"; "16T"; "0oM"; "2Zn"; "75i"; "4Tc"; "4zO"; "6Ol"; "bS"; "w2"; "8Y"; "i0"; "4dM"; "6Qn"];
  ["7oc"; "4Ja"; "05G"; "2Dl"; "d7g"; "08w"; "4GQ"; "4R0"; "a2D"; "bSN"; "0RS"; "5i"; "0H3"; "1Ms"; "52U"; "ayM"; "7mR"; "4HP"; "07v"; "PL"];
  ["2Km"; "1no"; "5UA"; "64K"; "7NN"; "4kL"; "f1"; "7X"; "5nw"; "4k7"; "fJ"; "0Ex"; "0kT"; "Hf"; "6eY"; "4Pz"; "5Mk"; "6hi"; "EV"; "P7"];
  ["0HH"; "kz"; "6FE"; "47n"; "48o"; "6ID"; "26b"; "0GI"; "0ie"; "JW"; "6gh"; "4RK"; "5OZ"; "6jX"; "Gg"; "0dU"; "0Jy"; "iK"; "4d6"; "4qW"];
  ["4z4"; "4oU"; "1DZ"; "3A"; "Ye"; "0zW"; "4Ay"; "5D9"; "6yj"; "4LI"; "A4"; "TU"; "zy"; "0YK"; "4be"; "6WF"; "6XG"; "4md"; "0VJ"; "1p"];
  ["2ME"; "N5"; "4CH"; "62c"; "5K8"; "4Nx"; "0uV"; "Vd"; "xH"; "8Rb"; "5pu"; "4u5"; "D"; "13W"; "5Lq"; "4I1"; "534"; "46t"; "0IR"; "28y"];
  ["gP"; "69"; "5om"; "6Jo"; "6dC"; "5AA"; "0jN"; "3OL"; "2Pl"; "0eO"; "aT1"; "6kB"; "6En"; "44E"; "98"; "hQ"; "ea"; "0FS"; "49u"; "abL"];
  ["4F0"; "4SQ"; "8ag"; "KM"; "02u"; "UO"; "4X2"; "4MS"; "57V"; "a8F"; "0M0"; "0XQ"; "c2"; "vS"; "7KM"; "4nO"; "5PB"; "61H"; "2Nn"; "1kl"];
  ["00D"; "2Ao"; "6zA"; "4Ob"; "4aN"; "6Tm"; "yR"; "l3"; "0WP"; "0j"; "a7G"; "58W"; "4BR"; "4W3"; "ZN"; "84l"; "0kP"; "Hb"; "71t"; "644"];
  ["5ns"; "4k3"; "fN"; "8Ld"; "0HL"; "29g"; "6FA"; "47j"; "5Mo"; "6hm"; "ER"; "P3"; "0ia"; "JS"; "6gl"; "4RO"; "48k"; "7Ya"; "26f"; "0GM"];
  ["8Ce"; "iO"; "4d2"; "4qS"; "beL"; "hYw"; "Gc"; "0dQ"; "Ya"; "0zS"; "cko"; "60V"; "4z0"; "4oQ"; "205"; "3E"; "2ll"; "0YO"; "4ba"; "6WB"];
  ["6yn"; "4LM"; "A0"; "TQ"; "2MA"; "N1"; "4CL"; "62g"; "6XC"; "59I"; "0VN"; "1t"; "xL"; "8Rf"; "54y"; "419"; "aQM"; "b0G"; "01Z"; "3PP"];
  ["530"; "46p"; "0IV"; "jd"; "DH"; "0gz"; "5Lu"; "4I5"; "6dG"; "4Qd"; "0jJ"; "Ix"; "gT"; "r5"; "5oi"; "6Jk"; "6Ej"; "44A"; "0Kg"; "hU"];
  ["Fy"; "0eK"; "5ND"; "6kF"; "4F4"; "4SU"; "1xZ"; "KI"; "ee"; "0FW"; "49q"; "5x9"; "57R"; "6VX"; "0M4"; "0XU"; "02q"; "UK"; "4X6"; "4MW"];
  ["5PF"; "61L"; "2Nj"; "1kh"; "c6"; "vW"; "7KI"; "4nK"; "4aJ"; "6Ti"; "yV"; "l7"; "0tH"; "Wz"; "6zE"; "4Of"; "4BV"; "4W7"; "ZJ"; "0yx"];
  ["0WT"; "0n"; "6YY"; "4lz"; "5Mc"; "6ha"; "2SO"; "0fl"; "1Xa"; "kr"; "6FM"; "47f"; "bDm"; "aao"; "fB"; "0Ep"; "8bD"; "Hn"; "5U2"; "4Pr"];
  ["5OR"; "5Z3"; "Go"; "10t"; "0Jq"; "iC"; "ann"; "45W"; "48g"; "6IL"; "ds"; "0GA"; "0im"; "3Lo"; "73I"; "4RC"; "6yb"; "4LA"; "03g"; "2BL"];
  ["zq"; "0YC"; "4bm"; "6WN"; "a4d"; "bUn"; "0Ts"; "3I"; "Ym"; "87O"; "4Aq"; "5D1"; "5K0"; "4Np"; "01V"; "Vl"; "2nQ"; "1KS"; "54u"; "415"];
  ["6XO"; "4ml"; "0VB"; "1x"; "2MM"; "0xn"; "5Sa"; "62k"; "gX"; "61"; "5oe"; "6Jg"; "6dK"; "4Qh"; "0jF"; "It"; "L"; "0gv"; "5Ly"; "4I9"];
  ["5w4"; "4rt"; "0IZ"; "jh"; "ei"; "1Vz"; "5mT"; "5x5"; "4F8"; "4SY"; "0hw"; "KE"; "Fu"; "0eG"; "5NH"; "6kJ"; "6Ef"; "44M"; "90"; "hY"];
  ["0Ui"; "2S"; "7KE"; "4nG"; "5PJ"; "6uH"; "Xw"; "1kd"; "0vu"; "UG"; "6xx"; "790"; "4cw"; "5f7"; "0M8"; "0XY"; "0WX"; "0b"; "5i6"; "4lv"];
  ["4BZ"; "63q"; "ZF"; "0yt"; "00L"; "Wv"; "6zI"; "4Oj"; "4aF"; "6Te"; "yZ"; "0Zh"; "0HD"; "kv"; "6FI"; "47b"; "5Mg"; "6he"; "EZ"; "0fh"];
  ["0kX"; "Hj"; "5U6"; "4Pv"; "7N9"; "6Ky"; "fF"; "0Et"; "0Ju"; "iG"; "6Dx"; "45S"; "5OV"; "5Z7"; "Gk"; "0dY"; "0ii"; "3Lk"; "6gd"; "4RG"];
  ["48c"; "6IH"; "dw"; "0GE"; "zu"; "0YG"; "4bi"; "6WJ"; "6yf"; "4LE"; "A8"; "TY"; "Yi"; "1jz"; "4Au"; "5D5"; "4z8"; "4oY"; "0Tw"; "3M"];
  ["xD"; "1KW"; "54q"; "411"; "5K4"; "4Nt"; "01R"; "Vh"; "2MI"; "N9"; "4CD"; "62o"; "6XK"; "4mh"; "0VF"; "ut"; "6dO"; "4Ql"; "0jB"; "Ip"];
  ["25E"; "65"; "5oa"; "6Jc"; "538"; "46x"; "9Pg"; "jl"; "H"; "0gr"; "bfo"; "aCm"; "72W"; "bin"; "0hs"; "KA"; "em"; "324"; "49y"; "5x1"];
  ["6Eb"; "44I"; "94"; "3nm"; "Fq"; "0eC"; "5NL"; "6kN"; "5PN"; "61D"; "Xs"; "86Q"; "0Um"; "2W"; "7KA"; "4nC"; "4cs"; "5f3"; "39W"; "8QE"];
  ["02y"; "UC"; "aRn"; "794"; "765"; "63u"; "ZB"; "0yp"; "9Ne"; "0f"; "5i2"; "4lr"; "4aB"; "6Ta"; "2oO"; "0Zl"; "00H"; "Wr"; "6zM"; "4On"];
  ["5lW"; "5y6"; "dj"; "0GX"; "0it"; "JF"; "6gy"; "4RZ"; "5OK"; "6jI"; "Gv"; "0dD"; "83"; "iZ"; "6De"; "45N"; "5nf"; "6Kd"; "24B"; "72"];
  ["0kE"; "Hw"; "6eH"; "4Pk"; "5Mz"; "6hx"; "EG"; "0fu"; "0HY"; "kk"; "5v7"; "4sw"; "5h5"; "4mu"; "1Fz"; "1a"; "2MT"; "0xw"; "4CY"; "4V8"];
  ["7kk"; "4Ni"; "01O"; "Vu"; "xY"; "m8"; "54l"; "6Uf"; "6Zg"; "4oD"; "b9"; "3P"; "Yt"; "0zF"; "4Ah"; "60C"; "4Y9"; "4LX"; "0wv"; "TD"];
  ["zh"; "0YZ"; "4bt"; "5g4"; "Fl"; "11w"; "5NQ"; "6kS"; "aom"; "44T"; "0Kr"; "1N2"; "ep"; "0FB"; "49d"; "6HO"; "6fc"; "5Ca"; "0hn"; "3Ml"];
  ["U"; "0go"; "bfr"; "6ib"; "6GN"; "46e"; "0IC"; "jq"; "gA"; "0Ds"; "bEn"; "hyU"; "5T1"; "4Qq"; "8cG"; "Im"; "00U"; "Wo"; "5J3"; "4Os"];
  ["55v"; "406"; "yC"; "0Zq"; "0WA"; "ts"; "6YL"; "4lo"; "4BC"; "63h"; "2LN"; "0ym"; "02d"; "2CO"; "6xa"; "4MB"; "4cn"; "6VM"; "2mc"; "1Ha"];
  ["0Up"; "2J"; "a5g"; "bTm"; "5PS"; "5E2"; "Xn"; "86L"; "0ip"; "JB"; "73T"; "bhm"; "48z"; "5y2"; "dn"; "337"; "87"; "3on"; "6Da"; "45J"];
  ["5OO"; "6jM"; "Gr"; "10i"; "0kA"; "Hs"; "6eL"; "4Po"; "5nb"; "aar"; "24F"; "76"; "8AE"; "ko"; "5v3"; "4ss"; "bgl"; "aBn"; "EC"; "0fq"];
  ["2MP"; "0xs"; "776"; "62v"; "5h1"; "4mq"; "9Of"; "1e"; "2nL"; "1KN"; "54h"; "6Ub"; "7ko"; "4Nm"; "01K"; "Vq"; "Yp"; "0zB"; "4Al"; "60G"];
  ["6Zc"; "bUs"; "0Tn"; "3T"; "zl"; "8PF"; "4bp"; "5g0"; "aSm"; "787"; "03z"; "1r2"; "4e9"; "44P"; "0Kv"; "hD"; "Fh"; "0eZ"; "5NU"; "6kW"];
  ["6fg"; "4SD"; "0hj"; "KX"; "et"; "0FF"; "5mI"; "6HK"; "6GJ"; "46a"; "0IG"; "ju"; "Q"; "Q8"; "5Ld"; "6if"; "5T5"; "4Qu"; "1zz"; "Ii"];
  ["gE"; "0Dw"; "5ox"; "4j8"; "55r"; "402"; "yG"; "0Zu"; "00Q"; "Wk"; "5J7"; "4Ow"; "4BG"; "63l"; "2LJ"; "0yi"; "0WE"; "tw"; "6YH"; "4lk"];
  ["4cj"; "6VI"; "2mg"; "0XD"; "0vh"; "UZ"; "6xe"; "4MF"; "5PW"; "5E6"; "Xj"; "1ky"; "0Ut"; "2N"; "7KX"; "4nZ"; "5OC"; "6jA"; "2Qo"; "0dL"];
  ["1ZA"; "iR"; "6Dm"; "45F"; "48v"; "acO"; "db"; "0GP"; "94M"; "JN"; "4G3"; "4RR"; "5Mr"; "4H2"; "EO"; "12T"; "0HQ"; "kc"; "527"; "47w"];
  ["5nn"; "6Kl"; "fS"; "s2"; "0kM"; "3NO"; "71i"; "4Pc"; "7kc"; "4Na"; "01G"; "3PM"; "xQ"; "m0"; "54d"; "6Un"; "a6D"; "59T"; "0VS"; "1i"];
  ["197"; "85o"; "4CQ"; "4V0"; "4Y1"; "4LP"; "03v"; "TL"; "0L3"; "0YR"; "56U"; "a9E"; "6Zo"; "4oL"; "b1"; "3X"; "2Om"; "0zN"; "5QA"; "60K"];
  ["ex"; "0FJ"; "49l"; "6HG"; "6fk"; "4SH"; "0hf"; "KT"; "Fd"; "0eV"; "5NY"; "aAI"; "4e5"; "4pT"; "0Kz"; "hH"; "gI"; "1TZ"; "5ot"; "4j4"];
  ["5T9"; "4Qy"; "0jW"; "Ie"; "DU"; "Q4"; "5Lh"; "6ij"; "6GF"; "46m"; "0IK"; "jy"; "0WI"; "0s"; "6YD"; "4lg"; "4BK"; "6wh"; "ZW"; "O6"];
  ["0tU"; "Wg"; "6zX"; "6o9"; "4aW"; "4t6"; "yK"; "0Zy"; "0Ux"; "2B"; "7KT"; "4nV"; "bzI"; "61Q"; "Xf"; "1ku"; "02l"; "UV"; "6xi"; "4MJ"];
  ["4cf"; "6VE"; "2mk"; "0XH"; "0Jd"; "iV"; "6Di"; "45B"; "5OG"; "6jE"; "Gz"; "0dH"; "0ix"; "JJ"; "4G7"; "4RV"; "48r"; "6IY"; "df"; "0GT"];
  ["0HU"; "kg"; "523"; "47s"; "5Mv"; "4H6"; "EK"; "0fy"; "0kI"; "3NK"; "6eD"; "4Pg"; "5nj"; "6Kh"; "fW"; "s6"; "xU"; "m4"; "5ph"; "6Uj"];
  ["7kg"; "4Ne"; "01C"; "Vy"; "193"; "1hZ"; "4CU"; "4V4"; "5h9"; "4my"; "0VW"; "1m"; "zd"; "0YV"; "4bx"; "5g8"; "4Y5"; "4LT"; "03r"; "TH"];
  ["Yx"; "0zJ"; "4Ad"; "60O"; "6Zk"; "4oH"; "b5"; "wT"; "6fo"; "4SL"; "0hb"; "KP"; "27e"; "0FN"; "49h"; "6HC"; "4e1"; "44X"; "8Bf"; "hL"];
  ["0p3"; "0eR"; "bdO"; "aAM"; "70w"; "657"; "0jS"; "Ia"; "gM"; "8Mg"; "5op"; "4j0"; "6GB"; "46i"; "0IO"; "28d"; "Y"; "Q0"; "5Ll"; "6in"];
  ["4BO"; "63d"; "ZS"; "O2"; "0WM"; "0w"; "7Ia"; "4lc"; "4aS"; "4t2"; "yO"; "8Se"; "00Y"; "Wc"; "aPN"; "b1D"; "bzM"; "61U"; "Xb"; "1kq"];
  ["216"; "2F"; "7KP"; "4nR"; "4cb"; "6VA"; "2mo"; "0XL"; "02h"; "UR"; "6xm"; "4MN"; "5j7"; "4ow"; "0TY"; "3c"; "YG"; "0zu"; "5Qz"; "60p"];
  ["6yH"; "4Lk"; "03M"; "Tw"; "2lJ"; "0Yi"; "4bG"; "6Wd"; "6Xe"; "4mF"; "0Vh"; "1R"; "2Mg"; "0xD"; "4Cj"; "62A"; "7kX"; "4NZ"; "0ut"; "VF"];
  ["xj"; "1Ky"; "5pW"; "5e6"; "5nU"; "6KW"; "fh"; "0EZ"; "0kv"; "HD"; "4E9"; "4PX"; "5MI"; "6hK"; "Et"; "0fF"; "0Hj"; "kX"; "6Fg"; "47L"];
  ["48M"; "6If"; "dY"; "50"; "0iG"; "Ju"; "6gJ"; "4Ri"; "5Ox"; "4J8"; "GE"; "0dw"; "1Zz"; "ii"; "5t5"; "4qu"; "02W"; "Um"; "5H1"; "4Mq"];
  ["57t"; "424"; "2mP"; "0Xs"; "0UC"; "2y"; "7Ko"; "4nm"; "bzr"; "61j"; "2NL"; "1kN"; "00f"; "2AM"; "6zc"; "bus"; "4al"; "6TO"; "yp"; "0ZB"];
  ["0Wr"; "0H"; "a7e"; "58u"; "4Bp"; "5G0"; "Zl"; "84N"; "f"; "13u"; "5LS"; "5Y2"; "amo"; "46V"; "0Ip"; "jB"; "gr"; "1Ta"; "5oO"; "6JM"];
  ["6da"; "4QB"; "0jl"; "3On"; "2PN"; "0em"; "5Nb"; "aAr"; "6EL"; "44g"; "0KA"; "hs"; "eC"; "0Fq"; "49W"; "abn"; "5V3"; "4Ss"; "8aE"; "Ko"];
  ["YC"; "0zq"; "754"; "60t"; "5j3"; "4os"; "9Md"; "3g"; "2lN"; "0Ym"; "4bC"; "7GA"; "6yL"; "4Lo"; "03I"; "Ts"; "2Mc"; "1ha"; "4Cn"; "62E"];
  ["6Xa"; "4mB"; "0Vl"; "1V"; "xn"; "8RD"; "5pS"; "5e2"; "aQo"; "b0e"; "01x"; "VB"; "0kr"; "1n2"; "71V"; "bjo"; "5nQ"; "6KS"; "fl"; "315"];
  ["0Hn"; "29E"; "6Fc"; "47H"; "5MM"; "6hO"; "Ep"; "0fB"; "0iC"; "Jq"; "6gN"; "4Rm"; "48I"; "6Ib"; "26D"; "54"; "8CG"; "im"; "509"; "45y"];
  ["ben"; "hYU"; "GA"; "0ds"; "4cY"; "420"; "2mT"; "0Xw"; "02S"; "Ui"; "5H5"; "4Mu"; "5Pd"; "61n"; "XY"; "M8"; "0UG"; "vu"; "7Kk"; "4ni"];
  ["4ah"; "6TK"; "yt"; "0ZF"; "B9"; "WX"; "6zg"; "4OD"; "4Bt"; "5G4"; "Zh"; "0yZ"; "0Wv"; "0L"; "4y9"; "4lX"; "6Gy"; "46R"; "0It"; "jF"];
  ["b"; "0gX"; "5LW"; "5Y6"; "6de"; "4QF"; "0jh"; "IZ"; "gv"; "0DD"; "5oK"; "6JI"; "6EH"; "44c"; "0KE"; "hw"; "2PJ"; "0ei"; "5Nf"; "6kd"];
  ["5V7"; "4Sw"; "0hY"; "Kk"; "eG"; "0Fu"; "49S"; "6Hx"; "7ia"; "4Lc"; "03E"; "2Bn"; "zS"; "o2"; "4bO"; "6Wl"; "a4F"; "bUL"; "0TQ"; "3k"];
  ["YO"; "87m"; "4AS"; "4T2"; "7kP"; "4NR"; "01t"; "VN"; "xb"; "1Kq"; "54W"; "hfv"; "6Xm"; "4mN"; "1FA"; "1Z"; "2Mo"; "0xL"; "4Cb"; "62I"];
  ["5MA"; "6hC"; "2Sm"; "0fN"; "0Hb"; "kP"; "6Fo"; "47D"; "bDO"; "aaM"; "0P3"; "0ER"; "8bf"; "HL"; "4E1"; "4PP"; "5Op"; "4J0"; "GM"; "10V"];
  ["0JS"; "ia"; "505"; "45u"; "48E"; "6In"; "dQ"; "58"; "0iO"; "3LM"; "6gB"; "4Ra"; "0UK"; "2q"; "7Kg"; "4ne"; "5Ph"; "61b"; "XU"; "M4"];
  ["0vW"; "Ue"; "5H9"; "4My"; "4cU"; "4v4"; "2mX"; "1HZ"; "0Wz"; "tH"; "4y5"; "4lT"; "4Bx"; "5G8"; "Zd"; "0yV"; "B5"; "WT"; "6zk"; "4OH"];
  ["4ad"; "6TG"; "yx"; "0ZJ"; "gz"; "0DH"; "5oG"; "6JE"; "6di"; "4QJ"; "0jd"; "IV"; "n"; "0gT"; "680"; "6iY"; "4g7"; "4rV"; "0Ix"; "jJ"];
  ["eK"; "0Fy"; "5mv"; "4h6"; "6fX"; "5CZ"; "0hU"; "Kg"; "FW"; "S6"; "5Nj"; "6kh"; "6ED"; "44o"; "0KI"; "3nK"; "zW"; "o6"; "4bK"; "6Wh"];
  ["6yD"; "4Lg"; "03A"; "2Bj"; "YK"; "0zy"; "4AW"; "4T6"; "6ZX"; "6O9"; "0TU"; "3o"; "xf"; "1Ku"; "54S"; "6UY"; "7kT"; "4NV"; "01p"; "VJ"];
  ["2Mk"; "0xH"; "4Cf"; "62M"; "6Xi"; "4mJ"; "0Vd"; "uV"; "0Hf"; "kT"; "6Fk"; "4sH"; "5ME"; "6hG"; "Ex"; "0fJ"; "0kz"; "HH"; "4E5"; "4PT"];
  ["5nY"; "aaI"; "fd"; "0EV"; "0JW"; "ie"; "501"; "45q"; "5Ot"; "4J4"; "GI"; "10R"; "0iK"; "Jy"; "6gF"; "4Re"; "48A"; "6Ij"; "dU"; "q4"];
  ["5Pl"; "61f"; "XQ"; "M0"; "0UO"; "2u"; "7Kc"; "4na"; "4cQ"; "428"; "39u"; "8Qg"; "0vS"; "Ua"; "aRL"; "b3F"; "bxO"; "63W"; "0l3"; "0yR"];
  ["234"; "0D"; "4y1"; "4lP"; "55I"; "6TC"; "2om"; "0ZN"; "B1"; "WP"; "6zo"; "4OL"; "6dm"; "4QN"; "1zA"; "IR"; "25g"; "0DL"; "5oC"; "6JA"];
  ["4g3"; "46Z"; "9PE"; "jN"; "j"; "0gP"; "684"; "aCO"; "72u"; "675"; "0hQ"; "Kc"; "eO"; "8Oe"; "5mr"; "4h2"; "7Ua"; "44k"; "0KM"; "3nO"];
  ["FS"; "S2"; "5Nn"; "6kl"; "4x6"; "4mW"; "0Vy"; "1C"; "0m4"; "0xU"; "5SZ"; "62P"; "7kI"; "4NK"; "C6"; "VW"; "2nj"; "1Kh"; "54N"; "6UD"];
  ["6ZE"; "4of"; "0TH"; "3r"; "YV"; "L7"; "4AJ"; "60a"; "6yY"; "4Lz"; "0wT"; "Tf"; "zJ"; "0Yx"; "4bV"; "4w7"; "5lu"; "4i5"; "dH"; "0Gz"];
  ["0iV"; "Jd"; "5W8"; "4Rx"; "5Oi"; "6jk"; "GT"; "R5"; "0JJ"; "ix"; "6DG"; "45l"; "5nD"; "6KF"; "fy"; "0EK"; "0kg"; "HU"; "6ej"; "4PI"];
  ["5MX"; "5X9"; "Ee"; "0fW"; "1XZ"; "kI"; "4f4"; "4sU"; "00w"; "WM"; "4Z0"; "4OQ"; "55T"; "hgu"; "ya"; "0ZS"; "a0"; "0Y"; "6Yn"; "4lM"];
  ["4Ba"; "63J"; "2Ll"; "0yO"; "02F"; "2Cm"; "6xC"; "aG0"; "4cL"; "6Vo"; "2mA"; "n1"; "0UR"; "2h"; "a5E"; "bTO"; "5Pq"; "4U1"; "XL"; "86n"];
  ["FN"; "11U"; "5Ns"; "4K3"; "516"; "44v"; "0KP"; "hb"; "eR"; "p3"; "49F"; "6Hm"; "6fA"; "4Sb"; "0hL"; "3MN"; "w"; "0gM"; "5LB"; "7ya"];
  ["6Gl"; "46G"; "0Ia"; "jS"; "gc"; "0DQ"; "bEL"; "hyw"; "4D2"; "4QS"; "8ce"; "IO"; "0m0"; "0xQ"; "byL"; "62T"; "4x2"; "4mS"; "227"; "1G"];
  ["2nn"; "1Kl"; "54J"; "7Ea"; "7kM"; "4NO"; "C2"; "VS"; "YR"; "L3"; "4AN"; "60e"; "6ZA"; "4ob"; "0TL"; "3v"; "zN"; "8Pd"; "4bR"; "4w3"];
  ["aSO"; "b2E"; "03X"; "Tb"; "0iR"; "3LP"; "73v"; "666"; "48X"; "4i1"; "dL"; "8Nf"; "0JN"; "3oL"; "6DC"; "45h"; "5Om"; "6jo"; "GP"; "R1"];
  ["0kc"; "HQ"; "6en"; "4PM"; "a09"; "6KB"; "24d"; "0EO"; "8Ag"; "kM"; "4f0"; "47Y"; "697"; "aBL"; "Ea"; "0fS"; "4ay"; "5d9"; "ye"; "0ZW"];
  ["00s"; "WI"; "4Z4"; "4OU"; "4Be"; "63N"; "Zy"; "0yK"; "a4"; "tU"; "6Yj"; "4lI"; "4cH"; "6Vk"; "2mE"; "n5"; "02B"; "Ux"; "6xG"; "4Md"];
  ["5Pu"; "4U5"; "XH"; "86j"; "0UV"; "2l"; "5k8"; "4nx"; "512"; "44r"; "0KT"; "hf"; "FJ"; "0ex"; "5Nw"; "4K7"; "6fE"; "4Sf"; "0hH"; "Kz"];
  ["eV"; "p7"; "49B"; "6Hi"; "6Gh"; "46C"; "0Ie"; "jW"; "s"; "0gI"; "5LF"; "6iD"; "4D6"; "4QW"; "0jy"; "IK"; "gg"; "0DU"; "5oZ"; "6JX"];
  ["7kA"; "4NC"; "01e"; "3Po"; "xs"; "8RY"; "54F"; "6UL"; "a6f"; "59v"; "0Vq"; "1K"; "d3E"; "85M"; "4Cs"; "5F3"; "5I2"; "4Lr"; "03T"; "Tn"];
  ["zB"; "0Yp"; "56w"; "437"; "6ZM"; "4on"; "1Da"; "3z"; "2OO"; "0zl"; "4AB"; "60i"; "5Oa"; "6jc"; "2QM"; "0dn"; "0JB"; "ip"; "6DO"; "45d"];
  ["48T"; "acm"; "1B2"; "0Gr"; "94o"; "Jl"; "5W0"; "4Rp"; "5MP"; "5X1"; "Em"; "12v"; "0Hs"; "kA"; "all"; "47U"; "5nL"; "6KN"; "fq"; "0EC"];
  ["0ko"; "3Nm"; "6eb"; "4PA"; "a8"; "0Q"; "6Yf"; "4lE"; "4Bi"; "63B"; "Zu"; "0yG"; "0tw"; "WE"; "4Z8"; "4OY"; "4au"; "5d5"; "yi"; "1Jz"];
  ["0UZ"; "vh"; "5k4"; "4nt"; "5Py"; "4U9"; "XD"; "1kW"; "02N"; "Ut"; "6xK"; "4Mh"; "4cD"; "6Vg"; "2mI"; "n9"; "eZ"; "43"; "49N"; "6He"];
  ["6fI"; "4Sj"; "0hD"; "Kv"; "FF"; "0et"; "7n9"; "6ky"; "5u6"; "4pv"; "0KX"; "hj"; "gk"; "0DY"; "5oV"; "5z7"; "6dx"; "5Az"; "0ju"; "IG"];
  ["Dw"; "0gE"; "5LJ"; "6iH"; "6Gd"; "46O"; "0Ii"; "28B"; "xw"; "1Kd"; "54B"; "6UH"; "7kE"; "4NG"; "01a"; "3Pk"; "0m8"; "0xY"; "4Cw"; "5F7"];
  ["6Xx"; "59r"; "0Vu"; "1O"; "zF"; "0Yt"; "4bZ"; "433"; "5I6"; "4Lv"; "03P"; "Tj"; "YZ"; "0zh"; "4AF"; "60m"; "6ZI"; "4oj"; "0TD"; "wv"];
  ["0JF"; "it"; "6DK"; "4qh"; "5Oe"; "6jg"; "GX"; "R9"; "0iZ"; "Jh"; "5W4"; "4Rt"; "48P"; "4i9"; "dD"; "0Gv"; "0Hw"; "kE"; "4f8"; "47Q"];
  ["5MT"; "5X5"; "Ei"; "12r"; "0kk"; "HY"; "6ef"; "4PE"; "5nH"; "6KJ"; "fu"; "0EG"; "4Bm"; "63F"; "Zq"; "0yC"; "0Wo"; "0U"; "6Yb"; "4lA"];
  ["4aq"; "5d1"; "ym"; "8SG"; "0ts"; "WA"; "aPl"; "b1f"; "747"; "61w"; "2NQ"; "1kS"; "9Lg"; "2d"; "5k0"; "4np"; "57i"; "6Vc"; "2mM"; "0Xn"];
  ["02J"; "Up"; "6xO"; "4Ml"; "6fM"; "4Sn"; "1xa"; "Kr"; "27G"; "47"; "49J"; "6Ha"; "5u2"; "44z"; "8BD"; "hn"; "FB"; "0ep"; "bdm"; "aAo"];
  ["70U"; "bkl"; "0jq"; "IC"; "go"; "306"; "5oR"; "5z3"; "7WA"; "46K"; "0Im"; "28F"; "Ds"; "0gA"; "5LN"; "6iL"; "0cY"; "020"; "6mT"; "4Xw"];
  ["42S"; "6Cx"; "nG"; "0Mu"; "1Pd"; "cw"; "6NH"; "5kJ"; "4UG"; "74M"; "3Kk"; "0ni"; "0ah"; "BZ"; "6oe"; "4ZF"; "40b"; "6AI"; "lv"; "0OD"];
  ["0Bt"; "aF"; "6Ly"; "4yZ"; "4Wv"; "5R6"; "Oj"; "0lX"; "Qh"; "06R"; "4It"; "5L4"; "461"; "4gX"; "1LW"; "1Y6"; "rt"; "0QF"; "4jh"; "7Oj"];
  ["65o"; "4DD"; "I9"; "2JI"; "SY"; "F8"; "4KE"; "7nG"; "6PJ"; "4ei"; "1Nf"; "2kd"; "4M"; "0Sw"; "4hY"; "490"; "5C5"; "4Fu"; "09S"; "2Hx"];
  ["6OR"; "4zq"; "354"; "bm"; "LA"; "0os"; "bnn"; "75W"; "6lN"; "4Ym"; "0bC"; "Aq"; "2yL"; "0Lo"; "43I"; "6Bb"; "6Mc"; "5ha"; "15"; "22E"];
  ["Np"; "0mB"; "4Vl"; "6cO"; "aDm"; "bao"; "1pS"; "1e2"; "ml"; "8GF"; "41x"; "548"; "4kr"; "5n2"; "7f"; "8YD"; "1nQ"; "2KS"; "64u"; "715"];
  ["4Hn"; "69E"; "Pr"; "07H"; "1MM"; "2hO"; "6Sa"; "4fB"; "4iC"; "7LA"; "5W"; "0Rm"; "08I"; "2Ib"; "66D"; "4Go"; "b4d"; "aUn"; "RC"; "05y"];
  ["8VE"; "8g"; "5a3"; "4ds"; "42W"; "ain"; "nC"; "0Mq"; "17t"; "024"; "6mP"; "4Xs"; "4UC"; "74I"; "3Ko"; "0nm"; "8IY"; "cs"; "6NL"; "5kN"];
  ["40f"; "6AM"; "lr"; "8FX"; "0al"; "2TO"; "6oa"; "4ZB"; "4Wr"; "5R2"; "On"; "18u"; "0Bp"; "aB"; "afo"; "bCm"; "465"; "53u"; "1LS"; "1Y2"];
  ["Ql"; "06V"; "4Ip"; "5L0"; "65k"; "5Ta"; "1oO"; "2JM"; "6x"; "0QB"; "4jl"; "7On"; "6PN"; "4em"; "1Nb"; "9y"; "2EL"; "04g"; "4KA"; "7nC"];
  ["5C1"; "4Fq"; "09W"; "d6G"; "4I"; "0Ss"; "bRn"; "494"; "LE"; "0ow"; "4TY"; "4A8"; "6OV"; "4zu"; "1Qz"; "bi"; "oY"; "z8"; "43M"; "6Bf"];
  ["6lJ"; "4Yi"; "0bG"; "Au"; "Nt"; "0mF"; "4Vh"; "6cK"; "6Mg"; "4xD"; "11"; "22A"; "mh"; "0NZ"; "4ut"; "5p4"; "4N9"; "5Ky"; "1pW"; "CD"];
  ["1nU"; "2KW"; "64q"; "4EZ"; "4kv"; "5n6"; "7b"; "0PX"; "1MI"; "2hK"; "6Se"; "4fF"; "4Hj"; "69A"; "Pv"; "07L"; "08M"; "2If"; "6rH"; "4Gk"];
  ["4iG"; "7LE"; "5S"; "0Ri"; "1Ox"; "8c"; "5a7"; "4dw"; "5Zz"; "7oY"; "RG"; "0qu"; "1Pl"; "21f"; "adR"; "5kB"; "4UO"; "74E"; "MS"; "X2"];
  ["0cQ"; "028"; "79u"; "bbL"; "4vS"; "4c2"; "nO"; "8De"; "8Kd"; "aN"; "4l3"; "4yR"; "634"; "76t"; "Ob"; "0lP"; "W3"; "BR"; "6om"; "4ZN"];
  ["40j"; "6AA"; "2zo"; "0OL"; "6t"; "0QN"; "5zA"; "7Ob"; "65g"; "4DL"; "I1"; "2JA"; "0g3"; "06Z"; "b7G"; "68W"; "469"; "4gP"; "284"; "dSn"];
  ["4E"; "275"; "4hQ"; "498"; "67V"; "b8F"; "1mr"; "0h2"; "SQ"; "F0"; "4KM"; "7nO"; "6PB"; "4ea"; "1Nn"; "9u"; "6lF"; "4Ye"; "0bK"; "Ay"];
  ["oU"; "z4"; "43A"; "6Bj"; "6OZ"; "4zy"; "0AW"; "be"; "LI"; "2O9"; "4TU"; "4A4"; "4N5"; "5Ku"; "14S"; "CH"; "md"; "0NV"; "41p"; "540"];
  ["6Mk"; "4xH"; "u5"; "22M"; "Nx"; "0mJ"; "4Vd"; "6cG"; "4Hf"; "69M"; "Pz"; "0sH"; "k7"; "2hG"; "6Si"; "4fJ"; "4kz"; "7Nx"; "7n"; "0PT"];
  ["1nY"; "dqh"; "4P7"; "4EV"; "4JW"; "7oU"; "RK"; "05q"; "1Ot"; "8o"; "6QX"; "50R"; "4iK"; "7LI"; "qW"; "d6"; "08A"; "2Ij"; "66L"; "4Gg"];
  ["4UK"; "74A"; "MW"; "X6"; "1Ph"; "21b"; "6ND"; "5kF"; "4vW"; "4c6"; "nK"; "0My"; "0cU"; "0v4"; "6mX"; "5HZ"; "4Wz"; "6bY"; "Of"; "0lT"];
  ["0Bx"; "aJ"; "4l7"; "4yV"; "40n"; "6AE"; "lz"; "0OH"; "W7"; "BV"; "6oi"; "4ZJ"; "65c"; "4DH"; "I5"; "2JE"; "6p"; "0QJ"; "4jd"; "7Of"];
  ["4r5"; "4gT"; "280"; "2iY"; "Qd"; "0rV"; "4Ix"; "5L8"; "5C9"; "4Fy"; "1mv"; "0h6"; "4A"; "1CZ"; "4hU"; "7MW"; "6PF"; "4ee"; "1Nj"; "9q"];
  ["SU"; "F4"; "4KI"; "7nK"; "oQ"; "z0"; "43E"; "6Bn"; "6lB"; "4Ya"; "0bO"; "2Wl"; "LM"; "8fg"; "4TQ"; "4A0"; "aeL"; "cPo"; "0AS"; "ba"];
  ["3kP"; "0NR"; "41t"; "544"; "4N1"; "5Kq"; "14W"; "CL"; "2Xm"; "0mN"; "5FA"; "6cC"; "6Mo"; "4xL"; "19"; "22I"; "k3"; "2hC"; "6Sm"; "4fN"];
  ["4Hb"; "69I"; "2Fo"; "07D"; "83l"; "d5d"; "4P3"; "4ER"; "bQM"; "a0G"; "7j"; "0PP"; "1Op"; "8k"; "hbw"; "50V"; "4JS"; "7oQ"; "RO"; "05u"];
  ["08E"; "2In"; "66H"; "4Gc"; "4iO"; "7LM"; "qS"; "d2"; "0ay"; "BK"; "4O6"; "4ZW"; "40s"; "553"; "lg"; "0OU"; "t6"; "aW"; "6Lh"; "4yK"];
  ["4Wg"; "6bD"; "2Yj"; "0lI"; "0cH"; "2Vk"; "6mE"; "4Xf"; "42B"; "6Ci"; "nV"; "0Md"; "1Pu"; "cf"; "6NY"; "bAI"; "4UV"; "7pT"; "MJ"; "0nx"];
  ["SH"; "04r"; "4KT"; "7nV"; "azI"; "4ex"; "1Nw"; "9l"; "pT"; "e5"; "4hH"; "7MJ"; "67O"; "4Fd"; "09B"; "2Hi"; "Qy"; "06C"; "4Ie"; "68N"];
  ["6Rj"; "4gI"; "j4"; "2iD"; "6m"; "0QW"; "4jy"; "5o9"; "4Q4"; "4DU"; "1oZ"; "2JX"; "4m0"; "4xQ"; "8Jg"; "22T"; "Na"; "0mS"; "627"; "77w"];
  ["6nn"; "5Kl"; "V0"; "CQ"; "3kM"; "0NO"; "41i"; "7Pc"; "6OC"; "5jA"; "0AN"; "20e"; "LP"; "Y1"; "4TL"; "6ao"; "78v"; "bcO"; "0bR"; "0w3"];
  ["oL"; "8Ef"; "43X"; "4b1"; "4iR"; "7LP"; "5F"; "266"; "08X"; "0i1"; "66U"; "b9E"; "4JN"; "7oL"; "RR"; "G3"; "1Om"; "8v"; "6QA"; "4db"];
  ["4kc"; "7Na"; "7w"; "0PM"; "H2"; "2KB"; "64d"; "4EO"; "b6D"; "69T"; "Pc"; "07Y"; "297"; "dRm"; "4s2"; "4fS"; "40w"; "557"; "lc"; "0OQ"];
  ["15T"; "BO"; "4O2"; "4ZS"; "4Wc"; "76i"; "2Yn"; "0lM"; "t2"; "aS"; "6Ll"; "4yO"; "42F"; "6Cm"; "nR"; "8Dx"; "0cL"; "2Vo"; "6mA"; "4Xb"];
  ["4UR"; "74X"; "MN"; "8gd"; "1Pq"; "cb"; "adO"; "bAM"; "azM"; "51U"; "1Ns"; "9h"; "SL"; "04v"; "4KP"; "7nR"; "67K"; "5VA"; "09F"; "2Hm"];
  ["4X"; "e1"; "4hL"; "7MN"; "6Rn"; "4gM"; "j0"; "3ya"; "2Gl"; "06G"; "4Ia"; "68J"; "4Q0"; "4DQ"; "82o"; "d4g"; "6i"; "0QS"; "bPN"; "a1D"];
  ["Ne"; "0mW"; "4Vy"; "5S9"; "4m4"; "4xU"; "1SZ"; "22P"; "my"; "0NK"; "41m"; "7Pg"; "6nj"; "5Kh"; "V4"; "CU"; "LT"; "Y5"; "4TH"; "6ak"];
  ["6OG"; "4zd"; "0AJ"; "bx"; "oH"; "0Lz"; "4wT"; "4b5"; "78r"; "4Yx"; "0bV"; "Ad"; "1lu"; "0i5"; "66Q"; "4Gz"; "4iV"; "7LT"; "5B"; "0Rx"];
  ["1Oi"; "8r"; "6QE"; "4df"; "4JJ"; "7oH"; "RV"; "G7"; "H6"; "2KF"; "6ph"; "4EK"; "4kg"; "7Ne"; "7s"; "0PI"; "1MX"; "1X9"; "4s6"; "4fW"];
  ["5XZ"; "69P"; "Pg"; "0sU"; "06"; "23F"; "afr"; "4yC"; "4Wo"; "6bL"; "Os"; "0lA"; "0aq"; "BC"; "aEn"; "c4E"; "4ts"; "5q3"; "lo"; "8FE"];
  ["347"; "cn"; "6NQ"; "5kS"; "bom"; "74T"; "MB"; "0np"; "17i"; "2Vc"; "6mM"; "4Xn"; "42J"; "6Ca"; "2xO"; "0Ml"; "4T"; "0Sn"; "5xa"; "7MB"];
  ["67G"; "4Fl"; "09J"; "2Ha"; "1u2"; "04z"; "b5g"; "aTm"; "6PS"; "4ep"; "8WF"; "9d"; "6e"; "8XG"; "4jq"; "5o1"; "65v"; "706"; "1oR"; "1z3"];
  ["Qq"; "06K"; "4Im"; "68F"; "6Rb"; "4gA"; "1LN"; "2iL"; "6nf"; "5Kd"; "V8"; "CY"; "mu"; "0NG"; "41a"; "7Pk"; "4m8"; "4xY"; "0Cw"; "1F7"];
  ["Ni"; "19r"; "4Vu"; "5S5"; "6lW"; "4Yt"; "0bZ"; "Ah"; "oD"; "0Lv"; "43P"; "4b9"; "6OK"; "4zh"; "0AF"; "bt"; "LX"; "Y9"; "4TD"; "6ag"];
  ["4JF"; "7oD"; "RZ"; "0qh"; "1Oe"; "2jg"; "6QI"; "4dj"; "4iZ"; "483"; "5N"; "0Rt"; "08P"; "0i9"; "5B6"; "4Gv"; "4Hw"; "5M7"; "Pk"; "07Q"];
  ["1MT"; "1X5"; "472"; "52r"; "4kk"; "7Ni"; "sw"; "0PE"; "1nH"; "2KJ"; "64l"; "4EG"; "4Wk"; "6bH"; "Ow"; "0lE"; "02"; "23B"; "6Ld"; "4yG"];
  ["4tw"; "5q7"; "lk"; "0OY"; "0au"; "BG"; "6ox"; "5Jz"; "4UZ"; "74P"; "MF"; "0nt"; "1Py"; "cj"; "6NU"; "5kW"; "42N"; "6Ce"; "nZ"; "0Mh"];
  ["0cD"; "2Vg"; "6mI"; "4Xj"; "67C"; "4Fh"; "09N"; "2He"; "4P"; "e9"; "4hD"; "7MF"; "6PW"; "4et"; "3n9"; "2ky"; "SD"; "0pv"; "4KX"; "7nZ"];
  ["4Q8"; "4DY"; "1oV"; "1z7"; "6a"; "1Az"; "4ju"; "5o5"; "6Rf"; "4gE"; "j8"; "2iH"; "Qu"; "06O"; "4Ii"; "68B"; "mq"; "0NC"; "41e"; "7Po"];
  ["6nb"; "bar"; "14F"; "2UL"; "Nm"; "19v"; "4Vq"; "5S1"; "agl"; "bBn"; "0Cs"; "1F3"; "1I2"; "0Lr"; "43T"; "ahm"; "6lS"; "4Yp"; "16w"; "Al"];
  ["2ZM"; "0on"; "5Da"; "6ac"; "6OO"; "4zl"; "0AB"; "bp"; "1Oa"; "8z"; "6QM"; "4dn"; "4JB"; "aUs"; "2DO"; "05d"; "08T"; "d7D"; "5B2"; "4Gr"];
  ["bSm"; "487"; "5J"; "0Rp"; "1MP"; "1X1"; "476"; "52v"; "4Hs"; "5M3"; "Po"; "07U"; "1nL"; "2KN"; "64h"; "4EC"; "4ko"; "7Nm"; "ss"; "0PA"];
  ["QJ"; "06p"; "4IV"; "7lT"; "6RY"; "4gz"; "1Lu"; "0I5"; "rV"; "g7"; "4jJ"; "7OH"; "65M"; "4Df"; "1oi"; "2Jk"; "2Ej"; "04A"; "4Kg"; "7ne"];
  ["6Ph"; "4eK"; "h6"; "2kF"; "4o"; "0SU"; "5xZ"; "7My"; "4S6"; "4FW"; "09q"; "1x9"; "17R"; "2VX"; "4M4"; "4XU"; "42q"; "571"; "ne"; "0MW"];
  ["v4"; "cU"; "6Nj"; "5kh"; "4Ue"; "74o"; "My"; "0nK"; "0aJ"; "Bx"; "6oG"; "4Zd"; "4tH"; "6Ak"; "lT"; "y5"; "0BV"; "ad"; "580"; "4yx"];
  ["4WT"; "4B5"; "OH"; "0lz"; "4kP"; "7NR"; "7D"; "244"; "1ns"; "0k3"; "64W"; "con"; "4HL"; "69g"; "PP"; "E1"; "1Mo"; "2hm"; "6SC"; "52I"];
  ["4ia"; "7Lc"; "5u"; "0RO"; "J0"; "3Ya"; "66f"; "4GM"; "b4F"; "aUL"; "Ra"; "0qS"; "8Vg"; "8E"; "458"; "4dQ"; "4o2"; "4zS"; "8He"; "bO"];
  ["Lc"; "0oQ"; "605"; "75u"; "6ll"; "4YO"; "T2"; "AS"; "2yn"; "0LM"; "43k"; "7Ra"; "6MA"; "4xb"; "0CL"; "22g"; "NR"; "19I"; "4VN"; "6cm"];
  ["aDO"; "baM"; "14y"; "Cb"; "mN"; "8Gd"; "41Z"; "7PP"; "axO"; "53W"; "1Lq"; "0I1"; "QN"; "06t"; "4IR"; "68y"; "65I"; "4Db"; "1om"; "2Jo"];
  ["6Z"; "g3"; "4jN"; "7OL"; "6Pl"; "4eO"; "h2"; "2kB"; "2En"; "04E"; "4Kc"; "7na"; "4S2"; "4FS"; "09u"; "d6e"; "4k"; "0SQ"; "bRL"; "a3F"];
  ["42u"; "575"; "na"; "0MS"; "17V"; "dlo"; "4M0"; "4XQ"; "4Ua"; "74k"; "3KM"; "0nO"; "28"; "cQ"; "6Nn"; "5kl"; "40D"; "6Ao"; "lP"; "y1"];
  ["0aN"; "2Tm"; "6oC"; "5JA"; "4WP"; "4B1"; "OL"; "18W"; "0BR"; "0W3"; "584"; "bCO"; "1nw"; "0k7"; "64S"; "4Ex"; "4kT"; "7NV"; "sH"; "0Pz"];
  ["1Mk"; "2hi"; "6SG"; "4fd"; "4HH"; "69c"; "PT"; "E5"; "J4"; "2ID"; "66b"; "4GI"; "4ie"; "7Lg"; "5q"; "0RK"; "1OZ"; "8A"; "4q4"; "4dU"];
  ["4Jy"; "5O9"; "Re"; "0qW"; "Lg"; "0oU"; "5DZ"; "6aX"; "4o6"; "4zW"; "0Ay"; "bK"; "2yj"; "0LI"; "43o"; "6BD"; "6lh"; "4YK"; "T6"; "AW"];
  ["NV"; "0md"; "4VJ"; "6ci"; "6ME"; "4xf"; "0CH"; "22c"; "mJ"; "0Nx"; "4uV"; "7PT"; "6nY"; "baI"; "1pu"; "Cf"; "6V"; "0Ql"; "4jB"; "aus"];
  ["65E"; "4Dn"; "1oa"; "2Jc"; "QB"; "06x"; "b7e"; "68u"; "5b2"; "4gr"; "8UD"; "dSL"; "4g"; "8ZE"; "4hs"; "5m3"; "67t"; "724"; "09y"; "1x1"];
  ["Ss"; "04I"; "4Ko"; "7nm"; "azr"; "4eC"; "1NL"; "9W"; "24"; "21D"; "6Nb"; "bAr"; "4Um"; "74g"; "Mq"; "0nC"; "0cs"; "1f3"; "79W"; "bbn"];
  ["42y"; "579"; "nm"; "394"; "365"; "al"; "588"; "4yp"; "bmo"; "76V"; "1i2"; "0lr"; "0aB"; "Bp"; "6oO"; "4Zl"; "40H"; "6Ac"; "2zM"; "0On"];
  ["4HD"; "69o"; "PX"; "E9"; "1Mg"; "2he"; "6SK"; "4fh"; "4kX"; "7NZ"; "7L"; "0Pv"; "3N9"; "2Ky"; "6pW"; "4Et"; "4Ju"; "5O5"; "Ri"; "05S"];
  ["1OV"; "8M"; "450"; "4dY"; "4ii"; "7Lk"; "qu"; "0RG"; "J8"; "2IH"; "66n"; "4GE"; "6ld"; "4YG"; "0bi"; "2WJ"; "ow"; "0LE"; "43c"; "6BH"];
  ["6Ox"; "5jz"; "0Au"; "bG"; "Lk"; "0oY"; "4Tw"; "5Q7"; "6nU"; "5KW"; "14q"; "Cj"; "mF"; "0Nt"; "41R"; "7PX"; "6MI"; "4xj"; "0CD"; "22o"];
  ["NZ"; "0mh"; "4VF"; "6ce"; "65A"; "4Dj"; "1oe"; "2Jg"; "6R"; "0Qh"; "4jF"; "7OD"; "5b6"; "4gv"; "1Ly"; "0I9"; "QF"; "0rt"; "4IZ"; "68q"];
  ["67p"; "5Vz"; "1mT"; "1x5"; "4c"; "0SY"; "4hw"; "5m7"; "6Pd"; "4eG"; "1NH"; "9S"; "Sw"; "04M"; "4Kk"; "7ni"; "4Ui"; "74c"; "Mu"; "0nG"];
  ["20"; "cY"; "6Nf"; "5kd"; "4vu"; "5s5"; "ni"; "390"; "0cw"; "1f7"; "4M8"; "4XY"; "4WX"; "4B9"; "OD"; "0lv"; "0BZ"; "ah"; "6LW"; "4yt"];
  ["40L"; "6Ag"; "lX"; "y9"; "0aF"; "Bt"; "6oK"; "4Zh"; "1Mc"; "2ha"; "6SO"; "4fl"; "5Xa"; "69k"; "2FM"; "07f"; "83N"; "d5F"; "6pS"; "4Ep"];
  ["bQo"; "a0e"; "7H"; "0Pr"; "1OR"; "8I"; "454"; "50t"; "4Jq"; "5O1"; "Rm"; "05W"; "08g"; "2IL"; "66j"; "4GA"; "4im"; "7Lo"; "5y"; "0RC"];
  ["os"; "0LA"; "43g"; "6BL"; "78I"; "4YC"; "0bm"; "2WN"; "Lo"; "8fE"; "4Ts"; "5Q3"; "aen"; "cPM"; "0Aq"; "bC"; "mB"; "0Np"; "41V"; "ajo"];
  ["6nQ"; "5KS"; "14u"; "Cn"; "2XO"; "0ml"; "4VB"; "6ca"; "6MM"; "4xn"; "1Sa"; "22k"; "Sj"; "04P"; "4Kv"; "5N6"; "443"; "4eZ"; "1NU"; "9N"];
  ["pv"; "0SD"; "4hj"; "7Mh"; "67m"; "4FF"; "1mI"; "2HK"; "2GJ"; "2"; "4IG"; "68l"; "6RH"; "4gk"; "1Ld"; "2if"; "6O"; "0Qu"; "5zz"; "7OY"];
  ["5A7"; "4Dw"; "1ox"; "0j8"; "15r"; "Bi"; "6oV"; "4Zu"; "40Q"; "4a8"; "lE"; "0Ow"; "0BG"; "au"; "6LJ"; "4yi"; "4WE"; "6bf"; "OY"; "Z8"];
  ["U9"; "2VI"; "6mg"; "4XD"; "4vh"; "6CK"; "nt"; "0MF"; "1PW"; "cD"; "4n9"; "5ky"; "4Ut"; "5P4"; "Mh"; "0nZ"; "4ip"; "5l0"; "5d"; "9Kg"];
  ["08z"; "1y2"; "66w"; "737"; "4Jl"; "7on"; "Rp"; "05J"; "1OO"; "8T"; "6Qc"; "50i"; "4kA"; "7NC"; "7U"; "0Po"; "1nb"; "dqS"; "64F"; "4Em"];
  ["b6f"; "69v"; "PA"; "0ss"; "8TG"; "dRO"; "5c1"; "4fq"; "6MP"; "4xs"; "376"; "22v"; "NC"; "0mq"; "bll"; "77U"; "6nL"; "5KN"; "14h"; "Cs"];
  ["3ko"; "0Nm"; "41K"; "7PA"; "6Oa"; "4zB"; "37"; "20G"; "Lr"; "8fX"; "4Tn"; "6aM"; "78T"; "bcm"; "0bp"; "AB"; "on"; "387"; "43z"; "5r2"];
  ["447"; "51w"; "1NQ"; "9J"; "Sn"; "04T"; "4Kr"; "5N2"; "67i"; "4FB"; "09d"; "2HO"; "4z"; "1Ca"; "4hn"; "7Ml"; "6RL"; "4go"; "8UY"; "2ib"];
  ["2GN"; "6"; "4IC"; "68h"; "5A3"; "4Ds"; "82M"; "d4E"; "6K"; "0Qq"; "bPl"; "a1f"; "40U"; "akl"; "lA"; "0Os"; "15v"; "Bm"; "6oR"; "4Zq"];
  ["4WA"; "6bb"; "2YL"; "0lo"; "0BC"; "aq"; "6LN"; "4ym"; "42d"; "6CO"; "np"; "0MB"; "0cn"; "2VM"; "6mc"; "5Ha"; "4Up"; "5P0"; "Ml"; "8gF"];
  ["1PS"; "1E2"; "adm"; "bAo"; "1lW"; "1y6"; "4R9"; "4GX"; "4it"; "5l4"; "qh"; "0RZ"; "i9"; "8P"; "6Qg"; "4dD"; "4Jh"; "7oj"; "Rt"; "05N"];
  ["1nf"; "2Kd"; "64B"; "4Ei"; "4kE"; "7NG"; "7Q"; "f8"; "1Mz"; "2hx"; "5c5"; "4fu"; "4HY"; "69r"; "PE"; "0sw"; "NG"; "0mu"; "5Fz"; "6cx"];
  ["6MT"; "4xw"; "0CY"; "0V8"; "3kk"; "0Ni"; "41O"; "7PE"; "6nH"; "5KJ"; "14l"; "Cw"; "Lv"; "0oD"; "4Tj"; "6aI"; "6Oe"; "4zF"; "33"; "bZ"];
  ["oj"; "0LX"; "4wv"; "5r6"; "6ly"; "4YZ"; "0bt"; "AF"; "4v"; "0SL"; "4hb"; "awS"; "67e"; "4FN"; "K3"; "2HC"; "Sb"; "04X"; "b5E"; "aTO"];
  ["4p3"; "4eR"; "8Wd"; "9F"; "6G"; "257"; "4jS"; "7OQ"; "65T"; "cnm"; "1op"; "0j0"; "QS"; "D2"; "4IO"; "68d"; "7Ba"; "4gc"; "1Ll"; "2in"];
  ["0BO"; "23d"; "6LB"; "4ya"; "4WM"; "6bn"; "OQ"; "Z0"; "0aS"; "Ba"; "aEL"; "c4g"; "40Y"; "4a0"; "lM"; "8Fg"; "8If"; "cL"; "4n1"; "5kq"];
  ["616"; "74v"; "3KP"; "0nR"; "U1"; "2VA"; "6mo"; "4XL"; "42h"; "6CC"; "2xm"; "0MN"; "4Jd"; "7of"; "Rx"; "05B"; "i5"; "2jE"; "6Qk"; "4dH"];
  ["4ix"; "5l8"; "5l"; "0RV"; "08r"; "2IY"; "4R5"; "4GT"; "4HU"; "7mW"; "PI"; "07s"; "1Mv"; "0H6"; "5c9"; "4fy"; "4kI"; "7NK"; "sU"; "f4"];
  ["1nj"; "2Kh"; "64N"; "4Ee"; "6nD"; "5KF"; "1ph"; "2Uj"; "mW"; "x6"; "41C"; "7PI"; "593"; "5hZ"; "0CU"; "0V4"; "NK"; "0my"; "4VW"; "4C6"];
  ["4L7"; "4YV"; "0bx"; "AJ"; "of"; "0LT"; "43r"; "562"; "6Oi"; "4zJ"; "w7"; "bV"; "Lz"; "0oH"; "4Tf"; "6aE"; "67a"; "4FJ"; "K7"; "2HG"];
  ["4r"; "0SH"; "4hf"; "7Md"; "4p7"; "4eV"; "1NY"; "9B"; "Sf"; "0pT"; "4Kz"; "7nx"; "65P"; "5TZ"; "1ot"; "0j4"; "6C"; "0Qy"; "4jW"; "7OU"];
  ["6RD"; "4gg"; "1Lh"; "2ij"; "QW"; "D6"; "4IK"; "7lI"; "4WI"; "6bj"; "OU"; "Z4"; "0BK"; "ay"; "6LF"; "4ye"; "4tU"; "4a4"; "lI"; "2o9"];
  ["0aW"; "Be"; "6oZ"; "4Zy"; "4Ux"; "5P8"; "Md"; "0nV"; "8Ib"; "cH"; "4n5"; "5ku"; "42l"; "6CG"; "nx"; "0MJ"; "U5"; "2VE"; "6mk"; "4XH"];
  ["i1"; "8X"; "6Qo"; "4dL"; "5ZA"; "7ob"; "2Dm"; "05F"; "08v"; "d7f"; "4R1"; "4GP"; "bSO"; "a2E"; "5h"; "0RR"; "1Mr"; "0H2"; "ayL"; "52T"];
  ["4HQ"; "69z"; "PM"; "07w"; "1nn"; "2Kl"; "64J"; "4Ea"; "4kM"; "7NO"; "7Y"; "f0"; "mS"; "x2"; "41G"; "7PM"; "aDR"; "5KB"; "14d"; "2Un"];
  ["NO"; "19T"; "4VS"; "4C2"; "597"; "bBL"; "0CQ"; "0V0"; "ob"; "0LP"; "43v"; "566"; "4L3"; "4YR"; "16U"; "AN"; "2Zo"; "0oL"; "4Tb"; "6aA"];
  ["6Om"; "4zN"; "w3"; "bR"; "4oT"; "4z5"; "wH"; "0Tz"; "0zV"; "Yd"; "5D8"; "4Ax"; "4LH"; "6yk"; "TT"; "A5"; "0YJ"; "zx"; "6WG"; "4bd"];
  ["4me"; "6XF"; "1q"; "0VK"; "N4"; "2MD"; "62b"; "4CI"; "4Ny"; "5K9"; "Ve"; "0uW"; "1KZ"; "xI"; "4u4"; "5pt"; "4k6"; "5nv"; "0Ey"; "fK"];
  ["Hg"; "0kU"; "641"; "6eX"; "6hh"; "5Mj"; "P6"; "EW"; "29b"; "0HI"; "47o"; "6FD"; "6IE"; "48n"; "0GH"; "dz"; "JV"; "0id"; "4RJ"; "6gi"];
  ["6jY"; "beI"; "0dT"; "Gf"; "iJ"; "0Jx"; "4qV"; "4d7"; "UN"; "02t"; "4MR"; "4X3"; "a8G"; "57W"; "0XP"; "0M1"; "2Z"; "c3"; "4nN"; "7KL"];
  ["61I"; "5PC"; "1km"; "2No"; "2An"; "00E"; "4Oc"; "7ja"; "6Tl"; "4aO"; "l2"; "yS"; "0k"; "0WQ"; "58V"; "a7F"; "4W2"; "4BS"; "84m"; "ZO"];
  ["13V"; "E"; "4I0"; "5Lp"; "46u"; "535"; "ja"; "0IS"; "68"; "gQ"; "6Jn"; "5ol"; "4Qa"; "6dB"; "3OM"; "0jO"; "0eN"; "2Pm"; "6kC"; "5NA"];
  ["44D"; "6Eo"; "hP"; "99"; "0FR"; "0S3"; "abM"; "49t"; "4SP"; "4F1"; "KL"; "8af"; "0zR"; "0o3"; "60W"; "ckn"; "4oP"; "4z1"; "3D"; "204"];
  ["0YN"; "2lm"; "6WC"; "56I"; "4LL"; "6yo"; "TP"; "A1"; "N0"; "903"; "62f"; "4CM"; "4ma"; "6XB"; "1u"; "0VO"; "8Rg"; "xM"; "418"; "54x"];
  ["b0F"; "aQL"; "Va"; "0uS"; "Hc"; "0kQ"; "645"; "71u"; "4k2"; "5nr"; "8Le"; "fO"; "29f"; "0HM"; "47k"; "7Va"; "6hl"; "5Mn"; "P2"; "ES"];
  ["JR"; "1yA"; "4RN"; "6gm"; "6IA"; "48j"; "0GL"; "26g"; "iN"; "8Cd"; "45Z"; "4d3"; "hYv"; "beM"; "0dP"; "Gb"; "6VY"; "4cz"; "0XT"; "0M5"];
  ["UJ"; "02p"; "4MV"; "4X7"; "61M"; "5PG"; "1ki"; "Xz"; "vV"; "c7"; "4nJ"; "7KH"; "6Th"; "4aK"; "l6"; "yW"; "2Aj"; "00A"; "4Og"; "6zD"];
  ["4W6"; "4BW"; "0yy"; "ZK"; "0o"; "0WU"; "58R"; "6YX"; "46q"; "531"; "je"; "0IW"; "13R"; "A"; "4I4"; "5Lt"; "4Qe"; "6dF"; "Iy"; "0jK"];
  ["r4"; "gU"; "6Jj"; "5oh"; "4pH"; "6Ek"; "hT"; "0Kf"; "0eJ"; "Fx"; "6kG"; "5NE"; "4ST"; "4F5"; "KH"; "0hz"; "0FV"; "ed"; "5x8"; "49p"];
  ["bvs"; "6yc"; "2BM"; "03f"; "0YB"; "zp"; "6WO"; "4bl"; "bUo"; "a4e"; "3H"; "0Tr"; "87N"; "Yl"; "5D0"; "4Ap"; "4Nq"; "5K1"; "Vm"; "01W"];
  ["1KR"; "xA"; "414"; "54t"; "4mm"; "6XN"; "1y"; "0VC"; "0xo"; "2ML"; "62j"; "4CA"; "7xA"; "5Mb"; "0fm"; "2SN"; "ks"; "0HA"; "47g"; "6FL"];
  ["aan"; "bDl"; "0Eq"; "fC"; "Ho"; "8bE"; "4Ps"; "5U3"; "5Z2"; "5OS"; "10u"; "Gn"; "iB"; "0Jp"; "45V"; "ano"; "6IM"; "48f"; "1Wa"; "dr"];
  ["3Ln"; "0il"; "4RB"; "6ga"; "2R"; "0Uh"; "4nF"; "7KD"; "61A"; "5PK"; "1ke"; "Xv"; "UF"; "0vt"; "4MZ"; "6xy"; "5f6"; "4cv"; "0XX"; "0M9"];
  ["0c"; "0WY"; "4lw"; "5i7"; "63p"; "5Rz"; "0yu"; "ZG"; "Ww"; "00M"; "4Ok"; "6zH"; "6Td"; "4aG"; "0Zi"; "2oJ"; "60"; "gY"; "6Jf"; "5od"];
  ["4Qi"; "6dJ"; "Iu"; "0jG"; "0gw"; "M"; "4I8"; "5Lx"; "4ru"; "5w5"; "ji"; "1Yz"; "0FZ"; "eh"; "5x4"; "5mU"; "4SX"; "4F9"; "KD"; "0hv"];
  ["0eF"; "Ft"; "6kK"; "5NI"; "44L"; "6Eg"; "hX"; "91"; "0YF"; "zt"; "6WK"; "4bh"; "4LD"; "6yg"; "TX"; "A9"; "0zZ"; "Yh"; "5D4"; "4At"];
  ["4oX"; "4z9"; "3L"; "0Tv"; "1KV"; "xE"; "410"; "54p"; "4Nu"; "5K5"; "Vi"; "01S"; "N8"; "2MH"; "62n"; "4CE"; "4mi"; "6XJ"; "uu"; "0VG"];
  ["kw"; "0HE"; "47c"; "6FH"; "6hd"; "5Mf"; "0fi"; "2SJ"; "Hk"; "0kY"; "4Pw"; "5U7"; "6Kx"; "5nz"; "0Eu"; "fG"; "iF"; "0Jt"; "45R"; "6Dy"];
  ["5Z6"; "5OW"; "0dX"; "Gj"; "JZ"; "0ih"; "4RF"; "6ge"; "6II"; "48b"; "0GD"; "dv"; "61E"; "5PO"; "1ka"; "Xr"; "2V"; "0Ul"; "4nB"; "aqs"];
  ["5f2"; "4cr"; "8QD"; "39V"; "UB"; "02x"; "795"; "aRo"; "63t"; "764"; "0yq"; "ZC"; "0g"; "9Nd"; "4ls"; "5i3"; "7DA"; "4aC"; "0Zm"; "2oN"];
  ["Ws"; "00I"; "4Oo"; "6zL"; "4Qm"; "6dN"; "Iq"; "0jC"; "64"; "25D"; "6Jb"; "bEr"; "46y"; "539"; "jm"; "9Pf"; "0gs"; "I"; "aCl"; "bfn"];
  ["bio"; "72V"; "1m2"; "0hr"; "325"; "el"; "5x0"; "49x"; "44H"; "6Ec"; "3nl"; "95"; "0eB"; "Fp"; "6kO"; "5NM"; "4mt"; "5h4"; "uh"; "0VZ"];
  ["0xv"; "2MU"; "4V9"; "4CX"; "4Nh"; "7kj"; "Vt"; "01N"; "m9"; "xX"; "6Ug"; "54m"; "4oE"; "6Zf"; "3Q"; "b8"; "0zG"; "Yu"; "60B"; "4Ai"];
  ["4LY"; "4Y8"; "TE"; "0ww"; "1Iz"; "zi"; "5g5"; "4bu"; "5y7"; "5lV"; "0GY"; "dk"; "JG"; "0iu"; "5Bz"; "6gx"; "6jH"; "5OJ"; "0dE"; "Gw"];
  ["3ok"; "82"; "45O"; "6Dd"; "6Ke"; "5ng"; "73"; "fZ"; "Hv"; "0kD"; "4Pj"; "6eI"; "6hy"; "7m9"; "0ft"; "EF"; "kj"; "0HX"; "4sv"; "5v6"];
  ["Wn"; "00T"; "4Or"; "5J2"; "407"; "55w"; "0Zp"; "yB"; "0z"; "1Ga"; "4ln"; "6YM"; "63i"; "4BB"; "0yl"; "2LO"; "2CN"; "02e"; "4MC"; "7hA"];
  ["6VL"; "4co"; "0XA"; "2mb"; "2K"; "0Uq"; "bTl"; "a5f"; "5E3"; "5PR"; "86M"; "Xo"; "11v"; "Fm"; "6kR"; "5NP"; "44U"; "aol"; "hA"; "0Ks"];
  ["0FC"; "eq"; "6HN"; "49e"; "4SA"; "6fb"; "3Mm"; "0ho"; "0gn"; "T"; "6ic"; "5La"; "46d"; "6GO"; "jp"; "0IB"; "0Dr"; "1A2"; "hyT"; "bEo"];
  ["4Qp"; "5T0"; "Il"; "8cF"; "0xr"; "2MQ"; "62w"; "777"; "4mp"; "5h0"; "1d"; "9Og"; "1KO"; "2nM"; "6Uc"; "54i"; "4Nl"; "7kn"; "Vp"; "01J"];
  ["0zC"; "Yq"; "60F"; "4Am"; "4oA"; "6Zb"; "3U"; "0To"; "8PG"; "zm"; "5g1"; "4bq"; "786"; "aSl"; "TA"; "0ws"; "JC"; "0iq"; "bhl"; "73U"];
  ["5y3"; "5lR"; "336"; "do"; "3oo"; "86"; "45K"; "7TA"; "6jL"; "5ON"; "0dA"; "Gs"; "Hr"; "8bX"; "4Pn"; "6eM"; "6Ka"; "5nc"; "77"; "24G"];
  ["kn"; "8AD"; "47z"; "5v2"; "aBo"; "bgm"; "0fp"; "EB"; "403"; "4aZ"; "0Zt"; "yF"; "Wj"; "00P"; "4Ov"; "5J6"; "63m"; "4BF"; "0yh"; "ZZ"];
  ["tv"; "0WD"; "4lj"; "6YI"; "6VH"; "4ck"; "0XE"; "2mf"; "2CJ"; "02a"; "4MG"; "6xd"; "5E7"; "5PV"; "1kx"; "Xk"; "2O"; "0Uu"; "bTh"; "7KY"];
  ["44Q"; "4e8"; "hE"; "0Kw"; "11r"; "Fi"; "6kV"; "5NT"; "4SE"; "6ff"; "KY"; "0hk"; "0FG"; "eu"; "6HJ"; "49a"; "4rh"; "6GK"; "jt"; "0IF"];
  ["Q9"; "P"; "6ig"; "5Le"; "4Qt"; "5T4"; "Ih"; "0jZ"; "0Dv"; "gD"; "4j9"; "5oy"; "aD0"; "7kb"; "3PL"; "01F"; "m1"; "xP"; "6Uo"; "54e"];
  ["59U"; "a6E"; "1h"; "0VR"; "85n"; "196"; "4V1"; "4CP"; "4LQ"; "4Y0"; "TM"; "03w"; "0YS"; "za"; "a9D"; "56T"; "4oM"; "6Zn"; "3Y"; "b0"];
  ["0zO"; "2Ol"; "60J"; "4Aa"; "7za"; "5OB"; "0dM"; "2Qn"; "iS"; "0Ja"; "45G"; "6Dl"; "acN"; "48w"; "0GQ"; "dc"; "JO"; "94L"; "4RS"; "4G2"];
  ["4H3"; "5Ms"; "12U"; "EN"; "kb"; "0HP"; "47v"; "526"; "6Km"; "5no"; "s3"; "fR"; "3NN"; "0kL"; "4Pb"; "6eA"; "0r"; "0WH"; "4lf"; "6YE"];
  ["63a"; "4BJ"; "O7"; "ZV"; "Wf"; "0tT"; "4Oz"; "6zY"; "4t7"; "4aV"; "0Zx"; "yJ"; "2C"; "0Uy"; "4nW"; "7KU"; "61P"; "5PZ"; "1kt"; "Xg"];
  ["UW"; "02m"; "4MK"; "6xh"; "6VD"; "4cg"; "0XI"; "2mj"; "0FK"; "ey"; "6HF"; "49m"; "4SI"; "6fj"; "KU"; "0hg"; "0eW"; "Fe"; "6kZ"; "5NX"];
  ["4pU"; "4e4"; "hI"; "2k9"; "0Dz"; "gH"; "4j5"; "5ou"; "4Qx"; "5T8"; "Id"; "0jV"; "Q5"; "DT"; "6ik"; "5Li"; "46l"; "6GG"; "jx"; "0IJ"];
  ["m5"; "xT"; "6Uk"; "54a"; "4Nd"; "7kf"; "Vx"; "01B"; "0xz"; "192"; "4V5"; "4CT"; "4mx"; "5h8"; "1l"; "0VV"; "0YW"; "ze"; "5g9"; "4by"];
  ["4LU"; "4Y4"; "TI"; "03s"; "0zK"; "Yy"; "60N"; "4Ae"; "4oI"; "6Zj"; "wU"; "b4"; "iW"; "0Je"; "45C"; "6Dh"; "6jD"; "5OF"; "0dI"; "2Qj"];
  ["JK"; "0iy"; "4RW"; "4G6"; "6IX"; "48s"; "0GU"; "dg"; "kf"; "0HT"; "47r"; "522"; "4H7"; "5Mw"; "0fx"; "EJ"; "Hz"; "0kH"; "4Pf"; "6eE"];
  ["6Ki"; "5nk"; "s7"; "fV"; "63e"; "4BN"; "O3"; "ZR"; "0v"; "0WL"; "4lb"; "6YA"; "4t3"; "4aR"; "8Sd"; "yN"; "Wb"; "00X"; "b1E"; "aPO"];
  ["61T"; "bzL"; "1kp"; "Xc"; "2G"; "217"; "4nS"; "7KQ"; "7Fa"; "4cc"; "0XM"; "2mn"; "US"; "02i"; "4MO"; "6xl"; "4SM"; "6fn"; "KQ"; "0hc"];
  ["0FO"; "27d"; "6HB"; "49i"; "44Y"; "4e0"; "hM"; "8Bg"; "0eS"; "Fa"; "aAL"; "bdN"; "656"; "70v"; "3OP"; "0jR"; "8Mf"; "gL"; "4j1"; "5oq"];
  ["46h"; "6GC"; "28e"; "0IN"; "Q1"; "X"; "6io"; "5Lm"; "6KV"; "5nT"; "1Uz"; "fi"; "HE"; "0kw"; "4PY"; "4E8"; "6hJ"; "5MH"; "0fG"; "Eu"];
  ["kY"; "0Hk"; "47M"; "6Ff"; "6Ig"; "48L"; "51"; "dX"; "Jt"; "0iF"; "4Rh"; "6gK"; "4J9"; "5Oy"; "0dv"; "GD"; "ih"; "0JZ"; "4qt"; "5t4"];
  ["4ov"; "5j6"; "3b"; "0TX"; "0zt"; "YF"; "60q"; "4AZ"; "4Lj"; "6yI"; "Tv"; "03L"; "0Yh"; "zZ"; "6We"; "4bF"; "4mG"; "6Xd"; "1S"; "0Vi"];
  ["0xE"; "2Mf"; "6vH"; "4Ck"; "bth"; "7kY"; "VG"; "0uu"; "1Kx"; "xk"; "5e7"; "5pV"; "13t"; "g"; "5Y3"; "5LR"; "46W"; "amn"; "jC"; "0Iq"];
  ["0DA"; "gs"; "6JL"; "5oN"; "4QC"; "70I"; "3Oo"; "0jm"; "0el"; "2PO"; "6ka"; "5Nc"; "44f"; "6EM"; "hr"; "8BX"; "0Fp"; "eB"; "abo"; "49V"];
  ["4Sr"; "5V2"; "Kn"; "8aD"; "Ul"; "02V"; "4Mp"; "5H0"; "425"; "57u"; "0Xr"; "2mQ"; "2x"; "0UB"; "4nl"; "7Kn"; "61k"; "5Pa"; "1kO"; "2NM"];
  ["2AL"; "00g"; "4OA"; "6zb"; "6TN"; "4am"; "0ZC"; "yq"; "0I"; "0Ws"; "58t"; "a7d"; "5G1"; "4Bq"; "84O"; "Zm"; "HA"; "0ks"; "bjn"; "71W"];
  ["6KR"; "5nP"; "314"; "fm"; "29D"; "0Ho"; "47I"; "6Fb"; "6hN"; "5ML"; "0fC"; "Eq"; "Jp"; "0iB"; "4Rl"; "6gO"; "6Ic"; "48H"; "55"; "26E"];
  ["il"; "8CF"; "45x"; "508"; "hYT"; "beo"; "0dr"; "1a2"; "0zp"; "YB"; "60u"; "755"; "4or"; "5j2"; "3f"; "9Me"; "0Yl"; "2lO"; "6Wa"; "4bB"];
  ["4Ln"; "6yM"; "Tr"; "03H"; "0xA"; "2Mb"; "62D"; "4Co"; "4mC"; "7HA"; "1W"; "0Vm"; "8RE"; "xo"; "5e3"; "54Z"; "b0d"; "aQn"; "VC"; "01y"];
  ["46S"; "6Gx"; "jG"; "0Iu"; "0gY"; "c"; "5Y7"; "5LV"; "4QG"; "6dd"; "3Ok"; "0ji"; "0DE"; "gw"; "6JH"; "5oJ"; "44b"; "6EI"; "hv"; "0KD"];
  ["0eh"; "FZ"; "6ke"; "5Ng"; "4Sv"; "5V6"; "Kj"; "0hX"; "0Ft"; "eF"; "6Hy"; "49R"; "421"; "4cX"; "0Xv"; "2mU"; "Uh"; "02R"; "4Mt"; "5H4"];
  ["61o"; "5Pe"; "M9"; "XX"; "vt"; "0UF"; "4nh"; "7Kj"; "6TJ"; "4ai"; "0ZG"; "yu"; "WY"; "B8"; "4OE"; "6zf"; "5G5"; "4Bu"; "1iz"; "Zi"];
  ["0M"; "0Ww"; "4lY"; "4y8"; "6hB"; "aW1"; "0fO"; "2Sl"; "kQ"; "0Hc"; "47E"; "6Fn"; "aaL"; "bDN"; "0ES"; "fa"; "HM"; "8bg"; "4PQ"; "4E0"];
  ["4J1"; "5Oq"; "10W"; "GL"; "3oP"; "0JR"; "45t"; "504"; "6Io"; "48D"; "59"; "dP"; "3LL"; "0iN"; "5BA"; "6gC"; "4Lb"; "6yA"; "2Bo"; "03D"];
  ["o3"; "zR"; "6Wm"; "4bN"; "bUM"; "a4G"; "3j"; "0TP"; "87l"; "YN"; "4T3"; "4AR"; "4NS"; "7kQ"; "VO"; "01u"; "1Kp"; "xc"; "hfw"; "54V"];
  ["4mO"; "6Xl"; "uS"; "0Va"; "0xM"; "2Mn"; "62H"; "4Cc"; "0DI"; "25b"; "6JD"; "5oF"; "4QK"; "6dh"; "IW"; "0je"; "0gU"; "o"; "6iX"; "5LZ"];
  ["4rW"; "4g6"; "jK"; "0Iy"; "0Fx"; "eJ"; "4h7"; "5mw"; "4Sz"; "6fY"; "Kf"; "0hT"; "S7"; "FV"; "6ki"; "5Nk"; "44n"; "6EE"; "hz"; "0KH"];
  ["2p"; "0UJ"; "4nd"; "7Kf"; "61c"; "5Pi"; "M5"; "XT"; "Ud"; "0vV"; "4Mx"; "5H8"; "4v5"; "4cT"; "0Xz"; "2mY"; "0A"; "1GZ"; "4lU"; "4y4"];
  ["5G9"; "4By"; "0yW"; "Ze"; "WU"; "B4"; "4OI"; "6zj"; "6TF"; "4ae"; "0ZK"; "yy"; "kU"; "0Hg"; "47A"; "6Fj"; "6hF"; "5MD"; "0fK"; "Ey"];
  ["HI"; "2K9"; "4PU"; "4E4"; "6KZ"; "5nX"; "0EW"; "fe"; "id"; "0JV"; "45p"; "500"; "4J5"; "5Ou"; "0dz"; "GH"; "Jx"; "0iJ"; "4Rd"; "6gG"];
  ["6Ik"; "5li"; "q5"; "dT"; "o7"; "zV"; "6Wi"; "4bJ"; "4Lf"; "6yE"; "Tz"; "0wH"; "0zx"; "YJ"; "4T7"; "4AV"; "4oz"; "6ZY"; "3n"; "0TT"];
  ["1Kt"; "xg"; "6UX"; "54R"; "4NW"; "7kU"; "VK"; "01q"; "0xI"; "2Mj"; "62L"; "4Cg"; "4mK"; "6Xh"; "uW"; "0Ve"; "4QO"; "6dl"; "IS"; "0ja"];
  ["0DM"; "25f"; "7Za"; "5oB"; "4rS"; "4g2"; "jO"; "9PD"; "0gQ"; "k"; "aCN"; "685"; "674"; "72t"; "Kb"; "0hP"; "8Od"; "eN"; "4h3"; "49Z"];
  ["44j"; "6EA"; "3nN"; "0KL"; "S3"; "FR"; "6km"; "5No"; "61g"; "5Pm"; "M1"; "XP"; "2t"; "0UN"; "ad0"; "7Kb"; "429"; "4cP"; "8Qf"; "39t"];
  ["0c3"; "02Z"; "b3G"; "aRM"; "63V"; "bxN"; "0yS"; "Za"; "0E"; "235"; "4lQ"; "4y0"; "6TB"; "4aa"; "0ZO"; "2ol"; "WQ"; "B0"; "4OM"; "6zn"];
  ["4i4"; "5lt"; "1WZ"; "dI"; "Je"; "0iW"; "4Ry"; "5W9"; "6jj"; "5Oh"; "R4"; "GU"; "iy"; "0JK"; "45m"; "6DF"; "6KG"; "5nE"; "0EJ"; "fx"];
  ["HT"; "0kf"; "4PH"; "6ek"; "5X8"; "5MY"; "0fV"; "Ed"; "kH"; "0Hz"; "4sT"; "4f5"; "4mV"; "4x7"; "1B"; "0Vx"; "0xT"; "0m5"; "62Q"; "4Cz"];
  ["4NJ"; "7kH"; "VV"; "C7"; "1Ki"; "xz"; "6UE"; "54O"; "4og"; "6ZD"; "3s"; "0TI"; "L6"; "YW"; "6th"; "4AK"; "6l9"; "6yX"; "Tg"; "0wU"];
  ["0Yy"; "zK"; "4w6"; "4bW"; "11T"; "FO"; "4K2"; "5Nr"; "44w"; "517"; "hc"; "0KQ"; "p2"; "eS"; "6Hl"; "49G"; "4Sc"; "72i"; "3MO"; "0hM"];
  ["0gL"; "v"; "6iA"; "5LC"; "46F"; "6Gm"; "jR"; "1YA"; "0DP"; "gb"; "hyv"; "bEM"; "4QR"; "4D3"; "IN"; "8cd"; "WL"; "00v"; "4OP"; "4Z1"];
  ["hgt"; "55U"; "0ZR"; "0O3"; "0X"; "a1"; "4lL"; "6Yo"; "63K"; "5RA"; "0yN"; "2Lm"; "2Cl"; "02G"; "4Ma"; "6xB"; "6Vn"; "4cM"; "n0"; "39i"];
  ["2i"; "0US"; "bTN"; "a5D"; "4U0"; "5Pp"; "86o"; "XM"; "Ja"; "0iS"; "667"; "73w"; "4i0"; "48Y"; "8Ng"; "dM"; "3oM"; "0JO"; "45i"; "6DB"];
  ["6jn"; "5Ol"; "R0"; "GQ"; "HP"; "0kb"; "4PL"; "6eo"; "6KC"; "5nA"; "0EN"; "24e"; "kL"; "8Af"; "47X"; "4f1"; "aBM"; "696"; "0fR"; "0s3"];
  ["0xP"; "0m1"; "62U"; "byM"; "4mR"; "4x3"; "1F"; "226"; "1Km"; "2no"; "6UA"; "54K"; "4NN"; "7kL"; "VR"; "C3"; "L2"; "YS"; "60d"; "4AO"];
  ["4oc"; "7Ja"; "3w"; "0TM"; "8Pe"; "zO"; "4w2"; "4bS"; "b2D"; "aSN"; "Tc"; "03Y"; "44s"; "513"; "hg"; "0KU"; "0ey"; "FK"; "4K6"; "5Nv"];
  ["4Sg"; "6fD"; "3MK"; "0hI"; "p6"; "eW"; "6Hh"; "49C"; "46B"; "6Gi"; "jV"; "0Id"; "0gH"; "r"; "6iE"; "5LG"; "4QV"; "4D7"; "IJ"; "0jx"];
  ["0DT"; "gf"; "6JY"; "bEI"; "5d8"; "4ax"; "0ZV"; "yd"; "WH"; "00r"; "4OT"; "4Z5"; "63O"; "4Bd"; "0yJ"; "Zx"; "tT"; "a5"; "4lH"; "6Yk"];
  ["6Vj"; "4cI"; "n4"; "2mD"; "Uy"; "02C"; "4Me"; "6xF"; "4U4"; "5Pt"; "1kZ"; "XI"; "2m"; "0UW"; "4ny"; "5k9"; "6jb"; "ber"; "0do"; "2QL"];
  ["iq"; "0JC"; "45e"; "6DN"; "acl"; "48U"; "0Gs"; "dA"; "Jm"; "94n"; "4Rq"; "5W1"; "5X0"; "5MQ"; "12w"; "El"; "1M2"; "0Hr"; "47T"; "alm"];
  ["6KO"; "5nM"; "0EB"; "fp"; "3Nl"; "0kn"; "bjs"; "6ec"; "4NB"; "aQs"; "3Pn"; "01d"; "1Ka"; "xr"; "6UM"; "54G"; "59w"; "a6g"; "1J"; "0Vp"];
  ["85L"; "d3D"; "5F2"; "4Cr"; "4Ls"; "5I3"; "To"; "03U"; "0Yq"; "zC"; "436"; "56v"; "4oo"; "6ZL"; "ws"; "0TA"; "0zm"; "2ON"; "60h"; "4AC"];
  ["42"; "27B"; "6Hd"; "49O"; "4Sk"; "6fH"; "Kw"; "0hE"; "0eu"; "FG"; "6kx"; "5Nz"; "4pw"; "5u7"; "hk"; "0KY"; "0DX"; "gj"; "5z6"; "5oW"];
  ["4QZ"; "6dy"; "IF"; "0jt"; "0gD"; "Dv"; "6iI"; "5LK"; "46N"; "6Ge"; "jZ"; "0Ih"; "0P"; "a9"; "4lD"; "6Yg"; "63C"; "4Bh"; "0yF"; "Zt"];
  ["WD"; "0tv"; "4OX"; "4Z9"; "5d4"; "4at"; "0ZZ"; "yh"; "2a"; "1Ez"; "4nu"; "5k5"; "4U8"; "5Px"; "1kV"; "XE"; "Uu"; "02O"; "4Mi"; "6xJ"];
  ["6Vf"; "4cE"; "n8"; "2mH"; "iu"; "0JG"; "45a"; "6DJ"; "6jf"; "5Od"; "R8"; "GY"; "Ji"; "1yz"; "4Ru"; "5W5"; "4i8"; "48Q"; "0Gw"; "dE"];
  ["kD"; "0Hv"; "47P"; "4f9"; "5X4"; "5MU"; "0fZ"; "Eh"; "HX"; "0kj"; "4PD"; "6eg"; "6KK"; "5nI"; "0EF"; "ft"; "1Ke"; "xv"; "6UI"; "54C"];
  ["4NF"; "7kD"; "VZ"; "0uh"; "0xX"; "0m9"; "5F6"; "4Cv"; "4mZ"; "6Xy"; "1N"; "0Vt"; "0Yu"; "zG"; "432"; "56r"; "4Lw"; "5I7"; "Tk"; "03Q"];
  ["0zi"; "2OJ"; "60l"; "4AG"; "4ok"; "6ZH"; "ww"; "0TE"; "4So"; "6fL"; "Ks"; "0hA"; "46"; "27F"; "7XA"; "49K"; "4ps"; "5u3"; "ho"; "8BE"];
  ["0eq"; "FC"; "aAn"; "bdl"; "bkm"; "70T"; "IB"; "0jp"; "307"; "gn"; "5z2"; "5oS"; "46J"; "6Ga"; "28G"; "0Il"; "13i"; "z"; "6iM"; "5LO"];
  ["63G"; "4Bl"; "0yB"; "Zp"; "0T"; "0Wn"; "58i"; "6Yc"; "5d0"; "4ap"; "8SF"; "yl"; "1q2"; "00z"; "b1g"; "aPm"; "61v"; "746"; "1kR"; "XA"];
  ["2e"; "9Lf"; "4nq"; "5k1"; "6Vb"; "4cA"; "0Xo"; "2mL"; "Uq"; "02K"; "4Mm"; "6xN"; "8YG"; "7e"; "5n1"; "4kq"; "716"; "64v"; "2KP"; "1nR"];
  ["07K"; "Pq"; "69F"; "4Hm"; "4fA"; "6Sb"; "2hL"; "1MN"; "0Rn"; "5T"; "7LB"; "5ya"; "4Gl"; "66G"; "2Ia"; "08J"; "05z"; "1t2"; "aUm"; "b4g"];
  ["4dp"; "5a0"; "8d"; "8VF"; "bn"; "357"; "4zr"; "6OQ"; "75T"; "bnm"; "0op"; "LB"; "Ar"; "16i"; "4Yn"; "6lM"; "6Ba"; "43J"; "0Ll"; "2yO"];
  ["22F"; "16"; "4xC"; "agr"; "6cL"; "4Vo"; "0mA"; "Ns"; "CC"; "14X"; "bal"; "aDn"; "5p3"; "4us"; "8GE"; "mo"; "5L7"; "4Iw"; "06Q"; "Qk"];
  ["1Y5"; "1LT"; "53r"; "462"; "7Oi"; "4jk"; "0QE"; "rw"; "2JJ"; "1oH"; "4DG"; "65l"; "7nD"; "4KF"; "0ph"; "SZ"; "2kg"; "1Ne"; "4ej"; "6PI"];
  ["493"; "4hZ"; "0St"; "4N"; "0h9"; "09P"; "4Fv"; "5C6"; "4Xt"; "6mW"; "023"; "0cZ"; "0Mv"; "nD"; "4c9"; "42P"; "5kI"; "6NK"; "ct"; "1Pg"];
  ["X9"; "MX"; "74N"; "4UD"; "4ZE"; "6of"; "BY"; "W8"; "0OG"; "lu"; "6AJ"; "40a"; "4yY"; "4l8"; "aE"; "0Bw"; "18r"; "Oi"; "5R5"; "4Wu"];
  ["4EY"; "4P8"; "2KT"; "1nV"; "8YC"; "7a"; "5n5"; "4ku"; "4fE"; "6Sf"; "2hH"; "k8"; "07O"; "Pu"; "69B"; "4Hi"; "4Gh"; "66C"; "2Ie"; "08N"];
  ["d9"; "5P"; "7LF"; "4iD"; "4dt"; "5a4"; "2jy"; "3o9"; "0qv"; "RD"; "7oZ"; "4JX"; "6ay"; "4TZ"; "0ot"; "LF"; "bj"; "0AX"; "4zv"; "6OU"];
  ["6Be"; "43N"; "0Lh"; "oZ"; "Av"; "0bD"; "4Yj"; "6lI"; "6cH"; "4Vk"; "0mE"; "Nw"; "22B"; "12"; "4xG"; "6Md"; "5p7"; "4uw"; "0NY"; "mk"];
  ["CG"; "1pT"; "5Kz"; "6nx"; "1Y1"; "1LP"; "53v"; "466"; "5L3"; "4Is"; "06U"; "Qo"; "2JN"; "1oL"; "4DC"; "65h"; "7Om"; "4jo"; "0QA"; "rs"];
  ["9z"; "1Na"; "4en"; "6PM"; "aTs"; "4KB"; "04d"; "2EO"; "d6D"; "09T"; "4Fr"; "5C2"; "497"; "bRm"; "0Sp"; "4J"; "0Mr"; "1H2"; "aim"; "42T"];
  ["4Xp"; "6mS"; "027"; "17w"; "0nn"; "3Kl"; "74J"; "5Ea"; "5kM"; "6NO"; "cp"; "1Pc"; "0OC"; "lq"; "6AN"; "40e"; "4ZA"; "6ob"; "2TL"; "0ao"];
  ["18v"; "Om"; "5R1"; "4Wq"; "bCn"; "afl"; "aA"; "0Bs"; "07C"; "Py"; "69N"; "4He"; "4fI"; "6Sj"; "2hD"; "k4"; "0PW"; "7m"; "5n9"; "4ky"];
  ["4EU"; "4P4"; "2KX"; "1nZ"; "05r"; "RH"; "7oV"; "4JT"; "4dx"; "5a8"; "8l"; "1Ow"; "d5"; "qT"; "7LJ"; "4iH"; "4Gd"; "66O"; "2Ii"; "08B"];
  ["Az"; "0bH"; "4Yf"; "6lE"; "6Bi"; "43B"; "z7"; "oV"; "bf"; "0AT"; "4zz"; "6OY"; "4A7"; "4TV"; "0ox"; "LJ"; "CK"; "14P"; "5Kv"; "4N6"];
  ["543"; "41s"; "0NU"; "mg"; "22N"; "u6"; "4xK"; "6Mh"; "6cD"; "4Vg"; "0mI"; "2Xj"; "7Oa"; "4jc"; "0QM"; "6w"; "2JB"; "I2"; "4DO"; "65d"];
  ["68T"; "b7D"; "06Y"; "Qc"; "dSm"; "287"; "4gS"; "4r2"; "7MP"; "4hR"; "276"; "4F"; "0h1"; "09X"; "b8E"; "67U"; "7nL"; "4KN"; "F3"; "SR"];
  ["9v"; "1Nm"; "4eb"; "6PA"; "5kA"; "6NC"; "21e"; "1Po"; "X1"; "MP"; "74F"; "4UL"; "bbO"; "79v"; "0v3"; "0cR"; "8Df"; "nL"; "4c1"; "42X"];
  ["4yQ"; "4l0"; "aM"; "8Kg"; "0lS"; "Oa"; "76w"; "637"; "4ZM"; "6on"; "BQ"; "W0"; "0OO"; "2zl"; "6AB"; "40i"; "4fM"; "6Sn"; "3xa"; "k0"];
  ["07G"; "2Fl"; "69J"; "4Ha"; "4EQ"; "4P0"; "d5g"; "83o"; "0PS"; "7i"; "a0D"; "bQN"; "50U"; "hbt"; "8h"; "1Os"; "05v"; "RL"; "7oR"; "4JP"];
  ["5WA"; "66K"; "2Im"; "08F"; "d1"; "5X"; "7LN"; "4iL"; "6Bm"; "43F"; "z3"; "oR"; "2Wo"; "0bL"; "4Yb"; "6lA"; "4A3"; "4TR"; "8fd"; "LN"];
  ["bb"; "0AP"; "cPl"; "aeO"; "547"; "41w"; "0NQ"; "mc"; "CO"; "14T"; "5Kr"; "4N2"; "77i"; "4Vc"; "0mM"; "2Xn"; "22J"; "u2"; "4xO"; "6Ml"];
  ["2JF"; "I6"; "4DK"; "6qh"; "7Oe"; "4jg"; "0QI"; "6s"; "1Y9"; "1LX"; "4gW"; "4r6"; "68P"; "5YZ"; "0rU"; "Qg"; "0h5"; "1mu"; "4Fz"; "67Q"];
  ["7MT"; "4hV"; "0Sx"; "4B"; "9r"; "1Ni"; "4ef"; "6PE"; "7nH"; "4KJ"; "F7"; "SV"; "X5"; "MT"; "74B"; "4UH"; "5kE"; "6NG"; "cx"; "1Pk"];
  ["0Mz"; "nH"; "4c5"; "4vT"; "4Xx"; "79r"; "0v7"; "0cV"; "0lW"; "Oe"; "5R9"; "4Wy"; "4yU"; "4l4"; "aI"; "1RZ"; "0OK"; "ly"; "6AF"; "40m"];
  ["4ZI"; "6oj"; "BU"; "W4"; "265"; "5E"; "488"; "4iQ"; "b9F"; "66V"; "0i2"; "1lr"; "G0"; "RQ"; "7oO"; "4JM"; "4da"; "6QB"; "8u"; "1On"];
  ["0PN"; "7t"; "7Nb"; "aa0"; "4EL"; "64g"; "2KA"; "H1"; "07Z"; "0f3"; "69W"; "b6G"; "4fP"; "479"; "dRn"; "294"; "22W"; "8Jd"; "4xR"; "4m3"];
  ["77t"; "624"; "0mP"; "Nb"; "CR"; "V3"; "5Ko"; "6nm"; "ajS"; "41j"; "0NL"; "3kN"; "20f"; "0AM"; "4zc"; "aeR"; "6al"; "4TO"; "Y2"; "LS"];
  ["Ac"; "0bQ"; "bcL"; "78u"; "4b2"; "4wS"; "8Ee"; "oO"; "7nU"; "4KW"; "04q"; "SK"; "9o"; "1Nt"; "51R"; "6PX"; "7MI"; "4hK"; "e6"; "pW"];
  ["2Hj"; "09A"; "4Fg"; "67L"; "68M"; "4If"; "0rH"; "Qz"; "2iG"; "j7"; "4gJ"; "6Ri"; "7Ox"; "4jz"; "0QT"; "6n"; "1z8"; "1oY"; "4DV"; "4Q7"];
  ["4ZT"; "4O5"; "BH"; "0az"; "0OV"; "ld"; "550"; "40p"; "4yH"; "6Lk"; "aT"; "t5"; "0lJ"; "Ox"; "6bG"; "4Wd"; "4Xe"; "6mF"; "2Vh"; "0cK"];
  ["0Mg"; "nU"; "6Cj"; "42A"; "5kX"; "6NZ"; "ce"; "1Pv"; "2N9"; "MI"; "7pW"; "4UU"; "4Gy"; "5B9"; "0i6"; "1lv"; "1BZ"; "5A"; "7LW"; "4iU"];
  ["4de"; "6QF"; "8q"; "1Oj"; "G4"; "RU"; "7oK"; "4JI"; "4EH"; "64c"; "2KE"; "H5"; "0PJ"; "7p"; "7Nf"; "4kd"; "4fT"; "4s5"; "2hY"; "290"];
  ["0sV"; "Pd"; "5M8"; "4Hx"; "6cY"; "4Vz"; "0mT"; "Nf"; "1F8"; "0Cx"; "4xV"; "4m7"; "7Pd"; "41n"; "0NH"; "mz"; "CV"; "V7"; "5Kk"; "6ni"];
  ["6ah"; "4TK"; "Y6"; "LW"; "20b"; "0AI"; "4zg"; "6OD"; "4b6"; "4wW"; "0Ly"; "oK"; "Ag"; "0bU"; "5IZ"; "6lX"; "9k"; "1Np"; "51V"; "azN"];
  ["7nQ"; "4KS"; "04u"; "SO"; "2Hn"; "09E"; "4Fc"; "67H"; "7MM"; "4hO"; "e2"; "pS"; "2iC"; "j3"; "4gN"; "6Rm"; "68I"; "4Ib"; "06D"; "2Go"];
  ["d4d"; "82l"; "4DR"; "4Q3"; "a1G"; "bPM"; "0QP"; "6j"; "0OR"; "0Z3"; "554"; "40t"; "4ZP"; "4O1"; "BL"; "15W"; "0lN"; "2Ym"; "6bC"; "5GA"];
  ["4yL"; "6Lo"; "aP"; "09"; "0Mc"; "nQ"; "6Cn"; "42E"; "4Xa"; "6mB"; "2Vl"; "0cO"; "8gg"; "MM"; "7pS"; "4UQ"; "bAN"; "adL"; "ca"; "1Pr"];
  ["G8"; "RY"; "7oG"; "4JE"; "4di"; "6QJ"; "2jd"; "1Of"; "0Rw"; "5M"; "480"; "4iY"; "4Gu"; "5B5"; "2Ix"; "08S"; "07R"; "Ph"; "5M4"; "4Ht"];
  ["4fX"; "471"; "1X6"; "1MW"; "0PF"; "st"; "7Nj"; "4kh"; "4ED"; "64o"; "2KI"; "H9"; "CZ"; "14A"; "5Kg"; "6ne"; "7Ph"; "41b"; "0ND"; "mv"];
  ["1F4"; "0Ct"; "4xZ"; "6My"; "5S6"; "4Vv"; "0mX"; "Nj"; "Ak"; "0bY"; "4Yw"; "6lT"; "6Bx"; "43S"; "0Lu"; "oG"; "bw"; "0AE"; "4zk"; "6OH"];
  ["6ad"; "4TG"; "0oi"; "2ZJ"; "7MA"; "4hC"; "0Sm"; "4W"; "2Hb"; "09I"; "4Fo"; "67D"; "aTn"; "b5d"; "04y"; "SC"; "9g"; "8WE"; "4es"; "6PP"];
  ["5o2"; "4jr"; "8XD"; "6f"; "1z0"; "1oQ"; "705"; "65u"; "68E"; "4In"; "06H"; "Qr"; "2iO"; "1LM"; "4gB"; "6Ra"; "5ia"; "6Lc"; "23E"; "05"];
  ["0lB"; "Op"; "6bO"; "4Wl"; "c4F"; "aEm"; "1d2"; "0ar"; "8FF"; "ll"; "558"; "40x"; "5kP"; "6NR"; "cm"; "344"; "0ns"; "MA"; "74W"; "bon"];
  ["4Xm"; "6mN"; "3FA"; "0cC"; "0Mo"; "2xL"; "6Cb"; "42I"; "4dm"; "6QN"; "8y"; "1Ob"; "05g"; "2DL"; "7oC"; "4JA"; "4Gq"; "5B1"; "d7G"; "08W"];
  ["0Rs"; "5I"; "484"; "bSn"; "52u"; "475"; "1X2"; "1MS"; "07V"; "Pl"; "5M0"; "4Hp"; "5Ua"; "64k"; "2KM"; "1nO"; "0PB"; "7x"; "7Nn"; "4kl"];
  ["7Pl"; "41f"; "8GX"; "mr"; "2UO"; "14E"; "5Kc"; "6na"; "5S2"; "4Vr"; "19u"; "Nn"; "1F0"; "0Cp"; "bBm"; "ago"; "ahn"; "43W"; "0Lq"; "oC"];
  ["Ao"; "16t"; "4Ys"; "6lP"; "75I"; "4TC"; "0om"; "2ZN"; "bs"; "0AA"; "4zo"; "6OL"; "2Hf"; "09M"; "4Fk"; "6sH"; "7ME"; "4hG"; "0Si"; "4S"];
  ["9c"; "1Nx"; "4ew"; "6PT"; "7nY"; "bqh"; "0pu"; "SG"; "1z4"; "1oU"; "4DZ"; "65q"; "5o6"; "4jv"; "0QX"; "6b"; "2iK"; "1LI"; "4gF"; "6Re"];
  ["68A"; "4Ij"; "06L"; "Qv"; "0lF"; "Ot"; "6bK"; "4Wh"; "4yD"; "6Lg"; "aX"; "01"; "0OZ"; "lh"; "5q4"; "4tt"; "4ZX"; "4O9"; "BD"; "0av"];
  ["0nw"; "ME"; "74S"; "4UY"; "5kT"; "6NV"; "ci"; "1Pz"; "0Mk"; "nY"; "6Cf"; "42M"; "4Xi"; "6mJ"; "2Vd"; "0cG"; "bL"; "8Hf"; "4zP"; "4o1"];
  ["75v"; "606"; "0oR"; "0z3"; "AP"; "T1"; "4YL"; "6lo"; "6BC"; "43h"; "0LN"; "2ym"; "22d"; "0CO"; "4xa"; "6MB"; "6cn"; "4VM"; "0mc"; "NQ"];
  ["Ca"; "14z"; "baN"; "aDL"; "7PS"; "41Y"; "8Gg"; "mM"; "247"; "7G"; "7NQ"; "4kS"; "com"; "64T"; "0k0"; "1np"; "E2"; "PS"; "69d"; "4HO"];
  ["4fc"; "7Ca"; "2hn"; "1Ml"; "0RL"; "5v"; "avS"; "4ib"; "4GN"; "66e"; "2IC"; "J3"; "05X"; "Rb"; "aUO"; "b4E"; "4dR"; "4q3"; "8F"; "8Vd"];
  ["4XV"; "4M7"; "1f8"; "0cx"; "0MT"; "nf"; "572"; "42r"; "5kk"; "6Ni"; "cV"; "v7"; "0nH"; "Mz"; "74l"; "4Uf"; "4Zg"; "6oD"; "2Tj"; "0aI"];
  ["y6"; "lW"; "6Ah"; "40C"; "5iZ"; "583"; "ag"; "0BU"; "0ly"; "OK"; "4B6"; "4WW"; "7lW"; "4IU"; "06s"; "QI"; "0I6"; "1Lv"; "4gy"; "5b9"];
  ["7OK"; "4jI"; "g4"; "rU"; "2Jh"; "1oj"; "4De"; "65N"; "7nf"; "4Kd"; "04B"; "Sx"; "2kE"; "h5"; "4eH"; "6Pk"; "5m8"; "4hx"; "0SV"; "4l"];
  ["2HY"; "09r"; "4FT"; "4S5"; "5Q8"; "4Tx"; "0oV"; "Ld"; "bH"; "0Az"; "4zT"; "4o5"; "6BG"; "43l"; "0LJ"; "ox"; "AT"; "T5"; "4YH"; "6lk"];
  ["6cj"; "4VI"; "0mg"; "NU"; "2vh"; "0CK"; "4xe"; "6MF"; "7PW"; "4uU"; "2n9"; "mI"; "Ce"; "1pv"; "5KX"; "6nZ"; "5UZ"; "64P"; "0k4"; "1nt"];
  ["0Py"; "7C"; "7NU"; "4kW"; "4fg"; "6SD"; "2hj"; "1Mh"; "E6"; "PW"; "7mI"; "4HK"; "4GJ"; "66a"; "2IG"; "J7"; "0RH"; "5r"; "7Ld"; "4if"];
  ["4dV"; "4q7"; "8B"; "1OY"; "0qT"; "Rf"; "7ox"; "4Jz"; "0MP"; "nb"; "576"; "42v"; "4XR"; "4M3"; "dll"; "17U"; "0nL"; "3KN"; "74h"; "4Ub"];
  ["5ko"; "6Nm"; "cR"; "v3"; "y2"; "lS"; "6Al"; "40G"; "4Zc"; "aER"; "2Tn"; "0aM"; "18T"; "OO"; "4B2"; "4WS"; "bCL"; "587"; "ac"; "0BQ"];
  ["0I2"; "1Lr"; "53T"; "axL"; "68z"; "4IQ"; "06w"; "QM"; "2Jl"; "1on"; "4Da"; "65J"; "7OO"; "4jM"; "g0"; "6Y"; "9X"; "h1"; "4eL"; "6Po"];
  ["7nb"; "aA0"; "04F"; "2Em"; "d6f"; "09v"; "4FP"; "4S1"; "a3E"; "bRO"; "0SR"; "4h"; "AX"; "T9"; "4YD"; "6lg"; "6BK"; "4wh"; "0LF"; "ot"];
  ["bD"; "0Av"; "4zX"; "4o9"; "5Q4"; "4Tt"; "0oZ"; "Lh"; "Ci"; "14r"; "5KT"; "6nV"; "ajh"; "41Q"; "0Nw"; "mE"; "22l"; "0CG"; "4xi"; "6MJ"];
  ["6cf"; "4VE"; "0mk"; "NY"; "07a"; "2FJ"; "69l"; "4HG"; "4fk"; "6SH"; "2hf"; "1Md"; "0Pu"; "7O"; "7NY"; "bQh"; "4Ew"; "6pT"; "0k8"; "1nx"];
  ["05P"; "Rj"; "5O6"; "4Jv"; "4dZ"; "453"; "8N"; "1OU"; "0RD"; "qv"; "7Lh"; "4ij"; "4GF"; "66m"; "2IK"; "1lI"; "5kc"; "6Na"; "21G"; "27"];
  ["8gX"; "Mr"; "74d"; "4Un"; "bbm"; "79T"; "1f0"; "0cp"; "397"; "nn"; "5s2"; "42z"; "4ys"; "6LP"; "ao"; "366"; "0lq"; "OC"; "76U"; "bml"];
  ["4Zo"; "6oL"; "Bs"; "0aA"; "0Om"; "2zN"; "7QA"; "40K"; "7OC"; "4jA"; "0Qo"; "6U"; "3ZA"; "1ob"; "4Dm"; "65F"; "68v"; "b7f"; "0rs"; "QA"];
  ["dSO"; "8UG"; "4gq"; "5b1"; "5m0"; "4hp"; "8ZF"; "4d"; "1x2"; "09z"; "727"; "67w"; "7nn"; "4Kl"; "04J"; "Sp"; "9T"; "1NO"; "51i"; "6Pc"];
  ["6BO"; "43d"; "0LB"; "op"; "2WM"; "0bn"; "5Ia"; "6lc"; "5Q0"; "4Tp"; "8fF"; "Ll"; "1D2"; "0Ar"; "cPN"; "aem"; "ajl"; "41U"; "0Ns"; "mA"];
  ["Cm"; "14v"; "5KP"; "6nR"; "6cb"; "4VA"; "0mo"; "2XL"; "22h"; "0CC"; "4xm"; "6MN"; "4fo"; "6SL"; "2hb"; "8TY"; "07e"; "2FN"; "69h"; "4HC"];
  ["4Es"; "64X"; "d5E"; "83M"; "0Pq"; "7K"; "a0f"; "bQl"; "50w"; "457"; "8J"; "1OQ"; "05T"; "Rn"; "5O2"; "4Jr"; "4GB"; "66i"; "2IO"; "08d"];
  ["1Ba"; "5z"; "7Ll"; "4in"; "0nD"; "Mv"; "7ph"; "4Uj"; "5kg"; "6Ne"; "cZ"; "23"; "0MX"; "nj"; "5s6"; "4vv"; "4XZ"; "6my"; "1f4"; "0ct"];
  ["0lu"; "OG"; "6bx"; "5Gz"; "4yw"; "6LT"; "ak"; "0BY"; "0Oi"; "2zJ"; "6Ad"; "40O"; "4Zk"; "6oH"; "Bw"; "0aE"; "2Jd"; "1of"; "4Di"; "65B"];
  ["7OG"; "4jE"; "g8"; "6Q"; "2ix"; "1Lz"; "4gu"; "5b5"; "68r"; "4IY"; "0rw"; "QE"; "1x6"; "1mW"; "4FX"; "4S9"; "5m4"; "4ht"; "0SZ"; "ph"];
  ["9P"; "h9"; "4eD"; "6Pg"; "7nj"; "4Kh"; "04N"; "St"; "22u"; "375"; "4xp"; "598"; "77V"; "blo"; "0mr"; "1h2"; "Cp"; "14k"; "5KM"; "6nO"];
  ["7PB"; "41H"; "0Nn"; "3kl"; "20D"; "34"; "4zA"; "6Ob"; "6aN"; "4Tm"; "0oC"; "Lq"; "AA"; "0bs"; "bcn"; "78W"; "569"; "43y"; "384"; "om"];
  ["9Kd"; "5g"; "5l3"; "4is"; "734"; "66t"; "1y1"; "08y"; "05I"; "Rs"; "7om"; "4Jo"; "4dC"; "7AA"; "8W"; "1OL"; "0Pl"; "7V"; "ats"; "4kB"];
  ["4En"; "64E"; "2Kc"; "1na"; "07x"; "PB"; "69u"; "b6e"; "4fr"; "5c2"; "dRL"; "8TD"; "4Zv"; "6oU"; "Bj"; "0aX"; "0Ot"; "lF"; "6Ay"; "40R"];
  ["4yj"; "6LI"; "av"; "0BD"; "0lh"; "OZ"; "6be"; "4WF"; "4XG"; "6md"; "2VJ"; "0ci"; "0ME"; "nw"; "6CH"; "42c"; "5kz"; "6Nx"; "cG"; "1PT"];
  ["0nY"; "Mk"; "5P7"; "4Uw"; "5N5"; "4Ku"; "04S"; "Si"; "9M"; "1NV"; "4eY"; "440"; "7Mk"; "4hi"; "0SG"; "pu"; "2HH"; "K8"; "4FE"; "67n"];
  ["68o"; "4ID"; "1"; "QX"; "2ie"; "1Lg"; "4gh"; "6RK"; "7OZ"; "4jX"; "0Qv"; "6L"; "2Jy"; "3O9"; "4Dt"; "5A4"; "4C9"; "4VX"; "0mv"; "ND"];
  ["22q"; "0CZ"; "4xt"; "6MW"; "7PF"; "41L"; "x9"; "mX"; "Ct"; "14o"; "5KI"; "6nK"; "6aJ"; "4Ti"; "0oG"; "Lu"; "bY"; "30"; "4zE"; "6Of"];
  ["5r5"; "4wu"; "380"; "oi"; "AE"; "0bw"; "4YY"; "4L8"; "5Wz"; "66p"; "1y5"; "1lT"; "0RY"; "5c"; "5l7"; "4iw"; "4dG"; "6Qd"; "8S"; "1OH"];
  ["05M"; "Rw"; "7oi"; "4Jk"; "4Ej"; "64A"; "2Kg"; "1ne"; "0Ph"; "7R"; "7ND"; "4kF"; "4fv"; "5c6"; "0H9"; "1My"; "0st"; "PF"; "69q"; "4HZ"];
  ["0Op"; "lB"; "ako"; "40V"; "4Zr"; "6oQ"; "Bn"; "15u"; "0ll"; "2YO"; "6ba"; "4WB"; "4yn"; "6LM"; "ar"; "1Ra"; "0MA"; "ns"; "6CL"; "42g"];
  ["4XC"; "79I"; "2VN"; "0cm"; "8gE"; "Mo"; "5P3"; "4Us"; "bAl"; "adn"; "cC"; "1PP"; "9I"; "1NR"; "51t"; "444"; "5N1"; "4Kq"; "04W"; "Sm"];
  ["2HL"; "09g"; "4FA"; "67j"; "7Mo"; "4hm"; "0SC"; "4y"; "2ia"; "1Lc"; "4gl"; "6RO"; "68k"; "5Ya"; "5"; "2GM"; "d4F"; "82N"; "4Dp"; "5A0"];
  ["a1e"; "bPo"; "0Qr"; "6H"; "Cx"; "14c"; "5KE"; "6nG"; "7PJ"; "4uH"; "x5"; "mT"; "0V7"; "0CV"; "4xx"; "590"; "4C5"; "4VT"; "0mz"; "NH"];
  ["AI"; "16R"; "4YU"; "4L4"; "561"; "43q"; "0LW"; "oe"; "bU"; "w4"; "4zI"; "6Oj"; "6aF"; "4Te"; "0oK"; "Ly"; "05A"; "2Dj"; "7oe"; "4Jg"];
  ["4dK"; "6Qh"; "2jF"; "i6"; "0RU"; "5o"; "7Ly"; "5yZ"; "4GW"; "4R6"; "1y9"; "08q"; "07p"; "PJ"; "7mT"; "4HV"; "4fz"; "6SY"; "0H5"; "1Mu"];
  ["f7"; "sV"; "7NH"; "4kJ"; "4Ef"; "64M"; "2Kk"; "1ni"; "4yb"; "6LA"; "23g"; "0BL"; "Z3"; "OR"; "6bm"; "4WN"; "c4d"; "aEO"; "Bb"; "0aP"];
  ["8Fd"; "lN"; "4a3"; "40Z"; "5kr"; "4n2"; "cO"; "8Ie"; "0nQ"; "Mc"; "74u"; "615"; "4XO"; "6ml"; "2VB"; "U2"; "0MM"; "2xn"; "7Sa"; "42k"];
  ["7Mc"; "4ha"; "0SO"; "4u"; "3Xa"; "K0"; "4FM"; "67f"; "aTL"; "b5F"; "0pS"; "Sa"; "9E"; "8Wg"; "4eQ"; "448"; "7OR"; "4jP"; "254"; "6D"];
  ["0j3"; "1os"; "cnn"; "65W"; "68g"; "4IL"; "9"; "QP"; "2im"; "1Lo"; "53I"; "6RC"; "7PN"; "41D"; "x1"; "mP"; "2Um"; "14g"; "5KA"; "6nC"];
  ["4C1"; "4VP"; "19W"; "NL"; "0V3"; "0CR"; "bBO"; "594"; "565"; "43u"; "0LS"; "oa"; "AM"; "16V"; "4YQ"; "4L0"; "6aB"; "4Ta"; "0oO"; "2Zl"];
  ["bQ"; "38"; "4zM"; "6On"; "4dO"; "6Ql"; "2jB"; "i2"; "05E"; "2Dn"; "7oa"; "4Jc"; "4GS"; "4R2"; "d7e"; "08u"; "0RQ"; "5k"; "a2F"; "bSL"];
  ["52W"; "ayO"; "0H1"; "1Mq"; "07t"; "PN"; "69y"; "4HR"; "4Eb"; "64I"; "2Ko"; "1nm"; "f3"; "7Z"; "7NL"; "4kN"; "Z7"; "OV"; "6bi"; "4WJ"];
  ["4yf"; "6LE"; "az"; "0BH"; "0Ox"; "lJ"; "4a7"; "4tV"; "4Zz"; "6oY"; "Bf"; "0aT"; "0nU"; "Mg"; "74q"; "5EZ"; "5kv"; "4n6"; "cK"; "1PX"];
  ["0MI"; "2xj"; "6CD"; "42o"; "4XK"; "6mh"; "2VF"; "U6"; "2HD"; "K4"; "4FI"; "67b"; "7Mg"; "4he"; "0SK"; "4q"; "9A"; "1NZ"; "4eU"; "4p4"];
  ["5N9"; "4Ky"; "0pW"; "Se"; "0j7"; "1ow"; "4Dx"; "5A8"; "7OV"; "4jT"; "0Qz"; "rH"; "2ii"; "1Lk"; "4gd"; "6RG"; "68c"; "4IH"; "D5"; "QT"];
  ["5Ls"; "4I3"; "F"; "13U"; "0IP"; "jb"; "536"; "46v"; "5oo"; "6Jm"; "gR"; "r3"; "0jL"; "3ON"; "6dA"; "4Qb"; "5NB"; "aAR"; "2Pn"; "0eM"];
  ["0Ka"; "hS"; "6El"; "44G"; "49w"; "abN"; "ec"; "0FQ"; "8ae"; "KO"; "4F2"; "4SS"; "4X0"; "4MQ"; "02w"; "UM"; "0M2"; "0XS"; "57T"; "a8D"];
  ["7KO"; "4nM"; "c0"; "2Y"; "2Nl"; "1kn"; "aJ1"; "61J"; "6zC"; "aE0"; "00F"; "2Am"; "yP"; "l1"; "4aL"; "6To"; "a7E"; "58U"; "0WR"; "0h"];
  ["ZL"; "84n"; "4BP"; "4W1"; "fH"; "0Ez"; "5nu"; "4k5"; "5U8"; "4Px"; "0kV"; "Hd"; "ET"; "P5"; "5Mi"; "6hk"; "6FG"; "47l"; "0HJ"; "kx"];
  ["dy"; "0GK"; "48m"; "6IF"; "6gj"; "4RI"; "0ig"; "JU"; "Ge"; "0dW"; "5OX"; "5Z9"; "4d4"; "4qU"; "1ZZ"; "iI"; "0Ty"; "3C"; "4z6"; "4oW"];
  ["5QZ"; "60P"; "Yg"; "0zU"; "A6"; "TW"; "6yh"; "4LK"; "4bg"; "6WD"; "2lj"; "0YI"; "0VH"; "1r"; "6XE"; "4mf"; "4CJ"; "62a"; "2MG"; "N7"];
  ["0uT"; "Vf"; "7kx"; "4Nz"; "5pw"; "4u7"; "xJ"; "1KY"; "0IT"; "jf"; "532"; "46r"; "5Lw"; "4I7"; "B"; "0gx"; "0jH"; "Iz"; "6dE"; "4Qf"];
  ["5ok"; "6Ji"; "gV"; "r7"; "0Ke"; "hW"; "6Eh"; "44C"; "5NF"; "6kD"; "2Pj"; "0eI"; "0hy"; "KK"; "4F6"; "4SW"; "49s"; "6HX"; "eg"; "0FU"];
  ["0M6"; "0XW"; "4cy"; "5f9"; "4X4"; "4MU"; "02s"; "UI"; "Xy"; "1kj"; "5PD"; "61N"; "7KK"; "4nI"; "c4"; "vU"; "yT"; "l5"; "4aH"; "6Tk"];
  ["6zG"; "4Od"; "00B"; "Wx"; "ZH"; "0yz"; "4BT"; "4W5"; "5i8"; "4lx"; "0WV"; "0l"; "71v"; "646"; "0kR"; "3NP"; "fL"; "8Lf"; "5nq"; "4k1"];
  ["6FC"; "47h"; "0HN"; "29e"; "EP"; "P1"; "5Mm"; "6ho"; "6gn"; "4RM"; "0ic"; "JQ"; "26d"; "0GO"; "48i"; "6IB"; "4d0"; "45Y"; "8Cg"; "iM"];
  ["Ga"; "0dS"; "beN"; "hYu"; "ckm"; "60T"; "Yc"; "0zQ"; "207"; "3G"; "4z2"; "4oS"; "4bc"; "7Ga"; "2ln"; "0YM"; "A2"; "TS"; "6yl"; "4LO"];
  ["4CN"; "62e"; "2MC"; "N3"; "0VL"; "1v"; "6XA"; "4mb"; "5ps"; "4u3"; "xN"; "8Rd"; "01X"; "Vb"; "aQO"; "b0E"; "5og"; "6Je"; "gZ"; "63"];
  ["0jD"; "Iv"; "6dI"; "4Qj"; "7l9"; "6iy"; "N"; "0gt"; "0IX"; "jj"; "5w6"; "4rv"; "5mV"; "5x7"; "ek"; "0FY"; "0hu"; "KG"; "6fx"; "5Cz"];
  ["5NJ"; "6kH"; "Fw"; "0eE"; "92"; "3nk"; "6Ed"; "44O"; "7KG"; "4nE"; "c8"; "2Q"; "Xu"; "1kf"; "5PH"; "61B"; "4X8"; "4MY"; "0vw"; "UE"];
  ["2mx"; "1Hz"; "4cu"; "5f5"; "5i4"; "4lt"; "0WZ"; "th"; "ZD"; "0yv"; "4BX"; "4W9"; "6zK"; "4Oh"; "00N"; "Wt"; "yX"; "l9"; "4aD"; "6Tg"];
  ["2SM"; "0fn"; "5Ma"; "6hc"; "6FO"; "47d"; "0HB"; "kp"; "24Y"; "0Er"; "bDo"; "aam"; "5U0"; "4Pp"; "8bF"; "Hl"; "Gm"; "10v"; "5OP"; "5Z1"];
  ["anl"; "45U"; "0Js"; "iA"; "dq"; "0GC"; "48e"; "6IN"; "6gb"; "4RA"; "0io"; "3Lm"; "03e"; "2BN"; "7iA"; "4LC"; "4bo"; "6WL"; "zs"; "0YA"];
  ["0Tq"; "3K"; "a4f"; "bUl"; "4As"; "5D3"; "Yo"; "87M"; "01T"; "Vn"; "5K2"; "4Nr"; "54w"; "417"; "xB"; "1KQ"; "1Fa"; "1z"; "6XM"; "4mn"];
  ["4CB"; "62i"; "2MO"; "0xl"; "1za"; "Ir"; "6dM"; "4Qn"; "5oc"; "6Ja"; "25G"; "67"; "9Pe"; "jn"; "5w2"; "46z"; "bfm"; "aCo"; "J"; "0gp"];
  ["0hq"; "KC"; "72U"; "bil"; "5mR"; "5x3"; "eo"; "326"; "96"; "3no"; "7UA"; "44K"; "5NN"; "6kL"; "Fs"; "0eA"; "Xq"; "1kb"; "5PL"; "61F"];
  ["7KC"; "4nA"; "0Uo"; "2U"; "39U"; "8QG"; "4cq"; "5f1"; "aRl"; "796"; "0vs"; "UA"; "2LQ"; "0yr"; "767"; "63w"; "5i0"; "4lp"; "9Ng"; "0d"];
  ["2oM"; "0Zn"; "55i"; "6Tc"; "6zO"; "4Ol"; "00J"; "Wp"; "6FK"; "4sh"; "0HF"; "kt"; "EX"; "P9"; "5Me"; "6hg"; "5U4"; "4Pt"; "0kZ"; "Hh"];
  ["fD"; "0Ev"; "5ny"; "4k9"; "4d8"; "45Q"; "0Jw"; "iE"; "Gi"; "10r"; "5OT"; "5Z5"; "6gf"; "4RE"; "0ik"; "JY"; "du"; "0GG"; "48a"; "6IJ"];
  ["4bk"; "6WH"; "zw"; "0YE"; "03a"; "2BJ"; "6yd"; "4LG"; "4Aw"; "5D7"; "Yk"; "0zY"; "0Tu"; "3O"; "6Zx"; "bUh"; "54s"; "413"; "xF"; "1KU"];
  ["01P"; "Vj"; "5K6"; "4Nv"; "4CF"; "62m"; "2MK"; "0xh"; "0VD"; "uv"; "6XI"; "4mj"; "5NS"; "6kQ"; "Fn"; "11u"; "0Kp"; "hB"; "aoo"; "44V"];
  ["49f"; "6HM"; "er"; "1Va"; "0hl"; "3Mn"; "6fa"; "4SB"; "5Lb"; "7yA"; "W"; "0gm"; "0IA"; "js"; "6GL"; "46g"; "bEl"; "hyW"; "gC"; "0Dq"];
  ["8cE"; "Io"; "5T3"; "4Qs"; "5J1"; "4Oq"; "00W"; "Wm"; "yA"; "0Zs"; "55t"; "404"; "6YN"; "4lm"; "0WC"; "0y"; "2LL"; "0yo"; "4BA"; "63j"];
  ["6xc"; "bws"; "02f"; "2CM"; "2ma"; "0XB"; "4cl"; "6VO"; "a5e"; "bTo"; "0Ur"; "2H"; "Xl"; "86N"; "5PQ"; "5E0"; "dh"; "0GZ"; "5lU"; "5y4"];
  ["4G9"; "4RX"; "0iv"; "JD"; "Gt"; "0dF"; "5OI"; "6jK"; "6Dg"; "45L"; "81"; "iX"; "fY"; "70"; "5nd"; "6Kf"; "6eJ"; "4Pi"; "0kG"; "Hu"];
  ["EE"; "0fw"; "5Mx"; "4H8"; "5v5"; "4su"; "1Xz"; "ki"; "0VY"; "1c"; "5h7"; "4mw"; "5Sz"; "62p"; "2MV"; "0xu"; "01M"; "Vw"; "7ki"; "4Nk"];
  ["54n"; "6Ud"; "2nJ"; "1KH"; "0Th"; "3R"; "6Ze"; "4oF"; "4Aj"; "60A"; "Yv"; "0zD"; "0wt"; "TF"; "6yy"; "4LZ"; "4bv"; "5g6"; "zj"; "0YX"];
  ["0Kt"; "hF"; "6Ey"; "44R"; "5NW"; "6kU"; "Fj"; "0eX"; "0hh"; "KZ"; "6fe"; "4SF"; "49b"; "6HI"; "ev"; "0FD"; "0IE"; "jw"; "6GH"; "46c"];
  ["5Lf"; "6id"; "S"; "0gi"; "0jY"; "Ik"; "5T7"; "4Qw"; "5oz"; "6Jx"; "gG"; "0Du"; "yE"; "0Zw"; "4aY"; "400"; "5J5"; "4Ou"; "00S"; "Wi"];
  ["ZY"; "O8"; "4BE"; "63n"; "6YJ"; "4li"; "0WG"; "tu"; "2me"; "0XF"; "4ch"; "6VK"; "6xg"; "4MD"; "02b"; "UX"; "Xh"; "3K9"; "5PU"; "5E4"];
  ["7KZ"; "4nX"; "0Uv"; "2L"; "73V"; "bho"; "0ir"; "1l2"; "dl"; "335"; "48x"; "5y0"; "6Dc"; "45H"; "85"; "3ol"; "Gp"; "0dB"; "5OM"; "6jO"];
  ["6eN"; "4Pm"; "0kC"; "Hq"; "24D"; "74"; "bDr"; "6Kb"; "529"; "47y"; "8AG"; "km"; "EA"; "0fs"; "bgn"; "aBl"; "774"; "62t"; "199"; "0xq"];
  ["9Od"; "1g"; "5h3"; "4ms"; "54j"; "7EA"; "2nN"; "1KL"; "01I"; "Vs"; "7km"; "4No"; "4An"; "60E"; "Yr"; "1ja"; "0Tl"; "3V"; "6Za"; "4oB"];
  ["4br"; "5g2"; "zn"; "8PD"; "03x"; "TB"; "aSo"; "785"; "49n"; "6HE"; "ez"; "0FH"; "0hd"; "KV"; "6fi"; "4SJ"; "bdI"; "6kY"; "Ff"; "0eT"];
  ["0Kx"; "hJ"; "4e7"; "4pV"; "5ov"; "4j6"; "gK"; "0Dy"; "0jU"; "Ig"; "6dX"; "5AZ"; "5Lj"; "6ih"; "DW"; "Q6"; "0II"; "28b"; "6GD"; "46o"];
  ["6YF"; "4le"; "0WK"; "0q"; "ZU"; "O4"; "4BI"; "63b"; "5J9"; "4Oy"; "0tW"; "We"; "yI"; "1JZ"; "4aU"; "4t4"; "7KV"; "4nT"; "0Uz"; "vH"];
  ["Xd"; "1kw"; "5PY"; "5E8"; "6xk"; "4MH"; "02n"; "UT"; "2mi"; "0XJ"; "4cd"; "6VG"; "2Qm"; "0dN"; "5OA"; "6jC"; "6Do"; "45D"; "89"; "iP"];
  ["0R3"; "0GR"; "48t"; "acM"; "4G1"; "4RP"; "94O"; "JL"; "EM"; "12V"; "5Mp"; "4H0"; "525"; "47u"; "0HS"; "ka"; "fQ"; "78"; "5nl"; "6Kn"];
  ["6eB"; "4Pa"; "0kO"; "3NM"; "01E"; "3PO"; "7ka"; "4Nc"; "54f"; "6Ul"; "xS"; "m2"; "0VQ"; "1k"; "a6F"; "59V"; "4CS"; "4V2"; "195"; "85m"];
  ["03t"; "TN"; "4Y3"; "4LR"; "56W"; "a9G"; "zb"; "0YP"; "b3"; "3Z"; "6Zm"; "4oN"; "4Ab"; "60I"; "2Oo"; "0zL"; "1xA"; "KR"; "6fm"; "4SN"];
  ["49j"; "6HA"; "27g"; "0FL"; "8Bd"; "hN"; "4e3"; "44Z"; "bdM"; "aAO"; "Fb"; "0eP"; "0jQ"; "Ic"; "70u"; "655"; "5or"; "4j2"; "gO"; "8Me"];
  ["0IM"; "28f"; "7Wa"; "46k"; "5Ln"; "6il"; "DS"; "Q2"; "ZQ"; "O0"; "4BM"; "63f"; "6YB"; "4la"; "0WO"; "0u"; "yM"; "8Sg"; "4aQ"; "408"];
  ["aPL"; "b1F"; "0tS"; "Wa"; "0n3"; "1ks"; "bzO"; "61W"; "7KR"; "4nP"; "214"; "2D"; "2mm"; "0XN"; "57I"; "6VC"; "6xo"; "4ML"; "02j"; "UP"];
  ["6Dk"; "4qH"; "0Jf"; "iT"; "Gx"; "0dJ"; "5OE"; "6jG"; "4G5"; "4RT"; "0iz"; "JH"; "dd"; "0GV"; "48p"; "5y8"; "521"; "47q"; "0HW"; "ke"];
  ["EI"; "12R"; "5Mt"; "4H4"; "6eF"; "4Pe"; "0kK"; "Hy"; "fU"; "s4"; "5nh"; "6Kj"; "54b"; "6Uh"; "xW"; "m6"; "01A"; "3PK"; "7ke"; "4Ng"];
  ["4CW"; "4V6"; "191"; "0xy"; "0VU"; "1o"; "6XX"; "59R"; "4bz"; "6WY"; "zf"; "0YT"; "03p"; "TJ"; "4Y7"; "4LV"; "4Af"; "60M"; "Yz"; "0zH"];
  ["b7"; "wV"; "6Zi"; "4oJ"; "5H3"; "4Ms"; "02U"; "Uo"; "2mR"; "0Xq"; "57v"; "426"; "7Km"; "4no"; "0UA"; "vs"; "2NN"; "1kL"; "5Pb"; "61h"];
  ["6za"; "4OB"; "00d"; "2AO"; "yr"; "1Ja"; "4an"; "6TM"; "a7g"; "58w"; "0Wp"; "0J"; "Zn"; "84L"; "4Br"; "5G2"; "5LQ"; "5Y0"; "d"; "13w"];
  ["0Ir"; "1L2"; "amm"; "46T"; "5oM"; "6JO"; "gp"; "0DB"; "0jn"; "3Ol"; "6dc"; "5Aa"; "bdr"; "6kb"; "2PL"; "0eo"; "0KC"; "hq"; "6EN"; "44e"];
  ["49U"; "abl"; "eA"; "0Fs"; "8aG"; "Km"; "5V1"; "4Sq"; "1Dz"; "3a"; "5j5"; "4ou"; "4AY"; "4T8"; "YE"; "0zw"; "03O"; "Tu"; "6yJ"; "4Li"];
  ["4bE"; "6Wf"; "zY"; "o8"; "0Vj"; "1P"; "6Xg"; "4mD"; "4Ch"; "62C"; "2Me"; "0xF"; "0uv"; "VD"; "7kZ"; "4NX"; "5pU"; "5e4"; "xh"; "3k9"];
  ["fj"; "0EX"; "5nW"; "6KU"; "6ey"; "4PZ"; "0kt"; "HF"; "Ev"; "0fD"; "5MK"; "6hI"; "6Fe"; "47N"; "0Hh"; "kZ"; "26B"; "52"; "48O"; "6Id"];
  ["6gH"; "4Rk"; "0iE"; "Jw"; "GG"; "0du"; "5Oz"; "6jx"; "5t7"; "4qw"; "0JY"; "ik"; "2mV"; "0Xu"; "57r"; "422"; "5H7"; "4Mw"; "02Q"; "Uk"];
  ["2NJ"; "1kH"; "5Pf"; "61l"; "7Ki"; "4nk"; "0UE"; "vw"; "yv"; "0ZD"; "4aj"; "6TI"; "6ze"; "4OF"; "0th"; "WZ"; "Zj"; "0yX"; "4Bv"; "5G6"];
  ["6Yy"; "4lZ"; "0Wt"; "0N"; "0Iv"; "jD"; "4g9"; "46P"; "5LU"; "5Y4"; "Dh"; "0gZ"; "0jj"; "IX"; "6dg"; "4QD"; "5oI"; "6JK"; "gt"; "0DF"];
  ["0KG"; "hu"; "6EJ"; "44a"; "5Nd"; "6kf"; "FY"; "S8"; "1xz"; "Ki"; "5V5"; "4Su"; "49Q"; "4h8"; "eE"; "0Fw"; "756"; "60v"; "YA"; "0zs"];
  ["9Mf"; "3e"; "5j1"; "4oq"; "4bA"; "6Wb"; "2lL"; "0Yo"; "03K"; "Tq"; "6yN"; "4Lm"; "4Cl"; "62G"; "2Ma"; "0xB"; "0Vn"; "1T"; "6Xc"; "59i"];
  ["54Y"; "5e0"; "xl"; "8RF"; "01z"; "1p2"; "aQm"; "b0g"; "71T"; "bjm"; "0kp"; "HB"; "fn"; "317"; "5nS"; "6KQ"; "6Fa"; "47J"; "0Hl"; "29G"];
  ["Er"; "12i"; "5MO"; "6hM"; "6gL"; "4Ro"; "0iA"; "Js"; "26F"; "56"; "48K"; "7YA"; "5t3"; "4qs"; "8CE"; "io"; "GC"; "0dq"; "bel"; "hYW"];
  ["7Ke"; "4ng"; "0UI"; "2s"; "XW"; "M6"; "5Pj"; "6uh"; "6xX"; "6m9"; "0vU"; "Ug"; "2mZ"; "0Xy"; "4cW"; "4v6"; "4y7"; "4lV"; "0Wx"; "0B"];
  ["Zf"; "0yT"; "4Bz"; "63Q"; "6zi"; "4OJ"; "B7"; "WV"; "yz"; "0ZH"; "4af"; "6TE"; "5oE"; "6JG"; "gx"; "0DJ"; "0jf"; "IT"; "6dk"; "4QH"];
  ["5LY"; "5Y8"; "l"; "0gV"; "0Iz"; "jH"; "4g5"; "4rT"; "5mt"; "4h4"; "eI"; "1VZ"; "0hW"; "Ke"; "5V9"; "4Sy"; "5Nh"; "6kj"; "FU"; "S4"];
  ["0KK"; "hy"; "6EF"; "44m"; "03G"; "2Bl"; "6yB"; "4La"; "4bM"; "6Wn"; "zQ"; "o0"; "0TS"; "3i"; "a4D"; "bUN"; "4AQ"; "4T0"; "YM"; "87o"];
  ["01v"; "VL"; "7kR"; "4NP"; "54U"; "hft"; "0N3"; "1Ks"; "0Vb"; "1X"; "6Xo"; "4mL"; "5SA"; "62K"; "2Mm"; "0xN"; "2So"; "0fL"; "5MC"; "6hA"];
  ["6Fm"; "47F"; "1XA"; "kR"; "fb"; "0EP"; "bDM"; "aaO"; "4E3"; "4PR"; "8bd"; "HN"; "GO"; "10T"; "5Or"; "4J2"; "507"; "45w"; "0JQ"; "ic"];
  ["dS"; "q2"; "48G"; "6Il"; "73i"; "4Rc"; "0iM"; "3LO"; "XS"; "M2"; "5Pn"; "61d"; "7Ka"; "4nc"; "0UM"; "2w"; "39w"; "8Qe"; "4cS"; "4v2"];
  ["aRN"; "b3D"; "02Y"; "Uc"; "Zb"; "0yP"; "bxM"; "63U"; "4y3"; "4lR"; "236"; "0F"; "2oo"; "0ZL"; "4ab"; "6TA"; "6zm"; "4ON"; "B3"; "WR"];
  ["0jb"; "IP"; "6do"; "4QL"; "5oA"; "6JC"; "25e"; "0DN"; "9PG"; "jL"; "4g1"; "46X"; "686"; "aCM"; "h"; "0gR"; "0hS"; "Ka"; "72w"; "677"];
  ["49Y"; "4h0"; "eM"; "8Og"; "0KO"; "3nM"; "6EB"; "44i"; "5Nl"; "6kn"; "FQ"; "S0"; "4bI"; "6Wj"; "zU"; "o4"; "03C"; "Ty"; "6yF"; "4Le"];
  ["4AU"; "4T4"; "YI"; "1jZ"; "0TW"; "3m"; "5j9"; "4oy"; "54Q"; "5e8"; "xd"; "1Kw"; "01r"; "VH"; "7kV"; "4NT"; "4Cd"; "62O"; "2Mi"; "0xJ"];
  ["0Vf"; "uT"; "6Xk"; "4mH"; "6Fi"; "47B"; "0Hd"; "kV"; "Ez"; "0fH"; "5MG"; "6hE"; "4E7"; "4PV"; "0kx"; "HJ"; "ff"; "0ET"; "bDI"; "6KY"];
  ["503"; "45s"; "0JU"; "ig"; "GK"; "0dy"; "5Ov"; "4J6"; "6gD"; "4Rg"; "0iI"; "3LK"; "dW"; "q6"; "48C"; "6Ih"; "4Z2"; "4OS"; "00u"; "WO"];
  ["yc"; "0ZQ"; "55V"; "hgw"; "6Yl"; "4lO"; "a2"; "tS"; "2Ln"; "0yM"; "4Bc"; "63H"; "6xA"; "4Mb"; "02D"; "2Co"; "2mC"; "n3"; "4cN"; "6Vm"];
  ["a5G"; "bTM"; "0UP"; "2j"; "XN"; "86l"; "5Ps"; "4U3"; "5Nq"; "4K1"; "FL"; "11W"; "0KR"; "3nP"; "514"; "44t"; "49D"; "6Ho"; "eP"; "49"];
  ["0hN"; "3ML"; "6fC"; "5CA"; "aV1"; "6iB"; "u"; "0gO"; "0Ic"; "jQ"; "6Gn"; "46E"; "bEN"; "hyu"; "ga"; "0DS"; "8cg"; "IM"; "4D0"; "4QQ"];
  ["1FZ"; "1A"; "4x4"; "4mU"; "4Cy"; "5F9"; "0m6"; "0xW"; "C4"; "VU"; "7kK"; "4NI"; "54L"; "6UF"; "xy"; "1Kj"; "0TJ"; "3p"; "6ZG"; "4od"];
  ["4AH"; "60c"; "YT"; "L5"; "0wV"; "Td"; "5I8"; "4Lx"; "4bT"; "4w5"; "zH"; "0Yz"; "dJ"; "0Gx"; "5lw"; "4i7"; "6gY"; "4Rz"; "0iT"; "Jf"];
  ["GV"; "R7"; "5Ok"; "6ji"; "6DE"; "45n"; "0JH"; "iz"; "24b"; "0EI"; "5nF"; "6KD"; "6eh"; "4PK"; "0ke"; "HW"; "Eg"; "0fU"; "5MZ"; "6hX"];
  ["4f6"; "4sW"; "0Hy"; "kK"; "yg"; "0ZU"; "55R"; "6TX"; "4Z6"; "4OW"; "00q"; "WK"; "2Lj"; "0yI"; "4Bg"; "63L"; "6Yh"; "4lK"; "a6"; "tW"];
  ["2mG"; "n7"; "4cJ"; "6Vi"; "6xE"; "4Mf"; "0vH"; "Uz"; "XJ"; "1kY"; "5Pw"; "4U7"; "7Kx"; "4nz"; "0UT"; "2n"; "0KV"; "hd"; "510"; "44p"];
  ["5Nu"; "4K5"; "FH"; "0ez"; "0hJ"; "Kx"; "6fG"; "4Sd"; "5mi"; "6Hk"; "eT"; "p5"; "0Ig"; "jU"; "6Gj"; "46A"; "5LD"; "6iF"; "q"; "0gK"];
  ["1zZ"; "II"; "4D4"; "4QU"; "5oX"; "5z9"; "ge"; "0DW"; "byN"; "62V"; "0m2"; "0xS"; "225"; "1E"; "4x0"; "4mQ"; "54H"; "6UB"; "2nl"; "1Kn"];
  ["C0"; "VQ"; "7kO"; "4NM"; "4AL"; "60g"; "YP"; "L1"; "0TN"; "3t"; "6ZC"; "ae0"; "4bP"; "439"; "zL"; "8Pf"; "03Z"; "0b3"; "aSM"; "b2G"];
  ["73t"; "664"; "0iP"; "Jb"; "dN"; "8Nd"; "48Z"; "4i3"; "6DA"; "45j"; "0JL"; "3oN"; "GR"; "R3"; "5Oo"; "6jm"; "6el"; "4PO"; "0ka"; "HS"];
  ["24f"; "0EM"; "5nB"; "aaR"; "4f2"; "4sS"; "8Ae"; "kO"; "Ec"; "0fQ"; "695"; "aBN"; "6Yd"; "4lG"; "0Wi"; "0S"; "Zw"; "0yE"; "4Bk"; "6wH"];
  ["6zx"; "buh"; "0tu"; "WG"; "yk"; "0ZY"; "4aw"; "5d7"; "5k6"; "4nv"; "0UX"; "2b"; "XF"; "1kU"; "741"; "61q"; "6xI"; "4Mj"; "02L"; "Uv"];
  ["2mK"; "0Xh"; "4cF"; "6Ve"; "49L"; "6Hg"; "eX"; "41"; "0hF"; "Kt"; "6fK"; "4Sh"; "5Ny"; "4K9"; "FD"; "0ev"; "0KZ"; "hh"; "5u4"; "4pt"];
  ["5oT"; "5z5"; "gi"; "1Tz"; "0jw"; "IE"; "4D8"; "4QY"; "5LH"; "6iJ"; "Du"; "0gG"; "0Ik"; "jY"; "6Gf"; "46M"; "01g"; "3Pm"; "7kC"; "4NA"];
  ["54D"; "6UN"; "xq"; "1Kb"; "0Vs"; "1I"; "a6d"; "59t"; "4Cq"; "5F1"; "d3G"; "85O"; "03V"; "Tl"; "5I0"; "4Lp"; "56u"; "435"; "2lQ"; "0Yr"];
  ["0TB"; "3x"; "6ZO"; "4ol"; "5Qa"; "60k"; "2OM"; "0zn"; "2QO"; "0dl"; "5Oc"; "6ja"; "6DM"; "45f"; "1Za"; "ir"; "dB"; "0Gp"; "48V"; "aco"];
  ["5W2"; "4Rr"; "94m"; "Jn"; "Eo"; "12t"; "5MR"; "5X3"; "aln"; "47W"; "0Hq"; "kC"; "fs"; "0EA"; "5nN"; "6KL"; "71I"; "4PC"; "0km"; "3No"];
  ["Zs"; "0yA"; "4Bo"; "63D"; "7IA"; "4lC"; "0Wm"; "0W"; "yo"; "8SE"; "4as"; "5d3"; "aPn"; "b1d"; "00y"; "WC"; "XB"; "1kQ"; "745"; "61u"];
  ["5k2"; "4nr"; "9Le"; "2f"; "2mO"; "0Xl"; "4cB"; "6Va"; "6xM"; "4Mn"; "02H"; "Ur"; "0hB"; "Kp"; "6fO"; "4Sl"; "49H"; "6Hc"; "27E"; "45"];
  ["8BF"; "hl"; "518"; "44x"; "bdo"; "aAm"; "2PQ"; "0er"; "0js"; "IA"; "70W"; "bkn"; "5oP"; "5z1"; "gm"; "304"; "0Io"; "28D"; "6Gb"; "46I"];
  ["5LL"; "6iN"; "y"; "0gC"; "5pH"; "6UJ"; "xu"; "1Kf"; "C8"; "VY"; "7kG"; "4NE"; "4Cu"; "5F5"; "2Mx"; "1hz"; "0Vw"; "1M"; "4x8"; "4mY"];
  ["4bX"; "431"; "zD"; "0Yv"; "03R"; "Th"; "5I4"; "4Lt"; "4AD"; "60o"; "YX"; "L9"; "0TF"; "wt"; "6ZK"; "4oh"; "6DI"; "45b"; "0JD"; "iv"];
  ["GZ"; "0dh"; "5Og"; "6je"; "5W6"; "4Rv"; "0iX"; "Jj"; "dF"; "0Gt"; "48R"; "6Iy"; "6Fx"; "47S"; "0Hu"; "kG"; "Ek"; "0fY"; "5MV"; "5X7"];
  ["6ed"; "4PG"; "0ki"; "3Nk"; "fw"; "0EE"; "5nJ"; "6KH"; "356"; "bo"; "6OP"; "4zs"; "bnl"; "75U"; "LC"; "0oq"; "0bA"; "As"; "6lL"; "4Yo"];
  ["43K"; "7RA"; "2yN"; "0Lm"; "17"; "22G"; "6Ma"; "4xB"; "4Vn"; "6cM"; "Nr"; "19i"; "14Y"; "CB"; "aDo"; "bam"; "41z"; "5p2"; "mn"; "8GD"];
  ["7d"; "8YF"; "4kp"; "5n0"; "64w"; "717"; "1nS"; "2KQ"; "Pp"; "07J"; "4Hl"; "69G"; "6Sc"; "52i"; "1MO"; "2hM"; "5U"; "0Ro"; "4iA"; "7LC"];
  ["66F"; "4Gm"; "08K"; "3YA"; "RA"; "0qs"; "b4f"; "aUl"; "5a1"; "4dq"; "8VG"; "8e"; "6mV"; "4Xu"; "17r"; "022"; "nE"; "0Mw"; "42Q"; "4c8"];
  ["6NJ"; "5kH"; "1Pf"; "cu"; "MY"; "X8"; "4UE"; "74O"; "6og"; "4ZD"; "W9"; "BX"; "lt"; "0OF"; "4th"; "6AK"; "4l9"; "4yX"; "0Bv"; "aD"];
  ["Oh"; "0lZ"; "4Wt"; "5R4"; "4Iv"; "5L6"; "Qj"; "06P"; "1LU"; "1Y4"; "463"; "4gZ"; "4jj"; "7Oh"; "rv"; "0QD"; "1oI"; "2JK"; "65m"; "4DF"];
  ["4KG"; "7nE"; "2EJ"; "04a"; "1Nd"; "2kf"; "6PH"; "4ek"; "5xz"; "492"; "4O"; "0Su"; "09Q"; "0h8"; "5C7"; "4Fw"; "5Dz"; "6ax"; "LG"; "0ou"];
  ["0AY"; "bk"; "6OT"; "4zw"; "43O"; "6Bd"; "2yJ"; "0Li"; "0bE"; "Aw"; "6lH"; "4Yk"; "4Vj"; "6cI"; "Nv"; "0mD"; "13"; "22C"; "6Me"; "4xF"];
  ["4uv"; "5p6"; "mj"; "0NX"; "1pU"; "CF"; "6ny"; "7k9"; "4P9"; "4EX"; "1nW"; "2KU"; "sh"; "0PZ"; "4kt"; "5n4"; "6Sg"; "4fD"; "k9"; "2hI"];
  ["Pt"; "07N"; "4Hh"; "69C"; "66B"; "4Gi"; "08O"; "2Id"; "5Q"; "d8"; "4iE"; "7LG"; "5a5"; "4du"; "1Oz"; "8a"; "RE"; "0qw"; "4JY"; "aUh"];
  ["nA"; "0Ms"; "42U"; "ail"; "6mR"; "4Xq"; "17v"; "026"; "3Km"; "0no"; "4UA"; "74K"; "6NN"; "5kL"; "1Pb"; "cq"; "lp"; "0OB"; "40d"; "6AO"];
  ["6oc"; "5Ja"; "0an"; "2TM"; "Ol"; "18w"; "4Wp"; "5R0"; "afm"; "bCo"; "0Br"; "1G2"; "1LQ"; "1Y0"; "467"; "53w"; "4Ir"; "5L2"; "Qn"; "06T"];
  ["1oM"; "2JO"; "65i"; "4DB"; "4jn"; "7Ol"; "6z"; "1Aa"; "8WY"; "2kb"; "6PL"; "4eo"; "4KC"; "7nA"; "2EN"; "04e"; "09U"; "d6E"; "5C3"; "4Fs"];
  ["bRl"; "496"; "4K"; "0Sq"; "0bI"; "2Wj"; "6lD"; "4Yg"; "43C"; "6Bh"; "oW"; "z6"; "0AU"; "bg"; "6OX"; "5jZ"; "4TW"; "4A6"; "LK"; "0oy"];
  ["14Q"; "CJ"; "4N7"; "5Kw"; "41r"; "542"; "mf"; "0NT"; "u7"; "22O"; "6Mi"; "4xJ"; "4Vf"; "6cE"; "Nz"; "0mH"; "Px"; "07B"; "4Hd"; "69O"];
  ["6Sk"; "4fH"; "k5"; "2hE"; "7l"; "0PV"; "4kx"; "5n8"; "4P5"; "4ET"; "83j"; "2KY"; "RI"; "05s"; "4JU"; "7oW"; "5a9"; "4dy"; "1Ov"; "8m"];
  ["qU"; "d4"; "4iI"; "7LK"; "66N"; "4Ge"; "08C"; "2Ih"; "6NB"; "a59"; "1Pn"; "21d"; "MQ"; "X0"; "4UM"; "74G"; "79w"; "bbN"; "0cS"; "0v2"];
  ["nM"; "8Dg"; "42Y"; "4c0"; "4l1"; "4yP"; "8Kf"; "aL"; "0y3"; "0lR"; "636"; "76v"; "6oo"; "4ZL"; "W1"; "BP"; "2zm"; "0ON"; "40h"; "6AC"];
  ["4jb"; "auS"; "6v"; "0QL"; "I3"; "2JC"; "65e"; "4DN"; "b7E"; "68U"; "Qb"; "06X"; "286"; "dSl"; "4r3"; "4gR"; "4hS"; "7MQ"; "4G"; "277"];
  ["09Y"; "0h0"; "67T"; "b8D"; "4KO"; "7nM"; "SS"; "F2"; "1Nl"; "9w"; "azR"; "4ec"; "43G"; "6Bl"; "oS"; "z2"; "0bM"; "2Wn"; "78i"; "4Yc"];
  ["4TS"; "4A2"; "LO"; "8fe"; "0AQ"; "bc"; "aeN"; "cPm"; "41v"; "546"; "mb"; "0NP"; "14U"; "CN"; "4N3"; "5Ks"; "4Vb"; "6cA"; "2Xo"; "0mL"];
  ["u3"; "22K"; "6Mm"; "4xN"; "6So"; "4fL"; "k1"; "2hA"; "2Fm"; "07F"; "5XA"; "69K"; "4P1"; "4EP"; "83n"; "d5f"; "7h"; "0PR"; "bQO"; "a0E"];
  ["hbu"; "50T"; "1Or"; "8i"; "RM"; "05w"; "4JQ"; "7oS"; "66J"; "4Ga"; "08G"; "2Il"; "5Y"; "d0"; "4iM"; "7LO"; "MU"; "X4"; "4UI"; "74C"];
  ["6NF"; "5kD"; "1Pj"; "cy"; "nI"; "2m9"; "4vU"; "4c4"; "6mZ"; "4Xy"; "0cW"; "0v6"; "Od"; "0lV"; "4Wx"; "5R8"; "4l5"; "4yT"; "0Bz"; "aH"];
  ["lx"; "0OJ"; "40l"; "6AG"; "6ok"; "4ZH"; "W5"; "BT"; "I7"; "2JG"; "65a"; "4DJ"; "4jf"; "7Od"; "6r"; "0QH"; "1LY"; "1Y8"; "4r7"; "4gV"];
  ["4Iz"; "68Q"; "Qf"; "0rT"; "1mt"; "0h4"; "67P"; "5VZ"; "4hW"; "7MU"; "4C"; "0Sy"; "1Nh"; "9s"; "6PD"; "4eg"; "4KK"; "7nI"; "SW"; "F6"];
  ["8Je"; "22V"; "4m2"; "4xS"; "625"; "77u"; "Nc"; "0mQ"; "V2"; "CS"; "6nl"; "5Kn"; "41k"; "7Pa"; "3kO"; "0NM"; "0AL"; "20g"; "6OA"; "4zb"];
  ["4TN"; "6am"; "LR"; "Y3"; "0bP"; "Ab"; "78t"; "bcM"; "43Z"; "4b3"; "oN"; "8Ed"; "5D"; "264"; "4iP"; "489"; "66W"; "b9G"; "08Z"; "0i3"];
  ["RP"; "G1"; "4JL"; "7oN"; "6QC"; "50I"; "1Oo"; "8t"; "7u"; "0PO"; "4ka"; "7Nc"; "64f"; "4EM"; "H0"; "963"; "Pa"; "0sS"; "b6F"; "69V"];
  ["478"; "4fQ"; "295"; "dRo"; "4O4"; "4ZU"; "15R"; "BI"; "le"; "0OW"; "40q"; "551"; "6Lj"; "4yI"; "t4"; "aU"; "Oy"; "0lK"; "4We"; "6bF"];
  ["6mG"; "4Xd"; "0cJ"; "2Vi"; "nT"; "0Mf"; "4vH"; "6Ck"; "adI"; "5kY"; "1Pw"; "cd"; "MH"; "0nz"; "4UT"; "7pV"; "4KV"; "7nT"; "SJ"; "04p"];
  ["1Nu"; "9n"; "6PY"; "4ez"; "4hJ"; "7MH"; "pV"; "e7"; "1mi"; "2Hk"; "67M"; "4Ff"; "4Ig"; "68L"; "2Gj"; "06A"; "j6"; "2iF"; "6Rh"; "4gK"];
  ["5zZ"; "7Oy"; "6o"; "0QU"; "1oX"; "1z9"; "4Q6"; "4DW"; "5FZ"; "6cX"; "Ng"; "0mU"; "0Cy"; "1F9"; "4m6"; "4xW"; "41o"; "7Pe"; "3kK"; "0NI"];
  ["V6"; "CW"; "6nh"; "5Kj"; "4TJ"; "6ai"; "LV"; "Y7"; "0AH"; "bz"; "6OE"; "4zf"; "4wV"; "4b7"; "oJ"; "0Lx"; "0bT"; "Af"; "6lY"; "4Yz"];
  ["5B8"; "4Gx"; "1lw"; "0i7"; "qH"; "0Rz"; "4iT"; "7LV"; "6QG"; "4dd"; "1Ok"; "8p"; "RT"; "G5"; "4JH"; "7oJ"; "64b"; "4EI"; "H4"; "2KD"];
  ["7q"; "0PK"; "4ke"; "7Ng"; "4s4"; "4fU"; "1MZ"; "2hX"; "Pe"; "0sW"; "4Hy"; "5M9"; "la"; "0OS"; "40u"; "555"; "4O0"; "4ZQ"; "15V"; "BM"];
  ["2Yl"; "0lO"; "4Wa"; "6bB"; "6Ln"; "4yM"; "08"; "aQ"; "nP"; "0Mb"; "42D"; "6Co"; "6mC"; "5HA"; "0cN"; "2Vm"; "ML"; "8gf"; "4UP"; "74Z"];
  ["adM"; "bAO"; "1Ps"; "0U3"; "1Nq"; "9j"; "azO"; "51W"; "4KR"; "7nP"; "SN"; "04t"; "09D"; "2Ho"; "67I"; "4Fb"; "4hN"; "7ML"; "4Z"; "e3"];
  ["j2"; "2iB"; "6Rl"; "4gO"; "4Ic"; "68H"; "2Gn"; "06E"; "82m"; "d4e"; "4Q2"; "4DS"; "bPL"; "a1F"; "6k"; "0QQ"; "1pH"; "2UJ"; "6nd"; "5Kf"];
  ["41c"; "7Pi"; "mw"; "0NE"; "0Cu"; "1F5"; "6Mx"; "5hz"; "4Vw"; "5S7"; "Nk"; "0mY"; "0bX"; "Aj"; "6lU"; "4Yv"; "43R"; "6By"; "oF"; "0Lt"];
  ["0AD"; "bv"; "6OI"; "4zj"; "4TF"; "6ae"; "LZ"; "0oh"; "RX"; "G9"; "4JD"; "7oF"; "6QK"; "4dh"; "1Og"; "2je"; "5L"; "0Rv"; "4iX"; "481"];
  ["5B4"; "4Gt"; "08R"; "2Iy"; "Pi"; "07S"; "4Hu"; "5M5"; "470"; "4fY"; "1MV"; "1X7"; "su"; "0PG"; "4ki"; "7Nk"; "64n"; "4EE"; "H8"; "2KH"];
  ["6Lb"; "4yA"; "04"; "23D"; "Oq"; "0lC"; "4Wm"; "6bN"; "aEl"; "c4G"; "0as"; "BA"; "lm"; "8FG"; "40y"; "559"; "6NS"; "5kQ"; "345"; "cl"];
  ["1k2"; "0nr"; "boo"; "74V"; "6mO"; "4Xl"; "0cB"; "2Va"; "2xM"; "0Mn"; "42H"; "6Cc"; "4hB"; "aws"; "4V"; "0Sl"; "09H"; "2Hc"; "67E"; "4Fn"];
  ["b5e"; "aTo"; "SB"; "04x"; "8WD"; "9f"; "6PQ"; "4er"; "4js"; "5o3"; "6g"; "8XE"; "1oP"; "1z1"; "65t"; "704"; "4Io"; "68D"; "Qs"; "06I"];
  ["1LL"; "2iN"; "7BA"; "4gC"; "41g"; "7Pm"; "ms"; "0NA"; "14D"; "2UN"; "aDr"; "5Kb"; "4Vs"; "5S3"; "No"; "19t"; "0Cq"; "1F1"; "agn"; "bBl"];
  ["43V"; "aho"; "oB"; "0Lp"; "16u"; "An"; "6lQ"; "4Yr"; "4TB"; "6aa"; "2ZO"; "0ol"; "1Qa"; "br"; "6OM"; "4zn"; "6QO"; "4dl"; "1Oc"; "8x"];
  ["2DM"; "05f"; "5Za"; "7oB"; "5B0"; "4Gp"; "08V"; "d7F"; "5H"; "0Rr"; "bSo"; "485"; "474"; "52t"; "1MR"; "1X3"; "Pm"; "07W"; "4Hq"; "5M1"];
  ["64j"; "4EA"; "1nN"; "2KL"; "7y"; "0PC"; "4km"; "7No"; "Ou"; "0lG"; "4Wi"; "6bJ"; "6Lf"; "4yE"; "00"; "aY"; "li"; "8FC"; "4tu"; "5q5"];
  ["4O8"; "4ZY"; "0aw"; "BE"; "MD"; "0nv"; "4UX"; "74R"; "6NW"; "5kU"; "341"; "ch"; "nX"; "0Mj"; "42L"; "6Cg"; "6mK"; "4Xh"; "0cF"; "2Ve"];
  ["09L"; "2Hg"; "67A"; "4Fj"; "4hF"; "7MD"; "4R"; "0Sh"; "1Ny"; "9b"; "6PU"; "4ev"; "4KZ"; "7nX"; "SF"; "0pt"; "1oT"; "1z5"; "65p"; "5Tz"];
  ["4jw"; "5o7"; "6c"; "0QY"; "1LH"; "2iJ"; "6Rd"; "4gG"; "4Ik"; "7li"; "Qw"; "06M"; "7F"; "246"; "4kR"; "7NP"; "64U"; "col"; "1nq"; "0k1"];
  ["PR"; "E3"; "4HN"; "69e"; "6SA"; "4fb"; "1Mm"; "2ho"; "5w"; "0RM"; "4ic"; "7La"; "66d"; "4GO"; "J2"; "2IB"; "Rc"; "05Y"; "b4D"; "aUN"];
  ["4q2"; "4dS"; "8Ve"; "8G"; "8Hg"; "bM"; "4o0"; "4zQ"; "607"; "75w"; "La"; "0oS"; "T0"; "AQ"; "6ln"; "4YM"; "43i"; "6BB"; "2yl"; "0LO"];
  ["0CN"; "22e"; "6MC"; "5hA"; "4VL"; "6co"; "NP"; "0mb"; "1ps"; "0u3"; "aDM"; "baO"; "41X"; "7PR"; "mL"; "8Gf"; "4IT"; "7lV"; "QH"; "06r"];
  ["1Lw"; "0I7"; "5b8"; "4gx"; "4jH"; "7OJ"; "rT"; "g5"; "1ok"; "2Ji"; "65O"; "4Dd"; "4Ke"; "7ng"; "Sy"; "04C"; "h4"; "2kD"; "6Pj"; "4eI"];
  ["4hy"; "5m9"; "4m"; "0SW"; "09s"; "2HX"; "4S4"; "4FU"; "4M6"; "4XW"; "0cy"; "1f9"; "ng"; "0MU"; "42s"; "573"; "6Nh"; "5kj"; "v6"; "cW"];
  ["3KK"; "0nI"; "4Ug"; "74m"; "6oE"; "4Zf"; "0aH"; "Bz"; "lV"; "y7"; "40B"; "6Ai"; "582"; "4yz"; "0BT"; "af"; "OJ"; "0lx"; "4WV"; "4B7"];
  ["64Q"; "4Ez"; "1nu"; "0k5"; "7B"; "0Px"; "4kV"; "7NT"; "6SE"; "4ff"; "1Mi"; "2hk"; "PV"; "E7"; "4HJ"; "69a"; "6rh"; "4GK"; "J6"; "2IF"];
  ["5s"; "0RI"; "4ig"; "7Le"; "4q6"; "4dW"; "1OX"; "8C"; "Rg"; "0qU"; "5ZZ"; "7oy"; "4Ty"; "5Q9"; "Le"; "0oW"; "1QZ"; "bI"; "4o4"; "4zU"];
  ["43m"; "6BF"; "oy"; "0LK"; "T4"; "AU"; "6lj"; "4YI"; "4VH"; "6ck"; "NT"; "0mf"; "0CJ"; "22a"; "6MG"; "4xd"; "4uT"; "7PV"; "mH"; "0Nz"];
  ["1pw"; "Cd"; "aDI"; "5KY"; "1Ls"; "0I3"; "axM"; "53U"; "4IP"; "7lR"; "QL"; "06v"; "1oo"; "2Jm"; "65K"; "5TA"; "4jL"; "7ON"; "6X"; "g1"];
  ["h0"; "9Y"; "6Pn"; "4eM"; "4Ka"; "7nc"; "2El"; "04G"; "09w"; "d6g"; "4S0"; "4FQ"; "bRN"; "a3D"; "4i"; "0SS"; "nc"; "0MQ"; "42w"; "577"];
  ["4M2"; "4XS"; "17T"; "dlm"; "3KO"; "0nM"; "4Uc"; "74i"; "6Nl"; "5kn"; "v2"; "cS"; "lR"; "y3"; "40F"; "6Am"; "6oA"; "4Zb"; "0aL"; "2To"];
  ["ON"; "18U"; "4WR"; "4B3"; "586"; "bCM"; "0BP"; "ab"; "PZ"; "0sh"; "4HF"; "69m"; "6SI"; "4fj"; "1Me"; "2hg"; "7N"; "0Pt"; "4kZ"; "7NX"];
  ["6pU"; "4Ev"; "1ny"; "0k9"; "Rk"; "05Q"; "4Jw"; "5O7"; "452"; "50r"; "1OT"; "8O"; "qw"; "0RE"; "4ik"; "7Li"; "66l"; "4GG"; "08a"; "2IJ"];
  ["T8"; "AY"; "6lf"; "4YE"; "43a"; "6BJ"; "ou"; "0LG"; "0Aw"; "bE"; "4o8"; "4zY"; "4Tu"; "5Q5"; "Li"; "8fC"; "14s"; "Ch"; "6nW"; "5KU"];
  ["41P"; "7PZ"; "mD"; "0Nv"; "0CF"; "22m"; "6MK"; "4xh"; "4VD"; "6cg"; "NX"; "0mj"; "5za"; "7OB"; "6T"; "0Qn"; "1oc"; "2Ja"; "65G"; "4Dl"];
  ["b7g"; "68w"; "1w2"; "06z"; "8UF"; "dSN"; "5b0"; "4gp"; "4hq"; "5m1"; "4e"; "8ZG"; "1mR"; "1x3"; "67v"; "726"; "4Km"; "7no"; "Sq"; "04K"];
  ["1NN"; "9U"; "6Pb"; "4eA"; "adr"; "5kb"; "26"; "21F"; "Ms"; "0nA"; "4Uo"; "74e"; "79U"; "bbl"; "0cq"; "1f1"; "no"; "396"; "4vs"; "5s3"];
  ["6LQ"; "4yr"; "367"; "an"; "OB"; "0lp"; "bmm"; "76T"; "6oM"; "4Zn"; "15i"; "Br"; "2zO"; "0Ol"; "40J"; "6Aa"; "6SM"; "4fn"; "1Ma"; "2hc"];
  ["2FO"; "07d"; "4HB"; "69i"; "64Y"; "4Er"; "83L"; "d5D"; "7J"; "0Pp"; "bQm"; "a0g"; "456"; "50v"; "1OP"; "8K"; "Ro"; "05U"; "4Js"; "5O3"];
  ["66h"; "4GC"; "08e"; "2IN"; "qs"; "0RA"; "4io"; "7Lm"; "43e"; "6BN"; "oq"; "0LC"; "0bo"; "2WL"; "6lb"; "4YA"; "4Tq"; "5Q1"; "Lm"; "8fG"];
  ["0As"; "bA"; "ael"; "cPO"; "41T"; "ajm"; "1K2"; "0Nr"; "14w"; "Cl"; "6nS"; "5KQ"; "5Fa"; "6cc"; "2XM"; "0mn"; "0CB"; "22i"; "6MO"; "4xl"];
  ["1og"; "2Je"; "65C"; "4Dh"; "4jD"; "7OF"; "6P"; "g9"; "3l9"; "2iy"; "5b4"; "4gt"; "4IX"; "68s"; "QD"; "0rv"; "1mV"; "1x7"; "4S8"; "4FY"];
  ["4hu"; "5m5"; "4a"; "1Cz"; "h8"; "9Q"; "6Pf"; "4eE"; "4Ki"; "7nk"; "Su"; "04O"; "Mw"; "0nE"; "4Uk"; "74a"; "6Nd"; "5kf"; "22"; "21B"];
  ["nk"; "0MY"; "4vw"; "5s7"; "6mx"; "5Hz"; "0cu"; "1f5"; "OF"; "0lt"; "4WZ"; "6by"; "6LU"; "4yv"; "0BX"; "aj"; "lZ"; "0Oh"; "40N"; "6Ae"];
  ["6oI"; "4Zj"; "0aD"; "Bv"; "5f"; "9Ke"; "4ir"; "5l2"; "66u"; "735"; "08x"; "1y0"; "Rr"; "05H"; "4Jn"; "7ol"; "6Qa"; "4dB"; "1OM"; "8V"];
  ["7W"; "0Pm"; "4kC"; "7NA"; "64D"; "4Eo"; "83Q"; "2Kb"; "PC"; "07y"; "b6d"; "69t"; "5c3"; "4fs"; "8TE"; "dRM"; "374"; "22t"; "599"; "4xq"];
  ["bln"; "77W"; "NA"; "0ms"; "14j"; "Cq"; "6nN"; "5KL"; "41I"; "7PC"; "3km"; "0No"; "35"; "20E"; "6Oc"; "5ja"; "4Tl"; "6aO"; "Lp"; "0oB"];
  ["0br"; "1g2"; "78V"; "bco"; "43x"; "568"; "ol"; "385"; "4Kt"; "5N4"; "Sh"; "04R"; "1NW"; "9L"; "441"; "4eX"; "4hh"; "7Mj"; "pt"; "0SF"];
  ["K9"; "2HI"; "67o"; "4FD"; "4IE"; "68n"; "QY"; "0"; "1Lf"; "2id"; "6RJ"; "4gi"; "4jY"; "auh"; "6M"; "0Qw"; "1oz"; "2Jx"; "5A5"; "4Du"];
  ["6oT"; "4Zw"; "0aY"; "Bk"; "lG"; "0Ou"; "40S"; "6Ax"; "6LH"; "4yk"; "0BE"; "aw"; "2YJ"; "0li"; "4WG"; "6bd"; "6me"; "4XF"; "0ch"; "2VK"];
  ["nv"; "0MD"; "42b"; "6CI"; "6Ny"; "7K9"; "1PU"; "cF"; "Mj"; "0nX"; "4Uv"; "5P6"; "66q"; "4GZ"; "1lU"; "1y4"; "5b"; "0RX"; "4iv"; "5l6"];
  ["6Qe"; "4dF"; "1OI"; "8R"; "Rv"; "05L"; "4Jj"; "7oh"; "6pH"; "4Ek"; "1nd"; "2Kf"; "7S"; "0Pi"; "4kG"; "7NE"; "5c7"; "4fw"; "1Mx"; "0H8"];
  ["PG"; "0su"; "5Xz"; "69p"; "4VY"; "4C8"; "NE"; "0mw"; "1Sz"; "22p"; "6MV"; "4xu"; "41M"; "7PG"; "mY"; "x8"; "14n"; "Cu"; "6nJ"; "5KH"];
  ["4Th"; "6aK"; "Lt"; "0oF"; "31"; "bX"; "6Og"; "4zD"; "4wt"; "5r4"; "oh"; "0LZ"; "0bv"; "AD"; "4L9"; "4YX"; "1NS"; "9H"; "445"; "51u"];
  ["4Kp"; "5N0"; "Sl"; "04V"; "09f"; "2HM"; "67k"; "5Va"; "4hl"; "7Mn"; "4x"; "0SB"; "1Lb"; "3yA"; "6RN"; "4gm"; "4IA"; "68j"; "2GL"; "4"];
  ["82O"; "d4G"; "5A1"; "4Dq"; "bPn"; "a1d"; "6I"; "0Qs"; "lC"; "0Oq"; "40W"; "akn"; "6oP"; "4Zs"; "15t"; "Bo"; "2YN"; "0lm"; "4WC"; "76I"];
  ["6LL"; "4yo"; "0BA"; "as"; "nr"; "8DX"; "42f"; "6CM"; "6ma"; "4XB"; "0cl"; "2VO"; "Mn"; "8gD"; "4Ur"; "5P2"; "ado"; "bAm"; "1PQ"; "cB"];
  ["Rz"; "0qH"; "4Jf"; "7od"; "6Qi"; "4dJ"; "i7"; "2jG"; "5n"; "0RT"; "4iz"; "7Lx"; "4R7"; "4GV"; "08p"; "1y8"; "PK"; "07q"; "4HW"; "7mU"];
  ["6SX"; "52R"; "1Mt"; "0H4"; "sW"; "f6"; "4kK"; "7NI"; "64L"; "4Eg"; "1nh"; "2Kj"; "14b"; "Cy"; "6nF"; "5KD"; "41A"; "7PK"; "mU"; "x4"];
  ["0CW"; "0V6"; "591"; "4xy"; "4VU"; "4C4"; "NI"; "19R"; "0bz"; "AH"; "4L5"; "4YT"; "43p"; "560"; "od"; "0LV"; "w5"; "bT"; "6Ok"; "4zH"];
  ["4Td"; "6aG"; "Lx"; "0oJ"; "5xA"; "7Mb"; "4t"; "0SN"; "K1"; "2HA"; "67g"; "4FL"; "b5G"; "aTM"; "0e3"; "04Z"; "8Wf"; "9D"; "449"; "4eP"];
  ["4jQ"; "7OS"; "6E"; "255"; "1or"; "0j2"; "65V"; "cno"; "4IM"; "68f"; "QQ"; "8"; "1Ln"; "2il"; "6RB"; "4ga"; "afR"; "4yc"; "0BM"; "23f"];
  ["OS"; "Z2"; "4WO"; "6bl"; "aEN"; "c4e"; "0aQ"; "Bc"; "lO"; "8Fe"; "4tS"; "4a2"; "4n3"; "5ks"; "8Id"; "cN"; "Mb"; "0nP"; "614"; "74t"];
  ["6mm"; "4XN"; "U3"; "2VC"; "2xo"; "0ML"; "42j"; "6CA"; "6Qm"; "4dN"; "i3"; "8Z"; "2Do"; "05D"; "4Jb"; "aUS"; "4R3"; "4GR"; "08t"; "d7d"];
  ["5j"; "0RP"; "bSM"; "a2G"; "ayN"; "52V"; "1Mp"; "0H0"; "PO"; "07u"; "4HS"; "69x"; "64H"; "4Ec"; "1nl"; "2Kn"; "sS"; "f2"; "4kO"; "7NM"];
  ["41E"; "7PO"; "mQ"; "x0"; "14f"; "2Ul"; "6nB"; "aQ1"; "4VQ"; "4C0"; "NM"; "19V"; "0CS"; "0V2"; "595"; "bBN"; "43t"; "564"; "0Y3"; "0LR"];
  ["16W"; "AL"; "4L1"; "4YP"; "5DA"; "6aC"; "2Zm"; "0oN"; "39"; "bP"; "6Oo"; "4zL"; "K5"; "2HE"; "67c"; "4FH"; "4hd"; "7Mf"; "4p"; "0SJ"];
  ["8Wb"; "2kY"; "4p5"; "4eT"; "4Kx"; "5N8"; "Sd"; "0pV"; "1ov"; "0j6"; "5A9"; "4Dy"; "4jU"; "7OW"; "6A"; "1AZ"; "1Lj"; "2ih"; "6RF"; "4ge"];
  ["4II"; "68b"; "QU"; "D4"; "OW"; "Z6"; "4WK"; "6bh"; "6LD"; "4yg"; "0BI"; "23b"; "lK"; "0Oy"; "4tW"; "4a6"; "6oX"; "5JZ"; "0aU"; "Bg"];
  ["Mf"; "0nT"; "4Uz"; "74p"; "4n7"; "5kw"; "1PY"; "cJ"; "nz"; "0MH"; "42n"; "6CE"; "6mi"; "4XJ"; "U7"; "2VG"; "4MP"; "4X1"; "UL"; "02v"];
  ["0XR"; "0M3"; "a8E"; "57U"; "4nL"; "7KN"; "2X"; "c1"; "1ko"; "2Nm"; "61K"; "5PA"; "4Oa"; "6zB"; "2Al"; "00G"; "l0"; "yQ"; "6Tn"; "4aM"];
  ["58T"; "a7D"; "0i"; "0WS"; "84o"; "ZM"; "4W0"; "4BQ"; "4I2"; "5Lr"; "13T"; "G"; "jc"; "0IQ"; "46w"; "537"; "6Jl"; "5on"; "r2"; "gS"];
  ["3OO"; "0jM"; "4Qc"; "70i"; "6kA"; "5NC"; "0eL"; "2Po"; "hR"; "8Bx"; "44F"; "6Em"; "abO"; "49v"; "0FP"; "eb"; "KN"; "8ad"; "4SR"; "4F3"];
  ["3B"; "0Tx"; "4oV"; "4z7"; "60Q"; "4Az"; "0zT"; "Yf"; "TV"; "A7"; "4LJ"; "6yi"; "6WE"; "4bf"; "0YH"; "zz"; "1s"; "0VI"; "4mg"; "6XD"];
  ["6vh"; "4CK"; "N6"; "2MF"; "Vg"; "0uU"; "6n9"; "7ky"; "4u6"; "5pv"; "1KX"; "xK"; "1UZ"; "fI"; "4k4"; "5nt"; "4Py"; "5U9"; "He"; "0kW"];
  ["P4"; "EU"; "6hj"; "5Mh"; "47m"; "6FF"; "ky"; "0HK"; "0GJ"; "dx"; "6IG"; "48l"; "4RH"; "6gk"; "JT"; "0if"; "0dV"; "Gd"; "5Z8"; "5OY"];
  ["4qT"; "4d5"; "iH"; "0Jz"; "0XV"; "0M7"; "5f8"; "4cx"; "4MT"; "4X5"; "UH"; "02r"; "1kk"; "Xx"; "61O"; "5PE"; "4nH"; "7KJ"; "vT"; "c5"];
  ["l4"; "yU"; "6Tj"; "4aI"; "4Oe"; "6zF"; "Wy"; "00C"; "1iZ"; "ZI"; "4W4"; "4BU"; "4ly"; "5i9"; "0m"; "0WW"; "jg"; "0IU"; "46s"; "533"];
  ["4I6"; "5Lv"; "0gy"; "C"; "3OK"; "0jI"; "4Qg"; "6dD"; "6Jh"; "5oj"; "r6"; "gW"; "hV"; "0Kd"; "44B"; "6Ei"; "6kE"; "5NG"; "0eH"; "Fz"];
  ["KJ"; "0hx"; "4SV"; "4F7"; "6HY"; "49r"; "0FT"; "ef"; "60U"; "ckl"; "0zP"; "Yb"; "3F"; "206"; "4oR"; "4z3"; "6WA"; "4bb"; "0YL"; "2lo"];
  ["TR"; "A3"; "4LN"; "6ym"; "62d"; "4CO"; "N2"; "2MB"; "1w"; "0VM"; "4mc"; "7Ha"; "4u2"; "54z"; "8Re"; "xO"; "Vc"; "01Y"; "b0D"; "aQN"];
  ["647"; "71w"; "Ha"; "0kS"; "8Lg"; "fM"; "4k0"; "5np"; "47i"; "6FB"; "29d"; "0HO"; "P0"; "EQ"; "6hn"; "5Ml"; "4RL"; "6go"; "JP"; "0ib"];
  ["0GN"; "26e"; "6IC"; "48h"; "45X"; "4d1"; "iL"; "8Cf"; "0dR"; "0q3"; "hYt"; "beO"; "4nD"; "7KF"; "2P"; "c9"; "1kg"; "Xt"; "61C"; "5PI"];
  ["4MX"; "4X9"; "UD"; "0vv"; "0XZ"; "2my"; "5f4"; "4ct"; "4lu"; "5i5"; "0a"; "1Gz"; "0yw"; "ZE"; "4W8"; "4BY"; "4Oi"; "6zJ"; "Wu"; "00O"];
  ["l8"; "yY"; "6Tf"; "4aE"; "6Jd"; "5of"; "62"; "25B"; "Iw"; "0jE"; "4Qk"; "6dH"; "6ix"; "5Lz"; "0gu"; "O"; "jk"; "0IY"; "4rw"; "5w7"];
  ["5x6"; "5mW"; "0FX"; "ej"; "KF"; "0ht"; "4SZ"; "6fy"; "6kI"; "5NK"; "0eD"; "Fv"; "hZ"; "93"; "44N"; "6Ee"; "2BO"; "03d"; "4LB"; "6ya"];
  ["6WM"; "4bn"; "1Ia"; "zr"; "3J"; "0Tp"; "bUm"; "a4g"; "5D2"; "4Ar"; "87L"; "Yn"; "Vo"; "01U"; "4Ns"; "5K3"; "416"; "54v"; "1KP"; "xC"];
  ["us"; "0VA"; "4mo"; "6XL"; "62h"; "4CC"; "0xm"; "2MN"; "0fo"; "2SL"; "6hb"; "bgr"; "47e"; "6FN"; "kq"; "0HC"; "0Es"; "fA"; "aal"; "bDn"];
  ["4Pq"; "5U1"; "Hm"; "8bG"; "10w"; "Gl"; "5Z0"; "5OQ"; "45T"; "anm"; "1O2"; "0Jr"; "0GB"; "dp"; "6IO"; "48d"; "5Ba"; "6gc"; "3Ll"; "0in"];
  ["1kc"; "Xp"; "61G"; "5PM"; "bTs"; "7KB"; "2T"; "0Un"; "8QF"; "39T"; "5f0"; "4cp"; "797"; "aRm"; "1s2"; "02z"; "0ys"; "ZA"; "63v"; "766"];
  ["4lq"; "5i1"; "0e"; "9Nf"; "0Zo"; "2oL"; "6Tb"; "4aA"; "4Om"; "6zN"; "Wq"; "00K"; "Is"; "0jA"; "4Qo"; "6dL"; "7ZA"; "5ob"; "66"; "25F"];
  ["jo"; "9Pd"; "4rs"; "5w3"; "aCn"; "bfl"; "0gq"; "K"; "KB"; "0hp"; "bim"; "72T"; "5x2"; "49z"; "327"; "en"; "3nn"; "97"; "44J"; "6Ea"];
  ["6kM"; "5NO"; "11i"; "Fr"; "6WI"; "4bj"; "0YD"; "zv"; "TZ"; "0wh"; "4LF"; "6ye"; "5D6"; "4Av"; "0zX"; "Yj"; "3N"; "0Tt"; "4oZ"; "6Zy"];
  ["412"; "54r"; "1KT"; "xG"; "Vk"; "01Q"; "4Nw"; "5K7"; "62l"; "4CG"; "0xi"; "2MJ"; "uw"; "0VE"; "4mk"; "6XH"; "47a"; "6FJ"; "ku"; "0HG"];
  ["P8"; "EY"; "6hf"; "5Md"; "4Pu"; "5U5"; "Hi"; "8bC"; "0Ew"; "fE"; "4k8"; "5nx"; "45P"; "4d9"; "iD"; "0Jv"; "0dZ"; "Gh"; "5Z4"; "5OU"];
  ["4RD"; "6gg"; "JX"; "0ij"; "0GF"; "dt"; "6IK"; "5lI"; "4Op"; "5J0"; "Wl"; "00V"; "0Zr"; "2oQ"; "405"; "55u"; "4ll"; "6YO"; "0x"; "0WB"];
  ["0yn"; "2LM"; "63k"; "5Ra"; "4MA"; "6xb"; "2CL"; "02g"; "0XC"; "39I"; "6VN"; "4cm"; "bTn"; "a5d"; "2I"; "0Us"; "86O"; "Xm"; "5E1"; "5PP"];
  ["6kP"; "5NR"; "11t"; "Fo"; "hC"; "0Kq"; "44W"; "aon"; "6HL"; "49g"; "0FA"; "es"; "3Mo"; "0hm"; "4SC"; "72I"; "6ia"; "5Lc"; "0gl"; "V"];
  ["jr"; "1Ya"; "46f"; "6GM"; "hyV"; "bEm"; "0Dp"; "gB"; "In"; "8cD"; "4Qr"; "5T2"; "1b"; "0VX"; "4mv"; "5h6"; "62q"; "4CZ"; "0xt"; "2MW"];
  ["Vv"; "01L"; "4Nj"; "7kh"; "6Ue"; "54o"; "1KI"; "xZ"; "3S"; "0Ti"; "4oG"; "6Zd"; "6tH"; "4Ak"; "0zE"; "Yw"; "TG"; "0wu"; "780"; "6yx"];
  ["5g7"; "4bw"; "0YY"; "zk"; "1Wz"; "di"; "5y5"; "5lT"; "4RY"; "4G8"; "JE"; "0iw"; "0dG"; "Gu"; "6jJ"; "5OH"; "45M"; "6Df"; "iY"; "80"];
  ["71"; "fX"; "6Kg"; "5ne"; "4Ph"; "6eK"; "Ht"; "0kF"; "0fv"; "ED"; "4H9"; "5My"; "4st"; "5v4"; "kh"; "0HZ"; "0Zv"; "yD"; "401"; "4aX"];
  ["4Ot"; "5J4"; "Wh"; "00R"; "O9"; "ZX"; "63o"; "4BD"; "4lh"; "6YK"; "tt"; "0WF"; "0XG"; "2md"; "6VJ"; "4ci"; "4ME"; "6xf"; "UY"; "02c"];
  ["1kz"; "Xi"; "5E5"; "5PT"; "4nY"; "aqh"; "2M"; "0Uw"; "hG"; "0Ku"; "44S"; "6Ex"; "6kT"; "5NV"; "0eY"; "Fk"; "3Mk"; "0hi"; "4SG"; "6fd"];
  ["6HH"; "49c"; "0FE"; "ew"; "jv"; "0ID"; "46b"; "6GI"; "6ie"; "5Lg"; "0gh"; "R"; "Ij"; "0jX"; "4Qv"; "5T6"; "6Jy"; "7O9"; "0Dt"; "gF"];
  ["62u"; "775"; "0xp"; "198"; "1f"; "9Oe"; "4mr"; "5h2"; "6Ua"; "54k"; "1KM"; "2nO"; "Vr"; "01H"; "4Nn"; "7kl"; "60D"; "4Ao"; "0zA"; "Ys"];
  ["3W"; "0Tm"; "4oC"; "7JA"; "5g3"; "4bs"; "8PE"; "zo"; "TC"; "03y"; "784"; "aSn"; "bhn"; "73W"; "JA"; "0is"; "334"; "dm"; "5y1"; "48y"];
  ["45I"; "6Db"; "3om"; "84"; "0dC"; "Gq"; "6jN"; "5OL"; "4Pl"; "6eO"; "Hp"; "0kB"; "75"; "24E"; "6Kc"; "5na"; "47x"; "528"; "kl"; "8AF"];
  ["0fr"; "1c2"; "aBm"; "bgo"; "4ld"; "6YG"; "0p"; "0WJ"; "O5"; "ZT"; "63c"; "4BH"; "4Ox"; "5J8"; "Wd"; "0tV"; "0Zz"; "yH"; "4t5"; "4aT"];
  ["4nU"; "7KW"; "2A"; "1EZ"; "1kv"; "Xe"; "5E9"; "5PX"; "4MI"; "6xj"; "UU"; "02o"; "0XK"; "2mh"; "6VF"; "4ce"; "6HD"; "49o"; "0FI"; "27b"];
  ["KW"; "0he"; "4SK"; "6fh"; "6kX"; "5NZ"; "0eU"; "Fg"; "hK"; "0Ky"; "4pW"; "4e6"; "4j7"; "5ow"; "0Dx"; "gJ"; "If"; "0jT"; "4Qz"; "6dY"];
  ["6ii"; "5Lk"; "Q7"; "DV"; "jz"; "0IH"; "46n"; "6GE"; "3PN"; "01D"; "4Nb"; "aQS"; "6Um"; "54g"; "m3"; "xR"; "1j"; "0VP"; "59W"; "a6G"];
  ["4V3"; "4CR"; "85l"; "194"; "TO"; "03u"; "4LS"; "4Y2"; "a9F"; "56V"; "0YQ"; "zc"; "wS"; "b2"; "4oO"; "6Zl"; "60H"; "4Ac"; "0zM"; "2On"];
  ["0dO"; "2Ql"; "6jB"; "aU1"; "45E"; "6Dn"; "iQ"; "88"; "0GS"; "da"; "acL"; "48u"; "4RQ"; "4G0"; "JM"; "94N"; "12W"; "EL"; "4H1"; "5Mq"];
  ["47t"; "524"; "29y"; "0HR"; "79"; "fP"; "6Ko"; "5nm"; "aZ0"; "6eC"; "3NL"; "0kN"; "O1"; "ZP"; "63g"; "4BL"; "58I"; "6YC"; "0t"; "0WN"];
  ["8Sf"; "yL"; "409"; "4aP"; "b1G"; "aPM"; "0a3"; "00Z"; "1kr"; "Xa"; "61V"; "bzN"; "4nQ"; "7KS"; "2E"; "215"; "0XO"; "2ml"; "6VB"; "4ca"];
  ["4MM"; "6xn"; "UQ"; "02k"; "KS"; "0ha"; "4SO"; "6fl"; "7Xa"; "49k"; "0FM"; "27f"; "hO"; "8Be"; "4pS"; "4e2"; "aAN"; "bdL"; "0eQ"; "Fc"];
  ["Ib"; "0jP"; "654"; "70t"; "4j3"; "5os"; "8Md"; "gN"; "28g"; "0IL"; "46j"; "6GA"; "6im"; "5Lo"; "Q3"; "Z"; "6Ui"; "54c"; "m7"; "xV"];
  ["Vz"; "0uH"; "4Nf"; "7kd"; "4V7"; "4CV"; "0xx"; "190"; "1n"; "0VT"; "4mz"; "6XY"; "6WX"; "56R"; "0YU"; "zg"; "TK"; "03q"; "4LW"; "4Y6"];
  ["60L"; "4Ag"; "0zI"; "2Oj"; "wW"; "b6"; "4oK"; "6Zh"; "45A"; "6Dj"; "iU"; "0Jg"; "0dK"; "Gy"; "6jF"; "5OD"; "4RU"; "4G4"; "JI"; "1yZ"];
  ["0GW"; "de"; "5y9"; "48q"; "47p"; "520"; "kd"; "0HV"; "0fz"; "EH"; "4H5"; "5Mu"; "4Pd"; "6eG"; "Hx"; "0kJ"; "s5"; "fT"; "6Kk"; "5ni"];
  ["5Y1"; "5LP"; "13v"; "e"; "jA"; "0Is"; "46U"; "aml"; "6JN"; "5oL"; "0DC"; "gq"; "3Om"; "0jo"; "4QA"; "6db"; "6kc"; "5Na"; "0en"; "2PM"];
  ["hp"; "0KB"; "44d"; "6EO"; "abm"; "49T"; "0Fr"; "1C2"; "Kl"; "8aF"; "4Sp"; "5V0"; "4Mr"; "5H2"; "Un"; "02T"; "0Xp"; "2mS"; "427"; "57w"];
  ["4nn"; "7Kl"; "2z"; "1Ea"; "1kM"; "2NO"; "61i"; "5Pc"; "4OC"; "7jA"; "2AN"; "00e"; "0ZA"; "ys"; "6TL"; "4ao"; "58v"; "a7f"; "0K"; "0Wq"];
  ["84M"; "Zo"; "5G3"; "4Bs"; "0EY"; "fk"; "6KT"; "5nV"; "bjh"; "6ex"; "HG"; "0ku"; "0fE"; "Ew"; "6hH"; "5MJ"; "47O"; "6Fd"; "29B"; "0Hi"];
  ["53"; "dZ"; "6Ie"; "48N"; "4Rj"; "6gI"; "Jv"; "0iD"; "0dt"; "GF"; "6jy"; "7o9"; "4qv"; "5t6"; "ij"; "0JX"; "wh"; "0TZ"; "4ot"; "5j4"];
  ["4T9"; "4AX"; "0zv"; "YD"; "Tt"; "03N"; "4Lh"; "6yK"; "6Wg"; "4bD"; "o9"; "zX"; "1Q"; "0Vk"; "4mE"; "6Xf"; "62B"; "4Ci"; "0xG"; "2Md"];
  ["VE"; "0uw"; "4NY"; "aQh"; "5e5"; "5pT"; "1Kz"; "xi"; "jE"; "0Iw"; "46Q"; "4g8"; "5Y5"; "5LT"; "13r"; "a"; "IY"; "0jk"; "4QE"; "6df"];
  ["6JJ"; "5oH"; "0DG"; "gu"; "ht"; "0KF"; "4ph"; "6EK"; "6kg"; "5Ne"; "S9"; "FX"; "Kh"; "0hZ"; "4St"; "5V4"; "4h9"; "49P"; "0Fv"; "eD"];
  ["0Xt"; "2mW"; "423"; "4cZ"; "4Mv"; "5H6"; "Uj"; "02P"; "1kI"; "XZ"; "61m"; "5Pg"; "4nj"; "7Kh"; "vv"; "0UD"; "0ZE"; "yw"; "6TH"; "4ak"];
  ["4OG"; "6zd"; "2AJ"; "00a"; "0yY"; "Zk"; "5G7"; "4Bw"; "58r"; "6Yx"; "0O"; "0Wu"; "bjl"; "71U"; "HC"; "0kq"; "316"; "fo"; "6KP"; "5nR"];
  ["47K"; "7VA"; "29F"; "0Hm"; "0fA"; "Es"; "6hL"; "5MN"; "4Rn"; "6gM"; "Jr"; "1ya"; "57"; "26G"; "6Ia"; "48J"; "45z"; "5t2"; "in"; "8CD"];
  ["0dp"; "GB"; "hYV"; "bem"; "60w"; "757"; "0zr"; "2OQ"; "3d"; "9Mg"; "4op"; "5j0"; "6Wc"; "56i"; "0Yn"; "2lM"; "Tp"; "03J"; "4Ll"; "6yO"];
  ["62F"; "4Cm"; "0xC"; "dwS"; "1U"; "0Vo"; "4mA"; "6Xb"; "5e1"; "54X"; "8RG"; "xm"; "VA"; "0us"; "b0f"; "aQl"; "6JF"; "5oD"; "0DK"; "gy"];
  ["IU"; "0jg"; "4QI"; "6dj"; "5Y9"; "5LX"; "0gW"; "m"; "jI"; "1YZ"; "4rU"; "4g4"; "4h5"; "5mu"; "0Fz"; "eH"; "Kd"; "0hV"; "4Sx"; "5V8"];
  ["6kk"; "5Ni"; "S5"; "FT"; "hx"; "0KJ"; "44l"; "6EG"; "4nf"; "7Kd"; "2r"; "0UH"; "M7"; "XV"; "61a"; "5Pk"; "4Mz"; "6xY"; "Uf"; "0vT"];
  ["0Xx"; "39r"; "4v7"; "4cV"; "4lW"; "4y6"; "0C"; "0Wy"; "0yU"; "Zg"; "63P"; "5RZ"; "4OK"; "6zh"; "WW"; "B6"; "0ZI"; "2oj"; "6TD"; "4ag"];
  ["0fM"; "2Sn"; "7xa"; "5MB"; "47G"; "6Fl"; "kS"; "0Ha"; "0EQ"; "fc"; "aaN"; "bDL"; "4PS"; "4E2"; "HO"; "8be"; "10U"; "GN"; "4J3"; "5Os"];
  ["45v"; "506"; "ib"; "0JP"; "q3"; "dR"; "6Im"; "48F"; "4Rb"; "6gA"; "3LN"; "0iL"; "2Bm"; "03F"; "aF0"; "6yC"; "6Wo"; "4bL"; "o1"; "zP"];
  ["3h"; "0TR"; "bUO"; "a4E"; "4T1"; "4AP"; "87n"; "YL"; "VM"; "01w"; "4NQ"; "7kS"; "hfu"; "54T"; "1Kr"; "xa"; "1Y"; "0Vc"; "4mM"; "6Xn"];
  ["62J"; "4Ca"; "0xO"; "2Ml"; "IQ"; "0jc"; "4QM"; "6dn"; "6JB"; "a19"; "0DO"; "25d"; "jM"; "9PF"; "46Y"; "4g0"; "aCL"; "687"; "0gS"; "i"];
  ["3MP"; "0hR"; "676"; "72v"; "4h1"; "49X"; "8Of"; "eL"; "3nL"; "0KN"; "44h"; "6EC"; "6ko"; "5Nm"; "S1"; "FP"; "M3"; "XR"; "61e"; "5Po"];
  ["4nb"; "aqS"; "2v"; "0UL"; "8Qd"; "39v"; "4v3"; "4cR"; "b3E"; "aRO"; "Ub"; "02X"; "0yQ"; "Zc"; "63T"; "bxL"; "4lS"; "4y2"; "0G"; "237"];
  ["0ZM"; "2on"; "7Da"; "4ac"; "4OO"; "6zl"; "WS"; "B2"; "47C"; "6Fh"; "kW"; "0He"; "0fI"; "2Sj"; "6hD"; "5MF"; "4PW"; "4E6"; "HK"; "0ky"];
  ["0EU"; "fg"; "6KX"; "5nZ"; "45r"; "502"; "if"; "0JT"; "0dx"; "GJ"; "4J7"; "5Ow"; "4Rf"; "6gE"; "Jz"; "0iH"; "q7"; "dV"; "6Ii"; "48B"];
  ["6Wk"; "4bH"; "o5"; "zT"; "Tx"; "03B"; "4Ld"; "6yG"; "4T5"; "4AT"; "0zz"; "YH"; "3l"; "0TV"; "4ox"; "5j8"; "5e9"; "54P"; "1Kv"; "xe"];
  ["VI"; "01s"; "4NU"; "7kW"; "62N"; "4Ce"; "0xK"; "2Mh"; "uU"; "0Vg"; "4mI"; "6Xj"; "4K0"; "5Np"; "11V"; "FM"; "ha"; "0KS"; "44u"; "515"];
  ["6Hn"; "49E"; "48"; "eQ"; "3MM"; "0hO"; "4Sa"; "6fB"; "6iC"; "5LA"; "0gN"; "t"; "jP"; "0Ib"; "46D"; "6Go"; "hyt"; "bEO"; "0DR"; "0Q3"];
  ["IL"; "8cf"; "4QP"; "4D1"; "4OR"; "4Z3"; "WN"; "00t"; "0ZP"; "yb"; "hgv"; "55W"; "4lN"; "6Ym"; "0Z"; "a3"; "0yL"; "2Lo"; "63I"; "4Bb"];
  ["4Mc"; "7ha"; "2Cn"; "02E"; "n2"; "2mB"; "6Vl"; "4cO"; "bTL"; "a5F"; "2k"; "0UQ"; "86m"; "XO"; "4U2"; "5Pr"; "0Gy"; "dK"; "4i6"; "5lv"];
  ["5BZ"; "6gX"; "Jg"; "0iU"; "R6"; "GW"; "6jh"; "5Oj"; "45o"; "6DD"; "3oK"; "0JI"; "0EH"; "fz"; "6KE"; "5nG"; "4PJ"; "6ei"; "HV"; "0kd"];
  ["0fT"; "Ef"; "6hY"; "690"; "4sV"; "4f7"; "kJ"; "0Hx"; "uH"; "0Vz"; "4mT"; "4x5"; "5F8"; "4Cx"; "0xV"; "0m7"; "VT"; "C5"; "4NH"; "7kJ"];
  ["6UG"; "54M"; "1Kk"; "xx"; "3q"; "0TK"; "4oe"; "6ZF"; "60b"; "4AI"; "L4"; "YU"; "Te"; "0wW"; "4Ly"; "5I9"; "4w4"; "4bU"; "1IZ"; "zI"];
  ["he"; "0KW"; "44q"; "511"; "4K4"; "5Nt"; "11R"; "FI"; "Ky"; "0hK"; "4Se"; "6fF"; "6Hj"; "49A"; "p4"; "eU"; "jT"; "0If"; "4rH"; "6Gk"];
  ["6iG"; "5LE"; "0gJ"; "p"; "IH"; "0jz"; "4QT"; "4D5"; "5z8"; "5oY"; "0DV"; "gd"; "0ZT"; "yf"; "6TY"; "4az"; "4OV"; "4Z7"; "WJ"; "00p"];
  ["0yH"; "Zz"; "63M"; "4Bf"; "4lJ"; "6Yi"; "tV"; "a7"; "n6"; "2mF"; "6Vh"; "4cK"; "4Mg"; "6xD"; "2Cj"; "02A"; "1kX"; "XK"; "4U6"; "5Pv"];
  ["6N9"; "7Ky"; "2o"; "0UU"; "665"; "73u"; "Jc"; "0iQ"; "8Ne"; "dO"; "4i2"; "5lr"; "45k"; "7Ta"; "3oO"; "0JM"; "R2"; "GS"; "6jl"; "5On"];
  ["4PN"; "6em"; "HR"; "8bx"; "0EL"; "24g"; "6KA"; "5nC"; "47Z"; "4f3"; "kN"; "8Ad"; "0fP"; "Eb"; "aBO"; "694"; "62W"; "byO"; "0xR"; "0m3"];
  ["1D"; "224"; "4mP"; "4x1"; "6UC"; "54I"; "1Ko"; "2nm"; "VP"; "C1"; "4NL"; "7kN"; "60f"; "4AM"; "L0"; "YQ"; "3u"; "0TO"; "4oa"; "6ZB"];
  ["438"; "4bQ"; "8Pg"; "zM"; "Ta"; "0wS"; "b2F"; "aSL"; "6Hf"; "49M"; "40"; "eY"; "Ku"; "0hG"; "4Si"; "6fJ"; "4K8"; "5Nx"; "0ew"; "FE"];
  ["hi"; "8BC"; "4pu"; "5u5"; "5z4"; "5oU"; "0DZ"; "gh"; "ID"; "0jv"; "4QX"; "4D9"; "6iK"; "5LI"; "0gF"; "Dt"; "jX"; "0Ij"; "46L"; "6Gg"];
  ["4lF"; "6Ye"; "0R"; "0Wh"; "0yD"; "Zv"; "63A"; "4Bj"; "4OZ"; "6zy"; "WF"; "0tt"; "0ZX"; "yj"; "5d6"; "4av"; "4nw"; "5k7"; "2c"; "0UY"];
  ["1kT"; "XG"; "61p"; "5Pz"; "4Mk"; "6xH"; "Uw"; "02M"; "0Xi"; "2mJ"; "6Vd"; "4cG"; "0dm"; "2QN"; "7zA"; "5Ob"; "45g"; "6DL"; "is"; "0JA"];
  ["0Gq"; "dC"; "acn"; "48W"; "4Rs"; "5W3"; "Jo"; "94l"; "12u"; "En"; "5X2"; "5MS"; "47V"; "alo"; "kB"; "0Hp"; "1Ua"; "fr"; "6KM"; "5nO"];
  ["4PB"; "6ea"; "3Nn"; "0kl"; "3Pl"; "01f"; "bts"; "7kB"; "6UO"; "54E"; "1Kc"; "xp"; "1H"; "0Vr"; "59u"; "a6e"; "5F0"; "4Cp"; "85N"; "d3F"];
  ["Tm"; "03W"; "4Lq"; "5I1"; "434"; "56t"; "0Ys"; "zA"; "3y"; "0TC"; "4om"; "6ZN"; "60j"; "4AA"; "0zo"; "2OL"; "Kq"; "0hC"; "4Sm"; "6fN"];
  ["6Hb"; "49I"; "44"; "27D"; "hm"; "8BG"; "44y"; "519"; "aAl"; "bdn"; "0es"; "FA"; "1o2"; "0jr"; "bko"; "70V"; "5z0"; "5oQ"; "305"; "gl"];
  ["28E"; "0In"; "46H"; "6Gc"; "6iO"; "5LM"; "0gB"; "x"; "1ia"; "Zr"; "63E"; "4Bn"; "4lB"; "6Ya"; "0V"; "0Wl"; "8SD"; "yn"; "5d2"; "4ar"];
  ["b1e"; "aPo"; "WB"; "00x"; "1kP"; "XC"; "61t"; "744"; "4ns"; "5k3"; "2g"; "9Ld"; "0Xm"; "2mN"; "7FA"; "4cC"; "4Mo"; "6xL"; "Us"; "02I"];
  ["45c"; "6DH"; "iw"; "0JE"; "0di"; "2QJ"; "6jd"; "5Of"; "4Rw"; "5W7"; "Jk"; "0iY"; "0Gu"; "dG"; "6Ix"; "48S"; "47R"; "6Fy"; "kF"; "0Ht"];
  ["0fX"; "Ej"; "5X6"; "5MW"; "4PF"; "6ee"; "HZ"; "0kh"; "0ED"; "fv"; "6KI"; "5nK"; "6UK"; "54A"; "1Kg"; "xt"; "VX"; "C9"; "4ND"; "7kF"];
  ["5F4"; "4Ct"; "0xZ"; "2My"; "1L"; "0Vv"; "4mX"; "4x9"; "430"; "4bY"; "0Yw"; "zE"; "Ti"; "03S"; "4Lu"; "5I5"; "60n"; "4AE"; "L8"; "YY"];
  ["wu"; "0TG"; "4oi"; "6ZJ"]].

(** ** The slot of a key *)

(** CRC-16/XMODEM: the remainder by the polynomial 11021 (hexadecimal), from 0,
    the highest bit of each byte first. *)
Definition crc16_round (crc : N) : N :=
  let d := N.double crc in if (d <? 65536)%N then d else N.lxor d 69665.

Definition crc16_byte (crc : N) (c : ascii) : N := Nat.iter 8 crc16_round (N.lxor crc (N.shiftl (N_of_ascii c) 8)).

Fixpoint crc16 (crc : N) (s : string) : N :=
  match s with EmptyString => crc | String c s => crc16 (crc16_byte crc c) s end.

(** The check value that the specification gives. *)
Example crc16_check : crc16 0 "123456789" = 12739%N.
Proof. reflexivity. Qed.

(** Of a key without braces. *)
Definition key_slot (s : string) : N := N.modulo (crc16 0 s) 16384.

Definition is_between (lo hi : ascii) (c : ascii) : bool := ((N_of_ascii lo <=? N_of_ascii c) && (N_of_ascii c <=? N_of_ascii hi))%N.

Definition is_alphanumeric (c : ascii) : bool := is_between "0" "9" c || is_between "a" "z" c || is_between "A" "Z" c.

Fixpoint alphanumeric (s : string) : bool :=
  match s with EmptyString => true | String c s => is_alphanumeric c && alphanumeric s end.

(** All the alphanumeric strings of a length. *)
Definition alphabet : list ascii :=
  String.list_ascii_of_string "0123456789abcdefghijklmnopqrstuvwxyzABCDEFGHIJKLMNOPQRSTUVWXYZ".

Fixpoint words (n : nat) : list string :=
  match n with
  | O => [""]
  | Datatypes.S n => flat_map (fun c => map (String c) (words n)) alphabet
  end.

Lemma alphabet_all c : is_alphanumeric c = true -> In c alphabet.
Proof. destruct c as [[] [] [] [] [] [] [] []]; try (intros; discriminate); intros _; cbn; tauto. Qed.

Lemma words_all s : alphanumeric s = true -> In s (words (String.length s)).
Proof.
  induction s as [|c s IH]; cbn [String.length words alphanumeric]; [by left|].
  intros [Hc Hs]%andb_prop. apply in_flat_map. exists c. split; [by apply alphabet_all|]. apply in_map, IH, Hs.
Qed.

(** ** The checks, by computation *)

(** The least length of the strings of a list, by their slots. *)
Definition note_length (t : string) (m : Pmap nat) : Pmap nat :=
  partial_alter (fun o => Some match o with Some n => Nat.min n (String.length t) | None => String.length t end) (N.succ_pos (key_slot t)) m.

Definition least_lengths (l : list string) : Pmap nat := fold_right note_length ∅ l.

(** An entry belongs to its slot, has one to three letters and digits, and is not
    longer than what was noted. *)
Definition entry_ok (m : Pmap nat) (i : N) (s : string) : bool :=
  (key_slot s =? i)%N && alphanumeric s && (0 <? String.length s)%nat && (String.length s <=? 3)%nat &&
  match m !! N.succ_pos i with Some n => (String.length s <=? n)%nat | None => true end.

Fixpoint entries_ok (m : Pmap nat) (i : N) (l : list string) : bool :=
  match l with [] => true | s :: l => entry_ok m i s && entries_ok m (N.succ i) l end.

Lemma least_lengths_spec l t :
  In t l -> exists n, least_lengths l !! N.succ_pos (key_slot t) = Some n /\ (n <= String.length t)%nat.
Proof.
  induction l as [|u l IH]; [done|]. cbn [least_lengths fold_right]. fold (least_lengths l). unfold note_length.
  destruct (decide (N.succ_pos (key_slot u) = N.succ_pos (key_slot t))) as [->|Hne].
  - rewrite lookup_partial_alter_eq. intros [<-|Hin].
    + destruct (least_lengths l !! _); eexists; split; [done|lia|done|lia].
    + destruct (IH Hin) as (n & -> & Hn). eexists. split; [done|lia].
  - rewrite lookup_partial_alter_ne by done. intros [<-|Hin]; [done|by apply IH].
Qed.

Lemma entries_ok_lookup m l i k s : entries_ok m i l = true -> l !! k = Some s -> entry_ok m (i + N.of_nat k) s = true.
Proof.
  revert i k. induction l as [|t l IH]; intros i k; [done|]. cbn [entries_ok]. intros [He Hl]%andb_prop.
  destruct k as [|k]; cbn [lookup list_lookup].
  - intros [= <-]. by rewrite N.add_0_r.
  - intros Hk. replace (i + N.of_nat (Datatypes.S k))%N with (N.succ i + N.of_nat k)%N by lia. by apply IH.
Qed.

Lemma entry_ok_spec l i s :
  (forall t, alphanumeric t = true -> (0 < String.length t < 3)%nat -> In t l) ->
  entry_ok (least_lengths l) i s = true ->
  key_slot s = i /\ alphanumeric s = true /\ s <> "" /\
  forall t, alphanumeric t = true -> t <> "" -> key_slot t = i -> (String.length s <= String.length t)%nat.
Proof.
  unfold entry_ok. intros Hall [[[[H1%N.eqb_eq H2]%andb_prop H3%Nat.ltb_lt]%andb_prop H4%Nat.leb_le]%andb_prop H5]%andb_prop.
  split; [done|]. split; [done|]. split; [by intros ->; cbn in H3; lia|]. intros t Ht Hne Hk.
  destruct (decide (String.length t < 3)%nat) as [Hlt|]; [|lia].
  assert (0 < String.length t)%nat by (destruct t; [done|cbn; lia]).
  destruct (least_lengths_spec l t) as (n & Hn & Hle); [by apply Hall|]. rewrite Hk in Hn. rewrite Hn in H5. apply Nat.leb_le in H5. lia.
Qed.

Lemma short_words t : alphanumeric t = true -> (0 < String.length t < 3)%nat -> In t (words 1 ++ words 2).
Proof.
  intros Ha%words_all Hl. apply in_app_iff. destruct t as [|c [|d [|]]]; cbn in Hl; [lia|by left|by right|lia].
Qed.

Lemma SlotTable_entries : entries_ok (least_lengths (words 1 ++ words 2)) 0 SlotTable = true.
Proof. vm_compute. reflexivity. Qed.

Lemma SlotTable_length : length SlotTable = N.to_nat 16384.
Proof. vm_compute. reflexivity. Qed.

(** C39. The table of slots is what it says.  It has an entry for each of the 16384
    slots; every entry is a string of letters and digits whose checksum, as Redis
    Cluster computes it, is that slot; and no string of letters and digits that
    belongs to the slot is shorter. *)
Theorem SlotTable_correct i :
  (i < 16384)%N ->
  exists s, SlotTable !! N.to_nat i = Some s /\ key_slot s = i /\ alphanumeric s = true /\ s <> "" /\
    forall t, alphanumeric t = true -> t <> "" -> key_slot t = i -> (String.length s <= String.length t)%nat.
Proof.
  intros Hi. destruct (lookup_lt_is_Some_2 SlotTable (N.to_nat i)) as [s Hs]; [rewrite SlotTable_length; lia|].
  pose proof (entries_ok_lookup _ _ _ _ _ SlotTable_entries Hs) as He. rewrite N.add_0_l, N2Nat.id in He.
  exists s. split; [done|]. by apply (entry_ok_spec (words 1 ++ words 2)); [apply short_words|].
Qed.

Lemma SlotTable_correct_witness :
  exists s, SlotTable !! N.to_nat 12182 = Some s /\ key_slot s = 12182%N.
Proof. destruct (SlotTable_correct 12182 eq_refl) as (s & H1 & H2 & _). exists s. split; [exact H1|exact H2]. Defined.
