(* ===== verification/GoElect.v ===== *)
(** * Elections (store/engine/: etcd, zookeeper, consul, postgresql)

    How a process of the controller learns of the leader: the goroutines of each
    engine that campaign for the lock of the service and watch who holds it, as
    step relations over the places where these goroutines wait.  What an engine
    promises to the controller is an interface, [Elector]; the theorems about
    processes are proved against it.  Services and their clients are not under
    src/: their answers are free, so any interleaving and any failure is covered. *)

From S2P Require Import Prelude JsString JsNumber JsValue Effects Api Slots GoShard GoCluster GoJson GoEngine GoStore.
From S2P Require Import GoController GoServer GoLeader.

(** ** What an engine shows *)

(** A step of an engine that others see: the service names the holder of the lock,
    or says that nobody holds it; the controller is told of a change, on a channel
    without a buffer, so that both take this step; or the engine is closed. *)
Inductive elabel := Tau | Sees (holder : option string) | Tells (b : bool) | Quits.

Definition quiet (l : elabel) : Prop := match l with Tells _ => False | _ => True end.

(** [el_owes] is what an engine is about to tell. *)
Class Elector (S : Type) := {
  el_start : S -> Prop;
  el_step : elabel -> S -> S -> Prop;
  el_leader : S -> string;
  el_owes : S -> option bool }.

Class ElectorLaws (S : Type) `{Elector S} := {
  el_starts s : el_start s -> el_owes s = None;
  el_quiet l s s' : el_step l s s' -> quiet l ->
    (el_leader s' = el_leader s /\ el_owes s' = el_owes s) \/ (el_owes s = None /\ is_Some (el_owes s'));
  el_tells b s s' : el_step (Tells b) s s' -> el_owes s = Some b /\ el_owes s' = None /\ el_leader s' = el_leader s;
  el_can_tell b s : el_owes s = Some b -> exists s', el_step (Tells b) s s';
  el_sees v s s' : el_step (Sees (Some v)) s s' -> v <> "" -> el_leader s' = v;
  el_keeps l s s' : el_step l s s' -> (forall v, l <> Sees (Some v)) -> el_leader s' = el_leader s }.

(** ** etcd (store/engine/etcd/etcd.go) *)

Module Etcd.
(** Where [electLoop] is: at the head of the loop, creating a session, handing
    the election over, campaigning, leading, returned. *)
Inductive etcd_elect := Top | Session | Offer | Campaign | Hold | Left.

(** Where [observeLeaderEvent] is: before its first election, watching, telling,
    returned. *)
Inductive etcd_observe := First | Watch | Tell (b : bool) | Gone.

Record etcd_state := St { leaderID : string; isReady : bool; quit : bool; electing : etcd_elect; observing : etcd_observe }.

Inductive etcd_start : etcd_state -> Prop := start_intro : etcd_start (St "" false false Top First).

(** The head of the loop looks at [quitCh] without waiting; after [reset] it is
    not looked at again. *)
Inductive etcd_step : elabel -> etcd_state -> etcd_state -> Prop :=
| top_quit v r o : etcd_step Tau (St v r true Top o) (St v r true Left o)
| top_go v r o : etcd_step Tau (St v r false Top o) (St v r false Session o)
| session_failed v r q o : etcd_step Tau (St v r q Session o) (St v r q Top o)
| session_created v r q o : etcd_step Tau (St v r q Session o) (St v r q Offer o)
| offer_first v r q : etcd_step Tau (St v r q Offer First) (St v r q Campaign Watch)
| offer_next v r q : etcd_step Tau (St v r q Offer Watch) (St v r q Campaign Watch)
| campaign_failed v r q o : etcd_step Tau (St v r q Campaign o) (St v r q Campaign o)
| campaign_won v r q o : etcd_step Tau (St v r q Campaign o) (St v r q Hold o)
| session_done v r q o : etcd_step Tau (St v r q Hold o) (St v r q Session o)
| hold_quit v r o : etcd_step Tau (St v r true Hold o) (St v r true Left o)
| first_quit v r e : etcd_step Tau (St v r true e First) (St v r true e Gone)
| watch_leader v r q e v' : etcd_step (Sees (Some v')) (St v r q e Watch) (St v' true q e (Tell true))
| watch_ended v r q e : etcd_step (Sees None) (St v r q e Watch) (St v true q e (Tell false))
| watch_quit v r e : etcd_step Tau (St v r true e Watch) (St v r true e Gone)
| tell v r q e b : etcd_step (Tells b) (St v r q e (Tell b)) (St v r q e Watch)
| close v r e o : etcd_step Quits (St v r false e o) (St v r true e o).

Definition etcd_owes (s : etcd_state) : option bool := match observing s with Tell b => Some b | _ => None end.
End Etcd.

#[global] Instance etcd_elector : Elector Etcd.etcd_state :=
  {| el_start := Etcd.etcd_start; el_step := Etcd.etcd_step; el_leader := Etcd.leaderID; el_owes := Etcd.etcd_owes |}.

(** ** zookeeper (store/engine/zookeeper/zookeeper.go) *)

Module Zk.
(** Where [electLoop] is: at [reset], creating the node, reading it, in the send
    of [SetleaderID], watching, returned. *)
Inductive zk_elect := Restart | Create | Read | Tell | Watch | Left.

Record zk_state := St { leaderID : string; isReady : bool; quit : bool; electing : zk_elect }.

Inductive zk_start : zk_state -> Prop := start_intro : zk_start (St "" false false Restart).

(** [SetleaderID] up to its send, and whether it sends. *)
Definition SetleaderID (newLeaderID : string) (leaderID : string) (isReady : bool) : string * bool * bool :=
  if negb (String.eqb newLeaderID "") && negb (String.eqb newLeaderID leaderID)
  then (newLeaderID, true, true) else (leaderID, isReady, false).

Definition after_read (v : string) (s : zk_state) : zk_state :=
  let '(leader, ready, sends) := SetleaderID v (leaderID s) (isReady s) in
  St leader ready (quit s) (if sends then Tell else Watch).

Inductive zk_step : elabel -> zk_state -> zk_state -> Prop :=
| reset_quit v r : zk_step Tau (St v r true Restart) (St v r true Left)
| reset_go v r : zk_step Tau (St v r false Restart) (St v r false Create)
| create_failed v r q : zk_step Tau (St v r q Create) (St v r q Restart)
| created v r q : zk_step Tau (St v r q Create) (St v r q Read)
| read_failed v r q : zk_step Tau (St v r q Read) (St v r q Restart)
| read v r q v' : zk_step (Sees (Some v')) (St v r q Read) (after_read v' (St v r q Read))
| tell v r q : zk_step (Tells true) (St v r q Tell) (St v r q Watch)
| node_deleted v r q : zk_step Tau (St v r q Watch) (St v r q Create)
| node_changed v r q : zk_step Tau (St v r q Watch) (St v r q Read)
| watch_quit v r : zk_step Tau (St v r true Watch) (St v r true Left)
| close v r e : zk_step Quits (St v r false e) (St v r true e).

Definition zk_owes (s : zk_state) : option bool := match electing s with Tell => Some true | _ => None end.
End Zk.

#[global] Instance zk_elector : Elector Zk.zk_state :=
  {| el_start := Zk.zk_start; el_step := Zk.zk_step; el_leader := Zk.leaderID; el_owes := Zk.zk_owes |}.

(** ** consul (store/engine/consul/consul.go) *)

Module Consul.
(** Where [electLoop] and [leaderElection] are. *)
Inductive consul_elect := Top | Session | Acquire | Wait | Left.

(** Where [runWatch] is: in the watch plan, in a send of [watchHandler], returned. *)
Inductive consul_watch := Plan | Tell | Release | Stopped.

(** What the plan gives to [watchHandler]: nothing, a pair, or something else. *)
Inductive watched := WNil | WPair (session value : string) | WOther.

Record consul_state := St { leaderID : string; isReady : bool; quit : bool; electing : consul_elect; watching : consul_watch }.

Inductive consul_start : consul_state -> Prop := start_intro : consul_start (St "" false false Top Plan).

(** [watchHandler] up to its send. *)
Definition watchHandler (data : watched) (s : consul_state) : consul_state :=
  match data with
  | WNil => s
  | WOther => St (leaderID s) true (quit s) (electing s) (watching s)
  | WPair session value =>
      if String.eqb session "" then St (leaderID s) true (quit s) (electing s) Release
      else St value true (quit s) (electing s) Tell
  end.

Definition seen (data : watched) : elabel :=
  match data with
  | WPair session value => Sees (if String.eqb session "" then None else Some value)
  | _ => Tau
  end.

Inductive consul_step : elabel -> consul_state -> consul_state -> Prop :=
| top_quit v r w : consul_step Tau (St v r true Top w) (St v r true Left w)
| top_go v r w : consul_step Tau (St v r false Top w) (St v r false Session w)
| session_failed v r q w : consul_step Tau (St v r q Session w) (St v r q Top w)
| session_created v r q w : consul_step Tau (St v r q Session w) (St v r q Acquire w)
| acquire_failed v r q w : consul_step Tau (St v r q Acquire w) (St v r q Acquire w)
| acquire_answered v r q w (acquired : bool) : consul_step Tau (St v r q Acquire w) (St v r q Wait w)
| lock_released v r q : consul_step Tau (St v r q Wait Release) (St v r q Top Plan)
| wait_quit v r w : consul_step Tau (St v r true Wait w) (St v r true Left w)
| handle v r q e data : consul_step (seen data) (St v r q e Plan) (watchHandler data (St v r q e Plan))
| tell v r q e : consul_step (Tells true) (St v r q e Tell) (St v r q e Plan)
| plan_failed v r q e : consul_step Tau (St v r q e Plan) (St v r q e Stopped)
| close v r e w : consul_step Quits (St v r false e w) (St v r true e w).

Definition consul_owes (s : consul_state) : option bool := match watching s with Tell => Some true | _ => None end.
End Consul.

#[global] Instance consul_elector : Elector Consul.consul_state :=
  {| el_start := Consul.consul_start; el_step := Consul.consul_step; el_leader := Consul.leaderID; el_owes := Consul.consul_owes |}.

(** ** postgresql (store/engine/postgresql/postgresql.go) *)

Module Pg.
(** Where [electLoop] is. *)
Inductive pg_elect := Top | Insert | Wait | Left.

(** Where [observeLeaderEvent] is. *)
Inductive pg_observe := Listen | Tell | Release | Gone.

(** A panic of a goroutine ends the process. *)
Inductive pg_state :=
| St (leaderID : string) (isReady quit : bool) (electing : pg_elect) (observing : pg_observe)
| Crashed (leaderID : string).

Definition leaderID (s : pg_state) : string := match s with St v _ _ _ _ | Crashed v => v end.

(** The leader at the start: the row of the lock, or none. *)
Definition initLeaderId (row : go_error + option string) : go_error + string :=
  match row with
  | inr (Some leaderId) => inr leaderId
  | inr None => inr ""
  | inl err => inl err
  end.

Inductive pg_start : pg_state -> Prop :=
  start_intro row leader : initLeaderId row = inr leader -> pg_start (St leader false false Top Listen).

(** A notification up to the send, with what it says of the lock.  The listener
    gives no notification, a null pointer, when it had to connect again. *)
Definition notified (notification : option string) (v : string) (q : bool) (e : pg_elect) : elabel * pg_state :=
  match notification with
  | None => (Tau, Crashed v)
  | Some extra =>
      match cut ":" extra with
      | None => (Tau, Crashed v)
      | Some (operation, leaderID) =>
          if String.eqb operation "INSERT" then (Sees (Some leaderID), St leaderID true q e Tell)
          else (Sees None, St v true q e Release)
      end
  end.

Inductive pg_step : elabel -> pg_state -> pg_state -> Prop :=
| top_quit v r o : pg_step Tau (St v r true Top o) (St v r true Left o)
| top_go v r o : pg_step Tau (St v r false Top o) (St v r false Insert o)
| insert_failed v r q o : pg_step Tau (St v r q Insert o) (St v r q Top o)
| inserted v r q o : pg_step Tau (St v r q Insert o) (St v r q Wait o)
| lock_released v r q : pg_step Tau (St v r q Wait Release) (St v r q Top Listen)
| wait_quit v r o : pg_step Tau (St v r true Wait o) (St v r true Left o)
| notify n v r q e l s : notified n v q e = (l, s) -> pg_step l (St v r q e Listen) s
| tell v r q e : pg_step (Tells true) (St v r q e Tell) (St v r q e Listen)
| listen_quit v r e : pg_step Tau (St v r true e Listen) (St v r true e Gone)
| close v r e o : pg_step Quits (St v r false e o) (St v r true e o).

Definition pg_owes (s : pg_state) : option bool := match s with St _ _ _ _ Tell => Some true | _ => None end.
End Pg.

#[global] Instance pg_elector : Elector Pg.pg_state :=
  {| el_start := Pg.pg_start; el_step := Pg.pg_step; el_leader := Pg.leaderID; el_owes := Pg.pg_owes |}.

(** ** The engines keep their promises *)

(** Every law by inspection of the steps, which do not call one another. *)
Ltac solve_steps :=
  intros; cbn in *;
  repeat match goal with
    | H : Etcd.etcd_start _ |- _ => inversion H; clear H; subst
    | H : Zk.zk_start _ |- _ => inversion H; clear H; subst
    | H : Consul.consul_start _ |- _ => inversion H; clear H; subst
    | H : Pg.pg_start _ |- _ => inversion H; clear H; subst
    | H : Etcd.etcd_step _ _ _ |- _ => inversion H; clear H; subst
    | H : Zk.zk_step _ _ _ |- _ => inversion H; clear H; subst
    | H : Consul.consul_step _ _ _ |- _ => inversion H; clear H; subst
    | H : Pg.pg_step _ _ _ |- _ => inversion H; clear H; subst
    | d : Consul.watched |- _ => destruct d; cbn in *
    | H : context[Pg.notified ?n _ _ _] |- _ => unfold Pg.notified in H; repeat case_match; simplify_eq
    end;
  cbn in *; repeat case_match; cbn in *; simplify_eq/=;
  try match goal with H : forall v, Sees (Some ?w) <> Sees (Some v) |- _ => by destruct (H w) end;
  eauto; try done; try (by eexists; constructor).

#[global] Instance etcd_elector_laws : ElectorLaws Etcd.etcd_state.
Proof. split; try solve [solve_steps]. intros b [v r q e []] Ho; cbn in *; simplify_eq. eexists. constructor. Qed.

#[global] Instance zk_elector_laws : ElectorLaws Zk.zk_state.
Proof.
  split; try solve [solve_steps].
  - intros l s s' Hs Hq. inversion Hs; subst; try (by left); try done. cbn. unfold Zk.after_read, Zk.SetleaderID. cbn. destruct (negb _ && _); [right; split; [done|by eexists]|by left].
  - intros b [v r q []] Ho; cbn in *; simplify_eq. eexists. constructor.
  - intros v s s' Hs Hv. inversion Hs; subst. unfold Zk.after_read, Zk.SetleaderID. cbn.
    destruct (String.eqb_spec v ""), (String.eqb_spec v v0); cbn; congruence.
Qed.

#[global] Instance consul_elector_laws : ElectorLaws Consul.consul_state.
Proof. split; try solve [solve_steps]. intros b [v r q e []] Ho; cbn in *; simplify_eq. eexists. constructor. Qed.

#[global] Instance pg_elector_laws : ElectorLaws Pg.pg_state.
Proof. split; try solve [solve_steps]. intros b [v r q e []|] Ho; cbn in *; simplify_eq. eexists. constructor. Qed.

(** ** Engines stay alert *)

(** Steps at which an engine sees no holder. *)
Definition unseen {S} `{Elector S} (s s' : S) : Prop := exists l, (forall v, l <> Sees (Some v)) /\ el_step l s s'.

(** An engine that is open comes to see the next holder, whoever it is: its
    goroutines do not wait for one another for ever. *)
Class AlertElector (S : Type) `{Elector S} := {
  el_open : S -> Prop;
  el_inv : S -> Prop;
  el_inv_start s : el_start s -> el_inv s;
  el_inv_step l s s' : el_step l s s' -> el_inv s -> el_inv s';
  el_alert s v : el_inv s -> el_open s -> exists s1 s2, rtc unseen s s1 /\ el_step (Sees (Some v)) s1 s2 }.

Lemma unseen_tau {S} `{Elector S} (s s' : S) : el_step Tau s s' -> unseen s s'.
Proof. intros Hs. by exists Tau. Qed.

Lemma unseen_tells {S} `{Elector S} b (s s' : S) : el_step (Tells b) s s' -> unseen s s'.
Proof. intros Hs. by exists (Tells b). Qed.

(** A step that is given, and the rest. *)
Ltac unseen_by H := eapply rtc_l; [apply unseen_tau; apply H|].

(** etcd: until it is closed, the observer has the election of the loop, or the
    loop is about to hand one over. *)
Definition etcd_inv (s : Etcd.etcd_state) : Prop :=
  Etcd.quit s = false ->
  match Etcd.observing s with
  | Etcd.First => match Etcd.electing s with Etcd.Top | Etcd.Session | Etcd.Offer => True | _ => False end
  | Etcd.Gone => False
  | _ => True
  end.

#[global, refine] Instance etcd_alert : AlertElector Etcd.etcd_state :=
  {| el_open := fun s => Etcd.quit s = false; el_inv := etcd_inv |}.
Proof.
  - intros s []. done.
  - intros l s s' Hs Hi. destruct Hs; unfold etcd_inv in *; cbn in *; try done; repeat case_match; tauto.
  - intros [u r q e o] v Hi Ho. cbn in Ho. subst q. specialize (Hi eq_refl). cbn in Hi. destruct o; [| |..|done].
    + assert (Hof : exists s1 s2, rtc unseen (Etcd.St u r false Etcd.Offer Etcd.First) s1 /\ Etcd.etcd_step (Sees (Some v)) s1 s2).
      { do 2 eexists. split; [unseen_by Etcd.offer_first; apply rtc_refl|constructor]. }
      destruct Hof as (s1 & s2 & Hr & Hs). exists s1, s2. split; [|exact Hs]. destruct e; try done.
      * unseen_by Etcd.top_go. unseen_by Etcd.session_created. exact Hr.
      * unseen_by Etcd.session_created. exact Hr.
    + do 2 eexists. split; [apply rtc_refl|constructor].
    + do 2 eexists. split; [eapply rtc_once, unseen_tells; constructor|constructor].
Defined.

(** zookeeper: until it is closed, the loop has not returned. *)
Definition zk_inv (s : Zk.zk_state) : Prop := Zk.quit s = false -> Zk.electing s <> Zk.Left.

#[global, refine] Instance zk_alert : AlertElector Zk.zk_state :=
  {| el_open := fun s => Zk.quit s = false; el_inv := zk_inv |}.
Proof.
  - intros s []. done.
  - intros l s s' Hs Hi. destruct Hs; unfold zk_inv in *; cbn in *; try done.
    unfold Zk.after_read, Zk.SetleaderID. cbn. intros _. by destruct (negb _ && _).
  - intros [u r q e] v Hi Ho. cbn in Ho. subst q. specialize (Hi eq_refl). cbn in Hi.
    exists (Zk.St u r false Zk.Read), (Zk.after_read v (Zk.St u r false Zk.Read)). split; [|constructor]. destruct e; try done.
    + unseen_by Zk.reset_go. unseen_by Zk.created. apply rtc_refl.
    + unseen_by Zk.created. apply rtc_refl.
    + eapply rtc_l; [eapply unseen_tells; constructor|]. unseen_by Zk.node_changed. apply rtc_refl.
    + unseen_by Zk.node_changed. apply rtc_refl.
Defined.

(** consul: until it is closed, the loop has not returned, so it takes a release. *)
Definition consul_inv (s : Consul.consul_state) : Prop := Consul.quit s = false -> Consul.electing s <> Consul.Left.

#[global, refine] Instance consul_alert : AlertElector Consul.consul_state :=
  {| el_open := fun s => Consul.quit s = false /\ Consul.watching s <> Consul.Stopped; el_inv := consul_inv |}.
Proof.
  - intros s []. done.
  - intros l s s' Hs Hi. destruct Hs; unfold consul_inv in *; cbn in *; try done.
    destruct data; cbn; try done. by destruct (String.eqb session "").
  - intros [u r q e w] v Hi [Ho Hw]. cbn in Ho, Hw. subst q. specialize (Hi eq_refl). cbn in Hi.
    assert (Hp : forall e, exists s1 s2, rtc unseen (Consul.St u r false e Consul.Plan) s1 /\ Consul.consul_step (Sees (Some v)) s1 s2).
    { intros e0. do 2 eexists. split; [apply rtc_refl|]. apply (Consul.handle u r false e0 (Consul.WPair "s" v)). }
    destruct w; [apply Hp| | |done].
    + destruct (Hp e) as (s1 & s2 & Hr & Hs). exists s1, s2. split; [|exact Hs]. eapply rtc_l; [eapply unseen_tells; constructor|exact Hr].
    + destruct (Hp Consul.Top) as (s1 & s2 & Hr & Hs). exists s1, s2. split; [|exact Hs].
      assert (Hq : rtc unseen (Consul.St u r false Consul.Acquire Consul.Release) s1).
      { unseen_by (Consul.acquire_answered u r false Consul.Release true). unseen_by Consul.lock_released. exact Hr. }
      destruct e; try done.
      * unseen_by Consul.top_go. unseen_by Consul.session_created. exact Hq.
      * unseen_by Consul.session_created. exact Hq.
      * unseen_by Consul.lock_released. exact Hr.
Defined.

(** postgresql: until it is closed, neither goroutine has returned. *)
Definition pg_inv (s : Pg.pg_state) : Prop :=
  match s with Pg.St _ _ false e o => e <> Pg.Left /\ o <> Pg.Gone | _ => True end.

#[global, refine] Instance pg_alert : AlertElector Pg.pg_state :=
  {| el_open := fun s => match s with Pg.St _ _ q _ _ => q = false | Pg.Crashed _ => False end; el_inv := pg_inv |}.
Proof.
  - intros s []. done.
  - intros l s s' Hs Hi. destruct Hs; unfold pg_inv in *; cbn in *; try done; try (destruct q; naive_solver).
    all: unfold Pg.notified in *; repeat case_match; naive_solver.
  - intros [u r q e o|] v Hi Ho; [|done]. cbn in Ho. subst q. destruct Hi as [He Hg].
    assert (Hp : forall e, exists s1 s2, rtc unseen (Pg.St u r false e Pg.Listen) s1 /\ Pg.pg_step (Sees (Some v)) s1 s2).
    { intros e0. do 2 eexists. split; [apply rtc_refl|]. by apply (Pg.notify (Some ("INSERT:" +:+ v))). }
    destruct o; [apply Hp| | |done].
    + destruct (Hp e) as (s1 & s2 & Hr & Hs). exists s1, s2. split; [|exact Hs]. eapply rtc_l; [eapply unseen_tells; constructor|exact Hr].
    + destruct (Hp Pg.Top) as (s1 & s2 & Hr & Hs). exists s1, s2. split; [|exact Hs]. destruct e; try done.
      * unseen_by Pg.top_go. unseen_by Pg.inserted. unseen_by Pg.lock_released. exact Hr.
      * unseen_by Pg.inserted. unseen_by Pg.lock_released. exact Hr.
      * unseen_by Pg.lock_released. exact Hr.
Defined.

(** ** A process: its engine and its controller *)

Section Process.
Context {S : Type} `{ElectorLaws S} {E : Type} `{EngineLaws E} (cfg : FailOverConfig) (id : string).
Implicit Types (s : S) (σ : @cstate E).

Definition owing s : bool := bool_decide (is_Some (el_owes s)).

(** The leader and the signal that the controller sees are those of the engine. *)
Definition seeing s σ : @cstate E :=
  CState (c_store σ) (el_leader s) (owing s) (c_prev σ) (c_phase σ) (c_clusters σ) (c_queue σ) (c_handling σ) (c_missed σ).

(** The engine before the controller runs: nobody takes what it tells. *)
Inductive eready : S -> Prop :=
| eready_start s : el_start s -> eready s
| eready_step l s s' : eready s -> quiet l -> el_step l s s' -> eready s'.

(** Steps of the engine, between any two steps of the controller; the rendezvous
    on [leaderChangeCh], which the controller takes only at its select statement; and
    the other steps of the controller, of requests and of other processes. *)
Inductive pstep : S * @cstate E -> S * @cstate E -> Prop :=
| PElect l s s' σ : quiet l -> el_step l s s' -> pstep (s, σ) (s', seeing s' σ)
| PTell b s s' σ σ' :
    el_step (Tells b) s s' -> cstep cfg id σ σ' -> c_signal σ = true -> c_signal σ' = false -> pstep (s, σ) (s', σ')
| PRun s σ σ' :
    cstep cfg id σ σ' -> c_leader σ' = c_leader σ -> c_signal σ' = c_signal σ -> pstep (s, σ) (s, σ').

Inductive preach : S * @cstate E -> Prop :=
| preach_start s σ : eready s -> cstarted id σ -> preach (s, seeing s σ)
| preach_step p p' : preach p -> pstep p p' -> preach p'.

(** ** A process refines the controller of any leadership *)

(** The controller sees what the engine holds. *)
Definition in_step (p : S * @cstate E) : Prop := c_leader (snd p) = el_leader (fst p) /\ c_signal (snd p) = owing (fst p).

Lemma owing_true s : owing s = true <-> is_Some (el_owes s).
Proof. apply bool_decide_eq_true. Qed.

Lemma owing_false s : owing s = false <-> el_owes s = None.
Proof. unfold owing. rewrite bool_decide_eq_false. by rewrite <- eq_None_not_Some. Qed.

(** What a step of the engine does is a change of the leader for the controller,
    or nothing. *)
Lemma quiet_seen l s s' σ : quiet l -> el_step l s s' -> in_step (s, σ) -> seeing s' σ = σ \/ cstep cfg id σ (seeing s' σ).
Proof.
  intros Hq Hs [Hl Hg]. cbn in *. destruct σ as [e ld sg p ph m q h x]; cbn in *. unfold seeing; cbn.
  destruct (el_quiet l s s' Hs Hq) as [[-> Ho]|[_ Ho]].
  - left. subst. unfold owing. by rewrite Ho.
  - right. rewrite (proj2 (owing_true s') Ho). constructor.
Qed.

Lemma seeing_in_step s σ : in_step (s, seeing s σ).
Proof. done. Qed.

Lemma tells_leader σ σ' : cstep cfg id σ σ' -> c_signal σ = true -> c_signal σ' = false -> c_leader σ' = c_leader σ.
Proof. intros Hs. inversion Hs; subst; cbn; intros; by simplify_eq. Qed.

Lemma preach_creach p : preach p -> creach cfg id (snd p) /\ in_step p.
Proof.
  induction 1 as [s σ _ (e & a & l & sg & Ha & Hid & ->)|p p' _ [IH Hi] Hs].
  - split; [|done]. apply creach_start. by exists e, a, (el_leader s), (owing s).
  - inversion Hs as [l s s' σ Hq Hes|b s s' σ σ' Hes Hcs Hg Hg'|s σ σ' Hcs Hl Hg]; subst; cbn in *.
    + split; [|done]. destruct (quiet_seen l s s' σ) as [->|Hc]; [done..|]. by eapply creach_step.
    + split; [by eapply creach_step|]. destruct Hi as [Hl _]; cbn in *. destruct (el_tells b s s' Hes) as (_ & Ho & He).
      split; cbn; [by rewrite (tells_leader σ σ'), He|]. rewrite Hg'. symmetry. by apply owing_false.
    + split; [by eapply creach_step|]. destruct Hi. split; cbn in *; congruence.
Qed.

(** ** Leading is noticed *)

Lemma creach_rtc σ σ' : creach cfg id σ -> rtc (cstep cfg id) σ σ' -> creach cfg id σ'.
Proof. intros Hc. induction 1 as [|σ1 σ2 σ3 Hs _ IH]; [done|]. apply IH. by eapply creach_step. Qed.

(** The controller alone, without a change of the leader. *)
Lemma run_alone s σ σ' : same_world cfg id σ σ' -> rtc pstep (s, σ) (s, σ').
Proof.
  induction 1 as [|σ σ1 σ' (Hs & _ & Hl & Hg & _) _ IH]; [done|]. eapply rtc_l; [by apply (PRun s σ σ1)|done].
Qed.

(** What is owed is told, once the controller is at rest. *)
Lemma told s σ :
  in_step (s, σ) -> c_leader σ = id -> c_signal σ = true -> at_rest σ ->
  exists s' σ', rtc pstep (s, σ) (s', σ') /\ cstep cfg id σ σ' /\ in_step (s', σ') /\ c_store σ' = c_store σ /\
  c_leader σ' = id /\ c_missed σ' = c_missed σ /\ c_phase σ' = Woken /\ c_signal σ' = false.
Proof.
  intros [Hl Hg] Hid Hs Hrest. cbn in Hl, Hg. rewrite Hid in Hl. rewrite Hs in Hg.
  destruct (proj1 (owing_true s)) as [b Hb]; [by rewrite <- Hg|]. destruct (el_can_tell b s Hb) as [s' Hs'].
  destruct (el_tells b s s' Hs') as (_ & Ho & He).
  destruct (rest_wakes cfg id σ Hrest Hs) as (σ' & Hc & He' & Hl' & Hx' & Hph & Hg').
  exists s', σ'. split; [eapply rtc_once, (PTell b); done|]. split; [done|].
  split; [|split_and!; congruence]. split; cbn; [congruence|]. rewrite Hg'. symmetry. by apply owing_false.
Qed.

(** A process that leads comes to a state where nothing is owed. *)
Lemma settles s σ :
  creach cfg id σ -> in_step (s, σ) -> c_leader σ = id -> c_missed σ = false -> between_reads (c_phase σ) = false ->
  exists s' σ', rtc pstep (s, σ) (s', σ') /\ creach cfg id σ' /\ in_step (s', σ') /\ c_store σ' = c_store σ /\
  c_leader σ' = id /\ c_missed σ' = false /\ between_reads (c_phase σ') = false /\ c_signal σ' = false.
Proof.
  intros Hc Hi Hl Hx Hb. destruct (c_signal σ) eqn:Hg; [|by exists s, σ].
  destruct (rest_reached cfg id σ (ci_id _ _ _ (creach_inv cfg id σ Hc)) Hl Hx Hb) as (σ1 & Hw & Hrest).
  destruct (same_world_keeps cfg id σ σ1 Hw) as (Hs1 & He1 & Hl1 & Hg1 & Hx1).
  assert (Hi1 : in_step (s, σ1)) by (destruct Hi; split; cbn in *; congruence).
  destruct (told s σ1 Hi1) as (s2 & σ2 & Hr2 & Hc2 & Hi2 & He2 & Hl2 & Hx2 & Hph2 & Hg2); [congruence..|done|].
  exists s2, σ2. split; [by etrans; [eapply run_alone|]|]. rewrite Hph2.
  split; [|split_and!; done || congruence]. eapply creach_step; [|exact Hc2]. by eapply creach_rtc.
Qed.
End Process.

(** C14. A leader watches every cluster, from its election on.  A process is an
    engine that campaigns and watches the lock of its service, and a controller
    that follows it; the engine is any of the four, or another one that keeps the
    promises of [Elector].  Their goroutines, the service, requests and other
    processes interleave in any way, also between any two reads of the leadership.
    Take a process whose engine names it the leader, in a state where
    - nothing happened behind its back ([c_missed]): since it last listed the
      clusters no other process changed the store and no event was dropped, listing
      did not fail, and [syncLoop] has not remembered the process itself as the
      leader of the last term without resuming; and
    - [syncLoop] is not between a read that said that it does not lead and the read
      that it will remember ([between_reads]), where it would do just that
      ([start_races], [regained_between_reads]).
    From there the engine tells the controller what it still owes, and the
    process comes to rest, without a change of the store or of the leader, with a
    checker for every cluster of the store. *)
Theorem elections_supervise {S} `{ElectorLaws S} {E} `{EngineLaws E} cfg id (s : S) (σ : @cstate E) :
  preach cfg id (s, σ) -> el_leader s = id -> c_missed σ = false -> between_reads (c_phase σ) = false ->
  exists s' σ', rtc (pstep cfg id) (s, σ) (s', σ') /\ el_leader s' = id /\ el_owes s' = None /\
    c_store σ' = c_store σ /\ at_rest σ' /\
    forall ns c, path_name ns = true -> path_name c = true -> existsCluster (c_store σ) ns c = true ->
      c_clusters σ' !! checker_key ns c = Some (with_config cfg (NewClusterChecker ns c)).
Proof.
  intros Hp Hid Hx Hb. destruct (preach_creach cfg id (s, σ) Hp) as [Hc Hi]. cbn in Hc.
  assert (Hl : c_leader σ = id) by (destruct Hi as [Hl _]; cbn in Hl; congruence).
  destruct (settles cfg id s σ Hc Hi Hl Hx Hb) as (s1 & σ1 & Hr1 & Hc1 & Hi1 & He1 & Hl1 & Hx1 & Hb1 & Hg1).
  destruct (supervised_comes cfg id σ1 (creach_inv cfg id σ1 Hc1) Hl1 Hx1 Hb1 Hg1) as (σ2 & Hw & Hrest & Hall).
  destruct (same_world_keeps cfg id σ1 σ2 Hw) as (_ & He2 & _). destruct Hi1 as [Hs1 Ho1]; cbn in *.
  exists s1, σ2. split; [by etrans; [|eapply run_alone]|].
  split; [congruence|]. split; [apply owing_false; congruence|]. split; [congruence|]. split; [done|].
  intros ns c Hns Hc' Hex. apply Hall; [done..|]. by rewrite He1.
Qed.

(** ** Several processes *)

(** The service names holders of the lock one after the other, under names that
    are not empty; a process has seen one of them, the last or an earlier one, or
    none. *)
Section World.
Context {S : Type} `{ElectorLaws S}.

Record process := MkProcess { pr_id : string; pr_engine : S; pr_seen : option nat }.
Record world := MkWorld { holders : list string; processes : list process }.

Inductive wstep : world -> world -> Prop :=
| WHold hs ps v : v <> "" -> wstep (MkWorld hs ps) (MkWorld (hs ++ [v]) ps)
| WSees hs ps i id s c k v s' :
    ps !! i = Some (MkProcess id s c) -> hs !! k = Some v -> el_step (Sees (Some v)) s s' ->
    wstep (MkWorld hs ps) (MkWorld hs (<[i := MkProcess id s' (Some k)]> ps))
| WMoves hs ps i id s c l s' :
    ps !! i = Some (MkProcess id s c) -> (forall v, l <> Sees (Some v)) -> el_step l s s' ->
    wstep (MkWorld hs ps) (MkWorld hs (<[i := MkProcess id s' c]> ps)).

Inductive wreach : world -> Prop :=
| wreach_start ps : Forall (fun p => el_start (pr_engine p) /\ pr_seen p = None) ps -> wreach (MkWorld [] ps)
| wreach_step w w' : wreach w -> wstep w w' -> wreach w'.

(** A process names the holder it has seen. *)
Definition seen_ok (hs : list string) (p : process) : Prop :=
  forall k, pr_seen p = Some k -> exists v, hs !! k = Some v /\ v <> "" /\ el_leader (pr_engine p) = v.

Lemma wreach_seen w : wreach w -> Forall (fun v => v <> "") (holders w) /\ Forall (seen_ok (holders w)) (processes w).
Proof.
  induction 1 as [ps Hps|w w' _ [IHh IHp] Hs].
  - split; [constructor|]. eapply Forall_impl; [done|]. intros p [_ Hn] k Hk. congruence.
  - destruct Hs as [hs ps v Hv|hs ps i id s c k v s' Hi Hk Hs|hs ps i id s c l s' Hi Hl Hs]; cbn in *.
    + split; [by apply Forall_app_2; [|constructor]|]. eapply Forall_impl; [done|]. intros p Hp k Hk.
      destruct (Hp k Hk) as (v' & Hv' & ?). exists v'. split; [|done]. by apply lookup_app_l_Some.
    + split; [done|]. apply Forall_insert; [done|]. intros k' [= <-]. exists v. split; [done|].
      assert (Hv : v <> "") by exact (Forall_lookup_1 _ _ _ _ IHh Hk). split; [done|]. by apply (el_sees v s).
    + split; [done|]. apply Forall_insert; [done|]. intros k' Hk'. cbn in *.
      destruct (Forall_lookup_1 _ _ _ _ IHp Hi k' Hk') as (v & Hv & ? & He). exists v. split_and!; try done.
      cbn in He. by rewrite (el_keeps l s s').
Qed.

Definition up_to_date (w : world) (p : process) : Prop := exists k, pr_seen p = Some k /\ Datatypes.S k = length (holders w).

Lemma up_to_date_last w i p :
  wreach w -> processes w !! i = Some p -> up_to_date w p ->
  last (holders w) = Some (el_leader (pr_engine p)) /\ el_leader (pr_engine p) <> "".
Proof.
  intros Hw Hp (k & Hk & Hlen). destruct (wreach_seen w Hw) as [_ Hall].
  destruct (Forall_lookup_1 _ _ _ _ Hall Hp k Hk) as (v & Hv & Hne & He). rewrite last_lookup, <- Hlen. cbn.
  by rewrite Hv, He.
Qed.
End World.
Arguments process S : clear implicits.
Arguments world S : clear implicits.

(** A process of a world takes steps at which it sees nothing. *)
Lemma wsteps_drive {S} `{Elector S} hs (ps : list (process S)) i id s c s' :
  ps !! i = Some (MkProcess id s c) -> rtc unseen s s' -> rtc wstep (MkWorld hs ps) (MkWorld hs (<[i := MkProcess id s' c]> ps)).
Proof.
  intros Hi Hr. revert ps Hi. induction Hr as [s|s s1 s' (l & Hl & Hs) _ IH]; intros ps Hi.
  - by rewrite list_insert_id.
  - specialize (IH (<[i := MkProcess id s1 c]> ps)). rewrite list_insert_insert_eq in IH.
    eapply rtc_l; [by eapply WMoves|]. apply IH, list_lookup_insert_eq. by eapply lookup_lt_Some.
Qed.

Lemma wreach_rtc {S} `{Elector S} (w w' : world S) : wreach w -> rtc wstep w w' -> wreach w'.
Proof. intros Hw. induction 1 as [|w1 w2 w3 Hs _ IH]; [done|]. apply IH. by eapply wreach_step. Qed.

Lemma wreach_inv {S} `{AlertElector S} (w : world S) : wreach w -> Forall (fun p => el_inv (pr_engine p)) (processes w).
Proof.
  induction 1 as [ps Hps|w w' _ IH Hs].
  - eapply Forall_impl; [done|]. intros p [Hp _]. by apply el_inv_start.
  - destruct Hs as [hs ps v Hv|hs ps i id s c k v s' Hi Hk Hs|hs ps i id s c l s' Hi Hl Hs]; cbn in *; [done| |];
      (apply Forall_insert; [done|]); cbn; (eapply el_inv_step; [exact Hs|]);
      exact (Forall_lookup_1 _ _ _ _ IH Hi).
Qed.

(** C15. Processes that are up to date agree on the leader.  Any number of
    processes, with engines that keep the promises of [Elector], see the holders of
    the lock that the service names, late or not, while everything else happens in
    any order.  Two of them that have seen the last one name it as the leader; and
    if identifiers are distinct, only one of them takes itself for the leader. *)
Theorem leaders_agree {S} `{ElectorLaws S} (w : world S) i j p q :
  wreach w -> processes w !! i = Some p -> processes w !! j = Some q -> up_to_date w p -> up_to_date w q ->
  el_leader (pr_engine p) = el_leader (pr_engine q) /\ last (holders w) = Some (el_leader (pr_engine p)) /\
  (NoDup (map pr_id (processes w)) ->
   IsLeader (pr_id p) (el_leader (pr_engine p)) = true -> IsLeader (pr_id q) (el_leader (pr_engine q)) = true -> i = j).
Proof.
  intros Hw Hp Hq Hup Huq. destruct (up_to_date_last w i p Hw Hp Hup) as [Lp _].
  destruct (up_to_date_last w j q Hw Hq Huq) as [Lq _].
  assert (He : el_leader (pr_engine p) = el_leader (pr_engine q)) by congruence. do 2 (split; [done|]).
  intros Hn Ip%String.eqb_eq Iq%String.eqb_eq. apply (NoDup_lookup _ i j (pr_id p) Hn); rewrite list_lookup_fmap.
  - by rewrite Hp.
  - rewrite Hq. cbn. congruence.
Qed.

(** C16. Every open process learns of the leader.  Whatever has happened, a process
    whose engine is open comes, by its own steps and without another election, to
    have seen the last holder, and then names it as the leader; the other processes
    are as before.  So its goroutines never wait for one another for ever, and no
    holder that stays is missed. *)
Theorem leaders_catch_up {S} `{ElectorLaws S} `{!AlertElector S} (w : world S) i p v :
  wreach w -> processes w !! i = Some p -> el_open (pr_engine p) -> last (holders w) = Some v ->
  exists w' p', rtc wstep w w' /\ holders w' = holders w /\ processes w' = <[i := p']> (processes w) /\
    pr_id p' = pr_id p /\ up_to_date w' p' /\ el_leader (pr_engine p') = v.
Proof.
  intros Hw Hi Ho Hl. pose proof (Forall_lookup_1 _ _ _ _ (wreach_inv w Hw) Hi) as Hinv.
  destruct (el_alert _ v Hinv Ho) as (s1 & s2 & Hr & Hs). destruct w as [hs ps], p as [id s c]; cbn in *.
  rewrite last_lookup in Hl. apply lookup_lt_Some in Hl as Hlen.
  pose proof (wsteps_drive hs ps i id s c s1 Hi Hr) as Hd.
  assert (Hi1 : <[i := MkProcess id s1 c]> ps !! i = Some (MkProcess id s1 c)).
  { apply list_lookup_insert_eq. by eapply lookup_lt_Some. }
  pose proof (WSees hs _ i id s1 c _ v s2 Hi1 Hl Hs) as Hstep. rewrite list_insert_insert_eq in Hstep.
  exists (MkWorld hs (<[i := MkProcess id s2 (Some (pred (length hs)))]> ps)), (MkProcess id s2 (Some (pred (length hs)))).
  split; [by eapply rtc_r|]. do 3 (split; [done|]). split; [exists (pred (length hs)); split; [done|cbn; lia]|].
  assert (Hup : up_to_date (MkWorld hs (<[i := MkProcess id s2 (Some (pred (length hs)))]> ps)) (MkProcess id s2 (Some (pred (length hs))))).
  { exists (pred (length hs)). split; [done|cbn; lia]. }
  eapply (up_to_date_last _ i) in Hup as [Hlast _].
  - cbn in Hlast. rewrite last_lookup, Hl in Hlast. by simplify_eq.
  - eapply wreach_rtc; [exact Hw|]. by eapply rtc_r.
  - cbn. apply list_lookup_insert_eq. by eapply lookup_lt_Some.
Qed.

(** ** At the start *)

(** Nobody takes what an engine tells before the controller runs, and the engine
    waits: the leader stays. *)
Lemma owing_still {S} `{ElectorLaws S} (s s' : S) l :
  is_Some (el_owes s) -> quiet l -> el_step l s s' -> el_leader s' = el_leader s /\ is_Some (el_owes s').
Proof. intros [b Hb] Hq Hs. destruct (el_quiet l s s' Hs Hq) as [[He Ho]|[Ho _]]; [by rewrite Ho, Hb|congruence]. Qed.

(** etcd and zookeeper are ready only when they wait so.  Hence the leader does not
    change while [syncLoop] starts over them. *)
Lemma etcd_ready_owes (s : Etcd.etcd_state) : eready s -> Etcd.isReady s = true -> is_Some (el_owes s).
Proof.
  induction 1 as [s [] |l s s' _ IH Hq Hs]; [done|]. by destruct Hs; try exact IH.
Qed.

Lemma zk_ready_owes (s : Zk.zk_state) : eready s -> Zk.isReady s = true -> is_Some (el_owes s).
Proof.
  induction 1 as [s [] |l s s' _ IH Hq Hs]; [done|]. destruct Hs; try exact IH; try done.
  unfold Zk.after_read, Zk.SetleaderID. cbn. destruct (negb _ && _); [by eexists|exact IH].
Qed.

(** ** Waiting for the engine ([IsReady], the same in the four engines) *)

(** What the select statement meets: the engine is closed, 100 milliseconds pass,
    or the context is done; with the flag as it is read then. *)
Inductive wake := WakeQuit | WakeTick (isReady : bool) | WakeDone (isReady : bool).

Fixpoint IsReady (wakes : list wake) : option bool :=
  match wakes with
  | [] => None
  | WakeQuit :: _ => Some false
  | WakeTick ready :: wakes => if ready then Some true else IsReady wakes
  | WakeDone ready :: _ => Some ready
  end.

(** It ends by a tick at which the engine is ready, by closing or by cancelling,
    and says yes only if the engine was ready. *)
Lemma wait_ready_ends wakes :
  WakeQuit ∈ wakes \/ (exists r, WakeDone r ∈ wakes) \/ WakeTick true ∈ wakes -> is_Some (IsReady wakes).
Proof.
  induction wakes as [|k wakes IH]; [intros [?|[[? ?]|?]]; set_solver|].
  intros Hin. destruct k as [|[]|]; cbn; [by eexists..| |by eexists].
  apply IH. revert Hin. setoid_rewrite elem_of_cons. intros [[|?]|[[? [|?]]|[|?]]]; try done; eauto.
Qed.

Lemma wait_ready_true wakes : IsReady wakes = Some true -> WakeTick true ∈ wakes \/ WakeDone true ∈ wakes.
Proof.
  induction wakes as [|k wakes IH]; [done|]. destruct k as [|[]|[]]; cbn; intros; simplify_eq; [left; set_solver| |right; set_solver].
  destruct IH; [done|left; set_solver|right; set_solver].
Qed.

(** ** Making an engine ([New]) *)

Definition err_no_id : go_error := errors_New "id must NOT be a empty string".

(** The path of the lock: the configured one, if any. *)
Definition elect_path (default configured : string) : string :=
  if String.eqb configured "" then default else configured.

(** [TLSC], [C], [A], [D] are types of the clients' libraries. *)
Record tls_config := MkTLS { tls_Enable : bool; tls_CertFile : string; tls_KeyFile : string; tls_CAFile : string }.

Record etcd_Config := MkEtcdConfig {
  et_Addrs : list string; et_Username : string; et_Password : string; et_TLS : tls_config; et_ElectPath : string }.

Record etcd_ClientConfig (TLSC : Type) := MkEtcdClient {
  ec_Endpoints : list string; ec_TLS : option TLSC; ec_Username : string; ec_Password : string }.
Arguments MkEtcdClient {TLSC}.

(** The client, the path of the lock and the state of the goroutines. *)
Definition etcd_New {TLSC C} (ClientConfig : tls_config -> go_error + TLSC) (clientv3_New : etcd_ClientConfig TLSC -> go_error + C)
    (id : string) (cfg : etcd_Config) : go_error + (C * string * Etcd.etcd_state) :=
  if String.eqb id "" then inl err_no_id
  else
    tls ← (if tls_Enable (et_TLS cfg) then c ← ClientConfig (et_TLS cfg); inr (Some c) else inr None : go_error + option TLSC);
    let auth := negb (String.eqb (et_Username cfg) "") && negb (String.eqb (et_Password cfg) "") in
    client ← clientv3_New (MkEtcdClient (et_Addrs cfg) tls (if auth then et_Username cfg else "") (if auth then et_Password cfg else ""));
    inr (client, elect_path "/kvrocks/controller/leader" (et_ElectPath cfg), Etcd.St "" false false Etcd.Top Etcd.First).

Record zk_Config := MkZkConfig { zc_Addrs : list string; zc_Scheme : string; zc_Auth : string; zc_ElectPath : string }.

(** Who may change the nodes that are created: everyone, or the one who has
    authenticated. *)
Inductive zk_acl := WorldACL | SchemeACL (scheme auth : string).

Definition zk_New {C} (Connect : list string -> go_error + C) (AddAuth : C -> string -> string -> option go_error)
    (id : string) (cfg : zk_Config) : go_error + (C * string * zk_acl * Zk.zk_state) :=
  if String.eqb id "" then inl err_no_id
  else
    conn ← Connect (zc_Addrs cfg);
    let acl :=
      if negb (String.eqb (zc_Scheme cfg) "") && negb (String.eqb (zc_Auth cfg) "") then
        match AddAuth conn (zc_Scheme cfg) (zc_Auth cfg) with
        | None => SchemeACL (zc_Scheme cfg) (zc_Auth cfg)
        | Some _ => WorldACL
        end
      else WorldACL in
    inr (conn, elect_path "/kvrocks/controller/leader" (zc_ElectPath cfg), acl, Zk.St "" false false Zk.Restart).

Record consul_Config := MkConsulConfig { co_Addrs : list string; co_TLS : tls_config; co_ElectPath : string }.

(** The address, the scheme, which is left to the library without TLS, and the
    files. *)
Record consul_ClientConfig := MkConsulClient { cl_Address : string; cl_Scheme : string; cl_TLSConfig : option tls_config }.

Definition consul_New {C P} (NewClient : consul_ClientConfig -> go_error + C) (watch_Parse : string -> go_error + P)
    (id : string) (cfg : consul_Config) : go_error + (C * P * string * Consul.consul_state) :=
  if String.eqb id "" then inl err_no_id
  else
    match co_Addrs cfg with
    | [] => inl (errors_New "Consul address must be provided")
    | addr :: _ =>
        client ← NewClient (if tls_Enable (co_TLS cfg) then MkConsulClient addr "https" (Some (co_TLS cfg))
                            else MkConsulClient addr "" None);
        let path := elect_path "kvrocks/controller/leader" (co_ElectPath cfg) in
        plan ← watch_Parse path;
        inr (client, plan, path, Consul.St "" false false Consul.Top Consul.Plan)
    end.

Record pg_Config := MkPgConfig {
  pg_Addrs : list string; pg_Username : string; pg_Password : string; pg_DBName : string; pg_NotifyChannel : string;
  pg_ElectPath : string }.

Definition pg_connStr (cfg : pg_Config) (addr : string) : string :=
  "postgres://" +:+ pg_Username cfg +:+ ":" +:+ pg_Password cfg +:+ "@" +:+ addr +:+ "/" +:+ pg_DBName cfg +:+ "?sslmode=disable".

(** [None] is a panic: the first address is taken without looking.  Both branches
    of the path assign the default. *)
Definition pg_New {D} (Open : string -> go_error + D) (Listen : string -> string -> option go_error)
    (row : D -> string -> go_error + option string)
    (id : string) (cfg : pg_Config) : option (go_error + (D * string * Pg.pg_state)) :=
  if String.eqb id "" then Some (inl err_no_id)
  else
    match pg_Addrs cfg with
    | [] => None
    | addr :: _ =>
        let connStr := pg_connStr cfg addr in
        Some (db ← Open connStr;
              match Listen connStr (pg_NotifyChannel cfg) with
              | Some err => inl err
              | None =>
                  let electPath := "/kvrocks/controller/leader" in
                  leader ← Pg.initLeaderId (row db electPath);
                  inr (db, electPath, Pg.St leader false false Pg.Top Pg.Listen)
              end)
    end.

Lemma elect_path_default d configured : d <> "" -> elect_path d configured <> "" /\ (configured <> "" -> elect_path d configured = configured).
Proof. unfold elect_path. by destruct (String.eqb_spec configured ""). Qed.

(** What a maker returned, without the errors on the way. *)
Ltac made H :=
  repeat match type of H with
    | (if String.eqb ?x "" then _ else _) = _ => destruct (String.eqb_spec x ""); [done|]
    | (_ ≫= _) = inr _ => let Hx := fresh in let x := fresh in apply go_bind_inv in H as (x & Hx & H)
    | match ?x with _ => _ end = _ => destruct x eqn:?; try done
    end; simplify_eq.

(** An engine that was made has an identifier, campaigns for the configured path,
    and starts. *)
Lemma etcd_New_starts {TLSC C} (f : tls_config -> go_error + TLSC) (g : etcd_ClientConfig TLSC -> go_error + C) id cfg c path s :
  etcd_New f g id cfg = inr (c, path, s) ->
  id <> "" /\ path = elect_path "/kvrocks/controller/leader" (et_ElectPath cfg) /\ el_start s.
Proof. unfold etcd_New. intros H. made H. by split_and!; [..|constructor]. Qed.

Lemma zk_New_starts {C} (f : list string -> go_error + C) g id cfg c path acl s :
  zk_New f g id cfg = inr (c, path, acl, s) ->
  id <> "" /\ path = elect_path "/kvrocks/controller/leader" (zc_ElectPath cfg) /\ el_start s.
Proof. unfold zk_New. intros H. made H. by split_and!; [..|constructor]. Qed.

Lemma consul_New_starts {C P} (f : consul_ClientConfig -> go_error + C) (g : string -> go_error + P) id cfg c plan path s :
  consul_New f g id cfg = inr (c, plan, path, s) ->
  id <> "" /\ path = elect_path "kvrocks/controller/leader" (co_ElectPath cfg) /\ el_start s.
Proof. unfold consul_New. intros H. made H. by split_and!; [..|constructor]. Qed.

(** postgresql starts from the row of the lock, whatever path is configured. *)
Lemma pg_New_starts {D} (f : string -> go_error + D) g row id cfg d path s :
  pg_New f g row id cfg = Some (inr (d, path, s)) -> id <> "" /\ path = "/kvrocks/controller/leader" /\ el_start s.
Proof.
  unfold pg_New. intros H. made H. apply go_bind_inv in H as (db & _ & H). made H.
  split_and!; [done..|]. by econstructor.
Qed.

(** ** What elections do not do *)

(** The pause before a new session, in nanoseconds: etcd's constant is a number of
    seconds, which is used as a duration. *)
Definition etcd_retry_pause : Z := Z.quot 6 3.
Definition zk_retry_pause : Z := Z.quot (6 * time_Second) 3.
Definition consul_retry_pause : Z := Z.quot (10 * time_Second) 3.
Definition pg_retry_pause : Z := Z.quot (6 * time_Second) 3.

Lemma etcd_retries_at_once : etcd_retry_pause = 2 /\ zk_retry_pause = 2 * time_Second /\ etcd_retry_pause < time_Millisecond.
Proof. by vm_compute. Qed.

(** A goroutine of a closed engine that waits for one that has returned: [Close]
    does not return, for nothing moves any more. *)
Definition stuck {S} `{Elector S} (s : S) : Prop := forall l s', ~ el_step l s s'.

Inductive ereach {S} `{Elector S} : S -> Prop :=
| ereach_start s : el_start s -> ereach s
| ereach_step l s s' : ereach s -> el_step l s s' -> ereach s'.

Lemma etcd_close_stuck : let s := Etcd.St "" false true Etcd.Offer Etcd.Gone in ereach s /\ stuck s.
Proof.
  split; [|intros l s' Hs; inversion Hs].
  eapply ereach_step; [|apply Etcd.first_quit]. eapply ereach_step; [|apply Etcd.close].
  eapply ereach_step; [|apply Etcd.session_created]. eapply ereach_step; [|apply Etcd.top_go].
  apply ereach_start. constructor.
Qed.

Lemma consul_close_stuck (v : string) : let s := Consul.St "" true true Consul.Left Consul.Release in ereach s /\ stuck s.
Proof.
  split; [|intros l s' Hs; inversion Hs].
  eapply ereach_step; [|apply Consul.wait_quit]. eapply ereach_step; [|apply Consul.close].
  eapply ereach_step; [|apply (Consul.handle "" false false Consul.Wait (Consul.WPair "" v))].
  eapply ereach_step; [|apply (Consul.acquire_answered _ _ _ _ true)]. eapply ereach_step; [|apply Consul.session_created].
  eapply ereach_step; [|apply Consul.top_go]. apply ereach_start. constructor.
Qed.

Lemma pg_close_stuck : let s := Pg.St "" true true Pg.Left Pg.Release in ereach s /\ stuck s.
Proof.
  split; [|intros l s' Hs; inversion Hs].
  eapply ereach_step; [|apply Pg.wait_quit]. eapply ereach_step; [|apply Pg.close].
  eapply ereach_step; [|by apply (Pg.notify (Some "DELETE:a"))]. eapply ereach_step; [|apply Pg.inserted].
  eapply ereach_step; [|apply Pg.top_go]. apply ereach_start. by apply (Pg.start_intro (inr None)).
Qed.

(** zookeeper has one goroutine, which leaves once it is closed, its calls return
    and what it owes is taken. *)
Lemma zk_closes v r e : exists v' r', rtc (fun s s' => exists l, Zk.zk_step l s s') (Zk.St v r true e) (Zk.St v' r' true Zk.Left).
Proof.
  exists v, r. assert (Hr : rtc (fun s s' => exists l, Zk.zk_step l s s') (Zk.St v r true Zk.Restart) (Zk.St v r true Zk.Left)).
  { apply rtc_once. eexists. constructor. }
  assert (Hw : rtc (fun s s' => exists l, Zk.zk_step l s s') (Zk.St v r true Zk.Watch) (Zk.St v r true Zk.Left)).
  { apply rtc_once. eexists. apply Zk.watch_quit. }
  destruct e; try done; (eapply rtc_l; [eexists; constructor|done]).
Qed.

(** The listener connects again, or a notification has no colon: the process dies. *)
Lemma pg_reconnect_crashes v r q e : Pg.pg_step Tau (Pg.St v r q e Pg.Listen) (Pg.Crashed v) /\ stuck (Pg.Crashed v).
Proof. split; [by apply (Pg.notify None)|]. intros l s' Hs. inversion Hs. Qed.

Lemma pg_malformed_crashes v r q e extra : any_char (Ascii.eqb ":") extra = false -> Pg.pg_step Tau (Pg.St v r q e Pg.Listen) (Pg.Crashed v).
Proof. intros Hc. apply (Pg.notify (Some extra)). unfold Pg.notified. by rewrite cut_none. Qed.

(** A leader whose session is gone still names itself, while it looks for another
    session and until it sees the next holder. *)
Lemma etcd_loses_session v q o :
  let s := Etcd.St v true q Etcd.Hold o in
  Etcd.etcd_step Tau s (Etcd.St v true q Etcd.Session o) /\ (forall s', rtc (Etcd.etcd_step Tau) s s' -> Etcd.leaderID s' = v).
Proof.
  intros s. split; [constructor|]. change v with (el_leader s). intros s' Hr.
  induction Hr as [|s0 s1 s2 Hs _ IH]; [done|]. rewrite IH. by apply (el_keeps Tau).
Qed.

(** The state of an engine that campaigns, and has seen nothing. *)
Definition etcd_campaigning : Etcd.etcd_state := Etcd.St "" false false Etcd.Campaign Etcd.Watch.

Lemma etcd_campaigns : rtc unseen (Etcd.St "" false false Etcd.Top Etcd.First) etcd_campaigning.
Proof.
  assert (Ht : forall s s', Etcd.etcd_step Tau s s' -> unseen s s') by (intros s s' Hs; by exists Tau).
  eapply rtc_l; [apply Ht; constructor|]. eapply rtc_l; [apply Ht, Etcd.session_created|]. apply rtc_once, Ht. constructor.
Qed.

(** Two processes of a world that have seen what the service named: [a] has seen
    the first holder, itself; [b] the one after. *)
Definition demo_world (hs : list string) (seen_a seen_b : nat) (leader_a leader_b : string) : world Etcd.etcd_state :=
  MkWorld hs [MkProcess "a" (Etcd.St leader_a true false Etcd.Campaign (Etcd.Tell true)) (Some seen_a);
              MkProcess "b" (Etcd.St leader_b true false Etcd.Campaign (Etcd.Tell true)) (Some seen_b)].

Lemma demo_world_reached ka kb la lb : ["a"; "b"] !! ka = Some la -> ["a"; "b"] !! kb = Some lb -> wreach (demo_world ["a"; "b"] ka kb la lb).
Proof.
  intros Ha Hb.
  assert (H0 : wreach (MkWorld (S := Etcd.etcd_state) []
    [MkProcess "a" (Etcd.St "" false false Etcd.Top Etcd.First) None; MkProcess "b" (Etcd.St "" false false Etcd.Top Etcd.First) None])).
  { constructor. repeat constructor. }
  eapply wreach_rtc in H0 as H1; [|eapply (wsteps_drive _ _ 0); [reflexivity|exact etcd_campaigns]]. cbn in H1.
  eapply wreach_rtc in H1 as H2; [|eapply (wsteps_drive _ _ 1); [reflexivity|exact etcd_campaigns]]. cbn in H2. clear H0 H1.
  eapply wreach_step in H2; [|by apply (WHold _ _ "a")]. eapply wreach_step in H2; [|by apply (WHold _ _ "b")].
  eapply wreach_step in H2; [|eapply (WSees _ _ 0); [done|exact Ha|apply Etcd.watch_leader]].
  eapply wreach_step in H2; [|eapply (WSees _ _ 1); [done|exact Hb|apply Etcd.watch_leader]]. exact H2.
Qed.

(** A process that has not seen the last holder may take itself for the leader
    beside it. *)
Lemma two_leaders :
  let w := demo_world ["a"; "b"] 0 1 "a" "b" in
  wreach w /\ Forall (fun p => IsLeader (pr_id p) (el_leader (pr_engine p)) = true) (processes w).
Proof. split; [by apply demo_world_reached|]. repeat constructor. Qed.

Lemma leaders_agree_witness :
  el_leader (Etcd.St "b" true false Etcd.Campaign (Etcd.Tell true)) = "b" /\
  last (holders (demo_world ["a"; "b"] 1 1 "b" "b")) = Some "b".
Proof.
  destruct (leaders_agree (demo_world ["a"; "b"] 1 1 "b" "b") 0 1 _ _ (demo_world_reached 1 1 "b" "b" eq_refl eq_refl) eq_refl eq_refl)
    as (_ & Hl & _); [by exists 1%nat..|]. split; [reflexivity|exact Hl].
Defined.

(** [a] was the leader and has not seen [b] yet. *)
Lemma leaders_catch_up_witness :
  exists w' p', rtc wstep (demo_world ["a"; "b"] 0 1 "a" "b") w' /\ processes w' !! 0%nat = Some p' /\ el_leader (pr_engine p') = "b".
Proof.
  destruct (leaders_catch_up (demo_world ["a"; "b"] 0 1 "a" "b") 0 _ "b" (demo_world_reached 0 1 "a" "b" eq_refl eq_refl) eq_refl)
    as (w' & p' & Hr & _ & Hp & _ & _ & Hl); [reflexivity..|].
  exists w', p'. split; [exact Hr|]. split; [rewrite Hp; reflexivity|exact Hl].
Defined.

(** A process whose engine has become the leader before the controller ran. *)
Lemma elections_supervise_witness :
  let s := Etcd.St "me" true false Etcd.Campaign (Etcd.Tell true) in
  exists s' σ', rtc (@pstep _ etcd_elector _ demo_engine demo_failover "me") (s, seeing s demo_cstate) (s', σ') /\
    c_clusters σ' !! "ns/c" = Some (MkClusterChecker "ns" "c" (3 * time_Second) 4).
Proof.
  intros s.
  destruct (@elections_supervise _ etcd_elector etcd_elector_laws _ demo_engine demo_engine_laws demo_failover "me" s (seeing s demo_cstate))
    as (s' & σ' & Hr & _ & _ & _ & _ & Hc); [|reflexivity..|].
  - apply preach_start; [|exact demo_cstarted].
    eapply eready_step; [| |apply Etcd.watch_leader]; [|exact I]. eapply eready_step; [| |apply Etcd.offer_first]; [|exact I].
    eapply eready_step; [| |apply Etcd.session_created]; [|exact I]. eapply eready_step; [| |apply Etcd.top_go]; [|exact I].
    apply eready_start. constructor.
  - exists s', σ'. split; [exact Hr|]. refine (eq_trans (Hc "ns" "c" eq_refl eq_refl _) _); vm_compute; reflexivity.
Defined.
