(* ===== verification/GoStart.v ===== *)
(** * Start-up and configuration (cmd/server/main.go, config/config.go,
    server/server.go, logger/logger.go, util/network.go, controller/controller.go)

    From the environment and the configuration file to a running server, with
    every way in which [main] returns early or panics; and the life of the
    controller, from [New] to [Close], beside its two goroutines. *)

From S2P Require Import Prelude JsString JsNumber JsValue Effects Api Slots GoShard GoCluster GoJson GoEngine GoStore.
From S2P Require Import GoController GoServer GoRaft GoLeader GoElect.

(** ** Addresses (util/network.go) *)

Lemma split_no_sep c s : Forall (fun p => any_char (Ascii.eqb c) p = false) (split c s).
Proof.
  induction s as [|d s IH]; cbn; [by repeat constructor|]. destruct (split_cons c s) as (p & ps & Ep). rewrite Ep in *.
  inversion_clear IH as [|? ? H1 H2].
  destruct (Ascii.eqb c d) eqn:Ed; [by repeat constructor|]. constructor; [|done]. cbn. by rewrite Ed.
Qed.

Section Network.
Context (ParseIP LookupHost : string -> bool).

Definition IsIP (ip : string) : bool := ParseIP ip.
Definition IsDomain (domain : string) : bool := LookupHost domain.

Definition IsPort (port : string) : bool :=
  match Atoi port with None => false | Some p => (0 <? p) && (p <? 65536) end.

Definition IsHostPort (s : string) : bool :=
  match split ":" s with
  | [host; port] => (IsIP host || IsDomain host) && IsPort port
  | _ => false
  end.

(** An address is a host that is known and a port that is written as a number. *)
Lemma IsHostPort_spec s :
  IsHostPort s = true <->
  exists host port p, s = host +:+ String ":" port /\ any_char (Ascii.eqb ":") host = false /\ any_char (Ascii.eqb ":") port = false /\
  (ParseIP host = true \/ LookupHost host = true) /\ Atoi port = Some p /\ 0 < p < 65536.
Proof.
  unfold IsHostPort, IsIP, IsDomain, IsPort. split.
  - intros Hs. destruct (split ":" s) as [|host [|port [|]]] eqn:Es; try done.
    apply andb_prop in Hs as [Hh Hp]. apply orb_prop in Hh. destruct (Atoi port) as [p|] eqn:Ep; [|done]. apply andb_prop in Hp as [H1 H2].
    pose proof (split_no_sep ":" s) as Hn. rewrite Es in Hn. inversion_clear Hn as [|? ? Hn1 Hn2]. inversion_clear Hn2 as [|? ? Hn2' _].
    exists host, port, p. split_and!; try done; try lia. by rewrite <- (join_split ":" s), Es.
  - intros (host & port & p & -> & Hh & Hp & Hk & Ha & Hb). rewrite split_app by done. rewrite split_none by done. rewrite Ha.
    apply andb_true_intro. split; [by apply orb_true_intro|]. apply andb_true_intro. split; lia.
Qed.
End Network.

(** ** The configuration (config/config.go) *)

Record AdminConfig := MkAdmin { admin_Addr : string }.
Record LogConfig := MkLog {
  log_Level : string; log_Filename : string; log_MaxBackups : Z; log_MaxAge : Z; log_MaxSize : Z; log_Compress : bool }.

(** Sections are pointers, which a file may leave or set to null. *)
Record ControllerConfig := MkControllerConfig { cfg_FailOver : option FailOverConfig }.

Record Config := MkServerConfig {
  cf_Addr : string; cf_StorageType : string;
  cf_Etcd : option etcd_Config; cf_Zookeeper : option zk_Config; cf_Raft : option GoRaft.Config; cf_Consul : option consul_Config;
  cf_Admin : AdminConfig; cf_Controller : option ControllerConfig; cf_Log : option LogConfig }.

Definition defaultPort : Z := 9379.

Definition DefaultFailOverConfig : FailOverConfig := MkFailOver 3 5.

(** An address of an interface: whether it is a network, a loopback, of version 4,
    and its text. *)
Record iface_addr := MkIface { if_net : bool; if_loopback : bool; if_v4 : bool; if_text : string }.

Fixpoint first_local (addrs : list iface_addr) : string :=
  match addrs with
  | [] => ""
  | a :: addrs => if if_net a && negb (if_loopback a) && if_v4 a then if_text a else first_local addrs
  end.

Definition getLocalIP (addrs : go_error + list iface_addr) : string :=
  match addrs with inl _ => "" | inr addrs => first_local addrs end.

(** The environment of the process: two variables, and its interfaces. *)
Record environment := MkEnv { env_HOST : string; env_PORT : string; env_addrs : go_error + list iface_addr }.

Section Start.
(** The validator's tcp_addr. *)
Context (tcp_addr : string -> bool).

Definition getAddr (v : environment) (addr : string) : string :=
  let fromEnv := env_HOST v +:+ ":" +:+ env_PORT v in
  if tcp_addr fromEnv then fromEnv
  else if negb (String.eqb addr "") then addr
  else
  let ip := getLocalIP (env_addrs v) in
  if negb (String.eqb ip "") then ip +:+ ":" +:+ Z_to_string defaultPort
  else "127.0.0.1:" +:+ Z_to_string defaultPort.

Definition default_etcd : etcd_Config := MkEtcdConfig ["127.0.0.1:2379"] "" "" (MkTLS false "" "" "") "".

Definition Default (v : environment) : Config :=
  MkServerConfig (getAddr v "") "" (Some default_etcd) None None None (MkAdmin "") (Some (MkControllerConfig (Some DefaultFailOverConfig))) None.
End Start.

(** [None] is a panic, over a section that is null.  The warning about addresses
    that other processes cannot reach has no effect on the result. *)
Definition Validate (c : Config) : option (option go_error) :=
  match cf_Controller c with
  | Some (MkControllerConfig (Some f)) =>
      Some (if MaxPingCount f <? 3 then Some (errors_New "max ping count required >= 3")
            else if PingIntervalSeconds f <? 1 then Some (errors_New "ping interval required >= 1s")
            else None)
  | _ => None
  end.

Definition warns_of_host (c : Config) : bool :=
  match split ":" (cf_Addr c) with
  | host :: _ => String.eqb host "0.0.0.0" || String.eqb host "127.0.0.1"
  | [] => false
  end.

(** ** Log files (logger/logger.go) *)

(** [writable] is whether the test line could be written; the levels that are
    let through are levels of the library. *)
Definition InitLoggerRotate (writable : bool) (level filename : string) (maxBackups maxAge maxSize : Z) : option go_error :=
  if (String.length filename =? 0)%nat then None
  else if negb (String.eqb level "info") && negb (String.eqb level "warn") && negb (String.eqb level "error")
  then Some (errors_New "log level must be one of info,warn,error")
  else if (100 <? maxBackups) || (maxBackups <? 10) then Some (errors_New "log max_backups must be between 10 and 100")
  else if (30 <? maxAge) || (maxAge <? 1) then Some (errors_New "log max_age must be between 1 and 30")
  else if (500 <? maxSize) || (maxSize <? 100) then Some (errors_New "log max_size must be between 100 and 500")
  else if writable then None else Some (errors_New ("test writing to log file " +:+ filename +:+ " failed")).

(** ** The server (server/server.go) *)

(** The engines, as their packages make them; [raft.New] takes no identifier. *)
Record makers (P : Type) := MkMakers {
  new_etcd : string -> etcd_Config -> go_error + P;
  new_zookeeper : string -> zk_Config -> go_error + P;
  new_raft : GoRaft.Config -> go_error + P;
  new_consul : string -> consul_Config -> go_error + P }.
Arguments new_etcd {P}. Arguments new_zookeeper {P}. Arguments new_raft {P}. Arguments new_consul {P}.

Record Server (P : Type) := MkServer { srv_store : P; srv_config : Config }.
Arguments MkServer {P}. Arguments srv_store {P}. Arguments srv_config {P}.

(** The switch over the type of the store.  [None] is a panic: a section that is
    null is dereferenced by [New]. *)
Definition make_engine {P} (m : makers P) (cfg : Config) (sessionID : string) : option (go_error + P) :=
  let storageType := toLowerCase (cf_StorageType cfg) in
  if String.eqb storageType "etcd" then new_etcd m sessionID <$> cf_Etcd cfg
  else if String.eqb storageType "zookeeper" then new_zookeeper m sessionID <$> cf_Zookeeper cfg
  else if String.eqb storageType "raft" then new_raft m <$> cf_Raft cfg
  else if String.eqb storageType "consul" then new_consul m sessionID <$> cf_Consul cfg
  else new_etcd m sessionID <$> cf_Etcd cfg.

Definition NewServer {P} (m : makers P) (random : string) (cfg : Config) : option (go_error + Server P) :=
  match make_engine m cfg (GenerateSessionID random (cf_Addr cfg)) with
  | None => None
  | Some (inl err) => Some (inl err)
  | Some (inr persist) => Some (inr (MkServer persist cfg))
  end.

(** [Start] waits for the engine and for the controller, and then serves; [Stop]
    closes the controller and the HTTP server, and not the engine. *)
Inductive call := ControllerStart | WaitForReady | StartAPIServer | ControllerClose | HttpShutdown | StoreClose.

Definition Start (ready : bool) : option go_error * list call :=
  if negb ready then (Some (errors_New "the cluster store is not ready"), [])
  else (None, [ControllerStart; WaitForReady; StartAPIServer]).

Definition Stop : list call := [ControllerClose; HttpShutdown].

(** ** The program (cmd/server/main.go) *)

Inductive signal := SIGHUP | SIGINT | SIGTERM | SIGUSR1.

Definition handleSignals (sig : signal) : bool := match sig with SIGINT | SIGTERM => true | _ => false end.

(** The first signal of a list that closes the server. *)
Fixpoint registerSignal (sigs : list signal) : option signal :=
  match sigs with [] => None | sig :: sigs => if handleSignals sig then Some sig else registerSignal sigs end.

(** How [main] goes: it returns with a message, panics, still waits for the engine
    to be ready, or serves. *)
Inductive run (P : Type) := Returned (message : string) | Panicked | Waiting | Served (srv : Server P).
Arguments Returned {P}. Arguments Panicked {P}. Arguments Waiting {P}. Arguments Served {P}.

Section Main.
Context {P : Type} (tcp_addr : string -> bool) (ReadFile : string -> go_error + string)
  (Unmarshal : string -> Config -> go_error + Config) (writable listens : string -> bool) (m : makers P).

(** The goroutine of startAPIServer panics, which ends the process, when
    ListenAndServe returns an error: [listens] is whether the address can be
    listened on. *)
Definition startAPIServer (srv : Server P) : run P :=
  if listens (cf_Addr (srv_config srv)) then Served srv else Panicked.

(** [isReady] is what the engine's [IsReady] meets; [random] are the characters of
    the session. *)
Definition serve_config (random : string) (isReady : P -> option bool) (cfg : Config) : run P :=
  match Validate cfg with
  | None => Panicked
  | Some (Some _) => Returned "Failed to validate the config file"
  | Some None =>
      let logging := match cf_Log cfg with
      | Some l => if negb (String.eqb (log_Filename l) "")
          then InitLoggerRotate (writable (log_Filename l)) (log_Level l) (log_Filename l) (log_MaxBackups l) (log_MaxAge l) (log_MaxSize l)
          else None
      | None => None
      end in
      match logging with
      | Some _ => Returned "Failed to init the log rotate"
      | None =>
          match NewServer m random cfg with
          | None => Panicked
          | Some (inl _) => Returned "Failed to create the server"
          | Some (inr srv) =>
              match isReady (srv_store srv) with
              | None => Waiting
              | Some ready => match Start ready with (Some _, _) => Returned "Failed to start the server" | (None, _) => startAPIServer srv end
              end
          end
      end
  end.

Definition main (configPath random : string) (v : environment) (isReady : P -> option bool) : run P :=
  let cfg := Default tcp_addr v in
  if (String.length configPath =? 0)%nat then serve_config random isReady cfg
  else
  match ReadFile configPath with
  | inl _ => Returned "Failed to read the config file"
  | inr content =>
      match Unmarshal content cfg with
      | inl _ => Returned "Failed to unmarshal the config file"
      | inr cfg => serve_config random isReady cfg
      end
  end.

End Main.

(** ** What a server was started with *)

Definition log_ok (writable : string -> bool) (l : LogConfig) : Prop :=
  log_Filename l = "" \/
  ((log_Level l = "info" \/ log_Level l = "warn" \/ log_Level l = "error") /\ 10 <= log_MaxBackups l <= 100 /\
   1 <= log_MaxAge l <= 30 /\ 100 <= log_MaxSize l <= 500 /\ writable (log_Filename l) = true).

Definition config_ok (writable : string -> bool) (cfg : Config) : Prop :=
  (exists f, cf_Controller cfg = Some (MkControllerConfig (Some f)) /\ 3 <= MaxPingCount f /\ 1 <= PingIntervalSeconds f) /\
  (forall l, cf_Log cfg = Some l -> log_ok writable l).

Lemma Validate_spec cfg :
  Validate cfg = Some None <->
  exists f, cf_Controller cfg = Some (MkControllerConfig (Some f)) /\ 3 <= MaxPingCount f /\ 1 <= PingIntervalSeconds f.
Proof.
  unfold Validate. split.
  - destruct (cf_Controller cfg) as [[[f|]]|]; try done. destruct (Z.ltb_spec (MaxPingCount f) 3); [done|].
    destruct (Z.ltb_spec (PingIntervalSeconds f) 1); [done|]. intros _. by exists f.
  - intros (f & -> & H1 & H2). destruct (Z.ltb_spec (MaxPingCount f) 3); [lia|]. destruct (Z.ltb_spec (PingIntervalSeconds f) 1); [lia|done].
Qed.

Lemma InitLoggerRotate_spec w level filename b a s :
  filename <> "" ->
  InitLoggerRotate w level filename b a s = None <->
  (level = "info" \/ level = "warn" \/ level = "error") /\ 10 <= b <= 100 /\ 1 <= a <= 30 /\ 100 <= s <= 500 /\ w = true.
Proof.
  intros Hf. unfold InitLoggerRotate. destruct filename as [|x filename]; [done|]. cbn [String.length Nat.eqb].
  assert (Hl : negb (String.eqb level "info") && negb (String.eqb level "warn") && negb (String.eqb level "error") = false <->
    level = "info" \/ level = "warn" \/ level = "error").
  { destruct (String.eqb_spec level "info"), (String.eqb_spec level "warn"), (String.eqb_spec level "error"); cbn; naive_solver. }
  destruct (_ && _ && _) eqn:El; [split; [done|]; intros (? & _); naive_solver|].
  destruct ((100 <? b) || _) eqn:Eb; [split; [done|lia]|]. destruct ((30 <? a) || _) eqn:Ea; [split; [done|lia]|].
  destruct ((500 <? s) || _) eqn:Es; [split; [done|lia]|]. apply orb_false_elim in Eb, Ea, Es.
  destruct w; [|split; [done|naive_solver]]. split; [|done]. intros _. split; [naive_solver|]. lia.
Qed.

(** Where the configuration comes from: the defaults, or a file that could be read
    and decoded over them. *)
Definition config_read (tcp_addr : string -> bool) (ReadFile : string -> go_error + string)
    (Unmarshal : string -> Config -> go_error + Config) (configPath : string) (v : environment) (cfg : Config) : Prop :=
  (configPath = "" /\ cfg = Default tcp_addr v) \/
  (configPath <> "" /\ exists content,
     ReadFile configPath = inr content /\ Unmarshal content (Default tcp_addr v) = inr cfg).

(** The engine of a type of store, whose case does not matter: each type has its
    package and its section, and every other type is etcd. *)
Inductive engine_made {P} (m : makers P) (id : string) (cfg : Config) (p : P) : Prop :=
| made_zookeeper c :
    toLowerCase (cf_StorageType cfg) = "zookeeper" -> cf_Zookeeper cfg = Some c -> new_zookeeper m id c = inr p ->
    engine_made m id cfg p
| made_raft c :
    toLowerCase (cf_StorageType cfg) = "raft" -> cf_Raft cfg = Some c -> new_raft m c = inr p -> engine_made m id cfg p
| made_consul c :
    toLowerCase (cf_StorageType cfg) = "consul" -> cf_Consul cfg = Some c -> new_consul m id c = inr p ->
    engine_made m id cfg p
| made_etcd c :
    toLowerCase (cf_StorageType cfg) ∉ ["zookeeper"; "raft"; "consul"] -> cf_Etcd cfg = Some c ->
    new_etcd m id c = inr p -> engine_made m id cfg p.

Lemma make_engine_spec {P} (m : makers P) cfg id p : make_engine m cfg id = Some (inr p) <-> engine_made m id cfg p.
Proof.
  unfold make_engine. cbv zeta. split.
  - destruct (String.eqb_spec (toLowerCase (cf_StorageType cfg)) "etcd") as [E|_];
      [|destruct (String.eqb_spec (toLowerCase (cf_StorageType cfg)) "zookeeper");
        [|destruct (String.eqb_spec (toLowerCase (cf_StorageType cfg)) "raft");
          [|destruct (String.eqb_spec (toLowerCase (cf_StorageType cfg)) "consul")]]];
      intros (c & Hp & Hc)%fmap_Some; symmetry in Hp; eauto using engine_made.
    + apply (made_etcd _ _ _ _ c); [|done..]. rewrite E. rewrite !elem_of_cons, elem_of_nil. naive_solver.
    + apply (made_etcd _ _ _ _ c); [|done..]. rewrite !elem_of_cons, elem_of_nil. naive_solver.
  - intros [c -> -> Hp|c -> -> Hp|c -> -> Hp|c Ht -> Hp]; [cbn; by rewrite Hp..|].
    assert (Hn : forall t, t ∈ ["zookeeper"; "raft"; "consul"] -> String.eqb (toLowerCase (cf_StorageType cfg)) t = false).
    { intros t Hin. apply String.eqb_neq. intros E. by rewrite E in Ht. }
    rewrite (Hn "zookeeper"), (Hn "raft"), (Hn "consul") by (rewrite !elem_of_cons; auto). cbn. rewrite Hp. by destruct (String.eqb _ "etcd").
Qed.

Lemma serve_config_spec {P} writable listens (m : makers P) random isReady cfg srv :
  serve_config writable listens m random isReady cfg = Served srv <->
  srv_config srv = cfg /\ config_ok writable cfg /\
  engine_made m (GenerateSessionID random (cf_Addr cfg)) cfg (srv_store srv) /\ isReady (srv_store srv) = Some true /\
  listens (cf_Addr cfg) = true.
Proof.
  rewrite <- make_engine_spec. unfold serve_config, config_ok. destruct (Validate cfg) as [[err|]|] eqn:Ev.
  1,3: split; [done|]; intros (_ & [Hf _] & _); apply Validate_spec in Hf; congruence.
  set (logging := match cf_Log cfg with Some _ => _ | None => _ end).
  assert (Hlog : logging = None <-> forall l, cf_Log cfg = Some l -> log_ok writable l).
  { subst logging. destruct (cf_Log cfg) as [l|]; [|naive_solver]. unfold log_ok.
    destruct (String.eqb_spec (log_Filename l) ""); cbn [negb]; [naive_solver|]. rewrite InitLoggerRotate_spec by done. naive_solver. }
  apply Validate_spec in Ev. destruct logging; [split; [done|]; intros (_ & [_ Hl] & _); by apply Hlog in Hl|].
  pose proof (proj1 Hlog eq_refl) as Hl. clear Hlog.
  unfold NewServer. destruct (make_engine _ _ _) as [[err|p]|]; [naive_solver| |naive_solver]. cbn [srv_store].
  destruct srv as [p' cfg']. cbn. destruct (isReady p) as [[]|] eqn:Er; cbn; [|naive_solver..].
  unfold startAPIServer. cbn. destruct (listens (cf_Addr cfg)) eqn:El; naive_solver.
Qed.

Lemma main_serve_config {P} tcp_addr ReadFile Unmarshal writable listens (m : makers P) configPath random v isReady srv :
  main tcp_addr ReadFile Unmarshal writable listens m configPath random v isReady = Served srv <->
  exists cfg, config_read tcp_addr ReadFile Unmarshal configPath v cfg /\
    serve_config writable listens m random isReady cfg = Served srv.
Proof.
  unfold main, config_read. destruct configPath as [|x configPath]; cbn [String.length Nat.eqb].
  - split; [intros Hs; eexists; split; [by left|exact Hs]|]. by intros (cfg & [[_ ->]|[? _]] & Hs).
  - destruct (ReadFile _) as [err|content] eqn:Er.
    { split; [done|]. by intros (cfg & [[? _]|(_ & content & Hc & _)] & _). }
    destruct (Unmarshal content _) as [err|cfg] eqn:Eu.
    + split; [done|]. intros (cfg & [[? _]|(_ & content' & Hc & Hu)] & _); [done|]. simplify_eq. congruence.
    + split; [intros Hs; exists cfg; split; [right; split; [done|by exists content]|exact Hs]|].
      intros (cfg' & [[? _]|(_ & content' & Hc & Hu)] & Hs); [done|]. simplify_eq.
      assert (cfg' = cfg) as -> by congruence. done.
Qed.

Lemma main_config_ok {P} tcp_addr ReadFile Unmarshal writable listens (m : makers P) configPath random v isReady srv :
  main tcp_addr ReadFile Unmarshal writable listens m configPath random v isReady = Served srv ->
  exists f, cf_Controller (srv_config srv) = Some (MkControllerConfig (Some f)) /\ 3 <= MaxPingCount f /\ 1 <= PingIntervalSeconds f.
Proof. intros (cfg & _ & (-> & [Hf _] & _)%serve_config_spec)%main_serve_config. done. Qed.

Lemma WithPingInterval_least i : 200 * time_Millisecond <= WithPingInterval i.
Proof. unfold WithPingInterval. destruct (Z.ltb_spec i (200 * time_Millisecond)); lia. Qed.

(** C17. The server starts exactly when it should.  [main] serves if and only if
    its configuration is the default one, without a file, or a file that could be
    read and decoded over it; asks for at least three failed probes and an interval
    of at least a second; has a log section within its bounds or none; the engine
    that belongs to its type of store (zookeeper, raft, consul, and etcd for every
    other type), with the section of that type, could be made with a session that
    names the address; that engine became ready; and the address can be listened
    on.  It serves that configuration and that engine. *)
Theorem main_serves {P} tcp_addr ReadFile Unmarshal writable listens (m : makers P) configPath random v isReady srv :
  main tcp_addr ReadFile Unmarshal writable listens m configPath random v isReady = Served srv <->
  config_read tcp_addr ReadFile Unmarshal configPath v (srv_config srv) /\ config_ok writable (srv_config srv) /\
  engine_made m (random +:+ "/" +:+ cf_Addr (srv_config srv)) (srv_config srv) (srv_store srv) /\
  isReady (srv_store srv) = Some true /\ listens (cf_Addr (srv_config srv)) = true.
Proof.
  rewrite main_serve_config. split.
  - intros (cfg & Hc & Hs%serve_config_spec). naive_solver.
  - intros (Hc & Hs). exists (srv_config srv). split; [done|]. by apply serve_config_spec.
Qed.

(** A file that asks for zookeeper in another case, over makers that tell which
    engine they made. *)
Definition demo_file (content : string) (c : Config) : go_error + Config :=
  inr (MkServerConfig "h:1" content (cf_Etcd c) (Some (MkZkConfig ["z:2181"] "" "" "")) None None (cf_Admin c) (cf_Controller c) None).

Lemma main_serves_witness :
  let m := MkMakers (string * string) (fun id _ => inr ("etcd", id)) (fun id _ => inr ("zookeeper", id)) (fun _ => inr ("raft", ""))
             (fun id _ => inr ("consul", id)) in
  exists srv, srv_store srv = ("zookeeper", "abcdefgh/h:1") /\
    main (fun _ => false) (fun _ => inr "ZooKeeper") demo_file (fun _ => true) (fun _ => true) m "config.yaml" "abcdefgh"
      (MkEnv "" "" (inr [])) (fun _ => Some true) = Served srv.
Proof.
  intros m. eexists (MkServer ("zookeeper", "abcdefgh/h:1") _). split; [reflexivity|].
  apply main_serves. split; [right; split; [discriminate|]; exists "ZooKeeper"; split; reflexivity|].
  split; [split; [by eexists|done]|]. split; [|done]. eapply made_zookeeper; reflexivity.
Defined.

(** C18. Checkers probe as configured.  Of a server that [main] serves, every
    checker waits between probes exactly as long as the configuration says, as
    long as the interval fits in 64 bits of nanoseconds, and never less than 200
    milliseconds; and it fails a node over after exactly the configured number of
    failures. *)
Theorem served_checkers {P} tcp_addr ReadFile Unmarshal writable listens (m : makers P) configPath random v isReady srv :
  main tcp_addr ReadFile Unmarshal writable listens m configPath random v isReady = Served srv ->
  exists f, cf_Controller (srv_config srv) = Some (MkControllerConfig (Some f)) /\
    forall ns c, let k := with_config f (NewClusterChecker ns c) in
      cc_namespace k = ns /\ cc_clusterName k = c /\ cc_maxFailureCount k = MaxPingCount f /\
      200 * time_Millisecond <= cc_pingInterval k /\
      (PingIntervalSeconds f <= (2 ^ 63 - 1) `div` time_Second -> cc_pingInterval k = PingIntervalSeconds f * time_Second).
Proof.
  intros Hm. destruct (main_config_ok _ _ _ _ _ _ _ _ _ _ _ Hm) as (f & Hf & Hc & Hp). exists f. split; [done|]. intros ns c k. subst k.
  unfold with_config. cbn [cc_namespace cc_clusterName cc_maxFailureCount cc_pingInterval NewClusterChecker].
  do 2 (split; [done|]). split; [unfold WithMaxFailureCount; destruct (Z.ltb_spec (MaxPingCount f) 1); lia|].
  split; [apply WithPingInterval_least|]. intros Hb. change ((2 ^ 63 - 1) `div` time_Second) with 9223372036 in Hb.
  unfold time_Second. rewrite wrap64_id by (unfold int64; lia). unfold WithPingInterval, time_Millisecond.
  destruct (Z.ltb_spec (PingIntervalSeconds f * 10 ^ 9) (200 * 10 ^ 6)); lia.
Qed.

(** The default configuration over an etcd that is there. *)
Definition demo_makers : makers string :=
  MkMakers string (fun id _ => inr id) (fun id _ => inr id) (fun _ => inr "") (fun id _ => inr id).
Definition demo_env : environment := MkEnv "" "" (inr []).

Lemma served_checkers_witness :
  exists srv, main (fun _ => false) (fun _ => inl err_no_id) (fun _ _ => inl err_no_id) (fun _ => false) (fun _ => true) demo_makers "" "abcdefgh" demo_env
    (fun _ => Some true) = Served srv /\ srv_store srv = "abcdefgh/127.0.0.1:9379" /\
    cc_pingInterval (with_config DefaultFailOverConfig (NewClusterChecker "ns" "c")) = 3 * time_Second.
Proof.
  eexists. split; [reflexivity|]. split; [vm_compute; reflexivity|].
  destruct (served_checkers (fun _ => false) (fun _ => inl err_no_id) (fun _ _ => inl err_no_id) (fun _ => false) (fun _ => true) demo_makers "" "abcdefgh" demo_env
    (fun _ => Some true) _ eq_refl) as (f & Hf & Hk). assert (f = DefaultFailOverConfig) as -> by (injection Hf; intros <-; reflexivity).
  destruct (Hk "ns" "c") as (_ & _ & _ & _ & Hi). apply Hi. vm_compute. discriminate.
Defined.

(** ** What start-up does not do *)

(** An interval of more than about 292 years wraps around, and probes come every
    200 milliseconds. *)
Lemma ping_interval_overflows ns c :
  cc_pingInterval (with_config (MkFailOver 9223372037 5) (NewClusterChecker ns c)) = 200 * time_Millisecond.
Proof. by vm_compute. Qed.

(** The variables of the environment are looked at before the file is read: an
    address of the file replaces them. *)
Lemma file_address_wins tcp_addr v (addr : string) cfg :
  let Unmarshal (content : string) (c : Config) : go_error + Config :=
    inr (MkServerConfig addr (cf_StorageType c) (cf_Etcd c) (cf_Zookeeper c) (cf_Raft c) (cf_Consul c) (cf_Admin c) (cf_Controller c) (cf_Log c)) in
  tcp_addr (env_HOST v +:+ ":" +:+ env_PORT v) = true ->
  cf_Addr (Default tcp_addr v) = env_HOST v +:+ ":" +:+ env_PORT v /\
  (config_read tcp_addr (fun _ => inr "") Unmarshal "config.yaml" v cfg -> cf_Addr cfg = addr).
Proof.
  intros U Ht. split; [cbn; unfold getAddr; by rewrite Ht|]. intros [[? _]|(_ & content & _ & Hu)]; [done|].
  by injection Hu as <-.
Qed.

(** An address that is in use ends the process by a panic, after the controller has
    been started: never by a message. *)
Lemma busy_address_panics {P} (srv : Server P) : startAPIServer (fun _ => false) srv = Panicked.
Proof. reflexivity. Qed.

(** A type of store without its section ends the process by a panic; a misspelt
    one uses etcd. *)
Lemma missing_section_panics {P} (m : makers P) random addr :
  NewServer m random (MkServerConfig addr "zookeeper" (Some default_etcd) None None None (MkAdmin "") None None) = None.
Proof. reflexivity. Qed.

Lemma unknown_store_is_etcd {P} (m : makers P) cfg id :
  toLowerCase (cf_StorageType cfg) <> "zookeeper" -> toLowerCase (cf_StorageType cfg) <> "raft" ->
  toLowerCase (cf_StorageType cfg) <> "consul" -> make_engine m cfg id = new_etcd m id <$> cf_Etcd cfg.
Proof.
  intros H1 H2 H3. unfold make_engine. cbv zeta. apply String.eqb_neq in H1, H2, H3. rewrite H1, H2, H3.
  by destruct (String.eqb (toLowerCase (cf_StorageType cfg)) "etcd").
Qed.

(** The engine stays open: its lock is held until the service forgets the session. *)
Lemma Stop_leaves_store : StoreClose ∉ Stop.
Proof. unfold Stop. set_solver. Qed.

(** ** The life of the controller (controller/controller.go) *)

Inductive life := stateInit | stateRunning | stateClosed.

(** [New], [Start] and [Close]: the state, and whether anything was done. *)
Definition life_New : life := stateInit.
Definition life_Start (l : life) : life * bool := match l with stateInit => (stateRunning, true) | _ => (l, false) end.
Definition life_Close (l : life) : life * bool := match l with stateRunning => (stateClosed, true) | _ => (l, false) end.

Inductive life_call := CallStart | CallClose.
Definition life_step (l : life) (c : life_call) : life * bool := match c with CallStart => life_Start l | CallClose => life_Close l end.

(** The goroutines that calls in any order start, and the times they close. *)
Fixpoint life_run (l : life) (cs : list life_call) : list life_call :=
  match cs with
  | [] => []
  | c :: cs => let '(l', done) := life_step l c in (if done then [c] else []) ++ life_run l' cs
  end.

(** Whatever is called, the loops are started at most once and closed at most
    once, after that. *)
Lemma life_once cs : life_run life_New cs `prefix_of` [CallStart; CallClose].
Proof.
  assert (Hc : forall cs, life_run stateClosed cs = []) by (intros l; induction l as [|[]]; done).
  assert (Hr : forall cs, life_run stateRunning cs `prefix_of` [CallClose]).
  { intros l. induction l as [|[] l IH]; cbn; [by eexists|exact IH|]. by rewrite Hc. }
  unfold life_New. induction cs as [|[] cs IH]; cbn; [by eexists| |exact IH]. by apply prefix_cons.
Qed.

(** [Close] suspends before the loops are told to return: an event that was being
    handled starts a checker that nobody closes. *)
Definition Close_suspend {E} `{Engine E} (σ : @cstate E) : @cstate E :=
  CState (c_store σ) (c_leader σ) (c_signal σ) (c_prev σ) (c_phase σ) (suspend (c_clusters σ)) (c_queue σ) (c_handling σ) (c_missed σ).

Lemma close_leaves_checker {E} `{EngineLaws E} cfg id (e : E) s m x ns c :
  let ev := MkEvent ns c EventCluster CommandCreate in
  exists σ', cstep cfg id (Close_suspend (CState e id s id AtSelect m [] (Some ev) x)) σ' /\ at_rest σ' /\
    c_clusters σ' = {[ checker_key ns c := with_config cfg (NewClusterChecker ns c) ]}.
Proof.
  intros ev. eexists. split; [apply CAct|]. split; [done|]. cbn. unfold suspend, addCluster, getChecker. by rewrite lookup_empty.
Qed.

(** ** Counters of requests (metrics/setup.go, server/middleware/middleware.go) *)

(** Host, route, method and status. *)
Notation metric_labels := (string * string * string * string)%type.

Record performanceMetrics := MkMetrics {
  Latencies : gmap metric_labels (list Z); HTTPCodes : gmap metric_labels Z; Payload : gmap metric_labels Z }.

Definition setupMetrics : performanceMetrics := MkMetrics ∅ ∅ ∅.

(** A request that was answered: its route, empty if there was none, the status and
    size of the answer, and the milliseconds it took. *)
Record served_request := MkServed {
  sr_host : string; sr_fullPath : string; sr_method : string; sr_status : Z; sr_size : Z; sr_latency : Z }.

Definition metric_uri (q : served_request) : string :=
  if (sr_status q =? 404) && String.eqb (sr_fullPath q) "" then "/not_found" else sr_fullPath q.

Definition labels_of (q : served_request) : metric_labels := (sr_host q, metric_uri q, sr_method q, Z_to_string (sr_status q)).

Definition add_to (l : metric_labels) (z : Z) (m : gmap metric_labels Z) : gmap metric_labels Z :=
  <[l := default 0 (m !! l) + z]> m.

Definition CollectMetrics (q : served_request) (x : performanceMetrics) : performanceMetrics :=
  let l := labels_of q in
  MkMetrics (<[l := default [] (Latencies x !! l) ++ [sr_latency q]]> (Latencies x))
    (add_to l 1 (HTTPCodes x))
    (if 0 <? sr_size q then add_to l (sr_size q) (Payload x) else Payload x).

Definition collected (qs : list served_request) : performanceMetrics := fold_left (fun x q => CollectMetrics q x) qs setupMetrics.

Lemma lookup_add_to l l' z m : default 0 (add_to l z m !! l') = default 0 (m !! l') + if decide (l = l') then z else 0.
Proof. unfold add_to. case_decide as Hd; [subst; by rewrite lookup_insert_eq|]. rewrite lookup_insert_ne by done. lia. Qed.

(** Every request is counted once, under the labels of its route and its answer;
    the latencies are those of the requests, in order; the payload is the sum of
    what was written. *)
Theorem metrics_counted qs l :
  let mine := List.filter (fun q => bool_decide (labels_of q = l)) qs in
  default 0 (HTTPCodes (collected qs) !! l) = Z.of_nat (length mine) /\
  default [] (Latencies (collected qs) !! l) = map sr_latency mine /\
  default 0 (Payload (collected qs) !! l) = sumZ (map (fun q => Z.max 0 (sr_size q)) mine).
Proof.
  induction qs as [|q qs IH] using rev_ind; [done|]. cbv zeta in *. unfold collected in *. rewrite fold_left_app, List.filter_app.
  cbn [fold_left List.filter]. set (x := fold_left _ qs _) in *. destruct IH as (H1 & H2 & H3). unfold CollectMetrics.
  cbn [HTTPCodes Latencies Payload]. rewrite lookup_add_to, H1, length_app, !map_app, sumZ_app.
  destruct (bool_decide_reflect (labels_of q = l)) as [<-|Hne].
  - rewrite decide_True, lookup_insert_eq by done. cbn [default length map sumZ fold_right id]. rewrite H2.
    split; [lia|]. split; [done|]. destruct (Z.ltb_spec 0 (sr_size q)); [rewrite lookup_add_to, decide_True, H3 by done|rewrite H3]; lia.
  - rewrite decide_False, lookup_insert_ne by done. cbn [length map sumZ fold_right]. rewrite app_nil_r.
    split; [lia|]. split; [done|]. destruct (0 <? sr_size q); [rewrite lookup_add_to, decide_False by done|]; lia.
Qed.
