(* ===== verification/Landing.v ===== *)
(** * Landing page (webui/src/app/page.tsx)

    The page at the root of the site: a hero with a terminal that types a script by
    itself, the features, the description of the controller with its benefits, the
    resources, and two buttons that lead to the namespaces.

    Three timers drive it: an animation frame follows the scroll position, one
    interval blinks the cursor, one types the next character.  The index of the next
    character lives in a mutable reference ([terminalRef]), the cursor in the state
    of the component. *)

From Stdlib Require Import QArith Qabs Qminmax Lqa.
From S2P Require Import Prelude JsString JsNumber JsValue Effects View.
Local Open Scope nat_scope.

(** ** Data *)

Record Line := MkLine { text : string; className : string }.

Definition terminalLines : list Line :=
  [MkLine "$ redis-cli -p 6666" "text-green-400";
   MkLine ("127.0.0.1:6666> SET mykey " +:+ dq +:+ "Hello Kvrocks" +:+ dq) "text-blue-400";
   MkLine "OK" "text-yellow-400";
   MkLine "127.0.0.1:6666> GET mykey" "text-blue-400";
   MkLine (dq +:+ "Hello Kvrocks" +:+ dq) "text-yellow-400";
   MkLine "127.0.0.1:6666> INFO" "text-blue-400";
   MkLine "# Server" "text-yellow-200";
   MkLine "kvrocks_version:unstable" "text-yellow-400";
   MkLine "kvrocks_git_sha1:fffffff" "text-yellow-400"].

(** [isDarkMode] only chooses the colour. *)
Record Feature := MkFeature { f_title : string; f_description : string; f_icon : string; f_color : string; f_delay : Z }.

Definition features (isDarkMode : bool) : list Feature :=
  [MkFeature "Namespace" "Similar to Redis SELECT but equipped with token per namespace" "StorageIcon"
     (if isDarkMode then "#42a5f5" else "#1976d2") 100;
   MkFeature "Replication" "Async replication using binlog like MySQL" "SyncIcon"
     (if isDarkMode then "#ba68c8" else "#9c27b0") 200;
   MkFeature "High Availability" "Support Redis sentinel to failover when master or replica was failed"
     "SecurityIcon" (if isDarkMode then "#4caf50" else "#2e7d32") 300;
   MkFeature "Cluster" "Centralized management but accessible via any Redis cluster client" "HubIcon"
     (if isDarkMode then "#ff9800" else "#ed6c02") 400].

Record Resource := MkResource { r_title : string; r_description : string; r_icon : string; r_url : string; r_color : string }.

Definition resources : list Resource :=
  [MkResource "Documentation" "Learn how to use Kvrocks Controller" "MenuBookIcon"
     "https://kvrocks.apache.org/docs/" "#1976d2";
   MkResource "GitHub Repository" "View the source code on GitHub" "GitHubIcon"
     "https://github.com/apache/kvrocks-controller" "#333333"].

Record Benefit := MkBenefit { b_title : string; b_description : string; b_icon : string }.

Definition benefits : list Benefit :=
  [MkBenefit "Enterprise-grade reliability"
     "Built to handle mission-critical workloads with fault tolerance" "SecurityIcon";
   MkBenefit "High performance data access"
     "Optimized for speed with RocksDB as the storage engine" "SpeedIcon";
   MkBenefit "Simplified cluster management"
     "Intuitive UI for managing your distributed database infrastructure" "HubIcon";
   MkBenefit "Seamless Redis compatibility" "Works with existing Redis clients and tools" "CloudIcon"].

(** ** State and timers *)

(** [scrollY], [cursorPosition] and [cursorVisible] are states, [prevScrollY],
    [lineIndex] and [charIndex] references.  Scroll positions are rational: browsers
    report fractions of a pixel. *)
Record State := MkState {
  scrollY : Q;
  prevScrollY : Q;
  cursorX : nat;
  cursorY : nat;
  cursorVisible : bool;
  lineIndex : nat;
  charIndex : nat }.

Definition init : State := MkState 0 0 0 0 true 0 0.

(** The callback of an animation frame; [w] is [window.scrollY]. *)
Definition handleScroll (w : Q) (s : State) : State :=
  if negb (Qle_bool (Qabs (w - prevScrollY s)) 5)
  then MkState w w (cursorX s) (cursorY s) (cursorVisible s) (lineIndex s) (charIndex s)
  else s.

Definition blink (s : State) : State :=
  MkState (scrollY s) (prevScrollY s) (cursorX s) (cursorY s) (negb (cursorVisible s)) (lineIndex s) (charIndex s).

Definition typeNextChar (lines : list Line) (s : State) : State :=
  match lines !! lineIndex s with
  | Some line =>
      if charIndex s <=? String.length (text line)
      then MkState (scrollY s) (prevScrollY s) (charIndex s) (lineIndex s) (cursorVisible s)
             (lineIndex s) (charIndex s + 1)
      else MkState (scrollY s) (prevScrollY s) (cursorX s) (cursorY s) (cursorVisible s) (lineIndex s + 1) 0
  | None => s
  end.

Inductive Timer := Frame (w : Q) | Blink | Type_.

Definition fire (lines : list Line) (s : State) (t : Timer) : State :=
  match t with
  | Frame w => handleScroll w s
  | Blink => blink s
  | Type_ => typeNextChar lines s
  end.

(** The state after the timers have fired in some order. *)
Definition run (lines : list Line) (ts : list Timer) : State := fold_left (fire lines) ts init.

(** ** View *)

Inductive Event := GetStarted.

Definition handleGetStarted : prog State unit := emit (OPush "/namespaces").

Definition update (e : Event) : prog State unit := match e with GetStarted => handleGetStarted end.

(** What is shown of a line, and the cursor behind it. *)
Definition shownText (s : State) (index : nat) (line : Line) : string :=
  if index <? cursorY s then text line
  else if index =? cursorY s then String.substring 0 (cursorX s) (text line)
  else "".

Definition cursorView (s : State) (index : nat) (line : Line) : list (node Event) :=
  when ((index =? cursorY s) && cursorVisible s && (cursorX s <=? String.length (text line)))
    [El "span" [] []].

Definition lineView (s : State) (index : nat) (line : Line) : node Event :=
  El "div" [Attr "key" (nat_to_string index)] (Text (shownText s index line) :: cursorView s index line).

Definition terminalView (lines : list Line) (s : State) : list (node Event) := mapi (lineView s) lines.

(** The first section: title, the two buttons, the terminal and the logo. *)
Definition heroText : node Event :=
  El "Grid" []
    [El "Box" []
       [El "div" [] [El "span" [] [Text "Apache Software Foundation"]; El "span" [] []];
        El "Typography" [] [Text "Apache Kvrocks™ "; El "span" [] [Text "Controller"]];
        El "Typography" []
          [Text "A distributed key-value NoSQL database that uses RocksDB as storage engine and is compatible with Redis protocol."];
        El "div" []
          [El "Button" [OnClick GetStarted] [Text "Get Started"; El "ArrowForwardIcon" [] []];
           El "Button" [Href "https://github.com/apache/kvrocks"; Attr "target" "_blank"]
             [El "GitHubIcon" [] []; Text "GitHub"]];
        El "div" [] [El "div" [] [El "Typography" [] [Text "Compatible with Redis protocol"]]]]].

Definition heroTerminal (lines : list Line) (s : State) : node Event :=
  El "Grid" []
    [El "Box" []
       [El "div" []
          [El "div" []
             [El "div" [] [El "TerminalIcon" [] []; Text "redis-cli"];
              El "div" [] (terminalView lines s)];
           El "div" [] [El "Image" [Attr "alt" "Kvrocks Logo"] []]]]].

(** How far the hero and the features are moved, in pixels, by the position of the
    page. *)
Definition heroParallax (s : State) : Q := (scrollY s * (3 # 10))%Q.
Definition featureSectionStyle (s : State) : Q := Qminmax.Qmin 0 ((scrollY s - 300) * (1 # 20))%Q.

(** The features start at most fifteen pixels too high, move down with the page,
    and are in place once it has moved by 300 pixels. *)
Lemma features_settle s :
  (0 <= scrollY s)%Q ->
  (-(15) <= featureSectionStyle s)%Q /\ (featureSectionStyle s <= 0)%Q /\ (300 <= scrollY s -> featureSectionStyle s == 0)%Q.
Proof.
  intros H. unfold featureSectionStyle. split; [|split].
  - apply Qminmax.Q.min_glb; lra.
  - apply Qminmax.Q.le_min_l.
  - intros H3. apply Qminmax.Q.min_l. lra.
Qed.

Definition scrollHint : node Event :=
  El "div" [] [El "div" [] [El "Typography" [] [Text "Scroll to explore"]; El "svg" [] [El "path" [Attr "d" "M12 5V19M12 19L19 12M12 19L5 12"] []]]].

Definition heroSection (lines : list Line) (s : State) : node Event :=
  El "section" []
    [El "Container" []
       [El "Grid" [] [heroText; heroTerminal lines s];
        scrollHint]].

Definition featureView (f : Feature) : node Event :=
  El "Grid" []
    [El "Card" [Attr "transitionDelay" (Z_to_string (f_delay f) +:+ "ms")]
       [El "CardContent" []
          [El "div" [Attr "backgroundColor" (f_color f)] [El (f_icon f) [] []];
           El "Typography" [] [Text (f_title f)];
           El "Typography" [] [Text (f_description f)]]]].

Definition featureSection (isDarkMode : bool) : node Event :=
  El "section" []
    [El "Container" []
       [El "Box" []
          [El "div" [] [Text "Powerful Features"];
           El "Typography" [] [Text "Why Choose Kvrocks?"];
           El "div" [] [El "Typography" []
             [Text "Apache Kvrocks offers powerful capabilities that make it an excellent choice for your database needs"]]];
        El "Grid" [] (map featureView (features isDarkMode))]].

Definition benefitView (b : Benefit) : node Event :=
  El "div" []
    [El "div" [] [El (b_icon b) [] []];
     El "div" [] [El "Typography" [] [Text (b_title b)]; El "Typography" [] [Text (b_description b)]]].

(** The second terminal does not move: its lines are text, its cursor blinks with
    the one of the first. *)
Definition staticLines : list string :=
  ["$ redis-cli -p 6666"; "127.0.0.1:6666> SET mykey " +:+ dq +:+ "Hello Kvrocks" +:+ dq; "OK";
   "127.0.0.1:6666> GET mykey"; dq +:+ "Hello Kvrocks" +:+ dq; "127.0.0.1:6666> INFO"; "# Server";
   "redis_version:6.0.0"; "kvrocks_version:2.0.0"; "127.0.0.1:6666> KEYS *"; "1) " +:+ dq +:+ "mykey" +:+ dq;
   "127.0.0.1:6666> _"].

Definition aboutText : node Event :=
  El "Grid" []
    [El "Box" []
       [El "Typography" [] [Text "Simplified Management"];
        El "Typography" []
          [Text "Kvrocks Controller provides a web management interface for Apache Kvrocks clusters, enabling efficient distribution, monitoring, and maintenance of your Redis compatible database infrastructure."];
        El "div" [] (map benefitView benefits)]].

Definition aboutTerminal (s : State) : node Event :=
  El "Grid" []
    [El "Box" []
       [El "div" [] [El "div" [] [El "TerminalIcon" [] []; Text "Terminal"]];
        El "div" []
          [El "div" [] (map (fun t => El "div" [] [Text t]) staticLines);
           El "div" [Attr "opacity" (if cursorVisible s then "1" else "0")] []];
        El "div" []
          [El "Typography" [] [Text "Compatible with Redis protocol"];
           El "Chip" [] [El "CheckCircleOutlineIcon" [] []; Text "Ready"]]]].

Definition aboutSection (s : State) : node Event :=
  El "section" []
    [El "Container" []
       [El "Box" [] [El "div" [] [Text "Powerful Management"]; El "Typography" [] [Text "About Kvrocks Controller"]];
        El "Card" [] [El "CardContent" [] [El "Grid" [] [aboutText; aboutTerminal s]]]]].

Definition resourceView (index : nat) (r : Resource) : node Event :=
  El "Grid" []
    [El "Link" [Href (r_url r); Attr "target" "_blank"; Attr "rel" "noopener noreferrer"]
       [El "Card" [Attr "transitionDelay" (nat_to_string (index * 200) +:+ "ms")]
          [El "CardContent" []
             [El "div" [Attr "background" (r_color r)] [El (r_icon r) [] []];
              El "Typography" [] [Text (r_title r); El "LaunchIcon" [] []];
              El "Typography" [] [Text (r_description r)]]]]].

Definition resourceSection : node Event :=
  El "section" []
    [El "Container" []
       [El "Box" []
          [El "Typography" [] [Text "Resources"];
           El "div" [] [El "Typography" []
             [Text "Explore documentation and source code to get the most out of Kvrocks Controller"]]];
        El "Grid" [] (mapi resourceView resources)]].

Definition callSection : node Event :=
  El "section" []
    [El "Container" []
       [El "Card" []
          [El "CardContent" []
             [El "Typography" [] [Text "Ready to experience the power of Apache Kvrocks?"];
              El "div" [] [El "Typography" []
                [Text "Start managing your distributed database infrastructure with our intuitive and powerful controller interface."]];
              El "Button" [OnClick GetStarted] [Text "Get Started Now"; El "ArrowForwardIcon" [] []]]]]].

Definition view (isDarkMode : bool) (s : State) : list (node Event) :=
  [El "div" []
     [heroSection terminalLines s; featureSection isDarkMode; aboutSection s; resourceSection; callSection]].

(** ** The script is typed to its end *)

(** A line of [n] characters takes [n + 1] ticks to show and one to leave. *)
Definition ticks (lines : list Line) : nat := sum_list_with (fun l => String.length (text l) + 2) lines.

(** Ticks that are left when the reference is at character [c] of line [i]. *)
Definition remaining (lines : list Line) (i c : nat) : nat := ticks (drop i lines) - c.

(** Where the cursor is when the next character is [c] of line [i]: one behind, or
    still at the end of the line above. *)
Definition cursorAt (lines : list Line) (i c : nat) : nat * nat :=
  match c, i with
  | S c', _ => (c', i)
  | O, O => (0, 0)
  | O, S i' => (match lines !! i' with Some l => String.length (text l) | None => 0 end, i')
  end.

(** The invariant of the timers after [k] typing ticks. *)
Definition typing (lines : list Line) (k : nat) (s : State) : Prop :=
  scrollY s = prevScrollY s /\
  (cursorX s, cursorY s) = cursorAt lines (lineIndex s) (charIndex s) /\
  remaining lines (lineIndex s) (charIndex s) = ticks lines - k /\
  match lines !! lineIndex s with
  | Some l => charIndex s <= String.length (text l) + 1
  | None => lineIndex s = length lines /\ charIndex s = 0
  end.

Lemma remaining_here lines i l :
  lines !! i = Some l -> ticks (drop i lines) = (String.length (text l) + 2) + ticks (drop (S i) lines).
Proof. intros H. by rewrite (drop_S lines l i H). Qed.

Lemma typing_type lines k s : typing lines k s -> typing lines (S k) (typeNextChar lines s).
Proof.
  intros (Hs & Hc & Hr & Hl). unfold typeNextChar. destruct (lines !! lineIndex s) as [l|] eqn:El.
  - pose proof (remaining_here lines (lineIndex s) l El) as Ht. unfold remaining in Hr.
    destruct (Nat.leb_spec (charIndex s) (String.length (text l))) as [Hle|Hgt];
      unfold typing, remaining; cbn [scrollY prevScrollY cursorX cursorY lineIndex charIndex].
    + split_and!; [done| |lia|rewrite El; lia]. by rewrite Nat.add_1_r.
    + assert (Hci : charIndex s = S (String.length (text l))) by lia.
      rewrite Hci in Hc. cbn [cursorAt] in Hc. rewrite Nat.add_1_r. cbn [cursorAt]. rewrite El.
      split_and!; [done|by rewrite Hc|lia|].
      destruct (lines !! S (lineIndex s)) as [l'|] eqn:El'; [lia|]. split; [|done].
      apply lookup_lt_Some in El. apply lookup_ge_None in El'. lia.
  - unfold typing. rewrite El. split_and!; [done|done| |by destruct Hl..]. rewrite Hr.
    destruct Hl as [Hi H0]. unfold remaining in Hr. rewrite Hi, drop_all in Hr. cbn in Hr. lia.
Qed.

(** The other timers leave the script alone. *)
Lemma typing_fire lines k s t :
  typing lines k s -> typing lines (match t with Type_ => S k | _ => k end) (fire lines s t).
Proof.
  intros H. destruct t as [w| |]; cbn [fire].
  - unfold handleScroll. destruct (negb _); [|done]. by destruct H as (_ & H).
  - done.
  - by apply typing_type.
Qed.

Definition typing_ticks (ts : list Timer) : nat :=
  length (List.filter (fun t => match t with Type_ => true | _ => false end) ts).

Lemma run_typing lines ts : typing lines (typing_ticks ts) (run lines ts).
Proof.
  assert (Hinit : typing lines 0 init).
  { split_and!; [done|done|reflexivity|]. simpl. destruct lines; simpl; [done|lia]. }
  unfold run, typing_ticks. rewrite <- (Nat.add_0_l (length _)). revert Hinit.
  generalize init, 0. induction ts as [|t ts IH]; intros s k Hs; [by rewrite Nat.add_0_r|].
  cbn [fold_left List.filter]. apply (typing_fire _ _ _ t) in Hs.
  destruct t; [by apply IH|by apply IH|]. cbn [length]. rewrite Nat.add_succ_r, <- Nat.add_succ_l. by apply IH.
Qed.

(** All lines are left exactly when no tick remains. *)
Lemma typing_done lines k s : typing lines k s -> (lineIndex s = length lines <-> ticks lines <= k).
Proof.
  intros (_ & _ & Hr & Hl). unfold remaining in Hr. split.
  - intros Hi. rewrite Hi, drop_all in Hr. cbn in Hr. lia.
  - intros Hk. destruct (lines !! lineIndex s) as [l|] eqn:El; [|by destruct Hl].
    rewrite (remaining_here _ _ _ El) in Hr. lia.
Qed.

Lemma substring_all s : String.substring 0 (String.length s) s = s.
Proof. induction s as [|c s IH]; [done|]. simpl. by rewrite IH. Qed.

(** C40. The typing of the script stops and completes it: however the timers of
    the page interleave, the machine leaves the last line with the typing tick
    number [ticks lines] and not before; from then on the typing timer changes
    nothing, every line is shown in full, and the cursor blinks at the end of the
    last one. *)
Theorem typing_terminates lines ts :
  let s := run lines ts in
  (lineIndex s = length lines <-> ticks lines <= typing_ticks ts) /\
  (ticks lines <= typing_ticks ts ->
     typeNextChar lines s = s /\
     (lines <> [] -> S (cursorY s) = length lines) /\
     mapi (shownText s) lines = map text lines).
Proof.
  intros s. pose proof (run_typing lines ts) as H. split; [by apply typing_done|]. intros Hk.
  pose proof (proj2 (typing_done _ _ _ H) Hk) as Hi. destruct H as (_ & Hc & _ & Hl). fold s in Hc, Hi, Hl.
  assert (El : lines !! lineIndex s = None) by (apply lookup_ge_None; lia).
  rewrite El in Hl. destruct Hl as [_ H0]. rewrite H0, Hi in Hc. split; [unfold typeNextChar; by rewrite El|].
  destruct lines as [|l0 lines']; [done|]. set (lines := l0 :: lines') in *.
  destruct (length lines) as [|n] eqn:En; [done|]. cbn [cursorAt] in Hc.
  destruct (lines !! n) as [l|] eqn:Eln; [|apply lookup_ge_None in Eln; lia].
  injection Hc as Hx Hy. split; [intros; lia|]. apply list_eq. intros j. rewrite lookup_mapi, list_lookup_fmap.
  destruct (lines !! j) as [lj|] eqn:Ej; [|done]. cbn. f_equal. unfold shownText. rewrite Hx, Hy.
  destruct (Nat.ltb_spec j n); [done|]. destruct (Nat.eqb_spec j n) as [->|].
  - rewrite Eln in Ej. injection Ej as ->. by rewrite substring_all.
  - apply lookup_lt_Some in Ej. lia.
Qed.

Lemma typing_terminates_witness :
  ticks terminalLines = 196 /\
  mapi (shownText (run terminalLines (repeat Type_ 196))) terminalLines = map text terminalLines.
Proof.
  split; [reflexivity|].
  exact (proj2 (proj2 (proj2 (typing_terminates terminalLines (repeat Type_ 196)) ltac:(vm_compute; lia)))).
Defined.

(** ** What is shown is a beginning of the script *)

Definition script (lines : list Line) : string := String.concat "" (map text lines).

(** Number of characters shown. *)
Definition typed (lines : list Line) (s : State) : nat :=
  sum_list_with (fun l => String.length (text l)) (take (cursorY s) lines) + cursorX s.

Lemma concat_cons t l : String.concat "" (t :: l) = t +:+ String.concat "" l.
Proof. destruct l; [by rewrite append_nil_r|done]. Qed.

Lemma substring_app_le n s t : n <= String.length s -> String.substring 0 n (s +:+ t) = String.substring 0 n s.
Proof.
  revert n. induction s as [|c s IH]; intros [|n] H; simpl in *; try done; try lia.
  - by destruct t.
  - f_equal. apply IH. lia.
Qed.

Lemma substring_app_ge n s t :
  String.substring 0 (String.length s + n) (s +:+ t) = s +:+ String.substring 0 n t.
Proof. induction s as [|c s IH]; [done|]. simpl. by rewrite IH. Qed.

(** The lines from [i] on, when the cursor is in one of them. *)
Lemma shown_from s lines i l :
  i <= cursorY s -> lines !! (cursorY s - i) = Some l -> cursorX s <= String.length (text l) ->
  String.concat "" (mapi_from i (shownText s) lines)
  = String.substring 0 (sum_list_with (fun l => String.length (text l)) (take (cursorY s - i) lines) + cursorX s)
      (script lines).
Proof.
  revert i. unfold script. induction lines as [|a lines IH]; intros i Hi Hl Hx; [done|].
  cbn [mapi_from map]. rewrite !concat_cons. unfold shownText at 1.
  destruct (Nat.ltb_spec i (cursorY s)) as [Hlt|Hge].
  - replace (cursorY s - i) with (S (cursorY s - S i)) in * by lia. cbn [lookup list_lookup] in Hl.
    cbn [take sum_list_with]. rewrite <- Nat.add_assoc, substring_app_ge, (IH (S i)) by (done || lia). done.
  - assert (i = cursorY s) as -> by lia. rewrite Nat.eqb_refl, Nat.sub_diag in *. cbn in Hl. injection Hl as ->.
    cbn [take sum_list_with]. rewrite Nat.add_0_l, substring_app_le by done.
    assert (Hrest : forall k j, cursorY s < k -> String.concat "" (mapi_from k (shownText s) j) = "").
    { clear. intros k j. revert k. induction j as [|b j IHj]; intros k Hk; [done|]. cbn [mapi_from].
      rewrite concat_cons, IHj by lia. unfold shownText. destruct (Nat.ltb_spec k (cursorY s)); [lia|].
      by destruct (Nat.eqb_spec k (cursorY s)); [lia|]. }
    by rewrite Hrest, append_nil_r by lia.
Qed.

Lemma typing_cursor lines k s :
  lines <> [] -> typing lines k s ->
  exists l, lines !! cursorY s = Some l /\ cursorX s <= String.length (text l).
Proof.
  intros Hne (_ & Hc & _ & Hl). unfold cursorAt in Hc.
  destruct (charIndex s) as [|c], (lineIndex s) as [|i]; injection Hc as Hx Hy; rewrite Hx, Hy.
  - destruct lines as [|l lines]; [done|]. exists l. split; [done|lia].
  - assert (Hi : i < length lines).
    { destruct (lines !! S i) eqn:E; [apply lookup_lt_Some in E|destruct Hl as [Hl _]]; lia. }
    apply lookup_lt_is_Some in Hi as [l El]. exists l. by rewrite El.
  - destruct (lines !! 0) as [l|]; [|lia]. exists l. split; [done|lia].
  - destruct (lines !! S i) as [l|]; [|lia]. exists l. split; [done|lia].
Qed.

Lemma typed_step lines k s t :
  typing lines k s -> typed lines s <= typed lines (fire lines s t) <= S (typed lines s).
Proof.
  intros (_ & Hc & _ & Hl). destruct t as [w| |]; cbn [fire].
  - unfold handleScroll, typed. destruct (negb _); simpl; lia.
  - unfold blink, typed. simpl. lia.
  - unfold typeNextChar. destruct (lines !! lineIndex s) as [l|] eqn:El; [|lia].
    destruct (charIndex s <=? _); unfold typed; cbn [cursorX cursorY]; [|lia].
    unfold cursorAt in Hc. destruct (charIndex s) as [|c], (lineIndex s) as [|i]; injection Hc as Hx Hy;
      rewrite Hx, Hy; try lia.
    assert (Hi : i < length lines) by (apply lookup_lt_Some in El; lia).
    apply lookup_lt_is_Some in Hi as [l' El']. rewrite (take_S_r _ _ _ El'), sum_list_with_app, El'. simpl. lia.
Qed.

Lemma terminal_texts lines s : all_texts (terminalView lines s) = mapi (shownText s) lines.
Proof.
  unfold terminalView, mapi, all_texts. generalize 0. induction lines as [|l lines IH]; intros i; [done|].
  cbn [mapi_from flat_map]. rewrite IH. unfold lineView, cursorView, when.
  by destruct (_ && _ && _).
Qed.

(** In every state of the page the cursor is inside the script: its line exists
    and it is at most one past the last character of that line, so the indices of
    the source never leave their ranges.  The text of the terminal is always a
    beginning of the script, no timer takes a character away or adds more than one,
    and a visible cursor is drawn in one line only, the one it is in. *)
Theorem terminal_bounds lines ts :
  lines <> [] ->
  let s := run lines ts in
  (exists l, lines !! cursorY s = Some l /\ cursorX s <= String.length (text l)) /\
  String.concat "" (all_texts (terminalView lines s)) = String.substring 0 (typed lines s) (script lines) /\
  (forall t, typed lines s <= typed lines (fire lines s t) <= S (typed lines s)) /\
  (forall i l, lines !! i = Some l ->
     cursorView s i l = if cursorVisible s && (i =? cursorY s) then [El "span" [] []] else []).
Proof.
  intros Hne s. pose proof (run_typing lines ts) as H. fold s in H.
  destruct (typing_cursor _ _ _ Hne H) as (l & Hl & Hx). split_and!.
  - by exists l.
  - rewrite terminal_texts. unfold mapi. rewrite (shown_from _ _ _ l); rewrite ?Nat.sub_0_r; try done. lia.
  - intros t. by apply (typed_step _ _ _ _ H).
  - intros i l' Hi. unfold cursorView, when. rewrite (andb_comm _ (cursorVisible s)).
    destruct (cursorVisible s); [|done]. destruct (Nat.eqb_spec i (cursorY s)) as [->|]; [|done].
    rewrite Hl in Hi. injection Hi as <-. by apply Nat.leb_le in Hx as ->.
Qed.

Lemma terminal_bounds_witness :
  String.concat "" (all_texts (terminalView terminalLines (run terminalLines [Type_; Blink; Type_; Frame 7; Type_])))
  = "$ ".
Proof.
  refine (eq_trans (proj1 (proj2 (terminal_bounds terminalLines [Type_; Blink; Type_; Frame 7; Type_] _))) _).
  - discriminate.
  - reflexivity.
Defined.

(** The scroll position of the state lags the window by at most five pixels after a
    frame, and is the last one that was taken over. *)
Theorem scroll_tracks lines ts w :
  let s := run lines (ts ++ [Frame w]) in
  scrollY s = prevScrollY s /\ (Qabs (w - scrollY s) <= 5)%Q.
Proof.
  unfold run. rewrite fold_left_app. cbn [fold_left fire]. fold (run lines ts).
  destruct (run_typing lines ts) as (Hs & _). unfold handleScroll.
  destruct (Qle_bool _ 5) eqn:E; cbn [negb scrollY prevScrollY].
  - split; [done|]. rewrite Hs. by apply Qle_bool_iff.
  - split; [done|]. unfold Qminus. rewrite Qplus_opp_r. discriminate.
Qed.

(** Everything the user can do on the page is to go to the namespaces, or to follow
    one of its three links, all of which leave the site. *)
Theorem landing_actions isDarkMode s i :
  all_fires i (view isDarkMode s) = [GetStarted; GetStarted] /\
  all_hrefs (view isDarkMode s) =
    ["https://github.com/apache/kvrocks"; "https://kvrocks.apache.org/docs/";
     "https://github.com/apache/kvrocks-controller"].
Proof.
  assert (Hl : forall k j, flat_map (fires i) (mapi_from k (lineView s) j) = [] /\
                           flat_map hrefs (mapi_from k (lineView s) j) = []).
  { intros k j. revert k. induction j as [|l j IH]; intros k; [done|]. cbn [mapi_from flat_map].
    destruct (IH (S k)) as [-> ->]. rewrite !app_nil_r. unfold lineView, cursorView, when.
    by destruct (_ && _ && _). }
  destruct (Hl 0 terminalLines) as [Hf Hh].
  assert (Ht : fires i (heroTerminal terminalLines s) = [] /\ hrefs (heroTerminal terminalLines s) = []).
  { unfold heroTerminal, terminalView, mapi. generalize dependent (mapi_from 0 (lineView s) terminalLines).
    intros ns Hf Hh. cbn. by rewrite Hf, Hh. }
  destruct Ht as [Htf Hth]. unfold all_fires, all_hrefs, view, heroSection. clear Hf Hh Hl.
  generalize dependent (heroTerminal terminalLines s). intros h Hf Hh.
  by destruct isDarkMode; cbn; rewrite Hf, Hh.
Qed.
