(* ===== verification/Site.v ===== *)
(** * The frame of the site and the shared parts of its pages
    (webui/src/app/layout.tsx, not-found.tsx, ui/footer.tsx, ui/createCard.tsx,
    ui/emptyState.tsx, ui/loadingSpinner.tsx, webui/config.ts, lib/definitions.ts)

    The root layout puts the banner, the breadcrumb and the footer around every
    page.  The cards, the empty state and the spinner are what pages are made of. *)

From S2P Require Import Prelude JsString JsNumber JsValue Effects View Api FormDialog FormCreation.
From S2P Require Import Sidebar Navigation Theme Landing.

(** ** Cards, empty state and spinner *)

Definition CreateCard {Ev} (children : list (node Ev)) : node Ev :=
  El "Box" [] [El "Paper" [] children].

(** A form of the cards, with its properties. *)
Definition formView {Ev} (f : form) : node Ev :=
  match f with
  | NamespaceCreation pos => El "NamespaceCreation" [Attr "position" pos] []
  | ClusterCreation pos ns _ => El "ClusterCreation" [Attr "position" pos; Attr "namespace" ns] []
  | ShardCreation pos ns c _ =>
      El "ShardCreation" [Attr "position" pos; Attr "namespace" ns; Attr "cluster" c] []
  | ImportCluster pos ns _ => El "ImportCluster" [Attr "position" pos; Attr "namespace" ns] []
  | MigrateSlot pos ns c => El "MigrateSlot" [Attr "position" pos; Attr "namespace" ns; Attr "cluster" c] []
  | NodeCreation pos ns c sh _ =>
      El "NodeCreation" [Attr "position" pos; Attr "namespace" ns; Attr "cluster" c; Attr "shard" sh] []
  end.

Definition plusIcon {Ev} : node Ev := El "FontAwesomeIcon" [Attr "icon" "faCirclePlus"] [].

Definition AddClusterCard {Ev} (namespace : string) : node Ev :=
  CreateCard
    [El "div" []
       [plusIcon;
        El "div" []
          [El "div" [] [formView (ClusterCreation "card" namespace None)];
           El "div" [] [formView (ImportCluster "card" namespace None)]]]].

Definition AddShardCard {Ev} (namespace cluster : string) : node Ev :=
  CreateCard
    [El "div" []
       [plusIcon;
        El "div" []
          [formView (ShardCreation "card" namespace cluster None);
           formView (MigrateSlot "card" namespace cluster)]]].

Definition AddNodeCard {Ev} (namespace cluster shard : string) : node Ev :=
  CreateCard
    [El "div" [] [plusIcon; El "div" [] [formView (NodeCreation "card" namespace cluster shard None)]]].

(** [x && ...] and [x || ...] on an optional string: the empty one counts as missing. *)
Definition truthy_str (o : option string) : option string :=
  match o with Some t => if String.eqb t "" then None else Some t | None => None end.

Record Tag := MkTag { tag_label : string; tag_color : option string }.

Definition tagView {Ev} (i : nat) (t : Tag) : node Ev :=
  El "Chip" [Attr "key" (nat_to_string i); Attr "color" (default "default" (truthy_str (tag_color t)))]
    [Text (tag_label t)].

Definition ResourceCard {Ev} (title : string) (description : option string) (tags : option (list Tag))
    (children : list (node Ev)) : node Ev :=
  CreateCard
    [El "div" []
       ([El "div" [] [Text title]] ++
        match truthy_str description with Some d => [El "div" [] [Text d]] | None => [] end ++
        [El "div" [] children] ++
        match tags with
        | Some ts => when (0 <? length ts)%nat [El "div" [] (mapi tagView ts)]
        | None => []
        end)].

Definition EmptyState {Ev} (title description : string) (icon : option (node Ev)) (action : option (string * Ev)) :
    node Ev :=
  El "Paper" []
    (match icon with Some i => [El "Box" [] [i]] | None => [] end ++
     [El "Typography" [] [Text title]; El "Typography" [] [Text description]] ++
     match action with Some (label, onClick) => [El "Button" [OnClick onClick] [Text label]] | None => [] end).

Inductive spinner_size := Small | Medium | Large.

Definition spinnerSize (size : spinner_size) : Z :=
  match size with Small => 24 | Medium => 40 | Large => 60 end.

(** The default properties are the message Loading..., medium, not full screen. *)
Definition LoadingSpinner {Ev} (message : option string) (size : option spinner_size) (fullScreen : option bool) :
    node Ev :=
  let message := default "Loading..." message in
  let full := default false fullScreen in
  El "Fade" []
    [El "Box" [Attr "height" (if full then "100vh" else "100%"); Attr "minHeight" (if full then "100vh" else "300px")]
       (El "CircularProgress" [Attr "size" (Z_to_string (spinnerSize (default Medium size)))] [] ::
        when (negb (String.eqb message "")) [El "Typography" [] [Text message]])].

(** ** Footer *)

Record footerColumnItem := MkColumnItem { label : string; to : option string; href : option string }.
Record footerColumn := MkColumn { title : string; items : list footerColumnItem }.
Record footerLogo := MkLogo { height : Z; width : Z; alt : string; src : string; logo_href : string }.
Record footerConfigType := MkConfig { config_links : list footerColumn; logo : footerLogo; copyright : string }.

Definition internal (l t : string) : footerColumnItem := MkColumnItem l (Some t) None.
Definition external_item (l h : string) : footerColumnItem := MkColumnItem l None (Some h).

Definition footerConfig : footerConfigType :=
  MkConfig
    [MkColumn "Docs"
       [internal "Getting started" "/docs/getting-started";
        internal "Supported commands" "/docs/supported-commands";
        internal "How to contribute" "/community/contributing"];
     MkColumn "Community"
       [external_item "Zulip" "https://kvrocks.zulipchat.com/";
        external_item "Issue Tracker" "https://github.com/apache/kvrocks-controller/issues";
        external_item "Mailing list" "https://lists.apache.org/list.html?dev@kvrocks.apache.org"];
     MkColumn "Repositories"
       [external_item "Kvrocks" "https://github.com/apache/kvrocks";
        external_item "Website" "https://github.com/apache/kvrocks-website";
        external_item "Controller" "https://github.com/apache/kvrocks-controller"]]
    (MkLogo 128 320 "Apache logo" "/asf_logo.svg" "https://www.apache.org/")
    "The Apache Software Foundation. Apache Kvrocks, Kvrocks, and its feather logo are trademarks of The Apache Software Foundation. Redis and its cube logo are registered trademarks of Redis Ltd.".

Definition newTab {Ev} : list (attr Ev) := [Attr "target" "_blank"; Attr "rel" "noopener noreferrer"].

Definition FooterLink {Ev} (item : footerColumnItem) : node Ev :=
  let h := truthy_str (href item) in
  El "li" []
    [El "Link"
       (Href (default (default "/" (truthy_str (to item))) h) :: match h with Some _ => newTab | None => [] end)
       (El "span" [] [Text (label item); El "span" [] []] ::
        match h with Some _ => [El "LaunchIcon" [] []] | None => [] end)].

Definition FooterColumn {Ev} (column : footerColumn) : node Ev :=
  El "div" []
    [El "Typography" [] [Text (title column); El "div" [] []]; El "ul" [] (map FooterLink (items column))].

Definition socialLinks : list (string * string * string) :=
  [("GitHubIcon", "https://github.com/apache", "GitHub"); ("TwitterIcon", "https://x.com/TheASF", "Twitter");
   ("LinkedInIcon", "https://www.linkedin.com/company/the-apache-software-foundation/", "LinkedIn")].

Inductive FooterEvent := ScrollToTop.

(** [window.scrollTo({ top: 0 })]: the position of the window after it. *)
Definition scrollToTop (top : Z) : Z := 0.

Definition socialView (l : string * string * string) : node FooterEvent :=
  El "IconButton" (Href (snd (fst l)) :: newTab ++ [Attr "aria-label" (snd l)]) [El (fst (fst l)) [] []].

Definition footerTop : node FooterEvent :=
  El "Grid" []
    [El "Grid" []
       [El "Link" [Href "/"]
          [El "Image" [Attr "src" "/logo.svg"; Attr "alt" "Apache Kvrocks"] [];
           El "Typography" [] [Text "Apache Kvrocks"]; El "Typography" [] [Text "Controller"]];
        El "Typography" []
          [Text "A distributed key-value NoSQL database that uses RocksDB as storage engine and is compatible with Redis protocol."];
        El "div" [] (map socialView socialLinks)];
     El "Grid" []
       [El "Grid" [] (map (fun c => El "Grid" [Attr "key" (title c)] [FooterColumn c]) (config_links footerConfig))]].

(** [year] is [new Date().getFullYear()]. *)
Definition footerBottom (year : Z) : node FooterEvent :=
  El "div" []
    [El "Link" (Href (logo_href (logo footerConfig)) :: newTab)
       [El "Image" [Attr "src" (src (logo footerConfig)); Attr "alt" (alt (logo footerConfig))] [];
        El "Typography" [] [Text "An Apache Software Foundation Project"]];
     El "div" []
       [El "Typography" [] [Text ("Copyright © " +:+ Z_to_string year +:+ " " +:+ copyright footerConfig)];
        El "IconButton" [OnClick ScrollToTop; Attr "aria-label" "Scroll to top"] [El "ArrowUpwardIcon" [] []]]].

Definition Footer (year : Z) : node FooterEvent :=
  El "footer" [] [El "Container" [] [footerTop; footerBottom year]].

(** ** Page not found *)

Inductive NotFoundEvent := GoBack.

Definition notFound_update (e : NotFoundEvent) : prog unit unit := match e with GoBack => emit OBack end.

Definition NotFound : list (node NotFoundEvent) :=
  [El "div" []
     [El "Box" []
        [El "ErrorOutlineIcon" [] [];
         El "Typography" [] [Text "Page Not Found"];
         El "Typography" []
           [Text "We couldn't find the page you're looking for. It might have been moved, deleted, or never existed."];
         El "div" []
           [El "Button" [Href "/"] [El "HomeIcon" [] []; Text "Go to Home"];
            El "Button" [OnClick GoBack] [El "ArrowBackIcon" [] []; Text "Go Back"]]]]].

(** ** Root layout *)

(** A view inside a larger component: its events are wrapped. *)
Definition relabel_attr {A B} (g : A -> B) (a : attr A) : attr B :=
  match a with
  | OnClick e => OnClick (g e)
  | OnClose e => OnClose (g e)
  | OnSubmit f => OnSubmit (fun x => g (f x))
  | OnValues f => OnValues (fun x => g (f x))
  | OnInput f => OnInput (fun x => g (f x))
  | OnToggle f => OnToggle (fun x => g (f x))
  | OnPick f => OnPick (fun x => g (f x))
  | OnMouse f => OnMouse (fun x => g (f x))
  | Disabled b => Disabled b
  | Open b => Open b
  | Href u => Href u
  | Value s => Value s
  | Attr n v => Attr n v
  end.

Fixpoint relabel {A B} (g : A -> B) (n : node A) : node B :=
  match n with
  | Text s => Text s
  | El tag attrs kids => El tag (map (relabel_attr g) attrs) (map (relabel g) kids)
  end.

Inductive SiteEvent (P : Type) :=
| OfBanner (e : Theme.Event)
| OfCrumb (e : unit)
| OfFooter (e : FooterEvent)
| OfPage (e : P).
Arguments OfBanner {P} _.
Arguments OfCrumb {P} _.
Arguments OfFooter {P} _.
Arguments OfPage {P} _.

(** [pathname] is the address, [crumbs] the state of the breadcrumb, [theme] of the
    provider and the banner. *)
Definition RootLayout {P} (pathname : string) (theme : Theme.State) (crumbs : Navigation.State) (year : Z)
    (children : list (node P)) : node (SiteEvent P) :=
  El "html" [Attr "lang" "en"]
    [El "body" []
       [El "ThemeProvider" []
          (map (relabel OfBanner) (bannerView pathname theme) ++
           [El "Container" []
              (map (relabel OfCrumb) (Navigation.view pathname crumbs) ++
               map (relabel OfPage) children ++ [relabel OfFooter (Footer year)])])]].

(** ** The pages of the site

    One constructor for every page file below webui/src/app, with the parameters of
    its directory; the layouts of the directories between them render their children
    as they are. *)
Inductive page :=
| HomePage
| NamespacesPage
| NamespacePage (namespace : string)
| ClusterPage (namespace cluster : string)
| ShardPage (namespace cluster shard : string)
| NodePage (namespace cluster shard node : string).

Definition segments (p : page) : list string :=
  match p with
  | HomePage => []
  | NamespacesPage => ["namespaces"]
  | NamespacePage n => ["namespaces"; n]
  | ClusterPage n c => ["namespaces"; n; "clusters"; c]
  | ShardPage n c s => ["namespaces"; n; "clusters"; c; "shards"; s]
  | NodePage n c s k => ["namespaces"; n; "clusters"; c; "shards"; s; "nodes"; k]
  end.

Definition address (p : page) : string := String "/" (join "/" (segments p)).

(** A parameter is one segment of the address. *)
Definition valid (p : page) : Prop := Forall (fun t => path_name t = true) (segments p).

(** ** Links *)

Definition blank {Ev} (attrs : list (attr Ev)) : bool :=
  existsb (fun a => match a with Attr n v => String.eqb n "target" && String.eqb v "_blank" | _ => false end) attrs.

(** The links of a view, and whether each opens in a new tab. *)
Fixpoint links_of {Ev} (n : node Ev) : list (string * bool) :=
  match n with
  | Text _ => []
  | El _ attrs kids =>
      if shown attrs
      then omap (fun a => match a with Href u => Some (u, blank attrs) | _ => None end) attrs ++
           flat_map links_of kids
      else []
  end.

Definition external (u : string) : bool := startsWith u "https://".

(** A link leaves the site in a new tab, or stays on it and leads to a page. *)
Definition link_ok (l : string * bool) : Prop :=
  if external (fst l) then snd l = true
  else snd l = false /\ exists q, valid q /\ fst l = address q.

(** The links of the column Docs of the footer. *)
Definition docs_links : list (string * bool) :=
  [("/docs/getting-started", false); ("/docs/supported-commands", false); ("/community/contributing", false)].

Lemma shown_relabel {A B} (g : A -> B) attrs : shown (map (relabel_attr g) attrs) = shown attrs.
Proof. induction attrs as [|a attrs IH]; [done|]. unfold shown in *. destruct a; simpl; by rewrite IH. Qed.

Lemma blank_relabel {A B} (g : A -> B) attrs : blank (map (relabel_attr g) attrs) = blank attrs.
Proof. induction attrs as [|a attrs IH]; [done|]. unfold blank in *. destruct a; simpl; by rewrite IH. Qed.

(** Wrapping the events of a view leaves its links. *)
Fixpoint links_relabel {A B} (g : A -> B) (n : node A) {struct n} : links_of (relabel g n) = links_of n.
Proof.
  destruct n as [t|tag attrs kids]; [done|]. cbn [relabel links_of]. rewrite shown_relabel.
  destruct (shown attrs); [|done]. f_equal.
  - rewrite blank_relabel. generalize (blank attrs). clear. intros b.
    induction attrs as [|a attrs IH]; [done|]. destruct a; cbn; first [exact IH | by f_equal].
  - induction kids as [|k kids IH]; [done|]. cbn [map flat_map]. by rewrite links_relabel, IH.
Qed.

Lemma flat_links_relabel {A B} (g : A -> B) ns : flat_map links_of (map (relabel g) ns) = flat_map links_of ns.
Proof. induction ns as [|n ns IH]; [done|]. cbn [map flat_map]. by rewrite links_relabel, IH. Qed.

(** ** Every link of the frame leads somewhere *)

(** The part of the address that ends with a segment is a page, unless the segment is
    one of the words between the parameters. *)
Lemma prefix_page p i t :
  valid p -> segments p !! i = Some t ->
  plain_word t = true \/ exists q, valid q /\ take (i + 1) (segments p) = segments q.
Proof.
  intros Hp Hi. assert (Hpre : forall q, take (i + 1) (segments p) = segments q -> valid q).
  { intros q Hq. unfold valid. rewrite <- Hq. by apply Forall_take. }
  destruct p as [| |n|n c|n c s|n c s k]; do 8 (try (destruct i as [|i]; [try discriminate Hi; injection Hi as <-|])); try discriminate Hi;
    first [ by left
          | right; exists NamespacesPage; by split; [apply Hpre|]
          | right; exists (NamespacePage n); by split; [apply Hpre|]
          | right; exists (ClusterPage n c); by split; [apply Hpre|]
          | right; exists (ShardPage n c s); by split; [apply Hpre|]
          | right; exists (NodePage n c s k); by split; [apply Hpre|] ].
Qed.

Lemma crumb_links it :
  links_of (itemView it) = if isLast it || plain_word (name it) then [] else [(url it, false)].
Proof.
  unfold itemView, plain_word. destruct (isLast it); [by destruct (icon it), (isNumeric it)|].
  destruct (_ || _); by destruct (icon it).
Qed.

Lemma external_slash t : external (String "/" t) = false.
Proof. done. Qed.

Lemma page_link_ok q : valid q -> link_ok (address q, false).
Proof. intros Hq. unfold link_ok, address. cbn [fst snd]. rewrite external_slash. split; [done|]. by exists q. Qed.

(** The breadcrumb of a page links to pages only. *)
Lemma breadcrumb_ok f answer p s :
  valid p ->
  Forall link_ok (flat_map links_of
    (Navigation.view (address p) (exec f answer (onPathname (address p)) s))).
Proof.
  intros Hp. destruct (decide (segments p = [])) as [E|E].
  { unfold address. rewrite E. constructor. }
  unfold address at 2. rewrite onPathname_exec by done. unfold Navigation.view. destruct (_ || _); [constructor|].
  cbn [flat_map breadcrumbItems]. rewrite app_nil_r. cbn -[itemView mapi]. constructor.
  { apply (page_link_ok HomePage). constructor. }
  apply Forall_forall. intros l Hl. rewrite list_elem_of_In in Hl. apply in_flat_map in Hl as (n & Hn & Hl).
  apply in_map_iff in Hn as (it & <- & Hit). apply list_elem_of_In, list_elem_of_lookup in Hit as (i & Hit).
  rewrite lookup_mapi in Hit. destruct (segments p !! i) as [t|] eqn:Et; [|done]. injection Hit as <-.
  rewrite crumb_links in Hl. destruct (isLast _ || plain_word _) eqn:Ep; [done|].
  destruct Hl as [<-|[]]. apply orb_false_iff in Ep as [_ Ep]. cbn [name breadcrumbItem url] in *.
  destruct (prefix_page p i t Hp Et) as [Hw|(q & Hq & Ht)]; [congruence|].
  rewrite Ht. by apply page_link_ok.
Qed.

Lemma namespaces_valid : valid NamespacesPage.
Proof. by repeat constructor. Qed.

Lemma banner_ok pathname theme : Forall link_ok (flat_map links_of (bannerView pathname theme)).
Proof.
  cbn -[link_ok]. destruct (isDarkMode theme); repeat constructor;
    first [ by apply (page_link_ok HomePage); constructor
          | by apply (page_link_ok NamespacesPage), namespaces_valid
          | done ].
Qed.

Lemma footer_links year :
  exists l r, links_of (Footer year) = l ++ docs_links ++ r /\ Forall link_ok l /\ Forall link_ok r.
Proof.
  exists (take 4 (links_of (Footer year))), (drop 7 (links_of (Footer year))). split_and!; [reflexivity| |].
  - cbn -[link_ok]. repeat constructor; try done. apply (page_link_ok HomePage). constructor.
  - cbn -[link_ok]. repeat constructor; done.
Qed.

(** No link around a page of the site is broken, with one exception.  At the
    address of any page, once the breadcrumb has been computed, every link of the
    banner, the breadcrumb and the footer either leaves the site and opens in a
    new tab, or stays in the tab and is the address of a page of the site, provided
    the links of the page itself are like that.  The exception are the three links
    of the footer column Docs: they are in the layout of every page, are relative
    to this site, and no page of it has their address, so they show the page for
    missing pages. *)
Theorem site_links {P} f answer p crumbs theme year (children : list (node P)) :
  valid p -> Forall link_ok (flat_map links_of children) ->
  let s := exec f answer (onPathname (address p)) crumbs in
  let links := links_of (RootLayout (address p) theme s year children) in
  Forall (fun l => link_ok l \/ l ∈ docs_links) links /\
  (forall l, l ∈ docs_links -> l ∈ links /\ forall q, fst l <> address q).
Proof.
  intros Hp Hc s links. destruct (footer_links year) as (fl & fr & Hf & Hl & Hr).
  assert (Hlinks : links =
    flat_map links_of (bannerView (address p) theme) ++ flat_map links_of (Navigation.view (address p) s) ++
    flat_map links_of children ++ fl ++ docs_links ++ fr).
  { unfold links, RootLayout. cbn [links_of shown forallb omap list_omap flat_map]. cbn [app].
    rewrite !app_nil_r, flat_map_app, flat_links_relabel. cbn [flat_map links_of shown forallb omap list_omap app].
    by rewrite app_nil_r, !flat_map_app, !flat_links_relabel; cbn [flat_map]; rewrite links_relabel, app_nil_r, Hf. }
  rewrite Hlinks. split.
  - assert (Hok : forall l, Forall link_ok l -> Forall (fun l => link_ok l \/ l ∈ docs_links) l).
    { intros l H. eapply Forall_impl; [exact H|]. by left. }
    rewrite !Forall_app. split_and!; try (by apply Hok).
    + apply Hok, banner_ok.
    + by apply Hok, breadcrumb_ok.
    + apply Forall_forall. by right.
  - intros l H. split; [set_solver|]. intros q. rewrite list_elem_of_In in H.
    destruct H as [<-|[<-|[<-|[]]]]; by destruct q.
Qed.

Lemma site_links_witness :
  Forall (fun l => link_ok l \/ l ∈ docs_links)
    (links_of (RootLayout "/" (load None true) (exec demo_server (fun _ => true) (onPathname "/") Navigation.init) 2025
       (Landing.view true (run terminalLines [Type_; Type_])))).
Proof.
  refine (proj1 (site_links demo_server (fun _ => true) HomePage Navigation.init (load None true) 2025
    (Landing.view true (run terminalLines [Type_; Type_])) _ _)).
  - constructor.
  - vm_compute. repeat constructor.
Defined.
